(* ===== verification/_CoqProject ===== *)
-Q . S2P
Prelude.v
Text.v
Json.v
Containers.v
IpAddress.v
InterfaceConfig.v
Qt.v
DaemonConfig.v
Daemon.v
Wire.v
ProtocolConfigs.v
XrayConfig.v
LocalSocketController.v
DaemonConnection.v
LinuxFirewall.v
MacOSFirewall.v
KillSwitch.v
WindowsFirewall.v
LinuxRouteMonitor.v
WindowsRouteMonitor.v
NetworkUtilities.v
ServerConfig.v
Settings.v
ServersRepository.v
ServersController.v
AppSettings.v
SplitTunneling.v
WireguardUtilsLinux.v
WireguardUtilsWindows.v
VpnProtocol.v
OpenVpnProtocol.v
XrayProtocol.v
VpnConnection.v
ConnectionProtocols.v
ConnectionSites.v
Links.v
ImportController.v
Scripts.v
SshSession.v
UsersController.v
Configurators.v
XrayConfigurator.v
OpenVpnConfigurator.v
ConfiguratorBase.v
ExportController.v
ConnectionController.v
XrayInstaller.v
Installers.v
InstallController.v
WindowsSplitTunnel.v
