(* ===== verification/Prelude.v ===== *)
(** * AbstractumVPN: the tunnel, its daemon, its kill switch and its servers

    AbstractumVPN is a Qt client that asks a privileged daemon for a WireGuard
    tunnel over a local socket.  The daemon configures the tunnel, counts the
    routes that bypass it, watches it, and on failure hands over to the client;
    a kill switch keeps traffic from leaving outside the tunnel.  This library
    models that path, from the client's request to the bytes of the kernel's
    route messages and the chains of its packet filter, and what the client
    keeps: its servers with their protocols' settings, the user's choices, and
    the encrypted store under them:

      application configuration
        -> [LocalSocketController] (client end of the socket)
        -> [Wire] (lines of JSON over a stream)
        -> [DaemonConnection] (daemon end) -> [DaemonConfig] (request parsing)
        -> [Daemon] (activation, exclusions, handshake, watchdog)
        -> [WireguardUtilsLinux] (tunnel process, peers) -> [LinuxRouteMonitor]
                                                         -> [LinuxFirewall]
      service requests -> [KillSwitch] -> [LinuxFirewall], [MacOSFirewall] or
                                          [WindowsFirewall]

      [ServersController] -> [ServersRepository] --+
                    [ServerConfig] over            |
                    [ProtocolConfigs], [XrayConfig]+-> [Settings]
      [Links] -> [ImportController] -> [ServersRepository]
      [ConnectionController] -> [ServersRepository], [VpnConnection]
      [XrayInstaller], [UsersController] -> [SshSession]
      [InstallController] -> [Installers], [ConfiguratorBase], [ServersRepository]
      [ExportController] -> [ConfiguratorBase] --+
                            one of [Configurators], [XrayConfigurator],
                            [OpenVpnConfigurator]
                                                 +-> [SshSession] (files and commands
      [UsersController] -------------------------+     on a server)
            |                                    +-> [Scripts] (what is run there)
            +-----------> [ServersRepository]
      [SplitTunneling] -> [AppSettings] -----------+
                                                   |
      [VpnConnection] reads them, owns one of ------+
        [VpnProtocol] (WireGuard, over [LocalSocketController]),
        [OpenVpnProtocol], [XrayProtocol]   -> the privileged service

    ** Files

    - [Prelude] (this file): a state monad and its loops, the framework
      [steps R m] ("running [m] moves along the preorder [R]") that carries
      invariants through programs, postconditions [leads m s Q], sorted iteration of maps, bit lemmas.
    - [Text], [Json], [Qt]: the string, JSON and address services of Qt the
      source uses.  What can be defined from Qt's documentation is a definition;
      parsing and printing of addresses and numbers is the class [Qt], with a
      concrete instance [plain_qt].
    - [IpAddress]: [client/mozilla/shared/ipaddress.cpp].  Theorems: [contains],
      the masks, [overlaps]/[subnetOf] against arithmetic on address blocks; the
      subtraction of subnets terminates and is exact on canonical subnets, and
      diverges on an address with host bits.
    - [InterfaceConfig]: [client/daemon/interfaceconfig.cpp], its JSON form and
      the configuration file, with what the validation keeps out of it.
    - [DaemonConfig]: [Daemon::parseConfig] of [client/daemon/daemon.cpp]:
      exactly which requests are accepted, and what they give.
    - [Daemon]: the rest of [daemon.cpp].  The platform is the class [Platform];
      every call, its answer and every signal is an event of the daemon's log,
      and an answer may depend on all of them.  Theorems: the two outcomes of an
      activation, its termination, agreement of exclusion routes with the
      counted ones over any run, release on deactivation, handshake poll,
      watchdog (gives a dead tunnel up, leaves a live one alone).
    - [Wire]: both read loops and the writer of the socket.
    - [LocalSocketController]: [client/mozilla/localsocketcontroller.cpp].
    - [DaemonConnection]: [client/daemon/daemonlocalserverconnection.cpp], over
      [Daemon] and against [LocalSocketController].
    - [LinuxFirewall]: [client/platforms/linux/daemon/linuxfirewall.cpp].  A
      command is a constructor whose text is [shell]; running it is the class
      [Iptables], whose laws ([iptables_laws]) say how the documented commands
      change the chains.  The specification is a [policy]: ordered anchors, on
      or off.  Theorems: any sequence of operations refines the policy, which
      decides every packet; installing and removing restores OUTPUT.
    - [MacOSFirewall]: [client/platforms/macos/daemon/macosfirewall.cpp], as the
      scripts it runs.
    - [KillSwitch]: [service/server/killswitch.cpp] on the three platforms.
      Theorems (Linux): the firewall stays sound over any requests; the strict
      mode rejects all but loopback after a connection and at the start of the
      service; a full tunnel does not leak; the block of listed sites is never
      enabled.
    - [WindowsFirewall]: [client/platforms/windows/daemon/windowsfirewall.cpp],
      its filters down to their conditions, layers and weights.  The filters that
      match decide by weight ([blocked], [permitted]).  Theorems: a connection
      does not leak; the strict mode; no filter is forgotten, over any calls and
      any failures, but those the engine was asked to delete and did not.
    - [LinuxRouteMonitor]: [client/platforms/linux/daemon/linuxroutemonitor.cpp]
      down to the bytes of the netlink messages; the reference is a reader of
      such messages.
    - [WindowsRouteMonitor]: [client/platforms/windows/daemon/windowsroutemonitor.cpp]
      on the rows of the system's table.  Theorems: excluded destinations follow
      the longest prefix and then the lowest metric, and exactly the right routes
      are captured, in the system's table and not only in the monitor's; no route
      is left behind but those the system refused to delete.
    - [WindowsSplitTunnel]: [client/platforms/windows/daemon/windowssplittunnel.cpp],
      [windowsdaemon.cpp] and the service manager.  Theorems: exactly when
      applications are outside the tunnel (a dialogue with the driver, as a
      relation); the driver reads what is written in its buffers.
    - [WireguardUtilsWindows]: [client/platforms/windows/daemon/wireguardutilswindows.cpp]
      and [windowstunnelservice.cpp], over the two above.  Theorem: a connection
      set up with the kill switch is protected, when the engine refuses nothing.
    - [WireguardUtilsLinux]: [client/platforms/linux/daemon/wireguardutilslinux.cpp]:
      the kill switch of a connection, the peers read from the UAPI, the halves
      of the default route, and that deleting a route inserts it.

    - [NetworkUtilities]: [client/core/utils/networkUtilities.cpp].  Patterns
      are regular expressions matched by derivatives, with their languages as
      the specification; the reader of the kernel's routes on bytes.
    - [Containers]: the tables of [core/utils/containers/containerUtils.cpp] and
      [core/protocols/protocolUtils.cpp]; names are read back.
    - [ProtocolConfigs], [XrayConfig]: [core/models/protocols/*.cpp], the stored
      settings of eleven protocols.  The class [Config] is a JSON form,
      [ConfigLaws] and [ServerLaws] what it promises: settings are read back,
      and comparisons decide equality of what they compare.
    - [ServerConfig]: [core/models/*.cpp], [core/models/selfhosted/*.cpp] and
      [core/utils/serverConfigUtils.cpp].  Theorems: servers are read back;
      saving keeps a server's kind.
    - [Settings]: [client/secureQSettings.cpp] and the cipher calls of
      [common/crypto/cryptoUtils.cpp].  The specification is a map of settings
      ([promised]); the store answers as it does, through encryption, cache and
      restarts, after which a value has the form in which the platform's storage
      gives it ([reload]); a backup is restored.  The class [Store] with [StoreLaws] is
      what the clients below use; the secure store and the plain map are its
      instances.
    - [ServersRepository]: [core/repositories/secureServersRepository.cpp]: the
      invariant of the list, adding, editing and removing, restarts, the next
      free name.  [ServersController]: [core/controllers/serversController.cpp].
    - [AppSettings]: [core/repositories/secureAppSettingsRepository.cpp].
    - [SplitTunneling]: [core/controllers/ipSplitTunnelingController.cpp],
      [appSplitTunnelingController.cpp] and [allowedDnsController.cpp]: the lists
      shown are the stored ones under any sequence of events.
    - [VpnProtocol]: [client/core/protocols/vpnProtocol.cpp], the state every
      protocol keeps and the calls of the service ([Service]), and
      [wireGuardProtocol.cpp].  [OpenVpnProtocol]: [openVpnProtocol.cpp] and
      [core/utils/managementServer.cpp].  [XrayProtocol]: [xrayProtocol.cpp] and
      [core/utils/serialization/inbound.cpp]; the proxy asks for the password
      the client uses.
    - [VpnConnection]: [client/vpnConnection.cpp] over the class [Protocol].  The
      abstract machine of retries ([machine], [enter], [retry]) is what every
      operation is shown to refine ([setConnectionState_moved],
      [reconnect_spec]).
    - [ConnectionProtocols]: the three protocols as instances of [Protocol].
      Theorems: a user's disconnection lasts; an error is final, because the
      timer of the retries lives in another thread; a retry disables the kill
      switch.
    - [ConnectionSites]: the split sites, from the settings to the request.
    - [Links]: [core/utils/serialization/*.cpp], the links of other clients, on
      paths into documents; a VLESS link of a server is read back.
    - [ImportController]: [core/controllers/selfhosted/importController.cpp] and
      [core/utils/qrCodeUtils.cpp], over [Links] and [ServersRepository].
      Theorems: what is imported becomes a server; series of codes in any order;
      which WireGuard texts are accepted and what is kept of them; scripts are
      announced; links are never refused.
    - [Scripts]: [core/utils/selfhosted/scriptsRegistry.cpp] and the replacement
      of variables, which is one replacement of all at once.
    - [SshSession]: [core/utils/selfhosted/sshClient.cpp] and [sshSession.cpp].
      A script is the sequence of its commands; the files of containers are a
      map ([view]), of a server with the laws [Server].
    - [UsersController]: [core/controllers/selfhosted/usersController.cpp], on
      such a server: what a revocation, an added client and the first listing
      leave in the container, in memory and in the tunnel.
    - [Configurators]: [core/configurators/configuratorBase.cpp],
      [wireguardConfigurator.cpp] and [awgConfigurator.cpp]: the address, the
      keys and the peer of a new client.  [XrayConfigurator]: the transport of
      both sides, the clients of a server's document.  [OpenVpnConfigurator]:
      certificates, and the gateway before a connection; IKEv2 with it.
      [ConfiguratorBase] chooses among them.
    - [XrayInstaller]: [core/installers/xrayInstaller.cpp], what a scan makes of
      a server's document, against the one [XrayConfigurator] writes.
    - [Installers]: [core/installers/], the first settings of every container,
      with the numbers AmneziaWG draws ([awg_parameters_generated]: the draws
      come to an end), and what is read from a running one
      ([awg_settings_scanned]).
    - [InstallController]: [core/controllers/selfhosted/installController.cpp],
      setting up, changing, removing and finding containers: what fails is not
      recorded ([failures_change_nothing]), what is done is
      ([container_removed], [scan_adds_unknown]), and what is only saved needs
      no work on the server ([saved_settings_in_force]).
    - [ConnectionController]: [core/controllers/connectionController.cpp], which
      servers are connected to and with which request.
    - [ExportController]: [core/controllers/selfhosted/exportController.cpp].
      Theorems: full access given as a link is the same server where it is
      imported; a shared connection has no credentials.

    ** Conventions

    A handler is a state transformer in [stM]; an early return is a branch.
    A [QString] that may be null is a [qstring].  Integers are [Z]; where the
    code truncates (bytes of a message, the 8-bit prefix length, [int] results
    of JSON numbers) the truncation is written out.  Byte and transfer counters
    and times are not wrapped: they stay far below 2^63.

    Loops that are not structural carry fuel, and a theorem says it is enough:
    129 splits for subtracting a subnet ([exclude_fuel], one per bit of an IPv6
    prefix and one more), the length of the buffer for the read loops, one
    recursive call of [activate], three rounds for padding a UAPI message, one more
    turn than there are names for the next free one of a server, one
    turn more than a text has bytes for the series of its codes, the length of a
    message for the attributes of a route, 100 draws of a management port (the
    code's own bound), one turn more than there are lines on OpenVPN's management
    socket, the length of a file for the pieces it is copied in, three readings
    of a key file (the code's own bound), the length of a text for the matches
    dropped from it, as many draws as it takes for AmneziaWG's parameters ([settles]:
    there is a number of them that is enough).  The
    packet walk [traverse] has depth 4: OUTPUT, root, anchor, rules.

    ** Interfaces and their laws

    [Qt], [Platform], [Iptables], [Bash], [WinFirewall], [Netlink], [Tunnel],
    [Conversions] and [JsonCodec] stand for Qt, the platform utilities, bash
    with iptables and pfctl, WindowsFirewall, the netlink socket, the tunnel
    process and its UAPI socket; [Wfp] for the filter engine of Windows, with
    [WfpView], [WfpLaws] and [Leftovers] (and [WfpAccepts], an engine that
    refuses nothing), [TunnelService] for its tunnel service, which leaves the
    filters alone ([Apart]), [IpHelper] for its routes, with [RouteView] and
    [RouteLaws], [Kernel] for its services, its processes and the driver of the
    split tunnel; [Service] for the answers of the privileged
    service to the protocols; [System] for the keychain, the cipher and the
    serialization of values (with [SystemLaws]), [ArrayPrinter] for printed
    arrays; [LinkCodec] for URLs and base64, [ImportCodec] for the texts of
    codes, decompression, the printer of documents and regular expressions;
    [Resources] for the scripts' texts; [Libssh] for a session of libssh, with
    [Server], [TunnelServer] and [ShellServer] for what commands of a shell,
    docker, wg and grep do; [UsersCodec] for a printer and the clock;
    [ClientKeys] for the keys of a new client, with [KeyLaws]; [CertRequests] for
    OpenSSL's requests, with [CertLaws], and [EasyRsa] for what signs them;
    [Dice] for QRandomGenerator, with [DiceLaws]; [Uuids] with [UuidLaws]; [RestartServer] for a container started again;
    [JsonPrinter] for documents on several lines; [Compressor] for [qCompress].
    Theorems take their documented behaviour as
    hypotheses ([sort_laws], [iptables_laws], [packet_laws], [netlink_laws],
    [half_laws], [conversion_laws], [tunnel_laws], [link_laws],
    [qr_law], [ip_laws], [KeyLaws], [Server],
    [TunnelServer], [ShellServer], [transfer_laws], [document_laws]), and every theorem with such
    hypotheses is applied at a concrete instance next to it.  The iptables laws
    cover commands whose rule text bash takes literally ([plain]); the source
    does not quote it.

    ** Not modelled

    The graphical client (QML, its models and controllers), the check of a
    connection with its dialogue that decrypts a private key, the processes that
    mount SFTP drives, the two texts of IKEv2 for phones that nothing calls, updates, the language and the log settings, the
    mobile platforms, IKEv2 (a sequence of Windows calls), the Windows drivers
    and the IPC transport of the service.  The cipher, the
    keychain and the serialization of Qt values are parameters, as they are
    libraries the source calls.  The DNS and interface
    utilities appear as the calls made to them. *)
From Stdlib Require Export ZArith Lia Bool.
From stdpp Require Export base tactics list gmap sets strings sorting.

#[global] Open Scope Z_scope.

Declare Scope vpn_scope.
Delimit Scope vpn_scope with vpn.
#[global] Open Scope vpn_scope.

Create HintDb vpn.
Create Rewrite HintDb vpn.

(** ** Tactics shared by the components *)

(** Split every boolean connective and comparison in the context. *)
Ltac split_bools :=
  repeat match goal with
  | H : _ && _ = true |- _ => apply andb_true_iff in H; destruct H
  | H : _ || _ = false |- _ => apply orb_false_iff in H; destruct H
  | H : negb _ = true |- _ => apply negb_true_iff in H
  | H : negb _ = false |- _ => apply negb_false_iff in H
  | H : (_ <? _)%Z = true |- _ => apply Z.ltb_lt in H
  | H : (_ <? _)%Z = false |- _ => apply Z.ltb_ge in H
  | H : (_ <=? _)%Z = true |- _ => apply Z.leb_le in H
  | H : (_ <=? _)%Z = false |- _ => apply Z.leb_gt in H
  | H : (_ =? _)%Z = true |- _ => apply Z.eqb_eq in H
  | H : (_ =? _)%Z = false |- _ => apply Z.eqb_neq in H
  | H : String.eqb _ _ = true |- _ => apply String.eqb_eq in H
  | H : String.eqb _ _ = false |- _ => apply String.eqb_neq in H
  | H : bool_decide _ = true |- _ => apply bool_decide_eq_true in H
  | H : bool_decide _ = false |- _ => apply bool_decide_eq_false in H
  end.

(** Case on the scrutinee of the first [match]/[if] of the goal, keeping the
    equation. *)
Ltac case_head :=
  match goal with
  | |- context [match ?x with _ => _ end] => destruct x eqn:?
  end.

(** Membership in an explicit list. *)
Ltac listed := repeat first [apply list_elem_of_here | apply list_elem_of_further].

(** The desktop platform a component is built for. *)
Inductive platform := Linux | MacOS | Windows.
#[export] Instance platform_eq_dec : EqDecision platform.
Proof. solve_decision. Defined.

(** ** A state monad

    Handlers that thread a component's state are written in this monad, with
    stdpp's [x ← m; k] and [m ;; k] notations. *)
Definition stM (S A : Type) : Type := S → A * S.

#[export] Instance stM_ret S : MRet (stM S) := λ A a s, (a, s).
#[export] Instance stM_bind S : MBind (stM S) :=
  λ A B f m s, let '(a, s') := m s in f a s'.

Definition get {S} : stM S S := λ s, (s, s).
Definition modify {S} (f : S → S) : stM S unit := λ s, (tt, f s).
Definition run_state {S A} (m : stM S A) (s : S) : S := (m s).2.
Definition run_value {S A} (m : stM S A) (s : S) : A := (m s).1.

(** [for (x : l) body(x);] *)
Fixpoint for_each {S A} (l : list A) (body : A → stM S unit) : stM S unit :=
  match l with
  | [] => mret tt
  | x :: l' => _ ← body x; for_each l' body
  end.

(** [for (x : l) if (!body(x)) return false; ... return true;] *)
Fixpoint for_all {S A} (l : list A) (body : A → stM S bool) : stM S bool :=
  match l with
  | [] => mret true
  | x :: l' => ok ← body x; if (ok : bool) then for_all l' body else mret false
  end.

Lemma bind_run {S A B} (m : stM S A) (f : A → stM S B) s :
  (m ≫= f) s = f (m s).1 (m s).2.
Proof. unfold mbind, stM_bind. by destruct (m s). Qed.

Section monad_lemmas.
Context {S A : Type}.

Lemma for_each_app (l k : list A) (body : A → stM S unit) s :
  run_state (for_each (l ++ k) body) s
  = run_state (for_each k body) (run_state (for_each l body) s).
Proof.
  revert s; induction l as [|x l IH]; intros s; [done|].
  unfold run_state in *. cbn [for_each app]. rewrite !bind_run. apply IH.
Qed.

(** Invariant rule for loops. *)
Lemma for_each_inv (P : S → Prop) (l : list A) (body : A → stM S unit) s :
  P s → (∀ x s', x ∈ l → P s' → P (run_state (body x) s')) →
  P (run_state (for_each l body) s).
Proof.
  revert s; induction l as [|x l IH]; intros s Hs Hstep; [done|].
  unfold run_state in *. cbn [for_each]. rewrite bind_run.
  apply IH; [apply Hstep; set_solver|]. intros; apply Hstep; set_solver.
Qed.

Lemma for_all_inv (P : S → Prop) (l : list A) (body : A → stM S bool) s :
  P s → (∀ x s', x ∈ l → P s' → P (run_state (body x) s')) →
  P (run_state (for_all l body) s).
Proof.
  revert s; induction l as [|x l IH]; intros s Hs Hstep; [done|].
  unfold run_state in *. cbn [for_all]. rewrite bind_run.
  pose proof (Hstep x s ltac:(set_solver) Hs) as H1.
  destruct (body x s) as [ok s1]; cbn in *. destruct ok; [|done].
  apply IH; [done|]. intros; apply Hstep; set_solver.
Qed.
End monad_lemmas.

(** [if (!m) return false; k] *)
Definition and_then {S} (m : stM S bool) (k : stM S bool) : stM S bool :=
  ok ← m; if (ok : bool) then k else mret false.

(** A call whose result is dropped. *)
Definition discard {S A} (m : stM S A) : stM S unit := _ ← m; mret tt.

Lemma discard_run {S A} (m : stM S A) s : discard m s = (tt, (m s).2).
Proof. unfold discard. by rewrite bind_run. Qed.

(** ** Postconditions

    [leads m s Q]: what [m] gives from [s], and the state it leaves, satisfy [Q]. *)
Definition leads {S X} (m : stM S X) (s : S) (Q : X → S → Prop) : Prop := Q (m s).1 (m s).2.
Lemma leads_bind {S X Y} (m : stM S X) (f : X → stM S Y) s Q : leads m s (λ x s', leads (f x) s' Q) → leads (m ≫= f) s Q.
Proof. unfold leads. by rewrite bind_run. Qed.
Lemma leads_ret {S X} (x : X) (s : S) (Q : X → S → Prop) : Q x s → leads (mret x) s Q.
Proof. done. Qed.
Lemma leads_mono {S X} (m : stM S X) s (Q R : X → S → Prop) : leads m s Q → (∀ x s', Q x s' → R x s') → leads m s R.
Proof. unfold leads. auto. Qed.
Lemma leads_pair {S X Y Z} (m : stM S (X * Y)) (f : X → Y → stM S Z) s Q :
  leads m s (λ p s', leads (f p.1 p.2) s' Q) → leads ('(x, y) ← m; f x y) s Q.
Proof. unfold leads. rewrite bind_run. by destruct (m s) as [[x y] s']. Qed.

(** ** Programs that only take steps of a preorder

    [steps R m]: whatever the state, running [m] moves along [R].  With
    [R s s' := I s → I s'] this says that [m] preserves [I]; with a growing log
    it says what [m] may add to it. *)
Definition steps {S A} (R : relation S) (m : stM S A) : Prop := ∀ s, R s (m s).2.

Section steps.
Context {S : Type} (R : relation S) {HR : PreOrder R}.

Lemma steps_ret {A} (a : A) : steps R (mret a).
Proof. intros s. reflexivity. Qed.
Lemma steps_get : steps R get.
Proof. intros s. reflexivity. Qed.
Lemma steps_modify f : (∀ s, R s (f s)) → steps R (modify f).
Proof using. intros Hf s. apply Hf. Qed.
Lemma steps_bind {A B} (m : stM S A) (f : A → stM S B) :
  steps R m → (∀ a, steps R (f a)) → steps R (m ≫= f).
Proof. intros Hm Hf s. rewrite bind_run. etrans; [apply Hm|apply Hf]. Qed.
(** A continuation that has just read the state knows it. *)
Lemma steps_bind_get {B} (f : S → stM S B) :
  (∀ s, R s (f s s).2) → steps R (get ≫= f).
Proof using. intros Hf s. apply Hf. Qed.
Lemma steps_and_then m k : steps R m → steps R k → steps R (and_then m k).
Proof. intros Hm Hk. apply steps_bind; [done|]. intros []; [done|apply steps_ret]. Qed.
Lemma steps_discard {A} (m : stM S A) : steps R m → steps R (discard m).
Proof. intros Hm. apply steps_bind; [done|]. intros. apply steps_ret. Qed.
Lemma steps_for_each {A} (l : list A) body : (∀ x, steps R (body x)) → steps R (for_each l body).
Proof.
  intros Hb. induction l as [|x l IH]; [apply steps_ret|].
  cbn [for_each]. apply steps_bind; [apply Hb|done].
Qed.
Lemma steps_for_each_in {A} (l : list A) body : (∀ x, x ∈ l → steps R (body x)) → steps R (for_each l body).
Proof.
  induction l as [|x l IH]; intros Hb; [apply steps_ret|].
  cbn [for_each]. apply steps_bind; [apply Hb; by left|]. intros. apply IH. intros; apply Hb; by right.
Qed.
Lemma steps_for_all {A} (l : list A) body : (∀ x, steps R (body x)) → steps R (for_all l body).
Proof.
  intros Hb. induction l as [|x l IH]; [apply steps_ret|].
  cbn [for_all]. apply steps_bind; [apply Hb|]. intros []; [done|apply steps_ret].
Qed.
End steps.

(** Decompose a program into the primitive steps it takes. *)
Ltac steps_step :=
  cbv zeta;
  match goal with
  | |- steps _ (mret _) => apply steps_ret; typeclasses eauto
  | |- steps _ get => apply steps_get; typeclasses eauto
  | |- steps _ (mbind _ _) => apply steps_bind; [typeclasses eauto| |intros ?]
  | |- steps _ (and_then _ _) => apply steps_and_then; [typeclasses eauto| |]
  | |- steps _ (discard _) => apply steps_discard; [typeclasses eauto|]
  | |- steps _ (for_each _ _) => apply steps_for_each; [typeclasses eauto|intros ?]
  | |- steps _ (for_all _ _) => apply steps_for_all; [typeclasses eauto|intros ?]
  | |- steps _ (if ?b then _ else _) => destruct b
  | |- steps _ (match ?b with _ => _ end) => destruct b
  | _ => assumption
  end.
Ltac steps_tac := repeat steps_step.

(** ** Key-ordered iteration of a string map ([QMap], [QJsonObject]) *)
Definition key_le {V} (a b : string * V) : Prop := String.leb a.1 b.1 = true.
#[export] Instance key_le_dec {V} (a b : string * V) : Decision (key_le a b).
Proof. unfold key_le. apply _. Defined.
#[export] Instance key_le_total {V} : Total (@key_le V).
Proof.
  intros a b. unfold key_le.
  destruct (String.leb_total a.1 b.1); auto.
Qed.

Definition entries {V} (m : gmap string V) : list (string * V) :=
  merge_sort key_le (map_to_list m).

Lemma entries_perm {V} (m : gmap string V) : entries m ≡ₚ map_to_list m.
Proof. apply merge_sort_Permutation. Qed.

Lemma elem_of_entries {V} (m : gmap string V) k v : (k, v) ∈ entries m ↔ m !! k = Some v.
Proof. rewrite entries_perm. apply elem_of_map_to_list. Qed.

Lemma entries_empty {V} : entries (∅ : gmap string V) = [].
Proof. unfold entries. by rewrite map_to_list_empty. Qed.

Lemma NoDup_entries_keys {V} (m : gmap string V) : NoDup (entries m).*1.
Proof. rewrite entries_perm. apply NoDup_fst_map_to_list. Qed.

(** ** Bits *)
Lemma shiftr_lxor_eq_0 a b k :
  0 ≤ k → Z.shiftr (Z.lxor a b) k = 0 ↔ a / 2 ^ k = b / 2 ^ k.
Proof.
  intros Hk. rewrite Z.shiftr_lxor, Z.lxor_eq_0_iff, !Z.shiftr_div_pow2 by done.
  done.
Qed.

Lemma land_disjoint a b k :
  0 ≤ k → 0 ≤ b < 2 ^ k → a mod 2 ^ k = 0 → Z.land a b = 0.
Proof.
  intros Hk Hb Ha. apply Z.bits_inj'. intros n Hn. rewrite Z.land_spec, Z.bits_0.
  destruct (Z.lt_ge_cases n k) as [Hlt|Hge].
  - apply andb_false_intro1.
    rewrite <- (Z.mod_pow2_bits_low a k n) by lia. rewrite Ha. apply Z.bits_0.
  - apply andb_false_intro2. destruct (Z.eq_dec b 0) as [->|]; [apply Z.bits_0|].
    apply Z.bits_above_log2; [lia|]. apply Z.log2_lt_pow2; [lia|].
    apply Z.lt_le_trans with (2 ^ k); [lia|]. apply Z.pow_le_mono_r; lia.
Qed.

(** [|] with a power of two below which both operands are clear is [+]. *)
Lemma lor_add_disjoint a b k :
  0 ≤ k → 0 ≤ b < 2 ^ k → a mod 2 ^ k = 0 → Z.lor a b = a + b.
Proof.
  intros. rewrite <- Z.add_lor_land. rewrite (land_disjoint a b k) by done. lia.
Qed.

(** [0xff..f ^ 0x0..0f..f] *)
Lemma lxor_mask_complement w k :
  0 ≤ k ≤ w → Z.lxor (2 ^ w - 1) (2 ^ k - 1) = 2 ^ w - 2 ^ k.
Proof.
  intros Hk. assert (0 < 2 ^ k) by (apply Z.pow_pos_nonneg; lia).
  assert (2 ^ w - 1 = Z.lxor (2 ^ w - 2 ^ k) (2 ^ k - 1)) as ->.
  { rewrite <- Z.add_nocarry_lxor; [lia|]. apply (land_disjoint _ _ k); [lia|lia|].
    replace (2 ^ w) with (2 ^ (w - k) * 2 ^ k) by (rewrite <- Z.pow_add_r by lia; f_equal; lia).
    replace (2 ^ (w - k) * 2 ^ k - 2 ^ k) with ((2 ^ (w - k) - 1) * 2 ^ k) by ring.
    apply Z.mod_mul. lia. }
  by rewrite Z.lxor_assoc, Z.lxor_nilpotent, Z.lxor_0_r.
Qed.

(** Setting the low [k] bits. *)
Lemma lor_ones_div a k :
  0 ≤ k → Z.lor a (2 ^ k - 1) = a / 2 ^ k * 2 ^ k + (2 ^ k - 1).
Proof.
  intros Hk. assert (0 < 2 ^ k) by (apply Z.pow_pos_nonneg; lia).
  rewrite <- (lor_add_disjoint (a / 2 ^ k * 2 ^ k) (2 ^ k - 1) k) by
    (try lia; apply Z.mod_mul; lia).
  rewrite <- Z.shiftr_div_pow2, <- Z.shiftl_mul_pow2 by lia.
  replace (2 ^ k - 1) with (Z.ones k) by (rewrite Z.ones_equiv; lia).
  apply Z.bits_inj'. intros n Hn. rewrite !Z.lor_spec.
  destruct (Z.lt_ge_cases n k).
  - rewrite Z.ones_spec_low by lia. by rewrite !orb_true_r.
  - rewrite Z.ones_spec_high by lia. rewrite !orb_false_r.
    rewrite Z.shiftl_spec, Z.shiftr_spec by lia. f_equal; lia.
Qed.

(** ** Lists with removal of duplicates, as the Qt containers do them *)

(** [QList::removeDuplicates]: keep the first occurrence. *)
Fixpoint removeDuplicates_from {A} `{EqDecision A} (seen l : list A) : list A :=
  match l with
  | [] => []
  | x :: l' =>
      if decide (x ∈ seen) then removeDuplicates_from seen l'
      else x :: removeDuplicates_from (x :: seen) l'
  end.
Definition removeDuplicates {A} `{EqDecision A} (l : list A) : list A :=
  removeDuplicates_from [] l.

Section remove_duplicates.
Context {A : Type} `{EqDecision A}.

Lemma elem_of_removeDuplicates_from (seen l : list A) x :
  x ∈ removeDuplicates_from seen l ↔ x ∈ l ∧ x ∉ seen.
Proof.
  revert seen; induction l as [|y l IHl]; intros seen; simpl.
  { split; [intros []%elem_of_nil|intros [[]%elem_of_nil _]]. }
  case_decide as Hy; rewrite !elem_of_cons, ?IHl, ?elem_of_cons; [naive_solver|].
  destruct (decide (x = y)) as [->|]; naive_solver.
Qed.

Lemma elem_of_removeDuplicates (l : list A) x : x ∈ removeDuplicates l ↔ x ∈ l.
Proof. unfold removeDuplicates. rewrite elem_of_removeDuplicates_from, elem_of_nil. tauto. Qed.

Lemma NoDup_removeDuplicates_from (seen l : list A) : NoDup (removeDuplicates_from seen l).
Proof.
  revert seen; induction l as [|y l IH]; intros seen; simpl; [constructor|].
  case_decide; [apply IH|]. constructor; [|apply IH].
  rewrite elem_of_removeDuplicates_from, elem_of_cons. tauto.
Qed.

Lemma NoDup_removeDuplicates (l : list A) : NoDup (removeDuplicates l).
Proof. apply NoDup_removeDuplicates_from. Qed.
End remove_duplicates.

#[export] Hint Resolve NoDup_removeDuplicates NoDup_entries_keys : vpn.
#[export] Hint Rewrite @elem_of_removeDuplicates @elem_of_entries : vpn.

(** ** Checking a statement on a range of integers by computation *)
Fixpoint all_from (fuel : nat) (z : Z) (f : Z → bool) : bool :=
  match fuel with
  | O => true
  | S fuel => f z && all_from fuel (z + 1) f
  end.

Lemma all_from_spec fuel z f n : all_from fuel z f = true → z ≤ n < z + Z.of_nat fuel → f n = true.
Proof.
  revert z. induction fuel as [|fuel IH]; intros z H Hn; [lia|]. cbn in H. split_bools.
  destruct (decide (n = z)) as [->|Hne]; [done|]. apply (IH (z + 1)); [done|lia].
Qed.
