(* ===== verification/Text.v ===== *)
(** * Text: the string operations of Qt and of C the source uses

    [QString] and [QByteArray] values are [string]s.  The operations are the
    documented ones: splitting keeps empty parts, [indexOf] finds the first
    occurrence, [atoi] skips white space and stops at the first non-digit. *)
From stdpp Require Import pretty.
From S2P Require Import Prelude.

Definition newline : Ascii.ascii := Ascii.ascii_of_nat 10.
Definition nl : string := String newline "".

Fixpoint contains_char (c : Ascii.ascii) (s : string) : bool :=
  match s with
  | EmptyString => false
  | String ch s' => Ascii.eqb ch c || contains_char c s'
  end.

Definition contains_nl : string → bool := contains_char newline.

(** [contains(QString)] *)
Definition contains_str (sub s : string) : bool :=
  match String.index 0 sub s with Some _ => true | None => false end.

Definition startsWith (p s : string) : bool := String.prefix p s.

(** [split(QChar)] *)
Fixpoint split_char (c : Ascii.ascii) (s : string) : list string :=
  match s with
  | EmptyString => [""]
  | String ch s' =>
      if Ascii.eqb ch c then "" :: split_char c s'
      else match split_char c s' with
           | l :: ls => String ch l :: ls
           | [] => []
           end
  end.

Definition lines_of : string → list string := split_char newline.

(** [replace(QChar, QChar)] *)
Fixpoint replace_char (a b : Ascii.ascii) (s : string) : string :=
  match s with
  | EmptyString => ""
  | String ch s' => String (if Ascii.eqb ch a then b else ch) (replace_char a b s')
  end.

Fixpoint trim_left (s : string) : string :=
  match s with
  | String ch s' => if Ascii.is_space ch then trim_left s' else s
  | EmptyString => ""
  end.

(** [trimmed()] *)
Fixpoint trim_right (s : string) : string :=
  match s with
  | String ch s' =>
      match trim_right s' with
      | EmptyString => if Ascii.is_space ch then "" else String ch ""
      | t => String ch t
      end
  | EmptyString => ""
  end.
Definition trimmed (s : string) : string := trim_right (trim_left s).

Definition digit_value (c : Ascii.ascii) : option Z :=
  let n := Z.of_N (Ascii.N_of_ascii c) in
  if (48 <=? n) && (n <=? 57) then Some (n - 48) else None.

Fixpoint digits (acc : Z) (s : string) : Z :=
  match s with
  | String ch s' => match digit_value ch with Some d => digits (acc * 10 + d) s' | None => acc end
  | EmptyString => acc
  end.

(** [atoi], for numbers of [int]'s range. *)
Definition atoi (s : string) : Z :=
  match trim_left s with
  | String ch s' =>
      if Ascii.eqb ch (Ascii.ascii_of_nat 45) then - digits 0 s'
      else if Ascii.eqb ch (Ascii.ascii_of_nat 43) then digits 0 s'
      else digits 0 (String ch s')
  | EmptyString => 0
  end.

(** [toLower()], on ASCII text. *)
Definition lower_char (c : Ascii.ascii) : Ascii.ascii :=
  let n := Ascii.N_of_ascii c in
  if ((65 <=? n) && (n <=? 90))%N then Ascii.ascii_of_N (n + 32) else c.
Fixpoint toLower (s : string) : string :=
  match s with
  | EmptyString => ""
  | String ch s' => String (lower_char ch) (toLower s')
  end.

(** [toUpper()], on ASCII text. *)
Definition upper_char (c : Ascii.ascii) : Ascii.ascii :=
  let n := Ascii.N_of_ascii c in
  if ((97 <=? n) && (n <=? 122))%N then Ascii.ascii_of_N (n - 32) else c.
Fixpoint toUpper (s : string) : string :=
  match s with
  | EmptyString => ""
  | String ch s' => String (upper_char ch) (toUpper s')
  end.

(** [toInt(&ok)]: the text without surrounding white space is an optional sign
    and digits, within [int]'s range; [None] when [ok] is false. *)
Fixpoint all_digits (s : string) : bool :=
  match s with
  | EmptyString => true
  | String ch s' => match digit_value ch with Some _ => all_digits s' | None => false end
  end.
Definition unsigned_value (s : string) : option Z :=
  if negb (String.eqb s "") && all_digits s then Some (digits 0 s) else None.
Definition toInt_ok (s : string) : option Z :=
  let v := match trimmed s with
           | String ch s' =>
               if Ascii.eqb ch (Ascii.ascii_of_nat 45) then Z.opp <$> unsigned_value s'
               else if Ascii.eqb ch (Ascii.ascii_of_nat 43) then unsigned_value s'
               else unsigned_value (String ch s')
           | EmptyString => None
           end in
  z ← v; if (-2147483648 <=? z) && (z <=? 2147483647) then Some z else None.

(** [split(QString)], for a separator that is not empty. *)
Fixpoint split_from (fuel : nat) (sep s : string) : list string :=
  match fuel, String.index 0 sep s with
  | S fuel, Some n =>
      String.substring 0 n s ::
      split_from fuel sep (String.substring (n + String.length sep) (String.length s) s)
  | _, _ => [s]
  end.
Definition split_str (sep s : string) : list string := split_from (String.length s) sep s.

(** [replace(QString, QString)], for a text that is not empty; [find] gives the
    first occurrence of a text of length [len]. *)
Fixpoint replace_from (fuel : nat) (find : string → option nat) (len : nat) (after s : string) : string :=
  match fuel, find s with
  | S fuel, Some n =>
      String.substring 0 n s +:+ after +:+
      replace_from fuel find len after (String.substring (n + len) (String.length s) s)
  | _, _ => s
  end.
Definition replace_str (before after s : string) : string :=
  replace_from (String.length s) (String.index 0 before) (String.length before) after s.
(** The same without regard to case. *)
Definition index_ci (sub s : string) : option nat := String.index 0 (toLower sub) (toLower s).
Definition contains_ci (sub s : string) : bool := match index_ci sub s with Some _ => true | None => false end.
Definition replace_ci (before after s : string) : string :=
  replace_from (String.length s) (index_ci before) (String.length before) after s.

(** [simplified()]: the words of the text with one space between them. *)
Fixpoint blank_split (s : string) : list string :=
  match s with
  | EmptyString => [""]
  | String ch s' =>
      if Ascii.is_space ch then "" :: blank_split s'
      else match blank_split s' with
           | l :: ls => String ch l :: ls
           | [] => []
           end
  end.
Definition simplified (s : string) : string :=
  String.concat " " (List.filter (λ w, negb (String.eqb w "")) (blank_split s)).

(** [toULongLong()]: 0 for a text that is no number of 64 bits. *)
Definition toULongLong (s : string) : Z :=
  let v := match trimmed s with
           | String ch s' => if Ascii.eqb ch (Ascii.ascii_of_nat 43) then unsigned_value s' else unsigned_value (String ch s')
           | EmptyString => None
           end in
  match v with Some z => if z <? 2 ^ 64 then z else 0 | None => 0 end.

(** [toLongLong()]: 0 for a text that is no number of 64 bits. *)
Definition toLongLong_value (s : string) : Z :=
  let v := match trimmed s with
           | String ch s' =>
               if Ascii.eqb ch (Ascii.ascii_of_nat 45) then Z.opp <$> unsigned_value s'
               else if Ascii.eqb ch (Ascii.ascii_of_nat 43) then unsigned_value s' else unsigned_value (String ch s')
           | EmptyString => None
           end in
  match v with Some z => if (- 2 ^ 63 <=? z) && (z <? 2 ^ 63) then z else 0 | None => 0 end.
(** [toInt()]: 0 for a text that is no [int]. *)
Definition toInt_value (s : string) : Z := default 0 (toInt_ok s).

(** [count(QChar)] *)
Fixpoint count_char (c : Ascii.ascii) (s : string) : Z :=
  match s with
  | EmptyString => 0
  | String ch s' => (if Ascii.eqb ch c then 1 else 0) + count_char c s'
  end.

(** [indexOf(QString, from)] and [mid(from, n)] for positions in the text. *)
Definition indexOf (s sub : string) (from : Z) : Z :=
  match String.index (Z.to_nat from) sub s with Some n => Z.of_nat n | None => -1 end.
Definition mid (s : string) (from n : Z) : string := String.substring (Z.to_nat from) (Z.to_nat n) s.

(** [indexOf("\n")], [left(pos)] and [remove(0, pos + 1)]: the first line and
    what follows it. *)
Fixpoint take_line (buf : string) : option (string * string) :=
  match buf with
  | EmptyString => None
  | String ch s' =>
      if Ascii.eqb ch newline then Some ("", s')
      else match take_line s' with
           | Some (l, rest) => Some (String ch l, rest)
           | None => None
           end
  end.

(** ** Lemmas *)

Lemma append_String ch (a b : string) : String ch a +:+ b = String ch (a +:+ b).
Proof. done. Qed.
Lemma append_nil_l (b : string) : "" +:+ b = b.
Proof. done. Qed.
Lemma append_nil_r (a : string) : a +:+ "" = a.
Proof. induction a as [|ch a IH]; [done|]. by rewrite append_String, IH. Qed.
Lemma string_app_assoc (a b c : string) : (a +:+ b) +:+ c = a +:+ (b +:+ c).
Proof. induction a as [|ch a IH]; [done|]. by rewrite !append_String, IH. Qed.

Lemma string_app_length (a b : string) :
  String.length (a +:+ b) = (String.length a + String.length b)%nat.
Proof. induction a as [|ch a IH]; [done|]. rewrite append_String. cbn. by rewrite IH. Qed.

Lemma contains_char_app c a b : contains_char c (a +:+ b) = contains_char c a || contains_char c b.
Proof.
  induction a as [|ch a IH]; [done|]. rewrite append_String. cbn. by rewrite IH, orb_assoc.
Qed.

Lemma contains_nl_app a b : contains_nl (a +:+ b) = contains_nl a || contains_nl b.
Proof. apply contains_char_app. Qed.

Lemma split_char_line c l s :
  contains_char c l = false → split_char c (l +:+ String c s) = l :: split_char c s.
Proof.
  induction l as [|ch l IH]; intros H.
  { rewrite append_nil_l. cbn. by rewrite Ascii.eqb_refl. }
  rewrite append_String. cbn in *. apply orb_false_iff in H as [-> H]. by rewrite (IH H).
Qed.

Lemma split_char_none c s : contains_char c s = false → split_char c s = [s].
Proof.
  induction s as [|ch s IH]; [done|]. cbn. intros [-> H]%orb_false_iff. by rewrite (IH H).
Qed.

Lemma split_joined ch l :
  l ≠ [] → Forall (λ s, contains_char ch s = false) l → split_char ch (String.concat (String ch "") l) = l.
Proof.
  induction l as [|s l IH]; [done|]. intros _ [Hs Hl]%Forall_cons. destruct l as [|s' l].
  - cbn [String.concat]. by apply split_char_none.
  - change (String.concat (String ch "") (s :: s' :: l)) with (s +:+ String ch (String.concat (String ch "") (s' :: l))).
    rewrite split_char_line by done. f_equal. by apply IH.
Qed.
Lemma split_char_nonempty c s : split_char c s ≠ [].
Proof. induction s as [|ch s IH]; cbn; [done|]. repeat case_match; done. Qed.

Lemma lines_of_line l s : contains_nl l = false → lines_of (l +:+ nl +:+ s) = l :: lines_of s.
Proof. intros. by apply split_char_line. Qed.

Lemma contains_nl_concat sep l :
  contains_nl sep = false → Forall (λ s, contains_nl s = false) l →
  contains_nl (String.concat sep l) = false.
Proof.
  intros Hsep. induction 1 as [|x l Hx Hl IH]; [done|]. destruct l as [|y l]; [done|].
  change (String.concat sep (x :: y :: l)) with (x +:+ sep +:+ String.concat sep (y :: l)).
  by rewrite !contains_nl_app, Hx, Hsep, IH.
Qed.

Lemma contains_nl_pretty_N n s :
  contains_nl s = false → contains_nl (pretty_N_go n s) = false.
Proof.
  revert s. induction (N.lt_wf_0 n) as [n _ IH]. intros s Hs.
  destruct (decide (0 < n)%N) as [Hn|Hn].
  - rewrite pretty_N_go_step by done. apply IH; [apply N.div_lt; lia|].
    unfold contains_nl in *. cbn. rewrite Hs, orb_false_r.
    unfold pretty_N_char. by repeat case_match.
  - assert (n = 0%N) as -> by lia. by rewrite pretty_N_go_0.
Qed.

Lemma contains_nl_pretty_Z (z : Z) : contains_nl (pretty z) = false.
Proof.
  assert (∀ p : positive, contains_nl (pretty (N.pos p)) = false) as Hp.
  { intros p. unfold pretty, pretty_N. case_decide; [done|]. by apply contains_nl_pretty_N. }
  destruct z as [|p|p]; [done| |]; cbn; apply Hp.
Qed.

Lemma concat_empty_cons x l : String.concat "" (x :: l) = x +:+ String.concat "" l.
Proof. destruct l; [|done]. change (x = x +:+ ""). by rewrite append_nil_r. Qed.

Lemma concat_empty_app l k :
  String.concat "" (l ++ k) = String.concat "" l +:+ String.concat "" k.
Proof.
  induction l as [|x l IH]; [done|].
  cbn [app]. by rewrite !concat_empty_cons, IH, string_app_assoc.
Qed.

(** *** Lines of a buffer *)
Lemma take_line_some l s : contains_nl l = false → take_line (l +:+ nl +:+ s) = Some (l, s).
Proof.
  induction l as [|ch l IH]; intros H; [done|].
  rewrite append_String. cbn in *. apply orb_false_iff in H as [-> H]. by rewrite (IH H).
Qed.

Lemma take_line_none s : take_line s = None ↔ contains_nl s = false.
Proof.
  induction s as [|ch s IH]; [done|]. cbn. destruct (Ascii.eqb ch newline); [done|].
  cbn. unfold contains_nl in *. destruct (take_line s) as [[]|]; [|tauto].
  rewrite <- IH. done.
Qed.

Lemma take_line_inv s l r :
  take_line s = Some (l, r) → s = l +:+ nl +:+ r ∧ contains_nl l = false.
Proof.
  revert l. induction s as [|ch s IH]; intros l; [done|]. cbn.
  destruct (Ascii.eqb_spec ch newline) as [->|Hne]; [by intros [= <- ->]|].
  destruct (take_line s) as [[l' r']|] eqn:E; [|done]. intros [= <- ->].
  destruct (IH l' eq_refl) as [-> Hl]. rewrite append_String. split; [done|].
  cbn. by rewrite (proj2 (Ascii.eqb_neq _ _) Hne).
Qed.

Lemma take_line_length s l r : take_line s = Some (l, r) → (String.length r < String.length s)%nat.
Proof.
  intros [-> _]%take_line_inv. rewrite !string_app_length. cbn. lia.
Qed.

(** *** [split('|')] undone by [join]: the text is its parts joined. *)
Lemma concat_split_char c s : String.concat (String c "") (split_char c s) = s.
Proof.
  induction s as [|ch s IH]; [done|]. cbn.
  pose proof (split_char_nonempty c s) as Hne.
  destruct (Ascii.eqb_spec ch c) as [->|_].
  - destruct (split_char c s) as [|y l]; [done|].
    change (String c (String.concat (String c "") (y :: l)) = String c s). by rewrite IH.
  - destruct (split_char c s) as [|y [|z l]]; [done|cbn in *; by rewrite IH|].
    cbn in *. by rewrite <- IH.
Qed.

Lemma replace_char_inv a b s : contains_char b s = false → replace_char b a (replace_char a b s) = s.
Proof.
  induction s as [|ch s IH]; [done|]. cbn. intros [Hb H]%orb_false_iff. rewrite IH by done.
  destruct (Ascii.eqb_spec ch a) as [->|]; [by rewrite Ascii.eqb_refl|by rewrite Hb].
Qed.

(** ** [atoi] reads what is printed *)
Lemma digit_value_char n : (n < 10)%N → digit_value (pretty_N_char n) = Some (Z.of_N n).
Proof.
  intros Hn. assert (n ∈ [0; 1; 2; 3; 4; 5; 6; 7; 8; 9]%N) as Hin.
  { rewrite !elem_of_cons. lia. }
  rewrite !elem_of_cons, elem_of_nil in Hin. naive_solver.
Qed.

Lemma digits_pretty n s : digits 0 (pretty_N_go n s) = digits (Z.of_N n) s.
Proof.
  revert s. induction (N.lt_wf_0 n) as [n _ IH]. intros s.
  destruct (decide (0 < n)%N) as [Hn|Hn].
  - rewrite pretty_N_go_step by done. rewrite IH by (apply N.div_lt; lia).
    cbn [digits]. rewrite digit_value_char by (apply N.mod_lt; done). f_equal.
    rewrite N2Z.inj_div, N2Z.inj_mod. cbn. pose proof (Z.div_mod (Z.of_N n) 10). lia.
  - assert (n = 0%N) as -> by lia. by rewrite pretty_N_go_0.
Qed.

Lemma pretty_head n s : (0 < n)%N → ∃ c s' d, pretty_N_go n s = String c s' ∧ digit_value c = Some d.
Proof.
  revert s. induction (N.lt_wf_0 n) as [n _ IH]. intros s Hn. rewrite pretty_N_go_step by done.
  destruct (decide (0 < n / 10)%N) as [Hd|Hd].
  - apply IH; [apply N.div_lt; lia|done].
  - apply N.nlt_ge, N.le_0_r in Hd. rewrite Hd, pretty_N_go_0.
    do 3 eexists. split; [reflexivity|]. apply digit_value_char, N.mod_lt. done.
Qed.

Lemma atoi_digits c s d : digit_value c = Some d → atoi (String c s) = digits 0 (String c s).
Proof.
  intros Hd. unfold digit_value in Hd.
  destruct ((48 <=? Z.of_N (Ascii.N_of_ascii c)) && (Z.of_N (Ascii.N_of_ascii c) <=? 57)) eqn:E; [|done].
  split_bools. unfold atoi. cbn [trim_left].
  assert (Ascii.is_space c = false) as ->.
  { destruct (Ascii.is_space c) eqn:Es; [|done]. unfold Ascii.is_space in Es. by destruct c as [[] [] [] [] [] [] [] []]. }
  destruct (Ascii.eqb_spec c (Ascii.ascii_of_nat 45)) as [->|_]; [done|].
  by destruct (Ascii.eqb_spec c (Ascii.ascii_of_nat 43)) as [->|_].
Qed.

Lemma atoi_pretty (n : Z) : 0 ≤ n → atoi (pretty n) = n.
Proof.
  intros Hn. destruct n as [|p|p]; [done| |lia]. unfold pretty, pretty_Z.
  change (atoi (pretty_N_go (N.pos p) "") = Z.pos p).
  destruct (pretty_head (N.pos p) "" eq_refl) as (c & s & d & E & Hd).
  rewrite E, (atoi_digits c s d Hd), <- E, digits_pretty. done.
Qed.

Lemma trim_right_idemp s : trim_right (trim_right s) = trim_right s.
Proof.
  induction s as [|ch s IH]; [done|]. cbn. destruct (trim_right s) as [|c t] eqn:E.
  - destruct (Ascii.is_space ch) eqn:Es; [done|]. cbn. by rewrite Es.
  - cbn [trim_right] in *. by rewrite IH.
Qed.
Lemma trim_left_head s : trim_left s = "" ∨ ∃ ch t, trim_left s = String ch t ∧ Ascii.is_space ch = false.
Proof.
  induction s as [|ch s IH]; [by left|]. cbn. destruct (Ascii.is_space ch) eqn:E; [done|].
  right. eauto.
Qed.
Lemma trimmed_idemp s : trimmed (trimmed s) = trimmed s.
Proof.
  unfold trimmed. destruct (trim_left_head s) as [->|(ch & t & -> & Hch)]; [done|].
  pose proof (trim_right_idemp (String ch t)) as H. cbn [trim_right] in *. destruct (trim_right t); rewrite ?Hch in *;
    cbn [trim_left]; by rewrite Hch.
Qed.

(** ** Numbers are read back *)
Lemma digits_go n s : all_digits (pretty_N_go n s) = all_digits s.
Proof.
  revert s. induction (N.lt_wf_0 n) as [n _ IH]. intros s. destruct (decide (0 < n)%N) as [Hn|Hn].
  - rewrite pretty_N_go_step, IH by (done || apply N.div_lt; lia). cbn [all_digits].
    by rewrite digit_value_char by (apply N.mod_lt; lia).
  - assert (n = 0%N) as -> by lia. by rewrite pretty_N_go_0.
Qed.
Lemma pretty_digits z : 0 ≤ z → all_digits (pretty z) = true ∧ pretty z ≠ "".
Proof.
  intros Hz. destruct z as [|p|p]; [done| |lia]. cbn. change (pretty p) with (pretty (N.pos p)). unfold pretty, pretty_N. case_decide; [done|].
  split; [by rewrite digits_go|]. destruct (pretty_head (N.pos p) "" ltac:(lia)) as (ch & s & d & E & _). by rewrite E.
Qed.
Lemma digits_unspaced s : all_digits s = true → trim_right s = s.
Proof.
  induction s as [|c s IH]; [done|]. cbn [all_digits trim_right]. intros H. destruct (digit_value c) as [d|] eqn:Hd; [|done].
  rewrite IH by done. destruct s; [|done]. assert (Ascii.is_space c = false) as ->; [|done].
  unfold digit_value in Hd. destruct (_ && _) eqn:E; [|done]. split_bools. unfold Ascii.is_space. by destruct c as [[] [] [] [] [] [] [] []].
Qed.
Lemma digits_trimmed c s : all_digits (String c s) = true → trimmed (String c s) = String c s.
Proof.
  intros H. unfold trimmed. cbn [trim_left]. assert (Ascii.is_space c = false) as ->; [|by apply digits_unspaced].
  cbn [all_digits] in H. destruct (digit_value c) as [d|] eqn:Hd; [|done]. unfold digit_value in Hd. destruct (_ && _) eqn:E; [|done].
  split_bools. unfold Ascii.is_space. by destruct c as [[] [] [] [] [] [] [] []].
Qed.
Lemma unsigned_pretty z : 0 ≤ z → unsigned_value (pretty z) = Some z.
Proof.
  intros Hz. destruct (pretty_digits z Hz) as [Hd Hne]. unfold unsigned_value.
  rewrite (proj2 (String.eqb_neq _ _) Hne), Hd. cbn. f_equal. destruct z as [|p|p]; [done| |lia].
  change (pretty (Z.pos p)) with (pretty_N_go (N.pos p) ""). by rewrite digits_pretty.
Qed.
Lemma signed_pretty z :
  match trimmed (pretty z) with
  | String ch s' => if Ascii.eqb ch (Ascii.ascii_of_nat 45) then Z.opp <$> unsigned_value s'
                    else if Ascii.eqb ch (Ascii.ascii_of_nat 43) then unsigned_value s' else unsigned_value (String ch s')
  | EmptyString => None
  end = Some z.
Proof.
  destruct (decide (0 ≤ z)) as [Hz|Hz].
  - destruct (pretty_digits z Hz) as [Hd Hne]. pose proof (unsigned_pretty z Hz) as Hu. destruct (pretty z) as [|c s]; [done|].
    rewrite digits_trimmed by done. cbn [all_digits] in Hd. destruct (digit_value c) as [d|] eqn:Ed; [|done].
    destruct (Ascii.eqb_spec c (Ascii.ascii_of_nat 45)) as [->|_]; [done|]. by destruct (Ascii.eqb_spec c (Ascii.ascii_of_nat 43)) as [->|_].
  - destruct z as [|p|p]; [lia|lia|]. change (pretty (Z.neg p)) with (String (Ascii.ascii_of_nat 45) (pretty (Z.pos p))).
    destruct (pretty_digits (Z.pos p) ltac:(lia)) as [Hd Hne]. pose proof (unsigned_pretty (Z.pos p) ltac:(lia)) as Hu.
    assert (trimmed (String (Ascii.ascii_of_nat 45) (pretty (Z.pos p))) = String (Ascii.ascii_of_nat 45) (pretty (Z.pos p))) as ->.
    { unfold trimmed. cbn [trim_left]. change (Ascii.is_space (Ascii.ascii_of_nat 45)) with false. cbn [trim_right]. rewrite digits_unspaced by done.
      by destruct (pretty (Z.pos p)). }
    rewrite Ascii.eqb_refl, Hu. done.
Qed.

(** ** Prefixes *)
Lemma prefix_split w s : String.prefix w s = true → ∃ t, s = w +:+ t.
Proof.
  revert s. induction w as [|c w IH]; intros s H; [by exists s|]. destruct s as [|c' s]; [done|]. cbn in H.
  destruct (Ascii.ascii_dec c c') as [->|]; [|done]. destruct (IH s H) as [t ->]. by exists t.
Qed.
