(* ===== verification/Json.v ===== *)
(** * JSON values

    [QJsonValue], [QJsonObject] and [QJsonArray] as the configuration code of
    the client and the daemon uses them.  An absent member is Qt's [Undefined]
    value, modelled as [None].  Numbers are the finite doubles, as rationals.
    Inserting [Undefined] in an object removes the member, as Qt documents. *)
From Stdlib Require Export QArith.
From S2P Require Import Prelude.

#[global] Open Scope Z_scope.

#[local] Set Warnings "-register-all".
Inductive json :=
  | JNull
  | JBool (b : bool)
  | JDouble (q : Q)
  | JString (s : string)
  | JArray (l : list json)
  | JObject (m : gmap string json).

(** A [QString]: [None] is the null string, which compares equal to the empty
    one and differs from it only under [isNull]. *)
Definition qstring : Type := option string.

Definition str (s : qstring) : string := default "" s.
Definition isNull (s : qstring) : bool := match s with None => true | _ => false end.
Definition isEmpty (s : qstring) : bool := String.eqb (str s) "".
Definition qstr_eqb (a b : qstring) : bool := String.eqb (str a) (str b).

Lemma qstr_eqb_refl a : qstr_eqb a a = true.
Proof. apply String.eqb_refl. Qed.

(** ** [QJsonValue] *)
Definition isString (v : option json) : bool := match v with Some (JString _) => true | _ => false end.
Definition isBool (v : option json) : bool := match v with Some (JBool _) => true | _ => false end.
Definition isDouble (v : option json) : bool := match v with Some (JDouble _) => true | _ => false end.
Definition isArray (v : option json) : bool := match v with Some (JArray _) => true | _ => false end.
Definition isObject (v : option json) : bool := match v with Some (JObject _) => true | _ => false end.
Definition isUndefined (v : option json) : bool := match v with None => true | _ => false end.

(** [toString()] of a value that is not a string is the null string. *)
Definition toString (v : option json) : qstring :=
  match v with Some (JString s) => Some s | _ => None end.
Definition toBool (v : option json) : bool :=
  match v with Some (JBool b) => b | _ => false end.
Definition toArray (v : option json) : list json :=
  match v with Some (JArray l) => l | _ => [] end.
Definition toObject (v : option json) : gmap string json :=
  match v with Some (JObject m) => m | _ => ∅ end.

Definition int_min : Z := -2147483648.
Definition int_max : Z := 2147483647.

(** [QJsonValue::toInt()]: the number when it is an integer of [int]'s range,
    0 otherwise. *)
Definition toInt (v : option json) : Z :=
  match v with
  | Some (JDouble q) =>
      let r := Qred q in
      if (Qden r =? 1)%positive && (int_min <=? Qnum r) && (Qnum r <=? int_max)
      then Qnum r else 0
  | _ => 0
  end.

(** C++ conversion of a double to an integer: truncation towards zero. *)
Definition double_to_int (q : Q) : Z := Z.quot (Qnum q) (Z.pos (Qden q)).

Definition JInt (z : Z) : json := JDouble (inject_Z z).

(** ** [QJsonObject] *)
Definition value (m : gmap string json) (k : string) : option json := m !! k.
Definition contains (m : gmap string json) (k : string) : bool :=
  match m !! k with Some _ => true | None => false end.
Definition insertv (k : string) (v : option json) (m : gmap string json) : gmap string json :=
  match v with Some j => <[k := j]> m | None => delete k m end.

#[global] Arguments value : simpl never.
#[global] Arguments contains : simpl never.
#[global] Arguments insertv : simpl never.

(** Appending [Undefined] to an array appends [null]. *)
Definition jelem (v : option json) : json := default JNull v.

(** [QJsonArray::fromStringList], and the strings of an array. *)
Definition JStrings (l : list string) : json := JArray (JString <$> l).

(** ** Lemmas *)
Lemma toInt_JInt z : int_min ≤ z ≤ int_max → toInt (Some (JInt z)) = z.
Proof.
  intros [H1 H2]. unfold toInt, JInt.
  assert (Qred (inject_Z z) = inject_Z z) as ->.
  { unfold inject_Z, Qred. destruct z as [|[]|[]]; reflexivity. }
  cbn. rewrite (proj2 (Z.leb_le _ _) H1), (proj2 (Z.leb_le _ _) H2). done.
Qed.

Lemma double_to_int_inject z : double_to_int (inject_Z z) = z.
Proof. unfold double_to_int, inject_Z. cbn. apply Z.quot_1_r. Qed.

Lemma lookup_insertv_eq k v m : insertv k v m !! k = v.
Proof. destruct v; simpl; [apply lookup_insert_eq|apply lookup_delete_eq]. Qed.

Lemma lookup_insertv_ne k k' v m : k ≠ k' → insertv k v m !! k' = m !! k'.
Proof. intros; unfold insertv; destruct v; [by apply lookup_insert_ne|by apply lookup_delete_ne]. Qed.

Lemma lookup_insertv k k' v m :
  insertv k v m !! k' = if decide (k = k') then v else m !! k'.
Proof.
  case_decide; subst; [apply lookup_insertv_eq|by apply lookup_insertv_ne].
Qed.

Lemma value_insertv k k' v m :
  value (insertv k v m) k' = if decide (k = k') then v else value m k'.
Proof. apply lookup_insertv. Qed.

Lemma contains_spec m k : contains m k = negb (isUndefined (value m k)).
Proof. unfold contains, value. by destruct (m !! k). Qed.

#[export] Hint Rewrite lookup_insertv_eq qstr_eqb_refl : vpn.

(** ** Objects written member by member

    [QJsonObject obj; if (c1) obj[k1] = v1; if (c2) obj[k2] = v2; ...]: a list of
    assignments, [None] standing for the one whose condition is false. *)
Definition assignment : Type := string * option json.

Definition assign (m : gmap string json) (a : assignment) : gmap string json :=
  match a.2 with Some j => <[a.1 := j]> m | None => m end.

Definition object_from (m : gmap string json) (l : list assignment) : gmap string json := foldl assign m l.
Definition object : list assignment → gmap string json := object_from ∅.

#[global] Arguments object_from : simpl never.
#[global] Arguments object : simpl never.

(** [if (!s.isEmpty()) obj[k] = s;] *)
Definition text_member (k s : string) : assignment :=
  (k, if String.eqb s "" then None else Some (JString s)).
(** [if (b) obj[k] = b;] *)
Definition flag_member (k : string) (b : bool) : assignment := (k, if b then Some (JBool b) else None).
(** [obj[k] = v;] *)
Definition member (k : string) (v : json) : assignment := (k, Some v).

(** [if (!l.isEmpty()) obj[k] = QJsonArray::fromStringList(l);] *)
Definition list_member (k : string) (l : list string) : assignment :=
  (k, match l with [] => None | _ => Some (JStrings l) end).
(** [if (z > 0) obj[k] = z;] *)
Definition positive_member (k : string) (z : Z) : assignment :=
  (k, if 0 <? z then Some (JInt z) else None).

(** [toString(default)] and [toBool(default)]: the default for a value of another type. *)
Definition toString_or (d : string) (v : option json) : string :=
  match v with Some (JString s) => s | _ => d end.
Definition toBool_or (d : bool) (v : option json) : bool :=
  match v with Some (JBool b) => b | _ => d end.

(** [json.value(k).toString()] as text, null and empty being the same. *)
Definition text (m : gmap string json) (k : string) : string := toString_or "" (value m k).

(** [if (json.contains(k)) field = json.value(k).toString();] and the same for booleans. *)
Definition present_text (m : gmap string json) (k d : string) : string :=
  if contains m k then text m k else d.
Definition present_bool (m : gmap string json) (k : string) (d : bool) : bool :=
  if contains m k then toBool (value m k) else d.
(** [if (!o.isEmpty()) obj[k] = o;] *)
Definition object_member (k : string) (o : gmap string json) : assignment :=
  (k, if decide (o = ∅) then None else Some (JObject o)).

(** [for (v : value.toArray()) l.append(v.toString());] *)
Definition strings_of (v : option json) : list string := (λ j, toString_or "" (Some j)) <$> toArray v.
(** [removeAll(QString())] *)
Definition nonempty (l : list string) : list string := List.filter (λ s, negb (String.eqb s "")) l.

(** The value a run of assignments leaves at [k], [v] being there before. *)
Fixpoint assigned (k : string) (v : option json) (l : list assignment) : option json :=
  match l with
  | [] => v
  | (k', w) :: l' =>
      assigned k (if String.eqb k' k then match w with Some j => Some j | None => v end else v) l'
  end.

Lemma nonempty_all l : Forall (λ s, s ≠ "") l → nonempty l = l.
Proof.
  unfold nonempty. induction 1 as [|s l Hs _ IH]; [done|]. cbn [List.filter].
  rewrite (proj2 (String.eqb_neq s "") Hs). cbn [negb]. by rewrite IH.
Qed.

Lemma value_object_from m l k : value (object_from m l) k = assigned k (value m k) l.
Proof.
  revert m. induction l as [|[k' w] l IH]; intros m; [done|].
  unfold object_from in *. cbn [foldl assigned]. rewrite IH. f_equal.
  unfold assign, value. cbn [fst snd]. destruct (String.eqb_spec k' k) as [->|Hne]; destruct w as [j|]; try done.
  - by rewrite lookup_insert_eq.
  - by rewrite lookup_insert_ne.
Qed.

Lemma value_object l k : value (object l) k = assigned k None l.
Proof. unfold object. by rewrite value_object_from. Qed.

Lemma contains_object l k : contains (object l) k = negb (isUndefined (assigned k None l)).
Proof. by rewrite contains_spec, value_object. Qed.

Lemma assigned_over_none (w : option json) : match w with Some j => Some j | None => None end = w.
Proof. by destruct w. Qed.

Lemma read_text (s : string) : toString_or "" (if String.eqb s "" then None else Some (JString s)) = s.
Proof. by destruct (String.eqb_spec s "") as [->|]. Qed.

Lemma read_flag (b : bool) : toBool_or false (if b then Some (JBool b) else None) = b.
Proof. by destruct b. Qed.

Lemma read_list (l : list string) : strings_of match l with [] => None | _ => Some (JStrings l) end = l.
Proof.
  assert (strings_of (Some (JStrings l)) = l) as H.
  { unfold strings_of, JStrings. cbn. induction l as [|x l IH]; [done|]. cbn. by rewrite IH. }
  by destruct l.
Qed.

Lemma read_positive (z : Z) :
  0 ≤ z ≤ int_max → toInt (if 0 <? z then Some (JInt z) else None) = z.
Proof.
  intros Hz. destruct (Z.ltb_spec 0 z); [apply toInt_JInt; unfold int_min; lia|].
  cbn. lia.
Qed.

Lemma read_present_text m k : present_text m k "" = text m k.
Proof. unfold present_text, text, contains, value. by destruct (m !! k) as [[]|]. Qed.

Lemma nonempty_idemp l : nonempty (nonempty l) = nonempty l.
Proof.
  unfold nonempty. induction l as [|x l IH]; [done|]. cbn.
  destruct (String.eqb x "") eqn:E; cbn; [done|]. rewrite E. cbn. by rewrite IH.
Qed.

Lemma toString_or_str v : toString_or "" v = str (toString v).
Proof. by destruct v as [[]|]. Qed.


(** Evaluate reads of an object written by a list of assignments with constant keys. *)
Ltac read_members :=
  unfold text; rewrite ?value_object, ?contains_object, ?value_object_from;
  cbn [assigned fst snd text_member flag_member member list_member positive_member object_member
       String.eqb Ascii.eqb Bool.eqb andb negb isUndefined];
  rewrite ?assigned_over_none, ?read_text, ?read_flag, ?read_list.

(** A structure read from the object it was written to, field by field. *)
Ltac read_fields :=
  cbv beta iota zeta; f_equal; rewrite ?read_present_text; unfold present_bool; read_members.
