(* ===== verification/Containers.v ===== *)
(** * Containers: the kinds of servers and of VPN protocols

    Models [client/core/utils/containers/containerUtils.cpp] and
    [client/core/protocols/protocolUtils.cpp]: the enumerations, their names in
    stored configurations, and the tables the rest of the client consults.
    [QMetaEnum] is the list of the enumerators and their names, in order. *)
From S2P Require Import Prelude Text Json.

(** ** The enumerations *)
Module DockerContainer.
Inductive DockerContainer :=
  | None | Awg | Awg2 | WireGuard | OpenVpn | Cloak | ShadowSocks | Ipsec | Xray | SSXray
  | TorWebSite | Dns | Sftp | Socks5Proxy | MtProxy | Telemt.
End DockerContainer.
Abbreviation DockerContainer := DockerContainer.DockerContainer.

Module Proto.
Inductive Proto :=
  | Unknown | OpenVpn | WireGuard | Awg | Ikev2 | Xray | SSXray
  | TorWebSite | Dns | Sftp | Socks5Proxy | MtProxy | Telemt.
End Proto.
Abbreviation Proto := Proto.Proto.

Module ServiceType.
Inductive ServiceType := None | Vpn | Other.
End ServiceType.
Abbreviation ServiceType := ServiceType.ServiceType.

Module TransportProto.
Inductive TransportProto := Udp | Tcp | TcpAndUdp.
End TransportProto.
Abbreviation TransportProto := TransportProto.TransportProto.

#[export] Instance DockerContainer_eq_dec : EqDecision DockerContainer.
Proof. solve_decision. Defined.
#[export] Instance Proto_eq_dec : EqDecision Proto.
Proof. solve_decision. Defined.
#[export] Instance ServiceType_eq_dec : EqDecision ServiceType.
Proof. solve_decision. Defined.
#[export] Instance TransportProto_eq_dec : EqDecision TransportProto.
Proof. solve_decision. Defined.

(** ** [QMetaEnum]: enumerators and their names *)
Definition DockerContainer_keys : list (DockerContainer * string) :=
  [(DockerContainer.None, "None"); (DockerContainer.Awg, "Awg"); (DockerContainer.Awg2, "Awg2");
   (DockerContainer.WireGuard, "WireGuard"); (DockerContainer.OpenVpn, "OpenVpn");
   (DockerContainer.Cloak, "Cloak"); (DockerContainer.ShadowSocks, "ShadowSocks");
   (DockerContainer.Ipsec, "Ipsec"); (DockerContainer.Xray, "Xray"); (DockerContainer.SSXray, "SSXray");
   (DockerContainer.TorWebSite, "TorWebSite"); (DockerContainer.Dns, "Dns"); (DockerContainer.Sftp, "Sftp");
   (DockerContainer.Socks5Proxy, "Socks5Proxy"); (DockerContainer.MtProxy, "MtProxy");
   (DockerContainer.Telemt, "Telemt")].

Definition Proto_keys : list (Proto * string) :=
  [(Proto.Unknown, "Unknown"); (Proto.OpenVpn, "OpenVpn"); (Proto.WireGuard, "WireGuard");
   (Proto.Awg, "Awg"); (Proto.Ikev2, "Ikev2"); (Proto.Xray, "Xray"); (Proto.SSXray, "SSXray");
   (Proto.TorWebSite, "TorWebSite"); (Proto.Dns, "Dns"); (Proto.Sftp, "Sftp");
   (Proto.Socks5Proxy, "Socks5Proxy"); (Proto.MtProxy, "MtProxy"); (Proto.Telemt, "Telemt")].

Definition TransportProto_keys : list (TransportProto * string) :=
  [(TransportProto.Udp, "Udp"); (TransportProto.Tcp, "Tcp"); (TransportProto.TcpAndUdp, "TcpAndUdp")].

(** [valueToKey] and [QMap::value]: the text of the first matching entry. *)
Fixpoint valueToKey {A} `{EqDecision A} (l : list (A * string)) (x : A) : string :=
  match l with
  | [] => ""
  | (y, key) :: l' => if decide (x = y) then key else valueToKey l' x
  end.

(** [for (i < keyCount()) if (test) return static_cast<A>(i);] *)
Fixpoint first_value {A} (l : list (A * string)) (test : A → bool) (default : A) : A :=
  match l with
  | [] => default
  | (y, _) :: l' => if test y then y else first_value l' test default
  end.

(** ** [ProtocolUtils] *)
Definition allProtocols : list Proto := Proto_keys.*1.

Definition protoToString (p : Proto) : string :=
  match p with
  | Proto.Unknown => ""
  | _ => toLower (valueToKey Proto_keys p)
  end.

Definition protoFromString (proto : string) : Proto :=
  first_value Proto_keys (λ p, String.eqb proto (protoToString p)) Proto.Unknown.

Definition transportProtoToString (proto : TransportProto) : string :=
  toLower (valueToKey TransportProto_keys proto).

Definition transportProtoFromString (p : string) : TransportProto :=
  first_value TransportProto_keys
    (λ tp, String.eqb (toLower p) (toLower (transportProtoToString tp))) TransportProto.Udp.

Definition protocolHumanNames : list (Proto * string) :=
  [(Proto.OpenVpn, "OpenVPN"); (Proto.WireGuard, "WireGuard"); (Proto.Awg, "AmneziaWG");
   (Proto.Ikev2, "IKEv2"); (Proto.Xray, "XRay"); (Proto.SSXray, "Shadowsocks");
   (Proto.TorWebSite, "Website in Tor network"); (Proto.Dns, "DNS Service");
   (Proto.Sftp, "SFTP service"); (Proto.Socks5Proxy, "SOCKS5 proxy server");
   (Proto.MtProxy, "MTProxy (Telegram)"); (Proto.Telemt, "Telemt (Telegram)")].

Definition protocolService (p : Proto) : ServiceType :=
  match p with
  | Proto.Unknown | Proto.SSXray => ServiceType.None
  | Proto.OpenVpn | Proto.WireGuard | Proto.Awg | Proto.Ikev2 | Proto.Xray => ServiceType.Vpn
  | Proto.TorWebSite | Proto.Dns | Proto.Sftp | Proto.Socks5Proxy | Proto.MtProxy | Proto.Telemt =>
      ServiceType.Other
  end.

Definition defaultPort (p : Proto) : Z :=
  match p with
  | Proto.Unknown => -1
  | Proto.OpenVpn => 1194
  | Proto.WireGuard => 51820
  | Proto.Awg => 55424
  | Proto.Xray => 443
  | Proto.Ikev2 | Proto.TorWebSite => -1
  | Proto.Dns => 53
  | Proto.Sftp => 222
  | Proto.Socks5Proxy => 38080
  | Proto.MtProxy => 443
  | Proto.Telemt => 443
  | Proto.SSXray => -1
  end.

(** [random] is [QRandomGenerator::global()->bounded(30000, 50000)]. *)
Definition getPortForInstall (random : Z) (p : Proto) : Z :=
  match p with
  | Proto.Awg | Proto.WireGuard | Proto.OpenVpn | Proto.Socks5Proxy => random
  | _ => defaultPort p
  end.

Definition defaultPortChangeable (p : Proto) : bool :=
  match p with
  | Proto.OpenVpn | Proto.WireGuard | Proto.Awg | Proto.Xray | Proto.Sftp | Proto.Socks5Proxy
  | Proto.MtProxy | Proto.Telemt => true
  | Proto.Unknown | Proto.Ikev2 | Proto.TorWebSite | Proto.Dns | Proto.SSXray => false
  end.

Definition defaultTransportProto (p : Proto) : TransportProto :=
  match p with
  | Proto.Unknown | Proto.OpenVpn | Proto.WireGuard | Proto.Awg | Proto.Ikev2 | Proto.Dns =>
      TransportProto.Udp
  | Proto.Xray | Proto.SSXray | Proto.TorWebSite | Proto.Sftp | Proto.Socks5Proxy | Proto.MtProxy
  | Proto.Telemt => TransportProto.Tcp
  end.

Definition defaultTransportProtoChangeable (p : Proto) : bool :=
  match p with
  | Proto.OpenVpn => true
  | _ => false
  end.

Definition key_proto_config_data (p : Proto) : string := protoToString p +:+ "_config_data".
Definition key_proto_config_path (p : Proto) : string := protoToString p +:+ "_config_path".

Definition getProtocolVersion (protocolConfig : gmap string json) : string :=
  str (toString (value protocolConfig "protocol_version")).

Definition getProtocolVersionString (protocolConfig : gmap string json) : string :=
  let version := getProtocolVersion protocolConfig in
  if String.eqb version "2" then " (version 2)"
  else if String.eqb version "1.5" then " (version 1.5)"
  else "".

(** ** [ContainerUtils] *)
Definition containerToString (c : DockerContainer) : string :=
  match c with
  | DockerContainer.None => "none"
  | DockerContainer.Cloak => "amnezia-openvpn-cloak"
  | DockerContainer.Awg => "amnezia-awg"
  | DockerContainer.Awg2 => "amnezia-awg2"
  | _ => "amnezia-" +:+ toLower (valueToKey DockerContainer_keys c)
  end.

Definition containerFromString (container : string) : DockerContainer :=
  first_value DockerContainer_keys (λ c, String.eqb container (containerToString c)) DockerContainer.None.

Definition containerTypeToString (c : DockerContainer) : string :=
  match c with
  | DockerContainer.None => "none"
  | DockerContainer.Ipsec => "ikev2"
  | DockerContainer.Awg => "awg"
  | DockerContainer.Awg2 => "awg"
  | _ => toLower (valueToKey DockerContainer_keys c)
  end.

Definition allContainers : list DockerContainer := DockerContainer_keys.*1.

Definition containerHumanNames : list (DockerContainer * string) :=
  [(DockerContainer.None, "Not installed"); (DockerContainer.OpenVpn, "OpenVPN");
   (DockerContainer.ShadowSocks, "OpenVPN over SS"); (DockerContainer.Cloak, "OpenVPN over Cloak");
   (DockerContainer.WireGuard, "WireGuard"); (DockerContainer.Awg, "AmneziaWG");
   (DockerContainer.Awg2, "AmneziaWG"); (DockerContainer.Xray, "XRay"); (DockerContainer.Ipsec, "IPsec");
   (DockerContainer.SSXray, "Shadowsocks"); (DockerContainer.TorWebSite, "Website in Tor network");
   (DockerContainer.Dns, "AmneziaDNS"); (DockerContainer.Sftp, "SFTP file sharing service");
   (DockerContainer.Socks5Proxy, "SOCKS5 proxy server"); (DockerContainer.MtProxy, "MTProxy (Telegram)");
   (DockerContainer.Telemt, "Telemt (Telegram)")].

Definition defaultProtocol (c : DockerContainer) : Proto :=
  match c with
  | DockerContainer.None => Proto.Unknown
  | DockerContainer.OpenVpn => Proto.OpenVpn
  | DockerContainer.Cloak | DockerContainer.ShadowSocks => Proto.Unknown
  | DockerContainer.WireGuard => Proto.WireGuard
  | DockerContainer.Awg2 => Proto.Awg
  | DockerContainer.Awg => Proto.Awg
  | DockerContainer.Xray => Proto.Xray
  | DockerContainer.Ipsec => Proto.Ikev2
  | DockerContainer.SSXray => Proto.SSXray
  | DockerContainer.TorWebSite => Proto.TorWebSite
  | DockerContainer.Dns => Proto.Dns
  | DockerContainer.Sftp => Proto.Sftp
  | DockerContainer.Socks5Proxy => Proto.Socks5Proxy
  | DockerContainer.MtProxy => Proto.MtProxy
  | DockerContainer.Telemt => Proto.Telemt
  end.

Definition isAwgContainer (c : DockerContainer) : bool :=
  bool_decide (c = DockerContainer.Awg) || bool_decide (c = DockerContainer.Awg2).

Definition isUnsupportedContainer (c : DockerContainer) : bool :=
  bool_decide (c = DockerContainer.Cloak) || bool_decide (c = DockerContainer.ShadowSocks).

Definition containerService (c : DockerContainer) : ServiceType :=
  if isUnsupportedContainer c then ServiceType.Vpn else protocolService (defaultProtocol c).

Definition containerTypeToProtocolString (c : DockerContainer) : string :=
  match c with
  | DockerContainer.None => "none"
  | _ => protoToString (defaultProtocol c)
  end.

(** The builds the preprocessor distinguishes, in the order it tests them. *)
Inductive build := BuildWindows | BuildIOS | BuildMacOSNE | BuildMac | BuildAndroid | BuildLinux | BuildOther.

Definition isSupportedByCurrentPlatform (b : build) (c : DockerContainer) : bool :=
  match b with
  | BuildWindows => true
  | BuildIOS | BuildAndroid =>
      match c with
      | DockerContainer.WireGuard | DockerContainer.OpenVpn | DockerContainer.Awg2 | DockerContainer.Awg
      | DockerContainer.Xray | DockerContainer.SSXray | DockerContainer.MtProxy | DockerContainer.Telemt => true
      | _ => false
      end
  | BuildMacOSNE =>
      match c with
      | DockerContainer.OpenVpn => true
      | DockerContainer.Cloak | DockerContainer.ShadowSocks => false
      | DockerContainer.WireGuard | DockerContainer.Awg2 | DockerContainer.Awg | DockerContainer.Xray
      | DockerContainer.SSXray | DockerContainer.MtProxy | DockerContainer.Telemt => true
      | _ => false
      end
  | BuildMac | BuildLinux =>
      match c with
      | DockerContainer.Ipsec => false
      | _ => true
      end
  | BuildOther => false
  end.

Definition fixedPortsForContainer (c : DockerContainer) : list string :=
  match c with
  | DockerContainer.Ipsec => ["500"; "4500"]
  | _ => []
  end.

Definition isEasySetupContainer (c : DockerContainer) : bool :=
  match c with
  | DockerContainer.Awg2 => true
  | _ => false
  end.

Definition easySetupOrder (c : DockerContainer) : Z :=
  match c with
  | DockerContainer.Awg2 => 1
  | _ => 0
  end.

Definition isShareable (c : DockerContainer) : bool :=
  if isUnsupportedContainer c then false else
  match c with
  | DockerContainer.TorWebSite | DockerContainer.Dns | DockerContainer.Sftp | DockerContainer.Socks5Proxy
  | DockerContainer.MtProxy | DockerContainer.Telemt => false
  | _ => true
  end.

Definition installPageOrder (c : DockerContainer) : Z :=
  match c with
  | DockerContainer.OpenVpn => 4
  | DockerContainer.WireGuard => 2
  | DockerContainer.Awg2 => 1
  | DockerContainer.Xray => 3
  | DockerContainer.Ipsec => 7
  | DockerContainer.SSXray => 8
  | DockerContainer.MtProxy | DockerContainer.Telemt => 20
  | _ => 0
  end.

(** ** Lemmas *)
Lemma DockerContainer_listed c : c ∈ allContainers.
Proof. destruct c; vm_compute; listed. Qed.

Lemma first_value_default {A} (l : list (A * string)) test d :
  first_value l test d ≠ d → test (first_value l test d) = true.
Proof. induction l as [|[y k] l IH]; cbn; [done|]. destruct (test y) eqn:E; auto. Qed.

Lemma container_eqb_spec (s : string) c : containerFromString s = c → c ≠ DockerContainer.None → s = containerToString c.
Proof.
  intros <- Hc. apply String.eqb_eq.
  by apply (first_value_default DockerContainer_keys (λ c, String.eqb s (containerToString c))).
Qed.

Lemma containerToString_inj : Inj (=) (=) containerToString.
Proof. intros a b. destruct a, b; intros H; solve [reflexivity | discriminate H]. Qed.

Lemma install_ports (random : Z) (p : Proto) :
  30000 ≤ random < 50000 →
  (getPortForInstall random p = -1 ∨ 0 < getPortForInstall random p < 65536) ∧
  (defaultPortChangeable p = true → 0 < getPortForInstall random p ∧ 0 < defaultPort p < 65536).
Proof. intros Hr. destruct p; cbn; split; try lia; done. Qed.

(** ** Properties *)

(** The names under which containers and protocols are stored identify them:
    printing and reading back gives the container, and the protocol, itself; a
    text that is the name of no container is read as [None]; and every
    container the client installs names the protocol it runs. *)
Theorem names_roundtrip :
  (∀ c, containerFromString (containerToString c) = c) ∧
  (∀ s, containerFromString s = DockerContainer.None ∨ s = containerToString (containerFromString s)) ∧
  (∀ p, protoFromString (protoToString p) = p) ∧
  (∀ t, transportProtoFromString (transportProtoToString t) = t) ∧
  (∀ c, protoFromString (protoToString (defaultProtocol c)) = Proto.Unknown ↔
        c = DockerContainer.None ∨ isUnsupportedContainer c = true).
Proof.
  split_and!.
  - by intros [].
  - intros s. destruct (decide (containerFromString s = DockerContainer.None)); [by left|right].
    by apply container_eqb_spec.
  - by intros [].
  - by intros [].
  - intros []; vm_compute; naive_solver.
Qed.
