(* ===== verification/IpAddress.v ===== *)
(** * IPAddress: addresses and subnets

    Models [client/mozilla/shared/ipaddress.cpp].  A host address is an IPv4
    address (a 32-bit integer) or an IPv6 one (sixteen bytes, most significant
    first); the operations work on the integer and on the bytes as the source
    does.  The specification reads both as one integer of the address width,
    and a subnet as the set of integers that share its prefix. *)
From S2P Require Import Prelude.

(** ** Data *)
Inductive NetworkLayerProtocol := IPv4Protocol | IPv6Protocol | UnknownNetworkLayerProtocol.

#[export] Instance NetworkLayerProtocol_eq_dec : EqDecision NetworkLayerProtocol.
Proof. solve_decision. Defined.

(** [QHostAddress]: null, a [quint32], or a [Q_IPV6ADDR]. *)
Inductive QHostAddress :=
  | HostNull
  | HostV4 (a : Z)
  | HostV6 (a : list Z).

#[export] Instance QHostAddress_eq_dec : EqDecision QHostAddress.
Proof. solve_decision. Defined.

Definition protocol (h : QHostAddress) : NetworkLayerProtocol :=
  match h with
  | HostNull => UnknownNetworkLayerProtocol
  | HostV4 _ => IPv4Protocol
  | HostV6 _ => IPv6Protocol
  end.

Definition toIPv4Address (h : QHostAddress) : Z := match h with HostV4 a => a | _ => 0 end.
Definition toIPv6Address (h : QHostAddress) : list Z :=
  match h with HostV6 a => a | _ => replicate 16 0 end.

Record IPAddress := mkIPAddress {
  m_address : QHostAddress;
  m_prefixLength : Z;
}.

#[export] Instance IPAddress_eq_dec : EqDecision IPAddress.
Proof. solve_decision. Defined.

#[export] Instance IPAddress_countable : Countable IPAddress.
Proof.
  apply (inj_countable'
    (λ i, (match m_address i with
           | HostNull => inl tt
           | HostV4 a => inr (inl a)
           | HostV6 a => inr (inr a)
           end, m_prefixLength i))
    (λ p, mkIPAddress (match p.1 with
           | inl _ => HostNull
           | inr (inl a) => HostV4 a
           | inr (inr a) => HostV6 a
           end) p.2)).
  by intros [[] ?].
Defined.

Definition type (i : IPAddress) : NetworkLayerProtocol := protocol (m_address i).

(** [operator==] *)
Definition ip_eqb (i j : IPAddress) : bool :=
  bool_decide (m_address i = m_address j) && (m_prefixLength i =? m_prefixLength j).

Definition prefixLength (i : IPAddress) : Z := m_prefixLength i.

(** ** Constructors *)

(** [IPAddress(const QHostAddress&)] *)
Definition IPAddress_of_host (h : QHostAddress) : IPAddress :=
  match protocol h with
  | IPv4Protocol => mkIPAddress h 32
  | _ => mkIPAddress h 128
  end.

(** [IPAddress(const QString&)].  Parsing a host address and a subnet is Qt's. *)
Section parse.
Context (QHostAddress_parse : string → QHostAddress)
        (parseSubnet : string → QHostAddress * Z)
        (has_slash : string → bool).

Definition IPAddress_of_string (ip : string) : IPAddress :=
  let '(a, p) := if has_slash ip then parseSubnet ip
                 else (QHostAddress_parse ip, 999999) in
  let p := match protocol a with
           | IPv4Protocol => if 32 <=? p then 32 else p
           | IPv6Protocol => if 128 <=? p then 128 else p
           | UnknownNetworkLayerProtocol => p
           end in
  mkIPAddress a p.
End parse.

(** ** Masks *)

Definition quint32_max : Z := 4294967295.

(** [memset(&raw[from], 0xff, to - from)] *)
Definition memset_ff (from to : nat) (raw : list Z) : list Z :=
  take from raw ++ replicate (to - from) 255 ++ drop to raw.

Definition netmask (i : IPAddress) : QHostAddress :=
  let p := m_prefixLength i in
  match protocol (m_address i) with
  | IPv6Protocol =>
      let raw := memset_ff 0 (Z.to_nat (p / 8)) (replicate 16 0) in
      HostV6 (if p mod 8 =? 0 then raw
              else <[Z.to_nat (p / 8) := Z.lxor 255 (Z.shiftr 255 (p mod 8))]> raw)
  | IPv4Protocol =>
      HostV4 (if p <? 32 then Z.lxor quint32_max (Z.shiftr quint32_max p) else quint32_max)
  | UnknownNetworkLayerProtocol => HostNull
  end.

Definition hostmask (i : IPAddress) : QHostAddress :=
  let p := m_prefixLength i in
  match protocol (m_address i) with
  | IPv6Protocol =>
      let raw := memset_ff (Z.to_nat ((p + 7) / 8)) 16 (replicate 16 0) in
      HostV6 (if p mod 8 =? 0 then raw
              else <[Z.to_nat (p / 8) := Z.shiftr 255 (p mod 8)]> raw)
  | IPv4Protocol => HostV4 (if p <? 32 then Z.shiftr quint32_max p else 0)
  | UnknownNetworkLayerProtocol => HostNull
  end.

Definition broadcastAddress (i : IPAddress) : QHostAddress :=
  let p := m_prefixLength i in
  match protocol (m_address i) with
  | IPv6Protocol =>
      let raw := memset_ff (Z.to_nat ((p + 7) / 8)) 16 (toIPv6Address (m_address i)) in
      HostV6 (if p mod 8 =? 0 then raw
              else alter (λ b, Z.lor b (Z.shiftr 255 (p mod 8))) (Z.to_nat (p / 8)) raw)
  | IPv4Protocol =>
      let raw := toIPv4Address (m_address i) in
      HostV4 (if p <? 32 then Z.lor raw (Z.shiftr quint32_max p) else raw)
  | UnknownNetworkLayerProtocol => HostNull
  end.

(** ** Membership *)

Definition ip_contains (i : IPAddress) (address : QHostAddress) : bool :=
  let p := m_prefixLength i in
  if negb (bool_decide (protocol address = protocol (m_address i))) then false
  else if p =? 0 then true
  else match protocol (m_address i) with
  | IPv6Protocol =>
      let a := toIPv6Address (m_address i) in
      let b := toIPv6Address address in
      let bytes := Z.to_nat (p / 8) in
      if negb (bool_decide (take bytes a = take bytes b)) then false
      else if negb (p mod 8 =? 0) then
        Z.shiftr (Z.lxor (nth bytes a 0) (nth bytes b 0)) (8 - p mod 8) =? 0
      else true
  | IPv4Protocol =>
      let diff := Z.lxor (toIPv4Address (m_address i)) (toIPv4Address address) in
      (if p <? 32 then Z.shiftr diff (32 - p) else diff) =? 0
  | UnknownNetworkLayerProtocol => false
  end.

Definition overlaps (i other : IPAddress) : bool :=
  if m_prefixLength i <? m_prefixLength other
  then ip_contains i (m_address other)
  else ip_contains other (m_address i).

Definition subnetOf (i other : IPAddress) : bool :=
  if negb (bool_decide (protocol (m_address other) = protocol (m_address i))) then false
  else if m_prefixLength i <? m_prefixLength other then false
  else ip_contains other (m_address i).

(** ** Splitting and exclusion *)

Definition subnets (i : IPAddress) : list IPAddress :=
  let p := m_prefixLength i in
  match protocol (m_address i) with
  | IPv4Protocol =>
      if 32 <=? p then [i]
      else let raw := toIPv4Address (m_address i) in
           [mkIPAddress (HostV4 raw) (p + 1);
            mkIPAddress (HostV4 (Z.lor raw (Z.shiftr 2147483648 p))) (p + 1)]
  | _ =>
      if 128 <=? p then [i]
      else let raw := toIPv6Address (m_address i) in
           [mkIPAddress (HostV6 raw) (p + 1);
            mkIPAddress (HostV6 (alter (λ b, Z.lor b (Z.shiftr 128 (p mod 8)))
                                       (Z.to_nat (p / 8)) raw)) (p + 1)]
  end.

(** The outcome of [excludeAddresses(const IPAddress&)]: the list it returns,
    the read of [sn[1]] in a list of one element, or no more fuel.  The source
    keeps looping when the excluded subnet is in neither half (its assertion is
    compiled out), so that branch recurses on an unchanged state. *)
Inductive exclusion :=
  | Excluded (result : list IPAddress)
  | IndexOutOfRange
  | OutOfFuel.

Fixpoint exclude_loop (fuel : nat) (ip : IPAddress) (sn result : list IPAddress) : exclusion :=
  match fuel with
  | O => OutOfFuel
  | S fuel' =>
      match sn with
      | sn0 :: rest =>
          if ip_eqb sn0 ip then
            match rest with
            | sn1 :: _ => Excluded (result ++ [sn1])
            | [] => IndexOutOfRange
            end
          else match rest with
          | [] => IndexOutOfRange
          | sn1 :: _ =>
              if ip_eqb sn1 ip then Excluded (result ++ [sn0])
              else if subnetOf ip sn0 then
                exclude_loop fuel' ip (subnets sn0) (result ++ [sn1])
              else if subnetOf ip sn1 then
                exclude_loop fuel' ip (subnets sn1) (result ++ [sn0])
              else exclude_loop fuel' ip sn result
          end
      | [] => IndexOutOfRange
      end
  end.

(** One more iteration than the longest prefix. *)
Definition exclude_fuel : nat := 129.

Definition excludeAddress (i ip : IPAddress) : exclusion :=
  exclude_loop exclude_fuel ip (subnets i) [].

Definition ex_app (r : exclusion) (f : list IPAddress → exclusion) : exclusion :=
  match r with Excluded l => f l | e => e end.

(** The inner loop of [excludeAddresses(sourceList, excludeList)]. *)
Fixpoint exclude_from (results : list IPAddress) (exclude : IPAddress) {struct results} : exclusion :=
  match results with
  | [] => Excluded []
  | ip :: rest =>
      let this :=
        if negb (overlaps ip exclude) then Excluded [ip]
        else if subnetOf exclude ip && negb (ip_eqb exclude ip) then excludeAddress ip exclude
        else Excluded [] in
      ex_app this (λ l, ex_app (exclude_from rest exclude) (λ r, Excluded (l ++ r)))
  end.

Fixpoint excludeAddresses (sourceList excludeList : list IPAddress) {struct excludeList} : exclusion :=
  match excludeList with
  | [] => Excluded sourceList
  | exclude :: rest => ex_app (exclude_from sourceList exclude) (λ r, excludeAddresses r rest)
  end.

(** ** Numeric reading of addresses *)

#[local] Coercion Z.of_nat : nat >-> Z.

Definition byte (b : Z) : Prop := 0 ≤ b < 256.

Fixpoint be_num (l : list Z) : Z :=
  match l with
  | [] => 0
  | x :: l' => x * 2 ^ (8 * length l') + be_num l'
  end.

Definition width (h : QHostAddress) : Z :=
  match h with HostV4 _ => 32 | _ => 128 end.

Definition host_num (h : QHostAddress) : Z :=
  match h with HostNull => 0 | HostV4 a => a | HostV6 l => be_num l end.

Definition wf_host (h : QHostAddress) : Prop :=
  match h with
  | HostNull => False
  | HostV4 a => 0 ≤ a < 2 ^ 32
  | HostV6 l => length l = 16%nat ∧ Forall byte l
  end.

(** The low bits a prefix leaves free, and the block number of an address. *)
Definition free_bits (i : IPAddress) : Z := width (m_address i) - m_prefixLength i.
Definition block (i : IPAddress) (h : QHostAddress) : Z := host_num h / 2 ^ free_bits i.

Definition wf_ip (i : IPAddress) : Prop :=
  wf_host (m_address i) ∧ 0 ≤ m_prefixLength i ≤ width (m_address i).

(** The host bits of the address are clear. *)
Definition canonical (i : IPAddress) : Prop :=
  host_num (m_address i) mod 2 ^ free_bits i = 0.

Definition good (i : IPAddress) : Prop := wf_ip i ∧ canonical i.

(** Specification: [h] is in the subnet [i]. *)
Definition in_subnet (i : IPAddress) (h : QHostAddress) : Prop :=
  protocol h = protocol (m_address i) ∧ block i h = block i (m_address i).

(** ** Arithmetic of prefixes *)

Lemma pow2_pos k : 0 ≤ k → 0 < 2 ^ k.
Proof. intros; apply Z.pow_pos_nonneg; lia. Qed.

Lemma pow2_split k m : 0 ≤ k ≤ m → 2 ^ m = 2 ^ k * 2 ^ (m - k).
Proof. intros. rewrite <- Z.pow_add_r by lia. f_equal; lia. Qed.

Lemma div_pow2_coarser a b k m :
  0 ≤ k ≤ m → a / 2 ^ k = b / 2 ^ k → a / 2 ^ m = b / 2 ^ m.
Proof.
  intros Hk H. rewrite (pow2_split k m Hk).
  pose proof (pow2_pos k); pose proof (pow2_pos (m - k)).
  rewrite <- !Z.div_div by lia. by rewrite H.
Qed.

Lemma div_pow2_head x r k m :
  0 ≤ k ≤ m → 0 ≤ r < 2 ^ m → (x * 2 ^ m + r) / 2 ^ k = x * 2 ^ (m - k) + r / 2 ^ k.
Proof.
  intros Hk Hr. rewrite (pow2_split k m Hk) at 1.
  pose proof (pow2_pos k).
  replace (x * (2 ^ k * 2 ^ (m - k)) + r) with (r + x * 2 ^ (m - k) * 2 ^ k) by ring.
  rewrite Z.div_add by lia. lia.
Qed.

Lemma div_pow2_high x r k m :
  0 ≤ m ≤ k → 0 ≤ r < 2 ^ m → (x * 2 ^ m + r) / 2 ^ k = x / 2 ^ (k - m).
Proof.
  intros Hk Hr. rewrite (pow2_split m k Hk).
  pose proof (pow2_pos m); pose proof (pow2_pos (k - m)).
  rewrite <- Z.div_div by lia. f_equal.
  rewrite Z.add_comm, Z.div_add, Z.div_small by lia. lia.
Qed.

Lemma mul_add_inj P x y r s :
  0 ≤ r < P → 0 ≤ s < P → x * P + r = y * P + s → x = y ∧ r = s.
Proof. intros. apply (Z.div_mod_unique P); lia. Qed.

(** ** Byte strings *)

Lemma be_num_bound l : Forall byte l → 0 ≤ be_num l < 2 ^ (8 * length l).
Proof.
  induction 1 as [|x l Hx Hl IH]; [done|]. cbn [be_num length].
  rewrite Nat2Z.inj_succ, Z.mul_succ_r, Z.pow_add_r by lia. unfold byte in *. nia.
Qed.

Lemma be_num_cons_inj x y l k :
  length l = length k → Forall byte l → Forall byte k →
  be_num (x :: l) = be_num (y :: k) → x = y ∧ be_num l = be_num k.
Proof.
  intros Hlen Hl Hk. cbn [be_num]. pose proof (be_num_bound l Hl) as Bl.
  pose proof (be_num_bound k Hk) as Bk. rewrite <- Hlen in *. by apply mul_add_inj.
Qed.

Lemma be_num_inj l k :
  length l = length k → Forall byte l → Forall byte k → be_num l = be_num k → l = k.
Proof.
  revert k; induction l as [|x l IH]; intros [|y k]; try done.
  intros [= Hlen] Hl%Forall_cons Hk%Forall_cons Heq.
  destruct (be_num_cons_inj x y l k) as [-> ?]; naive_solver.
Qed.

Lemma step_ge_8 p : 8 ≤ p →
  Z.to_nat (p / 8) = S (Z.to_nat ((p - 8) / 8)) ∧ p mod 8 = (p - 8) mod 8.
Proof.
  intros. replace p with ((p - 8) + 1 * 8) at 1 3 by lia.
  rewrite Z.div_add, Z.mod_add by lia. split; [|done].
  pose proof (Z.div_pos (p - 8) 8). lia.
Qed.

Lemma step_lt_8 p : 0 ≤ p < 8 → Z.to_nat (p / 8) = 0%nat ∧ p mod 8 = p.
Proof. intros. by rewrite Z.div_small, Z.mod_small by lia. Qed.

(** The two byte comparisons of [contains]. *)
Definition bytes_match (a b : list Z) (p : Z) : bool :=
  bool_decide (take (Z.to_nat (p / 8)) a = take (Z.to_nat (p / 8)) b) &&
  ((p mod 8 =? 0) ||
   (Z.shiftr (Z.lxor (nth (Z.to_nat (p / 8)) a 0) (nth (Z.to_nat (p / 8)) b 0)) (8 - p mod 8) =? 0)).

Lemma bytes_match_spec a b p :
  length a = length b → Forall byte a → Forall byte b → 0 ≤ p ≤ 8 * length a →
  bytes_match a b p = true ↔
  be_num a / 2 ^ (8 * length a - p) = be_num b / 2 ^ (8 * length a - p).
Proof.
  revert b p; induction a as [|x a IH]; intros [|y b] p; try done.
  { intros _ _ _ Hp. assert (p = 0) as -> by (cbn in Hp; lia). done. }
  intros [= Hlen] [Hx Ha]%Forall_cons [Hy Hb]%Forall_cons Hp.
  cbn [length] in *. rewrite Nat2Z.inj_succ in *.
  pose proof (be_num_bound a Ha) as Ba. pose proof (be_num_bound b Hb) as Bb.
  rewrite <- Hlen in Bb. cbn [be_num]. rewrite <- Hlen. unfold bytes_match.
  destruct (Z.lt_ge_cases p 8) as [Hlt|Hge].
  - destruct (step_lt_8 p) as [-> ->]; [lia|]. cbn [take nth].
    rewrite !div_pow2_high by lia.
    replace (8 * Z.succ (length a) - p - 8 * length a) with (8 - p) by lia.
    rewrite bool_decide_true by done. cbn [andb].
    destruct (Z.eqb_spec p 0) as [->|Hp0]; cbn [orb].
    + unfold byte in *. rewrite !Z.div_small by (change (2 ^ (8 - 0)) with 256; lia). done.
    + rewrite Z.eqb_eq. apply shiftr_lxor_eq_0. lia.
  - destruct (step_ge_8 p Hge) as [-> ->]. cbn [take nth].
    replace (8 * Z.succ (length a) - p) with (8 * length a - (p - 8)) by lia.
    rewrite !div_pow2_head by lia.
    specialize (IH b (p - 8) Hlen Ha Hb ltac:(lia)). unfold bytes_match in IH.
    assert (∀ z : Z, 0 ≤ z < 2 ^ (8 * length a) →
      0 ≤ z / 2 ^ (8 * length a - (p - 8)) < 2 ^ (8 * length a - (8 * length a - (p - 8)))) as Bq.
    { intros z Hz. pose proof (pow2_pos (8 * length a - (p - 8))).
      split; [apply Z.div_pos; lia|]. apply Z.div_lt_upper_bound; [lia|].
      rewrite <- pow2_split by lia. lia. }
    pose proof (Bq _ Ba) as Qa. pose proof (Bq _ Bb) as Qb.
    revert IH Qa Qb. set (qa := be_num a / _). set (qb := be_num b / _).
    set (M := 2 ^ (_ - _)). set (rest := (_ || _)). intros IH Qa Qb.
    rewrite andb_true_iff, bool_decide_eq_true in IH |- *.
    split.
    + intros [[= -> Ht] Hr]. rewrite (proj1 IH (conj Ht Hr)). done.
    + intros Heq. destruct (mul_add_inj M x y qa qb) as [-> Hq]; [done..|].
      destruct (proj2 IH Hq) as [-> ?]. done.
Qed.

(** ** [contains] *)

Lemma contains_iff i h :
  wf_ip i → wf_host h → ip_contains i h = true ↔ in_subnet i h.
Proof.
  destruct i as [a p]. intros [Ha Hp] Hh. unfold ip_contains, in_subnet, block, free_bits. cbn in *.
  case_bool_decide as Hpr; cbn; [|by split; [|intros []]].
  destruct (Z.eqb_spec p 0) as [->|Hp0].
  { split; [intros _|done]. split; [done|].
    destruct a, h; try done; cbn in *; rewrite !Z.div_small; try done; try lia.
    - pose proof (be_num_bound a (proj2 Ha)). destruct Ha as [H16 ?]; rewrite H16 in *; cbn in *; lia.
    - pose proof (be_num_bound a0 (proj2 Hh)). destruct Hh as [H16 ?]; rewrite H16 in *; cbn in *; lia. }
  destruct a as [|a|a], h as [|h|h]; try done; cbn in *.
  - rewrite Z.eqb_eq. case_head; split_bools.
    + rewrite shiftr_lxor_eq_0 by lia. naive_solver.
    + assert (p = 32) as -> by lia. change (2 ^ (32 - 32)) with 1.
      rewrite !Z.div_1_r, Z.lxor_eq_0_iff. naive_solver.
  - destruct Ha as [La Ha], Hh as [Lh Hh].
    pose proof (bytes_match_spec a h p) as Hm. rewrite La, Lh in Hm.
    specialize (Hm eq_refl Ha Hh ltac:(lia)).
    change (8 * 16%nat) with 128 in Hm.
    rewrite (and_comm (IPv6Protocol = _)), (eq_comm (be_num h / _)), <- Hm.
    unfold bytes_match. case_bool_decide; cbn; [|naive_solver].
    destruct (Z.eqb_spec (p mod 8) 0); cbn; naive_solver.
Qed.

(** ** Masks *)

Lemma pow2_8S (n : nat) : 2 ^ (8 * S n) = 256 * 2 ^ (8 * n).
Proof. rewrite Nat2Z.inj_succ, Z.mul_succ_r, Z.pow_add_r by lia. lia. Qed.

Lemma be_num_ff (n : nat) : be_num (replicate n 255) = 2 ^ (8 * n) - 1.
Proof.
  induction n as [|n IH]; [done|]. cbn [replicate be_num].
  rewrite length_replicate, IH, pow2_8S. lia.
Qed.

Lemma be_num_00 (n : nat) : be_num (replicate n 0) = 0.
Proof. induction n as [|n IH]; [done|]. cbn [replicate be_num]. lia. Qed.

(** Masks of one byte, by exhaustion over the eight shifts. *)
Lemma byte_masks p : 0 < p < 8 →
  Z.shiftr 255 p = 2 ^ (8 - p) - 1 ∧ Z.lxor 255 (Z.shiftr 255 p) = 256 - 2 ^ (8 - p).
Proof.
  intros. assert (p = 1 ∨ p = 2 ∨ p = 3 ∨ p = 4 ∨ p = 5 ∨ p = 6 ∨ p = 7) as Hc by lia.
  by destruct Hc as [->|[->|[->|[->|[->|[->| ->]]]]]].
Qed.

Lemma quint32_mask p : 0 ≤ p → p < 32 → Z.shiftr quint32_max p = 2 ^ (32 - p) - 1.
Proof.
  intros. unfold quint32_max. change 4294967295 with (2 ^ 32 - 1).
  rewrite Z.shiftr_div_pow2 by lia.
  rewrite (pow2_split p 32) by lia. pose proof (pow2_pos p); pose proof (pow2_pos (32 - p)).
  symmetry. apply Z.div_unique with (2 ^ p - 1); nia.
Qed.

Definition netmask_bytes (n : nat) (p : Z) : list Z :=
  let raw := memset_ff 0 (Z.to_nat (p / 8)) (replicate n 0) in
  if p mod 8 =? 0 then raw
  else <[Z.to_nat (p / 8) := Z.lxor 255 (Z.shiftr 255 (p mod 8))]> raw.

Definition hostmask_bytes (n : nat) (p : Z) : list Z :=
  let raw := memset_ff (Z.to_nat ((p + 7) / 8)) n (replicate n 0) in
  if p mod 8 =? 0 then raw else <[Z.to_nat (p / 8) := Z.shiftr 255 (p mod 8)]> raw.

Definition broadcast_bytes (p : Z) (a : list Z) : list Z :=
  let raw := memset_ff (Z.to_nat ((p + 7) / 8)) (length a) a in
  if p mod 8 =? 0 then raw
  else alter (λ b, Z.lor b (Z.shiftr 255 (p mod 8))) (Z.to_nat (p / 8)) raw.

Lemma insert_S {A} (x y : A) l k : <[S k := y]> (x :: l) = x :: <[k := y]> l.
Proof. done. Qed.
Lemma alter_S {A} (x : A) f l k : alter f (S k) (x :: l) = x :: alter f k l.
Proof. done. Qed.

Lemma memset_ff_all raw : memset_ff 0 (length raw) raw = replicate (length raw) 255.
Proof. unfold memset_ff. rewrite drop_ge by done. by rewrite app_nil_r, Nat.sub_0_r. Qed.
Lemma memset_ff_S from to x raw : memset_ff (S from) (S to) (x :: raw) = x :: memset_ff from to raw.
Proof. done. Qed.
Lemma memset_ff_zeros n : memset_ff 0 n (replicate n 0) = replicate n 255.
Proof.
  pose proof (memset_ff_all (replicate n 0)) as H. by rewrite length_replicate in H.
Qed.

Lemma step7_ge_8 p : 8 ≤ p → Z.to_nat ((p + 7) / 8) = S (Z.to_nat ((p - 8 + 7) / 8)).
Proof.
  intros. replace (p + 7) with ((p - 8 + 7) + 1 * 8) by lia.
  rewrite Z.div_add by lia. pose proof (Z.div_pos (p - 8 + 7) 8). lia.
Qed.

Lemma step7_lt_8 p : 0 < p < 8 → Z.to_nat ((p + 7) / 8) = 1%nat.
Proof.
  intros. replace (p + 7) with (p - 1 + 1 * 8) by lia.
  by rewrite Z.div_add, Z.div_small by lia.
Qed.

Lemma netmask_bytes_num (n : nat) p :
  0 ≤ p ≤ 8 * n → be_num (netmask_bytes n p) = 2 ^ (8 * n) - 2 ^ (8 * n - p).
Proof.
  revert p; induction n as [|n IH]; intros p Hp.
  { assert (p = 0) as -> by lia. done. }
  unfold netmask_bytes, memset_ff in *. rewrite pow2_8S.
  destruct (Z.lt_ge_cases p 8) as [Hlt|Hge].
  - destruct (step_lt_8 p) as [-> ->]; [lia|]. destruct (Z.eqb_spec p 0) as [->|Hp0].
    + cbn. rewrite be_num_00, Z.sub_0_r, <- pow2_8S. cbn [length]. lia.
    + cbn [replicate take drop app insert list_insert Nat.sub be_num].
      rewrite length_replicate, be_num_00, (proj2 (byte_masks p ltac:(lia))).
      replace (8 * S n - p) with (8 * n + (8 - p)) by lia. rewrite Z.pow_add_r by lia. lia.
  - destruct (step_ge_8 p Hge) as [-> ->].
    replace (8 * S n - p) with (8 * n - (p - 8)) by lia.
    specialize (IH (p - 8) ltac:(lia)).
    set (k := Z.to_nat ((p - 8) / 8)) in *.
    rewrite Nat.sub_0_r in *. rewrite take_0, app_nil_l in *.
    cbn [replicate drop app].
    assert (length (replicate k 255 ++ drop k (replicate n 0)) = n) as Hlen.
    { rewrite length_app, length_replicate, length_drop, length_replicate.
      enough (k ≤ n)%nat by lia. unfold k. assert ((p - 8) / 8 ≤ n) by (apply Z.div_le_upper_bound; lia). lia. }
    revert IH. destruct (_ =? 0); intros IH; rewrite ?insert_S; cbn [be_num];
      rewrite ?length_insert, Hlen, IH; lia.
Qed.

Lemma tail_index_le (n : nat) p : 8 ≤ p ≤ 8 * S n → (Z.to_nat ((p - 8 + 7) / 8) ≤ n)%nat.
Proof.
  intros. assert ((p - 8 + 7) / 8 < n + 1) by (apply Z.div_lt_upper_bound; lia).
  pose proof (Z.div_pos (p - 8 + 7) 8). lia.
Qed.

Lemma length_memset_ff from to raw :
  (from ≤ to)%nat → (to ≤ length raw)%nat → length (memset_ff from to raw) = length raw.
Proof.
  intros. unfold memset_ff.
  rewrite !length_app, length_take, length_replicate, length_drop. lia.
Qed.

Lemma hostmask_bytes_num (n : nat) p :
  0 ≤ p ≤ 8 * n → be_num (hostmask_bytes n p) = 2 ^ (8 * n - p) - 1.
Proof.
  revert p; induction n as [|n IH]; intros p Hp.
  { assert (p = 0) as -> by lia. done. }
  unfold hostmask_bytes in *.
  destruct (Z.lt_ge_cases p 8) as [Hlt|Hge].
  - destruct (step_lt_8 p) as [-> ->]; [lia|]. destruct (Z.eqb_spec p 0) as [->|Hp0].
    + change (Z.to_nat ((0 + 7) / 8)) with 0%nat.
      rewrite memset_ff_zeros, be_num_ff, Z.sub_0_r. done.
    + rewrite step7_lt_8 by lia. cbn [replicate].
      rewrite memset_ff_S, memset_ff_zeros. cbn [insert list_insert be_num].
      rewrite length_replicate, be_num_ff, (proj1 (byte_masks p ltac:(lia))).
      replace (8 * S n - p) with (8 * n + (8 - p)) by lia. rewrite Z.pow_add_r by lia. lia.
  - destruct (step_ge_8 p Hge) as [-> ->]. rewrite step7_ge_8 by done.
    replace (8 * S n - p) with (8 * n - (p - 8)) by lia.
    specialize (IH (p - 8) ltac:(lia)). pose proof (tail_index_le n p ltac:(lia)).
    set (k := Z.to_nat ((p - 8 + 7) / 8)) in *.
    cbn [replicate]. rewrite memset_ff_S.
    pose proof (length_memset_ff k n (replicate n 0) ltac:(done)
      ltac:(by rewrite length_replicate)) as Hlen. rewrite length_replicate in Hlen.
    revert IH. destruct (_ =? 0); intros IH; rewrite ?insert_S; cbn [be_num];
      rewrite ?length_insert, Hlen, IH; lia.
Qed.

Lemma broadcast_bytes_num p a :
  Forall byte a → 0 ≤ p ≤ 8 * length a →
  be_num (broadcast_bytes p a)
  = be_num a / 2 ^ (8 * length a - p) * 2 ^ (8 * length a - p) + 2 ^ (8 * length a - p) - 1.
Proof.
  intros Ha; revert p; induction Ha as [|x a Hx Ha IH]; intros p Hp.
  { assert (p = 0) as -> by (cbn in Hp; lia). done. }
  cbn [length] in *. unfold broadcast_bytes in *. cbn [length].
  pose proof (be_num_bound a Ha) as Ba.
  destruct (Z.lt_ge_cases p 8) as [Hlt|Hge].
  - destruct (step_lt_8 p) as [-> ->]; [lia|]. cbn [be_num].
    rewrite div_pow2_high by lia.
    replace (8 * S (length a) - p - 8 * length a) with (8 - p) by lia.
    replace (8 * S (length a) - p) with (8 * length a + (8 - p)) by lia.
    rewrite Z.pow_add_r by lia.
    destruct (Z.eqb_spec p 0) as [->|Hp0].
    + change (Z.to_nat ((0 + 7) / 8)) with 0%nat. change (S (length a)) with (length (x :: a)).
      rewrite memset_ff_all, be_num_ff. cbn [length]. rewrite pow2_8S.
      unfold byte in Hx. rewrite (Z.div_small x) by (change (2 ^ (8 - 0)) with 256; lia).
      change (2 ^ (8 - 0)) with 256. lia.
    + rewrite step7_lt_8, memset_ff_S, memset_ff_all by lia. cbn [alter list_alter be_num].
      rewrite length_replicate, be_num_ff, (proj1 (byte_masks p ltac:(lia))).
      pose proof (pow2_pos (8 - p)).
      rewrite lor_ones_div by lia. lia.
  - destruct (step_ge_8 p Hge) as [-> ->]. rewrite step7_ge_8 by done.
    replace (8 * S (length a) - p) with (8 * length a - (p - 8)) by lia.
    cbn [be_num]. rewrite div_pow2_head by lia.
    specialize (IH (p - 8) ltac:(lia)). pose proof (tail_index_le (length a) p ltac:(lia)).
    set (k := Z.to_nat ((p - 8 + 7) / 8)) in *.
    rewrite memset_ff_S.
    pose proof (length_memset_ff k (length a) a ltac:(done) ltac:(done)) as Hlen.
    revert IH. destruct (_ =? 0); intros IH; rewrite ?alter_S; cbn [be_num];
      rewrite ?length_alter, Hlen, IH;
      rewrite (pow2_split (8 * length a - (p - 8)) (8 * length a)) by lia; ring.
Qed.

(** ** Splitting a subnet *)

(** [rawAddress[p / 8] |= 0x80 >> (p % 8)] sets the [p]-th bit from the top. *)
Definition set_bit_bytes (p : Z) (a : list Z) : list Z :=
  alter (λ b, Z.lor b (Z.shiftr 128 (p mod 8))) (Z.to_nat (p / 8)) a.

Lemma byte_bit p : 0 ≤ p < 8 → Z.shiftr 128 p = 2 ^ (7 - p).
Proof.
  intros. assert (p = 0 ∨ p = 1 ∨ p = 2 ∨ p = 3 ∨ p = 4 ∨ p = 5 ∨ p = 6 ∨ p = 7) as Hc by lia.
  by destruct Hc as [->|[->|[->|[->|[->|[->|[->| ->]]]]]]].
Qed.

Lemma quint32_bit p : 0 ≤ p < 32 → Z.shiftr 2147483648 p = 2 ^ (31 - p).
Proof.
  intros. change 2147483648 with (2 ^ 31). rewrite Z.shiftr_div_pow2 by lia.
  rewrite (pow2_split p 31) by lia. pose proof (pow2_pos p).
  rewrite Z.mul_comm, Z.div_mul by lia. done.
Qed.

Lemma mod_pow2_split x r k m :
  0 ≤ k ≤ m → (x * 2 ^ m + r) mod 2 ^ k = r mod 2 ^ k.
Proof.
  intros. rewrite (pow2_split k m) by done. pose proof (pow2_pos k).
  replace (x * (2 ^ k * 2 ^ (m - k)) + r) with (r + x * 2 ^ (m - k) * 2 ^ k) by ring.
  apply Z.mod_add; lia.
Qed.

Lemma div_mod_0 a k m : 0 ≤ k ≤ m → a mod 2 ^ m = 0 → a mod 2 ^ k = 0.
Proof.
  intros Hk H. pose proof (pow2_pos k); pose proof (pow2_pos m).
  apply Z.mod_divide; [lia|]. apply Z.mod_divide in H; [|lia].
  etrans; [|done]. exists (2 ^ (m - k)). rewrite (pow2_split k m) by done. ring.
Qed.

Lemma mod_pow2_head x r k m :
  0 ≤ k → 0 ≤ r < 2 ^ m → (x * 2 ^ m + r) mod 2 ^ (m + k) = 0 → x mod 2 ^ k = 0.
Proof.
  intros Hk Hr H. destruct (Z.lt_ge_cases m 0) as [Hm|Hm].
  { rewrite Z.pow_neg_r in Hr by lia. lia. }
  pose proof (pow2_pos m Hm). pose proof (pow2_pos k Hk). rewrite Z.pow_add_r in H by lia.
  apply Z.mod_divide in H as [q Hq]; [|nia].
  apply Z.mod_divide; [lia|]. exists q.
  apply (mul_add_inj (2 ^ m) x (q * 2 ^ k) r 0); [lia|lia|]. rewrite Hq. ring.
Qed.

Lemma half_bound n k w :
  1 ≤ k ≤ w → 0 ≤ n < 2 ^ w → n mod 2 ^ k = 0 → n + 2 ^ (k - 1) < 2 ^ w.
Proof.
  intros Hk Hn H. pose proof (pow2_pos k).
  apply Z.mod_divide in H as [q ->]; [|lia].
  rewrite (pow2_split k w) in * by lia.
  assert (2 ^ (k - 1) < 2 ^ k) by (apply Z.pow_lt_mono_r; lia).
  assert (q < 2 ^ (w - k)) by (apply (Z.mul_lt_mono_pos_r (2 ^ k)); lia).
  pose proof (Z.mul_le_mono_nonneg_r (q + 1) (2 ^ (w - k)) (2 ^ k)). lia.
Qed.

Lemma set_bit_bytes_num p a :
  Forall byte a → 0 ≤ p < 8 * length a → be_num a mod 2 ^ (8 * length a - p) = 0 →
  be_num (set_bit_bytes p a) = be_num a + 2 ^ (8 * length a - 1 - p) ∧
  Forall byte (set_bit_bytes p a) ∧ length (set_bit_bytes p a) = length a.
Proof.
  intros Ha; revert p; induction Ha as [|x a Hx Ha IH]; intros p Hp Hmod; [cbn in *; lia|].
  cbn [length] in *. unfold set_bit_bytes in *. rewrite length_alter.
  pose proof (be_num_bound a Ha) as Ba. cbn [be_num] in *.
  destruct (Z.lt_ge_cases p 8) as [Hlt|Hge].
  - destruct (step_lt_8 p) as [-> ->]; [lia|]. cbn [alter list_alter be_num].
    rewrite byte_bit by lia.
    replace (8 * S (length a) - p) with (8 * length a + (8 - p)) in Hmod by lia.
    pose proof (mod_pow2_head x _ (8 - p) _ ltac:(lia) Ba Hmod) as Hx0.
    assert (2 ^ (8 - p) = 2 * 2 ^ (7 - p)) as Hp2.
    { rewrite <- Z.pow_succ_r by lia. f_equal; lia. }
    pose proof (pow2_pos (7 - p)).
    rewrite (lor_add_disjoint x (2 ^ (7 - p)) (8 - p)) by lia.
    replace (8 * S (length a) - 1 - p) with (8 * length a + (7 - p)) by lia.
    rewrite Z.pow_add_r by lia. split; [lia|]. split; [|done].
    constructor; [|done]. unfold byte in *.
    pose proof (half_bound x (8 - p) 8 ltac:(lia) Hx Hx0) as Hb.
    replace (8 - p - 1) with (7 - p) in Hb by lia. lia.
  - destruct (step_ge_8 p Hge) as [-> ->]. rewrite alter_S. cbn [be_num].
    replace (8 * S (length a) - p) with (8 * length a - (p - 8)) in Hmod by lia.
    rewrite mod_pow2_split in Hmod by lia.
    destruct (IH (p - 8) ltac:(lia) Hmod) as (-> & Hb & ->).
    replace (8 * S (length a) - 1 - p) with (8 * length a - 1 - (p - 8)) by lia.
    split; [lia|]. split; [by constructor|done].
Qed.

Lemma host_num_bound h : wf_host h → 0 ≤ host_num h < 2 ^ width h.
Proof.
  destruct h as [|a|a]; [done|done|]. intros [Hl Hb]. cbn.
  pose proof (be_num_bound a Hb). rewrite Hl in *. done.
Qed.

Lemma host_num_inj h k :
  wf_host h → wf_host k → protocol h = protocol k → host_num h = host_num k → h = k.
Proof.
  destruct h, k; try done; cbn; [naive_solver|].
  intros [] [] _ ?. f_equal. apply be_num_inj; congruence.
Qed.

Lemma width_protocol h k : protocol h = protocol k → width h = width k.
Proof. by destruct h, k. Qed.

Lemma ip_eqb_eq i j : ip_eqb i j = true ↔ i = j.
Proof.
  destruct i, j. unfold ip_eqb. cbn.
  rewrite andb_true_iff, bool_decide_eq_true, Z.eqb_eq. naive_solver.
Qed.

(** The low half of a canonical block is the block itself, the high half sets
    the first free bit; both are aligned on the smaller block. *)
Lemma half_aligned n k :
  1 ≤ k → n mod 2 ^ k = 0 →
  n mod 2 ^ (k - 1) = 0 ∧ (n + 2 ^ (k - 1)) mod 2 ^ (k - 1) = 0.
Proof.
  intros Hk Hn. pose proof (pow2_pos (k - 1)).
  pose proof (div_mod_0 n (k - 1) k ltac:(lia) Hn) as Hlow. split; [done|].
  replace (n + 2 ^ (k - 1)) with (n + 1 * 2 ^ (k - 1)) by lia.
  by rewrite Z.mod_add by lia.
Qed.

(** The halves of a canonical subnet. *)
Record halves (i i0 i1 : IPAddress) : Prop := {
  halves_subnets : subnets i = [i0; i1];
  halves_good0 : good i0;
  halves_good1 : good i1;
  halves_type0 : type i0 = type i;
  halves_type1 : type i1 = type i;
  halves_prefix0 : m_prefixLength i0 = m_prefixLength i + 1;
  halves_prefix1 : m_prefixLength i1 = m_prefixLength i + 1;
  halves_num0 : host_num (m_address i0) = host_num (m_address i);
  halves_num1 : host_num (m_address i1) = host_num (m_address i) + 2 ^ (free_bits i - 1);
}.

Lemma subnets_halves i :
  good i → m_prefixLength i < width (m_address i) → ∃ i0 i1, halves i i0 i1.
Proof.
  destruct i as [a p]. unfold good, canonical, wf_ip, free_bits. cbn.
  intros [[Ha Hp] Hc] Hlt.
  pose proof (half_aligned _ (width a - p) ltac:(lia) Hc) as [Hlow Hhigh].
  pose proof (half_bound _ (width a - p) (width a) ltac:(lia) (host_num_bound a Ha) Hc) as Hb.
  pose proof (host_num_bound a Ha). pose proof (pow2_pos (width a - p - 1)).
  destruct a as [|a|a]; [done| |]; cbn in *.
  - assert (Z.lor a (Z.shiftr 2147483648 p) = a + 2 ^ (32 - p - 1)) as Hor.
    { rewrite quint32_bit by lia. replace (31 - p) with (32 - p - 1) by lia.
      apply (lor_add_disjoint _ _ (32 - p)); [lia| |done].
      split; [lia|]. apply Z.pow_lt_mono_r; lia. }
    exists (mkIPAddress (HostV4 a) (p + 1)),
      (mkIPAddress (HostV4 (a + 2 ^ (32 - p - 1))) (p + 1)).
    split; unfold good, canonical, wf_ip, free_bits, subnets; cbn; try done.
    + by rewrite (proj2 (Z.leb_gt 32 p)), Hor by lia.
    + replace (32 - (p + 1)) with (32 - p - 1) by lia. split_and!; [lia..|done].
    + replace (32 - (p + 1)) with (32 - p - 1) by lia. split_and!; [lia..|done].
  - destruct Ha as [Hl Hba].
    pose proof (set_bit_bytes_num p a Hba) as Hset. rewrite Hl in Hset.
    destruct Hset as (Hn & Hbs & Hls); [lia|done|].
    replace (8 * 16%nat - 1 - p) with (128 - p - 1) in Hn by lia.
    exists (mkIPAddress (HostV6 a) (p + 1)),
      (mkIPAddress (HostV6 (set_bit_bytes p a)) (p + 1)).
    split; unfold good, canonical, wf_ip, free_bits, subnets; cbn; try done.
    + by rewrite (proj2 (Z.leb_gt 128 p)) by lia.
    + replace (128 - (p + 1)) with (128 - p - 1) by lia. split_and!; [done|done|lia..|done].
    + replace (128 - (p + 1)) with (128 - p - 1) by lia.
      rewrite Hn. split_and!; [lia|done|lia..|done].
Qed.

(** ** Exclusion *)

Lemma good_wf i : good i → wf_ip i.
Proof. by intros []. Qed.
Lemma good_host i : good i → wf_host (m_address i).
Proof. by intros [[] ?]. Qed.
#[local] Hint Resolve good_wf good_host : core.

Lemma free_bits_nonneg i : wf_ip i → 0 ≤ free_bits i.
Proof. intros [_ ?]. unfold free_bits. lia. Qed.

Lemma good_inj i j :
  good i → good j → type i = type j → m_prefixLength i = m_prefixLength j →
  block i (m_address i) = block i (m_address j) → i = j.
Proof.
  intros [[Hwi Hpi] Hci] [[Hwj Hpj] Hcj] Ht Hp Hb.
  pose proof (width_protocol _ _ Ht) as Hw.
  destruct i as [a p], j as [b q]. unfold type, canonical, block, free_bits in *. cbn in *. subst q.
  f_equal. apply host_num_inj; [done..|]. rewrite <- Hw in Hcj.
  pose proof (pow2_pos (width a - p) ltac:(lia)).
  rewrite (Z.div_mod (host_num a) (2 ^ (width a - p))), (Z.div_mod (host_num b) (2 ^ (width a - p))) by lia.
  by rewrite Hb, Hci, Hcj.
Qed.

(** [subnetOf] is inclusion of the sets of addresses, for prefixes in order. *)
Lemma subnetOf_iff i other :
  wf_ip i → wf_ip other →
  subnetOf i other = true ↔
  in_subnet other (m_address i) ∧ m_prefixLength other ≤ m_prefixLength i.
Proof.
  intros Hi Ho. unfold subnetOf, in_subnet. case_bool_decide as Ht; cbn; [|naive_solver].
  destruct (Z.ltb_spec (m_prefixLength i) (m_prefixLength other)); [naive_solver lia|].
  rewrite contains_iff by (done || apply Hi). unfold in_subnet. naive_solver.
Qed.

Lemma block_coarser i j h k :
  wf_ip i → wf_ip j → type i = type j → m_prefixLength j ≤ m_prefixLength i →
  block i h = block i k → block j h = block j k.
Proof.
  intros [_ Hi] [_ Hj] Ht Hle. unfold block, free_bits.
  rewrite (width_protocol _ _ Ht) in *. apply div_pow2_coarser. lia.
Qed.

(** A subnet with a longer prefix whose address is in [j] is included in [j]. *)
Lemma in_subnet_trans i j h :
  wf_ip i → wf_ip j → m_prefixLength j ≤ m_prefixLength i →
  in_subnet j (m_address i) → in_subnet i h → in_subnet j h.
Proof.
  intros Hi Hj Hle [Ht Hb] [Ht' Hb']. split; [congruence|].
  rewrite <- Hb. by apply (block_coarser i j).
Qed.

Lemma half_blocks N k h :
  1 ≤ k → N mod 2 ^ k = 0 →
  (h / 2 ^ k = N / 2 ^ k ↔
   h / 2 ^ (k - 1) = N / 2 ^ (k - 1) ∨ h / 2 ^ (k - 1) = (N + 2 ^ (k - 1)) / 2 ^ (k - 1)) ∧
  N / 2 ^ (k - 1) ≠ (N + 2 ^ (k - 1)) / 2 ^ (k - 1).
Proof.
  intros Hk HN. pose proof (pow2_pos (k - 1) ltac:(lia)) as Hp.
  assert (2 ^ k = 2 ^ (k - 1) * 2) as H2.
  { rewrite (Z.mul_comm _ 2), <- Z.pow_succ_r by lia. f_equal; lia. }
  apply Z.mod_divide in HN as [q ->]; [|lia]. rewrite H2, <- !Z.div_div by lia.
  replace (q * (2 ^ (k - 1) * 2) + 2 ^ (k - 1)) with ((2 * q + 1) * 2 ^ (k - 1)) by ring.
  replace (q * (2 ^ (k - 1) * 2)) with (2 * q * 2 ^ (k - 1)) by ring.
  rewrite !Z.div_mul by lia. set (x := h / 2 ^ (k - 1)).
  pose proof (Z.div_mod x 2 ltac:(lia)). pose proof (Z.mod_pos_bound x 2 ltac:(lia)).
  rewrite (Z.mul_comm 2 q), Z.div_mul by lia. lia.
Qed.

Section halves_sets.
Context (i i0 i1 : IPAddress) (Hi : good i) (H : halves i i0 i1).

Lemma halves_blocks h :
  (block i h = block i (m_address i) ↔
   block i0 h = block i0 (m_address i0) ∨ block i1 h = block i1 (m_address i1)) ∧
  block i0 (m_address i0) ≠ block i1 (m_address i1).
Proof.
  destruct H as [_ [[_ H0] _] _ Ht0 Ht1 Hp0 Hp1 Hn0 Hn1]. destruct Hi as [_ Hc].
  unfold block, free_bits in *. rewrite Hn0, Hn1, Hp0, Hp1.
  rewrite (width_protocol _ _ Ht0), (width_protocol _ _ Ht1) in *.
  replace (width (m_address i) - (m_prefixLength i + 1))
    with (width (m_address i) - m_prefixLength i - 1) by lia.
  apply half_blocks; [lia|done].
Qed.

Lemma halves_union h : in_subnet i h ↔ in_subnet i0 h ∨ in_subnet i1 h.
Proof.
  pose proof (proj1 (halves_blocks h)) as Hb.
  pose proof (halves_type0 _ _ _ H); pose proof (halves_type1 _ _ _ H).
  unfold in_subnet, type in *. rewrite Hb. split.
  - intros [? []]; [left|right]; (split; [congruence|done]).
  - intros [[? ?]|[? ?]]; (split; [congruence|auto]).
Qed.

Lemma halves_disjoint h : ¬ (in_subnet i0 h ∧ in_subnet i1 h).
Proof.
  pose proof (proj2 (halves_blocks h)) as Hb. intros [[_ H0] [_ H1]].
  apply Hb. rewrite <- H0, <- H1. unfold block, free_bits.
  pose proof (halves_type0 _ _ _ H) as Ht0; pose proof (halves_type1 _ _ _ H) as Ht1.
  rewrite (width_protocol _ _ Ht0), (width_protocol _ _ Ht1).
  by rewrite (halves_prefix0 _ _ _ H), (halves_prefix1 _ _ _ H).
Qed.
End halves_sets.

Definition disjoint_subnets (i j : IPAddress) : Prop := ∀ h, ¬ (in_subnet i h ∧ in_subnet j h).

(** [l] is [cur] without [ip], one subnet for each extra bit of prefix. *)
Record carve (cur ip : IPAddress) (l : list IPAddress) : Prop := {
  carve_set h : (∃ j, j ∈ l ∧ in_subnet j h) ↔ in_subnet cur h ∧ ¬ in_subnet ip h;
  carve_good : Forall good l;
  carve_length : Z.of_nat (length l) = m_prefixLength ip - m_prefixLength cur;
  carve_disjoint : ForallOrdPairs disjoint_subnets l;
}.

(** The excluded subnet is the half [a]. *)
Lemma carve_last cur a b :
  (∀ h, in_subnet cur h ↔ in_subnet a h ∨ in_subnet b h) →
  (∀ h, ¬ (in_subnet a h ∧ in_subnet b h)) →
  good b → m_prefixLength a = m_prefixLength cur + 1 → carve cur a [b].
Proof.
  intros Hu Hd Hb Hp. split; [|by constructor|cbn; lia|by repeat constructor].
  intros h. specialize (Hu h). specialize (Hd h).
  setoid_rewrite list_elem_of_singleton. split.
  - intros (j & -> & Hj). tauto.
  - intros [[]%Hu ?]; [done|]. by exists b.
Qed.

(** The excluded subnet is inside the half [a]. *)
Lemma carve_cons cur a b ip l :
  (∀ h, in_subnet cur h ↔ in_subnet a h ∨ in_subnet b h) →
  (∀ h, ¬ (in_subnet a h ∧ in_subnet b h)) →
  (∀ h, in_subnet ip h → in_subnet a h) →
  good b → m_prefixLength a = m_prefixLength cur + 1 → carve a ip l → carve cur ip (b :: l).
Proof.
  intros Hu Hd Hin Hb Hp [Hs Hg Hl Hdl]. split; [|by constructor|cbn [length]; lia|].
  2: { constructor; [|done]. apply Forall_forall. intros j Hj h [Hbh Hjh].
       apply (Hd h). split; [|done]. apply (Hs h). by exists j. }
  intros h. specialize (Hu h). specialize (Hd h). specialize (Hin h). specialize (Hs h).
  setoid_rewrite elem_of_cons. split.
  - intros (j & [->|Hj] & Hjh); [tauto|].
    destruct (proj1 Hs (ex_intro _ j (conj Hj Hjh))). tauto.
  - intros [[Ha|Hbh]%Hu Hn]; [|by exists b; auto].
    destruct (proj2 Hs (conj Ha Hn)) as (j & ? & ?). exists j; auto.
Qed.

Lemma exclude_loop_spec ip (fuel : nat) cur acc :
  good cur → good ip → in_subnet cur (m_address ip) →
  m_prefixLength cur < m_prefixLength ip ≤ m_prefixLength cur + Z.of_nat fuel →
  ∃ l, exclude_loop fuel ip (subnets cur) acc = Excluded (acc ++ l) ∧ carve cur ip l.
Proof.
  intros Hcur Hip. revert cur acc Hcur.
  induction fuel as [|fuel IH]; intros cur acc Hcur Hin Hlt; [lia|].
  pose proof (width_protocol _ _ (proj1 Hin)) as Hw.
  destruct (subnets_halves cur Hcur) as (i0 & i1 & H).
  { destruct Hip as [[_ ?] _]. lia. }
  pose proof (halves_union _ _ _ Hcur H) as Hu. pose proof (halves_disjoint _ _ _ Hcur H) as Hd.
  destruct H as [Hs Hg0 Hg1 Ht0 Ht1 Hp0 Hp1 _ _]. rewrite Hs. cbn [exclude_loop].
  assert (∀ a, good a → type a = type cur → m_prefixLength a = m_prefixLength cur + 1 →
    in_subnet a (m_address ip) → a ≠ ip → m_prefixLength a < m_prefixLength ip) as Hdeep.
  { intros a Ha Hta Hpa Hina Hne. destruct (Z.eq_dec (m_prefixLength ip) (m_prefixLength a)); [|lia].
    destruct Hne. destruct Hina as [Htip Hbip]. apply good_inj; done. }
  destruct (ip_eqb i0 ip) eqn:E0.
  { apply ip_eqb_eq in E0 as ->. exists [i1]. split; [done|]. by apply carve_last. }
  destruct (ip_eqb i1 ip) eqn:E1.
  { apply ip_eqb_eq in E1 as ->. exists [i0]. split; [done|].
    apply carve_last; [intros h; rewrite Hu; tauto|intros h []; by apply (Hd h)|done..]. }
  rewrite <- not_true_iff_false, ip_eqb_eq in E0, E1.
  destruct (subnetOf ip i0) eqn:S0; [|destruct (subnetOf ip i1) eqn:S1].
  - apply subnetOf_iff in S0 as [S0 _]; [|auto..].
    specialize (Hdeep i0 Hg0 Ht0 Hp0 S0 E0).
    destruct (IH i0 (acc ++ [i1]) Hg0 S0) as (l & -> & Hl); [lia|].
    exists (i1 :: l). rewrite <- app_assoc. split; [done|].
    apply (carve_cons cur i0); try done.
    intros h. apply (in_subnet_trans ip i0); auto; lia.
  - apply subnetOf_iff in S1 as [S1 _]; [|auto..].
    specialize (Hdeep i1 Hg1 Ht1 Hp1 S1 E1).
    destruct (IH i1 (acc ++ [i0]) Hg1 S1) as (l & -> & Hl); [lia|].
    exists (i0 :: l). rewrite <- app_assoc. split; [done|].
    apply (carve_cons cur i1); try done;
      [intros h; rewrite Hu; tauto|intros h []; by apply (Hd h)|].
    intros h. apply (in_subnet_trans ip i1); auto; lia.
  - exfalso. apply not_true_iff_false in S0, S1.
    rewrite subnetOf_iff in S0, S1 by auto.
    apply Hu in Hin as [?|?]; [apply S0|apply S1]; (split; [done|lia]).
Qed.

Lemma width_le_128 h : 0 ≤ width h ≤ 128.
Proof. destruct h; cbn; lia. Qed.

Lemma excludeAddress_carve i ip :
  good i → good ip → subnetOf ip i = true → ip ≠ i →
  ∃ l, excludeAddress i ip = Excluded l ∧ carve i ip l.
Proof.
  intros Hi Hip Hs Hne. apply subnetOf_iff in Hs as [Hin Hle]; [|auto..].
  assert (m_prefixLength i ≠ m_prefixLength ip) as Hpne.
  { intros Heq. apply Hne. destruct Hin as [Ht Hb]. apply good_inj; try done.
    unfold block, free_bits in *. unfold type in *.
    rewrite <- Heq, (width_protocol _ _ Ht). done. }
  apply (exclude_loop_spec ip exclude_fuel i []); try done.
  destruct Hip as [[_ Hp] _], Hi as [[_ Hpi] _].
  pose proof (width_le_128 (m_address ip)). unfold exclude_fuel. lia.
Qed.

Lemma overlaps_disjoint i j h :
  wf_ip i → wf_ip j → overlaps i j = false → ¬ (in_subnet i h ∧ in_subnet j h).
Proof.
  intros Hi Hj. unfold overlaps. intros Ho [[Ht Hb] [Ht' Hb']].
  assert (type i = type j) as Htij by (unfold type; congruence).
  destruct (Z.ltb_spec (m_prefixLength i) (m_prefixLength j));
    apply not_true_iff_false in Ho; rewrite contains_iff in Ho by (done || apply Hj || apply Hi);
    apply Ho; (split; [unfold type in *; congruence|]).
  - rewrite <- Hb. symmetry. apply (block_coarser j i); auto; lia.
  - rewrite <- Hb'. symmetry. apply (block_coarser i j); auto; lia.
Qed.

Lemma exclude_from_spec l ex :
  Forall good l → good ex →
  ∃ r, exclude_from l ex = Excluded r ∧ Forall good r ∧
    ∀ h, (∃ j, j ∈ r ∧ in_subnet j h) ↔ (∃ j, j ∈ l ∧ in_subnet j h) ∧ ¬ in_subnet ex h.
Proof.
  intros Hl Hex. induction Hl as [|i l Hi Hl (r & Hr & Hgr & Hsr)]; cbn [exclude_from].
  { exists []. split; [done|]. split; [done|]. set_solver. }
  assert (∃ l', (if negb (overlaps i ex) then Excluded [i]
     else if subnetOf ex i && negb (ip_eqb ex i) then excludeAddress i ex else Excluded [])
     = Excluded l' ∧ Forall good l' ∧
     ∀ h, (∃ j, j ∈ l' ∧ in_subnet j h) ↔ in_subnet i h ∧ ¬ in_subnet ex h) as (l' & -> & Hgl & Hsl).
  { destruct (overlaps i ex) eqn:Ho; cbn [negb].
    - destruct (subnetOf ex i && negb (ip_eqb ex i)) eqn:E; split_bools.
      + destruct (excludeAddress_carve i ex) as (l' & ? & []); eauto.
        intros ->. by rewrite (proj2 (ip_eqb_eq i i) eq_refl) in *.
      + exists []. split; [done|]. split; [done|]. intros h. split; [set_solver|].
        intros [Hih []]. revert Ho. unfold overlaps.
        destruct (Z.ltb_spec (m_prefixLength i) (m_prefixLength ex)) as [Hlt|Hge].
        * rewrite contains_iff by auto. intros Hin. exfalso. revert E.
          rewrite (proj2 (subnetOf_iff ex i (good_wf _ Hex) (good_wf _ Hi))) by (split; [done|lia]).
          destruct (ip_eqb ex i) eqn:Eq; [apply ip_eqb_eq in Eq; subst; lia|done].
        * rewrite contains_iff by auto. intros Hin.
          apply (in_subnet_trans i ex); auto.
    - exists [i]. split; [done|]. split; [by constructor|]. intros h.
      pose proof (overlaps_disjoint i ex h ltac:(auto) ltac:(auto) Ho).
      setoid_rewrite list_elem_of_singleton. split.
      + intros (j & -> & ?). tauto.
      + intros []. by exists i. }
  rewrite Hr. cbn [ex_app]. exists (l' ++ r). split; [done|].
  split; [by apply Forall_app|]. intros h.
  setoid_rewrite elem_of_app. setoid_rewrite elem_of_cons.
  specialize (Hsl h). specialize (Hsr h). split.
  - intros (j & [Hj|Hj] & Hjh).
    + destruct (proj1 Hsl (ex_intro _ j (conj Hj Hjh))). eauto.
    + destruct (proj1 Hsr (ex_intro _ j (conj Hj Hjh))) as [(k & ? & ?) ?]. eauto.
  - intros [(j & [->|Hj] & Hjh) Hn].
    + destruct (proj2 Hsl (conj Hjh Hn)) as (k & ? & ?). eauto.
    + destruct (proj2 Hsr (conj (ex_intro _ j (conj Hj Hjh)) Hn)) as (k & ? & ?). eauto.
Qed.

Lemma excludeAddresses_spec l exs :
  Forall good l → Forall good exs →
  ∃ r, excludeAddresses l exs = Excluded r ∧ Forall good r ∧
    ∀ h, (∃ j, j ∈ r ∧ in_subnet j h) ↔
         (∃ j, j ∈ l ∧ in_subnet j h) ∧ ∀ ex, ex ∈ exs → ¬ in_subnet ex h.
Proof.
  intros Hl Hexs. revert l Hl. induction Hexs as [|ex exs Hex Hexs IH]; intros l Hl.
  { exists l. split; [done|]. split; [done|]. set_solver. }
  cbn [excludeAddresses]. destruct (exclude_from_spec l ex Hl Hex) as (r & -> & Hr & Hsr).
  cbn [ex_app]. destruct (IH r Hr) as (r' & -> & Hr' & Hsr').
  exists r'. split; [done|]. split; [done|]. intros h. rewrite Hsr', Hsr.
  setoid_rewrite elem_of_cons. naive_solver.
Qed.

(** ** Exclusion of an address with host bits set *)

Lemma exclude_loop_host_bits ip fuel cur acc :
  good cur → wf_ip ip → ¬ canonical ip → in_subnet cur (m_address ip) →
  m_prefixLength cur ≤ m_prefixLength ip →
  exclude_loop fuel ip (subnets cur) acc = OutOfFuel.
Proof.
  intros Hcur Hip Hnc. revert cur acc Hcur.
  induction fuel as [|fuel IH]; intros cur acc Hcur Hin Hle; [done|].
  pose proof (width_protocol _ _ (proj1 Hin)) as Hw.
  assert (m_prefixLength ip < width (m_address ip)) as Hlt.
  { destruct Hip as [_ Hp]. destruct (Z.eq_dec (m_prefixLength ip) (width (m_address ip))); [|lia].
    destruct Hnc. unfold canonical, free_bits. replace (_ - _) with 0 by lia. apply Z.mod_1_r. }
  destruct (subnets_halves cur Hcur) as (i0 & i1 & H); [lia|].
  pose proof (halves_union _ _ _ Hcur H) as Hu.
  pose proof (halves_subnets _ _ _ H) as Hs.
  destruct H as [_ Hg0 Hg1 Ht0 Ht1 Hp0 Hp1 _ _]. rewrite Hs. cbn [exclude_loop].
  assert (∀ a, good a → ip_eqb a ip = false) as Hne.
  { intros a Ha. apply not_true_iff_false. rewrite ip_eqb_eq. intros ->. by destruct Ha. }
  rewrite (Hne i0 Hg0), (Hne i1 Hg1).
  destruct (subnetOf ip i0) eqn:S0; [|destruct (subnetOf ip i1) eqn:S1].
  - apply subnetOf_iff in S0 as []; auto.
  - apply subnetOf_iff in S1 as []; auto.
  - rewrite <- Hs. auto.
Qed.

(** ** The masks as host addresses *)

Lemma mask_numbers i :
  wf_ip i →
  host_num (netmask i) = 2 ^ width (m_address i) - 2 ^ free_bits i ∧
  host_num (hostmask i) = 2 ^ free_bits i - 1 ∧
  host_num (broadcastAddress i) = block i (m_address i) * 2 ^ free_bits i + 2 ^ free_bits i - 1.
Proof.
  destruct i as [a p]. unfold wf_ip, block, free_bits, netmask, hostmask, broadcastAddress. cbn.
  intros [Ha Hp]. destruct a as [|a|a]; [done| |]; cbn in *.
  - destruct (Z.ltb_spec p 32).
    + rewrite quint32_mask by lia. split_and!; [|done|].
      * change quint32_max with (2 ^ 32 - 1). rewrite lxor_mask_complement by lia. done.
      * rewrite lor_ones_div by lia. lia.
    + assert (p = 32) as -> by lia. cbn. rewrite Z.div_1_r. split_and!; try done; lia.
  - destruct Ha as [Hl Ha].
    pose proof (netmask_bytes_num 16 p ltac:(lia)) as H1.
    pose proof (hostmask_bytes_num 16 p ltac:(lia)) as H2.
    pose proof (broadcast_bytes_num p a Ha) as H3. unfold broadcast_bytes in H3. rewrite Hl in H3.
    split_and!; [done|done|]. apply H3. lia.
Qed.

Lemma broadcast_last i h :
  wf_ip i → in_subnet i h → host_num h ≤ host_num (broadcastAddress i).
Proof.
  intros Hi [_ Hb]. destruct (mask_numbers i Hi) as (_ & _ & ->). rewrite <- Hb. unfold block.
  pose proof (pow2_pos _ (free_bits_nonneg i Hi)).
  pose proof (Z.mod_pos_bound (host_num h) (2 ^ free_bits i)).
  rewrite (Z.div_mod (host_num h) (2 ^ free_bits i)) at 1 by lia. lia.
Qed.

Lemma broadcast_in_subnet i : wf_ip i → in_subnet i (broadcastAddress i).
Proof.
  intros Hi. split; [by destruct (m_address i) eqn:E; unfold broadcastAddress; rewrite E|].
  unfold block at 1. destruct (mask_numbers i Hi) as (_ & _ & ->).
  pose proof (pow2_pos _ (free_bits_nonneg i Hi)).
  replace (block i (m_address i) * 2 ^ free_bits i + 2 ^ free_bits i - 1)
    with (2 ^ free_bits i - 1 + block i (m_address i) * 2 ^ free_bits i) by lia.
  rewrite Z.div_add, Z.div_small by lia. lia.
Qed.

(** ** Properties *)

Definition host_10_0_0_1 : QHostAddress := HostV4 167772161.
Definition net_10_8 : IPAddress := mkIPAddress (HostV4 167772160) 8.
Definition net_10_0_0_24 : IPAddress := mkIPAddress (HostV4 167772160) 24.
Definition net_0_0 : IPAddress := mkIPAddress (HostV4 0) 0.

Lemma good_v4 a p :
  0 ≤ a < 2 ^ 32 → 0 ≤ p ≤ 32 → a mod 2 ^ (32 - p) = 0 → good (mkIPAddress (HostV4 a) p).
Proof. done. Qed.

(** [IPAddress::contains] decides membership: for a well-formed subnet and
    host, IPv4 or IPv6, it returns true exactly when the host is of the same
    family and its leading [m_prefixLength] bits are those of the subnet. *)
Theorem contains_correct i h :
  wf_ip i → wf_host h → ip_contains i h = true ↔ in_subnet i h.
Proof. apply contains_iff. Qed.

Lemma contains_correct_witness :
  ip_contains net_10_8 host_10_0_0_1 = true ↔ in_subnet net_10_8 host_10_0_0_1.
Proof. apply contains_correct; vm_compute; intuition discriminate. Defined.

(** The masks of a well-formed subnet: [netmask] has the prefix bits set,
    [hostmask] the others, and [broadcastAddress] is the greatest address of
    the subnet. *)
Theorem masks_correct i :
  wf_ip i →
  host_num (netmask i) = 2 ^ width (m_address i) - 2 ^ free_bits i ∧
  host_num (hostmask i) = 2 ^ free_bits i - 1 ∧
  in_subnet i (broadcastAddress i) ∧
  ∀ h, in_subnet i h → host_num h ≤ host_num (broadcastAddress i).
Proof.
  intros Hi. destruct (mask_numbers i Hi) as (? & ? & _). split_and!; [done|done|..].
  - by apply broadcast_in_subnet.
  - intros h. by apply broadcast_last.
Qed.

Lemma masks_correct_witness : host_num (netmask net_10_8) = 2 ^ 32 - 2 ^ 24.
Proof. apply (masks_correct net_10_8). vm_compute. intuition discriminate. Defined.

(** [overlaps] and [subnetOf] on well-formed subnets: two subnets overlap
    exactly when some address is in both, and [i.subnetOf(other)] holds exactly
    when every address of [i] is in [other] and [i]'s prefix is not shorter. *)
Theorem overlaps_subnetOf_correct i j :
  wf_ip i → wf_ip j →
  (overlaps i j = true ↔ ∃ h, wf_host h ∧ in_subnet i h ∧ in_subnet j h) ∧
  (subnetOf i j = true ↔
   (∀ h, wf_host h → in_subnet i h → in_subnet j h) ∧ m_prefixLength j ≤ m_prefixLength i).
Proof.
  intros Hi Hj.
  assert (∀ k, in_subnet k (m_address k)) as Hself by done.
  split.
  - split.
    + unfold overlaps. destruct (Z.ltb_spec (m_prefixLength i) (m_prefixLength j)).
      * rewrite contains_iff by (done || apply Hj). exists (m_address j).
        split_and!; [apply Hj|done|done].
      * rewrite contains_iff by (done || apply Hi). exists (m_address i).
        split_and!; [apply Hi|done|done].
    + intros (h & _ & Hih & Hjh). apply not_false_iff_true. intros Ho.
      by apply (overlaps_disjoint i j h Hi Hj Ho).
  - rewrite subnetOf_iff by done. split.
    + intros [Hin Hle]. split; [|done]. intros h _. by apply in_subnet_trans.
    + intros [Hin Hle]. split; [|done]. apply Hin; [apply Hi|done].
Qed.

Lemma overlaps_subnetOf_correct_witness :
  subnetOf net_10_0_0_24 net_10_8 = true ↔
  (∀ h, wf_host h → in_subnet net_10_0_0_24 h → in_subnet net_10_8 h) ∧ 8 ≤ 24.
Proof.
  apply (overlaps_subnetOf_correct net_10_0_0_24 net_10_8); vm_compute; intuition discriminate.
Defined.

(** [excludeAddresses(ip)] on canonical subnets, when [ip] is strictly
    inside: the loop terminates within its fuel and returns canonical, pairwise
    disjoint subnets that hold exactly the addresses of the subnet that are not
    in [ip], one for each extra bit of [ip]'s prefix. *)
Theorem excludeAddress_correct i ip :
  good i → good ip → subnetOf ip i = true → ip ≠ i →
  ∃ l, excludeAddress i ip = Excluded l ∧
    (∀ h, wf_host h → (∃ j, j ∈ l ∧ ip_contains j h = true) ↔
          ip_contains i h = true ∧ ip_contains ip h = false) ∧
    Forall good l ∧ ForallOrdPairs disjoint_subnets l ∧
    Z.of_nat (length l) = m_prefixLength ip - m_prefixLength i.
Proof.
  intros Hi Hip Hs Hne. destruct (excludeAddress_carve i ip Hi Hip Hs Hne) as (l & -> & Hl).
  destruct Hl as [Hset Hg Hlen Hd]. exists l. split; [done|]. split_and!; try done.
  intros h Hh. rewrite <- not_true_iff_false, !contains_iff, <- Hset by auto.
  rewrite Forall_forall in Hg.
  split; intros (j & Hj & Hjh); exists j; (split; [done|]);
    [rewrite contains_iff in Hjh by auto|rewrite contains_iff by auto]; done.
Qed.

Lemma excludeAddress_correct_witness :
  ∃ l, excludeAddress net_10_8 net_10_0_0_24 = Excluded l ∧ Z.of_nat (length l) = 24 - 8.
Proof.
  destruct (excludeAddress_correct net_10_8 net_10_0_0_24) as (l & ? & _ & _ & _ & ?).
  - apply good_v4; vm_compute; intuition discriminate.
  - apply good_v4; vm_compute; intuition discriminate.
  - vm_compute; reflexivity.
  - discriminate.
  - exists l. split; assumption.
Defined.

(** C40. [excludeAddresses(sourceList, excludeList)] on canonical subnets
    returns a list whose subnets hold exactly the addresses of the sources that
    are in none of the excluded subnets. *)
Theorem excludeAddresses_correct sources excludes :
  Forall good sources → Forall good excludes →
  ∃ l, excludeAddresses sources excludes = Excluded l ∧ Forall good l ∧
    ∀ h, wf_host h →
      (∃ j, j ∈ l ∧ ip_contains j h = true) ↔
      (∃ j, j ∈ sources ∧ ip_contains j h = true) ∧
      ∀ ex, ex ∈ excludes → ip_contains ex h = false.
Proof.
  intros Hs He. destruct (excludeAddresses_spec sources excludes Hs He) as (l & ? & Hl & Hset).
  exists l. split; [done|]. split; [done|]. intros h Hh.
  assert (∀ k, Forall good k → (∃ j, j ∈ k ∧ ip_contains j h = true) ↔ ∃ j, j ∈ k ∧ in_subnet j h)
    as Hk.
  { intros k Hk. rewrite Forall_forall in Hk.
    split; intros (j & Hj & Hjh); exists j; (split; [done|]);
      [rewrite contains_iff in Hjh by auto|rewrite contains_iff by auto]; done. }
  rewrite !Hk, Hset by done. rewrite Forall_forall in He.
  split; (intros [? Hex]; split; [done|]); intros ex Hin; specialize (Hex ex Hin).
  - apply not_true_iff_false. by rewrite contains_iff by auto.
  - apply not_true_iff_false in Hex. by rewrite contains_iff in Hex by auto.
Qed.

Lemma excludeAddresses_correct_witness :
  ∃ l, excludeAddresses [net_0_0] [net_10_8; net_10_0_0_24] = Excluded l ∧ Forall good l.
Proof.
  destruct (excludeAddresses_correct [net_0_0] [net_10_8; net_10_0_0_24]) as (l & ? & ? & _).
  - repeat constructor; vm_compute; intuition discriminate.
  - repeat constructor; vm_compute; intuition discriminate.
  - exists l. split; assumption.
Defined.

(** Excluding a subnet whose address has host bits set from a canonical
    subnet around it never returns: whatever the fuel, the loop reaches two
    halves that neither equal nor contain it and keeps going on them. *)
Theorem excludeAddress_host_bits_diverges i ip fuel :
  good i → wf_ip ip → ¬ canonical ip → subnetOf ip i = true →
  exclude_loop fuel ip (subnets i) [] = OutOfFuel.
Proof.
  intros Hi Hip Hnc Hs. apply subnetOf_iff in Hs as []; [|auto..].
  by apply exclude_loop_host_bits.
Qed.

Lemma excludeAddress_host_bits_diverges_witness :
  exclude_loop 200 (mkIPAddress host_10_0_0_1 24) (subnets net_10_8) [] = OutOfFuel.
Proof.
  apply excludeAddress_host_bits_diverges.
  - apply good_v4; vm_compute; intuition discriminate.
  - vm_compute; intuition discriminate.
  - vm_compute; discriminate.
  - vm_compute; reflexivity.
Defined.
