(* ===== verification/InterfaceConfig.v ===== *)
(** * InterfaceConfig: the tunnel configuration exchanged with the daemon

    Models [client/daemon/interfaceconfig.{h,cpp}]: the configuration record,
    its JSON form ([toJson]) and its [wg-quick] form ([toWgConf]).  Printing a
    host address is Qt's and is a parameter. *)
From stdpp Require Import pretty.
From S2P Require Import Prelude Text Json IpAddress.

(** ** Data *)
Inductive HopType := SingleHop | MultiHopEntry | MultiHopExit.
#[export] Instance HopType_eq_dec : EqDecision HopType.
Proof. solve_decision. Defined.

(** [QMetaEnum::fromType<HopType>()] *)
Definition HopType_key (h : HopType) : string :=
  match h with
  | SingleHop => "SingleHop"
  | MultiHopEntry => "MultiHopEntry"
  | MultiHopExit => "MultiHopExit"
  end.
Record InterfaceConfig := mkInterfaceConfig {
  m_hopType : HopType;
  m_privateKey : qstring;
  m_deviceIpv4Address : qstring;
  m_deviceIpv6Address : qstring;
  m_serverIpv4Gateway : qstring;
  m_serverIpv6Gateway : qstring;
  m_serverPublicKey : qstring;
  m_serverIpv4AddrIn : qstring;
  m_serverPskKey : qstring;
  m_serverIpv6AddrIn : qstring;
  m_primaryDnsServer : qstring;
  m_secondaryDnsServer : qstring;
  m_serverPort : Z;
  m_deviceMTU : Z;
  m_persistentKeepalive : qstring;
  m_allowedIPAddressRanges : list IPAddress;
  m_excludedAddresses : list string;
  m_vpnDisabledApps : list string;
  m_allowedDnsServers : list string;
  m_killSwitchEnabled : bool;
  m_junkPacketCount : qstring;
  m_junkPacketMinSize : qstring;
  m_junkPacketMaxSize : qstring;
  m_initPacketJunkSize : qstring;
  m_responsePacketJunkSize : qstring;
  m_cookieReplyPacketJunkSize : qstring;
  m_transportPacketJunkSize : qstring;
  m_initPacketMagicHeader : qstring;
  m_responsePacketMagicHeader : qstring;
  m_underloadPacketMagicHeader : qstring;
  m_transportPacketMagicHeader : qstring;
  m_specialJunk : gmap string string;
  m_headerProtectionKey : qstring;
  m_contentPaddingAddition : qstring;
  m_rekeyAfterTime : qstring;
  m_rekeyTimeout : qstring;
  m_rejectAfterTime : qstring;
  m_keepaliveTimeout : qstring;
  m_maxHandshakeAttempts : qstring;
}.

(** [QJsonValue(QString)] is a string, also for the null string. *)
Definition JQString (s : qstring) : json := JString (str s).

Section printing.
(** [QHostAddress::toString()] *)
Context (host_toString : QHostAddress → string).

(** [IPAddress::toString()] *)
Definition ip_toString (i : IPAddress) : string :=
  host_toString (m_address i) +:+ "/" +:+ pretty (m_prefixLength i).

(** ** [InterfaceConfig::toJson] *)
Definition range_json (i : IPAddress) : json :=
  JObject (<["address" := JString (host_toString (m_address i))]>
          (<["range" := JInt (m_prefixLength i)]>
          (<["isIpv6" := JBool (bool_decide (type i = IPv6Protocol))]> ∅))).

Definition toJson (c : InterfaceConfig) : gmap string json :=
  let json := ∅ in
  let json := <["hopType" := JString (HopType_key (m_hopType c))]> json in
  let json := <["privateKey" := JQString (m_privateKey c)]> json in
  let json := <["deviceIpv4Address" := JQString (m_deviceIpv4Address c)]> json in
  let json := <["deviceIpv6Address" := JQString (m_deviceIpv6Address c)]> json in
  let json := <["serverPublicKey" := JQString (m_serverPublicKey c)]> json in
  let json := <["serverPskKey" := JQString (m_serverPskKey c)]> json in
  let json := <["serverIpv4AddrIn" := JQString (m_serverIpv4AddrIn c)]> json in
  let json := <["serverIpv6AddrIn" := JQString (m_serverIpv6AddrIn c)]> json in
  let json := <["serverPort" := JInt (m_serverPort c)]> json in
  let json := <["deviceMTU" := JInt (m_deviceMTU c)]> json in
  let json := if isEmpty (m_persistentKeepalive c) then json
              else <["persistentKeepalive" := JQString (m_persistentKeepalive c)]> json in
  let json :=
    match m_hopType c with
    | MultiHopExit | SingleHop =>
        let json := <["serverIpv4Gateway" := JQString (m_serverIpv4Gateway c)]> json in
        let json := <["serverIpv6Gateway" := JQString (m_serverIpv6Gateway c)]> json in
        let json := <["primaryDnsServer" := JQString (m_primaryDnsServer c)]> json in
        <["secondaryDnsServer" := JQString (m_secondaryDnsServer c)]> json
    | MultiHopEntry => json
    end in
  let json := <["allowedIPAddressRanges" := JArray (range_json <$> m_allowedIPAddressRanges c)]> json in
  let json := <["excludedAddresses" := JStrings (m_excludedAddresses c)]> json in
  let json := <["allowedDnsServers" := JStrings (m_allowedDnsServers c)]> json in
  <["vpnDisabledApps" := JStrings (m_vpnDisabledApps c)]> json.

(** ** [InterfaceConfig::toWgConf] *)
(** [out << key << " = " << value << "\n"] *)
Definition kv (key value : string) : string := key +:+ " = " +:+ value +:+ nl.
Definition when_ (b : bool) (l : list string) : list string := if b then l else [].

(** The fields guarded by [VALIDATE]. *)
Definition validated (c : InterfaceConfig) : list string :=
  [str (m_privateKey c); str (m_deviceIpv4Address c); str (m_deviceIpv6Address c);
   str (m_serverIpv4Gateway c); str (m_serverIpv6Gateway c); str (m_serverPublicKey c);
   str (m_serverIpv4AddrIn c); str (m_serverIpv6AddrIn c)].

Definition wg_addresses (c : InterfaceConfig) : list string :=
  when_ (negb (isNull (m_deviceIpv4Address c))) [str (m_deviceIpv4Address c)] ++
  when_ (negb (isNull (m_deviceIpv6Address c))) [str (m_deviceIpv6Address c)].

Definition wg_dns (c : InterfaceConfig) : list string :=
  [str (m_primaryDnsServer c)] ++
  when_ (negb (isEmpty (m_secondaryDnsServer c))) [str (m_secondaryDnsServer c)] ++
  when_ (qstr_eqb (m_primaryDnsServer c) (m_serverIpv4Gateway c)) [str (m_serverIpv6Gateway c)].

Definition unless_null (key : string) (v : qstring) : list string :=
  when_ (negb (isNull v)) [kv key (str v)].
Definition unless_empty (key : string) (v : qstring) : list string :=
  when_ (negb (isEmpty v)) [kv key (str v)].

Definition wg_obfuscation (c : InterfaceConfig) : list string :=
  unless_null "Jc" (m_junkPacketCount c) ++
  unless_null "JMin" (m_junkPacketMinSize c) ++
  unless_null "JMax" (m_junkPacketMaxSize c) ++
  unless_null "S1" (m_initPacketJunkSize c) ++
  unless_null "S2" (m_responsePacketJunkSize c) ++
  unless_null "S3" (m_cookieReplyPacketJunkSize c) ++
  unless_null "S4" (m_transportPacketJunkSize c) ++
  unless_null "H1" (m_initPacketMagicHeader c) ++
  unless_null "H2" (m_responsePacketMagicHeader c) ++
  unless_null "H3" (m_underloadPacketMagicHeader c) ++
  unless_null "H4" (m_transportPacketMagicHeader c) ++
  ((λ e, kv e.1 e.2) <$> entries (m_specialJunk c)) ++
  unless_empty "HeaderProtectionKey" (m_headerProtectionKey c) ++
  unless_empty "ContentPaddingAddition" (m_contentPaddingAddition c) ++
  unless_empty "RekeyAfterTime" (m_rekeyAfterTime c) ++
  unless_empty "RekeyTimeout" (m_rekeyTimeout c) ++
  unless_empty "RejectAfterTime" (m_rejectAfterTime c) ++
  unless_empty "KeepaliveTimeout" (m_keepaliveTimeout c) ++
  unless_empty "MaxHandshakeAttempts" (m_maxHandshakeAttempts c).

Definition wg_interface (c : InterfaceConfig) (extra : gmap string string) : list string :=
  ["[Interface]" +:+ nl; kv "PrivateKey" (str (m_privateKey c));
   kv "Address" (String.concat ", " (wg_addresses c))] ++
  when_ (negb (m_deviceMTU c =? 0)) [kv "MTU" (pretty (m_deviceMTU c))] ++
  when_ (negb (isEmpty (m_primaryDnsServer c))) [kv "DNS" (String.concat ", " (wg_dns c))] ++
  wg_obfuscation c ++
  ((λ e, kv e.1 e.2) <$> entries extra).

Definition wg_peer (c : InterfaceConfig) : list string :=
  [nl; "[Peer]" +:+ nl; kv "PublicKey" (str (m_serverPublicKey c));
   kv "Endpoint" (str (m_serverIpv4AddrIn c) +:+ ":" +:+ pretty (m_serverPort c));
   kv "AllowedIPs" (String.concat ", " (ip_toString <$> m_allowedIPAddressRanges c))] ++
  unless_empty "PersistentKeepalive" (m_persistentKeepalive c).

Definition toWgConf (c : InterfaceConfig) (extra : gmap string string) : string :=
  if existsb contains_nl (validated c) then ""
  else match wg_addresses c with
       | [] => ""
       | _ => String.concat "" (wg_interface c extra ++ wg_peer c)
       end.
End printing.

(** ** The printed text as lines *)

(** An emitted chunk is one line, of one of the shapes of [P]. *)
Definition chunk (P : string → Prop) (e : string) : Prop :=
  ∃ l, e = l +:+ nl ∧ contains_nl l = false ∧ P l.

Lemma lines_of_chunks P l x :
  Forall (chunk P) l → x ∈ lines_of (String.concat "" l) → x = "" ∨ P x.
Proof.
  induction 1 as [|e l (s & -> & Hs & HP) Hl IH]; [cbn; set_solver|].
  rewrite concat_empty_cons, string_app_assoc, lines_of_line by done.
  rewrite elem_of_cons. intros [->|?]; auto.
Qed.

Section wg_lines.
Context (host_toString : QHostAddress → string)
        (host_toString_nl : ∀ h, contains_nl (host_toString h) = false).

#[local] Abbreviation nl_free := (λ s, contains_nl s = false).

(** The keys [toWgConf] writes. *)
Definition wg_fixed_keys : list string :=
  ["PrivateKey"; "Address"; "MTU"; "DNS"; "Jc"; "JMin"; "JMax"; "S1"; "S2"; "S3"; "S4";
   "H1"; "H2"; "H3"; "H4"; "HeaderProtectionKey"; "ContentPaddingAddition"; "RekeyAfterTime";
   "RekeyTimeout"; "RejectAfterTime"; "KeepaliveTimeout"; "MaxHandshakeAttempts";
   "PublicKey"; "Endpoint"; "AllowedIPs"; "PersistentKeepalive"].

Definition wg_keys (c : InterfaceConfig) (extra : gmap string string) : list string :=
  wg_fixed_keys ++ (entries (m_specialJunk c)).*1 ++ (entries extra).*1.

Definition wg_line (c : InterfaceConfig) (extra : gmap string string) (l : string) : Prop :=
  l = "[Interface]" ∨ l = "[Peer]" ∨ l = "" ∨
  ∃ k v, k ∈ wg_keys c extra ∧ l = k +:+ " = " +:+ v.

(** The fields that [VALIDATE] does not look at. *)
Definition unvalidated (c : InterfaceConfig) (extra : gmap string string) : list string :=
  [str (m_primaryDnsServer c); str (m_secondaryDnsServer c); str (m_persistentKeepalive c);
   str (m_junkPacketCount c); str (m_junkPacketMinSize c); str (m_junkPacketMaxSize c);
   str (m_initPacketJunkSize c); str (m_responsePacketJunkSize c);
   str (m_cookieReplyPacketJunkSize c); str (m_transportPacketJunkSize c);
   str (m_initPacketMagicHeader c); str (m_responsePacketMagicHeader c);
   str (m_underloadPacketMagicHeader c); str (m_transportPacketMagicHeader c);
   str (m_headerProtectionKey c); str (m_contentPaddingAddition c); str (m_rekeyAfterTime c);
   str (m_rekeyTimeout c); str (m_rejectAfterTime c); str (m_keepaliveTimeout c);
   str (m_maxHandshakeAttempts c)] ++
  (entries (m_specialJunk c)).*1 ++ (entries (m_specialJunk c)).*2 ++
  (entries extra).*1 ++ (entries extra).*2.

Context (c : InterfaceConfig) (extra : gmap string string)
        (Hval : Forall nl_free (validated c)) (Hrest : Forall nl_free (unvalidated c extra)).

#[local] Abbreviation ok := (chunk (wg_line c extra)).

Lemma kv_ok k v :
  k ∈ wg_keys c extra → contains_nl k = false → contains_nl v = false → ok (kv k v).
Proof using.
  intros Hk Hknl Hv. exists (k +:+ " = " +:+ v). unfold kv.
  rewrite !string_app_assoc. split; [done|]. rewrite !contains_nl_app, Hknl, Hv.
  split; [done|]. unfold wg_line. eauto 8.
Qed.

Lemma kv_fixed_ok k v :
  k ∈ wg_fixed_keys → contains_nl v = false → ok (kv k v).
Proof using.
  intros Hk Hv. apply kv_ok; [|revert k Hk|done].
  - unfold wg_keys. apply elem_of_app. by left.
  - apply Forall_forall. by repeat constructor.
Qed.

Lemma when_ok b l : Forall ok l → Forall ok (when_ b l).
Proof using. by destruct b. Qed.

Lemma unless_null_ok k v : k ∈ wg_fixed_keys → contains_nl (str v) = false → Forall ok (unless_null k v).
Proof using. intros. apply when_ok. constructor; [by apply kv_fixed_ok|done]. Qed.
Lemma unless_empty_ok k v : k ∈ wg_fixed_keys → contains_nl (str v) = false → Forall ok (unless_empty k v).
Proof using. intros. apply when_ok. constructor; [by apply kv_fixed_ok|done]. Qed.

Lemma entries_ok (m : gmap string string) :
  (∀ e, e ∈ entries m → e.1 ∈ wg_keys c extra ∧ contains_nl e.1 = false ∧ contains_nl e.2 = false) →
  Forall ok ((λ e, kv e.1 e.2) <$> entries m).
Proof using.
  intros H. apply Forall_fmap, Forall_forall. intros e He. cbn.
  destruct (H e He) as (? & ? & ?). by apply kv_ok.
Qed.

Ltac fixed_key := unfold wg_fixed_keys; listed.

Lemma rest_nl s : s ∈ unvalidated c extra → contains_nl s = false.
Proof using Hrest. rewrite Forall_forall in Hrest. apply Hrest. Qed.
Lemma val_nl s : s ∈ validated c → contains_nl s = false.
Proof using Hval. rewrite Forall_forall in Hval. apply Hval. Qed.

Ltac nl_field := first [apply val_nl; unfold validated; solve [listed]
                       |apply rest_nl; unfold unvalidated; apply elem_of_app; left; listed].

Lemma wg_obfuscation_ok : Forall ok (wg_obfuscation c).
Proof using Hrest.
  unfold wg_obfuscation.
  repeat (apply Forall_app; split);
    try (apply unless_null_ok; [fixed_key|nl_field]);
    try (apply unless_empty_ok; [fixed_key|nl_field]).
  apply entries_ok. intros e He. split_and!.
  - unfold wg_keys. rewrite !elem_of_app. right. left. by apply list_elem_of_fmap_2.
  - apply rest_nl. unfold unvalidated. rewrite !elem_of_app. right. left.
    by apply list_elem_of_fmap_2.
  - apply rest_nl. unfold unvalidated. rewrite !elem_of_app. right. right. left.
    by apply list_elem_of_fmap_2.
Qed.

Lemma wg_interface_ok : Forall ok (wg_interface c extra).
Proof using Hval Hrest.
  unfold wg_interface. rewrite !Forall_app. split_and!.
  - constructor; [|constructor; [|constructor; [|done]]].
    + exists "[Interface]". unfold wg_line. split_and!; auto.
    + apply kv_fixed_ok; [fixed_key|nl_field].
    + apply kv_fixed_ok; [fixed_key|]. apply contains_nl_concat; [done|].
      unfold wg_addresses, when_.
      repeat case_match; repeat constructor; nl_field.
  - apply when_ok. constructor; [|done]. apply kv_fixed_ok; [fixed_key|].
    apply contains_nl_pretty_Z.
  - apply when_ok. constructor; [|done]. apply kv_fixed_ok; [fixed_key|].
    apply contains_nl_concat; [done|]. unfold wg_dns, when_.
    repeat case_match; repeat constructor; nl_field.
  - apply wg_obfuscation_ok.
  - apply entries_ok. intros e He. split_and!.
    + unfold wg_keys. rewrite !elem_of_app. right. right. by apply list_elem_of_fmap_2.
    + apply rest_nl. unfold unvalidated. rewrite !elem_of_app. do 3 right. left.
      by apply list_elem_of_fmap_2.
    + apply rest_nl. unfold unvalidated. rewrite !elem_of_app. do 4 right.
      by apply list_elem_of_fmap_2.
Qed.

Lemma wg_peer_ok : Forall ok (wg_peer host_toString c).
Proof using host_toString_nl Hval Hrest.
  unfold wg_peer. apply Forall_app. split.
  - constructor; [|constructor; [|constructor; [|constructor; [|constructor; [|done]]]]].
    + exists "". unfold wg_line. split_and!; auto.
    + exists "[Peer]". unfold wg_line. split_and!; auto.
    + apply kv_fixed_ok; [fixed_key|nl_field].
    + apply kv_fixed_ok; [fixed_key|]. rewrite !contains_nl_app, contains_nl_pretty_Z.
      rewrite (val_nl (str (m_serverIpv4AddrIn c))); [done|]. unfold validated. listed.
    + apply kv_fixed_ok; [fixed_key|]. apply contains_nl_concat; [done|].
      apply Forall_fmap, Forall_forall. intros i _. cbn. unfold ip_toString.
      by rewrite !contains_nl_app, contains_nl_pretty_Z, host_toString_nl.
  - apply unless_empty_ok; [fixed_key|nl_field].
Qed.
End wg_lines.

(** ** Properties of [toWgConf] *)

Lemma wg_addresses_nil c :
  wg_addresses c = [] ↔ isNull (m_deviceIpv4Address c) = true ∧ isNull (m_deviceIpv6Address c) = true.
Proof.
  unfold wg_addresses. destruct (isNull (m_deviceIpv4Address c)), (isNull (m_deviceIpv6Address c));
    cbn; split; intuition congruence.
Qed.

Lemma existsb_Forall_false {A} (f : A → bool) l :
  existsb f l = false ↔ Forall (λ x, f x = false) l.
Proof.
  induction l as [|x l IH]; [split; [constructor|done]|].
  cbn. by rewrite orb_false_iff, Forall_cons, IH.
Qed.

(** The text, when it is not refused. *)
Lemma toWgConf_text hs c extra :
  toWgConf hs c extra =
  if existsb contains_nl (validated c) || (isNull (m_deviceIpv4Address c) && isNull (m_deviceIpv6Address c))
  then "" else String.concat "" (wg_interface c extra ++ wg_peer hs c).
Proof.
  unfold toWgConf. destruct (existsb contains_nl (validated c)); [done|]. cbn [orb].
  pose proof (wg_addresses_nil c) as Hn.
  destruct (wg_addresses c) as [|a l] eqn:E; destruct (isNull (m_deviceIpv4Address c)) eqn:E4,
    (isNull (m_deviceIpv6Address c)) eqn:E6; cbn; try done; naive_solver.
Qed.

Definition wg_example : InterfaceConfig :=
  mkInterfaceConfig SingleHop (Some "key") (Some "10.8.0.2") None (Some "10.8.0.1") None
    (Some "peer") (Some "198.51.100.7") None None (Some "1.1.1.1") (Some "1.0.0.1") 51820 1376
    (Some "25") [net_0_0] ["192.168.0.0/16"] [] [] true (Some "4") None None None None None None
    (Some "1") None None None (<["I1" := "<b 0x00>"]> ∅) None None None None None None None.

(** [toWgConf] refuses (returns the empty string) exactly when a checked
    field carries a newline or the tunnel has no address; otherwise its text
    starts with the [Interface] section. *)
Theorem toWgConf_refuses hs c extra :
  toWgConf hs c extra = "" ↔
  (∃ s, s ∈ validated c ∧ contains_nl s = true) ∨
  (m_deviceIpv4Address c = None ∧ m_deviceIpv6Address c = None).
Proof.
  rewrite toWgConf_text. assert (∀ v, isNull v = true ↔ v = None) as Hnull.
  { intros []; split; done. }
  assert (existsb contains_nl (validated c) = true ↔ ∃ s, s ∈ validated c ∧ contains_nl s = true) as Hnl.
  { rewrite existsb_exists. split; intros (s & ? & ?); exists s; split; auto; by apply list_elem_of_In. }
  rewrite <- !Hnull, <- Hnl, <- andb_true_iff, <- orb_true_iff.
  destruct (_ || _); [done|]. split; [|done].
  unfold wg_interface. cbn [app]. rewrite concat_empty_cons. done.
Qed.

(** No line can be smuggled into the configuration file: when none of the
    fields that [VALIDATE] skips holds a newline either, every line of the text
    is blank, a section header, or [key = value] for one of the keys the
    function writes. *)
Theorem toWgConf_lines hs c extra l :
  (∀ h, contains_nl (hs h) = false) →
  Forall (λ s, contains_nl s = false) (unvalidated c extra) →
  l ∈ lines_of (toWgConf hs c extra) → wg_line c extra l.
Proof.
  intros Hhs Hrest. rewrite toWgConf_text.
  destruct (existsb contains_nl (validated c)) eqn:E; cbn [orb].
  { cbn. rewrite list_elem_of_singleton. intros ->. unfold wg_line. auto. }
  apply existsb_Forall_false in E.
  destruct (_ && _); [cbn; rewrite list_elem_of_singleton; intros ->; unfold wg_line; auto|].
  intros Hl. eapply (lines_of_chunks (wg_line c extra)) in Hl.
  - destruct Hl as [->|Hl]; [unfold wg_line; auto|done].
  - apply Forall_app. split; [by apply wg_interface_ok|by apply wg_peer_ok].
Qed.

Lemma toWgConf_lines_witness : wg_line wg_example ∅ "DNS = 1.1.1.1, 1.0.0.1".
Proof.
  apply (toWgConf_lines (λ _, "0.0.0.0") wg_example ∅).
  - reflexivity.
  - apply existsb_Forall_false. vm_compute. reflexivity.
  - apply (bool_decide_unpack _). vm_compute. exact I.
Defined.

Definition wg_injected : InterfaceConfig :=
  mkInterfaceConfig SingleHop (Some "key") (Some "10.8.0.2") None None None
    (Some "peer") (Some "198.51.100.7") None None
    (Some ("1.1.1.1" +:+ nl +:+ "PostUp = touch /tmp/x")) None 51820 1376
    None [net_0_0] [] [] [] true None None None None None None None None None None None ∅
    None None None None None None None.

(** The DNS servers are not among the checked fields: a configuration whose
    primary DNS server holds a newline is accepted, and what follows the newline
    becomes a line of its own of the configuration file. *)
Theorem toWgConf_dns_unchecked hs :
  existsb contains_nl (validated wg_injected) = false ∧
  "PostUp = touch /tmp/x" ∈ lines_of (toWgConf hs wg_injected ∅) ∧
  ¬ wg_line wg_injected ∅ "PostUp = touch /tmp/x".
Proof.
  split; [reflexivity|]. split.
  - apply (list_elem_of_lookup_2 _ 5%nat). vm_compute. reflexivity.
  - unfold wg_line, wg_keys, wg_fixed_keys. intros [?|[?|[?|(k & v & Hk & Hv)]]]; [done..|].
    revert Hk Hv. cbn. rewrite entries_empty. cbn. rewrite !elem_of_cons, elem_of_nil.
    intros Hk Hv. repeat (destruct Hk as [->|Hk]; [discriminate Hv|]). done.
Qed.
