(* ===== verification/Qt.v ===== *)
(** * Qt services

    What the components ask of Qt and cannot be read in the repository: parsing
    and printing of host addresses, numbers and booleans in strings, the keys of
    an enumeration, [std::sort].  Every client of this interface is a definition
    over an arbitrary [Qt] instance; the laws a theorem needs are its hypotheses. *)
From S2P Require Import Prelude Text Json IpAddress InterfaceConfig.

Class Qt := {
  (** [QHostAddress(QString)], [toString()], [QHostAddress::parseSubnet] *)
  host_of_string : string → QHostAddress;
  host_toString : QHostAddress → string;
  parseSubnet : string → QHostAddress * Z;
  (** [QString::toInt()]: 0 when the text is no number *)
  string_toInt : string → Z;
  (** [QVariant(QString).toBool()] *)
  string_toBool : string → bool;
  (** [QMetaEnum::fromType<InterfaceConfig::HopType>().keyToValue] *)
  HopType_keyToValue : string → option HopType;
  (** [std::sort] by decreasing prefix length *)
  sort_by_prefix : list IPAddress → list IPAddress;
}.

Definition slash : Ascii.ascii := Ascii.ascii_of_nat 47.

(** [IPAddress(QString)] *)
Definition IPAddress_of {Q : Qt} (s : string) : IPAddress :=
  IPAddress_of_string host_of_string parseSubnet (contains_char slash) s.

(** What [std::sort] promises. *)
Record sort_laws (sort : list IPAddress → list IPAddress) : Prop := {
  sort_perm : ∀ l, sort l ≡ₚ l;
  sort_sorted : ∀ l, Sorted (λ a b, prefixLength b ≤ prefixLength a) (sort l);
}.

(** ** A concrete instance

    IPv4 addresses in dotted form and [::], enough to run the components. *)
Definition dot : Ascii.ascii := Ascii.ascii_of_nat 46.

Definition dotted_host (s : string) : QHostAddress :=
  if contains_char slash s then HostNull else
  match split_char dot s with
  | [a; b; c; d] => HostV4 (((atoi a * 256 + atoi b) * 256 + atoi c) * 256 + atoi d)
  | _ => if String.eqb s "::" then HostV6 (replicate 16 0) else HostNull
  end.

Definition dotted_print (h : QHostAddress) : string :=
  match h with
  | HostV4 a =>
      pretty.pretty (a / 16777216) +:+ "." +:+ pretty.pretty (a / 65536 mod 256) +:+ "." +:+
      pretty.pretty (a / 256 mod 256) +:+ "." +:+ pretty.pretty (a mod 256)
  | HostV6 _ => "::"
  | HostNull => ""
  end.

Definition longer_prefix (a b : IPAddress) : Prop := prefixLength b ≤ prefixLength a.
#[export] Instance longer_prefix_dec a b : Decision (longer_prefix a b).
Proof. unfold longer_prefix. apply _. Defined.
#[export] Instance longer_prefix_total : Total longer_prefix.
Proof. intros a b. unfold longer_prefix. lia. Qed.
#[export] Instance longer_prefix_trans : Transitive longer_prefix.
Proof. intros a b c. unfold longer_prefix. lia. Qed.

Definition plain_qt : Qt := {|
  host_of_string := dotted_host;
  host_toString := dotted_print;
  parseSubnet s :=
    match split_char slash s with
    | [a; p] => (dotted_host a, atoi p)
    | _ => (HostNull, -1)
    end;
  string_toInt := atoi;
  string_toBool s := negb (String.eqb s "" || String.eqb s "0" || String.eqb s "false");
  HopType_keyToValue s :=
    if String.eqb s "SingleHop" then Some SingleHop
    else if String.eqb s "MultiHopEntry" then Some MultiHopEntry
    else if String.eqb s "MultiHopExit" then Some MultiHopExit
    else None;
  sort_by_prefix := merge_sort longer_prefix;
|}.

Lemma plain_qt_sort : sort_laws (@sort_by_prefix plain_qt).
Proof.
  split; intros l; cbn.
  - apply merge_sort_Permutation.
  - apply (Sorted_merge_sort longer_prefix).
Qed.
