(* ===== verification/DaemonConfig.v ===== *)
(** * DaemonConfig: the daemon's reading of an activation request

    Models [Daemon::parseConfig] and [Daemon::parseStringList] of
    [client/daemon/daemon.cpp].  A refused request is [None] (every caller drops
    the partly filled configuration). *)
From S2P Require Import Prelude Text Json IpAddress InterfaceConfig Qt.

Definition default_mtu : Z := 1420.
Definition windows_min_mtu : Z := 1280.

(** A default-constructed [InterfaceConfig]; [m_hopType] and
    [m_killSwitchEnabled] have no initializer, and are arbitrary. *)
Definition new_config (h : HopType) (ks : bool) : InterfaceConfig :=
  mkInterfaceConfig h None None None None None None None None None None None 0 1420 None
    [] [] [] [] ks None None None None None None None None None None None ∅
    None None None None None None None.

(** [GETVALUE(name, where, jsontype)] *)
Definition get_string (obj : gmap string json) (name : string) : option string :=
  match value obj name with Some (JString s) => Some s | _ => None end.
Definition get_double (obj : gmap string json) (name : string) : option Q :=
  match value obj name with Some (JDouble q) => Some q | _ => None end.

Fixpoint parse_strings (l : list json) : option (list string) :=
  match l with
  | [] => Some []
  | JString s :: l' => (s ::.) <$> parse_strings l'
  | _ => None
  end.

(** [Daemon::parseStringList]: the strings are appended to the list passed. *)
Definition parseStringList (obj : gmap string json) (name : string) (old : list string) :
    option (list string) :=
  if contains obj name then
    if isArray (value obj name) then app old <$> parse_strings (toArray (value obj name))
    else None
  else Some old.

(** An optional member that must be a string when present. *)
Definition parse_optional_string (obj : gmap string json) (name : string) : option qstring :=
  if negb (contains obj name) then Some None
  else if isString (value obj name) then Some (toString (value obj name))
  else None.

(** [if (const auto v = obj.value(key); !v.isUndefined()) field = v.toString();] *)
Definition overwrite (obj : gmap string json) (key : string) (old : qstring) : qstring :=
  match value obj key with None => old | Some v => toString (Some v) end.

Definition overwrite_junk (obj : gmap string json) (key : string) (m : gmap string string) :
    gmap string string :=
  match value obj key with None => m | Some v => <[key := str (toString (Some v))]> m end.

Section parse_config.
Context {Q : Qt} (os : platform).

Definition parse_mtu (obj : gmap string json) : Z :=
  let mtu := string_toInt (str (toString (value obj "deviceMTU"))) in
  if negb (contains obj "deviceMTU") || (mtu =? 0) then default_mtu
  else if bool_decide (os = Windows) && (mtu <? windows_min_mtu) then windows_min_mtu
  else mtu.

Definition parse_hopType (obj : gmap string json) : option HopType :=
  if negb (contains obj "hopType") then Some SingleHop
  else if isString (value obj "hopType")
  then HopType_keyToValue (str (toString (value obj "hopType")))
  else None.

Definition parse_range (i : json) : option IPAddress :=
  if negb (isObject (Some i)) then None else
  let ipObj := toObject (Some i) in
  let address := value ipObj "address" in
  if negb (isString address) then None else
  let range := value ipObj "range" in
  if negb (isDouble range) then None else
  let isIpv6 := value ipObj "isIpv6" in
  if negb (isBool isIpv6) then None else
  Some (mkIPAddress (host_of_string (str (toString address))) (toInt range)).

Fixpoint parse_ranges (l : list json) : option (list IPAddress) :=
  match l with
  | [] => Some []
  | i :: l' =>
      match parse_range i with
      | Some ip => (ip ::.) <$> parse_ranges l'
      | None => None
      end
  end.

Definition parse_allowed (obj : gmap string json) (old : list IPAddress) : option (list IPAddress) :=
  if negb (contains obj "allowedIPAddressRanges") then None
  else if negb (isArray (value obj "allowedIPAddressRanges")) then None
  else match parse_ranges (toArray (value obj "allowedIPAddressRanges")) with
       | Some l => Some (sort_by_prefix (old ++ l))
       | None => None
       end.

Definition parse_specialJunk (obj : gmap string json) (m : gmap string string) : gmap string string :=
  overwrite_junk obj "I5" (overwrite_junk obj "I4" (overwrite_junk obj "I3"
    (overwrite_junk obj "I2" (overwrite_junk obj "I1" m)))).

(** [Daemon::parseConfig] *)
Definition parseConfig (obj : gmap string json) (config : InterfaceConfig) : option InterfaceConfig :=
  privateKey ← get_string obj "privateKey";
  serverPublicKey ← get_string obj "serverPublicKey";
  serverPort ← get_double obj "serverPort";
  let deviceIpv4Address := toString (value obj "deviceIpv4Address") in
  let deviceIpv6Address := toString (value obj "deviceIpv6Address") in
  if isNull deviceIpv4Address && isNull deviceIpv6Address then None else
  let serverIpv4AddrIn := toString (value obj "serverIpv4AddrIn") in
  let serverIpv6AddrIn := toString (value obj "serverIpv6AddrIn") in
  if isNull serverIpv4AddrIn && isNull serverIpv6AddrIn then None else
  primaryDnsServer ← parse_optional_string obj "primaryDnsServer";
  secondaryDnsServer ← parse_optional_string obj "secondaryDnsServer";
  hopType ← parse_hopType obj;
  allowed ← parse_allowed obj (m_allowedIPAddressRanges config);
  excluded ← parseStringList obj "excludedAddresses" (m_excludedAddresses config);
  disabledApps ← parseStringList obj "vpnDisabledApps" (m_vpnDisabledApps config);
  allowedDns ← parseStringList obj "allowedDnsServers" (m_allowedDnsServers config);
  Some {|
    m_hopType := hopType;
    m_privateKey := Some privateKey;
    m_deviceIpv4Address := deviceIpv4Address;
    m_deviceIpv6Address := deviceIpv6Address;
    m_serverIpv4Gateway := toString (value obj "serverIpv4Gateway");
    m_serverIpv6Gateway := toString (value obj "serverIpv6Gateway");
    m_serverPublicKey := Some serverPublicKey;
    m_serverIpv4AddrIn := serverIpv4AddrIn;
    m_serverPskKey := toString (value obj "serverPskKey");
    m_serverIpv6AddrIn := serverIpv6AddrIn;
    m_primaryDnsServer := primaryDnsServer;
    m_secondaryDnsServer := secondaryDnsServer;
    m_serverPort := double_to_int serverPort;
    m_deviceMTU := parse_mtu obj;
    m_persistentKeepalive := toString (value obj "persistentKeepalive");
    m_allowedIPAddressRanges := allowed;
    m_excludedAddresses := excluded;
    m_vpnDisabledApps := disabledApps;
    m_allowedDnsServers := allowedDns;
    m_killSwitchEnabled := string_toBool (str (toString (value obj "killSwitchOption")));
    m_junkPacketCount := overwrite obj "Jc" (m_junkPacketCount config);
    m_junkPacketMinSize := overwrite obj "Jmin" (m_junkPacketMinSize config);
    m_junkPacketMaxSize := overwrite obj "Jmax" (m_junkPacketMaxSize config);
    m_initPacketJunkSize := overwrite obj "S1" (m_initPacketJunkSize config);
    m_responsePacketJunkSize := overwrite obj "S2" (m_responsePacketJunkSize config);
    m_cookieReplyPacketJunkSize := overwrite obj "S3" (m_cookieReplyPacketJunkSize config);
    m_transportPacketJunkSize := overwrite obj "S4" (m_transportPacketJunkSize config);
    m_initPacketMagicHeader := overwrite obj "H1" (m_initPacketMagicHeader config);
    m_responsePacketMagicHeader := overwrite obj "H2" (m_responsePacketMagicHeader config);
    m_underloadPacketMagicHeader := overwrite obj "H3" (m_underloadPacketMagicHeader config);
    m_transportPacketMagicHeader := overwrite obj "H4" (m_transportPacketMagicHeader config);
    m_specialJunk := parse_specialJunk obj (m_specialJunk config);
    m_headerProtectionKey := overwrite obj "HeaderProtectionKey" (m_headerProtectionKey config);
    m_contentPaddingAddition := overwrite obj "ContentPaddingAddition" (m_contentPaddingAddition config);
    m_rekeyAfterTime := overwrite obj "RekeyAfterTime" (m_rekeyAfterTime config);
    m_rekeyTimeout := overwrite obj "RekeyTimeout" (m_rekeyTimeout config);
    m_rejectAfterTime := overwrite obj "RejectAfterTime" (m_rejectAfterTime config);
    m_keepaliveTimeout := overwrite obj "KeepaliveTimeout" (m_keepaliveTimeout config);
    m_maxHandshakeAttempts := overwrite obj "MaxHandshakeAttempts" (m_maxHandshakeAttempts config);
  |}.
End parse_config.

(** ** Which requests are accepted *)

Lemma parse_strings_Some l ss : parse_strings l = Some ss ↔ l = JString <$> ss.
Proof.
  revert ss; induction l as [|j l IH]; intros ss.
  { cbn. split; [by intros [= <-]|]. by destruct ss. }
  split.
  - destruct j; cbn; try done. destruct (parse_strings l) as [ss'|]; [|done].
    cbn. intros [= <-]. cbn. f_equal. by apply IH.
  - destruct ss as [|s ss]; [done|]. cbn. intros [= -> ->]. cbn.
    by rewrite (proj2 (IH ss) eq_refl).
Qed.

(** An absent member, or an array of strings. *)
Definition strings_ok (v : option json) : Prop := v = None ∨ ∃ ss, v = Some (JStrings ss).
Definition string_or_absent (v : option json) : Prop := v = None ∨ ∃ s, v = Some (JString s).

Definition range_ok (j : json) : Prop :=
  ∃ m a q b, j = JObject m ∧ value m "address" = Some (JString a) ∧
    value m "range" = Some (JDouble q) ∧ value m "isIpv6" = Some (JBool b).

(** The requests [parseConfig] promises to accept. *)
Record config_ok `{Qt} (obj : gmap string json) : Prop := {
  ok_privateKey : ∃ s, value obj "privateKey" = Some (JString s);
  ok_serverPublicKey : ∃ s, value obj "serverPublicKey" = Some (JString s);
  ok_serverPort : ∃ q, value obj "serverPort" = Some (JDouble q);
  ok_device : ∃ s, value obj "deviceIpv4Address" = Some (JString s)
                 ∨ value obj "deviceIpv6Address" = Some (JString s);
  ok_server : ∃ s, value obj "serverIpv4AddrIn" = Some (JString s)
                 ∨ value obj "serverIpv6AddrIn" = Some (JString s);
  ok_primary : string_or_absent (value obj "primaryDnsServer");
  ok_secondary : string_or_absent (value obj "secondaryDnsServer");
  ok_hop : value obj "hopType" = None ∨
           ∃ s h, value obj "hopType" = Some (JString s) ∧ HopType_keyToValue s = Some h;
  ok_allowed : ∃ l, value obj "allowedIPAddressRanges" = Some (JArray l) ∧ Forall range_ok l;
  ok_excluded : strings_ok (value obj "excludedAddresses");
  ok_apps : strings_ok (value obj "vpnDisabledApps");
  ok_dns : strings_ok (value obj "allowedDnsServers");
}.

Section accept.
Context {Q : Qt}.

Lemma parse_range_Some j : is_Some (parse_range j) ↔ range_ok j.
Proof.
  unfold parse_range. split.
  - destruct j as [| | | | |m]; cbn; try (intros []; done).
    destruct (value m "address") as [[]|] eqn:Ea; cbn; try (intros []; done).
    destruct (value m "range") as [[]|] eqn:Er; cbn; try (intros []; done).
    destruct (value m "isIpv6") as [[]|] eqn:Eb; cbn; try (intros []; done).
    intros _. do 4 eexists. eauto.
  - intros (m & a & q & b & -> & Ha & Hr & Hb). cbn. rewrite Ha, Hr, Hb. cbn. eauto.
Qed.

Lemma parse_ranges_Some l ips :
  parse_ranges l = Some ips ↔ Forall2 (λ j ip, parse_range j = Some ip) l ips.
Proof.
  revert ips; induction l as [|j l IH]; intros ips; cbn.
  { split; [intros [= <-]; constructor|by intros ->%Forall2_nil_inv_l]. }
  destruct (parse_range j) as [ip|] eqn:E.
  - destruct (parse_ranges l) as [ips'|] eqn:El; cbn.
    + split.
      * intros [= <-]. constructor; [done|]. by apply IH.
      * intros (ip' & ips2 & Hj & Hl & ->)%Forall2_cons_inv_l.
        apply IH in Hl. congruence.
    + split; [done|]. intros (ip' & ips2 & _ & Hl & ->)%Forall2_cons_inv_l.
      apply IH in Hl. congruence.
  - split; [done|]. intros (ip' & ips2 & Hj & _ & ->)%Forall2_cons_inv_l. congruence.
Qed.

Lemma parse_ranges_is_Some l : is_Some (parse_ranges l) ↔ Forall range_ok l.
Proof.
  induction l as [|j l IH]; cbn; [split; eauto|].
  rewrite Forall_cons, <- IH, <- parse_range_Some. split.
  - destruct (parse_range j); [|intros []; done]. destruct (parse_ranges l); eauto.
  - intros [[ip ->] [ips ->]]. cbn. eauto.
Qed.

Lemma get_string_Some obj k s : get_string obj k = Some s ↔ value obj k = Some (JString s).
Proof. unfold get_string. repeat case_match; naive_solver. Qed.
Lemma get_double_Some obj k q : get_double obj k = Some q ↔ value obj k = Some (JDouble q).
Proof. unfold get_double. repeat case_match; naive_solver. Qed.

Lemma parse_optional_string_is_Some obj k :
  is_Some (parse_optional_string obj k) ↔ string_or_absent (value obj k).
Proof.
  unfold parse_optional_string, string_or_absent. rewrite contains_spec, negb_involutive.
  destruct (value obj k) as [[]|]; cbn; split; try (intros []; naive_solver); eauto.
Qed.

Lemma parseStringList_is_Some obj k l :
  is_Some (parseStringList obj k l) ↔ strings_ok (value obj k).
Proof.
  unfold parseStringList, strings_ok. rewrite contains_spec.
  destruct (value obj k) as [[| | | |a|]|]; cbn;
    try (split; [intros []; done|intros [?|[? ?]]; done]); [|split; eauto].
  rewrite fmap_is_Some. split.
  - intros [ss ->%parse_strings_Some]. eauto.
  - intros [?|[ss [= ->]]]; [done|]. exists ss. by apply parse_strings_Some.
Qed.

Lemma parse_hopType_is_Some obj :
  is_Some (parse_hopType obj) ↔
  (value obj "hopType" = None ∨
   ∃ s h, value obj "hopType" = Some (JString s) ∧ HopType_keyToValue s = Some h).
Proof.
  unfold parse_hopType. rewrite contains_spec, negb_involutive.
  destruct (value obj "hopType") as [[| | |s| |]|]; cbn;
    try (split; [intros []; done|intros [?|(? & ? & ? & ?)]; done]); [|split; eauto].
  split; [intros [h ?]; eauto 6|]. intros [?|(? & h & [= <-] & ->)]; [done|eauto].
Qed.

Lemma parse_allowed_is_Some obj old :
  is_Some (parse_allowed obj old) ↔
  ∃ l, value obj "allowedIPAddressRanges" = Some (JArray l) ∧ Forall range_ok l.
Proof.
  unfold parse_allowed. rewrite contains_spec, negb_involutive.
  destruct (value obj "allowedIPAddressRanges") as [[| | | |l|]|]; cbn;
    try (split; [intros []; done|intros (? & ? & ?); done]).
  destruct (parse_ranges l) eqn:E.
  - split; [|eauto]. intros _. exists l. split; [done|]. apply parse_ranges_is_Some. eauto.
  - split; [intros []; done|]. intros (l' & [= <-] & Hl%parse_ranges_is_Some).
    rewrite E in Hl. by destruct Hl.
Qed.

Lemma isNull_both (a b : option json) :
  isNull (toString a) && isNull (toString b) = false ↔
  ∃ s, a = Some (JString s) ∨ b = Some (JString s).
Proof.
  destruct a as [[]|], b as [[]|]; cbn; split; try done; eauto; intros (? & [?|?]); done.
Qed.
End accept.

(** The parts of an accepted request, in the order they are read. *)
Record accepted `{Qt} (os : platform) (obj : gmap string json) (c c' : InterfaceConfig) : Prop := {
  acc_privateKey : ∃ s, get_string obj "privateKey" = Some s ∧ m_privateKey c' = Some s;
  acc_publicKey : ∃ s, get_string obj "serverPublicKey" = Some s ∧ m_serverPublicKey c' = Some s;
  acc_port : ∃ q, get_double obj "serverPort" = Some q ∧ m_serverPort c' = double_to_int q;
  acc_device4 : m_deviceIpv4Address c' = toString (value obj "deviceIpv4Address");
  acc_device6 : m_deviceIpv6Address c' = toString (value obj "deviceIpv6Address");
  acc_device : isNull (m_deviceIpv4Address c') && isNull (m_deviceIpv6Address c') = false;
  acc_server4 : m_serverIpv4AddrIn c' = toString (value obj "serverIpv4AddrIn");
  acc_server6 : m_serverIpv6AddrIn c' = toString (value obj "serverIpv6AddrIn");
  acc_server : isNull (m_serverIpv4AddrIn c') && isNull (m_serverIpv6AddrIn c') = false;
  acc_primary : parse_optional_string obj "primaryDnsServer" = Some (m_primaryDnsServer c');
  acc_secondary : parse_optional_string obj "secondaryDnsServer" = Some (m_secondaryDnsServer c');
  acc_hop : parse_hopType obj = Some (m_hopType c');
  acc_allowed : parse_allowed obj (m_allowedIPAddressRanges c) = Some (m_allowedIPAddressRanges c');
  acc_excluded : parseStringList obj "excludedAddresses" (m_excludedAddresses c) = Some (m_excludedAddresses c');
  acc_apps : parseStringList obj "vpnDisabledApps" (m_vpnDisabledApps c) = Some (m_vpnDisabledApps c');
  acc_dns : parseStringList obj "allowedDnsServers" (m_allowedDnsServers c) = Some (m_allowedDnsServers c');
  acc_mtu : m_deviceMTU c' = parse_mtu os obj;
  acc_gateway4 : m_serverIpv4Gateway c' = toString (value obj "serverIpv4Gateway");
  acc_gateway6 : m_serverIpv6Gateway c' = toString (value obj "serverIpv6Gateway");
  acc_psk : m_serverPskKey c' = toString (value obj "serverPskKey");
  acc_keepalive : m_persistentKeepalive c' = toString (value obj "persistentKeepalive");
}.

Section parse_config_lemmas.
Context {Q : Qt} (os : platform) (obj : gmap string json) (c : InterfaceConfig).

Lemma parseConfig_accepted c' : parseConfig os obj c = Some c' → accepted os obj c c'.
Proof.
  unfold parseConfig, mbind, option_bind. cbv zeta.
  destruct (get_string obj "privateKey") eqn:?; [|done].
  destruct (get_string obj "serverPublicKey") eqn:?; [|done].
  destruct (get_double obj "serverPort") eqn:?; [|done].
  destruct (isNull (toString (value obj "deviceIpv4Address")) && _) eqn:?; [done|].
  destruct (isNull (toString (value obj "serverIpv4AddrIn")) && _) eqn:?; [done|].
  destruct (parse_optional_string obj "primaryDnsServer") eqn:?; [|done].
  destruct (parse_optional_string obj "secondaryDnsServer") eqn:?; [|done].
  destruct (parse_hopType obj) eqn:?; [|done].
  destruct (parse_allowed obj _) eqn:?; [|done].
  destruct (parseStringList obj "excludedAddresses" _) eqn:?; [|done].
  destruct (parseStringList obj "vpnDisabledApps" _) eqn:?; [|done].
  destruct (parseStringList obj "allowedDnsServers" _) eqn:?; [|done].
  intros [= <-]. split; cbn; eauto.
Qed.

Lemma config_ok_accepted : config_ok obj → is_Some (parseConfig os obj c).
Proof.
  intros [[k Hk] [k' Hk'] [q Hq] Hdev Hsrv Hp Hs Hh Ha He Hv Hd].
  apply get_string_Some in Hk, Hk'. apply get_double_Some in Hq.
  apply isNull_both in Hdev, Hsrv.
  apply parse_optional_string_is_Some in Hp as [? Hp], Hs as [? Hs].
  apply parse_hopType_is_Some in Hh as [? Hh].
  apply (parse_allowed_is_Some obj (m_allowedIPAddressRanges c)) in Ha as [? Ha].
  apply (parseStringList_is_Some _ _ (m_excludedAddresses c)) in He as [? He].
  apply (parseStringList_is_Some _ _ (m_vpnDisabledApps c)) in Hv as [? Hv].
  apply (parseStringList_is_Some _ _ (m_allowedDnsServers c)) in Hd as [? Hd].
  unfold parseConfig, mbind, option_bind. cbv zeta.
  rewrite Hk, Hk', Hq, Hdev, Hsrv, Hp, Hs, Hh, Ha, He, Hv, Hd. eauto.
Qed.

Lemma accepted_config_ok c' : accepted os obj c c' → config_ok obj.
Proof.
  intros [(? & ? & _) (? & ? & _) (? & ? & _) H4 H6 Hd S4 S6 Hs]. rewrite H4, H6 in Hd. rewrite S4, S6 in Hs.
  split.
  - eexists. by apply get_string_Some.
  - eexists. by apply get_string_Some.
  - eexists. by apply get_double_Some.
  - by apply isNull_both.
  - by apply isNull_both.
  - apply parse_optional_string_is_Some. eauto.
  - apply parse_optional_string_is_Some. eauto.
  - apply parse_hopType_is_Some. eauto.
  - eapply parse_allowed_is_Some. eauto.
  - eapply parseStringList_is_Some. eauto.
  - eapply parseStringList_is_Some. eauto.
  - eapply parseStringList_is_Some. eauto.
Qed.

Lemma parse_mtu_bounds :
  parse_mtu os obj ≠ 0 ∧ (os = Windows → windows_min_mtu ≤ parse_mtu os obj).
Proof.
  unfold parse_mtu, default_mtu, windows_min_mtu. cbv zeta.
  destruct (negb _ || _) eqn:E; [split; intros; lia|]. split_bools.
  destruct (bool_decide_reflect (os = Windows)) as [->|]; cbn.
  - destruct (Z.ltb_spec (string_toInt (str (toString (value obj "deviceMTU")))) 1280); split; lia.
  - split; [done|]. intros ->. done.
Qed.
End parse_config_lemmas.

(** A request as the client sends it. *)
Definition request : gmap string json :=
  <["type" := JString "activate"]> (<["privateKey" := JString "key"]>
  (<["serverPublicKey" := JString "peer"]> (<["serverPort" := JInt 51820]>
  (<["deviceIpv4Address" := JString "10.8.0.2"]> (<["serverIpv4AddrIn" := JString "198.51.100.7"]>
  (<["deviceMTU" := JString "1200"]> (<["primaryDnsServer" := JString "1.1.1.1"]>
  (<["allowedIPAddressRanges" := JArray
       [JObject (<["address" := JString "0.0.0.0"]> (<["range" := JInt 0]> (<["isIpv6" := JBool false]> ∅)));
        JObject (<["address" := JString "10.0.0.0"]> (<["range" := JInt 8]> (<["isIpv6" := JBool false]> ∅)))]]>
  (<["excludedAddresses" := JStrings ["198.51.100.7"]]> ∅))))))))).

(** [parseConfig] accepts exactly the well-formed requests: both keys are
    strings and the port a number, there is a device and a server address, the
    DNS servers and the hop type are strings of the right form when present,
    every allowed range is an object with an address, a numeric range and a
    boolean [isIpv6], and the three lists hold only strings. *)
Theorem parseConfig_accepts `{Qt} os obj c : is_Some (parseConfig os obj c) ↔ config_ok obj.
Proof.
  split; [|apply config_ok_accepted].
  intros [c' Hc]. by eapply accepted_config_ok, parseConfig_accepted.
Qed.

(** What an accepted request gives the daemon: the MTU is never 0, and on
    Windows at least the 1280 bytes IPv6 needs; the tunnel has an address and
    an end point; the allowed ranges are those of the request after those
    already there, sorted by decreasing prefix length. *)
Theorem parseConfig_result `{Qt} os obj c c' :
  sort_laws sort_by_prefix → parseConfig os obj c = Some c' →
  m_deviceMTU c' ≠ 0 ∧ (os = Windows → windows_min_mtu ≤ m_deviceMTU c') ∧
  ¬ (m_deviceIpv4Address c' = None ∧ m_deviceIpv6Address c' = None) ∧
  ¬ (m_serverIpv4AddrIn c' = None ∧ m_serverIpv6AddrIn c' = None) ∧
  Sorted (λ a b, prefixLength b ≤ prefixLength a) (m_allowedIPAddressRanges c') ∧
  ∃ l ips, value obj "allowedIPAddressRanges" = Some (JArray l) ∧
    Forall2 (λ j ip, parse_range j = Some ip) l ips ∧
    m_allowedIPAddressRanges c' ≡ₚ m_allowedIPAddressRanges c ++ ips.
Proof.
  intros Hsort Hc. pose proof (parseConfig_accepted os obj c c' Hc) as A.
  rewrite (acc_mtu _ _ _ _ A). pose proof (parse_mtu_bounds os obj) as [Hm Hw].
  pose proof (acc_device _ _ _ _ A) as Hd. pose proof (acc_server _ _ _ _ A) as Hs.
  pose proof (acc_allowed _ _ _ _ A) as Ha. unfold parse_allowed in Ha.
  destruct (negb (contains _ _)); [done|].
  destruct (value obj "allowedIPAddressRanges") as [[| | | |l|]|] eqn:El; try done.
  cbn in Ha. destruct (parse_ranges l) as [ips|] eqn:Ei; [|done]. injection Ha as Ha.
  split_and!; [done|done| | | |].
  - intros [E4 E6]. by rewrite E4, E6 in Hd.
  - intros [E4 E6]. by rewrite E4, E6 in Hs.
  - rewrite <- Ha. apply (sort_sorted _ Hsort).
  - exists l, ips. split; [done|]. split; [by apply parse_ranges_Some|].
    rewrite <- Ha. apply (sort_perm _ Hsort).
Qed.

Definition request_config : InterfaceConfig :=
  default (new_config SingleHop false) (@parseConfig plain_qt Windows request (new_config SingleHop false)).

Lemma parseConfig_result_witness :
  @parseConfig plain_qt Windows request (new_config SingleHop false) = Some request_config ∧
  m_deviceMTU request_config ≠ 0 ∧
  m_allowedIPAddressRanges request_config = [net_10_8; net_0_0].
Proof.
  assert (@parseConfig plain_qt Windows request (new_config SingleHop false) = Some request_config)
    as Hc by (vm_compute; reflexivity).
  pose proof (@parseConfig_result plain_qt Windows request _ _ plain_qt_sort Hc) as [Hm _].
  split; [exact Hc|]. split; [exact Hm|]. vm_compute. reflexivity.
Defined.

(** ** The JSON form of a configuration, read back *)
Ltac json_lookup :=
  unfold value;
  repeat first [rewrite lookup_insert_eq | rewrite lookup_insert_ne by done | rewrite lookup_empty].

Section toJson_lemmas.
Context {Q : Qt} (c : InterfaceConfig).
#[local] Abbreviation obj := (toJson host_toString c).

Ltac toJson_lookup :=
  unfold toJson; cbv zeta; destruct (isEmpty (m_persistentKeepalive c)), (m_hopType c); by json_lookup.

Lemma toJson_string k v :
  (k, v) ∈ [("hopType", Some (HopType_key (m_hopType c))); ("privateKey", Some (str (m_privateKey c)));
            ("deviceIpv4Address", Some (str (m_deviceIpv4Address c)));
            ("deviceIpv6Address", Some (str (m_deviceIpv6Address c)));
            ("serverPublicKey", Some (str (m_serverPublicKey c)));
            ("serverPskKey", Some (str (m_serverPskKey c)));
            ("serverIpv4AddrIn", Some (str (m_serverIpv4AddrIn c)));
            ("serverIpv6AddrIn", Some (str (m_serverIpv6AddrIn c)));
            ("persistentKeepalive", if isEmpty (m_persistentKeepalive c) then None
                                    else Some (str (m_persistentKeepalive c)))] →
  value obj k = JString <$> v.
Proof.
  rewrite !elem_of_cons, elem_of_nil. intros Hk.
  repeat (destruct Hk as [[= -> ->]|Hk]; [solve [toJson_lookup]|]). done.
Qed.

Lemma toJson_gateway k v :
  (k, v) ∈ [("serverIpv4Gateway", m_serverIpv4Gateway c); ("serverIpv6Gateway", m_serverIpv6Gateway c);
            ("primaryDnsServer", m_primaryDnsServer c); ("secondaryDnsServer", m_secondaryDnsServer c)] →
  value obj k = if decide (m_hopType c = MultiHopEntry) then None else Some (JQString v).
Proof.
  rewrite !elem_of_cons, elem_of_nil. intros Hk.
  repeat (destruct Hk as [[= -> ->]|Hk]; [solve [toJson_lookup]|]). done.
Qed.

Lemma toJson_number k v :
  (k, v) ∈ [("serverPort", m_serverPort c); ("deviceMTU", m_deviceMTU c)] →
  value obj k = Some (JInt v).
Proof.
  rewrite !elem_of_cons, elem_of_nil. intros Hk.
  repeat (destruct Hk as [[= -> ->]|Hk]; [solve [toJson_lookup]|]). done.
Qed.

Lemma toJson_list k v :
  (k, v) ∈ [("allowedIPAddressRanges", range_json host_toString <$> m_allowedIPAddressRanges c);
            ("excludedAddresses", JString <$> m_excludedAddresses c);
            ("allowedDnsServers", JString <$> m_allowedDnsServers c);
            ("vpnDisabledApps", JString <$> m_vpnDisabledApps c)] →
  value obj k = Some (JArray v).
Proof.
  rewrite !elem_of_cons, elem_of_nil. intros Hk.
  repeat (destruct Hk as [[= -> ->]|Hk]; [solve [toJson_lookup]|]). done.
Qed.

Lemma range_json_ok i : range_ok (range_json host_toString i).
Proof.
  eexists _, _, _, _. split; [reflexivity|]. split_and!; by json_lookup.
Qed.

Lemma parse_range_json i :
  host_of_string (host_toString (m_address i)) = m_address i →
  int_min ≤ m_prefixLength i ≤ int_max →
  parse_range (range_json host_toString i) = Some i.
Proof.
  intros Ha Hp. unfold parse_range, range_json. cbn -[JInt toInt].
  match goal with |- context [value ?m "address"] => set (o := m) end.
  assert (value o "address" = Some (JString (host_toString (m_address i)))) as -> by (subst o; by json_lookup).
  assert (value o "range" = Some (JInt (m_prefixLength i))) as -> by (subst o; by json_lookup).
  assert (value o "isIpv6" = Some (JBool (bool_decide (type i = IPv6Protocol)))) as -> by (subst o; by json_lookup).
  rewrite toInt_JInt by done. cbn. rewrite Ha. by destruct i.
Qed.

Lemma toJson_config_ok :
  HopType_keyToValue (HopType_key (m_hopType c)) = Some (m_hopType c) → config_ok obj.
Proof.
  intros Hh. split.
  - eexists. by erewrite (toJson_string "privateKey") by listed.
  - eexists. by erewrite (toJson_string "serverPublicKey") by listed.
  - eexists. by erewrite (toJson_number "serverPort") by listed.
  - eexists. left. by erewrite (toJson_string "deviceIpv4Address") by listed.
  - eexists. left. by erewrite (toJson_string "serverIpv4AddrIn") by listed.
  - unfold string_or_absent. erewrite (toJson_gateway "primaryDnsServer") by listed.
    case_decide; unfold JQString; eauto.
  - unfold string_or_absent. erewrite (toJson_gateway "secondaryDnsServer") by listed.
    case_decide; unfold JQString; eauto.
  - right. exists (HopType_key (m_hopType c)), (m_hopType c). split; [|done].
    by erewrite (toJson_string "hopType") by listed.
  - eexists. erewrite (toJson_list "allowedIPAddressRanges") by listed.
    split; [done|]. apply Forall_fmap, Forall_forall. intros i _. apply range_json_ok.
  - right. eexists. by erewrite (toJson_list "excludedAddresses") by listed.
  - right. eexists. by erewrite (toJson_list "vpnDisabledApps") by listed.
  - right. eexists. by erewrite (toJson_list "allowedDnsServers") by listed.
Qed.
End toJson_lemmas.

(** What survives [toJson] and [parseConfig]: strings up to null and empty. *)
Record same_tunnel (c c' : InterfaceConfig) : Prop := {
  same_hop : m_hopType c' = m_hopType c;
  same_privateKey : str (m_privateKey c') = str (m_privateKey c);
  same_publicKey : str (m_serverPublicKey c') = str (m_serverPublicKey c);
  same_psk : str (m_serverPskKey c') = str (m_serverPskKey c);
  same_port : m_serverPort c' = m_serverPort c;
  same_device4 : str (m_deviceIpv4Address c') = str (m_deviceIpv4Address c);
  same_device6 : str (m_deviceIpv6Address c') = str (m_deviceIpv6Address c);
  same_server4 : str (m_serverIpv4AddrIn c') = str (m_serverIpv4AddrIn c);
  same_server6 : str (m_serverIpv6AddrIn c') = str (m_serverIpv6AddrIn c);
  same_keepalive : str (m_persistentKeepalive c') = str (m_persistentKeepalive c);
  same_exit : m_hopType c ≠ MultiHopEntry →
    str (m_serverIpv4Gateway c') = str (m_serverIpv4Gateway c) ∧
    str (m_serverIpv6Gateway c') = str (m_serverIpv6Gateway c) ∧
    str (m_primaryDnsServer c') = str (m_primaryDnsServer c) ∧
    str (m_secondaryDnsServer c') = str (m_secondaryDnsServer c);
  same_ranges : m_allowedIPAddressRanges c' ≡ₚ m_allowedIPAddressRanges c;
  same_excluded : m_excludedAddresses c' = m_excludedAddresses c;
  same_apps : m_vpnDisabledApps c' = m_vpnDisabledApps c;
  same_dns : m_allowedDnsServers c' = m_allowedDnsServers c;
}.

Lemma parseStringList_JStrings obj k ss l :
  value obj k = Some (JStrings ss) → parseStringList obj k l = Some (l ++ ss).
Proof.
  intros H. unfold parseStringList. rewrite contains_spec, H. cbn.
  by rewrite (proj2 (parse_strings_Some (JString <$> ss) ss) eq_refl).
Qed.

Lemma parse_optional_string_JString obj k s :
  value obj k = Some (JString s) → parse_optional_string obj k = Some (Some s).
Proof. intros H. unfold parse_optional_string. rewrite contains_spec, H. done. Qed.

Lemma parse_ranges_json `{Qt} l :
  Forall (λ i, host_of_string (host_toString (m_address i)) = m_address i ∧
               int_min ≤ m_prefixLength i ≤ int_max) l →
  parse_ranges (range_json host_toString <$> l) = Some l.
Proof.
  induction 1 as [|i l [Ha Hp] Hl IH]; [done|]. cbn -[range_json].
  by rewrite parse_range_json, IH.
Qed.

(** A configuration sent as JSON and read back describes the same tunnel
    (keys, addresses, port, routes, exclusions, and for an exit hop the gateway
    and DNS servers) but not with the same MTU: [toJson] writes [deviceMTU] as a
    number, [parseConfig] reads it as a string, so the result always has the
    default MTU. *)
Theorem parseConfig_toJson `{Qt} os c h ks :
  sort_laws sort_by_prefix →
  HopType_keyToValue (HopType_key (m_hopType c)) = Some (m_hopType c) →
  string_toInt "" = 0 →
  Forall (λ i, host_of_string (host_toString (m_address i)) = m_address i ∧
               int_min ≤ m_prefixLength i ≤ int_max) (m_allowedIPAddressRanges c) →
  ∃ c', parseConfig os (toJson host_toString c) (new_config h ks) = Some c' ∧
        same_tunnel c c' ∧ m_deviceMTU c' = default_mtu.
Proof.
  intros Hsort Hh Hint Hhosts.
  destruct (config_ok_accepted os _ (new_config h ks) (toJson_config_ok c Hh)) as [c' Hc].
  exists c'. split; [done|]. pose proof (parseConfig_accepted _ _ _ _ Hc) as A.
  destruct A as [(? & Hpk & Epk) (? & Hpub & Epub) (? & Hport & Eport) E4 E6 _ S4 S6 _ Hp Hs Hhop
    Hal Hex Hap Hdn Emtu Eg4 Eg6 Epsk Eka].
  apply get_string_Some in Hpk, Hpub. apply get_double_Some in Hport.
  erewrite (toJson_string c "privateKey") in Hpk by listed.
  erewrite (toJson_string c "serverPublicKey") in Hpub by listed.
  erewrite (toJson_number c "serverPort") in Hport by listed.
  erewrite (toJson_string c "deviceIpv4Address") in E4 by listed.
  erewrite (toJson_string c "deviceIpv6Address") in E6 by listed.
  erewrite (toJson_string c "serverIpv4AddrIn") in S4 by listed.
  erewrite (toJson_string c "serverIpv6AddrIn") in S6 by listed.
  erewrite (toJson_string c "serverPskKey") in Epsk by listed.
  erewrite (toJson_string c "persistentKeepalive") in Eka by listed.
  erewrite (toJson_gateway c "serverIpv4Gateway") in Eg4 by listed.
  erewrite (toJson_gateway c "serverIpv6Gateway") in Eg6 by listed.
  erewrite parseStringList_JStrings in Hex, Hap, Hdn by (erewrite toJson_list by listed; reflexivity).
  injection Hpk as <-. injection Hpub as <-. injection Hport as <-.
  split; [split; rewrite ?Epk, ?Epub, ?E4, ?E6, ?S4, ?S6, ?Epsk; try reflexivity|].
  - unfold parse_hopType in Hhop. rewrite contains_spec in Hhop.
    erewrite (toJson_string c "hopType") in Hhop by listed. cbn in Hhop. congruence.
  - rewrite Eport. apply double_to_int_inject.
  - rewrite Eka. unfold isEmpty. destruct (String.eqb_spec (str (m_persistentKeepalive c)) "") as [->|]; done.
  - intros Hx. rewrite decide_False in Eg4, Eg6 by done. rewrite Eg4, Eg6.
    erewrite parse_optional_string_JString in Hp, Hs
      by (erewrite toJson_gateway by listed; rewrite decide_False by done; reflexivity).
    injection Hp as <-. injection Hs as <-. done.
  - unfold parse_allowed in Hal. rewrite contains_spec in Hal.
    erewrite (toJson_list c "allowedIPAddressRanges") in Hal by listed. cbn in Hal.
    rewrite parse_ranges_json in Hal by done. injection Hal as <-. apply (sort_perm _ Hsort).
  - cbn in Hex. congruence.
  - cbn in Hap. congruence.
  - cbn in Hdn. congruence.
  - rewrite Emtu. unfold parse_mtu. erewrite (toJson_number c "deviceMTU") by listed.
    cbn. rewrite Hint. by rewrite orb_true_r.
Qed.

Lemma parseConfig_toJson_witness :
  ∃ c', @parseConfig plain_qt Linux (toJson dotted_print wg_example) (new_config SingleHop false) = Some c' ∧
        m_deviceMTU wg_example = 1376 ∧ m_deviceMTU c' = default_mtu.
Proof.
  destruct (@parseConfig_toJson plain_qt Linux wg_example SingleHop false plain_qt_sort)
    as (c' & Hc & _ & Hm).
  - reflexivity.
  - reflexivity.
  - repeat constructor; done.
  - exists c'. split; [exact Hc|]. split; [reflexivity|exact Hm].
Defined.
