(* ===== verification/Daemon.v ===== *)
(** * Daemon: the privileged daemon's tunnel life cycle

    Models [client/daemon/daemon.{h,cpp}]: activation, deactivation, server
    switching, exclusion-route counting, the handshake poll and the liveness
    watchdog.  The platform back ends ([WireguardUtils], [DnsUtils], [IPUtils]
    and the virtual [run]) are an interface: every call and its answer, and every
    signal, is an event of the daemon's log, and the answer to a call may depend
    on everything logged before it. *)
From S2P Require Import Prelude Text Json IpAddress InterfaceConfig Qt.

(** ** The platform interface *)
Inductive Op := Up | Down | Switch.

Inductive call :=
  | prepareActivation (c : InterfaceConfig)
  | addInterface (c : InterfaceConfig)
  | deleteInterface
  | addInterfaceIPs (c : InterfaceConfig)
  | setMTUAndUp (c : InterfaceConfig)
  | updatePeer (c : InterfaceConfig)
  | deletePeer (c : InterfaceConfig)
  | updateRoutePrefix (ip : IPAddress)
  | deleteRoutePrefix (ip : IPAddress)
  | wg_addExclusionRoute (ip : IPAddress)
  | wg_deleteExclusionRoute (ip : IPAddress)
  | updateResolvers (ifname : string) (resolvers : list QHostAddress)
  | restoreResolvers
  | run (op : Op) (c : InterfaceConfig).

Inductive signal :=
  | connected (pubkey : string)
  | activationFailure
  | disconnected.

Inductive event :=
  | Called (c : call) (answer : bool)
  | AskedInterface
  | AskedPeers
  | Emitted (s : signal).

Record PeerStatus := mkPeerStatus {
  m_pubkey : string;
  m_handshake : Z;
  m_rxBytes : Z;
  m_txBytes : Z;
}.

Class Platform := {
  answer : list event → call → bool;
  interfaceExists : list event → bool;
  getPeerStatus : list event → list PeerStatus;
  supportIPUtils : bool;
  interfaceName : string;
  (** [QDateTime::toString()] *)
  date_toString : option Z → string;
}.

(** ** State *)
#[export] Instance HopType_countable : Countable HopType.
Proof.
  apply (inj_countable'
    (λ h, match h with SingleHop => 0 | MultiHopEntry => 1 | MultiHopExit => 2 end)
    (λ n, if decide (n = 0) then SingleHop else if decide (n = 1) then MultiHopEntry else MultiHopExit)).
  by intros [].
Defined.

Record ConnectionState := mkConnectionState {
  m_date : option Z;               (* msecs since epoch; [None] is the invalid date *)
  m_config : InterfaceConfig;
  m_lastTxBytes : Z;
  m_lastRxBytes : Z;
  m_stalledSamples : Z;
  m_quickRecoveryAttempts : Z;
}.

(** [ConnectionState(config)] *)
Definition fresh (config : InterfaceConfig) : ConnectionState :=
  mkConnectionState None config 0 0 0 0.

Record Daemon := mkDaemon {
  m_connections : gmap HopType ConnectionState;
  m_excludedAddrSet : gmap IPAddress Z;
  m_handshakeTimer : bool;         (* running *)
  m_livenessTimer : bool;
  log : list event;                (* oldest first *)
}.

(** [QMap] iterates in key order. *)
Definition hop_order : list HopType := [SingleHop; MultiHopEntry; MultiHopExit].
Definition connections (d : Daemon) : list (HopType * ConnectionState) :=
  omap (λ h, (h,.) <$> m_connections d !! h) hop_order.

Definition HANDSHAKE_STALE_MSEC : Z := 150 * 1000.
Definition BLACKHOLE_SAMPLES : Z := 3.
Definition QUICK_RECOVERY_ATTEMPTS : Z := 3.

Section daemon.
Context {Q : Qt} {P : Platform}.

#[local] Abbreviation D := (stM Daemon).

Definition set_connections (f : gmap HopType ConnectionState → gmap HopType ConnectionState) : D unit :=
  modify (λ d, mkDaemon (f (m_connections d)) (m_excludedAddrSet d) (m_handshakeTimer d)
                        (m_livenessTimer d) (log d)).
Definition set_excluded (f : gmap IPAddress Z → gmap IPAddress Z) : D unit :=
  modify (λ d, mkDaemon (m_connections d) (f (m_excludedAddrSet d)) (m_handshakeTimer d)
                        (m_livenessTimer d) (log d)).
Definition set_handshakeTimer (b : bool) : D unit :=
  modify (λ d, mkDaemon (m_connections d) (m_excludedAddrSet d) b (m_livenessTimer d) (log d)).
Definition set_livenessTimer (b : bool) : D unit :=
  modify (λ d, mkDaemon (m_connections d) (m_excludedAddrSet d) (m_handshakeTimer d) b (log d)).
Definition logged (e : event) : D unit :=
  modify (λ d, mkDaemon (m_connections d) (m_excludedAddrSet d) (m_handshakeTimer d)
                        (m_livenessTimer d) (log d ++ [e])).
Definition emit (s : signal) : D unit := logged (Emitted s).

(** A call to the platform. *)
Definition call_ (c : call) : D bool :=
  d ← get; _ ← logged (Called c (answer (log d) c)); mret (answer (log d) c).

(** The two queries; being logged, they may be answered differently each time. *)
Definition query_interface : D bool :=
  d ← get; _ ← logged AskedInterface; mret (interfaceExists (log d)).
Definition query_peers : D (list PeerStatus) :=
  d ← get; _ ← logged AskedPeers; mret (getPeerStatus (log d)).

(** ** Exclusion routes *)
Definition addExclusionRoute (prefix : IPAddress) : D bool :=
  d ← get;
  if decide (is_Some (m_excludedAddrSet d !! prefix)) then
    _ ← set_excluded (alter (λ n, n + 1) prefix); mret true
  else
    ok ← call_ (wg_addExclusionRoute prefix);
    if (ok : bool) then _ ← set_excluded (insert prefix 1); mret true
    else mret false.

(** [QHash::operator[]] inserts 0 for an absent key. *)
Definition delExclusionRoute (prefix : IPAddress) : D bool :=
  _ ← set_excluded (λ m, <[prefix := default 0 (m !! prefix)]> m);
  d ← get;
  if 1 <? default 0 (m_excludedAddrSet d !! prefix) then
    _ ← set_excluded (alter (λ n, n - 1) prefix); mret true
  else
    _ ← set_excluded (delete prefix);
    call_ (wg_deleteExclusionRoute prefix).

(** ** Resolvers *)
Definition resolvers_of (config : InterfaceConfig) : list QHostAddress :=
  [host_of_string (str (m_primaryDnsServer config))] ++
  (if isEmpty (m_secondaryDnsServer config) then []
   else [host_of_string (str (m_secondaryDnsServer config))]) ++
  (if qstr_eqb (m_primaryDnsServer config) (m_serverIpv4Gateway config)
   then [host_of_string (str (m_serverIpv6Gateway config))] else []).

Definition maybeUpdateResolvers (config : InterfaceConfig) : D bool :=
  if decide (m_hopType config = MultiHopExit ∨ m_hopType config = SingleHop) then
    ok ← call_ (updateResolvers interfaceName (resolvers_of config));
    if (ok : bool) then mret true else mret false
  else mret true.

(** ** Server switching *)
Definition supportServerSwitching (d : Daemon) (config : InterfaceConfig) : bool :=
  match m_connections d !! m_hopType config with
  | None => false
  | Some s =>
      let current := m_config s in
      qstr_eqb (m_privateKey current) (m_privateKey config) &&
      qstr_eqb (m_deviceIpv4Address current) (m_deviceIpv4Address config) &&
      qstr_eqb (m_deviceIpv6Address current) (m_deviceIpv6Address config) &&
      qstr_eqb (m_serverIpv4Gateway current) (m_serverIpv4Gateway config) &&
      qstr_eqb (m_serverIpv6Gateway current) (m_serverIpv6Gateway config)
  end.

Definition switchServer (config : InterfaceConfig) : D bool :=
  d ← get;
  let lastConfig := from_option m_config config (m_connections d !! m_hopType config) in
  _ ← for_each (m_excludedAddresses config) (λ i, discard (addExclusionRoute (IPAddress_of i)));
  and_then (call_ (updatePeer config)) (
    _ ← for_all (m_allowedIPAddressRanges config) (λ ip, call_ (updateRoutePrefix ip));
    _ ← for_each (m_excludedAddresses lastConfig)
          (λ i, discard (delExclusionRoute (IPAddress_of_host (host_of_string i))));
    _ ← for_each (m_allowedIPAddressRanges lastConfig)
          (λ ip, if existsb (ip_eqb ip) (m_allowedIPAddressRanges config) then mret tt
                 else discard (call_ (deleteRoutePrefix ip)));
    and_then (if qstr_eqb (m_serverPublicKey config) (m_serverPublicKey lastConfig) then mret true
              else call_ (deletePeer lastConfig)) (
      _ ← set_connections (insert (m_hopType config) (fresh config)); mret true)).

(** ** Deactivation *)
Definition clear_exclusions : D unit :=
  d ← get;
  _ ← for_each (map_to_list (m_excludedAddrSet d)).*1 (λ ip, discard (call_ (wg_deleteExclusionRoute ip)));
  set_excluded (λ _, ∅).

Definition deactivate (emitSignals : bool) : D bool :=
  _ ← set_livenessTimer false;
  _ ← set_handshakeTimer false;
  d ← get;
  and_then (match connections d with
            | [] => mret true
            | (_, state) :: _ => call_ (run Down (m_config state))
            end) (
    _ ← (if emitSignals then emit disconnected else mret tt);
    _ ← call_ restoreResolvers;
    _ ← for_each (connections d) (λ s,
          let config := m_config s.2 in
          _ ← for_each (m_allowedIPAddressRanges config) (λ ip, discard (call_ (deleteRoutePrefix ip)));
          discard (call_ (deletePeer config)));
    _ ← clear_exclusions;
    _ ← set_connections (λ _, ∅);
    call_ deleteInterface).

(** ** Activation *)

(** The connection is recorded and the handshake poll started. *)
Definition established (config : InterfaceConfig) : D bool :=
  _ ← set_connections (insert (m_hopType config) (fresh config));
  _ ← set_handshakeTimer true;
  mret true.

Definition activate_switch (config : InterfaceConfig) : D bool :=
  and_then (switchServer config) (
  and_then (call_ restoreResolvers) (
  and_then (maybeUpdateResolvers config) (
  and_then (call_ (run Switch config)) (established config)))).

Definition activate_new (config : InterfaceConfig) : D bool :=
  _ ← call_ (prepareActivation config);
  exists_ ← query_interface;
  and_then (if (exists_ : bool) then mret true else call_ (addInterface config)) (
  and_then (if supportIPUtils
            then and_then (call_ (addInterfaceIPs config)) (call_ (setMTUAndUp config))
            else mret true) (
    _ ← for_each (m_excludedAddresses config) (λ i, discard (addExclusionRoute (IPAddress_of i)));
    and_then (call_ (updatePeer config)) (
    and_then (maybeUpdateResolvers config) (
    and_then (for_all (m_allowedIPAddressRanges config) (λ ip, call_ (updateRoutePrefix ip))) (
    and_then (call_ (run Up config)) (established config)))))).

(** The body of [activate], [again] being its recursive call; the scope guard
    emits [activationFailure] on every unsuccessful return. *)
Definition activate_body (again : InterfaceConfig → D bool) (config : InterfaceConfig) : D bool :=
  d ← get;
  ok ← (if decide (is_Some (m_connections d !! m_hopType config)) then
          if supportServerSwitching d config then activate_switch config
          else and_then (deactivate false) (again config)
        else activate_new config);
  _ ← (if (ok : bool) then mret tt else emit activationFailure);
  mret ok.

Fixpoint activate_fuel (n : nat) (config : InterfaceConfig) : D bool :=
  match n with
  | O => mret false
  | S n => activate_body (activate_fuel n) config
  end.

(** A deactivated daemon has no connection: the recursion is one deep. *)
Definition activate (config : InterfaceConfig) : D bool := activate_fuel 2 config.

(** ** Status *)
Definition status_disconnected : gmap string json := <["connected" := JBool false]> ∅.

Definition status_connected (c : ConnectionState) (st : PeerStatus) : gmap string json :=
  <["rxBytes" := JInt (m_rxBytes st)]> (<["txBytes" := JInt (m_txBytes st)]>
  (<["date" := JString (date_toString (m_date c))]>
  (<["deviceIpv4Address" := JQString (m_deviceIpv4Address (m_config c))]>
  (<["serverIpv4Gateway" := JQString (m_serverIpv4Gateway (m_config c))]>
  (<["connected" := JBool true]> ∅))))).

Definition is_peer_of (c : ConnectionState) (st : PeerStatus) : bool :=
  String.eqb (m_pubkey st) (str (m_serverPublicKey (m_config c))).

Definition getStatus : D (gmap string json) :=
  exists_ ← query_interface;
  d ← get;
  match (exists_ : bool), connections d with
  | true, (_, connection) :: _ =>
      peers ← query_peers;
      match List.find (is_peer_of connection) peers with
      | Some st => mret (status_connected connection st)
      | None => mret status_disconnected
      end
  | _, _ => mret status_disconnected
  end.

(** ** The handshake poll *)

(** One peer's entry, for a connection that awaits its handshake. *)
Definition handshake_step (h : HopType) (st : PeerStatus) : D unit :=
  d ← get;
  match m_connections d !! h with
  | None => mret tt
  | Some c =>
      if negb (is_peer_of c st) then mret tt
      else if m_handshake st =? 0 then mret tt
      else
        _ ← set_connections (insert h
              (mkConnectionState (Some (m_handshake st)) (m_config c) (m_txBytes st) (m_rxBytes st) 0 0));
        emit (connected (m_pubkey st))
  end.

Definition is_pending (d : Daemon) (h : HopType) : bool :=
  match m_connections d !! h with
  | Some c => match m_date c with None => true | Some _ => false end
  | None => false
  end.

Definition checkHandshake_one (peers : list PeerStatus) (h : HopType) : D unit :=
  d ← get;
  if is_pending d h then for_each peers (handshake_step h) else mret tt.

(** Poll again while a handshake is awaited, then hand over to the watchdog. *)
Definition rearm : D unit :=
  d ← get;
  let pendingHandshakes := length (List.filter (is_pending d) (connections d).*1) in
  if (0 <? Z.of_nat pendingHandshakes) then set_handshakeTimer true
  else match connections d with
       | [] => mret tt
       | _ => set_livenessTimer true
       end.

Definition checkHandshake : D unit :=
  peers ← query_peers;
  d ← get;
  _ ← for_each (connections d).*1 (checkHandshake_one peers);
  rearm.

(** The single-shot timer fires. *)
Definition handshake_timeout : D unit :=
  d ← get;
  if m_handshakeTimer d then _ ← set_handshakeTimer false; checkHandshake else mret tt.

(** ** The liveness watchdog *)
Definition tryQuickRecovery (config : InterfaceConfig) (attempt : Z) : D bool :=
  if QUICK_RECOVERY_ATTEMPTS <=? attempt then mret false
  else and_then (call_ (updatePeer config)) (mret true).

(** Reading one sample: the new state, and whether the tunnel looks dead. *)
Definition liveness_sample (now : Z) (c : ConnectionState) (st : PeerStatus) : ConnectionState * bool :=
  let txDelta := m_txBytes st - m_lastTxBytes c in
  let rxDelta := m_rxBytes st - m_lastRxBytes c in
  if 0 <? rxDelta then
    (mkConnectionState (m_date c) (m_config c) (m_txBytes st) (m_rxBytes st) 0 0, false)
  else
    let stalled := if 0 <? txDelta then m_stalledSamples c + 1 else m_stalledSamples c in
    let c' := mkConnectionState (m_date c) (m_config c) (m_txBytes st) (m_rxBytes st) stalled
                                (m_quickRecoveryAttempts c) in
    let handshakeAge := if 0 <? m_handshake st then now - m_handshake st else -1 in
    let handshakeStale := (HANDSHAKE_STALE_MSEC <? handshakeAge) || (m_handshake st =? 0) in
    let blackHole := BLACKHOLE_SAMPLES <=? stalled in
    (c', handshakeStale || blackHole).

Definition recovered (c : ConnectionState) : ConnectionState :=
  mkConnectionState (m_date c) (m_config c) (m_lastTxBytes c) (m_lastRxBytes c) 0
                    (m_quickRecoveryAttempts c + 1).

(** One peer's entry; [false] ends the check. *)
Definition liveness_step (now : Z) (h : HopType) (st : PeerStatus) : D bool :=
  d ← get;
  match m_connections d !! h with
  | None => mret true
  | Some c =>
      if negb (is_peer_of c st) then mret true
      else
        let '(c', dead) := liveness_sample now c st in
        _ ← set_connections (insert h c');
        if negb dead then mret true
        else
          ok ← tryQuickRecovery (m_config c) (m_quickRecoveryAttempts c');
          if (ok : bool) then _ ← set_connections (insert h (recovered c')); mret true
          else _ ← set_livenessTimer false; _ ← emit disconnected; mret false
  end.

Definition checkLiveness (now : Z) : D unit :=
  d ← get;
  exists_ ← (match connections d with [] => mret false | _ => query_interface end);
  if negb (exists_ : bool) then set_livenessTimer false
  else
    peers ← query_peers;
    discard (for_all (connections d).*1 (λ h, for_all peers (liveness_step now h))).

(** The repeating timer fires. *)
Definition liveness_timeout (now : Z) : D unit :=
  d ← get; if m_livenessTimer d then checkLiveness now else mret tt.
End daemon.

(** ** The event loop *)

(** Client commands and timer expiries. *)
Inductive request :=
  | Activate (c : InterfaceConfig)
  | Deactivate (emitSignals : bool)
  | GetStatus
  | HandshakeTimeout
  | LivenessTimeout (now : Z).

Definition perform `{Qt} `{Platform} (r : request) : stM Daemon unit :=
  match r with
  | Activate c => discard (activate c)
  | Deactivate b => discard (deactivate b)
  | GetStatus => discard getStatus
  | HandshakeTimeout => handshake_timeout
  | LivenessTimeout now => liveness_timeout now
  end.

(** The daemon as it starts. *)
Definition initial : Daemon := mkDaemon ∅ ∅ false false [].

Definition after `{Qt} `{Platform} (rs : list request) : Daemon :=
  run_state (for_each rs perform) initial.

Lemma call_run `{Platform} c d :
  call_ c d = (answer (log d) c,
               mkDaemon (m_connections d) (m_excludedAddrSet d) (m_handshakeTimer d) (m_livenessTimer d)
                        (log d ++ [Called c (answer (log d) c)])).
Proof. reflexivity. Qed.

(** ** What the operations may do, one preorder at a time *)

Definition touches_exclusions (c : call) : bool :=
  match c with wg_addExclusionRoute _ | wg_deleteExclusionRoute _ => true | _ => false end.

Section walk.
Context {Q : Qt} {P : Platform} (R : relation Daemon) {HR : PreOrder R}
  (Hfresh : ∀ c, steps R (set_connections (insert (m_hopType c) (fresh c))))
  (Hempty : steps R (set_connections (λ _, ∅)))
  (Hhandshake : ∀ h st, steps R (handshake_step h st))
  (Hliveness : ∀ now h st, steps R (liveness_step now h st))
  (Hhs : ∀ b, steps R (set_handshakeTimer b))
  (Hlv : ∀ b, steps R (set_livenessTimer b))
  (Hint : steps R query_interface) (Hpeers : steps R query_peers)
  (Hcall : ∀ c, touches_exclusions c = false → steps R (call_ c))
  (Hemit : ∀ s, s ≠ activationFailure → steps R (emit s))
  (Hadd : ∀ ip, steps R (addExclusionRoute ip))
  (Hdel : ∀ ip, steps R (delExclusionRoute ip))
  (Hclear : steps R clear_exclusions).

Ltac walk :=
  steps_tac; repeat first
    [ apply Hfresh | apply Hempty | apply Hhandshake | apply Hliveness | apply Hhs | apply Hlv | apply Hint | apply Hpeers | apply Hadd | apply Hdel
    | apply Hclear | apply Hcall; reflexivity | apply Hemit; discriminate ].

Lemma walk_maybeUpdateResolvers c : steps R (maybeUpdateResolvers c).
Proof using HR Hcall. unfold maybeUpdateResolvers. walk. Qed.

Lemma walk_switchServer c : steps R (switchServer c).
Proof using HR Hfresh Hcall Hadd Hdel. unfold switchServer. walk. Qed.

Lemma walk_deactivate b : steps R (deactivate b).
Proof using HR Hempty Hhs Hlv Hcall Hemit Hclear. unfold deactivate. walk. Qed.

Lemma walk_activate_new c : steps R (activate_new c).
Proof using HR Hfresh Hhs Hint Hcall Hadd.
  unfold activate_new, established. pose proof (walk_maybeUpdateResolvers c). walk.
Qed.

Lemma walk_activate_switch c : steps R (activate_switch c).
Proof using HR Hfresh Hhs Hcall Hadd Hdel.
  unfold activate_switch, established.
  pose proof (walk_maybeUpdateResolvers c). pose proof (walk_switchServer c). walk.
Qed.

Lemma walk_getStatus : steps R getStatus.
Proof using HR Hint Hpeers. unfold getStatus. walk. Qed.

Lemma walk_checkHandshake : steps R checkHandshake.
Proof using HR Hhandshake Hhs Hlv Hpeers. unfold checkHandshake, checkHandshake_one, rearm. walk. Qed.

Lemma walk_checkLiveness now : steps R (checkLiveness now).
Proof using HR Hliveness Hlv Hint Hpeers. unfold checkLiveness. walk. Qed.

Context (Hfail : steps R (emit activationFailure)).

Lemma walk_activate_fuel n c : steps R (activate_fuel n c).
Proof using HR Hfresh Hempty Hhs Hlv Hint Hcall Hemit Hadd Hdel Hclear Hfail.
  revert c; induction n as [|n IH]; intros c; cbn [activate_fuel]; [walk|].
  unfold activate_body. pose proof (IH c). pose proof (walk_activate_new c).
  pose proof (walk_activate_switch c). pose proof (walk_deactivate false). walk.
Qed.

(** ** Everything the event loop can ask of the daemon *)
Lemma walk_perform r : steps R (perform r).
Proof using All.
  pose proof walk_activate_fuel as Ha. pose proof walk_deactivate. pose proof walk_getStatus.
  pose proof walk_checkHandshake. pose proof walk_checkLiveness.
  unfold perform, activate, handshake_timeout, liveness_timeout. destruct r; walk; auto.
Qed.
End walk.

(** ** Deactivation *)

(** Nothing but the log moves. *)
Record only_log (d d' : Daemon) : Prop := {
  ol_connections : m_connections d' = m_connections d;
  ol_excluded : m_excludedAddrSet d' = m_excludedAddrSet d;
  ol_handshake : m_handshakeTimer d' = m_handshakeTimer d;
  ol_liveness : m_livenessTimer d' = m_livenessTimer d;
}.
#[export] Instance only_log_preorder : PreOrder only_log.
Proof.
  split; [by split|]. intros d1 d2 d3 [] []. split; congruence.
Qed.

Lemma only_log_connections_list d d' : only_log d d' → connections d' = connections d.
Proof. intros [H _ _ _]. unfold connections. by rewrite H. Qed.

Section deactivate.
Context {Q : Qt} {P : Platform}.

Lemma only_log_logged e : steps only_log (logged e).
Proof. intros d. by split. Qed.
Lemma only_log_call c : steps only_log (call_ c).
Proof. intros d. by split. Qed.
Lemma only_log_emit s : steps only_log (emit s).
Proof. intros d. by split. Qed.
Lemma only_log_query_interface : steps only_log query_interface.
Proof. intros d. by split. Qed.
Lemma only_log_query_peers : steps only_log query_peers.
Proof. intros d. by split. Qed.

(** The state a successful deactivation leaves. *)
Record inactive (d : Daemon) : Prop := {
  no_connections : m_connections d = ∅;
  no_exclusions : m_excludedAddrSet d = ∅;
  no_handshake_poll : m_handshakeTimer d = false;
  no_liveness_poll : m_livenessTimer d = false;
}.

(** The tear-down that follows an accepted [run(Down)]. *)
Definition teardown (b : bool) (d : Daemon) : stM Daemon bool :=
  _ ← (if b then emit disconnected else mret tt);
  _ ← call_ restoreResolvers;
  _ ← for_each (connections d) (λ s,
        let config := m_config s.2 in
        _ ← for_each (m_allowedIPAddressRanges config) (λ ip, discard (call_ (deleteRoutePrefix ip)));
        discard (call_ (deletePeer config)));
  _ ← clear_exclusions;
  _ ← set_connections (λ _, ∅);
  call_ deleteInterface.

Definition stop_timers (d : Daemon) : Daemon :=
  mkDaemon (m_connections d) (m_excludedAddrSet d) false false (log d).

Definition run_down (d : Daemon) : stM Daemon bool :=
  match connections d with
  | [] => mret true
  | (_, state) :: _ => call_ (run Down (m_config state))
  end.

Lemma deactivate_unfold b d :
  deactivate b d = and_then (run_down d) (teardown b d) (stop_timers d).
Proof. reflexivity. Qed.

Lemma only_log_run_down d : steps only_log (run_down d).
Proof. unfold run_down. destruct (connections d) as [|[] ?]; [apply steps_ret, _|apply only_log_call]. Qed.

Lemma clear_exclusions_state d :
  (clear_exclusions d).2 =
  mkDaemon (m_connections d) ∅ (m_handshakeTimer d) (m_livenessTimer d) (log (clear_exclusions d).2).
Proof.
  unfold clear_exclusions. rewrite !bind_run. cbn [get fst snd].
  pose proof (steps_for_each only_log (map_to_list (m_excludedAddrSet d)).*1
    (λ ip, discard (call_ (wg_deleteExclusionRoute ip)))
    (λ ip, steps_discard _ _ (only_log_call _)) d) as [H1 H2 H3 H4].
  cbn. by rewrite H1, H3, H4.
Qed.

Lemma teardown_inactive b d0 d :
  m_handshakeTimer d = false → m_livenessTimer d = false → inactive (teardown b d0 d).2.
Proof.
  intros Hh Hl. unfold teardown. rewrite !bind_run.
  set (s1 := ((if b then emit disconnected else mret tt) d).2).
  assert (only_log d s1) as H1 by (subst s1; destruct b; [apply only_log_emit|reflexivity]).
  set (s2 := (call_ restoreResolvers s1).2).
  assert (only_log s1 s2) as H2 by apply only_log_call.
  set (s3 := (for_each _ _ s2).2).
  assert (only_log s2 s3) as H3.
  { subst s3. match goal with |- only_log s2 (for_each ?l ?f s2).2 =>
      assert (steps only_log (for_each l f)) as Hs; [|apply Hs] end.
    steps_tac; apply only_log_call. }
  rewrite (clear_exclusions_state s3).
  destruct H1 as [? ? A1 B1], H2 as [? ? A2 B2], H3 as [? ? A3 B3].
  destruct (only_log_call deleteInterface (mkDaemon ∅ ∅ (m_handshakeTimer s3) (m_livenessTimer s3)
    (log (clear_exclusions s3).2))) as [A4 B4 C4 D4].
  split; [exact A4|exact B4|rewrite <- Hh, <- A1, <- A2, <- A3; exact C4|rewrite <- Hl, <- B1, <- B2, <- B3; exact D4].
Qed.

Lemma deactivate_true b d : (deactivate b d).1 = true → inactive (deactivate b d).2.
Proof.
  rewrite deactivate_unfold. unfold and_then. rewrite bind_run.
  destruct (run_down d (stop_timers d)) as [ok d1] eqn:E.
  pose proof (only_log_run_down d (stop_timers d)) as [_ _ Hh Hl]. rewrite E in Hh, Hl.
  cbn in *. destruct ok; [|done]. intros _. by apply teardown_inactive.
Qed.
End deactivate.

(** ** The log only grows *)

(** The log grew by events that all satisfy [ok]. *)
Definition grows (ok : event → Prop) (d d' : Daemon) : Prop :=
  ∃ new, log d' = log d ++ new ∧ Forall ok new.

#[export] Instance grows_preorder ok : PreOrder (grows ok).
Proof.
  split.
  - intros d. exists []. by rewrite app_nil_r.
  - intros d1 d2 d3 (n1 & E1 & H1) (n2 & E2 & H2). exists (n1 ++ n2).
    rewrite E2, E1, app_assoc. split; [done|]. by apply Forall_app.
Qed.

Definition not_failure (e : event) : Prop := e ≠ Emitted activationFailure.

Section activation.
Context {Q : Qt} {P : Platform}.

Lemma grows_logged (ok : event → Prop) e : ok e → steps (grows ok) (logged e).
Proof. intros He d. exists [e]. auto. Qed.
Lemma grows_call (ok : event → Prop) c : (∀ b, ok (Called c b)) → steps (grows ok) (call_ c).
Proof. intros Hc d. exists [Called c (answer (log d) c)]. auto. Qed.
Lemma grows_silent ok (f : Daemon → Daemon) : (∀ d, log (f d) = log d) → steps (grows ok) (modify f).
Proof. intros Hf d. exists []. rewrite app_nil_r. split; [apply Hf|constructor]. Qed.

Ltac grow :=
  steps_tac; try (apply grows_silent; reflexivity); try (apply grows_call; done);
  try (apply grows_logged; done).

Lemma quiet_addExclusionRoute ip : steps (grows not_failure) (addExclusionRoute ip).
Proof. unfold addExclusionRoute. grow. Qed.
Lemma quiet_delExclusionRoute ip : steps (grows not_failure) (delExclusionRoute ip).
Proof. unfold delExclusionRoute. grow. Qed.
Lemma quiet_clear : steps (grows not_failure) clear_exclusions.
Proof. unfold clear_exclusions. grow. Qed.

Ltac quiet :=
  typeclasses eauto || (intros; apply grows_silent; reflexivity) ||
  (intros; apply grows_call; done) || (intros; apply grows_logged; unfold not_failure; congruence) ||
  (intros; intros d; eexists [_]; split; [reflexivity|by repeat constructor]) ||
  auto using quiet_addExclusionRoute, quiet_delExclusionRoute, quiet_clear.

Lemma quiet_deactivate b : steps (grows not_failure) (deactivate b).
Proof. apply walk_deactivate; quiet. Qed.
Lemma quiet_activate_new c : steps (grows not_failure) (activate_new c).
Proof. apply walk_activate_new; quiet. Qed.
Lemma quiet_activate_switch c : steps (grows not_failure) (activate_switch c).
Proof. apply walk_activate_switch; quiet. Qed.

(** What a successful activation leaves. *)
Definition tunnel_up (c : InterfaceConfig) (d : Daemon) : Prop :=
  m_connections d !! m_hopType c = Some (fresh c) ∧ m_handshakeTimer d = true.

(** Programs that return [true] only in a state satisfying [G]. *)
Definition returns_true (G : Daemon → Prop) (m : stM Daemon bool) : Prop :=
  ∀ d, (m d).1 = true → G (m d).2.

Lemma returns_true_and_then G m k : returns_true G k → returns_true G (and_then m k).
Proof.
  intros Hk d. unfold and_then. rewrite bind_run. destruct (m d) as [[] d1]; cbn; [apply Hk|done].
Qed.
Lemma returns_true_bind {A} G (m : stM Daemon A) k :
  (∀ a, returns_true G (k a)) → returns_true G (m ≫= k).
Proof. intros Hk d. rewrite bind_run. apply Hk. Qed.

Lemma established_up c : returns_true (tunnel_up c) (established c).
Proof. intros d _. unfold tunnel_up. cbn. split; [apply lookup_insert_eq|done]. Qed.

Lemma activate_new_up c : returns_true (tunnel_up c) (activate_new c).
Proof.
  unfold activate_new. do 2 (apply returns_true_bind; intros ?).
  do 2 apply returns_true_and_then. apply returns_true_bind; intros ?.
  do 4 apply returns_true_and_then. apply established_up.
Qed.
Lemma activate_switch_up c : returns_true (tunnel_up c) (activate_switch c).
Proof. unfold activate_switch. do 4 apply returns_true_and_then. apply established_up. Qed.

(** The outcome of an activation started in [d]. *)
Definition outcome (c : InterfaceConfig) (d : Daemon) (r : bool * Daemon) : Prop :=
  ∃ new, log r.2 = log d ++ new ∧
    if r.1 then tunnel_up c r.2 ∧ Emitted activationFailure ∉ new
    else last new = Some (Emitted activationFailure).

Lemma outcome_guard c (m : stM Daemon bool) d :
  returns_true (tunnel_up c) m → grows not_failure d (m d).2 ∨ (m d).1 = false ∧ grows (λ _, True) d (m d).2 →
  outcome c d ((ok ← m; _ ← (if (ok : bool) then mret tt else emit activationFailure); mret ok) d).
Proof.
  intros Hup Hg. rewrite bind_run. destruct (m d) as [ok d1] eqn:E.
  specialize (Hup d). rewrite E in Hup. cbn in *. rewrite bind_run. unfold outcome.
  destruct ok; cbn.
  - destruct Hg as [(new & El & Hn)|[? _]]; [|done]. exists new. split; [done|]. split; [auto|].
    rewrite Forall_forall in Hn. intros Hin. by apply (Hn _ Hin).
  - assert (grows (λ _, True) d d1) as (new & El & _).
    { destruct Hg as [(new & El & _)|[_ ?]]; [|done]. exists new. split; [done|]. by apply Forall_true. }
    exists (new ++ [Emitted activationFailure]). rewrite El, app_assoc. split; [done|]. by rewrite last_snoc.
Qed.

Lemma activate_body_outcome again c d :
  (∀ d', inactive d' → outcome c d' (again c d')) → outcome c d (activate_body again c d).
Proof.
  intros Hagain. unfold activate_body. rewrite bind_run. cbn [get fst snd]. apply outcome_guard.
  - case_decide; [|apply activate_new_up].
    destruct (supportServerSwitching d c); [apply activate_switch_up|].
    intros d0. unfold and_then. rewrite bind_run.
    pose proof (deactivate_true false d0) as Hd.
    destruct (deactivate false d0) as [[] d1]; cbn in *; [|done].
    destruct (Hagain d1 (Hd eq_refl)) as (new & _ & Ho).
    destruct (again c d1) as [[] d2]; cbn in *; [|done]. tauto.
  - case_decide; [|left; apply quiet_activate_new].
    destruct (supportServerSwitching d c); [left; apply quiet_activate_switch|].
    unfold and_then. rewrite bind_run. pose proof (deactivate_true false d) as Hd.
    pose proof (quiet_deactivate false d) as Hq.
    destruct (deactivate false d) as [[] d1]; cbn in *; [|by left].
    destruct (Hagain d1 (Hd eq_refl)) as (new & El & Ho).
    destruct Hq as (n1 & E1 & H1).
    destruct (again c d1) as [[] d2]; cbn in *.
    + left. exists (n1 ++ new). rewrite El, E1, app_assoc. split; [done|].
      apply Forall_app. split; [done|]. apply Forall_forall. intros e He ->. tauto.
    + right. split; [done|]. exists (n1 ++ new). rewrite El, E1, app_assoc. split; [done|].
      by apply Forall_true.
Qed.

Lemma activate_body_inactive again again' c d :
  inactive d → activate_body again c d = activate_body again' c d.
Proof.
  intros [Hc _ _ _]. unfold activate_body. rewrite !bind_run. cbn [get fst snd].
  rewrite Hc, !lookup_empty. by rewrite !decide_False by (by intros []).
Qed.

Lemma activate_inactive_outcome again c d : inactive d → outcome c d (activate_body again c d).
Proof.
  intros Hd. rewrite (activate_body_inactive again (λ c, ok ← activate_new c;
    _ ← (if (ok : bool) then mret tt else emit activationFailure); mret ok) c d Hd).
  apply activate_body_outcome. intros d' _. apply outcome_guard; [apply activate_new_up|].
  left. apply quiet_activate_new.
Qed.

(** Only the runs of [again] from a deactivated daemon matter. *)
Lemma activate_body_ext again again' c d :
  (∀ d', inactive d' → again c d' = again' c d') → activate_body again c d = activate_body again' c d.
Proof.
  intros Hext. unfold activate_body. rewrite !bind_run. cbn [get fst snd].
  case_decide; [|done]. destruct (supportServerSwitching d c); [done|].
  unfold and_then. rewrite !bind_run. pose proof (deactivate_true false d) as Hd.
  destruct (deactivate false d) as [[] d1]; cbn [fst snd] in *; [|done]. by rewrite (Hext d1 (Hd eq_refl)).
Qed.

Lemma activate_fuel_inactive n c d :
  inactive d → activate_fuel (S n) c d = activate_fuel 1 c d.
Proof. intros Hd. cbn [activate_fuel]. by apply activate_body_inactive. Qed.
End activation.

(** ** Exclusion routes: the count and the platform agree *)

(** The exclusion routes a log has installed. *)
Definition route_event (e : event) (s : gset IPAddress) : gset IPAddress :=
  match e with
  | Called (wg_addExclusionRoute ip) true => {[ip]} ∪ s
  | Called (wg_deleteExclusionRoute ip) _ => s ∖ {[ip]}
  | _ => s
  end.
Definition installed (l : list event) : gset IPAddress := foldl (λ s e, route_event e s) ∅ l.

Lemma installed_snoc l e : installed (l ++ [e]) = route_event e (installed l).
Proof. unfold installed. by rewrite foldl_app. Qed.

Record exclusions_ok (d : Daemon) : Prop := {
  counted_installed : installed (log d) = dom (m_excludedAddrSet d);
  counts_positive : map_Forall (λ _ n, 1 ≤ n) (m_excludedAddrSet d);
}.

Definition keeps_exclusions (d d' : Daemon) : Prop := exclusions_ok d → exclusions_ok d'.
#[export] Instance keeps_exclusions_preorder : PreOrder keeps_exclusions.
Proof. split; unfold keeps_exclusions; intros ?; auto. Qed.

Section exclusions.
Context {Q : Qt} {P : Platform}.

Lemma keeps_same_exclusions f :
  (∀ d, m_excludedAddrSet (f d) = m_excludedAddrSet d) →
  (∀ d, installed (log (f d)) = installed (log d)) → steps keeps_exclusions (modify f).
Proof. intros He Hl d [H1 H2]. split; cbn; rewrite He; [by rewrite Hl|done]. Qed.

Lemma keeps_logged e : (∀ s, route_event e s = s) → steps keeps_exclusions (logged e).
Proof.
  intros He d [H1 H2]. split; [|done]. cbn. by rewrite installed_snoc, He.
Qed.
Lemma keeps_call c : touches_exclusions c = false → steps keeps_exclusions (call_ c).
Proof.
  intros Hc d [H1 H2]. rewrite call_run. split; [|done]. cbn. rewrite installed_snoc.
  destruct c; try done; by destruct (answer _ _).
Qed.

Lemma keeps_addExclusionRoute ip : steps keeps_exclusions (addExclusionRoute ip).
Proof.
  intros d [H1 H2]. unfold addExclusionRoute. rewrite bind_run. cbn [get fst snd].
  case_decide as Hip.
  - rewrite bind_run. split; cbn.
    + by rewrite dom_alter_L.
    + intros k n. rewrite lookup_alter. case_decide; subst.
      * destruct (m_excludedAddrSet d !! k) as [m|] eqn:E; [|done]. cbn. intros [= <-].
        specialize (H2 k m E). cbn in H2. lia.
      * apply H2.
  - rewrite bind_run, call_run. cbn. destruct (answer (log d) _) eqn:Ea.
    + rewrite bind_run. split; cbn.
      * rewrite installed_snoc. cbn. by rewrite H1, dom_insert_L.
      * by apply map_Forall_insert_2.
    + split; cbn; [|done]. by rewrite installed_snoc.
Qed.

Lemma keeps_delExclusionRoute ip : steps keeps_exclusions (delExclusionRoute ip).
Proof.
  intros d [H1 H2]. unfold delExclusionRoute. rewrite !bind_run. cbn.
  rewrite lookup_insert_eq. cbn.
  destruct (1 <? default 0 (m_excludedAddrSet d !! ip)) eqn:En.
  - split_bools. destruct (m_excludedAddrSet d !! ip) as [n|] eqn:E; [|cbn in En; lia].
    cbn in *. rewrite bind_run. cbn. rewrite insert_id by done. split; cbn.
    + by rewrite dom_alter_L.
    + intros k m. rewrite lookup_alter. case_decide; subst.
      * rewrite E. cbn. intros [= <-]. lia.
      * apply H2.
  - rewrite bind_run, call_run. split; cbn.
    + rewrite installed_snoc. cbn. rewrite H1. rewrite delete_insert_eq, dom_delete_L. done.
    + rewrite delete_insert_eq. by apply map_Forall_delete.
Qed.

(** Deleting every counted route in the log removes them all. *)
Lemma installed_clear ips d :
  installed (log (for_each ips (λ ip, discard (call_ (wg_deleteExclusionRoute ip))) d).2)
  = installed (log d) ∖ list_to_set ips.
Proof.
  revert d; induction ips as [|ip ips IH]; intros d; cbn [for_each].
  { cbn. set_solver. }
  rewrite bind_run, IH, discard_run, call_run. cbn. rewrite installed_snoc.
  assert (∀ b, route_event (Called (wg_deleteExclusionRoute ip) b) (installed (log d))
               = installed (log d) ∖ {[ip]}) as -> by (by intros []).
  set_solver.
Qed.

Lemma keeps_clear : steps keeps_exclusions clear_exclusions.
Proof.
  intros d [H1 H2]. unfold clear_exclusions. rewrite !bind_run. split; cbn.
  - rewrite installed_clear, H1. rewrite dom_empty_L.
    apply set_eq. intros ip. rewrite elem_of_difference, elem_of_dom, elem_of_list_to_set.
    split; [|set_solver]. intros [[n Hn] Hni]. exfalso. apply Hni.
    apply list_elem_of_fmap. exists (ip, n). split; [done|]. by apply elem_of_map_to_list.
  - apply map_Forall_empty.
Qed.

Ltac keeps :=
  typeclasses eauto || (intros; apply keeps_same_exclusions; reflexivity) ||
  (intros; apply keeps_logged; reflexivity) || (intros; by apply keeps_call) ||
  (intros; intros d [H1 H2]; split; [cbn; by rewrite installed_snoc|exact H2]) ||
  auto using keeps_addExclusionRoute, keeps_delExclusionRoute, keeps_clear.

Lemma keeps_handshake_step h st : steps keeps_exclusions (handshake_step h st).
Proof. unfold handshake_step. steps_tac; keeps. Qed.
Lemma keeps_liveness_step now h st : steps keeps_exclusions (liveness_step now h st).
Proof. unfold liveness_step, tryQuickRecovery. steps_tac; keeps. Qed.

Lemma keeps_perform r : steps keeps_exclusions (perform r).
Proof. apply walk_perform; keeps || auto using keeps_handshake_step, keeps_liveness_step. Qed.

Lemma keeps_deactivate b : steps keeps_exclusions (deactivate b).
Proof. apply walk_deactivate; keeps. Qed.

Lemma after_exclusions_ok rs : exclusions_ok (after rs).
Proof.
  unfold after, run_state. apply (steps_for_each keeps_exclusions _ _ keeps_perform initial).
  split; [done|apply map_Forall_empty].
Qed.
End exclusions.

(** ** What a deactivation undoes *)
Section teardown.
Context {Q : Qt} {P : Platform}.

#[local] Abbreviation grow := (grows (λ _, True)).

Definition was_called (c : call) (d : Daemon) : Prop := ∃ b, Called c b ∈ log d.

Lemma was_called_mono c d d' : grow d d' → was_called c d → was_called c d'.
Proof. intros (new & E & _) [b Hb]. exists b. rewrite E. apply elem_of_app. by left. Qed.

Lemma grow_log_only f : (∀ d, log (f d) = log d) → steps grow (modify f).
Proof. apply grows_silent. Qed.
Lemma grow_call c : steps grow (call_ c).
Proof. by apply grows_call. Qed.

Lemma called_then {A} c (m : stM Daemon A) d :
  steps grow m → was_called c d → was_called c (m d).2.
Proof. intros Hm. apply was_called_mono, Hm. Qed.

(** A loop does what each iteration does. *)
Lemma for_each_calls {A} (l : list A) body d x c :
  (∀ y, steps grow (body y)) → x ∈ l → (∀ d', was_called c (body x d').2) →
  was_called c (for_each l body d).2.
Proof.
  intros Hb Hx He. revert d. induction l as [|y l IH]; intros d; [by apply elem_of_nil in Hx|].
  cbn [for_each]. rewrite bind_run. apply elem_of_cons in Hx as [->|Hx]; [|by apply IH].
  apply called_then; [apply steps_for_each; [apply _|done]|apply He].
Qed.

Lemma call_calls c d : was_called c (call_ c d).2.
Proof.
  exists (answer (log d) c). rewrite call_run. cbn. apply elem_of_app. right.
  by apply list_elem_of_singleton.
Qed.

Definition undone (s : ConnectionState) (d : Daemon) : Prop :=
  Forall (λ ip, was_called (deleteRoutePrefix ip) d) (m_allowedIPAddressRanges (m_config s)) ∧
  was_called (deletePeer (m_config s)) d.

(** The clean-up loop of one connection. *)
Definition undo (s : HopType * ConnectionState) : stM Daemon unit :=
  let config := m_config s.2 in
  _ ← for_each (m_allowedIPAddressRanges config) (λ ip, discard (call_ (deleteRoutePrefix ip)));
  discard (call_ (deletePeer config)).

Lemma grow_undo s : steps grow (undo s).
Proof. unfold undo. steps_tac; apply grow_call. Qed.

Lemma undo_peer s d : was_called (deletePeer (m_config s.2)) (undo s d).2.
Proof. unfold undo. rewrite bind_run, discard_run. apply call_calls. Qed.
Lemma undo_route s d ip :
  ip ∈ m_allowedIPAddressRanges (m_config s.2) → was_called (deleteRoutePrefix ip) (undo s d).2.
Proof.
  intros Hip. unfold undo. rewrite bind_run.
  apply called_then; [apply steps_discard; [apply _|apply grow_call]|].
  apply (for_each_calls _ _ _ ip); [|done|].
  - intros y. apply steps_discard; [apply _|apply grow_call].
  - intros d'. rewrite discard_run. apply call_calls.
Qed.

Lemma grow_clear : steps grow clear_exclusions.
Proof. unfold clear_exclusions. steps_tac; [apply grow_call|by apply grow_log_only]. Qed.

Lemma teardown_undone b d0 d :
  Forall (λ s, undone s.2 (teardown b d0 d).2) (connections d0) ∧
  was_called deleteInterface (teardown b d0 d).2 ∧ was_called restoreResolvers (teardown b d0 d).2.
Proof.
  unfold teardown. rewrite !bind_run.
  set (d1 := ((if b then emit disconnected else mret tt) d).2).
  assert (∀ s, grow s (call_ deleteInterface (set_connections (λ _, ∅) (clear_exclusions s).2).2).2) as Hrest.
  { intros s.
    assert (steps grow (_ ← clear_exclusions; _ ← set_connections (λ _, ∅); call_ deleteInterface)) as Hs.
    { steps_tac; [apply grow_clear|by apply grow_log_only|apply grow_call]. }
    specialize (Hs s). rewrite !bind_run in Hs. exact Hs. }
  split; [|split].
  - apply Forall_forall. intros s Hs.
    assert (∀ c, (∀ d', was_called c (undo s d').2) →
      was_called c (for_each (connections d0) undo (call_ restoreResolvers d1).2).2) as Hc.
    { intros c Hc. apply (for_each_calls _ _ _ s); [apply grow_undo|done|done]. }
    split.
    + apply Forall_forall. intros ip Hip. eapply was_called_mono; [apply Hrest|].
      apply Hc. intros d'. by apply undo_route.
    + eapply was_called_mono; [apply Hrest|]. apply Hc. intros d'. apply undo_peer.
  - apply call_calls.
  - eapply was_called_mono; [apply Hrest|].
    apply (called_then restoreResolvers (for_each (connections d0) undo)); [|apply call_calls].
    apply steps_for_each; [apply _|apply grow_undo].
Qed.

Lemma connections_elem h s d : (h, s) ∈ connections d ↔ m_connections d !! h = Some s.
Proof.
  unfold connections. rewrite list_elem_of_omap. split.
  - intros (h' & _ & Hh). destruct (m_connections d !! h') eqn:E; naive_solver.
  - intros Hs. exists h. rewrite Hs. split; [|done]. unfold hop_order. destruct h; listed.
Qed.
End teardown.

(** ** The watchdog's counters *)
Definition counters_ok (d : Daemon) : Prop :=
  map_Forall (λ _ c, 0 ≤ m_stalledSamples c ∧ 0 ≤ m_quickRecoveryAttempts c ≤ QUICK_RECOVERY_ATTEMPTS)
    (m_connections d).
Definition keeps_counters (d d' : Daemon) : Prop := counters_ok d → counters_ok d'.
#[export] Instance keeps_counters_preorder : PreOrder keeps_counters.
Proof. split; unfold keeps_counters; intros ?; auto. Qed.

Section counters.
Context {Q : Qt} {P : Platform}.

Lemma counters_insert h c d :
  counters_ok d → 0 ≤ m_stalledSamples c → 0 ≤ m_quickRecoveryAttempts c ≤ QUICK_RECOVERY_ATTEMPTS →
  map_Forall (λ _ c, 0 ≤ m_stalledSamples c ∧ 0 ≤ m_quickRecoveryAttempts c ≤ QUICK_RECOVERY_ATTEMPTS)
    (<[h := c]> (m_connections d)).
Proof. intros. by apply map_Forall_insert_2. Qed.

Lemma liveness_sample_bounds now c st :
  0 ≤ m_stalledSamples c → 0 ≤ m_quickRecoveryAttempts c ≤ QUICK_RECOVERY_ATTEMPTS →
  0 ≤ m_stalledSamples (liveness_sample now c st).1 ∧
  0 ≤ m_quickRecoveryAttempts (liveness_sample now c st).1 ≤ QUICK_RECOVERY_ATTEMPTS.
Proof.
  unfold liveness_sample, QUICK_RECOVERY_ATTEMPTS. intros. cbv zeta.
  destruct (0 <? m_rxBytes st - m_lastRxBytes c); cbn; [lia|].
  destruct (0 <? m_txBytes st - m_lastTxBytes c); lia.
Qed.

Lemma tryQuickRecovery_true c a d : (tryQuickRecovery c a d).1 = true → a < QUICK_RECOVERY_ATTEMPTS.
Proof. unfold tryQuickRecovery. destruct (QUICK_RECOVERY_ATTEMPTS <=? a) eqn:E; [done|]. by split_bools. Qed.

Lemma only_log_tryQuickRecovery c a : steps only_log (tryQuickRecovery c a).
Proof. unfold tryQuickRecovery. steps_tac. apply only_log_call. Qed.

Lemma keeps_counters_only_log d d' : only_log d d' → keeps_counters d d'.
Proof. intros [H _ _ _]. unfold keeps_counters, counters_ok. by rewrite H. Qed.

Lemma keeps_counters_handshake h st : steps keeps_counters (handshake_step h st).
Proof.
  intros d Hd. unfold handshake_step. rewrite bind_run. cbn.
  destruct (m_connections d !! h) as [c|]; [|done].
  destruct (is_peer_of c st); [|done]. destruct (m_handshake st =? 0); [done|]. cbn.
  apply counters_insert; cbn; unfold QUICK_RECOVERY_ATTEMPTS; [done|lia..].
Qed.

Lemma keeps_counters_liveness now h st : steps keeps_counters (liveness_step now h st).
Proof.
  intros d Hd. unfold liveness_step. rewrite bind_run. cbn.
  destruct (m_connections d !! h) as [c|] eqn:E; [|done].
  destruct (is_peer_of c st); [|done]. cbn.
  destruct (Hd h c E) as [Hs Ha]. pose proof (liveness_sample_bounds now c st Hs Ha) as Hb.
  destruct (liveness_sample now c st) as [c' dead]. cbn in Hb. destruct Hb as [Hs' Ha'].
  rewrite bind_run. cbn.
  set (d1 := mkDaemon (<[h:=c']> (m_connections d)) _ _ _ _).
  assert (counters_ok d1) as H1 by (by apply counters_insert).
  destruct dead; [|done]. cbn. rewrite bind_run.
  pose proof (only_log_tryQuickRecovery (m_config c) (m_quickRecoveryAttempts c') d1) as Hol.
  pose proof (tryQuickRecovery_true (m_config c) (m_quickRecoveryAttempts c') d1) as Ht.
  destruct (tryQuickRecovery _ _ d1) as [[] d2]; cbn in *.
  - apply (keeps_counters_only_log _ _ Hol) in H1. specialize (Ht eq_refl).
    unfold QUICK_RECOVERY_ATTEMPTS in *. apply counters_insert; cbn; [done|lia|].
    unfold QUICK_RECOVERY_ATTEMPTS. lia.
  - apply (keeps_counters_only_log _ _ Hol) in H1. exact H1.
Qed.

Ltac same := typeclasses eauto || (intros; intros d Hd; exact Hd).

Lemma keeps_counters_perform r : steps keeps_counters (perform r).
Proof.
  apply walk_perform; try same.
  - intros c d Hd. apply counters_insert; cbn; unfold QUICK_RECOVERY_ATTEMPTS; [done|lia..].
  - intros d _. apply map_Forall_empty.
  - apply keeps_counters_handshake.
  - apply keeps_counters_liveness.
  - intros ip d Hd. unfold addExclusionRoute. rewrite bind_run. cbn. case_decide; [exact Hd|]. rewrite bind_run, call_run.
    destruct (answer _ _); exact Hd.
  - intros ip d Hd. unfold delExclusionRoute. rewrite !bind_run. cbn.
    destruct (1 <? _); exact Hd.
  - intros d Hd. rewrite clear_exclusions_state. exact Hd.
Qed.

Lemma after_counters_ok rs : counters_ok (after rs).
Proof.
  unfold after, run_state. apply (steps_for_each keeps_counters _ _ keeps_counters_perform initial).
  apply map_Forall_empty.
Qed.
End counters.

(** ** A silent tunnel *)

(** A platform on which the tunnel of [c] is dead: the interface is there, the
    peer's entry shows ever more bytes sent and none received. *)
Record black_hole `{Platform} (c : InterfaceConfig) (hs rx : Z) (tx : list event → Z) : Prop := {
  hole_interface : ∀ l, interfaceExists l = true;
  hole_peers : ∀ l, getPeerStatus l = [mkPeerStatus (str (m_serverPublicKey c)) hs rx (tx l)];
  hole_sends : ∀ l e, tx l < tx (l ++ [e]);
}.

(** Samples left before the watchdog gives up. *)
Definition patience (c : ConnectionState) : Z :=
  BLACKHOLE_SAMPLES * (QUICK_RECOVERY_ATTEMPTS - m_quickRecoveryAttempts c)
  + (BLACKHOLE_SAMPLES - m_stalledSamples c).

Section black_hole.
Context {Q : Qt} {P : Platform} (cfg : InterfaceConfig) (hs rx : Z) (tx : list event → Z)
  (Hhole : black_hole cfg hs rx tx) (h : HopType).

(** An established connection, watched. *)
Record watched (d : Daemon) (c : ConnectionState) : Prop := {
  w_connections : m_connections d = {[h := c]};
  w_config : m_config c = cfg;
  w_rx : rx <= m_lastRxBytes c;
  w_tx : m_lastTxBytes c <= tx (log d);
  w_attempts : 0 <= m_quickRecoveryAttempts c <= QUICK_RECOVERY_ATTEMPTS;
  w_stalled : 0 <= m_stalledSamples c < BLACKHOLE_SAMPLES;
  w_timer : m_livenessTimer d = true;
}.

Definition handed_over (d : Daemon) : Prop :=
  Emitted disconnected ∈ log d ∧ m_livenessTimer d = false.

Lemma watched_connections d c : watched d c → connections d = [(h, c)].
Proof using. intros [E _ _ _ _ _ _]. unfold connections. rewrite E. by destruct h. Qed.

Lemma hole_sample now c l :
  m_config c = cfg → rx <= m_lastRxBytes c → m_lastTxBytes c < tx l →
  ∃ dead, liveness_sample now c (mkPeerStatus (str (m_serverPublicKey cfg)) hs rx (tx l)) =
    (mkConnectionState (m_date c) cfg (tx l) rx (m_stalledSamples c + 1) (m_quickRecoveryAttempts c), dead) ∧
    (BLACKHOLE_SAMPLES <= m_stalledSamples c + 1 → dead = true).
Proof using.
  intros Hc Hrx Htx. unfold liveness_sample. cbv zeta. cbn.
  rewrite (proj2 (Z.ltb_ge 0 (rx - m_lastRxBytes c))) by lia.
  rewrite (proj2 (Z.ltb_lt 0 (tx l - m_lastTxBytes c))) by lia.
  eexists. rewrite Hc. split; [reflexivity|]. intros Hs.
  rewrite (proj2 (Z.leb_le BLACKHOLE_SAMPLES (m_stalledSamples c + 1))) by done. apply orb_true_r.
Qed.

(** The state after the two queries of a check. *)
Definition queried (d : Daemon) : Daemon :=
  mkDaemon (m_connections d) (m_excludedAddrSet d) (m_handshakeTimer d) (m_livenessTimer d)
    ((log d ++ [AskedInterface]) ++ [AskedPeers]).

Lemma hole_check now d c :
  watched d c →
  (liveness_timeout now d).2 =
  (discard (for_all [h] (λ h, for_all [mkPeerStatus (str (m_serverPublicKey cfg)) hs rx (tx (log d ++ [AskedInterface]))]
     (liveness_step now h))) (queried d)).2.
Proof using Hhole.
  intros Hw. pose proof (watched_connections d c Hw) as Hconn. destruct Hhole as [Hi Hp Hs].
  unfold liveness_timeout. rewrite bind_run. cbn [get fst snd]. rewrite (w_timer d c Hw).
  unfold checkLiveness. rewrite bind_run. cbn [get fst snd]. rewrite Hconn.
  rewrite bind_run. unfold query_interface. rewrite !bind_run. cbn [get fst snd mret stM_ret logged modify].
  rewrite Hi. cbn [negb]. rewrite bind_run. unfold query_peers. rewrite !bind_run.
  cbn [get fst snd mret stM_ret logged modify log]. rewrite Hp.
  reflexivity.
Qed.

Lemma single_run {A} (x : A) (f : A → stM Daemon bool) d : (for_all [x] f d).2 = (f x d).2.
Proof using.
  cbn [for_all]. rewrite bind_run. by destruct (f x d) as [[] ?].
Qed.

Lemma watch_step now d c :
  watched d c →
  handed_over (liveness_timeout now d).2 ∨
  ∃ c', watched (liveness_timeout now d).2 c' ∧ patience c' < patience c.
Proof using Hhole.
  intros Hw. rewrite (hole_check now d c Hw). rewrite discard_run. cbn [snd].
  rewrite !single_run. pose proof Hw as [Ec Ecfg Hrx Htx Ha Hst Ht].
  pose proof (hole_sends _ _ _ _ Hhole) as Hs.
  destruct (hole_sample now c (log d ++ [AskedInterface]) Ecfg Hrx) as (dead & Esample & Hdead).
  { specialize (Hs (log d) AskedInterface). lia. }
  unfold liveness_step. rewrite bind_run. cbn [get fst snd].
  change (m_connections (queried d)) with (m_connections d). rewrite Ec, lookup_singleton_eq.
  unfold is_peer_of. cbn [m_pubkey]. rewrite Ecfg, String.eqb_refl. cbn [negb]. rewrite Esample.
  rewrite bind_run. cbn [set_connections modify fst snd].
  set (c' := mkConnectionState _ _ _ _ _ _).
  set (d1 := mkDaemon (<[h:=c']> _) _ _ _ _).
  assert (watched d1 c' ∨ BLACKHOLE_SAMPLES <= m_stalledSamples c') as Hd1.
  { destruct (Z.le_gt_cases BLACKHOLE_SAMPLES (m_stalledSamples c')); [by right|left].
    split; subst c' d1; cbn in *; try done; try lia.
    - by rewrite Ec, insert_singleton_eq.
    - specialize (Hs (log d ++ [AskedInterface]) AskedPeers). lia. }
  destruct dead; cbn [negb].
  2: { right. exists c'. destruct Hd1 as [Hd1|Hd1]; [|by specialize (Hdead Hd1)].
       split; [exact Hd1|]. unfold patience. subst c'. cbn. lia. }
  unfold tryQuickRecovery. cbn [m_quickRecoveryAttempts c'].
  unfold BLACKHOLE_SAMPLES, QUICK_RECOVERY_ATTEMPTS in *.
  destruct (3 <=? m_quickRecoveryAttempts c) eqn:E; split_bools.
  { left. rewrite bind_run. cbn. rewrite !bind_run. cbn. split; [|done]. cbn.
    apply elem_of_app. right. by apply list_elem_of_singleton. }
  rewrite bind_run. unfold and_then. rewrite bind_run, call_run. cbn [fst snd].
  destruct (answer (log d1) (updatePeer cfg)) eqn:Ean; cbn [mret stM_ret fst snd].
  - right. exists (recovered c'). rewrite bind_run. split.
    + split; subst c' d1; unfold BLACKHOLE_SAMPLES, QUICK_RECOVERY_ATTEMPTS; cbn in *; try done; try lia.
      * by rewrite Ec, !insert_singleton_eq.
      * pose proof (Hs (log d ++ [AskedInterface]) AskedPeers) as H1.
        match goal with |- _ <= tx (?l ++ [?e]) => pose proof (Hs l e) as H2 end. lia.
    + unfold patience, BLACKHOLE_SAMPLES, QUICK_RECOVERY_ATTEMPTS. subst c'. cbn. lia.
  - left. rewrite !bind_run. cbn. split; [|done]. cbn.
    apply elem_of_app. right. by apply list_elem_of_singleton.
Qed.

Lemma handed_over_stays now d : handed_over d → handed_over (liveness_timeout now d).2.
Proof using.
  intros [He Ht]. unfold liveness_timeout. rewrite bind_run. cbn [get fst snd]. by rewrite Ht.
Qed.

Lemma handed_over_all nows d : handed_over d → handed_over (run_state (for_each nows liveness_timeout) d).
Proof using.
  revert d. induction nows as [|now nows IH]; intros d Hd; [done|].
  unfold run_state in *. cbn [for_each]. rewrite bind_run. by apply IH, handed_over_stays.
Qed.

Lemma watched_patience d c : watched d c → 1 <= patience c.
Proof using.
  intros [_ _ _ _ Ha Hs _]. unfold patience, BLACKHOLE_SAMPLES, QUICK_RECOVERY_ATTEMPTS in *. lia.
Qed.

Lemma watch_gives_up nows d c :
  watched d c → patience c ≤ Z.of_nat (length nows) →
  handed_over (run_state (for_each nows liveness_timeout) d).
Proof using Hhole.
  revert d c. induction nows as [|now nows IH]; intros d c Hw Hn.
  { pose proof (watched_patience d c Hw). cbn in Hn. lia. }
  unfold run_state in *. cbn [for_each]. rewrite bind_run.
  destruct (watch_step now d c Hw) as [Hd|(c' & Hw' & Hp)].
  - by apply handed_over_all.
  - eapply IH; [exact Hw'|]. cbn in Hn. lia.
Qed.
End black_hole.

(** ** A live tunnel *)
Definition asked (e : event) : Prop := e = AskedInterface ∨ e = AskedPeers.

(** Every entry about a connection shows new bytes received. *)
Definition all_receiving (d : Daemon) (peers : list PeerStatus) : Prop :=
  ∀ h c st, m_connections d !! h = Some c → st ∈ peers → is_peer_of c st = true →
            m_lastRxBytes c < m_rxBytes st.

Section live.
Context {Q : Qt} {P : Platform}.

(** Only the connection of [h] moved. *)
Record only_hop (h : HopType) (d d' : Daemon) : Prop := {
  oh_log : log d' = log d;
  oh_live : m_livenessTimer d' = m_livenessTimer d;
  oh_others : ∀ h', h' ≠ h → m_connections d' !! h' = m_connections d !! h';
}.

(** The counters a live tunnel's sample leaves. *)
Definition live_sample (c : ConnectionState) (st : PeerStatus) : ConnectionState :=
  mkConnectionState (m_date c) (m_config c) (m_txBytes st) (m_rxBytes st) 0 0.

Definition live_state (h : HopType) (st : PeerStatus) (d : Daemon) : Daemon :=
  match m_connections d !! h with
  | Some c => if is_peer_of c st then (set_connections (insert h (live_sample c st)) d).2 else d
  | None => d
  end.

Lemma liveness_step_live now h st d :
  (∀ c, m_connections d !! h = Some c → is_peer_of c st = true → m_lastRxBytes c < m_rxBytes st) →
  liveness_step now h st d = (true, live_state h st d).
Proof.
  intros Hrx. unfold liveness_step, live_state. rewrite bind_run. cbn [get fst snd].
  destruct (m_connections d !! h) as [c|]; [|done].
  destruct (is_peer_of c st) eqn:Ep; [|done]. cbn [negb].
  assert (liveness_sample now c st = (live_sample c st, false)) as ->; [|done].
  unfold liveness_sample. cbv zeta. specialize (Hrx c eq_refl Ep).
  by rewrite (proj2 (Z.ltb_lt 0 _)) by lia.
Qed.

Lemma live_hop now h peers d :
  NoDup (m_pubkey <$> peers) →
  (∀ c st, m_connections d !! h = Some c → st ∈ peers → is_peer_of c st = true →
           m_lastRxBytes c < m_rxBytes st) →
  (for_all peers (liveness_step now h) d).1 = true ∧
  only_hop h d (for_all peers (liveness_step now h) d).2.
Proof.
  revert d. induction peers as [|st peers IH]; intros d Hnd Hrx; [by split|].
  cbn [fmap list_fmap] in Hnd. apply NoDup_cons in Hnd as [Hst Hnd].
  cbn [for_all]. rewrite bind_run, liveness_step_live by (intros; eapply Hrx; [done|left|done]).
  cbn [fst snd]. set (d1 := live_state h st d).
  assert (only_hop h d d1) as H1.
  { subst d1. unfold live_state. destruct (m_connections d !! h) as [c|]; [|by split].
    destruct (is_peer_of c st); [|by split]. split; [done..|]. intros h' Hh. cbn.
    by rewrite lookup_insert_ne. }
  destruct (IH d1 Hnd) as [Htrue H2].
  { intros c st' Hc Hin Hp. subst d1. unfold live_state in Hc. destruct (m_connections d !! h) as [c0|] eqn:E.
    - destruct (is_peer_of c0 st) eqn:Ep; cbn in Hc.
      + rewrite lookup_insert_eq in Hc. injection Hc as <-. unfold is_peer_of in *. cbn in Hp. split_bools.
        exfalso. apply Hst. apply list_elem_of_fmap. exists st'. split; [congruence|done].
      + rewrite E in Hc. injection Hc as <-. apply (Hrx c0); [done|by right|done].
    - congruence. }
  split; [done|]. destruct H1 as [L1 T1 O1], H2 as [L2 T2 O2].
  split; [congruence|congruence|]. intros h' Hh. by rewrite O2, O1.
Qed.

Lemma live_hops now peers hops d :
  NoDup hops → NoDup (m_pubkey <$> peers) → all_receiving d peers →
  log (for_all hops (λ h, for_all peers (liveness_step now h)) d).2 = log d ∧
  m_livenessTimer (for_all hops (λ h, for_all peers (liveness_step now h)) d).2 = m_livenessTimer d.
Proof.
  intros Hhops Hnd Hall.
  assert (∀ h c st, h ∈ hops → m_connections d !! h = Some c → st ∈ peers → is_peer_of c st = true →
           m_lastRxBytes c < m_rxBytes st) as Hrx by (intros; by eapply Hall).
  clear Hall. revert d Hrx. induction hops as [|h hops IH]; intros d Hrx; [done|].
  apply NoDup_cons in Hhops as [Hh Hhops]. cbn [for_all]. rewrite bind_run.
  destruct (live_hop now h peers d Hnd) as [-> [L T O]]; [intros; eapply Hrx; [left|..]; done|].
  rewrite <- L, <- T. apply IH; [done|].
  intros h' c st Hh' Hc. apply (Hrx h'); [by right|]. rewrite <- O; [done|]. intros ->. done.
Qed.

Lemma NoDup_hops d : NoDup (connections d).*1.
Proof.
  assert (NoDup hop_order) as H by (apply (bool_decide_unpack _); vm_compute; exact I).
  unfold connections. revert H. generalize hop_order as l. induction l as [|h l IH]; intros Hl; [constructor|].
  apply NoDup_cons in Hl as [Hh Hl]. cbn. destruct (m_connections d !! h); cbn; [|by apply IH].
  constructor; [|by apply IH]. rewrite list_elem_of_fmap. intros ([h' c'] & -> & Hin).
  apply list_elem_of_omap in Hin as (h2 & Hin & He). cbn in *.
  destruct (m_connections d !! h2); [|done]. cbn in He. injection He as <- _. done.
Qed.
End live.

(** ** The handshake poll *)
Section handshake.
Context {Q : Qt} {P : Platform}.

(** The last of the peer's entries that has a handshake decides. *)
Definition handshaken (peers : list PeerStatus) (c : ConnectionState) : ConnectionState :=
  foldl (λ c st, if is_peer_of c st && negb (m_handshake st =? 0)
                 then mkConnectionState (Some (m_handshake st)) (m_config c) (m_txBytes st) (m_rxBytes st) 0 0
                 else c) c peers.

Lemma handshake_step_state h st d c :
  m_connections d !! h = Some c →
  m_connections (handshake_step h st d).2 =
    <[h := if is_peer_of c st && negb (m_handshake st =? 0)
           then mkConnectionState (Some (m_handshake st)) (m_config c) (m_txBytes st) (m_rxBytes st) 0 0
           else c]> (m_connections d).
Proof.
  intros Hc. unfold handshake_step. rewrite bind_run. cbn [get fst snd]. rewrite Hc.
  destruct (is_peer_of c st); cbn [negb andb]; [|by rewrite insert_id].
  destruct (m_handshake st =? 0); cbn [negb]; [by rewrite insert_id|]. done.
Qed.

Lemma handshake_steps_state h peers d c :
  m_connections d !! h = Some c →
  m_connections (for_each peers (handshake_step h) d).2 = <[h := handshaken peers c]> (m_connections d).
Proof.
  revert d c. induction peers as [|st peers IH]; intros d c Hc; cbn [for_each].
  { cbn. by rewrite insert_id. }
  rewrite bind_run.
  rewrite (IH _ (if is_peer_of c st && negb (m_handshake st =? 0)
           then mkConnectionState (Some (m_handshake st)) (m_config c) (m_txBytes st) (m_rxBytes st) 0 0
           else c)).
  - rewrite (handshake_step_state h st d c Hc), insert_insert_eq. done.
  - rewrite (handshake_step_state h st d c Hc). apply lookup_insert_eq.
Qed.

(** What the poll makes of a connection. *)
Definition polled (peers : list PeerStatus) (c : ConnectionState) : ConnectionState :=
  match m_date c with None => handshaken peers c | Some _ => c end.

Lemma checkHandshake_one_state peers h d :
  m_connections (checkHandshake_one peers h d).2 = alter (polled peers) h (m_connections d).
Proof.
  unfold checkHandshake_one, is_pending. rewrite bind_run. cbn [get fst snd].
  destruct (m_connections d !! h) as [c|] eqn:E.
  - unfold polled. destruct (m_date c) eqn:Ed; cbn.
    + apply map_eq. intros k. rewrite lookup_alter. case_decide; subst; [|done].
      rewrite E. cbn. by rewrite Ed.
    + rewrite (handshake_steps_state h peers d c E). apply map_eq. intros k.
      rewrite lookup_alter, lookup_insert. case_decide; subst; [|done]. rewrite E. cbn. by rewrite Ed.
  - cbn. apply map_eq. intros k. rewrite lookup_alter. case_decide; subst; [by rewrite E|done].
Qed.

Lemma checkHandshake_loop peers hops d :
  NoDup hops →
  ∀ h, m_connections (for_each hops (checkHandshake_one peers) d).2 !! h =
       if decide (h ∈ hops) then polled peers <$> m_connections d !! h else m_connections d !! h.
Proof.
  revert d. induction hops as [|k hops IH]; intros d Hnd h; [done|].
  apply NoDup_cons in Hnd as [Hk Hnd]. cbn [for_each]. rewrite bind_run, IH by done.
  rewrite checkHandshake_one_state, lookup_alter.
  destruct (decide (k = h)) as [->|Hne].
  - rewrite (decide_False (P := h ∈ hops)) by done. by rewrite decide_True by left.
  - destruct (decide (h ∈ hops)).
    + by rewrite decide_True by (by right).
    + rewrite decide_False; [done|]. rewrite elem_of_cons. intros [->|]; done.
Qed.

Lemma not_connected h d : h ∉ (connections d).*1 → m_connections d !! h = None.
Proof.
  intros Hh. destruct (m_connections d !! h) as [c|] eqn:E; [|done]. exfalso. apply Hh.
  apply list_elem_of_fmap. exists (h, c). split; [done|]. by apply connections_elem.
Qed.

Definition idle (d : Daemon) : bool := match connections d with [] => true | _ => false end.
Definition some_pending (d : Daemon) : bool := existsb (is_pending d) (connections d).*1.

(** The entries that complete a handshake of [c], and what they announce. *)
Definition completing (c : ConnectionState) (peers : list PeerStatus) : list PeerStatus :=
  List.filter (λ st, is_peer_of c st && negb (m_handshake st =? 0)) peers.
Definition announced (peers : list PeerStatus) (s : HopType * ConnectionState) : list event :=
  match m_date s.2 with
  | None => (λ st, Emitted (connected (m_pubkey st))) <$> completing s.2 peers
  | Some _ => []
  end.

(** The poll's events and the timers it leaves alone. *)
Record announces (new : list event) (d d' : Daemon) : Prop := {
  an_log : log d' = log d ++ new;
  an_handshake : m_handshakeTimer d' = m_handshakeTimer d;
  an_liveness : m_livenessTimer d' = m_livenessTimer d;
}.

Lemma announces_trans n1 n2 d1 d2 d3 :
  announces n1 d1 d2 → announces n2 d2 d3 → announces (n1 ++ n2) d1 d3.
Proof. intros [L1 H1 V1] [L2 H2 V2]. split; [by rewrite L2, L1, app_assoc|congruence..]. Qed.

Lemma announces_nil d : announces [] d d.
Proof. split; [by rewrite app_nil_r|done..]. Qed.

Lemma handshake_steps_announce h peers d c :
  m_connections d !! h = Some c →
  announces ((λ st, Emitted (connected (m_pubkey st))) <$> completing c peers) d
    (for_each peers (handshake_step h) d).2.
Proof.
  revert d c. induction peers as [|st peers IH]; intros d c Hc; cbn [for_each]; [apply announces_nil|].
  rewrite bind_run. cbn [completing List.filter].
  pose proof (handshake_step_state h st d c Hc) as Hst.
  set (c1 := if is_peer_of c st && negb (m_handshake st =? 0) then _ else c) in Hst.
  assert (completing c1 peers = completing c peers) as E1.
  { subst c1. by destruct (is_peer_of c st && negb (m_handshake st =? 0)). }
  specialize (IH (handshake_step h st d).2 c1). rewrite E1 in IH.
  rewrite Hst, lookup_insert_eq in IH. specialize (IH eq_refl).
  assert (announces (if is_peer_of c st && negb (m_handshake st =? 0)
                     then [Emitted (connected (m_pubkey st))] else []) d (handshake_step h st d).2) as H1.
  { unfold handshake_step. rewrite bind_run. cbn [get fst snd]. rewrite Hc.
    destruct (is_peer_of c st); cbn; [|apply announces_nil].
    destruct (m_handshake st =? 0); cbn; [apply announces_nil|by split]. }
  destruct (is_peer_of c st && negb (m_handshake st =? 0)); exact (announces_trans _ _ _ _ _ H1 IH).
Qed.

Lemma checkHandshake_one_announces peers h d c :
  m_connections d !! h = Some c → announces (announced peers (h, c)) d (checkHandshake_one peers h d).2.
Proof.
  intros Hc. unfold checkHandshake_one, is_pending, announced. rewrite bind_run. cbn [get fst snd].
  rewrite Hc. destruct (m_date c); [apply announces_nil|by apply handshake_steps_announce].
Qed.

Lemma checkHandshake_loop_announces peers (l : list (HopType * ConnectionState)) d :
  NoDup l.*1 → (∀ h c, (h, c) ∈ l → m_connections d !! h = Some c) →
  announces (mjoin (announced peers <$> l)) d (for_each l.*1 (checkHandshake_one peers) d).2.
Proof.
  revert d. induction l as [|[h c] l IH]; intros d Hnd Hl; [apply announces_nil|].
  cbn [fmap list_fmap] in *. apply NoDup_cons in Hnd as [Hh Hnd]. cbn [for_each]. rewrite bind_run.
  cbn [mjoin list_join]. eapply announces_trans.
  - apply checkHandshake_one_announces. apply Hl. left.
  - apply IH; [done|]. intros h' c' Hin. rewrite checkHandshake_one_state, lookup_alter_ne.
    + apply Hl. by right.
    + intros <-. apply Hh. apply list_elem_of_fmap. by exists (h, c').
Qed.

Lemma pending_polled peers c :
  m_date (polled peers c) = None ↔
  m_date c = None ∧ ∀ st, st ∈ peers → is_peer_of c st = true → m_handshake st = 0.
Proof.
  unfold polled. destruct (m_date c) eqn:Ed; [rewrite Ed; naive_solver|].
  revert Ed. unfold handshaken. generalize c as c0. induction peers as [|st peers IH]; intros c0 Ed; cbn.
  { rewrite Ed. split; [|done]. intros _. split; [done|]. by intros st Hst%elem_of_nil. }
  destruct (is_peer_of c0 st && negb (m_handshake st =? 0)) eqn:E.
  - split_bools. set (c1 := mkConnectionState _ _ _ _ _ _). split.
    + intros H1. exfalso. revert H1. assert (m_date c1 ≠ None) as Hc1 by done. revert Hc1.
      generalize c1 as c2. clear. induction peers as [|st' peers IH]; intros c2 H2 H1; cbn in *; [done|].
      destruct (is_peer_of c2 st' && negb (m_handshake st' =? 0)); [by apply (IH (mkConnectionState (Some (m_handshake st')) (m_config c2) (m_txBytes st') (m_rxBytes st') 0 0))|by apply (IH c2)].
    + intros [_ H1]. specialize (H1 st ltac:(left) ltac:(done)). lia.
  - rewrite IH by done. split; intros [H1 H2]; (split; [done|]); intros st' Hin Hp.
    + apply elem_of_cons in Hin as [->|Hin]; [|by apply H2]. rewrite Hp in E. cbn in E. by split_bools.
    + apply H2; [by right|done].
Qed.

Lemma count_existsb {A} (f : A → bool) l :
  (0 <? Z.of_nat (length (List.filter f l))) = existsb f l.
Proof.
  induction l as [|x l IH]; [done|]. cbn. destruct (f x); cbn [orb]; [|done].
  by apply Z.ltb_lt.
Qed.

Lemma some_pending_ext d d' : m_connections d' = m_connections d → some_pending d' = some_pending d.
Proof.
  intros E. unfold some_pending, connections, is_pending. by rewrite E.
Qed.

Lemma pending_timers d :
  let d' := (rearm d).2 in
  m_connections d' = m_connections d ∧ log d' = log d ∧
  m_handshakeTimer d' = m_handshakeTimer d || some_pending d' ∧
  m_livenessTimer d' =
    m_livenessTimer d || negb (some_pending d') && negb (idle d').
Proof.
  cbv zeta. assert (m_connections (rearm d).2 = m_connections d) as E.
  { unfold rearm. rewrite bind_run. cbv zeta. cbn [get fst snd].
    destruct (0 <? _); [done|]. by destruct (connections d). }
  rewrite (some_pending_ext _ _ E). assert (idle (rearm d).2 = idle d) as ->.
  { unfold idle, connections. by rewrite E. }
  split; [done|]. unfold idle. unfold rearm. rewrite bind_run. cbv zeta. cbn [get fst snd].
  rewrite count_existsb. fold (some_pending d).
  destruct (some_pending d), (connections d); cbn; by rewrite ?orb_true_r, ?orb_false_r.
Qed.
End handshake.


(** ** Reference counts *)

Definition count (d : Daemon) (ip : IPAddress) : Z := default 0 (m_excludedAddrSet d !! ip).

(** How often [ip] occurs in a list. *)
Fixpoint occurrences (ip : IPAddress) (l : list IPAddress) : Z :=
  match l with
  | [] => 0
  | x :: l' => (if decide (x = ip) then 1 else 0) + occurrences ip l'
  end.

Definition same_exclusions (d d' : Daemon) : Prop := m_excludedAddrSet d' = m_excludedAddrSet d.
#[export] Instance same_exclusions_preorder : PreOrder same_exclusions.
Proof. split; unfold same_exclusions; [done|]. intros ? ? ? -> ->. done. Qed.

Lemma occurrences_nonneg ip l : 0 ≤ occurrences ip l.
Proof. induction l; cbn; [lia|]. case_decide; lia. Qed.

Lemma occurrences_notin ip l : ip ∉ l → occurrences ip l = 0.
Proof.
  induction l as [|x l IH]; [done|]. rewrite not_elem_of_cons. intros [Hx Hl]. cbn.
  rewrite decide_False by done. by rewrite IH.
Qed.

Section counts.
Context {Q : Qt} {P : Platform}.

Definition positive_counts (d : Daemon) : Prop := map_Forall (λ _ n, 1 ≤ n) (m_excludedAddrSet d).

Lemma add_count prefix d ip :
  positive_counts d → (∀ l, answer l (wg_addExclusionRoute prefix) = true) →
  positive_counts (addExclusionRoute prefix d).2 ∧
  count (addExclusionRoute prefix d).2 ip = count d ip + (if decide (prefix = ip) then 1 else 0).
Proof.
  intros Hpos Hans. unfold addExclusionRoute, count. rewrite bind_run. cbn [get fst snd].
  case_decide as Hin; [|rewrite bind_run, call_run, Hans; cbn]; rewrite bind_run; cbn.
  - split.
    + intros k n. cbn. rewrite lookup_alter. case_decide; subst; [|apply Hpos].
      destruct (m_excludedAddrSet d !! k) as [m|] eqn:E; [|done]. cbn. intros [= <-].
      specialize (Hpos k m E). cbn in Hpos. lia.
    + rewrite lookup_alter. case_decide; [|lia]. subst. destruct Hin as [n ->]. cbn. lia.
  - split; [by apply map_Forall_insert_2|]. rewrite lookup_insert. case_decide; [|lia]. subst.
    rewrite <- eq_None_not_Some in Hin. rewrite Hin. cbn. lia.
Qed.

Lemma del_count prefix d ip :
  positive_counts d →
  positive_counts (delExclusionRoute prefix d).2 ∧
  count (delExclusionRoute prefix d).2 ip =
    Z.max 0 (count d ip - (if decide (prefix = ip) then 1 else 0)).
Proof.
  intros Hpos. unfold delExclusionRoute, count. rewrite !bind_run. cbn.
  rewrite lookup_insert_eq. cbn.
  assert (∀ k, 0 ≤ default 0 (m_excludedAddrSet d !! k)) as Hnn.
  { intros k. destruct (m_excludedAddrSet d !! k) as [n|] eqn:E; cbn; [|lia].
    specialize (Hpos k n E). cbn in Hpos. lia. }
  destruct (1 <? default 0 (m_excludedAddrSet d !! prefix)) eqn:En; split_bools.
  - rewrite bind_run. cbn. destruct (m_excludedAddrSet d !! prefix) as [n|] eqn:E; [|cbn in En; lia].
    cbn in *. rewrite insert_id by done. split.
    + intros k m. cbn. rewrite lookup_alter. case_decide; subst; [|apply Hpos].
      rewrite E. cbn. intros [= <-]. lia.
    + rewrite lookup_alter. case_decide; subst; [rewrite E; cbn; lia|]. specialize (Hnn ip). lia.
  - rewrite bind_run, call_run. cbn. rewrite delete_insert_eq. split; [by apply map_Forall_delete|].
    rewrite lookup_delete. case_decide; subst; cbn; [|specialize (Hnn ip); lia].
    lia.
Qed.

Lemma add_counts (l : list IPAddress) d ip :
  positive_counts d → (∀ h p, answer h (wg_addExclusionRoute p) = true) →
  positive_counts (for_each l (λ i, discard (addExclusionRoute i)) d).2 ∧
  count (for_each l (λ i, discard (addExclusionRoute i)) d).2 ip = count d ip + occurrences ip l.
Proof.
  intros Hpos Hans. revert d Hpos. induction l as [|x l IH]; intros d Hpos; cbn [for_each occurrences].
  { split; [done|cbn; lia]. }
  rewrite bind_run, discard_run. cbn [snd].
  destruct (add_count x d ip Hpos (λ h, Hans h x)) as [Hp Hc].
  destruct (IH _ Hp) as [Hp' ->]. split; [done|]. rewrite Hc. lia.
Qed.

Lemma del_counts (l : list IPAddress) d ip :
  positive_counts d →
  positive_counts (for_each l (λ i, discard (delExclusionRoute i)) d).2 ∧
  count (for_each l (λ i, discard (delExclusionRoute i)) d).2 ip = Z.max 0 (count d ip - occurrences ip l).
Proof.
  revert d. induction l as [|x l IH]; intros d Hpos; cbn [for_each occurrences].
  { split; [done|]. cbn. unfold count. destruct (m_excludedAddrSet d !! ip) as [n|] eqn:E; cbn; [|lia].
    specialize (Hpos ip n E). cbn in Hpos. lia. }
  rewrite bind_run, discard_run. cbn [snd].
  destruct (del_count x d ip Hpos) as [Hp Hc].
  destruct (IH _ Hp) as [Hp' ->]. split; [done|]. rewrite Hc. pose proof (occurrences_nonneg ip l). lia.
Qed.

Lemma same_exclusions_call c : steps same_exclusions (call_ c).
Proof. intros d. apply (ol_excluded _ _ (only_log_call c d)). Qed.

Lemma for_each_map {A B} (f : A → B) (l : list A) (body : B → stM Daemon unit) :
  for_each l (λ i, body (f i)) = for_each (f <$> l) body.
Proof. induction l as [|x l IH]; [done|]. cbn. by rewrite IH. Qed.

(** The address [switchServer] releases for an excluded string. *)
Definition released (i : string) : IPAddress := IPAddress_of_host (host_of_string i).

(** What follows the release of the old exclusions leaves them alone. *)
Lemma switchServer_counts config d s ip :
  m_connections d !! m_hopType config = Some s → positive_counts d →
  (∀ h p, answer h (wg_addExclusionRoute p) = true) → (∀ h, answer h (updatePeer config) = true) →
  count (switchServer config d).2 ip =
  Z.max 0 (count d ip + occurrences ip (IPAddress_of <$> m_excludedAddresses config)
           - occurrences ip (released <$> m_excludedAddresses (m_config s))).
Proof.
  intros Hs Hpos Hadd Hpeer. unfold switchServer. rewrite bind_run. cbn [get fst snd].
  cbv zeta. rewrite Hs. cbn [from_option].
  rewrite bind_run, (for_each_map IPAddress_of _ (λ i, discard (addExclusionRoute i))).
  destruct (add_counts (IPAddress_of <$> m_excludedAddresses config) d ip Hpos Hadd) as [Hp1 Hc1].
  set (d1 := (for_each _ _ d).2) in *. unfold and_then at 1. rewrite bind_run, call_run, Hpeer.
  cbn [fst snd]. rewrite bind_run.
  set (d2 := mkDaemon _ _ _ _ _). set (d3 := (for_all _ _ d2).2).
  assert (m_excludedAddrSet d3 = m_excludedAddrSet d1) as E3.
  { subst d3. apply (steps_for_all same_exclusions _ _ (λ ip, same_exclusions_call _) d2). }
  rewrite bind_run, (for_each_map released _ (λ i, discard (delExclusionRoute i))).
  assert (positive_counts d3) as Hp3 by (unfold positive_counts; by rewrite E3).
  destruct (del_counts (released <$> m_excludedAddresses (m_config s)) d3 ip Hp3) as [Hp4 Hc4].
  set (d4 := (for_each _ _ d3).2) in *.
  match goal with |- count (?m d4).2 ip = _ => assert (steps same_exclusions m) as Hrest end.
  { steps_tac; try apply same_exclusions_call. done. }
  transitivity (count d4 ip); [unfold count; by rewrite (Hrest d4)|].
  rewrite Hc4. f_equal. f_equal. rewrite <- Hc1. unfold count. by rewrite E3.
Qed.
End counts.

(** ** Properties *)

(** A concrete platform: every call succeeds, one peer without traffic. *)
Definition quiet_platform : Platform := {|
  answer _ _ := true;
  interfaceExists _ := true;
  getPeerStatus _ := [mkPeerStatus "peer" 1000 0 0];
  supportIPUtils := true;
  interfaceName := "abs0";
  date_toString _ := "";
|}.

(** C1. Every activation has one of two outcomes: it succeeds, the connection is
    recorded as fresh, the handshake poll is started and no failure was signalled
    on the way; or it fails, and the last thing it does is to emit
    [activationFailure]. *)
Theorem activate_outcome `{Qt} `{Platform} c d : outcome c d (activate c d).
Proof.
  apply activate_body_outcome. intros d' Hd'. by apply activate_inactive_outcome.
Qed.

(** [activate] terminates: it calls itself at most once, because a daemon it
    has just deactivated has no connection; with any more fuel the result is the
    same. *)
Theorem activate_terminates `{Qt} `{Platform} n c d : activate_fuel (2 + n) c d = activate c d.
Proof.
  apply activate_body_ext. intros d' Hd'. by apply activate_fuel_inactive.
Qed.

(** After any sequence of commands and timer expiries, the exclusion routes
    installed on the platform, as its answers tell, are exactly the counted
    ones, and every count is positive. *)
Theorem exclusion_routes_agree `{Qt} `{Platform} rs :
  installed (log (after rs)) = dom (m_excludedAddrSet (after rs)) ∧
  map_Forall (λ _ n, 1 ≤ n) (m_excludedAddrSet (after rs)).
Proof. destruct (after_exclusions_ok rs). auto. Qed.

(** C31. Deactivation in any reachable state.  When the platform refuses
    [run(Down)] it fails and keeps the connections; otherwise it leaves no
    connection, no exclusion route and no timer, and has deleted the routes and
    the peer of every connection, restored the resolvers and deleted the
    interface. *)
Theorem deactivate_releases `{Qt} `{Platform} b rs :
  let d := after rs in
  let r := deactivate b d in
  if match connections d with [] => true | (_, s) :: _ => answer (log d) (run Down (m_config s)) end
  then inactive r.2 ∧ installed (log r.2) = ∅ ∧
       (∀ h s, m_connections d !! h = Some s → undone s r.2) ∧
       was_called restoreResolvers r.2 ∧ was_called deleteInterface r.2
  else r.1 = false ∧ m_connections r.2 = m_connections d.
Proof.
  cbv zeta. set (d := after rs). pose proof (keeps_deactivate b d (after_exclusions_ok rs)) as Hok.
  rewrite deactivate_unfold in *. unfold and_then in *. rewrite bind_run in *.
  assert ((run_down d (stop_timers d)).1 =
    match connections d with [] => true | (_, s) :: _ => answer (log d) (run Down (m_config s)) end) as E.
  { unfold run_down. by destruct (connections d) as [|[] ?]. }
  pose proof (only_log_run_down d (stop_timers d)) as [Hc _ Hh Hl].
  destruct (run_down d (stop_timers d)) as [ok d1]. cbn [fst snd] in *. subst ok.
  destruct (match connections d with [] => _ | _ => _ end); [|by split].
  pose proof (teardown_inactive b d d1 Hh Hl) as Hin.
  destruct (teardown_undone b d d1) as (Hu & Hd & Hr). split; [done|]. split.
  { destruct Hok as [-> _]. rewrite (no_exclusions _ Hin). by rewrite dom_empty_L. }
  split; [|by split]. intros h s Hs. rewrite Forall_forall in Hu.
  apply (Hu (h, s)). by apply connections_elem.
Qed.

(** The cheap recovery is bounded: in every reachable state each connection
    has used between 0 and [QUICK_RECOVERY_ATTEMPTS] attempts. *)
Theorem recovery_bounded `{Qt} `{Platform} rs h c :
  m_connections (after rs) !! h = Some c →
  0 ≤ m_stalledSamples c ∧ 0 ≤ m_quickRecoveryAttempts c ≤ QUICK_RECOVERY_ATTEMPTS.
Proof. apply (after_counters_ok rs h c). Qed.

Definition demo_config : InterfaceConfig := wg_example.

Lemma recovery_bounded_witness :
  0 ≤ m_stalledSamples (fresh demo_config) ∧
  0 ≤ m_quickRecoveryAttempts (fresh demo_config) ≤ QUICK_RECOVERY_ATTEMPTS.
Proof.
  apply (@recovery_bounded plain_qt quiet_platform [Activate demo_config] SingleHop).
  vm_compute. reflexivity.
Defined.

(** C25. The watchdog gives a dead tunnel up: if the peer's counter of received
    bytes stands still while the tunnel sends, then after
    [BLACKHOLE_SAMPLES * (QUICK_RECOVERY_ATTEMPTS + 1)] = 12 expiries of the
    liveness timer at most, [disconnected] has been emitted and the timer
    stopped, whatever the handshakes' age and the outcome of each recovery. *)
Theorem watchdog_gives_up `{Qt} `{Platform} c hs rx tx h d s nows :
  black_hole c hs rx tx → watched c rx tx h d s →
  BLACKHOLE_SAMPLES * (QUICK_RECOVERY_ATTEMPTS + 1) ≤ Z.of_nat (length nows) →
  handed_over (run_state (for_each nows liveness_timeout) d).
Proof.
  intros Hhole Hw Hn. apply (watch_gives_up c hs rx tx Hhole h nows d s Hw).
  destruct (w_attempts _ _ _ _ _ _ Hw), (w_stalled _ _ _ _ _ _ Hw).
  unfold patience, BLACKHOLE_SAMPLES, QUICK_RECOVERY_ATTEMPTS in *. lia.
Qed.

(** A platform whose tunnel sends and receives nothing. *)
Definition dead_platform : Platform := {|
  answer _ _ := true;
  interfaceExists _ := true;
  getPeerStatus l := [mkPeerStatus "peer" 1000 0 (Z.of_nat (length l))];
  supportIPUtils := true;
  interfaceName := "abs0";
  date_toString _ := "";
|}.

Definition established_daemon : Daemon :=
  mkDaemon {[SingleHop := mkConnectionState (Some 1000) demo_config 0 0 0 0]} ∅ false true [].

Lemma watchdog_gives_up_witness :
  handed_over
    (run_state (for_each (replicate 12 2000) (@liveness_timeout dead_platform)) established_daemon).
Proof.
  apply (@watchdog_gives_up plain_qt dead_platform demo_config 1000 0 (λ l, Z.of_nat (length l)) SingleHop
           established_daemon (mkConnectionState (Some 1000) demo_config 0 0 0 0)).
  - split; [reflexivity|reflexivity|]. intros l e. rewrite length_app. cbn. lia.
  - split; cbn; unfold QUICK_RECOVERY_ATTEMPTS, BLACKHOLE_SAMPLES; try reflexivity; lia.
  - vm_compute. discriminate.
Defined.

(** The watchdog leaves a live tunnel alone: while every connection's peer
    entry shows new bytes received, a check does nothing but ask the platform
    (no recovery, no signal) and the timer keeps running. *)
Theorem watchdog_spares_live `{Qt} `{Platform} now d :
  let peers := getPeerStatus (log d ++ [AskedInterface]) in
  interfaceExists (log d) = true → connections d ≠ [] →
  NoDup (m_pubkey <$> peers) → all_receiving d peers →
  log (checkLiveness now d).2 = log d ++ [AskedInterface; AskedPeers] ∧
  m_livenessTimer (checkLiveness now d).2 = m_livenessTimer d.
Proof.
  cbv zeta. intros Hi Hc Hnd Hall. unfold checkLiveness. rewrite bind_run. cbn [get fst snd].
  destruct (connections d) as [|s l] eqn:E; [done|]. rewrite <- E. rewrite bind_run.
  unfold query_interface. rewrite !bind_run. cbn [get fst snd mret stM_ret logged modify].
  rewrite Hi. cbn [negb]. rewrite bind_run, discard_run. unfold query_peers. rewrite !bind_run.
  cbn [get fst snd mret stM_ret logged modify log].
  match goal with |- context [for_all _ _ ?d1] => set (d2 := d1) end.
  destruct (live_hops now (getPeerStatus (log d ++ [AskedInterface])) (connections d).*1 d2
              (NoDup_hops d) Hnd) as [-> ->]; [exact Hall|].
  subst d2. cbn. by rewrite <- app_assoc.
Qed.

(** A platform whose tunnel receives. *)
Definition live_platform : Platform := {|
  answer _ _ := true;
  interfaceExists _ := true;
  getPeerStatus _ := [mkPeerStatus "peer" 1000 10 20];
  supportIPUtils := true;
  interfaceName := "abs0";
  date_toString _ := "";
|}.

Lemma watchdog_spares_live_witness :
  log (@checkLiveness live_platform 2000 established_daemon).2 = [AskedInterface; AskedPeers].
Proof.
  apply (@watchdog_spares_live plain_qt live_platform 2000 established_daemon).
  - reflexivity.
  - vm_compute. discriminate.
  - apply (bool_decide_unpack _). vm_compute. exact I.
  - intros h c st Hc Hst _. apply elem_of_cons in Hst as [->|Hst]; [|by apply elem_of_nil in Hst].
    cbn in *. apply lookup_singleton_Some in Hc as [_ <-]. cbn. lia.
Defined.

(** The handshake poll.  A connection stays pending exactly when it was and
    none of its peer's entries has a handshake yet; each completed handshake is
    announced with [connected]; a pending connection restarts the poll, and when
    none is left the liveness watchdog takes over. *)
Theorem checkHandshake_correct `{Qt} `{Platform} d :
  let peers := getPeerStatus (log d) in
  let d' := (checkHandshake d).2 in
  (∀ h c, m_connections d !! h = Some c → ∃ c', m_connections d' !! h = Some c' ∧
     (m_date c' = None ↔ m_date c = None ∧
        ∀ st, st ∈ peers → is_peer_of c st = true → m_handshake st = 0)) ∧
  log d' = log d ++ AskedPeers :: mjoin (announced peers <$> connections d) ∧
  m_handshakeTimer d' = m_handshakeTimer d || some_pending d' ∧
  m_livenessTimer d' = m_livenessTimer d || negb (some_pending d') && negb (idle d').
Proof.
  cbv zeta. unfold checkHandshake. rewrite bind_run. unfold query_peers. rewrite !bind_run.
  cbn [get fst snd mret stM_ret logged modify].
  set (d1 := mkDaemon _ _ _ _ _). set (peers := getPeerStatus (log d)).
  change (connections d1) with (connections d).
  pose proof (checkHandshake_loop_announces peers (connections d) d1 (NoDup_hops d)
    (λ h c Hin, proj1 (connections_elem h c d) Hin)) as [Hl Hh Hv].
  pose proof (checkHandshake_loop peers (connections d).*1 d1 (NoDup_hops d)) as Hconn.
  set (d2 := (for_each (connections d).*1 (checkHandshake_one peers) d1).2) in *.
  destruct (pending_timers d2) as (E1 & E2 & E3 & E4).
  rewrite E2, E3, E4, Hh, Hv, Hl, E1. split_and!; try done.
  - intros h c Hc. rewrite Hconn, decide_True; cycle 1.
    { apply list_elem_of_fmap. exists (h, c). split; [done|]. by apply connections_elem. }
    change (m_connections d1) with (m_connections d). rewrite Hc.
    exists (polled peers c). split; [done|]. apply pending_polled.
  - cbn. by rewrite <- app_assoc.
Qed.

(** Server switching counts exclusions as references: when the platform
    accepts the new routes and the peer, each address gains one reference per new
    exclusion naming it and loses one per old exclusion, and an address whose
    count reaches 0 is dropped.  (For exclusions that are single addresses.) *)
Theorem switchServer_counts_references `{Qt} `{Platform} config d s ip :
  m_connections d !! m_hopType config = Some s → positive_counts d →
  (∀ h p, answer h (wg_addExclusionRoute p) = true) → (∀ h, answer h (updatePeer config) = true) →
  Forall (λ i, IPAddress_of i = released i) (m_excludedAddresses (m_config s)) →
  count (switchServer config d).2 ip =
  Z.max 0 (count d ip + occurrences ip (IPAddress_of <$> m_excludedAddresses config)
           - occurrences ip (IPAddress_of <$> m_excludedAddresses (m_config s))).
Proof.
  intros Hs Hpos Hadd Hpeer Hold. rewrite (switchServer_counts config d s ip Hs Hpos Hadd Hpeer).
  f_equal. f_equal. f_equal. induction Hold as [|i l Hi Hl IH]; [done|]. cbn. by rewrite Hi, IH.
Qed.

Definition excluding (l : list string) : InterfaceConfig :=
  mkInterfaceConfig SingleHop (Some "key") (Some "10.8.0.2") None None None
    (Some "peer") (Some "198.51.100.7") None None (Some "1.1.1.1") None 51820 1376
    None [net_0_0] l [] [] true None None None None None None None None None None None ∅
    None None None None None None None.

Definition excluding_daemon (l : list string) : Daemon :=
  @after plain_qt quiet_platform [Activate (excluding l)].

Definition address_192_0_2_1 : IPAddress := mkIPAddress (HostV4 3221225985) 32.

Lemma positive_counts_after `{Qt} `{Platform} rs : positive_counts (after rs).
Proof. apply (counts_positive _ (after_exclusions_ok rs)). Qed.

Lemma switchServer_counts_references_witness :
  count (excluding_daemon ["192.0.2.1"]) address_192_0_2_1 = 1 ∧
  count (@switchServer plain_qt quiet_platform (excluding []) (excluding_daemon ["192.0.2.1"])).2
    address_192_0_2_1 = 0.
Proof.
  split; [vm_compute; reflexivity|].
  refine (eq_trans (@switchServer_counts_references plain_qt quiet_platform (excluding [])
    (excluding_daemon ["192.0.2.1"]) (fresh (excluding ["192.0.2.1"])) address_192_0_2_1 _ _ _ _ _) _).
  - vm_compute. reflexivity.
  - apply positive_counts_after.
  - reflexivity.
  - reflexivity.
  - repeat constructor.
  - vm_compute. reflexivity.
Defined.

(** Excluded subnets are not released: [switchServer] converts each old
    exclusion with [QHostAddress], which rejects the [address/length] form, so
    the counts of all proper addresses stay and their routes remain installed. *)
Theorem switchServer_keeps_subnets `{Qt} `{Platform} config d s ip :
  m_connections d !! m_hopType config = Some s → positive_counts d →
  (∀ h p, answer h (wg_addExclusionRoute p) = true) → (∀ h, answer h (updatePeer config) = true) →
  m_excludedAddresses config = [] →
  Forall (λ i, host_of_string i = HostNull) (m_excludedAddresses (m_config s)) →
  type ip ≠ UnknownNetworkLayerProtocol →
  count (switchServer config d).2 ip = count d ip.
Proof.
  intros Hs Hpos Hadd Hpeer Hnew Hold Hip. rewrite (switchServer_counts config d s ip Hs Hpos Hadd Hpeer), Hnew.
  cbn. rewrite (occurrences_notin ip).
  - unfold count. destruct (m_excludedAddrSet d !! ip) as [n|] eqn:E; cbn; [|done].
    specialize (Hpos ip n E). cbn in Hpos. lia.
  - intros Hin. apply list_elem_of_fmap in Hin as (i & -> & Hi). rewrite Forall_forall in Hold.
    apply Hip. unfold released. by rewrite (Hold i Hi).
Qed.

Lemma switchServer_keeps_subnets_witness :
  count (@switchServer plain_qt quiet_platform (excluding []) (excluding_daemon ["10.0.0.0/8"])).2 net_10_8 = 1.
Proof.
  refine (eq_trans (@switchServer_keeps_subnets plain_qt quiet_platform (excluding [])
    (excluding_daemon ["10.0.0.0/8"]) (fresh (excluding ["10.0.0.0/8"])) net_10_8 _ _ _ _ _ _ _) _).
  - vm_compute. reflexivity.
  - apply positive_counts_after.
  - reflexivity.
  - reflexivity.
  - reflexivity.
  - apply Forall_singleton. vm_compute. reflexivity.
  - discriminate.
  - vm_compute. reflexivity.
Defined.
