(* ===== verification/Wire.v ===== *)
(** * Wire: newline-delimited JSON on the daemon's socket

    Models the line framing of [DaemonLocalServerConnection::readData]
    ([client/daemon/daemonlocalserverconnection.cpp]) and of
    [LocalSocketController::readData] and [write]
    ([client/mozilla/localsocketcontroller.cpp]).  Encoding a document is
    [QJsonDocument]'s, a parameter with the laws a message needs. *)
From S2P Require Import Prelude Text Json.

Class JsonCodec := {
  (** [QJsonDocument(o).toJson(QJsonDocument::Compact)] *)
  toJson_compact : gmap string json → string;
  (** [QJsonDocument::fromJson]; [None] is the null document. *)
  fromJson : string → option json;
}.
(** [QJsonDocument(…).toJson()], on several lines. *)
Class JsonPrinter := { indented : json → string }.

(** ** Definitions *)

(** The commands of a buffer: complete lines, trimmed, the blank ones dropped. *)
Fixpoint drain (fuel : nat) (buffer : string) : list string * string :=
  match fuel with
  | O => ([], buffer)
  | S fuel =>
      match take_line buffer with
      | None => ([], buffer)
      | Some (line, rest) =>
          let command := trimmed line in
          let '(cs, b) := drain fuel rest in
          (if String.eqb command "" then cs else command :: cs, b)
      end
  end.

(** The client's [readData]: one [readAll], then every complete line. *)
Definition client_readData (buffer input : string) : list string * string :=
  let b := buffer +:+ input in drain (String.length b) b.

(** The daemon's [readData]: a line when there is one, else [readAll] again
    until it returns nothing.  [chunks] are the successive results of
    [readAll], which are not empty. *)
Fixpoint server_loop (fuel : nat) (buffer : string) (chunks : list string) :
    option (list string * string) :=
  match fuel with
  | O => None
  | S fuel =>
      match take_line buffer with
      | None =>
          match chunks with
          | [] => Some ([], buffer)
          | input :: chunks => server_loop fuel (buffer +:+ input) chunks
          end
      | Some (line, rest) =>
          let command := trimmed line in
          match server_loop fuel rest chunks with
          | Some (cs, b) => Some (if String.eqb command "" then cs else command :: cs, b)
          | None => None
          end
      end
  end.

Definition server_fuel (buffer : string) (chunks : list string) : nat :=
  S (String.length buffer + (length chunks + String.length (String.concat "" chunks))).

Definition server_readData (buffer : string) (chunks : list string) : option (list string * string) :=
  server_loop (server_fuel buffer chunks) buffer chunks.

(** [write]: the document and a newline. *)
Definition write {C : JsonCodec} (o : gmap string json) : string := toJson_compact o +:+ nl.

(** ** Specification: the lines of the text *)
Definition clean (l : list string) : list string :=
  List.filter (λ s, negb (String.eqb s "")) (trimmed <$> l).

(** All the lines but the last, unfinished one; and that one. *)
Definition commands (text : string) : list string := clean (removelast (lines_of text)).
Definition remainder (text : string) : string := List.last (lines_of text) "".

Lemma lines_of_nonempty s : lines_of s ≠ [].
Proof. apply split_char_nonempty. Qed.

Lemma removelast_cons {A} (x : A) l : l ≠ [] → removelast (x :: l) = x :: removelast l.
Proof. by destruct l. Qed.

Lemma commands_line l s :
  contains_nl l = false →
  commands (l +:+ nl +:+ s) = (if String.eqb (trimmed l) "" then [] else [trimmed l]) ++ commands s.
Proof.
  intros Hl. unfold commands. rewrite lines_of_line by done.
  rewrite removelast_cons by apply lines_of_nonempty. unfold clean. cbn.
  by destruct (String.eqb (trimmed l) "").
Qed.

Lemma remainder_line l s : contains_nl l = false → remainder (l +:+ nl +:+ s) = remainder s.
Proof.
  intros Hl. unfold remainder. rewrite lines_of_line by done. pose proof (lines_of_nonempty s).
  by destruct (lines_of s).
Qed.

Lemma commands_none s : contains_nl s = false → commands s = [].
Proof. intros Hs. unfold commands, lines_of. by rewrite split_char_none. Qed.
Lemma remainder_none s : contains_nl s = false → remainder s = s.
Proof. intros Hs. unfold remainder, lines_of. by rewrite split_char_none. Qed.

Lemma remainder_nl s : contains_nl (remainder s) = false.
Proof.
  remember (String.length s) as n eqn:E. revert s E.
  induction (lt_wf n) as [n _ IH]. intros s ->.
  destruct (take_line s) as [[l r]|] eqn:Et.
  - pose proof (take_line_length s l r Et). apply take_line_inv in Et as [-> Hl].
    rewrite remainder_line by done. by eapply IH.
  - apply take_line_none in Et. by rewrite remainder_none.
Qed.

Lemma drain_commands fuel b :
  (String.length b ≤ fuel)%nat → drain fuel b = (commands b, remainder b).
Proof.
  revert b. induction fuel as [|fuel IH]; intros b Hb.
  { destruct b; [done|]. cbn in Hb. lia. }
  cbn. destruct (take_line b) as [[l r]|] eqn:E.
  - pose proof (take_line_length b l r E). rewrite IH by lia.
    apply take_line_inv in E as [-> Hl]. rewrite commands_line, remainder_line by done.
    by destruct (String.eqb (trimmed l) "").
  - apply take_line_none in E. by rewrite commands_none, remainder_none.
Qed.

Lemma client_readData_commands b input :
  client_readData b input = (commands (b +:+ input), remainder (b +:+ input)).
Proof. unfold client_readData. by apply drain_commands. Qed.

(** Reading on from what is left of a text. *)
Lemma commands_app s t : commands (s +:+ t) = commands s ++ commands (remainder s +:+ t).
Proof.
  remember (String.length s) as n eqn:E. revert s E.
  induction (lt_wf n) as [n _ IH]. intros s ->.
  destruct (take_line s) as [[l r]|] eqn:Et.
  - pose proof (take_line_length s l r Et). apply take_line_inv in Et as [-> Hl].
    rewrite !string_app_assoc, !commands_line, remainder_line by done.
    rewrite <- app_assoc. f_equal. by eapply IH.
  - apply take_line_none in Et. by rewrite (commands_none s), (remainder_none s).
Qed.

Lemma remainder_app s t : remainder (s +:+ t) = remainder (remainder s +:+ t).
Proof.
  remember (String.length s) as n eqn:E. revert s E.
  induction (lt_wf n) as [n _ IH]. intros s ->.
  destruct (take_line s) as [[l r]|] eqn:Et.
  - pose proof (take_line_length s l r Et). apply take_line_inv in Et as [-> Hl].
    rewrite !string_app_assoc, !remainder_line by done. by eapply IH.
  - apply take_line_none in Et. by rewrite (remainder_none s).
Qed.

Lemma server_loop_commands fuel b chunks :
  (server_fuel b chunks ≤ fuel)%nat →
  server_loop fuel b chunks =
  Some (commands (b +:+ String.concat "" chunks), remainder (b +:+ String.concat "" chunks)).
Proof.
  unfold server_fuel. revert b chunks. induction fuel as [|fuel IH]; intros b chunks Hf; [lia|].
  cbn. destruct (take_line b) as [[l r]|] eqn:E.
  - pose proof (take_line_length b l r E). rewrite IH by lia.
    apply take_line_inv in E as [-> Hl].
    rewrite !string_app_assoc, commands_line, remainder_line by done.
    by destruct (String.eqb (trimmed l) "").
  - destruct chunks as [|c chunks].
    + apply take_line_none in E. cbn. rewrite append_nil_r. by rewrite commands_none, remainder_none.
    + rewrite IH; [by rewrite concat_empty_cons, string_app_assoc|].
      rewrite concat_empty_cons in Hf. rewrite !string_app_length in *. cbn in Hf. lia.
Qed.

(** ** Messages *)

(** What a message's text must satisfy: a trimmed, non-empty line that decodes
    to the message. *)
Record wire_ok {C : JsonCodec} (o : gmap string json) : Prop := {
  wire_line : contains_nl (toJson_compact o) = false;
  wire_trimmed : trimmed (toJson_compact o) = toJson_compact o;
  wire_nonempty : toJson_compact o ≠ "";
  wire_decodes : fromJson (toJson_compact o) = Some (JObject o);
}.

Lemma commands_write {C : JsonCodec} o s :
  wire_ok o → commands (write o +:+ s) = toJson_compact o :: commands s.
Proof.
  intros [Hl Ht Hn _]. unfold write. rewrite string_app_assoc, commands_line, Ht by done.
  by rewrite (proj2 (String.eqb_neq _ _) Hn).
Qed.

Lemma remainder_write {C : JsonCodec} o s : wire_ok o → remainder (write o +:+ s) = remainder s.
Proof. intros [Hl _ _ _]. unfold write. by rewrite string_app_assoc, remainder_line. Qed.

Lemma commands_messages {C : JsonCodec} os :
  Forall wire_ok os →
  commands (String.concat "" (write <$> os)) = toJson_compact <$> os ∧
  remainder (String.concat "" (write <$> os)) = "".
Proof.
  induction 1 as [|o os Ho Hos [IHc IHr]]; [done|]. cbn [fmap list_fmap].
  rewrite concat_empty_cons, commands_write, remainder_write by done.
  by rewrite IHc, IHr.
Qed.

(** A client that reads its chunks one event at a time. *)
Fixpoint client_reads (buffer : string) (chunks : list string) : list string * string :=
  match chunks with
  | [] => ([], buffer)
  | input :: chunks =>
      let '(cs, b) := client_readData buffer input in
      let '(cs', b') := client_reads b chunks in (cs ++ cs', b')
  end.

Lemma client_reads_commands b chunks :
  contains_nl b = false →
  client_reads b chunks =
  (commands (b +:+ String.concat "" chunks), remainder (b +:+ String.concat "" chunks)).
Proof.
  revert b. induction chunks as [|c chunks IH]; intros b Hb.
  { cbn. rewrite append_nil_r. by rewrite commands_none, remainder_none. }
  cbn [client_reads]. rewrite client_readData_commands.
  rewrite IH by apply remainder_nl.
  by rewrite concat_empty_cons, <- string_app_assoc, (commands_app (b +:+ c)), (remainder_app (b +:+ c)).
Qed.

(** ** Properties *)

(** Framing survives fragmentation: however the socket cuts the bytes of a
    sequence of messages into pieces, the daemon's read loop terminates, yields
    the messages' texts in order and keeps nothing back, and so does the client
    that is woken once per piece. *)
Theorem framing_roundtrip {C : JsonCodec} os chunks :
  Forall wire_ok os → String.concat "" chunks = String.concat "" (write <$> os) →
  server_readData "" chunks = Some (toJson_compact <$> os, "") ∧
  client_reads "" chunks = (toJson_compact <$> os, "") ∧
  fromJson <$> (toJson_compact <$> os) = (λ o, Some (JObject o)) <$> os.
Proof.
  intros Hos Hchunks. destruct (commands_messages os Hos) as [Hc Hr]. split_and!.
  - unfold server_readData. rewrite server_loop_commands by done.
    by rewrite append_nil_l, Hchunks, Hc, Hr.
  - rewrite client_reads_commands by done. by rewrite append_nil_l, Hchunks, Hc, Hr.
  - clear Hchunks Hc Hr. induction Hos as [|o os [_ _ _ Ho] Hos IH]; [done|].
    cbn. by rewrite Ho, IH.
Qed.

(** A codec of the messages that only have a type. *)
Definition type_message (t : string) : gmap string json := {["type" := JString t]}.
Definition type_codec : JsonCodec := {|
  toJson_compact o := str (toString (value o "type"));
  fromJson s := Some (JObject (type_message s));
|}.

Lemma framing_roundtrip_witness :
  server_readData "" ["sta"; "tus" +:+ nl +:+ "logs"; nl] = Some (["status"; "logs"], "").
Proof.
  apply (@framing_roundtrip type_codec [type_message "status"; type_message "logs"]
           ["sta"; "tus" +:+ nl +:+ "logs"; nl]).
  - repeat constructor; done.
  - reflexivity.
Defined.

(** Fragmentation in general: for any bytes, complete or not, the two read
    loops agree with the lines of the whole text (trimmed, blank lines dropped)
    and keep exactly the unfinished last line. *)
Theorem readData_lines b chunks :
  contains_nl b = false →
  server_readData b chunks =
    Some (commands (b +:+ String.concat "" chunks), remainder (b +:+ String.concat "" chunks)) ∧
  client_reads b chunks =
    (commands (b +:+ String.concat "" chunks), remainder (b +:+ String.concat "" chunks)).
Proof.
  intros Hb. split; [by apply server_loop_commands|by apply client_reads_commands].
Qed.

Lemma readData_lines_witness :
  server_readData "ab" ["c" +:+ nl +:+ nl; " d "] = Some (["abc"], " d ").
Proof. apply (readData_lines "ab" ["c" +:+ nl +:+ nl; " d "]). reflexivity. Defined.
