(* ===== verification/ProtocolConfigs.v ===== *)
(** * ProtocolConfigs: the stored settings of a protocol

    Models [client/core/models/protocols/*.cpp] but Xray's: the structures with
    what the server and the client of a protocol are configured with, their JSON
    form in the application's settings, and the comparisons that decide whether
    a server has to be set up again.

    A [QString] field is a [string]: these files never tell the null string from
    the empty one. *)
From S2P Require Import Prelude Text Json Wire.

(** [aa.removeAll(QString()); std::sort(aa.begin(), aa.end());] *)
Definition sorted_secrets (l : list string) : list string := merge_sort String.le (nonempty l).

(** ** The structures *)

Module AwgServerConfig.
Record AwgServerConfig := mk {
  port : string;
  transportProto : string;
  protocolVersion : string;
  subnetAddress : string;
  subnetCidr : string;
  junkPacketCount : string;
  junkPacketMinSize : string;
  junkPacketMaxSize : string;
  initPacketJunkSize : string;
  responsePacketJunkSize : string;
  cookieReplyPacketJunkSize : string;
  transportPacketJunkSize : string;
  initPacketMagicHeader : string;
  responsePacketMagicHeader : string;
  underloadPacketMagicHeader : string;
  transportPacketMagicHeader : string;
  specialJunk1 : string;
  specialJunk2 : string;
  specialJunk3 : string;
  specialJunk4 : string;
  specialJunk5 : string;
  headerProtectionKey : string;
  contentPaddingAddition : string;
  rekeyAfterTime : string;
  rekeyTimeout : string;
  rejectAfterTime : string;
  keepaliveTimeout : string;
  maxHandshakeAttempts : string;
  isThirdPartyConfig : bool;
}.

Definition toJson (c : AwgServerConfig) : gmap string json :=
  object [
    text_member "port" (port c);
    text_member "transport_proto" (transportProto c);
    text_member "protocol_version" (protocolVersion c);
    text_member "subnet_address" (subnetAddress c);
    text_member "subnet_cidr" (subnetCidr c);
    text_member "Jc" (junkPacketCount c);
    text_member "Jmin" (junkPacketMinSize c);
    text_member "Jmax" (junkPacketMaxSize c);
    text_member "S1" (initPacketJunkSize c);
    text_member "S2" (responsePacketJunkSize c);
    text_member "S3" (cookieReplyPacketJunkSize c);
    text_member "S4" (transportPacketJunkSize c);
    text_member "H1" (initPacketMagicHeader c);
    text_member "H2" (responsePacketMagicHeader c);
    text_member "H3" (underloadPacketMagicHeader c);
    text_member "H4" (transportPacketMagicHeader c);
    member "I1" (JString (specialJunk1 c));
    member "I2" (JString (specialJunk2 c));
    member "I3" (JString (specialJunk3 c));
    member "I4" (JString (specialJunk4 c));
    member "I5" (JString (specialJunk5 c));
    text_member "HeaderProtectionKey" (headerProtectionKey c);
    text_member "ContentPaddingAddition" (contentPaddingAddition c);
    text_member "RekeyAfterTime" (rekeyAfterTime c);
    text_member "RekeyTimeout" (rekeyTimeout c);
    text_member "RejectAfterTime" (rejectAfterTime c);
    text_member "KeepaliveTimeout" (keepaliveTimeout c);
    text_member "MaxHandshakeAttempts" (maxHandshakeAttempts c);
    flag_member "isThirdPartyConfig" (isThirdPartyConfig c)
  ].

Definition fromJson (json : gmap string json) : AwgServerConfig := {|
  port := text json "port";
  transportProto := text json "transport_proto";
  protocolVersion := text json "protocol_version";
  subnetAddress := text json "subnet_address";
  subnetCidr := text json "subnet_cidr";
  junkPacketCount := text json "Jc";
  junkPacketMinSize := text json "Jmin";
  junkPacketMaxSize := text json "Jmax";
  initPacketJunkSize := text json "S1";
  responsePacketJunkSize := text json "S2";
  cookieReplyPacketJunkSize := text json "S3";
  transportPacketJunkSize := text json "S4";
  initPacketMagicHeader := text json "H1";
  responsePacketMagicHeader := text json "H2";
  underloadPacketMagicHeader := text json "H3";
  transportPacketMagicHeader := text json "H4";
  specialJunk1 := text json "I1";
  specialJunk2 := text json "I2";
  specialJunk3 := text json "I3";
  specialJunk4 := text json "I4";
  specialJunk5 := text json "I5";
  headerProtectionKey := text json "HeaderProtectionKey";
  contentPaddingAddition := text json "ContentPaddingAddition";
  rekeyAfterTime := text json "RekeyAfterTime";
  rekeyTimeout := text json "RekeyTimeout";
  rejectAfterTime := text json "RejectAfterTime";
  keepaliveTimeout := text json "KeepaliveTimeout";
  maxHandshakeAttempts := text json "MaxHandshakeAttempts";
  isThirdPartyConfig := toBool_or false (value json "isThirdPartyConfig");
|}.

Definition hasEqualServerSettings (c other : AwgServerConfig) : bool :=
  forallb (λ f, String.eqb (f c) (f other))
    [subnetAddress; port; junkPacketCount; junkPacketMinSize; junkPacketMaxSize; initPacketJunkSize;
     responsePacketJunkSize; initPacketMagicHeader; responsePacketMagicHeader; underloadPacketMagicHeader;
     transportPacketMagicHeader; specialJunk1; specialJunk2; specialJunk3; specialJunk4; specialJunk5;
     headerProtectionKey] &&
  (if String.eqb (protocolVersion c) "2" then
     String.eqb (cookieReplyPacketJunkSize c) (cookieReplyPacketJunkSize other) &&
     String.eqb (transportPacketJunkSize c) (transportPacketJunkSize other)
   else true).
End AwgServerConfig.
Abbreviation AwgServerConfig := AwgServerConfig.AwgServerConfig.

Module AwgClientConfig.
Record AwgClientConfig := mk {
  nativeConfig : string;
  hostName : string;
  port : Z;
  clientIp : string;
  clientPrivateKey : string;
  clientPublicKey : string;
  serverPublicKey : string;
  presharedKey : string;
  clientId : string;
  allowedIps : list string;
  persistentKeepAlive : string;
  mtu : string;
  junkPacketCount : string;
  junkPacketMinSize : string;
  junkPacketMaxSize : string;
  initPacketJunkSize : string;
  responsePacketJunkSize : string;
  cookieReplyPacketJunkSize : string;
  transportPacketJunkSize : string;
  initPacketMagicHeader : string;
  responsePacketMagicHeader : string;
  underloadPacketMagicHeader : string;
  transportPacketMagicHeader : string;
  specialJunk1 : string;
  specialJunk2 : string;
  specialJunk3 : string;
  specialJunk4 : string;
  specialJunk5 : string;
  headerProtectionKey : string;
  contentPaddingAddition : string;
  rekeyAfterTime : string;
  rekeyTimeout : string;
  rejectAfterTime : string;
  keepaliveTimeout : string;
  maxHandshakeAttempts : string;
  isObfuscationEnabled : bool;
}.

Definition toJson (c : AwgClientConfig) : gmap string json :=
  object [
    text_member "config" (nativeConfig c);
    text_member "hostName" (hostName c);
    positive_member "port" (port c);
    text_member "client_ip" (clientIp c);
    text_member "client_priv_key" (clientPrivateKey c);
    text_member "client_pub_key" (clientPublicKey c);
    text_member "server_pub_key" (serverPublicKey c);
    text_member "psk_key" (presharedKey c);
    text_member "clientId" (clientId c);
    list_member "allowed_ips" (allowedIps c);
    text_member "persistent_keep_alive" (persistentKeepAlive c);
    text_member "mtu" (mtu c);
    text_member "Jc" (junkPacketCount c);
    text_member "Jmin" (junkPacketMinSize c);
    text_member "Jmax" (junkPacketMaxSize c);
    text_member "S1" (initPacketJunkSize c);
    text_member "S2" (responsePacketJunkSize c);
    text_member "S3" (cookieReplyPacketJunkSize c);
    text_member "S4" (transportPacketJunkSize c);
    text_member "H1" (initPacketMagicHeader c);
    text_member "H2" (responsePacketMagicHeader c);
    text_member "H3" (underloadPacketMagicHeader c);
    text_member "H4" (transportPacketMagicHeader c);
    text_member "I1" (specialJunk1 c);
    text_member "I2" (specialJunk2 c);
    text_member "I3" (specialJunk3 c);
    text_member "I4" (specialJunk4 c);
    text_member "I5" (specialJunk5 c);
    text_member "HeaderProtectionKey" (headerProtectionKey c);
    text_member "ContentPaddingAddition" (contentPaddingAddition c);
    text_member "RekeyAfterTime" (rekeyAfterTime c);
    text_member "RekeyTimeout" (rekeyTimeout c);
    text_member "RejectAfterTime" (rejectAfterTime c);
    text_member "KeepaliveTimeout" (keepaliveTimeout c);
    text_member "MaxHandshakeAttempts" (maxHandshakeAttempts c);
    flag_member "isObfuscationEnabled" (isObfuscationEnabled c)
  ].

Definition fromJson (json : gmap string json) : AwgClientConfig := {|
  nativeConfig := text json "config";
  hostName := text json "hostName";
  port := toInt (value json "port");
  clientIp := text json "client_ip";
  clientPrivateKey := text json "client_priv_key";
  clientPublicKey := text json "client_pub_key";
  serverPublicKey := text json "server_pub_key";
  presharedKey := text json "psk_key";
  clientId := text json "clientId";
  allowedIps := strings_of (value json "allowed_ips");
  persistentKeepAlive := text json "persistent_keep_alive";
  mtu := text json "mtu";
  junkPacketCount := text json "Jc";
  junkPacketMinSize := text json "Jmin";
  junkPacketMaxSize := text json "Jmax";
  initPacketJunkSize := text json "S1";
  responsePacketJunkSize := text json "S2";
  cookieReplyPacketJunkSize := text json "S3";
  transportPacketJunkSize := text json "S4";
  initPacketMagicHeader := text json "H1";
  responsePacketMagicHeader := text json "H2";
  underloadPacketMagicHeader := text json "H3";
  transportPacketMagicHeader := text json "H4";
  specialJunk1 := text json "I1";
  specialJunk2 := text json "I2";
  specialJunk3 := text json "I3";
  specialJunk4 := text json "I4";
  specialJunk5 := text json "I5";
  headerProtectionKey := text json "HeaderProtectionKey";
  contentPaddingAddition := text json "ContentPaddingAddition";
  rekeyAfterTime := text json "RekeyAfterTime";
  rekeyTimeout := text json "RekeyTimeout";
  rejectAfterTime := text json "RejectAfterTime";
  keepaliveTimeout := text json "KeepaliveTimeout";
  maxHandshakeAttempts := text json "MaxHandshakeAttempts";
  isObfuscationEnabled := toBool_or false (value json "isObfuscationEnabled");
|}.
End AwgClientConfig.
Abbreviation AwgClientConfig := AwgClientConfig.AwgClientConfig.

Module WireGuardServerConfig.
Record WireGuardServerConfig := mk {
  port : string;
  transportProto : string;
  subnetAddress : string;
  subnetMask : string;
  subnetCidr : string;
  isThirdPartyConfig : bool;
}.

Definition toJson (c : WireGuardServerConfig) : gmap string json :=
  object [
    text_member "port" (port c);
    text_member "transport_proto" (transportProto c);
    text_member "subnet_address" (subnetAddress c);
    text_member "subnet_mask" (subnetMask c);
    text_member "subnet_cidr" (subnetCidr c);
    flag_member "isThirdPartyConfig" (isThirdPartyConfig c)
  ].

Definition fromJson (json : gmap string json) : WireGuardServerConfig := {|
  port := text json "port";
  transportProto := text json "transport_proto";
  subnetAddress := text json "subnet_address";
  subnetMask := text json "subnet_mask";
  subnetCidr := text json "subnet_cidr";
  isThirdPartyConfig := toBool_or false (value json "isThirdPartyConfig");
|}.

Definition hasEqualServerSettings (c other : WireGuardServerConfig) : bool :=
  String.eqb (subnetAddress c) (subnetAddress other) && String.eqb (port c) (port other).
End WireGuardServerConfig.
Abbreviation WireGuardServerConfig := WireGuardServerConfig.WireGuardServerConfig.

Module WireGuardClientConfig.
Record WireGuardClientConfig := mk {
  nativeConfig : string;
  hostName : string;
  port : Z;
  clientIp : string;
  clientPrivateKey : string;
  clientPublicKey : string;
  serverPublicKey : string;
  presharedKey : string;
  clientId : string;
  allowedIps : list string;
  persistentKeepAlive : string;
  mtu : string;
  isObfuscationEnabled : bool;
}.

Definition toJson (c : WireGuardClientConfig) : gmap string json :=
  object [
    text_member "config" (nativeConfig c);
    text_member "hostName" (hostName c);
    positive_member "port" (port c);
    text_member "client_ip" (clientIp c);
    text_member "client_priv_key" (clientPrivateKey c);
    text_member "client_pub_key" (clientPublicKey c);
    text_member "server_pub_key" (serverPublicKey c);
    text_member "psk_key" (presharedKey c);
    text_member "clientId" (clientId c);
    list_member "allowed_ips" (allowedIps c);
    text_member "persistent_keep_alive" (persistentKeepAlive c);
    text_member "mtu" (mtu c);
    flag_member "isObfuscationEnabled" (isObfuscationEnabled c)
  ].

Definition fromJson (json : gmap string json) : WireGuardClientConfig := {|
  nativeConfig := text json "config";
  hostName := text json "hostName";
  port := toInt (value json "port");
  clientIp := text json "client_ip";
  clientPrivateKey := text json "client_priv_key";
  clientPublicKey := text json "client_pub_key";
  serverPublicKey := text json "server_pub_key";
  presharedKey := text json "psk_key";
  clientId := text json "clientId";
  allowedIps := strings_of (value json "allowed_ips");
  persistentKeepAlive := text json "persistent_keep_alive";
  mtu := text json "mtu";
  isObfuscationEnabled := toBool_or false (value json "isObfuscationEnabled");
|}.
End WireGuardClientConfig.
Abbreviation WireGuardClientConfig := WireGuardClientConfig.WireGuardClientConfig.

Module OpenVpnServerConfig.
Record OpenVpnServerConfig := mk {
  port : string;
  transportProto : string;
  subnetAddress : string;
  subnetMask : string;
  subnetCidr : string;
  cipher : string;
  hash : string;
  ncpDisable : bool;
  tlsAuth : bool;
  additionalClientConfig : string;
  additionalServerConfig : string;
  isThirdPartyConfig : bool;
}.

Definition toJson (c : OpenVpnServerConfig) : gmap string json :=
  object [
    text_member "port" (port c);
    text_member "transport_proto" (transportProto c);
    text_member "subnet_address" (subnetAddress c);
    text_member "subnet_mask" (subnetMask c);
    text_member "subnet_cidr" (subnetCidr c);
    text_member "cipher" (cipher c);
    text_member "hash" (hash c);
    flag_member "ncp_disable" (ncpDisable c);
    ("tls_auth", if tlsAuth c then None else Some (JBool (tlsAuth c)));
    text_member "additional_client_config" (additionalClientConfig c);
    text_member "additional_server_config" (additionalServerConfig c);
    flag_member "isThirdPartyConfig" (isThirdPartyConfig c)
  ].

Definition fromJson (json : gmap string json) : OpenVpnServerConfig := {|
  port := text json "port";
  transportProto := text json "transport_proto";
  subnetAddress := text json "subnet_address";
  subnetMask := text json "subnet_mask";
  subnetCidr := text json "subnet_cidr";
  cipher := text json "cipher";
  hash := text json "hash";
  ncpDisable := toBool_or false (value json "ncp_disable");
  tlsAuth := toBool_or true (value json "tls_auth");
  additionalClientConfig := text json "additional_client_config";
  additionalServerConfig := text json "additional_server_config";
  isThirdPartyConfig := toBool_or false (value json "isThirdPartyConfig");
|}.

Definition hasEqualServerSettings (c other : OpenVpnServerConfig) : bool :=
  String.eqb (subnetAddress c) (subnetAddress other) && String.eqb (port c) (port other) &&
  String.eqb (transportProto c) (transportProto other) && String.eqb (cipher c) (cipher other) &&
  String.eqb (hash c) (hash other) && Bool.eqb (ncpDisable c) (ncpDisable other) &&
  Bool.eqb (tlsAuth c) (tlsAuth other) && String.eqb (additionalServerConfig c) (additionalServerConfig other).
End OpenVpnServerConfig.
Abbreviation OpenVpnServerConfig := OpenVpnServerConfig.OpenVpnServerConfig.

Module OpenVpnClientConfig.
Record OpenVpnClientConfig := mk {
  nativeConfig : string;
  clientId : string;
  blockOutsideDns : bool;
}.

Definition toJson (c : OpenVpnClientConfig) : gmap string json :=
  object [
    text_member "config" (nativeConfig c);
    text_member "clientId" (clientId c);
    member "block_outside_dns" (JBool (blockOutsideDns c))
  ].

Definition fromJson (json : gmap string json) : OpenVpnClientConfig := {|
  nativeConfig := text json "config";
  clientId := text json "clientId";
  blockOutsideDns := toBool_or false (value json "block_outside_dns");
|}.
End OpenVpnClientConfig.
Abbreviation OpenVpnClientConfig := OpenVpnClientConfig.OpenVpnClientConfig.

Module Ikev2ServerConfig.
Record Ikev2ServerConfig := mk {
  hostName : string;
  isThirdPartyConfig : bool;
}.

Definition toJson (c : Ikev2ServerConfig) : gmap string json :=
  object [
    text_member "hostName" (hostName c);
    flag_member "isThirdPartyConfig" (isThirdPartyConfig c)
  ].

Definition fromJson (json : gmap string json) : Ikev2ServerConfig := {|
  hostName := text json "hostName";
  isThirdPartyConfig := toBool_or false (value json "isThirdPartyConfig");
|}.
End Ikev2ServerConfig.
Abbreviation Ikev2ServerConfig := Ikev2ServerConfig.Ikev2ServerConfig.

Module Ikev2ClientConfig.
Record Ikev2ClientConfig := mk {
  nativeConfig : string;
  hostName : string;
  userName : string;
  cert : string;
  password : string;
  clientId : string;
}.

Definition toJson (c : Ikev2ClientConfig) : gmap string json :=
  object [
    text_member "config" (nativeConfig c);
    text_member "hostName" (hostName c);
    text_member "userName" (userName c);
    text_member "cert" (cert c);
    text_member "password" (password c);
    text_member "clientId" (clientId c)
  ].

Definition fromJson (json : gmap string json) : Ikev2ClientConfig := {|
  nativeConfig := text json "config";
  hostName := text json "hostName";
  userName := text json "userName";
  cert := text json "cert";
  password := text json "password";
  clientId := text json "clientId";
|}.
End Ikev2ClientConfig.
Abbreviation Ikev2ClientConfig := Ikev2ClientConfig.Ikev2ClientConfig.

Module TorServerConfig.
Record TorServerConfig := mk {
  site : string;
}.

Definition toJson (c : TorServerConfig) : gmap string json :=
  object [
    text_member "site" (site c)
  ].

Definition fromJson (json : gmap string json) : TorServerConfig := {|
  site := text json "site";
|}.
End TorServerConfig.
Abbreviation TorServerConfig := TorServerConfig.TorServerConfig.

Module Socks5ProxyProtocolConfig.
Record Socks5ProxyProtocolConfig := mk {
  port : string;
  userName : string;
  password : string;
}.

Definition toJson (c : Socks5ProxyProtocolConfig) : gmap string json :=
  object [
    text_member "port" (port c);
    text_member "userName" (userName c);
    text_member "password" (password c)
  ].

Definition fromJson (json : gmap string json) : Socks5ProxyProtocolConfig := {|
  port := text json "port";
  userName := text json "userName";
  password := text json "password";
|}.
End Socks5ProxyProtocolConfig.
Abbreviation Socks5ProxyProtocolConfig := Socks5ProxyProtocolConfig.Socks5ProxyProtocolConfig.

Module SftpProtocolConfig.
Record SftpProtocolConfig := mk {
  port : string;
  userName : string;
  password : string;
}.

Definition toJson (c : SftpProtocolConfig) : gmap string json :=
  object [
    text_member "port" (port c);
    text_member "userName" (userName c);
    text_member "password" (password c)
  ].

Definition fromJson (json : gmap string json) : SftpProtocolConfig := {|
  port := text json "port";
  userName := text json "userName";
  password := text json "password";
|}.
End SftpProtocolConfig.
Abbreviation SftpProtocolConfig := SftpProtocolConfig.SftpProtocolConfig.

Module MtProxyProtocolConfig.
Record MtProxyProtocolConfig := mk {
  port : string;
  secret : string;
  tag : string;
  tgLink : string;
  tmeLink : string;
  isEnabled : bool;
  publicHost : string;
  transportMode : string;
  tlsDomain : string;
  additionalSecrets : list string;
  workersMode : string;
  workers : string;
  natEnabled : bool;
  natInternalIp : string;
  natExternalIp : string;
}.

Definition toJson (c : MtProxyProtocolConfig) : gmap string json :=
  object [
    text_member "port" (port c);
    text_member "mtproxy_secret" (secret c);
    text_member "mtproxy_tag" (tag c);
    text_member "mtproxy_tg_link" (tgLink c);
    text_member "mtproxy_tme_link" (tmeLink c);
    member "mtproxy_is_enabled" (JBool (isEnabled c));
    text_member "mtproxy_public_host" (publicHost c);
    text_member "mtproxy_transport_mode" (transportMode c);
    text_member "mtproxy_tls_domain" (tlsDomain c);
    list_member "mtproxy_additional_secrets" (additionalSecrets c);
    text_member "mtproxy_workers_mode" (workersMode c);
    text_member "mtproxy_workers" (workers c);
    member "mtproxy_nat_enabled" (JBool (natEnabled c));
    text_member "mtproxy_nat_internal_ip" (natInternalIp c);
    text_member "mtproxy_nat_external_ip" (natExternalIp c)
  ].

Definition fromJson (json : gmap string json) : MtProxyProtocolConfig := {|
  port := text json "port";
  secret := text json "mtproxy_secret";
  tag := text json "mtproxy_tag";
  tgLink := text json "mtproxy_tg_link";
  tmeLink := text json "mtproxy_tme_link";
  isEnabled := toBool_or true (value json "mtproxy_is_enabled");
  publicHost := text json "mtproxy_public_host";
  transportMode := text json "mtproxy_transport_mode";
  tlsDomain := text json "mtproxy_tls_domain";
  additionalSecrets := nonempty (strings_of (value json "mtproxy_additional_secrets"));
  workersMode := text json "mtproxy_workers_mode";
  workers := text json "mtproxy_workers";
  natEnabled := toBool_or false (value json "mtproxy_nat_enabled");
  natInternalIp := text json "mtproxy_nat_internal_ip";
  natExternalIp := text json "mtproxy_nat_external_ip";
|}.

Definition normPort (p : string) : string := if String.eqb p "" then "443" else p.
Definition normTransport (t : string) : string := if String.eqb t "" then "standard" else t.
Definition normWorkersMode (m : string) : string := if String.eqb m "" then "auto" else m.

Definition equalsDockerDeploymentSettings (c other : MtProxyProtocolConfig) : bool :=
  String.eqb (normPort (port c)) (normPort (port other)) &&
  String.eqb (normTransport (transportMode c)) (normTransport (transportMode other)) &&
  String.eqb (tlsDomain c) (tlsDomain other) && String.eqb (secret c) (secret other) &&
  String.eqb (tag c) (tag other) && String.eqb (publicHost c) (publicHost other) &&
  String.eqb (normWorkersMode (workersMode c)) (normWorkersMode (workersMode other)) &&
  String.eqb (workers c) (workers other) && Bool.eqb (natEnabled c) (natEnabled other) &&
  String.eqb (natInternalIp c) (natInternalIp other) && String.eqb (natExternalIp c) (natExternalIp other) &&
  Bool.eqb (isEnabled c) (isEnabled other) &&
  bool_decide (sorted_secrets (additionalSecrets c) = sorted_secrets (additionalSecrets other)).
End MtProxyProtocolConfig.
Abbreviation MtProxyProtocolConfig := MtProxyProtocolConfig.MtProxyProtocolConfig.

Module TelemtProtocolConfig.
Record TelemtProtocolConfig := mk {
  port : string;
  secret : string;
  tag : string;
  tgLink : string;
  tmeLink : string;
  isEnabled : bool;
  publicHost : string;
  transportMode : string;
  tlsDomain : string;
  maskEnabled : bool;
  tlsEmulation : bool;
  useMiddleProxy : bool;
  userName : string;
  additionalSecrets : list string;
  workersMode : string;
  workers : string;
  natEnabled : bool;
  natInternalIp : string;
  natExternalIp : string;
}.

Definition toJson (c : TelemtProtocolConfig) : gmap string json :=
  object [
    text_member "port" (port c);
    text_member "telemt_secret" (secret c);
    text_member "telemt_tag" (tag c);
    text_member "telemt_tg_link" (tgLink c);
    text_member "telemt_tme_link" (tmeLink c);
    member "telemt_is_enabled" (JBool (isEnabled c));
    text_member "telemt_public_host" (publicHost c);
    text_member "telemt_transport_mode" (transportMode c);
    text_member "telemt_tls_domain" (tlsDomain c);
    member "telemt_mask_enabled" (JBool (maskEnabled c));
    member "telemt_tls_emulation" (JBool (tlsEmulation c));
    member "telemt_use_middle_proxy" (JBool (useMiddleProxy c));
    text_member "telemt_user_name" (userName c);
    list_member "telemt_additional_secrets" (additionalSecrets c);
    text_member "telemt_workers_mode" (workersMode c);
    text_member "telemt_workers" (workers c);
    member "telemt_nat_enabled" (JBool (natEnabled c));
    text_member "telemt_nat_internal_ip" (natInternalIp c);
    text_member "telemt_nat_external_ip" (natExternalIp c)
  ].

Definition fromJson (json : gmap string json) : TelemtProtocolConfig := {|
  port := text json "port";
  secret := text json "telemt_secret";
  tag := text json "telemt_tag";
  tgLink := text json "telemt_tg_link";
  tmeLink := text json "telemt_tme_link";
  isEnabled := toBool_or true (value json "telemt_is_enabled");
  publicHost := text json "telemt_public_host";
  transportMode := text json "telemt_transport_mode";
  tlsDomain := text json "telemt_tls_domain";
  maskEnabled := toBool_or true (value json "telemt_mask_enabled");
  tlsEmulation := toBool_or false (value json "telemt_tls_emulation");
  useMiddleProxy := toBool_or true (value json "telemt_use_middle_proxy");
  userName := text json "telemt_user_name";
  additionalSecrets := nonempty (strings_of (value json "telemt_additional_secrets"));
  workersMode := text json "telemt_workers_mode";
  workers := text json "telemt_workers";
  natEnabled := toBool_or false (value json "telemt_nat_enabled");
  natInternalIp := text json "telemt_nat_internal_ip";
  natExternalIp := text json "telemt_nat_external_ip";
|}.

Definition normPort (p : string) : string := if String.eqb p "" then "443" else p.
Definition normTransport (t : string) : string := if String.eqb t "" then "standard" else t.
Definition normWorkersMode (m : string) : string := if String.eqb m "" then "auto" else m.

Definition equalsDockerDeploymentSettings (c other : TelemtProtocolConfig) : bool :=
  String.eqb (normPort (port c)) (normPort (port other)) &&
  String.eqb (normTransport (transportMode c)) (normTransport (transportMode other)) &&
  String.eqb (tlsDomain c) (tlsDomain other) && String.eqb (secret c) (secret other) &&
  String.eqb (tag c) (tag other) && String.eqb (publicHost c) (publicHost other) &&
  Bool.eqb (maskEnabled c) (maskEnabled other) && Bool.eqb (tlsEmulation c) (tlsEmulation other) &&
  Bool.eqb (useMiddleProxy c) (useMiddleProxy other) && String.eqb (userName c) (userName other) &&
  String.eqb (normWorkersMode (workersMode c)) (normWorkersMode (workersMode other)) &&
  String.eqb (workers c) (workers other) && Bool.eqb (natEnabled c) (natEnabled other) &&
  String.eqb (natInternalIp c) (natInternalIp other) && String.eqb (natExternalIp c) (natExternalIp other) &&
  Bool.eqb (isEnabled c) (isEnabled other) &&
  bool_decide (sorted_secrets (additionalSecrets c) = sorted_secrets (additionalSecrets other)).
End TelemtProtocolConfig.
Abbreviation TelemtProtocolConfig := TelemtProtocolConfig.TelemtProtocolConfig.

Module DnsProtocolConfig.
Inductive DnsProtocolConfig := mk.

Definition toJson (_ : DnsProtocolConfig) : gmap string json := ∅.
Definition fromJson (_ : gmap string json) : DnsProtocolConfig := mk.
End DnsProtocolConfig.
Abbreviation DnsProtocolConfig := DnsProtocolConfig.DnsProtocolConfig.

(** ** Server settings with an optional client configuration

    [AwgProtocolConfig], [WireGuardProtocolConfig], [OpenVpnProtocolConfig] and
    [Ikev2ProtocolConfig] have the same two fields and the same code: the
    client's settings are stored as a text, the JSON document, inside the
    server's. *)
Class Config (T : Type) := {
  to_json : T → gmap string json;
  from_json : gmap string json → T;
}.

#[export] Instance AwgServer_config : Config AwgServerConfig := {| to_json := AwgServerConfig.toJson; from_json := AwgServerConfig.fromJson |}.
#[export] Instance AwgClient_config : Config AwgClientConfig := {| to_json := AwgClientConfig.toJson; from_json := AwgClientConfig.fromJson |}.
#[export] Instance WireGuardServer_config : Config WireGuardServerConfig := {| to_json := WireGuardServerConfig.toJson; from_json := WireGuardServerConfig.fromJson |}.
#[export] Instance WireGuardClient_config : Config WireGuardClientConfig := {| to_json := WireGuardClientConfig.toJson; from_json := WireGuardClientConfig.fromJson |}.
#[export] Instance OpenVpnServer_config : Config OpenVpnServerConfig := {| to_json := OpenVpnServerConfig.toJson; from_json := OpenVpnServerConfig.fromJson |}.
#[export] Instance OpenVpnClient_config : Config OpenVpnClientConfig := {| to_json := OpenVpnClientConfig.toJson; from_json := OpenVpnClientConfig.fromJson |}.
#[export] Instance Ikev2Server_config : Config Ikev2ServerConfig := {| to_json := Ikev2ServerConfig.toJson; from_json := Ikev2ServerConfig.fromJson |}.
#[export] Instance Ikev2Client_config : Config Ikev2ClientConfig := {| to_json := Ikev2ClientConfig.toJson; from_json := Ikev2ClientConfig.fromJson |}.

Record WithClient (S C : Type) := mkWithClient {
  serverConfig : S;
  clientConfig : option C;
}.
Arguments mkWithClient {S C} _ _.
Arguments serverConfig {S C} _.
Arguments clientConfig {S C} _.

Section with_client.
Context {J : JsonCodec} {S C : Type} {CS : Config S} {CC : Config C}.

Definition with_client_toJson (c : WithClient S C) : gmap string json :=
  let obj := to_json (serverConfig c) in
  match clientConfig c with
  | Some client => <["last_config" := JString (toJson_compact (to_json client))]> obj
  | None => obj
  end.

(** [QJsonDocument::fromJson(lastConfigStr.toUtf8())], when it is an object. *)
Definition client_document (lastConfigStr : string) : option (gmap string json) :=
  if String.eqb lastConfigStr "" then None else
  match Wire.fromJson lastConfigStr with
  | Some (JObject o) => Some o
  | _ => None
  end.

Definition with_client_fromJson (json : gmap string json) : WithClient S C :=
  {| serverConfig := from_json json;
     clientConfig := from_json <$> client_document (text json "last_config") |}.

Definition hasClientConfig (c : WithClient S C) : bool := bool_decide (is_Some (clientConfig c)).
Definition setClientConfig (client : C) (c : WithClient S C) : WithClient S C :=
  mkWithClient (serverConfig c) (Some client).
Definition clearClientConfig (c : WithClient S C) : WithClient S C := mkWithClient (serverConfig c) None.
End with_client.

Definition AwgProtocolConfig := WithClient AwgServerConfig AwgClientConfig.
Definition WireGuardProtocolConfig := WithClient WireGuardServerConfig WireGuardClientConfig.
Definition OpenVpnProtocolConfig := WithClient OpenVpnServerConfig OpenVpnClientConfig.
Definition Ikev2ProtocolConfig := WithClient Ikev2ServerConfig Ikev2ClientConfig.

(** The sizes of AmneziaWG's messages. *)
Definition messageInitiationSize : Z := 148.
Definition messageResponseSize : Z := 92.
Definition messageCookieReplySize : Z := 64.
Definition messageTransportSize : Z := 32.

Definition isHeadersEqual (h1 h2 h3 h4 : string) : bool :=
  String.eqb h1 h2 || String.eqb h1 h3 || String.eqb h1 h4 || String.eqb h2 h3 || String.eqb h2 h4 ||
  String.eqb h3 h4.

Definition isPacketSizeEqual (s1 s2 s3 s4 : Z) : bool :=
  let initSize := messageInitiationSize + s1 in
  let responseSize := messageResponseSize + s2 in
  let cookieSize := messageCookieReplySize + s3 in
  let transportSize := messageTransportSize + s4 in
  (initSize =? responseSize) || (initSize =? cookieSize) || (initSize =? transportSize) ||
  (responseSize =? cookieSize) || (responseSize =? transportSize) || (cookieSize =? transportSize).

(** ** Laws of stored settings *)

(** [settled] are the values the JSON form can express. *)
Class ConfigLaws (T : Type) {CT : Config T} := {
  settled : T → Prop;
  roundtrip : ∀ c, settled c → from_json (to_json c) = c;
}.

(** The settings of a server leave the client's document alone. *)
Class ServerLaws (S : Type) {CS : Config S} := {
  reads_past_client : ∀ json v, from_json (<["last_config" := v]> json) = from_json json;
  writes_no_client : ∀ s, value (to_json s) "last_config" = None;
}.

Lemma text_insert_ne json k k' v : k ≠ k' → text (<[k := v]> json) k' = text json k'.
Proof. intros. unfold text, value. by rewrite lookup_insert_ne. Qed.
Lemma value_insert_ne (json : gmap string _) k k' v : k ≠ k' → value (<[k := v]> json) k' = value json k'.
Proof. intros. unfold value. by rewrite lookup_insert_ne. Qed.
Lemma text_insert_eq json k s : text (<[k := JString s]> json) k = s.
Proof. unfold text, value. by rewrite lookup_insert_eq. Qed.

(** A structure read from what it was written to, one field at a time. *)
Tactic Notation "stored" reference(reads) reference(writes) :=
  let c := fresh "c" in let H := fresh "H" in
  intros c H; destruct c; cbn -[object] in *; unfold reads, writes; cbn -[object]; read_fields;
  rewrite ?read_positive by done; try done; repeat case_match; done.
Tactic Notation "past_client" reference(reads) :=
  intros; cbn; unfold reads; repeat (rewrite text_insert_ne by done); repeat (rewrite value_insert_ne by done); reflexivity.
Tactic Notation "no_client" reference(writes) := intros []; cbn -[object]; unfold writes; by read_members.

#[export] Instance AwgServer_laws : ConfigLaws AwgServerConfig.
Proof. exists (λ _, True). stored AwgServerConfig.fromJson AwgServerConfig.toJson. Defined.
#[export] Instance AwgClient_laws : ConfigLaws AwgClientConfig.
Proof. exists (λ c, 0 ≤ AwgClientConfig.port c ≤ int_max). stored AwgClientConfig.fromJson AwgClientConfig.toJson. Defined.
#[export] Instance WireGuardServer_laws : ConfigLaws WireGuardServerConfig.
Proof. exists (λ _, True). stored WireGuardServerConfig.fromJson WireGuardServerConfig.toJson. Defined.
#[export] Instance WireGuardClient_laws : ConfigLaws WireGuardClientConfig.
Proof. exists (λ c, 0 ≤ WireGuardClientConfig.port c ≤ int_max). stored WireGuardClientConfig.fromJson WireGuardClientConfig.toJson. Defined.
#[export] Instance OpenVpnServer_laws : ConfigLaws OpenVpnServerConfig.
Proof. exists (λ _, True). stored OpenVpnServerConfig.fromJson OpenVpnServerConfig.toJson. Defined.
#[export] Instance OpenVpnClient_laws : ConfigLaws OpenVpnClientConfig.
Proof. exists (λ _, True). stored OpenVpnClientConfig.fromJson OpenVpnClientConfig.toJson. Defined.
#[export] Instance Ikev2Server_laws : ConfigLaws Ikev2ServerConfig.
Proof. exists (λ _, True). stored Ikev2ServerConfig.fromJson Ikev2ServerConfig.toJson. Defined.
#[export] Instance Ikev2Client_laws : ConfigLaws Ikev2ClientConfig.
Proof. exists (λ _, True). stored Ikev2ClientConfig.fromJson Ikev2ClientConfig.toJson. Defined.

#[export] Instance Awg_server_laws : ServerLaws AwgServerConfig.
Proof. split; [past_client AwgServerConfig.fromJson|no_client AwgServerConfig.toJson]. Qed.
#[export] Instance WireGuard_server_laws : ServerLaws WireGuardServerConfig.
Proof. split; [past_client WireGuardServerConfig.fromJson|no_client WireGuardServerConfig.toJson]. Qed.
#[export] Instance OpenVpn_server_laws : ServerLaws OpenVpnServerConfig.
Proof. split; [past_client OpenVpnServerConfig.fromJson|no_client OpenVpnServerConfig.toJson]. Qed.
#[export] Instance Ikev2_server_laws : ServerLaws Ikev2ServerConfig.
Proof. split; [past_client Ikev2ServerConfig.fromJson|no_client Ikev2ServerConfig.toJson]. Qed.

#[export] Instance MtProxy_config : Config MtProxyProtocolConfig := {| to_json := MtProxyProtocolConfig.toJson; from_json := MtProxyProtocolConfig.fromJson |}.
#[export] Instance Telemt_config : Config TelemtProtocolConfig := {| to_json := TelemtProtocolConfig.toJson; from_json := TelemtProtocolConfig.fromJson |}.
#[export] Instance Tor_config : Config TorServerConfig := {| to_json := TorServerConfig.toJson; from_json := TorServerConfig.fromJson |}.
#[export] Instance Sftp_config : Config SftpProtocolConfig := {| to_json := SftpProtocolConfig.toJson; from_json := SftpProtocolConfig.fromJson |}.
#[export] Instance Socks5Proxy_config : Config Socks5ProxyProtocolConfig := {| to_json := Socks5ProxyProtocolConfig.toJson; from_json := Socks5ProxyProtocolConfig.fromJson |}.
#[export] Instance Dns_config : Config DnsProtocolConfig := {| to_json := DnsProtocolConfig.toJson; from_json := DnsProtocolConfig.fromJson |}.

#[export] Instance Tor_laws : ConfigLaws TorServerConfig.
Proof. exists (λ _, True). stored TorServerConfig.fromJson TorServerConfig.toJson. Defined.
#[export] Instance Sftp_laws : ConfigLaws SftpProtocolConfig.
Proof. exists (λ _, True). stored SftpProtocolConfig.fromJson SftpProtocolConfig.toJson. Defined.
#[export] Instance Socks5Proxy_laws : ConfigLaws Socks5ProxyProtocolConfig.
Proof. exists (λ _, True). stored Socks5ProxyProtocolConfig.fromJson Socks5ProxyProtocolConfig.toJson. Defined.
#[export] Instance Dns_laws : ConfigLaws DnsProtocolConfig.
Proof. exists (λ _, True). by intros []. Defined.

(** What a proxy is read back as: the empty secrets are dropped. *)
Lemma MtProxy_reread c :
  MtProxyProtocolConfig.fromJson (MtProxyProtocolConfig.toJson c) =
  let '(MtProxyProtocolConfig.mk a1 a2 a3 a4 a5 a6 a7 a8 a9 l b1 b2 b3 b4 b5) := c in
  MtProxyProtocolConfig.mk a1 a2 a3 a4 a5 a6 a7 a8 a9 (nonempty l) b1 b2 b3 b4 b5.
Proof.
  destruct c. unfold MtProxyProtocolConfig.fromJson, MtProxyProtocolConfig.toJson. cbn -[object nonempty].
  by read_fields.
Qed.
Lemma Telemt_reread c :
  TelemtProtocolConfig.fromJson (TelemtProtocolConfig.toJson c) =
  let '(TelemtProtocolConfig.mk a1 a2 a3 a4 a5 a6 a7 a8 a9 d1 d2 d3 d4 l b1 b2 b3 b4 b5) := c in
  TelemtProtocolConfig.mk a1 a2 a3 a4 a5 a6 a7 a8 a9 d1 d2 d3 d4 (nonempty l) b1 b2 b3 b4 b5.
Proof.
  destruct c. unfold TelemtProtocolConfig.fromJson, TelemtProtocolConfig.toJson. cbn -[object nonempty].
  by read_fields.
Qed.

#[export] Instance MtProxy_laws : ConfigLaws MtProxyProtocolConfig.
Proof.
  exists (λ c, nonempty (MtProxyProtocolConfig.additionalSecrets c) = MtProxyProtocolConfig.additionalSecrets c).
  intros c Hc. unfold from_json, to_json, MtProxy_config. rewrite MtProxy_reread. destruct c. cbn -[nonempty] in *. by rewrite Hc.
Defined.
#[export] Instance Telemt_laws : ConfigLaws TelemtProtocolConfig.
Proof.
  exists (λ c, nonempty (TelemtProtocolConfig.additionalSecrets c) = TelemtProtocolConfig.additionalSecrets c).
  intros c Hc. unfold from_json, to_json, Telemt_config. rewrite Telemt_reread. destruct c. cbn -[nonempty] in *. by rewrite Hc.
Defined.

(** ** Settings that need the same deployment *)

(** The settings a proxy's container depends on, defaults filled in. *)
Definition MtProxy_deployment (c : MtProxyProtocolConfig) :=
  (MtProxyProtocolConfig.normPort (MtProxyProtocolConfig.port c),
   MtProxyProtocolConfig.normTransport (MtProxyProtocolConfig.transportMode c),
   MtProxyProtocolConfig.tlsDomain c, MtProxyProtocolConfig.secret c, MtProxyProtocolConfig.tag c,
   MtProxyProtocolConfig.publicHost c, MtProxyProtocolConfig.normWorkersMode (MtProxyProtocolConfig.workersMode c),
   MtProxyProtocolConfig.workers c, MtProxyProtocolConfig.natEnabled c, MtProxyProtocolConfig.natInternalIp c,
   MtProxyProtocolConfig.natExternalIp c, MtProxyProtocolConfig.isEnabled c).
Definition Telemt_deployment (c : TelemtProtocolConfig) :=
  (TelemtProtocolConfig.normPort (TelemtProtocolConfig.port c),
   TelemtProtocolConfig.normTransport (TelemtProtocolConfig.transportMode c),
   TelemtProtocolConfig.tlsDomain c, TelemtProtocolConfig.secret c, TelemtProtocolConfig.tag c,
   TelemtProtocolConfig.publicHost c, TelemtProtocolConfig.maskEnabled c, TelemtProtocolConfig.tlsEmulation c,
   TelemtProtocolConfig.useMiddleProxy c, TelemtProtocolConfig.userName c,
   TelemtProtocolConfig.normWorkersMode (TelemtProtocolConfig.workersMode c),
   TelemtProtocolConfig.workers c, TelemtProtocolConfig.natEnabled c, TelemtProtocolConfig.natInternalIp c,
   TelemtProtocolConfig.natExternalIp c, TelemtProtocolConfig.isEnabled c).

Lemma sorted_secrets_perm l k : sorted_secrets l = sorted_secrets k ↔ nonempty l ≡ₚ nonempty k.
Proof.
  unfold sorted_secrets. split; intros H.
  - rewrite <- (merge_sort_Permutation String.le (nonempty l)), H. apply merge_sort_Permutation.
  - apply (Sorted_unique String.le); try apply (Sorted_merge_sort String.le).
    by rewrite !merge_sort_Permutation.
Qed.

Ltac deployment_fields :=
  rewrite ?andb_true_iff, ?String.eqb_eq, ?eqb_true_iff, ?bool_decide_eq_true, ?sorted_secrets_perm;
  split; [intros; destruct_and!; split; [congruence|done]|intros [[=] ?]; split_and!; done].

Lemma MtProxy_equal c o :
  MtProxyProtocolConfig.equalsDockerDeploymentSettings c o = true ↔
  MtProxy_deployment c = MtProxy_deployment o ∧
  nonempty (MtProxyProtocolConfig.additionalSecrets c) ≡ₚ nonempty (MtProxyProtocolConfig.additionalSecrets o).
Proof. unfold MtProxyProtocolConfig.equalsDockerDeploymentSettings, MtProxy_deployment. deployment_fields. Qed.
Lemma Telemt_equal c o :
  TelemtProtocolConfig.equalsDockerDeploymentSettings c o = true ↔
  Telemt_deployment c = Telemt_deployment o ∧
  nonempty (TelemtProtocolConfig.additionalSecrets c) ≡ₚ nonempty (TelemtProtocolConfig.additionalSecrets o).
Proof. unfold TelemtProtocolConfig.equalsDockerDeploymentSettings, Telemt_deployment. deployment_fields. Qed.

(** The document of a client's settings, as [QJsonDocument] prints and reads it. *)
Record printed {J : JsonCodec} (o : gmap string json) : Prop := {
  printed_reads : Wire.fromJson (toJson_compact o) = Some (JObject o);
  printed_nonempty : toJson_compact o ≠ "";
}.

Section with_client_laws.
Context {J : JsonCodec} {S C : Type} {CS : Config S} {CC : Config C}.
Context {LS : ConfigLaws S} {LV : ServerLaws S} {LC : ConfigLaws C}.

(** The settings the JSON form can express. *)
Definition storable (c : WithClient S C) : Prop :=
  settled (serverConfig c) ∧ (∀ client, clientConfig c = Some client → settled client ∧ printed (to_json client)).

Lemma client_document_printed o : printed o → client_document (toJson_compact o) = Some o.
Proof.
  intros [Hr Hn]. unfold client_document. by rewrite (proj2 (String.eqb_neq _ _) Hn), Hr.
Qed.

Lemma with_client_roundtrip (c : WithClient S C) :
  storable c → with_client_fromJson (with_client_toJson c) = c.
Proof.
  destruct c as [s [client|]]; intros [Hs Hc]; unfold with_client_fromJson, with_client_toJson; cbn.
  - destruct (Hc client eq_refl) as [Hs' Hp].
    by rewrite text_insert_eq, client_document_printed, reads_past_client, roundtrip by done; cbn; rewrite roundtrip.
  - unfold text. by rewrite writes_no_client, roundtrip.
Qed.
End with_client_laws.

(** A codec for documents of one member, enough to run the components. *)
Definition single_print (o : gmap string json) : string :=
  match map_to_list o with
  | [(k, JString s)] => k +:+ "=" +:+ s
  | _ => "?"
  end.
Definition equals : Ascii.ascii := Ascii.ascii_of_nat 61.
Definition single_codec : JsonCodec := {|
  toJson_compact := single_print;
  Wire.fromJson s :=
    match split_char equals s with
    | [k; v] => Some (JObject {[ k := JString v ]})
    | _ => None
    end;
|}.

(** Settings of a protocol survive the application's storage: AmneziaWG's,
    WireGuard's, OpenVPN's and IKEv2's server settings with the client's
    document inside them (a client's port being no negative number), and the
    proxies' up to the empty secrets, which are dropped. *)
Theorem settings_roundtrip {J : JsonCodec} :
  (∀ c : AwgProtocolConfig, storable c → with_client_fromJson (with_client_toJson c) = c) ∧
  (∀ c : WireGuardProtocolConfig, storable c → with_client_fromJson (with_client_toJson c) = c) ∧
  (∀ c : OpenVpnProtocolConfig, storable c → with_client_fromJson (with_client_toJson c) = c) ∧
  (∀ c : Ikev2ProtocolConfig, storable c → with_client_fromJson (with_client_toJson c) = c) ∧
  (∀ c, MtProxyProtocolConfig.equalsDockerDeploymentSettings c
          (MtProxyProtocolConfig.fromJson (MtProxyProtocolConfig.toJson c)) = true) ∧
  (∀ c, TelemtProtocolConfig.equalsDockerDeploymentSettings c
          (TelemtProtocolConfig.fromJson (TelemtProtocolConfig.toJson c)) = true).
Proof.
  split_and!; try (intros c Hc; exact (with_client_roundtrip c Hc)).
  - intros c. rewrite MtProxy_equal, MtProxy_reread. destruct c.
    split; [reflexivity|]. cbn [MtProxyProtocolConfig.additionalSecrets]. by rewrite nonempty_idemp.
  - intros c. rewrite Telemt_equal, Telemt_reread. destruct c.
    split; [reflexivity|]. cbn [TelemtProtocolConfig.additionalSecrets]. by rewrite nonempty_idemp.
Qed.

Definition sample_ikev2 : Ikev2ProtocolConfig :=
  mkWithClient (Ikev2ServerConfig.mk "example.org" true)
    (Some (Ikev2ClientConfig.mk "" "" "" "" "" "client 7")).

Lemma settings_roundtrip_witness :
  let _ := single_codec in
  storable sample_ikev2 ∧ with_client_fromJson (with_client_toJson sample_ikev2) = sample_ikev2.
Proof.
  assert (@storable single_codec _ _ _ _ _ _ sample_ikev2) as H.
  { split; [exact I|]. intros client [= <-]. split; [exact I|]. split; [vm_compute; reflexivity|vm_compute; discriminate]. }
  split; [exact H|]. apply (proj1 (proj2 (proj2 (proj2 (@settings_roundtrip single_codec)))) sample_ikev2 H).
Defined.

(** The comparisons that decide whether a proxy's container is deployed again
    are equivalences: they compare the settings with their defaults filled in,
    and the additional secrets as a collection, whatever their order. *)
Theorem deployment_equivalence :
  (∀ c o, MtProxyProtocolConfig.equalsDockerDeploymentSettings c o = true ↔
     MtProxy_deployment c = MtProxy_deployment o ∧
     nonempty (MtProxyProtocolConfig.additionalSecrets c) ≡ₚ nonempty (MtProxyProtocolConfig.additionalSecrets o)) ∧
  Equivalence (λ c o, MtProxyProtocolConfig.equalsDockerDeploymentSettings c o = true) ∧
  (∀ c o, TelemtProtocolConfig.equalsDockerDeploymentSettings c o = true ↔
     Telemt_deployment c = Telemt_deployment o ∧
     nonempty (TelemtProtocolConfig.additionalSecrets c) ≡ₚ nonempty (TelemtProtocolConfig.additionalSecrets o)) ∧
  Equivalence (λ c o, TelemtProtocolConfig.equalsDockerDeploymentSettings c o = true).
Proof.
  split_and!; [apply MtProxy_equal| |apply Telemt_equal|]; split.
  - intros c. by apply MtProxy_equal.
  - intros c o. rewrite !MtProxy_equal. by intros [-> ->].
  - intros a b c. rewrite !MtProxy_equal. intros [-> ->] [-> ->]. done.
  - intros c. by apply Telemt_equal.
  - intros c o. rewrite !Telemt_equal. by intros [-> ->].
  - intros a b c. rewrite !Telemt_equal. intros [-> ->] [-> ->]. done.
Qed.

(** The tests for AmneziaWG's parameters answer exactly when two of the four
    magic headers, or two of the four padded message sizes, coincide. *)
Theorem awg_parameters_distinct :
  (∀ h1 h2 h3 h4, isHeadersEqual h1 h2 h3 h4 = false ↔ NoDup [h1; h2; h3; h4]) ∧
  (∀ s1 s2 s3 s4, isPacketSizeEqual s1 s2 s3 s4 = false ↔
     NoDup [messageInitiationSize + s1; messageResponseSize + s2; messageCookieReplySize + s3;
            messageTransportSize + s4]).
Proof.
  split; intros; unfold isHeadersEqual, isPacketSizeEqual;
    rewrite !orb_false_iff, ?String.eqb_neq, ?Z.eqb_neq, !NoDup_cons, !not_elem_of_cons;
    split; intros; destruct_and?; split_and!; try done; try apply not_elem_of_nil; try apply NoDup_nil_2.
Qed.

(** Whether AmneziaWG's server settings are equal depends on the side asked:
    only the version of the first one decides whether the sizes of cookie and
    transport packets count, and the version itself never does. *)
Theorem awg_equality_one_sided :
  ∃ c o, AwgServerConfig.hasEqualServerSettings c o = true ∧
         AwgServerConfig.hasEqualServerSettings o c = false ∧
         AwgServerConfig.protocolVersion c ≠ AwgServerConfig.protocolVersion o.
Proof.
  exists (AwgServerConfig.fromJson ∅), (AwgServerConfig.fromJson (object [text_member "protocol_version" "2"; text_member "S3" "20"])).
  split_and!; vm_compute; congruence.
Qed.
