(* ===== verification/XrayConfig.v ===== *)
(** * XrayConfig: the stored settings of XRay

    Models [client/core/models/protocols/xrayProtocolConfig.cpp]: the transport
    settings of a server, their JSON form, and the completion of a server's
    settings from the client's native document. *)
From S2P Require Import Prelude Text Json Wire ProtocolConfigs.
From stdpp Require Import pretty.

(** ** The structures *)

Module XrayXPaddingConfig.
Record XrayXPaddingConfig := mk {
  bytesMin : string;
  bytesMax : string;
  obfsMode : bool;
  key : string;
  header : string;
  placement : string;
  method : string;
}.

Definition toJson (c : XrayXPaddingConfig) : gmap string json :=
  object [
    text_member "xpadding_bytes_min" (bytesMin c);
    text_member "xpadding_bytes_max" (bytesMax c);
    member "xpadding_obfs_mode" (JBool (obfsMode c));
    text_member "xpadding_key" (key c);
    text_member "xpadding_header" (header c);
    text_member "xpadding_placement" (placement c);
    text_member "xpadding_method" (method c)
  ].

Definition fromJson (json : gmap string json) : XrayXPaddingConfig := {|
  bytesMin := text json "xpadding_bytes_min";
  bytesMax := text json "xpadding_bytes_max";
  obfsMode := toBool_or true (value json "xpadding_obfs_mode");
  key := text json "xpadding_key";
  header := text json "xpadding_header";
  placement := toString_or "Cookie" (value json "xpadding_placement");
  method := toString_or "Repeat-x" (value json "xpadding_method");
|}.
Definition initial : XrayXPaddingConfig := mk "" "" true "" "" "Cookie" "Repeat-x".
End XrayXPaddingConfig.
Abbreviation XrayXPaddingConfig := XrayXPaddingConfig.XrayXPaddingConfig.

Module XrayXmuxConfig.
Record XrayXmuxConfig := mk {
  enabled : bool;
  maxConcurrencyMin : string;
  maxConcurrencyMax : string;
  maxConnectionsMin : string;
  maxConnectionsMax : string;
  cMaxReuseTimesMin : string;
  cMaxReuseTimesMax : string;
  hMaxRequestTimesMin : string;
  hMaxRequestTimesMax : string;
  hMaxReusableSecsMin : string;
  hMaxReusableSecsMax : string;
  hKeepAlivePeriod : string;
}.

Definition toJson (c : XrayXmuxConfig) : gmap string json :=
  object [
    member "xmux_enabled" (JBool (enabled c));
    text_member "xmux_max_concurrency_min" (maxConcurrencyMin c);
    text_member "xmux_max_concurrency_max" (maxConcurrencyMax c);
    text_member "xmux_max_connections_min" (maxConnectionsMin c);
    text_member "xmux_max_connections_max" (maxConnectionsMax c);
    text_member "xmux_c_max_reuse_times_min" (cMaxReuseTimesMin c);
    text_member "xmux_c_max_reuse_times_max" (cMaxReuseTimesMax c);
    text_member "xmux_h_max_request_times_min" (hMaxRequestTimesMin c);
    text_member "xmux_h_max_request_times_max" (hMaxRequestTimesMax c);
    text_member "xmux_h_max_reusable_secs_min" (hMaxReusableSecsMin c);
    text_member "xmux_h_max_reusable_secs_max" (hMaxReusableSecsMax c);
    text_member "xmux_h_keep_alive_period" (hKeepAlivePeriod c)
  ].

Definition fromJson (json : gmap string json) : XrayXmuxConfig := {|
  enabled := toBool_or true (value json "xmux_enabled");
  maxConcurrencyMin := toString_or "0" (value json "xmux_max_concurrency_min");
  maxConcurrencyMax := toString_or "0" (value json "xmux_max_concurrency_max");
  maxConnectionsMin := toString_or "0" (value json "xmux_max_connections_min");
  maxConnectionsMax := toString_or "0" (value json "xmux_max_connections_max");
  cMaxReuseTimesMin := toString_or "0" (value json "xmux_c_max_reuse_times_min");
  cMaxReuseTimesMax := toString_or "0" (value json "xmux_c_max_reuse_times_max");
  hMaxRequestTimesMin := toString_or "0" (value json "xmux_h_max_request_times_min");
  hMaxRequestTimesMax := toString_or "0" (value json "xmux_h_max_request_times_max");
  hMaxReusableSecsMin := toString_or "0" (value json "xmux_h_max_reusable_secs_min");
  hMaxReusableSecsMax := toString_or "0" (value json "xmux_h_max_reusable_secs_max");
  hKeepAlivePeriod := text json "xmux_h_keep_alive_period";
|}.
Definition initial : XrayXmuxConfig := mk true "0" "0" "0" "0" "0" "0" "0" "0" "0" "0" "".
End XrayXmuxConfig.
Abbreviation XrayXmuxConfig := XrayXmuxConfig.XrayXmuxConfig.

Module XrayXhttpConfig.
Record XrayXhttpConfig := mk {
  mode : string;
  host : string;
  path : string;
  headersTemplate : string;
  uplinkMethod : string;
  disableGrpc : bool;
  disableSse : bool;
  sessionPlacement : string;
  sessionKey : string;
  seqPlacement : string;
  seqKey : string;
  uplinkDataPlacement : string;
  uplinkDataKey : string;
  uplinkChunkSize : string;
  scMaxBufferedPosts : string;
  scMaxEachPostBytesMin : string;
  scMaxEachPostBytesMax : string;
  scMinPostsIntervalMsMin : string;
  scMinPostsIntervalMsMax : string;
  scStreamUpServerSecsMin : string;
  scStreamUpServerSecsMax : string;
  xPadding : XrayXPaddingConfig;
  xmux : XrayXmuxConfig;
}.

Definition toJson (c : XrayXhttpConfig) : gmap string json :=
  object [
    text_member "xhttp_mode" (mode c);
    text_member "xhttp_host" (host c);
    text_member "xhttp_path" (path c);
    text_member "xhttp_headers_template" (headersTemplate c);
    text_member "xhttp_uplink_method" (uplinkMethod c);
    member "xhttp_disable_grpc" (JBool (disableGrpc c));
    member "xhttp_disable_sse" (JBool (disableSse c));
    text_member "xhttp_session_placement" (sessionPlacement c);
    text_member "xhttp_session_key" (sessionKey c);
    text_member "xhttp_seq_placement" (seqPlacement c);
    text_member "xhttp_seq_key" (seqKey c);
    text_member "xhttp_uplink_data_placement" (uplinkDataPlacement c);
    text_member "xhttp_uplink_data_key" (uplinkDataKey c);
    text_member "xhttp_uplink_chunk_size" (uplinkChunkSize c);
    text_member "xhttp_sc_max_buffered_posts" (scMaxBufferedPosts c);
    text_member "xhttp_sc_max_each_post_bytes_min" (scMaxEachPostBytesMin c);
    text_member "xhttp_sc_max_each_post_bytes_max" (scMaxEachPostBytesMax c);
    text_member "xhttp_sc_min_posts_interval_ms_min" (scMinPostsIntervalMsMin c);
    text_member "xhttp_sc_min_posts_interval_ms_max" (scMinPostsIntervalMsMax c);
    text_member "xhttp_sc_stream_up_server_secs_min" (scStreamUpServerSecsMin c);
    text_member "xhttp_sc_stream_up_server_secs_max" (scStreamUpServerSecsMax c);
    member "xPadding" (JObject (XrayXPaddingConfig.toJson (xPadding c)));
    member "xmux" (JObject (XrayXmuxConfig.toJson (xmux c)))
  ].

Definition initial : XrayXhttpConfig :=
  mk "Auto" "www.googletagmanager.com" "" "HTTP" "POST" true true "Path" "Path" "Path" "" "Body" "" "0" ""
    "1" "100" "100" "800" "1" "100" XrayXPaddingConfig.initial XrayXmuxConfig.initial.

Definition clearedXhttpConfig : XrayXhttpConfig := {|
  mode := "";
  host := "";
  path := "";
  headersTemplate := "";
  uplinkMethod := "";
  disableGrpc := false;
  disableSse := false;
  sessionPlacement := "";
  sessionKey := "";
  seqPlacement := "";
  seqKey := "";
  uplinkDataPlacement := "";
  uplinkDataKey := "";
  uplinkChunkSize := "";
  scMaxBufferedPosts := "";
  scMaxEachPostBytesMin := "";
  scMaxEachPostBytesMax := "";
  scMinPostsIntervalMsMin := "";
  scMinPostsIntervalMsMax := "";
  scStreamUpServerSecsMin := "";
  scStreamUpServerSecsMax := "";
  xPadding := XrayXPaddingConfig.initial;
  xmux := XrayXmuxConfig.initial;
|}.

Definition fromJson (json : gmap string json) : XrayXhttpConfig :=
  if decide (json = ∅) then clearedXhttpConfig else
  let c := clearedXhttpConfig in {|
    mode := present_text json "xhttp_mode" (mode c);
    host := present_text json "xhttp_host" (host c);
    path := present_text json "xhttp_path" (path c);
    headersTemplate := present_text json "xhttp_headers_template" (headersTemplate c);
    uplinkMethod := present_text json "xhttp_uplink_method" (uplinkMethod c);
    disableGrpc := present_bool json "xhttp_disable_grpc" (disableGrpc c);
    disableSse := present_bool json "xhttp_disable_sse" (disableSse c);
    sessionPlacement := present_text json "xhttp_session_placement" (sessionPlacement c);
    sessionKey := present_text json "xhttp_session_key" (sessionKey c);
    seqPlacement := present_text json "xhttp_seq_placement" (seqPlacement c);
    seqKey := present_text json "xhttp_seq_key" (seqKey c);
    uplinkDataPlacement := present_text json "xhttp_uplink_data_placement" (uplinkDataPlacement c);
    uplinkDataKey := present_text json "xhttp_uplink_data_key" (uplinkDataKey c);
    uplinkChunkSize := present_text json "xhttp_uplink_chunk_size" (uplinkChunkSize c);
    scMaxBufferedPosts := present_text json "xhttp_sc_max_buffered_posts" (scMaxBufferedPosts c);
    scMaxEachPostBytesMin := present_text json "xhttp_sc_max_each_post_bytes_min" (scMaxEachPostBytesMin c);
    scMaxEachPostBytesMax := present_text json "xhttp_sc_max_each_post_bytes_max" (scMaxEachPostBytesMax c);
    scMinPostsIntervalMsMin := present_text json "xhttp_sc_min_posts_interval_ms_min" (scMinPostsIntervalMsMin c);
    scMinPostsIntervalMsMax := present_text json "xhttp_sc_min_posts_interval_ms_max" (scMinPostsIntervalMsMax c);
    scStreamUpServerSecsMin := present_text json "xhttp_sc_stream_up_server_secs_min" (scStreamUpServerSecsMin c);
    scStreamUpServerSecsMax := present_text json "xhttp_sc_stream_up_server_secs_max" (scStreamUpServerSecsMax c);
    xPadding := if contains json "xPadding" then XrayXPaddingConfig.fromJson (toObject (value json "xPadding")) else xPadding c;
    xmux := if contains json "xmux" then XrayXmuxConfig.fromJson (toObject (value json "xmux")) else xmux c;
  |}.
End XrayXhttpConfig.
Abbreviation XrayXhttpConfig := XrayXhttpConfig.XrayXhttpConfig.

Module XrayMkcpConfig.
Record XrayMkcpConfig := mk {
  tti : string;
  uplinkCapacity : string;
  downlinkCapacity : string;
  readBufferSize : string;
  writeBufferSize : string;
  congestion : bool;
}.

Definition toJson (c : XrayMkcpConfig) : gmap string json :=
  object [
    text_member "mkcp_tti" (tti c);
    text_member "mkcp_uplink_capacity" (uplinkCapacity c);
    text_member "mkcp_downlink_capacity" (downlinkCapacity c);
    text_member "mkcp_read_buffer_size" (readBufferSize c);
    text_member "mkcp_write_buffer_size" (writeBufferSize c);
    member "mkcp_congestion" (JBool (congestion c))
  ].

Definition initial : XrayMkcpConfig := mk "" "" "" "" "" true.

Definition fromJson (json : gmap string json) : XrayMkcpConfig :=
  if decide (json = ∅) then initial else
  let c := initial in {|
    tti := present_text json "mkcp_tti" (tti c);
    uplinkCapacity := present_text json "mkcp_uplink_capacity" (uplinkCapacity c);
    downlinkCapacity := present_text json "mkcp_downlink_capacity" (downlinkCapacity c);
    readBufferSize := present_text json "mkcp_read_buffer_size" (readBufferSize c);
    writeBufferSize := present_text json "mkcp_write_buffer_size" (writeBufferSize c);
    congestion := present_bool json "mkcp_congestion" (congestion c);
  |}.
End XrayMkcpConfig.
Abbreviation XrayMkcpConfig := XrayMkcpConfig.XrayMkcpConfig.

Module XrayServerConfig.
Record XrayServerConfig := mk {
  port : string;
  transportProto : string;
  subnetAddress : string;
  site : string;
  isThirdPartyConfig : bool;
  security : string;
  flow : string;
  fingerprint : string;
  sni : string;
  alpn : string;
  transport : string;
  xhttp : XrayXhttpConfig;
  mkcp : XrayMkcpConfig;
}.

Definition toJson (c : XrayServerConfig) : gmap string json :=
  object [
    text_member "port" (port c);
    text_member "transport_proto" (transportProto c);
    text_member "subnet_address" (subnetAddress c);
    text_member "site" (site c);
    flag_member "isThirdPartyConfig" (isThirdPartyConfig c);
    text_member "xray_security" (security c);
    text_member "xray_flow" (flow c);
    text_member "xray_fingerprint" (fingerprint c);
    text_member "xray_sni" (sni c);
    text_member "xray_alpn" (alpn c);
    text_member "xray_transport" (transport c);
    object_member "xhttp" (XrayXhttpConfig.toJson (xhttp c));
    object_member "mkcp" (XrayMkcpConfig.toJson (mkcp c))
  ].

(** A fingerprint that is a browser's whole user agent stands for the default one. *)
Definition user_agent (fp : string) : bool := contains_str (toLower "Mozilla/5.0") (toLower fp).

Definition initial : XrayServerConfig :=
  mk "" "" "" "" false "" "" "" "" "" "" XrayXhttpConfig.initial XrayMkcpConfig.initial.

Definition fromJson (json : gmap string json) : XrayServerConfig :=
  let fp := present_text json "xray_fingerprint" "" in
  let xhttpJson := toObject (value json "xhttp") in
  let mkcpJson := toObject (value json "mkcp") in {|
    port := text json "port";
    transportProto := text json "transport_proto";
    subnetAddress := text json "subnet_address";
    site := text json "site";
    isThirdPartyConfig := toBool_or false (value json "isThirdPartyConfig");
    security := present_text json "xray_security" "";
    flow := present_text json "xray_flow" "";
    fingerprint := if user_agent fp then "chrome" else fp;
    sni := present_text json "xray_sni" "";
    alpn := present_text json "xray_alpn" "";
    transport := present_text json "xray_transport" "";
    xhttp := if contains json "xhttp" && negb (bool_decide (xhttpJson = ∅))
             then XrayXhttpConfig.fromJson xhttpJson else XrayXhttpConfig.initial;
    mkcp := if contains json "mkcp" && negb (bool_decide (mkcpJson = ∅))
            then XrayMkcpConfig.fromJson mkcpJson else XrayMkcpConfig.initial;
  |}.
End XrayServerConfig.
Abbreviation XrayServerConfig := XrayServerConfig.XrayServerConfig.

(** ** The client's document *)

Module XrayClientConfig.
Record XrayClientConfig := mk {
  nativeConfig : string;
  localPort : string;
  id : string;
}.

Definition toJson (c : XrayClientConfig) : gmap string json :=
  object [
    text_member "config" (nativeConfig c);
    text_member "local_port" (localPort c);
    text_member "clientId" (id c)
  ].

Section reads.
Context {J : JsonCodec}.

(** [value(k).toArray()], its first element as an object. *)
Definition first_object (o : gmap string json) (k : string) : option (gmap string json) :=
  match toArray (value o k) with
  | v :: _ => Some (toObject (Some v))
  | [] => None
  end.

(** [outbounds[0].settings.vnext[0].users[0]]; an absent member is an empty one. *)
Definition first_user (config : gmap string json) : option (gmap string json) :=
  outbound ← first_object config "outbounds";
  vnext ← first_object (toObject (value outbound "settings")) "vnext";
  first_object vnext "users".

Definition user_id (config : gmap string json) : string :=
  match first_user config with
  | Some user => text user "id"
  | None => ""
  end.

Definition fromJson (json : gmap string json) : XrayClientConfig :=
  let native := text json "config" in
  let id := text json "clientId" in {|
    nativeConfig := native;
    localPort := text json "local_port";
    id := if String.eqb id "" && negb (String.eqb native "") then
            match Wire.fromJson native with
            | Some (JObject config) => user_id config
            | _ => id
            end
          else id;
  |}.
End reads.
End XrayClientConfig.
Abbreviation XrayClientConfig := XrayClientConfig.XrayClientConfig.

(** ** The settings of the protocol *)

Module XrayProtocolConfig.
Record XrayProtocolConfig := mk {
  serverConfig : XrayServerConfig;
  clientConfig : option XrayClientConfig;
  needsClientHydration : bool;
}.

Definition hasClientConfig (c : XrayProtocolConfig) : bool := bool_decide (is_Some (clientConfig c)).
Definition setClientConfig (client : XrayClientConfig) (c : XrayProtocolConfig) : XrayProtocolConfig :=
  mk (serverConfig c) (Some client) (needsClientHydration c).
Definition clearClientConfig (c : XrayProtocolConfig) : XrayProtocolConfig :=
  mk (serverConfig c) None (needsClientHydration c).

(** [QString::number(value(k).toInt())] when the member is there. *)
Definition present_number (o : gmap string json) (k d : string) : string :=
  if contains o k then pretty (toInt (value o k)) else d.

Definition transport_of (networkVal : string) : string :=
  if String.eqb networkVal "xhttp" then "xhttp"
  else if String.eqb networkVal "kcp" then "mkcp"
  else "raw".

Definition xhttp_mode_of (mode : string) : string :=
  if String.eqb mode "auto" then "Auto"
  else if String.eqb mode "packet-up" then "Packet-up"
  else if String.eqb mode "stream-up" then "Stream-up"
  else if String.eqb mode "stream-one" then "Stream-one"
  else mode.

(** The members the hydration copies from [xhttpSettings]. *)
Definition xhttp_json (xhttpObj : gmap string json) : gmap string json :=
  let mode := text xhttpObj "mode" in
  let copy k from := (k, if contains xhttpObj from then Some (JString (text xhttpObj from)) else None) in
  object [
    ("xhttp_mode", if String.eqb mode "" then None else Some (JString (xhttp_mode_of mode)));
    copy "xhttp_host" "host";
    copy "xhttp_path" "path";
    copy "xhttp_uplink_method" "uplinkHTTPMethod";
    member "xhttp_disable_grpc" (JBool (toBool_or true (value xhttpObj "noGRPCHeader")));
    member "xhttp_disable_sse" (JBool (toBool_or true (value xhttpObj "noSSEHeader")))
  ].

Definition mkcp_of (kcpObj : gmap string json) : XrayMkcpConfig :=
  let mk0 := XrayMkcpConfig.initial in
  XrayMkcpConfig.mk
    (present_number kcpObj "tti" (XrayMkcpConfig.tti mk0))
    (present_number kcpObj "uplinkCapacity" (XrayMkcpConfig.uplinkCapacity mk0))
    (present_number kcpObj "downlinkCapacity" (XrayMkcpConfig.downlinkCapacity mk0))
    (present_number kcpObj "readBufferSize" (XrayMkcpConfig.readBufferSize mk0))
    (present_number kcpObj "writeBufferSize" (XrayMkcpConfig.writeBufferSize mk0))
    (if contains kcpObj "congestion" then toBool_or true (value kcpObj "congestion")
     else XrayMkcpConfig.congestion mk0).

(** The reality and tls branches: name, site, fingerprint and ALPN. *)
Definition hydrate_reality (rs : gmap string json) (site fingerprint : string) : string * string * string :=
  let sni := text rs "serverName" in
  let fp := text rs "fingerprint" in
  (sni, if String.eqb sni "" then site else sni,
   if String.eqb fp "" then fingerprint else if XrayServerConfig.user_agent fp then "chrome" else fp).
Definition hydrate_tls (tls : gmap string json) (fingerprint alpn : string) : string * string * string :=
  let fp := text tls "fingerprint" in
  let alpnList := strings_of (value tls "alpn") in
  (text tls "serverName", if String.eqb fp "" then fingerprint else fp,
   match alpnList with [] => alpn | _ => String.concat "," alpnList end).

(** The server's settings as the outbound of the native document has them. *)
Definition hydrated (outbound streamSettings : gmap string json) (srv : XrayServerConfig) : XrayServerConfig :=
  let vnextEntry := XrayClientConfig.first_object (toObject (value outbound "settings")) "vnext" in
  let port := match vnextEntry with
              | Some entry => present_number entry "port" (XrayServerConfig.port srv)
              | None => XrayServerConfig.port srv
              end in
  let flow := match entry ← vnextEntry; XrayClientConfig.first_object entry "users" with
              | Some user => text user "flow"
              | None => XrayServerConfig.flow srv
              end in
  let transport := transport_of (toString_or "tcp" (value streamSettings "network")) in
  let security := present_text streamSettings "security" (XrayServerConfig.security srv) in
  let '(sni, site, fingerprint) :=
    if String.eqb security "reality"
    then hydrate_reality (toObject (value streamSettings "realitySettings"))
           (XrayServerConfig.site srv) (XrayServerConfig.fingerprint srv)
    else (XrayServerConfig.sni srv, XrayServerConfig.site srv, XrayServerConfig.fingerprint srv) in
  let '(sni, fingerprint, alpn) :=
    if String.eqb security "tls"
    then hydrate_tls (toObject (value streamSettings "tlsSettings")) fingerprint (XrayServerConfig.alpn srv)
    else (sni, fingerprint, XrayServerConfig.alpn srv) in
  XrayServerConfig.mk port (XrayServerConfig.transportProto srv) (XrayServerConfig.subnetAddress srv) site
    (XrayServerConfig.isThirdPartyConfig srv) security flow fingerprint sni alpn transport
    (if String.eqb transport "xhttp"
     then XrayXhttpConfig.fromJson (xhttp_json (toObject (value streamSettings "xhttpSettings")))
     else XrayServerConfig.xhttp srv)
    (if String.eqb transport "mkcp" then mkcp_of (toObject (value streamSettings "kcpSettings"))
     else XrayServerConfig.mkcp srv).

Section codec.
Context {J : JsonCodec}.

(** The result, and whether the document could be used. *)
Definition hydrateServerConfigFromClientNative (c : XrayProtocolConfig) : XrayProtocolConfig * bool :=
  match clientConfig c with
  | None => (c, false)
  | Some client =>
      if String.eqb (XrayClientConfig.nativeConfig client) "" then (c, false) else
      match Wire.fromJson (XrayClientConfig.nativeConfig client) with
      | Some (JObject root) =>
          match XrayClientConfig.first_object root "outbounds" with
          | None => (c, false)
          | Some outbound =>
              let streamSettings := toObject (value outbound "streamSettings") in
              if decide (streamSettings = ∅) then (c, false)
              else (mk (hydrated outbound streamSettings (serverConfig c)) (clientConfig c) false, true)
          end
      | _ => (c, false)
      end
  end.

(** A document of XRay itself, not of this application. *)
Definition is_native (o : gmap string json) : bool := contains o "outbounds" && negb (contains o "config").

Definition toJson (c : XrayProtocolConfig) : gmap string json :=
  let obj := XrayServerConfig.toJson (serverConfig c) in
  match clientConfig c with
  | None => obj
  | Some client =>
      let stored :=
        match Wire.fromJson (XrayClientConfig.nativeConfig client) with
        | Some (JObject o) =>
            if is_native o then XrayClientConfig.nativeConfig client
            else toJson_compact (XrayClientConfig.toJson client)
        | _ => toJson_compact (XrayClientConfig.toJson client)
        end in
      <["last_config" := JString stored]> obj
  end.

Definition client_of (lastConfigStr : string) : option XrayClientConfig :=
  if String.eqb lastConfigStr "" then None else
  match Wire.fromJson lastConfigStr with
  | Some (JObject parsed) =>
      if is_native parsed then
        let localPort := match XrayClientConfig.first_object parsed "inbounds" with
                         | Some inbound => present_number inbound "port" ""
                         | None => ""
                         end in
        Some (XrayClientConfig.mk lastConfigStr localPort (XrayClientConfig.user_id parsed))
      else Some (XrayClientConfig.fromJson parsed)
  | _ => None
  end.

Definition fromJson (json : gmap string json) : XrayProtocolConfig :=
  let server := XrayServerConfig.fromJson json in
  let client := client_of (text json "last_config") in
  let needs := bool_decide (is_Some client) &&
               (negb (contains json "xray_transport") || XrayServerConfig.isThirdPartyConfig server) in
  let c := mk server client needs in
  if needs then (hydrateServerConfigFromClientNative c).1 else c.
End codec.
End XrayProtocolConfig.
Abbreviation XrayProtocolConfig := XrayProtocolConfig.XrayProtocolConfig.

(** ** Laws *)

#[export] Instance XPadding_config : Config XrayXPaddingConfig := {| to_json := XrayXPaddingConfig.toJson; from_json := XrayXPaddingConfig.fromJson |}.
#[export] Instance Xmux_config : Config XrayXmuxConfig := {| to_json := XrayXmuxConfig.toJson; from_json := XrayXmuxConfig.fromJson |}.
#[export] Instance Xhttp_config : Config XrayXhttpConfig := {| to_json := XrayXhttpConfig.toJson; from_json := XrayXhttpConfig.fromJson |}.
#[export] Instance Mkcp_config : Config XrayMkcpConfig := {| to_json := XrayMkcpConfig.toJson; from_json := XrayMkcpConfig.fromJson |}.
#[export] Instance XrayServer_config : Config XrayServerConfig := {| to_json := XrayServerConfig.toJson; from_json := XrayServerConfig.fromJson |}.

Lemma read_text_or d s : s ≠ "" → toString_or d (if String.eqb s "" then None else Some (JString s)) = s.
Proof. intros H. by rewrite (proj2 (String.eqb_neq _ _) H). Qed.

#[export] Instance XPadding_laws : ConfigLaws XrayXPaddingConfig.
Proof.
  exists (λ c, XrayXPaddingConfig.placement c ≠ "" ∧ XrayXPaddingConfig.method c ≠ "").
  intros [] [H1 H2]. cbn in H1, H2. cbn -[object]. unfold XrayXPaddingConfig.fromJson, XrayXPaddingConfig.toJson.
  cbn -[object]. read_fields; try done; by apply read_text_or.
Defined.

#[export] Instance Xmux_laws : ConfigLaws XrayXmuxConfig.
Proof.
  exists (λ c, Forall (λ s, s ≠ "")
    [XrayXmuxConfig.maxConcurrencyMin c; XrayXmuxConfig.maxConcurrencyMax c; XrayXmuxConfig.maxConnectionsMin c;
     XrayXmuxConfig.maxConnectionsMax c; XrayXmuxConfig.cMaxReuseTimesMin c; XrayXmuxConfig.cMaxReuseTimesMax c;
     XrayXmuxConfig.hMaxRequestTimesMin c; XrayXmuxConfig.hMaxRequestTimesMax c;
     XrayXmuxConfig.hMaxReusableSecsMin c; XrayXmuxConfig.hMaxReusableSecsMax c]).
  intros [] H. cbn in H. rewrite !Forall_cons in H. destruct_and!.
  cbn -[object]. unfold XrayXmuxConfig.fromJson, XrayXmuxConfig.toJson.
  cbn -[object]. read_fields; try done; by apply read_text_or.
Defined.

(** An object with a member is not empty. *)
Lemma object_nonempty l k : assigned k None l ≠ None → object l ≠ ∅.
Proof. intros H E. apply H. rewrite <- value_object, E. done. Qed.

Ltac written k :=
  apply (object_nonempty _ k);
  cbn [assigned fst snd text_member flag_member member object_member String.eqb Ascii.eqb Bool.eqb]; discriminate.

#[export] Instance Mkcp_laws : ConfigLaws XrayMkcpConfig.
Proof.
  exists (λ _, True). intros [] _. cbn -[object]. unfold XrayMkcpConfig.fromJson, XrayMkcpConfig.toJson.
  rewrite decide_False by written "mkcp_congestion".
  cbn -[object]. by read_fields.
Defined.

#[export] Instance Xhttp_laws : ConfigLaws XrayXhttpConfig.
Proof.
  exists (λ c, settled (XrayXhttpConfig.xPadding c) ∧ settled (XrayXhttpConfig.xmux c)).
  intros [] [H1 H2]. unfold to_json, from_json, Xhttp_config, XrayXhttpConfig.fromJson, XrayXhttpConfig.toJson.
  rewrite decide_False by written "xmux".
  cbn -[object XrayXPaddingConfig.fromJson XrayXPaddingConfig.toJson XrayXmuxConfig.fromJson XrayXmuxConfig.toJson].
  read_fields; try done.
  - exact (roundtrip (T := XrayXPaddingConfig) _ H1).
  - exact (roundtrip (T := XrayXmuxConfig) _ H2).
Defined.

#[export] Instance XrayServer_laws : ConfigLaws XrayServerConfig.
Proof.
  exists (λ c, XrayServerConfig.user_agent (XrayServerConfig.fingerprint c) = false ∧ settled (XrayServerConfig.xhttp c)).
  intros [] [Hfp H2]. cbn in Hfp.
  assert (XrayXhttpConfig.toJson xhttp ≠ ∅) as Hx by (unfold XrayXhttpConfig.toJson; written "xmux").
  assert (XrayMkcpConfig.toJson mkcp ≠ ∅) as Hm by (unfold XrayMkcpConfig.toJson; written "mkcp_congestion").
  unfold to_json, from_json, XrayServer_config, XrayServerConfig.fromJson, XrayServerConfig.toJson.
  cbn -[object XrayXhttpConfig.fromJson XrayXhttpConfig.toJson XrayMkcpConfig.fromJson XrayMkcpConfig.toJson XrayServerConfig.user_agent].
  read_fields; try done.
  - by rewrite Hfp.
  - rewrite (decide_False _ _ Hx). cbn. rewrite (bool_decide_eq_false_2 _ Hx).
    exact (roundtrip (T := XrayXhttpConfig) _ H2).
  - rewrite (decide_False _ _ Hm). cbn. rewrite (bool_decide_eq_false_2 _ Hm).
    exact (roundtrip (T := XrayMkcpConfig) _ I).
Defined.

Lemma contains_insert_ne (json : gmap string _) k k' v : k ≠ k' → contains (<[k := v]> json) k' = contains json k'.
Proof. intros. rewrite !contains_spec. by rewrite value_insert_ne. Qed.

#[export] Instance XrayServer_server_laws : ServerLaws XrayServerConfig.
Proof.
  split.
  - intros. unfold from_json, XrayServer_config, XrayServerConfig.fromJson, present_text.
    repeat (rewrite text_insert_ne by done); repeat (rewrite value_insert_ne by done).
    repeat (rewrite contains_insert_ne by done). reflexivity.
  - intros s. unfold to_json, XrayServer_config, XrayServerConfig.toJson. by read_members.
Qed.

(** *** Comparison of server settings

    What is written identifies the structure it was written from: the members
    read back without any default. *)
Definition XPadding_members (json : gmap string json) : XrayXPaddingConfig :=
  XrayXPaddingConfig.mk (text json "xpadding_bytes_min") (text json "xpadding_bytes_max")
    (toBool_or false (value json "xpadding_obfs_mode")) (text json "xpadding_key") (text json "xpadding_header")
    (text json "xpadding_placement") (text json "xpadding_method").
Lemma XPadding_members_toJson c : XPadding_members (XrayXPaddingConfig.toJson c) = c.
Proof. destruct c. unfold XPadding_members, XrayXPaddingConfig.toJson. cbn -[object]. by read_fields. Qed.
Definition Xmux_members (json : gmap string json) : XrayXmuxConfig :=
  XrayXmuxConfig.mk (toBool_or false (value json "xmux_enabled")) (text json "xmux_max_concurrency_min")
    (text json "xmux_max_concurrency_max") (text json "xmux_max_connections_min")
    (text json "xmux_max_connections_max") (text json "xmux_c_max_reuse_times_min")
    (text json "xmux_c_max_reuse_times_max") (text json "xmux_h_max_request_times_min")
    (text json "xmux_h_max_request_times_max") (text json "xmux_h_max_reusable_secs_min")
    (text json "xmux_h_max_reusable_secs_max") (text json "xmux_h_keep_alive_period").
Lemma Xmux_members_toJson c : Xmux_members (XrayXmuxConfig.toJson c) = c.
Proof. destruct c. unfold Xmux_members, XrayXmuxConfig.toJson. cbn -[object]. by read_fields. Qed.
Definition Xhttp_members (json : gmap string json) : XrayXhttpConfig :=
  XrayXhttpConfig.mk (text json "xhttp_mode") (text json "xhttp_host") (text json "xhttp_path")
    (text json "xhttp_headers_template") (text json "xhttp_uplink_method")
    (toBool_or false (value json "xhttp_disable_grpc")) (toBool_or false (value json "xhttp_disable_sse"))
    (text json "xhttp_session_placement") (text json "xhttp_session_key") (text json "xhttp_seq_placement")
    (text json "xhttp_seq_key") (text json "xhttp_uplink_data_placement") (text json "xhttp_uplink_data_key")
    (text json "xhttp_uplink_chunk_size") (text json "xhttp_sc_max_buffered_posts")
    (text json "xhttp_sc_max_each_post_bytes_min") (text json "xhttp_sc_max_each_post_bytes_max")
    (text json "xhttp_sc_min_posts_interval_ms_min") (text json "xhttp_sc_min_posts_interval_ms_max")
    (text json "xhttp_sc_stream_up_server_secs_min") (text json "xhttp_sc_stream_up_server_secs_max")
    (XPadding_members (toObject (value json "xPadding"))) (Xmux_members (toObject (value json "xmux"))).
Lemma Xhttp_members_toJson c : Xhttp_members (XrayXhttpConfig.toJson c) = c.
Proof.
  destruct c. unfold Xhttp_members, XrayXhttpConfig.toJson. cbn -[object]. read_fields; try done.
  - apply XPadding_members_toJson.
  - apply Xmux_members_toJson.
Qed.
Definition Mkcp_members (json : gmap string json) : XrayMkcpConfig :=
  XrayMkcpConfig.mk (text json "mkcp_tti") (text json "mkcp_uplink_capacity")
    (text json "mkcp_downlink_capacity") (text json "mkcp_read_buffer_size")
    (text json "mkcp_write_buffer_size") (toBool_or false (value json "mkcp_congestion")).
Lemma Mkcp_members_toJson c : Mkcp_members (XrayMkcpConfig.toJson c) = c.
Proof. destruct c. unfold Mkcp_members, XrayMkcpConfig.toJson. cbn -[object]. by read_fields. Qed.

#[export] Instance Xhttp_toJson_inj : Inj (=) (=) XrayXhttpConfig.toJson.
Proof. intros a b E. by rewrite <- (Xhttp_members_toJson a), E, Xhttp_members_toJson. Qed.
#[export] Instance Mkcp_toJson_inj : Inj (=) (=) XrayMkcpConfig.toJson.
Proof. intros a b E. by rewrite <- (Mkcp_members_toJson a), E, Mkcp_members_toJson. Qed.

#[export] Instance XPadding_eq_dec : EqDecision XrayXPaddingConfig.
Proof. solve_decision. Defined.
#[export] Instance Xmux_eq_dec : EqDecision XrayXmuxConfig.
Proof. solve_decision. Defined.
#[export] Instance Xhttp_eq_dec : EqDecision XrayXhttpConfig.
Proof. solve_decision. Defined.
#[export] Instance Mkcp_eq_dec : EqDecision XrayMkcpConfig.
Proof. solve_decision. Defined.

(** [operator==] on the two objects. *)
#[export] Instance Xhttp_json_dec a b : Decision (XrayXhttpConfig.toJson a = XrayXhttpConfig.toJson b).
Proof. destruct (decide (a = b)) as [->|H]; [by left|right; intros E; by apply H, (inj XrayXhttpConfig.toJson)]. Defined.
#[export] Instance Mkcp_json_dec a b : Decision (XrayMkcpConfig.toJson a = XrayMkcpConfig.toJson b).
Proof. destruct (decide (a = b)) as [->|H]; [by left|right; intros E; by apply H, (inj XrayMkcpConfig.toJson)]. Defined.

Definition hasEqualServerSettings (c other : XrayServerConfig) : bool :=
  forallb (λ f, String.eqb (f c) (f other))
    [XrayServerConfig.port; XrayServerConfig.transportProto; XrayServerConfig.subnetAddress; XrayServerConfig.site;
     XrayServerConfig.security; XrayServerConfig.flow; XrayServerConfig.transport; XrayServerConfig.fingerprint;
     XrayServerConfig.sni; XrayServerConfig.alpn] &&
  bool_decide (XrayXhttpConfig.toJson (XrayServerConfig.xhttp c) = XrayXhttpConfig.toJson (XrayServerConfig.xhttp other)) &&
  bool_decide (XrayMkcpConfig.toJson (XrayServerConfig.mkcp c) = XrayMkcpConfig.toJson (XrayServerConfig.mkcp other)).

(** ** Properties *)

Section properties.
Context {J : JsonCodec}.

(** A client whose document the storage keeps. *)
Definition storable_client (client : XrayClientConfig) : Prop :=
  match Wire.fromJson (XrayClientConfig.nativeConfig client) with
  | Some (JObject o) =>
      if XrayProtocolConfig.is_native o
      then XrayProtocolConfig.client_of (XrayClientConfig.nativeConfig client) = Some client
      else printed (XrayClientConfig.toJson client) ∧ XrayClientConfig.id client ≠ ""
  | _ => printed (XrayClientConfig.toJson client) ∧
         (XrayClientConfig.id client ≠ "" ∨ XrayClientConfig.nativeConfig client = "")
  end.

Definition xray_storable (c : XrayProtocolConfig) : Prop :=
  let server := XrayProtocolConfig.serverConfig c in
  settled server ∧ XrayServerConfig.transport server ≠ "" ∧ XrayServerConfig.isThirdPartyConfig server = false ∧
  XrayProtocolConfig.needsClientHydration c = false ∧
  ∀ client, XrayProtocolConfig.clientConfig c = Some client → storable_client client.

Lemma client_toJson_not_native client : XrayProtocolConfig.is_native (XrayClientConfig.toJson client) = false.
Proof. unfold XrayProtocolConfig.is_native, XrayClientConfig.toJson. by read_members. Qed.

Lemma client_reread client :
  XrayClientConfig.id client ≠ "" ∨ XrayClientConfig.nativeConfig client = "" →
  XrayClientConfig.fromJson (XrayClientConfig.toJson client) = client.
Proof.
  destruct client. cbn. intros H. unfold XrayClientConfig.fromJson, XrayClientConfig.toJson. cbn -[object].
  read_fields; try done. destruct (String.eqb_spec id ""), (String.eqb_spec nativeConfig ""); cbn; try done.
  by destruct H.
Qed.

Lemma client_of_document client :
  printed (XrayClientConfig.toJson client) →
  XrayClientConfig.id client ≠ "" ∨ XrayClientConfig.nativeConfig client = "" →
  XrayProtocolConfig.client_of (toJson_compact (XrayClientConfig.toJson client)) = Some client.
Proof.
  intros [Hr Hn] H. unfold XrayProtocolConfig.client_of.
  rewrite (proj2 (String.eqb_neq _ _) Hn), Hr, client_toJson_not_native. by rewrite client_reread.
Qed.

Lemma server_transport_written s :
  contains (XrayServerConfig.toJson s) "xray_transport" = negb (String.eqb (XrayServerConfig.transport s) "").
Proof. unfold XrayServerConfig.toJson. read_members. by destruct (String.eqb (XrayServerConfig.transport s) ""). Qed.

Lemma client_of_stored (c : XrayProtocolConfig) :
  (∀ client, XrayProtocolConfig.clientConfig c = Some client → storable_client client) →
  XrayProtocolConfig.client_of (text (XrayProtocolConfig.toJson c) "last_config") = XrayProtocolConfig.clientConfig c.
Proof.
  destruct c as [s [client|] n]; cbn [XrayProtocolConfig.clientConfig]; intros H.
  2: { unfold XrayProtocolConfig.toJson, text. cbn.
       pose proof (writes_no_client s) as Hw. unfold to_json, XrayServer_config in Hw. by rewrite Hw. }
  specialize (H client eq_refl). unfold storable_client in H. unfold XrayProtocolConfig.toJson. cbn.
  rewrite text_insert_eq.
  destruct (Wire.fromJson (XrayClientConfig.nativeConfig client)) as [[]|];
    try (apply client_of_document; apply H).
  destruct (XrayProtocolConfig.is_native m); [done|]. apply client_of_document; tauto.
Qed.

(** XRay's settings survive the application's storage: the server's, its
    transport's and the client's document, whether it is one of this
    application or a native one, are read back as they were written. *)
Lemma xray_roundtrip (c : XrayProtocolConfig) :
  xray_storable c → XrayProtocolConfig.fromJson (XrayProtocolConfig.toJson c) = c.
Proof.
  intros (Hs & Ht & Htp & Hn & Hc). unfold XrayProtocolConfig.fromJson. rewrite (client_of_stored c Hc).
  assert (XrayServerConfig.fromJson (XrayProtocolConfig.toJson c) = XrayProtocolConfig.serverConfig c) as ->.
  { pose proof (roundtrip (T := XrayServerConfig) _ Hs) as R.
    unfold XrayProtocolConfig.toJson. destruct (XrayProtocolConfig.clientConfig c); [|exact R].
    etrans; [|exact R]. exact (reads_past_client (S := XrayServerConfig) _ _). }
  assert (contains (XrayProtocolConfig.toJson c) "xray_transport" = true) as ->.
  { unfold XrayProtocolConfig.toJson.
    destruct (XrayProtocolConfig.clientConfig c); rewrite ?contains_insert_ne by done;
      by rewrite server_transport_written, (proj2 (String.eqb_neq _ _) Ht). }
  rewrite Htp, andb_false_r. destruct c. cbn in *. by rewrite Hn.
Qed.

Lemma transport_of_known n : XrayProtocolConfig.transport_of n ∈ ["raw"; "xhttp"; "mkcp"].
Proof. unfold XrayProtocolConfig.transport_of. repeat case_match; listed. Qed.

Lemma hydrated_settings outbound streamSettings srv :
  let s := XrayProtocolConfig.hydrated outbound streamSettings srv in
  XrayServerConfig.transport s ∈ ["raw"; "xhttp"; "mkcp"] ∧
  XrayServerConfig.isThirdPartyConfig s = XrayServerConfig.isThirdPartyConfig srv ∧
  XrayServerConfig.subnetAddress s = XrayServerConfig.subnetAddress srv.
Proof.
  unfold XrayProtocolConfig.hydrated. cbv zeta.
  destruct (if String.eqb _ "reality" then _ else _) as [[sni site] fp].
  destruct (if String.eqb _ "tls" then _ else _) as [[sni' fp'] alpn].
  split_and!; [|reflexivity..]. apply transport_of_known.
Qed.

(** Completing a server's settings from the client's native document succeeds
    exactly when the document is an object whose first outbound has stream
    settings; then the transport is one this application knows, only the port,
    flow, site and transport settings may change, and what is stored afterwards
    is not completed again unless the server is a third party's. *)
Theorem hydration (c : XrayProtocolConfig) :
  let '(c', ok) := XrayProtocolConfig.hydrateServerConfigFromClientNative c in
  let s := XrayProtocolConfig.serverConfig c' in
  (ok = true ↔ ∃ client root outbound, XrayProtocolConfig.clientConfig c = Some client ∧
     XrayClientConfig.nativeConfig client ≠ "" ∧
     Wire.fromJson (XrayClientConfig.nativeConfig client) = Some (JObject root) ∧
     XrayClientConfig.first_object root "outbounds" = Some outbound ∧
     toObject (value outbound "streamSettings") ≠ ∅) ∧
  (ok = false → c' = c) ∧
  (ok = true →
     XrayProtocolConfig.clientConfig c' = XrayProtocolConfig.clientConfig c ∧
     XrayProtocolConfig.needsClientHydration c' = false ∧
     XrayServerConfig.transport s ∈ ["raw"; "xhttp"; "mkcp"] ∧
     XrayServerConfig.isThirdPartyConfig s = XrayServerConfig.isThirdPartyConfig (XrayProtocolConfig.serverConfig c) ∧
     XrayServerConfig.subnetAddress s = XrayServerConfig.subnetAddress (XrayProtocolConfig.serverConfig c) ∧
     contains (XrayProtocolConfig.toJson c') "xray_transport" = true).
Proof.
  unfold XrayProtocolConfig.hydrateServerConfigFromClientNative.
  destruct (XrayProtocolConfig.clientConfig c) as [client|] eqn:Ec; [|naive_solver].
  destruct (String.eqb_spec (XrayClientConfig.nativeConfig client) "") as [En|En]; [naive_solver|].
  destruct (Wire.fromJson (XrayClientConfig.nativeConfig client)) as [[]|] eqn:Ej; try naive_solver.
  destruct (XrayClientConfig.first_object m "outbounds") as [outbound|] eqn:Eo; [|naive_solver].
  case_decide as Hs; [naive_solver|]. split; [naive_solver|]. split; [done|]. intros _.
  destruct (hydrated_settings outbound (toObject (value outbound "streamSettings")) (XrayProtocolConfig.serverConfig c))
    as (H1 & H2 & H3).
  split_and!; try done. unfold XrayProtocolConfig.toJson. cbn. 
  rewrite contains_insert_ne, server_transport_written by done.
  by destruct (XrayServerConfig.transport _); [set_solver|].
Qed.
End properties.

Definition sample_xray : XrayProtocolConfig :=
  XrayProtocolConfig.mk
    (XrayServerConfig.mk "443" "tcp" "" "example.org" false "reality" "xtls-rprx-vision" "chrome" "example.org" ""
       "xhttp" XrayXhttpConfig.initial XrayMkcpConfig.initial)
    (Some (XrayClientConfig.mk "" "" "client 7")) false.

Lemma xray_roundtrip_witness :
  let _ := single_codec in
  xray_storable sample_xray ∧ XrayProtocolConfig.fromJson (XrayProtocolConfig.toJson sample_xray) = sample_xray.
Proof.
  assert (@xray_storable single_codec sample_xray) as H.
  { split; [split; [vm_compute; reflexivity|split]|].
    - split; discriminate.
    - repeat (apply Forall_cons_2; [discriminate|]). apply Forall_nil_2.
    - split; [discriminate|]. split; [reflexivity|]. split; [reflexivity|].
      intros client [= <-]. split; [|left; discriminate]. split; [vm_compute; reflexivity|vm_compute; discriminate]. }
  split; [exact H|]. exact (@xray_roundtrip single_codec sample_xray H).
Defined.
