(* ===== verification/LocalSocketController.v ===== *)
(** * LocalSocketController: the client's end of the daemon socket

    Models [client/mozilla/localsocketcontroller.cpp]: connecting with retries,
    the activation request built from the application's configuration, and the
    dispatch of the daemon's messages.  What the controller writes, signals,
    calls back or asks of its socket is appended to [out]. *)
From S2P Require Import Prelude Text Json IpAddress InterfaceConfig Qt DaemonConfig Wire.

(** ** State *)
Inductive DaemonState := eUnknown | eInitializing | eReady | eDisconnected.
#[export] Instance DaemonState_eq_dec : EqDecision DaemonState.
Proof. solve_decision. Defined.

Inductive output :=
  | Wrote (o : gmap string json)
  | ConnectToServer
  | Initialized (ok connected : bool) (date : option Z)
  | Disconnected
  | StatusUpdated (gateway device : string) (tx rx : Q)
  | Connected (pubkey : string)
  | LogCallback (id : nat) (logs : string).

Record Controller := mkController {
  m_daemonState : DaemonState;
  m_initializingRetry : Z;
  m_initializingTimer : bool;
  m_deviceIpv4 : qstring;
  m_logCallback : option nat;      (* the callback waiting for logs *)
  out : list output;
}.

Definition MAX_CONNECTION_RETRY : Z := 10.

(** A new controller. *)
Definition new_controller : Controller := mkController eUnknown 0 false None None [].

#[local] Abbreviation L := (stM Controller).

Definition set_state (s : DaemonState) : L unit :=
  modify (λ c, mkController s (m_initializingRetry c) (m_initializingTimer c) (m_deviceIpv4 c)
                            (m_logCallback c) (out c)).
Definition set_retry (n : Z) : L unit :=
  modify (λ c, mkController (m_daemonState c) n (m_initializingTimer c) (m_deviceIpv4 c)
                            (m_logCallback c) (out c)).
Definition set_timer (b : bool) : L unit :=
  modify (λ c, mkController (m_daemonState c) (m_initializingRetry c) b (m_deviceIpv4 c)
                            (m_logCallback c) (out c)).
Definition set_deviceIpv4 (s : qstring) : L unit :=
  modify (λ c, mkController (m_daemonState c) (m_initializingRetry c) (m_initializingTimer c) s
                            (m_logCallback c) (out c)).
Definition set_callback (f : option nat) : L unit :=
  modify (λ c, mkController (m_daemonState c) (m_initializingRetry c) (m_initializingTimer c)
                            (m_deviceIpv4 c) f (out c)).
Definition put (o : output) : L unit :=
  modify (λ c, mkController (m_daemonState c) (m_initializingRetry c) (m_initializingTimer c)
                            (m_deviceIpv4 c) (m_logCallback c) (out c ++ [o])).

(** A request that only has a type. *)
Definition typed (t : string) : gmap string json := <["type" := JString t]> ∅.

(** ** Connecting *)
Definition disconnectInternal : L unit :=
  _ ← set_state eReady; _ ← set_retry 0; _ ← set_timer false; put Disconnected.

Definition errorOccurred : L unit :=
  c ← get;
  if decide (m_daemonState c = eInitializing) then
    _ ← set_retry (m_initializingRetry c + 1);
    if m_initializingRetry c <? MAX_CONNECTION_RETRY then set_timer true
    else _ ← put (Initialized false false None); disconnectInternal
  else disconnectInternal.

Definition initializeInternal : L unit := _ ← set_state eInitializing; put ConnectToServer.

Definition initialize : L unit := _ ← set_retry 0; initializeInternal.

(** The single-shot retry timer fires. *)
Definition initializing_timeout : L unit :=
  c ← get;
  if m_initializingTimer c then _ ← set_timer false; initializeInternal else mret tt.

Definition checkStatus : L unit :=
  c ← get;
  if decide (m_daemonState c = eReady ∨ m_daemonState c = eInitializing)
  then put (Wrote (typed "status")) else mret tt.

Definition daemonConnected : L unit := checkStatus.

(** ** The activation request *)
Definition range_object (address : string) (range : Z) (isIpv6 : bool) : json :=
  JObject (<["address" := JString address]> (<["range" := JInt range]>
          (<["isIpv6" := JBool isIpv6]> ∅))).

(** A range from a text [address] or [address/length]. *)
Definition site_range (v : json) : json :=
  let ipRange := str (toString (Some v)) in
  match split_char slash ipRange with
  | address :: range :: _ => range_object address (atoi range) false
  | _ => range_object ipRange 32 false
  end.

(** [plainAllowedIP == defaultAllowedIP] *)
Definition is_default_allowed (l : list json) : bool :=
  match l with
  | [JString a; JString b] => String.eqb a "0.0.0.0/0" && String.eqb b "::/0"
  | _ => false
  end.

Definition allowed_ranges (splitTunnelType : Z) (plainAllowedIP splitTunnelSites : list json) : list json :=
  if negb (is_default_allowed plainAllowedIP) && negb (match plainAllowedIP with [] => true | _ => false end)
  then site_range <$> plainAllowedIP
  else
    (if (splitTunnelType =? 0) || (splitTunnelType =? 2)
     then [range_object "0.0.0.0" 0 false; range_object "::" 0 true] else []) ++
    (if splitTunnelType =? 1 then site_range <$> splitTunnelSites else []).

Definition excluded_addresses (splitTunnelType : Z) (hostName : option json) (splitTunnelSites : list json) :
    list json :=
  jelem hostName ::
  (if splitTunnelType =? 2 then (λ v, JString (str (toString (Some v)))) <$> splitTunnelSites else []).

(** The obfuscation keys, the first eleven of which a plain WireGuard profile
    must all have for any to be sent. *)
Definition required_obfuscation : list string :=
  ["Jc"; "Jmin"; "Jmax"; "S1"; "S2"; "S3"; "S4"; "H1"; "H2"; "H3"; "H4"].
Definition obfuscation : list string :=
  required_obfuscation ++
  ["I1"; "I2"; "I3"; "I4"; "I5"; "HeaderProtectionKey"; "ContentPaddingAddition"; "RekeyAfterTime";
   "RekeyTimeout"; "RejectAfterTime"; "KeepaliveTimeout"; "MaxHandshakeAttempts"].

Definition copy_keys (keys : list string) (wgConfig json : gmap string json) : gmap string Json.json :=
  foldl (λ j k, insertv k (value wgConfig k) j) json keys.

Definition amneziaDnsIp : string := "172.29.172.254".

Definition wg_config (rawConfig : gmap string json) : gmap string json :=
  toObject (value rawConfig (str (toString (value rawConfig "protocol")) +:+ "_config_data")).

(** The part every protocol has. *)
Definition base_request (rawConfig : gmap string json) : gmap string json :=
  let splitTunnelType := toInt (value rawConfig "splitTunnelType") in
  let splitTunnelSites := toArray (value rawConfig "splitTunnelSites") in
  let splitTunnelApps := toArray (value rawConfig "splitTunnelApps") in
  let allowedDns := toArray (value rawConfig "allowedDnsServers") in
  let wgConfig := wg_config rawConfig in
  let json := <["type" := JString "activate"]> ∅ in
  let json := insertv "privateKey" (value wgConfig "client_priv_key") json in
  let json := insertv "deviceIpv4Address" (value wgConfig "client_ip") json in
  let json := <["deviceIpv6Address" := JString "fd58:baa6:dead::1"]> json in
  let json := insertv "serverPublicKey" (value wgConfig "server_pub_key") json in
  let json := insertv "serverPskKey" (value wgConfig "psk_key") json in
  let json := insertv "serverIpv4AddrIn" (value wgConfig "hostName") json in
  let json := insertv "deviceMTU" (value wgConfig "mtu") json in
  let json := <["serverPort" := JInt (toInt (value wgConfig "port"))]> json in
  let json := insertv "serverIpv4Gateway" (value wgConfig "hostName") json in
  let json := if contains wgConfig "persistent_keep_alive"
              then <["persistentKeepalive" := JQString (toString (value wgConfig "persistent_keep_alive"))]> json
              else json in
  let json := insertv "primaryDnsServer" (value rawConfig "dns1") json in
  let json := if contains_str amneziaDnsIp (str (toString (value rawConfig "dns1"))) then json
              else insertv "secondaryDnsServer" (value rawConfig "dns2") json in
  let json := <["allowedIPAddressRanges" := JArray
                 (allowed_ranges splitTunnelType (toArray (value wgConfig "allowed_ips")) splitTunnelSites)]> json in
  let json := <["excludedAddresses" := JArray
                 (excluded_addresses splitTunnelType (value wgConfig "hostName") splitTunnelSites)]> json in
  let json := <["vpnDisabledApps" := JArray splitTunnelApps]> json in
  let json := <["allowedDnsServers" := JArray allowedDns]> json in
  insertv "killSwitchOption" (value rawConfig "killSwitchOption") json.

Definition activate_request (rawConfig : gmap string json) : gmap string json :=
  let protocolName := str (toString (value rawConfig "protocol")) in
  let wgConfig := wg_config rawConfig in
  let json := base_request rawConfig in
  if String.eqb protocolName "awg" then copy_keys obfuscation wgConfig json
  else if forallb (λ k, negb (isUndefined (value wgConfig k))) required_obfuscation
  then copy_keys obfuscation wgConfig json
  else json.

Definition activate (rawConfig : gmap string json) : L unit :=
  _ ← set_deviceIpv4 (toString (value (wg_config rawConfig) "client_ip"));
  put (Wrote (activate_request rawConfig)).

Definition deactivate : L unit :=
  c ← get;
  if decide (m_daemonState c = eReady) then
    _ ← put (Wrote (typed "deactivate")); put Disconnected
  else put Disconnected.

(** ** Logs *)

(** The callback that waits gets the empty text. *)
Definition flush_callback : L unit :=
  c ← get;
  match m_logCallback c with
  | Some f => _ ← put (LogCallback f ""); set_callback None
  | None => mret tt
  end.

Definition getBackendLogs (a_callback : nat) : L unit :=
  _ ← flush_callback;
  c ← get;
  if decide (m_daemonState c = eReady) then
    _ ← set_callback (Some a_callback); put (Wrote (typed "logs"))
  else put (LogCallback a_callback "").

Definition cleanupBackendLogs : L unit :=
  _ ← flush_callback;
  c ← get;
  if decide (m_daemonState c = eReady) then put (Wrote (typed "cleanlogs")) else mret tt.

(** ** The daemon's messages *)
Section messages.
Context {C : JsonCodec}
  (** [QDateTime::fromString] *)
  (date_of_string : string → option Z).

(** The first status after connecting: the controller becomes ready. *)
Definition status_initial (obj : gmap string json) : L unit :=
  _ ← set_state eReady;
  let connected := value obj "connected" in
  if negb (isBool connected) then mret tt
  else if toBool connected then
    let date := value obj "date" in
    if negb (isString date) then mret tt
    else match date_of_string (str (toString date)) with
         | None => mret tt
         | Some datetime => put (Initialized true true (Some datetime))
         end
  else put (Initialized true false None).

Definition status_ready (obj : gmap string json) : L unit :=
  match value obj "serverIpv4Gateway", value obj "deviceIpv4Address",
        value obj "txBytes", value obj "rxBytes" with
  | Some (JString gateway), Some (JString device), Some (JDouble tx), Some (JDouble rx) =>
      put (StatusUpdated gateway device tx rx)
  | _, _, _, _ => mret tt
  end.

Definition message_connected (obj : gmap string json) : L unit :=
  match value obj "pubkey" with
  | Some (JString pubkey) =>
      _ ← checkStatus;
      c ← get;
      _ ← put (StatusUpdated "" (str (m_deviceIpv4 c)) 0 0);
      put (Connected pubkey)
  | _ => mret tt
  end.

Definition message_logs (obj : gmap string json) : L unit :=
  c ← get;
  match m_logCallback c with
  | None => mret tt
  | Some f =>
      let logs := value obj "logs" in
      _ ← put (LogCallback f (if isString logs
                 then replace_char (Ascii.ascii_of_nat 124) newline (str (toString logs)) else ""));
      set_callback None
  end.

(** A failure of the back end is only written to the client's own log. *)
Definition parse_type (type : string) (obj : gmap string json) : L unit :=
  c ← get;
  if bool_decide (m_daemonState c = eInitializing) && String.eqb type "status" then status_initial obj
  else if negb (bool_decide (m_daemonState c = eReady)) then mret tt
  else if String.eqb type "status" then status_ready obj
  else if String.eqb type "disconnected" then disconnectInternal
  else if String.eqb type "connected" then message_connected obj
  else if String.eqb type "logs" then message_logs obj
  else mret tt.

Definition parseCommand (command : string) : L unit :=
  match fromJson command with
  | Some (JObject obj) =>
      match value obj "type" with
      | Some (JString type) => parse_type type obj
      | _ => mret tt
      end
  | _ => mret tt
  end.

(** [readData]: the commands of the buffer, one after the other. *)
Definition readData (buffer input : string) : L string :=
  let '(cs, b) := client_readData buffer input in
  _ ← for_each cs parseCommand; mret b.
End messages.

(** ** The daemon accepts what the client sends *)

Lemma insertv_lookup k k' v m : value (insertv k v m) k' = if decide (k = k') then v else value m k'.
Proof. apply value_insertv. Qed.

Lemma value_insert k k' v m : value (<[k := v]> m) k' = if decide (k = k') then Some v else value m k'.
Proof. unfold value. rewrite lookup_insert. by case_decide. Qed.

(** Copying leaves the other members. *)
Lemma copy_keys_other keys wg j k : k ∉ keys → value (copy_keys keys wg j) k = value j k.
Proof.
  unfold copy_keys. revert j. induction keys as [|x keys IH]; intros j Hk; [done|].
  apply not_elem_of_cons in Hk as [Hx Hk]. cbn. rewrite IH by done.
  rewrite value_insertv. by rewrite decide_False.
Qed.


Lemma activate_request_base raw k :
  k ∉ obfuscation → value (activate_request raw) k = value (base_request raw) k.
Proof.
  intros Hk. unfold activate_request. cbv zeta.
  destruct (String.eqb _ _); [by apply copy_keys_other|].
  destruct (forallb _ _); [by apply copy_keys_other|done].
Qed.

(** The member of the base request under a literal key. *)
Ltac base_lookup :=
  unfold base_request; cbv zeta;
  repeat match goal with
  | |- context [value (if ?b then _ else _) _] => destruct b
  | |- context [value (<[_ := _]> _) _] =>
      rewrite value_insert; first [rewrite decide_True by done | rewrite decide_False by done]
  | |- context [value (insertv _ _ _) _] =>
      rewrite value_insertv; first [rewrite decide_True by done | rewrite decide_False by done]
  end.

Section accepted.
Context (raw : gmap string json).
#[local] Abbreviation req := (activate_request raw).
#[local] Abbreviation wg := (wg_config raw).

Lemma not_obfuscation k : bool_decide (k ∈ obfuscation) = false → k ∉ obfuscation.
Proof. by intros H%bool_decide_eq_false. Qed.

Ltac member := rewrite activate_request_base by (by apply not_obfuscation); base_lookup; done.

Lemma req_privateKey : value req "privateKey" = value wg "client_priv_key".
Proof. member. Qed.
Lemma req_serverPublicKey : value req "serverPublicKey" = value wg "server_pub_key".
Proof. member. Qed.
Lemma req_serverPort : value req "serverPort" = Some (JInt (toInt (value wg "port"))).
Proof. member. Qed.
Lemma req_device6 : value req "deviceIpv6Address" = Some (JString "fd58:baa6:dead::1").
Proof. member. Qed.
Lemma req_server4 : value req "serverIpv4AddrIn" = value wg "hostName".
Proof. member. Qed.
Lemma req_server6 : value req "serverIpv6AddrIn" = None.
Proof. member. Qed.
Lemma req_primary : value req "primaryDnsServer" = value raw "dns1".
Proof. member. Qed.
Lemma req_hopType : value req "hopType" = None.
Proof. member. Qed.
Lemma req_secondary :
  value req "secondaryDnsServer" =
  if contains_str amneziaDnsIp (str (toString (value raw "dns1"))) then None else value raw "dns2".
Proof. rewrite activate_request_base by (by apply not_obfuscation). base_lookup; done. Qed.
Lemma req_allowed :
  value req "allowedIPAddressRanges" =
  Some (JArray (allowed_ranges (toInt (value raw "splitTunnelType")) (toArray (value wg "allowed_ips"))
                               (toArray (value raw "splitTunnelSites")))).
Proof. member. Qed.
Lemma req_excluded :
  value req "excludedAddresses" =
  Some (JArray (excluded_addresses (toInt (value raw "splitTunnelType")) (value wg "hostName")
                                   (toArray (value raw "splitTunnelSites")))).
Proof. member. Qed.
Lemma req_apps : value req "vpnDisabledApps" = Some (JArray (toArray (value raw "splitTunnelApps"))).
Proof. member. Qed.
Lemma req_dns : value req "allowedDnsServers" = Some (JArray (toArray (value raw "allowedDnsServers"))).
Proof. member. Qed.

Lemma range_object_ok a r b : range_ok (range_object a r b).
Proof.
  unfold range_object. eexists _, a, _, b. split; [reflexivity|].
  split_and!; rewrite ?value_insert; repeat (first [rewrite decide_True by done | rewrite decide_False by done]; rewrite ?value_insert); reflexivity.
Qed.

Lemma site_range_ok v : range_ok (site_range v).
Proof. unfold site_range. cbv zeta. repeat case_match; apply range_object_ok. Qed.

Lemma allowed_ranges_ok t p l : Forall range_ok (allowed_ranges t p l).
Proof.
  assert (∀ l, Forall range_ok (site_range <$> l)) as Hs.
  { intros k. apply Forall_fmap, Forall_forall. intros v _. apply site_range_ok. }
  unfold allowed_ranges. destruct (_ && _); [done|]. apply Forall_app. split.
  - destruct (_ || _); [|done]. repeat constructor; apply range_object_ok.
  - by destruct (t =? 1).
Qed.
End accepted.

(** What the application's configuration must provide. *)
Record client_ok (raw : gmap string json) : Prop := {
  c_privateKey : ∃ s, value (wg_config raw) "client_priv_key" = Some (JString s);
  c_publicKey : ∃ s, value (wg_config raw) "server_pub_key" = Some (JString s);
  c_hostName : ∃ s, value (wg_config raw) "hostName" = Some (JString s);
  c_dns1 : string_or_absent (value raw "dns1");
  c_dns2 : contains_str amneziaDnsIp (str (toString (value raw "dns1"))) = true ∨
           string_or_absent (value raw "dns2");
  c_apps : ∃ ss, toArray (value raw "splitTunnelApps") = JString <$> ss;
  c_dns : ∃ ss, toArray (value raw "allowedDnsServers") = JString <$> ss;
}.

Lemma strings_ok_array l : strings_ok (Some (JArray l)) ↔ ∃ ss, l = JString <$> ss.
Proof.
  unfold strings_ok, JStrings. split.
  - intros [?|[ss [= ->]]]; [done|eauto].
  - intros [ss ->]. eauto.
Qed.

Lemma excluded_strings t h l :
  (∃ ss, excluded_addresses t h l = JString <$> ss) ↔ ∃ s, h = Some (JString s).
Proof.
  unfold excluded_addresses. split.
  - intros [[|s ss] E]; [done|]. cbn in E. injection E as E _. exists s. destruct h; cbn in E; congruence.
  - intros [s ->]. destruct (t =? 2).
    + exists (s :: ((λ v, str (toString (Some v))) <$> l)). cbn. f_equal.
      rewrite <- list_fmap_compose. done.
    + by exists [s].
Qed.

(** C33. Client and daemon agree on the activation request: the daemon's
    [parseConfig] accepts the request the client builds exactly when the
    application's configuration has the keys and the host name, DNS servers of
    the right type, and lists of strings; split-tunnel sites and allowed IPs of
    whatever form never make it fail. *)
Theorem activate_request_accepted `{Qt} os raw c :
  is_Some (parseConfig os (activate_request raw) c) ↔ client_ok raw.
Proof.
  assert (is_Some (parseConfig os (activate_request raw) c) ↔ config_ok (activate_request raw)) as ->.
  { split; [|apply config_ok_accepted]. intros [c' Hc]. by eapply accepted_config_ok, parseConfig_accepted. }
  split.
  - intros [Hk Hp _ _ [s Hs] H1 H2 _ _ _ Ha Hd]. rewrite req_privateKey in Hk. rewrite req_serverPublicKey in Hp.
    rewrite req_server4, req_server6 in Hs. rewrite req_primary in H1. rewrite req_secondary in H2.
    rewrite req_apps, strings_ok_array in Ha. rewrite req_dns, strings_ok_array in Hd.
    split; try done; [destruct Hs; [eauto|done]|].
    destruct (contains_str _ _); auto.
  - intros [Hk Hp Hh H1 H2 Ha Hd]. split.
    + by rewrite req_privateKey.
    + by rewrite req_serverPublicKey.
    + rewrite req_serverPort. unfold JInt. eauto.
    + rewrite req_device6. eauto.
    + rewrite req_server4. destruct Hh as [s ->]. eauto.
    + by rewrite req_primary.
    + rewrite req_secondary. unfold string_or_absent in *. destruct (contains_str _ _); naive_solver.
    + left. apply req_hopType.
    + rewrite req_allowed. eexists. split; [reflexivity|]. apply allowed_ranges_ok.
    + rewrite req_excluded, strings_ok_array. by apply excluded_strings.
    + by rewrite req_apps, strings_ok_array.
    + by rewrite req_dns, strings_ok_array.
Qed.

Lemma parse_range_object `{Qt} a r b :
  int_min ≤ r ≤ int_max → parse_range (range_object a r b) = Some (mkIPAddress (host_of_string a) r).
Proof.
  intros Hr. unfold parse_range, range_object. cbn -[JInt toInt].
  rewrite !value_insert. repeat (first [rewrite decide_True by done | rewrite decide_False by done]; rewrite ?value_insert).
  by rewrite toInt_JInt.
Qed.

(** A bare IPv6 address in the allowed IPs becomes a 32-bit prefix: an
    address [a] written without a length is sent with range 32 whatever its
    family, so for an IPv6 address every host that shares its first 32 bits is
    routed through the tunnel. *)
Theorem bare_ipv6_site `{Qt} s a h :
  contains_char slash s = false → host_of_string s = HostV6 a →
  be_num h / 2 ^ 96 = be_num a / 2 ^ 96 →
  ∃ ip, parse_range (site_range (JString s)) = Some ip ∧ in_subnet ip (HostV6 h).
Proof.
  intros Hs Ha Hprefix. exists (mkIPAddress (HostV6 a) 32). split.
  - unfold site_range. cbv zeta. change (str (toString (Some (JString s)))) with s.
    rewrite split_char_none by done.
    rewrite parse_range_object by (unfold int_min, int_max; lia). by rewrite Ha.
  - split; [done|]. exact Hprefix.
Qed.

(** The IPv6 loopback network, as sixteen bytes. *)
Definition host_v6_1 : list Z := replicate 15 0 ++ [1].

Lemma bare_ipv6_site_witness :
  ∃ ip, @parse_range plain_qt (site_range (JString "::")) = Some ip ∧ in_subnet ip (HostV6 host_v6_1).
Proof.
  apply (@bare_ipv6_site plain_qt "::" (replicate 16 0) host_v6_1).
  - reflexivity.
  - reflexivity.
  - vm_compute. reflexivity.
Defined.

(** ** Connecting: the retries *)

(** The controller while it waits for the daemon. *)
Record connecting (n : Z) (c : Controller) : Prop := {
  cg_state : m_daemonState c = eInitializing;
  cg_retry : m_initializingRetry c = n;
}.

(** One failed attempt followed by its retry. *)
Definition failed_attempt : L unit := _ ← errorOccurred; initializing_timeout.

Lemma failed_attempt_retries n c :
  connecting n c → n < MAX_CONNECTION_RETRY →
  connecting (n + 1) (failed_attempt c).2 ∧ out (failed_attempt c).2 = out c ++ [ConnectToServer].
Proof.
  intros [Hs Hn] Hlt. unfold failed_attempt, errorOccurred. rewrite !bind_run. cbn [get fst snd].
  rewrite decide_True by done. rewrite bind_run, Hn, (proj2 (Z.ltb_lt n _)) by done. cbn.
  split; [by split|done].
Qed.

Lemma failed_attempts k n c :
  connecting n c → n + Z.of_nat k ≤ MAX_CONNECTION_RETRY →
  let r := for_each (replicate k tt) (λ _, failed_attempt) c in
  connecting (n + Z.of_nat k) r.2 ∧ out r.2 = out c ++ replicate k ConnectToServer.
Proof.
  cbv zeta. revert n c. induction k as [|k IH]; intros n c Hc Hk.
  { cbn. rewrite app_nil_r, Z.add_0_r. done. }
  cbn [replicate for_each]. rewrite bind_run.
  destruct (failed_attempt_retries n c Hc) as [H1 E1]; [lia|].
  destruct (IH (n + 1) _ H1) as [H2 E2]; [lia|].
  replace (n + Z.of_nat (S k)) with (n + 1 + Z.of_nat k) by lia. split; [done|].
  rewrite E2, E1, <- app_assoc. done.
Qed.

Lemma initialize_connecting c : connecting 0 (initialize c).2.
Proof. by split. Qed.
Lemma initialize_out c : out (initialize c).2 = out c ++ [ConnectToServer].
Proof. done. Qed.

Lemma disconnectInternal_run c :
  disconnectInternal c =
  (tt, mkController eReady 0 false (m_deviceIpv4 c) (m_logCallback c) (out c ++ [Disconnected])).
Proof. done. Qed.

Lemma last_attempt c :
  connecting MAX_CONNECTION_RETRY c →
  out (errorOccurred c).2 = out c ++ [Initialized false false None; Disconnected] ∧
  m_initializingTimer (errorOccurred c).2 = false ∧ m_daemonState (errorOccurred c).2 = eReady ∧
  m_initializingRetry (errorOccurred c).2 = 0.
Proof.
  intros [Hs Hn]. unfold errorOccurred. rewrite bind_run. cbn [get fst snd].
  rewrite decide_True by done. rewrite bind_run, Hn. cbn [Z.ltb].
  change (MAX_CONNECTION_RETRY <? MAX_CONNECTION_RETRY) with false. cbv iota.
  rewrite bind_run, disconnectInternal_run. cbn. split; [|done]. by rewrite <- app_assoc.
Qed.

(** Connecting is retried a bounded number of times: after [initialize], the
    first [MAX_CONNECTION_RETRY] failures each lead to a new attempt, and one
    more gives up: [initialized(false)] and [disconnected] are signalled and no
    further attempt is scheduled. *)
Theorem initialize_gives_up c :
  let r := (_ ← initialize;
            _ ← for_each (replicate (Z.to_nat MAX_CONNECTION_RETRY) tt) (λ _, failed_attempt);
            errorOccurred) c in
  out r.2 = out c ++ replicate (Z.to_nat (MAX_CONNECTION_RETRY + 1)) ConnectToServer ++
            [Initialized false false None; Disconnected] ∧
  m_initializingTimer r.2 = false ∧ m_daemonState r.2 = eReady ∧ m_initializingRetry r.2 = 0.
Proof.
  cbv zeta. rewrite !bind_run.
  destruct (failed_attempts (Z.to_nat MAX_CONNECTION_RETRY) 0 (initialize c).2 (initialize_connecting c))
    as [H2 E2]; [unfold MAX_CONNECTION_RETRY; lia|].
  revert H2 E2. generalize (for_each (replicate (Z.to_nat MAX_CONNECTION_RETRY) tt)
    (λ _, failed_attempt) (initialize c).2).2. intros c2 H2 E2.
  destruct (last_attempt c2 H2) as (-> & Ht & Hs & Hr). split_and!; try done.
  rewrite E2, <- app_assoc, initialize_out, <- app_assoc. done.
Qed.

(** ** Log requests *)

(** What the event loop delivers to the controller. *)
Inductive c_event :=
  | EvInitialize
  | EvError
  | EvTimeout
  | EvDaemonConnected
  | EvActivate (raw : gmap string json)
  | EvDeactivate
  | EvGetLogs (id : nat)
  | EvCleanLogs
  | EvCommand (command : string).

Definition handle {C : JsonCodec} (date_of_string : string → option Z) (e : c_event) : L unit :=
  match e with
  | EvInitialize => initialize
  | EvError => errorOccurred
  | EvTimeout => initializing_timeout
  | EvDaemonConnected => daemonConnected
  | EvActivate raw => activate raw
  | EvDeactivate => deactivate
  | EvGetLogs id => getBackendLogs id
  | EvCleanLogs => cleanupBackendLogs
  | EvCommand command => parseCommand date_of_string command
  end.

Definition is_callback (id : nat) (o : output) : bool :=
  match o with LogCallback i _ => Nat.eqb i id | _ => false end.
Definition is_request (id : nat) (e : c_event) : bool :=
  match e with EvGetLogs i => Nat.eqb i id | _ => false end.

(** Times a callback was called, plus one while it waits. *)
Definition callbacks (id : nat) (c : Controller) : nat :=
  (length (List.filter (is_callback id) (out c)) +
   match m_logCallback c with Some i => if Nat.eqb i id then 1 else 0 | None => 0 end)%nat.

Definition same_callbacks (id : nat) (c c' : Controller) : Prop := callbacks id c' = callbacks id c.
#[export] Instance same_callbacks_preorder id : PreOrder (same_callbacks id).
Proof. split; unfold same_callbacks; [done|]. by intros ? ? ? -> ->. Qed.

Lemma callbacks_put o c id :
  callbacks id (put o c).2 = (callbacks id c + if is_callback id o then 1 else 0)%nat.
Proof.
  unfold callbacks. cbn. rewrite List.filter_app, length_app. cbn. destruct (is_callback id o); cbn; lia.
Qed.

Section callbacks.
Context {C : JsonCodec} (date_of_string : string → option Z) (id : nat).

Lemma same_put o : is_callback id o = false → steps (same_callbacks id) (put o).
Proof. intros Ho c. unfold same_callbacks. rewrite callbacks_put, Ho. lia. Qed.

Lemma same_modify f :
  (∀ c, m_logCallback (f c) = m_logCallback c ∧ out (f c) = out c) →
  steps (same_callbacks id) (modify f).
Proof. intros Hf c. unfold same_callbacks, callbacks. cbn. by destruct (Hf c) as [-> ->]. Qed.

Ltac callback_tac := steps_tac; first [apply same_put; reflexivity | apply same_modify; by intros | idtac].

Lemma same_flush : steps (same_callbacks id) flush_callback.
Proof.
  intros c. unfold flush_callback. rewrite bind_run. cbn [get fst snd].
  destruct (m_logCallback c) as [f|] eqn:E; [|done]. rewrite bind_run. unfold same_callbacks, callbacks. cbn.
  rewrite E, List.filter_app, length_app. cbn. destruct (Nat.eqb f id); cbn; lia.
Qed.

Lemma same_message_logs obj : steps (same_callbacks id) (message_logs obj).
Proof.
  intros c. unfold message_logs. rewrite bind_run. cbn [get fst snd].
  destruct (m_logCallback c) as [f|] eqn:E; [|done]. cbv zeta. rewrite bind_run.
  unfold same_callbacks, callbacks. cbn. rewrite E, List.filter_app, length_app. cbn. destruct (Nat.eqb f id); cbn; lia.
Qed.

Lemma same_checkStatus : steps (same_callbacks id) checkStatus.
Proof. unfold checkStatus. callback_tac. Qed.

Lemma same_disconnectInternal : steps (same_callbacks id) disconnectInternal.
Proof. unfold disconnectInternal. callback_tac. Qed.

Lemma same_parse_type type obj : steps (same_callbacks id) (parse_type date_of_string type obj).
Proof.
  unfold parse_type, status_initial, status_ready, message_connected.
  pose proof (same_message_logs obj). pose proof same_checkStatus. pose proof same_disconnectInternal.
  callback_tac.
Qed.

Lemma same_handle e :
  is_request id e = false → steps (same_callbacks id) (handle date_of_string e).
Proof.
  pose proof same_flush. pose proof same_checkStatus. pose proof same_disconnectInternal.
  pose proof same_parse_type.
  intros He. destruct e; cbn [handle];
    unfold initialize, initializeInternal, errorOccurred, initializing_timeout, initializeInternal,
      daemonConnected, activate, deactivate, cleanupBackendLogs, parseCommand; try solve [callback_tac; auto].
  intros c. unfold getBackendLogs. rewrite !bind_run. cbn [get fst snd].
  assert (callbacks id (flush_callback c).2 = callbacks id c) as Hf by apply same_flush.
  assert (m_logCallback (flush_callback c).2 = None) as Hn.
  { unfold flush_callback. rewrite bind_run. cbn. by destruct (m_logCallback c) eqn:E. }
  set (c1 := (flush_callback c).2) in *. unfold same_callbacks. rewrite <- Hf. cbn in He.
  case_decide; rewrite ?bind_run; unfold callbacks; cbn; rewrite Hn, List.filter_app, length_app; cbn; rewrite He; cbn; lia.
Qed.

Lemma request_handle c : callbacks id (handle date_of_string (EvGetLogs id) c).2 = S (callbacks id c).
Proof.
  cbn [handle]. unfold getBackendLogs. rewrite !bind_run. cbn [get fst snd].
  assert (callbacks id (flush_callback c).2 = callbacks id c) as Hf by apply same_flush.
  assert (m_logCallback (flush_callback c).2 = None) as Hn.
  { unfold flush_callback. rewrite bind_run. cbn. by destruct (m_logCallback c) eqn:E. }
  set (c1 := (flush_callback c).2) in *. rewrite <- Hf.
  case_decide; rewrite ?bind_run; unfold callbacks; cbn; rewrite Hn, List.filter_app, length_app; cbn;
    rewrite Nat.eqb_refl; cbn; lia.
Qed.

Lemma callbacks_run es c :
  callbacks id (for_each es (handle date_of_string) c).2 =
  (callbacks id c + length (List.filter (is_request id) es))%nat.
Proof.
  revert c. induction es as [|e es IH]; intros c; [cbn; lia|].
  cbn [for_each List.filter]. rewrite bind_run, IH.
  destruct (is_request id e) eqn:E.
  - destruct e; try done. cbn in E. apply Nat.eqb_eq in E as ->. rewrite request_handle. cbn. lia.
  - rewrite (same_handle e E c). done.
Qed.
End callbacks.

(** A log request is answered once: over any sequence of events, each
    callback has been called exactly as often as it was passed to
    [getBackendLogs], not counting the one still waiting for the daemon. *)
Theorem log_callbacks_once {C : JsonCodec} date_of_string es id :
  callbacks id (run_state (for_each es (handle date_of_string)) new_controller) =
  length (List.filter (is_request id) es).
Proof. unfold run_state. by rewrite callbacks_run. Qed.
