(* ===== verification/DaemonConnection.v ===== *)
(** * DaemonConnection: the daemon's end of the socket, and the two ends together

    Models [client/daemon/daemonlocalserverconnection.cpp]: the dispatch of a
    client's command on the daemon and the messages written back.  The last part
    runs the client's controller on the daemon's replies. *)
From S2P Require Import Prelude Text Json IpAddress InterfaceConfig Qt DaemonConfig Daemon Wire LocalSocketController.

(** ** State *)
Record Connection := mkConnection {
  daemon : Daemon.Daemon;
  written : list (gmap string json);
}.

#[local] Abbreviation K := (stM Connection).

Definition reply (o : gmap string json) : K unit :=
  modify (λ k, mkConnection (daemon k) (written k ++ [o])).

(** ** Messages *)
Definition message_connected (pubkey : string) : gmap string json :=
  <["pubkey" := JString pubkey]> (<["type" := JString "connected"]> ∅).
Definition message_disconnected : gmap string json := typed "disconnected".
Definition message_backendFailure (err : Z) : gmap string json :=
  <["errorCode" := JInt err]> (<["type" := JString "backendFailure"]> ∅).
Definition message_logs (logs : string) : gmap string json :=
  <["logs" := JString logs]> (<["type" := JString "logs"]> ∅).

(** The daemon's signals connected to the connection's slots. *)
Definition forwarded (e : event) : option (gmap string json) :=
  match e with
  | Emitted (connected pubkey) => Some (message_connected pubkey)
  | Emitted disconnected => Some message_disconnected
  | _ => None
  end.

(** A daemon operation, its signals delivered as they are emitted. *)
Definition on_daemon {A} (m : stM Daemon.Daemon A) : K A := λ k,
  let '(a, d) := m (daemon k) in
  (a, mkConnection d (written k ++ omap forwarded (drop (length (log (daemon k))) (log d)))).

(** ** Dispatch *)
Section dispatch.
Context {Q : Qt} {P : Platform} {C : JsonCodec} (os : platform).

(** [Daemon::logs()] is empty. *)
Definition daemon_logs : string := "".

(** The configuration of a command, with [m_hopType] and [m_killSwitchEnabled]
    as the stack left them. *)
Definition command_activate (h : HopType) (ks : bool) (obj : gmap string json) : K unit :=
  match parseConfig os obj (new_config h ks) with
  | None => reply message_disconnected
  | Some config =>
      ok ← on_daemon (Daemon.activate config);
      if negb (ok : bool) then reply message_disconnected else mret tt
  end.

Definition command_status : K unit :=
  obj ← on_daemon getStatus;
  reply (<["type" := JString "status"]> obj).

Definition parse_type (h : HopType) (ks : bool) (type : string) (obj : gmap string json) : K unit :=
  if String.eqb type "logs" then reply (message_logs "")
  else if String.eqb type "activate" then command_activate h ks obj
  else if String.eqb type "deactivate" then discard (on_daemon (Daemon.deactivate true))
  else if String.eqb type "status" then command_status
  else if String.eqb type "logs"
  then reply (message_logs (replace_char newline (Ascii.ascii_of_nat 124) daemon_logs))
  else mret tt.

Definition parseCommand (h : HopType) (ks : bool) (data : string) : K unit :=
  match fromJson data with
  | Some (JObject obj) =>
      match value obj "type" with
      | Some (JString type) => parse_type h ks type obj
      | _ => mret tt
      end
  | _ => mret tt
  end.

(** [readData]: the complete lines, each dispatched. *)
Definition readData (h : HopType) (ks : bool) (buffer : string) (chunks : list string) :
    K (option string) :=
  match server_readData buffer chunks with
  | Some (cs, rest) => _ ← for_each cs (parseCommand h ks); mret (Some rest)
  | None => mret None
  end.
End dispatch.

(** ** An activation never signals [disconnected] itself *)
Definition not_disconnected (e : event) : Prop := e ≠ Emitted disconnected.

Section no_disconnected.
Context {Q : Qt} {P : Platform}.

Ltac silent :=
  steps_tac; first
    [ apply grows_silent; reflexivity
    | apply grows_call; done
    | apply grows_logged; discriminate
    | intros ?; eexists [_]; split; [reflexivity|by repeat constructor]
    | idtac ].

Lemma silent_add ip : steps (grows not_disconnected) (addExclusionRoute ip).
Proof. unfold addExclusionRoute. silent. Qed.
Lemma silent_del ip : steps (grows not_disconnected) (delExclusionRoute ip).
Proof. unfold delExclusionRoute. silent. Qed.
Lemma silent_clear : steps (grows not_disconnected) clear_exclusions.
Proof. unfold clear_exclusions. silent. Qed.

Lemma silent_deactivate : steps (grows not_disconnected) (Daemon.deactivate false).
Proof. pose proof silent_clear. unfold Daemon.deactivate. silent. Qed.

Lemma silent_switch c : steps (grows not_disconnected) (activate_switch c).
Proof.
  pose proof silent_add. pose proof silent_del.
  unfold activate_switch, switchServer, maybeUpdateResolvers, established. silent; auto.
Qed.
Lemma silent_new c : steps (grows not_disconnected) (activate_new c).
Proof.
  pose proof silent_add.
  unfold activate_new, query_interface, maybeUpdateResolvers, established. silent; auto.
Qed.

Lemma silent_activate_fuel n c : steps (grows not_disconnected) (activate_fuel n c).
Proof.
  revert c. induction n as [|n IH]; intros c; cbn [activate_fuel]; [silent|].
  unfold activate_body. pose proof (IH c). pose proof silent_deactivate.
  pose proof (silent_switch c). pose proof (silent_new c). silent.
Qed.
End no_disconnected.

Lemma forwarded_disconnected l :
  Forall not_disconnected l → message_disconnected ∉ omap forwarded l.
Proof.
  intros Hl Hin. apply list_elem_of_omap in Hin as (e & He & Hf). rewrite Forall_forall in Hl.
  specialize (Hl e He). destruct e as [| | |[]]; try done.
Qed.

Lemma on_daemon_run {A} (m : stM Daemon.Daemon A) k ok d' new :
  m (daemon k) = (ok, d') → log d' = log (daemon k) ++ new →
  on_daemon m k = (ok, mkConnection d' (written k ++ omap forwarded new)).
Proof.
  intros Hm Hl. unfold on_daemon. rewrite Hm, Hl. by rewrite drop_app_length.
Qed.

(** The client's controller that has just connected. *)
Definition controller_connected : Controller :=
  mkController eInitializing 0 false None None [ConnectToServer].
Definition controller_ready (device : qstring) : Controller := mkController eReady 0 false device None [].

(** ** Properties *)

(** The client learns the outcome of its activation request: the daemon
    writes a [disconnected] message exactly when the request is refused or the
    activation fails. *)
Theorem activation_failure_reported `{Qt} `{Platform} os h ks obj k :
  let k' := (command_activate os h ks obj k).2 in
  ∃ new, written k' = written k ++ new ∧
    (message_disconnected ∈ new ↔
     ∀ config, parseConfig os obj (new_config h ks) = Some config →
               (Daemon.activate config (daemon k)).1 = false).
Proof.
  cbv zeta. unfold command_activate.
  destruct (parseConfig os obj (new_config h ks)) as [config|].
  2: { exists [message_disconnected]. split; [done|]. split; [done|]. intros _. left. }
  destruct (silent_activate_fuel 2 config (daemon k)) as (new & Hl & Hn).
  destruct (activate_fuel 2 config (daemon k)) as [ok d'] eqn:E. cbn in Hl.
  rewrite bind_run. rewrite (on_daemon_run (Daemon.activate config) k ok d' new E Hl). cbn [fst snd].
  change (activate_fuel 2 config (daemon k)) with (Daemon.activate config (daemon k)) in E.
  apply forwarded_disconnected in Hn. destruct ok; cbn [negb].
  - exists (omap forwarded new). split; [done|]. split; [done|].
    intros Hc. specialize (Hc config eq_refl). by rewrite E in Hc.
  - exists (omap forwarded new ++ [message_disconnected]). rewrite app_assoc. split; [done|].
    split.
    + intros _ config' [= <-]. by rewrite E.
    + intros _. apply elem_of_app. right. by apply list_elem_of_singleton.
Qed.

(** ** Status, from the daemon to the client *)
Definition established_with (c : ConnectionState) (st : PeerStatus) (d : Daemon.Daemon) `{Platform} : Prop :=
  interfaceExists (log d) = true ∧
  (∃ h l, connections d = (h, c) :: l) ∧
  List.find (is_peer_of c) (getPeerStatus (log d ++ [AskedInterface])) = Some st.

Lemma getStatus_established `{Qt} `{Platform} c st d :
  established_with c st d → (getStatus d).1 = status_connected c st.
Proof.
  intros (Hi & (h & l & Hc) & Hf). unfold getStatus. rewrite bind_run.
  unfold query_interface. rewrite !bind_run. cbn [get fst snd mret stM_ret logged modify].
  rewrite Hi.
  assert (connections (mkDaemon (m_connections d) (m_excludedAddrSet d) (m_handshakeTimer d)
    (m_livenessTimer d) (log d ++ [AskedInterface])) = (h, c) :: l) as -> by exact Hc.
  rewrite bind_run. unfold query_peers. rewrite !bind_run. cbn [get fst snd mret stM_ret logged modify log].
  by rewrite Hf.
Qed.

(** The status message as written. *)
Definition status_message (o : gmap string json) : gmap string json := <["type" := JString "status"]> o.

Lemma command_status_written `{Qt} `{Platform} k :
  ∃ new, written (command_status k).2 = written k ++ new ++ [status_message (getStatus (daemon k)).1].
Proof.
  unfold command_status. rewrite bind_run. unfold on_daemon.
  destruct (getStatus (daemon k)) as [o d']. cbn. eexists. by rewrite app_assoc.
Qed.

Lemma status_message_other o k : k ≠ "type" → value (status_message o) k = value o k.
Proof. intros Hk. unfold status_message, value. by apply lookup_insert_ne. Qed.

(** The members of a status reply. *)
Lemma status_connected_members `{Platform} c st :
  let o := status_message (status_connected c st) in
  value o "connected" = Some (JBool true) ∧ value o "date" = Some (JString (date_toString (m_date c))) ∧
  value o "serverIpv4Gateway" = Some (JQString (m_serverIpv4Gateway (m_config c))) ∧
  value o "deviceIpv4Address" = Some (JQString (m_deviceIpv4Address (m_config c))) ∧
  value o "txBytes" = Some (JInt (m_txBytes st)) ∧ value o "rxBytes" = Some (JInt (m_rxBytes st)).
Proof.
  cbv zeta. rewrite !status_message_other by done. unfold status_connected.
  split_and!; rewrite !value_insert;
    repeat (first [rewrite decide_True by done | rewrite decide_False by done]; rewrite ?value_insert); done.
Qed.

(** A ready client shows what the daemon measured: on the status reply of an
    established connection it signals [statusUpdated] with the gateway, the
    device address and the byte counters of the peer. *)
Theorem status_shown `{Qt} `{Platform} date_of_string c st d device :
  established_with c st d →
  out (LocalSocketController.parse_type date_of_string "status" (status_message (getStatus d).1)
         (controller_ready device)).2 =
  [StatusUpdated (str (m_serverIpv4Gateway (m_config c))) (str (m_deviceIpv4Address (m_config c)))
     (inject_Z (m_txBytes st)) (inject_Z (m_rxBytes st))].
Proof.
  intros He. rewrite (getStatus_established c st d He).
  destruct (status_connected_members c st) as (_ & _ & Hg & Hd & Ht & Hr).
  unfold LocalSocketController.parse_type. rewrite bind_run. cbn [get fst snd]. cbn -[status_message].
  unfold status_ready. by rewrite Hg, Hd, Ht, Hr.
Qed.

(** A platform whose only peer is the configuration's, and a daemon on it. *)
Lemma status_shown_witness :
  ∃ d, out (LocalSocketController.parse_type (λ _, None) "status" (status_message (@getStatus live_platform d).1)
         (controller_ready None)).2 =
       [StatusUpdated "10.8.0.1" "10.8.0.2" (inject_Z 20) (inject_Z 10)].
Proof.
  exists established_daemon.
  apply (@status_shown plain_qt live_platform (λ _, None) (mkConnectionState (Some 1000) demo_config 0 0 0 0)
           (mkPeerStatus "peer" 1000 10 20) established_daemon None).
  split; [reflexivity|]. split; [|vm_compute; reflexivity].
  exists SingleHop, []. vm_compute. reflexivity.
Defined.

(** A client that connects while a tunnel awaits its handshake is never
    told: the daemon already reports [connected] and writes the invalid date as
    an empty text, which the client's first status rejects after it has become
    ready, so [initialized] is not signalled; once the handshake date is valid
    it is. *)
Theorem first_status `{Qt} `{Platform} date_of_string c st d :
  established_with c st d →
  let r := (LocalSocketController.parse_type date_of_string "status" (status_message (getStatus d).1)
              controller_connected).2 in
  m_daemonState r = eReady ∧
  out r = match date_of_string (date_toString (m_date c)) with
          | Some t => [ConnectToServer; Initialized true true (Some t)]
          | None => [ConnectToServer]
          end.
Proof.
  intros He. cbv zeta. rewrite (getStatus_established c st d He).
  destruct (status_connected_members c st) as (Hc & Hd & _).
  unfold LocalSocketController.parse_type. rewrite bind_run. cbn [get fst snd].
  change (bool_decide (m_daemonState controller_connected = eInitializing) && String.eqb "status" "status") with true.
  cbv iota. unfold status_initial. rewrite bind_run. cbv zeta.
  rewrite Hc, Hd. cbn. by destruct (date_of_string _).
Qed.

(** The daemon whose connection awaits its handshake. *)
Definition pending_daemon : Daemon.Daemon :=
  mkDaemon {[SingleHop := fresh demo_config]} ∅ true false [].

Lemma first_status_witness :
  out (LocalSocketController.parse_type (λ s, if String.eqb s "" then None else Some 0) "status"
         (status_message (@getStatus live_platform pending_daemon).1) controller_connected).2 = [ConnectToServer].
Proof.
  apply (@first_status plain_qt live_platform (λ s, if String.eqb s "" then None else Some 0) (fresh demo_config)
           (mkPeerStatus "peer" 1000 10 20) pending_daemon).
  split; [reflexivity|]. split; [|vm_compute; reflexivity].
  exists SingleHop, []. vm_compute. reflexivity.
Defined.
