(* ===== verification/LinuxFirewall.v ===== *)
(** * LinuxFirewall: the kill switch's iptables rules

    Models [client/platforms/linux/daemon/linuxfirewall.cpp]: every operation as
    the sequence of shell commands it executes, each command a constructor whose
    exact text is [shell].  Running a command is bash's and iptables', an
    interface ([Iptables]); what iptables documents of the commands used is
    [interp] on the rule chains, the law an instance must satisfy.  The
    specification reads the chains as an ordered list of anchors, each on or off
    ([policy]). *)
From stdpp Require Import pretty.
From S2P Require Import Prelude Text.

(** ** Names *)
Inductive IPVersion := IPv4 | IPv6 | Both.
#[export] Instance IPVersion_eq_dec : EqDecision IPVersion.
Proof. solve_decision. Defined.

Definition kAnchorName : string := "amnvpn".
Definition kPacketTag : string := "0x3211".
Definition kCGroupId : string := "0x567".
Definition kRtableName : string := kAnchorName +:+ "rt".
Definition kOutputChain : string := "OUTPUT".
Definition kPostRoutingChain : string := "POSTROUTING".
Definition kPreRoutingChain : string := "PREROUTING".
Definition kRootChain : string := kAnchorName +:+ ".anchors".
Definition kFilterTable : string := "filter".
Definition kNatTable : string := "nat".
Definition kRawTable : string := "raw".
Definition kMangleTable : string := "mangle".
Definition xrayTrafficMark : Z := 130.

Definition getCommand (ip : IPVersion) : string :=
  if decide (ip = IPv6) then "ip6tables" else "iptables".

Definition anchor_chain (anchor : string) : string := kAnchorName +:+ ".a." +:+ anchor.
Definition actual_chain (anchor : string) : string := kAnchorName +:+ "." +:+ anchor.

(** ** Commands *)
Inductive command :=
  | CreateChain (ip : IPVersion) (chain table : string)
  | DeleteChain (ip : IPVersion) (chain table : string)
  | LinkFirst (ip : IPVersion) (parent chain table : string)
  | LinkLast (ip : IPVersion) (parent chain table : string)
  | Unlink (ip : IPVersion) (parent chain table : string)
  | AppendRule (ip : IPVersion) (chain rule table : string)
  | TestRoot
  | EnableAnchor (ip : IPVersion) (anchor table : string)
  | DisableAnchor (ip : IPVersion) (anchor table : string)
  | TestAnchor (ip : IPVersion) (anchor table : string)
  | ReplaceRule (ip : IPVersion) (anchor rule table : string)
  | FlushAnchor (anchor : string)
  | AppendAnchor (anchor rule : string)
  | MakeCGroup
  | AddIpRule
  | DeleteIpRule
  | FlushRoutes
  | FlushRouteCache.

Definition dq : string := String (Ascii.ascii_of_nat 34) "".
Definition cGroupDir : string := "/sys/fs/cgroup/net_cls/amnvpnexclusions/".

(** The family a message shows. *)
Definition ipStr (ip : IPVersion) : string := if decide (ip = IPv6) then "(IPv6)" else "(IPv4)".

(** The text given to [/bin/bash -c]. *)
Definition shell (c : command) : string :=
  match c with
  | CreateChain ip chain table =>
      let cmd := getCommand ip in
      cmd +:+ " -N " +:+ chain +:+ " -t " +:+ table +:+ " || " +:+ cmd +:+ " -F " +:+ chain +:+ " -t " +:+ table
  | DeleteChain ip chain table =>
      let cmd := getCommand ip in
      "if " +:+ cmd +:+ " -L " +:+ chain +:+ " -n -t " +:+ table +:+ " > /dev/null 2> /dev/null ; then " +:+
      cmd +:+ " -F " +:+ chain +:+ " -t " +:+ table +:+ " && " +:+ cmd +:+ " -X " +:+ chain +:+ " -t " +:+ table +:+ "; fi"
  | LinkFirst ip parent chain table =>
      let cmd := getCommand ip in
      "if ! " +:+ cmd +:+ " -L " +:+ parent +:+ " -n --line-numbers -t " +:+ table +:+
      " 2> /dev/null | awk 'int($1) == 1 && $2 == " +:+ dq +:+ chain +:+ dq +:+
      " { found=1 } END { if(found==1) { exit 0 } else { exit 1 } }' ; then " +:+
      cmd +:+ " -I " +:+ parent +:+ " -j " +:+ chain +:+ " -t " +:+ table +:+ " && " +:+
      cmd +:+ " -L " +:+ parent +:+ " -n --line-numbers -t " +:+ table +:+
      " 2> /dev/null | awk 'int($1) > 1 && $2 == " +:+ dq +:+ chain +:+ dq +:+
      " { print $1; exit }' | xargs " +:+ cmd +:+ " -t " +:+ table +:+ " -D " +:+ parent +:+ " ; fi"
  | LinkLast ip parent chain table =>
      let cmd := getCommand ip in
      "if ! " +:+ cmd +:+ " -C " +:+ parent +:+ " -j " +:+ chain +:+ " -t " +:+ table +:+ " 2> /dev/null ; then " +:+
      cmd +:+ " -A " +:+ parent +:+ " -j " +:+ chain +:+ " -t " +:+ table +:+ "; fi"
  | Unlink ip parent chain table =>
      let cmd := getCommand ip in
      "if " +:+ cmd +:+ " -C " +:+ parent +:+ " -j " +:+ chain +:+ " -t " +:+ table +:+ " 2> /dev/null ; then " +:+
      cmd +:+ " -D " +:+ parent +:+ " -j " +:+ chain +:+ " -t " +:+ table +:+ "; fi"
  | AppendRule ip chain rule table =>
      getCommand ip +:+ " -A " +:+ chain +:+ " " +:+ rule +:+ " -t " +:+ table
  | TestRoot => "iptables -C " +:+ kOutputChain +:+ " -j " +:+ kRootChain +:+ " 2> /dev/null"
  | EnableAnchor ip anchor table =>
      let cmd := getCommand ip in
      "if " +:+ cmd +:+ " -C " +:+ anchor_chain anchor +:+ " -j " +:+ actual_chain anchor +:+ " -t " +:+ table +:+
      " 2> /dev/null ; then echo '" +:+ anchor +:+ ipStr ip +:+ ": ON' ; else echo '" +:+ anchor +:+ ipStr ip +:+
      ": OFF -> ON' ; " +:+ cmd +:+ " -A " +:+ anchor_chain anchor +:+ " -j " +:+ actual_chain anchor +:+
      " -t " +:+ table +:+ "; fi"
  | DisableAnchor ip anchor table =>
      let cmd := getCommand ip in
      "if ! " +:+ cmd +:+ " -C " +:+ anchor_chain anchor +:+ " -j " +:+ actual_chain anchor +:+ " -t " +:+ table +:+
      " 2> /dev/null ; then echo '" +:+ anchor +:+ ipStr ip +:+ ": OFF' ; else echo '" +:+ anchor +:+ ipStr ip +:+
      ": ON -> OFF' ; " +:+ cmd +:+ " -F " +:+ anchor_chain anchor +:+ " -t " +:+ table +:+ "; fi"
  | TestAnchor ip anchor table =>
      getCommand ip +:+ " -C " +:+ anchor_chain anchor +:+ " -j " +:+ actual_chain anchor +:+ " -t " +:+ table +:+
      " 2> /dev/null"
  | ReplaceRule ip anchor rule table =>
      getCommand ip +:+ " -R " +:+ actual_chain anchor +:+ " 1 " +:+ rule +:+ " -t " +:+ table +:+
      " ; echo 'Replaced rule " +:+ actual_chain anchor +:+ " " +:+ ipStr ip +:+ " with " +:+ rule +:+ "'"
  | FlushAnchor anchor => "iptables -F " +:+ actual_chain anchor
  | AppendAnchor anchor rule => "iptables -A " +:+ actual_chain anchor +:+ " " +:+ rule
  | MakeCGroup =>
      "if [ ! -d " +:+ cGroupDir +:+ " ] ; then mkdir " +:+ cGroupDir +:+ " ; sleep 0.1 ; echo " +:+ kCGroupId +:+
      " > " +:+ cGroupDir +:+ "/net_cls.classid ; fi"
  | AddIpRule =>
      "if ! ip rule list | grep -q " +:+ kPacketTag +:+ " ; then ip rule add from all fwmark " +:+ kPacketTag +:+
      " lookup " +:+ kRtableName +:+ " pri 100 ; fi"
  | DeleteIpRule =>
      "if ip rule list | grep -q " +:+ kPacketTag +:+ "; then ip rule del from all fwmark " +:+ kPacketTag +:+
      " lookup " +:+ kRtableName +:+ " 2> /dev/null ; fi"
  | FlushRoutes => "ip route flush table " +:+ kRtableName
  | FlushRouteCache => "ip route flush cache"
  end.

(** ** The environment *)
Inductive entry := Jump (chain : string) | Rule (rule : string).
#[export] Instance entry_eq_dec : EqDecision entry.
Proof. solve_decision. Defined.

(** The chains of the packet filter: per family (not [Both]), table and name. *)
Definition chains : Type := IPVersion → string → string → option (list entry).

Class Iptables (W : Type) := {
  (** Bash runs the text of the command; its exit status. *)
  run_shell : command → W → Z * W;
  view : W → chains;
}.

(** Callbacks registered with an anchor. *)
Inductive callback := CbSetup | CbTeardown.

Record Firewall (W : Type) := mkFirewall {
  world : W;
  anchorCallbacks : gmap string callback;
}.
Arguments mkFirewall {W}.
Arguments world {W}.
Arguments anchorCallbacks {W}.

(** ** Operations *)
Section operations.
Context {W : Type} {I : Iptables W}.
#[local] Abbreviation F := (stM (Firewall W)).

Definition execute (c : command) : F Z := λ s,
  let '(code, w) := run_shell c (world s) in (code, mkFirewall w (anchorCallbacks s)).

(** An operation on [Both] is done for IPv4, then for IPv6; the first
    unsuccessful result counts. *)
Definition on_both (ip : IPVersion) (f : IPVersion → F Z) : F Z :=
  match ip with
  | Both => result4 ← f IPv4; result6 ← f IPv6; mret (if result4 =? 0 then result6 else result4)
  | _ => f ip
  end.
Definition on_both_ (ip : IPVersion) (f : IPVersion → F unit) : F unit :=
  match ip with
  | Both => _ ← f IPv4; f IPv6
  | _ => f ip
  end.

Definition createChain (ip : IPVersion) (chain table : string) : F Z :=
  on_both ip (λ ip, execute (CreateChain ip chain table)).
Definition deleteChain (ip : IPVersion) (chain table : string) : F Z :=
  on_both ip (λ ip, execute (DeleteChain ip chain table)).
Definition linkChain (ip : IPVersion) (chain parent : string) (mustBeFirst : bool) (table : string) : F Z :=
  on_both ip (λ ip, execute (if mustBeFirst then LinkFirst ip parent chain table
                             else LinkLast ip parent chain table)).
Definition unlinkChain (ip : IPVersion) (chain parent table : string) : F Z :=
  on_both ip (λ ip, execute (Unlink ip parent chain table)).

Definition ensureRootAnchorPriority (ip : IPVersion) : F unit :=
  discard (linkChain ip kRootChain kOutputChain true kFilterTable).

(** ** Traffic splitting *)
Definition setupTrafficSplitting : F unit :=
  _ ← execute MakeCGroup; discard (execute AddIpRule).
Definition teardownTrafficSplitting : F unit :=
  _ ← execute DeleteIpRule; _ ← execute FlushRoutes; discard (execute FlushRouteCache).

Definition run_callback (f : callback) : F unit :=
  match f with CbSetup => setupTrafficSplitting | CbTeardown => teardownTrafficSplitting end.

(** ** Anchors *)
Definition enabledKey (table anchor : string) : string := "enabled:" +:+ table +:+ ":" +:+ anchor.
Definition disabledKey (table anchor : string) : string := "disabled:" +:+ table +:+ ":" +:+ anchor.

Definition register (key : string) (f : option callback) : F unit :=
  match f with
  | None => mret tt
  | Some f => modify (λ s, mkFirewall (world s)
                (match anchorCallbacks s !! key with
                 | Some _ => anchorCallbacks s
                 | None => <[key := f]> (anchorCallbacks s)
                 end))
  end.

Definition installAnchor_one (anchor : string) (rules : list string) (table : string)
    (enableFunc disableFunc : option callback) (ip : IPVersion) : F unit :=
  _ ← createChain ip (anchor_chain anchor) table;
  _ ← linkChain ip (anchor_chain anchor) kRootChain false table;
  _ ← register (enabledKey table anchor) enableFunc;
  _ ← register (disabledKey table anchor) disableFunc;
  _ ← createChain ip (actual_chain anchor) table;
  for_each rules (λ rule, discard (execute (AppendRule ip (actual_chain anchor) rule table))).

Definition installAnchor (ip : IPVersion) (anchor : string) (rules : list string) (table : string)
    (enableFunc disableFunc : option callback) : F unit :=
  on_both_ ip (installAnchor_one anchor rules table enableFunc disableFunc).

Definition uninstallAnchor (ip : IPVersion) (anchor table : string) : F unit :=
  on_both_ ip (λ ip,
    _ ← unlinkChain ip (anchor_chain anchor) kRootChain table;
    _ ← deleteChain ip (anchor_chain anchor) table;
    discard (deleteChain ip (actual_chain anchor) table)).

Definition enableAnchor (ip : IPVersion) (anchor table : string) : F unit :=
  on_both_ ip (λ ip, discard (execute (EnableAnchor ip anchor table))).
Definition disableAnchor (ip : IPVersion) (anchor table : string) : F unit :=
  on_both_ ip (λ ip, discard (execute (DisableAnchor ip anchor table))).
Definition replaceAnchor (ip : IPVersion) (anchor newRule table : string) : F unit :=
  on_both_ ip (λ ip, discard (execute (ReplaceRule ip anchor newRule table))).

Definition isAnchorEnabled (ip : IPVersion) (anchor table : string) : F bool :=
  code ← execute (TestAnchor ip anchor table); mret (code =? 0).

Definition isInstalled : F bool := code ← execute TestRoot; mret (code =? 0).

Definition call_registered (key : string) : F unit :=
  s ← get;
  match anchorCallbacks s !! key with Some f => run_callback f | None => mret tt end.

Definition setAnchorEnabled (ip : IPVersion) (anchor : string) (enabled : bool) (table : string) : F unit :=
  if enabled then
    _ ← enableAnchor ip anchor table; call_registered (enabledKey table anchor)
  else
    _ ← disableAnchor ip anchor table; call_registered (disabledKey table anchor).

(** ** Rules *)
Definition getDNSRules (servers : list string) : list string :=
  flat_map (λ server,
    ["-o abs0+ -d " +:+ server +:+ " -p udp --dport 53 -j ACCEPT";
     "-o abs0+ -d " +:+ server +:+ " -p tcp --dport 53 -j ACCEPT";
     "-o tun0+ -d " +:+ server +:+ " -p udp --dport 53 -j ACCEPT";
     "-o tun0+ -d " +:+ server +:+ " -p tcp --dport 53 -j ACCEPT";
     "-o tun2+ -d " +:+ server +:+ " -p udp --dport 53 -j ACCEPT";
     "-o tun2+ -d " +:+ server +:+ " -p tcp --dport 53 -j ACCEPT"]) servers.
Definition getAllowRule (servers : list string) : list string :=
  (λ server, "-d " +:+ server +:+ " -j ACCEPT") <$> servers.
Definition getBlockRule (servers : list string) : list string :=
  (λ server, "-d " +:+ server +:+ " -j REJECT") <$> servers.

Definition update_anchor (anchor : string) (rules : list string) : F unit :=
  _ ← execute (FlushAnchor anchor);
  for_each rules (λ rule, discard (execute (AppendAnchor anchor rule))).

Definition updateDNSServers (servers : list string) : F unit :=
  update_anchor "320.allowDNS" (getDNSRules servers).
Definition updateAllowNets (servers : list string) : F unit :=
  update_anchor "110.allowNets" (getAllowRule servers).
Definition updateBlockNets (servers : list string) : F unit :=
  update_anchor "120.blockNets" (getBlockRule servers).

(** ** Installation *)
Definition lan4 : list string :=
  ["-d 10.0.0.0/8 -j ACCEPT"; "-d 169.254.0.0/16 -j ACCEPT"; "-d 172.16.0.0/12 -j ACCEPT";
   "-d 192.168.0.0/16 -j ACCEPT"; "-d 224.0.0.0/4 -j ACCEPT"; "-d 255.255.255.255/32 -j ACCEPT"].
Definition lan6 : list string :=
  ["-d fc00::/7 -j ACCEPT"; "-d fe80::/10 -j ACCEPT"; "-d ff00::/8 -j ACCEPT"].

(** The filter anchors in the order they are installed. *)
Definition filter_anchors : list (IPVersion * string * list string) :=
  [(Both, "000.allowLoopback", ["-o lo+ -j ACCEPT"]);
   (IPv4, "320.allowDNS", []);
   (Both, "310.blockDNS", ["-p udp --dport 53 -j REJECT"; "-p tcp --dport 53 -j REJECT"]);
   (IPv4, "300.allowLAN", lan4);
   (IPv6, "300.allowLAN", lan6);
   (IPv4, "290.allowDHCP", ["-p udp -d 255.255.255.255 --sport 68 --dport 67 -j ACCEPT"]);
   (IPv6, "290.allowDHCP", ["-p udp -d ff00::/8 --sport 546 --dport 547 -j ACCEPT"]);
   (IPv6, "250.blockIPv6", ["! -o lo+ -j REJECT"]);
   (Both, "200.allowVPN", ["-o abs0+ -j ACCEPT"; "-o tun0+ -j ACCEPT"; "-o tun2+ -j ACCEPT"]);
   (Both, "130.allowMarkedXray", ["-m mark --mark " +:+ pretty xrayTrafficMark +:+ " -j ACCEPT"]);
   (IPv4, "120.blockNets", []);
   (IPv4, "110.allowNets", []);
   (Both, "100.blockAll", ["-j REJECT"])].

Definition uninstall_filter_anchors : F unit :=
  for_each
    [(Both, "000.allowLoopback"); (Both, "400.allowPIA"); (IPv4, "320.allowDNS"); (Both, "310.blockDNS");
     (Both, "300.allowLAN"); (Both, "290.allowDHCP"); (IPv6, "250.blockIPv6"); (Both, "200.allowVPN");
     (IPv4, "120.blockNets"); (Both, "130.allowMarkedXray"); (IPv4, "110.allowNets"); (Both, "100.blockAll")]
    (λ a, uninstallAnchor a.1 a.2 kFilterTable).

Definition uninstall : F unit :=
  _ ← unlinkChain Both kRootChain kOutputChain kFilterTable;
  _ ← deleteChain Both kRootChain kFilterTable;
  _ ← unlinkChain Both kRootChain kPreRoutingChain kRawTable;
  _ ← deleteChain Both kRootChain kRawTable;
  _ ← unlinkChain Both kRootChain kPostRoutingChain kNatTable;
  _ ← deleteChain Both kRootChain kNatTable;
  _ ← unlinkChain Both kRootChain kOutputChain kMangleTable;
  _ ← deleteChain Both kRootChain kMangleTable;
  _ ← uninstall_filter_anchors;
  _ ← uninstallAnchor Both "100.transIp" kNatTable;
  _ ← uninstallAnchor Both "100.tagPkts" kMangleTable;
  _ ← uninstallAnchor Both "100.vpnTunOnly" kRawTable;
  teardownTrafficSplitting.

Definition install_filter_anchors : F unit :=
  for_each filter_anchors (λ a, installAnchor a.1.1 a.1.2 a.2 kFilterTable None None).

Definition install : F unit :=
  _ ← uninstall;
  _ ← createChain Both kRootChain kFilterTable;
  _ ← createChain Both kRootChain kRawTable;
  _ ← createChain Both kRootChain kNatTable;
  _ ← createChain Both kRootChain kMangleTable;
  _ ← install_filter_anchors;
  _ ← installAnchor Both "100.transIp" ["-j MASQUERADE"] kNatTable None None;
  _ ← installAnchor Both "100.tagPkts"
        ["-m cgroup --cgroup " +:+ kCGroupId +:+ " -j MARK --set-mark " +:+ kPacketTag] kMangleTable
        (Some CbSetup) (Some CbTeardown);
  _ ← installAnchor Both "100.vpnTunOnly" ["-j ACCEPT"] kRawTable None None;
  _ ← linkChain Both kRootChain kOutputChain true kFilterTable;
  _ ← linkChain Both kRootChain kPostRoutingChain true kNatTable;
  _ ← linkChain Both kRootChain kOutputChain true kMangleTable;
  _ ← linkChain Both kRootChain kPreRoutingChain true kRawTable;
  setupTrafficSplitting.
End operations.

(** ** What iptables documents of the commands *)
Definition set_chain (ip : IPVersion) (table chain : string) (l : option (list entry)) (v : chains) : chains :=
  λ ip' table' chain', if decide (ip' = ip ∧ table' = table ∧ chain' = chain) then l else v ip' table' chain'.

(** Delete the first occurrence. *)
Fixpoint remove_first (e : entry) (l : list entry) : list entry :=
  match l with
  | [] => []
  | x :: l' => if decide (x = e) then l' else x :: remove_first e l'
  end.

(** Change an existing chain. *)
Definition on_chain (ip : IPVersion) (table chain : string) (f : list entry → list entry) (v : chains) : chains :=
  match v ip table chain with Some l => set_chain ip table chain (Some (f l)) v | None => v end.

(** A jump is added only to an existing chain. *)
Definition if_target (ip : IPVersion) (table chain : string) (v v' : chains) : chains :=
  match v ip table chain with Some _ => v' | None => v end.

(** [valid] tells the rules iptables accepts; [deleted] whether [-X] succeeded,
    which it does unless another chain refers to the chain. *)
Definition interp (valid : string → bool) (deleted : bool) (c : command) (v : chains) : chains :=
  match c with
  | CreateChain ip chain table => set_chain ip table chain (Some []) v
  | DeleteChain ip chain table =>
      if deleted then set_chain ip table chain None v else on_chain ip table chain (λ _, []) v
  | LinkFirst ip parent chain table =>
      if_target ip table chain v (on_chain ip table parent (λ l,
        match l with
        | x :: _ => if decide (x = Jump chain) then l else Jump chain :: remove_first (Jump chain) l
        | [] => [Jump chain]
        end) v)
  | LinkLast ip parent chain table =>
      if_target ip table chain v (on_chain ip table parent (λ l,
        if decide (Jump chain ∈ l) then l else l ++ [Jump chain]) v)
  | Unlink ip parent chain table => on_chain ip table parent (remove_first (Jump chain)) v
  | AppendRule ip chain rule table =>
      if valid rule then on_chain ip table chain (λ l, l ++ [Rule rule]) v else v
  | EnableAnchor ip anchor table =>
      if_target ip table (actual_chain anchor) v (on_chain ip table (anchor_chain anchor) (λ l,
        if decide (Jump (actual_chain anchor) ∈ l) then l else l ++ [Jump (actual_chain anchor)]) v)
  | DisableAnchor ip anchor table =>
      on_chain ip table (anchor_chain anchor) (λ l,
        if decide (Jump (actual_chain anchor) ∈ l) then [] else l) v
  | ReplaceRule ip anchor rule table =>
      if valid rule then on_chain ip table (actual_chain anchor) (λ l,
        match l with _ :: l' => Rule rule :: l' | [] => [] end) v else v
  | FlushAnchor anchor => on_chain IPv4 kFilterTable (actual_chain anchor) (λ _, []) v
  | AppendAnchor anchor rule =>
      if valid rule then on_chain IPv4 kFilterTable (actual_chain anchor) (λ l, l ++ [Rule rule]) v else v
  | TestRoot | TestAnchor _ _ _ | MakeCGroup | AddIpRule | DeleteIpRule | FlushRoutes | FlushRouteCache => v
  end.

(** Does the chain jump there? *)
Definition jumps (v : chains) (ip : IPVersion) (table parent chain : string) : Prop :=
  match v ip table parent with Some l => Jump chain ∈ l | None => False end.
#[export] Instance jumps_dec v ip table parent chain : Decision (jumps v ip table parent chain).
Proof. unfold jumps. destruct (v ip table parent); apply _. Defined.

(** The characters that bash takes as they are, [!] alone in a word included. *)
Definition plain_char (c : Ascii.ascii) : bool :=
  let n := Z.of_nat (Ascii.nat_of_ascii c) in
  ((48 <=? n) && (n <=? 57)) || ((65 <=? n) && (n <=? 90)) || ((97 <=? n) && (n <=? 122))
  || existsb (Ascii.eqb c) (String.list_ascii_of_string " ./:-+!_").
Definition plain (s : string) : bool := forallb plain_char (String.list_ascii_of_string s).

(** The commands whose text is what it looks like: a rule is spliced unquoted
    into a script, where [;], [$], a quote or a newline would start another
    command. *)
Definition plain_command (c : command) : bool :=
  match c with
  | AppendRule _ _ rule _ | ReplaceRule _ _ rule _ | AppendAnchor _ rule => plain rule
  | _ => true
  end.

(** The laws of the interface. *)
Record iptables_laws {W} (I : Iptables W) (valid : string → bool) : Prop := {
  law_run : ∀ c w, plain_command c = true → ∃ deleted, ∀ ip table chain,
    view (run_shell c w).2 ip table chain = interp valid deleted c (view w) ip table chain;
  law_root : ∀ w, (run_shell TestRoot w).1 = 0 ↔ jumps (view w) IPv4 kFilterTable kOutputChain kRootChain;
}.

(** ** Packets: the first rule that matches decides *)
Inductive verdict := Accept | Reject.

Section packets.
Context {packet : Type} (meaning : string → packet → option verdict).

Definition first_match {A} (f : A → option verdict) (l : list A) : option verdict :=
  foldr (λ x r, match f x with Some d => Some d | None => r end) None l.

Fixpoint traverse (depth : nat) (v : chains) (ip : IPVersion) (table chain : string) (p : packet) : option verdict :=
  match depth with
  | O => None
  | S depth =>
      match v ip table chain with
      | None => None
      | Some l => first_match (λ e, match e with
                                    | Rule r => meaning r p
                                    | Jump c => traverse depth v ip table c p
                                    end) l
      end
  end.
End packets.

(** ** The policy: which anchors are on, and the rules of the three that change *)
Record policy := mkPolicy {
  on : IPVersion → string → bool;
  dns_rules : list string;
  block_rules : list string;
  allow_rules : list string;
}.

(** The anchors of a family, in order, with their fixed rules. *)
Definition anchors_of (ip : IPVersion) : list (string * list string) :=
  omap (λ a, if decide (a.1.1 = ip ∨ a.1.1 = Both) then Some (a.1.2, a.2) else None) filter_anchors.

Definition rules_of (valid : string → bool) (p : policy) (ip : IPVersion) (a : string * list string) : list string :=
  if decide (ip = IPv4 ∧ a.1 = "320.allowDNS") then dns_rules p
  else if decide (ip = IPv4 ∧ a.1 = "120.blockNets") then block_rules p
  else if decide (ip = IPv4 ∧ a.1 = "110.allowNets") then allow_rules p
  else List.filter valid a.2.

Definition policy_verdict {packet} (meaning : string → packet → option verdict) (valid : string → bool)
    (p : policy) (ip : IPVersion) (pkt : packet) : option verdict :=
  first_match (λ a, if on p ip a.1 then first_match (λ r, meaning r pkt) (rules_of valid p ip a) else None)
    (anchors_of ip).

(** The chains of one family hold the policy. *)
Record holds (valid : string → bool) (v : chains) (p : policy) (ip : IPVersion) : Prop := {
  holds_output : ∃ rest, v ip kFilterTable kOutputChain = Some (Jump kRootChain :: rest);
  holds_root : v ip kFilterTable kRootChain = Some ((λ a, Jump (anchor_chain a.1)) <$> anchors_of ip);
  holds_anchor : ∀ a, a ∈ anchors_of ip →
    v ip kFilterTable (anchor_chain a.1) = Some (if on p ip a.1 then [Jump (actual_chain a.1)] else []);
  holds_rules : ∀ a, a ∈ anchors_of ip →
    v ip kFilterTable (actual_chain a.1) = Some (Rule <$> rules_of valid p ip a);
}.

Definition refines (valid : string → bool) (v : chains) (p : policy) : Prop :=
  holds valid v p IPv4 ∧ holds valid v p IPv6.

(** ** Chain names are distinct *)
Definition known_anchors : list string :=
  ["000.allowLoopback"; "320.allowDNS"; "310.blockDNS"; "300.allowLAN"; "290.allowDHCP"; "250.blockIPv6";
   "200.allowVPN"; "130.allowMarkedXray"; "120.blockNets"; "110.allowNets"; "100.blockAll"; "400.allowPIA"].

Lemma append_inj_r (a b c : string) : a +:+ b = a +:+ c → b = c.
Proof. induction a as [|ch a IH]; [done|]. rewrite !append_String. intros [= H]. auto. Qed.

Lemma anchor_chain_inj a b : anchor_chain a = anchor_chain b → a = b.
Proof. unfold anchor_chain. by intros H%append_inj_r%append_inj_r. Qed.
Lemma actual_chain_inj a b : actual_chain a = actual_chain b → a = b.
Proof. unfold actual_chain. by intros H%append_inj_r%append_inj_r. Qed.

Lemma known_cases (Q : string → Prop) a : a ∈ known_anchors → Forall Q known_anchors → Q a.
Proof. intros Ha HQ. rewrite Forall_forall in HQ. auto. Qed.

Lemma anchor_actual a b : b ∈ known_anchors → anchor_chain a ≠ actual_chain b.
Proof.
  intros Hb. apply (known_cases (λ b, anchor_chain a ≠ actual_chain b) b Hb).
  unfold anchor_chain, actual_chain, known_anchors. repeat constructor; cbn; discriminate.
Qed.
Lemma anchor_root a : anchor_chain a ≠ kRootChain.
Proof. unfold anchor_chain, kRootChain. cbn. discriminate. Qed.
Lemma anchor_output a : anchor_chain a ≠ kOutputChain.
Proof. unfold anchor_chain, kOutputChain. cbn. discriminate. Qed.
Lemma actual_root b : b ∈ known_anchors → actual_chain b ≠ kRootChain.
Proof.
  intros Hb. apply (known_cases (λ b, actual_chain b ≠ kRootChain) b Hb).
  unfold actual_chain, kRootChain, known_anchors. repeat constructor; cbn; discriminate.
Qed.
Lemma actual_output a : actual_chain a ≠ kOutputChain.
Proof. unfold actual_chain, kOutputChain. cbn. discriminate. Qed.

Lemma anchors_known ip a : a ∈ anchors_of ip → a.1 ∈ known_anchors.
Proof.
  intros Ha. apply list_elem_of_omap in Ha as (x & Hx & Hax). case_decide; [|done]. injection Hax as <-.
  cbn. assert (Forall (λ x : IPVersion * string * list string, x.1.2 ∈ known_anchors) filter_anchors) as Hall.
  { unfold filter_anchors. repeat constructor; cbn; unfold known_anchors; listed. }
  rewrite Forall_forall in Hall. auto.
Qed.

(** ** The policy decides *)
Section decide_packets.
Context {packet : Type} (meaning : string → packet → option verdict) (valid : string → bool).

Lemma first_match_ext {A} (f g : A → option verdict) l :
  (∀ x, x ∈ l → f x = g x) → first_match f l = first_match g l.
Proof.
  induction l as [|x l IH]; intros H; [done|]. cbn. rewrite (H x) by left.
  destruct (g x); [done|]. apply IH. intros; apply H; by right.
Qed.

Lemma first_match_fmap {A B} (f : B → option verdict) (h : A → B) l :
  first_match f (h <$> l) = first_match (λ x, f (h x)) l.
Proof.
  induction l as [|x l IH]; [done|].
  change (match f (h x) with Some d => Some d | None => first_match f (h <$> l) end =
          match f (h x) with Some d => Some d | None => first_match (λ x, f (h x)) l end).
  by rewrite IH.
Qed.

Lemma first_match_cons {A} (f : A → option verdict) x l :
  first_match f (x :: l) = match f x with Some d => Some d | None => first_match f l end.
Proof. done. Qed.

Lemma traverse_S depth v ip table chain pkt :
  traverse meaning (S depth) v ip table chain pkt =
  match v ip table chain with
  | None => None
  | Some l => first_match (λ e, match e with
                                | Rule r => meaning r pkt
                                | Jump c => traverse meaning depth v ip table c pkt
                                end) l
  end.
Proof. done. Qed.

(** The packet filter follows the policy, then the rest of OUTPUT. *)
Lemma holds_verdict v p ip pkt rest :
  holds valid v p ip → v ip kFilterTable kOutputChain = Some (Jump kRootChain :: rest) →
  traverse meaning 4 v ip kFilterTable kOutputChain pkt =
  match policy_verdict meaning valid p ip pkt with
  | Some d => Some d
  | None => first_match (λ e, match e with
                              | Rule r => meaning r pkt
                              | Jump c => traverse meaning 3 v ip kFilterTable c pkt
                              end) rest
  end.
Proof.
  intros [_ Hroot Hanchor Hrules] Hout. rewrite traverse_S, Hout, first_match_cons.
  assert (traverse meaning 3 v ip kFilterTable kRootChain pkt = policy_verdict meaning valid p ip pkt) as ->; [|done].
  rewrite traverse_S, Hroot, first_match_fmap. apply first_match_ext. intros a Ha.
  rewrite traverse_S, (Hanchor a Ha). destruct (on p ip a.1); [|done]. rewrite first_match_cons.
  rewrite traverse_S, (Hrules a Ha), first_match_fmap. by destruct (first_match _ _).
Qed.

Lemma first_match_app {A} (f : A → option verdict) l k :
  first_match f (l ++ k) = match first_match f l with Some d => Some d | None => first_match f k end.
Proof. induction l as [|x l IH]; [done|]. cbn. destruct (f x); [done|]. apply IH. Qed.

Lemma first_match_some {A} (f : A → option verdict) l d :
  first_match f l = Some d → ∃ x, x ∈ l ∧ f x = Some d.
Proof.
  induction l as [|x l IH]; [done|]. cbn. destruct (f x) eqn:E; intros H.
  - exists x. split; [by left|congruence].
  - destruct (IH H) as (y & Hy & Ey). exists y. split; [by right|done].
Qed.

Lemma first_match_none {A} (f : A → option verdict) l :
  first_match f l = None ↔ ∀ x, x ∈ l → f x = None.
Proof.
  induction l as [|x l IH]; [by split; [intros _ x []%elem_of_nil|]|]. cbn. split.
  - destruct (f x) eqn:E; [done|]. intros H y [->|Hy]%elem_of_cons; [done|]. by apply IH.
  - intros H. rewrite (H x) by left. apply IH. intros; apply H; by right.
Qed.

(** The rules that are on, in order. *)
Definition enabled_rules (p : policy) (ip : IPVersion) : list string :=
  flat_map (λ a, if on p ip a.1 then rules_of valid p ip a else []) (anchors_of ip).

Lemma policy_verdict_rules p ip pkt :
  policy_verdict meaning valid p ip pkt = first_match (λ r, meaning r pkt) (enabled_rules p ip).
Proof.
  unfold policy_verdict, enabled_rules. induction (anchors_of ip) as [|a l IH]; [done|].
  rewrite first_match_cons. cbn [flat_map]. rewrite first_match_app, IH. by destruct (on p ip a.1).
Qed.
End decide_packets.

(** ** The operations carry the policy *)
Definition set_on (ip : IPVersion) (anchor : string) (b : bool) (p : policy) : policy :=
  mkPolicy (λ ip' a, if decide ((ip' = ip ∨ ip = Both) ∧ a = anchor) then b else on p ip' a)
    (dns_rules p) (block_rules p) (allow_rules p).

(** Rewriting at the changed chain and elsewhere. *)
Lemma set_chain_eq ip t c l v : set_chain ip t c l v ip t c = l.
Proof. unfold set_chain. by rewrite decide_True. Qed.
Lemma set_chain_ne ip t c l v ip' t' c' :
  ip' ≠ ip ∨ t' ≠ t ∨ c' ≠ c → set_chain ip t c l v ip' t' c' = v ip' t' c'.
Proof. intros H. unfold set_chain. rewrite decide_False; [done|]. intros (? & ? & ?). naive_solver. Qed.

Lemma on_chain_eq ip t c f v : on_chain ip t c f v ip t c = f <$> v ip t c.
Proof. unfold on_chain. destruct (v ip t c) eqn:E; [apply set_chain_eq|done]. Qed.
Lemma on_chain_ne ip t c f v ip' t' c' :
  ip' ≠ ip ∨ t' ≠ t ∨ c' ≠ c → on_chain ip t c f v ip' t' c' = v ip' t' c'.
Proof. intros H. unfold on_chain. destruct (v ip t c); [by apply set_chain_ne|done]. Qed.

Section carry.
Context (valid : string → bool).

Lemma holds_ext v v' p ip :
  (∀ t c, v' ip t c = v ip t c) → holds valid v p ip → holds valid v' p ip.
Proof. intros E [Ho Hr Ha Hs]. split; setoid_rewrite E; done. Qed.

(** Changing the placeholder chain of one anchor. *)
Lemma holds_anchor_change (v v' : chains) p ip anchor (b : bool) :
  anchor ∈ known_anchors → holds valid v p ip →
  (∀ c, c ≠ anchor_chain anchor → v' ip kFilterTable c = v ip kFilterTable c) →
  (v ip kFilterTable (anchor_chain anchor) = Some (if on p ip anchor then [Jump (actual_chain anchor)] else []) →
   is_Some (v ip kFilterTable (actual_chain anchor)) →
   v' ip kFilterTable (anchor_chain anchor) = Some (if b then [Jump (actual_chain anchor)] else [])) →
  holds valid v' (set_on ip anchor b p) ip.
Proof.
  intros Hk [[rest Ho] Hr Ha Hs] Hother Hself. split.
  - exists rest. rewrite Hother; [done|]. apply not_eq_sym, anchor_output.
  - rewrite Hother; [done|]. apply not_eq_sym, anchor_root.
  - intros a Hin. cbn. destruct (decide (a.1 = anchor)) as [<-|Hne].
    + rewrite decide_True by auto. apply Hself; [by apply Ha|]. rewrite (Hs a Hin). eauto.
    + rewrite decide_False by naive_solver. rewrite Hother; [by apply Ha|].
      intros E%anchor_chain_inj. done.
  - intros a Hin. rewrite Hother; [by apply Hs|].
    apply not_eq_sym, anchor_actual. by apply anchors_known in Hin.
Qed.

Lemma holds_enable v v' p ip d anchor :
  anchor ∈ known_anchors → holds valid v p ip →
  (∀ t c, v' ip t c = interp valid d (EnableAnchor ip anchor kFilterTable) v ip t c) →
  holds valid v' (set_on ip anchor true p) ip.
Proof.
  intros Hk Hv E. apply (holds_anchor_change v v' p ip anchor true Hk Hv).
  - intros c Hc. rewrite E. cbn. unfold if_target.
    destruct (v ip kFilterTable (actual_chain anchor)); [|done]. apply on_chain_ne. auto.
  - intros Ha [l Hl]. rewrite E. cbn. unfold if_target. rewrite Hl, on_chain_eq, Ha. cbn. f_equal.
    destruct (on p ip anchor); [by rewrite decide_True by (by left)|].
    by rewrite decide_False by apply not_elem_of_nil.
Qed.

Lemma holds_disable v v' p ip d anchor :
  anchor ∈ known_anchors → holds valid v p ip →
  (∀ t c, v' ip t c = interp valid d (DisableAnchor ip anchor kFilterTable) v ip t c) →
  holds valid v' (set_on ip anchor false p) ip.
Proof.
  intros Hk Hv E. apply (holds_anchor_change v v' p ip anchor false Hk Hv).
  - intros c Hc. rewrite E. cbn. apply on_chain_ne. auto.
  - intros Ha _. rewrite E. cbn. rewrite on_chain_eq, Ha. cbn. f_equal.
    destruct (on p ip anchor); [by rewrite decide_True by (by left)|].
    by rewrite decide_False by apply not_elem_of_nil.
Qed.

(** A switch of the other family does not matter. *)
Lemma holds_set_on_other v p ip ip' anchor (b : bool) :
  ip' ≠ ip → ip ≠ Both → holds valid v p ip' → holds valid v (set_on ip anchor b p) ip'.
Proof.
  intros Hne Hb [Ho Hr Ha Hs]. split; [done|done| |done].
  intros a Hin. cbn. rewrite decide_False by naive_solver. by apply Ha.
Qed.
End carry.

(** ** Programs on the chains *)

(** The chain a command may change. *)
Definition target (c : command) : option (IPVersion * string * string) :=
  match c with
  | CreateChain ip chain table | DeleteChain ip chain table | AppendRule ip chain _ table =>
      Some (ip, table, chain)
  | LinkFirst ip parent _ table | LinkLast ip parent _ table | Unlink ip parent _ table =>
      Some (ip, table, parent)
  | EnableAnchor ip anchor table | DisableAnchor ip anchor table => Some (ip, table, anchor_chain anchor)
  | ReplaceRule ip anchor _ table => Some (ip, table, actual_chain anchor)
  | FlushAnchor anchor | AppendAnchor anchor _ => Some (IPv4, kFilterTable, actual_chain anchor)
  | _ => None
  end.

Lemma key_ne (ip ip' : IPVersion) (t t' c c' : string) :
  Some (ip, t, c) ≠ Some (ip', t', c') → ip' ≠ ip ∨ t' ≠ t ∨ c' ≠ c.
Proof.
  intros H. destruct (decide (ip' = ip)) as [->|]; [|auto]. destruct (decide (t' = t)) as [->|]; [|auto].
  destruct (decide (c' = c)) as [->|]; [done|auto].
Qed.

Lemma interp_target valid d c v ip t ch :
  target c ≠ Some (ip, t, ch) → interp valid d c v ip t ch = v ip t ch.
Proof.
  destruct c; cbn; intros H; try done; try apply key_ne in H.
  - by apply set_chain_ne.
  - destruct d; [by apply set_chain_ne|by apply on_chain_ne].
  - unfold if_target. case_match; [|done]. by apply on_chain_ne.
  - unfold if_target. case_match; [|done]. by apply on_chain_ne.
  - by apply on_chain_ne.
  - case_match; [|done]. by apply on_chain_ne.
  - unfold if_target. case_match; [|done]. by apply on_chain_ne.
  - by apply on_chain_ne.
  - case_match; [|done]. by apply on_chain_ne.
  - by apply on_chain_ne.
  - case_match; [|done]. by apply on_chain_ne.
Qed.

Lemma remove_first_fresh e l : e ∉ l → remove_first e l = l.
Proof.
  induction l as [|x l IH]; [done|]. intros [Hx Hl]%not_elem_of_cons. cbn.
  rewrite decide_False by congruence. by rewrite IH.
Qed.

Lemma link_first_fresh e l :
  e ∉ l →
  match l with
  | x :: _ => if decide (x = e) then l else e :: remove_first e l
  | [] => [e]
  end = e :: l.
Proof.
  intros Hl. rewrite remove_first_fresh by done. destruct l as [|x l]; [done|].
  apply not_elem_of_cons in Hl as [Hx _]. by rewrite decide_False by congruence.
Qed.

Section programs.
Context {W : Type} {I : Iptables W} (valid : string → bool) (HI : iptables_laws I valid).
#[local] Abbreviation F := (stM (Firewall W)).

(** The chains of a state. *)
Definition chains_of (s : Firewall W) : chains := view (world s).

Lemma execute_interp c s :
  plain_command c = true → ∃ d, ∀ ip t ch, chains_of (execute c s).2 ip t ch = interp valid d c (chains_of s) ip t ch.
Proof using HI.
  intros Hc. destruct (law_run _ _ HI c (world s) Hc) as [d Hd]. exists d. intros ip t ch. rewrite <- Hd.
  unfold chains_of, execute. by destruct (run_shell c (world s)).
Qed.

(** The chains of [K] stay as they are. *)
Definition keeps (K : IPVersion → string → string → Prop) (s s' : Firewall W) : Prop :=
  ∀ ip t ch, K ip t ch → chains_of s' ip t ch = chains_of s ip t ch.
#[export] Instance keeps_preorder K : PreOrder (keeps K).
Proof. split; unfold keeps; [done|]. intros s1 s2 s3 H1 H2 ip t ch HK. by rewrite H2, H1. Qed.

Lemma keeps_execute K c :
  plain_command c = true → (∀ ip t ch, target c = Some (ip, t, ch) → ¬ K ip t ch) → steps (keeps K) (execute c).
Proof using HI.
  intros Hc HK s ip t ch Hk. destruct (execute_interp c s Hc) as [d Hd]. rewrite Hd.
  apply interp_target. intros E. by apply (HK _ _ _ E).
Qed.

Lemma keeps_modify K f : (∀ s, world (f s) = world s) → steps (keeps K) (modify f).
Proof. intros Hf s ip t ch _. unfold chains_of. cbn. by rewrite Hf. Qed.

Lemma keeps_weaken K K' {A} (m : F A) :
  (∀ ip t ch, K ip t ch → K' ip t ch) → steps (keeps K') m → steps (keeps K) m.
Proof. intros HK Hm s ip t ch Hk. apply Hm. auto. Qed.

Lemma keeps_state_weaken (K K' : IPVersion → string → string → Prop) s s' :
  (∀ ip t ch, K ip t ch → K' ip t ch) → keeps K' s s' → keeps K s s'.
Proof. intros HK Hs ip t ch Hk. apply Hs. auto. Qed.

Lemma keeps_on_both K ip f : (∀ ip, steps (keeps K) (f ip)) → steps (keeps K) (on_both ip f).
Proof. intros Hf. destruct ip; cbn; try apply Hf. apply steps_bind; [apply _|done|]. intros. apply steps_bind; [apply _|done|]. intros. apply steps_ret, _. Qed.
Lemma keeps_on_both_ K ip f : (∀ ip, steps (keeps K) (f ip)) → steps (keeps K) (on_both_ ip f).
Proof. intros Hf. destruct ip; cbn; try apply Hf. apply steps_bind; [apply _|done|done]. Qed.

(** Decompose down to single commands. *)
Ltac keep :=
  repeat first
    [ progress cbv beta
    | match goal with
      | |- steps _ (on_both _ _) => apply keeps_on_both; intros ?
      | |- steps _ (on_both_ _ _) => apply keeps_on_both_; intros ?
      | |- steps _ (execute _) => apply keeps_execute; [first [reflexivity|eassumption]|intros ? ? ? [=]; subst]
      | |- steps _ (register _ _) => unfold register
      | |- steps _ (modify _) => apply keeps_modify; reflexivity
      | |- steps _ (createChain _ _ _) => unfold createChain
      | |- steps _ (deleteChain _ _ _) => unfold deleteChain
      | |- steps _ (linkChain _ _ _ _ _) => unfold linkChain
      | |- steps _ (unlinkChain _ _ _ _) => unfold unlinkChain
      | |- steps _ (run_callback _) => unfold run_callback, setupTrafficSplitting, teardownTrafficSplitting
      | |- steps _ setupTrafficSplitting => unfold setupTrafficSplitting
      | |- steps _ teardownTrafficSplitting => unfold teardownTrafficSplitting
      | |- steps _ (call_registered _) => unfold call_registered
      | |- steps _ (uninstallAnchor _ _ _) => unfold uninstallAnchor
      | |- steps _ (installAnchor _ _ _ _ _ _) => unfold installAnchor, installAnchor_one
      end
    | steps_step ].

Definition everywhere : IPVersion → string → string → Prop := λ _ _ _, True.

Lemma keeps_call_registered key : steps (keeps everywhere) (call_registered key).
Proof using HI. keep; done. Qed.

Lemma holds_keeps s s' p ip :
  keeps (λ ip' _ _, ip' = ip) s s' → holds valid (chains_of s) p ip → holds valid (chains_of s') p ip.
Proof. intros Hk. apply holds_ext. intros t c. by apply Hk. Qed.

Lemma holds_policy_ext p p' v ip :
  (∀ a, on p' ip a = on p ip a) → dns_rules p' = dns_rules p → block_rules p' = block_rules p →
  allow_rules p' = allow_rules p → holds valid v p ip → holds valid v p' ip.
Proof.
  intros Hon Hd Hb Ha [Ho Hr Hc Hs]. split; [done|done| |].
  - intros a Hin. rewrite Hon. by apply Hc.
  - intros a Hin. rewrite (Hs a Hin). f_equal. unfold rules_of. by rewrite Hd, Hb, Ha.
Qed.

(** Switching an anchor of one family. *)
Lemma switch_holds ip anchor (b : bool) s p ip' :
  anchor ∈ known_anchors → ip ≠ Both → holds valid (chains_of s) p ip' →
  holds valid (chains_of (execute (if b then EnableAnchor ip anchor kFilterTable
                                   else DisableAnchor ip anchor kFilterTable) s).2) (set_on ip anchor b p) ip'.
Proof using HI.
  intros Hk Hb Hh. destruct (decide (ip' = ip)) as [->|Hne].
  - destruct (execute_interp (if b then EnableAnchor ip anchor kFilterTable
                              else DisableAnchor ip anchor kFilterTable) s) as [d Hd];
      [by destruct b|].
    destruct b; [eapply holds_enable|eapply holds_disable]; eauto.
  - apply holds_set_on_other; [done|done|]. eapply holds_keeps; [|exact Hh].
    apply keeps_execute; [by destruct b|].
    intros ip0 t ch Ht ->. destruct b; cbn in Ht; by injection Ht as <-.
Qed.

Lemma setAnchorEnabled_refines ip anchor b s p :
  anchor ∈ known_anchors → refines valid (chains_of s) p →
  refines valid (chains_of (setAnchorEnabled ip anchor b kFilterTable s).2) (set_on ip anchor b p).
Proof using HI.
  intros Hk Hr.
  set (sw := λ ip, execute (if b then EnableAnchor ip anchor kFilterTable
                            else DisableAnchor ip anchor kFilterTable)).
  assert (∃ key, setAnchorEnabled ip anchor b kFilterTable =
    (_ ← on_both_ ip (λ ip, discard (sw ip)); call_registered key)) as [key ->].
  { destruct b; eexists; reflexivity. }
  rewrite bind_run. set (s1 := (on_both_ ip _ s).2).
  assert (refines valid (chains_of s1) (set_on ip anchor b p)) as H1.
  { destruct Hr as [H4 H6]. subst s1. destruct ip; cbn [on_both_].
    - rewrite discard_run. split; by apply switch_holds.
    - rewrite discard_run. split; by apply switch_holds.
    - rewrite bind_run, !discard_run. cbn [snd].
      split; (eapply (holds_policy_ext (set_on IPv6 anchor b (set_on IPv4 anchor b p)));
        [|done..|by do 2 (apply switch_holds; [done|done|])]); intros a; cbn;
        repeat case_decide; naive_solver. }
  destruct H1 as [H4 H6].
  split; (eapply holds_keeps; [|done]); intros ip0 t ch _; by apply keeps_call_registered.
Qed.

(** *** The anchors whose rules change *)
Definition dynamic_anchors : list string := ["320.allowDNS"; "120.blockNets"; "110.allowNets"].

Definition set_rules (anchor : string) (l : list string) (p : policy) : policy :=
  mkPolicy (on p)
    (if decide (anchor = "320.allowDNS") then l else dns_rules p)
    (if decide (anchor = "120.blockNets") then l else block_rules p)
    (if decide (anchor = "110.allowNets") then l else allow_rules p).

Lemma append_rules fam ch (cmd : string → command) rules acc s :
  (∀ d r v, interp valid d (cmd r) v =
     (if valid r then on_chain fam kFilterTable ch (λ l, l ++ [Rule r]) v else v)) →
  Forall (λ r, plain_command (cmd r) = true) rules →
  chains_of s fam kFilterTable ch = Some (Rule <$> acc) →
  chains_of (for_each rules (λ rule, discard (execute (cmd rule))) s).2 fam kFilterTable ch =
  Some (Rule <$> acc ++ List.filter valid rules).
Proof using HI.
  intros Hcmd Hpl. revert acc s. induction Hpl as [|r rules Hr Hpl IH]; intros acc s Hs.
  { cbn. by rewrite app_nil_r. }
  cbn [for_each List.filter]. rewrite bind_run, discard_run.
  destruct (execute_interp (cmd r) s Hr) as [d Hd].
  specialize (Hd fam kFilterTable ch). rewrite Hcmd in Hd.
  destruct (valid r) eqn:Ev; cbn [snd].
  - rewrite on_chain_eq, Hs in Hd. cbn in Hd.
    change (r :: List.filter valid rules) with ([r] ++ List.filter valid rules).
    rewrite app_assoc. apply IH. rewrite Hd, fmap_app. done.
  - apply IH. by rewrite Hd.
Qed.

Lemma keeps_appends fam ch (cmd : string → command) rules :
  (∀ r, target (cmd r) = Some (fam, kFilterTable, ch)) →
  Forall (λ r, plain_command (cmd r) = true) rules →
  steps (keeps (λ ip t c, ip ≠ fam ∨ t ≠ kFilterTable ∨ c ≠ ch))
    (for_each rules (λ rule, discard (execute (cmd rule)))).
Proof using HI.
  intros Hcmd Hpl. apply steps_for_each_in; [apply _|]. intros r Hr. rewrite Forall_forall in Hpl.
  apply steps_discard; [apply _|]. apply keeps_execute; [by apply Hpl|]. intros ip t c. rewrite Hcmd. intros [= <- <- <-]. tauto.
Qed.

Lemma holds_rules_change v v' p ip anchor l :
  anchor ∈ dynamic_anchors → holds valid v p ip →
  (∀ c, c ≠ actual_chain anchor → v' ip kFilterTable c = v ip kFilterTable c) →
  (ip = IPv4 → v' ip kFilterTable (actual_chain anchor) = Some (Rule <$> l)) →
  (ip ≠ IPv4 → v' ip kFilterTable (actual_chain anchor) = v ip kFilterTable (actual_chain anchor)) →
  holds valid v' (set_rules anchor l p) ip.
Proof using.
  intros Hdyn [[rest Ho] Hr Ha Hs] Hother Hv4 Hv6.
  assert (anchor ∈ known_anchors) as Hk.
  { unfold dynamic_anchors in Hdyn. rewrite !elem_of_cons, elem_of_nil in Hdyn. unfold known_anchors.
    destruct Hdyn as [->|[->|[->|[]]]]; listed. }
  split.
  - exists rest. rewrite Hother; [done|]. apply not_eq_sym, actual_output.
  - rewrite Hother; [done|]. by apply not_eq_sym, actual_root.
  - intros a Hin. cbn. rewrite Hother; [by apply Ha|]. by apply anchor_actual.
  - intros a Hin. destruct (decide (a.1 = anchor)) as [Heq|Hne].
    + destruct (decide (ip = IPv4)) as [->|Hip].
      * rewrite Heq, Hv4 by done. f_equal. unfold rules_of. rewrite Heq. cbn.
        unfold dynamic_anchors in Hdyn. rewrite !elem_of_cons, elem_of_nil in Hdyn.
        destruct Hdyn as [->|[->|[->|[]]]]; reflexivity.
      * rewrite Heq, Hv6, <- Heq, (Hs a Hin) by done. f_equal. unfold rules_of.
        rewrite !decide_False by naive_solver. done.
    + rewrite Hother; [|intros E%actual_chain_inj; done]. rewrite (Hs a Hin). f_equal.
      unfold rules_of. cbn. unfold dynamic_anchors in Hdyn. rewrite !elem_of_cons, elem_of_nil in Hdyn.
      destruct (decide (ip = IPv4 ∧ a.1 = "320.allowDNS")) as [[_ E]|_].
      { rewrite decide_False; [done|]. congruence. }
      destruct (decide (ip = IPv4 ∧ a.1 = "120.blockNets")) as [[_ E]|_].
      { rewrite decide_False; [done|]. congruence. }
      destruct (decide (ip = IPv4 ∧ a.1 = "110.allowNets")) as [[_ E]|_]; [|done].
      rewrite decide_False; [done|]. congruence.
Qed.

Lemma update_anchor_refines anchor rules s p :
  anchor ∈ dynamic_anchors → Forall (λ r, plain r = true) rules → refines valid (chains_of s) p →
  refines valid (chains_of (update_anchor anchor rules s).2) (set_rules anchor (List.filter valid rules) p).
Proof using HI.
  intros Hdyn Hpl [H4 H6]. unfold update_anchor. rewrite bind_run.
  set (s1 := (execute (FlushAnchor anchor) s).2).
  set (s2 := (for_each rules _ s1).2).
  assert (keeps (λ ip t c, ip ≠ IPv4 ∨ t ≠ kFilterTable ∨ c ≠ actual_chain anchor) s s2) as Hk.
  { etrans; [|apply (keeps_appends IPv4 (actual_chain anchor) (AppendAnchor anchor)); done].
    apply keeps_execute; [done|]. intros ip t c [= <- <- <-]. tauto. }
  assert (∃ a, a ∈ anchors_of IPv4 ∧ a.1 = anchor) as (a & Hin & Ea).
  { exists (anchor, []). split; [|done]. unfold dynamic_anchors in Hdyn. rewrite !elem_of_cons, elem_of_nil in Hdyn.
    destruct Hdyn as [->|[->|[->|[]]]]; apply (bool_decide_unpack _); vm_compute; exact Logic.I. }
  split.
  - apply (holds_rules_change (chains_of s) _ _ IPv4 anchor _ Hdyn H4); [intros c Hc; apply Hk; auto| |done].
    intros _. apply (append_rules IPv4 (actual_chain anchor) (AppendAnchor anchor) rules []); [done|done|].
    subst s1. destruct (execute_interp (FlushAnchor anchor) s) as [d Hd]; [done|]. rewrite Hd. cbn.
    rewrite on_chain_eq. rewrite <- Ea. by rewrite (holds_rules _ _ _ _ H4 a Hin).
  - apply (holds_rules_change (chains_of s) _ _ IPv6 anchor _ Hdyn H6); [|done|]; intros; apply Hk; auto.
Qed.

Lemma plain_app a b : plain (a +:+ b) = plain a && plain b.
Proof.
  unfold plain. induction a as [|c a IH]; [done|].
  rewrite append_String. cbn [String.list_ascii_of_string forallb]. by rewrite IH, andb_assoc.
Qed.

(** A rule around a plain server is plain. *)
Ltac plain_rules :=
  match goal with H : Forall _ ?l |- Forall _ (_ ?l) =>
    induction H as [|server l Hs _ IH]; [constructor|]; cbn;
    repeat (apply Forall_cons; split; [by rewrite ?plain_app, Hs|]); exact IH
  end.

Lemma plain_dns l : Forall (λ r, plain r = true) l → Forall (λ r, plain r = true) (getDNSRules l).
Proof. intros H. plain_rules. Qed.
Lemma plain_allow l : Forall (λ r, plain r = true) l → Forall (λ r, plain r = true) (getAllowRule l).
Proof. intros H. plain_rules. Qed.
Lemma plain_block l : Forall (λ r, plain r = true) l → Forall (λ r, plain r = true) (getBlockRule l).
Proof. intros H. plain_rules. Qed.

Lemma updateDNSServers_refines l s p :
  Forall (λ r, plain r = true) l → refines valid (chains_of s) p →
  refines valid (chains_of (updateDNSServers l s).2) (set_rules "320.allowDNS" (List.filter valid (getDNSRules l)) p).
Proof using HI. intros Hl. apply update_anchor_refines; [unfold dynamic_anchors; listed|by apply plain_dns]. Qed.
Lemma updateAllowNets_refines l s p :
  Forall (λ r, plain r = true) l → refines valid (chains_of s) p →
  refines valid (chains_of (updateAllowNets l s).2) (set_rules "110.allowNets" (List.filter valid (getAllowRule l)) p).
Proof using HI. intros Hl. apply update_anchor_refines; [unfold dynamic_anchors; listed|by apply plain_allow]. Qed.
Lemma updateBlockNets_refines l s p :
  Forall (λ r, plain r = true) l → refines valid (chains_of s) p →
  refines valid (chains_of (updateBlockNets l s).2) (set_rules "120.blockNets" (List.filter valid (getBlockRule l)) p).
Proof using HI. intros Hl. apply update_anchor_refines; [unfold dynamic_anchors; listed|by apply plain_block]. Qed.

(** *** Installation *)

(** A chain of the packet filter that nothing deletes keeps existing. *)
Definition lasting (ch : string) (s s' : Firewall W) : Prop :=
  ∀ ip t, is_Some (chains_of s ip t ch) → is_Some (chains_of s' ip t ch).
#[export] Instance lasting_preorder ch : PreOrder (lasting ch).
Proof. split; unfold lasting; [by intros s ip t H|]. intros s1 s2 s3 H1 H2 ip t H. auto. Qed.

Lemma on_chain_some ip t c f v ip' t' c' :
  is_Some (v ip' t' c') → is_Some (on_chain ip t c f v ip' t' c').
Proof.
  intros H. unfold on_chain. destruct (v ip t c); [|done]. unfold set_chain. case_decide; [by eexists|done].
Qed.

Lemma lasting_execute ch c :
  plain_command c = true → (∀ ip t, c ≠ DeleteChain ip ch t) → steps (lasting ch) (execute c).
Proof using HI.
  intros Hc Hne s ip t Hs. destruct (execute_interp c s Hc) as [d Hd]. rewrite Hd.
  destruct c as [| cip cchain ctable | | | | | | | | | | | | | | | |]; cbn; unfold if_target;
    lazymatch goal with
    | |- is_Some ((if d then _ else _) _ _ _) => destruct d
    | |- is_Some (match ?x with _ => _ end _ _ _) => destruct x
    | _ => idtac
    end; try done; try by apply on_chain_some.
  - unfold set_chain. case_decide; [by eexists|done].
  - rewrite set_chain_ne; [done|]. right. right. intros ->. by eapply Hne.
Qed.

Lemma lasting_on_both ch ip f : (∀ ip, steps (lasting ch) (f ip)) → steps (lasting ch) (on_both ip f).
Proof. intros Hf. destruct ip; cbn; try apply Hf. steps_tac; apply Hf. Qed.
Lemma lasting_on_both_ ch ip f : (∀ ip, steps (lasting ch) (f ip)) → steps (lasting ch) (on_both_ ip f).
Proof. intros Hf. destruct ip; cbn; try apply Hf. apply steps_bind; [apply _|done|done]. Qed.

Lemma lasting_uninstall : steps (lasting kOutputChain) uninstall.
Proof using HI.
  unfold uninstall, uninstall_filter_anchors, uninstallAnchor, unlinkChain, deleteChain, teardownTrafficSplitting.
  repeat first
    [ match goal with
      | |- steps _ (on_both _ _) => apply lasting_on_both; intros ?
      | |- steps _ (on_both_ _ _) => apply lasting_on_both_; intros ?
      | |- steps _ (execute _) => apply lasting_execute; [reflexivity|intros ? ?;
          (discriminate || intros [= _ E _]; revert E; first [apply anchor_output|apply actual_output|discriminate])]
      end
    | steps_step ].
Qed.

(** The chains of a family after the anchors [l]. *)
Record built (ip : IPVersion) (l : list (string * list string)) (v : chains) : Prop := {
  built_output : is_Some (v ip kFilterTable kOutputChain);
  built_root : v ip kFilterTable kRootChain = Some ((λ a, Jump (anchor_chain a.1)) <$> l);
  built_anchor : ∀ a, a ∈ l → v ip kFilterTable (anchor_chain a.1) = Some [];
  built_rules : ∀ a, a ∈ l → v ip kFilterTable (actual_chain a.1) = Some (Rule <$> List.filter valid a.2);
}.

Lemma built_ext ip l v v' :
  (∀ c, v' ip kFilterTable c = v ip kFilterTable c) → built ip l v → built ip l v'.
Proof. intros E []. by split; setoid_rewrite E. Qed.

(** One anchor is appended; its chains start empty. *)
Lemma built_snoc ip l v v' name rules :
  name ∈ known_anchors → (∀ a, a ∈ l → a.1 ∈ known_anchors) → name ∉ l.*1 → built ip l v →
  v' ip kFilterTable kRootChain = (λ r, r ++ [Jump (anchor_chain name)]) <$> v ip kFilterTable kRootChain →
  v' ip kFilterTable (anchor_chain name) = Some [] →
  v' ip kFilterTable (actual_chain name) = Some (Rule <$> List.filter valid rules) →
  (∀ c, c ≠ kRootChain → c ≠ anchor_chain name → c ≠ actual_chain name →
    v' ip kFilterTable c = v ip kFilterTable c) →
  built ip (l ++ [(name, rules)]) v'.
Proof using.
  intros Hk Hl Hn [Ho Hr Ha Hs] Er Ea Es Eother.
  assert (∀ a, a ∈ l → a.1 ≠ name) as Hne.
  { intros a Hin <-. apply Hn. by apply list_elem_of_fmap_2. }
  split.
  - rewrite Eother; [done|..]; apply not_eq_sym;
      [discriminate|apply anchor_output|apply actual_output].
  - rewrite Er, Hr, fmap_app. done.
  - intros a [Hin| ->%list_elem_of_singleton]%elem_of_app; [|done].
    rewrite Eother; [by apply Ha|apply anchor_root| |by apply anchor_actual].
    intros E%anchor_chain_inj. by apply (Hne a).
  - intros a [Hin| ->%list_elem_of_singleton]%elem_of_app; [|done].
    rewrite Eother; [by apply Hs|by apply actual_root, Hl| |].
    + apply not_eq_sym, anchor_actual. by apply Hl.
    + intros E%actual_chain_inj. by apply (Hne a).
Qed.

Lemma installAnchor_one_run name rules table ip s :
  ip ≠ Both →
  installAnchor_one name rules table None None ip s =
  for_each rules (λ rule, discard (execute (AppendRule ip (actual_chain name) rule table)))
    (execute (CreateChain ip (actual_chain name) table)
      (execute (LinkLast ip kRootChain (anchor_chain name) table)
        (execute (CreateChain ip (anchor_chain name) table) s).2).2).2.
Proof using. intros H. unfold installAnchor_one. rewrite !bind_run. by destruct ip. Qed.

Lemma built_installAnchor_one ip l name rules s :
  ip ≠ Both → name ∈ known_anchors → (∀ a, a ∈ l → a.1 ∈ known_anchors) → name ∉ l.*1 →
  Forall (λ r, plain r = true) rules → built ip l (chains_of s) →
  built ip (l ++ [(name, rules)]) (chains_of (installAnchor_one name rules kFilterTable None None ip s).2).
Proof using HI.
  intros Hip Hk Hl Hn Hpl Hb. rewrite installAnchor_one_run by done.
  set (s1 := (execute (CreateChain ip (anchor_chain name) kFilterTable) s).2).
  set (s2 := (execute (LinkLast ip _ _ _) s1).2).
  set (s3 := (execute (CreateChain ip (actual_chain name) _) s2).2).
  destruct (execute_interp (CreateChain ip (anchor_chain name) kFilterTable) s eq_refl) as [d1 H1].
  destruct (execute_interp (LinkLast ip kRootChain (anchor_chain name) kFilterTable) s1 eq_refl) as [d2 H2].
  destruct (execute_interp (CreateChain ip (actual_chain name) kFilterTable) s2 eq_refl) as [d3 H3].
  fold s1 in H1. fold s2 in H2. fold s3 in H3. cbn in H1, H2, H3.
  assert (anchor_chain name ≠ kRootChain) as N1 by apply anchor_root.
  assert (actual_chain name ≠ kRootChain) as N2 by by apply actual_root.
  assert (anchor_chain name ≠ actual_chain name) as N3 by by apply anchor_actual.
  unfold if_target in H2. rewrite (H1 ip kFilterTable (anchor_chain name)), set_chain_eq in H2.
  assert (∀ c, c ≠ actual_chain name → chains_of (for_each rules (λ rule, discard (execute (AppendRule ip
    (actual_chain name) rule kFilterTable))) s3).2 ip kFilterTable c = chains_of s3 ip kFilterTable c) as H4.
  { intros c Hc. apply (keeps_appends ip (actual_chain name)
      (λ rule, AppendRule ip (actual_chain name) rule kFilterTable) rules); auto. }
  apply (built_snoc ip l (chains_of s)); [done|done|done|done|..].
  - rewrite H4, H3, set_chain_ne, H2, on_chain_eq, H1, set_chain_ne, (built_root _ _ _ Hb) by auto.
    cbn. f_equal. rewrite decide_False; [done|].
    intros (a & E & Ha)%list_elem_of_fmap.
    assert (anchor_chain name = anchor_chain a.1) as E'%anchor_chain_inj by congruence.
    apply Hn. rewrite E'. by apply list_elem_of_fmap_2.
  - rewrite H4, H3, set_chain_ne, H2, on_chain_ne, H1, set_chain_eq by auto. done.
  - apply (append_rules ip (actual_chain name) (λ rule, AppendRule ip (actual_chain name) rule kFilterTable)
      rules []); [done|done|]. by rewrite H3, set_chain_eq.
  - intros c C1 C2 C3. rewrite H4, H3, set_chain_ne, H2, on_chain_ne, H1, set_chain_ne by auto. done.
Qed.

(** The anchors of [l] that a family gets. *)
Definition select (ip : IPVersion) (l : list (IPVersion * string * list string)) : list (string * list string) :=
  omap (λ a, if decide (a.1.1 = ip ∨ a.1.1 = Both) then Some (a.1.2, a.2) else None) l.

Lemma keeps_installAnchor_one name rules ip :
  ip ≠ Both → Forall (λ r, plain r = true) rules →
  steps (keeps (λ ip' _ _, ip' ≠ ip)) (installAnchor_one name rules kFilterTable None None ip).
Proof using HI.
  intros Hip Hpl s. rewrite installAnchor_one_run by done.
  etrans; [|apply (keeps_weaken _ (λ ip' t c, ip' ≠ ip ∨ t ≠ kFilterTable ∨ c ≠ actual_chain name));
    [by left|]; by apply (keeps_appends ip _ (λ rule, AppendRule ip (actual_chain name) rule kFilterTable))].
  etrans; [|apply keeps_execute; [done|intros ? ? ? [=]; subst; tauto]].
  etrans; apply keeps_execute; try done; intros ? ? ? [=]; subst; tauto.
Qed.

Lemma built_other ip l s s' :
  keeps (λ ip' _ _, ip' = ip) s s' → built ip l (chains_of s) → built ip l (chains_of s').
Proof. intros Hk. apply built_ext. intros c. by apply Hk. Qed.

Lemma built_installAnchor ip fam name rules l s :
  ip ≠ Both → name ∈ known_anchors → (∀ a, a ∈ l → a.1 ∈ known_anchors) →
  Forall (λ r, plain r = true) rules →
  (fam = ip ∨ fam = Both → name ∉ l.*1) → built ip l (chains_of s) →
  built ip (l ++ select ip [(fam, name, rules)])
    (chains_of (installAnchor fam name rules kFilterTable None None s).2).
Proof using HI.
  intros Hip Hk Hl Hpl Hn Hb. unfold installAnchor.
  assert (∀ ip' s', ip' ≠ ip → ip' ≠ Both → keeps (λ ip0 _ _, ip0 = ip) s'
    (installAnchor_one name rules kFilterTable None None ip' s').2) as Hother.
  { intros ip' s' Hne Hb'. eapply keeps_weaken; [|by apply (keeps_installAnchor_one name rules ip')].
    cbn. congruence. }
  destruct ip, fam; try done; cbn [on_both_];
    match goal with |- context [select ?i ?x] =>
      let y := eval vm_compute in (select i x) in change (select i x) with y end;
    rewrite ?app_nil_r, ?bind_run.
  - apply built_installAnchor_one; auto.
  - eapply built_other; [by apply Hother|done].
  - eapply built_other; [by apply Hother|]. apply built_installAnchor_one; auto.
  - eapply built_other; [by apply Hother|done].
  - apply built_installAnchor_one; auto.
  - apply built_installAnchor_one; auto. eapply built_other; [by apply Hother|done].
Qed.

Lemma select_app ip l k : select ip (l ++ k) = select ip l ++ select ip k.
Proof. apply omap_app. Qed.

Lemma select_known ip l :
  Forall (λ x : IPVersion * string * list string, x.1.2 ∈ known_anchors) l →
  ∀ a, a ∈ select ip l → a.1 ∈ known_anchors.
Proof.
  intros Hall a (x & Hx & E)%list_elem_of_omap. case_decide; [|done]. injection E as <-.
  rewrite Forall_forall in Hall. by apply Hall.
Qed.

Lemma built_install_anchors ip todo l s :
  ip ≠ Both →
  Forall (λ x : IPVersion * string * list string, x.1.2 ∈ known_anchors) (l ++ todo) →
  Forall (λ x, Forall (λ r, plain r = true) x.2) todo →
  NoDup (select ip (l ++ todo)).*1 → built ip (select ip l) (chains_of s) →
  built ip (select ip (l ++ todo))
    (chains_of (for_each todo (λ a, installAnchor a.1.1 a.1.2 a.2 kFilterTable None None) s).2).
Proof using HI.
  intros Hip. revert l s. induction todo as [|[[fam name] rules] todo IH]; intros l s Hk Hpl Hnd Hb.
  { by rewrite app_nil_r. }
  change (l ++ (fam, name, rules) :: todo) with (l ++ [(fam, name, rules)] ++ todo) in *.
  rewrite (app_assoc l) in *. apply Forall_cons in Hpl as [Hr Hpl].
  cbn [for_each]. rewrite bind_run. apply IH; [done|done|done|].
  rewrite select_app. apply Forall_app in Hk as [[Hl Hn]%Forall_app _].
  apply built_installAnchor; [done| | |done| |done].
  - by apply Forall_cons in Hn as [? _].
  - by apply select_known.
  - intros Hfam. rewrite !select_app, !fmap_app in Hnd.
    apply NoDup_app in Hnd as [(_ & Hdis & _)%NoDup_app _]. intros Hin. apply (Hdis _ Hin).
    cbn. rewrite decide_True by done. by left.
Qed.

Lemma built_holds ip v rest :
  built ip (anchors_of ip) v → v ip kFilterTable kOutputChain = Some (Jump kRootChain :: rest) →
  holds valid v (mkPolicy (λ _ _, false) [] [] []) ip.
Proof using.
  intros [_ Hr Ha Hs] Ho. split; [by eexists|done|done|].
  intros a Hin. rewrite (Hs a Hin). do 2 f_equal. unfold rules_of. cbn.
  assert (Forall (λ a : string * list string, a.1 ∈ dynamic_anchors → a.2 = []) (anchors_of ip)) as Hall.
  { destruct ip; apply (bool_decide_unpack _); vm_compute; exact Logic.I. }
  rewrite Forall_forall in Hall. specialize (Hall a Hin).
  unfold dynamic_anchors in Hall. rewrite !elem_of_cons, elem_of_nil in Hall.
  repeat case_decide; [..|done]; by rewrite Hall by tauto.
Qed.

(** The text of the rules installed is plain. *)
Lemma installed_plain : Forall (λ x : IPVersion * string * list string, Forall (λ r, plain r = true) x.2) filter_anchors.
Proof. apply (bool_decide_unpack _); vm_compute; exact Logic.I. Qed.

Lemma installed_known : Forall (λ x : IPVersion * string * list string, x.1.2 ∈ known_anchors) filter_anchors.
Proof. apply (bool_decide_unpack _); vm_compute; exact Logic.I. Qed.

Lemma link_output ip l s :
  ip ≠ Both → built ip l (chains_of s) →
  let s' := (execute (LinkFirst ip kOutputChain kRootChain kFilterTable) s).2 in
  built ip l (chains_of s') ∧ ∃ rest, chains_of s' ip kFilterTable kOutputChain = Some (Jump kRootChain :: rest).
Proof using HI.
  intros Hip [[r Ho] Hr Ha Hs] s'.
  destruct (execute_interp (LinkFirst ip kOutputChain kRootChain kFilterTable) s eq_refl) as [d Hd].
  fold s' in Hd. cbn in Hd. unfold if_target in Hd. rewrite Hr in Hd.
  assert (∃ rest, chains_of s' ip kFilterTable kOutputChain = Some (Jump kRootChain :: rest)) as [rest Hrest].
  { rewrite Hd, on_chain_eq, Ho. cbn. destruct r as [|x r]; [by eexists|]. case_decide as E; [rewrite E|]; by eexists. }
  split; [|by eexists]. split; [by eexists| | |]; intros; rewrite Hd, on_chain_ne by (right; right; first
      [apply anchor_output|apply actual_output|discriminate]); auto.
Qed.

Definition filter_table : IPVersion → string → string → Prop := λ _ t _, t = kFilterTable.

Lemma built_filter ip l s s' :
  keeps filter_table s s' → built ip l (chains_of s) → built ip l (chains_of s').
Proof. intros Hk. apply built_ext. intros c. by apply Hk. Qed.

(** Work on the other tables. *)
Lemma keeps_createChain_other chain table :
  table ≠ kFilterTable → steps (keeps filter_table) (createChain Both chain table).
Proof using HI. intros Ht. keep; unfold filter_table; congruence. Qed.
Lemma keeps_linkChain_other chain parent table :
  table ≠ kFilterTable → steps (keeps filter_table) (linkChain Both chain parent true table).
Proof using HI. intros Ht. keep; unfold filter_table; congruence. Qed.
Lemma keeps_installAnchor_other anchor rule table f g :
  table ≠ kFilterTable → plain rule = true → steps (keeps filter_table) (installAnchor Both anchor [rule] table f g).
Proof using HI.
  intros Ht Hr. unfold installAnchor, installAnchor_one. cbn [for_each].
  keep; unfold filter_table; congruence.
Qed.
Lemma keeps_setupTrafficSplitting : steps (keeps filter_table) setupTrafficSplitting.
Proof using HI. keep; done. Qed.

Lemma built_root_created ip s :
  ip ≠ Both → is_Some (chains_of s ip kFilterTable kOutputChain) →
  built ip [] (chains_of (createChain Both kRootChain kFilterTable s).2).
Proof using HI.
  intros Hip Ho. unfold createChain. cbn [on_both]. rewrite !bind_run.
  set (s1 := (execute (CreateChain IPv4 kRootChain kFilterTable) s).2).
  set (s2 := (execute (CreateChain IPv6 kRootChain kFilterTable) s1).2).
  destruct (execute_interp (CreateChain IPv4 kRootChain kFilterTable) s eq_refl) as [d1 H1]. fold s1 in H1.
  destruct (execute_interp (CreateChain IPv6 kRootChain kFilterTable) s1 eq_refl) as [d2 H2]. fold s2 in H2.
  cbn in H1, H2. change (built ip [] (chains_of s2)).
  split; [| |intros a []%elem_of_nil|intros a []%elem_of_nil].
  - rewrite H2, set_chain_ne, H1, set_chain_ne by (right; right; discriminate). done.
  - destruct ip; [|by rewrite H2, set_chain_eq|done].
    by rewrite H2, set_chain_ne, H1, set_chain_eq by (left; discriminate).
Qed.

(** The jump to the root chain is put first in both families. *)
Lemma link_root_refines s :
  built IPv4 (anchors_of IPv4) (chains_of s) → built IPv6 (anchors_of IPv6) (chains_of s) →
  refines valid (chains_of (linkChain Both kRootChain kOutputChain true kFilterTable s).2)
    (mkPolicy (λ _ _, false) [] [] []).
Proof using HI.
  intros H4 H6. unfold linkChain. cbn [on_both]. rewrite !bind_run. cbn [snd].
  set (s1 := (execute (LinkFirst IPv4 kOutputChain kRootChain kFilterTable) s).2).
  destruct (link_output IPv4 _ s ltac:(done) H4) as [B4 [r4 R4]]. fold s1 in B4, R4.
  assert (built IPv6 (anchors_of IPv6) (chains_of s1)) as B6.
  { eapply built_other; [|exact H6]. apply keeps_execute; [done|]. intros ? ? ? [=]; subst; done. }
  destruct (link_output IPv6 _ s1 ltac:(done) B6) as [B6' [r6 R6]].
  split; [|by apply (built_holds IPv6 _ r6)].
  apply (holds_keeps s1); [|by apply (built_holds IPv4 _ r4)].
  apply keeps_execute; [done|]. intros ? ? ? [=]; subst; done.
Qed.

Lemma refines_filter s s' p :
  keeps filter_table s s' → refines valid (chains_of s) p → refines valid (chains_of s') p.
Proof.
  intros Hk [H4 H6].
  assert (∀ ip c, chains_of s' ip kFilterTable c = chains_of s ip kFilterTable c) as E by (intros; by apply Hk).
  assert (∀ ip, holds valid (chains_of s) p ip → holds valid (chains_of s') p ip) as Hh.
  { intros ip [Ho Hr Ha Hs]. split; setoid_rewrite E; done. }
  by split; apply Hh.
Qed.

(** *** The built-in chain through installation and removal *)
Definition output_chain : IPVersion → string → string → Prop := λ _ t c, t = kFilterTable ∧ c = kOutputChain.

Lemma not_output ip t c : c ≠ kOutputChain → ¬ output_chain ip t c.
Proof. intros H [_ E]. done. Qed.

(** Close a side condition that a command leaves the built-in chain alone. *)
Ltac elsewhere :=
  first [ apply not_output; first [apply anchor_output|apply actual_output|discriminate]
        | intros [? ?]; discriminate ].

Lemma keeps_output_anchor ip anchor rules table :
  Forall (λ r, plain r = true) rules →
  steps (keeps output_chain) (installAnchor ip anchor rules table None None).
Proof using HI.
  intros Hpl. unfold installAnchor, installAnchor_one. apply keeps_on_both_. intros fam.
  apply steps_bind; [apply _|keep; elsewhere|intros _].
  apply steps_bind; [apply _|keep; elsewhere|intros _].
  apply steps_bind; [apply _|keep|intros _]. apply steps_bind; [apply _|keep|intros _].
  apply steps_bind; [apply _|keep; elsewhere|intros _].
  apply steps_for_each_in; [apply _|]. intros r Hr. rewrite Forall_forall in Hpl.
  apply steps_discard; [apply _|]. apply keeps_execute; [by apply Hpl|]. intros ? ? ? [=]; subst. elsewhere.
Qed.

Lemma keeps_output_anchors : steps (keeps output_chain) install_filter_anchors.
Proof using HI.
  apply steps_for_each_in; [apply _|]. intros a Ha. apply keeps_output_anchor.
  pose proof installed_plain as Hpl. rewrite Forall_forall in Hpl. by apply Hpl.
Qed.

Lemma unlink_root_output s ip :
  ip ≠ Both →
  chains_of (unlinkChain Both kRootChain kOutputChain kFilterTable s).2 ip kFilterTable kOutputChain =
  remove_first (Jump kRootChain) <$> chains_of s ip kFilterTable kOutputChain.
Proof using HI.
  intros Hip. unfold unlinkChain. cbn [on_both]. rewrite !bind_run.
  set (s1 := (execute (Unlink IPv4 kOutputChain kRootChain kFilterTable) s).2).
  set (s2 := (execute (Unlink IPv6 kOutputChain kRootChain kFilterTable) s1).2).
  destruct (execute_interp (Unlink IPv4 kOutputChain kRootChain kFilterTable) s eq_refl) as [d1 H1]. fold s1 in H1.
  destruct (execute_interp (Unlink IPv6 kOutputChain kRootChain kFilterTable) s1 eq_refl) as [d2 H2]. fold s2 in H2.
  cbn in H1, H2. change (chains_of s2 ip kFilterTable kOutputChain =
    remove_first (Jump kRootChain) <$> chains_of s ip kFilterTable kOutputChain).
  destruct ip; [| |done].
  - by rewrite H2, on_chain_ne, H1, on_chain_eq by (left; discriminate).
  - by rewrite H2, on_chain_eq, H1, on_chain_ne by (left; discriminate).
Qed.

Lemma uninstall_output s ip :
  ip ≠ Both →
  chains_of (uninstall s).2 ip kFilterTable kOutputChain =
  remove_first (Jump kRootChain) <$> chains_of s ip kFilterTable kOutputChain.
Proof using HI.
  intros Hip. rewrite <- unlink_root_output by done. unfold uninstall. rewrite bind_run.
  match goal with |- chains_of (?m ?s0).2 _ _ _ = _ =>
    assert (steps (keeps output_chain) m) as Hm; [|by apply (Hm s0)] end.
  unfold uninstall_filter_anchors. keep; elsewhere.
Qed.

Lemma link_root_output s ip l :
  ip ≠ Both → is_Some (chains_of s ip kFilterTable kRootChain) → Jump kRootChain ∉ l →
  chains_of s ip kFilterTable kOutputChain = Some l →
  chains_of (linkChain Both kRootChain kOutputChain true kFilterTable s).2 ip kFilterTable kOutputChain =
  Some (Jump kRootChain :: l).
Proof using HI.
  intros Hip [r Hr] Hl Ho. unfold linkChain. cbn [on_both]. rewrite !bind_run.
  set (s1 := (execute (LinkFirst IPv4 kOutputChain kRootChain kFilterTable) s).2).
  set (s2 := (execute (LinkFirst IPv6 kOutputChain kRootChain kFilterTable) s1).2).
  change (chains_of s2 ip kFilterTable kOutputChain = Some (Jump kRootChain :: l)).
  assert (keeps (λ ip' _ _, ip' ≠ IPv4) s s1) as K1.
  { apply keeps_execute; [done|]. intros ? ? ? [=]; subst; tauto. }
  assert (keeps (λ ip' _ _, ip' ≠ IPv6) s1 s2) as K2.
  { apply keeps_execute; [done|]. intros ? ? ? [=]; subst; tauto. }
  destruct (execute_interp (LinkFirst IPv4 kOutputChain kRootChain kFilterTable) s eq_refl) as [d1 H1]. fold s1 in H1.
  destruct (execute_interp (LinkFirst IPv6 kOutputChain kRootChain kFilterTable) s1 eq_refl) as [d2 H2]. fold s2 in H2.
  cbn in H1, H2. unfold if_target in H1, H2. destruct ip; [| |done].
  - rewrite K2, H1, Hr, on_chain_eq, Ho by discriminate. cbn. f_equal. by apply link_first_fresh.
  - rewrite H2, K1, Hr, on_chain_eq, K1, Ho by discriminate. cbn. f_equal. by apply link_first_fresh.
Qed.

(** What [install] does to the filter table: it builds the chains, then links
    the root. *)
Lemma install_steps s :
  is_Some (chains_of s IPv4 kFilterTable kOutputChain) → is_Some (chains_of s IPv6 kFilterTable kOutputChain) →
  ∃ s', (∀ ip, ip ≠ Both → built ip (anchors_of ip) (chains_of s')) ∧
    keeps output_chain (uninstall s).2 s' ∧
    keeps filter_table (linkChain Both kRootChain kOutputChain true kFilterTable s').2 (install s).2.
Proof using HI.
  intros H4 H6. unfold install. rewrite !bind_run.
  set (s1 := (uninstall s).2).
  assert (∀ ip, ip ≠ Both → built ip [] (chains_of (createChain Both kRootChain kFilterTable s1).2)) as B0.
  { intros ip Hip. apply built_root_created; [done|]. apply lasting_uninstall. by destruct ip. }
  set (s2 := (createChain Both kRootChain kFilterTable s1).2) in *.
  set (s3 := (createChain Both kRootChain kMangleTable _).2).
  assert (keeps filter_table s2 s3) as K3.
  { subst s3. do 2 (etrans; [|by apply keeps_createChain_other]). by apply keeps_createChain_other. }
  set (s4 := (install_filter_anchors s3).2).
  set (s5 := (installAnchor Both "100.vpnTunOnly" _ _ _ _ _).2).
  assert (keeps filter_table s4 s5) as K5.
  { subst s5. do 2 (etrans; [|by apply keeps_installAnchor_other]). by apply keeps_installAnchor_other. }
  assert (∀ a b, keeps filter_table a b → keeps output_chain a b) as Kf.
  { intros a b. apply keeps_state_weaken. intros ip t c [-> _]. done. }
  exists s5. split; [|split].
  - intros ip Hip. eapply built_filter; [exact K5|].
    apply (built_install_anchors ip filter_anchors [] s3 Hip); [apply installed_known|apply installed_plain| |].
    + destruct ip; apply (bool_decide_unpack _); vm_compute; exact Logic.I.
    + eapply built_filter; [exact K3|]. by apply B0.
  - etrans; [|by apply Kf]. etrans; [|apply keeps_output_anchors]. etrans; [|by apply Kf].
    subst s2. generalize s1. change (steps (keeps output_chain) (createChain Both kRootChain kFilterTable)).
    keep; elsewhere.
  - etrans; [|apply keeps_setupTrafficSplitting].
    do 2 (etrans; [|by apply keeps_linkChain_other]). by apply keeps_linkChain_other.
Qed.

Lemma install_refines s :
  is_Some (chains_of s IPv4 kFilterTable kOutputChain) → is_Some (chains_of s IPv6 kFilterTable kOutputChain) →
  refines valid (chains_of (install s).2) (mkPolicy (λ _ _, false) [] [] []).
Proof using HI.
  intros H4 H6. destruct (install_steps s H4 H6) as (s' & Hb & _ & Hk).
  eapply refines_filter; [exact Hk|]. apply link_root_refines; by apply Hb.
Qed.

Lemma install_output s ip l :
  is_Some (chains_of s IPv4 kFilterTable kOutputChain) → is_Some (chains_of s IPv6 kFilterTable kOutputChain) →
  ip ≠ Both → chains_of s ip kFilterTable kOutputChain = Some l → Jump kRootChain ∉ l →
  chains_of (install s).2 ip kFilterTable kOutputChain = Some (Jump kRootChain :: l).
Proof using HI.
  intros H4 H6 Hip Ho Hl. destruct (install_steps s H4 H6) as (s' & Hb & Ko & Kf).
  rewrite Kf by done. apply link_root_output; [done| |done|].
  - rewrite (built_root _ _ _ (Hb ip Hip)). by eexists.
  - rewrite Ko, uninstall_output, Ho by done. cbn. by rewrite remove_first_fresh.
Qed.

Lemma isInstalled_correct s :
  (isInstalled s).1 = bool_decide (jumps (chains_of s) IPv4 kFilterTable kOutputChain kRootChain) ∧
  keeps everywhere s (isInstalled s).2.
Proof using HI.
  unfold isInstalled. rewrite bind_run. cbn [fst snd]. split.
  - unfold execute. destruct (run_shell TestRoot (world s)) as [code w] eqn:E. cbn.
    pose proof (law_root _ _ HI (world s)) as Hroot. rewrite E in Hroot. cbn in Hroot.
    apply eq_iff_eq_true. rewrite Z.eqb_eq, bool_decide_eq_true. done.
  - by apply keeps_execute.
Qed.

(** *** Sequences of operations *)
Inductive operation :=
  | SetAnchor (ip : IPVersion) (anchor : string) (enabled : bool)
  | UpdateDNS (servers : list string)
  | UpdateAllow (servers : list string)
  | UpdateBlock (servers : list string).

Definition run_operation (op : operation) : F unit :=
  match op with
  | SetAnchor ip anchor enabled => setAnchorEnabled ip anchor enabled kFilterTable
  | UpdateDNS servers => updateDNSServers servers
  | UpdateAllow servers => updateAllowNets servers
  | UpdateBlock servers => updateBlockNets servers
  end.

(** What an operation means for the policy. *)
Definition spec_operation (p : policy) (op : operation) : policy :=
  match op with
  | SetAnchor ip anchor enabled => set_on ip anchor enabled p
  | UpdateDNS servers => set_rules "320.allowDNS" (List.filter valid (getDNSRules servers)) p
  | UpdateAllow servers => set_rules "110.allowNets" (List.filter valid (getAllowRule servers)) p
  | UpdateBlock servers => set_rules "120.blockNets" (List.filter valid (getBlockRule servers)) p
  end.

(** The anchors are the firewall's, the servers harmless to bash. *)
Definition proper_operation (op : operation) : bool :=
  match op with
  | SetAnchor _ anchor _ => bool_decide (anchor ∈ known_anchors)
  | UpdateDNS servers | UpdateAllow servers | UpdateBlock servers => forallb plain servers
  end.

Lemma forallb_plain l : forallb plain l = true → Forall (λ r, plain r = true) l.
Proof. rewrite forallb_forall, Forall_forall. intros H x Hx. by apply H, list_elem_of_In. Qed.

Lemma keeps_output_operation op :
  proper_operation op = true → steps (keeps output_chain) (run_operation op).
Proof using HI.
  assert (∀ anchor rules, Forall (λ r, plain r = true) rules →
    steps (keeps output_chain) (update_anchor anchor rules)) as Hupd.
  { intros anchor rules Hpl. unfold update_anchor. apply steps_bind; [apply _|keep; elsewhere|intros _].
    apply steps_for_each_in; [apply _|]. intros r Hr. rewrite Forall_forall in Hpl.
    apply steps_discard; [apply _|]. apply keeps_execute; [by apply Hpl|]. intros ? ? ? [=]; subst. elsewhere. }
  destruct op as [ip anchor b|l|l|l]; cbn; intros Hop.
  - unfold setAnchorEnabled, enableAnchor, disableAnchor.
    destruct b; (apply steps_bind; [apply _|keep; elsewhere|intros _]);
      intros s; (eapply keeps_state_weaken; [|apply keeps_call_registered]); done.
  - apply Hupd, plain_dns, forallb_plain, Hop.
  - apply Hupd, plain_allow, forallb_plain, Hop.
  - apply Hupd, plain_block, forallb_plain, Hop.
Qed.

Lemma keeps_output_operations ops :
  forallb proper_operation ops = true → steps (keeps output_chain) (for_each ops run_operation).
Proof using HI.
  rewrite forallb_forall. intros Hops. apply steps_for_each_in; [apply _|].
  intros op Hop. apply keeps_output_operation, Hops. by apply list_elem_of_In.
Qed.

Lemma operation_refines op s p :
  proper_operation op = true → refines valid (chains_of s) p →
  refines valid (chains_of (run_operation op s).2) (spec_operation p op).
Proof using HI.
  destruct op; cbn; intros Hop Hr.
  - apply setAnchorEnabled_refines; [by apply bool_decide_eq_true in Hop|done].
  - apply updateDNSServers_refines; [by apply forallb_plain|done].
  - apply updateAllowNets_refines; [by apply forallb_plain|done].
  - apply updateBlockNets_refines; [by apply forallb_plain|done].
Qed.

Lemma operations_refine ops s p :
  forallb proper_operation ops = true → refines valid (chains_of s) p →
  refines valid (chains_of (for_each ops run_operation s).2) (foldl spec_operation p ops).
Proof using HI.
  revert s p. induction ops as [|op ops IH]; intros s p Hops Hr; [done|].
  cbn in Hops. split_bools. cbn [for_each foldl]. rewrite bind_run. apply IH; [done|].
  by apply operation_refines.
Qed.

(** *** Sound states: not linked, or linked once and holding a policy *)
Definition linked (v : chains) : Prop := ∀ ip, ip ≠ Both →
  ∃ l, v ip kFilterTable kOutputChain = Some (Jump kRootChain :: l) ∧ Jump kRootChain ∉ l.
Definition unlinked (v : chains) : Prop := ∀ ip, ip ≠ Both →
  ∃ l, v ip kFilterTable kOutputChain = Some l ∧ Jump kRootChain ∉ l.
Definition installed_with (p : policy) (v : chains) : Prop := linked v ∧ refines valid v p.
Definition sound (v : chains) : Prop := unlinked v ∨ ∃ p, installed_with p v.

Lemma operations_installed ops s p :
  forallb proper_operation ops = true → installed_with p (chains_of s) →
  installed_with (foldl spec_operation p ops) (chains_of (for_each ops run_operation s).2).
Proof using HI.
  intros Hops [Hl Hr]. split; [|by apply operations_refine].
  pose proof (keeps_output_operations ops Hops s) as Hk.
  intros ip Hip. rewrite Hk by done. by apply Hl.
Qed.

Lemma operations_sound ops s :
  forallb proper_operation ops = true → sound (chains_of s) → sound (chains_of (for_each ops run_operation s).2).
Proof using HI.
  intros Hops [Hu|[p Hp]]; [left|right; eexists; by apply operations_installed].
  pose proof (keeps_output_operations ops Hops s) as Hk.
  intros ip Hip. rewrite Hk by done. by apply Hu.
Qed.

Lemma uninstall_sound s : sound (chains_of s) → unlinked (chains_of (uninstall s).2).
Proof using HI.
  intros Hs ip Hip. rewrite uninstall_output by done. destruct Hs as [Hu|[p [Hl _]]].
  - destruct (Hu ip Hip) as (l & -> & Hn). cbn. exists l. by rewrite remove_first_fresh.
  - destruct (Hl ip Hip) as (l & -> & Hn). cbn. exists l. by rewrite decide_True.
Qed.

Lemma install_sound s :
  unlinked (chains_of s) → installed_with (mkPolicy (λ _ _, false) [] [] []) (chains_of (install s).2).
Proof using HI.
  intros Hu. destruct (Hu IPv4 ltac:(done)) as (l4 & E4 & N4), (Hu IPv6 ltac:(done)) as (l6 & E6 & N6).
  assert (is_Some (chains_of s IPv4 kFilterTable kOutputChain)) as S4 by (by rewrite E4; eexists).
  assert (is_Some (chains_of s IPv6 kFilterTable kOutputChain)) as S6 by (by rewrite E6; eexists).
  split; [|by apply install_refines].
  intros ip Hip. destruct (Hu ip Hip) as (l & E & N). exists l. split; [|done]. by apply install_output.
Qed.

(** [if (!isInstalled()) install();] *)
Lemma ensure_installed_sound s :
  sound (chains_of s) →
  let r := isInstalled s in
  ∃ p, installed_with p (chains_of (if r.1 then r.2 else (install r.2).2)) ∧
    (unlinked (chains_of s) → p = mkPolicy (λ _ _, false) [] [] []).
Proof using HI.
  intros Hs r. subst r. destruct (isInstalled_correct s) as [Hb Hk]. rewrite Hb.
  destruct (isInstalled s) as [b s1]. cbn in *. clear Hb b.
  destruct Hs as [Hu|[p [Hl Hr]]].
  - rewrite bool_decide_eq_false_2.
    + eexists. split; [|done]. apply install_sound. intros ip Hip. rewrite Hk by done. by apply Hu.
    + unfold jumps. by destruct (Hu IPv4 ltac:(done)) as (l & -> & Hn).
  - rewrite bool_decide_eq_true_2.
    + exists p. split; [split; [intros ip Hip; rewrite Hk by done; by apply Hl|]|].
      * apply (refines_filter s); [|done]. eapply keeps_state_weaken; [|exact Hk]. done.
      * intros Hu. destruct (Hu IPv4 ltac:(done)) as (l & El & Hn), (Hl IPv4 ltac:(done)) as (l' & El' & _).
        rewrite El in El'. injection El' as ->. destruct Hn. by left.
    + unfold jumps. destruct (Hl IPv4 ltac:(done)) as (l & -> & _). by left.
Qed.

(** A packet leaving an installed firewall. *)
Lemma installed_verdict {packet} (meaning : string → packet → option verdict) p v ip pkt :
  installed_with p v → ip ≠ Both →
  ∃ rest, v ip kFilterTable kOutputChain = Some (Jump kRootChain :: rest) ∧
    traverse meaning 4 v ip kFilterTable kOutputChain pkt =
    match first_match (λ r, meaning r pkt) (enabled_rules valid p ip) with
    | Some d => Some d
    | None => first_match (λ e, match e with
                                | Rule r => meaning r pkt
                                | Jump c => traverse meaning 3 v ip kFilterTable c pkt
                                end) rest
    end.
Proof using.
  intros [Hl [H4 H6]] Hip. destruct (Hl ip Hip) as (rest & Ho & _). exists rest. split; [done|].
  rewrite <- policy_verdict_rules. apply holds_verdict; [by destruct ip|done].
Qed.
End programs.

(** *** A reference packet filter *)

(** Runs the commands as documented. *)
Definition reference_iptables (valid : string → bool) : Iptables chains := {|
  run_shell c v :=
    (match c with
     | TestRoot => if decide (jumps v IPv4 kFilterTable kOutputChain kRootChain) then 0 else 1
     | TestAnchor ip anchor table =>
         if decide (jumps v ip table (anchor_chain anchor) (actual_chain anchor)) then 0 else 1
     | _ => 0
     end, interp valid true c v);
  view v := v |}.

Lemma reference_iptables_laws valid : iptables_laws (reference_iptables valid) valid.
Proof.
  split; [by intros c w _; exists true|].
  intros v. cbn. case_decide; split; intros; try done.
Qed.

(** Only the built-in chains, with a rule of somebody else in each. *)
Definition fresh_chains : chains := λ ip _ chain,
  if decide (ip ≠ Both ∧ chain ∈ [kOutputChain; kPreRoutingChain; kPostRoutingChain])
  then Some [Rule "-j somebody"] else None.

Definition fresh_firewall : Firewall chains := mkFirewall fresh_chains ∅.

(** ** Properties *)

(** C5. The firewall implements its policy.  Install it over any packet filter
    with the built-in OUTPUT chains and run any sequence of its operations on
    its own anchors with servers that bash takes literally: afterwards, in each
    family, every outgoing packet gets the verdict of the policy, the enabled
    anchors in the order of their installation, first match first; and a packet
    no enabled anchor matches is left to the rules that follow in OUTPUT. *)
Theorem firewall_implements_policy {W packet} (I : Iptables W) valid
    (meaning : string → packet → option verdict) ops (s : Firewall W) ip pkt :
  iptables_laws I valid → forallb proper_operation ops = true →
  is_Some (chains_of s IPv4 kFilterTable kOutputChain) →
  is_Some (chains_of s IPv6 kFilterTable kOutputChain) → ip ≠ Both →
  let s' := (for_each ops run_operation (install s).2).2 in
  let p := foldl (spec_operation valid) (mkPolicy (λ _ _, false) [] [] []) ops in
  refines valid (chains_of s') p ∧
  ∃ rest, chains_of s' ip kFilterTable kOutputChain = Some (Jump kRootChain :: rest) ∧
    traverse meaning 4 (chains_of s') ip kFilterTable kOutputChain pkt =
    match policy_verdict meaning valid p ip pkt with
    | Some d => Some d
    | None => first_match (λ e, match e with
                                | Rule r => meaning r pkt
                                | Jump c => traverse meaning 3 (chains_of s') ip kFilterTable c pkt
                                end) rest
    end.
Proof.
  intros HI Hops H4 H6 Hip s' p.
  assert (refines valid (chains_of s') p) as Hr by by apply operations_refine, install_refines.
  split; [done|].
  assert (holds valid (chains_of s') p ip) as Hh by (destruct Hr, ip; done).
  destruct (holds_output _ _ _ _ Hh) as [rest Hrest]. exists rest. split; [done|].
  by apply holds_verdict.
Qed.

(** Installing and removing leave no trace in OUTPUT: where the chain does
    not jump to the root chain yet, [install] puts that jump before the rules it
    finds and changes no other rule, the firewall then reports to be installed,
    and [uninstall] gives the chain back as it was. *)
Theorem install_uninstall {W} (I : Iptables W) valid (s : Firewall W) l4 l6 :
  iptables_laws I valid →
  chains_of s IPv4 kFilterTable kOutputChain = Some l4 → chains_of s IPv6 kFilterTable kOutputChain = Some l6 →
  Jump kRootChain ∉ l4 → Jump kRootChain ∉ l6 →
  let installed := (install s).2 in
  let removed := (uninstall installed).2 in
  (isInstalled s).1 = false ∧ (isInstalled installed).1 = true ∧ (isInstalled removed).1 = false ∧
  chains_of installed IPv4 kFilterTable kOutputChain = Some (Jump kRootChain :: l4) ∧
  chains_of installed IPv6 kFilterTable kOutputChain = Some (Jump kRootChain :: l6) ∧
  chains_of removed IPv4 kFilterTable kOutputChain = Some l4 ∧
  chains_of removed IPv6 kFilterTable kOutputChain = Some l6.
Proof.
  intros HI H4 H6 N4 N6 installed removed.
  assert (chains_of installed IPv4 kFilterTable kOutputChain = Some (Jump kRootChain :: l4)) as I4
    by (eapply install_output; eauto; done).
  assert (chains_of installed IPv6 kFilterTable kOutputChain = Some (Jump kRootChain :: l6)) as I6
    by (eapply install_output; eauto; done).
  assert (chains_of removed IPv4 kFilterTable kOutputChain = Some l4) as R4
    by (by subst removed; erewrite uninstall_output, I4).
  assert (chains_of removed IPv6 kFilterTable kOutputChain = Some l6) as R6
    by (by subst removed; erewrite uninstall_output, I6).
  assert (∀ s0 l, chains_of s0 IPv4 kFilterTable kOutputChain = Some l →
    (isInstalled s0).1 = bool_decide (Jump kRootChain ∈ l)) as Hin.
  { intros s0 l E. rewrite (proj1 (isInstalled_correct _ HI s0)). apply bool_decide_ext.
    unfold jumps. by rewrite E. }
  rewrite (Hin _ _ H4), (Hin _ _ I4), (Hin _ _ R4).
  rewrite (bool_decide_eq_false_2 (Jump kRootChain ∈ l4)) by done.
  by rewrite bool_decide_eq_true_2 by (by left).
Qed.

Lemma firewall_implements_policy_witness :
  let ops := [SetAnchor Both "100.blockAll" true; UpdateAllow ["192.0.2.1"]; SetAnchor IPv4 "110.allowNets" true] in
  let meaning := λ (r : string) (pkt : string),
    if String.eqb r ("-d " +:+ pkt +:+ " -j ACCEPT") then Some Accept
    else if String.eqb r "-j REJECT" then Some Reject else None in
  let s' := (for_each ops (@run_operation _ (reference_iptables (λ _, true)))
               (@install _ (reference_iptables (λ _, true)) fresh_firewall).2).2 in
  traverse meaning 4 (@chains_of _ (reference_iptables (λ _, true)) s') IPv4 kFilterTable kOutputChain "192.0.2.1"
  = Some Accept.
Proof.
  intros ops meaning s'.
  destruct (firewall_implements_policy (reference_iptables (λ _, true)) (λ _, true) meaning ops fresh_firewall IPv4
              "192.0.2.1") as [_ (rest & _ & E)];
    [apply reference_iptables_laws|reflexivity|by eexists|by eexists|done|].
  etrans; [exact E|]. vm_compute. reflexivity.
Defined.

Lemma install_uninstall_witness :
  @chains_of _ (reference_iptables (λ _, true))
    (@uninstall _ (reference_iptables (λ _, true)) (@install _ (reference_iptables (λ _, true)) fresh_firewall).2).2
    IPv4 kFilterTable kOutputChain = Some [Rule "-j somebody"].
Proof.
  apply (install_uninstall (reference_iptables (λ _, true)) (λ _, true) fresh_firewall
    [Rule "-j somebody"] [Rule "-j somebody"]);
    [apply reference_iptables_laws|reflexivity|reflexivity|set_solver|set_solver].
Defined.
