(* ===== verification/MacOSFirewall.v ===== *)
(** * MacOSFirewall: the kill switch's pf commands

    Models [client/platforms/macos/daemon/macosfirewall.cpp]: each operation as
    the sequence of scripts it hands to bash, whose exact text is computed here.
    Running a script is the machine's ([Bash]); the directory of the bundled
    rules is a parameter. *)
From S2P Require Import Prelude Text.

Definition kRootAnchor : string := "amn".
Definition DaemonDataDir : string := "/Library/Application Support/AmneziaVPN/pf".

Class Bash (W : Type) := {
  (** Bash runs a script; its exit status. *)
  bash : string → W → Z * W;
  (** [QDir().mkpath] *)
  mkpath : string → W → W;
  (** [qApp->applicationDirPath() + "/pf"] *)
  ResourceDir : string;
}.

Definition dquote : string := String (Ascii.ascii_of_nat 34) "".
Definition quoted (s : string) : string := dquote +:+ s +:+ dquote.
Definition backslash_n : string := "\n".

Fixpoint joined (sep : string) (l : list string) : string :=
  match l with
  | [] => ""
  | [x] => x
  | x :: l' => x +:+ sep +:+ joined sep l'
  end.

Section scripts.
Context {W : Type} {B : Bash W}.

(** ** The scripts *)
Definition insertNatAnchors : string :=
  "( pfctl -sn | grep -v '" +:+ kRootAnchor +:+ "/*'; " +:+
  "echo 'nat-anchor " +:+ quoted (kRootAnchor +:+ "/*") +:+ "'; " +:+
  "echo 'rdr-anchor " +:+ quoted (kRootAnchor +:+ "/*") +:+ "'; " +:+
  "echo 'load anchor " +:+ quoted kRootAnchor +:+ " from " +:+
    quoted (ResourceDir +:+ "/" +:+ kRootAnchor +:+ ".conf") +:+ "'; " +:+
  ") | pfctl -N -f -".
Definition insertFilterAnchor : string :=
  "( pfctl -sr | grep -v '" +:+ kRootAnchor +:+ "/*'; " +:+
  "echo 'anchor " +:+ quoted (kRootAnchor +:+ "/*") +:+ "'; " +:+
  "echo 'load anchor " +:+ quoted kRootAnchor +:+ " from " +:+
    quoted (ResourceDir +:+ "/" +:+ kRootAnchor +:+ ".conf") +:+ "'; " +:+
  " ) | pfctl -R -f -".
Definition remove_legacy : string :=
  "if grep -Fq '" +:+ kRootAnchor +:+ "' /etc/pf.conf ; then echo " +:+
  quoted ("`cat /etc/pf.conf | grep -vF '" +:+ kRootAnchor +:+ "'`") +:+ " > /etc/pf.conf ; fi".
Definition enable_pf : string :=
  "pfctl -E 2>&1 | grep -F 'Token : ' | cut -c9- > '" +:+ DaemonDataDir +:+ "/pf.token'".
Definition flush_root : string := "pfctl -q -a '" +:+ kRootAnchor +:+ "' -F all".
Definition release_token : string :=
  "test -f '" +:+ DaemonDataDir +:+ "/pf.token' && pfctl -X `cat '" +:+ DaemonDataDir +:+
  "/pf.token'` && rm '" +:+ DaemonDataDir +:+ "/pf.token'".
Definition reload_system : string := "test -f /etc/pf.conf && pfctl -F all -f /etc/pf.conf".
Definition test_pf : string :=
  "test -s '" +:+ DaemonDataDir +:+ "/pf.token' && pfctl -s References | grep -qFf '" +:+
  DaemonDataDir +:+ "/pf.token'".
Definition move_last : string :=
  "if ! pfctl -sr | tail -1 | grep -qF '" +:+ kRootAnchor +:+ "'; then echo -e " +:+
  quoted ("$(pfctl -sr | grep -vF '" +:+ kRootAnchor +:+ "')" +:+ backslash_n) +:+ "'anchor " +:+
  quoted kRootAnchor +:+ "' | pfctl -f - ; fi".
Definition test_root : string :=
  "pfctl -sr | grep -q '" +:+ kRootAnchor +:+ "' && pfctl -q -a '" +:+ kRootAnchor +:+
  "' -s rules 2> /dev/null | grep -q .".
Definition anchor_path (anchor : string) : string := "'" +:+ kRootAnchor +:+ "/" +:+ anchor +:+ "'".
Definition has_rules (anchor : string) : string :=
  "pfctl -q -a " +:+ anchor_path anchor +:+ " -s rules 2> /dev/null | grep -q .".
Definition enable_script (anchor : string) : string :=
  "if " +:+ has_rules anchor +:+ " ; then echo '" +:+ anchor +:+ ": ON' ; else echo '" +:+ anchor +:+
  ": OFF -> ON' ; pfctl -q -a " +:+ anchor_path anchor +:+ " -F all -f '" +:+ ResourceDir +:+ "/" +:+
  kRootAnchor +:+ "." +:+ anchor +:+ ".conf' ; fi".
Definition disable_script (anchor : string) : string :=
  "if ! " +:+ has_rules anchor +:+ " ; then echo '" +:+ anchor +:+ ": OFF' ; else echo '" +:+ anchor +:+
  ": ON -> OFF' ; pfctl -q -a " +:+ anchor_path anchor +:+ " -F all ; fi".
Definition table_script (anchor : string) (enabled : bool) (table : string) (items : list string) : string :=
  if enabled then
    "pfctl -q -a " +:+ anchor_path anchor +:+ " -t '" +:+ table +:+ "' -T replace " +:+ joined " " items
  else "pfctl -q -a " +:+ anchor_path anchor +:+ " -t '" +:+ table +:+ "' -T kill".
Definition rules_script (anchor : string) (enabled : bool) (ruleList : list string) : string :=
  if enabled then
    "echo -e " +:+ quoted (joined nl ruleList) +:+ " | pfctl -q -a " +:+ anchor_path anchor +:+ " -f -"
  else "pfctl -q -a " +:+ anchor_path anchor +:+ " -F rules".

(** ** The operations *)
#[local] Abbreviation M := (stM W).

Definition execute (command : string) : M Z := bash command.

Definition installRootAnchors : M unit :=
  _ ← execute insertNatAnchors; discard (execute insertFilterAnchor).

Definition uninstall : M unit :=
  _ ← execute flush_root; _ ← execute release_token; discard (execute reload_system).

Definition install : M unit :=
  _ ← execute remove_legacy;
  _ ← uninstall;
  _ ← installRootAnchors;
  _ ← modify (mkpath DaemonDataDir);
  discard (execute enable_pf).

Definition isPFEnabled : M bool := code ← execute test_pf; mret (0 =? code).
Definition isRootAnchorLoaded : M bool := code ← execute test_root; mret (0 =? code).
Definition isInstalled : M bool := and_then isPFEnabled isRootAnchorLoaded.
Definition ensureRootAnchorPriority : M unit := discard (execute move_last).
Definition enableAnchor (anchor : string) : M unit := discard (execute (enable_script anchor)).
Definition disableAnchor (anchor : string) : M unit := discard (execute (disable_script anchor)).
Definition isAnchorEnabled (anchor : string) : M bool := code ← execute (has_rules anchor); mret (0 =? code).
Definition setAnchorEnabled (anchor : string) (enabled : bool) : M unit :=
  if enabled then enableAnchor anchor else disableAnchor anchor.
Definition setAnchorTable (anchor : string) (enabled : bool) (table : string) (items : list string) : M unit :=
  discard (execute (table_script anchor enabled table items)).
Definition setAnchorWithRules (anchor : string) (enabled : bool) (ruleList : list string) : M unit :=
  discard (execute (rules_script anchor enabled ruleList)).
End scripts.
