(* ===== verification/KillSwitch.v ===== *)
(** * KillSwitch: blocking traffic outside the tunnel

    Models [service/server/killswitch.cpp] on the three desktop platforms: on
    Linux over [LinuxFirewall], on macOS over [MacOSFirewall], on Windows over an
    interface to [WindowsFirewall] and [WindowsDaemon].  The strict setting is
    the stored [strictKillSwitchEnabled] value. *)
From S2P Require Import Prelude Text Json IpAddress InterfaceConfig Qt DaemonConfig MacOSFirewall LinuxFirewall.

(** ** State *)

(** What the Windows branches call. *)
Inductive win_command :=
  | EnableInterface (vpnAdapterIndex : Z)
  | AllowAllTraffic
  | AllowTrafficRange (ranges : list string)
  | EnablePeerTraffic (config : InterfaceConfig)
  | PrepareActivation (config : InterfaceConfig) (inetAdapterIndex : Z)
  | ActivateSplitTunnel (config : InterfaceConfig) (vpnAdapterIndex : Z).

Class WinFirewall (W : Type) := { win_run : win_command → W → bool * W }.

Record KillSwitch (W : Type) := mkKillSwitch {
  m_allowedRanges : list string;
  strictKillSwitchEnabled : bool;
  firewall : Firewall W;
}.
Arguments mkKillSwitch {W}.
Arguments m_allowedRanges {W}.
Arguments strictKillSwitchEnabled {W}.
Arguments firewall {W}.

Definition amneziaDnsIp : string := "172.29.172.254".

(** ** Operations *)
Section operations.
Context {W : Type} {I : Iptables W} {B : Bash W} {WF : WinFirewall W} {Q : Qt} (os : platform).
#[local] Abbreviation K := (stM (KillSwitch W)).

Definition linux {A} (m : stM (Firewall W) A) : K A := λ k,
  let '(a, f) := m (firewall k) in (a, mkKillSwitch (m_allowedRanges k) (strictKillSwitchEnabled k) f).
Definition on_world {A} (m : stM W A) : K A := λ k,
  let '(a, w) := m (world (firewall k)) in
  (a, mkKillSwitch (m_allowedRanges k) (strictKillSwitchEnabled k) (mkFirewall w (anchorCallbacks (firewall k)))).
Definition macos {A} (m : stM W A) : K A := on_world m.
Definition windows (c : win_command) : K bool := on_world (win_run c).

Definition set_ranges (ranges : list string) : K unit :=
  modify (λ k, mkKillSwitch ranges (strictKillSwitchEnabled k) (firewall k)).
Definition set_strict (enabled : bool) : K unit :=
  modify (λ k, mkKillSwitch (m_allowedRanges k) enabled (firewall k)).

(** A run of calls of [LinuxFirewall]. *)
Definition operations (ops : list operation) : K unit := linux (for_each ops run_operation).
Definition mac_anchors (l : list (string * bool)) : K unit :=
  macos (for_each l (λ a, MacOSFirewall.setAnchorEnabled a.1 a.2)).

Definition isStrictKillSwitchEnabled : K bool := k ← get; mret (strictKillSwitchEnabled k).

Definition linux_strict : list operation :=
  [SetAnchor Both "000.allowLoopback" true; SetAnchor Both "100.blockAll" true;
   SetAnchor IPv4 "110.allowNets" false; SetAnchor IPv4 "120.blockNets" false;
   SetAnchor Both "130.allowMarkedXray" false; SetAnchor IPv4 "200.allowVPN" false;
   SetAnchor IPv6 "250.blockIPv6" true; SetAnchor Both "290.allowDHCP" false;
   SetAnchor Both "300.allowLAN" false; SetAnchor IPv4 "310.blockDNS" false;
   SetAnchor IPv4 "320.allowDNS" false; SetAnchor Both "400.allowPIA" false].
Definition linux_open : list operation :=
  [SetAnchor Both "000.allowLoopback" true; SetAnchor Both "100.blockAll" false;
   SetAnchor IPv4 "110.allowNets" false; SetAnchor IPv4 "120.blockNets" false;
   SetAnchor Both "130.allowMarkedXray" false; SetAnchor IPv4 "200.allowVPN" false;
   SetAnchor IPv6 "250.blockIPv6" false; SetAnchor Both "290.allowDHCP" true;
   SetAnchor Both "300.allowLAN" true; SetAnchor IPv4 "310.blockDNS" false;
   SetAnchor IPv4 "320.allowDNS" true; SetAnchor Both "400.allowPIA" false].
Definition mac_strict : list (string * bool) :=
  [("000.allowLoopback", true); ("100.blockAll", true); ("110.allowNets", false); ("120.blockNets", false);
   ("200.allowVPN", false); ("250.blockIPv6", true); ("290.allowDHCP", false); ("300.allowLAN", false);
   ("310.blockDNS", false); ("400.allowPIA", false)].

(** [if (!LinuxFirewall::isInstalled()) LinuxFirewall::install();] *)
Definition ensure_installed : K unit :=
  installed ← linux LinuxFirewall.isInstalled; if (installed : bool) then mret tt else linux LinuxFirewall.install.
Definition mac_ensure_installed : K unit :=
  installed ← macos MacOSFirewall.isInstalled; if (installed : bool) then mret tt else macos MacOSFirewall.install.

Definition linux_block : list operation :=
  [SetAnchor Both "100.blockAll" true; SetAnchor Both "130.allowMarkedXray" false;
   SetAnchor Both "000.allowLoopback" true; SetAnchor IPv6 "250.blockIPv6" true].

Definition disableAllTraffic : K bool :=
  _ ← match os with
      | Windows => discard (windows (EnableInterface (-1)))
      | Linux => _ ← ensure_installed; operations linux_block
      | MacOS =>
          _ ← mac_ensure_installed;
          _ ← macos MacOSFirewall.ensureRootAnchorPriority;
          mac_anchors [("100.blockAll", true); ("000.allowLoopback", true); ("250.blockIPv6", true)]
      end;
  _ ← set_ranges [];
  mret true.

Definition disableKillSwitch : K bool :=
  strict ← isStrictKillSwitchEnabled;
  match os with
  | Windows => if (strict : bool) then disableAllTraffic else windows AllowAllTraffic
  | Linux =>
      _ ← (if (strict : bool) then operations linux_strict
           else (_ ← operations linux_open; linux LinuxFirewall.uninstall));
      _ ← set_ranges [];
      mret true
  | MacOS =>
      _ ← (if (strict : bool) then mac_anchors mac_strict else macos MacOSFirewall.uninstall);
      _ ← set_ranges [];
      mret true
  end.

Definition init : K bool :=
  strict ← isStrictKillSwitchEnabled;
  if (strict : bool) then disableAllTraffic else mret true.

Definition refresh (enabled : bool) : K bool :=
  _ ← set_strict enabled;
  strict ← isStrictKillSwitchEnabled;
  if (strict : bool) then disableAllTraffic else disableKillSwitch.

Definition resetAllowedRange (ranges : list string) : K bool :=
  _ ← set_ranges ranges;
  _ ← match os with
      | Linux => operations [SetAnchor IPv4 "110.allowNets" true; UpdateAllow ranges]
      | MacOS =>
          _ ← mac_anchors [("110.allowNets", true)];
          macos (MacOSFirewall.setAnchorTable "110.allowNets" true "allownets" ranges)
      | Windows =>
          strict ← isStrictKillSwitchEnabled;
          _ ← (if (strict : bool) then discard (windows (EnableInterface (-1))) else mret tt);
          discard (windows (AllowTrafficRange ranges))
      end;
  mret true.

(** The ranges not listed yet, empty ones dropped. *)
Definition add_ranges (old ranges : list string) : list string :=
  foldl (λ l range, if decide (range = "" ∨ range ∈ l) then l else l ++ [range]) old ranges.

Definition addAllowedRange (ranges : list string) : K bool :=
  k ← get; resetAllowedRange (add_ranges (m_allowedRanges k) ranges).

(** *** The configuration of a connection *)

(** The strings before the first value that is none. *)
Fixpoint strings_until (l : list json) : list string :=
  match l with
  | JString s :: l' => s :: strings_until l'
  | _ => []
  end.

Definition text (configStr : gmap string json) (key : string) : string := str (toString (value configStr key)).
Definition sites (configStr : gmap string json) : list string :=
  (λ v, str (toString (Some v))) <$> toArray (value configStr "splitTunnelSites").
Definition splitTunnelType (configStr : gmap string json) : Z := toInt (value configStr "splitTunnelType").

(** No secondary DNS when the primary one is AmneziaDNS. *)
Definition config_dns (configStr : gmap string json) : list string :=
  text configStr "dns1" ::
  (if contains_str amneziaDnsIp (text configStr "dns1") then [] else [text configStr "dns2"]).
Definition allowed_dns (configStr : gmap string json) : list string :=
  strings_until (toArray (value configStr "allowedDnsServers")).

Definition allow_nets (configStr : gmap string json) : list string :=
  let type := splitTunnelType configStr in
  if type =? 0 then [text configStr "vpnServer"]
  else if type =? 1 then []
  else if type =? 2 then text configStr "vpnServer" :: sites configStr
  else [].
Definition block_nets (configStr : gmap string json) : list string :=
  if splitTunnelType configStr =? 1 then sites configStr else [].

Definition linux_enable (configStr : gmap string json) : list operation :=
  let type := splitTunnelType configStr in
  let blockAll := (type =? 0) || (type =? 2) in
  let allowNets := (type =? 0) || (type =? 2) in
  [SetAnchor Both "000.allowLoopback" true;
   SetAnchor Both "100.blockAll" blockAll;
   SetAnchor IPv4 "110.allowNets" allowNets;
   UpdateAllow (allow_nets configStr);
   SetAnchor IPv4 "120.blockNets" blockAll;
   UpdateBlock (block_nets configStr);
   SetAnchor Both "130.allowMarkedXray" true;
   SetAnchor IPv4 "200.allowVPN" true;
   SetAnchor IPv6 "250.blockIPv6" true;
   SetAnchor Both "290.allowDHCP" true;
   SetAnchor Both "300.allowLAN" true;
   SetAnchor IPv4 "310.blockDNS" true;
   UpdateDNS (config_dns configStr ++ ["127.0.0.1"; "127.0.0.53"] ++ allowed_dns configStr);
   SetAnchor IPv4 "320.allowDNS" true;
   SetAnchor Both "400.allowPIA" true].

Definition mac_enable (configStr : gmap string json) : K unit :=
  let type := splitTunnelType configStr in
  let blockAll := (type =? 0) || (type =? 2) in
  let allowNets := (type =? 0) || (type =? 2) in
  let blockNets := type =? 1 in
  _ ← mac_ensure_installed;
  _ ← macos MacOSFirewall.ensureRootAnchorPriority;
  _ ← mac_anchors [("000.allowLoopback", true); ("100.blockAll", blockAll); ("110.allowNets", allowNets)];
  _ ← macos (MacOSFirewall.setAnchorTable "110.allowNets" allowNets "allownets" (allow_nets configStr));
  _ ← mac_anchors [("120.blockNets", blockNets)];
  _ ← macos (MacOSFirewall.setAnchorTable "120.blockNets" blockNets "blocknets" (block_nets configStr));
  _ ← mac_anchors [("200.allowVPN", true); ("250.blockIPv6", true); ("290.allowDHCP", true);
                   ("300.allowLAN", true); ("310.blockDNS", true)];
  _ ← macos (MacOSFirewall.setAnchorTable "310.blockDNS" true "dnsaddr"
               (config_dns configStr ++ allowed_dns configStr));
  mac_anchors [("400.allowPIA", true)].

Definition enableKillSwitch (configStr : gmap string json) (vpnAdapterIndex : Z) : K bool :=
  match os with
  | Windows =>
      _ ← (if splitTunnelType configStr =? 0 then mret tt else discard (windows AllowAllTraffic));
      windows (EnableInterface vpnAdapterIndex)
  | Linux => _ ← ensure_installed; _ ← operations (linux_enable configStr); mret true
  | MacOS => _ ← mac_enable configStr; mret true
  end.

(** *** The peer of a Windows connection *)

(** [IPAddress(QHostAddress(..), n)] of an allowed site. *)
Definition peer_range (ipRange : string) : IPAddress :=
  match split_char slash ipRange with
  | address :: length :: _ => mkIPAddress (host_of_string address) (atoi length)
  | _ => mkIPAddress (host_of_string ipRange) 32
  end.

Definition peer_ranges (configStr : gmap string json) : list IPAddress :=
  let type := splitTunnelType configStr in
  if (type =? 0) || (type =? 2) then
    [mkIPAddress (host_of_string "0.0.0.0") 0; mkIPAddress (host_of_string "::") 0]
  else if type =? 1 then peer_range <$> sites configStr
  else [].

(** [h] and [ks] are the fields without an initializer. *)
Definition peer_config (h : HopType) (ks : bool) (configStr : gmap string json) : InterfaceConfig :=
  let c := new_config h ks in
  mkInterfaceConfig (m_hopType c) (m_privateKey c) (m_deviceIpv4Address c) (m_deviceIpv6Address c)
    (toString (value configStr "vpnGateway")) (m_serverIpv6Gateway c) (Some "openvpn")
    (toString (value configStr "vpnServer")) (m_serverPskKey c) (m_serverIpv6AddrIn c)
    (toString (value configStr "dns1"))
    (if contains_str amneziaDnsIp (text configStr "dns1") then m_secondaryDnsServer c
     else toString (value configStr "dns2"))
    (m_serverPort c) (m_deviceMTU c) (m_persistentKeepalive c)
    (peer_ranges configStr)
    (text configStr "vpnServer" :: (if splitTunnelType configStr =? 2 then sites configStr else []))
    (strings_until (toArray (value configStr "splitTunnelApps")))
    (allowed_dns configStr)
    (m_killSwitchEnabled c) (m_junkPacketCount c) (m_junkPacketMinSize c) (m_junkPacketMaxSize c)
    (m_initPacketJunkSize c) (m_responsePacketJunkSize c) (m_cookieReplyPacketJunkSize c)
    (m_transportPacketJunkSize c) (m_initPacketMagicHeader c) (m_responsePacketMagicHeader c)
    (m_underloadPacketMagicHeader c) (m_transportPacketMagicHeader c) (m_specialJunk c)
    (m_headerProtectionKey c) (m_contentPaddingAddition c) (m_rekeyAfterTime c) (m_rekeyTimeout c)
    (m_rejectAfterTime c) (m_keepaliveTimeout c) (m_maxHandshakeAttempts c).

Definition enablePeerTraffic (h : HopType) (ks : bool) (configStr : gmap string json) : K bool :=
  _ ← match os with
      | Windows =>
          let config := peer_config h ks configStr in
          _ ← (if string_toBool (text configStr "killSwitchOption")
               then discard (windows (EnablePeerTraffic config)) else mret tt);
          _ ← windows (PrepareActivation config (toInt (value configStr "inetAdapterIndex")));
          discard (windows (ActivateSplitTunnel config (toInt (value configStr "vpnAdapterIndex"))))
      | _ => mret tt
      end;
  mret true.
End operations.

(** ** Linux: what the operations do to the firewall *)
Section linux_runs.
Context {W : Type} {I : Iptables W} {B : Bash W} {WF : WinFirewall W} {Q : Qt}.
Context (valid : string → bool) (HI : iptables_laws I valid).

(** The chains of a kill switch. *)
Definition chains_in (k : KillSwitch W) : chains := chains_of (firewall k).

Lemma linux_run {A} (m : stM (Firewall W) A) k :
  linux m k = ((m (firewall k)).1,
    mkKillSwitch (m_allowedRanges k) (strictKillSwitchEnabled k) (m (firewall k)).2).
Proof. unfold linux. by destruct (m (firewall k)). Qed.

Lemma operations_run ops k :
  operations ops k = (tt, mkKillSwitch (m_allowedRanges k) (strictKillSwitchEnabled k)
                            (for_each ops run_operation (firewall k)).2).
Proof. unfold operations. rewrite linux_run. f_equal. by destruct (for_each ops run_operation (firewall k)) as [[] f]. Qed.

Lemma ensure_installed_run k :
  sound valid (chains_in k) →
  ∃ p f, ensure_installed k = (tt, mkKillSwitch (m_allowedRanges k) (strictKillSwitchEnabled k) f) ∧
         installed_with valid p (chains_of f) ∧
         (unlinked (chains_in k) → p = mkPolicy (λ _ _, false) [] [] []).
Proof using HI.
  intros Hs. destruct (ensure_installed_sound valid HI _ Hs) as [p Hp]. exists p.
  unfold ensure_installed. rewrite bind_run, linux_run. cbn [fst snd].
  destruct (LinuxFirewall.isInstalled (firewall k)) as [b s1].
  cbn [fst snd] in Hp |- *. destruct b.
  - eexists. split; [reflexivity|exact Hp].
  - rewrite linux_run. cbn [fst snd firewall m_allowedRanges strictKillSwitchEnabled]. destruct (LinuxFirewall.install s1) as [[] f]. eexists. split; [reflexivity|exact Hp].
Qed.

(** The operations in the configuration are proper. *)
Definition plain_config (configStr : gmap string json) : bool :=
  forallb plain (allow_nets configStr) && forallb plain (block_nets configStr) &&
  forallb plain (config_dns configStr ++ ["127.0.0.1"; "127.0.0.53"] ++ allowed_dns configStr).

Lemma linux_enable_proper configStr :
  plain_config configStr = true → forallb proper_operation (linux_enable configStr) = true.
Proof.
  unfold plain_config. intros H. split_bools. unfold linux_enable. cbn [forallb proper_operation].
  rewrite H, H1, H0. reflexivity.
Qed.

Lemma set_ranges_run r (k : KillSwitch W) :
  set_ranges r k = (tt, mkKillSwitch r (strictKillSwitchEnabled k) (firewall k)).
Proof. done. Qed.

(** After [ensure_installed] and a run of calls the chains hold the policy. *)
Lemma ensured_operations ops k :
  sound valid (chains_in k) → forallb proper_operation ops = true →
  ∃ p, installed_with valid (foldl (spec_operation valid) p ops)
         (chains_in ((_ ← ensure_installed; operations ops) k).2).
Proof using HI.
  intros Hs Hops. destruct (ensure_installed_run k Hs) as (p & f & E & Hp & Hoff). exists p.
  rewrite bind_run, E. cbn [snd]. rewrite operations_run. cbn [snd]. by apply operations_installed.
Qed.

Lemma enableKillSwitch_installed configStr idx k :
  sound valid (chains_in k) → plain_config configStr = true →
  ∃ p, installed_with valid (foldl (spec_operation valid) p (linux_enable configStr))
         (chains_in (enableKillSwitch Linux configStr idx k).2).
Proof using HI.
  intros Hs Hc. destruct (ensured_operations (linux_enable configStr) k Hs) as [p Hp];
    [by apply linux_enable_proper|]. exists p.
  unfold enableKillSwitch. rewrite bind_run in Hp. rewrite !bind_run. exact Hp.
Qed.

Lemma disableAllTraffic_run k :
  sound valid (chains_in k) →
  (disableAllTraffic Linux k).1 = true ∧ m_allowedRanges (disableAllTraffic Linux k).2 = [] ∧
  strictKillSwitchEnabled (disableAllTraffic Linux k).2 = strictKillSwitchEnabled k ∧
  ∃ p, installed_with valid (foldl (spec_operation valid) p linux_block) (chains_in (disableAllTraffic Linux k).2) ∧
    (unlinked (chains_in k) → p = mkPolicy (λ _ _, false) [] [] []).
Proof using HI.
  intros Hs. destruct (ensure_installed_run k Hs) as (p & f & E & Hp & Hoff).
  unfold disableAllTraffic. rewrite !bind_run, E. cbn [snd]. rewrite operations_run. cbn [snd].
  rewrite set_ranges_run. cbn [fst snd]. do 3 (split; [done|]). exists p. split; [by apply operations_installed|done].
Qed.

Lemma disableKillSwitch_strict_run k :
  strictKillSwitchEnabled k = true →
  chains_in (disableKillSwitch Linux k).2 = chains_of (for_each linux_strict run_operation (firewall k)).2.
Proof.
  intros Hstrict. unfold disableKillSwitch, isStrictKillSwitchEnabled. rewrite !bind_run.
  cbn [get fst snd]. rewrite Hstrict, ?bind_run.
  change (chains_of (firewall (operations linux_strict k).2) =
    chains_of (for_each linux_strict run_operation (firewall k)).2). by rewrite operations_run.
Qed.

(** *** Every sequence of requests keeps the firewall sound *)
Inductive request :=
  | Init
  | Refresh (enabled : bool)
  | DisableKillSwitch
  | DisableAllTraffic
  | ResetAllowedRange (ranges : list string)
  | AddAllowedRange (ranges : list string)
  | EnablePeer (h : HopType) (ks : bool) (configStr : gmap string json)
  | Enable (configStr : gmap string json) (vpnAdapterIndex : Z).

Definition serve (os : platform) (r : request) : stM (KillSwitch W) bool :=
  match r with
  | Init => init os
  | Refresh enabled => refresh os enabled
  | DisableKillSwitch => disableKillSwitch os
  | DisableAllTraffic => disableAllTraffic os
  | ResetAllowedRange ranges => resetAllowedRange os ranges
  | AddAllowedRange ranges => addAllowedRange os ranges
  | EnablePeer h ks configStr => enablePeerTraffic os h ks configStr
  | Enable configStr idx => enableKillSwitch os configStr idx
  end.

(** Requests whose servers bash takes literally. *)
Definition plain_request (r : request) : bool :=
  match r with
  | ResetAllowedRange ranges | AddAllowedRange ranges => forallb plain ranges
  | Enable configStr _ => plain_config configStr
  | _ => true
  end.

Record healthy (k : KillSwitch W) : Prop := {
  healthy_chains : sound valid (chains_in k);
  healthy_ranges : forallb plain (m_allowedRanges k) = true;
}.

Lemma linux_strict_proper : forallb proper_operation linux_strict = true.
Proof. reflexivity. Qed.
Lemma linux_open_proper : forallb proper_operation linux_open = true.
Proof. reflexivity. Qed.

Lemma disableAllTraffic_healthy k : healthy k → healthy (disableAllTraffic Linux k).2.
Proof using HI.
  intros [Hs _]. destruct (disableAllTraffic_run k Hs) as (_ & Hr & _ & p & Hp & _).
  split; [right; by eexists|by rewrite Hr].
Qed.

Lemma disableKillSwitch_healthy k : healthy k → healthy (disableKillSwitch Linux k).2.
Proof using HI.
  intros [Hs _]. unfold disableKillSwitch, isStrictKillSwitchEnabled. rewrite !bind_run.
  cbn [get fst snd]. destruct (strictKillSwitchEnabled k) eqn:E; (split; [|done]).
  - change (sound valid (chains_of (firewall (operations linux_strict k).2))). rewrite operations_run.
    by apply operations_sound.
  - change (sound valid (chains_of (firewall
      ((_ ← operations linux_open; linux LinuxFirewall.uninstall) k).2))).
    rewrite bind_run, operations_run, linux_run. cbn [fst snd firewall]. left.
    apply (uninstall_sound valid HI). by apply operations_sound.
Qed.

Lemma resetAllowedRange_healthy ranges k :
  forallb plain ranges = true → healthy k → healthy (resetAllowedRange Linux ranges k).2.
Proof using HI.
  intros Hr [Hs _]. unfold resetAllowedRange. rewrite !bind_run, operations_run, set_ranges_run. cbn [fst snd].
  split; [|done]. apply operations_sound; [done| |done]. cbn. by rewrite Hr.
Qed.

Lemma add_ranges_plain old ranges :
  forallb plain old = true → forallb plain ranges = true → forallb plain (add_ranges old ranges) = true.
Proof.
  unfold add_ranges. revert old. induction ranges as [|r ranges IH]; intros old Ho Hr; [done|].
  cbn in Hr |- *. split_bools. apply IH; [|done]. case_decide; [done|].
  rewrite forallb_app, Ho. cbn. by rewrite H.
Qed.

Lemma serve_healthy r k : plain_request r = true → healthy k → healthy (serve Linux r k).2.
Proof using HI.
  intros Hr Hk. destruct r; cbn [serve plain_request] in *.
  - unfold init, isStrictKillSwitchEnabled. rewrite !bind_run. cbn [get fst snd].
    destruct (strictKillSwitchEnabled k); [|done]. by apply disableAllTraffic_healthy.
  - unfold refresh, isStrictKillSwitchEnabled. rewrite !bind_run. cbn [get fst snd].
    set (k1 := (set_strict enabled k).2).
    assert (healthy k1) as Hk1 by by destruct Hk.
    destruct enabled; [by apply disableAllTraffic_healthy|by apply disableKillSwitch_healthy].
  - by apply disableKillSwitch_healthy.
  - by apply disableAllTraffic_healthy.
  - by apply resetAllowedRange_healthy.
  - unfold addAllowedRange. rewrite bind_run. cbn [get fst snd]. apply resetAllowedRange_healthy; [|done].
    apply add_ranges_plain; [by destruct Hk|done].
  - done.
  - destruct Hk as [Hs Hranges]. destruct (enableKillSwitch_installed configStr vpnAdapterIndex k Hs Hr) as [p Hp].
    split; [right; by eexists|].
    unfold enableKillSwitch. rewrite !bind_run. destruct (ensure_installed_run k Hs) as (p' & f & E & _ & _).
    rewrite E, operations_run. done.
Qed.
End linux_runs.

(** ** Packets *)

Definition ends_with (suffix s : string) : bool :=
  String.eqb (String.substring (String.length s - String.length suffix) (String.length suffix) s) suffix.

(** What iptables documents of the rules the theorems rely on: loopback, the
    rejections, and that a rule's target is its verdict. *)
Record packet_laws {packet} (valid : string → bool) (meaning : string → packet → option verdict)
    (loopback : packet → bool) : Prop := {
  law_accept_lo : valid "-o lo+ -j ACCEPT" = true ∧
    ∀ pkt, meaning "-o lo+ -j ACCEPT" pkt = if loopback pkt then Some Accept else None;
  law_reject_all : valid "-j REJECT" = true ∧ ∀ pkt, meaning "-j REJECT" pkt = Some Reject;
  law_reject_not_lo : valid "! -o lo+ -j REJECT" = true ∧
    ∀ pkt, meaning "! -o lo+ -j REJECT" pkt = if loopback pkt then None else Some Reject;
  law_target_reject : ∀ r pkt, ends_with "-j REJECT" r = true → meaning r pkt ≠ Some Accept;
  law_target_accept : ∀ r pkt, ends_with "-j ACCEPT" r = true → meaning r pkt ≠ Some Reject;
}.

Section packets.
Context {W packet : Type} {I : Iptables W} {B : Bash W} {WF : WinFirewall W} {Q : Qt}.
Context (valid : string → bool) (meaning : string → packet → option verdict) (loopback : packet → bool).
Context (HP : packet_laws valid meaning loopback).

(** The verdict on a packet that leaves the machine. *)
Definition outgoing (k : KillSwitch W) (ip : IPVersion) (pkt : packet) : option verdict :=
  traverse meaning 4 (chains_in k) ip kFilterTable kOutputChain pkt.

(** The verdict of some rules in order. *)
Definition decide_by (rules : list string) (pkt : packet) : option verdict :=
  first_match (λ r, meaning r pkt) (List.filter valid rules).

Lemma decide_by_app l k pkt :
  decide_by (l ++ k) pkt = match decide_by l pkt with Some d => Some d | None => decide_by k pkt end.
Proof. unfold decide_by. by rewrite List.filter_app, first_match_app. Qed.

Lemma decide_by_some l pkt d : decide_by l pkt = Some d → ∃ r, r ∈ l ∧ valid r = true ∧ meaning r pkt = Some d.
Proof.
  unfold decide_by. intros (r & Hr & E)%first_match_some. exists r.
  apply list_elem_of_In, filter_In in Hr as [Hr Hv]. by apply list_elem_of_In in Hr.
Qed.

Lemma decide_lo pkt : decide_by ["-o lo+ -j ACCEPT"] pkt = if loopback pkt then Some Accept else None.
Proof using HP.
  unfold decide_by. destruct (law_accept_lo _ _ _ HP) as [Hv Hm]. cbn [List.filter]. rewrite Hv.
  unfold first_match. cbn [foldr]. rewrite Hm. by destruct (loopback pkt).
Qed.
Lemma decide_reject pkt : decide_by ["-j REJECT"] pkt = Some Reject.
Proof using HP.
  unfold decide_by. destruct (law_reject_all _ _ _ HP) as [Hv Hm]. cbn [List.filter]. rewrite Hv.
  unfold first_match. cbn [foldr]. by rewrite Hm.
Qed.
Lemma decide_reject_not_lo pkt :
  decide_by ["! -o lo+ -j REJECT"] pkt = if loopback pkt then None else Some Reject.
Proof using HP.
  unfold decide_by. destruct (law_reject_not_lo _ _ _ HP) as [Hv Hm]. cbn [List.filter]. rewrite Hv.
  unfold first_match. cbn [foldr]. rewrite Hm. by destruct (loopback pkt).
Qed.

Definition dns_reject : list string := ["-p udp --dport 53 -j REJECT"; "-p tcp --dport 53 -j REJECT"].

Definition vpn_rules : list string := ["-o abs0+ -j ACCEPT"; "-o tun0+ -j ACCEPT"; "-o tun2+ -j ACCEPT"].
Definition dhcp4 : list string := ["-p udp -d 255.255.255.255 --sport 68 --dport 67 -j ACCEPT"].
Definition dhcp6 : list string := ["-p udp -d ff00::/8 --sport 546 --dport 547 -j ACCEPT"].
Definition marked : list string := ["-m mark --mark 130 -j ACCEPT"].

Lemma dns_rejects r : r ∈ dns_reject → ends_with "-j REJECT" r = true.
Proof. intros Hr. unfold dns_reject in Hr. rewrite !elem_of_cons, elem_of_nil in Hr. naive_solver. Qed.
Lemma lan6_accepts r : r ∈ lan6 ++ dhcp6 → ends_with "-j ACCEPT" r = true.
Proof.
  intros Hr. unfold lan6, dhcp6 in Hr. cbn [app] in Hr. rewrite !elem_of_cons, elem_of_nil in Hr. naive_solver.
Qed.

Lemma decide_dns_reject pkt : decide_by dns_reject pkt ≠ Some Accept.
Proof using HP.
  intros (r & Hr & _ & E)%decide_by_some. by apply (law_target_reject _ _ _ HP r pkt (dns_rejects r Hr)).
Qed.

Lemma decide_concat groups pkt :
  decide_by (concat groups) pkt = first_match (λ r, meaning r pkt) (concat (List.filter valid <$> groups)).
Proof.
  induction groups as [|g groups IH]; [done|]. cbn [concat fmap list_fmap]. rewrite decide_by_app, IH.
  by rewrite first_match_app.
Qed.

(** The verdict of an installed policy whose rules are known. *)
Lemma outgoing_installed k p ip groups pkt :
  installed_with valid p (chains_in k) → ip ≠ Both →
  enabled_rules valid p ip = concat (List.filter valid <$> groups) →
  ∃ rest, chains_in k ip kFilterTable kOutputChain = Some (Jump kRootChain :: rest) ∧
    outgoing k ip pkt =
    match decide_by (concat groups) pkt with
    | Some d => Some d
    | None => first_match (λ e, match e with
                                | Rule r => meaning r pkt
                                | Jump c => traverse meaning 3 (chains_in k) ip kFilterTable c pkt
                                end) rest
    end.
Proof using.
  intros Hp Hip Hr. destruct (installed_verdict valid meaning p _ ip pkt Hp Hip) as (rest & Ho & E).
  exists rest. split; [done|]. unfold outgoing. by rewrite E, Hr, decide_concat.
Qed.

Lemma outgoing_decided k p ip groups pkt d :
  installed_with valid p (chains_in k) → ip ≠ Both →
  enabled_rules valid p ip = concat (List.filter valid <$> groups) → decide_by (concat groups) pkt = Some d →
  outgoing k ip pkt = Some d.
Proof using.
  intros Hp Hip Hr Hd. destruct (outgoing_installed k p ip groups pkt Hp Hip Hr) as (rest & _ & ->). by rewrite Hd.
Qed.

Lemma strict_rules_v4 p :
  enabled_rules valid (foldl (spec_operation valid) p linux_strict) IPv4 =
  concat (List.filter valid <$> [["-o lo+ -j ACCEPT"]; ["-j REJECT"]]).
Proof. vm_compute. reflexivity. Qed.

(** The rules of IPv6 when the IPv6 block, and perhaps the DNS block, are on. *)
Lemma strict_rules_v6 p :
  ∃ b, enabled_rules valid (foldl (spec_operation valid) p linux_strict) IPv6 =
  concat (List.filter valid <$> [["-o lo+ -j ACCEPT"]; (if (b : bool) then dns_reject else []);
    ["! -o lo+ -j REJECT"]; (if on p IPv6 "200.allowVPN" then vpn_rules else []); ["-j REJECT"]]).
Proof.
  exists (on p IPv6 "310.blockDNS").
  destruct (on p IPv6 "310.blockDNS") eqn:E1, (on p IPv6 "200.allowVPN") eqn:E2; vm_compute in E1, E2 |- *;
    rewrite E1, E2; reflexivity.
Qed.

(** Loopback passes and the rest is rejected. *)
Lemma lockdown_v6 (b : bool) tail pkt :
  decide_by (concat (["-o lo+ -j ACCEPT"] :: (if b then dns_reject else []) :: ["! -o lo+ -j REJECT"] :: tail)) pkt =
  Some (if loopback pkt then Accept else Reject).
Proof using HP.
  cbn [concat]. rewrite decide_by_app, decide_lo. destruct (loopback pkt) eqn:El; [done|].
  rewrite decide_by_app. pose proof (decide_dns_reject pkt) as Hd.
  destruct (decide_by (if b then dns_reject else []) pkt) as [[]|] eqn:E; [by destruct b|done|].
  by rewrite decide_by_app, decide_reject_not_lo, El.
Qed.

Lemma block_rules_fresh ip :
  ip ≠ Both →
  enabled_rules valid (foldl (spec_operation valid) (mkPolicy (λ _ _, false) [] [] []) linux_block) ip =
  concat (List.filter valid <$> (["-o lo+ -j ACCEPT"] ::
    (if decide (ip = IPv6) then [["! -o lo+ -j REJECT"]] else []) ++ [["-j REJECT"]])).
Proof. destruct ip; [|intros _..]; try done; vm_compute; reflexivity. Qed.

(** *** A connection that blocks by default *)
Definition blocking (configStr : gmap string json) : Prop :=
  splitTunnelType configStr = 0 ∨ splitTunnelType configStr = 2.

Definition dns_of (configStr : gmap string json) : list string :=
  config_dns configStr ++ ["127.0.0.1"; "127.0.0.53"] ++ allowed_dns configStr.

Lemma enable_rules_v4 configStr p :
  blocking configStr →
  enabled_rules valid (foldl (spec_operation valid) p (linux_enable configStr)) IPv4 =
  concat (List.filter valid <$> [["-o lo+ -j ACCEPT"]; getDNSRules (dns_of configStr); dns_reject; lan4; dhcp4;
    vpn_rules; marked; []; getAllowRule (allow_nets configStr); ["-j REJECT"]]).
Proof.
  intros Hb. unfold linux_enable, dns_of.
  generalize (allow_nets configStr) (config_dns configStr ++ ["127.0.0.1"; "127.0.0.53"] ++ allowed_dns configStr).
  unfold block_nets. destruct Hb as [-> | ->]; intros allow dns; vm_compute; reflexivity.
Qed.

Lemma enable_rules_v6 configStr p :
  ∃ (b : bool) (tail : list (list string)), enabled_rules valid (foldl (spec_operation valid) p (linux_enable configStr)) IPv6 =
  concat (List.filter valid <$> (["-o lo+ -j ACCEPT"] :: (if b then dns_reject else []) :: lan6 :: dhcp6 ::
    ["! -o lo+ -j REJECT"] :: tail)).
Proof.
  exists (on p IPv6 "310.blockDNS"). unfold linux_enable.
  generalize (allow_nets configStr) (block_nets configStr)
    (config_dns configStr ++ ["127.0.0.1"; "127.0.0.53"] ++ allowed_dns configStr)
    ((splitTunnelType configStr =? 0) || (splitTunnelType configStr =? 2)).
  intros allow block dns b.
  exists ((if on p IPv6 "200.allowVPN" then vpn_rules else []) :: marked :: (if b then [["-j REJECT"]] else [])).
  destruct b, (on p IPv6 "310.blockDNS") eqn:E1, (on p IPv6 "200.allowVPN") eqn:E2; vm_compute in E1, E2 |- *;
    rewrite E1, E2; reflexivity.
Qed.

(** The rules that exempt IPv4 packets of a blocking connection. *)
Definition exempt4 (configStr : gmap string json) : list string :=
  ["-o lo+ -j ACCEPT"] ++ getDNSRules (dns_of configStr) ++ lan4 ++ dhcp4 ++ vpn_rules ++ marked ++
  getAllowRule (allow_nets configStr).

(** The groups before the tunnel's. *)
Definition before_tunnel (configStr : gmap string json) : list (list string) :=
  [["-o lo+ -j ACCEPT"]; getDNSRules (dns_of configStr); dns_reject; lan4; dhcp4].
Definition after_tunnel (configStr : gmap string json) : list (list string) :=
  [marked; []; getAllowRule (allow_nets configStr); ["-j REJECT"]].

Lemma blocking_groups configStr :
  [["-o lo+ -j ACCEPT"]; getDNSRules (dns_of configStr); dns_reject; lan4; dhcp4; vpn_rules; marked; [];
   getAllowRule (allow_nets configStr); ["-j REJECT"]] =
  before_tunnel configStr ++ vpn_rules :: after_tunnel configStr.
Proof. reflexivity. Qed.

Lemma decided_v4 configStr pkt :
  decide_by (concat (before_tunnel configStr ++ vpn_rules :: after_tunnel configStr)) pkt = Some Reject ∨
  (decide_by (concat (before_tunnel configStr ++ vpn_rules :: after_tunnel configStr)) pkt = Some Accept ∧
   ∃ r, r ∈ exempt4 configStr ∧ valid r = true ∧ meaning r pkt = Some Accept).
Proof using HP.
  destruct (decide_by _ pkt) as [[]|] eqn:E; [right|by left|].
  - split; [done|]. apply decide_by_some in E as (r & Hr & Hv & Em). exists r. split; [|done].
    assert (r ∉ dns_reject) as Hd.
    { intros Hd. by apply (law_target_reject _ _ _ HP r pkt (dns_rejects r Hd)). }
    assert (r ∉ ["-j REJECT"]) as Hj.
    { intros ->%list_elem_of_singleton. by rewrite (proj2 (law_reject_all _ _ _ HP)) in Em. }
    unfold before_tunnel, after_tunnel, exempt4 in *. rewrite concat_app in Hr. cbn [concat] in Hr.
    rewrite !elem_of_app, ?elem_of_nil in Hr. rewrite !elem_of_app. tauto.
  - exfalso. rewrite concat_app, decide_by_app in E. destruct (decide_by (concat (before_tunnel _)) pkt); [done|].
    cbn [concat after_tunnel] in E. rewrite !decide_by_app, decide_reject in E.
    by repeat case_match.
Qed.

(** Packets to port 53 are settled before the tunnel's rules. *)
Lemma decided_dns configStr pkt :
  decide_by dns_reject pkt = Some Reject →
  decide_by (concat (before_tunnel configStr ++ vpn_rules :: after_tunnel configStr)) pkt = Some Accept →
  ∃ r, r ∈ "-o lo+ -j ACCEPT" :: getDNSRules (dns_of configStr) ∧ valid r = true ∧ meaning r pkt = Some Accept.
Proof using.
  intros Hd. rewrite concat_app. unfold before_tunnel. cbn [concat].
  rewrite <- !app_assoc, (app_assoc ["-o lo+ -j ACCEPT"]), decide_by_app.
  destruct (decide_by (["-o lo+ -j ACCEPT"] ++ getDNSRules _) pkt) as [d|] eqn:E.
  - intros [= ->]. by apply decide_by_some in E.
  - by rewrite decide_by_app, Hd.
Qed.

(** IPv6 packets that are not loopback's are rejected but for two groups. *)
Lemma decided_v6 (b : bool) tail pkt :
  let d := decide_by (concat (["-o lo+ -j ACCEPT"] :: (if b then dns_reject else []) :: lan6 :: dhcp6 ::
             ["! -o lo+ -j REJECT"] :: tail)) pkt in
  d = Some (if loopback pkt then Accept else Reject) ∨
  (d = Some Accept ∧ ∃ r, r ∈ lan6 ++ dhcp6 ∧ valid r = true ∧ meaning r pkt = Some Accept).
Proof using HP.
  cbn [concat]. rewrite decide_by_app, decide_lo. destruct (loopback pkt) eqn:El; [by left|].
  rewrite decide_by_app. pose proof (decide_dns_reject pkt) as Hd.
  destruct (decide_by (if b then dns_reject else []) pkt) as [[]|] eqn:E; [by destruct b|by left|].
  rewrite app_assoc, decide_by_app. destruct (decide_by (lan6 ++ dhcp6) pkt) as [d|] eqn:E6.
  - apply decide_by_some in E6 as (r & Hr & Hv & Em). destruct d; [right; split; [done|]; by exists r|].
    by destruct (law_target_accept _ _ _ HP r pkt (lan6_accepts r Hr)).
  - left. by rewrite decide_by_app, decide_reject_not_lo, El.
Qed.

Lemma site_rules_v4 configStr p :
  splitTunnelType configStr = 1 →
  enabled_rules valid (foldl (spec_operation valid) p (linux_enable configStr)) IPv4 =
  concat (List.filter valid <$> before_tunnel configStr ++ [vpn_rules; marked]).
Proof.
  intros Ht. unfold linux_enable, before_tunnel, dns_of. rewrite Ht.
  change ((1 =? 0) || (1 =? 2)) with false.
  generalize (allow_nets configStr) (block_nets configStr)
    (config_dns configStr ++ ["127.0.0.1"; "127.0.0.53"] ++ allowed_dns configStr).
  intros allow block dns. vm_compute. reflexivity.
Qed.
End packets.

(** ** A concrete machine *)
Inductive test_packet := ToLoopback | IntoTunnel | ToSite | ToElsewhere.
#[export] Instance test_packet_eq_dec : EqDecision test_packet.
Proof. solve_decision. Defined.

(** Its packets: over loopback, into the tunnel, over the uplink to
    198.51.100.7, and over the uplink to somewhere else. *)
Definition test_meaning (r : string) (pkt : test_packet) : option verdict :=
  if String.eqb r "-o lo+ -j ACCEPT" then if decide (pkt = ToLoopback) then Some Accept else None
  else if String.eqb r "-j REJECT" then Some Reject
  else if String.eqb r "! -o lo+ -j REJECT" then if decide (pkt = ToLoopback) then None else Some Reject
  else if String.eqb r "-o abs0+ -j ACCEPT" then if decide (pkt = IntoTunnel) then Some Accept else None
  else if String.eqb r "-d 198.51.100.7 -j REJECT" then if decide (pkt = ToSite) then Some Reject else None
  else None.

Lemma test_packet_laws : packet_laws (λ _, true) test_meaning (λ pkt, bool_decide (pkt = ToLoopback)).
Proof.
  split; [split; [done|]; by intros []|split; [done|]; by intros []|split; [done|]; by intros []| |];
    intros r pkt Hr; unfold test_meaning;
    repeat match goal with
    | |- context [String.eqb r ?s] => destruct (String.eqb_spec r s) as [->|_]; [try done|]
    end; by destruct pkt.
Qed.

#[export] Instance test_iptables : Iptables chains := reference_iptables (λ _, true).
#[export] Instance test_bash : Bash chains := {| bash _ v := (0, v); mkpath _ v := v; ResourceDir := "/opt/pf" |}.
#[export] Instance test_windows : WinFirewall chains := {| win_run _ v := (true, v) |}.

(** Nothing installed yet. *)
Definition fresh_switch (strict : bool) : KillSwitch chains := mkKillSwitch [] strict fresh_firewall.

Lemma fresh_unlinked : unlinked (chains_in (fresh_switch true)).
Proof. intros [] Hip; [| |done]; exists [Rule "-j somebody"]; (split; [reflexivity|set_solver]). Qed.

Definition site_config (type : Z) : gmap string json :=
  list_to_map [("splitTunnelType", JInt type); ("vpnServer", JString "192.0.2.1"); ("dns1", JString "192.0.2.53");
    ("dns2", JString "192.0.2.54"); ("splitTunnelSites", JArray [JString "198.51.100.7"])].

(** ** Properties *)

(** C34. On Linux the kill switch never leaves the firewall half-made: over any
    sequence of requests whose servers bash takes literally, from a state where
    the firewall is not linked, or linked once into both OUTPUT chains and
    holding some policy, it stays so, and the remembered ranges stay literal. *)
Theorem requests_keep_firewall_sound {W} {I : Iptables W} {B : Bash W} {WF : WinFirewall W} {Q : Qt}
    valid (rs : list request) (k : KillSwitch W) :
  iptables_laws I valid → forallb plain_request rs = true → healthy valid k →
  healthy valid (run_state (for_each rs (λ r, discard (serve Linux r))) k).
Proof.
  intros HI Hrs Hk. apply (for_each_inv (healthy valid)); [done|].
  intros r k' Hr Hk'. unfold run_state. rewrite discard_run. apply (serve_healthy valid HI); [|done].
  rewrite forallb_forall in Hrs. by apply Hrs, list_elem_of_In.
Qed.

(** C3. The strict kill switch on Linux.  With the strict setting on, after a
    connection ends ([disableKillSwitch] on an installed firewall, whatever it
    allowed before) and when the service starts on a machine without the
    firewall ([init]), every packet that leaves the machine, in either family,
    is accepted over loopback and rejected otherwise.  Nothing is said of
    [disableAllTraffic] on a firewall in place, which leaves the anchors of the
    LAN, the resolvers and the servers as they are. *)
Theorem strict_lockdown {W packet} {I : Iptables W} {B : Bash W} {WF : WinFirewall W}
    valid (meaning : string → packet → option verdict) loopback (k : KillSwitch W) ip pkt :
  iptables_laws I valid → packet_laws valid meaning loopback → ip ≠ Both → strictKillSwitchEnabled k = true →
  ((∃ p, installed_with valid p (chains_in k)) →
   outgoing meaning (disableKillSwitch Linux k).2 ip pkt = Some (if loopback pkt then Accept else Reject)) ∧
  (unlinked (chains_in k) →
   outgoing meaning (init Linux k).2 ip pkt = Some (if loopback pkt then Accept else Reject)).
Proof.
  intros HI HP Hip Hstrict. split.
  - intros [p Hp]. assert (installed_with valid (foldl (spec_operation valid) p linux_strict)
      (chains_in (disableKillSwitch Linux k).2)) as Hi.
    { rewrite disableKillSwitch_strict_run by done. by apply operations_installed. }
    destruct ip; [| |done].
    + eapply outgoing_decided; [exact Hi|done|apply strict_rules_v4|].
      cbn [concat]. rewrite decide_by_app, (decide_lo _ _ _ HP). destruct (loopback pkt); [done|].
      by rewrite decide_by_app, (decide_reject _ _ _ HP).
    + destruct (strict_rules_v6 valid p) as [b Hb].
      eapply outgoing_decided; [exact Hi|done|exact Hb|]. by apply lockdown_v6.
  - intros Hu. unfold init, isStrictKillSwitchEnabled. rewrite !bind_run. cbn [get fst snd]. rewrite Hstrict.
    change (outgoing meaning (disableAllTraffic Linux k).2 ip pkt = Some (if loopback pkt then Accept else Reject)).
    destruct (disableAllTraffic_run valid HI k (or_introl Hu)) as (_ & _ & _ & p & Hp & Hoff).
    rewrite (Hoff Hu) in Hp.
    eapply outgoing_decided; [exact Hp|done|by apply block_rules_fresh|].
    cbn [concat]. rewrite decide_by_app, (decide_lo _ _ _ HP). destruct (loopback pkt) eqn:El; [done|].
    rewrite concat_app, decide_by_app.
    destruct (decide (ip = IPv6)); cbn [concat]; rewrite ?app_nil_r.
    + by rewrite (decide_reject_not_lo _ _ _ HP), El.
    + by rewrite (decide_reject _ _ _ HP).
Qed.

(** C2. No leak around a tunnel that takes all traffic (split tunnelling off, or
    only excluding sites).  After [enableKillSwitch] on Linux, in any state
    where the firewall is sound: an outgoing IPv4 packet is rejected unless a
    rule for loopback, the configured DNS servers, local networks, DHCP, the
    tunnel interface, marked traffic or the allowed addresses accepts it; a
    packet to port 53 is accepted only over loopback or to the configured
    servers; a packet into the tunnel that no earlier rule rejects is accepted;
    and an IPv6 packet that is not loopback's is rejected unless a local-network
    or DHCP rule accepts it. *)
Theorem full_tunnel_no_leak {W packet} {I : Iptables W} {B : Bash W} {WF : WinFirewall W}
    valid (meaning : string → packet → option verdict) loopback configStr idx (k : KillSwitch W) pkt :
  iptables_laws I valid → packet_laws valid meaning loopback →
  blocking configStr → plain_config configStr = true → sound valid (chains_in k) →
  let k' := (enableKillSwitch Linux configStr idx k).2 in
  (outgoing meaning k' IPv4 pkt = Some Reject ∨
   (outgoing meaning k' IPv4 pkt = Some Accept ∧
    ∃ r, r ∈ exempt4 configStr ∧ valid r = true ∧ meaning r pkt = Some Accept)) ∧
  (decide_by valid meaning dns_reject pkt = Some Reject → outgoing meaning k' IPv4 pkt = Some Accept →
   ∃ r, r ∈ "-o lo+ -j ACCEPT" :: getDNSRules (dns_of configStr) ∧ valid r = true ∧ meaning r pkt = Some Accept) ∧
  (decide_by valid meaning (concat (before_tunnel configStr)) pkt ≠ Some Reject →
   decide_by valid meaning vpn_rules pkt = Some Accept → outgoing meaning k' IPv4 pkt = Some Accept) ∧
  (outgoing meaning k' IPv6 pkt = Some (if loopback pkt then Accept else Reject) ∨
   (outgoing meaning k' IPv6 pkt = Some Accept ∧
    ∃ r, r ∈ lan6 ++ dhcp6 ∧ valid r = true ∧ meaning r pkt = Some Accept)).
Proof.
  intros HI HP Hb Hc Hs k'. destruct (enableKillSwitch_installed valid HI configStr idx k Hs Hc) as [p Hp].
  pose proof (enable_rules_v4 valid configStr p Hb) as H4. rewrite blocking_groups in H4.
  pose proof (λ d, outgoing_decided valid meaning _ _ IPv4 _ pkt d Hp ltac:(done) H4) as E4.
  destruct (enable_rules_v6 valid configStr p) as (b & tail & H6).
  pose proof (λ d, outgoing_decided valid meaning _ _ IPv6 _ pkt d Hp ltac:(done) H6) as E6.
  fold k' in E4, E6. split; [|split; [|split]].
  - destruct (decided_v4 valid meaning loopback HP configStr pkt) as [E|[E Hr]]; rewrite (E4 _ E); auto.
  - intros Hd Ho. apply (decided_dns valid meaning configStr pkt Hd).
    destruct (decided_v4 valid meaning loopback HP configStr pkt) as [E|[E _]]; [|done].
    by rewrite (E4 _ E) in Ho.
  - intros Hn Ha. apply E4. rewrite concat_app, decide_by_app.
    destruct (decide_by valid meaning (concat (before_tunnel configStr)) pkt) as [[]|]; [done|done|].
    cbn [concat]. by rewrite decide_by_app, Ha.
  - destruct (decided_v6 valid meaning loopback HP b tail pkt) as [E|[E Hr]]; rewrite (E6 _ E); auto.
Qed.

(** With only the listed sites in the tunnel, their block outside it is
    never switched on: on Linux [enableKillSwitch] fills anchor 120.blockNets
    with the sites but enables it by [blockAll], which is off.  Every IPv4
    packet that no rule for loopback, DNS, local networks, DHCP, the tunnel or
    marked traffic decides, a packet to a listed site over the uplink included,
    is left to whatever else the machine has in OUTPUT. *)
Theorem listed_sites_not_blocked {W packet} {I : Iptables W} {B : Bash W} {WF : WinFirewall W}
    valid (meaning : string → packet → option verdict) configStr idx (k : KillSwitch W) pkt :
  iptables_laws I valid → splitTunnelType configStr = 1 → plain_config configStr = true →
  sound valid (chains_in k) →
  decide_by valid meaning (concat (before_tunnel configStr ++ [vpn_rules; marked])) pkt = None →
  let k' := (enableKillSwitch Linux configStr idx k).2 in
  chains_in k' IPv4 kFilterTable (actual_chain "120.blockNets") =
    Some (Rule <$> List.filter valid (getBlockRule (sites configStr))) ∧
  ∃ rest, chains_in k' IPv4 kFilterTable kOutputChain = Some (Jump kRootChain :: rest) ∧
    outgoing meaning k' IPv4 pkt =
    first_match (λ e, match e with
                      | Rule r => meaning r pkt
                      | Jump c => traverse meaning 3 (chains_in k') IPv4 kFilterTable c pkt
                      end) rest.
Proof.
  intros HI Ht Hc Hs Hd k'. destruct (enableKillSwitch_installed valid HI configStr idx k Hs Hc) as [p Hp].
  split.
  - destruct Hp as [_ [Hh _]].
    assert (("120.blockNets", []) ∈ anchors_of IPv4) as Hin
      by (apply (bool_decide_unpack _); vm_compute; exact Logic.I).
    etrans; [exact (holds_rules _ _ _ _ Hh _ Hin)|]. do 2 f_equal.
    transitivity (List.filter valid (getBlockRule (block_nets configStr))); [reflexivity|].
    unfold block_nets. by rewrite Ht.
  - destruct (outgoing_installed valid meaning _ _ IPv4 _ pkt Hp ltac:(done) (site_rules_v4 valid configStr p Ht))
      as (rest & Ho & E). exists rest. split; [done|]. etrans; [exact E|]. by rewrite Hd.
Qed.

Lemma requests_keep_firewall_sound_witness :
  healthy (λ _, true) (run_state (for_each
    [AddAllowedRange ["192.0.2.1"]; Enable (site_config 0) 3; DisableKillSwitch]
    (λ r, discard (serve (Q := plain_qt) Linux r))) (fresh_switch false)).
Proof.
  apply (requests_keep_firewall_sound (λ _, true));
    [apply reference_iptables_laws|vm_compute; reflexivity|split; [left; apply fresh_unlinked|reflexivity]].
Defined.

Lemma strict_lockdown_witness :
  outgoing test_meaning (init Linux (fresh_switch true)).2 IPv4 ToElsewhere = Some Reject.
Proof.
  refine (proj2 (strict_lockdown (λ _, true) test_meaning (λ pkt, bool_decide (pkt = ToLoopback))
    (fresh_switch true) IPv4 ToElsewhere _ _ _ _) _);
    [apply reference_iptables_laws|apply test_packet_laws|discriminate|reflexivity|apply fresh_unlinked].
Defined.

Lemma full_tunnel_no_leak_witness :
  outgoing test_meaning (enableKillSwitch Linux (site_config 0) 3 (fresh_switch false)).2 IPv4 IntoTunnel
  = Some Accept.
Proof.
  refine (proj1 (proj2 (proj2 (full_tunnel_no_leak (λ _, true) test_meaning (λ pkt, bool_decide (pkt = ToLoopback))
    (site_config 0) 3 (fresh_switch false) IntoTunnel _ _ _ _ _))) _ _);
    [apply reference_iptables_laws|apply test_packet_laws|left; vm_compute; reflexivity|vm_compute; reflexivity
    |left; apply fresh_unlinked|vm_compute; discriminate|vm_compute; reflexivity].
Defined.

(** A packet to the listed site leaves over the uplink although the site's rule
    is in the chain. *)
Lemma listed_sites_not_blocked_witness :
  test_meaning "-d 198.51.100.7 -j REJECT" ToSite = Some Reject ∧
  ∃ rest, outgoing test_meaning (enableKillSwitch Linux (site_config 1) 3 (fresh_switch false)).2 IPv4 ToSite
  = first_match (λ e, match e with
                      | Rule r => test_meaning r ToSite
                      | Jump c => traverse test_meaning 3
                          (chains_in (enableKillSwitch Linux (site_config 1) 3 (fresh_switch false)).2)
                          IPv4 kFilterTable c ToSite
                      end) rest.
Proof.
  split; [reflexivity|].
  destruct (listed_sites_not_blocked (λ _, true) test_meaning (site_config 1) 3 (fresh_switch false) ToSite)
    as [_ (rest & _ & E)];
    [apply reference_iptables_laws|vm_compute; reflexivity|vm_compute; reflexivity|left; apply fresh_unlinked
    |vm_compute; reflexivity|].
  exists rest. exact E.
Defined.
