(* ===== verification/WindowsFirewall.v ===== *)
(** * WindowsFirewall: filters of the Windows Filtering Platform

    Models [client/platforms/windows/daemon/windowsfirewall.cpp].  The filter
    engine is a parameter; its laws say what its transactions do to the filters
    that are installed, and [verdict] what the filters of a sublayer decide. *)
From S2P Require Import Prelude Text Json IpAddress InterfaceConfig Qt DaemonConfig.

(** ** Filters *)
Inductive layer := CONNECT_V4 | RECV_ACCEPT_V4 | CONNECT_V6 | RECV_ACCEPT_V6 | OUTBOUND_MAC_FRAME_NATIVE | INBOUND_MAC_FRAME_NATIVE.
#[export] Instance layer_eq_dec : EqDecision layer.
Proof. solve_decision. Defined.

(** Conditions: a field and what it is compared with. *)
Inductive condition :=
  | ALE_APP_ID (appID : string)
  | INTERFACE_INDEX (index : Z)
  | IP_REMOTE_RANGE (valueLow valueHigh : QHostAddress)
  | IP_REMOTE_ADDRESS (value : QHostAddress)
  | IP_PROTOCOL (value : Z)
  | IP_LOCAL_PORT (value : Z)
  | IP_REMOTE_PORT (value : Z)
  | L2_IS_VM2VM.
#[export] Instance condition_eq_dec : EqDecision condition.
Proof. solve_decision. Defined.

Record wfp_filter := mkFilter {
  layerKey : layer;
  filterCondition : list condition;
  permits : bool;
  weight : Z;
  clearActionRight : bool;
}.
#[export] Instance wfp_filter_eq_dec : EqDecision wfp_filter.
Proof. solve_decision. Defined.

Definition LOW_WEIGHT : Z := 0.
Definition MED_WEIGHT : Z := 7.
Definition HIGH_WEIGHT : Z := 13.
Definition MAX_WEIGHT : Z := 15.
Definition IPPROTO_TCP : Z := 6.
Definition IPPROTO_UDP : Z := 17.

(** [importAddress] *)
Definition importAddress (addr : QHostAddress) : QHostAddress :=
  match protocol addr with
  | IPv4Protocol => HostV4 (toIPv4Address addr)
  | _ => HostV6 (toIPv6Address addr)
  end.
Definition isV4 (addr : QHostAddress) : bool := bool_decide (protocol addr = IPv4Protocol).
Definition layers (v4 : bool) : list layer := if v4 then [CONNECT_V4; RECV_ACCEPT_V4] else [CONNECT_V6; RECV_ACCEPT_V6].

Definition app_filters (appID : string) (w : Z) : list wfp_filter :=
  (λ l, mkFilter l [ALE_APP_ID appID] true w true) <$> [CONNECT_V4; RECV_ACCEPT_V4].
Definition adapter_filters (networkAdapter w : Z) : list wfp_filter :=
  (λ l, mkFilter l [INTERFACE_INDEX networkAdapter] true w false) <$> [CONNECT_V4; RECV_ACCEPT_V4; CONNECT_V6; RECV_ACCEPT_V6].
(** Traffic to a range, permitted or blocked. *)
Definition range_filters (permit : bool) (addr : IPAddress) (w : Z) : list wfp_filter :=
  (λ l, mkFilter l [IP_REMOTE_RANGE (importAddress (m_address addr)) (importAddress (broadcastAddress addr))] permit w false)
    <$> layers (isV4 (m_address addr)).
Definition port_filters (targetIP : QHostAddress) (port w : Z) : list wfp_filter :=
  (λ l, mkFilter l [IP_PROTOCOL IPPROTO_UDP; IP_PROTOCOL IPPROTO_TCP; IP_REMOTE_PORT port; IP_REMOTE_ADDRESS (importAddress targetIP)] true w true)
    <$> layers (isV4 targetIP).
Definition dhcp_filters (w : Z) : list wfp_filter :=
  let ports := [IP_PROTOCOL IPPROTO_UDP; IP_LOCAL_PORT 68; IP_REMOTE_PORT 67] in
  [mkFilter CONNECT_V4 (ports ++ [IP_REMOTE_ADDRESS (HostV4 4294967295)]) true w false;
   mkFilter RECV_ACCEPT_V4 ports true w false; mkFilter CONNECT_V6 ports true w false; mkFilter RECV_ACCEPT_V6 ports true w false].
Definition hyperv_filters (w : Z) : list wfp_filter :=
  (λ l, mkFilter l [L2_IS_VM2VM] true w false) <$> [OUTBOUND_MAC_FRAME_NATIVE; INBOUND_MAC_FRAME_NATIVE].
Definition blocked_port_filters (port w : Z) : list wfp_filter :=
  (λ l, mkFilter l [IP_PROTOCOL IPPROTO_UDP; IP_PROTOCOL IPPROTO_TCP; IP_REMOTE_PORT port] false w false)
    <$> [CONNECT_V6; CONNECT_V4; RECV_ACCEPT_V4; RECV_ACCEPT_V6].

(** ** The filter engine *)
Inductive sublayer := BASELINE_SUBLAYER | DNS_SUBLAYER.
Inductive lookup_result := LookupFound | LookupMissing | LookupError.
Class Wfp (W : Type) := {
  FwpmEngineOpen0 : bool → W → bool * W;                    (** of a dynamic session or not *)
  FwpmEngineClose0 : W → W;
  FwpmSubLayerGetByKey0 : sublayer → W → lookup_result * W;
  FwpmSubLayerAdd0 : sublayer → Z → W → bool * W;           (** with its weight *)
  FwpmTransactionBegin : W → bool * W;
  FwpmTransactionCommit0 : W → bool * W;
  FwpmTransactionAbort0 : W → W;
  FwpmFilterAdd0 : wfp_filter → W → option Z * W;           (** the identifier *)
  FwpmFilterDeleteById0 : Z → W → bool * W;                 (** whether it succeeded *)
  FwpmGetAppIdFromFileName0 : string → W → option string * W;
  GetModuleFileNameA : Z → W → Z * string * W;              (** for the size of the buffer *)
  loopback_interfaces : W → list Z * W;                     (** [QNetworkInterface::allInterfaces()], the loopback ones *)
}.
Definition ERROR_INSUFFICIENT_BUFFER : Z := 122.

Record WindowsFirewall (W : Type) := mkWindowsFirewall {
  m_activeRules : list Z;
  m_peerRules : list (string * Z);
  engine : W;
}.
Arguments mkWindowsFirewall {W}.
Arguments m_activeRules {W}.
Arguments m_peerRules {W}.
Arguments engine {W}.

(** ** Operations *)
Section operations.
Context {W : Type} {F : Wfp W} {Q : Qt}.
Abbreviation M := (stM (WindowsFirewall W)).

Definition fwp {X} (f : W → X * W) : M X := λ s,
  let '(x, w) := f (engine s) in (x, mkWindowsFirewall (m_activeRules s) (m_peerRules s) w).
Definition fwp_do (f : W → W) : M unit :=
  modify (λ s, mkWindowsFirewall (m_activeRules s) (m_peerRules s) (f (engine s))).
Definition add_rule (peer : string) (filterID : Z) : M unit := modify (λ s,
  if String.eqb peer "" then mkWindowsFirewall (m_activeRules s ++ [filterID]) (m_peerRules s) (engine s)
  else mkWindowsFirewall (m_activeRules s) ((peer, filterID) :: m_peerRules s) (engine s)).

(** *** Before there is a firewall *)
Definition ensureSublayer (key : sublayer) (w : W) : bool * W :=
  let '(maybeLayer, w) := FwpmSubLayerGetByKey0 key w in
  match maybeLayer with
  | LookupFound => (true, w)
  | LookupError => (false, w)
  | LookupMissing =>
      let '(begun, w) := FwpmTransactionBegin w in
      if negb begun then (false, w) else
      let '(added, w) := FwpmSubLayerAdd0 key 65535 w in
      if negb added then (false, FwpmTransactionAbort0 w) else FwpmTransactionCommit0 w
  end.
Definition initSublayer (w : W) : bool * W :=
  let '(opened, w) := FwpmEngineOpen0 false w in
  if negb opened then (false, w) else
  let '(base, w) := ensureSublayer BASELINE_SUBLAYER w in
  let '(both, w) := if (base : bool) then ensureSublayer DNS_SUBLAYER w else (false, w) in
  (both, FwpmEngineClose0 w).
(** [s_instance]: there is one at most. *)
Definition create (s_instance : option (WindowsFirewall W)) (w : W) : option (WindowsFirewall W) * W :=
  match s_instance with
  | Some f => (Some f, w)
  | None =>
      let '(opened, w) := FwpmEngineOpen0 true w in
      if negb opened then (None, w) else
      let '(ok, w) := initSublayer w in
      (if (ok : bool) then Some (mkWindowsFirewall [] [] w) else None, w)
  end.

(** *** Adding filters *)
Definition enableFilter (peer : string) (filter : wfp_filter) : M bool :=
  filterID ← fwp (FwpmFilterAdd0 filter);
  match filterID with
  | None => mret false
  | Some filterID => _ ← add_rule peer filterID; mret true
  end.
(** One after the other, until one fails. *)
Fixpoint enableFilters (peer : string) (filters : list wfp_filter) : M bool :=
  match filters with
  | [] => mret true
  | f :: filters => ok ← enableFilter peer f; if negb (ok : bool) then mret false else enableFilters peer filters
  end.
(** [if (!m) return false; k] *)
Definition and_also (m k : M bool) : M bool := ok ← m; if negb (ok : bool) then mret false else k.
Definition all_of {X} (l : list X) (f : X → M bool) : M bool := foldr (λ x k, and_also (f x) k) (mret true) l.

Definition getCurrentPath : M string :=
  '(ok, buffer) ← fwp (GetModuleFileNameA 2048);
  '(ok, buffer) ← (if ok =? ERROR_INSUFFICIENT_BUFFER then fwp (GetModuleFileNameA 4096) else mret (ok, buffer));
  mret (if ok =? 0 then "" else buffer).
Definition allowTrafficForAppOnAll (exePath : string) (w : Z) : M bool :=
  appID ← fwp (FwpmGetAppIdFromFileName0 exePath);
  match appID with None => mret false | Some appID => enableFilters "" (app_filters appID w) end.
Definition allowTrafficOfAdapter (networkAdapter w : Z) : M bool := enableFilters "" (adapter_filters networkAdapter w).
Definition allowTrafficTo (addr : IPAddress) (w : Z) (peer : string) : M bool := enableFilters peer (range_filters true addr w).
Definition allowTrafficTo_port (targetIP : QHostAddress) (port w : Z) (peer : string) : M bool :=
  enableFilters peer (port_filters targetIP port w).
Definition allowDHCPTraffic (w : Z) : M bool := enableFilters "" (dhcp_filters w).
Definition allowHyperVTraffic (w : Z) : M bool := enableFilters "" (hyperv_filters w).
Definition blockTrafficTo (addr : IPAddress) (w : Z) (peer : string) : M bool := enableFilters peer (range_filters false addr w).
Definition blockTrafficOnPort (port w : Z) : M bool := enableFilters "" (blocked_port_filters port w).
Definition allowLoopbackTraffic (w : Z) : M bool :=
  networkInterfaces ← fwp loopback_interfaces;
  all_of networkInterfaces (λ index, allowTrafficOfAdapter index w).

(** *** The whole firewall *)

(** [KillSwitch::instance()->disableKillSwitch()], whose result is not asked. *)
Context (disableKillSwitch : M unit).

Definition FW_OK (rule k : M bool) : M bool :=
  begun ← fwp FwpmTransactionBegin;
  if negb (begun : bool) then _ ← disableKillSwitch; mret false else
  ok ← rule;
  if negb (ok : bool) then _ ← fwp_do FwpmTransactionAbort0; _ ← disableKillSwitch; mret false else
  committed ← fwp FwpmTransactionCommit0;
  if negb (committed : bool) then mret false else k.
Definition all_v4 {Q : Qt} : IPAddress := IPAddress_of "0.0.0.0/0".
Definition all_v6 {Q : Qt} : IPAddress := IPAddress_of "::/0".
Definition enableInterface (vpnAdapterIndex : Z) : M bool :=
  let others :=
    FW_OK (allowDHCPTraffic MED_WEIGHT) (
    FW_OK (allowHyperVTraffic MAX_WEIGHT) (
    FW_OK (path ← getCurrentPath; allowTrafficForAppOnAll path MAX_WEIGHT) (
    FW_OK (blockTrafficOnPort 53 MED_WEIGHT) (
    FW_OK (allowLoopbackTraffic MED_WEIGHT) (
    mret true))))) in
  if vpnAdapterIndex <? 0 then
    and_also (blockTrafficTo all_v4 MED_WEIGHT "killswitch") (
    and_also (blockTrafficTo all_v6 MED_WEIGHT "killswitch") others)
  else FW_OK (allowTrafficOfAdapter vpnAdapterIndex MED_WEIGHT) others.

(** A transaction that ends the kill switch when it fails. *)
Definition transaction (body : M bool) : M bool :=
  begun ← fwp FwpmTransactionBegin;
  if negb (begun : bool) then _ ← disableKillSwitch; mret false else
  ok ← body;
  committed ← (if (ok : bool) then fwp FwpmTransactionCommit0 else mret false);
  if negb (committed : bool) then _ ← fwp_do FwpmTransactionAbort0; _ ← disableKillSwitch; mret false else mret true.
Definition enableLanBypass (ranges : list IPAddress) : M bool :=
  transaction (all_of ranges (λ prefix, allowTrafficTo prefix (LOW_WEIGHT + 1) "")).
Definition allowTrafficRange (ranges : list string) : M bool :=
  transaction (all_of ranges (λ addr, allowTrafficTo (IPAddress_of_host (host_of_string addr)) HIGH_WEIGHT "")).

(** A resolver, and the gateway's address of the other kind when it is the gateway. *)
Definition allow_dns (config : InterfaceConfig) (dns : qstring) : M bool :=
  let peer := str (m_serverPublicKey config) in
  if String.eqb (str dns) "" then mret true else
  and_also (allowTrafficTo_port (host_of_string (str dns)) 53 HIGH_WEIGHT peer)
    (if String.eqb (str dns) (str (m_serverIpv4Gateway config))
     then allowTrafficTo_port (host_of_string (str (m_serverIpv6Gateway config))) 53 HIGH_WEIGHT peer else mret true).
Definition enablePeerTraffic (config : InterfaceConfig) : M bool :=
  let peer := str (m_serverPublicKey config) in
  transaction (
    and_also (all_of (m_allowedIPAddressRanges config) (λ range, blockTrafficTo range LOW_WEIGHT peer)) (
    and_also (allow_dns config (m_primaryDnsServer config)) (
    and_also (allow_dns config (m_secondaryDnsServer config)) (
    and_also (all_of (m_allowedDnsServers config) (λ dns, allowTrafficTo_port (host_of_string dns) 53 HIGH_WEIGHT peer))
      (all_of (m_excludedAddresses config) (λ i, allowTrafficTo (IPAddress_of i) HIGH_WEIGHT peer)))))).

(** Whether a deletion succeeded is not asked. *)
Definition delete_filters (ids : list Z) : M unit := fwp_do (λ w, foldl (λ w id, (FwpmFilterDeleteById0 id w).2) w ids).
Definition values (pubkey : string) (rules : list (string * Z)) : list Z := (filter (λ r, r.1 = pubkey) rules).*2.
Definition disablePeerTraffic (pubkey : string) : M bool :=
  begun ← fwp FwpmTransactionBegin;
  if negb (begun : bool) then _ ← fwp_do FwpmTransactionAbort0; mret false else
  s ← get;
  _ ← delete_filters (values pubkey (m_peerRules s));
  _ ← modify (λ s, mkWindowsFirewall (m_activeRules s) (filter (λ r, r.1 ≠ pubkey) (m_peerRules s)) (engine s));
  committed ← fwp FwpmTransactionCommit0;
  if negb (committed : bool) then _ ← fwp_do FwpmTransactionAbort0; mret false else mret true.
Definition allowAllTraffic : M bool :=
  begun ← fwp FwpmTransactionBegin;
  if negb (begun : bool) then _ ← fwp_do FwpmTransactionAbort0; mret false else
  s ← get;
  _ ← delete_filters ((m_peerRules s).*2 ++ m_activeRules s);
  committed ← fwp FwpmTransactionCommit0;
  if negb (committed : bool) then _ ← fwp_do FwpmTransactionAbort0; mret false else
  _ ← modify (λ s, mkWindowsFirewall [] [] (engine s));
  mret true.
End operations.

(** ** What filters decide *)

(** An attempt to connect, or a connection to be accepted. *)
Record connection := mkConnection {
  c_layer : layer;
  c_app : string;
  c_interface : Z;
  c_protocol : Z;
  c_local_port : Z;
  c_remote_port : Z;
  c_remote : QHostAddress;
  c_vm2vm : bool;
}.

Definition in_range (low high h : QHostAddress) : bool :=
  bool_decide (protocol h = protocol low) && (host_num low <=? host_num h) && (host_num h <=? host_num high).
Definition condition_holds (p : connection) (c : condition) : bool :=
  match c with
  | ALE_APP_ID appID => String.eqb appID (c_app p)
  | INTERFACE_INDEX index => index =? c_interface p
  | IP_REMOTE_RANGE low high => in_range low high (c_remote p)
  | IP_REMOTE_ADDRESS value => bool_decide (value = c_remote p)
  | IP_PROTOCOL value => value =? c_protocol p
  | IP_LOCAL_PORT value => value =? c_local_port p
  | IP_REMOTE_PORT value => value =? c_remote_port p
  | L2_IS_VM2VM => c_vm2vm p
  end.
Definition fieldKey (c : condition) : nat :=
  match c with
  | ALE_APP_ID _ => 0 | INTERFACE_INDEX _ => 1 | IP_REMOTE_RANGE _ _ | IP_REMOTE_ADDRESS _ => 2 | IP_PROTOCOL _ => 3
  | IP_LOCAL_PORT _ => 4 | IP_REMOTE_PORT _ => 5 | L2_IS_VM2VM => 6
  end.
(** Conditions on one field are alternatives; those on different fields must all
    hold. *)
Definition filter_matches (p : connection) (f : wfp_filter) : bool :=
  bool_decide (layerKey f = c_layer p) &&
  forallb (λ c, existsb (λ c', (fieldKey c' =? fieldKey c)%nat && condition_holds p c') (filterCondition f)) (filterCondition f).

(** The matching filters of the highest weight decide; which of two of the same
    weight does is the engine's choice. *)
Definition decides (fs : wfp_filter → Prop) (p : connection) (f : wfp_filter) : Prop :=
  fs f ∧ filter_matches p f = true ∧ ∀ g, fs g → filter_matches p g = true → weight g ≤ weight f.
Definition blocked (fs : wfp_filter → Prop) (p : connection) : Prop :=
  (∃ f, decides fs p f) ∧ ∀ f, decides fs p f → permits f = false.
Definition permitted (fs : wfp_filter → Prop) (p : connection) : Prop :=
  ∀ f, decides fs p f → permits f = true.

(** ** What the engine does *)
Class WfpView (W : Type) := {
  installed : W → gmap Z wfp_filter;                 (** the filters in force *)
  pending : W → option (gmap Z wfp_filter);          (** those of the transaction under way *)
}.
(** Where an addition goes. *)
Definition target {W} {V : WfpView W} (w : W) : gmap Z wfp_filter := default (installed w) (pending w).
Definition same_view {W} {V : WfpView W} (w w' : W) : Prop := installed w' = installed w ∧ pending w' = pending w.
Class WfpLaws (W : Type) {F : Wfp W} {V : WfpView W} : Prop := {
  begin_law w : let '(ok, w') := FwpmTransactionBegin w in
    installed w' = installed w ∧
    (if (ok : bool) then pending w = None ∧ pending w' = Some (installed w) else pending w' = pending w);
  commit_law w : let '(ok, w') := FwpmTransactionCommit0 w in
    if (ok : bool) then installed w' = target w ∧ pending w' = None
    else installed w' = installed w ∧ (pending w' = None ∨ pending w' = pending w);
  abort_law w : installed (FwpmTransactionAbort0 w) = installed w ∧ pending (FwpmTransactionAbort0 w) = None;
  add_law f w : let '(id, w') := FwpmFilterAdd0 f w in
    match id with
    | None => same_view w w'
    | Some id =>
        target w !! id = None ∧
        match pending w with
        | Some m => installed w' = installed w ∧ pending w' = Some (<[id := f]> m)
        | None => installed w' = <[id := f]> (installed w) ∧ pending w' = None
        end
    end;
  delete_law id w : let '(ok, w') := FwpmFilterDeleteById0 id w in
    if (ok : bool) then
      match pending w with
      | Some m => installed w' = installed w ∧ pending w' = Some (delete id m)
      | None => installed w' = delete id (installed w) ∧ pending w' = None
      end
    else same_view w w';
  app_law path w : same_view w (FwpmGetAppIdFromFileName0 path w).2;
  module_law size w : same_view w (GetModuleFileNameA size w).2;
  interfaces_law w : same_view w (loopback_interfaces w).2;
}.
(** The filters that the transaction under way removes. *)
Definition removed {W} {V : WfpView W} (w : W) : gset Z :=
  match pending w with Some m => dom (installed w) ∖ dom m | None => ∅ end.
(** The filters the engine was asked to delete and did not: it refused the
    deletion, or its transaction was not committed. *)
Class Leftovers (W : Type) {F : Wfp W} {V : WfpView W} := {
  leftover : W → gset Z;
  begin_leftover w : leftover (FwpmTransactionBegin w).2 = leftover w;
  commit_leftover w : let '(ok, w') := FwpmTransactionCommit0 w in
    leftover w' = leftover w ∪ (if (ok : bool) then ∅ else match pending w' with None => removed w | Some _ => ∅ end);
  abort_leftover w : leftover (FwpmTransactionAbort0 w) = leftover w ∪ removed w;
  add_leftover f w : leftover (FwpmFilterAdd0 f w).2 = leftover w;
  delete_leftover id w : let '(ok, w') := FwpmFilterDeleteById0 id w in
    leftover w' = if (ok : bool) then leftover w else match target w !! id with Some _ => {[id]} ∪ leftover w | None => leftover w end;
  app_leftover path w : leftover (FwpmGetAppIdFromFileName0 path w).2 = leftover w;
  module_leftover size w : leftover (GetModuleFileNameA size w).2 = leftover w;
  interfaces_leftover w : leftover (loopback_interfaces w).2 = leftover w;
}.

Section behaviour.
Context {W : Type} {F : Wfp W} {V : WfpView W} {WL : WfpLaws W} {Q : Qt}.
Abbreviation M := (stM (WindowsFirewall W)).
Abbreviation view s := (engine s).

(** Filters there are, those of a transaction under way counted. *)
Definition there (s : WindowsFirewall W) (f : wfp_filter) : Prop := ∃ id, target (view s) !! id = Some f.

(** [adds m]: when [m] succeeds it has added the filters it stands for, to the
    transaction when one is under way. *)
Definition adds (fs : wfp_filter → Prop) (s s' : WindowsFirewall W) : Prop :=
  (∀ f, there s' f ↔ there s f ∨ fs f) ∧
  (is_Some (pending (view s)) → installed (view s') = installed (view s)) ∧
  (is_Some (pending (view s')) ↔ is_Some (pending (view s))).
Definition adding (m : M bool) (s : WindowsFirewall W) (fs : list wfp_filter) : Prop :=
  leads m s (λ ok s', ok = true → adds (.∈ fs) s s').

Lemma adds_refl s : adds (.∈ []) s s.
Proof. split; [|done]. intros f. split; [by left|]. intros [?|H]; [done|by apply not_elem_of_nil in H]. Qed.
Lemma adds_same s s' : same_view (view s) (view s') → adds (.∈ []) s s'.
Proof.
  intros [E1 E2]. split; [|by rewrite E1, E2]. intros f. unfold there, target. rewrite E1, E2.
  split; [by left|]. intros [?|H]; [done|by apply not_elem_of_nil in H].
Qed.
Lemma adds_trans l k s s' s'' : adds (.∈ l) s s' → adds (.∈ k) s' s'' → adds (.∈ l ++ k) s s''.
Proof.
  intros (H1 & H2 & H3) (K1 & K2 & K3). split; [|split].
  - intros f. rewrite K1, H1, elem_of_app. naive_solver.
  - intros Hs. rewrite K2, H2; [done..|by apply H3].
  - by rewrite K3.
Qed.
Lemma adding_then m k s l1 l2 :
  adding m s l1 → (∀ s', adds (.∈ l1) s s' → adding k s' l2) → adding (and_also m k) s (l1 ++ l2).
Proof.
  unfold adding, and_also. intros Hm Hk. apply leads_bind. eapply leads_mono; [exact Hm|]. intros [] s' H; [|by apply leads_ret].
  cbn [negb]. eapply leads_mono; [exact (Hk s' (H eq_refl))|]. intros ok s'' H' ->. by eapply adds_trans; [apply H|apply H'].
Qed.
Lemma adding_all {X} (l : list X) f s g : (∀ x s, x ∈ l → adding (f x) s (g x)) → adding (all_of l f) s (l ≫= g).
Proof.
  revert s. induction l as [|x l IH]; intros s H; [apply leads_ret; intros _; apply adds_refl|].
  change (adding (and_also (f x) (all_of l f)) s (g x ++ (l ≫= g))). apply adding_then; [by apply H; left|].
  intros s' _. apply IH. intros; apply H; by right.
Qed.

Lemma adding_filter peer f s : adding (enableFilter peer f) s [f].
Proof.
  unfold adding, enableFilter. apply leads_bind. unfold leads at 1, fwp.
  pose proof (add_law f (view s)) as H. destruct (FwpmFilterAdd0 f (view s)) as [[id|] w]; cbn [fst snd]; [|by apply leads_ret].
  destruct H as [Hn H]. apply leads_bind. unfold leads at 1, add_rule, modify. cbn [fst snd]. apply leads_ret. intros _.
  assert (∀ s', view s' = w → adds (.∈ [f]) s s') as Hadds; [|destruct (String.eqb peer ""); by apply Hadds].
  intros s' <-. unfold adds, there, target in *. destruct (pending (view s)) as [m|] eqn:E; destruct H as [-> ->]; cbn in *.
  - split; [|split; [done|by split; eexists]]. intros g. setoid_rewrite lookup_insert_Some. rewrite list_elem_of_singleton. split.
    + intros [x [[_ ->]|[_ Hx]]]; [by right|left; by exists x].
    + intros [[x Hx]| ->]; [|exists id; by left]. exists x. right. split; [congruence|done].
  - split; [|split; [by intros []|done]]. intros g. setoid_rewrite lookup_insert_Some. rewrite list_elem_of_singleton. split.
    + intros [x [[_ ->]|[_ Hx]]]; [by right|left; by exists x].
    + intros [[x Hx]| ->]; [|exists id; by left]. exists x. right. split; [congruence|done].
Qed.
Lemma adding_filters peer fs s : adding (enableFilters peer fs) s fs.
Proof.
  revert s. induction fs as [|f fs IH]; intros s; [apply leads_ret; intros _; apply adds_refl|].
  change (adding (and_also (enableFilter peer f) (enableFilters peer fs)) s ([f] ++ fs)).
  apply adding_then; [apply adding_filter|]. intros; apply IH.
Qed.

(** What the engine and the system answer while the firewall is set up. *)
Record steady (lo : list Z) (own : string) : Prop := {
  steady_interfaces w : (loopback_interfaces w).1 = lo;
  steady_app path appID w : (FwpmGetAppIdFromFileName0 path w).1 = Some appID → appID = own;
}.
Context (lo : list Z) (own : string) (Hsteady : steady lo own).

Lemma adding_after {X} (f : W → X * W) (k : X → M bool) s l :
  same_view (view s) (f (view s)).2 → (∀ s', adding (k (f (view s)).1) s' l) → adding (fwp f ≫= k) s l.
Proof.
  unfold adding. intros Hf Hk. apply leads_bind. unfold leads at 1, fwp. destruct (f (view s)) as [x w]. cbn [fst snd] in *.
  set (s1 := mkWindowsFirewall _ _ w). eapply leads_mono; [exact (Hk s1)|]. intros ok s2 H Hok.
  apply (adds_trans [] l s s1 s2); [by apply adds_same|by apply H].
Qed.
Lemma adding_app path w s : adding (allowTrafficForAppOnAll path w) s (app_filters own w).
Proof.
  apply adding_after; [apply app_law|]. intros s'. destruct (FwpmGetAppIdFromFileName0 path (view s)).1 as [appID|] eqn:E; [|done].
  rewrite <- (steady_app _ _ Hsteady path appID (view s) E). apply adding_filters.
Qed.
Lemma adding_path (k : string → M bool) s l : (∀ path s', adding (k path) s' l) → adding (getCurrentPath ≫= k) s l.
Proof.
  unfold adding, getCurrentPath. intros Hk.
  assert (leads (getCurrentPath (W := W)) s (λ _ s', same_view (view s) (view s'))) as Hp.
  { unfold getCurrentPath. apply leads_pair. unfold leads at 1, fwp. pose proof (module_law 2048 (view s)) as H1.
    destruct (GetModuleFileNameA 2048 (view s)) as [[ok buffer] w]. cbn [fst snd] in *. apply leads_pair.
    destruct (ok =? ERROR_INSUFFICIENT_BUFFER); [|apply leads_ret; by apply leads_ret].
    unfold leads at 1. cbn [engine]. pose proof (module_law 4096 w) as H2.
    destruct (GetModuleFileNameA 4096 w) as [[ok' buffer'] w']. cbn [fst snd engine] in *. apply leads_ret.
    destruct H1 as [H1 H1'], H2 as [H2 H2']. split; cbn; congruence. }
  apply leads_bind. eapply leads_mono; [exact Hp|]. intros path s1 H1. eapply leads_mono; [exact (Hk path s1)|].
  intros ok s2 H Hok. apply (adds_trans [] l s s1 s2); [by apply adds_same|by apply H].
Qed.
Lemma adding_loopback w s : adding (allowLoopbackTraffic w) s (lo ≫= λ i, adapter_filters i w).
Proof.
  apply adding_after; [apply interfaces_law|]. intros s'. rewrite (steady_interfaces _ _ Hsteady).
  apply adding_all. intros; apply adding_filters.
Qed.

(** *** Transactions *)
Context (disableKillSwitch : M unit).

(** When it succeeds it has added filters, and no transaction is under way. *)
Definition commits (m : M bool) (s : WindowsFirewall W) (fs : list wfp_filter) : Prop :=
  leads m s (λ ok s', ok = true → pending (view s) = None →
    pending (view s') = None ∧ ∀ f, there s' f ↔ there s f ∨ f ∈ fs).
Lemma commits_done s : commits (mret true) s [].
Proof. apply leads_ret. intros _ Hs. split; [done|]. intros f. split; [by left|]. intros [?|H]; [done|by apply not_elem_of_nil in H]. Qed.
Lemma there_same s s' : target (view s') = target (view s) → ∀ f, there s' f ↔ there s f.
Proof. intros E f. unfold there. by rewrite E. Qed.
Lemma leads_fwp {X} (f : W → X * W) s (G : X → WindowsFirewall W → Prop) :
  G (f (view s)).1 (mkWindowsFirewall (m_activeRules s) (m_peerRules s) (f (view s)).2) → leads (fwp f) s G.
Proof. unfold leads, fwp. by destruct (f (view s)). Qed.

Definition begun (s s1 : WindowsFirewall W) : Prop :=
  pending (view s) = None ∧ installed (view s1) = installed (view s) ∧ pending (view s1) = Some (installed (view s)).
Lemma leads_begin s : leads (fwp FwpmTransactionBegin) s (λ ok s', ok = true → begun s s').
Proof.
  apply leads_fwp. pose proof (begin_law (view s)) as H. destruct (FwpmTransactionBegin (view s)) as [ok w]. cbn [fst snd].
  intros ->. destruct H as [H1 [H2 H3]]. by split.
Qed.
Lemma leads_commit (l : list wfp_filter) s s1 s2 :
  begun s s1 → adds (.∈ l) s1 s2 →
  leads (fwp FwpmTransactionCommit0) s2 (λ ok s', ok = true →
    pending (view s') = None ∧ ∀ f, there s' f ↔ there s f ∨ f ∈ l).
Proof.
  intros (E1 & E2 & E3) (H1 & _). apply leads_fwp. pose proof (commit_law (view s2)) as H.
  destruct (FwpmTransactionCommit0 (view s2)) as [ok w]. cbn [fst snd]. intros ->. destruct H as [C1 C2]. split; [done|].
  intros f. rewrite <- (there_same s s1) by (unfold target; by rewrite E1, E3). rewrite <- H1.
  apply there_same. unfold target at 1. cbn [engine]. by rewrite C2.
Qed.
Lemma commits_trans l k s s' (m : M bool) :
  (pending (view s) = None → pending (view s') = None ∧ ∀ f, there s' f ↔ there s f ∨ f ∈ l) →
  commits m s' k →
  leads m s' (λ ok s'', ok = true → pending (view s) = None →
    pending (view s'') = None ∧ ∀ f, there s'' f ↔ there s f ∨ f ∈ l ++ k).
Proof.
  unfold commits. intros H Hm. eapply leads_mono; [exact Hm|]. intros ok s'' Hk Hok Hs. destruct (H Hs) as [H1 H2].
  destruct (Hk Hok H1) as [K1 K2]. split; [done|]. intros f. rewrite K2, H2, elem_of_app. naive_solver.
Qed.
Lemma commits_FW_OK rule k s l l' :
  (∀ s1, adding rule s1 l) → (∀ s1, commits k s1 l') → commits (FW_OK disableKillSwitch rule k) s (l ++ l').
Proof.
  unfold FW_OK, adding. intros Hr Hk. unfold commits. apply leads_bind. eapply leads_mono; [apply leads_begin|]. intros [] s1 Hb.
  2: { apply leads_bind. cbn [negb]. unfold leads at 1. by apply leads_ret. }
  specialize (Hb eq_refl). cbn [negb]. apply leads_bind. eapply leads_mono; [exact (Hr s1)|]. intros [] s2 Ha.
  2: { cbn [negb]. apply leads_bind. unfold leads at 1. apply leads_bind. unfold leads at 1. by apply leads_ret. }
  specialize (Ha eq_refl). cbn [negb]. apply leads_bind. eapply leads_mono; [by apply (leads_commit l s s1 s2)|].
  intros [] s3 Hc; [|by apply leads_ret]. specialize (Hc eq_refl). cbn [negb].
  apply (commits_trans l l' s s3); [done|apply Hk].
Qed.
Lemma commits_transaction body s l : (∀ s1, adding body s1 l) → commits (transaction disableKillSwitch body) s l.
Proof.
  unfold transaction, adding. intros Hr. unfold commits. apply leads_bind. eapply leads_mono; [apply leads_begin|]. intros [] s1 Hb.
  2: { cbn [negb]. apply leads_bind. unfold leads at 1. by apply leads_ret. }
  specialize (Hb eq_refl). cbn [negb]. apply leads_bind. eapply leads_mono; [exact (Hr s1)|]. intros ok s2 Ha. apply leads_bind.
  destruct ok.
  - eapply leads_mono; [by apply (leads_commit l s s1 s2), Ha|]. intros [] s3 Hc; cbn [negb].
    + apply leads_ret. intros _ _. by apply Hc.
    + apply leads_bind. unfold leads at 1. apply leads_bind. unfold leads at 1. by apply leads_ret.
  - apply leads_ret. cbn [negb]. apply leads_bind. unfold leads at 1. apply leads_bind. unfold leads at 1. by apply leads_ret.
Qed.

(** *** The filters of the operations *)
Definition common_filters : list wfp_filter :=
  dhcp_filters MED_WEIGHT ++ hyperv_filters MAX_WEIGHT ++ app_filters own MAX_WEIGHT ++
  blocked_port_filters 53 MED_WEIGHT ++ (lo ≫= λ i, adapter_filters i MED_WEIGHT).
Definition interface_filters (vpnAdapterIndex : Z) : list wfp_filter :=
  (if vpnAdapterIndex <? 0 then range_filters false all_v4 MED_WEIGHT ++ range_filters false all_v6 MED_WEIGHT
   else adapter_filters vpnAdapterIndex MED_WEIGHT) ++ common_filters.
Definition dns_filters (config : InterfaceConfig) (dns : qstring) : list wfp_filter :=
  if String.eqb (str dns) "" then [] else
  port_filters (host_of_string (str dns)) 53 HIGH_WEIGHT ++
  (if String.eqb (str dns) (str (m_serverIpv4Gateway config))
   then port_filters (host_of_string (str (m_serverIpv6Gateway config))) 53 HIGH_WEIGHT else []).
Definition peer_filters (config : InterfaceConfig) : list wfp_filter :=
  (m_allowedIPAddressRanges config ≫= λ range, range_filters false range LOW_WEIGHT) ++
  dns_filters config (m_primaryDnsServer config) ++ dns_filters config (m_secondaryDnsServer config) ++
  (m_allowedDnsServers config ≫= λ dns, port_filters (host_of_string dns) 53 HIGH_WEIGHT) ++
  (m_excludedAddresses config ≫= λ i, range_filters true (IPAddress_of i) HIGH_WEIGHT).

Lemma commits_adding (m k : M bool) s l l' : adding m s l → (∀ s1, commits k s1 l') → commits (and_also m k) s (l ++ l').
Proof.
  unfold adding, commits, and_also. intros Hm Hk. apply leads_bind. eapply leads_mono; [exact Hm|]. intros [] s1 H; [|by apply leads_ret].
  specialize (H eq_refl). cbn [negb]. apply (commits_trans l l' s s1); [|apply Hk]. intros Hs. destruct H as (H1 & _ & H3).
  split; [|exact H1]. apply eq_None_not_Some. rewrite H3, Hs. by intros [].
Qed.
Lemma commits_interface vpnAdapterIndex s : commits (enableInterface disableKillSwitch vpnAdapterIndex) s (interface_filters vpnAdapterIndex).
Proof.
  unfold enableInterface, interface_filters, common_filters. set (others := FW_OK _ (allowDHCPTraffic _) _).
  assert (∀ s1, commits others s1 common_filters) as H.
  { intros s1. unfold common_filters. rewrite <- (app_nil_r (lo ≫= _)).
    repeat (apply commits_FW_OK; [intros|intros]); try apply commits_done; try apply adding_filters; [|apply adding_loopback].
    apply adding_path. intros. apply adding_app. }
  destruct (vpnAdapterIndex <? 0).
  - rewrite <- app_assoc. apply commits_adding; [apply adding_filters|]. intros. apply commits_adding; [apply adding_filters|]. exact H.
  - apply commits_FW_OK; [intros; apply adding_filters|exact H].
Qed.
Lemma adding_done s : adding (mret true) s [].
Proof. apply leads_ret. intros _. apply adds_refl. Qed.
Lemma adding_dns config dns s : adding (allow_dns config dns) s (dns_filters config dns).
Proof.
  unfold allow_dns, dns_filters. destruct (String.eqb (str dns) ""); [apply adding_done|].
  apply adding_then; [apply adding_filters|]. intros. destruct (String.eqb _ _); [apply adding_filters|apply adding_done].
Qed.
Lemma commits_peer config s : commits (enablePeerTraffic disableKillSwitch config) s (peer_filters config).
Proof.
  apply commits_transaction. intros s1. unfold peer_filters.
  apply adding_then; [apply adding_all; intros; apply adding_filters|]. intros.
  apply adding_then; [apply adding_dns|]. intros. apply adding_then; [apply adding_dns|]. intros.
  apply adding_then; [apply adding_all; intros; apply adding_filters|]. intros.
  apply adding_all. intros. apply adding_filters.
Qed.
End behaviour.

(** ** Verdicts *)
Lemma decides_exists (l : list wfp_filter) p :
  Exists (λ f, filter_matches p f = true) l → ∃ f, decides (.∈ l) p f.
Proof.
  induction l as [|g l IH]; intros H; [by apply Exists_nil in H|].
  destruct (decide (Exists (λ f, filter_matches p f = true) l)) as [Hl|Hl].
  - destruct (IH Hl) as (h & Hin & Hh & Hmax).
    destruct (decide (filter_matches p g = true ∧ weight h < weight g)) as [[Hg Hw]|Hn].
    + exists g. split; [by left|]. split; [done|]. intros k [->|Hk]%elem_of_cons Hm; [lia|]. specialize (Hmax k Hk Hm). lia.
    + exists h. split; [by right|]. split; [done|]. intros k [->|Hk]%elem_of_cons Hm; [|by apply Hmax].
      destruct (Z.le_gt_cases (weight g) (weight h)); [done|]. destruct Hn. split; [done|lia].
  - apply Exists_cons in H as [Hg|H]; [|done]. exists g. split; [by left|]. split; [done|].
    intros k [->|Hk]%elem_of_cons Hm; [lia|]. destruct Hl. apply Exists_exists. by exists k.
Qed.
Lemma blocked_when (fs : wfp_filter → Prop) l p :
  (∀ f, fs f ↔ f ∈ l) → Exists (λ f, filter_matches p f = true) l →
  Forall (λ f, filter_matches p f = true → permits f = false) l → blocked fs p.
Proof.
  intros E Hex Hall. destruct (decides_exists l p Hex) as (f & Hin & Hm & Hmax). split.
  - exists f. split; [by apply E|]. split; [done|]. intros g Hg. apply Hmax. by apply E.
  - intros g (Hg & Hgm & _). rewrite Forall_forall in Hall. by apply (Hall g); [apply E|].
Qed.
(** A matching filter above every block. *)
Lemma permitted_when (fs : wfp_filter → Prop) l p w :
  (∀ f, fs f ↔ f ∈ l) → Exists (λ f, filter_matches p f = true ∧ w ≤ weight f) l →
  Forall (λ f, filter_matches p f = true → permits f = false → weight f < w) l → permitted fs p.
Proof.
  intros E (g & Hg & Hgm & Hw)%Exists_exists Hall f (Hf & Hm & Hmax).
  specialize (Hmax g (proj2 (E g) Hg) Hgm). rewrite Forall_forall in Hall.
  specialize (Hall f (proj1 (E f) Hf) Hm). destruct (permits f); [done|]. specialize (Hall eq_refl). lia.
Qed.

Definition of_family (p : connection) : Prop := c_layer p ∈ layers (isV4 (c_remote p)).
Definition is_dns (p : connection) : Prop := (c_protocol p = IPPROTO_UDP ∨ c_protocol p = IPPROTO_TCP) ∧ c_remote_port p = 53.
Definition is_dhcp (p : connection) : Prop := c_protocol p = IPPROTO_UDP ∧ c_local_port p = 68 ∧ c_remote_port p = 67.
Definition range_of (addr : IPAddress) (h : QHostAddress) : Prop :=
  in_range (importAddress (m_address addr)) (importAddress (broadcastAddress addr)) h = true.

Ltac conditions := unfold filter_matches; cbn [layerKey filterCondition app forallb existsb fieldKey Nat.eqb condition_holds orb andb];
  rewrite ?orb_false_r, ?andb_true_r.
Lemma match_adapter p l i w : filter_matches p (mkFilter l [INTERFACE_INDEX i] true w false) = true ↔ l = c_layer p ∧ i = c_interface p.
Proof. conditions. by rewrite andb_true_iff, bool_decide_eq_true, Z.eqb_eq. Qed.
Lemma match_app p l own w c : filter_matches p (mkFilter l [ALE_APP_ID own] true w c) = true ↔ l = c_layer p ∧ own = c_app p.
Proof. conditions. by rewrite andb_true_iff, bool_decide_eq_true, String.eqb_eq. Qed.
Lemma match_range p l low high b w :
  filter_matches p (mkFilter l [IP_REMOTE_RANGE low high] b w false) = true ↔ l = c_layer p ∧ in_range low high (c_remote p) = true.
Proof. conditions. by rewrite andb_true_iff, bool_decide_eq_true. Qed.
Lemma match_vm p l w : filter_matches p (mkFilter l [L2_IS_VM2VM] true w false) = true → l = c_layer p.
Proof. conditions. by rewrite andb_true_iff, bool_decide_eq_true; intros []. Qed.
Lemma match_blocked_port p l port w :
  filter_matches p (mkFilter l [IP_PROTOCOL IPPROTO_UDP; IP_PROTOCOL IPPROTO_TCP; IP_REMOTE_PORT port] false w false) = true ↔
  l = c_layer p ∧ (c_protocol p = IPPROTO_UDP ∨ c_protocol p = IPPROTO_TCP) ∧ c_remote_port p = port.
Proof.
  conditions. rewrite !andb_true_iff, !orb_true_iff, bool_decide_eq_true, !Z.eqb_eq. intuition congruence.
Qed.
Lemma match_port p l port ip w :
  filter_matches p (mkFilter l [IP_PROTOCOL IPPROTO_UDP; IP_PROTOCOL IPPROTO_TCP; IP_REMOTE_PORT port; IP_REMOTE_ADDRESS ip] true w true) = true ↔
  l = c_layer p ∧ (c_protocol p = IPPROTO_UDP ∨ c_protocol p = IPPROTO_TCP) ∧ c_remote_port p = port ∧ ip = c_remote p.
Proof.
  conditions. rewrite !andb_true_iff, !orb_true_iff, !bool_decide_eq_true, !Z.eqb_eq. intuition congruence.
Qed.
Lemma match_dhcp p f w : f ∈ dhcp_filters w → filter_matches p f = true → is_dhcp p.
Proof.
  unfold dhcp_filters. intros Hf. repeat (apply elem_of_cons in Hf as [->|Hf]); [..|by apply not_elem_of_nil in Hf];
    conditions; rewrite !andb_true_iff, !Z.eqb_eq; unfold is_dhcp; intuition congruence.
Qed.

(** *** Traffic that no filter permits *)
Definition harmless (p : connection) (f : wfp_filter) : Prop := filter_matches p f = true → permits f = false.
Section verdicts.
Context {Q : Qt} (lo : list Z) (own : string) (p : connection).

Lemma harmless_adapter i w : c_interface p ≠ i → Forall (harmless p) (adapter_filters i w).
Proof. intros H. apply Forall_fmap, Forall_true. intros l [_ E]%match_adapter. congruence. Qed.
Lemma harmless_dhcp w : ¬ is_dhcp p → Forall (harmless p) (dhcp_filters w).
Proof. intros H. apply Forall_forall. intros f Hf Hm. destruct H. by eapply match_dhcp. Qed.
Lemma harmless_vm w : of_family p → Forall (harmless p) (hyperv_filters w).
Proof.
  intros H. apply Forall_fmap. assert (∀ l, l = OUTBOUND_MAC_FRAME_NATIVE ∨ l = INBOUND_MAC_FRAME_NATIVE → harmless p (mkFilter l [L2_IS_VM2VM] true w false)) as Hl.
  { intros l Hl Hm%match_vm. subst l. unfold of_family, layers in H. destruct (isV4 _), Hl as [E|E]; rewrite E in H;
      repeat (apply elem_of_cons in H as [?|H]; [done|]); by apply not_elem_of_nil in H. }
  constructor; [apply Hl; by left|]. constructor; [apply Hl; by right|constructor].
Qed.
Lemma harmless_app w : of_family p → ¬ (c_app p = own ∧ isV4 (c_remote p) = true) → Forall (harmless p) (app_filters own w).
Proof.
  intros Hf H. apply Forall_fmap. assert (∀ l, l ∈ [CONNECT_V4; RECV_ACCEPT_V4] → harmless p (mkFilter l [ALE_APP_ID own] true w true)) as Hl.
  { intros l Hl [E1 E2]%match_app. exfalso. apply H. split; [done|]. unfold of_family, layers in Hf. subst l.
    destruct (isV4 _); [done|]. repeat (apply elem_of_cons in Hl as [E|Hl]; [rewrite E in Hf; repeat (apply elem_of_cons in Hf as [?|Hf]; [done|]); by apply not_elem_of_nil in Hf|]).
    by apply not_elem_of_nil in Hl. }
  repeat (constructor; [apply Hl; set_solver|]). constructor.
Qed.
Lemma harmless_blocked_port port w : Forall (harmless p) (blocked_port_filters port w).
Proof. apply Forall_fmap, Forall_true. by intros. Qed.
Lemma harmless_block addr w : Forall (harmless p) (range_filters false addr w).
Proof. apply Forall_fmap, Forall_true. by intros. Qed.
Lemma harmless_port h port w : ¬ (c_remote_port p = port ∧ (c_protocol p = IPPROTO_UDP ∨ c_protocol p = IPPROTO_TCP) ∧ c_remote p = importAddress h) →
  Forall (harmless p) (port_filters h port w).
Proof. intros H. apply Forall_fmap, Forall_true. intros l Hm. apply match_port in Hm as (_ & E1 & E2 & E3). by destruct H. Qed.
Lemma harmless_range addr w : ¬ range_of addr (c_remote p) → Forall (harmless p) (range_filters true addr w).
Proof. intros H. apply Forall_fmap, Forall_true. intros l [_ E]%match_range. by destruct H. Qed.
Lemma harmless_bind {X} (l : list X) (f : X → list wfp_filter) : (∀ x, x ∈ l → Forall (harmless p) (f x)) → Forall (harmless p) (l ≫= f).
Proof.
  intros H. apply Forall_forall. intros g (x & Hg & Hx)%list_elem_of_bind. specialize (H x Hx). rewrite Forall_forall in H. by apply H.
Qed.

(** The resolvers that are let through. *)
Definition dns_hosts (config : InterfaceConfig) (dns : qstring) : list QHostAddress :=
  if String.eqb (str dns) "" then [] else
  host_of_string (str dns) ::
  (if String.eqb (str dns) (str (m_serverIpv4Gateway config)) then [host_of_string (str (m_serverIpv6Gateway config))] else []).
Definition resolvers (config : InterfaceConfig) : list QHostAddress :=
  dns_hosts config (m_primaryDnsServer config) ++ dns_hosts config (m_secondaryDnsServer config) ++
  (host_of_string <$> m_allowedDnsServers config).
Lemma peer_filters_resolvers config f : f ∈ peer_filters config ↔
  f ∈ (m_allowedIPAddressRanges config ≫= λ range, range_filters false range LOW_WEIGHT) ∨
  f ∈ (resolvers config ≫= λ h, port_filters h 53 HIGH_WEIGHT) ∨
  f ∈ (m_excludedAddresses config ≫= λ i, range_filters true (IPAddress_of i) HIGH_WEIGHT).
Proof.
  assert (∀ dns, dns_filters config dns = dns_hosts config dns ≫= λ h, port_filters h 53 HIGH_WEIGHT) as E.
  { intros dns. unfold dns_filters, dns_hosts. destruct (String.eqb _ ""); [done|]. destruct (String.eqb _ _); cbn [mbind list_bind]; by rewrite ?app_nil_r. }
  assert ((m_allowedDnsServers config ≫= λ dns, port_filters (host_of_string dns) 53 HIGH_WEIGHT) =
    (host_of_string <$> m_allowedDnsServers config) ≫= λ h, port_filters h 53 HIGH_WEIGHT) as E'.
  { induction (m_allowedDnsServers config) as [|a l IH]; [done|]. cbn. by rewrite <- IH. }
  unfold peer_filters, resolvers. rewrite !E, E', !bind_app, !elem_of_app. tauto.
Qed.

(** Traffic of other programs, on other adapters, that is neither a lease nor a
    question to a resolver of the tunnel. *)
Record foreign : Prop := {
  foreign_family : of_family p;
  foreign_app : ¬ (c_app p = own ∧ isV4 (c_remote p) = true);
  foreign_loopback : c_interface p ∉ lo;
  foreign_dhcp : ¬ is_dhcp p;
}.
Record outside (vpnAdapterIndex : Z) (config : InterfaceConfig) : Prop := {
  outside_foreign : foreign;
  outside_adapter : c_interface p ≠ vpnAdapterIndex;
  outside_dns : ¬ (is_dns p ∧ ∃ h, h ∈ resolvers config ∧ c_remote p = importAddress h);
  outside_excluded i : i ∈ m_excludedAddresses config → ¬ range_of (IPAddress_of i) (c_remote p);
}.
Lemma foreign_common : foreign → Forall (harmless p) (common_filters lo own).
Proof.
  intros [H1 H2 H3 H4]. unfold common_filters. rewrite !Forall_app. split_and!;
    [by apply harmless_dhcp|by apply harmless_vm|by apply harmless_app|apply harmless_blocked_port|].
  apply harmless_bind. intros i Hi. apply harmless_adapter. congruence.
Qed.
Lemma outside_harmless vpnAdapterIndex config : 0 ≤ vpnAdapterIndex → outside vpnAdapterIndex config →
  Forall (harmless p) (interface_filters lo own vpnAdapterIndex ++ peer_filters config).
Proof.
  intros Hi [Hf Ha Hd He]. apply Forall_app. split.
  - unfold interface_filters. rewrite (proj2 (Z.ltb_ge _ _)) by lia. apply Forall_app. split; [by apply harmless_adapter|by apply foreign_common].
  - apply Forall_forall. intros f [Hin|[Hin|Hin]]%peer_filters_resolvers; revert f Hin; apply Forall_forall, harmless_bind.
    + intros. apply harmless_block.
    + intros h Hh. apply harmless_port. intros (E1 & E2 & E3). destruct Hd. split; [by split|by exists h].
    + intros i Hin. apply harmless_range. by apply He.
Qed.

Lemma family_range b addr w : of_family p → range_of addr (c_remote p) → Exists (λ f, filter_matches p f = true) (range_filters b addr w).
Proof.
  intros Hf Hr. apply Exists_exists. assert (isV4 (c_remote p) = isV4 (m_address addr)) as E.
  { unfold range_of, in_range in Hr. apply andb_true_iff in Hr as [[Hr _]%andb_true_iff _]. apply bool_decide_eq_true in Hr.
    unfold isV4. rewrite Hr. unfold importAddress. by destruct (m_address addr). }
  unfold of_family in Hf. rewrite E in Hf. eexists. split; [apply list_elem_of_fmap; eexists; split; [reflexivity|exact Hf]|].
  by apply match_range.
Qed.
Lemma family_blocked_port port w : of_family p → (c_protocol p = IPPROTO_UDP ∨ c_protocol p = IPPROTO_TCP) → c_remote_port p = port →
  Exists (λ f, filter_matches p f = true) (blocked_port_filters port w).
Proof.
  intros Hf Hp Hport. apply Exists_exists. eexists. split; [apply list_elem_of_fmap; exists (c_layer p); split; [reflexivity|]|by apply match_blocked_port].
  unfold of_family, layers in Hf. destruct (isV4 _); set_solver.
Qed.

(** Filters above the blocks. *)
Lemma adapter_open vpnAdapterIndex config : of_family p → 0 ≤ vpnAdapterIndex → c_interface p = vpnAdapterIndex →
  Exists (λ f, filter_matches p f = true ∧ MED_WEIGHT ≤ weight f) (interface_filters lo own vpnAdapterIndex ++ peer_filters config).
Proof.
  intros Hf Hi Ha. apply Exists_app. left. unfold interface_filters. rewrite (proj2 (Z.ltb_ge _ _)) by lia. apply Exists_app. left.
  apply Exists_exists. eexists. split; [apply list_elem_of_fmap; exists (c_layer p); split; [reflexivity|]|split; [by apply match_adapter|done]].
  unfold of_family, layers in Hf. destruct (isV4 _); set_solver.
Qed.
Lemma resolvers_open vpnAdapterIndex config : of_family p → is_dns p → (∃ h, h ∈ resolvers config ∧ c_remote p = importAddress h) →
  Exists (λ f, filter_matches p f = true ∧ HIGH_WEIGHT ≤ weight f) (interface_filters lo own vpnAdapterIndex ++ peer_filters config).
Proof.
  intros Hf [Hd Hport] (h & Hh & E). apply Exists_exists.
  exists (mkFilter (c_layer p) [IP_PROTOCOL IPPROTO_UDP; IP_PROTOCOL IPPROTO_TCP; IP_REMOTE_PORT 53; IP_REMOTE_ADDRESS (importAddress h)] true HIGH_WEIGHT true).
  split; [|split; [by apply match_port|done]]. apply elem_of_app. right. apply peer_filters_resolvers. right. left.
  apply list_elem_of_bind. exists h. split; [|done]. apply list_elem_of_fmap. exists (c_layer p). split; [done|].
  unfold of_family in Hf. rewrite E in Hf. unfold isV4 in *. by destruct h.
Qed.
Lemma weights vpnAdapterIndex config f : 0 ≤ vpnAdapterIndex → f ∈ interface_filters lo own vpnAdapterIndex ++ peer_filters config → permits f = false →
  f ∈ blocked_port_filters 53 MED_WEIGHT ∨ weight f = LOW_WEIGHT.
Proof.
  intros Hi Hf Hp. unfold interface_filters, common_filters in Hf. rewrite (proj2 (Z.ltb_ge _ _)) in Hf by lia.
  rewrite !elem_of_app, peer_filters_resolvers, !list_elem_of_bind in Hf.
  destruct Hf as [[Hf|[Hf|[Hf|[Hf|[Hf|(i & Hf & _)]]]]]|[(r & Hf & _)|[(h & Hf & _)|(i & Hf & _)]]]; try by left.
  all: try by (apply list_elem_of_fmap in Hf as (? & -> & _); first [discriminate|right]).
  unfold dhcp_filters in Hf. repeat (apply elem_of_cons in Hf as [->|Hf]; [discriminate|]). by apply not_elem_of_nil in Hf.
Qed.
Lemma low_blocks vpnAdapterIndex config : 0 ≤ vpnAdapterIndex → ¬ is_dns p →
  Forall (λ f, filter_matches p f = true → permits f = false → weight f < MED_WEIGHT) (interface_filters lo own vpnAdapterIndex ++ peer_filters config).
Proof.
  intros Hi Hd. apply Forall_forall. intros f Hf Hm Hp. destruct (weights _ _ f Hi Hf Hp) as [Hb| ->]; [|done].
  apply list_elem_of_fmap in Hb as (l & -> & _). apply match_blocked_port in Hm as (_ & H1 & H2). by destruct Hd.
Qed.
Lemma no_high_blocks vpnAdapterIndex config : 0 ≤ vpnAdapterIndex →
  Forall (λ f, filter_matches p f = true → permits f = false → weight f < HIGH_WEIGHT) (interface_filters lo own vpnAdapterIndex ++ peer_filters config).
Proof.
  intros Hi. apply Forall_forall. intros f Hf Hm Hp. destruct (weights _ _ f Hi Hf Hp) as [Hb| ->]; [|done].
  by apply list_elem_of_fmap in Hb as (l & -> & _).
Qed.
End verdicts.

(** ** Properties *)
Section properties.
Context {W : Type} {F : Wfp W} {V : WfpView W} {WL : WfpLaws W} {Q : Qt}.
Context (lo : list Z) (own : string) (Hsteady : steady lo own) (disableKillSwitch : stM (WindowsFirewall W) unit).

(** Nothing of ours is in force, and no transaction is under way. *)
Definition clear (s : WindowsFirewall W) : Prop := pending (engine s) = None ∧ installed (engine s) = ∅.
Definition in_force (s : WindowsFirewall W) (f : wfp_filter) : Prop := ∃ id, installed (engine s) !! id = Some f.

Lemma clear_commits m s l : clear s → commits m s l →
  leads m s (λ ok s', ok = true → pending (engine s') = None ∧ ∀ f, in_force s' f ↔ f ∈ l).
Proof.
  intros [Hp Hi] H. unfold commits in H. eapply leads_mono; [exact H|]. intros ok s' H' ->. destruct (H' eq_refl Hp) as [E1 E2].
  split; [done|]. intros f. transitivity (there s' f); [unfold there, in_force, target; by rewrite E1|]. rewrite E2.
  split; [|by right]. intros [[id Hid]|?]; [|done]. unfold target in Hid. rewrite Hp in Hid. cbn in Hid. by rewrite Hi, lookup_empty in Hid.
Qed.
Lemma commits_both m k s l l' : commits m s l → (∀ s1, commits k s1 l') → commits (and_also m k) s (l ++ l').
Proof.
  unfold commits at 1 3, and_also. intros Hm Hk. apply leads_bind. eapply leads_mono; [exact Hm|]. intros [] s1 H; [|by apply leads_ret].
  cbn [negb]. by apply (commits_trans l l' s s1); [apply H|].
Qed.

(** What the filters of a connection do with a packet. *)
Definition kept_inside (vpnAdapterIndex : Z) (config : InterfaceConfig) (fs : wfp_filter → Prop) (p : connection) : Prop :=
  (outside lo own p vpnAdapterIndex config →
     (∃ range, range ∈ m_allowedIPAddressRanges config ∧ range_of range (c_remote p)) ∨ is_dns p → blocked fs p) ∧
  (c_interface p = vpnAdapterIndex → ¬ is_dns p → permitted fs p) ∧
  (is_dns p → (∃ h, h ∈ resolvers config ∧ c_remote p = importAddress h) → permitted fs p) ∧
  ((∃ i, i ∈ m_excludedAddresses config ∧ range_of (IPAddress_of i) (c_remote p)) → permitted fs p).
Lemma filters_keep_inside vpnAdapterIndex config fs p : 0 ≤ vpnAdapterIndex → of_family p →
  (∀ f, fs f ↔ f ∈ interface_filters lo own vpnAdapterIndex ++ peer_filters config) → kept_inside vpnAdapterIndex config fs p.
Proof.
  intros Hi Hf Hin.
  set (l := interface_filters lo own vpnAdapterIndex ++ peer_filters config) in *. unfold kept_inside. split_and!.
  - intros Ho Hwhere. apply (blocked_when _ l); [done| |by apply outside_harmless]. destruct Hwhere as [(range & Hr & Hin')|[Hd1 Hd2]].
    + pose proof (family_range p false range LOW_WEIGHT Hf Hin') as (f & Hfr & Hm)%Exists_exists. apply Exists_exists. exists f.
      split; [|done]. apply elem_of_app. right. apply peer_filters_resolvers. left. apply list_elem_of_bind. by exists range.
    + pose proof (family_blocked_port p 53 MED_WEIGHT Hf Hd1 Hd2) as (f & Hfr & Hm)%Exists_exists. apply Exists_exists. exists f.
      split; [|done]. apply elem_of_app. left. unfold interface_filters, common_filters. rewrite !elem_of_app. tauto.
  - intros Ha Hd. apply (permitted_when _ l p MED_WEIGHT Hin); [by apply adapter_open|by apply low_blocks].
  - intros Hd Hh. apply (permitted_when _ l p HIGH_WEIGHT Hin); [by apply resolvers_open|by apply no_high_blocks].
  - intros (i & Hi' & Hr). apply (permitted_when _ l p HIGH_WEIGHT Hin); [|by apply no_high_blocks].
    pose proof (family_range p true (IPAddress_of i) HIGH_WEIGHT Hf Hr) as (f & Hfr & Hm)%Exists_exists. apply Exists_exists. exists f.
    split; [|split; [done|]].
    + apply elem_of_app. right. apply peer_filters_resolvers. right. right. apply list_elem_of_bind. by exists i.
    + by apply list_elem_of_fmap in Hfr as (? & -> & _).
Qed.

(** C4. A connection with the kill switch: when both calls succeed, nothing leaves
    outside the tunnel.  Traffic to an address the tunnel is for is blocked unless
    it goes through the tunnel's adapter or the loopback, is the application's
    own, a lease of an address, a question to one of the tunnel's resolvers, or
    goes to an excluded address; questions to other resolvers are blocked
    whatever their address.  The tunnel itself, the resolvers and the excluded
    addresses are open; of the application's own traffic and the leases nothing is
    said but that it may leave. *)
Theorem windows_no_leak (vpnAdapterIndex : Z) (config : InterfaceConfig) (s : WindowsFirewall W) :
  0 ≤ vpnAdapterIndex → clear s →
  leads (and_also (enableInterface disableKillSwitch vpnAdapterIndex) (enablePeerTraffic disableKillSwitch config)) s (λ ok s', ok = true →
    pending (engine s') = None ∧
    ∀ p, of_family p →
      (outside lo own p vpnAdapterIndex config →
         (∃ range, range ∈ m_allowedIPAddressRanges config ∧ range_of range (c_remote p)) ∨ is_dns p → blocked (in_force s') p) ∧
      (c_interface p = vpnAdapterIndex → ¬ is_dns p → permitted (in_force s') p) ∧
      (is_dns p → (∃ h, h ∈ resolvers config ∧ c_remote p = importAddress h) → permitted (in_force s') p) ∧
      ((∃ i, i ∈ m_excludedAddresses config ∧ range_of (IPAddress_of i) (c_remote p)) → permitted (in_force s') p)).
Proof.
  intros Hi Hs. eapply leads_mono; [apply clear_commits; [exact Hs|]; apply commits_both; [by apply (commits_interface lo own)|]; intros; apply commits_peer|].
  intros ok s' H Hok. destruct (H Hok) as [Hp Hin]. split; [done|]. intros p Hf. by apply filters_keep_inside.
Qed.

(** C39. The strict kill switch without a connection: when it is set up, nothing
    goes out or comes in but by the loopback, for the application, or for a
    lease of an address. *)
Theorem windows_lockdown (s : WindowsFirewall W) :
  IPAddress_of "0.0.0.0/0" = mkIPAddress (HostV4 0) 0 → IPAddress_of "::/0" = mkIPAddress (HostV6 (replicate 16 0)) 0 → clear s →
  leads (enableInterface disableKillSwitch (-1)) s (λ ok s', ok = true →
    ∀ p, wf_host (c_remote p) → foreign lo own p → blocked (in_force s') p).
Proof.
  intros E4 E6 Hs. eapply leads_mono; [apply clear_commits; [exact Hs|]; by apply (commits_interface lo own)|].
  intros ok s' H Hok p Hw Hf. destruct (H Hok) as [_ Hin]. apply (blocked_when _ _ p Hin).
  - unfold interface_filters. cbn [Z.ltb]. change (-1 <? 0) with true. cbn iota. unfold all_v4, all_v6. rewrite E4, E6, !Exists_app. left.
    destruct (c_remote p) as [|a|a] eqn:E; [done|left|right]; (apply family_range; [apply Hf|]); rewrite E; unfold range_of, in_range.
    + change (importAddress (broadcastAddress _)) with (HostV4 4294967295). cbn in Hw |- *.
      rewrite bool_decide_eq_true_2, andb_true_l, andb_true_iff, !Z.leb_le by done. lia.
    + change (importAddress (broadcastAddress _)) with (HostV6 (replicate 16 255)). destruct Hw as [Hl Hb].
      pose proof (be_num_bound a Hb) as Hn. rewrite Hl in Hn. change (importAddress _) with (HostV6 (replicate 16 0)).
      rewrite bool_decide_eq_true_2, andb_true_l, andb_true_iff, !Z.leb_le by done. cbn [host_num]. rewrite be_num_ff, be_num_00. lia.
  - unfold interface_filters. change (-1 <? 0) with true. cbn iota. rewrite !Forall_app. split; [split; apply harmless_block|by apply foreign_common].
Qed.
End properties.

(** *** Nothing is forgotten *)
Section tracking.
Context {W : Type} {F : Wfp W} {V : WfpView W} {WL : WfpLaws W} {LO : Leftovers W} {Q : Qt}.
Abbreviation M := (stM (WindowsFirewall W)).

Definition rules (s : WindowsFirewall W) : list Z := m_activeRules s ++ (m_peerRules s).*2.
(** Every filter in force, or about to be, can be taken down, but those the engine
    did not delete when it was asked to. *)
Definition tracked (s : WindowsFirewall W) : Prop :=
  (∀ id, is_Some (installed (engine s) !! id) → id ∈ rules s ∨ id ∈ leftover (engine s) ∨ id ∈ removed (engine s)) ∧
  (∀ m id, pending (engine s) = Some m → is_Some (m !! id) → id ∈ rules s ∨ id ∈ leftover (engine s)).
Definition keeps (s s' : WindowsFirewall W) : Prop := tracked s → tracked s'.
#[local] Instance keeps_preorder : PreOrder keeps.
Proof. split; [by intros s ?|]. intros s t u H1 H2 H. by apply H2, H1. Qed.

Lemma removed_some (w : W) m : pending w = Some m → removed w = dom (installed w) ∖ dom m.
Proof. unfold removed. by intros ->. Qed.
Lemma keeps_view s s' : rules s' = rules s → same_view (engine s) (engine s') → leftover (engine s') = leftover (engine s) → keeps s s'.
Proof. intros Er [Ei Ep] El [H1 H2]. unfold tracked, removed. rewrite Er, Ei, Ep, El. by split. Qed.
Lemma keeps_same {X} (f : W → X * W) : (∀ w, same_view w (f w).2) → (∀ w, leftover (f w).2 = leftover w) → steps keeps (fwp f).
Proof.
  intros Hv Hl s. unfold fwp. pose proof (Hv (engine s)) as H1. pose proof (Hl (engine s)) as H2.
  destruct (f (engine s)) as [x w]. by apply keeps_view.
Qed.
Lemma keeps_begin : steps keeps (fwp FwpmTransactionBegin).
Proof.
  intros s. unfold fwp. pose proof (begin_law (engine s)) as H. pose proof (begin_leftover (engine s)) as El.
  destruct (FwpmTransactionBegin (engine s)) as [[] w]; cbn [snd] in *; destruct H as [Ei Hp]; [|by apply keeps_view].
  destruct Hp as [E0 Ep]. intros [H1 _]. unfold removed in H1. rewrite E0 in H1.
  split; unfold rules in *; cbn in *; rewrite El, ?Ei.
  - intros id Hid. destruct (H1 id Hid) as [?|[?|?]]; [by left|by right; left|set_solver].
  - intros m id Hm. rewrite Ep in Hm. injection Hm as <-. intros Hid. destruct (H1 id Hid) as [?|[?|?]]; [by left|by right|set_solver].
Qed.
Lemma keeps_abort : steps keeps (fwp_do FwpmTransactionAbort0).
Proof.
  intros s [H1 _]. destruct (abort_law (engine s)) as [Ei Ep]. pose proof (abort_leftover (engine s)) as El.
  split; unfold rules in *; cbn in *; [|by rewrite Ep]. rewrite Ei, El. intros id Hid. destruct (H1 id Hid) as [?|[?|?]]; set_solver.
Qed.
Lemma keeps_commit : steps keeps (fwp FwpmTransactionCommit0).
Proof.
  intros s [H1 H2]. unfold fwp. pose proof (commit_law (engine s)) as H. pose proof (commit_leftover (engine s)) as El.
  destruct (FwpmTransactionCommit0 (engine s)) as [[] w]; cbn; destruct H as [Ei Ep]; split; unfold rules in *; cbn in *; rewrite El.
  - intros id. rewrite Ei. unfold target, removed in *. destruct (pending (engine s)) as [m|] eqn:E; cbn.
    + intros Hid. destruct (H2 m id eq_refl Hid); set_solver.
    + intros Hid. destruct (H1 id Hid) as [?|[?|?]]; set_solver.
  - by rewrite Ep.
  - intros id. rewrite Ei. intros Hid. destruct Ep as [Ep|Ep].
    + rewrite Ep. destruct (H1 id Hid) as [?|[?|?]]; set_solver.
    + assert (removed w = removed (engine s)) as -> by (unfold removed; by rewrite Ep, Ei). destruct (H1 id Hid) as [?|[?|?]]; set_solver.
  - intros m id Hm Hid. destruct Ep as [Ep|Ep]; rewrite Ep in Hm; [done|]. destruct (H2 m id Hm Hid); set_solver.
Qed.
Lemma keeps_filter peer f : steps keeps (enableFilter peer f).
Proof.
  intros s Ht. unfold enableFilter. rewrite bind_run. unfold fwp. pose proof (add_law f (engine s)) as H. pose proof (add_leftover f (engine s)) as El.
  destruct (FwpmFilterAdd0 f (engine s)) as [[id|] w]; cbn [fst snd] in *.
  2: { assert (keeps s (mkWindowsFirewall (m_activeRules s) (m_peerRules s) w)) as Hk by (by apply keeps_view). by apply Hk. }
  destruct H as [_ H]. rewrite bind_run. cbn [fst snd mret stM_ret].
  set (s' := (add_rule peer id _).2). assert (engine s' = w) as Ee by (subst s'; unfold add_rule, modify; by destruct (String.eqb peer "")).
  assert (∀ x, x ∈ rules s ∨ x = id → x ∈ rules s') as Hr.
  { intros x Hx. subst s'. unfold add_rule, modify, rules in *. rewrite elem_of_app in Hx.
    destruct (String.eqb peer ""); cbn; rewrite ?elem_of_app, ?list_elem_of_singleton, ?elem_of_cons; tauto. }
  destruct Ht as [H1 H2]. unfold tracked, removed in *. rewrite Ee, El.
  destruct (pending (engine s)) as [m|] eqn:Em; destruct H as [-> ->]; split.
  - intros x Hx. destruct (decide (x = id)) as [->|Hne]; [left; apply Hr; by right|]. destruct (H1 x Hx) as [?|[?|?]]; [left; apply Hr; by left|by right; left|].
    right; right. rewrite dom_insert. set_solver.
  - intros m' x [= <-] [g Hg]. apply lookup_insert_Some in Hg as [[-> _]|[_ Hg]]; [left; apply Hr; by right|].
    destruct (H2 m x eq_refl) as [?|?]; [by eexists|left; apply Hr; by left|by right].
  - intros x [g Hg]. apply lookup_insert_Some in Hg as [[-> _]|[_ Hg]]; [left; apply Hr; by right|].
    destruct (H1 x) as [?|[?|?]]; [by eexists|left; apply Hr; by left|by right; left|set_solver].
  - done.
Qed.
Ltac keeps_tac := repeat first [apply keeps_filter|apply keeps_begin|apply keeps_commit|apply keeps_abort|steps_step].
Lemma keeps_filters peer fs : steps keeps (enableFilters peer fs).
Proof. induction fs as [|f fs IH]; cbn; keeps_tac. Qed.
Lemma keeps_and m k : steps keeps m → steps keeps k → steps keeps (and_also m k).
Proof. intros Hm Hk. unfold and_also. keeps_tac. Qed.
Lemma keeps_all {X} (l : list X) f : (∀ x, steps keeps (f x)) → steps keeps (all_of l f).
Proof. intros Hf. induction l as [|x l IH]; [apply steps_ret; typeclasses eauto|]. by apply keeps_and. Qed.
Lemma keeps_path {X} (k : string → M X) : (∀ path, steps keeps (k path)) → steps keeps (getCurrentPath ≫= k).
Proof.
  intros Hk. unfold getCurrentPath. keeps_tac; try apply Hk; (apply keeps_same; intros w; [apply module_law|apply module_leftover]).
Qed.

(** *** Deletions *)

(** Of the transaction's filters those are left that were not to be deleted, and
    those the engine refused to delete. *)
Lemma deletions m ids w : pending w = Some m →
  let w' := foldl (λ w id, (FwpmFilterDeleteById0 id w).2) w ids in
  installed w' = installed w ∧ leftover w ⊆ leftover w' ∧ ∃ m', pending w' = Some m' ∧
    (∀ id, is_Some (m' !! id) → is_Some (m !! id) ∧ (id ∈ ids → id ∈ leftover w')).
Proof.
  cbv zeta. revert m w. induction ids as [|x ids IH]; intros m w Hm.
  - cbn. split; [done|]. split; [done|]. exists m. split; [done|]. intros id Hid. split; [done|]. intros Hn. by apply not_elem_of_nil in Hn.
  - cbn [foldl]. pose proof (delete_law x w) as H. pose proof (delete_leftover x w) as El. unfold target in El. rewrite Hm in El. cbn in El.
    destruct (FwpmFilterDeleteById0 x w) as [[] w1]; cbn [snd].
    + rewrite Hm in H. destruct H as [H1 H2]. destruct (IH (delete x m) w1 H2) as (E1 & E2 & m' & E3 & E4).
      split; [by rewrite E1|]. split; [by rewrite <- El|]. exists m'. split; [done|]. intros id Hid. destruct (E4 id Hid) as [[g Hg] E5].
      apply lookup_delete_Some in Hg as [Hne Hg]. split; [by exists g|]. intros [->|Hin]%elem_of_cons; [done|by apply E5].
    + destruct H as [H1 H2]. rewrite Hm in H2. destruct (IH m w1 H2) as (E1 & E2 & m' & E3 & E4).
      split; [by rewrite E1|]. split; [destruct (m !! x); set_solver|]. exists m'. split; [done|]. intros id Hid. destruct (E4 id Hid) as [Hs E5].
      split; [done|]. intros [->|Hin]%elem_of_cons; [|by apply E5]. apply E2. destruct Hs as [g Hg]. rewrite Hg in El. set_solver.
Qed.
(** The transaction after them, with only the rules [l] kept on the lists. *)
Lemma tracked_deletions s s' ids m : tracked s → pending (engine s) = Some m → (∀ id, id ∈ rules s → id ∈ rules s' ∨ id ∈ ids) →
  engine s' = foldl (λ w id, (FwpmFilterDeleteById0 id w).2) (engine s) ids → tracked s'.
Proof.
  intros [H1 H2] Hm Hr E. destruct (deletions m ids (engine s) Hm) as (D1 & D2 & m' & D3 & D4). rewrite <- E in *.
  assert (∀ id, is_Some (m' !! id) → id ∈ rules s' ∨ id ∈ leftover (engine s')) as Hin.
  { intros id Hid. destruct (D4 id Hid) as [Hs Hl]. destruct (H2 m id Hm Hs) as [Hru|?]; [|right; by apply D2].
    destruct (Hr id Hru) as [?|?]; [by left|right; by apply Hl]. }
  split; [|intros m0 id; rewrite D3; intros [= <-]; apply Hin].
  intros id Hid. rewrite (removed_some _ m' D3), D1. rewrite D1 in Hid. destruct (m' !! id) as [g|] eqn:Eg.
  - destruct (Hin id) as [?|?]; [by exists g|by left|by right; left].
  - right; right. apply elem_of_difference. split; [by apply elem_of_dom|by apply not_elem_of_dom].
Qed.

(** Switching the firewall off takes every filter down. *)
Lemma tracked_begin s : tracked s →
  leads (fwp FwpmTransactionBegin) s (λ ok s1, tracked s1 ∧
    (ok = true → m_activeRules s1 = m_activeRules s ∧ m_peerRules s1 = m_peerRules s ∧
                 installed (engine s1) = installed (engine s) ∧ pending (engine s1) = Some (installed (engine s)))).
Proof.
  intros Ht. split; [by apply keeps_begin|]. unfold fwp. pose proof (begin_law (engine s)) as H.
  destruct (FwpmTransactionBegin (engine s)) as [ok w]. cbn. intros ->. by destruct H as (H1 & _ & H3).
Qed.
Lemma tracked_commit s : tracked s →
  leads (fwp FwpmTransactionCommit0) s (λ ok s1, tracked s1 ∧
    (ok = true → pending (engine s1) = None ∧ installed (engine s1) = target (engine s) ∧ leftover (engine s1) = leftover (engine s))).
Proof.
  intros Ht. split; [by apply keeps_commit|]. unfold fwp. pose proof (commit_law (engine s)) as H. pose proof (commit_leftover (engine s)) as El.
  destruct (FwpmTransactionCommit0 (engine s)) as [ok w]. cbn. intros ->. destruct H. split_and!; [done..|]. set_solver.
Qed.
Lemma tracked_abort s (G : unit → WindowsFirewall W → Prop) : tracked s → (∀ s', tracked s' → G tt s') →
  leads (fwp_do FwpmTransactionAbort0) s G.
Proof. intros Ht H. apply H. by apply keeps_abort. Qed.
(** A transaction of deletions; what has become of the lists when it is committed. *)
Lemma tracked_delete s ids (forget : WindowsFirewall W → WindowsFirewall W) m (G : unit → WindowsFirewall W → Prop) :
  tracked s → pending (engine s) = Some m → (∀ s', engine (forget s') = engine s') →
  (∀ s' id, m_activeRules s' = m_activeRules s → m_peerRules s' = m_peerRules s → id ∈ rules s → id ∈ rules (forget s') ∨ id ∈ ids) →
  (∀ s', tracked s' → installed (engine s') = installed (engine s) → (∃ m', pending (engine s') = Some m' ∧
     ∀ id, is_Some (m' !! id) → (id ∈ rules s ∨ id ∈ leftover (engine s')) ∧ (id ∈ ids → id ∈ leftover (engine s'))) → G tt s') →
  leads (_ ← delete_filters ids; modify forget) s G.
Proof.
  intros Ht Hm Hf Hr HG. apply leads_bind. unfold leads at 1, delete_filters, fwp_do, modify. cbn [fst snd]. unfold leads. cbn [fst snd].
  set (s1 := mkWindowsFirewall _ _ _). destruct (deletions m ids (engine s) Hm) as (D1 & D2 & m' & D3 & D4). apply HG.
  - eapply (tracked_deletions s _ ids m); [done|done| |by rewrite Hf]. intros id. by apply Hr.
  - by rewrite Hf.
  - rewrite Hf. exists m'. split; [done|]. intros id Hid. destruct (D4 id Hid) as [Hs Hl]. split; [|done].
    destruct Ht as [_ H2]. destruct (H2 m id Hm Hs); [by left|right; by apply D2].
Qed.
Lemma all_taken_down s : tracked s →
  leads allowAllTraffic s (λ ok s', tracked s' ∧
    (ok = true → pending (engine s') = None ∧ rules s' = [] ∧ ∀ id, is_Some (installed (engine s') !! id) → id ∈ leftover (engine s'))).
Proof.
  intros Ht. unfold allowAllTraffic. apply leads_bind. eapply leads_mono; [by apply tracked_begin|]. intros [] s1 [Ht1 Hb]; cbn [negb].
  2: { apply leads_bind, tracked_abort; [done|]. intros. by apply leads_ret. }
  destruct (Hb eq_refl) as (_ & _ & _ & Epend). apply leads_bind. unfold leads at 1. cbn [get fst snd]. apply leads_bind.
  assert (∀ G : unit → WindowsFirewall W → Prop, leads (_ ← delete_filters ((m_peerRules s1).*2 ++ m_activeRules s1); modify (λ s, s)) s1 G →
    leads (delete_filters ((m_peerRules s1).*2 ++ m_activeRules s1)) s1 G) as Hid by done.
  apply Hid. eapply tracked_delete; [done|exact Epend|done|by intros s' id E1 E2; unfold rules; rewrite E1, E2; left|]. intros s2 Ht2 _ (m' & Em & Hin).
  apply leads_bind. eapply leads_mono; [by apply tracked_commit|]. intros [] s3 [Ht3 Hc]; cbn [negb].
  2: { apply leads_bind, tracked_abort; [done|]. intros. by apply leads_ret. }
  destruct (Hc eq_refl) as (C1 & C2 & C3). unfold target in C2. rewrite Em in C2. cbn in C2.
  apply leads_bind. unfold leads at 1. apply leads_ret. cbn.
  assert (∀ id, is_Some (installed (engine s3) !! id) → id ∈ leftover (engine s3)) as Hl.
  { intros id. rewrite C2, C3. intros Hid'. destruct (Hin id Hid') as [[Hr|?] Hl]; [|done]. apply Hl. unfold rules in Hr. set_solver. }
  split; [|by rewrite C1]. split; cbn; [intros id Hid'; right; left; by apply Hl|by rewrite C1].
Qed.
Lemma keeps_all_traffic : steps keeps allowAllTraffic.
Proof. intros s Ht. by apply all_taken_down. Qed.
Lemma peer_forgotten pubkey : steps keeps (disablePeerTraffic pubkey).
Proof.
  intros s Ht. unfold disablePeerTraffic.
  apply (leads_bind _ _ s (λ _, tracked)). eapply leads_mono; [by apply tracked_begin|]. intros [] s1 [Ht1 Hb]; cbn [negb].
  2: { apply leads_bind, tracked_abort; [done|]. intros. by apply leads_ret. }
  destruct (Hb eq_refl) as (_ & _ & _ & Epend). apply leads_bind. unfold leads at 1. cbn [get fst snd].
  set (forget := λ s : WindowsFirewall W, mkWindowsFirewall (m_activeRules s) (filter (λ r, r.1 ≠ pubkey) (m_peerRules s)) (engine s)).
  assert (∀ (k : M bool) (G : bool → WindowsFirewall W → Prop),
    leads (_ ← delete_filters (values pubkey (m_peerRules s1)); modify forget) s1 (λ _ s', leads k s' G) →
    leads (_ ← delete_filters (values pubkey (m_peerRules s1)); _ ← modify forget; k) s1 G) as Hassoc by done.
  apply Hassoc. eapply tracked_delete; [done|exact Epend|done| |].
  - intros s' id E1 E2. unfold rules, forget, values. cbn. rewrite E1, E2, !elem_of_app. intros [?|Hin]; [by left; left|].
    apply list_elem_of_fmap in Hin as ([peer x] & -> & Hin). destruct (decide (peer = pubkey)) as [->|Hne]; [right|left; right];
      apply list_elem_of_fmap; exists (peer, x) || exists (pubkey, x); (split; [done|]); by apply list_elem_of_filter.
  - intros s2 Ht2 _ _. apply leads_bind. eapply leads_mono; [by apply tracked_commit|]. intros [] s3 [Ht3 _]; cbn [negb].
    2: { apply leads_bind, tracked_abort; [done|]. intros. by apply leads_ret. }
    by apply leads_ret.
Qed.

(** *** The kill switch the operations end *)

(** [KillSwitch::disableKillSwitch]: with the strict setting it sets the
    firewall up again, which may end it again. *)
Fixpoint disableKillSwitch (strict : bool) (fuel : nat) : M unit :=
  if strict then match fuel with O => mret tt | S fuel => discard (enableInterface (disableKillSwitch strict fuel) (-1)) end
  else discard allowAllTraffic.

(** The calls of the service. *)
Inductive firewall_call :=
  | CallEnableInterface (vpnAdapterIndex : Z)
  | CallEnableLanBypass (ranges : list IPAddress)
  | CallAllowTrafficRange (ranges : list string)
  | CallEnablePeerTraffic (config : InterfaceConfig)
  | CallDisablePeerTraffic (pubkey : string)
  | CallAllowAllTraffic.
Definition run_firewall_call (strict : bool) (fuel : nat) (c : firewall_call) : M bool :=
  let off := disableKillSwitch strict fuel in
  match c with
  | CallEnableInterface vpnAdapterIndex => enableInterface off vpnAdapterIndex
  | CallEnableLanBypass ranges => enableLanBypass off ranges
  | CallAllowTrafficRange ranges => allowTrafficRange off ranges
  | CallEnablePeerTraffic config => enablePeerTraffic off config
  | CallDisablePeerTraffic pubkey => disablePeerTraffic pubkey
  | CallAllowAllTraffic => allowAllTraffic
  end.

Lemma keeps_FW_OK off rule k : steps keeps off → steps keeps rule → steps keeps k → steps keeps (FW_OK off rule k).
Proof. intros H1 H2 H3. unfold FW_OK. keeps_tac. Qed.
Lemma keeps_transaction off body : steps keeps off → steps keeps body → steps keeps (transaction off body).
Proof. intros H1 H2. unfold transaction. keeps_tac. Qed.
Lemma keeps_loopback w : steps keeps (allowLoopbackTraffic w).
Proof.
  unfold allowLoopbackTraffic. apply steps_bind; [typeclasses eauto|apply keeps_same; [apply interfaces_law|apply interfaces_leftover]|].
  intros. apply keeps_all. intros. apply keeps_filters.
Qed.
Lemma keeps_app path w : steps keeps (allowTrafficForAppOnAll path w).
Proof.
  unfold allowTrafficForAppOnAll. apply steps_bind; [typeclasses eauto|apply keeps_same; intros; [apply app_law|apply app_leftover]|].
  intros [appID|]; [apply keeps_filters|by intros s ?].
Qed.
Lemma keeps_interface off vpnAdapterIndex : steps keeps off → steps keeps (enableInterface off vpnAdapterIndex).
Proof.
  intros H. unfold enableInterface. cbv zeta.
  destruct (_ <? _); repeat first [apply keeps_filters|apply keeps_loopback|apply keeps_path; intros ?; apply keeps_app
    |apply keeps_FW_OK; [exact H| |]|by intros s ?|apply keeps_and].
Qed.
Lemma keeps_dns config dns : steps keeps (allow_dns config dns).
Proof. unfold allow_dns. repeat first [apply keeps_filters|steps_step|apply keeps_and]. Qed.
Lemma keeps_disable strict fuel : steps keeps (disableKillSwitch strict fuel).
Proof.
  induction fuel as [|fuel IH]; cbn [disableKillSwitch]; destruct strict; try (apply steps_discard; [typeclasses eauto|]);
    first [apply keeps_all_traffic|by apply keeps_interface|by intros s ?].
Qed.
Lemma keeps_firewall_call strict fuel c : steps keeps (run_firewall_call strict fuel c).
Proof.
  pose proof (keeps_disable strict fuel) as H. destruct c; cbn [run_firewall_call].
  - by apply keeps_interface.
  - apply keeps_transaction, keeps_all; [done|]. intros. apply keeps_filters.
  - apply keeps_transaction, keeps_all; [done|]. intros. apply keeps_filters.
  - apply keeps_transaction; [done|].
    repeat first [apply keeps_filters|apply keeps_dns|apply keeps_all; intros|apply keeps_and].
  - apply peer_forgotten.
  - apply keeps_all_traffic.
Qed.

(** C35. The firewall loses none of its filters: whatever calls are made, in whatever
    order, and whatever the engine refused on the way, every filter in force is on
    the firewall's lists, or is one that the engine was asked to delete and did
    not, or one that the transaction under way removes; and when the firewall is
    switched off successfully its lists are empty and no filter is in force but
    those the engine did not delete. *)
Theorem filters_tracked (strict : bool) (fuel : nat) (calls : list firewall_call) (s : WindowsFirewall W) :
  clear s →
  let s' := (for_each calls (λ c, discard (run_firewall_call strict fuel c)) s).2 in
  tracked s' ∧
  leads allowAllTraffic s' (λ ok s'', ok = true →
    rules s'' = [] ∧ pending (engine s'') = None ∧ ∀ id, is_Some (installed (engine s'') !! id) → id ∈ leftover (engine s'')).
Proof.
  intros [Hp Hi]. cbv zeta. set (s' := (for_each _ _ s).2).
  assert (tracked s) as Ht by (split; [intros id; rewrite Hi, lookup_empty; by intros []|by rewrite Hp]).
  assert (tracked s') as Ht'.
  { assert (steps keeps (for_each calls (λ c, discard (run_firewall_call strict fuel c)))) as Hk; [|by apply Hk].
    apply steps_for_each; [typeclasses eauto|]. intros c. apply steps_discard; [typeclasses eauto|]. apply keeps_firewall_call. }
  split; [done|]. eapply leads_mono; [by apply all_taken_down|]. intros ok s'' [_ H] Hok. by destruct (H Hok) as (H1 & H2 & H3).
Qed.
End tracking.

(** *** An engine that refuses nothing *)
Class WfpAccepts (W : Type) {F : Wfp W} {V : WfpView W} : Prop := {
  accepts_begin w : pending w = None → (FwpmTransactionBegin w).1 = true;
  accepts_commit w : is_Some (pending w) → (FwpmTransactionCommit0 w).1 = true;
  accepts_filter f w : is_Some (FwpmFilterAdd0 f w).1;
  accepts_app path w : is_Some (FwpmGetAppIdFromFileName0 path w).1;
  accepts_deletion id w : is_Some (target w !! id) → (FwpmFilterDeleteById0 id w).1 = true;
}.
Section accepted.
Context {W : Type} {F : Wfp W} {V : WfpView W} {WL : WfpLaws W} {A : WfpAccepts W} {Q : Qt}.
Abbreviation M := (stM (WindowsFirewall W)).

(** Within a transaction, and outside of one. *)
Definition grants (m : M bool) : Prop := ∀ s, is_Some (pending (engine s)) →
  leads m s (λ ok s', ok = true ∧ is_Some (pending (engine s'))).
Definition succeeds (m : M bool) : Prop := ∀ s, pending (engine s) = None →
  leads m s (λ ok s', ok = true ∧ pending (engine s') = None).

Lemma grants_done : grants (mret true).
Proof. intros s Hs. by apply leads_ret. Qed.
Lemma grants_filter peer f : grants (enableFilter peer f).
Proof.
  intros s [m Hm]. unfold enableFilter. apply leads_bind, leads_fwp. destruct (accepts_filter f (engine s)) as [id E]. rewrite E.
  pose proof (add_law f (engine s)) as H. destruct (FwpmFilterAdd0 f (engine s)) as [id' w]. cbn [fst snd] in *. subst id'.
  rewrite Hm in H. destruct H as (_ & _ & Hw). apply leads_bind. unfold leads at 1, add_rule, modify. cbn [fst snd]. apply leads_ret.
  split; [done|]. destruct (String.eqb peer ""); cbn; rewrite Hw; by eexists.
Qed.
Lemma grants_and m k : grants m → grants k → grants (and_also m k).
Proof.
  intros Hm Hk s Hs. unfold and_also. apply leads_bind. eapply leads_mono; [by apply Hm|]. intros ok s' [-> Hs']. cbn [negb]. by apply Hk.
Qed.
Lemma grants_filters peer fs : grants (enableFilters peer fs).
Proof.
  induction fs as [|f fs IH]; [apply grants_done|].
  change (grants (and_also (enableFilter peer f) (enableFilters peer fs))). apply grants_and; [apply grants_filter|done].
Qed.
Lemma grants_all {X} (l : list X) f : (∀ x, grants (f x)) → grants (all_of l f).
Proof. intros Hf. induction l as [|x l IH]; [apply grants_done|]. by apply grants_and. Qed.
Lemma grants_after {X} (f : W → X * W) (k : X → M bool) :
  (∀ w, same_view w (f w).2) → (∀ w, grants (k (f w).1)) → grants (fwp f ≫= k).
Proof.
  intros Hf Hk s Hs. apply leads_bind, leads_fwp. apply Hk. cbn. destruct (Hf (engine s)) as [_ E]. by rewrite E.
Qed.
Lemma grants_app path w : grants (allowTrafficForAppOnAll path w).
Proof.
  apply grants_after; [intros; apply app_law|]. intros w'. destruct (accepts_app path w') as [appID ->]. apply grants_filters.
Qed.
Lemma grants_loopback w : grants (allowLoopbackTraffic w).
Proof. apply grants_after; [intros; apply interfaces_law|]. intros w'. apply grants_all. intros. apply grants_filters. Qed.
Lemma grants_path (k : string → M bool) : (∀ path, grants (k path)) → grants (getCurrentPath ≫= k).
Proof.
  intros Hk s Hs. apply leads_bind. unfold getCurrentPath. apply leads_pair, leads_fwp.
  pose proof (module_law 2048 (engine s)) as [_ E1]. destruct (GetModuleFileNameA 2048 (engine s)) as [[ok buffer] w]. cbn [fst snd] in *.
  apply leads_pair. destruct (ok =? ERROR_INSUFFICIENT_BUFFER).
  - apply leads_fwp. cbn [engine]. pose proof (module_law 4096 w) as [_ E2]. destruct (GetModuleFileNameA 4096 w) as [[ok' buffer'] w'].
    cbn [fst snd] in *. apply leads_ret. apply Hk. cbn. by rewrite E2, E1.
  - apply leads_ret, leads_ret. apply Hk. cbn. by rewrite E1.
Qed.
Context (disableKillSwitch : M unit).
Lemma begin_accepted s (G : bool → WindowsFirewall W → Prop) : pending (engine s) = None →
  (∀ s', is_Some (pending (engine s')) → G true s') → leads (fwp FwpmTransactionBegin) s G.
Proof.
  intros Hs HG. apply leads_fwp. pose proof (accepts_begin _ Hs) as E. pose proof (begin_law (engine s)) as H.
  destruct (FwpmTransactionBegin (engine s)) as [ok w]. cbn [fst snd] in *. subst ok. destruct H as (_ & _ & H). apply HG. cbn. rewrite H. by eexists.
Qed.
Lemma commit_accepted s (G : bool → WindowsFirewall W → Prop) : is_Some (pending (engine s)) →
  (∀ s', pending (engine s') = None → G true s') → leads (fwp FwpmTransactionCommit0) s G.
Proof.
  intros Hs HG. apply leads_fwp. pose proof (accepts_commit _ Hs) as E. pose proof (commit_law (engine s)) as H.
  destruct (FwpmTransactionCommit0 (engine s)) as [ok w]. cbn [fst snd] in *. subst ok. destruct H as [_ H]. by apply HG.
Qed.
Lemma succeeds_FW_OK rule k : grants rule → succeeds k → succeeds (FW_OK disableKillSwitch rule k).
Proof.
  intros Hr Hk s Hs. unfold FW_OK. apply leads_bind, begin_accepted; [done|]. intros s1 H1. cbn [negb]. apply leads_bind.
  eapply leads_mono; [by apply Hr|]. intros ok s2 [-> H2]. cbn [negb]. apply leads_bind, commit_accepted; [done|]. intros s3 H3. by apply Hk.
Qed.
Lemma succeeds_transaction body : grants body → succeeds (transaction disableKillSwitch body).
Proof.
  intros Hr s Hs. unfold transaction. apply leads_bind, begin_accepted; [done|]. intros s1 H1. cbn [negb]. apply leads_bind.
  eapply leads_mono; [by apply Hr|]. intros ok s2 [-> H2]. apply leads_bind, commit_accepted; [done|]. intros s3 H3. by apply leads_ret.
Qed.
Lemma succeeds_interface vpnAdapterIndex : 0 ≤ vpnAdapterIndex → succeeds (enableInterface disableKillSwitch vpnAdapterIndex).
Proof.
  intros Hi. unfold enableInterface. cbv zeta. assert ((vpnAdapterIndex <? 0) = false) as -> by (apply Z.ltb_ge; lia).
  repeat (apply succeeds_FW_OK; [first [apply grants_filters|apply grants_loopback|apply grants_path; intros; apply grants_app]|]).
  intros s Hs. by apply leads_ret.
Qed.
Lemma grants_dns config dns : grants (allow_dns config dns).
Proof.
  unfold allow_dns. destruct (String.eqb (str dns) ""); [apply grants_done|]. apply grants_and; [apply grants_filters|].
  destruct (String.eqb _ _); [apply grants_filters|apply grants_done].
Qed.
Lemma succeeds_peer config : succeeds (enablePeerTraffic disableKillSwitch config).
Proof.
  apply succeeds_transaction. repeat first [apply grants_filters|apply grants_dns|apply grants_all; intros|apply grants_and].
Qed.
(** Every filter in force is on the lists. *)
Definition listed (s : WindowsFirewall W) : Prop := ∀ id, is_Some (installed (engine s) !! id) → id ∈ m_activeRules s ++ (m_peerRules s).*2.
Lemma all_deleted m ids w : pending w = Some m → ∃ m', pending (foldl (λ w id, (FwpmFilterDeleteById0 id w).2) w ids) = Some m' ∧
  ∀ id, is_Some (m' !! id) → is_Some (m !! id) ∧ id ∉ ids.
Proof.
  revert m w. induction ids as [|x ids IH]; intros m w Hm.
  - exists m. split; [done|]. intros id Hid. split; [done|apply not_elem_of_nil].
  - cbn [foldl]. pose proof (delete_law x w) as H. pose proof (accepts_deletion x w) as Ha. unfold target in Ha. rewrite Hm in Ha. cbn in Ha.
    destruct (FwpmFilterDeleteById0 x w) as [ok w1]; cbn [fst snd] in *.
    assert (∃ m1, pending w1 = Some m1 ∧ ∀ id, is_Some (m1 !! id) → is_Some (m !! id) ∧ id ≠ x) as (m1 & Hm1 & H1).
    { destruct ok; rewrite ?Hm in H.
      - exists (delete x m). split; [apply H|]. intros id [g Hg]. apply lookup_delete_Some in Hg as [Hne Hg]. split; [by exists g|done].
      - exists m. destruct H as [_ ->]. split; [done|]. intros id Hid. split; [done|]. intros ->. by specialize (Ha Hid). }
    destruct (IH m1 w1 Hm1) as (m' & E & Hin). exists m'. split; [done|]. intros id Hid. destruct (Hin id Hid) as [H2 H3].
    destruct (H1 id H2) as [H4 H5]. split; [done|]. by apply not_elem_of_cons.
Qed.
Lemma succeeds_all_traffic s : listed s → pending (engine s) = None → leads allowAllTraffic s (λ _ s', clear s').
Proof.
  intros Hl Hs. unfold allowAllTraffic. apply leads_bind, leads_fwp. pose proof (accepts_begin _ Hs) as E. pose proof (begin_law (engine s)) as H.
  destruct (FwpmTransactionBegin (engine s)) as [ok w]. cbn [fst snd] in *. subst ok. destruct H as (Ei & _ & Ep). cbn [negb].
  apply leads_bind. unfold leads at 1. cbn [get fst snd m_peerRules m_activeRules]. apply leads_bind.
  destruct (all_deleted (installed (engine s)) ((m_peerRules s).*2 ++ m_activeRules s) w Ep) as (m' & D1 & D2).
  unfold leads at 1, delete_filters, fwp_do, modify. cbn [fst snd engine m_activeRules m_peerRules].
  set (w' := foldl _ w _) in *. assert (m' = ∅) as ->.
  { apply map_eq. intros id. rewrite lookup_empty. destruct (m' !! id) eqn:Em; [|done]. destruct (D2 id) as [Hin Hout]; [by eexists|].
    specialize (Hl id Hin). set_solver. }
  apply leads_bind, leads_fwp. cbn [engine]. pose proof (accepts_commit w') as Ec. pose proof (commit_law w') as H. rewrite D1 in Ec.
  specialize (Ec ltac:(by eexists)). destruct (FwpmTransactionCommit0 w') as [ok w'']. cbn [fst snd] in *. subst ok. destruct H as [H1 H2]. cbn [negb].
  apply leads_bind. unfold leads at 1. apply leads_ret. split; cbn; [done|]. rewrite H1. unfold target. by rewrite D1.
Qed.
End accepted.

(** ** A filter engine *)
Module rack.
Record world := mkWorld { filters : gmap Z wfp_filter; txn : option (gmap Z wfp_filter); kept : gset Z }.
Definition free_id (w : world) : Z := fresh (dom (default (filters w) (txn w))).
#[export] Instance view : WfpView world := {| installed := filters; pending := txn |}.
(** The end of a transaction, and the filters it did not remove. *)
Definition ended (fs : gmap Z wfp_filter) (lost : gset Z) (w : world) : world := mkWorld fs None (kept w ∪ lost).
#[export] Instance wfp : Wfp world := {|
  FwpmEngineOpen0 _ w := (true, w); FwpmEngineClose0 w := w;
  FwpmSubLayerGetByKey0 _ w := (LookupMissing, w); FwpmSubLayerAdd0 _ _ w := (true, w);
  FwpmTransactionBegin w := match txn w with None => (true, mkWorld (filters w) (Some (filters w)) (kept w)) | Some _ => (false, w) end;
  FwpmTransactionCommit0 w := match txn w with Some m => (true, ended m ∅ w) | None => (false, w) end;
  FwpmTransactionAbort0 w := ended (filters w) (removed w) w;
  FwpmFilterAdd0 f w := (Some (free_id w), match txn w with
    | Some m => mkWorld (filters w) (Some (<[free_id w := f]> m)) (kept w)
    | None => mkWorld (<[free_id w := f]> (filters w)) None (kept w)
    end);
  FwpmFilterDeleteById0 id w :=
    match target w !! id with
    | None => (false, w)
    | Some _ => (true, match txn w with
        | Some m => mkWorld (filters w) (Some (delete id m)) (kept w)
        | None => mkWorld (delete id (filters w)) None (kept w)
        end)
    end;
  FwpmGetAppIdFromFileName0 path w := (Some "service", w); GetModuleFileNameA _ w := (10, "service.exe", w);
  loopback_interfaces w := ([1], w);
|}.
#[export] Instance laws : WfpLaws world.
Proof.
  split; cbn.
  - intros w. by destruct (txn w) eqn:E; cbn; rewrite ?E.
  - intros w. unfold target. cbn. destruct (txn w) eqn:E; cbn; rewrite ?E; auto.
  - done.
  - intros f w. split; [|by destruct (txn w)]. apply (not_elem_of_dom (D := gset Z)). exact (is_fresh (dom (default (filters w) (txn w)) : gset Z)).
  - intros id w. cbn. destruct (default (filters w) (txn w) !! id); [by destruct (txn w)|done].
  - by intros.
  - by intros.
  - by intros.
Qed.
#[export, refine] Instance leftovers : Leftovers world := {| leftover := kept |}.
Proof.
  - intros w. cbn. by destruct (txn w).
  - intros w. cbn. destruct (txn w) eqn:E; cbn; [done|]. unfold removed. cbn. rewrite E. set_solver.
  - done.
  - intros f w. cbn. by destruct (txn w).
  - intros id w. cbn. unfold target; cbn. destruct (default (filters w) (txn w) !! id); [by destruct (txn w)|done].
  - done.
  - done.
  - done.
Defined.
Lemma steady_rack : steady [1] "service".
Proof. split; [done|]. by intros path appID w [= <-]. Qed.
Definition off : WindowsFirewall world := mkWindowsFirewall [] [] (mkWorld ∅ None ∅).
Lemma off_clear : clear off.
Proof. done. Qed.
End rack.
Import rack.
#[local] Existing Instance plain_qt.

Definition full_tunnel : InterfaceConfig :=
  let c := new_config SingleHop true in
  mkInterfaceConfig (m_hopType c) (m_privateKey c) (Some "10.8.1.2/32") (m_deviceIpv6Address c)
    (Some "10.8.1.1") (m_serverIpv6Gateway c) (Some "key") (Some "192.0.2.7") (m_serverPskKey c) (m_serverIpv6AddrIn c)
    (Some "10.8.1.1") (m_secondaryDnsServer c) (m_serverPort c) (m_deviceMTU c) (m_persistentKeepalive c)
    [mkIPAddress (HostV4 0) 0; mkIPAddress (HostV6 (replicate 16 0)) 0] ["192.0.2.7"] (m_vpnDisabledApps c) []
    (m_killSwitchEnabled c) (m_junkPacketCount c) (m_junkPacketMinSize c) (m_junkPacketMaxSize c)
    (m_initPacketJunkSize c) (m_responsePacketJunkSize c) (m_cookieReplyPacketJunkSize c)
    (m_transportPacketJunkSize c) (m_initPacketMagicHeader c) (m_responsePacketMagicHeader c)
    (m_underloadPacketMagicHeader c) (m_transportPacketMagicHeader c) (m_specialJunk c)
    (m_headerProtectionKey c) (m_contentPaddingAddition c) (m_rekeyAfterTime c) (m_rekeyTimeout c)
    (m_rejectAfterTime c) (m_keepaliveTimeout c) (m_maxHandshakeAttempts c).
(** A browser on the Wi-Fi adapter, to 198.51.100.1. *)
Definition browser : connection := mkConnection CONNECT_V4 "browser" 5 IPPROTO_TCP 50000 443 (HostV4 3325256705) false.

Lemma windows_no_leak_witness :
  let '(ok, s') := and_also (enableInterface (disableKillSwitch true 3) 9) (enablePeerTraffic (disableKillSwitch true 3) full_tunnel) off in
  ok = true ∧ blocked (in_force s') browser.
Proof.
  pose proof (windows_no_leak [1] "service" steady_rack (disableKillSwitch true 3) 9 full_tunnel off ltac:(lia) off_clear) as H.
  unfold leads in H. assert ((and_also (enableInterface (disableKillSwitch true 3) 9) (enablePeerTraffic (disableKillSwitch true 3) full_tunnel) off).1 = true)
    as Hok by (vm_compute; reflexivity).
  destruct (and_also _ _ off) as [ok s']. cbn [fst snd] in *. split; [exact Hok|]. destruct (H Hok) as [_ Hp].
  assert (of_family browser) as Hf by (apply (bool_decide_unpack _); vm_compute; exact Logic.I).
  apply (Hp browser Hf); [|left; exists (mkIPAddress (HostV4 0) 0); split; [left|vm_compute; reflexivity]].
  split; [split; [exact Hf|intros [E _]; discriminate|intros Hin; apply (bool_decide_pack _) in Hin; exact Hin|intros [E _]; discriminate]
    |discriminate|intros [[_ E] _]; discriminate|].
  intros i Hin. apply elem_of_cons in Hin as [->|Hin]; [|by apply not_elem_of_nil in Hin]. intros E. vm_compute in E. discriminate.
Defined.
Lemma windows_lockdown_witness :
  let '(ok, s') := enableInterface (disableKillSwitch true 3) (-1) off in ok = true ∧ blocked (in_force s') browser.
Proof.
  pose proof (windows_lockdown [1] "service" steady_rack (disableKillSwitch true 3) off eq_refl eq_refl off_clear) as H.
  unfold leads in H. assert ((enableInterface (disableKillSwitch true 3) (-1) off).1 = true) as Hok by (vm_compute; reflexivity).
  destruct (enableInterface _ _ off) as [ok s']. cbn [fst snd] in *. split; [exact Hok|]. apply (H Hok); [cbn; lia|].
  split; [apply (bool_decide_unpack _); vm_compute; exact Logic.I|intros [E _]; discriminate
    |intros Hin; apply (bool_decide_pack _) in Hin; exact Hin|intros [E _]; discriminate].
Defined.
Lemma filters_tracked_witness :
  let calls := [CallEnableInterface 9; CallEnablePeerTraffic full_tunnel; CallDisablePeerTraffic "key"] in
  let s' := (for_each calls (λ c, discard (run_firewall_call true 3 c)) off).2 in
  rules s' ≠ [] ∧ tracked s' ∧ (allowAllTraffic s').1 = true ∧ rules (allowAllTraffic s').2 = [].
Proof.
  pose proof (filters_tracked true 3 [CallEnableInterface 9; CallEnablePeerTraffic full_tunnel; CallDisablePeerTraffic "key"] off off_clear) as [Ht Hx].
  cbv zeta. unfold leads in Hx. assert ((allowAllTraffic (for_each [CallEnableInterface 9; CallEnablePeerTraffic full_tunnel; CallDisablePeerTraffic "key"]
    (λ c, discard (run_firewall_call true 3 c)) off).2).1 = true) as Hok by (vm_compute; reflexivity).
  split; [vm_compute; discriminate|]. split; [exact Ht|]. split; [exact Hok|]. apply (Hx Hok).
Defined.
