(* ===== verification/LinuxRouteMonitor.v ===== *)
(** * LinuxRouteMonitor: routes as netlink messages

    Models [client/platforms/linux/daemon/linuxroutemonitor.cpp]: the bytes of
    the rtnetlink request of each route operation, on a little-endian machine,
    built in the fixed buffer the code declares.  The socket, the interface
    index, the default gateway and [inet_pton] are an interface ([Netlink]).
    The reference is a reader of netlink messages ([parse_message]). *)
From S2P Require Import Prelude Text Json IpAddress InterfaceConfig Qt.

(** ** Constants of the kernel's headers *)
Definition RTM_NEWROUTE : Z := 24.
Definition RTM_DELROUTE : Z := 25.
Definition NLM_F_REQUEST : Z := 1.
Definition NLM_F_ACK : Z := 4.
Definition NLM_F_REPLACE : Z := 256.
Definition NLM_F_CREATE : Z := 1024.
Definition AF_INET : Z := 2.
Definition AF_INET6 : Z := 10.
Definition RTN_UNICAST : Z := 1.
Definition RTN_THROW : Z := 9.
Definition RTA_DST : Z := 1.
Definition RTA_OIF : Z := 4.
Definition RTA_GATEWAY : Z := 5.
Definition RTA_PRIORITY : Z := 6.
Definition RTPROT_BOOT : Z := 3.
Definition RT_SCOPE_UNIVERSE : Z := 0.
Definition RT_TABLE_UNSPEC : Z := 0.

Definition align4 (n : Z) : Z := Z.land (n + 3) (Z.lnot 3).
Definition NLMSG_HDRLEN : Z := 16.
Definition sizeof_rtmsg : Z := 12.
Definition RTA_LENGTH (n : Z) : Z := 4 + n.
Definition RTA_SPACE (n : Z) : Z := align4 (RTA_LENGTH n).
Definition NLMSG_LENGTH (n : Z) : Z := n + NLMSG_HDRLEN.
Definition NLMSG_SPACE (n : Z) : Z := align4 (NLMSG_LENGTH n).

(** An unsigned number of [n] bytes in memory. *)
Fixpoint le (n : nat) (v : Z) : list Z :=
  match n with
  | O => []
  | S n => v mod 256 :: le n (v / 256)
  end.

(** ** The environment *)
Class Netlink (W : Type) := {
  (** [sendto] sends the whole message *)
  nl_send : list Z → W → bool * W;
  if_nametoindex : W → Z;
  (** [NetworkUtilities::getGatewayAndIface().first] *)
  default_gateway : W → string;
  getpid : Z;
  (** [inet_pton] of the two families, in network byte order *)
  inet_pton4 : string → option (list Z);
  inet_pton6 : string → option (list Z);
  (** what an [in_addr] holds before it is written *)
  uninitialized_in_addr : list Z;
}.

Record RouteMonitor (W : Type) := mkRouteMonitor { m_nlseq : Z; rt_world : W }.
Arguments mkRouteMonitor {W}.
Arguments m_nlseq {W}.
Arguments rt_world {W}.

(** ** Messages *)
Record wg_allowedip := mkAllowedIp { family : Z; ip_bytes : list Z; cidr : Z }.

(** A message under construction: the header fields, and the whole buffer
    behind the two headers. *)
Record nlmsg := mkNlmsg {
  nlmsg_len : Z;
  nlmsg_type : Z;
  nlmsg_flags : Z;
  nlmsg_seq : Z;
  nlmsg_pid : Z;
  rtm_family : Z;
  rtm_dst_len : Z;
  rtm_table : Z;
  rtm_protocol : Z;
  rtm_scope : Z;
  rtm_type : Z;
  attr_area : list Z;
}.

Definition rtm_max_size : Z := sizeof_rtmsg + 2 * RTA_SPACE 4 + RTA_SPACE 16.
Definition sizeof_buf : Z := NLMSG_SPACE rtm_max_size.
Definition headers : Z := NLMSG_LENGTH sizeof_rtmsg.

(** Overwrite bytes of a buffer. *)
Definition write_at (off : nat) (data buf : list Z) : list Z :=
  take off buf ++ data ++ drop (off + length data) buf.

Definition nlmsg_append_attr (m : nlmsg) (maxlen attrtype : Z) (attrdata : list Z) : nlmsg :=
  let attrlen := Z.of_nat (length attrdata) in
  let newlen := align4 (nlmsg_len m) + RTA_SPACE attrlen in
  if newlen <=? maxlen then
    mkNlmsg newlen (nlmsg_type m) (nlmsg_flags m) (nlmsg_seq m) (nlmsg_pid m) (rtm_family m) (rtm_dst_len m)
      (rtm_table m) (rtm_protocol m) (rtm_scope m) (rtm_type m)
      (write_at (Z.to_nat (align4 (nlmsg_len m) - headers))
         (le 2 (RTA_LENGTH attrlen) ++ le 2 attrtype ++ attrdata) (attr_area m))
  else m.

Definition nlmsg_append_attr32 (m : nlmsg) (maxlen attrtype value : Z) : nlmsg :=
  nlmsg_append_attr m maxlen attrtype (le 4 value).

Definition set_rtm_type (m : nlmsg) (type : Z) : nlmsg :=
  mkNlmsg (nlmsg_len m) (nlmsg_type m) (nlmsg_flags m) (nlmsg_seq m) (nlmsg_pid m) (rtm_family m) (rtm_dst_len m)
    (rtm_table m) (rtm_protocol m) (rtm_scope m) type (attr_area m).

(** The bytes handed to the socket: [nlmsg_len] bytes of the buffer. *)
Definition message_bytes (m : nlmsg) : list Z :=
  take (Z.to_nat (nlmsg_len m))
    (le 4 (nlmsg_len m) ++ le 2 (nlmsg_type m) ++ le 2 (nlmsg_flags m) ++ le 4 (nlmsg_seq m) ++ le 4 (nlmsg_pid m) ++
     le 1 (rtm_family m) ++ le 1 (rtm_dst_len m) ++ [0; 0] ++ le 1 (rtm_table m) ++ le 1 (rtm_protocol m) ++
     le 1 (rtm_scope m) ++ le 1 (rtm_type m) ++ le 4 0 ++ attr_area m).

(** ** Operations *)
Section operations.
Context {W : Type} {Q : Qt} {N : Netlink W}.
#[local] Abbreviation R := (stM (RouteMonitor W)).

Definition buildAllowedIp (prefix : IPAddress) : option wg_allowedip :=
  let addrString := host_toString (m_address prefix) in
  match type prefix with
  | IPv4Protocol => (λ b, mkAllowedIp AF_INET b (prefixLength prefix mod 256)) <$> inet_pton4 addrString
  | IPv6Protocol => (λ b, mkAllowedIp AF_INET6 b (prefixLength prefix mod 256)) <$> inet_pton6 addrString
  | _ => None
  end.

(** The zeroed buffer with its headers. *)
Definition new_message (action flags type seq : Z) (ip : wg_allowedip) : nlmsg :=
  mkNlmsg headers action flags seq getpid (family ip) (cidr ip) RT_TABLE_UNSPEC RTPROT_BOOT RT_SCOPE_UNIVERSE type
    (replicate (Z.to_nat (sizeof_buf - headers)) 0).

(** The request of one route; [None] when the interface or the gateway is
    missing. *)
Definition route_message (action flags type seq index : Z) (gateway : string) (ip : wg_allowedip) : option nlmsg :=
  let m := nlmsg_append_attr (new_message action flags type seq ip) sizeof_buf RTA_DST (ip_bytes ip) in
  if type =? RTN_UNICAST then
    if index <=? 0 then None
    else Some (nlmsg_append_attr32 (nlmsg_append_attr32 m sizeof_buf RTA_OIF index) sizeof_buf RTA_PRIORITY 1)
  else if type =? RTN_THROW then
    if String.eqb gateway "" then None
    else
      let ip4 := default uninitialized_in_addr (inet_pton4 gateway) in
      Some (set_rtm_type
        (nlmsg_append_attr32 (nlmsg_append_attr m sizeof_buf RTA_GATEWAY ip4) sizeof_buf RTA_PRIORITY 0) RTN_UNICAST)
  else Some m.

Definition rtmSendRoute (action flags type : Z) (prefix : IPAddress) : R bool := λ s,
  match buildAllowedIp prefix with
  | None => (false, s)
  | Some ip =>
      let w := rt_world s in
      let seq := m_nlseq s in
      match route_message action flags type seq (if_nametoindex w) (default_gateway w) ip with
      | None => (false, mkRouteMonitor (seq + 1) w)
      | Some m => let '(ok, w') := nl_send (message_bytes m) w in (ok, mkRouteMonitor (seq + 1) w')
      end
  end.

Definition insert_flags : Z := Z.lor (Z.lor (Z.lor NLM_F_REQUEST NLM_F_CREATE) NLM_F_REPLACE) NLM_F_ACK.
Definition delete_flags : Z := Z.lor NLM_F_REQUEST NLM_F_ACK.

Definition insertRoute (prefix : IPAddress) : R bool :=
  rtmSendRoute RTM_NEWROUTE insert_flags RTN_UNICAST prefix.
Definition deleteRoute (prefix : IPAddress) : R bool :=
  rtmSendRoute RTM_DELROUTE delete_flags RTN_UNICAST prefix.
Definition addExclusionRoute (prefix : IPAddress) : R bool :=
  rtmSendRoute RTM_NEWROUTE insert_flags RTN_THROW prefix.
Definition deleteExclusionRoute (prefix : IPAddress) : R bool :=
  rtmSendRoute RTM_DELROUTE delete_flags RTN_THROW prefix.
End operations.

(** ** Reading a message back *)
Fixpoint le_num (l : list Z) : Z :=
  match l with
  | [] => 0
  | b :: l => b + 256 * le_num l
  end.

Definition field (off n : nat) (l : list Z) : Z := le_num (take n (drop off l)).

(** The attributes, as the kernel walks them: [RTA_OK], then [RTA_NEXT]. *)
Fixpoint parse_attrs (fuel : nat) (l : list Z) : option (list (Z * list Z)) :=
  match fuel with
  | O => None
  | S fuel =>
      match l with
      | [] => Some []
      | _ =>
          let len := field 0 2 l in
          if (len <? 4) || (Z.of_nat (length l) <? len) then None
          else (λ rest, (field 2 2 l, take (Z.to_nat (len - 4)) (drop 4 l)) :: rest) <$>
                 parse_attrs fuel (drop (Z.to_nat (align4 len)) l)
      end
  end.

Record route_request := mkRouteRequest {
  rq_type : Z;
  rq_flags : Z;
  rq_seq : Z;
  rq_pid : Z;
  rq_family : Z;
  rq_dst_len : Z;
  rq_table : Z;
  rq_protocol : Z;
  rq_scope : Z;
  rq_route_type : Z;
  rq_attrs : list (Z * list Z);
}.

(** A message whose length field is its length. *)
Definition parse_message (l : list Z) : option route_request :=
  if (Z.of_nat (length l) <? headers) || negb (field 0 4 l =? Z.of_nat (length l)) then None
  else mkRouteRequest (field 4 2 l) (field 6 2 l) (field 8 4 l) (field 12 4 l) (field 16 1 l) (field 17 1 l)
         (field 20 1 l) (field 21 1 l) (field 22 1 l) (field 23 1 l) <$> parse_attrs 10 (drop 28 l).

Lemma le_num_le n v : le_num (le n v) = v mod 256 ^ Z.of_nat n.
Proof.
  revert v. induction n as [|n IH]; intros v; [by rewrite Z.mod_1_r|].
  cbn [le le_num]. rewrite IH, Nat2Z.inj_succ, Z.pow_succ_r by lia.
  rewrite Z.rem_mul_r by (try apply Z.pow_nonzero; lia). done.
Qed.

Lemma length_le n v : length (le n v) = n.
Proof. revert v. induction n; intros; cbn; auto. Qed.

(** The headers read back, whatever the attributes. *)
Lemma parse_message_bytes m :
  length (attr_area m) = 36%nat → 28 ≤ nlmsg_len m ≤ 64 →
  parse_message (message_bytes m) =
  mkRouteRequest (nlmsg_type m mod 2 ^ 16) (nlmsg_flags m mod 2 ^ 16) (nlmsg_seq m mod 2 ^ 32)
    (nlmsg_pid m mod 2 ^ 32) (rtm_family m mod 256) (rtm_dst_len m mod 256) (rtm_table m mod 256)
    (rtm_protocol m mod 256) (rtm_scope m mod 256) (rtm_type m mod 256)
  <$> parse_attrs 10 (take (Z.to_nat (nlmsg_len m - 28)) (attr_area m)).
Proof.
  intros Ha Hl. unfold message_bytes.
  replace (Z.to_nat (nlmsg_len m)) with (28 + Z.to_nat (nlmsg_len m - 28))%nat by lia.
  set (n := Z.to_nat (nlmsg_len m - 28)).
  set (t := le 2 (nlmsg_type m)). set (f := le 2 (nlmsg_flags m)).
  pose proof (le_num_le 4 (nlmsg_len m)) as Elen. pose proof (le_num_le 2 (nlmsg_type m)) as Et.
  pose proof (le_num_le 2 (nlmsg_flags m)) as Ef. pose proof (le_num_le 4 (nlmsg_seq m)) as Es.
  pose proof (le_num_le 4 (nlmsg_pid m)) as Ep. pose proof (le_num_le 1 (rtm_family m)) as E1.
  pose proof (le_num_le 1 (rtm_dst_len m)) as E2. pose proof (le_num_le 1 (rtm_table m)) as E3.
  pose proof (le_num_le 1 (rtm_protocol m)) as E4. pose proof (le_num_le 1 (rtm_scope m)) as E5.
  pose proof (le_num_le 1 (rtm_type m)) as E6. subst t f.
  cbn [le] in *. cbn [app Nat.add firstn take].
  match goal with |- parse_message (?b0 :: ?l) = _ => set (bytes := b0 :: l) end.
  assert (Z.of_nat (length bytes) = nlmsg_len m) as Hlen.
  { subst bytes. cbn [length]. rewrite length_take, Ha. lia. }
  unfold parse_message. rewrite Hlen.
  assert (field 0 4 bytes = nlmsg_len m) as ->.
  { etrans; [exact Elen|]. apply Z.mod_small. cbn. lia. }
  rewrite Z.eqb_refl. rewrite (proj2 (Z.ltb_ge _ _)) by (change headers with 28; lia). cbn [negb orb].
  change (drop 28 bytes) with (take n (attr_area m)). f_equal.
  f_equal; [exact Et|exact Ef|exact Es|exact Ep|exact E1|exact E2|exact E3|exact E4|exact E5|exact E6].
Qed.

Lemma list_4 {A} (l : list A) : length l = 4%nat → ∃ a b c d, l = [a; b; c; d].
Proof. destruct l as [|a [|b [|c [|d []]]]]; try done. intros _. by exists a, b, c, d. Qed.
Lemma list_16 {A} (l : list A) :
  length l = 16%nat → ∃ l1 l2 l3 l4, l = l1 ++ l2 ++ l3 ++ l4 ∧
    length l1 = 4%nat ∧ length l2 = 4%nat ∧ length l3 = 4%nat ∧ length l4 = 4%nat.
Proof.
  intros Hl. do 16 (destruct l as [|? l]; [done|]). destruct l; [|done].
  eexists [_; _; _; _], [_; _; _; _], [_; _; _; _], [_; _; _; _]. done.
Qed.

(** What the kernel reads of the attributes: nothing is dropped for lack of
    room, and the message fits the buffer. *)
Record carries (m : nlmsg) (attrs : list (Z * list Z)) : Prop := {
  carries_room : length (attr_area m) = 36%nat ∧ 28 ≤ nlmsg_len m ≤ sizeof_buf;
  carries_attrs : parse_attrs 10 (take (Z.to_nat (nlmsg_len m - 28)) (attr_area m)) = Some attrs;
}.

Definition three_attrs (m0 : nlmsg) (d : list Z) (t1 : Z) (x : list Z) (t2 : Z) (y : list Z) : nlmsg :=
  nlmsg_append_attr (nlmsg_append_attr (nlmsg_append_attr m0 sizeof_buf RTA_DST d) sizeof_buf t1 x) sizeof_buf t2 y.

Lemma three_attrs_carries {W} {N : Netlink W} action flags type seq ip d t1 x t2 y :
  (length d = 4%nat ∨ length d = 16%nat) → length x = 4%nat → length y = 4%nat →
  t1 ∈ [RTA_OIF; RTA_GATEWAY] → t2 = RTA_PRIORITY →
  carries (three_attrs (new_message action flags type seq ip) d t1 x t2 y)
    [(RTA_DST, d); (t1, x); (t2, y)].
Proof.
  intros Hd (x0 & x1 & x2 & x3 & ->)%list_4 (y0 & y1 & y2 & y3 & ->)%list_4 Ht ->.
  unfold new_message. set (pid := getpid). clearbody pid.
  rewrite !elem_of_cons, elem_of_nil in Ht.
  destruct Hd as [(a & b & c & d0 & ->)%list_4|(l1 & l2 & l3 & l4 & -> & H1 & H2 & H3 & H4)%list_16].
  - destruct Ht as [->|[->|[]]]; (split; [split; [reflexivity|split; [discriminate|discriminate]]|reflexivity]).
  - apply list_4 in H1 as (? & ? & ? & ? & ->), H2 as (? & ? & ? & ? & ->), H3 as (? & ? & ? & ? & ->),
      H4 as (? & ? & ? & ? & ->).
    destruct Ht as [->|[->|[]]]; (split; [split; [reflexivity|split; [discriminate|discriminate]]|reflexivity]).
Qed.

(** ** What the operations send *)

(** [inet_pton] reads back what [toString] prints. *)
Record netlink_laws {W} {Q : Qt} (N : Netlink W) : Prop := {
  law_pton4 : ∀ a, 0 ≤ a < 2 ^ 32 → inet_pton4 (host_toString (HostV4 a)) = Some (rev (le 4 a));
  law_pton6 : ∀ l, length l = 16%nat → Forall byte l → inet_pton6 (host_toString (HostV6 l)) = Some l;
  law_pton4_length : ∀ s b, inet_pton4 s = Some b → length b = 4%nat;
  law_in_addr : length uninitialized_in_addr = 4%nat;
}.

(** The address of a prefix in network order, and its family's number. *)
Definition address_bytes (prefix : IPAddress) : list Z :=
  match m_address prefix with
  | HostV4 a => rev (le 4 a)
  | HostV6 l => l
  | HostNull => []
  end.
Definition family_of (prefix : IPAddress) : Z :=
  match m_address prefix with HostV4 _ => AF_INET | _ => AF_INET6 end.

Section requests.
Context {W : Type} {Q : Qt} {N : Netlink W} (HN : netlink_laws N).

Lemma buildAllowedIp_wf prefix :
  wf_ip prefix →
  buildAllowedIp prefix = Some (mkAllowedIp (family_of prefix) (address_bytes prefix) (prefixLength prefix)) ∧
  (length (address_bytes prefix) = 4%nat ∨ length (address_bytes prefix) = 16%nat) ∧
  0 ≤ prefixLength prefix < 256.
Proof using HN.
  destruct prefix as [[|a|l] p]; cbn; intros [Hh Hp]; cbn in Hh, Hp; [done| |].
  - unfold buildAllowedIp, type. cbn. rewrite (law_pton4 _ HN) by done. cbn.
    rewrite (Z.mod_small p) by lia. split; [done|]. split; [by left|lia].
  - destruct Hh as [Hl Hb]. unfold buildAllowedIp, type. cbn. rewrite (law_pton6 _ HN) by done. cbn.
    rewrite (Z.mod_small p) by lia. split; [done|]. split; [by right|lia].
Qed.

(** A request with three attributes as the kernel reads it. *)
Lemma parse_three action flags type seq ip d t1 x t2 y m :
  (length d = 4%nat ∨ length d = 16%nat) → length x = 4%nat → length y = 4%nat →
  t1 ∈ [RTA_OIF; RTA_GATEWAY] → t2 = RTA_PRIORITY →
  nlmsg_len m = nlmsg_len (three_attrs (new_message action flags type seq ip) d t1 x t2 y) →
  attr_area m = attr_area (three_attrs (new_message action flags type seq ip) d t1 x t2 y) →
  nlmsg_type m = action → nlmsg_flags m = flags → nlmsg_seq m = seq → nlmsg_pid m = getpid →
  rtm_family m = family ip → rtm_dst_len m = cidr ip → rtm_table m = RT_TABLE_UNSPEC →
  rtm_protocol m = RTPROT_BOOT → rtm_scope m = RT_SCOPE_UNIVERSE →
  parse_message (message_bytes m) =
  Some (mkRouteRequest (action mod 2 ^ 16) (flags mod 2 ^ 16) (seq mod 2 ^ 32) (getpid mod 2 ^ 32)
    (family ip mod 256) (cidr ip mod 256) RT_TABLE_UNSPEC RTPROT_BOOT RT_SCOPE_UNIVERSE (rtm_type m mod 256)
    [(RTA_DST, d); (t1, x); (t2, y)]).
Proof using.
  intros Hd Hx Hy Ht1 Ht2 El Ea E1 E2 E3 E4 E5 E6 E7 E8 E9.
  destruct (three_attrs_carries action flags type seq ip d t1 x t2 y Hd Hx Hy Ht1 Ht2) as [[Hroom Hlen] Hattrs].
  rewrite <- Ea in Hroom, Hattrs. rewrite <- El in Hlen, Hattrs. change sizeof_buf with 64 in Hlen.
  rewrite parse_message_bytes, Hattrs, E1, E2, E3, E4, E5, E6, E7, E8, E9 by done. done.
Qed.

(** Appending changes the length and the attributes only. *)
Definition same_header (m m' : nlmsg) : Prop :=
  nlmsg_type m' = nlmsg_type m ∧ nlmsg_flags m' = nlmsg_flags m ∧ nlmsg_seq m' = nlmsg_seq m ∧
  nlmsg_pid m' = nlmsg_pid m ∧ rtm_family m' = rtm_family m ∧ rtm_dst_len m' = rtm_dst_len m ∧
  rtm_table m' = rtm_table m ∧ rtm_protocol m' = rtm_protocol m ∧ rtm_scope m' = rtm_scope m ∧
  rtm_type m' = rtm_type m.

Lemma append_same m maxlen t d : same_header m (nlmsg_append_attr m maxlen t d).
Proof. unfold nlmsg_append_attr. cbv zeta. destruct (_ <=? maxlen); by repeat split. Qed.

Lemma three_same m0 d t1 x t2 y : same_header m0 (three_attrs m0 d t1 x t2 y).
Proof.
  unfold three_attrs.
  destruct (append_same m0 sizeof_buf RTA_DST d) as (A1 & A2 & A3 & A4 & A5 & A6 & A7 & A8 & A9 & A10).
  destruct (append_same (nlmsg_append_attr m0 sizeof_buf RTA_DST d) sizeof_buf t1 x)
    as (B1 & B2 & B3 & B4 & B5 & B6 & B7 & B8 & B9 & B10).
  destruct (append_same (nlmsg_append_attr (nlmsg_append_attr m0 sizeof_buf RTA_DST d) sizeof_buf t1 x) sizeof_buf t2 y)
    as (C1 & C2 & C3 & C4 & C5 & C6 & C7 & C8 & C9 & C10).
  repeat split; congruence.
Qed.

(** The request the kernel reads for one operation. *)
Definition request_of (action flags : Z) (s : RouteMonitor W) (prefix : IPAddress) (attrs : list (Z * list Z)) :
    route_request :=
  mkRouteRequest action flags (m_nlseq s mod 2 ^ 32) (getpid mod 2 ^ 32) (family_of prefix) (prefixLength prefix)
    RT_TABLE_UNSPEC RTPROT_BOOT RT_SCOPE_UNIVERSE RTN_UNICAST ((RTA_DST, address_bytes prefix) :: attrs).

Definition sends (m : stM (RouteMonitor W) bool) (s : RouteMonitor W) (r : route_request) : Prop :=
  ∃ bytes, parse_message bytes = Some r ∧
    m s = ((nl_send bytes (rt_world s)).1, mkRouteMonitor (m_nlseq s + 1) (nl_send bytes (rt_world s)).2).

Lemma unicast_sends action flags prefix s :
  wf_ip prefix → 0 < if_nametoindex (rt_world s) → 0 ≤ action < 2 ^ 16 → 0 ≤ flags < 2 ^ 16 →
  sends (rtmSendRoute action flags RTN_UNICAST prefix) s
    (request_of action flags s prefix [(RTA_OIF, le 4 (if_nametoindex (rt_world s))); (RTA_PRIORITY, le 4 1)]).
Proof using HN.
  intros Hp Hi Ha Hf. destruct (buildAllowedIp_wf prefix Hp) as (E & Hl & Hc).
  unfold sends, rtmSendRoute. rewrite E. unfold route_message. rewrite Z.eqb_refl.
  rewrite (proj2 (Z.leb_gt _ _)) by done. cbn [ip_bytes].
  set (ip := mkAllowedIp _ _ _). set (index := if_nametoindex (rt_world s)).
  set (m0 := new_message action flags RTN_UNICAST (m_nlseq s) ip).
  change (nlmsg_append_attr32 (nlmsg_append_attr32 (nlmsg_append_attr m0 sizeof_buf RTA_DST (address_bytes prefix))
    sizeof_buf RTA_OIF index) sizeof_buf RTA_PRIORITY 1)
    with (three_attrs m0 (address_bytes prefix) RTA_OIF (le 4 index) RTA_PRIORITY (le 4 1)).
  set (m := three_attrs _ _ _ _ _ _).
  exists (message_bytes m). split; [|by destruct (nl_send _ _)].
  destruct (three_same m0 (address_bytes prefix) RTA_OIF (le 4 index) RTA_PRIORITY (le 4 1))
    as (E1 & E2 & E3 & E4 & E5 & E6 & E7 & E8 & E9 & E10).
  rewrite (parse_three action flags RTN_UNICAST (m_nlseq s) ip (address_bytes prefix)
    RTA_OIF (le 4 index) RTA_PRIORITY (le 4 1) m);
    [|done|apply length_le|apply length_le|by left|done|done|done|done..].
  fold m in E10. rewrite E10.
  unfold request_of, ip. cbn [family cidr]. rewrite !(Z.mod_small action), !(Z.mod_small flags) by done.
  rewrite (Z.mod_small (prefixLength prefix)) by done.
  rewrite (Z.mod_small (family_of prefix)); [done|]. unfold family_of. destruct (m_address prefix); done.
Qed.

Lemma throw_sends action flags prefix s :
  wf_ip prefix → default_gateway (rt_world s) ≠ "" → 0 ≤ action < 2 ^ 16 → 0 ≤ flags < 2 ^ 16 →
  sends (rtmSendRoute action flags RTN_THROW prefix) s
    (request_of action flags s prefix
       [(RTA_GATEWAY, default uninitialized_in_addr (inet_pton4 (default_gateway (rt_world s))));
        (RTA_PRIORITY, le 4 0)]).
Proof using HN.
  intros Hp Hg Ha Hf. destruct (buildAllowedIp_wf prefix Hp) as (E & Hl & Hc).
  unfold sends, rtmSendRoute. rewrite E. unfold route_message.
  change (RTN_THROW =? RTN_UNICAST) with false. rewrite Z.eqb_refl.
  rewrite (proj2 (String.eqb_neq _ _) Hg). cbn [ip_bytes].
  set (ip := mkAllowedIp _ _ _). set (gw := default uninitialized_in_addr _).
  assert (length gw = 4%nat) as Hgw.
  { subst gw. destruct (inet_pton4 _) eqn:Eg; cbn; [by eapply (law_pton4_length _ HN)|apply (law_in_addr _ HN)]. }
  set (m0 := new_message action flags RTN_THROW (m_nlseq s) ip).
  change (nlmsg_append_attr32 (nlmsg_append_attr (nlmsg_append_attr m0 sizeof_buf RTA_DST (address_bytes prefix))
    sizeof_buf RTA_GATEWAY gw) sizeof_buf RTA_PRIORITY 0)
    with (three_attrs m0 (address_bytes prefix) RTA_GATEWAY gw RTA_PRIORITY (le 4 0)).
  set (m := set_rtm_type _ _).
  exists (message_bytes m). split; [|by destruct (nl_send _ _)].
  destruct (three_same m0 (address_bytes prefix) RTA_GATEWAY gw RTA_PRIORITY (le 4 0))
    as (E1 & E2 & E3 & E4 & E5 & E6 & E7 & E8 & E9 & E10).
  rewrite (parse_three action flags RTN_THROW (m_nlseq s) ip (address_bytes prefix)
    RTA_GATEWAY gw RTA_PRIORITY (le 4 0) m);
    [|done|done|apply length_le|by right; left|done|done|done|done..].
  unfold request_of, ip. cbn [family cidr]. rewrite !(Z.mod_small action), !(Z.mod_small flags) by done.
  rewrite (Z.mod_small (prefixLength prefix)) by done.
  rewrite (Z.mod_small (family_of prefix)); [done|]. unfold family_of. destruct (m_address prefix); done.
Qed.
End requests.

(** ** A concrete machine *)

(** Addresses printed as the characters of their bytes. *)
Definition raw_text (l : list Z) : string :=
  String.string_of_list_ascii ((λ b, Ascii.ascii_of_nat (Z.to_nat b)) <$> l).
Definition raw_bytes (s : string) : list Z :=
  (λ c, Z.of_nat (Ascii.nat_of_ascii c)) <$> String.list_ascii_of_string s.

Lemma raw_bytes_text l : Forall byte l → raw_bytes (raw_text l) = l.
Proof.
  unfold raw_bytes, raw_text. intros Hl. rewrite String.list_ascii_of_string_of_list_ascii, <- list_fmap_compose.
  induction Hl as [|b l Hb Hl IH]; [done|]. cbn. rewrite IH. f_equal. unfold compose.
  unfold byte in Hb. rewrite Ascii.nat_ascii_embedding by lia. lia.
Qed.

Lemma le_bytes n v : Forall byte (le n v).
Proof. revert v. induction n; intros v; constructor; [apply Z.mod_pos_bound; lia|done]. Qed.

#[local] Instance raw_qt : Qt := {|
  host_of_string := @host_of_string plain_qt;
  host_toString h := match h with HostV4 a => raw_text (rev (le 4 a)) | HostV6 l => raw_text l | HostNull => "" end;
  parseSubnet := @parseSubnet plain_qt;
  string_toInt := @string_toInt plain_qt;
  string_toBool := @string_toBool plain_qt;
  HopType_keyToValue := @HopType_keyToValue plain_qt;
  sort_by_prefix := @sort_by_prefix plain_qt |}.

(** A socket that keeps what it sends, an interface, and a gateway. *)
#[local] Instance recording_netlink : Netlink (list (list Z)) := {|
  nl_send b w := (true, w ++ [b]);
  if_nametoindex _ := 7;
  default_gateway _ := raw_text [192; 0; 2; 254];
  getpid := 4242;
  inet_pton4 s := if decide (length (raw_bytes s) = 4%nat) then Some (raw_bytes s) else None;
  inet_pton6 s := if decide (length (raw_bytes s) = 16%nat) then Some (raw_bytes s) else None;
  uninitialized_in_addr := [0; 0; 0; 0] |}.

Lemma recording_netlink_laws : netlink_laws recording_netlink.
Proof.
  split; cbn [inet_pton4 inet_pton6 recording_netlink host_toString raw_qt uninitialized_in_addr].
  - intros a _. rewrite raw_bytes_text by apply Forall_rev, le_bytes. by rewrite decide_True by done.
  - intros l Hl Hb. rewrite raw_bytes_text by done. by rewrite decide_True.
  - intros s b. case_decide; [|done]. by intros [= <-].
  - done.
Qed.

(** ** Properties *)

(** Tunnel routes.  The request [insertRoute] sends for a well-formed prefix
    fits the buffer and is read back as: new route, create or replace, for
    exactly that prefix (family, address in network order, length), out of the
    tunnel interface with priority 1; [deleteRoute] names the same route.  The
    result is whether the socket took the whole message, and without the
    interface nothing is sent and the result is false. *)
Theorem tunnel_route_requests {W} {Q : Qt} {N : Netlink W} prefix (s : RouteMonitor W) :
  netlink_laws N → wf_ip prefix →
  let index := if_nametoindex (rt_world s) in
  let attrs := [(RTA_OIF, le 4 index); (RTA_PRIORITY, le 4 1)] in
  (0 < index →
   sends (insertRoute prefix) s (request_of RTM_NEWROUTE insert_flags s prefix attrs) ∧
   sends (deleteRoute prefix) s (request_of RTM_DELROUTE delete_flags s prefix attrs)) ∧
  (index ≤ 0 →
   insertRoute prefix s = (false, mkRouteMonitor (m_nlseq s + 1) (rt_world s)) ∧
   deleteRoute prefix s = (false, mkRouteMonitor (m_nlseq s + 1) (rt_world s))).
Proof.
  intros HN Hp index attrs. subst index attrs. split; intros Hi.
  - split; (apply unicast_sends; [done|done|done|by split|by split]).
  - unfold insertRoute, deleteRoute, rtmSendRoute.
    destruct (buildAllowedIp_wf HN prefix Hp) as (-> & _ & _). unfold route_message. rewrite Z.eqb_refl.
    by rewrite (proj2 (Z.leb_le _ _) Hi).
Qed.

(** Exclusion routes.  With a default gateway, [addExclusionRoute] asks for
    a route to the prefix via that gateway with priority 0, and
    [deleteExclusionRoute] names the same route; without one nothing is sent and
    the result is false.  The gateway is always the four bytes of an IPv4
    address: for an IPv6 prefix too, a message of family AF_INET6 carries a
    4-byte gateway, which the kernel refuses, while the operation still reports
    success. *)
Theorem exclusion_route_requests {W} {Q : Qt} {N : Netlink W} prefix (s : RouteMonitor W) :
  netlink_laws N → wf_ip prefix →
  (default_gateway (rt_world s) ≠ "" →
   ∃ gateway, length gateway = 4%nat ∧
     (∀ b, inet_pton4 (default_gateway (rt_world s)) = Some b → gateway = b) ∧
     let attrs := [(RTA_GATEWAY, gateway); (RTA_PRIORITY, le 4 0)] in
     sends (addExclusionRoute prefix) s (request_of RTM_NEWROUTE insert_flags s prefix attrs) ∧
     sends (deleteExclusionRoute prefix) s (request_of RTM_DELROUTE delete_flags s prefix attrs)) ∧
  (default_gateway (rt_world s) = "" →
   addExclusionRoute prefix s = (false, mkRouteMonitor (m_nlseq s + 1) (rt_world s)) ∧
   deleteExclusionRoute prefix s = (false, mkRouteMonitor (m_nlseq s + 1) (rt_world s))).
Proof.
  intros HN Hp. split; intros Hg.
  - exists (default uninitialized_in_addr (inet_pton4 (default_gateway (rt_world s)))). split; [|split].
    + destruct (inet_pton4 _) eqn:E; cbn; [by eapply (law_pton4_length _ HN)|apply (law_in_addr _ HN)].
    + by intros b ->.
    + split; (apply throw_sends; [done|done|done|by split|by split]).
  - unfold addExclusionRoute, deleteExclusionRoute, rtmSendRoute.
    destruct (buildAllowedIp_wf HN prefix Hp) as (-> & _ & _). unfold route_message.
    change (RTN_THROW =? RTN_UNICAST) with false. rewrite Z.eqb_refl, Hg. done.
Qed.

Definition net_192_0_2 : IPAddress := mkIPAddress (HostV4 3221225984) 24.
Definition host_v6 : IPAddress := mkIPAddress (HostV6 (replicate 15 0 ++ [1])) 128.

Lemma tunnel_route_requests_witness :
  sends (insertRoute net_192_0_2) (mkRouteMonitor 0 [])
    (mkRouteRequest 24 1285 0 4242 2 24 0 3 0 1 [(1, [192; 0; 2; 0]); (4, [7; 0; 0; 0]); (6, [1; 0; 0; 0])]).
Proof.
  refine (proj1 (proj1 (tunnel_route_requests net_192_0_2 (mkRouteMonitor 0 []) recording_netlink_laws _) _));
    [split; [by split|by split]|reflexivity].
Defined.

Lemma exclusion_route_requests_witness :
  ∃ gateway, length gateway = 4%nat ∧
    sends (addExclusionRoute host_v6) (mkRouteMonitor 0 [])
      (request_of RTM_NEWROUTE insert_flags (mkRouteMonitor 0 []) host_v6
        [(RTA_GATEWAY, gateway); (RTA_PRIORITY, le 4 0)]).
Proof.
  destruct (proj1 (exclusion_route_requests host_v6 (mkRouteMonitor 0 []) recording_netlink_laws
    ltac:(split; [split; [reflexivity|repeat (constructor; [by split|]); constructor]|by split])) ltac:(discriminate))
    as (gw & Hl & _ & Hs & _). by exists gw.
Defined.
