(* ===== verification/WindowsRouteMonitor.v ===== *)
(** * WindowsRouteMonitor: routes around the tunnel on Windows

    Models [client/platforms/windows/daemon/windowsroutemonitor.cpp].  A route is
    a row of the system's table with the fields the code reads; the table, the
    interfaces and the two calls that change it are a parameter ([IpHelper]).
    The reference for the choice of a way around the tunnel is the longest
    prefix, then the lowest metric ([is_best]). *)
From S2P Require Import Prelude Text Json IpAddress InterfaceConfig Qt.

Definition AF_UNSPEC : Z := 0.
Definition AF_INET : Z := 2.
Definition AF_INET6 : Z := 23.
Definition MIB_IPPROTO_NETMGMT : Z := 3.
Definition NO_ERROR : Z := 0.
Definition ERROR_NOT_FOUND : Z := 1168.
Definition ULONG_MAX : Z := 4294967295.
Definition EXCLUSION_ROUTE_METRIC : Z := 24178.

(** ** Rows *)

(** A family and the bytes of an address, in network order. *)
Record IP_ADDRESS_PREFIX := mkPrefix { prefix_family : Z; prefix_bytes : list Z; PrefixLength : Z }.
(** A [SOCKADDR_INET]: the bytes behind the family. *)
Record SOCKADDR_INET := mkSockaddr { si_family : Z; si_bytes : list Z }.
Record MIB_IPFORWARD_ROW2 := mkRow {
  InterfaceLuid : Z;
  DestinationPrefix : IP_ADDRESS_PREFIX;
  NextHop : SOCKADDR_INET;
  ValidLifetime : Z;
  PreferredLifetime : Z;
  Metric : Z;
  Protocol : Z;
  Age : Z;
}.
Record MIB_IPINTERFACE_ROW := mkInterface { if_luid : Z; if_connected : bool; if_family : Z; if_metric : Z }.

#[export] Instance IP_ADDRESS_PREFIX_eq_dec : EqDecision IP_ADDRESS_PREFIX.
Proof. solve_decision. Defined.
#[export] Instance SOCKADDR_INET_eq_dec : EqDecision SOCKADDR_INET.
Proof. solve_decision. Defined.
#[export] Instance MIB_IPFORWARD_ROW2_eq_dec : EqDecision MIB_IPFORWARD_ROW2.
Proof. solve_decision. Defined.
#[export] Instance IP_ADDRESS_PREFIX_countable : Countable IP_ADDRESS_PREFIX.
Proof. apply (inj_countable' (λ p, (prefix_family p, prefix_bytes p, PrefixLength p)) (λ q, mkPrefix q.1.1 q.1.2 q.2)). by intros []. Defined.
#[export] Instance SOCKADDR_INET_countable : Countable SOCKADDR_INET.
Proof. apply (inj_countable' (λ p, (si_family p, si_bytes p)) (λ q, mkSockaddr q.1 q.2)). by intros []. Defined.

Definition no_hop (family : Z) : SOCKADDR_INET := mkSockaddr family (replicate 26 0).
Definition with_hop (luid : Z) (hop : SOCKADDR_INET) (d : MIB_IPFORWARD_ROW2) : MIB_IPFORWARD_ROW2 :=
  mkRow luid (DestinationPrefix d) hop (ValidLifetime d) (PreferredLifetime d) (Metric d) (Protocol d) (Age d).
Definition with_age (age : Z) (d : MIB_IPFORWARD_ROW2) : MIB_IPFORWARD_ROW2 :=
  mkRow (InterfaceLuid d) (DestinationPrefix d) (NextHop d) (ValidLifetime d) (PreferredLifetime d) (Metric d) (Protocol d) age.
(** A static route. *)
Definition static_route (luid : Z) (dest : IP_ADDRESS_PREFIX) (metric : Z) : MIB_IPFORWARD_ROW2 :=
  mkRow luid dest (no_hop (prefix_family dest)) 4294967295 4294967295 metric MIB_IPPROTO_NETMGMT 0.

(** The most significant byte first. *)
Fixpoint be (n : nat) (v : Z) : list Z :=
  match n with O => [] | S n => (v / 2 ^ (8 * Z.of_nat n)) mod 256 :: be n v end.
Definition prefix_of (prefix : IPAddress) : IP_ADDRESS_PREFIX :=
  match protocol (m_address prefix) with
  | IPv6Protocol => mkPrefix AF_INET6 (toIPv6Address (m_address prefix)) (prefixLength prefix mod 256)
  | _ => mkPrefix AF_INET (be 4 (toIPv4Address (m_address prefix))) (prefixLength prefix mod 256)
  end.
Definition prefixToAddress (dest : IP_ADDRESS_PREFIX) : QHostAddress :=
  if prefix_family dest =? AF_INET6 then HostV6 (prefix_bytes dest)
  else if prefix_family dest =? AF_INET then HostV4 (be_num (prefix_bytes dest))
  else HostNull.

(** *** Comparing prefixes *)
Fixpoint memcmp (a b : list Z) : Z :=
  match a, b with
  | x :: a, y :: b => if x =? y then memcmp a b else x - y
  | _, _ => 0
  end.
Definition prefixcmp (a b : list Z) (bits : Z) : Z :=
  let bytes := Z.to_nat (bits / 8) in
  let diff := if (0 <? bytes)%nat then memcmp (take bytes a) (take bytes b) else 0 in
  if negb (diff =? 0) then diff
  else if negb (bits mod 8 =? 0)
  then Z.shiftr (nth bytes a 0) (8 - bits mod 8) - Z.shiftr (nth bytes b 0) (8 - bits mod 8)
  else 0.
Definition routeContainsDest (route dest : IP_ADDRESS_PREFIX) : bool :=
  if negb (prefix_family route =? prefix_family dest) then false
  else if PrefixLength dest <? PrefixLength route then false
  else if (prefix_family route =? AF_INET) || (prefix_family route =? AF_INET6)
  then prefixcmp (prefix_bytes route) (prefix_bytes dest) (PrefixLength route) =? 0
  else false.

(** ** The system *)
Class IpHelper (W : Type) := {
  GetIpForwardTable2 : Z → W → option (list MIB_IPFORWARD_ROW2) * W;
  GetIpInterfaceTable : Z → W → option (list MIB_IPINTERFACE_ROW) * W;
  CreateIpForwardEntry2 : MIB_IPFORWARD_ROW2 → W → Z * W;
  DeleteIpForwardEntry2 : MIB_IPFORWARD_ROW2 → W → Z * W;
  (** what a table that was not read holds *)
  uninitialized_table : list MIB_IPFORWARD_ROW2;
}.
(** [isLoopback], [isBroadcast], [isLinkLocal] and [isMulticast] of QHostAddress. *)
Class HostKinds := {
  isLoopback : QHostAddress → bool;
  isBroadcast : QHostAddress → bool;
  isLinkLocal : QHostAddress → bool;
  isMulticast : QHostAddress → bool;
}.
Definition non_routeable {H : HostKinds} (h : QHostAddress) : bool :=
  isLoopback h || isBroadcast h || isLinkLocal h || isMulticast h.

Record WindowsRouteMonitor (W : Type) := mkMonitor {
  m_exclusionRoutes : gmap IPAddress MIB_IPFORWARD_ROW2;
  m_interfaceMetricsIpv4 : gmap Z Z;
  m_interfaceMetricsIpv6 : gmap Z Z;
  m_defaultRouteCapture : bool;
  m_clonedRoutes : gmap IPAddress MIB_IPFORWARD_ROW2;
  m_luid : Z;
  net : W;
}.
Arguments mkMonitor {W}.
Arguments m_exclusionRoutes {W}.
Arguments m_interfaceMetricsIpv4 {W}.
Arguments m_interfaceMetricsIpv6 {W}.
Arguments m_defaultRouteCapture {W}.
Arguments m_clonedRoutes {W}.
Arguments m_luid {W}.
Arguments net {W}.

Definition new_monitor {W} (luid : Z) (w : W) : WindowsRouteMonitor W := mkMonitor ∅ ∅ ∅ false ∅ luid w.

(** ** Operations *)
Section operations.
Context {W : Type} {I : IpHelper W} {H : HostKinds}.
Abbreviation monitor := (WindowsRouteMonitor W).
Abbreviation M := (stM monitor).

Definition with_net (w : W) (s : monitor) : monitor :=
  mkMonitor (m_exclusionRoutes s) (m_interfaceMetricsIpv4 s) (m_interfaceMetricsIpv6 s) (m_defaultRouteCapture s) (m_clonedRoutes s) (m_luid s) w.
Definition with_exclusions (f : gmap IPAddress MIB_IPFORWARD_ROW2 → gmap IPAddress MIB_IPFORWARD_ROW2) (s : monitor) : monitor :=
  mkMonitor (f (m_exclusionRoutes s)) (m_interfaceMetricsIpv4 s) (m_interfaceMetricsIpv6 s) (m_defaultRouteCapture s) (m_clonedRoutes s) (m_luid s) (net s).
Definition with_clones (f : gmap IPAddress MIB_IPFORWARD_ROW2 → gmap IPAddress MIB_IPFORWARD_ROW2) (s : monitor) : monitor :=
  mkMonitor (m_exclusionRoutes s) (m_interfaceMetricsIpv4 s) (m_interfaceMetricsIpv6 s) (m_defaultRouteCapture s) (f (m_clonedRoutes s)) (m_luid s) (net s).
Definition with_metrics (v4 v6 : gmap Z Z) (s : monitor) : monitor :=
  mkMonitor (m_exclusionRoutes s) v4 v6 (m_defaultRouteCapture s) (m_clonedRoutes s) (m_luid s) (net s).
Definition with_capture (enable : bool) (s : monitor) : monitor :=
  mkMonitor (m_exclusionRoutes s) (m_interfaceMetricsIpv4 s) (m_interfaceMetricsIpv6 s) enable (m_clonedRoutes s) (m_luid s) (net s).
Definition system {X} (f : W → X * W) : M X := λ s, let '(x, w) := f (net s) in (x, with_net w s).

(** [routeChangeCallback]: whether a change is passed on. *)
Definition notified (s : monitor) (row : MIB_IPFORWARD_ROW2) : bool :=
  if (Protocol row =? MIB_IPPROTO_NETMGMT) && (Metric row =? EXCLUSION_ROUTE_METRIC) then false
  else negb (m_luid s =? InterfaceLuid row).

(** *** Metrics of the interfaces *)
Definition add_interface (family : Z) (luid : Z) (m : gmap Z Z) (row : MIB_IPINTERFACE_ROW) : gmap Z Z :=
  if (if_luid row =? luid) || negb (if_connected row) || negb (if_family row =? family) then m
  else <[if_luid row := if_metric row]> m.
Definition updateInterfaceMetrics (family : Z) : M unit :=
  table ← system (GetIpInterfaceTable family);
  match table with
  | None => mret tt
  | Some table => modify (λ s,
      let v4 := if (family =? AF_INET) || (family =? AF_UNSPEC) then ∅ else m_interfaceMetricsIpv4 s in
      let v6 := if (family =? AF_INET6) || (family =? AF_UNSPEC) then ∅ else m_interfaceMetricsIpv6 s in
      with_metrics (foldl (add_interface AF_INET (m_luid s)) v4 table) (foldl (add_interface AF_INET6 (m_luid s)) v6 table) s)
  end.

(** *** The way around the tunnel *)
Definition interface_metric (s : monitor) (family luid : Z) : option Z :=
  if family =? AF_INET6 then m_interfaceMetricsIpv6 s !! luid
  else if family =? AF_INET then m_interfaceMetricsIpv4 s !! luid else None.
(** The sum of two [ULONG]s, the largest one when it wraps. *)
Definition combined_metric (metric interface : Z) : Z :=
  let routeMetric := (metric + interface) mod 2 ^ 32 in
  if routeMetric <? metric then ULONG_MAX else routeMetric.

Record candidate := mkCandidate { nexthop : SOCKADDR_INET; bestLuid : Z; bestMatch : Z; bestMetric : Z }.
Definition consider (s : monitor) (data : MIB_IPFORWARD_ROW2) (b : candidate) (row : MIB_IPFORWARD_ROW2) : candidate :=
  if InterfaceLuid row =? m_luid s then b
  else if PrefixLength (DestinationPrefix row) <? bestMatch b then b
  else if (Protocol row =? Protocol data) && (Metric row =? Metric data) then b
  else if negb (routeContainsDest (DestinationPrefix row) (DestinationPrefix data)) then b
  else match interface_metric s (prefix_family (DestinationPrefix data)) (InterfaceLuid row) with
  | None => b
  | Some interface =>
      let routeMetric := combined_metric (Metric row) interface in
      if (PrefixLength (DestinationPrefix row) =? bestMatch b) && (bestMetric b <=? routeMetric) then b
      else mkCandidate (NextHop row)
             (if PrefixLength (DestinationPrefix row) =? PrefixLength (DestinationPrefix data) then 0 else InterfaceLuid row)
             (PrefixLength (DestinationPrefix row)) routeMetric
  end.
Definition best_route (s : monitor) (data : MIB_IPFORWARD_ROW2) (table : list MIB_IPFORWARD_ROW2) : candidate :=
  foldl (consider s data) (mkCandidate (no_hop (prefix_family (DestinationPrefix data))) 0 (-1) ULONG_MAX) table.
(** What becomes of [data]. *)
Definition updateExclusionRoute (data : MIB_IPFORWARD_ROW2) (table : list MIB_IPFORWARD_ROW2) : M MIB_IPFORWARD_ROW2 :=
  s ← get;
  let b := best_route s data table in
  if (InterfaceLuid data =? bestLuid b) && bool_decide (nexthop b = NextHop data) then mret data else
  _ ← (if InterfaceLuid data =? 0 then mret tt else discard (system (DeleteIpForwardEntry2 data)));
  let data := with_hop (bestLuid b) (nexthop b) data in
  _ ← (if InterfaceLuid data =? 0 then mret tt else discard (system (CreateIpForwardEntry2 data)));
  mret data.

(** *** Captured routes *)
Definition isRouteExcluded (s : monitor) (dest : IP_ADDRESS_PREFIX) : bool :=
  existsb (λ e : IPAddress * MIB_IPFORWARD_ROW2, routeContainsDest (DestinationPrefix e.2) dest) (map_to_list (m_exclusionRoutes s)).
(** Routes that are to go through the tunnel. *)
Definition captured (s : monitor) (row : MIB_IPFORWARD_ROW2) : bool :=
  negb (InterfaceLuid row =? m_luid s) &&
  negb (PrefixLength (DestinationPrefix row) =? 0) &&
  negb ((Protocol row =? MIB_IPPROTO_NETMGMT) && (Metric row =? EXCLUSION_ROUTE_METRIC)) &&
  negb (isRouteExcluded s (DestinationPrefix row)) &&
  negb (non_routeable (prefixToAddress (DestinationPrefix row))).
Definition prefix_key (row : MIB_IPFORWARD_ROW2) : IPAddress :=
  mkIPAddress (prefixToAddress (DestinationPrefix row)) (PrefixLength (DestinationPrefix row)).
Definition older (data : MIB_IPFORWARD_ROW2) : MIB_IPFORWARD_ROW2 := with_age ((Age data + 1) mod 2 ^ 32) data.
Definition capture_row (row : MIB_IPFORWARD_ROW2) : M unit :=
  s ← get;
  if negb (captured s row) then mret tt else
  match m_clonedRoutes s !! prefix_key row with
  | Some data => modify (with_clones <[prefix_key row := older data]>)
  | None =>
      let data := static_route (m_luid s) (DestinationPrefix row) 0 in
      result ← system (CreateIpForwardEntry2 data);
      if result =? NO_ERROR then modify (with_clones <[prefix_key row := older data]>) else mret tt
  end.
Definition release_row (family : Z) (e : IPAddress * MIB_IPFORWARD_ROW2) : M unit :=
  let '(prefix, data) := e in
  if 0 <? Age data then modify (with_clones <[prefix := with_age 0 data]>)
  else if negb (family =? AF_UNSPEC) && negb (prefix_family (DestinationPrefix data) =? family) then mret tt
  else _ ← system (DeleteIpForwardEntry2 data); modify (with_clones (delete prefix)).
Definition capture_table (family : Z) (table : list MIB_IPFORWARD_ROW2) : M unit :=
  s ← get;
  if negb (m_defaultRouteCapture s) then mret tt else
  _ ← for_each table capture_row;
  s ← get;
  for_each (map_to_list (m_clonedRoutes s)) (release_row family).
(** The rows are looked at when they could not be read. *)
Definition updateCapturedRoutes (family : Z) : M unit :=
  s ← get;
  if negb (m_defaultRouteCapture s) then mret tt else
  table ← system (GetIpForwardTable2 family);
  match table with
  | Some _ => mret tt
  | None => capture_table family uninitialized_table
  end.

(** *** Requests *)
Definition addExclusionRoute (prefix : IPAddress) : M bool :=
  if non_routeable (m_address prefix) then mret true else
  s ← get;
  if bool_decide (is_Some (m_exclusionRoutes s !! prefix)) then mret false else
  let data := static_route 0 (prefix_of prefix) EXCLUSION_ROUTE_METRIC in
  let family := prefix_family (prefix_of prefix) in
  table ← system (GetIpForwardTable2 family);
  match table with
  | None => mret false
  | Some table =>
      _ ← updateInterfaceMetrics family;
      _ ← capture_table family table;
      data ← updateExclusionRoute data table;
      _ ← modify (with_exclusions <[prefix := data]>);
      mret true
  end.
Definition deleteExclusionRoute (prefix : IPAddress) : M bool :=
  s ← get;
  match m_exclusionRoutes s !! prefix with
  | None => mret true
  | Some data =>
      _ ← modify (with_exclusions (delete prefix));
      _ ← system (DeleteIpForwardEntry2 data);
      _ ← updateCapturedRoutes (prefix_family (DestinationPrefix data));
      mret true
  end.
Definition delete_rows (table : gmap IPAddress MIB_IPFORWARD_ROW2) : M unit :=
  for_each (map_to_list table) (λ e : IPAddress * MIB_IPFORWARD_ROW2, discard (system (DeleteIpForwardEntry2 e.2))).
Definition flush_exclusions : M unit :=
  s ← get; _ ← delete_rows (m_exclusionRoutes s); modify (with_exclusions (λ _, ∅)).
Definition flush_clones : M unit :=
  s ← get; _ ← delete_rows (m_clonedRoutes s); modify (with_clones (λ _, ∅)).
Definition setDetaultRouteCapture (enable : bool) : M unit :=
  _ ← modify (with_capture enable); if enable then mret tt else flush_clones.
(** The destructor. *)
Definition destroy : M unit := _ ← flush_exclusions; flush_clones.

Definition routeChanged : M unit :=
  table ← system (GetIpForwardTable2 AF_UNSPEC);
  match table with
  | None => mret tt
  | Some table =>
      _ ← updateInterfaceMetrics AF_UNSPEC;
      _ ← capture_table AF_UNSPEC table;
      s ← get;
      for_each (map_to_list (m_exclusionRoutes s)) (λ e : IPAddress * MIB_IPFORWARD_ROW2,
        data ← updateExclusionRoute e.2 table; modify (with_exclusions <[e.1 := data]>))
  end.
End operations.

(** ** Prefixes as numbers *)
Lemma memcmp_zero a b : length a = length b → memcmp a b = 0 ↔ a = b.
Proof.
  revert b. induction a as [|x a IH]; intros [|y b] [=]; [done|]. cbn. destruct (Z.eqb_spec x y) as [->|Hne].
  - rewrite IH by done. naive_solver.
  - split; [lia|intros [=]; lia].
Qed.
Lemma prefixcmp_match a b bits : length a = length b → 0 ≤ bits →
  prefixcmp a b bits = 0 ↔ bytes_match a b bits = true.
Proof.
  intros Hl Hb. unfold prefixcmp, bytes_match. cbv zeta. set (n := Z.to_nat (bits / 8)).
  assert (∀ x y k, 0 ≤ k → Z.shiftr x k - Z.shiftr y k = 0 ↔ (Z.shiftr (Z.lxor x y) k =? 0) = true) as Hs.
  { intros x y k Hk. rewrite Z.eqb_eq, shiftr_lxor_eq_0, <- !Z.shiftr_div_pow2 by done. lia. }
  assert (memcmp (take n a) (take n b) = 0 ↔ take n a = take n b) as Hm by (apply memcmp_zero; rewrite !length_take; lia).
  pose proof (Z.mod_pos_bound bits 8).
  rewrite andb_true_iff, bool_decide_eq_true, orb_true_iff, Z.eqb_eq, <- Hs by lia.
  destruct (Nat.ltb_spec 0 n) as [Hn|Hn].
  - destruct (Z.eqb_spec (memcmp (take n a) (take n b)) 0) as [E|E]; cbn [negb]; [|naive_solver].
    destruct (Z.eqb_spec (bits mod 8) 0); cbn [negb]; naive_solver.
  - assert (n = 0%nat) as -> by lia. cbn [take negb Z.eqb]. destruct (Z.eqb_spec (bits mod 8) 0); cbn [negb]; naive_solver.
Qed.

(** An address of its family. *)
Definition wf_prefix (p : IP_ADDRESS_PREFIX) : Prop :=
  Forall byte (prefix_bytes p) ∧
  ((prefix_family p = AF_INET ∧ length (prefix_bytes p) = 4%nat ∧ 0 ≤ PrefixLength p ≤ 32) ∨
   (prefix_family p = AF_INET6 ∧ length (prefix_bytes p) = 16%nat ∧ 0 ≤ PrefixLength p ≤ 128)).
(** The number a prefix stands for: its highest bits. *)
Definition high_bits (p : IP_ADDRESS_PREFIX) (n : Z) : Z :=
  be_num (prefix_bytes p) / 2 ^ (8 * Z.of_nat (length (prefix_bytes p)) - n).

(** A route contains a destination when they are of one family and the
    destination's highest bits are the route's. *)
Theorem routeContainsDest_correct (route dest : IP_ADDRESS_PREFIX) :
  wf_prefix route → wf_prefix dest →
  routeContainsDest route dest = true ↔
  prefix_family route = prefix_family dest ∧ PrefixLength route ≤ PrefixLength dest ∧
  high_bits dest (PrefixLength route) = high_bits route (PrefixLength route).
Proof.
  intros [Br Hr] [Bd Hd]. unfold routeContainsDest, high_bits.
  destruct (Z.eqb_spec (prefix_family route) (prefix_family dest)) as [Ef|Hne]; cbn [negb]; [|naive_solver].
  destruct (Z.ltb_spec (PrefixLength dest) (PrefixLength route)) as [|Hle]; [naive_solver lia|].
  assert (length (prefix_bytes route) = length (prefix_bytes dest)) as El.
  { destruct Hr as [(F1 & -> & _)|(F1 & -> & _)], Hd as [(F2 & -> & _)|(F2 & -> & _)]; try done; rewrite F1, F2 in Ef; discriminate. }
  assert ((prefix_family route =? AF_INET) || (prefix_family route =? AF_INET6) = true) as ->
    by (destruct Hr as [(-> & _)|(-> & _)]; done).
  assert (0 ≤ PrefixLength route ≤ 8 * Z.of_nat (length (prefix_bytes route))) as Hb by (destruct Hr as [(_ & -> & ?)|(_ & -> & ?)]; lia).
  rewrite Z.eqb_eq, prefixcmp_match, bytes_match_spec by (done || lia). rewrite <- El. naive_solver.
Qed.

(** ** The best way *)
Section best.
Context {W : Type} (s : WindowsRouteMonitor W) (data : MIB_IPFORWARD_ROW2).

(** Routes a way around the tunnel can follow. *)
Definition usable (row : MIB_IPFORWARD_ROW2) : bool :=
  negb (InterfaceLuid row =? m_luid s) &&
  negb ((Protocol row =? Protocol data) && (Metric row =? Metric data)) &&
  routeContainsDest (DestinationPrefix row) (DestinationPrefix data) &&
  bool_decide (is_Some (interface_metric s (prefix_family (DestinationPrefix data)) (InterfaceLuid row))).
Definition row_metric (row : MIB_IPFORWARD_ROW2) : Z :=
  combined_metric (Metric row) (default 0 (interface_metric s (prefix_family (DestinationPrefix data)) (InterfaceLuid row))).
(** A longer prefix, or the same and a lower metric. *)
Definition better (r r' : MIB_IPFORWARD_ROW2) : Prop :=
  PrefixLength (DestinationPrefix r') < PrefixLength (DestinationPrefix r) ∨
  (PrefixLength (DestinationPrefix r') = PrefixLength (DestinationPrefix r) ∧ row_metric r < row_metric r').
(** The first of the best rows of a table. *)
Definition is_best (row : MIB_IPFORWARD_ROW2) (table : list MIB_IPFORWARD_ROW2) : Prop :=
  usable row = true ∧ ∃ l k, table = l ++ row :: k ∧
    (∀ r, r ∈ l → usable r = true → better row r) ∧ (∀ r, r ∈ k → usable r = true → ¬ better r row).
Definition chosen (row : MIB_IPFORWARD_ROW2) : candidate :=
  mkCandidate (NextHop row)
    (if PrefixLength (DestinationPrefix row) =? PrefixLength (DestinationPrefix data) then 0 else InterfaceLuid row)
    (PrefixLength (DestinationPrefix row)) (row_metric row).
Definition no_way : candidate := mkCandidate (no_hop (prefix_family (DestinationPrefix data))) 0 (-1) ULONG_MAX.

Lemma consider_unusable b row : usable row = false → consider s data b row = b.
Proof.
  unfold usable, consider. destruct (InterfaceLuid row =? m_luid s); [done|]. destruct (_ <? bestMatch b); [done|].
  destruct ((Protocol row =? Protocol data) && (Metric row =? Metric data)); [done|].
  destruct (routeContainsDest _ _); [|done]. cbn [negb andb]. by destruct (interface_metric _ _ _).
Qed.
Lemma consider_usable b row : usable row = true → consider s data b row =
  if PrefixLength (DestinationPrefix row) <? bestMatch b then b
  else if (PrefixLength (DestinationPrefix row) =? bestMatch b) && (bestMetric b <=? row_metric row) then b else chosen row.
Proof.
  unfold usable, consider, chosen, row_metric. intros H. apply andb_true_iff in H as [H [m ->]%bool_decide_eq_true].
  apply andb_true_iff in H as [[H1 H2]%andb_true_iff ->]. apply negb_true_iff in H1 as ->. apply negb_true_iff in H2 as ->. done.
Qed.
Lemma better_trans r r' r'' : better r r' → ¬ better r'' r' → better r r''.
Proof. unfold better. lia. Qed.

Lemma best_route_spec table : Forall (λ row, 0 ≤ PrefixLength (DestinationPrefix row)) table →
  (best_route s data table = no_way ∧ ∀ row, row ∈ table → usable row = false) ∨
  (∃ row, is_best row table ∧ best_route s data table = chosen row).
Proof.
  unfold best_route. fold no_way. induction table as [|row table IH] using rev_ind; intros Hw.
  { left. split; [done|]. intros row Hr. by apply not_elem_of_nil in Hr. }
  apply Forall_app in Hw as [Hw Hrow]. rewrite Forall_singleton in Hrow. rewrite foldl_app. cbn [foldl].
  destruct (usable row) eqn:Hu.
  - rewrite consider_usable by done. destruct (IH Hw) as [[-> Hno]|(r & (Hr & l & k & -> & Hl & Hk) & ->)].
    + cbn [bestMatch bestMetric no_way]. right. exists row.
      assert ((PrefixLength (DestinationPrefix row) <? -1) = false) as -> by (apply Z.ltb_ge; lia).
      assert ((PrefixLength (DestinationPrefix row) =? -1) = false) as -> by (apply Z.eqb_neq; lia). cbn [andb].
      split; [|done]. split; [done|]. exists table, []. split; [done|]. split.
      * intros r Hr Hru. by rewrite Hno in Hru.
      * intros r Hr. by apply not_elem_of_nil in Hr.
    + cbn [bestMatch bestMetric chosen]. right.
      assert (better row r ∨ ¬ better row r) as [Hb|Hb] by (unfold better; lia).
      * exists row. assert ((PrefixLength (DestinationPrefix row) <? PrefixLength (DestinationPrefix r)) = false) as ->
          by (apply Z.ltb_ge; unfold better in Hb; lia).
        assert ((PrefixLength (DestinationPrefix row) =? PrefixLength (DestinationPrefix r)) && (row_metric r <=? row_metric row) = false) as ->
          by (apply andb_false_iff; rewrite Z.eqb_neq, Z.leb_gt; unfold better in Hb; lia).
        split; [|done]. split; [done|]. exists (l ++ r :: k), []. split; [done|].
        split; [|intros ? Hin; by apply not_elem_of_nil in Hin].
        intros x Hx Hxu. apply elem_of_app in Hx as [Hx|[->|Hx]%elem_of_cons]; [|done|].
        -- pose proof (Hl x Hx Hxu). unfold better in *. lia.
        -- pose proof (Hk x Hx Hxu). by eapply better_trans.
      * exists r. split.
        -- split; [done|]. exists l, (k ++ [row]). split; [by rewrite <- app_assoc|]. split; [done|].
           intros x [Hx|Hx]%elem_of_app; [by apply Hk|]. apply list_elem_of_singleton in Hx as ->. by intros _.
        -- destruct (Z.ltb_spec (PrefixLength (DestinationPrefix row)) (PrefixLength (DestinationPrefix r))); [done|].
           assert ((PrefixLength (DestinationPrefix row) =? PrefixLength (DestinationPrefix r)) && (row_metric r <=? row_metric row) = true) as ->
             by (apply andb_true_iff; rewrite Z.eqb_eq, Z.leb_le; unfold better in Hb; lia). done.
  - rewrite consider_unusable by done. destruct (IH Hw) as [[-> Hno]|(r & (Hr & l & k & -> & Hl & Hk) & ->)].
    + left. split; [done|]. intros r [Hr|Hr]%elem_of_app; [by apply Hno|]. by apply list_elem_of_singleton in Hr as ->.
    + right. exists r. split; [|done]. split; [done|]. exists l, (k ++ [row]). split; [by rewrite <- app_assoc|]. split; [done|].
      intros x [Hx|Hx]%elem_of_app; [by apply Hk|]. apply list_elem_of_singleton in Hx as ->. by rewrite Hu.
Qed.
End best.

(** [combined_metric] is the sum, bounded by the width of the type. *)
Lemma combined_metric_saturates metric interface :
  0 ≤ metric ≤ ULONG_MAX → 0 ≤ interface ≤ ULONG_MAX → combined_metric metric interface = Z.min (metric + interface) ULONG_MAX.
Proof.
  unfold combined_metric, ULONG_MAX. intros Hm Hi. cbv zeta. change (2 ^ 32) with 4294967296.
  destruct (Z.lt_ge_cases (metric + interface) 4294967296) as [Hlt|Hge].
  - rewrite Z.mod_small by lia. assert ((metric + interface <? metric) = false) as -> by (apply Z.ltb_ge; lia). lia.
  - replace (metric + interface) with (metric + interface - 4294967296 + 1 * 4294967296) at 1 2 by lia.
    rewrite Z.mod_add, Z.mod_small by lia.
    assert ((metric + interface - 4294967296 <? metric) = true) as -> by (apply Z.ltb_lt; lia). lia.
Qed.

(** ** What is left in the system's table *)
Definition route_key : Type := IP_ADDRESS_PREFIX * Z * SOCKADDR_INET.
Definition key_of (row : MIB_IPFORWARD_ROW2) : route_key := (DestinationPrefix row, InterfaceLuid row, NextHop row).
Definition key_luid (k : route_key) : Z := k.1.2.
(** A deletion that leaves no such route. *)
Definition went_well (result : Z) : bool := (result =? NO_ERROR) || (result =? ERROR_NOT_FOUND).
(** The routes in the table that were created here, and those of them the system
    refused to delete when it was last asked to. *)
Class RouteView (W : Type) := { ours : W → gset route_key; kept : W → gset route_key }.
(** Reading a table leaves the routes as they are; a route comes with a creation
    that succeeds, and goes with a deletion that does not fail. *)
Class RouteLaws (W : Type) {I : IpHelper W} {V : RouteView W} : Prop := {
  table_law family w : ours (GetIpForwardTable2 family w).2 = ours w ∧ kept (GetIpForwardTable2 family w).2 = kept w;
  interface_law family w : ours (GetIpInterfaceTable family w).2 = ours w ∧ kept (GetIpInterfaceTable family w).2 = kept w;
  create_law row w : kept (CreateIpForwardEntry2 row w).2 = kept w ∧ ours (CreateIpForwardEntry2 row w).2 =
    if (CreateIpForwardEntry2 row w).1 =? NO_ERROR then {[key_of row]} ∪ ours w else ours w;
  delete_law row w :
    if went_well (DeleteIpForwardEntry2 row w).1
    then ours (DeleteIpForwardEntry2 row w).2 = ours w ∖ {[key_of row]} ∧ kept (DeleteIpForwardEntry2 row w).2 = kept w ∖ {[key_of row]}
    else ours (DeleteIpForwardEntry2 row w).2 = ours w ∧ kept (DeleteIpForwardEntry2 row w).2 = {[key_of row]} ∪ kept w;
}.
(** A route the system may refuse to create. *)
Definition refuses {W} {I : IpHelper W} (row : MIB_IPFORWARD_ROW2) : Prop := ∃ w, (CreateIpForwardEntry2 row w).1 ≠ NO_ERROR.

Section loops.
Context {S V : Type} (table : S → gmap IPAddress V).
(** A loop over the entries of a table whose turns change their own entry only. *)
Lemma for_entries (Inv : S → Prop) (Post : V → option V → Prop) (body : IPAddress * V → stM S unit) (s : S) :
  Inv s →
  (∀ p d s', table s !! p = Some d → Inv s' → table s' !! p = Some d →
    leads (body (p, d)) s' (λ _ s'', Inv s'' ∧ (∀ q, q ≠ p → table s'' !! q = table s' !! q) ∧ Post d (table s'' !! p))) →
  leads (for_each (map_to_list (table s)) body) s (λ _ s', Inv s' ∧
    ∀ p, match table s !! p with Some d => Post d (table s' !! p) | None => table s' !! p = None end).
Proof.
  intros Hs Hbody. set (l := map_to_list (table s)).
  assert (∀ l s0, NoDup l.*1 → Inv s0 → (∀ p d, (p, d) ∈ l → table s !! p = Some d) → (∀ p d, (p, d) ∈ l → table s0 !! p = Some d) →
    leads (for_each l body) s0 (λ _ s', Inv s' ∧ (∀ p, p ∉ l.*1 → table s' !! p = table s0 !! p) ∧
      ∀ p d, (p, d) ∈ l → Post d (table s' !! p))) as Hl.
  { clear l. intros l. induction l as [|[p d] l IH]; intros s0 Hn H0 Hof Hin.
    - split_and!; [done..|]. intros p d Hp. by apply not_elem_of_nil in Hp.
    - cbn [for_each]. apply NoDup_cons in Hn as [Hp Hn]. apply leads_bind.
      eapply leads_mono; [apply (Hbody p d s0); [apply Hof; by left|done|apply Hin; by left]|]. intros _ s1 (H1 & Hkeep & Hpost).
      eapply leads_mono; [apply (IH s1 Hn H1)|].
      + intros q e Hq. apply Hof. by right.
      + intros q e Hq. rewrite Hkeep; [apply Hin; by right|]. intros ->. apply Hp. apply list_elem_of_fmap. by exists (p, e).
      + intros _ s2 (H2 & Hout & Hdone). split_and!; [done| |].
        * intros q [Hq1 Hq2]%not_elem_of_cons. by rewrite Hout, Hkeep.
        * intros q e [[= -> ->]|Hq]%elem_of_cons; [by rewrite Hout|by apply Hdone]. }
  eapply leads_mono; [apply (Hl l s)|].
  - apply NoDup_fst_map_to_list.
  - done.
  - intros p d. apply elem_of_map_to_list.
  - intros p d. apply elem_of_map_to_list.
  - intros _ s' (H1 & Hout & Hdone). split; [done|]. intros p. destruct (table s !! p) as [d|] eqn:E.
    + apply Hdone. by apply elem_of_map_to_list.
    + rewrite Hout; [done|]. intros ([q d] & -> & Hq%elem_of_map_to_list)%list_elem_of_fmap. cbn in E. congruence.
Qed.
End loops.

(** *** How the routes change *)
Section moves.
Context {W : Type} {I : IpHelper W} {V : RouteView W} {L : RouteLaws W}.

(** From [w] to [w'] the routes of [K] were to be deleted, then those of [N] to be
    created: what is left of the first is what the system refused to delete. *)
Definition moves (K N : route_key → Prop) (w w' : W) : Prop := ∀ k,
  (k ∈ ours w' → N k ∨ (k ∈ ours w ∧ (K k → k ∈ kept w'))) ∧
  (¬ K k → k ∈ ours w → k ∈ ours w') ∧ (¬ K k → k ∈ kept w → k ∈ kept w').
Definition none : route_key → Prop := λ _, False.

Lemma moves_refl w : moves none none w w.
Proof. intros k. unfold none. naive_solver. Qed.
Lemma moves_trans K1 N1 K2 N2 w w1 w2 : (∀ k, K2 k ∨ ¬ K2 k) → moves K1 N1 w w1 → moves K2 N2 w1 w2 →
  moves (λ k, K1 k ∨ K2 k) (λ k, N1 k ∨ N2 k) w w2.
Proof. intros Hd H1 H2 k. specialize (H1 k). specialize (H2 k). specialize (Hd k). naive_solver. Qed.
Lemma moves_as K N K' N' w w' : moves K N w w' → (∀ k, K k ↔ K' k) → (∀ k, N k → N' k) → moves K' N' w w'.
Proof. intros H HK HN k. specialize (H k). specialize (HK k). specialize (HN k). naive_solver. Qed.
Lemma moves_read w w' : ours w' = ours w ∧ kept w' = kept w → moves none none w w'.
Proof. intros [E1 E2] k. rewrite E1, E2. apply moves_refl. Qed.
Lemma moves_delete row w : moves (eq (key_of row)) none w (DeleteIpForwardEntry2 row w).2.
Proof.
  intros k. pose proof (delete_law row w) as Hl. unfold none. destruct (went_well _); destruct Hl as [-> ->]; [|set_solver].
  split_and!; set_solver.
Qed.
Lemma moves_create row w : moves none (eq (key_of row)) w (CreateIpForwardEntry2 row w).2 ∧
  (key_of row ∈ ours (CreateIpForwardEntry2 row w).2 ∨ refuses row).
Proof.
  pose proof (create_law row w) as [Hk Ho]. split.
  - intros k. rewrite Hk, Ho. unfold none. destruct (_ =? NO_ERROR); set_solver.
  - rewrite Ho. destruct (Z.eqb_spec (CreateIpForwardEntry2 row w).1 NO_ERROR); [left; set_solver|right; by exists w].
Qed.
Lemma key_decidable row (k : route_key) : key_of row = k ∨ key_of row ≠ k.
Proof. destruct (decide (key_of row = k)); auto. Qed.
End moves.

Section behaviour.
Context {W : Type} {I : IpHelper W} {V : RouteView W} {L : RouteLaws W} {H : HostKinds}.
Abbreviation monitor := (WindowsRouteMonitor W).

(** A call of the system changes nothing here. *)
Lemma system_run {X} (f : W → X * W) (s : monitor) : system f s = ((f (net s)).1, with_net (f (net s)).2 s).
Proof. unfold system. by destruct (f (net s)). Qed.
(** Nothing but the captured routes and the system may have changed. *)
Record clones_only (s s' : monitor) : Prop := {
  same_exclusions : m_exclusionRoutes s' = m_exclusionRoutes s;
  same_metrics4 : m_interfaceMetricsIpv4 s' = m_interfaceMetricsIpv4 s;
  same_metrics6 : m_interfaceMetricsIpv6 s' = m_interfaceMetricsIpv6 s;
  same_capture : m_defaultRouteCapture s' = m_defaultRouteCapture s;
  same_luid : m_luid s' = m_luid s;
}.
#[local] Instance clones_only_preorder : PreOrder clones_only.
Proof. split; [done|]. intros ??? [] []. split; congruence. Qed.

(** The route a row stands for, if it was created. *)
Definition own (d : MIB_IPFORWARD_ROW2) (k : route_key) : Prop := InterfaceLuid d ≠ 0 ∧ k = key_of d.
(** The routes of the two tables. *)
Definition recorded (s : monitor) (k : route_key) : Prop :=
  (∃ p d, m_exclusionRoutes s !! p = Some d ∧ own d k) ∨ (∃ p d, m_clonedRoutes s !! p = Some d ∧ k = key_of d).
(** Every route of ours is in one of them, but those the system refused to delete. *)
Definition tracked (s : monitor) : Prop := ∀ k, k ∈ ours (net s) → recorded s k ∨ k ∈ kept (net s).
(** A captured route goes through the tunnel, under its own name. *)
Definition into_tunnel (s : monitor) (p : IPAddress) (d : MIB_IPFORWARD_ROW2) : Prop := InterfaceLuid d = m_luid s ∧ prefix_key d = p.
(** Between two calls no captured route is counted. *)
Definition resting (s : monitor) : Prop := ∀ p d, m_clonedRoutes s !! p = Some d → Age d = 0 ∧ into_tunnel s p d.
Definition counted (s : monitor) : Prop := ∀ p d, m_clonedRoutes s !! p = Some d → 0 ≤ Age d ∧ into_tunnel s p d.
(** An exclusion leads to what it is called, and past the tunnel. *)
Definition named (s : monitor) : Prop := ∀ p d, m_exclusionRoutes s !! p = Some d →
  DestinationPrefix d = prefix_of p ∧ (InterfaceLuid d = 0 ∨ InterfaceLuid d ≠ m_luid s).
Record sound (s : monitor) : Prop := {
  sound_tracked : tracked s;
  sound_resting : resting s;
  sound_named : named s;
}.

Lemma own_decidable d k : own d k ∨ ¬ own d k.
Proof. unfold own. destruct (decide (InterfaceLuid d = 0)), (decide (k = key_of d)); naive_solver. Qed.
Lemma tracked_moves (s s' : monitor) K N : moves K N (net s) (net s') → (∀ k, K k ∨ ¬ K k) →
  (∀ k, N k → recorded s' k) → (∀ k, ¬ K k → recorded s k → recorded s' k) → tracked s → tracked s'.
Proof.
  intros Hm Hd HN HK Ht k Hk. destruct (Hm k) as (H1 & _ & H3). destruct (H1 Hk) as [?|[Ho Hkept]]; [left; by apply HN|].
  destruct (Hd k) as [HKk|HKk]; [right; by apply Hkept|]. destruct (Ht k Ho) as [?|?]; [left; by apply HK|right; by apply H3].
Qed.
(** Nothing is recorded in another way. *)
Lemma sound_system {X} (f : W → X * W) s : (∀ w, ours (f w).2 = ours w ∧ kept (f w).2 = kept w) → sound s → sound (with_net (f (net s)).2 s).
Proof.
  intros Hf [Ht Hr Hn]. destruct (Hf (net s)) as [E1 E2]. split; [|done..]. intros k Hk. cbn in *. rewrite E1 in Hk. rewrite E2. by apply Ht.
Qed.

(** *** What a row of the table does *)
Definition into (s : monitor) (row : MIB_IPFORWARD_ROW2) : MIB_IPFORWARD_ROW2 := static_route (m_luid s) (DestinationPrefix row) 0.
Inductive captures (row : MIB_IPFORWARD_ROW2) (s : monitor) : monitor → Prop :=
  | RowPassed : captured s row = false → captures row s s
  | RowCounted d : captured s row = true → m_clonedRoutes s !! prefix_key row = Some d →
      captures row s (with_clones <[prefix_key row := older d]> s)
  | RowCreated : captured s row = true → m_clonedRoutes s !! prefix_key row = None →
      key_of (into s row) ∈ ours (CreateIpForwardEntry2 (into s row) (net s)).2 →
      captures row s (with_clones <[prefix_key row := older (into s row)]> (with_net (CreateIpForwardEntry2 (into s row) (net s)).2 s))
  | RowDeclined : captured s row = true → m_clonedRoutes s !! prefix_key row = None → refuses (into s row) →
      ours (CreateIpForwardEntry2 (into s row) (net s)).2 = ours (net s) →
      captures row s (with_net (CreateIpForwardEntry2 (into s row) (net s)).2 s).
Inductive captures_all : list MIB_IPFORWARD_ROW2 → monitor → monitor → Prop :=
  | NoRows s : captures_all [] s s
  | MoreRows row table s s1 s2 : captures row s s1 → captures_all table s1 s2 → captures_all (row :: table) s s2.

Lemma capture_row_captures row s : leads (capture_row row) s (λ _ s', captures row s s').
Proof.
  unfold capture_row. apply leads_bind. unfold leads at 1. cbn [get fst snd].
  destruct (captured s row) eqn:Ec; cbn [negb]; [|by apply leads_ret, RowPassed].
  destruct (m_clonedRoutes s !! prefix_key row) as [d|] eqn:Ed; [by apply RowCounted|].
  fold (into s row). apply leads_bind. unfold leads at 1. rewrite system_run. cbn [fst snd].
  pose proof (create_law (into s row) (net s)) as [_ Ho]. destruct (Z.eqb_spec (CreateIpForwardEntry2 (into s row) (net s)).1 NO_ERROR) as [E|Hne].
  - unfold leads, modify. cbn [fst snd]. apply RowCreated; [done..|]. rewrite Ho. set_solver.
  - apply leads_ret, RowDeclined; [done..| |done]. by exists (net s).
Qed.
Lemma capture_rows_captures table s : leads (for_each table capture_row) s (λ _ s', captures_all table s s').
Proof.
  revert s. induction table as [|row table IH]; intros s; [apply leads_ret, NoRows|]. cbn [for_each]. apply leads_bind.
  eapply leads_mono; [apply capture_row_captures|]. cbn beta. intros _ s1 H1. eapply leads_mono; [apply IH|]. cbn beta. intros _ s2 H2. by eapply MoreRows.
Qed.

(** Captured routes only come, with their routes in the system. *)
Record grown (s s' : monitor) : Prop := {
  grown_from k : k ∈ ours (net s') → k ∈ ours (net s) ∨ ∃ p d, m_clonedRoutes s' !! p = Some d ∧ k = key_of d;
  grown_ours : ours (net s) ⊆ ours (net s');
  grown_kept : kept (net s) ⊆ kept (net s');
  grown_clones p d : m_clonedRoutes s !! p = Some d → ∃ d', m_clonedRoutes s' !! p = Some d' ∧ key_of d' = key_of d;
  grown_new p d : m_clonedRoutes s' !! p = Some d → m_clonedRoutes s !! p = None → key_of d ∈ ours (net s');
}.
#[local] Instance grown_preorder : PreOrder grown.
Proof.
  split; [intros s; split; naive_solver|]. intros s s1 s2 [A1 A2 A3 A4 A5] [B1 B2 B3 B4 B5]. split; [|set_solver..| |].
  - intros k Hk. destruct (B1 k Hk) as [Hk1|?]; [|by right]. destruct (A1 k Hk1) as [?|(p & d & Hp & ->)]; [by left|].
    destruct (B4 p d Hp) as (d' & ? & E). right. exists p, d'. by rewrite E.
  - intros p d Hp. destruct (A4 p d Hp) as (d1 & Hp1 & E1). destruct (B4 p d1 Hp1) as (d2 & ? & E2). exists d2. by rewrite E2.
  - intros p d Hp Hn. destruct (m_clonedRoutes s1 !! p) as [d1|] eqn:E1; [|by eapply B5].
    destruct (B4 p d1 E1) as (d2 & Hp2 & E2). rewrite Hp in Hp2. injection Hp2 as <-. rewrite E2. apply B2. by eapply A5.
Qed.
Lemma captures_grown row s s' : captures row s s' → grown s s' ∧ clones_only s s' ∧ (counted s → counted s').
Proof.
  assert (∀ d, 0 ≤ Age (older d)) as Ha by (intros d; cbn; apply Z.mod_pos_bound; lia).
  intros [Hc|d Hc Hd|Hc Hd Ho|Hc Hd Hr Ho]; [done| | |]; (split; [|split; [done|]]).
  - split; cbn; [naive_solver..| |].
    + intros p e Hp. destruct (decide (p = prefix_key row)) as [->|Hne].
      * rewrite lookup_insert_eq. exists (older d). split; [done|]. rewrite Hd in Hp. by injection Hp as <-.
      * rewrite lookup_insert_ne by done. by exists e.
    + intros p e [[<- <-]|[_ Hp]]%lookup_insert_Some Hn; congruence.
  - intros Hs p e. cbn. intros [[<- <-]|[_ Hp]]%lookup_insert_Some; [|by apply Hs]. split; [apply Ha|]. apply (Hs _ _ Hd).
  - destruct (moves_create (into s row) (net s)) as [Hm _]. split; cbn.
    + intros k Hk. destruct (Hm k) as [H1 _]. destruct (H1 Hk) as [<-|[? _]]; [|by left]. right.
      exists (prefix_key row), (older (into s row)). by rewrite lookup_insert_eq.
    + intros k Hk. apply (Hm k); [by intros []|done].
    + intros k Hk. apply (Hm k); [by intros []|done].
    + intros p e Hp. rewrite lookup_insert_ne by congruence. by exists e.
    + intros p e [[<- <-]|[_ Hp]]%lookup_insert_Some Hn; [done|congruence].
  - intros Hs p e. cbn. intros [[<- <-]|[_ Hp]]%lookup_insert_Some; [|by apply Hs]. split; [apply Ha|done].
  - destruct (moves_create (into s row) (net s)) as [Hm _]. split; cbn; [rewrite Ho; by left|by rewrite Ho| |naive_solver|congruence].
    intros k Hk. apply (Hm k); [by intros []|done].
  - done.
Qed.
Lemma captures_all_grown table s s' : captures_all table s s' → grown s s' ∧ clones_only s s' ∧ (counted s → counted s').
Proof.
  induction 1 as [s|row table s s1 s2 Hc Hall (G2 & C2 & K2)]; [done|]. destruct (captures_grown row s s1 Hc) as (G1 & C1 & K1).
  split_and!; [by transitivity s1..|auto].
Qed.
Lemma grown_tracked s s' : grown s s' → clones_only s s' → tracked s → tracked s'.
Proof.
  intros G C Ht k Hk. destruct (grown_from _ _ G k Hk) as [Ho|?]; [|left; by right].
  destruct (Ht k Ho) as [[(p & d & Hp & Hd)|(p & d & Hp & ->)]|?].
  - left. left. exists p, d. by rewrite (same_exclusions _ _ C).
  - destruct (grown_clones _ _ G p d Hp) as (d' & ? & E). left. right. exists p, d'. by rewrite E.
  - right. by apply (grown_kept _ _ G).
Qed.

(** What a captured route becomes. *)
Definition released (family : Z) (d : MIB_IPFORWARD_ROW2) : option MIB_IPFORWARD_ROW2 :=
  if 0 <? Age d then Some (with_age 0 d)
  else if negb (family =? AF_UNSPEC) && negb (prefix_family (DestinationPrefix d) =? family) then Some d else None.
(** The routes that were captured and are no more. *)
Definition gone (s s' : monitor) (k : route_key) : Prop :=
  ∃ p d, m_clonedRoutes s !! p = Some d ∧ m_clonedRoutes s' !! p = None ∧ k = key_of d.
Lemma key_with_age n d : key_of (with_age n d) = key_of d.
Proof. done. Qed.
Lemma release_rows family s :
  leads (for_each (map_to_list (m_clonedRoutes s)) (release_row family)) s (λ _ s', (moves (gone s s') none (net s) (net s') ∧ clones_only s s') ∧
    ∀ p, match m_clonedRoutes s !! p with
         | Some d => m_clonedRoutes s' !! p = released family d
         | None => m_clonedRoutes s' !! p = None
         end).
Proof.
  apply (for_entries m_clonedRoutes (λ s', moves (gone s s') none (net s) (net s') ∧ clones_only s s') (λ d o, o = released family d)).
  { split; [|done]. eapply moves_as; [apply moves_refl| |done]. intros k. unfold gone, none. naive_solver. }
  intros p d s1 Hp0 [Hm Hf] Hp. unfold release_row, released. destruct (0 <? Age d).
  { unfold leads, modify. cbn [fst snd]. split; [split; [|by etrans; [exact Hf|]]|].
    - eapply moves_as; [exact Hm| |done]. intros k. unfold gone. cbn. f_equiv. intros q. f_equiv. intros e.
      destruct (decide (q = p)) as [->|Hne]; [rewrite Hp, lookup_insert_eq; naive_solver|by rewrite lookup_insert_ne].
    - cbn. rewrite lookup_insert_eq. split; [|done]. intros. by rewrite lookup_insert_ne. }
  destruct (negb _ && negb _); [by apply leads_ret|].
  apply leads_bind. unfold leads at 1. rewrite system_run. cbn [fst snd]. unfold leads, modify. cbn [fst snd].
  split; [split; [|by etrans; [exact Hf|]]|].
  - eapply moves_as; [eapply (moves_trans _ _ (eq (key_of d))); [apply key_decidable|exact Hm|apply moves_delete]| |unfold none; naive_solver].
    intros k. unfold gone. cbn. split.
    + intros [(q & e & Hq & Hq1 & ->)|<-]; [exists q, e|exists p, d; by rewrite lookup_delete_eq].
      split_and!; [done| |done]. rewrite lookup_delete_ne; [done|]. intros ->. congruence.
    + intros (q & e & Hq & Hq1 & ->). destruct (decide (q = p)) as [->|Hne]; [right; congruence|].
      rewrite lookup_delete_ne in Hq1 by done. left. by exists q, e.
  - cbn. rewrite lookup_delete_eq. split; [|done]. intros. by rewrite lookup_delete_ne.
Qed.
Lemma gone_decidable s s' k : counted s → gone s s' k ∨ ¬ gone s s' k.
Proof.
  intros Hc. set (p := mkIPAddress (prefixToAddress k.1.1) (PrefixLength k.1.1)).
  assert (∀ q d, m_clonedRoutes s !! q = Some d → k = key_of d → q = p) as Hq by (intros q d Hd ->; by destruct (Hc q d Hd) as (_ & _ & <-)).
  destruct (m_clonedRoutes s !! p) as [d|] eqn:E, (m_clonedRoutes s' !! p) as [d'|] eqn:E'; [right|destruct (decide (k = key_of d))|right..].
  - intros (q & e & Hd & Hn & Hk). rewrite (Hq q e Hd Hk) in Hn. congruence.
  - left. by exists p, d.
  - right. intros (q & e & Hd & Hn & Hk). rewrite (Hq q e Hd Hk) in Hd. congruence.
  - intros (q & e & Hd & Hn & Hk). rewrite (Hq q e Hd Hk) in Hd. congruence.
  - intros (q & e & Hd & Hn & Hk). rewrite (Hq q e Hd Hk) in Hd. congruence.
Qed.

(** *** The table of captured routes *)

(** From [s] to [s'] captured routes came and went with their routes in the
    system; routes that are not captured ones stay. *)
Record recaptured (s s' : monitor) : Prop := {
  recaptured_only : clones_only s s';
  recaptured_sound : sound s';
  recaptured_there p d : m_clonedRoutes s' !! p = Some d → key_of d ∈ ours (net s') ∨
    ∃ d0, m_clonedRoutes s !! p = Some d0 ∧ key_of d0 = key_of d ∧ key_of d ∉ ours (net s);
  recaptured_gone k : gone s s' k → k ∈ ours (net s') → k ∈ kept (net s');
  recaptured_others k : key_luid k ≠ m_luid s → k ∈ ours (net s) → k ∈ ours (net s');
}.
Lemma resting_counted s : resting s → counted s.
Proof. intros Hr p d Hp. by destruct (Hr p d Hp) as [-> ?]. Qed.
Lemma recaptured_refl s : sound s → recaptured s s.
Proof.
  intros Hs. split; [done|done| | |done].
  - intros p d Hp. destruct (decide (key_of d ∈ ours (net s))); [by left|right; by exists d].
  - intros k (p & d & E & E' & _). congruence.
Qed.
Lemma capture_then_release s s1 s2 : sound s → grown s s1 → clones_only s s1 → counted s1 →
  moves (gone s1 s2) none (net s1) (net s2) → clones_only s1 s2 →
  (∀ p d, m_clonedRoutes s2 !! p = Some d → Age d = 0 ∧ ∃ d1, m_clonedRoutes s1 !! p = Some d1 ∧ key_of d1 = key_of d) → recaptured s s2.
Proof.
  intros [Ht Hr Hn] G C1 K1 M C2 Hrel.
  assert (∀ p d, m_clonedRoutes s2 !! p = Some d → into_tunnel s1 p d ∧ ¬ gone s1 s2 (key_of d)) as Hstay.
  { intros p d Hp. destruct (Hrel p d Hp) as (_ & d1 & Hp1 & E). destruct (K1 p d1 Hp1) as (_ & Hi).
    injection E as Ed El _. split; [unfold into_tunnel, prefix_key in *; by rewrite <- El, <- Ed|].
    intros (q & e & Hq & Hq2 & Hk). destruct (K1 q e Hq) as (_ & _ & <-). destruct Hi as [_ <-]. injection Hk as Hk _ _.
    unfold prefix_key in *. rewrite Ed, Hk in Hp. congruence. }
  split.
  - by transitivity s1.
  - split.
    + eapply (tracked_moves s1); [exact M|intros k; by apply gone_decidable|by intros ? []| |by eapply grown_tracked].
      intros k Hg [(p & d & Hp & Hd)|(p & d & Hp & ->)].
      * left. exists p, d. by rewrite (same_exclusions _ _ C2).
      * right. destruct (m_clonedRoutes s2 !! p) as [d2|] eqn:E; [|destruct Hg; by exists p, d].
        destruct (Hrel p d2 E) as (_ & d1 & Hp1 & Ek). rewrite Hp in Hp1. injection Hp1 as <-. exists p, d2. by rewrite Ek.
    + intros p d Hp. destruct (Hstay p d Hp) as [Hi _]. split; [apply (Hrel p d Hp)|]. unfold into_tunnel in *. by rewrite (same_luid _ _ C2).
    + intros p d. rewrite (same_exclusions _ _ C2), (same_exclusions _ _ C1), (same_luid _ _ C2), (same_luid _ _ C1). apply Hn.
  - intros p d Hp. destruct (Hstay p d Hp) as [_ Hg]. destruct (Hrel p d Hp) as (_ & d1 & Hp1 & E).
    destruct (M (key_of d)) as (_ & M2 & _). destruct (m_clonedRoutes s !! p) as [d0|] eqn:E0.
    + destruct (decide (key_of d ∈ ours (net s))) as [Hin|Hout].
      * left. apply M2; [done|]. by apply (grown_ours _ _ G).
      * right. exists d0. split; [done|]. destruct (grown_clones _ _ G p d0 E0) as (d1' & Hp1' & E1). split; [congruence|done].
    + left. apply M2; [done|]. rewrite <- E. by apply (grown_new _ _ G p d1).
  - intros k (p & d & Hp & Hp2 & ->) Hk. destruct (grown_clones _ _ G p d Hp) as (d1 & Hp1 & E).
    destruct (M (key_of d)) as (M1 & _ & _). destruct (M1 Hk) as [[]|[_ Hkept]]. apply Hkept. exists p, d1. by rewrite E.
  - intros k Hk Hin. apply (M k); [|by apply (grown_ours _ _ G)]. intros (p & d & Hp & _ & ->). destruct (K1 p d Hp) as (_ & Hl & _).
    apply Hk. cbn. by rewrite Hl, (same_luid _ _ C1).
Qed.
Lemma capture_table_recaptures family table s : sound s →
  leads (capture_table family table) s (λ _ s', recaptured s s' ∧
    (m_defaultRouteCapture s = true → ∃ s1, captures_all table s s1 ∧ ∀ p,
       m_clonedRoutes s' !! p = match m_clonedRoutes s1 !! p with Some d => released family d | None => None end)).
Proof.
  intros Hs. unfold capture_table. apply leads_bind. unfold leads at 1. cbn [get fst snd].
  destruct (m_defaultRouteCapture s); cbn [negb]; [|apply leads_ret; split; [by apply recaptured_refl|done]].
  apply leads_bind. eapply leads_mono; [apply capture_rows_captures|]. cbn beta. intros _ s1 Hall.
  destruct (captures_all_grown table s s1 Hall) as (G & C1 & K1). specialize (K1 (resting_counted _ (sound_resting _ Hs))).
  apply leads_bind. unfold leads at 1. cbn [get fst snd]. eapply leads_mono; [apply release_rows|]. cbn beta. intros _ s2 [[M C2] Hrel].
  split; [|intros _; exists s1; split; [done|]; intros p; specialize (Hrel p); by destruct (m_clonedRoutes s1 !! p)].
  eapply capture_then_release; [done..|]. intros p d Hp. specialize (Hrel p). destruct (m_clonedRoutes s1 !! p) as [d1|] eqn:E; [|congruence].
  rewrite Hp in Hrel. unfold released in Hrel. destruct (K1 p d1 E) as [Ha _].
  destruct (Z.ltb_spec 0 (Age d1)); [injection Hrel as ->; split; [done|by exists d1]|].
  destruct (negb _ && negb _); [|done]. injection Hrel as ->. split; [lia|by exists d1].
Qed.
Lemma captured_routes_sound family s : sound s → leads (updateCapturedRoutes family) s (λ _ s', sound s').
Proof.
  intros Hs. unfold updateCapturedRoutes. apply leads_bind. unfold leads at 1. cbn [get fst snd].
  destruct (m_defaultRouteCapture s); cbn [negb]; [|by apply leads_ret].
  apply leads_bind. unfold leads at 1. rewrite system_run. cbn [fst snd].
  pose proof (sound_system _ s (table_law family) Hs) as Hs1. destruct (GetIpForwardTable2 family (net s)).1; [by apply leads_ret|].
  eapply leads_mono; [by apply capture_table_recaptures|]. intros _ s2 [Hr _]. apply Hr.
Qed.

(** *** Exclusions *)
Lemma best_way_past (s : monitor) data table : bestLuid (best_route s data table) = 0 ∨ bestLuid (best_route s data table) ≠ m_luid s.
Proof.
  unfold best_route. set (b := mkCandidate _ _ _ _).
  assert (bestLuid b = 0 ∨ bestLuid b ≠ m_luid s) as Hb by (by left). clearbody b. revert b Hb.
  induction table as [|row table IH]; intros b Hb; [done|]. cbn [foldl]. apply IH. unfold consider.
  destruct (Z.eqb_spec (InterfaceLuid row) (m_luid s)); [done|]. destruct (_ <? bestMatch b); [done|].
  destruct (_ && _); [done|]. destruct (negb _); [done|]. destruct (interface_metric _ _ _); [|done].
  destruct (_ && _); [done|]. cbn. destruct (_ =? _); auto.
Qed.
(** A route is in the system, or was not to be created, or could not be. *)
Definition placed (s : monitor) (d : MIB_IPFORWARD_ROW2) : Prop := InterfaceLuid d = 0 ∨ key_of d ∈ ours (net s) ∨ refuses d.
Lemma updated_row s data table :
  leads (updateExclusionRoute data table) s (λ d' s',
    s' = with_net (net s') s ∧
    (InterfaceLuid d' = bestLuid (best_route s data table) ∧ NextHop d' = nexthop (best_route s data table) ∧
     DestinationPrefix d' = DestinationPrefix data ∧ Metric d' = Metric data ∧ Protocol d' = Protocol data) ∧
    ((d' = data ∧ net s' = net s) ∨ (moves (own data) (own d') (net s) (net s') ∧ placed s' d'))).
Proof.
  unfold updateExclusionRoute. apply leads_bind. unfold leads at 1. cbn [get fst snd]. cbv zeta. set (b := best_route s data table).
  destruct ((InterfaceLuid data =? bestLuid b) && bool_decide (nexthop b = NextHop data)) eqn:E.
  { apply andb_true_iff in E as [E1%Z.eqb_eq E2%bool_decide_eq_true]. apply leads_ret. split; [by destruct s|]. split; [done|by left]. }
  set (d' := with_hop (bestLuid b) (nexthop b) data).
  assert (leads (if InterfaceLuid data =? 0 then mret tt else discard (system (DeleteIpForwardEntry2 data))) s (λ _ s1,
    s1 = with_net (net s1) s ∧ moves (own data) none (net s) (net s1))) as Hdel.
  { unfold own. destruct (Z.eqb_spec (InterfaceLuid data) 0) as [E0|E0].
    - apply leads_ret. split; [by destruct s|]. eapply moves_as; [apply moves_refl| |done]. unfold none. naive_solver.
    - unfold leads. rewrite discard_run, system_run. cbn [fst snd]. split; [done|]. cbn.
      eapply moves_as; [apply moves_delete| |done]. naive_solver. }
  apply leads_bind. eapply leads_mono; [exact Hdel|]. clear Hdel. cbn beta. intros _ s1 [E1 M1].
  apply leads_bind. destruct (InterfaceLuid d' =? 0) eqn:E0.
  - apply leads_ret, leads_ret. split; [done|]. split; [done|]. right. apply Z.eqb_eq in E0. split; [|by left].
    eapply moves_as; [exact M1|done|by intros ? []].
  - apply Z.eqb_neq in E0. unfold leads at 1. rewrite discard_run, system_run. cbn [fst snd]. apply leads_ret.
    destruct (moves_create d' (net s1)) as [M2 Hp]. split; [by rewrite E1|]. split; [done|]. right. split; [|right; exact Hp].
    eapply moves_as; [eapply (moves_trans _ _ none); [by right; intros []|exact M1|exact M2]| |]; unfold none, own; naive_solver.
Qed.
(** An exclusion in place of another of its name, or of none. *)
Lemma updated_sound s s' p data d' : sound s →
  (∀ d, m_exclusionRoutes s !! p = Some d → d = data) → named (with_exclusions <[p := d']> s) →
  (d' = data ∧ net s' = net s) ∨ moves (own data) (own d') (net s) (net s') →
  (∀ k, m_exclusionRoutes s !! p = None → ¬ own data k) →
  s' = with_net (net s') s → sound (with_exclusions <[p := d']> s').
Proof.
  intros [Ht Hr Hn] Hold Hnamed Hm Hnone E.
  assert (∀ k, ¬ own data k ∨ own d' k → recorded s k ∨ own d' k → recorded (with_exclusions <[p := d']> s') k) as Hrec.
  { intros k Hk [[(q & e & Hq & He)|(q & e & Hq & ->)]|Hown].
    - left. destruct (decide (q = p)) as [->|Hne].
      + rewrite (Hold e Hq) in He. destruct Hk as [|Hk]; [done|]. exists p, d'. cbn. by rewrite lookup_insert_eq.
      + exists q, e. cbn. rewrite lookup_insert_ne by done. by rewrite E.
    - right. exists q, e. by rewrite E.
    - left. exists p, d'. cbn. by rewrite lookup_insert_eq. }
  split; [|intros q e; cbn; rewrite E; apply Hr|intros q e; cbn; rewrite E; apply Hnamed].
  destruct Hm as [[-> En]|Hm].
  - intros k Hk. cbn in *. rewrite En in *. destruct (Ht k Hk) as [Hk1|?]; [left|by right]. apply Hrec; [|by left].
    destruct (own_decidable data k); auto.
  - eapply (tracked_moves s); [exact Hm|apply own_decidable| | |done]; intros k; [intros Hk|intros Hk ?]; apply Hrec; auto.
Qed.

Lemma metrics_sound family s : sound s →
  leads (updateInterfaceMetrics family) s (λ _ s', sound s' ∧ m_exclusionRoutes s' = m_exclusionRoutes s ∧
    m_clonedRoutes s' = m_clonedRoutes s ∧ m_luid s' = m_luid s ∧ m_defaultRouteCapture s' = m_defaultRouteCapture s ∧
    ours (net s') = ours (net s)).
Proof.
  intros Hs. unfold updateInterfaceMetrics. apply leads_bind. unfold leads at 1. rewrite system_run. cbn [fst snd].
  pose proof (sound_system _ s (interface_law family) Hs) as Hs1. destruct (interface_law family (net s)) as [Eo _].
  destruct (GetIpInterfaceTable family (net s)).1; [|by apply leads_ret]. unfold leads, modify. cbn [fst snd].
  split_and!; [|done..]. destruct Hs1. by split.
Qed.

Lemma fresh_named (s : monitor) p d' : named s → DestinationPrefix d' = prefix_of p → (InterfaceLuid d' = 0 ∨ InterfaceLuid d' ≠ m_luid s) →
  named (with_exclusions <[p := d']> s).
Proof. intros Hn H1 H2 q e. cbn. intros [[<- <-]|[_ Hq]]%lookup_insert_Some; [done|by apply Hn]. Qed.
Lemma add_sound prefix s : sound s → leads (addExclusionRoute prefix) s (λ _ s', sound s').
Proof.
  intros Hs. unfold addExclusionRoute. destruct (non_routeable _); [by apply leads_ret|].
  apply leads_bind. unfold leads at 1. cbn [get fst snd]. case_bool_decide as Hsome; [by apply leads_ret|]. cbv zeta.
  set (data := static_route 0 (prefix_of prefix) EXCLUSION_ROUTE_METRIC). set (family := prefix_family (prefix_of prefix)).
  apply leads_bind. unfold leads at 1. rewrite system_run. cbn [fst snd].
  pose proof (sound_system _ s (table_law family) Hs) as Hs1. revert Hs1. set (s1 := with_net _ s). intros Hs1.
  destruct (GetIpForwardTable2 family (net s)).1 as [table|]; [|by apply leads_ret].
  apply leads_bind. eapply leads_mono; [by apply metrics_sound|]. intros _ s2 (Hs2 & E2 & _).
  apply leads_bind. eapply leads_mono; [by apply capture_table_recaptures|]. intros _ s3 [[C3 Hs3 _ _ _] _].
  apply leads_bind. eapply leads_mono; [apply updated_row|]. intros d' s4 (E4 & (El & _ & Ed & _) & Ho).
  apply leads_bind. unfold leads at 1. cbn [modify fst snd]. apply leads_ret.
  assert (m_exclusionRoutes s3 !! prefix = None) as Hn.
  { rewrite (same_exclusions _ _ C3), E2. by apply eq_None_not_Some. }
  eapply (updated_sound s3 s4 prefix data); [done|congruence| |by destruct Ho as [?|[? _]]; [left|right]|by intros k _ []|done].
  apply fresh_named; [apply Hs3|by rewrite Ed|rewrite El; apply best_way_past].
Qed.
Lemma delete_sound prefix s : sound s → leads (deleteExclusionRoute prefix) s (λ _ s', sound s').
Proof.
  intros [Ht Hr Hn]. unfold deleteExclusionRoute. apply leads_bind. unfold leads at 1. cbn [get fst snd].
  destruct (m_exclusionRoutes s !! prefix) as [data|] eqn:E; [|by apply leads_ret].
  apply leads_bind. unfold leads at 1. cbn [modify fst snd]. apply leads_bind. unfold leads at 1. rewrite system_run. cbn [fst snd].
  apply leads_bind. eapply leads_mono; [apply captured_routes_sound|cbn beta; by intros _ s' ?; apply leads_ret]. split.
  - eapply (tracked_moves s); [apply moves_delete|apply key_decidable|by intros ? []| |done].
    intros k Hk [(q & e & Hq & He)|?]; [left|by right]. exists q, e. split; [|done]. cbn. rewrite lookup_delete_ne; [done|].
    intros ->. rewrite E in Hq. injection Hq as ->. destruct He as [_ ->]. done.
  - exact Hr.
  - intros p d. cbn. intros [_ Hp]%lookup_delete_Some. by apply Hn.
Qed.

(** Rows deleted one after the other. *)
Lemma delete_list_run (l : list (IPAddress * MIB_IPFORWARD_ROW2)) s :
  leads (for_each l (λ e : IPAddress * MIB_IPFORWARD_ROW2, discard (system (DeleteIpForwardEntry2 e.2)))) s (λ _ s',
    s' = with_net (net s') s ∧ moves (λ k, k ∈ key_of ∘ snd <$> l) none (net s) (net s')).
Proof.
  revert s. induction l as [|[p d] l IH]; intros s.
  - apply leads_ret. split; [by destruct s|]. eapply moves_as; [apply moves_refl| |done]. intros k. by rewrite elem_of_nil.
  - cbn [for_each]. apply leads_bind. unfold leads at 1. rewrite discard_run, system_run. cbn [fst snd].
    eapply leads_mono; [apply IH|]. cbn beta. intros _ s' (E & M). split; [by rewrite E|].
    eapply moves_as; [eapply moves_trans; [|apply (moves_delete d)|exact M]| |by intros ? [[]|[]]].
    + intros k. destruct (decide (k ∈ key_of ∘ snd <$> l)); auto.
    + intros k. rewrite fmap_cons, elem_of_cons. cbn. naive_solver.
Qed.
Lemma delete_rows_run (table : gmap IPAddress MIB_IPFORWARD_ROW2) s :
  leads (delete_rows table) s (λ _ s', s' = with_net (net s') s ∧
    moves (λ k, k ∈ key_of ∘ snd <$> map_to_list table) none (net s) (net s')).
Proof. apply delete_list_run. Qed.
Lemma table_keys (table : gmap IPAddress MIB_IPFORWARD_ROW2) p d : table !! p = Some d → key_of d ∈ key_of ∘ snd <$> map_to_list table.
Proof. intros Hp. apply list_elem_of_fmap. exists (p, d). split; [done|]. by apply elem_of_map_to_list. Qed.
Lemma flush_clones_sound s : sound s → leads flush_clones s (λ _ s', sound s' ∧ clones_only s s' ∧ m_clonedRoutes s' = ∅).
Proof.
  intros [Ht Hr Hn]. unfold flush_clones. apply leads_bind. unfold leads at 1. cbn [get fst snd].
  apply leads_bind. eapply leads_mono; [apply delete_rows_run|]. cbn beta. intros _ s1 (E & M). unfold leads, modify. cbn [fst snd].
  split_and!; [split|by rewrite E|done].
  - eapply (tracked_moves s); [exact M| |by intros ? []| |done].
    + intros k. destruct (decide (k ∈ key_of ∘ snd <$> map_to_list (m_clonedRoutes s))); auto.
    + intros k Hk [?|(p & d & Hp & ->)]; [left; cbn; by rewrite E|]. destruct Hk. by eapply table_keys.
  - intros p d. cbn. by rewrite lookup_empty.
  - cbn. rewrite E. exact Hn.
Qed.
Lemma flush_exclusions_sound s : sound s →
  leads flush_exclusions s (λ _ s', sound s' ∧ m_exclusionRoutes s' = ∅ ∧ m_clonedRoutes s' = m_clonedRoutes s).
Proof.
  intros [Ht Hr Hn]. unfold flush_exclusions. apply leads_bind. unfold leads at 1. cbn [get fst snd].
  apply leads_bind. eapply leads_mono; [apply delete_rows_run|]. cbn beta. intros _ s1 (E & M). unfold leads, modify. cbn [fst snd].
  split_and!; [split|done|by rewrite E].
  - eapply (tracked_moves s); [exact M| |by intros ? []| |done].
    + intros k. destruct (decide (k ∈ key_of ∘ snd <$> map_to_list (m_exclusionRoutes s))); auto.
    + intros k Hk [(p & d & Hp & Hd)|?]; [|right; cbn; by rewrite E]. destruct Hk. destruct Hd as [_ ->]. by eapply table_keys.
  - intros p d. cbn. rewrite E. apply Hr.
  - intros p d. cbn. by rewrite lookup_empty.
Qed.

(** Every exclusion follows the best route there is. *)
Definition follows (s : monitor) (table : list MIB_IPFORWARD_ROW2) (d : MIB_IPFORWARD_ROW2) : Prop :=
  InterfaceLuid d = bestLuid (best_route s d table) ∧ NextHop d = nexthop (best_route s d table).
Lemma best_route_frame (s s' : monitor) d d' table : m_luid s' = m_luid s →
  m_interfaceMetricsIpv4 s' = m_interfaceMetricsIpv4 s → m_interfaceMetricsIpv6 s' = m_interfaceMetricsIpv6 s →
  DestinationPrefix d' = DestinationPrefix d → Metric d' = Metric d → Protocol d' = Protocol d →
  best_route s' d' table = best_route s d table.
Proof.
  intros E1 E2 E3 E4 E5 E6. unfold best_route. rewrite E4. generalize (mkCandidate (no_hop (prefix_family (DestinationPrefix d))) 0 (-1) ULONG_MAX) as b.
  induction table as [|row table IH]; intros b; [done|]. cbn [foldl]. rewrite <- IH. f_equal.
  unfold consider, interface_metric. by rewrite E1, E2, E3, E4, E5, E6.
Qed.

(** No two exclusions stand for one destination. *)
Definition apart (s : monitor) : Prop := ∀ p q d e,
  m_exclusionRoutes s !! p = Some d → m_exclusionRoutes s !! q = Some e → prefix_of p = prefix_of q → p = q.
(** The exclusion's route is where it should be, unless it is the one of before
    and was not in the system then. *)
Definition standing (s s' : monitor) (p : IPAddress) (d : MIB_IPFORWARD_ROW2) : Prop :=
  placed s' d ∨ (m_exclusionRoutes s !! p = Some d ∧ key_of d ∉ ours (net s)).
(** Between [s] and [s'] only exclusions changed, and their routes. *)
Record rerouting (s s' : monitor) : Prop := {
  rerouting_sound : sound s';
  rerouting_luid : m_luid s' = m_luid s;
  rerouting_metrics4 : m_interfaceMetricsIpv4 s' = m_interfaceMetricsIpv4 s;
  rerouting_metrics6 : m_interfaceMetricsIpv6 s' = m_interfaceMetricsIpv6 s;
  rerouting_clones : m_clonedRoutes s' = m_clonedRoutes s;
  rerouting_tunnel k : key_luid k = m_luid s → (k ∈ ours (net s') ↔ k ∈ ours (net s)) ∧ (k ∈ kept (net s) → k ∈ kept (net s'));
  rerouting_names p : is_Some (m_exclusionRoutes s' !! p) → is_Some (m_exclusionRoutes s !! p);
  rerouting_standing p d : apart s → m_exclusionRoutes s' !! p = Some d → standing s s' p d;
}.
Lemma rerouting_refl s : sound s → rerouting s s.
Proof.
  intros Hs. split; [done..|]. intros p d _ Hp. destruct (decide (key_of d ∈ ours (net s))); [left|by right]. right. by left.
Qed.
Lemma rerouting_step s s1 s2 p d d' : rerouting s s1 → m_exclusionRoutes s1 !! p = Some d → DestinationPrefix d' = DestinationPrefix d →
  (InterfaceLuid d' = 0 ∨ InterfaceLuid d' ≠ m_luid s1) → s2 = with_net (net s2) s1 →
  (d' = d ∧ net s2 = net s1) ∨ (moves (own d) (own d') (net s1) (net s2) ∧ placed s2 d') → rerouting s (with_exclusions <[p := d']> s2).
Proof.
  intros [Hs L1 L2 L3 L4 Ht Hnames Hst] Hp Ed El E Hm. destruct (sound_named _ Hs p d Hp) as [Hdp Hdl].
  split; [|cbn; rewrite E; done..| | |].
  - apply (updated_sound s1 s2 p d d'); [done|congruence| |by destruct Hm as [?|[? _]]; [left|right]|congruence|done].
    apply fresh_named; [apply Hs|congruence|done].
  - intros k Hk. cbn. destruct Hm as [[_ ->]|[M _]]; [by apply Ht|]. destruct (Ht k Hk) as [Ho Hkept]. rewrite <- Ho.
    destruct (M k) as (M1 & M2 & M3). assert (¬ own d k) as N1 by (intros [N0 ->]; cbn in Hk; naive_solver congruence).
    assert (¬ own d' k) as N2 by (intros [N0 ->]; cbn in Hk; naive_solver congruence). naive_solver.
  - intros q. cbn. rewrite E. cbn. destruct (decide (q = p)) as [->|Hne]; [intros _; apply Hnames; by exists d|].
    rewrite lookup_insert_ne by done. apply Hnames.
  - intros q e Ha. cbn. rewrite E. cbn. intros [[<- <-]|[Hne Hq]]%lookup_insert_Some.
    + destruct Hm as [[-> En]|[_ Hpl]]; [|by left]. destruct (Hst p d Ha Hp) as [Hpl|?]; [left|by right].
      unfold placed in *. cbn. by rewrite En.
    + destruct (Hst q e Ha Hq) as [[?|[Hin|?]]|?]; [by left; left| |by left; right; right|by right]. left. right. left. cbn.
      destruct Hm as [[_ ->]|[M _]]; [done|]. apply (M (key_of e)); [|done]. intros [_ Hk]. injection Hk as Hk _ _.
      destruct (sound_named _ Hs q e Hq) as [Heq _]. apply Hne.
      destruct (Hnames p) as [dp Hdp']; [by exists d|]. destruct (Hnames q) as [dq Hdq]; [by exists e|].
      eapply Ha; [exact Hdp'|exact Hdq|]. congruence.
Qed.
Lemma rerouted table s : sound s →
  leads (for_each (map_to_list (m_exclusionRoutes s)) (λ e : IPAddress * MIB_IPFORWARD_ROW2,
      data ← updateExclusionRoute e.2 table; modify (with_exclusions <[e.1 := data]>))) s
    (λ _ s', rerouting s s' ∧
      ∀ p, match m_exclusionRoutes s !! p with
           | Some d => ∃ d', m_exclusionRoutes s' !! p = Some d' ∧ DestinationPrefix d' = DestinationPrefix d ∧ follows s table d'
           | None => m_exclusionRoutes s' !! p = None
           end).
Proof.
  intros Hs.
  apply (for_entries m_exclusionRoutes (rerouting s) (λ d o, ∃ d', o = Some d' ∧ DestinationPrefix d' = DestinationPrefix d ∧ follows s table d')).
  { by apply rerouting_refl. }
  intros p d s1 _ Hr Hp. apply leads_bind. eapply leads_mono; [apply updated_row|].
  intros d' s2 (Es & (L1 & L2 & L3 & L4 & L5) & Ho). unfold leads, modify. cbn [fst snd].
  split; [|split].
  - eapply (rerouting_step s s1 s2 p d d'); [done..|rewrite L1; apply best_way_past|done|done].
  - intros q Hq. cbn. rewrite lookup_insert_ne by done. by rewrite Es.
  - destruct Hr. exists d'. cbn. rewrite lookup_insert_eq. split; [done|]. split; [done|]. unfold follows.
    rewrite (best_route_frame s s d d'), <- (best_route_frame s s1 d d) by done. done.
Qed.

(** *** Which routes are captured *)

Lemma captured_frame s s' row : clones_only s s' → captured s' row = captured s row.
Proof. intros []. unfold captured, isRouteExcluded. by rewrite same_exclusions0, same_luid0. Qed.
(** How many rows ask for a captured route. *)
Definition hits (s : monitor) (p : IPAddress) (table : list MIB_IPFORWARD_ROW2) : Z :=
  Z.of_nat (length (filter (λ row, captured s row = true ∧ prefix_key row = p) table)).
Lemma hits_snoc s p table row : hits s p (table ++ [row]) =
  hits s p table + (if decide (captured s row = true ∧ prefix_key row = p) then 1 else 0).
Proof. unfold hits. rewrite filter_app, length_app, filter_cons, filter_nil. destruct (decide _); cbn [length]; lia. Qed.
Lemma hits_bound s p table : 0 ≤ hits s p table ≤ Z.of_nat (length table).
Proof. unfold hits. pose proof (length_filter (λ row, captured s row = true ∧ prefix_key row = p) table). lia. Qed.
Lemma hits_some s p table : 0 < hits s p table ↔ ∃ row, row ∈ table ∧ captured s row = true ∧ prefix_key row = p.
Proof.
  unfold hits. set (l := filter _ table). split.
  - destruct l as [|row l'] eqn:E; [cbn; lia|]. intros _. exists row.
    assert (row ∈ l) as Hin by (rewrite E; left). apply list_elem_of_filter in Hin. naive_solver.
  - intros (row & Hin & Hr). assert (row ∈ l) as Hl by (by apply list_elem_of_filter). destruct l; [by apply not_elem_of_nil in Hl|cbn; lia].
Qed.

(** After some rows a captured route has been counted if one of them asks for it;
    one that is asked for and not captured could not be created. *)
Definition counts (s : monitor) (rows : list MIB_IPFORWARD_ROW2) (s' : monitor) : Prop :=
  clones_only s s' ∧ ∀ p, match m_clonedRoutes s' !! p with
    | Some d => 0 ≤ Age d ≤ hits s p rows ∧ (0 < hits s p rows → 0 < Age d)
    | None => m_clonedRoutes s !! p = None ∧
        ∀ row, row ∈ rows → captured s row = true → prefix_key row = p → refuses (into s row)
    end.
Lemma counts_put s rows row s1 s2 data : counts s rows s1 → captured s row = true → Z.of_nat (length rows) + 1 < 2 ^ 32 →
  clones_only s1 s2 → 0 ≤ Age data ≤ hits s (prefix_key row) rows →
  m_clonedRoutes s2 = <[prefix_key row := older data]> (m_clonedRoutes s1) → counts s (rows ++ [row]) s2.
Proof.
  intros [Hf Hp] Hc Hlen Hf2 Ha E. split; [by transitivity s1|]. intros p. rewrite E, hits_snoc. pose proof (hits_bound s p rows) as Hb.
  destruct (decide (p = prefix_key row)) as [->|Hne].
  - rewrite lookup_insert_eq, decide_True by done. cbn. rewrite Z.mod_small by lia. lia.
  - rewrite lookup_insert_ne, decide_False, Z.add_0_r by (done || (intros [_ ?]; congruence)). specialize (Hp p).
    destruct (m_clonedRoutes s1 !! p); [done|]. destruct Hp as [? Hp]. split; [done|].
    intros row' [Hr| ->%list_elem_of_singleton]%elem_of_app; [by apply Hp|congruence].
Qed.
(** A row that puts nothing. *)
Lemma counts_skip s rows row s1 s2 : counts s rows s1 → clones_only s1 s2 → m_clonedRoutes s2 = m_clonedRoutes s1 →
  (captured s row = true → m_clonedRoutes s1 !! prefix_key row = None ∧ refuses (into s row)) → counts s (rows ++ [row]) s2.
Proof.
  intros [Hf Hp] Hf2 E Hr. split; [by transitivity s1|]. intros p. rewrite E, hits_snoc. specialize (Hp p).
  destruct (m_clonedRoutes s1 !! p) as [d|] eqn:Ed.
  - rewrite decide_False, Z.add_0_r; [done|]. intros [Hc <-]. destruct (Hr Hc). congruence.
  - destruct Hp as [? Hp]. split; [done|]. intros row' [Hin| ->%list_elem_of_singleton]%elem_of_app Hc; [by apply Hp|]. intros _. by apply Hr.
Qed.
Lemma counts_step s rows row s1 s2 : counts s rows s1 → captures row s1 s2 → Z.of_nat (length rows) + 1 < 2 ^ 32 → counts s (rows ++ [row]) s2.
Proof.
  intros Hs Hc Hlen. pose proof (captures_grown row s1 s2 Hc) as (_ & C & _). pose proof Hs as [C1 Hp]. specialize (Hp (prefix_key row)).
  pose proof (captured_frame s s1 row C1) as Ec. pose proof (hits_bound s (prefix_key row) rows).
  assert (into s1 row = into s row) as Ei by (unfold into; by rewrite (same_luid _ _ C1)).
  destruct Hc as [Hc|d Hc Hd|Hc Hd Ho|Hc Hd Hr Ho].
  - eapply counts_skip; [done..|congruence].
  - rewrite Hd in Hp. eapply counts_put; [done|congruence|done|done|apply Hp|done].
  - eapply counts_put; [done|congruence|done|done| |done]. cbn. lia.
  - eapply counts_skip; [done..|]. rewrite <- Ei. done.
Qed.
Lemma counts_all s rows table s1 s2 : counts s rows s1 → captures_all table s1 s2 → Z.of_nat (length (rows ++ table)) < 2 ^ 32 →
  counts s (rows ++ table) s2.
Proof.
  intros Hs Hall. revert rows Hs. induction Hall as [s1|row table s1 s2 s3 Hc _ IH]; intros rows Hs Hlen; [by rewrite app_nil_r|].
  rewrite length_app in Hlen. cbn [length] in Hlen. change (rows ++ row :: table) with (rows ++ [row] ++ table). rewrite app_assoc.
  apply IH; [|rewrite !length_app; cbn [length]; lia]. eapply counts_step; [done..|lia].
Qed.
(** The routes of all families that are asked for, and no others. *)
Lemma capture_exact table (s s' : monitor) : resting s → Z.of_nat (length table) < 2 ^ 32 →
  (∃ s1, captures_all table s s1 ∧ ∀ p,
     m_clonedRoutes s' !! p = match m_clonedRoutes s1 !! p with Some d => released AF_UNSPEC d | None => None end) →
  (∀ p, is_Some (m_clonedRoutes s' !! p) → ∃ row, row ∈ table ∧ captured s row = true ∧ prefix_key row = p) ∧
  (∀ row, row ∈ table → captured s row = true →
     is_Some (m_clonedRoutes s' !! prefix_key row) ∨ (m_clonedRoutes s !! prefix_key row = None ∧ refuses (into s row))).
Proof.
  intros Hr Hlen (s1 & Hall & Hs').
  assert (counts s [] s) as H0.
  { split; [done|]. intros p. destruct (m_clonedRoutes s !! p) as [d|] eqn:E; [by destruct (Hr p d E) as [-> _]|].
    split; [done|]. intros row Hin. by apply not_elem_of_nil in Hin. }
  destruct (counts_all s [] table s s1 H0 Hall Hlen) as [_ Hp]. cbn [app] in Hp.
  assert (∀ p d, m_clonedRoutes s1 !! p = Some d → is_Some (m_clonedRoutes s' !! p) ↔ 0 < Age d) as Hrel.
  { intros p d E. rewrite Hs', E. unfold released. destruct (Z.ltb_spec 0 (Age d)); [split; [done|by eexists]|].
    change (AF_UNSPEC =? AF_UNSPEC) with true. cbn. split; [by intros []|lia]. }
  split.
  - intros p Hsome. apply hits_some. specialize (Hp p). destruct (m_clonedRoutes s1 !! p) as [d|] eqn:E.
    + apply (Hrel p d E) in Hsome. lia.
    + rewrite Hs', E in Hsome. by destruct Hsome.
  - intros row Hin Hc. specialize (Hp (prefix_key row)). destruct (m_clonedRoutes s1 !! prefix_key row) as [d|] eqn:E.
    + left. apply (Hrel _ d E), Hp, hits_some. by exists row.
    + right. destruct Hp as [? Hp]. split; [done|]. by apply Hp.
Qed.
End behaviour.

(** ** Properties *)

(** What is asked of the monitor, and what others do to the system. *)
Inductive monitor_call (W : Type) :=
  | AddExclusion (prefix : IPAddress)
  | DeleteExclusion (prefix : IPAddress)
  | SetCapture (enable : bool)
  | FlushExclusions
  | RouteChanged
  | Elsewhere (f : W → W).
Arguments AddExclusion {W}.
Arguments DeleteExclusion {W}.
Arguments SetCapture {W}.
Arguments FlushExclusions {W}.
Arguments RouteChanged {W}.
Arguments Elsewhere {W}.
Definition run_call `{IpHelper W} `{HostKinds} (c : monitor_call W) : stM (WindowsRouteMonitor W) unit :=
  match c with
  | AddExclusion prefix => discard (addExclusionRoute prefix)
  | DeleteExclusion prefix => discard (deleteExclusionRoute prefix)
  | SetCapture enable => setDetaultRouteCapture enable
  | FlushExclusions => flush_exclusions
  | RouteChanged => routeChanged
  | Elsewhere f => modify (λ s, with_net (f (net s)) s)
  end.
(** Others create no routes in our name; they may remove ours. *)
Definition lawful `{RouteView W} (c : monitor_call W) : Prop :=
  match c with Elsewhere f => ∀ w, ours (f w) ⊆ ours w ∧ kept w ⊆ kept (f w) | _ => True end.

Section properties.
Context {W : Type} {I : IpHelper W} {V : RouteView W} {L : RouteLaws W} {H : HostKinds}.
Abbreviation monitor := (WindowsRouteMonitor W).

Definition valid_row (row : MIB_IPFORWARD_ROW2) : Prop := 0 ≤ PrefixLength (DestinationPrefix row).
(** A way around the tunnel: none when no route can be used, or that of the best
    route; a route to the very destination needs no other. *)
Definition way_around (s : monitor) (table : list MIB_IPFORWARD_ROW2) (d : MIB_IPFORWARD_ROW2) : Prop :=
  ((∀ row, row ∈ table → usable s d row = false) ∧ InterfaceLuid d = 0 ∧ NextHop d = no_hop (prefix_family (DestinationPrefix d))) ∨
  (∃ row, is_best s d row table ∧ NextHop d = NextHop row ∧
     InterfaceLuid d = if PrefixLength (DestinationPrefix row) =? PrefixLength (DestinationPrefix d) then 0 else InterfaceLuid row).
Lemma follows_way s table d : Forall valid_row table → follows s table d → way_around s table d.
Proof.
  intros Hv [Hl Hh]. destruct (best_route_spec s d table Hv) as [[E Hno]|(row & Hb & E)]; rewrite E in Hl, Hh; [by left|].
  right. exists row. by rewrite Hl, Hh.
Qed.

(** An address with a prefix that fits in its byte. *)
Definition real (p : IPAddress) : Prop :=
  0 ≤ prefixLength p < 256 ∧ match m_address p with HostV4 a => 0 ≤ a < 2 ^ 32 | HostV6 _ => True | HostNull => False end.
Lemma be_inj a b : 0 ≤ a < 2 ^ 32 → 0 ≤ b < 2 ^ 32 → be 4 a = be 4 b → a = b.
Proof. cbn. intros Ha Hb [= E1 E2 E3 E4]. change (2 ^ 32) with 4294967296 in *. Z.div_mod_to_equations. lia. Qed.
Lemma prefix_of_inj p q : real p → real q → prefix_of p = prefix_of q → p = q.
Proof.
  unfold real, prefix_of, prefixLength. destruct p as [[|a|a] n], q as [[|b|b] m]; cbn [m_address m_prefixLength protocol toIPv4Address toIPv6Address];
    intros [Hn Ha] [Hm Hb]; try done; intros E.
  - pose proof (f_equal PrefixLength E) as En. apply (f_equal prefix_bytes) in E. cbn [PrefixLength prefix_bytes] in En, E.
    rewrite !Z.mod_small in En by done. by rewrite En, (be_inj a b).
  - injection E as E En. rewrite !Z.mod_small in En by done. by subst.
Qed.
Definition exclusions_real (s : monitor) : Prop := ∀ p, is_Some (m_exclusionRoutes s !! p) → real p.
Lemma real_apart s : exclusions_real s → apart s.
Proof. intros Hr p q d e Hp Hq. apply prefix_of_inj; apply Hr; by eexists. Qed.

(** What a change of the routes leaves of the captured ones. *)
Record captured_well (s s' : monitor) (table : list MIB_IPFORWARD_ROW2) : Prop := {
  captured_asked p d : m_clonedRoutes s' !! p = Some d →
    ∃ row, row ∈ table ∧ captured s row = true ∧ prefix_key row = p ∧ prefix_key d = p ∧ InterfaceLuid d = m_luid s';
  captured_there p d : m_clonedRoutes s' !! p = Some d → key_of d ∈ ours (net s') ∨
    ∃ d0, m_clonedRoutes s !! p = Some d0 ∧ key_of d0 = key_of d ∧ key_of d ∉ ours (net s);
  captured_each row : row ∈ table → captured s row = true →
    is_Some (m_clonedRoutes s' !! prefix_key row) ∨ (m_clonedRoutes s !! prefix_key row = None ∧ refuses (into s row));
  captured_gone k : gone s s' k → k ∈ ours (net s') → k ∈ kept (net s');
}.
(** What it leaves of the excluded ones. *)
Record rerouted_well (s s' : monitor) (table : list MIB_IPFORWARD_ROW2) : Prop := {
  rerouted_each p : match m_exclusionRoutes s !! p with
    | Some d => ∃ d', m_exclusionRoutes s' !! p = Some d' ∧ DestinationPrefix d' = DestinationPrefix d ∧ follows s' table d'
    | None => m_exclusionRoutes s' !! p = None
    end;
  rerouted_there p d : apart s → m_exclusionRoutes s' !! p = Some d → standing s s' p d;
}.
Lemma changed_run s : sound s →
  leads routeChanged s (λ _ s', sound s' ∧ ∀ table, (GetIpForwardTable2 AF_UNSPEC (net s)).1 = Some table →
    rerouted_well s s' table ∧ (m_defaultRouteCapture s = true → Z.of_nat (length table) < 2 ^ 32 → captured_well s s' table)).
Proof.
  intros Hs. unfold routeChanged. apply leads_bind. unfold leads at 1. rewrite system_run. cbn [fst snd].
  pose proof (sound_system _ s (table_law AF_UNSPEC) Hs) as Hs1. destruct (table_law AF_UNSPEC (net s)) as [Eo1 _].
  revert Hs1. set (s1 := with_net _ s). intros Hs1.
  destruct (GetIpForwardTable2 AF_UNSPEC (net s)).1 as [table|]; [|by apply leads_ret].
  apply leads_bind. eapply leads_mono; [by apply metrics_sound|]. intros _ s2 (Hs2 & E2 & Ec2 & El2 & Ed2 & Eo2).
  assert (ours (net s2) = ours (net s)) as Eo by (by rewrite Eo2). clear Eo1 Eo2. cbn in E2, Ec2, El2, Ed2.
  assert (∀ row, captured s2 row = captured s row) as Hcap by (intros row; unfold captured, isRouteExcluded; by rewrite E2, El2).
  apply leads_bind. eapply leads_mono; [by apply capture_table_recaptures|]. intros _ s3 [[C3 Hs3 R1 R2 R3] Hex].
  apply leads_bind. unfold leads at 1. cbn [get fst snd].
  eapply leads_mono; [by apply rerouted|]. intros _ s4 [[Hs4 L1 L2 L3 L4 L5 L6 L7] Hp]. split; [done|]. intros ? [= <-]. split; [split|].
  - intros p. specialize (Hp p). rewrite (same_exclusions _ _ C3), E2 in Hp. destruct (m_exclusionRoutes s !! p) as [d|]; [|done].
    destruct Hp as (d' & E & Ed & Hfo). exists d'. split_and!; [done..|]. unfold follows in *. by rewrite (best_route_frame s3 s4 d' d').
  - intros p d Ha Hd. assert (apart s3) as Ha3 by (unfold apart; rewrite (same_exclusions _ _ C3), E2; exact Ha).
    destruct (L7 p d Ha3 Hd) as [?|[Hd3 Hout]]; [by left|]. pose proof (sound_named _ Hs3 p d Hd3) as [_ Hl].
    rewrite (same_exclusions _ _ C3), E2 in Hd3. destruct Hl as [Hl|Hl]; [by left; left|]. right. split; [done|].
    intros Hin. apply Hout, R3; [by rewrite <- (same_luid _ _ C3)|by rewrite Eo].
  - intros Hc Hlen. rewrite <- Ed2 in Hc. destruct (capture_exact table s2 s3 (sound_resting _ Hs2) Hlen (Hex Hc)) as [X1 X2].
    assert (∀ p d, m_clonedRoutes s4 !! p = Some d → InterfaceLuid d = m_luid s3 ∧ prefix_key d = p) as Hi.
    { intros p d. rewrite L4. intros Hd. apply (sound_resting _ Hs3 p d Hd). }
    split.
    + intros p d Hd. destruct (Hi p d Hd) as [Hl Hk]. destruct (X1 p) as (row & ? & Hr & ?); [rewrite <- L4; by exists d|].
      exists row. rewrite <- Hcap, L1. done.
    + intros p d Hd. destruct (Hi p d Hd) as [Hl _]. destruct (L5 (key_of d) Hl) as [Ho _]. rewrite L4 in Hd. rewrite Ho, <- Ec2, <- Eo. by apply R1.
    + intros row Hin Hr. rewrite <- Hcap in Hr. rewrite L4, <- Ec2. destruct (X2 row Hin Hr) as [?|[? Hd]]; [by left|right].
      split; [done|]. unfold into in *. by rewrite <- El2.
    + intros k (p & d & Hd & Hn & ->). rewrite <- Ec2 in Hd. rewrite L4 in Hn. destruct (sound_resting _ Hs2 p d Hd) as (_ & Hl & _).
      destruct (L5 (key_of d)) as [Ho Hkept]; [cbn; by rewrite Hl, (same_luid _ _ C3)|]. rewrite Ho. intros Hk. apply Hkept, R2; [by exists p, d|done].
Qed.
Lemma set_capture_sound enable s : sound s → leads (setDetaultRouteCapture enable) s (λ _ s', sound s').
Proof.
  intros Hs. unfold setDetaultRouteCapture. apply leads_bind. unfold leads at 1. cbn [modify fst snd].
  assert (sound (with_capture enable s)) as Hs' by (destruct Hs; by split).
  destruct enable; [by apply leads_ret|]. eapply leads_mono; [by apply flush_clones_sound|]. by intros ? ? [].
Qed.
Lemma call_sound c s : lawful c → sound s → sound (run_call c s).2.
Proof.
  intros Hc Hs. destruct c; cbn [run_call]; rewrite ?discard_run; cbn [snd].
  - by apply add_sound.
  - by apply delete_sound.
  - by apply set_capture_sound.
  - by apply flush_exclusions_sound.
  - by apply changed_run.
  - destruct Hs as [Ht Hr Hn]. split; [|done..]. intros k Hk. destruct (Hc (net s)) as [H1 H2]. cbn in *.
    destruct (Ht k (H1 k Hk)) as [?|?]; [by left|right; by apply H2].
Qed.
Lemma calls_sound luid w calls : ours w = ∅ → Forall lawful calls → sound (for_each calls run_call (new_monitor luid w)).2.
Proof.
  intros Hw Hc. apply (for_each_inv sound calls run_call).
  - split; [intros k; cbn; rewrite Hw; set_solver|intros p d; cbn; by rewrite lookup_empty..].
  - intros c s' Hin. apply call_sound. rewrite Forall_forall in Hc. by apply Hc.
Qed.

(** C36. No route is left behind: whatever was asked of the monitor, whatever calls
    of the system failed, and however others changed its table, every route the
    monitor created is one it knows or one the system refused to delete; and when
    it is destroyed no others are left. *)
Theorem routes_tracked (luid : Z) (w : W) (calls : list (monitor_call W)) :
  ours w = ∅ → Forall lawful calls →
  let s := (for_each calls run_call (new_monitor luid w)).2 in
  tracked s ∧ leads destroy s (λ _ s', ours (net s') ⊆ kept (net s')).
Proof.
  intros Hw Hc. cbv zeta. pose proof (calls_sound luid w calls Hw Hc) as Hs. split; [apply Hs|].
  unfold destroy. apply leads_bind. eapply leads_mono; [by apply flush_exclusions_sound|]. intros _ s1 (Hs1 & E1 & _).
  eapply leads_mono; [by apply flush_clones_sound|]. intros _ s2 (Hs2 & Hf & E2) k Hk.
  destruct (sound_tracked _ Hs2 k Hk) as [[(p & d & Hp & _)|(p & d & Hp & _)]|?]; [| |done].
  - by rewrite (same_exclusions _ _ Hf), E1, lookup_empty in Hp.
  - by rewrite E2, lookup_empty in Hp.
Qed.



(** A deletion leaves the captured routes as they were when the table can be
    read, and looks at rows that were not read when it cannot. *)
Lemma deletion_keeps_clones prefix (s : monitor) :
  (∀ family w, is_Some (GetIpForwardTable2 family w).1) →
  m_clonedRoutes (deleteExclusionRoute prefix s).2 = m_clonedRoutes s.
Proof.
  intros Hread. unfold deleteExclusionRoute. rewrite bind_run. cbn [get fst snd]. destruct (m_exclusionRoutes s !! prefix) as [d|]; [|done].
  rewrite !bind_run. cbn [modify fst snd mret stM_ret]. rewrite system_run. cbn [fst snd]. unfold updateCapturedRoutes. rewrite bind_run.
  cbn [get fst snd]. destruct (negb _); [done|]. rewrite bind_run, system_run. cbn [fst snd].
  match goal with |- context [GetIpForwardTable2 ?f ?w] => destruct (Hread f w) as [t ->] end. done.
Qed.
End properties.

(** ** A system *)
Module switchboard.
Record world := mkWorld { rows : list MIB_IPFORWARD_ROW2; mine : gset route_key; held : gset route_key }.
(** A route to a single address cannot be deleted while it is in use. *)
Definition in_use (row : MIB_IPFORWARD_ROW2) : bool := (PrefixLength (DestinationPrefix row) =? 32) && (InterfaceLuid row =? 600).
Definition ERROR_ACCESS_DENIED : Z := 5.
#[export] Instance helper : IpHelper world := {|
  GetIpForwardTable2 family w := (Some (rows w), w);
  GetIpInterfaceTable family w := (Some [mkInterface 500 true AF_INET 25; mkInterface 600 true AF_INET 50; mkInterface 700 false AF_INET 1], w);
  CreateIpForwardEntry2 row w := (NO_ERROR, mkWorld (rows w ++ [row]) ({[key_of row]} ∪ mine w) (held w));
  DeleteIpForwardEntry2 row w :=
    if in_use row then (ERROR_ACCESS_DENIED, mkWorld (rows w) (mine w) ({[key_of row]} ∪ held w))
    else (NO_ERROR, mkWorld (filter (λ r, key_of r ≠ key_of row) (rows w)) (mine w ∖ {[key_of row]}) (held w ∖ {[key_of row]}));
  uninitialized_table := [];
|}.
#[export] Instance view : RouteView world := {| ours := mine; kept := held |}.
#[export] Instance laws : RouteLaws world.
Proof. split; [done..|]. intros row w. cbn. by destruct (in_use row). Qed.
#[export] Instance kinds : HostKinds := {|
  isLoopback h := match h with HostV4 a => a / 2 ^ 24 =? 127 | _ => false end;
  isBroadcast h := match h with HostV4 a => a =? 4294967295 | _ => false end;
  isLinkLocal h := match h with HostV4 a => a / 2 ^ 16 =? 43518 | _ => false end;
  isMulticast h := match h with HostV4 a => a / 2 ^ 28 =? 14 | _ => false end;
|}.
Definition gateway (n : Z) : SOCKADDR_INET := mkSockaddr AF_INET ([192; 168; 1; n] ++ replicate 22 0).
Definition row4 (luid : Z) (bytes : list Z) (len : Z) (hop : SOCKADDR_INET) (metric : Z) : MIB_IPFORWARD_ROW2 :=
  mkRow luid (mkPrefix AF_INET bytes len) hop 0 0 metric 2 0.
(** Two networks with a default route each, a route to 10.0.0.0/8, and the
    tunnel on 900. *)
Definition office : world := mkWorld
  [row4 600 [0; 0; 0; 0] 0 (gateway 9) 0; row4 500 [0; 0; 0; 0] 0 (gateway 1) 0; row4 500 [10; 0; 0; 0] 8 (gateway 2) 10;
   row4 900 [0; 0; 0; 0] 0 (gateway 0) 0] ∅ ∅.
Definition vpn_server : IPAddress := mkIPAddress (HostV4 3221225991) 32.
Definition session : list (monitor_call world) := [AddExclusion vpn_server; SetCapture true].
Definition connected : WindowsRouteMonitor world := (for_each session run_call (new_monitor 900 office)).2.
(** The network of interface 500 goes away. *)
Definition unplugged (w : world) : world := mkWorld (filter (λ r, InterfaceLuid r ≠ 500) (rows w)) (filter (λ k, key_luid k ≠ 500) (mine w)) (held w).
Lemma unplugged_lawful : lawful (Elsewhere unplugged).
Proof. intros w. cbn. set_solver. Qed.
Definition disconnected : WindowsRouteMonitor world := (run_call (Elsewhere unplugged) connected).2.
Lemma connected_sound : sound connected.
Proof. apply calls_sound; [done|]. by repeat constructor. Qed.
Lemma disconnected_sound : sound disconnected.
Proof. apply call_sound; [apply unplugged_lawful|apply connected_sound]. Qed.
End switchboard.
Import switchboard.
#[local] Existing Instances helper view laws kinds.

Lemma routes_tracked_witness :
  let s := (for_each (session ++ [RouteChanged; Elsewhere unplugged; RouteChanged]) run_call (new_monitor 900 office)).2 in
  tracked s ∧ leads destroy s (λ _ s', ours (net s') ⊆ kept (net s')).
Proof.
  apply (routes_tracked 900 office (session ++ [RouteChanged; Elsewhere unplugged; RouteChanged])); [reflexivity|].
  repeat constructor; set_solver.
Defined.
