(* ===== verification/NetworkUtilities.v ===== *)
(** * NetworkUtilities: texts that name addresses and networks

    Models [client/core/utils/networkUtilities.cpp]: the regular expressions and
    the tests for addresses and subnets, the netmask of a subnet, and on Linux
    the reader of the kernel's answer that finds the default gateway. *)
From stdpp Require Import pretty.
From S2P Require Import Prelude Text Json IpAddress InterfaceConfig Qt LinuxRouteMonitor.

(** ** Regular expressions

    [QRegExp] on whole texts ([exactMatch]): the constructs the patterns use. *)
Inductive regex :=
  | Nothing
  | Empty
  | Class (ranges : list (Ascii.ascii * Ascii.ascii))
  | Cat (a b : regex)
  | Alt (a b : regex).

Definition in_ranges (c : Ascii.ascii) (l : list (Ascii.ascii * Ascii.ascii)) : bool :=
  existsb (λ r, (Ascii.N_of_ascii r.1 <=? Ascii.N_of_ascii c)%N && (Ascii.N_of_ascii c <=? Ascii.N_of_ascii r.2)%N) l.

Fixpoint nullable (r : regex) : bool :=
  match r with
  | Nothing | Class _ => false
  | Empty => true
  | Cat a b => nullable a && nullable b
  | Alt a b => nullable a || nullable b
  end.

(** Patterns that match nothing are dropped on the way. *)
Definition cat (a b : regex) : regex := match a with Nothing => Nothing | Empty => b | _ => Cat a b end.
Definition alt (a b : regex) : regex :=
  match a, b with Nothing, _ => b | _, Nothing => a | _, _ => Alt a b end.

(** What may follow [c]. *)
Fixpoint derivative (c : Ascii.ascii) (r : regex) : regex :=
  match r with
  | Nothing | Empty => Nothing
  | Class l => if in_ranges c l then Empty else Nothing
  | Cat a b => if nullable a then alt (cat (derivative c a) b) (derivative c b) else cat (derivative c a) b
  | Alt a b => alt (derivative c a) (derivative c b)
  end.

Fixpoint exactMatch (r : regex) (s : string) : bool :=
  match s with
  | EmptyString => nullable r
  | String c s' => exactMatch (derivative c r) s'
  end.

(** Pattern notation: a literal text, a digit range, [{n}], [{m,n}]. *)
Definition digit (n : Z) : Ascii.ascii := Ascii.ascii_of_N (48 + Z.to_N n).
Definition range (lo hi : Z) : regex := Class [(digit lo, digit hi)].
Fixpoint lit (s : string) : regex :=
  match s with
  | EmptyString => Empty
  | String c s' => Cat (Class [(c, c)]) (lit s')
  end.
Fixpoint times (n : nat) (r : regex) : regex :=
  match n with
  | O => Empty
  | S n => Cat r (times n r)
  end.
Definition opt (r : regex) : regex := Alt Empty r.
Fixpoint up_to (n : nat) (r : regex) : regex :=
  match n with
  | O => Empty
  | S n => opt (Cat r (up_to n r))
  end.
Definition between (m n : nat) (r : regex) : regex := Cat (times m r) (up_to (n - m) r).
Definition alts (l : list regex) : regex := foldr Alt Nothing l.
Definition cats (l : list regex) : regex := foldr Cat Empty l.

(** [(?:25[0-5]|2[0-4][0-9]|1[0-9][0-9]|[1-9][0-9]|[0-9])] *)
Definition octet : regex :=
  alts [cats [lit "25"; range 0 5]; cats [lit "2"; range 0 4; range 0 9]; cats [lit "1"; range 0 9; range 0 9];
        cats [range 1 9; range 0 9]; range 0 9].

Definition ipAddressWithSubnetRegExp : regex :=
  cats [times 3 (Cat octet (lit ".")); octet; opt (Cat (lit "/") (between 1 2 (range 0 9)))].

Definition ipNetwork24RegExp : regex := cats [times 3 (Cat octet (lit ".")); lit "0"].

Definition ipPortRegExp : regex :=
  Cat Empty
    (alts [range 1 9; Cat (opt (range 1 5)) (between 2 4 (range 0 9));
           cats [lit "6"; range 1 4; times 3 (range 0 9)]; cats [lit "65"; range 1 4; times 2 (range 0 9)];
           cats [lit "655"; range 1 2; range 0 9]; cats [lit "6553"; range 1 5]]).

(** ** Addresses and subnets *)
Section texts.
Context {Q : Qt}.

Definition isIPv4 (h : QHostAddress) : bool := match h with HostV4 _ => true | _ => false end.

Definition checkIPv4Format (ip : string) : bool :=
  if String.eqb ip "" then false
  else if negb (count_char dot ip =? 3) then false
  else isIPv4 (host_of_string ip).

Definition checkIpSubnetFormat (ip : string) : bool :=
  if negb (contains_char slash ip) then checkIPv4Format ip else
  match split_char slash ip with
  | [address; length] =>
      match toInt_ok length with
      | Some subnet => if (0 <=? subnet) && (subnet <=? 32) then checkIPv4Format address else false
      | None => false
      end
  | _ => false
  end.

(** [lookup] is [QHostInfo::fromName(host).addresses()]. *)
Definition getIPAddress (lookup : string → list QHostAddress) (host : string) : string :=
  match host_of_string host with
  | HostV4 _ | HostV6 _ => host
  | HostNull => match lookup host with a :: _ => host_toString a | [] => "" end
  end.
End texts.

(** [None]: the shift is undefined, its count not being below the 32 bits of
    the constant. *)
Definition shift_mask (prefix : Z) : option Z :=
  let count := 32 - prefix in
  if (0 <=? count) && (count <? 32)
  then Some (Z.land (Z.shiftl 4294967295 count mod 4294967296) 4294967295) else None.

Definition mask_text (mask : Z) : string :=
  pretty (Z.shiftr mask 24) +:+ "." +:+ pretty (Z.land (Z.shiftr mask 16) 255) +:+ "." +:+
  pretty (Z.land (Z.shiftr mask 8) 255) +:+ "." +:+ pretty (Z.land mask 255).

Definition netMaskFromIpWithSubnet (ip : string) : option string :=
  match split_char slash ip with
  | _ :: length :: _ =>
      match toInt_ok length with
      | Some prefix => mask_text <$> shift_mask prefix
      | None => Some "255.255.255.255"
      end
  | _ => Some "255.255.255.255"
  end.

Definition ipAddressFromIpWithSubnet (ip : string) : string :=
  if negb (count_char dot ip =? 3) then "" else default "" (head (split_char slash ip)).

Definition getStringBetween (s a b : string) : string :=
  let ap := indexOf s a 0 in
  let bp := indexOf s b (ap + Z.of_nat (String.length a)) in
  if (ap <? 0) || (bp <? 0) then "" else
  let ap := ap + Z.of_nat (String.length a) in
  if bp - ap <=? 0 then "" else trimmed (mid s ap (bp - ap)).

(** ** The default gateway on Linux

    The kernel's answer to [RTM_GETROUTE]: messages of a header of 16 bytes, a
    [struct rtmsg] of 12 and attributes, on a little-endian machine. *)
Definition RT_TABLE_MAIN : Z := 254.

(** One route's attributes: the gateway's text and the interface's name. *)
Record found := mkFound { gateway_address : string; interface : string }.
Definition nothing_found : found := mkFound "" "".

Section gateway.
(** [inet_ntop(AF_INET, ..)] of the four bytes at the address, and [if_indextoname] *)
Context (inet_ntop4 : list Z → string) (if_indextoname : Z → string).

(** [for ( ; RTA_OK(..); RTA_NEXT(..))]: [len] bytes of attributes are left. *)
Fixpoint read_attributes (fuel : nat) (attrs : list Z) (len : Z) (f : found) : found :=
  match fuel with
  | O => f
  | S fuel =>
      let rta_len := field 0 2 attrs in
      let rta_type := field 2 2 attrs in
      if (4 <=? len) && (4 <=? rta_len) && (rta_len <=? len) then
        let data := drop 4 attrs in
        let f' := if rta_type =? RTA_OIF then mkFound (gateway_address f) (if_indextoname (field 0 4 data))
                  else if rta_type =? RTA_GATEWAY then mkFound (inet_ntop4 (take 4 data)) (interface f)
                  else f in
        read_attributes fuel (drop (Z.to_nat (align4 rta_len)) attrs) (len - align4 rta_len) f'
      else f
  end.

(** [for ( ; NLMSG_OK(..); NLMSG_NEXT(..))]; [f] is what the buffers hold. *)
Fixpoint read_routes (fuel : nat) (buf : list Z) (remaining : Z) (f : found) : found :=
  match fuel with
  | O => f
  | S fuel =>
      let nlmsg_len := field 0 4 buf in
      if (NLMSG_HDRLEN <=? remaining) && (NLMSG_HDRLEN <=? nlmsg_len) && (nlmsg_len <=? remaining) then
        let next := drop (Z.to_nat (align4 nlmsg_len)) buf in
        let remaining' := remaining - align4 nlmsg_len in
        let table := field (Z.to_nat (NLMSG_HDRLEN + 4)) 1 buf in
        if negb (table =? RT_TABLE_MAIN) then read_routes fuel next remaining' f
        else
          let f' := read_attributes (Z.to_nat nlmsg_len) (drop (Z.to_nat headers) buf) (nlmsg_len - headers) nothing_found in
          if negb (String.eqb (gateway_address f') "") && negb (String.eqb (interface f') "") then f'
          else read_routes fuel next remaining' f'
      else f
  end.

(** [recv] into the rest of the buffer until the answer is complete; [None]
    when it fails.  [msgseq] is one more than the number of the request. *)
Inductive received := RecvError | Recv (bytes : list Z).

Definition NLMSG_DONE : Z := 3.
Definition NLMSG_ERROR : Z := 2.
Definition NLM_F_MULTI : Z := 2.

Fixpoint receive (answers : list received) (buf : list Z) (pid msgseq : Z) : option (list Z * Z) :=
  match answers with
  | [] | RecvError :: _ => None
  | Recv bytes :: rest =>
      let received_bytes := Z.of_nat (length bytes) in
      let nlmsg_len := field 0 4 bytes in
      let ok := (NLMSG_HDRLEN <=? received_bytes) && (NLMSG_HDRLEN <=? nlmsg_len) && (nlmsg_len <=? received_bytes) in
      if negb ok || (field 4 2 bytes =? NLMSG_ERROR) then None
      else if field 4 2 bytes =? NLMSG_DONE then Some (buf ++ bytes, Z.of_nat (length (buf ++ bytes)))
      else
        let buf' := buf ++ bytes in
        let total := Z.of_nat (length buf') + received_bytes in
        if Z.land (field 6 2 bytes) NLM_F_MULTI =? 0 then Some (buf', total)
        else if negb (field 8 4 bytes =? msgseq) || negb (field 12 4 bytes =? pid)
        then receive rest buf' pid msgseq
        else Some (buf', total)
  end.

(** [socket_ok]: the socket was created and the request sent; its number is 0. *)
Definition getGatewayAndIface (socket_ok : bool) (pid : Z) (answers : list received) : found :=
  if negb socket_ok then nothing_found else
  match receive answers [] pid 1 with
  | None => nothing_found
  | Some (buf, remaining) => read_routes (S (Z.to_nat remaining)) buf remaining nothing_found
  end.
End gateway.

(** ** Specification: languages of patterns *)
Inductive lang : regex → string → Prop :=
  | lang_empty : lang Empty ""
  | lang_class c l : in_ranges c l = true → lang (Class l) (String c "")
  | lang_cat a b s t : lang a s → lang b t → lang (Cat a b) (s +:+ t)
  | lang_left a b s : lang a s → lang (Alt a b) s
  | lang_right a b s : lang b s → lang (Alt a b) s.

Lemma lang_cat_inv a b s : lang (Cat a b) s ↔ ∃ s1 s2, s = s1 +:+ s2 ∧ lang a s1 ∧ lang b s2.
Proof. split; [inversion 1; subst; eauto|intros (s1 & s2 & -> & Ha & Hb); by constructor]. Qed.
Lemma lang_alt_inv a b s : lang (Alt a b) s ↔ lang a s ∨ lang b s.
Proof. split; [inversion 1; subst; auto|intros [H|H]; by constructor]. Qed.
Lemma lang_class_inv l s : lang (Class l) s ↔ ∃ c, s = String c "" ∧ in_ranges c l = true.
Proof. split; [inversion 1; subst; eauto|intros (c & -> & H); by constructor]. Qed.
Lemma lang_empty_inv s : lang Empty s ↔ s = "".
Proof. split; [by inversion 1|intros ->; constructor]. Qed.
Lemma lang_nothing_inv s : ¬ lang Nothing s.
Proof. inversion 1. Qed.

Lemma lang_cat_smart a b s : lang (cat a b) s ↔ lang (Cat a b) s.
Proof.
  destruct a; cbn; try done; rewrite lang_cat_inv.
  - split; [by intros []%lang_nothing_inv|intros (? & ? & _ & []%lang_nothing_inv & _)].
  - split; [intros H; exists "", s; split_and!; [done|constructor|done]|].
    intros (s1 & s2 & -> & ->%lang_empty_inv & H). done.
Qed.
Lemma lang_alt_smart a b s : lang (alt a b) s ↔ lang a s ∨ lang b s.
Proof. destruct a, b; cbn; rewrite ?lang_alt_inv; pose proof lang_nothing_inv; naive_solver. Qed.

Lemma nullable_spec r : nullable r = true ↔ lang r "".
Proof.
  induction r as [| |l|a IHa b IHb|a IHa b IHb]; cbn.
  - split; [done|by intros []%lang_nothing_inv].
  - by rewrite lang_empty_inv.
  - rewrite lang_class_inv. naive_solver.
  - rewrite andb_true_iff, IHa, IHb, lang_cat_inv. split.
    + intros [Ha Hb]. by exists "", "".
    + intros (s1 & s2 & E & Ha & Hb). destruct s1; [|rewrite append_String in E; discriminate E].
      rewrite append_nil_l in E. by subst s2.
  - by rewrite orb_true_iff, IHa, IHb, lang_alt_inv.
Qed.

Lemma derivative_spec c r s : lang (derivative c r) s ↔ lang r (String c s).
Proof.
  revert s. induction r as [| |l|a IHa b IHb|a IHa b IHb]; intros s; cbn.
  - split; by intros []%lang_nothing_inv.
  - rewrite lang_empty_inv. split; [by intros []%lang_nothing_inv|done].
  - rewrite lang_class_inv. destruct (in_ranges c l) eqn:E.
    + rewrite lang_empty_inv. split; [intros ->; eauto|intros (d & [= -> ->] & _); done].
    + split; [by intros []%lang_nothing_inv|intros (d & [= -> ->] & ?); congruence].
  - assert (lang (cat (derivative c a) b) s ↔ ∃ s1 s2, s = s1 +:+ s2 ∧ lang a (String c s1) ∧ lang b s2) as Hcat.
    { rewrite lang_cat_smart, lang_cat_inv. by setoid_rewrite IHa. }
    rewrite lang_cat_inv. destruct (nullable a) eqn:En.
    + rewrite lang_alt_smart, Hcat, IHb. split.
      * intros [(s1 & s2 & -> & Ha & Hb)|Hb]; [by exists (String c s1), s2|].
        exists "", (String c s). split_and!; [done| |done]. by apply nullable_spec.
      * intros ([|d s1] & s2 & E & Ha & Hb).
        { rewrite append_nil_l in E. subst. by right. }
        rewrite append_String in E. injection E as -> ->. left. eauto.
    + rewrite Hcat. split.
      * intros (s1 & s2 & -> & Ha & Hb). by exists (String c s1), s2.
      * intros ([|d s1] & s2 & E & Ha & Hb).
        { apply nullable_spec in Ha. congruence. }
        rewrite append_String in E. injection E as -> ->. eauto.
  - by rewrite lang_alt_smart, lang_alt_inv, IHa, IHb.
Qed.

Lemma exactMatch_spec r s : exactMatch r s = true ↔ lang r s.
Proof.
  revert r. induction s as [|c s IH]; intros r; cbn; [apply nullable_spec|].
  by rewrite IH, derivative_spec.
Qed.

(** Every word of a pattern. *)
Definition all_chars : list Ascii.ascii := (λ n, Ascii.ascii_of_nat n) <$> seq 0 256.
Fixpoint words (r : regex) : list string :=
  match r with
  | Nothing => []
  | Empty => [""]
  | Class l => (λ c, String c "") <$> List.filter (λ c, in_ranges c l) all_chars
  | Cat a b => s ← words a; (λ t, s +:+ t) <$> words b
  | Alt a b => words a ++ words b
  end.

Lemma all_chars_complete c : c ∈ all_chars.
Proof.
  apply list_elem_of_fmap. exists (Ascii.nat_of_ascii c). split; [by rewrite Ascii.ascii_nat_embedding|].
  apply elem_of_seq. pose proof (Ascii.nat_ascii_bounded c). lia.
Qed.

#[local] Opaque all_chars.
Lemma words_complete r s : lang r s → s ∈ words r.
Proof.
  induction 1 as [|c l Hc|a b s t _ IHa _ IHb|a b s _ IH|a b s _ IH]; cbn [words].
  - by apply list_elem_of_singleton.
  - apply list_elem_of_fmap. exists c. split; [done|]. apply list_elem_of_In, filter_In.
    split; [apply list_elem_of_In, all_chars_complete|done].
  - apply list_elem_of_bind. exists s. split; [|done]. apply list_elem_of_fmap. eauto.
  - apply elem_of_app. by left.
  - apply elem_of_app. by right.
Qed.

#[local] Transparent all_chars.

(** *** Octets *)
Lemma octet_lang s : lang octet s ↔ ∃ n, 0 ≤ n < 256 ∧ s = pretty n.
Proof.
  split.
  - intros H%words_complete.
    assert (forallb (λ w, existsb (String.eqb w) (pretty <$> seqZ 0 256)) (words octet) = true) as Hall by (vm_compute; reflexivity).
    rewrite forallb_forall in Hall. apply list_elem_of_In, Hall, existsb_exists in H as (w & Hw & ->%String.eqb_eq).
    apply list_elem_of_In, list_elem_of_fmap in Hw as (n & -> & Hn%elem_of_seqZ). exists n. split; [lia|done].
  - intros (n & Hn & ->). apply exactMatch_spec.
    assert (forallb (λ n, exactMatch octet (pretty n)) (seqZ 0 256) = true) as Hall by (vm_compute; reflexivity).
    rewrite forallb_forall in Hall. apply Hall, list_elem_of_In, elem_of_seqZ. lia.
Qed.

Lemma lang_lit t s : lang (lit t) s ↔ s = t.
Proof.
  revert s. induction t as [|c t IH]; intros s; cbn; [apply lang_empty_inv|].
  rewrite lang_cat_inv. setoid_rewrite IH. setoid_rewrite lang_class_inv. split.
  - intros (s1 & s2 & -> & (d & -> & Hd) & ->). rewrite append_String, append_nil_l. f_equal.
    unfold in_ranges in Hd. cbn in Hd. rewrite orb_false_r in Hd. split_bools.
    apply N.leb_le in H, H0. rewrite <- (Ascii.ascii_N_embedding c), <- (Ascii.ascii_N_embedding d). f_equal. lia.
  - intros ->. exists (String c ""), t. split_and!; [done| |done]. exists c. split; [done|].
    unfold in_ranges. cbn. by rewrite N.leb_refl.
Qed.

Lemma lang_digits s : lang (between 1 2 (range 0 9)) s ↔ all_digits s = true ∧ (1 ≤ String.length s ≤ 2)%nat.
Proof.
  split.
  - intros H%words_complete.
    assert (forallb (λ w, all_digits w && (1 <=? String.length w)%nat && (String.length w <=? 2)%nat)
              (words (between 1 2 (range 0 9))) = true) as Hall by (vm_compute; reflexivity).
    rewrite forallb_forall in Hall. apply list_elem_of_In, Hall in H. split_bools.
    split; [done|]. by split; apply Nat.leb_le.
  - assert (∀ c, is_Some (digit_value c) → in_ranges c [(digit 0, digit 9)] = true) as Hd.
    { intros c [z Hz]. unfold digit_value in Hz. case_match eqn:E; [|done]. split_bools.
      unfold in_ranges. cbn [existsb fst snd].
      change (Ascii.N_of_ascii (digit 0)) with 48%N. change (Ascii.N_of_ascii (digit 9)) with 57%N.
      rewrite orb_false_r, andb_true_iff, !N.leb_le. lia. }
    intros [Hs Hl]. unfold between. cbn [times up_to Nat.sub]. unfold opt, range.
    destruct s as [|c [|d [|]]]; cbn in Hl; try lia; cbn in Hs; destruct (digit_value c) eqn:Ec; try done.
    + change (lang (Cat (Cat (Class [(digit 0, digit 9)]) Empty) (Alt Empty (Cat (Class [(digit 0, digit 9)]) Empty)))
        ((String c "" +:+ "") +:+ "")).
      repeat constructor; by apply Hd.
    + destruct (digit_value d) eqn:Ed; [|done].
      change (lang (Cat (Cat (Class [(digit 0, digit 9)]) Empty) (Alt Empty (Cat (Class [(digit 0, digit 9)]) Empty)))
        ((String c "" +:+ "") +:+ (String d "" +:+ ""))).
      constructor; [repeat constructor; by apply Hd|]. apply lang_right. repeat constructor. by apply Hd.
Qed.

(** An IPv4 address in dotted form. *)
Definition dotted (a b c d : Z) : string :=
  pretty a +:+ "." +:+ pretty b +:+ "." +:+ pretty c +:+ "." +:+ pretty d.
Definition is_octet (n : Z) : Prop := 0 ≤ n < 256.

Lemma lang_octet_dot s : lang (Cat octet (lit ".")) s ↔ ∃ n, is_octet n ∧ s = pretty n +:+ ".".
Proof.
  rewrite lang_cat_inv. split.
  - intros (p & q & -> & (n & Hn & ->)%octet_lang & ->%lang_lit). eauto.
  - intros (n & Hn & ->). exists (pretty n), ".". split_and!; [done|apply octet_lang; eauto|by apply lang_lit].
Qed.

(** The pattern for addresses with an optional subnet accepts exactly the four
    octets in decimal, without leading zeros, followed by nothing or by a slash
    and one or two digits. *)
Theorem ip_subnet_pattern (s : string) :
  exactMatch ipAddressWithSubnetRegExp s = true ↔
  ∃ a b c d suffix, is_octet a ∧ is_octet b ∧ is_octet c ∧ is_octet d ∧ s = dotted a b c d +:+ suffix ∧
    (suffix = "" ∨ ∃ k, suffix = "/" +:+ k ∧ all_digits k = true ∧ (1 ≤ String.length k ≤ 2)%nat).
Proof.
  rewrite exactMatch_spec. unfold ipAddressWithSubnetRegExp, cats, opt. cbn [foldr times]. split.
  - intros (p & q & -> & Hp & Hq)%lang_cat_inv.
    apply lang_cat_inv in Hp as (p1 & p' & -> & (a & Ha & ->)%lang_octet_dot & Hp).
    apply lang_cat_inv in Hp as (p2 & p'' & -> & (b & Hb & ->)%lang_octet_dot & Hp).
    apply lang_cat_inv in Hp as (p3 & p3' & -> & (c & Hc & ->)%lang_octet_dot & ->%lang_empty_inv).
    apply lang_cat_inv in Hq as (q1 & q' & -> & (d & Hd & ->)%octet_lang & Hq).
    apply lang_cat_inv in Hq as (u & u' & -> & Hu & ->%lang_empty_inv).
    exists a, b, c, d, u. split_and!; try done.
    { unfold dotted. by rewrite !append_nil_r, !string_app_assoc. }
    apply lang_alt_inv in Hu as [->%lang_empty_inv|Hu]; [by left|right].
    apply lang_cat_inv in Hu as (v & k & -> & ->%lang_lit & Hk%lang_digits). eauto.
  - intros (a & b & c & d & u & Ha & Hb & Hc & Hd & -> & Hu).
    replace (dotted a b c d +:+ u) with
      (((pretty a +:+ ".") +:+ (pretty b +:+ ".") +:+ (pretty c +:+ ".") +:+ "") +:+ pretty d +:+ u +:+ "")
      by (unfold dotted; by rewrite !append_nil_r, !string_app_assoc).
    repeat first [apply octet_lang; by eauto | apply lang_lit; reflexivity | apply lang_empty | apply lang_cat].
    destruct Hu as [->|(k & -> & Hk)]; [apply lang_left; constructor|apply lang_right; constructor].
    + by apply lang_lit.
    + by apply lang_digits.
Qed.

(** The ports the pattern for ports misses. *)
Definition missed_port (n : Z) : bool :=
  ((60000 <=? n) && (n <=? 60999)) || ((65000 <=? n) && (n <=? 65099)) || ((65500 <=? n) && (n <=? 65509)) ||
  (n =? 65530).

(** The pattern for ports refuses the decimal form of exactly 1111 ports: those
    with a zero in the first place after 6, 65, 655 or 6553. *)
Theorem port_pattern (n : Z) :
  1 ≤ n < 65536 → exactMatch ipPortRegExp (pretty n) = negb (missed_port n).
Proof.
  intros Hn.
  assert (all_from (Z.to_nat 65535) 1 (λ n, Bool.eqb (exactMatch ipPortRegExp (pretty n)) (negb (missed_port n))) = true)
    as Hall by (vm_compute; reflexivity).
  apply eqb_true_iff, (all_from_spec _ _ _ n Hall). lia.
Qed.

Lemma port_pattern_witness :
  1 ≤ 65000 < 65536 ∧ exactMatch ipPortRegExp "65000" = false ∧ exactMatch ipPortRegExp "64999" = true.
Proof.
  split; [lia|]. split; [exact (port_pattern 65000 ltac:(lia))|exact (port_pattern 64999 ltac:(lia))].
Defined.

(** The netmask of [address/prefix]: the first [prefix] of the 32 bits, and
    the host mask for a text without a prefix; for the prefix 0 the code shifts
    a 32-bit number by 32 places, which has no defined result. *)
Theorem netmask_of_subnet (address : string) (prefix : Z) :
  contains_char slash address = false → 0 ≤ prefix ≤ 32 →
  netMaskFromIpWithSubnet (address +:+ "/" +:+ pretty prefix) =
    (if prefix =? 0 then None else Some (mask_text (2 ^ 32 - 2 ^ (32 - prefix)))) ∧
  netMaskFromIpWithSubnet address = Some "255.255.255.255".
Proof.
  intros Ha Hp. unfold netMaskFromIpWithSubnet.
  assert (forallb (λ n, negb (contains_char slash (pretty n)) && bool_decide (toInt_ok (pretty n) = Some n) &&
            bool_decide ((mask_text <$> shift_mask n) =
              (if n =? 0 then None else Some (mask_text (2 ^ 32 - 2 ^ (32 - n)))))) (seqZ 0 33) = true) as Hall
    by (vm_compute; reflexivity).
  rewrite forallb_forall in Hall. specialize (Hall prefix).
  rewrite <- list_elem_of_In, elem_of_seqZ in Hall. specialize (Hall ltac:(lia)). split_bools.
  change ("/" +:+ pretty prefix) with (String slash (pretty prefix)).
  rewrite (split_char_line slash address (pretty prefix) Ha), (split_char_none slash address Ha).
  rewrite (split_char_none slash (pretty prefix)) by done. split; [|done].
  by rewrite H1, <- H0.
Qed.

Lemma netmask_of_subnet_witness :
  contains_char slash "10.0.0.0" = false ∧ netMaskFromIpWithSubnet "10.0.0.0/8" = Some "255.0.0.0" ∧
  netMaskFromIpWithSubnet "0.0.0.0/0" = None.
Proof.
  split; [reflexivity|]. split.
  - exact (proj1 (netmask_of_subnet "10.0.0.0" 8 eq_refl ltac:(lia))).
  - exact (proj1 (netmask_of_subnet "0.0.0.0" 0 eq_refl ltac:(lia))).
Defined.

(** ** The answer the gateway is read from *)

(** A route as the kernel describes it. *)
Record kernel_route := mkKernelRoute {
  kr_seq : Z;
  kr_pid : Z;
  kr_family : Z;
  kr_dst_len : Z;
  kr_table : Z;
  kr_rest : list Z;  (** protocol, scope, type and flags *)
  kr_attrs : list (Z * list Z);
}.

Definition pad4 (l : list Z) : list Z := l ++ replicate (Z.to_nat (align4 (Z.of_nat (length l))) - length l) 0.
Definition attr_bytes (a : Z * list Z) : list Z :=
  pad4 (le 2 (4 + Z.of_nat (length a.2)) ++ le 2 a.1 ++ a.2).
Definition attrs_bytes (l : list (Z * list Z)) : list Z := concat (attr_bytes <$> l).

Definition route_bytes (r : kernel_route) : list Z :=
  le 4 (28 + Z.of_nat (length (attrs_bytes (kr_attrs r)))) ++ le 2 RTM_NEWROUTE ++ le 2 NLM_F_MULTI ++
  le 4 (kr_seq r) ++ le 4 (kr_pid r) ++
  le 1 (kr_family r) ++ le 1 (kr_dst_len r) ++ [0; 0] ++ le 1 (kr_table r) ++ kr_rest r ++
  attrs_bytes (kr_attrs r).
Definition routes_bytes (l : list kernel_route) : list Z := concat (route_bytes <$> l).
Definition done_bytes (seq pid : Z) : list Z :=
  le 4 20 ++ le 2 NLMSG_DONE ++ le 2 NLM_F_MULTI ++ le 4 seq ++ le 4 pid ++ le 4 0.

Record attr_ok (a : Z * list Z) : Prop := {
  attr_type : 0 ≤ a.1 < 2 ^ 16;
  attr_short : Z.of_nat (length a.2) < 2 ^ 16 - 4;
  attr_oif : a.1 = RTA_OIF → length a.2 = 4%nat;
  attr_gateway : a.1 = RTA_GATEWAY → (4 ≤ length a.2)%nat;
}.
Record route_ok (r : kernel_route) : Prop := {
  ok_attrs : Forall attr_ok (kr_attrs r);
  ok_rest : length (kr_rest r) = 7%nat;
  ok_table : 0 ≤ kr_table r < 256;
  ok_size : Z.of_nat (length (attrs_bytes (kr_attrs r))) < 2 ^ 32 - 28;
}.

Section gateway_spec.
Context (inet_ntop4 : list Z → string) (if_indextoname : Z → string).

(** What a route's attributes say. *)
Definition read_attr (f : found) (a : Z * list Z) : found :=
  if a.1 =? RTA_OIF then mkFound (gateway_address f) (if_indextoname (le_num a.2))
  else if a.1 =? RTA_GATEWAY then mkFound (inet_ntop4 (take 4 a.2)) (interface f)
  else f.
Definition route_found (r : kernel_route) : found := foldl read_attr nothing_found (kr_attrs r).
Definition complete (f : found) : bool :=
  negb (String.eqb (gateway_address f) "") && negb (String.eqb (interface f) "").

(** The first route of the main table with a gateway and an interface. *)
Fixpoint first_gateway (l : list kernel_route) : option found :=
  match l with
  | [] => None
  | r :: l' =>
      if (kr_table r =? RT_TABLE_MAIN) && complete (route_found r) then Some (route_found r) else first_gateway l'
  end.

(** *** Bytes *)
Lemma align4_spec n : align4 n = 4 * ((n + 3) / 4).
Proof.
  unfold align4. rewrite <- Z.ldiff_land. change 3 with (Z.ones 2) at 2.
  rewrite Z.ldiff_ones_r, Z.shiftr_div_pow2, Z.shiftl_mul_pow2 by lia. change (2 ^ 2) with 4. lia.
Qed.
Lemma align4_bounds n : n ≤ align4 n < n + 4.
Proof. rewrite align4_spec. pose proof (Z.div_mod (n + 3) 4). pose proof (Z.mod_pos_bound (n + 3) 4). lia. Qed.
Lemma align4_align4 n : align4 (align4 n) = align4 n.
Proof.
  rewrite (align4_spec (align4 n)), (align4_spec n). f_equal.
  rewrite (Z.mul_comm 4), Z.div_add_l by lia. change (3 / 4) with 0. lia.
Qed.
Lemma align4_add a b : align4 (align4 a + b) = align4 a + align4 b.
Proof.
  rewrite !align4_spec, <- Z.add_assoc, (Z.mul_comm 4 ((a + 3) / 4)), Z.div_add_l by lia. lia.
Qed.

Lemma field_le n v rest : 0 ≤ v < 256 ^ Z.of_nat n → field 0 n (le n v ++ rest) = v.
Proof.
  intros Hv. unfold field. rewrite drop_0, take_app_length' by (by rewrite length_le).
  rewrite le_num_le. by apply Z.mod_small.
Qed.
Lemma field_skip off n p rest : (length p ≤ off)%nat → field off n (p ++ rest) = field (off - length p) n rest.
Proof. intros H. unfold field. by rewrite drop_app_ge. Qed.
Lemma field_skip_le off n k v rest : (k ≤ off)%nat → field off n (le k v ++ rest) = field (off - k) n rest.
Proof. intros H. rewrite field_skip, length_le; [done|by rewrite length_le]. Qed.

Lemma length_pad4 l : Z.of_nat (length (pad4 l)) = align4 (Z.of_nat (length l)).
Proof.
  unfold pad4. rewrite length_app, length_replicate.
  pose proof (align4_bounds (Z.of_nat (length l))). lia.
Qed.
Lemma length_attr_bytes a : Z.of_nat (length (attr_bytes a)) = align4 (4 + Z.of_nat (length a.2)).
Proof. unfold attr_bytes. rewrite length_pad4, !length_app, !length_le. f_equal. lia. Qed.
Lemma length_attrs_bytes l : align4 (Z.of_nat (length (attrs_bytes l))) = Z.of_nat (length (attrs_bytes l)).
Proof.
  induction l as [|a l IH]; [done|]. unfold attrs_bytes in *. cbn [fmap list_fmap concat].
  rewrite length_app, Nat2Z.inj_add, length_attr_bytes, align4_add, IH. lia.
Qed.

(** *** The attributes of a route *)
Lemma read_attributes_bytes l fuel rest f :
  Forall attr_ok l → (length l < fuel)%nat →
  read_attributes inet_ntop4 if_indextoname fuel (attrs_bytes l ++ rest) (Z.of_nat (length (attrs_bytes l))) f =
  foldl read_attr f l.
Proof.
  revert l f. induction fuel as [|fuel IH]; intros l f Hl Hf; [lia|].
  destruct l as [|a l]; [done|]. apply Forall_cons in Hl as [Ha Hl]. cbn in Hf.
  pose proof (length_attr_bytes a) as El. pose proof (attr_type _ Ha). pose proof (attr_short _ Ha).
  pose proof (align4_bounds (4 + Z.of_nat (length a.2))).
  set (data := a.2 ++ replicate (Z.to_nat (align4 (4 + Z.of_nat (length a.2))) - (4 + length a.2)) 0).
  assert (attr_bytes a = le 2 (4 + Z.of_nat (length a.2)) ++ le 2 a.1 ++ data) as Eb.
  { unfold attr_bytes, pad4, data. rewrite !length_app, !length_le, <- !app_assoc.
    by replace (Z.of_nat (2 + (2 + length a.2))) with (4 + Z.of_nat (length a.2)) by lia. }
  unfold attrs_bytes. cbn [fmap list_fmap concat]. fold (attrs_bytes l).
  rewrite length_app, Nat2Z.inj_add, El, <- app_assoc. cbn [read_attributes].
  assert (field 0 2 (attr_bytes a ++ attrs_bytes l ++ rest) = 4 + Z.of_nat (length a.2)) as ->.
  { rewrite Eb, <- app_assoc, field_le; [done|]. change (256 ^ Z.of_nat 2) with (2 ^ 16). lia. }
  assert (field 2 2 (attr_bytes a ++ attrs_bytes l ++ rest) = a.1) as ->.
  { rewrite Eb, <- app_assoc, field_skip_le by lia. rewrite <- app_assoc, Nat.sub_diag, field_le; [done|].
    change (256 ^ Z.of_nat 2) with (2 ^ 16). lia. }
  rewrite !(proj2 (Z.leb_le _ _)) by lia. cbn [andb].
  rewrite (drop_app_length' (attr_bytes a)) by lia.
  replace (align4 (4 + Z.of_nat (length a.2)) + Z.of_nat (length (attrs_bytes l)) - align4 (4 + Z.of_nat (length a.2)))
    with (Z.of_nat (length (attrs_bytes l))) by lia.
  rewrite IH by (done || lia). cbn [foldl]. f_equal. unfold read_attr.
  assert (drop 4 (attr_bytes a ++ attrs_bytes l ++ rest) = a.2 ++ drop (length a.2) data ++ attrs_bytes l ++ rest) as ->.
  { rewrite Eb, <- !app_assoc, (app_assoc (le 2 _)), (drop_app_length' (le 2 _ ++ le 2 _))
      by (rewrite length_app, !length_le; lia).
    unfold data. by rewrite drop_app_length, <- app_assoc. }
  case_match eqn:Eo.
  - apply Z.eqb_eq in Eo. f_equal. f_equal. unfold field. rewrite drop_0. f_equal.
    apply take_app_length'. symmetry. by apply (attr_oif _ Ha).
  - case_match eqn:Eg; [|done]. apply Z.eqb_eq in Eg. f_equal. f_equal.
    apply take_app_le. by apply (attr_gateway _ Ha).
Qed.

(** *** The routes of an answer *)
Lemma length_route_bytes r :
  length (kr_rest r) = 7%nat → length (route_bytes r) = (28 + length (attrs_bytes (kr_attrs r)))%nat.
Proof. intros H. unfold route_bytes. rewrite !length_app, !length_le, H. cbn [length]. lia. Qed.

Lemma route_bytes_split r :
  route_bytes r =
    (le 4 (28 + Z.of_nat (length (attrs_bytes (kr_attrs r)))) ++ le 2 RTM_NEWROUTE ++ le 2 NLM_F_MULTI ++
     le 4 (kr_seq r) ++ le 4 (kr_pid r) ++ le 1 (kr_family r) ++ le 1 (kr_dst_len r) ++ [0; 0] ++
     le 1 (kr_table r) ++ kr_rest r) ++ attrs_bytes (kr_attrs r).
Proof. unfold route_bytes. by rewrite <- !app_assoc. Qed.

(** One step of the loop over the messages. *)
Lemma read_routes_route r rest fuel remaining f :
  route_ok r → Z.of_nat (length (route_bytes r)) ≤ remaining →
  read_routes inet_ntop4 if_indextoname (S fuel) (route_bytes r ++ rest) remaining f =
    if negb (kr_table r =? RT_TABLE_MAIN)
    then read_routes inet_ntop4 if_indextoname fuel rest (remaining - Z.of_nat (length (route_bytes r))) f
    else if complete (route_found r) then route_found r
    else read_routes inet_ntop4 if_indextoname fuel rest (remaining - Z.of_nat (length (route_bytes r))) (route_found r).
Proof.
  intros [Hattrs Hrest Htable Hsize] Hrem. pose proof (length_route_bytes r Hrest) as Hlen.
  set (n := Z.of_nat (length (attrs_bytes (kr_attrs r)))) in *.
  assert (field 0 4 (route_bytes r ++ rest) = 28 + n) as E0.
  { unfold route_bytes. rewrite <- app_assoc. apply field_le. change (256 ^ Z.of_nat 4) with (2 ^ 32). lia. }
  assert (field 20 1 (route_bytes r ++ rest) = kr_table r) as E1.
  { unfold route_bytes. rewrite <- !app_assoc. do 7 (rewrite field_skip_le by lia; cbn [Nat.sub]).
    rewrite field_skip by (cbn; lia). apply field_le. change (256 ^ Z.of_nat 1) with 256. lia. }
  assert (align4 (28 + n) = 28 + n) as Ea.
  { change 28 with (align4 28) at 1. rewrite align4_add. unfold n. by rewrite length_attrs_bytes. }
  cbn [read_routes]. rewrite E0. change (Z.to_nat (NLMSG_HDRLEN + 4)) with 20%nat. rewrite E1, Ea.
  change NLMSG_HDRLEN with 16. rewrite !(proj2 (Z.leb_le _ _)) by lia. cbn [andb].
  rewrite (drop_app_length' (route_bytes r)) by lia.
  replace (Z.of_nat (length (route_bytes r))) with (28 + n) by lia.
  assert (read_attributes inet_ntop4 if_indextoname (Z.to_nat (28 + n)) (drop (Z.to_nat headers) (route_bytes r ++ rest))
    (28 + n - headers) nothing_found = route_found r) as ->.
  { change (Z.to_nat headers) with 28%nat. change headers with 28. replace (28 + n - 28) with n by lia.
    rewrite route_bytes_split, <- app_assoc, drop_app_length'.
    - apply read_attributes_bytes; [done|].
      enough (length (kr_attrs r) ≤ length (attrs_bytes (kr_attrs r)))%nat by lia.
      clear. induction (kr_attrs r) as [|a l IH]; [done|]. unfold attrs_bytes in *. cbn [fmap list_fmap concat length].
      rewrite length_app. pose proof (length_attr_bytes a). pose proof (align4_bounds (4 + Z.of_nat (length a.2))). lia.
    - rewrite !length_app, !length_le, Hrest. reflexivity. }
  reflexivity.
Qed.

Lemma read_routes_done seq pid fuel f :
  read_routes inet_ntop4 if_indextoname (S fuel) (done_bytes seq pid) 20 f = f.
Proof. cbn. by destruct fuel. Qed.

Lemma read_routes_bytes l seq pid fuel f :
  Forall route_ok l → (length l < fuel)%nat →
  read_routes inet_ntop4 if_indextoname fuel (routes_bytes l ++ done_bytes seq pid)
    (Z.of_nat (length (routes_bytes l)) + 20) f =
    default (foldl (λ f r, if kr_table r =? RT_TABLE_MAIN then route_found r else f) f l) (first_gateway l).
Proof.
  revert l f. induction fuel as [|fuel IH]; intros l f Hl Hf; [lia|].
  destruct l as [|r l]; [apply read_routes_done|]. apply Forall_cons in Hl as [Hr Hl]. cbn in Hf.
  change (routes_bytes (r :: l)) with (route_bytes r ++ routes_bytes l).
  rewrite <- app_assoc, read_routes_route by (done || rewrite length_app; lia).
  rewrite length_app, Nat2Z.inj_add.
  replace (Z.of_nat (length (route_bytes r)) + Z.of_nat (length (routes_bytes l)) + 20 -
           Z.of_nat (length (route_bytes r))) with (Z.of_nat (length (routes_bytes l)) + 20) by lia.
  rewrite !IH by (done || lia). cbn [first_gateway foldl].
  destruct (kr_table r =? RT_TABLE_MAIN); cbn [negb andb]; [|done].
  by destruct (complete (route_found r)).
Qed.

(** The kernel's answer, in as many parts as it chose, is received whole. *)
Lemma receive_chunks chunks buf pid :
  Forall (λ c, c ≠ [] ∧ Forall route_ok c ∧ Forall (λ r, kr_seq r = 0) c) chunks →
  let bytes := routes_bytes (concat chunks) ++ done_bytes 0 pid in
  receive (((λ c, Recv (routes_bytes c)) <$> chunks) ++ [Recv (done_bytes 0 pid)]) buf pid 1 =
    Some (buf ++ bytes, Z.of_nat (length (buf ++ bytes))).
Proof.
  cbn zeta. revert buf. induction chunks as [|c chunks IH]; intros buf Hc.
  - reflexivity.
  - apply Forall_cons in Hc as [(Hne & Hok & Hseq) Hc]. destruct c as [|r c]; [done|].
    apply Forall_cons in Hok as [[_ Hrest _ Hsize] _]. apply Forall_cons in Hseq as [Hseq _].
    cbn [fmap list_fmap app receive concat]. change (routes_bytes (r :: c)) with (route_bytes r ++ routes_bytes c).
    set (more := routes_bytes c).
    assert (∀ k, route_bytes r ++ k = le 4 (28 + Z.of_nat (length (attrs_bytes (kr_attrs r)))) ++ le 2 RTM_NEWROUTE ++
      le 2 NLM_F_MULTI ++ le 4 0 ++ le 4 (kr_pid r) ++ le 1 (kr_family r) ++ le 1 (kr_dst_len r) ++ [0; 0] ++
      le 1 (kr_table r) ++ kr_rest r ++ attrs_bytes (kr_attrs r) ++ k) as Eb.
    { intros k. unfold route_bytes. by rewrite Hseq, <- !app_assoc. }
    assert (field 0 4 (route_bytes r ++ more) = 28 + Z.of_nat (length (attrs_bytes (kr_attrs r)))) as ->.
    { rewrite Eb. apply field_le. change (256 ^ Z.of_nat 4) with (2 ^ 32). lia. }
    assert (field 4 2 (route_bytes r ++ more) = RTM_NEWROUTE) as -> by by rewrite Eb.
    assert (field 6 2 (route_bytes r ++ more) = NLM_F_MULTI) as -> by by rewrite Eb.
    assert (field 8 4 (route_bytes r ++ more) = 0) as -> by by rewrite Eb.
    pose proof (length_route_bytes r Hrest) as Hlen.
    change NLMSG_HDRLEN with 16. do 3 rewrite (proj2 (Z.leb_le _ _)) by (rewrite ?length_app; lia). cbn -[Z.of_nat app le].
    etrans; [apply IH, Hc|].
    rewrite fmap_app, concat_app. unfold more, routes_bytes. by rewrite <- !app_assoc.
Qed.

Lemma length_routes_bytes l : Forall route_ok l → (length l ≤ length (routes_bytes l))%nat.
Proof.
  induction 1 as [|r l Hr _ IH]; [done|]. change (routes_bytes (r :: l)) with (route_bytes r ++ routes_bytes l).
  rewrite length_app, (length_route_bytes r) by apply Hr. cbn [length]. lia.
Qed.

Lemma nothing_complete l f :
  complete f = false → first_gateway l = None →
  complete (foldl (λ f r, if kr_table r =? RT_TABLE_MAIN then route_found r else f) f l) = false.
Proof.
  revert f. induction l as [|r l IH]; intros f Hf Hl; [done|]. cbn [first_gateway foldl] in *.
  destruct (kr_table r =? RT_TABLE_MAIN) eqn:E; cbn [andb] in Hl; [|by apply IH].
  destruct (complete (route_found r)) eqn:Ec; [done|]. by apply IH.
Qed.

(** The gateway and the interface read from the kernel's answer, in however
    many parts it arrives, are those of the first route of the main table that has
    both; when there is none, one of the two texts is empty.  The length of the
    route's destination plays no part. *)
Theorem gateway_reader (pid : Z) (chunks : list (list kernel_route)) :
  Forall (λ c, c ≠ [] ∧ Forall route_ok c ∧ Forall (λ r, kr_seq r = 0) c) chunks →
  let answers := ((λ c, Recv (routes_bytes c)) <$> chunks) ++ [Recv (done_bytes 0 pid)] in
  let g := getGatewayAndIface inet_ntop4 if_indextoname true pid answers in
  match first_gateway (concat chunks) with
  | Some f => g = f ∧ complete f = true
  | None => complete g = false
  end.
Proof.
  intros Hc. cbn zeta. unfold getGatewayAndIface. cbn [negb]. rewrite receive_chunks by done. rewrite app_nil_l.
  assert (Forall route_ok (concat chunks)) as Hok.
  { induction Hc as [|c l (_ & ? & _) _ IH]; cbn; [done|]. by apply Forall_app. }
  pose proof (length_routes_bytes _ Hok) as Hlen. rewrite length_app. change (length (done_bytes 0 pid)) with 20%nat.
  replace (Z.of_nat (length (routes_bytes (concat chunks)) + 20))
    with (Z.of_nat (length (routes_bytes (concat chunks))) + 20) by lia.
  rewrite read_routes_bytes by (done || lia).
  destruct (first_gateway (concat chunks)) as [g|] eqn:Eg; cbn [default].
  - split; [done|]. clear -Eg. induction (concat chunks) as [|r l IH]; [done|]. cbn [first_gateway] in Eg.
    destruct (kr_table r =? RT_TABLE_MAIN); cbn [andb] in Eg; [|by apply IH].
    destruct (complete (route_found r)) eqn:E; [by simplify_eq|by apply IH].
  - by apply nothing_complete.
Qed.
End gateway_spec.

(** A route to 10.0.0.0/8 through 192.168.1.7 listed before the default route. *)
Definition office_route : kernel_route :=
  mkKernelRoute 0 7 2 8 RT_TABLE_MAIN (replicate 7 0) [(RTA_OIF, [2; 0; 0; 0]); (RTA_GATEWAY, [192; 168; 1; 7])].
Definition default_route : kernel_route :=
  mkKernelRoute 0 7 2 0 RT_TABLE_MAIN (replicate 7 0) [(RTA_GATEWAY, [192; 168; 1; 1]); (RTA_OIF, [2; 0; 0; 0])].
Definition show4 (l : list Z) : string :=
  match l with [a; b; c; d] => dotted a b c d | _ => "" end.

Lemma route_ok_example a : a ∈ [office_route; default_route] → route_ok a.
Proof.
  rewrite elem_of_cons, list_elem_of_singleton. intros [->| ->]; split; try done; repeat constructor; try done; cbn; lia.
Qed.

Lemma gateway_reader_witness :
  getGatewayAndIface show4 (λ _, "eth0") true 7
    [Recv (routes_bytes [office_route]); Recv (routes_bytes [default_route]); Recv (done_bytes 0 7)]
  = mkFound "192.168.1.7" "eth0".
Proof.
  refine (proj1 (gateway_reader show4 (λ _, "eth0") 7 [[office_route]; [default_route]] _)).
  repeat constructor; try discriminate; apply route_ok_example; set_solver.
Defined.
