(* ===== verification/ServerConfig.v ===== *)
(** * ServerConfig: the stored configuration of a server

    Models [client/core/models/protocolConfig.cpp] (one protocol's settings, of
    whichever kind), [containerConfig.cpp] (a container and its protocol),
    [models/selfhosted/*.cpp] (the servers: administered, shared with a user, and
    imported), [core/utils/serverConfigUtils.cpp] (the kind of a stored server)
    and [models/serverDescription.cpp] (a server's row in the list). *)
From S2P Require Import Prelude Text Json IpAddress Qt Wire Containers ProtocolConfigs XrayConfig NetworkUtilities.

(** ** [ProtocolConfig]: one of eleven structures *)
Inductive ProtocolConfig :=
  | PAwg (c : AwgProtocolConfig)
  | PWireGuard (c : WireGuardProtocolConfig)
  | POpenVpn (c : OpenVpnProtocolConfig)
  | PXray (c : XrayProtocolConfig)
  | PSftp (c : SftpProtocolConfig)
  | PSocks5Proxy (c : Socks5ProxyProtocolConfig)
  | PMtProxy (c : MtProxyProtocolConfig)
  | PTelemt (c : TelemtProtocolConfig)
  | PIkev2 (c : Ikev2ProtocolConfig)
  | PTor (c : TorServerConfig)
  | PDns (c : DnsProtocolConfig).

(** The first structure with its members' initial values: empty texts, [false]
    and no client. *)
Definition ProtocolConfig_initial : ProtocolConfig := PAwg (mkWithClient (AwgServerConfig.fromJson ∅) None).

(** [arg.clientConfig->nativeConfig = config] *)
Definition AwgClientConfig_set_nativeConfig (config : string) (c : AwgClientConfig) : AwgClientConfig :=
  let '(AwgClientConfig.mk _
    a1 a2 a3 a4 a5 a6 a7 a8 a9 a10 a11 a12 a13 a14 a15 a16 a17 a18 a19 a20 a21 a22 a23 a24 a25 a26 a27 a28 a29
    a30 a31 a32 a33 a34 a35) := c in
  AwgClientConfig.mk config
    a1 a2 a3 a4 a5 a6 a7 a8 a9 a10 a11 a12 a13 a14 a15 a16 a17 a18 a19 a20 a21 a22 a23 a24 a25 a26 a27 a28 a29
    a30 a31 a32 a33 a34 a35.

Definition WireGuardClientConfig_set_nativeConfig (config : string) (c : WireGuardClientConfig) : WireGuardClientConfig :=
  let '(WireGuardClientConfig.mk _
    a1 a2 a3 a4 a5 a6 a7 a8 a9 a10 a11 a12) := c in
  WireGuardClientConfig.mk config
    a1 a2 a3 a4 a5 a6 a7 a8 a9 a10 a11 a12.

Definition OpenVpnClientConfig_set_nativeConfig (config : string) (c : OpenVpnClientConfig) : OpenVpnClientConfig :=
  let '(OpenVpnClientConfig.mk _
    a1 a2) := c in
  OpenVpnClientConfig.mk config
    a1 a2.

Definition Ikev2ClientConfig_set_nativeConfig (config : string) (c : Ikev2ClientConfig) : Ikev2ClientConfig :=
  let '(Ikev2ClientConfig.mk _
    a1 a2 a3 a4 a5) := c in
  Ikev2ClientConfig.mk config
    a1 a2 a3 a4 a5.

Definition with_client_map {S C} (f : C → C) (c : WithClient S C) : WithClient S C :=
  mkWithClient (serverConfig c) (f <$> clientConfig c).

Module ProtocolConfig.
Definition type (p : ProtocolConfig) : Proto :=
  match p with
  | PAwg _ => Proto.Awg
  | PWireGuard _ => Proto.WireGuard
  | POpenVpn _ => Proto.OpenVpn
  | PXray _ => Proto.Xray
  | PSftp _ => Proto.Sftp
  | PSocks5Proxy _ => Proto.Socks5Proxy
  | PIkev2 _ => Proto.Ikev2
  | PTor _ => Proto.TorWebSite
  | PDns _ => Proto.Dns
  | PMtProxy _ => Proto.MtProxy
  | PTelemt _ => Proto.Telemt
  end.

Definition port (p : ProtocolConfig) : string :=
  match p with
  | PAwg c => AwgServerConfig.port (serverConfig c)
  | PWireGuard c => WireGuardServerConfig.port (serverConfig c)
  | POpenVpn c => OpenVpnServerConfig.port (serverConfig c)
  | PXray c => XrayServerConfig.port (XrayProtocolConfig.serverConfig c)
  | PSftp c => SftpProtocolConfig.port c
  | PSocks5Proxy c => Socks5ProxyProtocolConfig.port c
  | PIkev2 _ | PTor _ | PDns _ => ""
  | PMtProxy c => if String.eqb (MtProxyProtocolConfig.port c) "" then "443" else MtProxyProtocolConfig.port c
  | PTelemt c => if String.eqb (TelemtProtocolConfig.port c) "" then "443" else TelemtProtocolConfig.port c
  end.

Definition transportProto (p : ProtocolConfig) : string :=
  match p with
  | PAwg c => AwgServerConfig.transportProto (serverConfig c)
  | PWireGuard c => WireGuardServerConfig.transportProto (serverConfig c)
  | POpenVpn c => OpenVpnServerConfig.transportProto (serverConfig c)
  | PXray c => XrayServerConfig.transportProto (XrayProtocolConfig.serverConfig c)
  | PMtProxy _ | PTelemt _ => "tcp"
  | PSftp _ | PSocks5Proxy _ | PIkev2 _ | PTor _ | PDns _ => ""
  end.

Definition hasClientConfig (p : ProtocolConfig) : bool :=
  match p with
  | PAwg c => ProtocolConfigs.hasClientConfig c
  | PWireGuard c => ProtocolConfigs.hasClientConfig c
  | POpenVpn c => ProtocolConfigs.hasClientConfig c
  | PXray c => XrayProtocolConfig.hasClientConfig c
  | PIkev2 c => ProtocolConfigs.hasClientConfig c
  | _ => false
  end.

Definition clientId (p : ProtocolConfig) : string :=
  match p with
  | PAwg c => from_option AwgClientConfig.clientId "" (clientConfig c)
  | PWireGuard c => from_option WireGuardClientConfig.clientId "" (clientConfig c)
  | POpenVpn c => from_option OpenVpnClientConfig.clientId "" (clientConfig c)
  | PXray c => from_option XrayClientConfig.id "" (XrayProtocolConfig.clientConfig c)
  | PIkev2 c => from_option Ikev2ClientConfig.clientId "" (clientConfig c)
  | _ => ""
  end.

Definition nativeConfig (p : ProtocolConfig) : string :=
  match p with
  | PAwg c => from_option AwgClientConfig.nativeConfig "" (clientConfig c)
  | PWireGuard c => from_option WireGuardClientConfig.nativeConfig "" (clientConfig c)
  | POpenVpn c => from_option OpenVpnClientConfig.nativeConfig "" (clientConfig c)
  | PXray c => from_option XrayClientConfig.nativeConfig "" (XrayProtocolConfig.clientConfig c)
  | PIkev2 c => from_option Ikev2ClientConfig.nativeConfig "" (clientConfig c)
  | _ => ""
  end.

Definition isThirdPartyConfig (p : ProtocolConfig) : bool :=
  match p with
  | PAwg c => AwgServerConfig.isThirdPartyConfig (serverConfig c)
  | PWireGuard c => WireGuardServerConfig.isThirdPartyConfig (serverConfig c)
  | POpenVpn c => OpenVpnServerConfig.isThirdPartyConfig (serverConfig c)
  | PXray c => XrayServerConfig.isThirdPartyConfig (XrayProtocolConfig.serverConfig c)
  | PIkev2 c => Ikev2ServerConfig.isThirdPartyConfig (serverConfig c)
  | _ => false
  end.

Definition getClientConfigJson (p : ProtocolConfig) : gmap string json :=
  match p with
  | PAwg c => from_option AwgClientConfig.toJson ∅ (clientConfig c)
  | PWireGuard c => from_option WireGuardClientConfig.toJson ∅ (clientConfig c)
  | POpenVpn c => from_option OpenVpnClientConfig.toJson ∅ (clientConfig c)
  | PXray c => from_option XrayClientConfig.toJson ∅ (XrayProtocolConfig.clientConfig c)
  | PIkev2 c => from_option Ikev2ClientConfig.toJson ∅ (clientConfig c)
  | _ => ∅
  end.

Definition clearClientConfig (p : ProtocolConfig) : ProtocolConfig :=
  match p with
  | PAwg c => PAwg (ProtocolConfigs.clearClientConfig c)
  | PWireGuard c => PWireGuard (ProtocolConfigs.clearClientConfig c)
  | POpenVpn c => POpenVpn (ProtocolConfigs.clearClientConfig c)
  | PXray c => PXray (XrayProtocolConfig.clearClientConfig c)
  | PIkev2 c => PIkev2 (ProtocolConfigs.clearClientConfig c)
  | _ => p
  end.

Definition setNativeConfig (config : string) (p : ProtocolConfig) : ProtocolConfig :=
  match p with
  | PAwg c => PAwg (with_client_map (AwgClientConfig_set_nativeConfig config) c)
  | PWireGuard c => PWireGuard (with_client_map (WireGuardClientConfig_set_nativeConfig config) c)
  | POpenVpn c => POpenVpn (with_client_map (OpenVpnClientConfig_set_nativeConfig config) c)
  | PXray c =>
      PXray (XrayProtocolConfig.mk (XrayProtocolConfig.serverConfig c)
        ((λ client, XrayClientConfig.mk config (XrayClientConfig.localPort client) (XrayClientConfig.id client)) <$>
           XrayProtocolConfig.clientConfig c)
        (XrayProtocolConfig.needsClientHydration c))
  | PIkev2 c => PIkev2 (with_client_map (Ikev2ClientConfig_set_nativeConfig config) c)
  | _ => p
  end.

Section codec.
Context {J : JsonCodec}.

Definition setClientConfigJson (json : gmap string json) (p : ProtocolConfig) : ProtocolConfig :=
  match p with
  | PAwg c => PAwg (setClientConfig (AwgClientConfig.fromJson json) c)
  | PWireGuard c => PWireGuard (setClientConfig (WireGuardClientConfig.fromJson json) c)
  | POpenVpn c => POpenVpn (setClientConfig (OpenVpnClientConfig.fromJson json) c)
  | PXray c => PXray (XrayProtocolConfig.setClientConfig (XrayClientConfig.fromJson json) c)
  | PIkev2 c => PIkev2 (setClientConfig (Ikev2ClientConfig.fromJson json) c)
  | _ => p
  end.

Definition toJson (p : ProtocolConfig) : gmap string json :=
  match p with
  | PAwg c => with_client_toJson c
  | PWireGuard c => with_client_toJson c
  | POpenVpn c => with_client_toJson c
  | PXray c => XrayProtocolConfig.toJson c
  | PSftp c => SftpProtocolConfig.toJson c
  | PSocks5Proxy c => Socks5ProxyProtocolConfig.toJson c
  | PMtProxy c => MtProxyProtocolConfig.toJson c
  | PTelemt c => TelemtProtocolConfig.toJson c
  | PIkev2 c => with_client_toJson c
  | PTor c => TorServerConfig.toJson c
  | PDns c => DnsProtocolConfig.toJson c
  end.

Definition fromJson (json : gmap string json) (type : Proto) : ProtocolConfig :=
  match type with
  | Proto.Awg => PAwg (with_client_fromJson json)
  | Proto.WireGuard => PWireGuard (with_client_fromJson json)
  | Proto.OpenVpn => POpenVpn (with_client_fromJson json)
  | Proto.Xray | Proto.SSXray => PXray (XrayProtocolConfig.fromJson json)
  | Proto.Sftp => PSftp (SftpProtocolConfig.fromJson json)
  | Proto.Socks5Proxy => PSocks5Proxy (Socks5ProxyProtocolConfig.fromJson json)
  | Proto.Ikev2 => PIkev2 (with_client_fromJson json)
  | Proto.TorWebSite => PTor (TorServerConfig.fromJson json)
  | Proto.Dns => PDns (DnsProtocolConfig.fromJson json)
  | Proto.MtProxy => PMtProxy (MtProxyProtocolConfig.fromJson json)
  | Proto.Telemt => PTelemt (TelemtProtocolConfig.fromJson json)
  | Proto.Unknown => ProtocolConfig_initial
  end.
End codec.
End ProtocolConfig.

(** ** [ContainerConfig] *)
Module ContainerConfig.
Record ContainerConfig := mk { container : DockerContainer; protocolConfig : ProtocolConfig }.

(** [ContainerConfig{}] *)
Definition initial : ContainerConfig := mk DockerContainer.None ProtocolConfig_initial.

Definition getProtocolType (c : ContainerConfig) : Proto := defaultProtocol (container c).

Definition toJson {J : JsonCodec} (c : ContainerConfig) : gmap string json :=
  object [
    member "container" (JString (containerToString (container c)));
    member (protoToString (getProtocolType c)) (JObject (ProtocolConfig.toJson (protocolConfig c)))
  ].

Definition fromJson {J : JsonCodec} (json : gmap string json) : ContainerConfig :=
  let container := containerFromString (text json "container") in
  let protoType := defaultProtocol container in
  mk container (ProtocolConfig.fromJson (toObject (value json (protoToString protoType))) protoType).
End ContainerConfig.
Abbreviation ContainerConfig := ContainerConfig.ContainerConfig.

(** ** Maps of containers: [QMap<DockerContainer, ContainerConfig>]

    Keys are ordered as the enumeration is. *)
Definition container_index (c : DockerContainer) : nat :=
  match c with
  | DockerContainer.None => 0 | DockerContainer.Awg => 1 | DockerContainer.Awg2 => 2
  | DockerContainer.WireGuard => 3 | DockerContainer.OpenVpn => 4 | DockerContainer.Cloak => 5
  | DockerContainer.ShadowSocks => 6 | DockerContainer.Ipsec => 7 | DockerContainer.Xray => 8
  | DockerContainer.SSXray => 9 | DockerContainer.TorWebSite => 10 | DockerContainer.Dns => 11
  | DockerContainer.Sftp => 12 | DockerContainer.Socks5Proxy => 13 | DockerContainer.MtProxy => 14
  | DockerContainer.Telemt => 15
  end.

#[export] Instance DockerContainer_countable : Countable DockerContainer.
Proof. refine (inj_countable container_index (λ n, allContainers !! n) _). by intros []. Defined.

Abbreviation container_map := (gmap DockerContainer ContainerConfig).

(** The values of the map, in the order of their keys. *)
Definition container_values (m : container_map) : list ContainerConfig := omap (λ c, m !! c) allContainers.

Section common.
Context {J : JsonCodec}.

Definition containersArray (m : container_map) : list json :=
  (λ c, JObject (ContainerConfig.toJson c)) <$> container_values m.

(** [if (!array.isEmpty()) obj[configKey::containers] = array;] *)
Definition array_value (l : list json) : option json := match l with [] => None | _ => Some (JArray l) end.

(** [for (val : array) containers.insert(container, ContainerConfig::fromJson(obj));] *)
Definition read_container (m : container_map) (val : json) : container_map :=
  let containerObj := toObject (Some val) in
  <[containerFromString (text containerObj "container") := ContainerConfig.fromJson containerObj]> m.
Definition read_containers (array : list json) : container_map := foldl read_container ∅ array.
End common.

(** ** The servers

    The members the three structures share, and the code they repeat. *)
Record server_common := mkServer {
  description : string;
  displayName : string;
  hostName : string;
  containers : container_map;
  defaultContainer : DockerContainer;
  dns1 : string;
  dns2 : string;
}.

Definition hasContainers (c : server_common) : bool := negb (bool_decide (containers c = ∅)).
Definition containerConfig (container : DockerContainer) (c : server_common) : ContainerConfig :=
  default ContainerConfig.initial (containers c !! container).
Definition set_containers (m : container_map) (c : server_common) : server_common :=
  mkServer (description c) (displayName c) (hostName c) m (defaultContainer c) (dns1 c) (dns2 c).
Definition updateContainerConfig (container : DockerContainer) (config : ContainerConfig) (c : server_common)
    : server_common :=
  set_containers (<[container := config]> (containers c)) c.

Definition amneziaDnsIp : string := "172.29.172.254".

Section server.
Context {J : JsonCodec} {Q : Qt}.

Definition common_members (c : server_common) : list assignment :=
  [ text_member "description" (description c);
    text_member "hostName" (hostName c);
    ("containers", array_value (containersArray (containers c)));
    ("defaultContainer", if decide (defaultContainer c = DockerContainer.None) then None
                         else Some (JString (containerToString (defaultContainer c))));
    text_member "dns1" (dns1 c);
    text_member "dns2" (dns2 c) ].

Definition read_common (json : gmap string json) : server_common :=
  let description := text json "description" in
  let hostName := text json "hostName" in {|
    description := description;
    displayName := if String.eqb description "" then hostName else description;
    hostName := hostName;
    containers := read_containers (toArray (value json "containers"));
    defaultContainer := containerFromString (text json "defaultContainer");
    dns1 := text json "dns1";
    dns2 := text json "dns2" |}.

(** The two resolvers, [fallback] standing for a first one not set. *)
Definition dns_pair (fallback secondaryDns : string) (c : server_common) : string * string :=
  (if String.eqb (dns1 c) "" || negb (checkIPv4Format (dns1 c)) then fallback else dns1 c,
   if String.eqb (dns2 c) "" || negb (checkIPv4Format (dns2 c)) then secondaryDns else dns2 c).
End server.

Record ServerCredentials := mkCredentials {
  cred_hostName : string;
  cred_userName : string;
  secretData : string;
  cred_port : Z;
}.
Definition credentials_initial : ServerCredentials := mkCredentials "" "" "" 22.
Definition isValid (c : ServerCredentials) : bool :=
  negb (String.eqb (cred_hostName c) "") && negb (String.eqb (cred_userName c) "") &&
  negb (String.eqb (secretData c) "") && (0 <? cred_port c).

Module SelfHostedAdminServerConfig.
Record SelfHostedAdminServerConfig := mk {
  common : server_common;
  userName : string;
  password : string;
  port : Z;
}.

Definition hasCredentials (c : SelfHostedAdminServerConfig) : bool :=
  negb (String.eqb (userName c) "") && negb (String.eqb (password c) "") && (0 <? port c).
Definition isReadOnly (c : SelfHostedAdminServerConfig) : bool := negb (hasCredentials c).
Definition credentials (c : SelfHostedAdminServerConfig) : ServerCredentials :=
  mkCredentials (hostName (common c)) (userName c) (password c) (port c).

Definition with_common (s : server_common) (c : SelfHostedAdminServerConfig) : SelfHostedAdminServerConfig :=
  mk s (userName c) (password c) (port c).

Definition clearCachedClientProfile (container : DockerContainer) (c : SelfHostedAdminServerConfig)
    : SelfHostedAdminServerConfig :=
  if decide (containerService container = ServiceType.Other) then c else
  let cleared := containerConfig container (common c) in
  let cleared := ContainerConfig.mk (ContainerConfig.container cleared)
                   (ProtocolConfig.clearClientConfig (ContainerConfig.protocolConfig cleared)) in
  with_common (updateContainerConfig container cleared (common c)) c.

Section codec.
Context {J : JsonCodec} {Q : Qt}.

Definition getDnsPair (isAmneziaDnsEnabled : bool) (primaryDns secondaryDns : string)
    (c : SelfHostedAdminServerConfig) : string * string :=
  let dnsOnServer := bool_decide (is_Some (containers (common c) !! DockerContainer.Dns)) in
  dns_pair (if isAmneziaDnsEnabled && dnsOnServer then amneziaDnsIp else primaryDns) secondaryDns (common c).

Definition toJson (c : SelfHostedAdminServerConfig) : gmap string json :=
  object (common_members (common c) ++
    [text_member "userName" (userName c); text_member "password" (password c); positive_member "port" (port c)]).

Definition fromJson (json : gmap string json) : SelfHostedAdminServerConfig :=
  mk (read_common json) (text json "userName") (text json "password")
     (if contains json "port" then toInt (value json "port") else 0).
End codec.
End SelfHostedAdminServerConfig.
Abbreviation SelfHostedAdminServerConfig := SelfHostedAdminServerConfig.SelfHostedAdminServerConfig.

Module SelfHostedUserServerConfig.
Record SelfHostedUserServerConfig := mk { common : server_common }.
Definition hasCredentials (_ : SelfHostedUserServerConfig) : bool := false.
Definition isReadOnly (_ : SelfHostedUserServerConfig) : bool := true.
Definition credentials (_ : SelfHostedUserServerConfig) : option ServerCredentials := None.

Section codec.
Context {J : JsonCodec} {Q : Qt}.
Definition getDnsPair (primaryDns secondaryDns : string) (c : SelfHostedUserServerConfig) : string * string :=
  dns_pair primaryDns secondaryDns (common c).
Definition toJson (c : SelfHostedUserServerConfig) : gmap string json := object (common_members (common c)).
Definition fromJson (json : gmap string json) : SelfHostedUserServerConfig := mk (read_common json).
End codec.
End SelfHostedUserServerConfig.
Abbreviation SelfHostedUserServerConfig := SelfHostedUserServerConfig.SelfHostedUserServerConfig.

Module NativeServerConfig.
Record NativeServerConfig := mk { common : server_common }.

Section codec.
Context {J : JsonCodec} {Q : Qt}.
Definition getDnsPair (primaryDns secondaryDns : string) (c : NativeServerConfig) : string * string :=
  dns_pair primaryDns secondaryDns (common c).
Definition toJson (c : NativeServerConfig) : gmap string json := object (common_members (common c)).
Definition fromJson (json : gmap string json) : NativeServerConfig := mk (read_common json).
End codec.
End NativeServerConfig.
Abbreviation NativeServerConfig := NativeServerConfig.NativeServerConfig.

(** ** The kind of a stored server *)
Inductive ConfigType := UnsupportedSubscription | SelfHostedAdmin | SelfHostedUser | Native | Invalid.
#[export] Instance ConfigType_eq_dec : EqDecision ConfigType.
Proof. solve_decision. Defined.

(** [ConfigSource::Telegram] and [AmneziaGateway] *)
Definition isServerFromApi (serverConfigObject : gmap string json) : bool :=
  let configVersion := toInt (value serverConfigObject "config_version") in
  (configVersion =? 1) || (configVersion =? 2).

(** A member of a container's object that is marked as imported. *)
Definition third_party_member (e : string * json) : bool :=
  negb (String.eqb e.1 "container") &&
  (let protocolObj := toObject (Some e.2) in
   contains protocolObj "isThirdPartyConfig" && toBool (value protocolObj "isThirdPartyConfig")).
Definition hasThirdPartyConfig (json : gmap string json) : bool :=
  existsb (λ val, existsb third_party_member (map_to_list (toObject (Some val))))
    (toArray (value json "containers")).

Definition configTypeFromJson {J : JsonCodec} (serverConfigObject : gmap string json) : ConfigType :=
  if isServerFromApi serverConfigObject then UnsupportedSubscription
  else if hasThirdPartyConfig serverConfigObject then Native
  else if SelfHostedAdminServerConfig.hasCredentials (SelfHostedAdminServerConfig.fromJson serverConfigObject)
  then SelfHostedAdmin else SelfHostedUser.

(** ** A server's row in the list *)
Module ServerDescription.
Record ServerDescription := mk {
  serverId : string;
  serverName : string;
  baseDescription : string;
  hostName : string;
  selfHostedSshCredentials : ServerCredentials;
  hasWriteAccess : bool;
  primaryDnsIsAmnezia : bool;
  defaultContainer : DockerContainer;
  hasInstalledVpnContainers : bool;
  collapsedServerDescription : string;
  expandedServerDescription : string;
}.

Definition computeHasInstalledVpnContainers (m : container_map) : bool :=
  existsb (λ c, bool_decide (is_Some (m !! c)) &&
             (bool_decide (containerService c = ServiceType.Vpn) || bool_decide (c = DockerContainer.SSXray)))
    allContainers.

Definition getBaseDescription (m : container_map) (isAmneziaDnsEnabled hasWriteAccess primaryDnsIsAmnezia : bool)
    : string :=
  if hasWriteAccess then
    if isAmneziaDnsEnabled && bool_decide (is_Some (m !! DockerContainer.Dns)) then "Amnezia DNS | " else ""
  else if primaryDnsIsAmnezia then "Amnezia DNS | " else "".

Definition getProtocolName {J : JsonCodec} (defaultContainer : DockerContainer) (m : container_map) : string :=
  let containerName := valueToKey containerHumanNames defaultContainer in
  let '(containerName, protocolVersion) :=
    if isAwgContainer defaultContainer then
      match ContainerConfig.protocolConfig <$> m !! defaultContainer with
      | Some (PAwg awg) =>
          (if bool_decide (defaultContainer = DockerContainer.Awg) &&
              negb (AwgServerConfig.isThirdPartyConfig (serverConfig awg))
           then "AmneziaWG Legacy" else containerName,
           getProtocolVersionString (with_client_toJson awg))
      | _ => (containerName, "")
      end
    else (containerName, "") in
  containerName +:+ protocolVersion +:+ " | ".

(** [buildServerDescription], by the credentials the kind of server has. *)
Definition build {J : JsonCodec} (creds : ServerCredentials) (hasWriteAccess isAmneziaDnsEnabled : bool)
    (server : server_common) : ServerDescription :=
  let primaryDnsIsAmnezia := String.eqb (dns1 server) amneziaDnsIp in
  let base := getBaseDescription (containers server) isAmneziaDnsEnabled hasWriteAccess primaryDnsIsAmnezia in
  let protocolName := getProtocolName (ServerConfig.defaultContainer server) (containers server) in {|
    serverId := "";
    serverName := displayName server;
    baseDescription := base;
    hostName := ServerConfig.hostName server;
    selfHostedSshCredentials := creds;
    hasWriteAccess := hasWriteAccess;
    primaryDnsIsAmnezia := primaryDnsIsAmnezia;
    defaultContainer := ServerConfig.defaultContainer server;
    hasInstalledVpnContainers := computeHasInstalledVpnContainers (containers server);
    collapsedServerDescription := base +:+ protocolName +:+ ServerConfig.hostName server;
    expandedServerDescription := base +:+ ServerConfig.hostName server |}.

Definition buildServerDescription_admin {J : JsonCodec} (server : SelfHostedAdminServerConfig)
    (isAmneziaDnsEnabled : bool) : ServerDescription :=
  let common := SelfHostedAdminServerConfig.common server in
  let userName := SelfHostedAdminServerConfig.userName server in
  let password := SelfHostedAdminServerConfig.password server in
  let port := SelfHostedAdminServerConfig.port server in
  build (mkCredentials (ServerConfig.hostName common) userName password (if 0 <? port then port else 22))
    (negb (String.eqb userName "") && negb (String.eqb password "")) isAmneziaDnsEnabled common.

Definition buildServerDescription_user {J : JsonCodec} (server : SelfHostedUserServerConfig)
    (isAmneziaDnsEnabled : bool) : ServerDescription :=
  let common := SelfHostedUserServerConfig.common server in
  build (mkCredentials (ServerConfig.hostName common) "" "" 22) false isAmneziaDnsEnabled common.

Definition buildServerDescription_native {J : JsonCodec} (server : NativeServerConfig)
    (isAmneziaDnsEnabled : bool) : ServerDescription :=
  build credentials_initial false isAmneziaDnsEnabled (NativeServerConfig.common server).

Definition buildUnsupportedSubscriptionDescription (storedJson : gmap string json) : ServerDescription :=
  let name := text storedJson "displayName" in
  let description := text storedJson "description" in {|
    serverId := "";
    serverName := if String.eqb name "" then description else name;
    baseDescription := description;
    hostName := text storedJson "hostName";
    selfHostedSshCredentials := credentials_initial;
    hasWriteAccess := false;
    primaryDnsIsAmnezia := false;
    defaultContainer := DockerContainer.None;
    hasInstalledVpnContainers := false;
    collapsedServerDescription := description;
    expandedServerDescription := description |}.
End ServerDescription.
Abbreviation ServerDescription := ServerDescription.ServerDescription.

(** ** Properties *)

(** The structure a protocol's settings are kept in. *)
Definition structure_of (p : Proto) : Proto :=
  match p with
  | Proto.SSXray => Proto.Xray
  | p => p
  end.
Definition fits (c : DockerContainer) (p : ProtocolConfig) : Prop :=
  ProtocolConfig.type p = structure_of (defaultProtocol c).
(** The containers the application keeps settings for. *)
Definition kept (c : DockerContainer) : Prop := defaultProtocol c ≠ Proto.Unknown.

#[export] Instance kept_dec c : Decision (kept c).
Proof. unfold kept. apply _. Defined.

Lemma proto_key_not_container p : protoToString p ≠ "container".
Proof. by destruct p. Qed.

Section properties.
Context {J : JsonCodec} {Q : Qt}.

(** *** Round trips *)
Definition storable_protocol (p : ProtocolConfig) : Prop :=
  match p with
  | PAwg c => storable c
  | PWireGuard c => storable c
  | POpenVpn c => storable c
  | PIkev2 c => storable c
  | PXray c => xray_storable c
  | PSftp c => settled c
  | PSocks5Proxy c => settled c
  | PMtProxy c => settled c
  | PTelemt c => settled c
  | PTor c => settled c
  | PDns c => settled c
  end.

Lemma protocol_roundtrip p t :
  t ≠ Proto.Unknown → ProtocolConfig.type p = structure_of t → storable_protocol p →
  ProtocolConfig.fromJson (ProtocolConfig.toJson p) t = p.
Proof.
  intros Ht Hp Hs. destruct p as [c|c|c|c|c|c|c|c|c|c|c]; destruct t; try discriminate Hp; try done;
    cbn [ProtocolConfig.toJson ProtocolConfig.fromJson storable_protocol] in *; f_equal.
  all: first [by apply with_client_roundtrip | by apply xray_roundtrip | by apply (roundtrip c Hs)].
Qed.

Definition storable_container (k : DockerContainer) (c : ContainerConfig) : Prop :=
  ContainerConfig.container c = k ∧ kept k ∧ fits k (ContainerConfig.protocolConfig c) ∧
  storable_protocol (ContainerConfig.protocolConfig c).

Lemma container_object (c : ContainerConfig) k :
  value (ContainerConfig.toJson c) k =
    if String.eqb (protoToString (ContainerConfig.getProtocolType c)) k
    then Some (JObject (ProtocolConfig.toJson (ContainerConfig.protocolConfig c)))
    else if String.eqb "container" k then Some (JString (containerToString (ContainerConfig.container c))) else None.
Proof. unfold ContainerConfig.toJson. rewrite value_object. cbn [assigned member fst snd]. done. Qed.

Lemma container_name (c : ContainerConfig) :
  text (ContainerConfig.toJson c) "container" = containerToString (ContainerConfig.container c).
Proof.
  unfold text. rewrite container_object, (proj2 (String.eqb_neq _ _)) by apply proto_key_not_container. done.
Qed.

Lemma containerFromString_toString c : containerFromString (containerToString c) = c.
Proof. by destruct c. Qed.

Lemma container_reread (c : ContainerConfig) :
  ContainerConfig.fromJson (ContainerConfig.toJson c) =
  ContainerConfig.mk (ContainerConfig.container c)
    (ProtocolConfig.fromJson (ProtocolConfig.toJson (ContainerConfig.protocolConfig c)) (ContainerConfig.getProtocolType c)).
Proof.
  unfold ContainerConfig.fromJson. rewrite container_name, containerFromString_toString. cbv zeta. f_equal.
  rewrite container_object. unfold ContainerConfig.getProtocolType. by rewrite String.eqb_refl.
Qed.

Lemma container_roundtrip k c : storable_container k c → ContainerConfig.fromJson (ContainerConfig.toJson c) = c.
Proof.
  intros (<- & Hk & Hf & Hs). rewrite container_reread. destruct c as [k p]. cbn in *. f_equal.
  by apply protocol_roundtrip.
Qed.

Lemma read_containers_lookup (m m0 : container_map) (l : list DockerContainer) k :
  map_Forall storable_container m → NoDup l →
  foldl read_container m0 ((λ c, JObject (ContainerConfig.toJson c)) <$> omap (λ c, m !! c) l) !! k =
    if decide (k ∈ l ∧ is_Some (m !! k)) then m !! k else m0 !! k.
Proof.
  intros Hm. revert m0. induction l as [|x l IH]; intros m0 Hnd.
  - cbn. by destruct (decide _) as [[?%not_elem_of_nil _]|].
  - apply NoDup_cons in Hnd as [Hx Hnd]. cbn [omap list_omap]. destruct (m !! x) as [c|] eqn:Ex.
    + cbn [fmap list_fmap foldl]. rewrite IH by done. destruct (Hm x c Ex) as (Hc & Hrest).
      unfold read_container at 1. cbn [toObject]. rewrite container_name, containerFromString_toString, Hc.
      rewrite (container_roundtrip x c) by (by split). destruct (decide (k = x)) as [->|Hk].
      * rewrite lookup_insert_eq. assert (x ∈ x :: l ∧ is_Some (m !! x)) as Hin.
        { rewrite Ex. split; [by apply list_elem_of_here|by eexists]. }
        rewrite (decide_True _ _ Hin), Ex. by destruct (decide (x ∈ l ∧ is_Some (Some c))).
      * rewrite lookup_insert_ne by done. apply decide_ext. rewrite elem_of_cons. naive_solver.
    + rewrite IH by done. apply decide_ext. rewrite elem_of_cons. split; [naive_solver|].
      intros [[->|] [? ?]]; [congruence|]. eauto.
Qed.

Lemma NoDup_allContainers : NoDup allContainers.
Proof. apply (bool_decide_unpack _). vm_compute. exact Logic.I. Qed.

Lemma read_containers_array m : map_Forall storable_container m → read_containers (containersArray m) = m.
Proof.
  intros Hm. apply map_eq. intros k. unfold read_containers, containersArray, container_values.
  rewrite read_containers_lookup by (done || apply NoDup_allContainers).
  destruct (decide _) as [|H]; [done|]. destruct (m !! k) eqn:E; [|apply lookup_empty].
  destruct H. split; [apply DockerContainer_listed|by eexists].
Qed.

(** The values a server's structure has after it was read. *)
Definition server_storable (c : server_common) : Prop :=
  displayName c = (if String.eqb (description c) "" then hostName c else description c) ∧
  map_Forall storable_container (containers c).

Lemma read_optional_array (l : list json) : toArray (array_value l) = l.
Proof. by destruct l. Qed.
Lemma read_default_container c :
  containerFromString (toString_or "" (if decide (c = DockerContainer.None) then None
                                       else Some (JString (containerToString c)))) = c.
Proof. by destruct c. Qed.

(** Assignments after the common members, to other keys. *)
Definition other_keys (l : list assignment) : Prop :=
  Forall (λ a, a.1 ∉ ["description"; "hostName"; "containers"; "defaultContainer"; "dns1"; "dns2"]) l.

Lemma assigned_app k v l l' : assigned k v (l ++ l') = assigned k (assigned k v l) l'.
Proof. revert v. induction l as [|[k' w] l IH]; intros v; [done|]. cbn [app assigned]. apply IH. Qed.
Lemma assigned_other k v l : Forall (λ a, a.1 ≠ k) l → assigned k v l = v.
Proof.
  revert v. induction l as [|[k' w] l IH]; intros v; [done|]. intros [Hk Hl]%Forall_cons. cbn in *.
  rewrite (proj2 (String.eqb_neq _ _) Hk). by apply IH.
Qed.

Lemma value_common c l k :
  other_keys l → k ∈ ["description"; "hostName"; "containers"; "defaultContainer"; "dns1"; "dns2"] →
  value (object (common_members c ++ l)) k = assigned k None (common_members c).
Proof.
  intros Hl Hk. rewrite value_object, assigned_app. apply assigned_other.
  eapply Forall_impl; [exact Hl|]. intros a Ha E. apply Ha. by rewrite E.
Qed.

Lemma read_common_object c l :
  server_storable c → other_keys l → read_common (object (common_members c ++ l)) = c.
Proof.
  intros [Hd Hm] Hl. unfold read_common, text. rewrite !value_common by (done || listed).
  unfold common_members. read_members. rewrite read_optional_array, read_default_container, read_containers_array by done.
  destruct c; cbn in *. by rewrite Hd.
Qed.

Lemma read_admin c :
  server_storable (SelfHostedAdminServerConfig.common c) → 0 ≤ SelfHostedAdminServerConfig.port c ≤ int_max →
  SelfHostedAdminServerConfig.fromJson (SelfHostedAdminServerConfig.toJson c) = c.
Proof.
  intros Hc Hp. unfold SelfHostedAdminServerConfig.fromJson, SelfHostedAdminServerConfig.toJson.
  rewrite read_common_object by (done || (repeat constructor; cbn; set_solver)).
  unfold common_members. cbn [app]. read_members. destruct c as [s u w p]. cbn in *.
  f_equal. destruct (Z.ltb_spec 0 p); cbn [isUndefined negb]; [apply toInt_JInt; unfold int_min|]; lia.
Qed.

(** C32. A server's stored configuration is read back as it was written, for the
    three kinds of servers: its names, its resolvers, its default container, the
    credentials of an administered one, and every container's settings down to
    the client's document.  The displayed name has to be the one that reading
    gives, a container to have the settings of its own protocol, and these to be
    of the form that reading gives ([server_storable]); that leaves out, of Xray,
    settings that were imported or whose client is still to be completed, empty
    ranges of the multiplexing, an empty placement of the padding and Mozilla's
    fingerprints, which are read back as other values. *)
Theorem servers_roundtrip :
  (∀ c, server_storable (SelfHostedAdminServerConfig.common c) → 0 ≤ SelfHostedAdminServerConfig.port c ≤ int_max →
     SelfHostedAdminServerConfig.fromJson (SelfHostedAdminServerConfig.toJson c) = c) ∧
  (∀ c, server_storable (SelfHostedUserServerConfig.common c) →
     SelfHostedUserServerConfig.fromJson (SelfHostedUserServerConfig.toJson c) = c) ∧
  (∀ c, server_storable (NativeServerConfig.common c) →
     NativeServerConfig.fromJson (NativeServerConfig.toJson c) = c).
Proof.
  assert (∀ s, server_storable s → read_common (object (common_members s)) = s) as Hs.
  { intros s Hs. rewrite <- (app_nil_r (common_members s)). by apply read_common_object; [|constructor]. }
  split_and!; [exact read_admin|intros [s] H|intros [s] H]; cbn in *.
  - unfold SelfHostedUserServerConfig.fromJson, SelfHostedUserServerConfig.toJson. cbn. by rewrite Hs.
  - unfold NativeServerConfig.fromJson, NativeServerConfig.toJson. cbn. by rewrite Hs.
Qed.

(** *** The mark of an imported configuration *)
Lemma third_party_object k (o : gmap string json) :
  third_party_member (k, JObject o) = negb (String.eqb k "container") && toBool_or false (value o "isThirdPartyConfig").
Proof.
  unfold third_party_member, contains, value. cbn [fst snd toObject].
  destruct (o !! "isThirdPartyConfig") as [[]|]; cbn; by rewrite ?andb_true_r.
Qed.

Definition markable (t : Proto) : bool :=
  match t with
  | Proto.Awg | Proto.WireGuard | Proto.OpenVpn | Proto.Xray | Proto.SSXray | Proto.Ikev2 => true
  | _ => false
  end.

Lemma mark_written p :
  toBool_or false (value (ProtocolConfig.toJson p) "isThirdPartyConfig") = ProtocolConfig.isThirdPartyConfig p.
Proof.
  assert (∀ (o : gmap string json) v, value (<["last_config" := v]> o) "isThirdPartyConfig" = value o "isThirdPartyConfig")
    as Hne by (intros; by apply value_insert_ne).
  destruct p as [c|c|c|c|c|c|c|c|c|c|c]; cbn [ProtocolConfig.toJson ProtocolConfig.isThirdPartyConfig].
  1-3,9: unfold with_client_toJson; destruct (clientConfig c); rewrite ?Hne; destruct (serverConfig c); cbn -[object];
    unfold AwgServerConfig.toJson, WireGuardServerConfig.toJson, OpenVpnServerConfig.toJson, Ikev2ServerConfig.toJson;
    by read_members.
  1: unfold XrayProtocolConfig.toJson; destruct (XrayProtocolConfig.clientConfig c); rewrite ?Hne;
    unfold XrayServerConfig.toJson; by read_members.
  all: try done; destruct c; unfold SftpProtocolConfig.toJson, Socks5ProxyProtocolConfig.toJson, MtProxyProtocolConfig.toJson,
    TelemtProtocolConfig.toJson, TorServerConfig.toJson; cbn -[object nonempty]; by read_members.
Qed.

Lemma hydrate_mark c :
  XrayServerConfig.isThirdPartyConfig
    (XrayProtocolConfig.serverConfig (XrayProtocolConfig.hydrateServerConfigFromClientNative c).1) =
  XrayServerConfig.isThirdPartyConfig (XrayProtocolConfig.serverConfig c).
Proof.
  unfold XrayProtocolConfig.hydrateServerConfigFromClientNative. repeat (case_match; try done); cbn.
  unfold XrayProtocolConfig.hydrated. by repeat case_match.
Qed.

Lemma mark_read json t :
  ProtocolConfig.isThirdPartyConfig (ProtocolConfig.fromJson json t) =
  markable t && toBool_or false (value json "isThirdPartyConfig").
Proof.
  destruct t; try done; cbn [ProtocolConfig.fromJson ProtocolConfig.isThirdPartyConfig markable andb];
    unfold XrayProtocolConfig.fromJson; cbn zeta; case_match; by rewrite ?hydrate_mark.
Qed.

Lemma existsb_map (f : string * json → bool) (m : gmap string json) :
  existsb f (map_to_list m) = true ↔ ∃ k v, m !! k = Some v ∧ f (k, v) = true.
Proof.
  rewrite existsb_exists. split.
  - intros ([k v] & Hin%list_elem_of_In%elem_of_map_to_list & Hf). eauto.
  - intros (k & v & Hm & Hf). exists (k, v). split; [|done]. by apply list_elem_of_In, elem_of_map_to_list.
Qed.

Lemma marked_container (c : ContainerConfig) :
  existsb third_party_member (map_to_list (ContainerConfig.toJson c)) =
  ProtocolConfig.isThirdPartyConfig (ContainerConfig.protocolConfig c).
Proof.
  apply eq_bool_prop_intro. rewrite !Is_true_true, existsb_map, <- mark_written. split.
  - intros (k & v & Hv & Hf). change (ContainerConfig.toJson c !! k) with (value (ContainerConfig.toJson c) k) in Hv.
    rewrite container_object in Hv. repeat case_match; simplify_eq.
    + rewrite third_party_object in Hf. by apply andb_true_iff in Hf as [_ ?].
    + by apply String.eqb_eq in H0 as <-.
  - intros Hf. exists (protoToString (ContainerConfig.getProtocolType c)),
      (JObject (ProtocolConfig.toJson (ContainerConfig.protocolConfig c))). split.
    + etrans; [apply container_object|]. by rewrite String.eqb_refl.
    + rewrite third_party_object, (proj2 (String.eqb_neq _ _)) by apply proto_key_not_container. done.
Qed.

Lemma marked_server c l :
  other_keys l →
  hasThirdPartyConfig (object (common_members c ++ l)) = true ↔
  ∃ k cc, containers c !! k = Some cc ∧ ProtocolConfig.isThirdPartyConfig (ContainerConfig.protocolConfig cc) = true.
Proof.
  intros Hl. unfold hasThirdPartyConfig. rewrite value_common by (done || listed).
  unfold common_members. cbn [assigned fst snd text_member String.eqb Ascii.eqb Bool.eqb].
  rewrite assigned_over_none, read_optional_array, existsb_exists. unfold containersArray, container_values. split.
  - intros (v & Hv & Hf). apply list_elem_of_In, list_elem_of_fmap in Hv as (cc & -> & (k & _ & Hk)%list_elem_of_omap).
    cbn [toObject] in Hf. rewrite marked_container in Hf. eauto.
  - intros (k & cc & Hk & Hf). exists (JObject (ContainerConfig.toJson cc)). split; [|by cbn; rewrite marked_container].
    apply list_elem_of_In, list_elem_of_fmap. exists cc. split; [done|]. apply list_elem_of_omap.
    exists k. split; [apply DockerContainer_listed|done].
Qed.

Lemma read_containers_origin (m0 : container_map) l k cc :
  foldl read_container m0 l !! k = Some cc →
  m0 !! k = Some cc ∨ ∃ v, v ∈ l ∧ cc = ContainerConfig.fromJson (toObject (Some v)).
Proof.
  revert m0. induction l as [|v l IH]; intros m0; cbn; [by left|]. intros [H|(w & Hw & ->)]%IH.
  - unfold read_container in H. apply lookup_insert_Some in H as [[_ <-]|[_ H]]; [right|by left].
    exists v. split; [by apply list_elem_of_here|done].
  - right. exists w. split; [by apply list_elem_of_further|done].
Qed.

(** A mark that is written was read. *)
Lemma mark_kept json c l :
  other_keys l → containers c = containers (read_common json) →
  hasThirdPartyConfig json = false → hasThirdPartyConfig (object (common_members c ++ l)) = false.
Proof.
  intros Hl Hc. rewrite <- !not_true_iff_false. intros Hno Hmark. apply Hno.
  apply marked_server in Hmark as (k & cc & Hk & Hm); [|done]. rewrite Hc in Hk. cbn [containers read_common] in Hk.
  apply read_containers_origin in Hk as [?|(v & Hv & ->)]; [done|].
  unfold hasThirdPartyConfig. apply existsb_exists. exists v. split; [by apply list_elem_of_In|].
  apply existsb_map. cbn [ContainerConfig.fromJson ContainerConfig.protocolConfig] in Hm. rewrite mark_read in Hm.
  apply andb_true_iff in Hm as [_ Hm]. set (name := protoToString _) in Hm.
  destruct (value (toObject (Some v)) name) as [[| | | | |o]|] eqn:E; try done.
  exists name, (JObject o). split; [exact E|]. rewrite third_party_object.
  rewrite (proj2 (String.eqb_neq _ _)) by apply proto_key_not_container. done.
Qed.

Lemma toInt_range v : int_min ≤ toInt v ≤ int_max.
Proof.
  unfold toInt. destruct v as [[]|]; try (unfold int_min, int_max; lia).
  destruct (_ && _) eqn:E; [|unfold int_min, int_max; lia]. apply andb_true_iff in E as [[_ ?%Z.leb_le]%andb_true_iff ?%Z.leb_le].
  lia.
Qed.

Lemma not_from_api c l :
  Forall (λ a, a.1 ≠ "config_version") l → isServerFromApi (object (common_members c ++ l)) = false.
Proof.
  intros Hl. unfold isServerFromApi. rewrite value_object, assigned_app, assigned_other by done.
  unfold common_members. by read_members.
Qed.

Lemma credentials_kept c :
  SelfHostedAdminServerConfig.port c ≤ int_max →
  SelfHostedAdminServerConfig.hasCredentials c = true →
  SelfHostedAdminServerConfig.hasCredentials
    (SelfHostedAdminServerConfig.fromJson (SelfHostedAdminServerConfig.toJson c)) = true.
Proof.
  intros Hp Hc. unfold SelfHostedAdminServerConfig.hasCredentials, SelfHostedAdminServerConfig.fromJson,
    SelfHostedAdminServerConfig.toJson in *. destruct c as [s u w p].
  cbn [SelfHostedAdminServerConfig.userName SelfHostedAdminServerConfig.password SelfHostedAdminServerConfig.port] in *.
  unfold common_members. cbn [app]. read_members. apply andb_true_iff in Hc as [Hc Hlt].
  rewrite Hc, Hlt. cbn [isUndefined negb]. apply Z.ltb_lt in Hlt. rewrite toInt_JInt by (unfold int_min; lia). by apply Z.ltb_lt.
Qed.

(** Saving an administered or a shared server after a change that leaves its
    containers alone, as renaming it or choosing its default container, keeps
    its kind: its credentials stay, the mark of an imported configuration does
    not appear and it does not become a subscription's. *)
Theorem saved_kind (json : gmap string json) (c : server_common) :
  containers c = containers (read_common json) →
  (configTypeFromJson json = SelfHostedAdmin →
   configTypeFromJson (SelfHostedAdminServerConfig.toJson
     (SelfHostedAdminServerConfig.with_common c (SelfHostedAdminServerConfig.fromJson json))) = SelfHostedAdmin) ∧
  (configTypeFromJson json = SelfHostedUser →
   configTypeFromJson (SelfHostedUserServerConfig.toJson (SelfHostedUserServerConfig.mk c)) = SelfHostedUser).
Proof.
  intros Hc. unfold configTypeFromJson. split; intros H.
  - destruct (isServerFromApi json); [done|]. destruct (hasThirdPartyConfig json) eqn:Em; [done|].
    destruct (SelfHostedAdminServerConfig.hasCredentials _) eqn:Ecred; [|done].
    rewrite credentials_kept; [|cbn; destruct (contains json "port"); [apply toInt_range|unfold int_max; lia]|exact Ecred].
    unfold SelfHostedAdminServerConfig.toJson. cbn [SelfHostedAdminServerConfig.common SelfHostedAdminServerConfig.with_common].
    rewrite not_from_api by by repeat constructor.
    by rewrite (mark_kept json) by (done || (repeat constructor; cbn; set_solver)).
  - destruct (isServerFromApi json); [done|]. destruct (hasThirdPartyConfig json) eqn:Em; [done|].
    unfold SelfHostedUserServerConfig.toJson. cbn [SelfHostedUserServerConfig.common].
    rewrite <- (app_nil_r (common_members c)), not_from_api, (mark_kept json) by (done || constructor).
    rewrite app_nil_r. unfold SelfHostedAdminServerConfig.hasCredentials, SelfHostedAdminServerConfig.fromJson, text. cbn
      [SelfHostedAdminServerConfig.userName].
    unfold common_members. by read_members.
Qed.

(** Settings of a container this application does not run are lost when the
    server is written back: an OpenVPN over Cloak or Shadowsocks container
    keeps its name and none of the members its protocols were stored in. *)
Theorem unsupported_container_dropped (json : gmap string json) (k : string) :
  isUnsupportedContainer (containerFromString (text json "container")) = true →
  k ≠ "container" → k ≠ "" →
  value (ContainerConfig.toJson (ContainerConfig.fromJson json)) k = None ∧
  text (ContainerConfig.toJson (ContainerConfig.fromJson json)) "container" = text json "container".
Proof.
  intros Hu Hk He. rewrite container_name, container_object. unfold ContainerConfig.getProtocolType, ContainerConfig.fromJson.
  cbn [ContainerConfig.container].
  assert (defaultProtocol (containerFromString (text json "container")) = Proto.Unknown) as ->
    by (destruct (containerFromString _); done).
  change (protoToString Proto.Unknown) with "". rewrite (proj2 (String.eqb_neq "" k)), (proj2 (String.eqb_neq "container" k)) by done.
  split; [done|]. symmetry. apply container_eqb_spec; [done|]. by intros E; rewrite E in Hu.
Qed.

(** The resolvers of a server: its own when they are addresses. *)
Lemma dns_pair_spec fallback secondary c :
  dns_pair fallback secondary c =
    (if checkIPv4Format (dns1 c) then dns1 c else fallback, if checkIPv4Format (dns2 c) then dns2 c else secondary).
Proof.
  assert (∀ d other : string, (if String.eqb d "" || negb (checkIPv4Format d) then other else d) =
                              if checkIPv4Format d then d else other) as H.
  { intros d other. destruct (String.eqb_spec d "") as [->|]; [done|]. by destruct (checkIPv4Format d). }
  unfold dns_pair. by rewrite !H.
Qed.

(** The resolvers a connection uses are the server's own where they are
    IPv4 addresses and the application's otherwise; the container of the
    application's resolver takes part on an administered server only, when the
    setting asks for it. *)
Theorem resolvers (primaryDns secondaryDns : string) :
  (∀ enabled c, SelfHostedAdminServerConfig.getDnsPair enabled primaryDns secondaryDns c =
     let s := SelfHostedAdminServerConfig.common c in
     (if checkIPv4Format (dns1 s) then dns1 s
      else if enabled && bool_decide (is_Some (containers s !! DockerContainer.Dns)) then amneziaDnsIp else primaryDns,
      if checkIPv4Format (dns2 s) then dns2 s else secondaryDns)) ∧
  (∀ c, SelfHostedUserServerConfig.getDnsPair primaryDns secondaryDns c =
     let s := SelfHostedUserServerConfig.common c in
     (if checkIPv4Format (dns1 s) then dns1 s else primaryDns,
      if checkIPv4Format (dns2 s) then dns2 s else secondaryDns)) ∧
  (∀ c, NativeServerConfig.getDnsPair primaryDns secondaryDns c =
     let s := NativeServerConfig.common c in
     (if checkIPv4Format (dns1 s) then dns1 s else primaryDns,
      if checkIPv4Format (dns2 s) then dns2 s else secondaryDns)).
Proof.
  split_and!; intros; unfold SelfHostedAdminServerConfig.getDnsPair, SelfHostedUserServerConfig.getDnsPair,
    NativeServerConfig.getDnsPair; by rewrite dns_pair_spec.
Qed.
End properties.

(** *** Witnesses *)
Definition own_ikev2 : Ikev2ProtocolConfig :=
  mkWithClient (Ikev2ServerConfig.mk "example.org" false) (Some (Ikev2ClientConfig.mk "" "" "" "" "" "client 7")).
Definition sample_server : server_common :=
  mkServer "home" "home" "192.0.2.1"
    {[ DockerContainer.Ipsec := ContainerConfig.mk DockerContainer.Ipsec (PIkev2 own_ikev2);
       DockerContainer.Sftp := ContainerConfig.mk DockerContainer.Sftp (PSftp (SftpProtocolConfig.mk "222" "u" "p")) ]}
    DockerContainer.Ipsec "1.1.1.1" "".
Definition sample_admin : SelfHostedAdminServerConfig := SelfHostedAdminServerConfig.mk sample_server "root" "secret" 22.

Lemma sample_server_storable : @server_storable single_codec sample_server.
Proof.
  split; [reflexivity|]. intros k c Hk. unfold sample_server in Hk. cbn [containers] in Hk.
  apply lookup_insert_Some in Hk as [[<- <-]|[_ [<- <-]%lookup_singleton_Some]].
  - split; [done|]. split; [done|]. split; [done|]. split; [exact Logic.I|]. intros client [= <-].
    split; [exact Logic.I|]. split; [vm_compute; reflexivity|vm_compute; discriminate].
  - repeat split; done.
Qed.

Lemma servers_roundtrip_witness :
  @server_storable single_codec sample_server ∧ 0 ≤ 22 ≤ int_max ∧
  @SelfHostedAdminServerConfig.fromJson single_codec (@SelfHostedAdminServerConfig.toJson single_codec sample_admin)
    = sample_admin.
Proof.
  split; [exact sample_server_storable|]. split; [unfold int_max; lia|].
  apply (proj1 (@servers_roundtrip single_codec)); [exact sample_server_storable|cbn; unfold int_max; lia].
Defined.

Lemma saved_kind_witness :
  let json := @SelfHostedAdminServerConfig.toJson single_codec sample_admin in
  let _ := single_codec in
  configTypeFromJson json = SelfHostedAdmin ∧
  configTypeFromJson (SelfHostedAdminServerConfig.toJson (SelfHostedAdminServerConfig.with_common
    (mkServer "new" "new" "192.0.2.1" (containers (read_common json)) DockerContainer.Sftp "" "")
    (SelfHostedAdminServerConfig.fromJson json))) = SelfHostedAdmin.
Proof.
  cbv zeta. assert (@configTypeFromJson single_codec (@SelfHostedAdminServerConfig.toJson single_codec sample_admin) = SelfHostedAdmin)
    as H by (vm_compute; reflexivity).
  split; [exact H|]. refine (proj1 (@saved_kind single_codec _ _ _) H). reflexivity.
Defined.

Lemma unsupported_container_dropped_witness :
  let json : gmap string json := object [member "container" (JString "amnezia-openvpn-cloak");
    member "openvpn" (JObject (object [flag_member "isThirdPartyConfig" true]))] in
  let _ := single_codec in
  isUnsupportedContainer (containerFromString (text json "container")) = true ∧
  value (ContainerConfig.toJson (ContainerConfig.fromJson json)) "openvpn" = None.
Proof.
  cbv zeta. set (json := object _).
  assert (isUnsupportedContainer (containerFromString (text json "container")) = true) as H by (vm_compute; reflexivity).
  split; [exact H|]. refine (proj1 (@unsupported_container_dropped single_codec json "openvpn" H _ _)); discriminate.
Defined.
