(* ===== verification/Settings.v ===== *)
(** * Settings: the application's store

    Models [client/secureQSettings.cpp] (the store of settings, one of its
    entries encrypted, with its cache, its keys in the system's keychain, its
    backup) and the calls of [common/crypto/cryptoUtils.cpp] it makes.
    [QVariant] is the type of its values, [QSettings] a map of them. *)
From stdpp Require Import pretty.
From S2P Require Import Prelude Text Json Wire ProtocolConfigs.

#[local] Set Warnings "-register-all".
(** The [QVariant]s the application stores; a byte array is its text. *)
Inductive variant :=
  | VInvalid
  | VBool (b : bool)
  | VInt (z : Z)
  | VString (s : string)
  | VBytes (s : string)
  | VStringList (l : list string)
  | VList (l : list variant)
  | VMap (m : gmap string variant)
  | VJsonArray (l : list json).

Definition isValid (v : variant) : bool := match v with VInvalid => false | _ => true end.

(** [toBool], [toInt], [toString], [toByteArray], [toStringList], [toMap]. *)
Definition text_bool (s : string) : bool :=
  negb (String.eqb s "" || String.eqb s "0" || String.eqb (toLower s) "false").
Definition vBool (v : variant) : bool :=
  match v with
  | VBool b => b
  | VInt z => negb (z =? 0)
  | VString s | VBytes s => text_bool s
  | _ => false
  end.
Definition vInt (v : variant) : Z :=
  match v with
  | VInt z => z
  | VBool b => Z.b2z b
  | VString s | VBytes s => default 0 (toInt_ok s)
  | _ => 0
  end.
Definition vString (v : variant) : string :=
  match v with
  | VString s | VBytes s => s
  | VBool b => if b then "true" else "false"
  | VInt z => pretty z
  | _ => ""
  end.
Definition vBytes (v : variant) : string := vString v.
Definition vStringList (v : variant) : list string :=
  match v with
  | VStringList l => l
  | VList l => vString <$> l
  | VString s => [s]
  | _ => []
  end.
Definition vMap (v : variant) : gmap string variant := match v with VMap m => m | _ => ∅ end.

(** [QJsonValue::fromVariant] and [QJsonValue::toVariant]; a number outside the
    integers has no use here. *)
Fixpoint fromVariant (v : variant) : json :=
  match v with
  | VInvalid => JNull
  | VBool b => JBool b
  | VInt z => JInt z
  | VString s | VBytes s => JString s
  | VStringList l => JStrings l
  | VList l => JArray (fromVariant <$> l)
  | VMap m => JObject (fromVariant <$> m)
  | VJsonArray l => JArray l
  end.
Fixpoint toVariant (j : json) : variant :=
  match j with
  | JNull => VInvalid
  | JBool b => VBool b
  | JDouble q => VInt (double_to_int q)
  | JString s => VString s
  | JArray l => VList (toVariant <$> l)
  | JObject m => VMap (toVariant <$> m)
  end.
Definition vJsonArray (v : variant) : list json :=
  match v with
  | VJsonArray l => l
  | VList l => fromVariant <$> l
  | VStringList l => JString <$> l
  | _ => []
  end.

Lemma int_pretty z : int_min ≤ z ≤ int_max → toInt_value (pretty z) = z.
Proof.
  unfold int_min, int_max. intros Hz. pose proof (signed_pretty z) as H. unfold toInt_value, toInt_ok. cbv zeta.
  rewrite H. cbn [mbind option_bind]. rewrite (proj2 (Z.leb_le _ _)), (proj2 (Z.leb_le z _)) by lia. done.
Qed.

(** A value and what a later run finds in its place: read as the type it was
    stored with, it is the same. *)
Definition alike (v w : variant) : Prop :=
  match v with
  | VInvalid => w = VInvalid
  | VBool _ => vBool w = vBool v
  | VInt z => int_min ≤ z ≤ int_max → vInt w = z
  | VString _ | VBytes _ => w = v
  | VStringList _ | VList _ => vStringList w = vStringList v
  | VMap _ => vMap w = vMap v
  | VJsonArray _ => vJsonArray w = vJsonArray v
  end.

(** ** What the store uses of the system

    [aes_encrypt key iv data] are OpenSSL's [EVP_aes_256_cbc] calls, [None] when
    one fails; [stream] is [QDataStream]'s [<<]; the keychain is QtKeychain's,
    with the source of random bytes; [reload] is what [QSettings] makes of a value
    between two runs, on its way through a file, the registry or a property
    list: an INI file gives texts for numbers and Booleans. *)
Class System (K : Type) := {
  aes_encrypt : string → string → string → option string;
  aes_decrypt : string → string → string → option string;
  stream : variant → string;
  unstream : string → variant;
  readTag : K → string → string;
  writeTag : K → string → string → K;
  random : K → Z → string * K;
  reload : variant → variant;
}.

(** What the encrypted entry holds: a text or bytes. *)
Definition textual (v : variant) : Prop := match v with VString _ | VBytes _ => True | _ => False end.

(** The documented behaviour of those. *)
Class SystemLaws (K : Type) {Y : System K} := {
  usable_key (s : string) := String.length s = 32%nat;
  aes_roundtrip : ∀ key iv data, usable_key key → String.length iv = 16%nat →
    ∃ c, aes_encrypt key iv data = Some c ∧ aes_decrypt key iv c = Some data;
  stream_roundtrip : ∀ v, textual v → unstream (stream v) = v;
  read_written : ∀ k t s, readTag (writeTag k t s) t = s;
  read_other : ∀ k t t' s, t ≠ t' → readTag (writeTag k t s) t' = readTag k t';
  random_length : ∀ k, String.length (random k 32).1 = 32%nat;
  random_reads : ∀ k n t, readTag (random k n).2 t = readTag k t;
  reload_alike : ∀ v, alike v (reload v);
  reload_twice : ∀ v, reload (reload v) = reload v;
  reload_bytes : ∀ v b, reload v = VBytes b → v = VBytes b;
}.

Definition kAesKeySize : Z := 32.
Definition kAesIvSize : Z := 16.

Definition magicString : string := "EncData".
Definition settingsKeyTag : string := "settingsKeyTag".
Definition settingsIvTag : string := "settingsIvTag".
Definition encryptedKeys : list string := ["Servers/serversList"].
Definition m_fieldsToBackup : list string := ["Conf/"; "Servers/"].

(** The store: [QSettings], the cache, the keys once read, the keychain. *)
Record settings (K : Type) := mkSettings {
  disk : gmap string variant;
  m_cache : gmap string variant;
  m_key : string;
  m_iv : string;
  keychain : K;
}.
Arguments mkSettings {K}.
Arguments disk {K}.
Arguments m_cache {K}.
Arguments m_key {K}.
Arguments m_iv {K}.
Arguments keychain {K}.

Module SecureQSettings.
Section store.
Context {K : Type} {Y : System K}.
(** [encryptionRequired()]: encryption is on and the system is not a Linux desktop. *)
Context (encryptionRequired : bool).

Definition encryptAes256Cbc (data key iv : string) : string :=
  if negb (Z.of_nat (String.length key) =? kAesKeySize) || (Z.of_nat (String.length iv) <? kAesIvSize) then ""
  else default "" (aes_encrypt key (String.substring 0 16 iv) data).
Definition decryptAes256Cbc (data key iv : string) : string :=
  if negb (Z.of_nat (String.length key) =? kAesKeySize) || (Z.of_nat (String.length iv) <? kAesIvSize) then ""
  else default "" (aes_decrypt key (String.substring 0 16 iv) data).

(** [getEncKey] and [getEncIv] on the member they keep: the result, the member
    and the keychain after. *)
Definition getEnc (tag member : string) (k : K) : string * string * K :=
  if negb (String.eqb member "") then (member, member, k) else
  let member := readTag k tag in
  if negb (String.eqb member "") then (member, member, k) else
  let '(key, k) := random k 32 in
  let k := writeTag k tag key in
  let member := readTag k tag in
  if negb (String.eqb key member) then ("", member, k) else (member, member, k).

Definition getEncKey (s : settings K) : string * settings K :=
  let '(key, member, k) := getEnc settingsKeyTag (m_key s) (keychain s) in
  (key, mkSettings (disk s) (m_cache s) member (m_iv s) k).
Definition getEncIv (s : settings K) : string * settings K :=
  let '(iv, member, k) := getEnc settingsIvTag (m_iv s) (keychain s) in
  (iv, mkSettings (disk s) (m_cache s) (m_key s) member k).

(** [!getEncKey().isEmpty() && !getEncIv().isEmpty()] *)
Definition keys_available (s : settings K) : bool * settings K :=
  let '(key, s) := getEncKey s in
  if String.eqb key "" then (false, s) else
  let '(iv, s) := getEncIv s in (negb (String.eqb iv ""), s).

Definition encryptText (v : string) (s : settings K) : string * settings K :=
  let '(key, s) := getEncKey s in
  let '(iv, s) := getEncIv s in (encryptAes256Cbc v key iv, s).
Definition decryptText (v : string) (s : settings K) : string * settings K :=
  let '(key, s) := getEncKey s in
  let '(iv, s) := getEncIv s in (decryptAes256Cbc v key iv, s).

Definition cached (k : string) (v : variant) (s : settings K) : settings K :=
  mkSettings (disk s) (<[k := v]> (m_cache s)) (m_key s) (m_iv s) (keychain s).
Definition on_disk (k : string) (v : variant) (s : settings K) : settings K :=
  mkSettings (<[k := v]> (disk s)) (m_cache s) (m_key s) (m_iv s) (keychain s).

(** The encrypted text of a stored value, when it is one. *)
Definition encrypted_text (v : variant) : option string :=
  match v with
  | VBytes b => if startsWith magicString b then Some (String.substring 7 (String.length b - 7) b) else None
  | _ => None
  end.

Definition value (key : string) (defaultValue : variant) (s : settings K) : variant * settings K :=
  match m_cache s !! key with
  | Some v => (v, s)
  | None =>
      match disk s !! key with
      | None => (defaultValue, s)
      | Some stored =>
          match encrypted_text stored with
          | None => (stored, cached key stored s)
          | Some encryptedValue =>
              let '(ok, s) := keys_available s in
              if ok then
                let '(decryptedValue, s) := decryptText encryptedValue s in
                let retVal := unstream decryptedValue in (retVal, cached key retVal s)
              else (VInvalid, s)
          end
      end
  end.

Definition setValue (key : string) (v : variant) (s : settings K) : settings K :=
  if encryptionRequired && bool_decide (key ∈ encryptedKeys) then
    let '(ok, s) := keys_available s in
    if ok then
      let '(encryptedValue, s) := encryptText (stream v) s in
      cached key v (on_disk key (VBytes (magicString +:+ encryptedValue)) s)
    else s
  else cached key v (on_disk key v s).

(** [QSettings::remove] takes the setting and those below it; the cache loses the
    one entry. *)
Definition below (key k : string) : bool := String.eqb k key || startsWith (key +:+ "/") k.
Definition remove (key : string) (s : settings K) : settings K :=
  mkSettings (filter (λ e, below key e.1 = false) (disk s)) (delete key (m_cache s)) (m_key s) (m_iv s) (keychain s).
Definition clearSettings (s : settings K) : settings K :=
  mkSettings ∅ ∅ (m_key s) (m_iv s) (keychain s).

(** The constructor, on what the last run left: the entries to encrypt are
    written again the first time. *)
Definition reencrypt (s : settings K) (key : string) : settings K :=
  if bool_decide (key ∈ encryptedKeys) then let '(v, s) := value key VInvalid s in setValue key v s else s.
Definition construct (s : settings K) : settings K :=
  let s := mkSettings (reload <$> disk s) ∅ "" "" (keychain s) in
  let encrypted := vBool (default VInvalid (disk s !! "Conf/encrypted")) in
  if encryptionRequired && negb encrypted
  then on_disk "Conf/encrypted" (VBool true) (foldl reencrypt s (entries (disk s)).*1)
  else s.

(** *** Backup *)
Context {J : JsonCodec}.

Definition needToBackup (key : string) : bool :=
  negb (String.eqb key "Conf/installationUuid") && existsb (λ item, startsWith item key) m_fieldsToBackup.

Definition backup_key (acc : gmap string json * settings K) (key : string) : gmap string json * settings K :=
  let '(cfg, s) := acc in
  if negb (needToBackup key) then (cfg, s) else
  let '(v, s) := value key VInvalid s in (<[key := fromVariant v]> cfg, s).
Definition backupAppConfig (s : settings K) : string * settings K :=
  let '(cfg, s) := foldl backup_key (∅, s) (entries (disk s)).*1 in (toJson_compact cfg, s).

Definition restore_key (s : settings K) (e : string * json) : settings K :=
  if String.eqb e.1 "Conf/installationUuid" then s else setValue e.1 (toVariant e.2) s.
Definition restoreAppConfig (json : string) (s : settings K) : bool * settings K :=
  let cfg := toObject (Wire.fromJson json) in
  if decide (cfg = ∅) then (false, s) else (true, foldl restore_key s (entries cfg)).
End store.
End SecureQSettings.

(** ** What is promised: a map of settings *)

Inductive operation :=
  | Set_value (key : string) (v : variant)
  | Remove (key : string)
  | Clear
  | Read (key : string) (defaultValue : variant)
  | Restart.

(** The promise: reading gives what was last set, in a later run as the format
    of the settings brings it back. *)
Fixpoint promised {K} {Y : System K} (l : list operation) (m : gmap string variant) : list variant :=
  match l with
  | [] => []
  | Set_value k v :: l => promised l (<[k := v]> m)
  | Remove k :: l => promised l (delete k m)
  | Clear :: l => promised l ∅
  | Read k d :: l => default d (m !! k) :: promised l m
  | Restart :: l => promised l (reload <$> m)
  end.

Fixpoint answers {K} {Y : System K} (enc : bool) (l : list operation) (s : settings K) : list variant :=
  match l with
  | [] => []
  | Set_value k v :: l => answers enc l (SecureQSettings.setValue enc k v s)
  | Remove k :: l => answers enc l (SecureQSettings.remove k s)
  | Clear :: l => answers enc l (SecureQSettings.clearSettings s)
  | Read k d :: l => let '(v, s) := SecureQSettings.value k d s in v :: answers enc l s
  | Restart :: l => answers enc l (SecureQSettings.construct enc s)
  end.

(** Values that are told apart from encrypted ones; [Conf/encrypted] is the
    store's own entry. *)
Definition plain (v : variant) : Prop := SecureQSettings.encrypted_text v = None.
Definition own_key : string := "Conf/encrypted".
(** The name of a setting within a group, as all of the application's are. *)
Definition leaf (k : string) : Prop := count_char (Ascii.ascii_of_nat 47) k = 1.
Definition operation_ok (o : operation) : Prop :=
  match o with
  | Set_value k v => leaf k ∧ k ≠ own_key ∧ plain v ∧ (k ∈ encryptedKeys → textual v)
  | Remove k => leaf k ∧ k ≠ own_key
  | Read k _ => k ≠ own_key
  | Clear | Restart => True
  end.

Section refinement.
Import SecureQSettings.
Context {K : Type} {Y : System K} {L : SystemLaws K} (enc : bool).

(** What the disk holds for a value, under the keys of the keychain. *)
Inductive represents (k : K) : variant → variant → Prop :=
  | represents_plain v : plain v → represents k v v
  | represents_encrypted c v :
      textual v → usable_key (readTag k settingsKeyTag) → usable_key (readTag k settingsIvTag) →
      aes_decrypt (readTag k settingsKeyTag) (String.substring 0 16 (readTag k settingsIvTag)) c = Some (stream v) →
      represents k (VBytes (magicString +:+ c)) v.

Definition tag_ok (k : K) (t : string) : Prop := readTag k t = "" ∨ usable_key (readTag k t).

Record keys_ok (s : settings K) : Prop := {
  key_tag : tag_ok (keychain s) settingsKeyTag;
  iv_tag : tag_ok (keychain s) settingsIvTag;
  key_member : m_key s = "" ∨ m_key s = readTag (keychain s) settingsKeyTag;
  iv_member : m_iv s = "" ∨ m_iv s = readTag (keychain s) settingsIvTag;
}.

Record holds (s : settings K) (m : gmap string variant) : Prop := {
  holds_keys : keys_ok s;
  holds_disk : ∀ k, k ≠ own_key → match m !! k with
                    | Some v => ∃ x, disk s !! k = Some x ∧ represents (keychain s) x v
                    | None => disk s !! k = None
                    end;
  holds_cache : ∀ k v, k ≠ own_key → m_cache s !! k = Some v → m !! k = Some v;
  holds_plain : ∀ k v, k ≠ own_key → m !! k = Some v → plain v ∧ (k ∈ encryptedKeys → textual v);
}.

Lemma usable_nonempty s : usable_key s → s ≠ "".
Proof. by intros H ->. Qed.

(** The keychain after a step still has the keys it had. *)
Definition keeps (k k' : K) : Prop := ∀ t, readTag k t ≠ "" → readTag k' t = readTag k t.

Lemma getEnc_spec tag member k :
  (member = "" ∨ member = readTag k tag) → tag_ok k tag →
  ∃ key k', getEnc tag member k = (key, key, k') ∧ key = readTag k' tag ∧ usable_key key ∧ keeps k k' ∧
            (∀ t, t ≠ tag → readTag k' t = readTag k t).
Proof.
  intros Hm Ht. unfold getEnc. destruct (String.eqb_spec member "") as [->|Hne]; cbn.
  - destruct (String.eqb_spec (readTag k tag) "") as [He|Hne]; cbn.
    + pose proof (random_length k) as Hr. pose proof (random_reads k 32) as Hrr.
      destruct (random k 32) as [key k1]. cbn in *. rewrite read_written, String.eqb_refl. cbn.
      exists key, (writeTag k1 tag key). rewrite read_written. split_and!; try done.
      * intros t Htt. destruct (decide (t = tag)) as [->|]; [done|]. by rewrite read_other, Hrr.
      * intros t Htt. by rewrite read_other, Hrr.
    + exists (readTag k tag), k. split_and!; try done. by destruct Ht.
  - destruct Hm as [?|E]; [done|]. exists member, k. split_and!; try done. destruct Ht as [?|Hu]; [congruence|].
    by rewrite E.
Qed.

(** The keys are there, loaded. *)
Definition loaded (s : settings K) : Prop :=
  m_key s = readTag (keychain s) settingsKeyTag ∧ m_iv s = readTag (keychain s) settingsIvTag ∧
  usable_key (m_key s) ∧ usable_key (m_iv s).

Lemma keys_available_spec s :
  keys_ok s →
  ∃ s', keys_available s = (true, s') ∧ disk s' = disk s ∧ m_cache s' = m_cache s ∧ loaded s' ∧ keys_ok s' ∧
        keeps (keychain s) (keychain s').
Proof.
  intros [H1 H2 H3 H4]. unfold keys_available, getEncKey.
  destruct (getEnc_spec settingsKeyTag (m_key s) (keychain s) H3 H1) as (key & k1 & -> & Ek & Uk & Kk & Ok).
  rewrite (proj2 (String.eqb_neq key "")) by by apply usable_nonempty. unfold getEncIv. cbn [m_iv keychain].
  assert (readTag k1 settingsIvTag = readTag (keychain s) settingsIvTag) as Eiv by by apply Ok.
  destruct (getEnc_spec settingsIvTag (m_iv s) k1) as (iv & k2 & -> & Ei & Ui & Ki & Oi).
  { by rewrite Eiv. }
  { unfold tag_ok. by rewrite Eiv. }
  rewrite (proj2 (String.eqb_neq iv "")) by by apply usable_nonempty. cbn.
  assert (key = readTag k2 settingsKeyTag) as Ek2 by (by rewrite Oi).
  eexists. split; [reflexivity|]. cbn. split_and!; try done.
  - split; cbn; unfold tag_ok; rewrite <- ?Ek2, <- ?Ei; auto.
  - intros t Ht. rewrite <- (Kk t Ht). apply Ki. by rewrite (Kk t Ht).
Qed.

Lemma loaded_key s : loaded s → getEncKey s = (m_key s, s).
Proof.
  intros (E & _ & U & _). unfold getEncKey, getEnc. rewrite (proj2 (String.eqb_neq (m_key s) "")) by by apply usable_nonempty.
  by destruct s.
Qed.
Lemma loaded_iv s : loaded s → getEncIv s = (m_iv s, s).
Proof.
  intros (_ & E & _ & U). unfold getEncIv, getEnc. rewrite (proj2 (String.eqb_neq (m_iv s) "")) by by apply usable_nonempty.
  by destruct s.
Qed.

Lemma represents_keeps k k' x v : keeps k k' → represents k x v → represents k' x v.
Proof.
  intros Hk [v0 Hp|c v0 Ht U1 U2 Hd]; [by constructor|].
  rewrite <- (Hk settingsKeyTag), <- (Hk settingsIvTag) in * by (by apply usable_nonempty). by constructor.
Qed.

Lemma encrypted_text_magic c : encrypted_text (VBytes (magicString +:+ c)) = Some c.
Proof.
  cbn [encrypted_text]. unfold magicString. rewrite !append_String, append_nil_l.
  assert (∀ s : string, String.prefix "" s = true) as Hp by by intros [].
  unfold startsWith. cbn -[String.substring]. rewrite Hp. f_equal. rewrite Nat.sub_0_r. cbn [String.substring].
  by induction c as [|ch c IH]; cbn; [|rewrite IH].
Qed.

Lemma prefix16 iv : usable_key iv → String.length (String.substring 0 16 iv) = 16%nat.
Proof.
  unfold usable_key. intros H. do 16 (destruct iv as [|? iv]; [discriminate H|]). by destruct iv.
Qed.

Lemma crypt_lengths key iv :
  usable_key key → usable_key iv →
  negb (Z.of_nat (String.length key) =? kAesKeySize) || (Z.of_nat (String.length iv) <? kAesIvSize) = false.
Proof. unfold usable_key. by intros -> ->. Qed.

(** Steps that fetch keys and decrypt leave what is stored. *)
Lemma holds_fetched s s' m :
  holds s m → disk s' = disk s → m_cache s' = m_cache s → keys_ok s' → keeps (keychain s) (keychain s') → holds s' m.
Proof.
  intros [H1 H2 H3 H4] Hd Hc Hk Hkeep. split; [done| | |done].
  - intros k Hne. specialize (H2 k Hne). rewrite Hd. destruct (m !! k); [|done].
    destruct H2 as (x & Hx & Hr). exists x. split; [done|]. by eapply represents_keeps.
  - intros k v Hne. rewrite Hc. by apply H3.
Qed.

Lemma holds_cached s m key v : holds s m → m !! key = Some v → holds (cached key v s) m.
Proof.
  intros [[] H2 H3 H4] Hv. split; [by split|done| |done].
  intros k w Hne H. cbn in H. apply lookup_insert_Some in H as [[-> ->]|[_ H]]; [done|by apply H3].
Qed.

Lemma value_spec s m key d :
  holds s m → key ≠ own_key → ∃ s', value key d s = (default d (m !! key), s') ∧ holds s' m.
Proof.
  intros H Hne. unfold value. destruct (m_cache s !! key) as [v|] eqn:Ec.
  { exists s. by rewrite (holds_cache _ _ H _ _ Hne Ec). }
  pose proof (holds_disk _ _ H key Hne) as Hd. destruct (m !! key) as [v|] eqn:Em; [|rewrite Hd; by exists s].
  destruct Hd as (x & -> & Hr). inversion Hr as [w Hp|c w Ht U1 U2 Ha]; subst x w.
  { rewrite Hp. eexists. split; [done|]. by apply holds_cached. }
  rewrite encrypted_text_magic.
  destruct (keys_available_spec s (holds_keys _ _ H)) as (s' & -> & Hd' & Hc' & Hl & Hk' & Hkeep).
  unfold decryptText. rewrite loaded_key, loaded_iv by done. destruct Hl as (E1 & E2 & U1' & U2').
  unfold decryptAes256Cbc. rewrite crypt_lengths by done. rewrite E1, E2, !Hkeep by by apply usable_nonempty.
  rewrite Ha. unfold default; cbn. rewrite stream_roundtrip by done. eexists. split; [done|]. apply holds_cached; [|done].
  by apply (holds_fetched s).
Qed.

Lemma holds_set s m key v x :
  holds s m → plain v ∧ (key ∈ encryptedKeys → textual v) → represents (keychain s) x v → holds (cached key v (on_disk key x s)) (<[key := v]> m).
Proof.
  intros [[] H2 H3 H4] Hp Hr. split; [by split| | |].
  - intros k Hk. cbn. destruct (decide (k = key)) as [->|Hne].
    + rewrite !lookup_insert_eq. eauto.
    + rewrite !lookup_insert_ne by done. by apply H2.
  - intros k w Hk H. cbn in H. apply lookup_insert_Some in H as [[-> ->]|[Hne H]]; [by rewrite lookup_insert_eq|].
    rewrite lookup_insert_ne by done. by apply H3.
  - intros k w Hk [[-> ->]|[Hne H]]%lookup_insert_Some; [done|]. by apply (H4 k).
Qed.

Lemma set_spec s m key v :
  holds s m → plain v ∧ (key ∈ encryptedKeys → textual v) → holds (setValue enc key v s) (<[key := v]> m).
Proof.
  intros H Hp. unfold setValue. destruct (enc && bool_decide (key ∈ encryptedKeys)) eqn:Eenc;
    [|apply holds_set; [done|done|constructor; apply Hp]].
  apply andb_true_iff in Eenc as [_ Hin%bool_decide_eq_true]. pose proof (proj2 Hp Hin) as Htext.
  destruct (keys_available_spec s (holds_keys _ _ H)) as (s' & -> & Hd' & Hc' & Hl & Hk' & Hkeep).
  unfold encryptText. rewrite loaded_key, loaded_iv by done. pose proof Hl as (E1 & E2 & U1 & U2).
  destruct (aes_roundtrip (m_key s') (String.substring 0 16 (m_iv s')) (stream v) U1 (prefix16 _ U2)) as (c & Hc & Hdec).
  unfold encryptAes256Cbc. rewrite crypt_lengths, Hc by done. unfold default; cbn [from_option id]. apply holds_set; [by apply (holds_fetched s)|done|].
  constructor; [done|by rewrite <- E1|by rewrite <- E2|by rewrite <- E1, <- E2].
Qed.

Lemma remove_spec s m key :
  holds s m → (∀ k, is_Some (m !! k) → startsWith (key +:+ "/") k = false) → holds (remove key s) (delete key m).
Proof.
  intros [[] H2 H3 H4] Hg. split; [by split| | |].
  - intros k Hk. cbn. specialize (H2 k Hk). destruct (decide (k = key)) as [->|Hne].
    + rewrite lookup_delete_eq. apply map_lookup_filter_None. right. intros x _. unfold below. by rewrite String.eqb_refl.
    + rewrite lookup_delete_ne by done. destruct (m !! k) as [v|] eqn:Em.
      * destruct H2 as (x & Hx & Hr). exists x. split; [|done]. apply map_lookup_filter_Some. split; [done|]. unfold below. cbn.
        rewrite (proj2 (String.eqb_neq k key) Hne). apply Hg. by rewrite Em.
      * apply map_lookup_filter_None. by left.
  - intros k w Hk H. cbn in H. apply lookup_delete_Some in H as [Hne H]. rewrite lookup_delete_ne by done. by apply H3.
  - intros k w Hk [Hne H]%lookup_delete_Some. by apply (H4 k).
Qed.

(** Nothing is below a leaf but itself. *)
Lemma count_char_app c s s' : count_char c (s +:+ s') = count_char c s + count_char c s'.
Proof. induction s as [|ch s IH]; [done|]. rewrite append_String. cbn [count_char]. rewrite IH. lia. Qed.
Lemma count_char_nonneg c s : 0 ≤ count_char c s.
Proof. induction s as [|ch s IH]; cbn [count_char]; [done|]. destruct (Ascii.eqb ch c); lia. Qed.
Lemma leaf_below key k : leaf key → leaf k → startsWith (key +:+ "/") k = false.
Proof.
  unfold leaf. intros Hkey Hk. destruct (startsWith (key +:+ "/") k) eqn:E; [|done].
  apply prefix_split in E as [t ->]. assert (count_char (Ascii.ascii_of_nat 47) "/" = 1) as E1 by done.
  rewrite !count_char_app, E1 in Hk. pose proof (count_char_nonneg (Ascii.ascii_of_nat 47) t). lia.
Qed.

Lemma reencrypt_spec s m key :
  holds s m → (key ≠ own_key → is_Some (m !! key)) → holds (reencrypt enc s key) m.
Proof.
  intros H Hin. unfold reencrypt. case_bool_decide as Hk; [|done].
  assert (key ≠ own_key) as Hne by (intros ->; by apply list_elem_of_singleton in Hk).
  destruct (value_spec s m key VInvalid H Hne) as (s' & -> & H'). destruct (Hin Hne) as [v Hv].
  rewrite Hv. unfold default; cbn [from_option id]. rewrite <- (insert_id m key v Hv). apply set_spec; [done|].
  by apply (holds_plain _ _ H key).
Qed.

Lemma reload_textual v : textual v → reload v = v.
Proof. intros Hv. pose proof (reload_alike v). by destruct v. Qed.
Lemma reload_plain v : plain v → plain (reload v).
Proof.
  unfold plain. intros Hv. destruct (reload v) as [| | | |b| | | |] eqn:E; try done. apply reload_bytes in E. by subst v.
Qed.
Lemma represents_reload k x v : represents k x v → represents k (reload x) (reload v).
Proof.
  intros [w Hp|c w Ht U1 U2 Hd]; [by apply represents_plain, reload_plain|].
  rewrite (reload_textual (VBytes _)), (reload_textual w) by done. by constructor.
Qed.
(** However often the application was started since, a setting read as the type
    it was set with is what it was set to. *)
Lemma reloaded_alike v n : alike v (Nat.iter n reload v).
Proof.
  destruct n as [|n]; [by destruct v|]. assert (Nat.iter (S n) reload v = reload v) as ->; [|apply reload_alike].
  induction n as [|n IH]; [done|]. change (reload (Nat.iter (S n) reload v) = reload v). by rewrite IH, reload_twice.
Qed.

Lemma construct_spec s m : holds s m → holds (construct enc s) (reload <$> m).
Proof.
  intros H. unfold construct. set (s0 := mkSettings _ _ _ _ _).
  assert (holds s0 (reload <$> m)) as H0.
  { destruct H as [[] H2 H3 H4]. split; [split; cbn; auto| |done|].
    - intros k Hk. cbn. specialize (H2 k Hk). rewrite !lookup_fmap. destruct (m !! k) as [v|]; cbn; [|by rewrite H2].
      destruct H2 as (x & -> & Hr). exists (reload x). split; [done|by apply represents_reload].
    - intros k v Hk. rewrite lookup_fmap. intros (w & Hw & ->)%fmap_Some. destruct (H4 k w Hk Hw) as [Hp Ht].
      split; [by apply reload_plain|]. intros Hin. rewrite reload_textual; by apply Ht. }
  clear H. revert H0. generalize (reload <$> m). clear m. intros m H.
  destruct (_ && _); [|done].
  assert (∀ l t, holds t m → (∀ key, key ∈ l → key ≠ own_key → is_Some (m !! key)) → holds (foldl (reencrypt enc) t l) m) as Hl.
  { intros l. induction l as [|k l IH]; intros t Ht Hin; [done|]. cbn. apply IH.
    - apply reencrypt_spec; [done|]. apply Hin. by apply list_elem_of_here.
    - intros key Hk. apply Hin. by apply list_elem_of_further. }
  assert (holds (foldl (reencrypt enc) s0 (entries (disk s0)).*1) m) as Hr.
  { apply Hl; [done|]. intros key Hk Hne. apply list_elem_of_fmap in Hk as ([k x] & -> & Hx%elem_of_entries).
    cbn [fst] in *. pose proof (holds_disk _ _ H k Hne) as Hd. destruct (m !! k); [by eexists|congruence]. }
  destruct Hr as [[] H2 H3 H4]. split; [by split| |done|done].
  intros k Hk. cbn. rewrite lookup_insert_ne by done. by apply H2.
Qed.

Lemma clear_spec s m : holds s m → holds (clearSettings s) ∅.
Proof. intros [[] _ _ _]. split; [by split| | |]; by intros k; rewrite ?lookup_empty. Qed.

(** C6. The store keeps its promise: whatever settings are set, removed, cleared
    and read, in one run of the application or over several, reading one answers
    what was set last, or the default; after a restart it answers what the
    platform's format of settings makes of that value ([reload]: read as its own
    type it is the same, [reloaded_alike]).  That one entry is encrypted under
    keys of the system's keychain, and the cache, do not show.  The keychain is
    one that keeps what it is given, a value is no byte array that starts with
    the mark of encrypted ones, and names are those of settings within a group:
    removing a group would leave its settings in the cache. *)
Theorem store_refines_map (l : list operation) (s : settings K) (m : gmap string variant) :
  holds s m → (∀ k, is_Some (m !! k) → leaf k) → Forall operation_ok l → answers enc l s = promised l m.
Proof.
  intros H Hm Hl. revert s m H Hm. induction Hl as [|o l Ho _ IH]; intros s m H Hm; [done|].
  destruct o as [k v|k| |k d|]; cbn in *.
  - destruct Ho as (Hleaf & _ & Hv). apply IH; [by apply set_spec|].
    intros k' Hk'. destruct (decide (k = k')) as [<-|Hne]; [done|]. rewrite lookup_insert_ne in Hk' by done. by apply Hm.
  - destruct Ho as [Hleaf Ho]. apply IH.
    + apply remove_spec; [done|]. intros k' Hk'. apply leaf_below; [done|by apply Hm].
    + intros k' [v [_ Hv]%lookup_delete_Some]. apply Hm. by eexists.
  - apply IH; [by eapply clear_spec|]. intros k' [v Hv]. by rewrite lookup_empty in Hv.
  - destruct (value_spec s m k d H Ho) as (s' & -> & H'). f_equal. by apply IH.
  - apply IH; [by apply construct_spec|]. intros k' Hk'. rewrite lookup_fmap, fmap_is_Some in Hk'. by apply Hm.
Qed.

(** *** Backup *)
Context {J : JsonCodec}.

(** [QJsonDocument] reads back what it printed. *)
Definition printed_document (o : gmap string json) : Prop := Wire.fromJson (toJson_compact o) = Some (JObject o).

Definition backup_config (s : settings K) : gmap string json * settings K :=
  foldl backup_key (∅, s) (entries (disk s)).*1.

Lemma backup_keys l cfg s m :
  holds s m → (∀ k, k ∈ l → k ≠ own_key → is_Some (m !! k)) →
  ∃ cfg' s', foldl backup_key (cfg, s) l = (cfg', s') ∧ holds s' m ∧
    ∀ k, k ≠ own_key → cfg' !! k = if decide (k ∈ l ∧ needToBackup k = true) then fromVariant <$> m !! k else cfg !! k.
Proof.
  revert cfg s. induction l as [|key l IH]; intros cfg s H Hin.
  { by exists cfg, s. }
  cbn [foldl]. unfold backup_key at 2.
  assert (∀ k, k ∈ l → k ≠ own_key → is_Some (m !! k)) as Hin' by (intros k Hk; apply Hin; by apply list_elem_of_further).
  destruct (needToBackup key) eqn:En; cbn [negb].
  2: { destruct (IH cfg s H Hin') as (cfg' & s' & E & H' & Hk). exists cfg', s'. split_and!; try done.
       intros k Hne. rewrite (Hk k Hne). apply decide_ext. rewrite elem_of_cons.
       split; [intros [? ?]; auto|intros [[->|?] ?]; [congruence|auto]]. }
  assert (∃ v s1, value key VInvalid s = (v, s1) ∧ holds s1 m ∧ (key ≠ own_key → m !! key = Some v)) as (v & s1 & Ev & H1 & Hv).
  { destruct (decide (key = own_key)) as [->|Hne].
    - unfold value. destruct (m_cache s !! own_key) as [w|]; [exists w, s; split_and!; [done|done|by intros []]|].
      destruct (disk s !! own_key) as [x|]; [|exists VInvalid, s; split_and!; [done|done|by intros []]].
      assert (∀ w t, holds t m → holds (cached own_key w t) m) as Hc.
      { intros w t [[] H2 H3 H4]. split; [by split|done| |done]. intros k u Hk Hu. cbn in Hu.
        rewrite lookup_insert_ne in Hu by done. by apply H3. }
      destruct (encrypted_text x); [|exists x, (cached own_key x s); split_and!; [done|by apply Hc|by intros []]].
      destruct (keys_available_spec s (holds_keys _ _ H)) as (s' & -> & Hd' & Hc' & Hl & Hk' & Hkeep).
      unfold decryptText. rewrite loaded_key, loaded_iv by done.
      eexists _, _. split_and!; [done| |by intros []]. apply Hc. by apply (holds_fetched s).
    - destruct (value_spec s m key VInvalid H Hne) as (s1 & E & H1).
      destruct (Hin key (list_elem_of_here _ _) Hne) as [w Hw]. exists w, s1. rewrite E, Hw. done. }
  rewrite Ev. destruct (IH (<[key := fromVariant v]> cfg) s1 H1 Hin') as (cfg' & s' & E & H' & Hk).
  exists cfg', s'. split_and!; try done. intros k Hne. rewrite (Hk k Hne). destruct (decide (k = key)) as [->|Hkk].
  - rewrite lookup_insert_eq, (Hv Hne). rewrite (decide_True (P := key ∈ key :: l ∧ _)) by (split; [by apply list_elem_of_here|done]).
    by destruct (decide _).
  - rewrite lookup_insert_ne by done. apply decide_ext. rewrite elem_of_cons.
    split; [intros [? ?]; auto|intros [[->|?] ?]; [done|auto]].
Qed.

Lemma backup_spec s m :
  holds s m → ∃ cfg s', backup_config s = (cfg, s') ∧ holds s' m ∧
    ∀ k, k ≠ own_key → cfg !! k = if needToBackup k then fromVariant <$> m !! k else None.
Proof.
  intros H. destruct (backup_keys (entries (disk s)).*1 ∅ s m H) as (cfg & s' & E & H' & Hk).
  { intros k Hk Hne. apply list_elem_of_fmap in Hk as ([k' x] & -> & Hx%elem_of_entries). cbn in *.
    pose proof (holds_disk _ _ H k' Hne) as Hd. destruct (m !! k'); [by eexists|congruence]. }
  exists cfg, s'. split_and!; try done. intros k Hne. rewrite (Hk k Hne), lookup_empty.
  destruct (needToBackup k) eqn:En; [|by destruct (decide _) as [[]|]].
  destruct (m !! k) as [v|] eqn:Em; [|by destruct (decide _)].
  rewrite decide_True; [done|]. split; [|done].
  pose proof (holds_disk _ _ H k Hne) as Hd. rewrite Em in Hd. destruct Hd as (x & Hx & _).
  apply list_elem_of_fmap. exists (k, x). split; [done|]. by apply elem_of_entries.
Qed.

(** A value that was stored as JSON and read back. *)
Lemma toVariant_plain j : plain (toVariant j).
Proof. by destruct j. Qed.

Lemma restore_keys (l : list (string * json)) s m :
  holds s m → (∀ k j, (k, j) ∈ l → k ∈ encryptedKeys → textual (toVariant j)) →
  holds (foldl (restore_key enc) s l)
    (foldl (λ m e, if String.eqb e.1 "Conf/installationUuid" then m else <[e.1 := toVariant e.2]> m) m l).
Proof.
  revert s m. induction l as [|[k j] l IH]; intros s m H Ht; [done|]. cbn [foldl]. apply IH.
  - unfold restore_key. cbn [fst snd]. destruct (String.eqb k "Conf/installationUuid"); [done|].
    apply set_spec; [done|]. split; [apply toVariant_plain|]. apply (Ht k j). by apply list_elem_of_here.
  - intros k' j' Hin. apply Ht. by apply list_elem_of_further.
Qed.

Lemma restored_lookup (l : list (string * json)) (m : gmap string variant) k :
  NoDup l.*1 → k ≠ "Conf/installationUuid" →
  foldl (λ m e, if String.eqb e.1 "Conf/installationUuid" then m else <[e.1 := toVariant e.2]> m) m l !! k =
    match (list_to_map l : gmap string json) !! k with Some j => Some (toVariant j) | None => m !! k end.
Proof.
  intros Hnd Hk. revert m. induction l as [|[x j] l IH]; intros m; [done|]. cbn [fmap list_fmap fst] in Hnd.
  apply NoDup_cons in Hnd as [Hx Hnd]. cbn [foldl list_to_map foldr fst snd]. rewrite IH by done.
  destruct (decide (x = k)) as [->|Hne].
  - rewrite (proj2 (String.eqb_neq _ _)) by done. cbn. rewrite !lookup_insert_eq, not_elem_of_list_to_map_1 by done. done.
  - cbn. rewrite (lookup_insert_ne (M := gmap string)) by done. destruct (String.eqb x _); [done|].
    by rewrite lookup_insert_ne.
Qed.

Lemma restored_uuid (l : list (string * json)) (m : gmap string variant) :
  foldl (λ m e, if String.eqb e.1 "Conf/installationUuid" then m else <[e.1 := toVariant e.2]> m) m l
    !! "Conf/installationUuid" = m !! "Conf/installationUuid".
Proof.
  revert m. induction l as [|[x j] l IH]; intros m; [done|]. cbn [foldl fst snd]. rewrite IH.
  destruct (String.eqb_spec x "Conf/installationUuid"); [done|]. by rewrite lookup_insert_ne.
Qed.

Lemma list_to_map_entries (o : gmap string json) : (list_to_map (entries o) : gmap string json) = o.
Proof.
  etrans; [|apply list_to_map_to_list]. apply list_to_map_proper; [apply NoDup_entries_keys|apply entries_perm].
Qed.

(** A value and what it is restored as, under the readings its kind is used with. *)
Definition same_readings (v w : variant) : Prop :=
  match v with
  | VInvalid => w = VInvalid
  | VBool _ | VInt _ | VString _ | VBytes _ => vBool w = vBool v ∧ vInt w = vInt v ∧ vString w = vString v
  | VStringList l => vStringList w = l
  | VMap m => vMap w = (λ x, toVariant (fromVariant x)) <$> m
  | VList l => w = VList ((λ x, toVariant (fromVariant x)) <$> l)
  | VJsonArray l => w = VList (toVariant <$> l)
  end.

Lemma same_readings_json v : same_readings v (toVariant (fromVariant v)).
Proof.
  destruct v; cbn; rewrite ?double_to_int_inject; try done.
  - induction l as [|x l IH]; [done|]. cbn. by f_equal.
  - f_equal. by rewrite <- list_fmap_compose.
  - by rewrite <- map_fmap_compose.
Qed.

(** A backup restored, on this machine or another one, gives every setting
    under [Conf/] and [Servers/] that the backup has the value it had, as far as
    the application reads it, and leaves the others and the identity of the
    installation as they were. *)
Theorem backup_restores (s s2 : settings K) (m m2 : gmap string variant) :
  holds s m → holds s2 m2 → (backup_config s).1 ≠ ∅ → printed_document (backup_config s).1 →
  ∃ s3 m3, restoreAppConfig enc (backupAppConfig s).1 s2 = (true, s3) ∧ holds s3 m3 ∧
    (∀ k, k ≠ own_key → m3 !! k =
       if needToBackup k then match m !! k with Some v => Some (toVariant (fromVariant v)) | None => m2 !! k end
       else m2 !! k) ∧
    (∀ v, same_readings v (toVariant (fromVariant v))).
Proof.
  intros H H2 Hne Hp. destruct (backup_spec s m H) as (cfg & s' & E & H' & Hk). unfold backupAppConfig.
  fold (backup_config s). rewrite E in *. cbn [fst] in *. unfold restoreAppConfig. rewrite Hp. cbn [toObject].
  rewrite decide_False by done. eexists _, _. split; [reflexivity|]. split.
  { apply restore_keys; [done|]. intros k j Hin%elem_of_entries Henc.
    assert (k ≠ own_key) as Hko by (intros ->; by apply list_elem_of_singleton in Henc).
    rewrite Hk in Hin by done. destruct (needToBackup k); [|done]. apply fmap_Some in Hin as (v & Hv & ->).
    pose proof (proj2 (holds_plain _ _ H k v Hko Hv) Henc). by destruct v. }
  split; [|apply same_readings_json]. intros k Hko.
  destruct (decide (k = "Conf/installationUuid")) as [->|Hu]; [by rewrite restored_uuid|].
  rewrite restored_lookup, list_to_map_entries, Hk by (done || apply NoDup_entries_keys).
  destruct (needToBackup k); [|done]. by destruct (m !! k).
Qed.
End refinement.

(** *** Witnesses: a keychain that keeps what it is given *)
Abbreviation box := (gmap string string).
Definition sample_key : string := "0123456789abcdef0123456789abcdef".
#[export] Instance box_system : System box := {|
  aes_encrypt key iv data := Some (String.substring 0 4 key +:+ data);
  aes_decrypt key iv data := Some (String.substring 4 (String.length data - 4) data);
  stream v := match v with VBytes b => String (Ascii.ascii_of_nat 66) b
                         | VString b => String (Ascii.ascii_of_nat 83) b
                         | _ => "" end;
  unstream s := match s with
                | String ch b => if Ascii.eqb ch (Ascii.ascii_of_nat 66) then VBytes b else VString b
                | "" => VInvalid
                end;
  readTag k t := default "" (k !! t);
  writeTag k t s := <[t := s]> k;
  random k _ := (sample_key, k);
  reload v := match v with
              | VBool b => VString (if b then "true" else "false")
              | VInt z => VString (pretty z)
              | VStringList [] => VInvalid
              | VStringList [s] => VString s
              | v => v
              end;
|}.

Lemma substring_all (s : string) : String.substring 0 (String.length s) s = s.
Proof. induction s as [|ch s IH]; cbn; [done|by rewrite IH]. Qed.

#[export] Instance box_laws : SystemLaws box.
Proof.
  split; cbn.
  - intros key iv data Hk _. exists (String.substring 0 4 key +:+ data). split; [done|].
    do 4 (destruct key as [|? key]; [discriminate Hk|]).
    cbn [String.substring]. replace (String.substring 0 0 key) with "" by by destruct key.
    rewrite !append_String, append_nil_l. cbn [String.length String.substring Nat.sub]. rewrite ?Nat.sub_0_r. f_equal. apply substring_all.
  - by intros [].
  - intros k t s. by rewrite lookup_insert_eq.
  - intros k t t' s Ht. by rewrite lookup_insert_ne.
  - done.
  - done.
  - intros [|[]|z| | |[|s [|s' l]]| | |]; try done. cbn [alike vInt]. apply int_pretty.
  - by intros [|[]| | | |[|s [|s' l]]| | |].
  - by intros [|[]| | | |[|s [|s' l]]| | |] b.
Qed.

Definition new_settings : settings box := mkSettings ∅ ∅ "" "" ∅.
Lemma new_settings_holds : holds new_settings ∅.
Proof. split; [split; by left|by intros k; rewrite !lookup_empty|done|by intros k v; rewrite lookup_empty]. Qed.

Definition sample_run : list operation :=
  [Set_value "Servers/serversList" (VBytes "[]"); Set_value "Conf/routeMode" (VInt 1); Restart;
   Read "Servers/serversList" VInvalid; Read "Conf/routeMode" (VInt 0); Remove "Conf/routeMode"; Restart; Read "Conf/routeMode" (VInt 0)].

Lemma store_refines_map_witness :
  holds new_settings ∅ ∧ Forall operation_ok sample_run ∧
  answers true sample_run new_settings = [VBytes "[]"; VString "1"; VInt 0].
Proof.
  assert (Forall operation_ok sample_run) as Hok.
  { repeat constructor; try discriminate. intros H. by apply list_elem_of_singleton in H. }
  split; [exact new_settings_holds|]. split; [exact Hok|].
  assert (∀ k, is_Some ((∅ : gmap string variant) !! k) → leaf k) as Hm by (intros k [v Hv]; by rewrite lookup_empty in Hv).
  exact (store_refines_map true sample_run new_settings ∅ new_settings_holds Hm Hok).
Defined.

Definition one_setting : settings box := mkSettings {[ "Conf/primaryDns" := VString "9.9.9.9" ]} ∅ "" "" ∅.

Lemma one_setting_holds : holds one_setting {[ "Conf/primaryDns" := VString "9.9.9.9" ]}.
Proof.
  split; [split; by left| |done|].
  - intros k _. cbn. destruct (decide (k = "Conf/primaryDns")) as [->|Hne].
    + rewrite lookup_singleton_eq. exists (VString "9.9.9.9"). split; [done|by constructor].
    + by rewrite lookup_singleton_ne by done.
  - intros k v _ [<- <-]%lookup_singleton_Some. split; [done|]. intros H. by apply list_elem_of_singleton in H.
Qed.

Lemma backup_restores_witness :
  let _ := ProtocolConfigs.single_codec in
  ∃ s3 m3, SecureQSettings.restoreAppConfig false (SecureQSettings.backupAppConfig one_setting).1 new_settings = (true, s3) ∧
    holds s3 m3 ∧ m3 !! "Conf/primaryDns" = Some (VString "9.9.9.9").
Proof.
  cbv zeta.
  destruct (@backup_restores _ _ _ false ProtocolConfigs.single_codec one_setting new_settings _ ∅ one_setting_holds
    new_settings_holds) as (s3 & m3 & E & H & Hm & _).
  - intros E. vm_compute in E. discriminate E.
  - vm_compute. reflexivity.
  - exists s3, m3. split; [exact E|]. split; [exact H|]. rewrite Hm by discriminate. reflexivity.
Defined.

(** ** The store as its clients see it *)
Class Store (T : Type) := {
  st_value : string → variant → T → variant * T;
  st_setValue : string → variant → T → T;
}.

(** [represents_map s m]: reading [s] answers as [m] does. *)
Class StoreLaws (T : Type) {A : Store T} := {
  represents_map : T → gmap string variant → Prop;
  storable_at : string → variant → Prop;
  st_read : ∀ s m k d, represents_map s m → k ≠ own_key →
    ∃ s', st_value k d s = (default d (m !! k), s') ∧ represents_map s' m;
  st_write : ∀ s m k v, represents_map s m → storable_at k v → represents_map (st_setValue k v s) (<[k := v]> m);
  st_storable : ∀ k v, k ≠ own_key → plain v → (k ∈ encryptedKeys → textual v) → storable_at k v;
}.

#[export] Instance secure_store {K} {Y : System K} : Store (settings K) := {|
  st_value := SecureQSettings.value;
  st_setValue := SecureQSettings.setValue true;
|}.
#[export] Instance secure_store_laws {K} {Y : System K} {L : SystemLaws K} : StoreLaws (settings K).
Proof.
  exists holds (λ k v, plain v ∧ (k ∈ encryptedKeys → textual v)).
  - intros s m k d. apply value_spec.
  - intros s m k v H Hv. by apply set_spec.
  - by intros k v _ Hp Ht.
Defined.

(** A store that is a map, for running the clients. *)
#[export] Instance map_store : Store (gmap string variant) := {|
  st_value k d m := (default d (m !! k), m);
  st_setValue k v m := <[k := v]> m;
|}.
#[export] Instance map_store_laws : StoreLaws (gmap string variant).
Proof.
  exists eq (λ _ _, True).
  - intros s m k d -> _. by exists m.
  - by intros s m k v -> _.
  - done.
Defined.
