(* ===== verification/ServersRepository.v ===== *)
(** * ServersRepository: the list of servers

    Models [client/core/repositories/secureServersRepository.cpp] and the
    operations of [client/core/controllers/serversController.cpp] on it.  The
    store is any that keeps its promise ([Settings.StoreLaws]); a new UUID is
    the next of a sequence given to the repository. *)
From stdpp Require Import pretty.
From S2P Require Import Prelude Text Json Wire Containers ServerConfig Settings.

(** [QJsonDocument(array).toJson()] *)
Class ArrayPrinter := { toJson_array : list json → string }.

Inductive signal :=
  | serverAdded (serverId : string)
  | serverEdited (serverId : string)
  | serverRemoved (serverId : string) (removedIndex : Z)
  | defaultServerChanged (serverId : string).

Record repository (T : Type) := mkRepository {
  m_settings : T;
  m_serverJsonById : gmap string (gmap string json);
  m_orderedServerIds : list string;
  m_defaultServerId : string;
  signals : list signal;
  created : nat;  (** UUIDs created so far *)
}.
Arguments mkRepository {T}.
Arguments m_settings {T}.
Arguments m_serverJsonById {T}.
Arguments m_orderedServerIds {T}.
Arguments m_defaultServerId {T}.
Arguments signals {T}.
Arguments created {T}.

Definition readStorageServerId (obj : gmap string json) : string := trimmed (text obj "storageServerId").
Definition withoutStorageServerId (obj : gmap string json) : gmap string json := delete "storageServerId" obj.
Definition embedStorageServerId (serverId : string) (payloadSansId : gmap string json) : gmap string json :=
  <["storageServerId" := JString serverId]> payloadSansId.

(** [QVector::indexOf] *)
Fixpoint index_from (i : Z) (x : string) (l : list string) : Z :=
  match l with
  | [] => -1
  | y :: l' => if String.eqb x y then i else index_from (i + 1) x l'
  end.

Section repository.
Context {T : Type} {A : Store T} {J : JsonCodec} {P : ArrayPrinter} (uuid : nat → string).

Abbreviation R := (repository T).

Definition with_ids (byId : gmap string (gmap string json)) (ids : list string) (def : string) (r : R) : R :=
  mkRepository (m_settings r) byId ids def (signals r) (created r).
Definition with_default (def : string) (r : R) : R :=
  with_ids (m_serverJsonById r) (m_orderedServerIds r) def r.
Definition emit (g : signal) (r : R) : R :=
  mkRepository (m_settings r) (m_serverJsonById r) (m_orderedServerIds r) (m_defaultServerId r) (signals r ++ [g]) (created r).

Definition value (key : string) (defaultValue : variant) (r : R) : variant * R :=
  let '(v, s) := st_value key defaultValue (m_settings r) in
  (v, mkRepository s (m_serverJsonById r) (m_orderedServerIds r) (m_defaultServerId r) (signals r) (created r)).
Definition setValue (key : string) (v : variant) (r : R) : R :=
  mkRepository (st_setValue key v (m_settings r)) (m_serverJsonById r) (m_orderedServerIds r) (m_defaultServerId r)
    (signals r) (created r).

Definition known (id : string) (r : R) : bool := bool_decide (is_Some (m_serverJsonById r !! id)).

Definition normalizedOrGeneratedServerId (candidateId : string) (r : R) : string * R :=
  let trimmed := trimmed candidateId in
  if negb (String.eqb trimmed "") && negb (known trimmed r) then (trimmed, r)
  else (uuid (created r),
        mkRepository (m_settings r) (m_serverJsonById r) (m_orderedServerIds r) (m_defaultServerId r) (signals r)
          (Datatypes.S (created r))).

Definition updateDefaultServerFromStorage (r : R) : R :=
  let '(v, r) := value "Servers/defaultServerId" (VString "") r in
  let storedDefaultId := vString v in
  if negb (String.eqb storedDefaultId "") && known storedDefaultId r then with_default storedDefaultId r else
  let '(v, r) := value "Servers/defaultServerIndex" (VInt 0) r in
  let storedDefaultIndex := vInt v in
  if (0 <=? storedDefaultIndex) && (storedDefaultIndex <? Z.of_nat (length (m_orderedServerIds r)))
  then with_default (default "" (m_orderedServerIds r !! Z.to_nat storedDefaultIndex)) r else
  match m_orderedServerIds r with
  | first :: _ => with_default first r
  | [] => with_default "" r
  end.

Definition persistDefaultServerFields (r : R) : R :=
  let r := match m_orderedServerIds r with
           | [] => with_default "" r
           | first :: _ => if bool_decide (m_defaultServerId r ∈ m_orderedServerIds r) then r else with_default first r
           end in
  setValue "Servers/defaultServerId" (VString (m_defaultServerId r)) r.

Definition clearServerStateMaps (r : R) : R := with_ids ∅ [] (m_defaultServerId r) r.

(** One server of the stored list. *)
Definition load_server (r : R) (stored : json) : R :=
  let json := toObject (Some stored) in
  let candidateId := readStorageServerId json in
  let '(serverId, r) := normalizedOrGeneratedServerId candidateId r in
  let strippedJson := withoutStorageServerId json in
  let kind := configTypeFromJson strippedJson in
  if known serverId r || bool_decide (kind = Invalid) then r
  else with_ids (<[serverId := embedStorageServerId serverId strippedJson]> (m_serverJsonById r))
         (m_orderedServerIds r ++ [serverId]) (m_defaultServerId r) r.

Definition loadFromStorage (r : R) : R :=
  let r := clearServerStateMaps r in
  let '(v, r) := value "Servers/serversList" (VBytes "") r in
  let serversArray := toArray (Wire.fromJson (vBytes v)) in
  updateDefaultServerFromStorage (foldl load_server r serversArray).

Definition invalidateCache : R → R := loadFromStorage.

(** The constructor, over the store. *)
Definition SecureServersRepository (s : T) (created : nat) : R :=
  persistDefaultServerFields (loadFromStorage (mkRepository s ∅ [] "" [] created)).

Definition servers_array (r : R) : list json :=
  omap (λ id, JObject <$> m_serverJsonById r !! id) (m_orderedServerIds r).
Definition syncToStorage (r : R) : R :=
  persistDefaultServerFields (setValue "Servers/serversList" (VBytes (toJson_array (servers_array r))) r).

Definition clearServers (r : R) : R := syncToStorage (with_default "" (clearServerStateMaps r)).

Definition indexOfServerId (serverId : string) (r : R) : Z := index_from 0 serverId (m_orderedServerIds r).
Definition serversCount (r : R) : Z := Z.of_nat (length (m_orderedServerIds r)).
Definition serverIdAt (index : Z) (r : R) : string :=
  if (index <? 0) || (serversCount r <=? index) then "" else default "" (m_orderedServerIds r !! Z.to_nat index).
Definition defaultServerIndex (r : R) : Z :=
  match m_orderedServerIds r with
  | [] => 0
  | _ => let idx := indexOfServerId (m_defaultServerId r) r in if 0 <=? idx then idx else 0
  end.

Definition addServer (serverId : string) (serverJson : gmap string json) (kind : ConfigType) (r : R) : string * R :=
  let '(id, r) := normalizedOrGeneratedServerId serverId r in
  if known id r || bool_decide (kind = Invalid) then (id, r) else
  let strippedJson := withoutStorageServerId serverJson in
  if bool_decide (configTypeFromJson strippedJson ≠ kind) then (id, r) else
  let r := with_ids (<[id := embedStorageServerId id strippedJson]> (m_serverJsonById r))
             (m_orderedServerIds r ++ [id])
             (if String.eqb (m_defaultServerId r) "" then id else m_defaultServerId r) r in
  (id, emit (serverAdded id) (syncToStorage r)).

Definition editServer (serverId : string) (serverJson : gmap string json) (kind : ConfigType) (r : R) : R :=
  if (indexOfServerId serverId r <? 0) || bool_decide (kind = Invalid) then r else
  match m_serverJsonById r !! serverId with
  | None => r
  | Some oldJson =>
      let oldKind := configTypeFromJson (withoutStorageServerId oldJson) in
      let removed := delete serverId (m_serverJsonById r) in
      let strippedNew := withoutStorageServerId serverJson in
      if bool_decide (configTypeFromJson strippedNew ≠ kind) then
        let strippedOld := withoutStorageServerId oldJson in
        if bool_decide (oldKind ≠ Invalid) && bool_decide (configTypeFromJson strippedOld = oldKind)
        then with_ids (<[serverId := embedStorageServerId serverId strippedOld]> removed) (m_orderedServerIds r)
               (m_defaultServerId r) r
        else with_ids removed (m_orderedServerIds r) (m_defaultServerId r) r
      else
        let r := with_ids (<[serverId := embedStorageServerId serverId strippedNew]> removed) (m_orderedServerIds r)
                   (m_defaultServerId r) r in
        emit (serverEdited serverId) (syncToStorage r)
  end.

(** [removeAt] *)
Definition remove_at (i : Z) (l : list string) : list string :=
  take (Z.to_nat i) l ++ drop (Datatypes.S (Z.to_nat i)) l.

Definition removeServer (serverId : string) (r : R) : R :=
  let removedIndex := indexOfServerId serverId r in
  if removedIndex <? 0 then r else
  if negb (known serverId r) then r else
  let previousDefaultId := m_defaultServerId r in
  let previousDefaultIndex := defaultServerIndex r in
  let ids := remove_at removedIndex (m_orderedServerIds r) in
  let def := match ids with
             | [] => ""
             | first :: _ =>
                 if String.eqb previousDefaultId serverId then
                   default "" (ids !! Z.to_nat (Z.min removedIndex (Z.of_nat (length ids) - 1)))
                 else if bool_decide (previousDefaultId ∈ ids) then previousDefaultId else first
             end in
  let r := with_ids (delete serverId (m_serverJsonById r)) ids def r in
  let newDefaultIndex := defaultServerIndex r in
  let r := if negb (String.eqb previousDefaultId def) || negb (previousDefaultIndex =? newDefaultIndex)
           then emit (defaultServerChanged def) r else r in
  emit (serverRemoved serverId removedIndex) (syncToStorage r).

Definition setDefaultServer (serverId : string) (r : R) : R :=
  match m_orderedServerIds r with
  | [] => r
  | _ =>
      if negb (known serverId r) then r
      else if indexOfServerId serverId r <? 0 then r
      else if String.eqb (m_defaultServerId r) serverId then r
      else emit (defaultServerChanged serverId) (persistDefaultServerFields (with_default serverId r))
  end.

(** *** Reading a server *)
Definition rawServerJson (serverId : string) (r : R) : gmap string json :=
  match m_serverJsonById r !! serverId with Some json => withoutStorageServerId json | None => ∅ end.
Definition serverKind (serverId : string) (r : R) : ConfigType :=
  match m_serverJsonById r !! serverId with
  | Some json => configTypeFromJson (withoutStorageServerId json)
  | None => Invalid
  end.

(** The stored server when it is of the kind. *)
Definition config_of {C} (kind : ConfigType) (read : gmap string json → C) (serverId : string) (r : R) : option C :=
  json ← m_serverJsonById r !! serverId;
  let strippedJson := withoutStorageServerId json in
  if bool_decide (configTypeFromJson strippedJson ≠ kind) then None else Some (read strippedJson).
Definition selfHostedAdminConfig : string → R → option SelfHostedAdminServerConfig :=
  config_of SelfHostedAdmin SelfHostedAdminServerConfig.fromJson.
Definition selfHostedUserConfig : string → R → option SelfHostedUserServerConfig :=
  config_of SelfHostedUser SelfHostedUserServerConfig.fromJson.
Definition nativeConfig : string → R → option NativeServerConfig := config_of Native NativeServerConfig.fromJson.

Definition storedServerDisplayName (serverId : string) (r : R) : string :=
  match serverKind serverId r with
  | SelfHostedAdmin =>
      from_option (λ c, displayName (SelfHostedAdminServerConfig.common c)) "" (selfHostedAdminConfig serverId r)
  | SelfHostedUser =>
      from_option (λ c, displayName (SelfHostedUserServerConfig.common c)) "" (selfHostedUserConfig serverId r)
  | Native => from_option (λ c, displayName (NativeServerConfig.common c)) "" (nativeConfig serverId r)
  | UnsupportedSubscription =>
      let stored := rawServerJson serverId r in
      let displayName := text stored "displayName" in
      if String.eqb displayName "" then text stored "description" else displayName
  | Invalid => ""
  end.

Definition server_name (i : Z) : string := "Server" +:+ " " +:+ pretty i.
Definition usedNames (r : R) : list string :=
  List.filter (λ n, negb (String.eqb n "")) ((λ id, storedServerDisplayName id r) <$> m_orderedServerIds r).

(** [do { ++i; ... } while (usedNames.contains(candidate));] *)
Fixpoint next_name (fuel : nat) (i : Z) (used : list string) : option string :=
  match fuel with
  | O => None
  | Datatypes.S fuel =>
      let i := i + 1 in
      let candidate := server_name i in
      if bool_decide (candidate ∈ used) then next_name fuel i used else Some candidate
  end.
Definition nextAvailableServerName (fuel : nat) (r : R) : option string := next_name fuel 0 (usedNames r).
End repository.

(** ** Properties *)

Lemma index_from_spec i x l :
  (x ∉ l ∧ index_from i x l = -1) ∨
  (∃ k, l !! k = Some x ∧ index_from i x l = i + Z.of_nat k ∧ ∀ j, (j < k)%nat → l !! j ≠ Some x).
Proof.
  revert i. induction l as [|y l IH]; intros i; cbn; [left; split; [apply not_elem_of_nil|done]|].
  destruct (String.eqb_spec x y) as [->|Hne]; [right; exists 0%nat; split_and!; [done|lia|lia]|].
  destruct (IH (i + 1)) as [[H E]|(k & Hk & E & Hfirst)]; [left|right].
  - split; [|done]. by apply not_elem_of_cons.
  - exists (Datatypes.S k). split_and!; [done|lia|]. intros [|j] Hj; cbn; [congruence|apply Hfirst; lia].
Qed.

Lemma config_never_invalid {J : JsonCodec} obj : configTypeFromJson obj ≠ Invalid.
Proof. unfold configTypeFromJson. by repeat case_match. Qed.

Lemma remove_at_spec (l : list string) (k : nat) x :
  NoDup l → l !! k = Some x → remove_at (Z.of_nat k) l = List.filter (λ y, negb (String.eqb y x)) l.
Proof.
  intros Hnd Hk. unfold remove_at. rewrite Nat2Z.id. rewrite <- (take_drop_middle l k x Hk) at 3.
  rewrite List.filter_app. cbn [List.filter]. rewrite String.eqb_refl. cbn [negb].
  rewrite <- (take_drop_middle l k x Hk) in Hnd. apply NoDup_app in Hnd as (_ & Hd & [Hx _]%NoDup_cons).
  assert (∀ k : list string, x ∉ k → List.filter (λ y, negb (String.eqb y x)) k = k) as Hf.
  { intros m. induction m as [|y m IH]; [done|]. intros [Hy Hm]%not_elem_of_cons. cbn.
    rewrite (proj2 (String.eqb_neq y x)) by done. cbn. by rewrite IH. }
  rewrite !Hf; [done|done|]. intros Hin. apply (Hd x Hin). by apply list_elem_of_here.
Qed.

Lemma elem_of_without (l : list string) x y : y ∈ List.filter (λ y, negb (String.eqb y x)) l ↔ y ∈ l ∧ y ≠ x.
Proof.
  rewrite !list_elem_of_In, filter_In, negb_true_iff, String.eqb_neq. done.
Qed.

Section invariant.
Context {T : Type} {A : Store T} {J : JsonCodec} {P : ArrayPrinter} (uuid : nat → string).
(** A UUID's text has no spaces around it and is not empty. *)
Context (uuid_text : ∀ n, trimmed (uuid n) = uuid n ∧ uuid n ≠ "").

(** The list and the map are of the same servers, each under its own id. *)
Record listed (r : repository T) : Prop := {
  ids_distinct : NoDup (m_orderedServerIds r);
  ids_known : ∀ id, is_Some (m_serverJsonById r !! id) ↔ id ∈ m_orderedServerIds r;
  ids_embedded : ∀ id obj, m_serverJsonById r !! id = Some obj → obj !! "storageServerId" = Some (JString id);
  ids_text : ∀ id, id ∈ m_orderedServerIds r → trimmed id = id ∧ id ≠ "";
}.
(** The default server is one of the list, when there is one. *)
Definition default_ok (r : repository T) : Prop :=
  match m_orderedServerIds r with [] => m_defaultServerId r = "" | l => m_defaultServerId r ∈ l end.
Definition inv (r : repository T) : Prop := listed r ∧ default_ok r.

(** Steps on the store, the signals and the default keep the list. *)
Lemma listed_same r r' :
  listed r → m_orderedServerIds r' = m_orderedServerIds r → m_serverJsonById r' = m_serverJsonById r → listed r'.
Proof. intros [] E1 E2. split; rewrite ?E1, ?E2; done. Qed.

Lemma value_same key d (r : repository T) :
  m_orderedServerIds (value key d r).2 = m_orderedServerIds r ∧
  m_serverJsonById (value key d r).2 = m_serverJsonById r ∧
  m_defaultServerId (value key d r).2 = m_defaultServerId r ∧ created (value key d r).2 = created r.
Proof. unfold value. by destruct (st_value _ _ _). Qed.

Lemma listed_insert r id obj def :
  listed r → id ∉ m_orderedServerIds r → trimmed id = id → id ≠ "" →
  listed (with_ids (<[id := embedStorageServerId id obj]> (m_serverJsonById r)) (m_orderedServerIds r ++ [id]) def r).
Proof.
  clear uuid_text uuid. intros [H1 H2 H3 H4] Hid Ht He. split; cbn.
  - apply NoDup_app. split; [done|]. split; [|apply NoDup_singleton].
    intros x Hx ->%list_elem_of_singleton. done.
  - intros x. rewrite elem_of_app, list_elem_of_singleton, <- H2. destruct (decide (x = id)) as [->|Hne].
    + rewrite lookup_insert_eq. split; [by right|by eexists].
    + rewrite lookup_insert_ne by done. naive_solver.
  - intros x o [[-> <-]|[Hne Hx]]%lookup_insert_Some; [apply lookup_insert_eq|by apply H3].
  - intros x [Hx| ->%list_elem_of_singleton]%elem_of_app; [by apply H4|done].
Qed.

Lemma normalized_spec c (r : repository T) :
  let '(id, r') := normalizedOrGeneratedServerId uuid c r in
  trimmed id = id ∧ id ≠ "" ∧ m_orderedServerIds r' = m_orderedServerIds r ∧
  m_serverJsonById r' = m_serverJsonById r ∧ m_defaultServerId r' = m_defaultServerId r ∧ m_settings r' = m_settings r.
Proof.
  unfold normalizedOrGeneratedServerId. destruct (_ && _) eqn:E; cbn; [|by destruct (uuid_text (created r))].
  apply andb_true_iff in E as [E%negb_true_iff%String.eqb_neq _]. split_and!; try done. apply trimmed_idemp.
Qed.

Lemma persist_spec (r : repository T) :
  m_orderedServerIds (persistDefaultServerFields r) = m_orderedServerIds r ∧
  m_serverJsonById (persistDefaultServerFields r) = m_serverJsonById r ∧
  default_ok (persistDefaultServerFields r) ∧
  (default_ok r → m_defaultServerId (persistDefaultServerFields r) = m_defaultServerId r) ∧
  created (persistDefaultServerFields r) = created r.
Proof.
  unfold persistDefaultServerFields, default_ok.
  destruct (m_orderedServerIds r) as [|x l] eqn:E; cbn; rewrite ?E; [by split_and!|].
  case_bool_decide as Hd; cbn; rewrite !E; [done|]. split_and!; try done. by apply list_elem_of_here.
Qed.

Lemma persist_inv (r : repository T) : listed r → inv (persistDefaultServerFields r).
Proof. intros H. destruct (persist_spec r) as (E1 & E2 & Hd & _). split; [by apply (listed_same r)|done]. Qed.

Lemma sync_inv (r : repository T) : listed r → inv (syncToStorage r).
Proof. intros H. unfold syncToStorage. apply persist_inv. by apply (listed_same r). Qed.

Lemma update_inv (r : repository T) : listed r → inv (updateDefaultServerFromStorage r).
Proof.
  intros H. unfold updateDefaultServerFromStorage.
  pose proof (value_same "Servers/defaultServerId" (VString "") r) as (E1 & E2 & _).
  destruct (value _ (VString "") r) as [v r1]. cbn in E1, E2.
  assert (listed r1) as H1 by by apply (listed_same r).
  destruct (_ && known _ r1) eqn:Ek.
  { apply andb_true_iff in Ek as [_ Ek%bool_decide_eq_true]. split; [by apply (listed_same r1)|].
    unfold default_ok. cbn. apply (ids_known _ H1) in Ek. by destruct (m_orderedServerIds r1); [apply not_elem_of_nil in Ek|]. }
  pose proof (value_same "Servers/defaultServerIndex" (VInt 0) r1) as (E3 & E4 & _).
  destruct (value _ (VInt 0) r1) as [w r2]. cbn in E3, E4.
  assert (listed r2) as H2 by by apply (listed_same r1).
  destruct ((0 <=? vInt w) && _) eqn:Ei.
  { apply andb_true_iff in Ei as [Hlo%Z.leb_le Hhi%Z.ltb_lt]. split; [by apply (listed_same r2)|].
    unfold default_ok. cbn. destruct (lookup_lt_is_Some_2 (m_orderedServerIds r2) (Z.to_nat (vInt w))) as [x Hx]; [lia|].
    rewrite Hx. cbn. apply list_elem_of_lookup_2 in Hx.
    by destruct (m_orderedServerIds r2); [apply not_elem_of_nil in Hx|]. }
  destruct (m_orderedServerIds r2) as [|x l] eqn:E; (split; [by apply (listed_same r2)|]); unfold default_ok; cbn; rewrite E; [done|].
  by apply list_elem_of_here.
Qed.

Lemma load_server_listed r stored : listed r → listed (load_server uuid r stored).
Proof.
  intros H. unfold load_server. pose proof (normalized_spec (readStorageServerId (toObject (Some stored))) r) as Hn.
  destruct (normalizedOrGeneratedServerId _ _ r) as [id r1]. destruct Hn as (Ht & Hne & E1 & E2 & _).
  assert (listed r1) as H1 by by apply (listed_same r).
  destruct (known id r1) eqn:Ek; [done|]. cbn [orb]. case_bool_decide; [done|].
  apply listed_insert; try done. apply bool_decide_eq_false in Ek. by rewrite <- (ids_known _ H1).
Qed.

Lemma load_inv r : inv (loadFromStorage uuid r).
Proof.
  unfold loadFromStorage. pose proof (value_same "Servers/serversList" (VBytes "") (clearServerStateMaps r)) as (E1 & E2 & _).
  destruct (value _ _ (clearServerStateMaps r)) as [v r1]. cbn in E1, E2. apply update_inv.
  assert (listed r1) as H1.
  { split; rewrite ?E1, ?E2; [constructor| | |].
    - intros id. rewrite lookup_empty. split; [by intros []|by intros ?%not_elem_of_nil].
    - done.
    - by intros id ?%not_elem_of_nil. }
  revert r1 H1 E1 E2. generalize (toArray (Wire.fromJson (vBytes v))) as l. intros l r1 H1 _ _. revert r1 H1.
  induction l as [|j l IH]; intros r1 H1; [done|]. by apply IH, load_server_listed.
Qed.

Lemma construct_inv (s : T) n : inv (SecureServersRepository uuid s n).
Proof. apply persist_inv, load_inv. Qed.

Lemma clear_inv (r : repository T) : inv (clearServers r).
Proof.
  apply sync_inv. split; cbn; [constructor| | |].
  - intros id. rewrite lookup_empty. split; [by intros []|by intros ?%not_elem_of_nil].
  - intros id obj. by rewrite lookup_empty.
  - by intros id ?%not_elem_of_nil.
Qed.

Lemma add_inv id obj kind r : inv r → inv (addServer uuid id obj kind r).2.
Proof.
  intros [H Hd]. unfold addServer. pose proof (normalized_spec id r) as Hn.
  destruct (normalizedOrGeneratedServerId _ id r) as [i r1]. destruct Hn as (Ht & Hne & E1 & E2 & E3 & _).
  assert (inv r1) as H1 by (split; [by apply (listed_same r)|unfold default_ok; by rewrite E1, E3]).
  destruct (known i r1) eqn:Ek; [done|]. cbn [orb]. case_bool_decide; [done|]. case_bool_decide; [done|]. cbn [snd].
  assert (∀ g r', inv r' → inv (emit (T := T) g r')) as Hemit by (intros g r' [[] ?]; split; [by split|done]).
  apply Hemit, sync_inv, listed_insert; try done; [apply H1|].
  apply bool_decide_eq_false in Ek. by rewrite <- (ids_known _ (proj1 H1)).
Qed.

Lemma emit_inv g (r : repository T) : inv r → inv (emit g r).
Proof. intros [[] ?]. split; [by split|done]. Qed.

Lemma embed_same (obj : gmap string json) id :
  obj !! "storageServerId" = Some (JString id) → embedStorageServerId id (withoutStorageServerId obj) = obj.
Proof. intros H. unfold embedStorageServerId, withoutStorageServerId. by apply insert_delete_id. Qed.

(** A change of a server that would change its kind is refused whole. *)
Lemma edit_other_kind id obj kind r :
  inv r → configTypeFromJson (withoutStorageServerId obj) ≠ kind → editServer id obj kind r = r.
Proof.
  intros [H _] Hk. unfold editServer. destruct (_ || _); [done|]. destruct (m_serverJsonById r !! id) as [old|] eqn:E; [|done].
  rewrite bool_decide_eq_true_2 by done.
  rewrite (bool_decide_eq_true_2 (configTypeFromJson (withoutStorageServerId old) ≠ Invalid)) by apply config_never_invalid.
  rewrite bool_decide_eq_true_2 by done. cbn [andb]. rewrite (embed_same old id) by by apply (ids_embedded _ H).
  rewrite insert_delete_id by done. by destruct r.
Qed.

Lemma edit_inv id obj kind r : inv r → inv (editServer id obj kind r).
Proof.
  intros Hinv. destruct (decide (configTypeFromJson (withoutStorageServerId obj) = kind)) as [Hk|Hk];
    [|by rewrite edit_other_kind].
  unfold editServer. destruct (_ || _); [done|]. destruct (m_serverJsonById r !! id) as [old|] eqn:E; [|done].
  rewrite bool_decide_eq_false_2 by (intros Hn; by apply Hn). apply emit_inv, sync_inv. destruct Hinv as [[H1 H2 H3 H4] _].
  assert (id ∈ m_orderedServerIds r) as Hin by (apply H2; by eexists).
  split; cbn; [done| | |done].
  - intros x. destruct (decide (x = id)) as [->|Hne]; [rewrite lookup_insert_eq; split; [done|by eexists]|].
    by rewrite lookup_insert_ne, lookup_delete_ne.
  - intros x o [[-> <-]|[Hne Hx]]%lookup_insert_Some; [apply lookup_insert_eq|].
    rewrite lookup_delete_ne in Hx by done. by apply H3.
Qed.

Lemma index_known id (r : repository T) :
  inv r → indexOfServerId id r <? 0 = negb (bool_decide (id ∈ m_orderedServerIds r)).
Proof.
  intros _. unfold indexOfServerId. destruct (index_from_spec 0 id (m_orderedServerIds r)) as [[H ->]|(k & Hk & -> & _)].
  - by rewrite bool_decide_eq_false_2.
  - rewrite bool_decide_eq_true_2 by by eapply list_elem_of_lookup_2. apply Z.ltb_ge. lia.
Qed.

Lemma remove_listed id def (r : repository T) :
  listed r →
  listed (with_ids (delete id (m_serverJsonById r)) (List.filter (λ y, negb (String.eqb y id)) (m_orderedServerIds r)) def r).
Proof.
  clear uuid_text uuid. intros [H1 H2 H3 H4]. split; cbn.
  - clear -H1. induction (m_orderedServerIds r) as [|x l IH]; [constructor|]. apply NoDup_cons in H1 as [Hx Hl]. cbn.
    destruct (negb _); [|by apply IH]. constructor; [|by apply IH]. by intros [? _]%elem_of_without.
  - intros x. rewrite elem_of_without, <- H2. destruct (decide (x = id)) as [->|Hne].
    + rewrite lookup_delete_eq. split; [by intros []|naive_solver].
    + rewrite lookup_delete_ne by done. naive_solver.
  - intros x o [_ Hx]%lookup_delete_Some. by apply H3.
  - intros x [Hx _]%elem_of_without. by apply H4.
Qed.

Lemma remove_inv id (r : repository T) : inv r → inv (removeServer id r).
Proof.
  intros Hinv. unfold removeServer. rewrite index_known by done. case_bool_decide as Hin; [|done]. cbn [negb].
  destruct (known id r) eqn:Ek; [|done]. cbn [negb]. apply emit_inv, sync_inv.
  destruct (index_from_spec 0 id (m_orderedServerIds r)) as [[H _]|(k & Hk & E & _)]; [done|].
  unfold indexOfServerId. rewrite E, Z.add_0_l, (remove_at_spec _ _ id) by (done || apply Hinv).
  match goal with |- listed (if ?b then _ else _) => destruct b end.
  - apply (listed_same (with_ids (delete id (m_serverJsonById r))
      (List.filter (λ y, negb (String.eqb y id)) (m_orderedServerIds r)) "" r)); [by apply remove_listed, Hinv|done|done].
  - by apply remove_listed, Hinv.
Qed.

Lemma set_default_inv id (r : repository T) : inv r → inv (setDefaultServer id r).
Proof.
  intros Hinv. unfold setDefaultServer. destruct (m_orderedServerIds r) eqn:E; [done|].
  repeat (case_match; [done|]). apply emit_inv, persist_inv. by apply (listed_same r); [apply Hinv| |].
Qed.

(** *** Every sequence of calls *)
Inductive call :=
  | Add (serverId : string) (obj : gmap string json) (kind : ConfigType)
  | Edit (serverId : string) (obj : gmap string json) (kind : ConfigType)
  | RemoveServer (serverId : string)
  | SetDefault (serverId : string)
  | ClearServers
  | Invalidate
  | NewRun.

Definition run_call (r : repository T) (c : call) : repository T :=
  match c with
  | Add id obj kind => (addServer uuid id obj kind r).2
  | Edit id obj kind => editServer id obj kind r
  | RemoveServer id => removeServer id r
  | SetDefault id => setDefaultServer id r
  | ClearServers => clearServers r
  | Invalidate => invalidateCache uuid r
  | NewRun => SecureServersRepository uuid (m_settings r) (created r)
  end.

(** C7. Whatever the store held and whatever calls follow, the list of servers
    stays well formed: no server twice, the same servers in the list and in the
    map, each stored under its own identifier, and the default server one of
    them as soon as there is one. *)
Theorem repository_invariant (s : T) (n : nat) (calls : list call) :
  inv (foldl run_call (SecureServersRepository uuid s n) calls).
Proof.
  assert (∀ r c, inv r → inv (run_call r c)) as Hstep.
  { intros r [] H; cbn; eauto using add_inv, edit_inv, remove_inv, set_default_inv, clear_inv, load_inv, construct_inv. }
  assert (∀ l r, inv r → inv (foldl run_call r l)) as Hl by (induction l; intros r H; cbn; auto).
  apply Hl, construct_inv.
Qed.

(** *** What is stored is loaded again *)
Context {L : StoreLaws T}.

(** The store has the list as the repository has it. *)
Record synced (r : repository T) : Prop := {
  synced_inv : inv r;
  synced_store : ∃ m, represents_map (m_settings r) m ∧
    m !! "Servers/serversList" = Some (VBytes (toJson_array (servers_array r))) ∧
    m !! "Servers/defaultServerId" = Some (VString (m_defaultServerId r));
}.
(** [QJsonDocument] reads the list back. *)
Definition printed_array (r : repository T) : Prop :=
  Wire.fromJson (toJson_array (servers_array r)) = Some (JArray (servers_array r)).
(** A store that answers as some map does. *)
Definition readable (r : repository T) : Prop := ∃ m, represents_map (m_settings r) m.

Definition printable : Prop := ∀ l, SecureQSettings.encrypted_text (VBytes (toJson_array l)) = None.

Lemma sync_synced r : printable → listed r → readable r → synced (syncToStorage r).
Proof.
  intros Hp H [m Hm]. split; [by apply sync_inv|]. unfold syncToStorage, persistDefaultServerFields.
  set (l := VBytes _). set (r1 := setValue "Servers/serversList" l r).
  set (r2 := match m_orderedServerIds r1 with [] => _ | _ => _ end).
  assert (m_settings r2 = st_setValue "Servers/serversList" l (m_settings r)) as Es
    by (unfold r2; destruct (m_orderedServerIds r1); [done|]; by case_bool_decide).
  assert (servers_array r2 = servers_array r) as Ea
    by (unfold r2; destruct (m_orderedServerIds r1); [done|]; by case_bool_decide).
  exists (<["Servers/defaultServerId" := VString (m_defaultServerId r2)]> (<["Servers/serversList" := l]> m)). split_and!.
  - cbn. rewrite Es. apply st_write; [apply st_write; [done|]|].
    + by apply st_storable; [|apply Hp|].
    + apply st_storable; [done|done|]. intros Hin. by apply list_elem_of_singleton in Hin.
  - rewrite lookup_insert_ne, lookup_insert_eq by done. unfold l. by rewrite <- Ea.
  - by rewrite lookup_insert_eq.
Qed.

Lemma emit_synced g r : synced r → synced (emit g r).
Proof. intros [Hi Hs]. split; [by apply emit_inv|exact Hs]. Qed.

Lemma load_ids (ids : list string) (byId : gmap string (gmap string json)) (r : repository T) :
  (∀ id obj, byId !! id = Some obj → obj !! "storageServerId" = Some (JString id)) →
  (∀ id, id ∈ ids → is_Some (byId !! id) ∧ trimmed id = id ∧ id ≠ "") →
  NoDup ids → (∀ id, id ∈ ids → m_serverJsonById r !! id = None) →
  let r' := foldl (load_server uuid) r (omap (λ id, JObject <$> byId !! id) ids) in
  m_orderedServerIds r' = m_orderedServerIds r ++ ids ∧
  (∀ id, m_serverJsonById r' !! id = if decide (id ∈ ids) then byId !! id else m_serverJsonById r !! id) ∧
  m_settings r' = m_settings r ∧ created r' = created r ∧ m_defaultServerId r' = m_defaultServerId r.
Proof.
  intros Hemb. revert r. induction ids as [|id ids IH]; intros r Hin Hnd Hfresh; cbn zeta.
  { cbn. rewrite app_nil_r. split_and!; try done. }
  apply NoDup_cons in Hnd as [Hid Hnd]. destruct (Hin id (list_elem_of_here _ _)) as ([obj Hobj] & Ht & Hne).
  cbn [omap list_omap]. rewrite Hobj. cbn [option_fmap option_map fmap foldl].
  set (r1 := with_ids (<[id := obj]> (m_serverJsonById r)) (m_orderedServerIds r ++ [id]) (m_defaultServerId r) r).
  assert (load_server uuid r (JObject obj) = r1) as ->.
  { unfold load_server. cbn [toObject].
    assert (readStorageServerId obj = id) as ->.
    { unfold readStorageServerId, text, Json.value. by rewrite (Hemb id obj Hobj). }
    unfold normalizedOrGeneratedServerId. rewrite Ht, (proj2 (String.eqb_neq id "")) by done.
    assert (known id r = false) as Ek.
    { apply bool_decide_eq_false. rewrite Hfresh by apply list_elem_of_here. by intros []. }
    rewrite Ek. cbn [negb andb orb]. rewrite Ek. rewrite bool_decide_eq_false_2 by apply config_never_invalid.
    by rewrite (embed_same obj id) by by apply Hemb. }
  destruct (IH r1) as (E1 & E2 & E3 & E4 & E5).
  - intros x Hx. apply Hin. by apply list_elem_of_further.
  - done.
  - intros x Hx. cbn. rewrite lookup_insert_ne by (intros ->; done). apply Hfresh. by apply list_elem_of_further.
  - rewrite E1, E3, E4, E5. cbn. rewrite <- app_assoc. split_and!; try done.
    intros x. rewrite E2. cbn. destruct (decide (x = id)) as [->|Hxn].
    + rewrite lookup_insert_eq. rewrite (decide_True (P := id ∈ id :: ids)) by apply list_elem_of_here.
      by destruct (decide (id ∈ ids)).
    + rewrite lookup_insert_ne by done. apply decide_ext. rewrite elem_of_cons. naive_solver.
Qed.

Lemma reload r :
  synced r → printed_array r →
  ∀ s def g n, s = m_settings r →
  let r' := loadFromStorage uuid (mkRepository s ∅ [] def g n) in
  m_orderedServerIds r' = m_orderedServerIds r ∧ m_serverJsonById r' = m_serverJsonById r ∧
  m_defaultServerId r' = m_defaultServerId r ∧ created r' = n ∧ readable r'.
Proof.
  intros [[H Hd] (m & Hm & Hl & Hdef)] Hp s def g n ->. cbn zeta. unfold loadFromStorage, value. cbn [clearServerStateMaps with_ids m_settings].
  destruct (st_read (m_settings r) m "Servers/serversList" (VBytes "") Hm) as (s1 & -> & Hm1); [done|].
  rewrite Hl. cbn [from_option id vBytes vString]. rewrite Hp. cbn [toArray].
  set (r0 := mkRepository _ _ _ _ _ _).
  destruct (load_ids (m_orderedServerIds r) (m_serverJsonById r) r0) as (E1 & E2 & E3 & E4 & E5).
  { apply H. } { intros id Hin. split; [by apply (ids_known _ H)|by apply (ids_text _ H)]. } { apply H. } { done. }
  unfold servers_array. set (r1 := foldl _ _ _) in *. cbn in E1, E3, E4.
  assert (m_serverJsonById r1 = m_serverJsonById r) as Eb.
  { apply map_eq. intros id. rewrite E2. destruct (decide _) as [|Hn]; [done|]. cbn. rewrite lookup_empty. symmetry.
    apply eq_None_not_Some. by rewrite (ids_known _ H). }
  clearbody r1. unfold updateDefaultServerFromStorage, value. rewrite E3.
  destruct (st_read s1 m "Servers/defaultServerId" (VString "") Hm1) as (s2 & -> & Hm2); [done|].
  rewrite Hdef. cbn [from_option id vString]. unfold known. cbn [m_serverJsonById]. rewrite Eb.
  unfold default_ok in Hd. destruct (m_orderedServerIds r) as [|x l] eqn:El.
  - rewrite Hd. cbn. destruct (st_read s2 m "Servers/defaultServerIndex" (VInt 0) Hm2) as (s3 & -> & Hm3); [done|].
    set (idx := vInt _). assert ((0 <=? idx) && (idx <? 0) = false) as Hidx by (destruct (Z.leb_spec 0 idx); [apply Z.ltb_ge; lia|done]).
    cbn. rewrite E1. cbn. change (Z.of_nat 0) with 0. rewrite Hidx. cbn. rewrite ?E1. split_and!; try done. by exists m.
  - assert (m_defaultServerId r ≠ "") as Hne by (eapply (ids_text _ H); by rewrite El).
    rewrite (proj2 (String.eqb_neq _ _)) by done. rewrite bool_decide_eq_true_2 by (apply (ids_known _ H); by rewrite El).
    cbn. split_and!; try done. by exists m.
Qed.

(** The next run of the application finds the servers as this one left them:
    the same identifiers in the same order, the same configurations and the same
    default, and gives no server a new identifier; reading the store again
    within a run changes nothing either. *)
Theorem restart_keeps_servers (r : repository T) (n : nat) :
  synced r → printed_array r →
  (let r' := SecureServersRepository uuid (m_settings r) n in
   m_orderedServerIds r' = m_orderedServerIds r ∧ m_serverJsonById r' = m_serverJsonById r ∧
   m_defaultServerId r' = m_defaultServerId r ∧ created r' = n) ∧
  (let r' := invalidateCache uuid r in
   m_orderedServerIds r' = m_orderedServerIds r ∧ m_serverJsonById r' = m_serverJsonById r ∧
   m_defaultServerId r' = m_defaultServerId r).
Proof.
  intros Hs Hp. split; cbn zeta.
  - unfold SecureServersRepository.
    destruct (reload r Hs Hp (m_settings r) "" [] n eq_refl) as (E1 & E2 & E3 & E4 & _).
    destruct (persist_spec (loadFromStorage uuid (mkRepository (m_settings r) ∅ [] "" [] n))) as (P1 & P2 & _ & P3 & P4).
    rewrite P1, P2, P4, E1, E2, E4, P3, E3; [done|]. apply load_inv.
  - destruct (reload r Hs Hp (m_settings r) (m_defaultServerId r) (signals r) (created r) eq_refl) as (E1 & E2 & E3 & _).
    done.
Qed.

Lemma raw_embedded id obj (r : repository T) :
  m_serverJsonById r !! id = Some (embedStorageServerId id (withoutStorageServerId obj)) →
  rawServerJson id r = withoutStorageServerId obj ∧
  serverKind id r = configTypeFromJson (withoutStorageServerId obj).
Proof.
  intros H. unfold rawServerJson, serverKind. rewrite H.
  assert (withoutStorageServerId (embedStorageServerId id (withoutStorageServerId obj)) = withoutStorageServerId obj) as ->.
  { unfold withoutStorageServerId, embedStorageServerId. by rewrite delete_insert_eq, delete_delete_eq. }
  done.
Qed.

Lemma sync_same (r : repository T) :
  m_orderedServerIds (syncToStorage r) = m_orderedServerIds r ∧ m_serverJsonById (syncToStorage r) = m_serverJsonById r ∧
  (default_ok r → m_defaultServerId (syncToStorage r) = m_defaultServerId r) ∧ signals (syncToStorage r) = signals r.
Proof.
  unfold syncToStorage. destruct (persist_spec (setValue "Servers/serversList" (VBytes (toJson_array (servers_array r))) r))
    as (P1 & P2 & _ & P3 & _).
  rewrite P1, P2. split_and!; [done|done|exact P3|]. unfold persistDefaultServerFields. cbn.
  destruct (m_orderedServerIds r); [done|]. by case_bool_decide.
Qed.

(** Adding a server whose identifier is free and whose configuration is of the
    kind announced puts it at the end of the list, under its identifier, saved;
    it becomes the default when it is the first; the other servers stay as they
    were.  A configuration of another kind is refused. *)
Theorem add_server (r : repository T) (id : string) (obj : gmap string json) (kind : ConfigType) :
  inv r → readable r → printable → trimmed id = id → id ≠ "" → id ∉ m_orderedServerIds r →
  (configTypeFromJson (withoutStorageServerId obj) = kind →
   let r' := (addServer uuid id obj kind r).2 in
   (addServer uuid id obj kind r).1 = id ∧ m_orderedServerIds r' = m_orderedServerIds r ++ [id] ∧
   rawServerJson id r' = withoutStorageServerId obj ∧ serverKind id r' = kind ∧
   (∀ x, x ≠ id → m_serverJsonById r' !! x = m_serverJsonById r !! x) ∧
   m_defaultServerId r' = (if bool_decide (m_orderedServerIds r = []) then id else m_defaultServerId r) ∧
   signals r' = signals r ++ [serverAdded id] ∧ synced r') ∧
  (configTypeFromJson (withoutStorageServerId obj) ≠ kind → addServer uuid id obj kind r = (id, r)).
Proof.
  intros [H Hd] Hr Hp Ht Hne Hid. unfold addServer, normalizedOrGeneratedServerId.
  assert (known id r = false) as Ek by (apply bool_decide_eq_false; by rewrite (ids_known _ H)).
  rewrite Ht, (proj2 (String.eqb_neq id "")), Ek by done. cbn [negb andb orb]. rewrite Ek. cbn [orb]. split; intros Hk.
  2: { case_bool_decide; [done|]. by rewrite bool_decide_eq_true_2. }
  rewrite (bool_decide_eq_false_2 (kind = Invalid)) by (rewrite <- Hk; apply config_never_invalid).
  rewrite bool_decide_eq_false_2 by (intros Hn; by apply Hn). cbv zeta. cbn [snd fst].
  set (r1 := with_ids _ _ _ r).
  assert (listed r1) as H1 by by apply listed_insert.
  assert (m_defaultServerId r1 = if bool_decide (m_orderedServerIds r = []) then id else m_defaultServerId r) as Edef.
  { cbn. unfold default_ok in Hd. destruct (m_orderedServerIds r) as [|x l] eqn:El; [by rewrite Hd|].
    rewrite bool_decide_eq_false_2 by done. rewrite (proj2 (String.eqb_neq _ _)); [done|]. eapply (ids_text _ H). by rewrite El. }
  assert (default_ok r1) as Hd1.
  { unfold default_ok. rewrite Edef. unfold default_ok in Hd. cbn. destruct (m_orderedServerIds r) as [|x l]; cbn; [by apply list_elem_of_here|].
    rewrite elem_of_cons, elem_of_app. rewrite elem_of_cons in Hd. naive_solver. }
  destruct (sync_same r1) as (E1 & E2 & E3 & E4).
  destruct (raw_embedded id obj (emit (serverAdded id) (syncToStorage r1))) as (R1 & R2).
  { cbn [emit m_serverJsonById]. rewrite E2. apply lookup_insert_eq. }
  split_and!; try done.
  - by rewrite R2.
  - intros x Hx. cbn [emit m_serverJsonById]. rewrite E2. cbn. by rewrite lookup_insert_ne.
  - cbn [emit m_defaultServerId]. by rewrite E3.
  - cbn [emit signals]. by rewrite E4.
  - apply emit_synced, sync_synced; [done|done|]. exact Hr.
Qed.

(** Removing a server takes it out of the list and the map and leaves the
    others and their order; the default server stays unless it is the one
    removed, and then is the one that took its place, or the last. *)
Theorem remove_server (r : repository T) (id : string) (k : nat) :
  inv r → readable r → printable → m_orderedServerIds r !! k = Some id →
  let r' := removeServer id r in
  m_orderedServerIds r' = take k (m_orderedServerIds r) ++ drop (Datatypes.S k) (m_orderedServerIds r) ∧
  m_serverJsonById r' = delete id (m_serverJsonById r) ∧
  (m_defaultServerId r ≠ id → m_defaultServerId r' = m_defaultServerId r) ∧
  (m_defaultServerId r = id →
   m_defaultServerId r' = default "" (m_orderedServerIds r' !! Nat.min k (length (m_orderedServerIds r') - 1))) ∧
  synced r'.
Proof.
  clear uuid_text uuid. intros Hinv Hr Hp Hk. cbn zeta. pose proof (list_elem_of_lookup_2 _ _ _ Hk) as Hin.
  assert (indexOfServerId id r = Z.of_nat k) as Eidx.
  { unfold indexOfServerId. destruct (index_from_spec 0 id (m_orderedServerIds r)) as [[? _]|(j & Hj & -> & _)]; [done|].
    assert (j = k) as -> by by eapply NoDup_lookup; [apply Hinv|..]. done. }
  assert (known id r = true) as Ek by (apply bool_decide_eq_true; by apply (ids_known _ (proj1 Hinv))).
  assert (removeServer id r = (removeServer id r)) as _ by done.
  unfold removeServer. rewrite Eidx, Ek. rewrite (proj2 (Z.ltb_ge _ _)) by lia. cbn [negb].
  set (ids := remove_at (Z.of_nat k) (m_orderedServerIds r)).
  assert (ids = take k (m_orderedServerIds r) ++ drop (Datatypes.S k) (m_orderedServerIds r)) as Eids
    by (unfold ids, remove_at; by rewrite Nat2Z.id).
  set (def := match ids with [] => _ | _ => _ end). set (r1 := with_ids _ ids def r).
  set (r2 := if _ || _ then _ else _).
  assert (m_orderedServerIds r2 = ids ∧ m_serverJsonById r2 = delete id (m_serverJsonById r) ∧ m_defaultServerId r2 = def ∧
          m_settings r2 = m_settings r) as (F1 & F2 & F3 & F4) by (unfold r2; by destruct (_ || _)).
  assert (listed r2) as Hl2.
  { apply (listed_same (with_ids (delete id (m_serverJsonById r))
      (List.filter (λ y, negb (String.eqb y id)) (m_orderedServerIds r)) "" r)); [by apply remove_listed, Hinv| |done].
    rewrite F1. unfold ids. by rewrite (remove_at_spec _ k id) by (done || apply Hinv). }
  assert (∀ x, x ∈ m_orderedServerIds r → x ≠ id → x ∈ ids) as Hkeep.
  { intros x Hx Hne. unfold ids. rewrite (remove_at_spec _ k id) by (done || apply Hinv). by apply elem_of_without. }
  assert (∀ i x (l : list string), (i < length (x :: l))%nat → default "" ((x :: l) !! i) ∈ x :: l) as Hget.
  { intros i x l Hi. destruct (lookup_lt_is_Some_2 (x :: l) i Hi) as [y Hy]. rewrite Hy. by eapply list_elem_of_lookup_2. }
  assert (default_ok r2) as Hd2.
  { unfold default_ok. rewrite F1, F3. unfold def. destruct ids as [|x l]; [done|]. destruct (String.eqb _ _).
    - apply Hget. cbn [length]. lia.
    - case_bool_decide; [done|by apply list_elem_of_here]. }
  destruct (sync_same r2) as (E1 & E2 & E3 & _).
  assert (synced (emit (serverRemoved id (Z.of_nat k)) (syncToStorage r2))) as Hs.
  { apply emit_synced, sync_synced; [done|done|]. destruct Hr as [m Hm]. exists m. by rewrite F4. }
  cbn [emit m_orderedServerIds m_serverJsonById m_defaultServerId]. rewrite E1, E2, E3, F1, F2, F3 by done.
  split_and!; try done.
  - intros Hne. unfold def. destruct (m_orderedServerIds r) as [|y l0] eqn:El; [done|].
    assert (m_defaultServerId r ∈ ids) as Hdin.
    { apply Hkeep; [|done]. destruct Hinv as [_ Hd]. unfold default_ok in Hd. by rewrite El in Hd. }
    destruct ids as [|x l]; [by apply not_elem_of_nil in Hdin|].
    rewrite (proj2 (String.eqb_neq _ _)) by done. by rewrite bool_decide_eq_true_2.
  - intros Hdd. unfold def. destruct ids as [|x l]; [done|]. rewrite Hdd, String.eqb_refl. do 2 f_equal. cbn [length]. lia.
Qed.

(** Editing a server replaces its configuration when the new one is of the kind
    announced, under the same identifier and in the same place, and saves the
    list; the other servers and the default stay.  A configuration of another
    kind changes nothing. *)
Theorem edit_server (r : repository T) (id : string) (obj : gmap string json) (kind : ConfigType) :
  inv r → readable r → printable → id ∈ m_orderedServerIds r →
  (configTypeFromJson (withoutStorageServerId obj) = kind →
   let r' := editServer id obj kind r in
   m_orderedServerIds r' = m_orderedServerIds r ∧ m_defaultServerId r' = m_defaultServerId r ∧
   rawServerJson id r' = withoutStorageServerId obj ∧ serverKind id r' = kind ∧
   (∀ x, x ≠ id → m_serverJsonById r' !! x = m_serverJsonById r !! x) ∧
   signals r' = signals r ++ [serverEdited id] ∧ synced r') ∧
  (configTypeFromJson (withoutStorageServerId obj) ≠ kind → editServer id obj kind r = r).
Proof.
  intros Hinv Hr Hp Hin. split; [|by apply edit_other_kind]. intros Hk. cbv zeta.
  pose proof (edit_inv id obj kind r Hinv) as Hinv'. revert Hinv'. unfold editServer.
  rewrite index_known, bool_decide_eq_true_2 by done. cbn [negb orb].
  rewrite (bool_decide_eq_false_2 (kind = Invalid)) by (rewrite <- Hk; apply config_never_invalid).
  pose proof (proj2 (ids_known _ (proj1 Hinv) id) Hin) as [old Hold]. rewrite Hold.
  rewrite bool_decide_eq_false_2 by (intros Hn; by apply Hn). set (r1 := with_ids _ _ _ r). intros _.
  assert (listed r1) as H1.
  { destruct Hinv as [[I1 I2 I3 I4] _]. split; cbn; [done| | |done].
    - intros x. destruct (decide (x = id)) as [->|Hne]; [rewrite lookup_insert_eq; split; [done|by eexists]|].
      by rewrite lookup_insert_ne, lookup_delete_ne.
    - intros x o [[-> <-]|[Hne Hx]]%lookup_insert_Some; [apply lookup_insert_eq|].
      rewrite lookup_delete_ne in Hx by done. by apply I3. }
  assert (default_ok r1) as Hd1 by exact (proj2 Hinv).
  destruct (sync_same r1) as (E1 & E2 & E3 & E4).
  destruct (raw_embedded id obj (emit (serverEdited id) (syncToStorage r1))) as (R1 & R2).
  { cbn [emit m_serverJsonById]. rewrite E2. apply lookup_insert_eq. }
  split_and!; try done.
  - cbn [emit m_defaultServerId]. by rewrite E3.
  - by rewrite R2.
  - intros x Hx. cbn [emit m_serverJsonById]. rewrite E2. cbn. by rewrite lookup_insert_ne, lookup_delete_ne.
  - cbn [emit signals]. by rewrite E4.
  - by apply emit_synced, sync_synced.
Qed.
End invariant.

(** *** The next free name *)
Lemma server_name_inj i j : server_name i = server_name j → i = j.
Proof.
  unfold server_name. intros H. apply (inj (String.append "Server")) in H. apply (inj (String.append " ")) in H.
  by apply (inj pretty) in H.
Qed.

Lemma next_name_spec used fuel i :
  (∀ j, 1 ≤ j ≤ i → server_name j ∈ used) → 0 ≤ i →
  match next_name fuel i used with
  | Some c => ∃ k, i < k ∧ c = server_name k ∧ c ∉ used ∧ ∀ j, 1 ≤ j < k → server_name j ∈ used
  | None => ∀ j, 1 ≤ j ≤ i + Z.of_nat fuel → server_name j ∈ used
  end.
Proof.
  revert i. induction fuel as [|fuel IH]; intros i Hi H0; cbn.
  { intros j Hj. apply Hi. lia. }
  case_bool_decide as Hc.
  - assert (∀ j, 1 ≤ j ≤ i + 1 → server_name j ∈ used) as Hi'.
    { intros j Hj. destruct (decide (j = i + 1)) as [->|]; [done|]. apply Hi. lia. }
    specialize (IH (i + 1) Hi' ltac:(lia)). destruct (next_name fuel (i + 1) used).
    + destruct IH as (k & Hk & -> & Hn & Hall). exists k. split_and!; [lia|done|done|done].
    + intros j Hj. apply IH. lia.
  - exists (i + 1). split_and!; [lia|done|done|]. intros j Hj. apply Hi. lia.
Qed.

(** The search for the next free name of a server ends after at most one turn
    more than there are names in use, and finds the first "Server n", n from 1
    up, that is the name of none. *)
Theorem next_available_name {T} {A : Store T} {J : JsonCodec} (r : repository T) (fuel : nat) :
  (length (usedNames r) < fuel)%nat →
  ∃ k, nextAvailableServerName fuel r = Some (server_name k) ∧ 1 ≤ k ∧ server_name k ∉ usedNames r ∧
       ∀ j, 1 ≤ j < k → server_name j ∈ usedNames r.
Proof.
  intros Hf. unfold nextAvailableServerName. pose proof (next_name_spec (usedNames r) fuel 0) as H.
  specialize (H ltac:(intros; lia) ltac:(lia)). destruct (next_name fuel 0 (usedNames r)) as [c|].
  - destruct H as (k & Hk & -> & Hn & Hall). exists k. split_and!; [done|lia|done|done].
  - exfalso. assert (NoDup (server_name <$> seqZ 1 (Z.of_nat fuel))) as Hnd.
    { apply NoDup_fmap_2; [intros a b; apply server_name_inj|apply NoDup_seqZ]. }
    assert (server_name <$> seqZ 1 (Z.of_nat fuel) ⊆+ usedNames r) as Hs.
    { apply NoDup_submseteq; [done|]. intros x (j & -> & Hj%elem_of_seqZ)%list_elem_of_fmap. apply H. lia. }
    apply submseteq_length in Hs. rewrite length_fmap, length_seqZ, Nat2Z.id in Hs. lia.
Qed.

(** *** Witnesses *)

(** A codec for one list. *)
Definition fixed_codec (l : list json) : JsonCodec := {|
  toJson_compact _ := "object";
  Wire.fromJson s := if String.eqb s "list" then Some (JArray l) else None;
|}.
Definition fixed_printer : ArrayPrinter := {| toJson_array _ := "list" |}.

Fixpoint sample_uuid (n : nat) : string :=
  match n with
  | O => "x"
  | Datatypes.S n => String (Ascii.ascii_of_nat 120) (sample_uuid n)
  end.
Lemma sample_uuid_text n : trimmed (sample_uuid n) = sample_uuid n ∧ sample_uuid n ≠ "".
Proof.
  assert (trim_right (sample_uuid n) = sample_uuid n) as H.
  { induction n as [|n IH]; [done|]. cbn. rewrite IH. by destruct n. }
  split; [|by destruct n]. by destruct n.
Qed.

Definition user_server (id name : string) : gmap string json :=
  object [text_member "hostName" "192.0.2.7"; text_member "description" name; text_member "storageServerId" id].
Definition two_servers : list json := [JObject (user_server "a" "A"); JObject (user_server "b" "B")].
Definition two_store : gmap string variant :=
  {[ "Servers/serversList" := VBytes "list"; "Servers/defaultServerId" := VString "b" ]}.
Definition two : repository (gmap string variant) :=
  @SecureServersRepository _ _ (fixed_codec two_servers) sample_uuid two_store 0.

Lemma two_synced : @synced _ _ fixed_printer _ two.
Proof.
  split; [apply (@construct_inv _ _ _ sample_uuid sample_uuid_text)|].
  exists (m_settings two). split; [done|]. split; vm_compute; reflexivity.
Qed.

Lemma printed_two : @printed_array _ (fixed_codec two_servers) fixed_printer two.
Proof. vm_compute. reflexivity. Qed.

Lemma fixed_printable : @printable fixed_printer.
Proof. by intros l. Qed.

Lemma repository_invariant_witness :
  (∀ n, trimmed (sample_uuid n) = sample_uuid n ∧ sample_uuid n ≠ "") ∧
  @inv (gmap string variant) (foldl (@run_call _ _ (fixed_codec two_servers) fixed_printer sample_uuid) two
    [RemoveServer "b"; SetDefault "a"; NewRun]).
Proof.
  split; [exact sample_uuid_text|].
  exact (@repository_invariant _ _ (fixed_codec two_servers) fixed_printer sample_uuid sample_uuid_text two_store 0
    [RemoveServer "b"; SetDefault "a"; NewRun]).
Defined.

Lemma restart_keeps_servers_witness :
  @synced _ _ fixed_printer _ two ∧ @printed_array _ (fixed_codec two_servers) fixed_printer two ∧
  m_orderedServerIds (@SecureServersRepository _ _ (fixed_codec two_servers) sample_uuid (m_settings two) 5) = ["a"; "b"] ∧
  m_defaultServerId (@SecureServersRepository _ _ (fixed_codec two_servers) sample_uuid (m_settings two) 5) = "b".
Proof.
  split; [exact two_synced|]. split; [exact printed_two|].
  destruct (@restart_keeps_servers _ _ (fixed_codec two_servers) fixed_printer sample_uuid sample_uuid_text _ two 5
    two_synced printed_two) as [(E1 & _ & E3 & _) _].
  rewrite E1, E3. split; vm_compute; reflexivity.
Defined.

Lemma two_readable : readable two.
Proof. by exists (m_settings two). Qed.

Lemma add_server_witness :
  let _ := fixed_codec two_servers in let _ := fixed_printer in
  inv two ∧ configTypeFromJson (withoutStorageServerId (user_server "" "C")) = SelfHostedUser ∧
  m_orderedServerIds (addServer sample_uuid "c" (user_server "" "C") SelfHostedUser two).2 = ["a"; "b"; "c"].
Proof.
  cbv zeta. pose proof (synced_inv _ two_synced) as H. split; [exact H|].
  assert (@configTypeFromJson (fixed_codec two_servers) (withoutStorageServerId (user_server "" "C")) = SelfHostedUser) as Hk
    by (vm_compute; reflexivity).
  split; [exact Hk|].
  destruct (add_server (J := fixed_codec two_servers) (P := fixed_printer) sample_uuid sample_uuid_text two "c" (user_server "" "C")
    SelfHostedUser H two_readable fixed_printable eq_refl ltac:(discriminate)
    ltac:(apply (bool_decide_unpack _); vm_compute; exact Logic.I)) as [Ha _].
  destruct (Ha Hk) as (_ & E & _). rewrite E. vm_compute. reflexivity.
Defined.

Lemma edit_server_witness :
  let _ := fixed_codec two_servers in let _ := fixed_printer in
  inv two ∧ "a" ∈ m_orderedServerIds two ∧
  serverKind "a" (editServer "a" (user_server "" "C") SelfHostedUser two) = SelfHostedUser ∧
  editServer "a" (user_server "" "C") SelfHostedAdmin two = two.
Proof.
  cbv zeta. pose proof (synced_inv _ two_synced) as H. split; [exact H|].
  assert ("a" ∈ m_orderedServerIds two) as Hin by (apply (bool_decide_unpack _); vm_compute; exact Logic.I).
  split; [exact Hin|].
  assert (@configTypeFromJson (fixed_codec two_servers) (withoutStorageServerId (user_server "" "C")) = SelfHostedUser) as Hk
    by (vm_compute; reflexivity).
  split.
  - destruct (proj1 (edit_server (J := fixed_codec two_servers) (P := fixed_printer) two "a" (user_server "" "C")
      SelfHostedUser H two_readable fixed_printable Hin) Hk) as (_ & _ & _ & E & _). exact E.
  - apply (proj2 (edit_server (J := fixed_codec two_servers) (P := fixed_printer) two "a" (user_server "" "C")
      SelfHostedAdmin H two_readable fixed_printable Hin)). rewrite Hk. discriminate.
Defined.

Lemma remove_server_witness :
  let _ := fixed_codec two_servers in let _ := fixed_printer in
  inv two ∧ m_orderedServerIds two !! 1%nat = Some "b" ∧ m_defaultServerId two = "b" ∧
  m_orderedServerIds (removeServer "b" two) = ["a"] ∧ m_defaultServerId (removeServer "b" two) = "a".
Proof.
  cbv zeta. pose proof (synced_inv _ two_synced) as H. split; [exact H|].
  assert (m_orderedServerIds two !! 1%nat = Some "b") as Hk by (vm_compute; reflexivity).
  assert (m_defaultServerId two = "b") as Hd by (vm_compute; reflexivity).
  split; [exact Hk|]. split; [exact Hd|].
  destruct (remove_server (P := fixed_printer) two "b" 1 H two_readable fixed_printable Hk)
    as (E1 & _ & _ & E3 & _).
  rewrite (E3 Hd), E1. split; vm_compute; reflexivity.
Defined.

Lemma next_available_name_witness :
  let _ := fixed_codec two_servers in
  (length (usedNames two) < 3)%nat ∧ ∃ k, nextAvailableServerName 3 two = Some (server_name k) ∧ 1 ≤ k.
Proof.
  cbv zeta. assert (length (@usedNames _ (fixed_codec two_servers) two) < 3)%nat as Hf
    by (apply (bool_decide_unpack _); vm_compute; exact Logic.I).
  split; [exact Hf|].
  destruct (@next_available_name _ _ (fixed_codec two_servers) two 3 Hf) as (k & E & Hk & _). exists k. split; [exact E|exact Hk].
Defined.

(** Servers stored without an identifier get a new one in every run until the
    list is written: a default server chosen among them is forgotten. *)
Definition legacy_servers : list json := [JObject (user_server "" "A"); JObject (user_server "" "B")].
Definition legacy : repository (gmap string variant) :=
  @SecureServersRepository _ _ (fixed_codec legacy_servers) sample_uuid {[ "Servers/serversList" := VBytes "list" ]} 0.

Lemma legacy_default_lost :
  let _ := fixed_codec legacy_servers in
  let chosen := setDefaultServer (sample_uuid 1) legacy in
  let next_run := SecureServersRepository sample_uuid (m_settings chosen) (created chosen) in
  storedServerDisplayName (m_defaultServerId chosen) chosen = "B" ∧
  storedServerDisplayName (m_defaultServerId next_run) next_run = "A".
Proof. vm_compute. split; reflexivity. Qed.
