(* ===== verification/ServersController.v ===== *)
(** * ServersController: the operations on servers

    Models [client/core/controllers/serversController.cpp]: what the interface
    asks of the list of servers, on the repository. *)
From stdpp Require Import pretty.
From S2P Require Import Prelude Text Json Wire Containers ServerConfig Settings ServersRepository.

Section controller.
Context {T : Type} {A : Store T} {J : JsonCodec} {P : ArrayPrinter}.

Abbreviation R := (repository T).

Definition ensureDefaultServerValid (r : R) : R :=
  if serversCount r =? 0 then r else
  let defaultId := m_defaultServerId r in
  if negb (String.eqb defaultId "") && (0 <=? indexOfServerId defaultId r) then r else
  let firstId := serverIdAt 0 r in
  if negb (String.eqb firstId "") then setDefaultServer firstId r else r.

(** [cfg->description = name; cfg->displayName = name;] *)
Definition renamed (name : string) (c : server_common) : server_common :=
  mkServer name name (hostName c) (containers c) (defaultContainer c) (dns1 c) (dns2 c).
Definition with_default_container (container : DockerContainer) (c : server_common) : server_common :=
  mkServer (description c) (displayName c) (hostName c) (containers c) container (dns1 c) (dns2 c).

(** Read the server of its kind, change it, write it back; [false] when there is none. *)
Definition edit_common (f : server_common → server_common) (serverId : string) (r : R) : bool * R :=
  match serverKind serverId r with
  | SelfHostedAdmin =>
      match selfHostedAdminConfig serverId r with
      | Some cfg =>
          let cfg := SelfHostedAdminServerConfig.with_common (f (SelfHostedAdminServerConfig.common cfg)) cfg in
          (true, editServer serverId (SelfHostedAdminServerConfig.toJson cfg) SelfHostedAdmin r)
      | None => (false, r)
      end
  | SelfHostedUser =>
      match selfHostedUserConfig serverId r with
      | Some cfg =>
          let cfg := SelfHostedUserServerConfig.mk (f (SelfHostedUserServerConfig.common cfg)) in
          (true, editServer serverId (SelfHostedUserServerConfig.toJson cfg) SelfHostedUser r)
      | None => (false, r)
      end
  | Native =>
      match nativeConfig serverId r with
      | Some cfg =>
          let cfg := NativeServerConfig.mk (f (NativeServerConfig.common cfg)) in
          (true, editServer serverId (NativeServerConfig.toJson cfg) Native r)
      | None => (false, r)
      end
  | UnsupportedSubscription | Invalid => (false, r)
  end.

Definition renameServer (serverId name : string) (r : R) : bool * R := edit_common (renamed name) serverId r.
Definition setDefaultContainer (serverId : string) (container : DockerContainer) (r : R) : R :=
  (edit_common (with_default_container container) serverId r).2.

(** The members every readable kind of server has. *)
Definition common_of (serverId : string) (r : R) : option server_common :=
  match serverKind serverId r with
  | SelfHostedAdmin => SelfHostedAdminServerConfig.common <$> selfHostedAdminConfig serverId r
  | SelfHostedUser => SelfHostedUserServerConfig.common <$> selfHostedUserConfig serverId r
  | Native => NativeServerConfig.common <$> nativeConfig serverId r
  | UnsupportedSubscription | Invalid => None
  end.

Definition getServerContainersMap (serverId : string) (r : R) : container_map :=
  from_option containers ∅ (common_of serverId r).
Definition getDefaultContainer (serverId : string) (r : R) : DockerContainer :=
  from_option defaultContainer DockerContainer.None (common_of serverId r).
Definition getContainerConfig (serverId : string) (container : DockerContainer) (r : R) : ContainerConfig :=
  default ContainerConfig.initial (getServerContainersMap serverId r !! container).

Definition notificationDisplayName (serverId : string) (r : R) : string :=
  if String.eqb serverId "" then "" else
  let name := match serverKind serverId r with
              | UnsupportedSubscription => text (rawServerJson serverId r) "displayName"
              | _ => from_option displayName "" (common_of serverId r)
              end in
  if negb (String.eqb name "") then name else
  let idx := indexOfServerId serverId r in
  if 0 <=? idx then pretty (idx + 1) else serverId.

Definition getServerCredentials (serverId : string) (r : R) : ServerCredentials :=
  match selfHostedAdminConfig serverId r with
  | Some cfg =>
      let creds := SelfHostedAdminServerConfig.credentials cfg in
      if ServerConfig.isValid creds then creds else credentials_initial
  | None => credentials_initial
  end.

Definition hasInstalledContainers (serverId : string) (r : R) : bool :=
  let m := getServerContainersMap serverId r in
  existsb (λ c, bool_decide (is_Some (m !! c)) &&
             (bool_decide (containerService c = ServiceType.Vpn) || bool_decide (c = DockerContainer.SSXray)))
    allContainers.

Definition isUnsupportedSubscriptionServer (serverId : string) (r : R) : bool :=
  negb (String.eqb serverId "") && bool_decide (serverKind serverId r = UnsupportedSubscription).

(** The rows of the list of servers. *)
Definition with_id (id : string) (d : ServerDescription) : ServerDescription :=
  ServerDescription.mk id (ServerDescription.serverName d) (ServerDescription.baseDescription d)
    (ServerDescription.hostName d) (ServerDescription.selfHostedSshCredentials d) (ServerDescription.hasWriteAccess d)
    (ServerDescription.primaryDnsIsAmnezia d) (ServerDescription.defaultContainer d)
    (ServerDescription.hasInstalledVpnContainers d) (ServerDescription.collapsedServerDescription d)
    (ServerDescription.expandedServerDescription d).
Definition buildServerDescription (isAmneziaDnsEnabled : bool) (r : R) (id : string) : option ServerDescription :=
  with_id id <$>
  match serverKind id r with
  | SelfHostedAdmin =>
      (λ c, ServerDescription.buildServerDescription_admin c isAmneziaDnsEnabled) <$> selfHostedAdminConfig id r
  | SelfHostedUser =>
      (λ c, ServerDescription.buildServerDescription_user c isAmneziaDnsEnabled) <$> selfHostedUserConfig id r
  | Native => (λ c, ServerDescription.buildServerDescription_native c isAmneziaDnsEnabled) <$> nativeConfig id r
  | UnsupportedSubscription =>
      Some (ServerDescription.buildUnsupportedSubscriptionDescription (rawServerJson id r))
  | Invalid => None
  end.
Definition buildServerDescriptions (isAmneziaDnsEnabled : bool) (r : R) : list ServerDescription :=
  omap (buildServerDescription isAmneziaDnsEnabled r) (m_orderedServerIds r).

(** ** Properties *)
Context {L : StoreLaws T}.

Lemma kind_config id (r : R) obj :
  m_serverJsonById r !! id = Some obj →
  serverKind id r = configTypeFromJson (withoutStorageServerId obj) ∧
  (∀ C kind (read : gmap string json → C), serverKind id r = kind →
     config_of kind read id r = Some (read (withoutStorageServerId obj))).
Proof.
  intros H. unfold serverKind. rewrite H. split; [done|]. intros C kind read Hk. unfold config_of. rewrite H. cbn.
  by rewrite bool_decide_eq_false_2 by auto.
Qed.

Lemma no_storage_id c l :
  Forall (λ a, a.1 ≠ "storageServerId") l →
  withoutStorageServerId (object (common_members c ++ l)) = object (common_members c ++ l).
Proof.
  intros Hl. apply delete_id. change (Json.value (object (common_members c ++ l)) "storageServerId" = None).
  rewrite value_object, assigned_app, assigned_other by done. unfold common_members. by read_members.
Qed.

Lemma admin_no_storage_id c :
  withoutStorageServerId (SelfHostedAdminServerConfig.toJson c) = SelfHostedAdminServerConfig.toJson c.
Proof. apply no_storage_id. by repeat constructor. Qed.
Lemma user_no_storage_id c :
  withoutStorageServerId (SelfHostedUserServerConfig.toJson c) = SelfHostedUserServerConfig.toJson c.
Proof.
  unfold SelfHostedUserServerConfig.toJson. rewrite <- (app_nil_r (common_members _)). apply no_storage_id. constructor.
Qed.

Lemma name_saved c l :
  other_keys l → displayName (read_common (object (common_members c ++ l))) =
    (if String.eqb (description c) "" then hostName c else description c).
Proof.
  intros Hl. unfold read_common, text. cbn [displayName]. rewrite !value_common by (done || listed).
  unfold common_members. by read_members.
Qed.
Lemma container_saved c l :
  other_keys l → defaultContainer (read_common (object (common_members c ++ l))) = defaultContainer c.
Proof.
  intros Hl. unfold read_common, text. cbn [defaultContainer]. rewrite !value_common by (done || listed).
  unfold common_members. read_members. apply read_default_container.
Qed.

(** A change of the members an administered or a shared server has in common,
    its containers kept, takes effect. *)
Lemma edit_common_saved (f : server_common → server_common) (r : R) id :
  inv r → readable r → printable → (∀ c, containers (f c) = containers c) →
  serverKind id r = SelfHostedAdmin ∨ serverKind id r = SelfHostedUser →
  ∃ s r' c l, common_of id r = Some s ∧ edit_common f id r = (true, r') ∧ synced r' ∧
    serverKind id r' = serverKind id r ∧ common_of id r' = Some c ∧
    other_keys l ∧ c = read_common (object (common_members (f s) ++ l)).
Proof.
  intros Hinv Hr Hp Hf Hkind.
  destruct (m_serverJsonById r !! id) as [obj|] eqn:E; [|unfold serverKind in Hkind; rewrite E in Hkind; by destruct Hkind].
  assert (id ∈ m_orderedServerIds r) as Hin by (apply (ids_known _ (proj1 Hinv)); by eexists).
  destruct (kind_config id r obj E) as [Hk Hcfg]. set (j := withoutStorageServerId obj) in *.
  pose proof (saved_kind j (f (read_common j)) (Hf _)) as [Hadmin Huser]. unfold edit_common, common_of.
  destruct Hkind as [Hk0|Hk0]; rewrite Hk0 in *.
  - unfold selfHostedAdminConfig. rewrite (Hcfg _ SelfHostedAdmin) by done.
    set (cfg := SelfHostedAdminServerConfig.with_common _ _). specialize (Hadmin (eq_sym Hk)).
    change (configTypeFromJson (SelfHostedAdminServerConfig.toJson cfg) = SelfHostedAdmin) in Hadmin.
    rewrite <- (admin_no_storage_id cfg) in Hadmin.
    destruct (proj1 (edit_server r id _ _ Hinv Hr Hp Hin) Hadmin) as (E1 & _ & Hraw & Hk' & _ & _ & Hs).
    rewrite admin_no_storage_id in Hraw.
    set (r' := editServer id _ _ r) in *. eexists _, r', _, _. split; [reflexivity|]. split; [reflexivity|]. split; [done|].
    split; [done|]. split.
    + rewrite Hk'. destruct (m_serverJsonById r' !! id) as [obj'|] eqn:E'.
      * destruct (kind_config id r' obj' E') as [_ Hcfg']. rewrite (Hcfg' _ SelfHostedAdmin) by done. cbn [fmap option_fmap option_map].
        unfold rawServerJson in Hraw. rewrite E' in Hraw. rewrite Hraw. reflexivity.
      * unfold serverKind in Hk'. by rewrite E' in Hk'.
    + split; [|reflexivity]. repeat constructor; cbn; set_solver.
  - unfold selfHostedUserConfig. rewrite (Hcfg _ SelfHostedUser) by done.
    set (cfg := SelfHostedUserServerConfig.mk _). specialize (Huser (eq_sym Hk)).
    change (configTypeFromJson (SelfHostedUserServerConfig.toJson cfg) = SelfHostedUser) in Huser.
    rewrite <- (user_no_storage_id cfg) in Huser.
    destruct (proj1 (edit_server r id _ _ Hinv Hr Hp Hin) Huser) as (E1 & _ & Hraw & Hk' & _ & _ & Hs).
    rewrite user_no_storage_id in Hraw.
    set (r' := editServer id _ _ r) in *. eexists _, r', _, []. split; [reflexivity|]. split; [reflexivity|]. split; [done|].
    split; [done|]. split.
    + rewrite Hk'. destruct (m_serverJsonById r' !! id) as [obj'|] eqn:E'.
      * destruct (kind_config id r' obj' E') as [_ Hcfg']. rewrite (Hcfg' _ SelfHostedUser) by done. cbn [fmap option_fmap option_map].
        unfold rawServerJson in Hraw. rewrite E' in Hraw. rewrite Hraw. reflexivity.
      * unfold serverKind in Hk'. by rewrite E' in Hk'.
    + split; [constructor|]. by rewrite app_nil_r.
Qed.

(** Renaming an administered or a shared server, and choosing its default
    container, take effect and are saved: the server keeps its kind and the list
    shows it under the new name, or under its host's name when the new one is
    empty. *)
Theorem rename_takes_effect (r : R) (id name : string) (container : DockerContainer) :
  inv r → readable r → printable →
  serverKind id r = SelfHostedAdmin ∨ serverKind id r = SelfHostedUser →
  (∃ r' c, renameServer id name r = (true, r') ∧ synced r' ∧ serverKind id r' = serverKind id r ∧
     common_of id r' = Some c ∧
     displayName c = if String.eqb name "" then from_option hostName "" (common_of id r) else name) ∧
  (let r' := setDefaultContainer id container r in
   synced r' ∧ serverKind id r' = serverKind id r ∧ getDefaultContainer id r' = container).
Proof.
  intros Hinv Hr Hp Hk. split.
  - destruct (edit_common_saved (renamed name) r id Hinv Hr Hp (λ _, eq_refl) Hk)
      as (s & r' & c & l & Es & E & Hs & Hkind & Ec & Hl & ->).
    exists r', (read_common (object (common_members (renamed name s) ++ l))). split_and!; try done.
    rewrite name_saved, Es by done. done.
  - destruct (edit_common_saved (with_default_container container) r id Hinv Hr Hp (λ _, eq_refl) Hk)
      as (s & r' & c & l & Es & E & Hs & Hkind & Ec & Hl & ->).
    unfold setDefaultContainer, getDefaultContainer. cbv zeta. rewrite E. cbn [snd]. rewrite Ec. cbn [from_option].
    by rewrite container_saved.
Qed.
End controller.

Lemma rename_takes_effect_witness :
  let _ := fixed_codec two_servers in let _ := fixed_printer in
  inv two ∧ serverKind "a" two = SelfHostedUser ∧
  ∃ r', renameServer "a" "office" two = (true, r') ∧ synced r'.
Proof.
  cbv zeta. pose proof (synced_inv _ two_synced) as H. split; [exact H|].
  assert (@serverKind _ (fixed_codec two_servers) "a" two = SelfHostedUser) as Hk by (vm_compute; reflexivity).
  split; [exact Hk|].
  destruct (rename_takes_effect (J := fixed_codec two_servers) (P := fixed_printer) two "a" "office" DockerContainer.None
    H two_readable fixed_printable (or_intror Hk)) as [(r' & c & E & Hs & _) _].
  exists r'. split; [exact E|exact Hs].
Defined.

(** An imported server whose mark is in a container that is not kept cannot be
    renamed, and [renameServer] says it was. *)
Definition marked_cloak : gmap string json :=
  object [text_member "description" "old"; text_member "storageServerId" "a";
    member "containers" (JArray [JObject (object [member "container" (JString "amnezia-openvpn-cloak");
      member "openvpn" (JObject (object [flag_member "isThirdPartyConfig" true]))])])].

Lemma rename_refused :
  let _ := fixed_codec [JObject marked_cloak] in let _ := fixed_printer in
  let r : repository (gmap string variant) :=
    SecureServersRepository sample_uuid {[ "Servers/serversList" := VBytes "list" ]} 0 in
  serverKind "a" r = Native ∧ (renameServer "a" "new" r).1 = true ∧ (renameServer "a" "new" r).2 = r ∧
  notificationDisplayName "a" (renameServer "a" "new" r).2 = "old".
Proof. vm_compute. repeat split; reflexivity. Qed.
