(* ===== verification/AppSettings.v ===== *)
(** * AppSettings: the application's settings

    Models [client/core/repositories/secureAppSettingsRepository.cpp] on a store
    that keeps its promise: the resolvers, the modes and the lists of split
    tunnelling, the flags, the identity of the installation.  The language, the
    dates and the signals whose receivers are pages of the interface are left
    out. *)
From S2P Require Import Prelude Text Json Settings.

(** [RouteMode] and [AppsRouteMode] are integers: a stored one is cast without a
    test. *)
Definition VpnAllSites : Z := 0.
Definition VpnOnlyForwardSites : Z := 1.
Definition VpnAllExceptSites : Z := 2.
Definition VpnAllApps : Z := 0.
Definition VpnOnlyForwardApps : Z := 1.
Definition VpnAllExceptApps : Z := 2.

Definition routeModeString (mode : Z) : string :=
  if mode =? VpnAllSites then "AllSites"
  else if mode =? VpnOnlyForwardSites then "ForwardSites"
  else if mode =? VpnAllExceptSites then "ExceptSites"
  else "".
Definition appsRouteModeString (mode : Z) : string :=
  if mode =? VpnAllApps then "AllApps"
  else if mode =? VpnOnlyForwardApps then "ForwardApps"
  else if mode =? VpnAllExceptApps then "ExceptApps"
  else "".

Record InstalledAppInfo := mkApp { appName : string; packageName : string; appPath : string }.
#[export] Instance InstalledAppInfo_eq_dec : EqDecision InstalledAppInfo.
Proof. solve_decision. Defined.
(** [operator==] *)
Definition app_eqb (a b : InstalledAppInfo) : bool :=
  if negb (String.eqb (packageName a) "") then String.eqb (packageName a) (packageName b)
  else String.eqb (appPath a) (appPath b).

(** [result.removeAll(QString()); result.removeDuplicates();] *)
Definition siteIpList (v : variant) : list string := removeDuplicates (nonempty (vStringList v)).

(** [for (ip : ips) if (!ip.isEmpty() && !merged.contains(ip)) merged.append(ip);] and
    whether something was appended. *)
Definition merge_ip (acc : list string * bool) (ip : string) : list string * bool :=
  if negb (String.eqb ip "") && negb (bool_decide (ip ∈ acc.1)) then (acc.1 ++ [ip], true) else acc.
Definition merge_ips (old ips : list string) (changed : bool) : list string * bool := foldl merge_ip (old, changed) ips.

Section settings.
Context {T : Type} {A : Store T}.

Definition vpn_read {X} (key : string) (d : variant) (f : variant → X) (s : T) : X * T :=
  let '(v, s) := st_value key d s in (f v, s).
Definition vpn_write (key : string) (v : variant) (s : T) : T := st_setValue key v s.

(** ** Flags and resolvers *)
Definition useAmneziaDns : T → bool * T := vpn_read "Conf/useAmneziaDns" (VBool true) vBool.
Definition setUseAmneziaDns (enabled : bool) : T → T := vpn_write "Conf/useAmneziaDns" (VBool enabled).
Definition getAllowedDnsServers : T → list string * T := vpn_read "Conf/allowedDnsServers" VInvalid vStringList.
Definition setAllowedDnsServers (servers : list string) : T → T := vpn_write "Conf/allowedDnsServers" (VStringList servers).
Definition primaryDns : T → string * T := vpn_read "Conf/primaryDns" (VString "1.1.1.1") vString.
Definition setPrimaryDns (dns : string) : T → T := vpn_write "Conf/primaryDns" (VString dns).
Definition secondaryDns : T → string * T := vpn_read "Conf/secondaryDns" (VString "1.0.0.1") vString.
Definition setSecondaryDns (dns : string) : T → T := vpn_write "Conf/secondaryDns" (VString dns).
Definition isSitesSplitTunnelingEnabled : T → bool * T := vpn_read "Conf/sitesSplitTunnelingEnabled" (VBool false) vBool.
Definition setSitesSplitTunnelingEnabled (enabled : bool) : T → T := vpn_write "Conf/sitesSplitTunnelingEnabled" (VBool enabled).
Definition isAppsSplitTunnelingEnabled : T → bool * T := vpn_read "Conf/appsSplitTunnelingEnabled" (VBool false) vBool.
Definition setAppsSplitTunnelingEnabled (enabled : bool) : T → T := vpn_write "Conf/appsSplitTunnelingEnabled" (VBool enabled).
Definition isKillSwitchEnabled : T → bool * T := vpn_read "Conf/killSwitchEnabled" (VBool true) vBool.
Definition setKillSwitchEnabled (enabled : bool) : T → T := vpn_write "Conf/killSwitchEnabled" (VBool enabled).
Definition isStrictKillSwitchEnabled : T → bool * T := vpn_read "Conf/strictKillSwitchEnabled" (VBool false) vBool.
Definition setStrictKillSwitchEnabled (enabled : bool) : T → T := vpn_write "Conf/strictKillSwitchEnabled" (VBool enabled).
Definition isAutoConnect : T → bool * T := vpn_read "Conf/autoConnect" (VBool false) vBool.
Definition setAutoConnect (enabled : bool) : T → T := vpn_write "Conf/autoConnect" (VBool enabled).
Definition isStartMinimized : T → bool * T := vpn_read "Conf/startMinimized" (VBool false) vBool.
Definition setStartMinimized (enabled : bool) : T → T := vpn_write "Conf/startMinimized" (VBool enabled).
Definition isScreenshotsEnabled : T → bool * T := vpn_read "Conf/screenshotsEnabled" (VBool true) vBool.
Definition setScreenshotsEnabled (enabled : bool) : T → T := vpn_write "Conf/screenshotsEnabled" (VBool enabled).
Definition isSaveLogs : T → bool * T := vpn_read "Conf/saveLogs" (VBool false) vBool.
Definition setSaveLogs (enabled : bool) : T → T := vpn_write "Conf/saveLogs" (VBool enabled).
Definition xraySavedConfigs : T → string * T := vpn_read "Xray/savedConfigs" VInvalid vBytes.
Definition setXraySavedConfigs (data : string) : T → T := vpn_write "Xray/savedConfigs" (VBytes data).

(** ** Split tunnelling by sites *)
Definition routeMode : T → Z * T := vpn_read "Conf/routeMode" (VInt 0) vInt.
Definition setRouteMode (mode : Z) : T → T := vpn_write "Conf/routeMode" (VInt mode).

Definition vpnSites (mode : Z) : T → gmap string variant * T := vpn_read ("Conf/" +:+ routeModeString mode) VInvalid vMap.
Definition setVpnSites (mode : Z) (sites : gmap string variant) : T → T :=
  vpn_write ("Conf/" +:+ routeModeString mode) (VMap sites).

Definition addVpnSite (mode : Z) (site : string) (ips : list string) (s : T) : bool * T :=
  let '(sites, s) := vpnSites mode s in
  let siteExisted := bool_decide (is_Some (sites !! site)) in
  if siteExisted && bool_decide (ips = []) then (false, s) else
  let '(mergedIps, changed) := merge_ips (siteIpList (default VInvalid (sites !! site))) ips (negb siteExisted) in
  if negb changed then (false, s)
  else (true, setVpnSites mode (<[site := VStringList mergedIps]> sites) s).

Definition add_sites (allSites : gmap string variant) (e : string * list string) : gmap string variant :=
  <[e.1 := VStringList (merge_ips (siteIpList (default VInvalid (allSites !! e.1))) e.2 false).1]> allSites.
Definition addVpnSites (mode : Z) (sites : gmap string (list string)) (s : T) : T :=
  let '(allSites, s) := vpnSites mode s in setVpnSites mode (foldl add_sites allSites (entries sites)) s.

Definition removeVpnSite (mode : Z) (site : string) (s : T) : T :=
  let '(sites, s) := vpnSites mode s in
  if bool_decide (is_Some (sites !! site)) then setVpnSites mode (delete site sites) s else s.
Definition removeAllVpnSites (mode : Z) : T → T := setVpnSites mode ∅.

(** ** Split tunnelling by applications *)
Definition appsRouteMode : T → Z * T := vpn_read "Conf/appsRouteMode" (VInt 0) vInt.
Definition setAppsRouteMode (mode : Z) : T → T := vpn_write "Conf/appsRouteMode" (VInt mode).
Definition app_of (j : json) : InstalledAppInfo :=
  let o := toObject (Some j) in mkApp (text o "appName") (text o "packageName") (text o "appPath").
Definition app_object (a : InstalledAppInfo) : json :=
  JObject (object [member "appName" (JString (appName a)); member "packageName" (JString (packageName a));
                   member "appPath" (JString (appPath a))]).
Definition vpnApps (mode : Z) : T → list InstalledAppInfo * T :=
  vpn_read ("Conf/" +:+ appsRouteModeString mode) VInvalid (λ v, app_of <$> vJsonArray v).
Definition setVpnApps (mode : Z) (apps : list InstalledAppInfo) : T → T :=
  vpn_write ("Conf/" +:+ appsRouteModeString mode) (VJsonArray (app_object <$> apps)).

(** ** The identity of the installation

    [newUuid] is [QUuid::createUuid().toString()], in braces. *)
Definition chop_ends (u : string) : string := String.substring 1 (String.length u - 2) u.
Definition getInstallationUuid (newUuid : string) (createIfNotExists : bool) (s : T) : string * T :=
  let '(uuid, s) := vpn_read "Conf/installationUuid" (VString "") vString s in
  if createIfNotExists && String.eqb uuid "" then
    let uuid := chop_ends newUuid in (uuid, vpn_write "Conf/installationUuid" (VString uuid) s)
  else if contains_str "{" uuid && contains_str "}" uuid then
    let uuid := chop_ends uuid in (uuid, vpn_write "Conf/installationUuid" (VString uuid) s)
  else (uuid, s).
Definition setInstallationUuid (uuid : string) : T → T := vpn_write "Conf/installationUuid" (VString uuid).

(** [clear] is the store's [clearSettings]. *)
Definition clearSettings (clear : T → T) (s : T) : T :=
  let '(uuid, s) := getInstallationUuid "" false s in setInstallationUuid uuid (clear s).

(** ** Properties *)
Context {L : StoreLaws T}.

Lemma read_spec {X} key d (f : variant → X) s m :
  represents_map s m → key ≠ own_key →
  ∃ s', vpn_read key d f s = (f (default d (m !! key)), s') ∧ represents_map s' m.
Proof.
  intros H Hk. unfold vpn_read. destruct (st_read s m key d H Hk) as (s' & -> & H'). by exists s'.
Qed.

Lemma write_spec key v s m :
  represents_map s m → key ≠ own_key → key ∉ encryptedKeys → plain v → represents_map (vpn_write key v s) (<[key := v]> m).
Proof. intros H Hk He Hp. apply st_write; [done|]. apply st_storable; [done|done|]. by intros. Qed.
End settings.

(** The flags, each with what reads and what sets it. *)
Record flag (T : Type) := mkFlag { flag_key : string; flag_get : T → bool * T; flag_set : bool → T → T }.
Arguments mkFlag {T}.
Arguments flag_key {T}.
Arguments flag_get {T}.
Arguments flag_set {T}.

Definition flags (T : Type) {A : Store T} : list (flag T) :=
  [mkFlag "Conf/useAmneziaDns" useAmneziaDns setUseAmneziaDns;
   mkFlag "Conf/sitesSplitTunnelingEnabled" isSitesSplitTunnelingEnabled setSitesSplitTunnelingEnabled;
   mkFlag "Conf/appsSplitTunnelingEnabled" isAppsSplitTunnelingEnabled setAppsSplitTunnelingEnabled;
   mkFlag "Conf/killSwitchEnabled" isKillSwitchEnabled setKillSwitchEnabled;
   mkFlag "Conf/strictKillSwitchEnabled" isStrictKillSwitchEnabled setStrictKillSwitchEnabled;
   mkFlag "Conf/autoConnect" isAutoConnect setAutoConnect;
   mkFlag "Conf/startMinimized" isStartMinimized setStartMinimized;
   mkFlag "Conf/screenshotsEnabled" isScreenshotsEnabled setScreenshotsEnabled;
   mkFlag "Conf/saveLogs" isSaveLogs setSaveLogs].

Section properties.
Context {T : Type} {A : Store T} {L : StoreLaws T}.

Lemma flag_shape (f : flag T) :
  f ∈ flags T → flag_key f ≠ own_key ∧ flag_key f ∉ encryptedKeys ∧ flag_set f = (λ b, vpn_write (flag_key f) (VBool b)) ∧
  ∃ d, flag_get f = vpn_read (flag_key f) (VBool d) vBool.
Proof.
  intros H. repeat (apply elem_of_cons in H as [->|H]); [..|by apply not_elem_of_nil in H].
  all: cbn; (split; [discriminate|]); (split; [intros Hin; by apply list_elem_of_singleton in Hin|]); split; [reflexivity|];
    eexists; reflexivity.
Qed.

Lemma flag_keys_distinct : NoDup (flag_key <$> flags T).
Proof. apply (bool_decide_unpack _). vm_compute. exact Logic.I. Qed.

(** Each of the nine switches of the application is read back as it was set,
    also in the next run, and setting one leaves the other eight alone. *)
Theorem flags_independent (s : T) (m : gmap string variant) (i j : nat) (f g : flag T) (b : bool) :
  represents_map s m → flags T !! i = Some f → flags T !! j = Some g →
  (flag_get g (flag_set f b s)).1 = (if bool_decide (i = j) then b else (flag_get g s).1) ∧
  represents_map (flag_set f b s) (<[flag_key f := VBool b]> m).
Proof.
  intros H Hf Hg. destruct (flag_shape f) as (F1 & F2 & F3 & _); [by eapply list_elem_of_lookup_2|].
  destruct (flag_shape g) as (G1 & G2 & G3 & d & Gd); [by eapply list_elem_of_lookup_2|].
  assert (represents_map (flag_set f b s) (<[flag_key f := VBool b]> m)) as Hs
    by (rewrite F3; by apply write_spec).
  split; [|done]. rewrite Gd.
  destruct (read_spec (flag_key g) (VBool d) vBool _ _ Hs G1) as (s1 & -> & _).
  destruct (read_spec (flag_key g) (VBool d) vBool _ _ H G1) as (s2 & -> & _). cbn [fst].
  case_bool_decide as Hij.
  - subst j. rewrite Hf in Hg. injection Hg as <-. by rewrite lookup_insert_eq.
  - rewrite lookup_insert_ne; [done|]. intros E. apply Hij.
    assert ((flag_key <$> flags T) !! i = Some (flag_key f)) as Hi by by rewrite list_lookup_fmap, Hf.
    assert ((flag_key <$> flags T) !! j = Some (flag_key g)) as Hj by by rewrite list_lookup_fmap, Hg.
    rewrite <- E in Hj. by eapply NoDup_lookup; [apply flag_keys_distinct|..].
Qed.

(** *** Lists of addresses *)
Definition clean (l : list string) : Prop := NoDup l ∧ "" ∉ l.

Lemma elem_of_nonempty x l : x ∈ nonempty l ↔ x ∈ l ∧ x ≠ "".
Proof. unfold nonempty. rewrite !list_elem_of_In, filter_In, negb_true_iff, String.eqb_neq. done. Qed.

Lemma removeDuplicates_id (l : list string) : NoDup l → removeDuplicates l = l.
Proof.
  unfold removeDuplicates. assert (∀ seen, NoDup l → (∀ x, x ∈ l → x ∉ seen) → removeDuplicates_from seen l = l) as H.
  { induction l as [|y l IH]; intros seen Hnd Hs; [done|]. apply NoDup_cons in Hnd as [Hy Hnd]. cbn.
    rewrite decide_False by (apply Hs; apply list_elem_of_here). f_equal. apply IH; [done|].
    intros x Hx [->|Hin]%elem_of_cons; [done|]. revert Hin. apply Hs. by apply list_elem_of_further. }
  intros Hnd. apply H; [done|]. intros x _. apply not_elem_of_nil.
Qed.

Lemma siteIpList_clean v : clean (siteIpList v).
Proof.
  unfold siteIpList. split; [apply NoDup_removeDuplicates|].
  rewrite elem_of_removeDuplicates, elem_of_nonempty. naive_solver.
Qed.

Lemma merge_ips_spec ips old c :
  clean old →
  let '(l, c') := merge_ips old ips c in
  clean l ∧ (∃ new, l = old ++ new ∧ c' = c || negb (bool_decide (new = []))) ∧
  ∀ x, x ∈ l ↔ x ∈ old ∨ (x ∈ ips ∧ x ≠ "").
Proof.
  unfold merge_ips. revert old c. induction ips as [|ip ips IH]; intros old c Hold; cbn [foldl].
  { split; [done|]. split; [exists []; by rewrite app_nil_r, orb_false_r|]. intros x. rewrite elem_of_nil. naive_solver. }
  unfold merge_ip at 2. cbn [fst]. destruct (String.eqb_spec ip "") as [->|Hne]; cbn [negb andb].
  { specialize (IH old c Hold). destruct (foldl _ _ _) as [l c']. destruct IH as (H1 & H2 & H3). split_and!; [done|done|].
    intros x. rewrite H3, elem_of_cons. naive_solver. }
  case_bool_decide as Hin; cbn [negb].
  { specialize (IH old c Hold). destruct (foldl _ _ _) as [l c']. destruct IH as (H1 & H2 & H3). split_and!; [done|done|].
    intros x. rewrite H3, elem_of_cons. naive_solver. }
  assert (clean (old ++ [ip])) as Hold'.
  { destruct Hold as [Hnd He]. split; [|rewrite elem_of_app, list_elem_of_singleton; naive_solver].
    apply NoDup_app. split; [done|]. split; [|apply NoDup_singleton]. intros x Hx ->%list_elem_of_singleton. done. }
  specialize (IH (old ++ [ip]) true Hold'). destruct (foldl _ _ _) as [l c']. destruct IH as (H1 & (new & -> & ->) & H3).
  split_and!; [done|exists (ip :: new); by rewrite <- app_assoc, orb_true_r|].
  intros x. rewrite H3, elem_of_app, list_elem_of_singleton, elem_of_cons. naive_solver.
Qed.

(** *** Sites *)
Definition sites_key (mode : Z) : string := "Conf/" +:+ routeModeString mode.
Definition sites_of (m : gmap string variant) (mode : Z) : gmap string variant := vMap (default VInvalid (m !! sites_key mode)).
Definition ips_of (m : gmap string variant) (mode : Z) (site : string) : list string :=
  siteIpList (default VInvalid (sites_of m mode !! site)).

Lemma sites_key_ok mode : sites_key mode ≠ own_key ∧ sites_key mode ∉ encryptedKeys.
Proof.
  unfold sites_key, routeModeString.
  split; [|intros H; apply list_elem_of_singleton in H; revert H]; repeat case_match; discriminate.
Qed.

Lemma vpnSites_spec s m mode :
  represents_map s m → ∃ s', vpnSites mode s = (sites_of m mode, s') ∧ represents_map s' m.
Proof. intros H. apply (read_spec (sites_key mode)); [done|]. apply sites_key_ok. Qed.

Lemma setVpnSites_spec s m mode sites :
  represents_map s m → represents_map (setVpnSites mode sites s) (<[sites_key mode := VMap sites]> m).
Proof. intros H. by apply write_spec; [..|]; try apply (sites_key_ok mode). Qed.

Lemma sites_of_set m mode sites : sites_of (<[sites_key mode := VMap sites]> m) mode = sites.
Proof. unfold sites_of. by rewrite lookup_insert_eq. Qed.

(** Adding a site to the list of a mode succeeds exactly when it brings
    something new, the site or one of its addresses; then the site has its old
    addresses followed by the new ones, none empty and none twice, and the other
    sites are as before; otherwise nothing is written. *)
Theorem add_vpn_site (s : T) (m : gmap string variant) (mode : Z) (site : string) (ips : list string) :
  represents_map s m →
  ∃ s' m', addVpnSite mode site ips s =
      (negb (bool_decide (is_Some (sites_of m mode !! site)))
       || existsb (λ ip, negb (String.eqb ip "") && negb (bool_decide (ip ∈ ips_of m mode site))) ips, s') ∧
    represents_map s' m' ∧
    ((addVpnSite mode site ips s).1 = false → m' = m) ∧
    ((addVpnSite mode site ips s).1 = true →
       is_Some (sites_of m' mode !! site) ∧ clean (ips_of m' mode site) ∧
       (∃ new, ips_of m' mode site = ips_of m mode site ++ new) ∧
       (∀ x, x ∈ ips_of m' mode site ↔ x ∈ ips_of m mode site ∨ (x ∈ ips ∧ x ≠ "")) ∧
       (∀ other, other ≠ site → sites_of m' mode !! other = sites_of m mode !! other) ∧
       (∀ k, k ≠ sites_key mode → m' !! k = m !! k)).
Proof.
  intros H. unfold addVpnSite. destruct (vpnSites_spec s m mode H) as (s1 & -> & H1).
  fold (ips_of m mode site).
  pose proof (merge_ips_spec ips (ips_of m mode site) (negb (bool_decide (is_Some (sites_of m mode !! site)))) (siteIpList_clean _)) as Hm.
  destruct (merge_ips _ _ _) as [l c]. destruct Hm as (Hl & (new & El & Ec) & Hx).
  assert (c = negb (bool_decide (is_Some (sites_of m mode !! site)))
       || existsb (λ ip, negb (String.eqb ip "") && negb (bool_decide (ip ∈ ips_of m mode site))) ips) as Ec'.
  { rewrite Ec. f_equal. apply eq_bool_prop_intro. rewrite !Is_true_true, existsb_exists, negb_true_iff, bool_decide_eq_false. split.
    - intros Hnew. destruct new as [|x new]; [done|].
      assert (x ∈ l) as Hxl by (rewrite El; apply elem_of_app; right; apply list_elem_of_here).
      assert (x ∉ ips_of m mode site) as Hxo.
      { destruct Hl as [Hnd _]. rewrite El in Hnd. apply NoDup_app in Hnd as (_ & Hd & _). intros Hin. apply (Hd x Hin). apply list_elem_of_here. }
      apply Hx in Hxl as [?|[Hin Hne]]; [done|]. exists x. split; [by apply list_elem_of_In|].
      rewrite (proj2 (String.eqb_neq x "")) by done. by rewrite bool_decide_eq_false_2.
    - intros (x & Hin%list_elem_of_In & Hn) ->. rewrite app_nil_r in El. subst l.
      apply andb_true_iff in Hn as [Hne%negb_true_iff%String.eqb_neq Ho%negb_true_iff%bool_decide_eq_false].
      apply Ho, Hx. by right. }
  rewrite <- Ec'. destruct (bool_decide (is_Some (sites_of m mode !! site)) && bool_decide (ips = [])) eqn:Ee.
  - apply andb_true_iff in Ee as [Es Ei%bool_decide_eq_true]. subst ips. cbn in Ec'. rewrite Es in Ec'. cbn in Ec'. rewrite Ec'.
    exists s1, m. split_and!; try done.
  - destruct c; cbn [negb].
    + exists (setVpnSites mode (<[site := VStringList l]> (sites_of m mode)) s1),
        (<[sites_key mode := VMap (<[site := VStringList l]> (sites_of m mode))]> m).
      split; [done|]. split; [by apply setVpnSites_spec|]. split; [done|]. intros _.
      assert (ips_of (<[sites_key mode := VMap (<[site := VStringList l]> (sites_of m mode))]> m) mode site = l) as Eips.
      { unfold ips_of. rewrite sites_of_set, lookup_insert_eq. unfold default, siteIpList. cbn [from_option id vStringList].
        destruct Hl as [Hnd He].
        assert (nonempty l = l) as ->.
        { unfold nonempty. apply forallb_filter_id, forallb_forall. intros x Hin%list_elem_of_In.
          apply negb_true_iff, String.eqb_neq. by intros ->. }
        by apply removeDuplicates_id. }
      rewrite Eips, sites_of_set, lookup_insert_eq. split_and!; try done.
      * by exists new.
      * intros other Hne. by rewrite lookup_insert_ne.
      * intros k Hk. by rewrite lookup_insert_ne.
    + exists s1, m. by split_and!.
Qed.
End properties.

Lemma empty_represented : represents_map (∅ : gmap string variant) ∅.
Proof. reflexivity. Qed.

Lemma flags_independent_witness :
  represents_map (∅ : gmap string variant) ∅ ∧
  (isKillSwitchEnabled (setStrictKillSwitchEnabled true (∅ : gmap string variant))).1 = true ∧
  (isStrictKillSwitchEnabled (setStrictKillSwitchEnabled true (∅ : gmap string variant))).1 = true.
Proof.
  split; [reflexivity|]. split.
  - exact (proj1 (flags_independent (∅ : gmap string variant) ∅ 4 3 _ _ true empty_represented eq_refl eq_refl)).
  - exact (proj1 (flags_independent (∅ : gmap string variant) ∅ 4 4 _ _ true empty_represented eq_refl eq_refl)).
Defined.

Lemma add_vpn_site_witness :
  represents_map (∅ : gmap string variant) ∅ ∧
  ∃ s' m', addVpnSite 1 "example.org" ["192.0.2.1"; ""; "192.0.2.1"] (∅ : gmap string variant) = (true, s') ∧
           represents_map s' m' ∧ "192.0.2.1" ∈ ips_of m' 1 "example.org".
Proof.
  split; [reflexivity|].
  destruct (add_vpn_site (∅ : gmap string variant) ∅ 1 "example.org" ["192.0.2.1"; ""; "192.0.2.1"] empty_represented)
    as (s' & m' & E & H & _ & Ht).
  exists s', m'. split; [exact E|]. split; [exact H|].
  rewrite E in Ht. destruct (Ht eq_refl) as (_ & _ & _ & Hx & _). apply Hx. right.
  split; [apply list_elem_of_here|discriminate].
Defined.
