(* ===== verification/SplitTunneling.v ===== *)
(** * SplitTunneling: the lists the user edits

    Models [client/core/controllers/ipSplitTunnelingController.cpp] (sites),
    [appSplitTunnelingController.cpp] (applications) and
    [allowedDnsController.cpp] (resolvers), each a list kept in memory beside the
    stored one.  The answer to a site's name lookup is an event of its own: it
    arrives later, whatever happened in between. *)
From S2P Require Import Prelude Text Json Wire Qt NetworkUtilities Settings AppSettings.

(** [QString::replace(sub, QString())] *)
Fixpoint remove_all_from (fuel : nat) (sub s : string) : string :=
  match fuel, s with
  | Datatypes.S fuel, String ch s' =>
      if startsWith sub s then remove_all_from fuel sub (String.substring (String.length sub) (String.length s) s)
      else String ch (remove_all_from fuel sub s')
  | _, _ => s
  end.
Definition remove_all (sub s : string) : string := remove_all_from (String.length s) sub s.

(** [normalizeHostname]; [None] is [first()] of an empty list. *)
Definition normalizeHostname (hostname : string) : option string :=
  let normalized := remove_all "https://" hostname in
  let normalized := remove_all "http://" normalized in
  let normalized := remove_all "ftp://" normalized in
  head (nonempty (split_char slash normalized)).

Definition validateHostname (hostname : string) : bool :=
  if String.eqb hostname "" then false
  else negb (negb (contains_str "." hostname) && negb (exactMatch ipAddressWithSubnetRegExp hostname)).

(** ** [IpSplitTunnelingController] *)
Record sites_controller (T : Type) := mkSites {
  repo : T;
  m_currentRouteMode : Z;
  m_sites : list (string * list string);
  lookups : list string;  (** names asked for *)
}.
Arguments mkSites {T}.
Arguments repo {T}.
Arguments m_currentRouteMode {T}.
Arguments m_sites {T}.
Arguments lookups {T}.

(** Change the first entry of a name, when there is one. *)
Fixpoint update_site (hostname : string) (f : list string → list string) (l : list (string * list string))
    : list (string * list string) :=
  match l with
  | [] => []
  | (h, ips) :: l' => if String.eqb h hostname then (h, f ips) :: l' else (h, ips) :: update_site hostname f l'
  end.
Fixpoint find_site (hostname : string) (l : list (string * list string)) : option (list string) :=
  match l with
  | [] => None
  | (h, ips) :: l' => if String.eqb h hostname then Some ips else find_site hostname l'
  end.
Fixpoint remove_site (hostname : string) (l : list (string * list string)) : list (string * list string) :=
  match l with
  | [] => []
  | (h, ips) :: l' => if String.eqb h hostname then l' else (h, ips) :: remove_site hostname l'
  end.

Section sites.
Context {T : Type} {A : Store T} {J : JsonCodec}.
Abbreviation C := (sites_controller T).

Definition set_sites (l : list (string * list string)) (c : C) : C :=
  mkSites (repo c) (m_currentRouteMode c) l (lookups c).
Definition set_repo (s : T) (c : C) : C := mkSites s (m_currentRouteMode c) (m_sites c) (lookups c).

Definition fillSites (c : C) : C :=
  let '(sitesMap, s) := vpnSites (m_currentRouteMode c) (repo c) in
  set_sites ((λ e, (e.1, siteIpList e.2)) <$> entries sitesMap) (set_repo s c).

Definition IpSplitTunnelingController (s : T) : C :=
  let '(mode, s) := routeMode s in
  let '(mode, s) := if mode =? VpnAllSites then (VpnOnlyForwardSites, setRouteMode VpnOnlyForwardSites s) else (mode, s) in
  fillSites (mkSites s mode [] []).

Definition addSiteInternal (hostname : string) (ips : list string) (c : C) : bool * C :=
  let '(existing, s) := vpnSites (m_currentRouteMode c) (repo c) in
  let c := set_repo s c in
  if bool_decide (is_Some (existing !! hostname)) && bool_decide (ips = []) then (false, c) else
  let added c := (true, set_repo (addVpnSite (m_currentRouteMode c) hostname ips (repo c)).2 c) in
  match find_site hostname (m_sites c) with
  | Some old =>
      let '(merged, changed) := merge_ips old ips false in
      if negb changed then (false, c) else added (set_sites (update_site hostname (λ _, merged) (m_sites c)) c)
  | None => added (set_sites (m_sites c ++ [(hostname, ips)]) c)
  end.

Definition add_shown (l : list (string * list string)) (e : string * list string) : list (string * list string) :=
  match find_site e.1 l with
  | Some _ => update_site e.1 (λ old, (merge_ips old e.2 false).1) l
  | None => l ++ [e]
  end.
Definition addSites (sites : gmap string (list string)) (replaceExisting : bool) (c : C) : C :=
  let shown := foldl add_shown (if replaceExisting then [] else m_sites c) (entries sites) in
  let s := if replaceExisting then removeAllVpnSites (m_currentRouteMode c) (repo c) else repo c in
  set_sites shown (set_repo (addVpnSites (m_currentRouteMode c) sites s) c).

(** [None]: a host name of which nothing is left. *)
Definition addSite (hostname : string) (c : C) : option (bool * C) :=
  normalizedHostname ← normalizeHostname hostname;
  if negb (validateHostname normalizedHostname) then Some (false, c)
  else if exactMatch ipAddressWithSubnetRegExp normalizedHostname
  then Some (true, (addSiteInternal normalizedHostname [] c).2)
  else
    let '(ok, c) := addSiteInternal normalizedHostname [] c in
    if ok then Some (true, mkSites (repo c) (m_currentRouteMode c) (m_sites c) (lookups c ++ [normalizedHostname]))
    else Some (false, c).

Definition removeSite (hostname : string) (c : C) : bool * C :=
  match find_site hostname (m_sites c) with
  | Some _ => (true, set_repo (removeVpnSite (m_currentRouteMode c) hostname (repo c)) (set_sites (remove_site hostname (m_sites c)) c))
  | None => (false, c)
  end.

Definition removeSites (c : C) : C := set_repo (removeAllVpnSites (m_currentRouteMode c) (repo c)) (set_sites [] c).

Definition setRouteMode (mode : Z) (c : C) : C :=
  let c := fillSites (mkSites (repo c) mode (m_sites c) (lookups c)) in
  set_repo (AppSettings.setRouteMode mode (repo c)) c.

Definition toggleSplitTunneling (enabled : bool) (c : C) : C := set_repo (setSitesSplitTunnelingEnabled enabled (repo c)) c.

Definition processSiteAfterResolve (hostname : string) (ips : list string) (c : C) : C :=
  let c := set_sites (update_site hostname (λ old, (merge_ips old ips false).1) (m_sites c)) c in
  set_repo (addVpnSite (m_currentRouteMode c) hostname ips (repo c)).2 c.

(** The answer to a lookup: the IPv4 addresses of a name. *)
Definition onHostResolved (hostname : string) (allIpv4 : list string) (c : C) : C :=
  let allIpv4 := removeDuplicates allIpv4 in
  match allIpv4 with
  | [] => c
  | _ => processSiteAfterResolve hostname allIpv4 c
  end.

(** One entry of an imported list, when it is valid; [None] as in [addSite]. *)
Definition import_entry (sites : option (gmap string (list string))) (j : json) : option (gmap string (list string)) :=
  sites ← sites;
  let o := toObject (Some j) in
  let ips := strings_of (value o "ips") in
  let singleIp := text o "ip" in
  let ips := removeDuplicates (nonempty (ips ++ (if String.eqb singleIp "" then [] else [singleIp]))) in
  normalizedHostname ← normalizeHostname (text o "hostname");
  Some (if validateHostname normalizedHostname then <[normalizedHostname := ips]> sites else sites).

(** [document] is the parsed text, [None] for a text that is no JSON. *)
Definition importSitesFromJson (document : option json) (replaceExisting : bool) (c : C) : option (bool * C) :=
  match document with
  | Some (JArray l) =>
      sites ← foldl import_entry (Some ∅) l;
      Some (true, addSites sites replaceExisting c)
  | _ => Some (false, c)
  end.

Definition export_entry (e : string * list string) : json :=
  JObject (object [member "hostname" (JString e.1); member "ips" (JStrings e.2);
                   member "ip" (JString (default "" (head e.2)))]).
Definition exportSites (c : C) : json := JArray (export_entry <$> m_sites c).
End sites.

(** ** [AppSplitTunnelingController] *)
Record apps_controller (T : Type) := mkApps { apps_repo : T; apps_mode : Z; m_apps : list InstalledAppInfo }.
Arguments mkApps {T}.
Arguments apps_repo {T}.
Arguments apps_mode {T}.
Arguments m_apps {T}.

Module AppSplitTunnelingController.
Section apps.
Context {T : Type} {A : Store T}.

Definition create (s : T) : apps_controller T :=
  let '(mode, s) := appsRouteMode s in
  if mode =? VpnAllApps then
    let '(apps, s) := vpnApps VpnAllExceptApps s in
    mkApps (setAppsRouteMode VpnAllExceptApps s) VpnAllExceptApps apps
  else let '(apps, s) := vpnApps mode s in mkApps s mode apps.

Definition store_apps (apps : list InstalledAppInfo) (c : apps_controller T) : apps_controller T :=
  mkApps (setVpnApps (apps_mode c) apps (apps_repo c)) (apps_mode c) apps.

Definition addApp (appInfo : InstalledAppInfo) (c : apps_controller T) : bool * apps_controller T :=
  if existsb (λ a, app_eqb a appInfo) (m_apps c) then (false, c)
  else (true, store_apps (m_apps c ++ [appInfo]) c).
Definition removeApp (index : Z) (c : apps_controller T) : apps_controller T :=
  if (index <? 0) || (Z.of_nat (length (m_apps c)) <=? index) then c
  else store_apps (take (Z.to_nat index) (m_apps c) ++ drop (Datatypes.S (Z.to_nat index)) (m_apps c)) c.
Definition clearAppsList (c : apps_controller T) : apps_controller T := store_apps [] c.
Definition setRouteMode (mode : Z) (c : apps_controller T) : apps_controller T :=
  let '(apps, s) := vpnApps mode (apps_repo c) in mkApps (setAppsRouteMode mode s) mode apps.
End apps.
End AppSplitTunnelingController.

(** ** [AllowedDnsController] *)
Record dns_controller (T : Type) := mkDns { dns_repo : T; m_dnsServers : list string }.
Arguments mkDns {T}.
Arguments dns_repo {T}.
Arguments m_dnsServers {T}.

Module AllowedDnsController.
Section dns.
Context {T : Type} {A : Store T}.
Definition fillDnsServers (s : T) : dns_controller T := let '(l, s) := getAllowedDnsServers s in mkDns s l.
Definition store_dns (l : list string) (c : dns_controller T) : dns_controller T :=
  mkDns (setAllowedDnsServers l (dns_repo c)) l.
Definition addDns (ip : string) (c : dns_controller T) : bool * dns_controller T :=
  if bool_decide (ip ∈ m_dnsServers c) then (false, c) else (true, store_dns (m_dnsServers c ++ [ip]) c).
Definition append_new (l : list string) (ip : string) : list string := if bool_decide (ip ∈ l) then l else l ++ [ip].
Definition addDnsList (dnsServers : list string) (replaceExisting : bool) (c : dns_controller T) : dns_controller T :=
  store_dns (foldl append_new (if replaceExisting then [] else m_dnsServers c) dnsServers) c.
Definition removeDns (index : Z) (c : dns_controller T) : dns_controller T :=
  if (index <? 0) || (Z.of_nat (length (m_dnsServers c)) <=? index) then c
  else store_dns (take (Z.to_nat index) (m_dnsServers c) ++ drop (Datatypes.S (Z.to_nat index)) (m_dnsServers c)) c.
End dns.
End AllowedDnsController.

(** ** Properties *)

(** *** The list in memory as a map *)
Definition shown (l : list (string * list string)) : gmap string (list string) := list_to_map l.

Lemma find_site_shown h l : find_site h l = shown l !! h.
Proof.
  induction l as [|[x ips] l IH]; cbn; [by rewrite lookup_empty|].
  destruct (String.eqb_spec x h) as [->|Hne]; [by rewrite lookup_insert_eq|by rewrite lookup_insert_ne].
Qed.

Lemma shown_app l h ips : h ∉ l.*1 → shown (l ++ [(h, ips)]) = <[h := ips]> (shown l).
Proof.
  unfold shown. induction l as [|[x i] l IH]; cbn; [done|]. intros [Hx Hh]%not_elem_of_cons.
  rewrite IH by done. by rewrite insert_insert_ne.
Qed.

Lemma update_site_keys h f l : (update_site h f l).*1 = l.*1.
Proof. induction l as [|[x i] l IH]; cbn; [done|]. destruct (String.eqb x h); cbn; by rewrite ?IH. Qed.

Lemma shown_update h f l : shown (update_site h f l) = alter f h (shown l).
Proof.
  unfold shown. induction l as [|[x i] l IH]; cbn; [by rewrite alter_empty|].
  destruct (String.eqb_spec x h) as [->|Hne]; cbn; [by rewrite alter_insert_eq|].
  by rewrite alter_insert_ne, IH.
Qed.

Lemma remove_site_keys h l : NoDup l.*1 → (∀ x, x ∈ (remove_site h l).*1 → x ∈ l.*1) ∧ NoDup (remove_site h l).*1.
Proof.
  induction l as [|[x i] l IH]; cbn; [done|]. intros [Hx Hnd]%NoDup_cons. destruct (IH Hnd) as [Hsub Hnd'].
  destruct (String.eqb x h); cbn; [split; [|done]; intros y Hy; by apply list_elem_of_further|]. split.
  - intros y [->|Hy]%elem_of_cons; [apply list_elem_of_here|]. apply list_elem_of_further. by apply Hsub.
  - constructor; [|done]. intros Hin. by apply Hx, Hsub.
Qed.

Lemma shown_remove h l : NoDup l.*1 → shown (remove_site h l) = delete h (shown l).
Proof.
  unfold shown. induction l as [|[x i] l IH]; cbn; [by rewrite delete_empty|]. intros [Hx Hnd]%NoDup_cons.
  destruct (String.eqb_spec x h) as [->|Hne]; cbn.
  - rewrite delete_insert_id; [done|]. by apply not_elem_of_list_to_map_1.
  - by rewrite IH, delete_insert_ne.
Qed.

Lemma shown_keys h l : h ∈ l.*1 ↔ is_Some (shown l !! h).
Proof.
  split.
  - intros H. destruct (shown l !! h) eqn:E; [by eexists|]. by apply not_elem_of_list_to_map_2 in E.
  - intros [ips H]. apply elem_of_list_to_map_2 in H. apply list_elem_of_fmap. by exists (h, ips).
Qed.

Section consistency.
Context {T : Type} {A : Store T} {J : JsonCodec} {L : StoreLaws T}.

(** The stored sites of a mode, each with the addresses read from it. *)
Definition stored (m : gmap string variant) (mode : Z) : gmap string (list string) := siteIpList <$> sites_of m mode.

(** The list in memory is the stored one. *)
Record consistent (c : sites_controller T) (m : gmap string variant) : Prop := {
  consistent_store : represents_map (repo c) m;
  consistent_keys : NoDup (m_sites c).*1;
  consistent_sites : shown (m_sites c) = stored m (m_currentRouteMode c);
}.

Lemma ips_of_stored m mode h : ips_of m mode h = default [] (stored m mode !! h).
Proof. unfold ips_of, stored. rewrite lookup_fmap. by destruct (sites_of m mode !! h). Qed.

Lemma siteIpList_id l : clean l → siteIpList (VStringList l) = l.
Proof.
  intros [Hnd He]. unfold siteIpList. cbn [vStringList].
  assert (nonempty l = l) as ->; [|by apply removeDuplicates_id].
  unfold nonempty. apply forallb_filter_id, forallb_forall. intros x Hin%list_elem_of_In.
  apply negb_true_iff, String.eqb_neq. by intros ->.
Qed.

Lemma stored_clean m mode h ips : stored m mode !! h = Some ips → clean ips.
Proof. unfold stored. rewrite lookup_fmap. intros (v & _ & ->)%fmap_Some. apply siteIpList_clean. Qed.

Lemma merge_first old ips b c : (merge_ips old ips b).1 = (merge_ips old ips c).1.
Proof.
  unfold merge_ips. revert old b c. induction ips as [|ip ips IH]; intros old b c; cbn; [done|].
  unfold merge_ip at 2 4. cbn. destruct (_ && _); [done|apply IH].
Qed.

(** What adding a site does to the stored ones. *)
Lemma add_site_stored s m mode h ips :
  represents_map s m →
  ∃ m', represents_map (addVpnSite mode h ips s).2 m' ∧
    stored m' mode = <[h := (merge_ips (ips_of m mode h) ips false).1]> (stored m mode) ∧
    (∀ k, k ≠ sites_key mode → m' !! k = m !! k).
Proof.
  intros H. unfold addVpnSite. destruct (vpnSites_spec s m mode H) as (s1 & -> & H1). fold (ips_of m mode h).
  pose proof (merge_ips_spec ips (ips_of m mode h) (negb (bool_decide (is_Some (sites_of m mode !! h)))) (siteIpList_clean _)) as Hm.
  pose proof (merge_first (ips_of m mode h) ips (negb (bool_decide (is_Some (sites_of m mode !! h)))) false) as Hfirst.
  destruct (merge_ips _ _ (negb _)) as [l c]. destruct Hm as (Hl & (new & El & Ec) & _). cbn in Hfirst. rewrite <- Hfirst.
  assert (is_Some (sites_of m mode !! h) → l = ips_of m mode h → <[h := l]> (stored m mode) = stored m mode) as Hsame.
  { intros [v Hv] El'. apply insert_id. rewrite El'. unfold ips_of, stored. by rewrite lookup_fmap, Hv. }
  destruct (_ && bool_decide (ips = [])) eqn:Ee.
  { apply andb_true_iff in Ee as [Es%bool_decide_eq_true ->%bool_decide_eq_true]. exists m. split; [done|]. split; [|done].
    symmetry. apply Hsame; [done|]. by cbn in Hfirst. }
  destruct c; cbn [negb snd].
  - exists (<[sites_key mode := VMap (<[h := VStringList l]> (sites_of m mode))]> m).
    split; [by apply setVpnSites_spec|]. split; [|intros k Hk; by rewrite lookup_insert_ne].
    unfold stored. rewrite sites_of_set, fmap_insert. by rewrite siteIpList_id.
  - exists m. split; [done|]. split; [|done]. symmetry.
    symmetry in Ec. apply orb_false_iff in Ec as [Es%negb_false_iff%bool_decide_eq_true En%negb_false_iff%bool_decide_eq_true].
    apply Hsame; [done|]. by rewrite El, En, app_nil_r.
Qed.

(** Reading the list of a mode again. *)
Lemma fill_consistent (c : sites_controller T) m :
  represents_map (repo c) m → consistent (fillSites c) m ∧ m_currentRouteMode (fillSites c) = m_currentRouteMode c.
Proof.
  intros H. unfold fillSites. destruct (vpnSites_spec (repo c) m (m_currentRouteMode c) H) as (s1 & -> & H1).
  split; [|done]. split; cbn; [done| |].
  - rewrite <- list_fmap_compose. apply (NoDup_entries_keys (sites_of m (m_currentRouteMode c))).
  - unfold shown, stored. apply map_eq. intros k. rewrite lookup_fmap.
    destruct (sites_of m (m_currentRouteMode c) !! k) as [v|] eqn:E; cbn.
    + apply elem_of_list_to_map_1; [rewrite <- list_fmap_compose; apply (NoDup_entries_keys (sites_of m (m_currentRouteMode c)))|].
      apply list_elem_of_fmap. exists (k, v). split; [done|]. by apply elem_of_entries.
    + apply not_elem_of_list_to_map_1. rewrite <- list_fmap_compose. intros ([k' v] & -> & Hv%elem_of_entries)%list_elem_of_fmap.
      cbn in E. congruence.
Qed.

Lemma merge_clean ips : clean ips → (merge_ips [] ips false).1 = ips.
Proof.
  intros [Hnd He]. unfold merge_ips.
  assert (∀ old b, NoDup (old ++ ips) → "" ∉ ips → (foldl merge_ip (old, b) ips).1 = old ++ ips) as H; [|by apply H].
  clear Hnd He. induction ips as [|ip ips IH]; intros old b Hnd He; cbn; [by rewrite app_nil_r|].
  apply not_elem_of_cons in He as [Hip He]. unfold merge_ip at 2. cbn.
  rewrite (proj2 (String.eqb_neq ip "")) by done. cbn.
  rewrite bool_decide_eq_false_2.
  - cbn. rewrite IH, <- app_assoc; [done| |done]. by rewrite <- app_assoc.
  - intros Hin. apply NoDup_app in Hnd as (_ & Hd & _). apply (Hd ip Hin). apply list_elem_of_here.
Qed.

Lemma add_internal_consistent h ips (c : sites_controller T) m :
  consistent c m → clean ips →
  ∃ m', consistent (addSiteInternal h ips c).2 m' ∧
        m_currentRouteMode (addSiteInternal h ips c).2 = m_currentRouteMode c ∧
        (∀ x, is_Some (stored m (m_currentRouteMode c) !! x) → is_Some (stored m' (m_currentRouteMode c) !! x)).
Proof.
  intros [H Hk Hs] Hc. unfold addSiteInternal. set (mode := m_currentRouteMode c) in *.
  destruct (vpnSites_spec (repo c) m mode H) as (s1 & -> & H1).
  destruct (_ && bool_decide (ips = [])) eqn:Ee; [exists m; by split_and!|].
  destruct (add_site_stored s1 m mode h ips H1) as (m' & Hm' & Est & _).
  assert (∀ x, is_Some (stored m mode !! x) → is_Some (stored m' mode !! x)) as Hmono.
  { intros x. rewrite Est. destruct (decide (x = h)) as [->|]; [rewrite lookup_insert_eq; by eexists|by rewrite lookup_insert_ne]. }
  cbn [m_sites set_repo]. rewrite find_site_shown. destruct (shown (m_sites c) !! h) as [old|] eqn:Ef.
  - assert (ips_of m mode h = old) as Eo by (rewrite ips_of_stored, <- Hs, Ef; done).
    rewrite Eo in Est. destruct (merge_ips old ips false) as [merged changed]. cbn in Est.
    destruct changed; cbn [negb snd]; [|exists m; by split_and!].
    exists m'. split_and!; [|done|done]. split; cbn; [done|by rewrite update_site_keys|].
    etrans; [|symmetry; exact Est]. rewrite shown_update, <- Hs.
    apply map_eq. intros k. destruct (decide (k = h)) as [->|Hne].
    + by rewrite lookup_alter_eq, Ef, lookup_insert_eq.
    + by rewrite lookup_alter_ne, lookup_insert_ne.
  - exists m'. cbn [snd]. split_and!; [|done|done].
    assert (h ∉ (m_sites c).*1) as Hh by (rewrite shown_keys, Ef; by intros []).
    split; cbn; [done| |].
    + rewrite fmap_app. apply NoDup_app. split; [done|]. split; [|apply NoDup_singleton].
      intros x Hx Hx'%list_elem_of_singleton. cbn in Hx'. by subst.
    + etrans; [|symmetry; exact Est]. rewrite shown_app, <- Hs by done. rewrite ips_of_stored, <- Hs, Ef. unfold default; cbn [from_option id].
      by rewrite merge_clean.
Qed.

Lemma remove_consistent h (c : sites_controller T) m :
  consistent c m → ∃ m', consistent (removeSite h c).2 m' ∧ m_currentRouteMode (removeSite h c).2 = m_currentRouteMode c.
Proof.
  intros [H Hk Hs]. unfold removeSite. set (mode := m_currentRouteMode c) in *. rewrite find_site_shown.
  destruct (shown (m_sites c) !! h) as [ips|] eqn:Ef; [|by exists m].
  unfold removeVpnSite. cbn [snd]. fold mode. destruct (vpnSites_spec (repo c) m mode H) as (s1 & -> & H1).
  assert (is_Some (sites_of m mode !! h)) as Hin.
  { rewrite Hs in Ef. unfold stored in Ef. rewrite lookup_fmap in Ef. destruct (sites_of m mode !! h); [by eexists|done]. }
  rewrite bool_decide_eq_true_2 by done.
  exists (<[sites_key mode := VMap (delete h (sites_of m mode))]> m). split; [|done].
  split; cbn; [by apply setVpnSites_spec|by apply remove_site_keys|].
  fold mode. unfold stored. by rewrite shown_remove, Hs, sites_of_set, fmap_delete.
Qed.

Lemma clear_consistent (c : sites_controller T) m :
  consistent c m → ∃ m', consistent (removeSites c) m' ∧ m_currentRouteMode (removeSites c) = m_currentRouteMode c.
Proof.
  intros [H Hk Hs]. exists (<[sites_key (m_currentRouteMode c) := VMap ∅]> m). split; [|done].
  split; cbn; [by apply setVpnSites_spec|constructor|]. unfold stored. by rewrite sites_of_set, fmap_empty.
Qed.

Lemma mode_consistent mode (c : sites_controller T) m :
  consistent c m → ∃ m', consistent (setRouteMode mode c) m' ∧ m_currentRouteMode (setRouteMode mode c) = mode.
Proof.
  intros [H Hk Hs]. unfold setRouteMode.
  destruct (fill_consistent (mkSites (repo c) mode (m_sites c) (lookups c)) m H) as [[H1 H2 H3] Hmode].
  set (c1 := fillSites _) in *. clearbody c1. exists (<["Conf/routeMode" := VInt mode]> m). split; [|done].
  split; cbn; [|done|].
  - apply write_spec; [done|done| |done]. intros Hin. by apply list_elem_of_singleton in Hin.
  - etrans; [exact H3|]. rewrite Hmode. cbn. unfold stored, sites_of. rewrite lookup_insert_ne; [done|].
    unfold sites_key, routeModeString. repeat case_match; discriminate.
Qed.

(** The answer for a name that is still in the list. *)
Lemma resolved_consistent h ips (c : sites_controller T) m :
  consistent c m → h ∈ (m_sites c).*1 →
  ∃ m', consistent (processSiteAfterResolve h ips c) m' ∧
        m_currentRouteMode (processSiteAfterResolve h ips c) = m_currentRouteMode c.
Proof.
  intros [H Hk Hs] Hin. unfold processSiteAfterResolve. set (mode := m_currentRouteMode c) in *.
  destruct (add_site_stored (repo c) m mode h ips H) as (m' & Hm' & Est & _). exists m'. split; [|done].
  split; cbn; [done|by rewrite update_site_keys|]. etrans; [|symmetry; exact Est]. rewrite shown_update, <- Hs.
  apply shown_keys in Hin as [old Ho]. rewrite ips_of_stored, <- Hs, Ho. unfold default; cbn [from_option id].
  apply map_eq. intros k. destruct (decide (k = h)) as [->|Hne].
  - by rewrite lookup_alter_eq, Ho, lookup_insert_eq.
  - by rewrite lookup_alter_ne, lookup_insert_ne.
Qed.

(** *** Several sites at once *)
Definition merge_into (acc : gmap string (list string)) (e : string * list string) : gmap string (list string) :=
  <[e.1 := (merge_ips (default [] (acc !! e.1)) e.2 false).1]> acc.

Lemma merge_clean_spec old ips b : clean old → clean (merge_ips old ips b).1.
Proof. intros H. pose proof (merge_ips_spec ips old b H) as Hm. destruct (merge_ips old ips b). apply Hm. Qed.

Lemma stored_add_sites sites l :
  siteIpList <$> foldl add_sites sites l = foldl merge_into (siteIpList <$> sites) l.
Proof.
  revert sites. induction l as [|[h ips] l IH]; intros sites; [done|]. cbn [foldl]. rewrite IH. f_equal.
  unfold add_sites, merge_into. cbn [fst snd]. rewrite fmap_insert, siteIpList_id by apply merge_clean_spec, siteIpList_clean.
  f_equal. f_equal. f_equal. rewrite lookup_fmap. by destruct (sites !! h).
Qed.

Lemma shown_add_sites l k :
  Forall (λ e, clean e.2) k → NoDup l.*1 →
  NoDup (foldl add_shown l k).*1 ∧ shown (foldl add_shown l k) = foldl merge_into (shown l) k.
Proof.
  revert l. induction k as [|[h ips] k IH]; intros l Hk Hl; [done|]. apply Forall_cons in Hk as [Hc Hk]. cbn [foldl].
  assert (NoDup (add_shown l (h, ips)).*1 ∧ shown (add_shown l (h, ips)) = merge_into (shown l) (h, ips)) as [Hnd E].
  { unfold add_shown, merge_into. cbn [fst snd] in *. rewrite find_site_shown. destruct (shown l !! h) as [old|] eqn:Eo.
    - rewrite update_site_keys. split; [done|]. rewrite shown_update. apply map_eq. intros x.
      unfold default; cbn [from_option id]. destruct (decide (x = h)) as [->|Hne].
      + by rewrite lookup_alter_eq, Eo, lookup_insert_eq.
      + by rewrite lookup_alter_ne, lookup_insert_ne.
    - assert (h ∉ l.*1) as Hh by (rewrite shown_keys, Eo; by intros []). split.
      + rewrite fmap_app. apply NoDup_app. split; [done|]. split; [|apply NoDup_singleton].
        intros x Hx Hx'%list_elem_of_singleton. cbn in Hx'. by subst.
      + rewrite shown_app by done. unfold default; cbn [from_option id]. by rewrite merge_clean. }
  rewrite <- E. by apply IH.
Qed.

Lemma add_sites_consistent sites replaceExisting (c : sites_controller T) m :
  consistent c m → map_Forall (λ _ ips, clean ips) sites →
  ∃ m', consistent (addSites sites replaceExisting c) m' ∧
    m_currentRouteMode (addSites sites replaceExisting c) = m_currentRouteMode c ∧
    shown (m_sites (addSites sites replaceExisting c)) =
      foldl merge_into (if replaceExisting then ∅ else shown (m_sites c)) (entries sites).
Proof.
  intros [H Hk Hs] Hc. set (mode := m_currentRouteMode c).
  assert (Forall (λ e : string * list string, clean e.2) (entries sites)) as Hce.
  { apply Forall_forall. intros [h ips] Hin%elem_of_entries. by apply (Hc h). }
  set (l0 := if replaceExisting then [] else m_sites c). set (s0 := if replaceExisting then removeAllVpnSites mode (repo c) else repo c).
  assert (NoDup l0.*1) as Hl0 by (destruct replaceExisting; [constructor|done]).
  assert (∃ m0, represents_map s0 m0 ∧ shown l0 = stored m0 mode) as (m0 & Hm0 & E0).
  { destruct replaceExisting; [|by exists m]. exists (<[sites_key mode := VMap ∅]> m). split; [by apply setVpnSites_spec|].
    unfold stored. by rewrite sites_of_set, fmap_empty. }
  destruct (shown_add_sites l0 (entries sites) Hce Hl0) as [Hnd Esh].
  assert (∃ m', represents_map (addVpnSites mode sites s0) m' ∧ stored m' mode = foldl merge_into (stored m0 mode) (entries sites))
    as (m' & Hm' & Em').
  { unfold addVpnSites. destruct (vpnSites_spec s0 m0 mode Hm0) as (s1 & -> & H1).
    exists (<[sites_key mode := VMap (foldl add_sites (sites_of m0 mode) (entries sites))]> m0).
    split; [by apply setVpnSites_spec|]. unfold stored. by rewrite sites_of_set, stored_add_sites. }
  exists m'. split; [|split; [done|]].
  - split; [exact Hm'|exact Hnd|]. etrans; [exact Esh|]. etrans; [|symmetry; exact Em']. by rewrite E0.
  - etrans; [exact Esh|]. unfold l0. by destruct replaceExisting.
Qed.

(** *** Every sequence of events *)
Inductive event :=
  | AddSite (hostname : string)
  | RemoveSite (hostname : string)
  | RemoveSites
  | SetMode (mode : Z)
  | AddSites (sites : gmap string (list string)) (replaceExisting : bool)
  | Resolved (hostname : string) (ips : list string).

Definition happen (e : event) (c : sites_controller T) : option (sites_controller T) :=
  match e with
  | AddSite h => snd <$> addSite h c
  | RemoveSite h => Some (removeSite h c).2
  | RemoveSites => Some (removeSites c)
  | SetMode mode => Some (setRouteMode mode c)
  | AddSites sites replaceExisting => Some (addSites sites replaceExisting c)
  | Resolved h ips => Some (onHostResolved h ips c)
  end.

(** The answer to a lookup finds its site still in the list, and imported
    addresses are not empty and distinct, as the import makes them. *)
Definition expected (e : event) (c : sites_controller T) : Prop :=
  match e with
  | Resolved h _ => h ∈ (m_sites c).*1
  | AddSites sites _ => map_Forall (λ _ ips, clean ips) sites
  | _ => True
  end.

Inductive run : sites_controller T → sites_controller T → Prop :=
  | run_nil c : run c c
  | run_event c e c1 c2 : expected e c → happen e c = Some c1 → run c1 c2 → run c c2.

Lemma event_consistent e c c' m : consistent c m → expected e c → happen e c = Some c' → ∃ m', consistent c' m'.
Proof.
  intros H He E. destruct e as [h|h| |mode|sites b|h ips]; cbn [happen expected] in *.
  - unfold addSite in E. destruct (normalizeHostname h) as [n|]; [|done]. cbn [mbind option_bind] in E.
    assert (clean []) as Hc by (split; [constructor|apply not_elem_of_nil]).
    destruct (add_internal_consistent n [] c m H Hc) as (m' & H' & _).
    destruct (validateHostname n); [|cbn in E; simplify_eq; by exists m].
    destruct (exactMatch ipAddressWithSubnetRegExp n);
      cbn [negb fmap option_fmap option_map snd] in E; [injection E as <-; by exists m'|].
    destruct (addSiteInternal n [] c) as [[] c1]; cbn in E, H'; injection E as <-; exists m'; [|done].
    destruct H'. by split.
  - simplify_eq. destruct (remove_consistent h c m H) as (m' & ? & _). by exists m'.
  - simplify_eq. destruct (clear_consistent c m H) as (m' & ? & _). by exists m'.
  - simplify_eq. destruct (mode_consistent mode c m H) as (m' & ? & _). by exists m'.
  - simplify_eq. destruct (add_sites_consistent sites b c m H He) as (m' & ? & _). by exists m'.
  - simplify_eq. unfold onHostResolved. destruct (removeDuplicates ips); [by exists m|].
    destruct (resolved_consistent h (s :: l) c m H He) as (m' & ? & _). by exists m'.
Qed.

Lemma create_consistent s m : represents_map s m → ∃ m', consistent (IpSplitTunnelingController s) m'.
Proof.
  intros H. unfold IpSplitTunnelingController.
  destruct (read_spec "Conf/routeMode" (VInt 0) vInt s m H) as (s1 & E & H1); [done|].
  unfold routeMode. rewrite E. destruct (_ =? VpnAllSites).
  - eexists. apply fill_consistent. cbn. unfold AppSettings.setRouteMode. apply write_spec; [done|done| |done].
    intros Hin. by apply list_elem_of_singleton in Hin.
  - exists m. by apply fill_consistent.
Qed.

(** The list of sites the user sees is the stored one, whatever the user does
    and whichever modes are switched to, as long as a name lookup is answered
    while its site is in the list: the same sites, each with the same
    addresses. *)
Theorem sites_in_step (s : T) (m : gmap string variant) (c : sites_controller T) :
  represents_map s m → run (IpSplitTunnelingController s) c → ∃ m', consistent c m'.
Proof.
  intros H Hrun. destruct (create_consistent s m H) as [m0 H0]. revert m0 H0.
  induction Hrun as [c|c e c1 c2 He E _ IH]; intros m0 H0; [by exists m0|].
  destruct (event_consistent e c c1 m0 H0 He E) as [m1 H1]. by apply (IH m1).
Qed.

(** *** Export and import *)
Lemma removeDuplicates_app (l k : list string) : NoDup l → (∀ x, x ∈ k → x ∈ l) → removeDuplicates (l ++ k) = l.
Proof.
  unfold removeDuplicates. intros Hnd Hk.
  assert (∀ seen, NoDup l → (∀ x, x ∈ l → x ∉ seen) → (∀ x, x ∈ k → x ∈ l ∨ x ∈ seen) → removeDuplicates_from seen (l ++ k) = l) as H.
  { clear Hnd Hk. induction l as [|y l IH]; intros seen Hnd Hs Hk; cbn [app].
    - induction k as [|x k IHk]; [done|]. cbn. rewrite decide_True.
      + apply IHk. intros z Hz. apply Hk. by apply list_elem_of_further.
      + destruct (Hk x) as [Hx|Hx]; [apply list_elem_of_here|by apply not_elem_of_nil in Hx|done].
    - apply NoDup_cons in Hnd as [Hy Hnd]. cbn. rewrite decide_False by (apply Hs; apply list_elem_of_here). f_equal. apply IH; [done| |].
      + intros x Hx [->|Hin]%elem_of_cons; [done|]. revert Hin. apply Hs. by apply list_elem_of_further.
      + intros x Hx. destruct (Hk x Hx) as [[->|?]%elem_of_cons|?]; [right; apply list_elem_of_here|by left|right; by apply list_elem_of_further]. }
  apply H; [done| |].
  - intros x _. apply not_elem_of_nil.
  - intros x Hx. left. by apply Hk.
Qed.

(** A host name an import takes as it is. *)
Definition plain_host (h : string) : Prop := normalizeHostname h = Some h ∧ validateHostname h = true.

Lemma import_exported sites h ips :
  plain_host h → clean ips → import_entry (Some sites) (export_entry (h, ips)) = Some (<[h := ips]> sites).
Proof.
  intros [Hn Hv] [Hnd He]. unfold import_entry, export_entry. cbn [mbind option_bind toObject fst snd]. read_members.
  cbn [toString_or]. rewrite Hn. cbn [mbind option_bind]. rewrite Hv. do 2 f_equal.
  assert (strings_of (Some (JStrings ips)) = ips) as ->.
  { unfold strings_of, JStrings. cbn. clear. induction ips as [|x l IH]; [done|]. cbn. by rewrite IH. }
  assert (nonempty ips = ips) as Hne.
  { unfold nonempty. apply forallb_filter_id, forallb_forall. intros x Hin%list_elem_of_In.
    apply negb_true_iff, String.eqb_neq. by intros ->. }
  destruct ips as [|x l]; [done|]. unfold default. cbn [head from_option id].
  destruct (String.eqb_spec x "") as [->|Hx]; [by destruct He; apply list_elem_of_here|].
  unfold nonempty in *. rewrite List.filter_app, Hne. cbn. rewrite (proj2 (String.eqb_neq x "")) by done. cbn.
  apply (removeDuplicates_app (x :: l) [x] Hnd). intros y ->%list_elem_of_singleton. apply list_elem_of_here.
Qed.

Lemma import_list l sites :
  Forall (λ e : string * list string, plain_host e.1 ∧ clean e.2) l →
  foldl import_entry (Some sites) (export_entry <$> l) = Some (foldl (λ acc e, <[e.1 := e.2]> acc) sites l).
Proof.
  revert sites. induction l as [|[h ips] l IH]; intros sites Hl; [done|]. apply Forall_cons in Hl as [[Hh Hi] Hl].
  cbn [fmap list_fmap foldl]. rewrite import_exported by done. by apply IH.
Qed.

Lemma foldl_insert (l : list (string * list string)) (sites : gmap string (list string)) k :
  NoDup l.*1 → foldl (λ acc e, <[e.1 := e.2]> acc) sites l !! k = match shown l !! k with Some v => Some v | None => sites !! k end.
Proof.
  revert sites. induction l as [|[h ips] l IH]; intros sites Hnd; cbn; [by rewrite lookup_empty|].
  cbn in Hnd. apply NoDup_cons in Hnd as [Hh Hnd]. rewrite IH by done. destruct (decide (k = h)) as [->|Hne].
  - rewrite !lookup_insert_eq. destruct (shown l !! h) eqn:E; [|done]. exfalso. apply Hh, shown_keys. by eexists.
  - by rewrite !lookup_insert_ne.
Qed.

Lemma merge_entries (sites : gmap string (list string)) :
  map_Forall (λ _ ips, clean ips) sites → foldl merge_into ∅ (entries sites) = sites.
Proof.
  intros Hc.
  assert (∀ l (acc : gmap string (list string)), NoDup l.*1 → (∀ e, e ∈ l → clean e.2 ∧ acc !! e.1 = None) →
    foldl merge_into acc l = foldl (λ acc e, <[e.1 := e.2]> acc) acc l) as H.
  { induction l as [|[h ips] l IH]; intros acc Hnd Hl; [done|]. cbn [foldl]. cbn in Hnd. apply NoDup_cons in Hnd as [Hh Hnd].
    destruct (Hl (h, ips) (list_elem_of_here _ _)) as [Hci Hn]. cbn in Hci, Hn.
    assert (merge_into acc (h, ips) = <[h := ips]> acc) as ->.
    { unfold merge_into. cbn [fst snd]. rewrite Hn. unfold default; cbn [from_option id]. by rewrite merge_clean. }
    apply IH; [done|]. intros e He. destruct (Hl e (list_elem_of_further _ _ _ He)) as [? He'].
    split; [done|]. rewrite lookup_insert_ne; [done|]. intros E. apply Hh. apply list_elem_of_fmap. by exists e. }
  rewrite H.
  - apply map_eq. intros k. rewrite foldl_insert by apply NoDup_entries_keys. unfold shown.
    destruct (list_to_map (entries sites) !! k) as [v|] eqn:E.
    + apply elem_of_list_to_map_2, elem_of_entries in E. done.
    + rewrite lookup_empty. destruct (sites !! k) as [v|] eqn:Ek; [|done]. apply elem_of_entries in Ek.
      apply not_elem_of_list_to_map_2 in E. destruct E. apply list_elem_of_fmap. by exists (k, v).
  - apply NoDup_entries_keys.
  - intros [h ips] Hin%elem_of_entries. split; [by apply (Hc h)|apply lookup_empty].
Qed.

(** Importing an exported list in place of another one gives the exported list:
    the same sites with the same addresses, in memory and in the store. *)
Theorem import_export (c c2 : sites_controller T) (m m2 : gmap string variant) :
  consistent c m → consistent c2 m2 → Forall plain_host (m_sites c).*1 →
  ∃ c' m', importSitesFromJson (Some (exportSites c)) true c2 = Some (true, c') ∧ consistent c' m' ∧
    m_currentRouteMode c' = m_currentRouteMode c2 ∧ shown (m_sites c') = shown (m_sites c).
Proof.
  intros [H Hk Hs] H2 Hh. unfold importSitesFromJson, exportSites.
  assert (∀ h ips, shown (m_sites c) !! h = Some ips → clean ips) as Hclean.
  { intros h ips. rewrite Hs. apply stored_clean. }
  rewrite import_list.
  2: { apply Forall_forall. intros [h ips] Hin. split.
       - rewrite Forall_forall in Hh. apply Hh, list_elem_of_fmap. by exists (h, ips).
       - apply (Hclean h). by apply elem_of_list_to_map_1. }
  cbn [mbind option_bind]. set (sites := foldl _ _ _).
  assert (sites = shown (m_sites c)) as Es.
  { apply map_eq. intros k. unfold sites. rewrite foldl_insert by done. rewrite lookup_empty. by destruct (shown _ !! k). }
  destruct (add_sites_consistent sites true c2 m2 H2) as (m' & Hc' & Hmode & Hsh).
  { intros h ips. rewrite Es. apply Hclean. }
  eexists _, m'. split; [reflexivity|]. split_and!; [done|done|]. rewrite Hsh, merge_entries; [done|].
  intros h ips. rewrite Es. apply Hclean.
Qed.
End consistency.

(** *** Applications and resolvers *)
Section lists.
Context {T : Type} {A : Store T} {L : StoreLaws T}.

Definition apps_in_step (c : apps_controller T) : Prop :=
  ∃ m, represents_map (apps_repo c) m ∧ (vpnApps (apps_mode c) (apps_repo c)).1 = m_apps c.
Definition dns_in_step (c : dns_controller T) : Prop :=
  ∃ m, represents_map (dns_repo c) m ∧ (getAllowedDnsServers (dns_repo c)).1 = m_dnsServers c.

Lemma app_reread a : app_of (app_object a) = a.
Proof. destruct a. unfold app_of, app_object. cbn [toObject]. by read_fields. Qed.

Lemma apps_key_ok mode : "Conf/" +:+ appsRouteModeString mode ≠ own_key ∧ "Conf/" +:+ appsRouteModeString mode ∉ encryptedKeys.
Proof.
  unfold appsRouteModeString.
  split; [|intros H; apply list_elem_of_singleton in H; revert H]; repeat case_match; discriminate.
Qed.

Lemma store_apps_in_step l (c : apps_controller T) :
  apps_in_step c → apps_in_step (AppSplitTunnelingController.store_apps l c).
Proof.
  intros (m & H & _). destruct (apps_key_ok (apps_mode c)) as [K1 K2].
  eexists. split; [apply write_spec; done|]. cbn. unfold vpnApps, setVpnApps.
  match goal with |- (vpn_read ?k ?d ?f (vpn_write ?k ?v ?s)).1 = _ =>
    destruct (read_spec k d f _ _ (write_spec k v s m H K1 K2 eq_refl) K1) as (s' & -> & _) end.
  cbn [fst]. rewrite lookup_insert_eq. unfold default; cbn [from_option id vJsonArray].
  rewrite <- list_fmap_compose. rewrite (list_fmap_ext _ id); [by rewrite list_fmap_id|]. intros i x _. apply app_reread.
Qed.

Lemma vpnApps_spec mode s m :
  represents_map s m → ∃ l s', vpnApps mode s = (l, s') ∧ represents_map s' m ∧ (vpnApps mode s').1 = l.
Proof.
  intros H. destruct (apps_key_ok mode) as [K1 K2]. unfold vpnApps.
  destruct (read_spec ("Conf/" +:+ appsRouteModeString mode) VInvalid (λ v, app_of <$> vJsonArray v) s m H K1) as (s' & -> & H').
  eexists _, s'. split; [done|]. split; [done|].
  by destruct (read_spec ("Conf/" +:+ appsRouteModeString mode) VInvalid (λ v, app_of <$> vJsonArray v) s' m H' K1) as (s'' & -> & _).
Qed.

Lemma mode_in_step mode mode' s m :
  represents_map s m → (vpnApps mode' s).1 = (vpnApps mode' (setAppsRouteMode mode s)).1 ∧
  ∃ m', represents_map (setAppsRouteMode mode s) m'.
Proof.
  intros H. destruct (apps_key_ok mode') as [K1 K2].
  assert (represents_map (setAppsRouteMode mode s) (<["Conf/appsRouteMode" := VInt mode]> m)) as H'.
  { apply write_spec; [done|done| |done]. intros Hin. by apply list_elem_of_singleton in Hin. }
  split; [|by eexists]. unfold vpnApps.
  destruct (read_spec ("Conf/" +:+ appsRouteModeString mode') VInvalid (λ v, app_of <$> vJsonArray v) _ _ H K1) as (s1 & -> & _).
  destruct (read_spec ("Conf/" +:+ appsRouteModeString mode') VInvalid (λ v, app_of <$> vJsonArray v) _ _ H' K1) as (s2 & -> & _).
  cbn [fst]. rewrite lookup_insert_ne; [done|]. unfold appsRouteModeString. repeat case_match; discriminate.
Qed.

Lemma store_dns_in_step l (c : dns_controller T) :
  (∃ m, represents_map (dns_repo c) m) → dns_in_step (AllowedDnsController.store_dns l c).
Proof.
  intros (m & H).
  assert (represents_map (setAllowedDnsServers l (dns_repo c)) (<["Conf/allowedDnsServers" := VStringList l]> m)) as H'.
  { apply write_spec; [done|done| |done]. intros Hin. by apply list_elem_of_singleton in Hin. }
  eexists. split; [exact H'|]. cbn. unfold getAllowedDnsServers.
  destruct (read_spec "Conf/allowedDnsServers" VInvalid vStringList _ _ H') as (s' & -> & _); [done|].
  cbn [fst]. by rewrite lookup_insert_eq.
Qed.

Lemma append_new_NoDup l k : NoDup l → NoDup (foldl AllowedDnsController.append_new l k).
Proof.
  revert l. induction k as [|x k IH]; intros l H; [done|]. apply IH. unfold AllowedDnsController.append_new.
  case_bool_decide; [done|]. apply NoDup_app. split; [done|]. split; [|apply NoDup_singleton].
  intros y Hy ->%list_elem_of_singleton. done.
Qed.

Lemma NoDup_remove_at (l : list string) i : NoDup l → NoDup (take i l ++ drop (Datatypes.S i) l).
Proof.
  intros H. rewrite <- Nat.add_1_r, <- drop_drop. rewrite <- (take_drop i l) in H. apply NoDup_app in H as (H1 & H2 & H3).
  pose proof (take_drop 1 (drop i l)) as E. rewrite <- E in H3. apply NoDup_app in H3 as (_ & _ & H3).
  apply NoDup_app. split; [done|]. split; [|done]. intros x Hx Hd. apply (H2 x Hx). rewrite <- E. apply elem_of_app. by right.
Qed.

(** The lists of applications and of allowed resolvers the user sees are the
    stored ones after every operation; a resolver is in its list once. *)
Theorem lists_in_step :
  (∀ (c : apps_controller T), apps_in_step c →
     (∀ a, apps_in_step (AppSplitTunnelingController.addApp a c).2) ∧
     (∀ i, apps_in_step (AppSplitTunnelingController.removeApp i c)) ∧
     apps_in_step (AppSplitTunnelingController.clearAppsList c) ∧
     (∀ mode, apps_in_step (AppSplitTunnelingController.setRouteMode mode c))) ∧
  (∀ s m, represents_map s m → apps_in_step (AppSplitTunnelingController.create s)) ∧
  (∀ s m, represents_map s m → dns_in_step (AllowedDnsController.fillDnsServers s)) ∧
  (∀ (c : dns_controller T), dns_in_step c → NoDup (m_dnsServers c) →
     (∀ ip, let c' := (AllowedDnsController.addDns ip c).2 in dns_in_step c' ∧ NoDup (m_dnsServers c')) ∧
     (∀ l b, let c' := AllowedDnsController.addDnsList l b c in dns_in_step c' ∧ NoDup (m_dnsServers c')) ∧
     (∀ i, let c' := AllowedDnsController.removeDns i c in dns_in_step c' ∧ NoDup (m_dnsServers c'))).
Proof.
  assert (∀ mode l s m, represents_map s m → (vpnApps mode s).1 = l →
    apps_in_step (mkApps (setAppsRouteMode mode s) mode l)) as Hmode.
  { intros mode l s m H <-. destruct (mode_in_step mode mode s m H) as [-> [m' H']]. by exists m'. }
  split_and!.
  - intros c Hc. split_and!.
    + intros a. unfold AppSplitTunnelingController.addApp. destruct (existsb _ _); [done|by apply store_apps_in_step].
    + intros i. unfold AppSplitTunnelingController.removeApp. destruct (_ || _); [done|by apply store_apps_in_step].
    + by apply store_apps_in_step.
    + intros mode. unfold AppSplitTunnelingController.setRouteMode. destruct Hc as (m & H & _).
      destruct (vpnApps_spec mode (apps_repo c) m H) as (l & s' & -> & H' & E). by apply (Hmode mode l s' m).
  - intros s m H. unfold AppSplitTunnelingController.create.
    destruct (read_spec "Conf/appsRouteMode" (VInt 0) vInt s m H) as (s1 & E & H1); [done|].
    unfold appsRouteMode. rewrite E. destruct (_ =? VpnAllApps).
    + destruct (vpnApps_spec VpnAllExceptApps s1 m H1) as (l & s' & -> & H' & E'). by apply (Hmode VpnAllExceptApps l s' m).
    + match goal with |- context [vpnApps ?mode s1] => destruct (vpnApps_spec mode s1 m H1) as (l & s' & -> & H' & E') end.
      by exists m.
  - intros s m H. unfold AllowedDnsController.fillDnsServers, getAllowedDnsServers.
    destruct (read_spec "Conf/allowedDnsServers" VInvalid vStringList s m H) as (s1 & -> & H1); [done|].
    exists m. split; [done|]. cbn. unfold getAllowedDnsServers.
    by destruct (read_spec "Conf/allowedDnsServers" VInvalid vStringList s1 m H1) as (s2 & -> & _).
  - intros c Hc Hnd. assert (∃ m, represents_map (dns_repo c) m) as Hm by (destruct Hc as (m & H & _); by exists m).
    split_and!; cbn zeta.
    + intros ip. unfold AllowedDnsController.addDns. case_bool_decide as Hin; cbn [snd]; [done|].
      split; [by apply store_dns_in_step|]. cbn. apply NoDup_app. split; [done|]. split; [|apply NoDup_singleton].
      intros x Hx ->%list_elem_of_singleton. done.
    + intros l b. split; [by apply store_dns_in_step|]. cbn. apply append_new_NoDup. destruct b; [constructor|done].
    + intros i. unfold AllowedDnsController.removeDns. destruct (_ || _); [done|].
      split; [by apply store_dns_in_step|]. cbn [m_dnsServers AllowedDnsController.store_dns]. by apply NoDup_remove_at.
Qed.
End lists.

(** *** Witnesses *)
Lemma lists_in_step_witness :
  represents_map (∅ : gmap string variant) ∅ ∧
  dns_in_step (AllowedDnsController.addDns "9.9.9.9" (mkDns (∅ : gmap string variant) [])).2.
Proof.
  split; [exact empty_represented|].
  destruct (@lists_in_step (gmap string variant) _ _) as (_ & _ & Hf & Hd).
  pose proof (Hf ∅ ∅ empty_represented) as Hdns.
  assert (AllowedDnsController.fillDnsServers (∅ : gmap string variant) = mkDns ∅ []) as E by (vm_compute; reflexivity).
  rewrite E in Hdns. destruct (Hd (mkDns ∅ []) Hdns NoDup_nil_2) as [Ha _]. exact (proj1 (Ha "9.9.9.9")).
Defined.

Definition sample_sites : sites_controller (gmap string variant) := IpSplitTunnelingController ∅.

Lemma sites_in_step_witness :
  represents_map (∅ : gmap string variant) ∅ ∧
  ∃ c m, happen (AddSite "https://example.org/a") sample_sites = Some c ∧ consistent c m ∧
         (m_sites c).*1 = ["example.org"] ∧ lookups c = ["example.org"].
Proof.
  split; [exact empty_represented|].
  destruct (happen (AddSite "https://example.org/a") sample_sites) as [c|] eqn:E; [|vm_compute in E; discriminate E].
  destruct (sites_in_step (∅ : gmap string variant) ∅ c empty_represented) as [m Hm].
  { exact (run_event _ (AddSite "https://example.org/a") c c Logic.I E (run_nil c)). }
  exists c, m. split; [reflexivity|]. split; [exact Hm|].
  vm_compute in E. injection E as <-. split; reflexivity.
Defined.

Definition one_site : sites_controller (gmap string variant) :=
  mkSites {[ "Conf/ForwardSites" := VMap {[ "example.org" := VStringList ["192.0.2.1"] ]} ]} VpnOnlyForwardSites
    [("example.org", ["192.0.2.1"])] [].

Lemma one_site_consistent : consistent one_site (repo one_site).
Proof.
  split; [reflexivity|apply NoDup_singleton|].
  unfold stored, one_site. cbn [m_sites m_currentRouteMode repo]. unfold sites_of.
  change (sites_key VpnOnlyForwardSites) with "Conf/ForwardSites". rewrite lookup_singleton_eq.
  unfold default; cbn [from_option id vMap]. rewrite map_fmap_singleton. reflexivity.
Qed.

Lemma import_export_witness :
  consistent one_site (repo one_site) ∧ Forall plain_host (m_sites one_site).*1 ∧
  ∃ c' m', importSitesFromJson (Some (exportSites one_site)) true sample_sites = Some (true, c') ∧ consistent c' m' ∧
           shown (m_sites c') = shown (m_sites one_site).
Proof.
  split; [exact one_site_consistent|].
  assert (Forall plain_host (m_sites one_site).*1) as Hp by (repeat constructor; vm_compute; reflexivity).
  split; [exact Hp|].
  destruct (create_consistent (∅ : gmap string variant) ∅ empty_represented) as [m2 H2].
  destruct (import_export one_site sample_sites (repo one_site) m2 one_site_consistent H2 Hp) as (c' & m' & E & H & _ & Es).
  exists c', m'. split; [exact E|]. split; [exact H|exact Es].
Defined.

(** The answer to the lookup of a site that was removed puts the site back in the
    store, and not in the list. *)
Lemma removed_site_returns :
  let c := (addSite "example.org" sample_sites) in
  match c with
  | Some (_, c) =>
      let c := (removeSite "example.org" c).2 in
      let c := onHostResolved "example.org" ["192.0.2.1"] c in
      m_sites c = [] ∧ is_Some (stored (repo c) (m_currentRouteMode c) !! "example.org")
  | None => False
  end.
Proof. vm_compute. split; [reflexivity|by eexists]. Qed.

(** A text of which normalising leaves nothing has no first part. *)
Lemma nothing_left : normalizeHostname "" = None ∧ normalizeHostname "https://" = None ∧ normalizeHostname "/" = None.
Proof. vm_compute. repeat split; reflexivity. Qed.
