(* ===== verification/WireguardUtilsLinux.v ===== *)
(** * WireguardUtilsLinux: the Linux back end of the daemon

    Models [client/platforms/linux/daemon/wireguardutilslinux.{h,cpp}]: the
    tunnel process, the configuration of interface and peers over the UAPI
    socket, routes through [LinuxRouteMonitor] and the firewall rules of a
    connection through [LinuxFirewall] and [KillSwitch].  The process, the UAPI
    socket and the number and base64 conversions of Qt are interfaces. *)
From stdpp Require Import pretty.
From S2P Require Import Prelude Text Json IpAddress InterfaceConfig Qt Daemon LinuxFirewall KillSwitch LinuxRouteMonitor.

(** ** The environment *)
Inductive ProcessState := NotRunning | Starting | Running.
#[export] Instance ProcessState_eq_dec : EqDecision ProcessState.
Proof. solve_decision. Defined.

Class Tunnel (W : Type) := {
  tunnel_state : W → ProcessState;
  (** [start] and [waitForStarted], the run-time directory made before *)
  start_tunnel : W → bool * W;
  kill_tunnel : W → W;
  terminate_tunnel : W → W;
  waitForFinished : W → bool * W;
  (** the interface name once the UAPI socket answers *)
  waitForTunnelName : W → qstring * W;
  remove_file : string → W → W;
  (** Connect to the socket of the path, write the message, read up to an empty
      line; [None] when connecting fails or the time is over. *)
  uapi_exchange : string → string → W → option string * W;
}.

Class Conversions := {
  fromBase64 : string → string;
  toBase64 : string → string;
  toHex : string → string;
  fromHex : string → string;
  toLower : string → string;
  toDouble : string → Q;
  toLongLong : string → Z;
}.

(** ** State *)
Record WgUtils (W : Type) := mkWgUtils {
  m_ifname : qstring;
  m_rtmonitor : option Z;           (* the monitor, by its sequence number *)
  kill_switch : KillSwitch W;
}.
Arguments mkWgUtils {W}.
Arguments m_ifname {W}.
Arguments m_rtmonitor {W}.
Arguments kill_switch {W}.

Definition EINVAL : Z := 22.
Definition interfaceName : string := "abs0".
Definition WG_RUNTIME_DIR : string := "/var/run/amneziawg".
Definition equals : Ascii.ascii := Ascii.ascii_of_nat 61.

(** [left(indexOf(c))] and [mid(indexOf(c) + 1)]. *)
Fixpoint cut (c : Ascii.ascii) (s : string) : option (string * string) :=
  match s with
  | EmptyString => None
  | String ch s' =>
      if Ascii.eqb ch c then Some ("", s')
      else (λ p, (String ch p.1, p.2)) <$> cut c s'
  end.

(** [name=value] with a name. *)
Definition name_value (line : string) : option (string * string) :=
  match cut equals line with
  | Some (name, value) => if String.eqb name "" then None else Some (name, value)
  | None => None
  end.

Record FirewallParams := mkFirewallParams {
  dnsServers : list string;
  allowAddrs : list string;
  blockAddrs : list string;
  blockAll : bool;
  allowNets : bool;
  blockNets : bool;
}.

(** One line of a UAPI message. *)
Definition uapi (key value : string) : string := key +:+ "=" +:+ value +:+ nl.
Definition uapi_unless_empty (key : string) (v : qstring) : list string :=
  if isEmpty v then [] else [uapi key (str v)].

(** [while (!message.endsWith("\n\n")) message.append('\n');] *)
Fixpoint pad_message (fuel : nat) (message : string) : option string :=
  match fuel with
  | O => None
  | S fuel => if ends_with (nl +:+ nl) message then Some message else pad_message fuel (message +:+ nl)
  end.

Lemma substring_app (a b : string) : String.substring (String.length a) (String.length b) (a +:+ b) = b.
Proof.
  induction a as [|c a IH]; [|exact IH]. cbn [String.length]. rewrite append_nil_l.
  induction b as [|c b IH]; [done|]. cbn. by rewrite IH.
Qed.
Lemma ends_with_app a b : ends_with b (a +:+ b) = true.
Proof.
  unfold ends_with. rewrite string_app_length. replace (String.length a + String.length b - String.length b)%nat
    with (String.length a) by lia. by rewrite substring_app, String.eqb_refl.
Qed.

(** Two rounds suffice: the loop ends, with the message and its empty line. *)
Lemma pad_message_ends s : ∃ m, pad_message 3 s = Some m ∧ ends_with (nl +:+ nl) m = true.
Proof.
  unfold pad_message. destruct (ends_with (nl +:+ nl) s) eqn:E0; [by exists s|].
  destruct (ends_with (nl +:+ nl) (s +:+ nl)) eqn:E1; [by exists (s +:+ nl)|].
  rewrite string_app_assoc, ends_with_app. exists (s +:+ nl +:+ nl). by rewrite ends_with_app.
Qed.

(** ** Operations *)
Section operations.
Context {W : Type} {I : Iptables W} {B : MacOSFirewall.Bash W} {WF : WinFirewall W} {Q : Qt} {N : Netlink W}.
Context {T : Tunnel W} {C : Conversions}.
#[local] Abbreviation G := (stM (WgUtils W)).

Definition world_of (u : WgUtils W) : W := world (firewall (kill_switch u)).
Definition with_world (w : W) (u : WgUtils W) : WgUtils W :=
  let k := kill_switch u in
  mkWgUtils (m_ifname u) (m_rtmonitor u)
    (mkKillSwitch (m_allowedRanges k) (strictKillSwitchEnabled k) (mkFirewall w (anchorCallbacks (firewall k)))).

Definition machine {A} (m : stM W A) : G A := λ u,
  let '(a, w) := m (world_of u) in (a, with_world w u).
Definition on_switch {A} (m : stM (KillSwitch W) A) : G A := λ u,
  let '(a, k) := m (kill_switch u) in (a, mkWgUtils (m_ifname u) (m_rtmonitor u) k).
Definition set_ifname (s : qstring) : G unit := modify (λ u, mkWgUtils s (m_rtmonitor u) (kill_switch u)).
Definition set_rtmonitor (r : option Z) : G unit := modify (λ u, mkWgUtils (m_ifname u) r (kill_switch u)).

(** An operation of the route monitor; [false] without one. *)
Definition monitor (m : stM (RouteMonitor W) bool) : G bool := λ u,
  match m_rtmonitor u with
  | None => (false, u)
  | Some seq =>
      let '(ok, r) := m (mkRouteMonitor seq (world_of u)) in
      let u' := with_world (rt_world r) u in
      (ok, mkWgUtils (m_ifname u') (Some (m_nlseq r)) (kill_switch u'))
  end.

(** *** UAPI *)
Definition uapiCommand (command : string) : G qstring :=
  u ← get;
  let wgSocketFile := WG_RUNTIME_DIR +:+ "/" +:+ str (m_ifname u) +:+ ".sock" in
  reply ← machine (uapi_exchange wgSocketFile (default "" (pad_message 3 command)));
  mret (trimmed <$> reply : qstring).

Fixpoint errno_of (lines : list string) : Z :=
  match lines with
  | [] => EINVAL
  | line :: lines =>
      match name_value line with
      | Some (name, value) => if String.eqb name "errno" then string_toInt value else errno_of lines
      | None => errno_of lines
      end
  end.
Definition uapiErrno (reply : qstring) : Z := errno_of (lines_of (str reply)).

Definition interface_message (config : InterfaceConfig) : string :=
  String.concat "" ([uapi "set" "1"; uapi "private_key" (toHex (fromBase64 (str (m_privateKey config))));
    uapi "replace_peers" "true"] ++
  uapi_unless_empty "jc" (m_junkPacketCount config) ++
  uapi_unless_empty "jmin" (m_junkPacketMinSize config) ++
  uapi_unless_empty "jmax" (m_junkPacketMaxSize config) ++
  uapi_unless_empty "s1" (m_initPacketJunkSize config) ++
  uapi_unless_empty "s2" (m_responsePacketJunkSize config) ++
  uapi_unless_empty "s3" (m_cookieReplyPacketJunkSize config) ++
  uapi_unless_empty "s4" (m_transportPacketJunkSize config) ++
  uapi_unless_empty "h1" (m_initPacketMagicHeader config) ++
  uapi_unless_empty "h2" (m_responsePacketMagicHeader config) ++
  uapi_unless_empty "h3" (m_underloadPacketMagicHeader config) ++
  uapi_unless_empty "h4" (m_transportPacketMagicHeader config) ++
  ((λ kv, uapi (toLower kv.1) kv.2) <$> entries (m_specialJunk config)) ++
  (if isEmpty (m_headerProtectionKey config) then []
   else [uapi "header_protection_key" (toHex (fromBase64 (str (m_headerProtectionKey config))))]) ++
  uapi_unless_empty "content_padding_addition" (m_contentPaddingAddition config) ++
  uapi_unless_empty "rekey_after_time" (m_rekeyAfterTime config) ++
  uapi_unless_empty "rekey_timeout" (m_rekeyTimeout config) ++
  uapi_unless_empty "reject_after_time" (m_rejectAfterTime config) ++
  uapi_unless_empty "keepalive_timeout" (m_keepaliveTimeout config) ++
  uapi_unless_empty "max_handshake_attempts" (m_maxHandshakeAttempts config)).

(** *** The firewall of a connection *)
Definition params_of (config : InterfaceConfig) : FirewallParams :=
  let dns := str (m_primaryDnsServer config) ::
    (if isEmpty (m_secondaryDnsServer config) then [] else [str (m_secondaryDnsServer config)]) in
  if existsb (ip_eqb (IPAddress_of "0.0.0.0/0")) (m_allowedIPAddressRanges config) then
    mkFirewallParams dns (m_excludedAddresses config) [] true
      (match m_excludedAddresses config with [] => false | _ => true end) false
  else mkFirewallParams dns [] (ip_toString host_toString <$> m_allowedIPAddressRanges config) false false true.

Definition firewall_operations (params : FirewallParams) : list operation :=
  [SetAnchor LinuxFirewall.Both "000.allowLoopback" true;
   SetAnchor LinuxFirewall.Both "100.blockAll" (blockAll params);
   SetAnchor LinuxFirewall.IPv4 "110.allowNets" (allowNets params);
   UpdateAllow (allowAddrs params);
   SetAnchor LinuxFirewall.IPv4 "120.blockNets" (blockNets params);
   UpdateBlock (blockAddrs params);
   SetAnchor LinuxFirewall.IPv4 "200.allowVPN" true;
   SetAnchor LinuxFirewall.IPv6 "250.blockIPv6" true;
   SetAnchor LinuxFirewall.Both "290.allowDHCP" true;
   SetAnchor LinuxFirewall.Both "300.allowLAN" true;
   SetAnchor LinuxFirewall.IPv4 "310.blockDNS" true;
   UpdateDNS (dnsServers params);
   SetAnchor LinuxFirewall.IPv4 "320.allowDNS" true;
   SetAnchor LinuxFirewall.Both "400.allowPIA" true].

Definition applyFirewallRules (params : FirewallParams) : G unit :=
  on_switch (_ ← ensure_installed;
             _ ← linux (LinuxFirewall.ensureRootAnchorPriority LinuxFirewall.Both);
             operations (firewall_operations params)).

(** *** Interface *)
Definition kill_and_fail : G bool := _ ← machine (modify kill_tunnel); mret false.

Definition configure_interface (config : InterfaceConfig) : G bool :=
  _ ← set_rtmonitor (Some 0);
  reply ← uapiCommand (interface_message config);
  let err := uapiErrno reply in
  _ ← (if (err =? 0) && m_killSwitchEnabled config then applyFirewallRules (params_of config) else mret tt);
  mret (err =? 0).

Definition addInterface (config : InterfaceConfig) : G bool :=
  u ← get;
  if decide (tunnel_state (world_of u) ≠ NotRunning) then mret false
  else
    started ← machine start_tunnel;
    if negb (started : bool) then kill_and_fail
    else
      name ← machine waitForTunnelName;
      _ ← set_ifname name;
      if isNull name then kill_and_fail else configure_interface config.

Definition deleteInterface : G bool :=
  _ ← set_rtmonitor None;
  u ← get;
  if decide (tunnel_state (world_of u) = NotRunning) then mret false
  else
    _ ← machine (modify terminate_tunnel);
    finished ← machine waitForFinished;
    _ ← (if (finished : bool) then mret tt
         else (_ ← machine (modify kill_tunnel); discard (machine waitForFinished)));
    _ ← machine (modify (remove_file (WG_RUNTIME_DIR +:+ "/" +:+ interfaceName +:+ ".name")));
    _ ← on_switch (disableKillSwitch Linux);
    mret true.

Definition interfaceExists : G bool := u ← get; mret (bool_decide (tunnel_state (world_of u) = Running)).

(** *** Peers *)
Definition endpoint (config : InterfaceConfig) : option string :=
  if negb (isNull (m_serverIpv4AddrIn config)) then Some ("endpoint=" +:+ str (m_serverIpv4AddrIn config) +:+ ":")
  else if negb (isNull (m_serverIpv6AddrIn config)) then Some ("endpoint=[" +:+ str (m_serverIpv6AddrIn config) +:+ "]:")
  else None.

Definition peer_message (config : InterfaceConfig) (endpoint : string) : string :=
  String.concat "" ([uapi "set" "1"; uapi "public_key" (toHex (fromBase64 (str (m_serverPublicKey config))))] ++
  (if isNull (m_serverPskKey config) then []
   else [uapi "preshared_key" (toHex (fromBase64 (str (m_serverPskKey config))))]) ++
  [endpoint +:+ pretty (m_serverPort config) +:+ nl; uapi "replace_allowed_ips" "true"] ++
  uapi_unless_empty "persistent_keepalive_interval" (m_persistentKeepalive config) ++
  ((λ ip, uapi "allowed_ip" (ip_toString host_toString ip)) <$> m_allowedIPAddressRanges config)).

(** The exclusion routes of the server, except for multihop exits. *)
Definition server_exclusions (config : InterfaceConfig) (route : IPAddress → stM (RouteMonitor W) bool) : G unit :=
  u ← get;
  if decide (m_hopType config ≠ MultiHopExit ∧ m_rtmonitor u ≠ None) then
    _ ← monitor (route (IPAddress_of (str (m_serverIpv4AddrIn config))));
    discard (monitor (route (IPAddress_of (str (m_serverIpv6AddrIn config)))))
  else mret tt.

Definition updatePeer (config : InterfaceConfig) : G bool :=
  match endpoint config with
  | None => mret false
  | Some endpoint =>
      _ ← server_exclusions config LinuxRouteMonitor.addExclusionRoute;
      reply ← uapiCommand (peer_message config endpoint);
      mret (uapiErrno reply =? 0)
  end.

Definition delete_message (config : InterfaceConfig) : string :=
  String.concat "" [uapi "set" "1"; uapi "public_key" (toHex (fromBase64 (str (m_serverPublicKey config))));
    uapi "remove" "true"].

Definition deletePeer (config : InterfaceConfig) : G bool :=
  _ ← server_exclusions config LinuxRouteMonitor.deleteExclusionRoute;
  reply ← uapiCommand (delete_message config);
  mret (uapiErrno reply =? 0).

(** The state of the loop over the lines of the answer: the peer being read,
    [m_pubkey] empty before the first, and the finished ones. *)
Definition status_line (acc : PeerStatus * list PeerStatus) (line : string) : PeerStatus * list PeerStatus :=
  let '(status, peerList) := acc in
  match name_value line with
  | None => acc
  | Some (name, value) =>
      if String.eqb name "public_key" then
        (mkPeerStatus (toBase64 (fromHex value)) 0 0 0,
         if String.eqb (m_pubkey status) "" then peerList else peerList ++ [status])
      else if String.eqb name "tx_bytes" then
        (mkPeerStatus (m_pubkey status) (m_handshake status) (m_rxBytes status) (double_to_int (toDouble value)), peerList)
      else if String.eqb name "rx_bytes" then
        (mkPeerStatus (m_pubkey status) (m_handshake status) (double_to_int (toDouble value)) (m_txBytes status), peerList)
      else if String.eqb name "last_handshake_time_sec" then
        (mkPeerStatus (m_pubkey status) (m_handshake status + toLongLong value * 1000) (m_rxBytes status)
           (m_txBytes status), peerList)
      else if String.eqb name "last_handshake_time_nsec" then
        (mkPeerStatus (m_pubkey status) (m_handshake status + Z.quot (toLongLong value) 1000000) (m_rxBytes status)
           (m_txBytes status), peerList)
      else acc
  end.

Definition statuses_of (reply : string) : list PeerStatus :=
  let '(status, peerList) := foldl status_line (mkPeerStatus "" 0 0 0, []) (lines_of reply) in
  if String.eqb (m_pubkey status) "" then peerList else peerList ++ [status].

Definition getPeerStatus : G (list PeerStatus) :=
  reply ← uapiCommand "get=1"; mret (statuses_of (str reply)).

(** *** Routes *)
Definition updateRoutePrefix (prefix : IPAddress) : G bool :=
  u ← get;
  if decide (m_rtmonitor u = None) then mret false
  else if 0 <? prefixLength prefix then monitor (LinuxRouteMonitor.insertRoute prefix)
  else match type prefix with
  | IPv4Protocol =>
      and_then (monitor (LinuxRouteMonitor.insertRoute (IPAddress_of "0.0.0.0/1")))
               (monitor (LinuxRouteMonitor.insertRoute (IPAddress_of "128.0.0.0/1")))
  | IPv6Protocol =>
      and_then (monitor (LinuxRouteMonitor.insertRoute (IPAddress_of "::/1")))
               (monitor (LinuxRouteMonitor.insertRoute (IPAddress_of "8000::/1")))
  | _ => mret false
  end.

Definition deleteRoutePrefix (prefix : IPAddress) : G bool :=
  u ← get;
  if decide (m_rtmonitor u = None) then mret false
  else if 0 <? prefixLength prefix then monitor (LinuxRouteMonitor.insertRoute prefix)
  else match type prefix with
  | IPv4Protocol =>
      and_then (monitor (LinuxRouteMonitor.deleteRoute (IPAddress_of "0.0.0.0/1")))
               (monitor (LinuxRouteMonitor.deleteRoute (IPAddress_of "128.0.0.0/1")))
  | IPv6Protocol =>
      and_then (monitor (LinuxRouteMonitor.deleteRoute (IPAddress_of "::/1")))
               (monitor (LinuxRouteMonitor.deleteRoute (IPAddress_of "8000::/1")))
  | _ => mret false
  end.

Definition addExclusionRoute (prefix : IPAddress) : G bool := monitor (LinuxRouteMonitor.addExclusionRoute prefix).
Definition deleteExclusionRoute (prefix : IPAddress) : G bool := monitor (LinuxRouteMonitor.deleteExclusionRoute prefix).

(** Every prefix is tried; the result tells whether all succeeded. *)
Fixpoint exclude_all (routes : list IPAddress) : G bool :=
  match routes with
  | [] => mret true
  | prefix :: routes =>
      ok ← monitor (LinuxRouteMonitor.insertRoute prefix);
      rest ← exclude_all routes;
      mret ((ok : bool) && rest)
  end.
Definition excludeLocalNetworks (routes : list IPAddress) : G bool :=
  u ← get; if decide (m_rtmonitor u = None) then mret false else exclude_all routes.
End operations.

(** ** The answer to [get=1] *)

(** What the UAPI reports of a peer, among lines about other things. *)
Record peer_report := mkPeerReport {
  pr_key : string;
  pr_tx : Z;
  pr_rx : Z;
  pr_sec : Z;
  pr_nsec : Z;
  pr_other : list string;
}.

Definition uapi_line (key value : string) : string := key +:+ "=" +:+ value.

Definition report_lines (r : peer_report) : list string :=
  [uapi_line "public_key" (pr_key r)] ++ pr_other r ++
  [uapi_line "last_handshake_time_sec" (pretty (pr_sec r));
   uapi_line "last_handshake_time_nsec" (pretty (pr_nsec r));
   uapi_line "tx_bytes" (pretty (pr_tx r)); uapi_line "rx_bytes" (pretty (pr_rx r))].

Definition status_keys : list string :=
  ["public_key"; "tx_bytes"; "rx_bytes"; "last_handshake_time_sec"; "last_handshake_time_nsec"].

(** A line that says nothing about a status. *)
Definition other_line (line : string) : Prop :=
  match name_value line with Some (name, _) => name ∉ status_keys | None => True end.

(** Qt reads back the numbers that are printed. *)
Record conversion_laws (C : Conversions) : Prop := {
  law_toDouble : ∀ n, 0 ≤ n < 2 ^ 53 → double_to_int (toDouble (pretty n)) = n;
  law_toLongLong : ∀ n, 0 ≤ n < 2 ^ 63 → toLongLong (pretty n) = n;
}.

Section statuses.
Context {C : Conversions} (HC : conversion_laws C).

Definition status_of (r : peer_report) : PeerStatus :=
  mkPeerStatus (toBase64 (fromHex (pr_key r))) (pr_sec r * 1000 + pr_nsec r / 1000000) (pr_rx r) (pr_tx r).

Definition report_ok (r : peer_report) : Prop :=
  toBase64 (fromHex (pr_key r)) ≠ "" ∧ 0 ≤ pr_tx r < 2 ^ 53 ∧ 0 ≤ pr_rx r < 2 ^ 53 ∧
  0 ≤ pr_sec r < 2 ^ 50 ∧ 0 ≤ pr_nsec r < 10 ^ 9 ∧ Forall other_line (pr_other r).

Lemma status_line_other acc line : other_line line → status_line acc line = acc.
Proof.
  unfold other_line, status_line. destruct acc as [st l]. destruct (name_value line) as [[name v]|]; [|done].
  unfold status_keys. rewrite !not_elem_of_cons. intros (H1 & H2 & H3 & H4 & H5 & _).
  by rewrite !(proj2 (String.eqb_neq name _)) by done.
Qed.

Lemma foldl_other acc lines : Forall other_line lines → foldl status_line acc lines = acc.
Proof.
  intros Hl. revert acc. induction Hl as [|line ls Hl Hls IH]; intros acc; [done|].
  cbn [foldl]. by rewrite status_line_other.
Qed.

Lemma cut_key key v : contains_char equals key = false → cut equals (key +:+ "=" +:+ v) = Some (key, v).
Proof.
  induction key as [|c key IH]; intros Hk; [done|]. cbn in Hk. split_bools.
  rewrite append_String. cbn [cut]. rewrite H. by rewrite IH.
Qed.

Lemma name_value_line key v : contains_char equals key = false → key ≠ "" → name_value (uapi_line key v) = Some (key, v).
Proof. intros Hk Hne. unfold name_value, uapi_line. rewrite cut_key by done. by rewrite (proj2 (String.eqb_neq _ _)). Qed.

(** Reading one peer's lines finishes the peer before and leaves this one. *)
Lemma report_read st l r :
  report_ok r →
  foldl status_line (st, l) (report_lines r) =
  (status_of r, if String.eqb (m_pubkey st) "" then l else l ++ [st]).
Proof using HC.
  intros (Hk & Ht & Hr & Hs & Hn & Ho). unfold report_lines.
  rewrite !foldl_app. cbn [foldl]. unfold status_line at 6. rewrite name_value_line by done. cbn [String.eqb Ascii.eqb Bool.eqb].
  rewrite foldl_other by done. unfold status_line. rewrite !name_value_line by done.
  cbn [String.eqb Ascii.eqb Bool.eqb m_pubkey m_handshake m_rxBytes m_txBytes].
  rewrite !(law_toLongLong _ HC), !(law_toDouble _ HC) by lia.
  unfold status_of. rewrite Z.quot_div_nonneg by lia. done.
Qed.

Lemma reports_read st l rs :
  Forall report_ok rs →
  foldl status_line (st, l) (concat (report_lines <$> rs)) =
  match List.rev rs with
  | [] => (st, l)
  | last :: _ =>
      (status_of last, (if String.eqb (m_pubkey st) "" then l else l ++ [st]) ++ (status_of <$> removelast rs))
  end.
Proof using HC.
  intros Hrs. revert st l. induction Hrs as [|r rs Hr Hrs IH]; intros st l; [done|].
  cbn [fmap list_fmap concat]. rewrite foldl_app, report_read, IH by done.
  cbn [List.rev]. destruct (List.rev rs) as [|x xs] eqn:E.
  - assert (rs = []) as -> by (apply (f_equal (@List.rev _)) in E; by rewrite rev_involutive in E).
    cbn. by rewrite app_nil_r.
  - cbn [app]. assert (rs ≠ []) as Hne by (intros ->; done).
    destruct Hr as (Hk & _). cbn [m_pubkey status_of].
    rewrite (proj2 (String.eqb_neq _ _)) by done.
    destruct rs as [|r2 rs]; [done|]. cbn [removelast fmap list_fmap].
    by rewrite <- app_assoc.
Qed.
End statuses.

(** ** The firewall of a connection *)

(** The calls of the tunnel do not touch the packet filter. *)
Record tunnel_laws {W} {I : Iptables W} (T : Tunnel W) : Prop := {
  frame_start : ∀ w, view (start_tunnel w).2 = view w;
  frame_name : ∀ w, view (waitForTunnelName w).2 = view w;
  frame_uapi : ∀ p m w, view (uapi_exchange p m w).2 = view w;
}.

Section connection.
Context {W : Type} {I : Iptables W} {B : MacOSFirewall.Bash W} {WF : WinFirewall W} {Q : Qt} {N : Netlink W}.
Context {T : Tunnel W} {C : Conversions}.
Context (valid : string → bool) (HI : iptables_laws I valid) (HT : tunnel_laws T).

Definition chains_under (u : WgUtils W) : chains := chains_in (kill_switch u).

Lemma machine_view {A} (m : stM W A) u : chains_under (machine m u).2 = view (m (world_of u)).2.
Proof. unfold machine. by destruct (m (world_of u)). Qed.

Lemma on_switch_run {A} (m : stM (KillSwitch W) A) u :
  on_switch m u = ((m (kill_switch u)).1, mkWgUtils (m_ifname u) (m_rtmonitor u) (m (kill_switch u)).2).
Proof. unfold on_switch. by destruct (m (kill_switch u)). Qed.

Lemma uapiCommand_view c u : chains_under (uapiCommand c u).2 = chains_under u.
Proof using HT.
  unfold uapiCommand. rewrite bind_run. cbn [get fst snd]. rewrite bind_run.
  etrans; [apply machine_view|]. apply (frame_uapi _ HT).
Qed.

Lemma firewall_operations_proper params :
  forallb plain (allowAddrs params) = true → forallb plain (blockAddrs params) = true →
  forallb plain (dnsServers params) = true → forallb proper_operation (firewall_operations params) = true.
Proof. intros H1 H2 H3. unfold firewall_operations. cbn [forallb proper_operation]. by rewrite H1, H2, H3. Qed.

(** Moving the root chain to the front changes nothing of an installed firewall. *)
Lemma ensure_priority_installed p s :
  installed_with valid p (chains_of s) →
  installed_with valid p (chains_of (LinuxFirewall.ensureRootAnchorPriority LinuxFirewall.Both s).2).
Proof using HI.
  intros Hp. unfold LinuxFirewall.ensureRootAnchorPriority, linkChain. rewrite discard_run. cbn [on_both snd].
  rewrite !bind_run. cbn [snd]. cut (∀ s0 ip, ip ≠ Both → installed_with valid p (chains_of s0) →
    installed_with valid p (chains_of (execute (LinkFirst ip kOutputChain kRootChain kFilterTable) s0).2)).
  { intros Hone. by apply Hone, Hone. }
  clear Hp s. intros s ip Hip [Hl [H4 H6]].
  assert (∀ ip' t c, chains_of (execute (LinkFirst ip kOutputChain kRootChain kFilterTable) s).2 ip' t c =
    chains_of s ip' t c) as E.
  { intros ip' t c. destruct (execute_interp valid HI (LinkFirst ip kOutputChain kRootChain kFilterTable) s eq_refl)
      as [d ->]. cbn. unfold if_target. destruct (chains_of s ip kFilterTable kRootChain); [|done].
    destruct (Hl ip Hip) as (rest & Ho & _). unfold on_chain. rewrite Ho. rewrite decide_True by done.
    unfold set_chain. case_decide as Hd; [|done]. by destruct Hd as (-> & -> & ->). }
  split; [intros ip' Hip'; rewrite E; by apply Hl|].
  split; (eapply holds_ext; [|eassumption]); intros; apply E.
Qed.

(** The policy after the rules of a connection. *)
Lemma applyFirewallRules_installed params u :
  sound valid (chains_under u) → forallb proper_operation (firewall_operations params) = true →
  ∃ p, installed_with valid (foldl (spec_operation valid) p (firewall_operations params))
         (chains_under (applyFirewallRules params u).2).
Proof using HI.
  intros Hs Hops. destruct (ensure_installed_run valid HI _ Hs) as (p & f & E & Hp & _). exists p.
  unfold applyFirewallRules, chains_under. rewrite on_switch_run. cbn [kill_switch snd].
  rewrite bind_run, E. cbn [snd]. rewrite bind_run, linux_run. cbn [snd firewall].
  rewrite operations_run. cbn [snd]. apply operations_installed; [done|done|].
  by apply ensure_priority_installed.
Qed.

(** A successful [addInterface] with the kill switch on. *)
Lemma addInterface_installed config u :
  sound valid (chains_under u) → (addInterface config u).1 = true → m_killSwitchEnabled config = true →
  forallb proper_operation (firewall_operations (params_of config)) = true →
  ∃ p, installed_with valid (foldl (spec_operation valid) p (firewall_operations (params_of config)))
         (chains_under (addInterface config u).2).
Proof using HI HT.
  intros Hs Hok Hks Hops. unfold addInterface in *. rewrite bind_run in *. cbn [get fst snd] in *.
  destruct (decide (tunnel_state (world_of u) ≠ NotRunning)); [done|]. rewrite bind_run in *.
  assert (chains_under (machine start_tunnel u).2 = chains_under u) as E1
    by (rewrite machine_view; apply (frame_start _ HT)).
  destruct (machine start_tunnel u) as [started u1]. cbn [fst snd] in *. destruct started; [|done].
  cbn [negb] in *. rewrite bind_run in *.
  assert (chains_under (machine waitForTunnelName u1).2 = chains_under u1) as E2
    by (rewrite machine_view; apply (frame_name _ HT)).
  destruct (machine waitForTunnelName u1) as [name u2]. cbn [fst snd] in *. rewrite bind_run in *.
  cbn [set_ifname modify fst snd] in *. destruct (isNull name); [done|].
  unfold configure_interface in *. rewrite bind_run in *. cbn [set_rtmonitor modify fst snd] in *.
  rewrite bind_run in *.
  match goal with |- context [uapiCommand ?c ?x] => pose proof (uapiCommand_view c x) as E3;
    destruct (uapiCommand c x) as [reply u3] end.
  cbn [fst snd] in *. rewrite bind_run in *. rewrite Hks, andb_true_r in *.
  destruct (uapiErrno reply =? 0); [|done].
  change (∃ p, installed_with valid (foldl (spec_operation valid) p (firewall_operations (params_of config)))
         (chains_under (applyFirewallRules (params_of config) u3).2)).
  apply applyFirewallRules_installed; [|done]. rewrite E3.
  change (sound valid (chains_under u2)). by rewrite E2, E1.
Qed.
End connection.

(** ** Packets of a connection *)
Section verdicts.
Context {W packet : Type} {I : Iptables W} {B : MacOSFirewall.Bash W} {WF : WinFirewall W} {Q : Qt} {N : Netlink W}.
Context {T : Tunnel W} {C : Conversions}.
Context (valid : string → bool) (meaning : string → packet → option verdict) (loopback : packet → bool).
Context (HP : packet_laws valid meaning loopback).

Definition before (dns : list string) : list (list string) :=
  [["-o lo+ -j ACCEPT"]; getDNSRules dns; dns_reject; lan4; dhcp4].

(** The rules of IPv4 in order; marked traffic keeps the setting it had. *)
Lemma connection_rules_v4 params p :
  ∃ m : bool, enabled_rules valid (foldl (spec_operation valid) p (firewall_operations params)) LinuxFirewall.IPv4 =
  concat (List.filter valid <$> before (dnsServers params) ++
    [vpn_rules; (if m then marked else []); (if blockNets params then getBlockRule (blockAddrs params) else []);
     (if allowNets params then getAllowRule (allowAddrs params) else []);
     (if blockAll params then ["-j REJECT"] else [])]).
Proof.
  exists (on p LinuxFirewall.IPv4 "130.allowMarkedXray"). destruct params as [dns allow block ba an bn].
  destruct (on p LinuxFirewall.IPv4 "130.allowMarkedXray") eqn:E, ba, an, bn; vm_compute in E |- *;
    rewrite E; reflexivity.
Qed.

Lemma connection_rules_v6 params p :
  ∃ (b : bool) (tail : list (list string)),
  enabled_rules valid (foldl (spec_operation valid) p (firewall_operations params)) LinuxFirewall.IPv6 =
  concat (List.filter valid <$> (["-o lo+ -j ACCEPT"] :: (if b then dns_reject else []) :: lan6 :: dhcp6 ::
    ["! -o lo+ -j REJECT"] :: tail)).
Proof.
  exists (on p LinuxFirewall.IPv6 "310.blockDNS"). destruct params as [dns allow block ba an bn].
  exists ((if on p LinuxFirewall.IPv6 "200.allowVPN" then vpn_rules else []) ::
          (if on p LinuxFirewall.IPv6 "130.allowMarkedXray" then marked else []) ::
          (if ba then [["-j REJECT"]] else [])).
  destruct (on p LinuxFirewall.IPv6 "310.blockDNS") eqn:E1, (on p LinuxFirewall.IPv6 "200.allowVPN") eqn:E2,
    (on p LinuxFirewall.IPv6 "130.allowMarkedXray") eqn:E3, ba; vm_compute in E1, E2, E3 |- *;
    rewrite E1, E2, E3; reflexivity.
Qed.

(** What a full-tunnel connection exempts. *)
Definition exempt (params : FirewallParams) : list string :=
  ["-o lo+ -j ACCEPT"] ++ getDNSRules (dnsServers params) ++ lan4 ++ dhcp4 ++ vpn_rules ++ marked ++
  getAllowRule (allowAddrs params).

Lemma decided_full params (m : bool) pkt :
  let d := decide_by valid meaning (concat (before (dnsServers params) ++
    [vpn_rules; (if m then marked else []); []; (if allowNets params then getAllowRule (allowAddrs params) else []);
     ["-j REJECT"]])) pkt in
  d = Some Reject ∨ (d = Some Accept ∧ ∃ r, r ∈ exempt params ∧ valid r = true ∧ meaning r pkt = Some Accept).
Proof using HP.
  cbv zeta. destruct (decide_by _ _ _ pkt) as [[]|] eqn:E; [right|by left|].
  - split; [done|]. apply decide_by_some in E as (r & Hr & Hv & Em). exists r. split; [|done].
    assert (r ∉ dns_reject) as Hd.
    { intros Hd. by apply (law_target_reject _ _ _ HP r pkt (dns_rejects r Hd)). }
    assert (r ∉ ["-j REJECT"]) as Hj.
    { intros ->%list_elem_of_singleton. by rewrite (proj2 (law_reject_all _ _ _ HP)) in Em. }
    unfold before, exempt in *. rewrite concat_app in Hr. cbn [concat] in Hr.
    rewrite !elem_of_app, ?elem_of_nil in Hr. rewrite !elem_of_app.
    destruct m, (allowNets params); rewrite ?elem_of_nil in Hr; tauto.
  - exfalso. rewrite concat_app, decide_by_app in E.
    destruct (decide_by valid meaning (concat (before _)) pkt); [done|].
    cbn [concat] in E. rewrite !decide_by_app, (decide_reject _ _ _ HP) in E. by repeat case_match.
Qed.
End verdicts.

(** ** Properties *)

(** C29. The kill switch of a WireGuard connection.  When [addInterface] succeeds
    with the kill switch on, over a sound firewall: if 0.0.0.0/0 is among the
    allowed ranges, an outgoing IPv4 packet is rejected unless a rule for
    loopback, the configured DNS servers, local networks, DHCP, the tunnel,
    marked traffic or an excluded address accepts it; otherwise a packet that
    the block rules of the allowed ranges match and nothing earlier decides is
    rejected: traffic meant for the tunnel does not leave outside it.  IPv6
    packets but loopback's are rejected unless a local-network or DHCP rule
    accepts them. *)
Theorem connection_kill_switch {W packet} {I : Iptables W} {B : MacOSFirewall.Bash W} {WF : WinFirewall W} {Q : Qt}
    {N : Netlink W} {T : Tunnel W} {C : Conversions} valid (meaning : string → packet → option verdict) loopback
    config (u : WgUtils W) pkt :
  iptables_laws I valid → tunnel_laws T → packet_laws valid meaning loopback →
  sound valid (chains_under u) → (addInterface config u).1 = true → m_killSwitchEnabled config = true →
  forallb proper_operation (firewall_operations (params_of config)) = true →
  let k := kill_switch (addInterface config u).2 in
  let full := existsb (ip_eqb (IPAddress_of "0.0.0.0/0")) (m_allowedIPAddressRanges config) in
  (full = true →
   outgoing meaning k LinuxFirewall.IPv4 pkt = Some Reject ∨
   (outgoing meaning k LinuxFirewall.IPv4 pkt = Some Accept ∧
    ∃ r, r ∈ exempt (params_of config) ∧ valid r = true ∧ meaning r pkt = Some Accept)) ∧
  (full = false →
   decide_by valid meaning (concat (before (dnsServers (params_of config)) ++ [vpn_rules; marked])) pkt = None →
   decide_by valid meaning (getBlockRule (ip_toString host_toString <$> m_allowedIPAddressRanges config)) pkt
     = Some Reject →
   outgoing meaning k LinuxFirewall.IPv4 pkt = Some Reject) ∧
  (outgoing meaning k LinuxFirewall.IPv6 pkt = Some (if loopback pkt then Accept else Reject) ∨
   (outgoing meaning k LinuxFirewall.IPv6 pkt = Some Accept ∧
    ∃ r, r ∈ lan6 ++ dhcp6 ∧ valid r = true ∧ meaning r pkt = Some Accept)).
Proof.
  intros HI HT HP Hs Hok Hks Hops k full.
  destruct (addInterface_installed valid HI HT config u Hs Hok Hks Hops) as [p Hp].
  destruct (connection_rules_v4 valid (params_of config) p) as [m H4].
  pose proof (λ d, outgoing_decided valid meaning k _ LinuxFirewall.IPv4 _ pkt d Hp ltac:(done) H4) as E4.
  destruct (connection_rules_v6 valid (params_of config) p) as (b & tail & H6).
  pose proof (λ d, outgoing_decided valid meaning k _ LinuxFirewall.IPv6 _ pkt d Hp ltac:(done) H6) as E6.
  split; [|split].
  - intros Hf. assert (blockAll (params_of config) = true ∧ blockNets (params_of config) = false) as [Hb Hn]
      by (unfold params_of; fold full; by rewrite Hf).
    rewrite Hb, Hn in E4.
    destruct (decided_full valid meaning loopback HP (params_of config) m pkt) as [E|[E Hr]]; rewrite (E4 _ E); auto.
  - intros Hf Hd Hblock. apply E4. rewrite concat_app, decide_by_app in Hd |- *.
    destruct (decide_by valid meaning (concat (before _)) pkt); [done|]. cbn [concat] in Hd |- *.
    rewrite !decide_by_app in Hd |- *. destruct (decide_by valid meaning vpn_rules pkt); [done|].
    destruct (decide_by valid meaning marked pkt) eqn:Em; [done|].
    assert (decide_by valid meaning (if m then marked else []) pkt = None) as -> by by destruct m.
    assert ((if blockNets (params_of config) then getBlockRule (blockAddrs (params_of config)) else []) =
      getBlockRule (ip_toString host_toString <$> m_allowedIPAddressRanges config)) as ->
      by (unfold params_of; fold full; by rewrite Hf).
    by rewrite decide_by_app, Hblock.
  - destruct (decided_v6 valid meaning loopback HP b tail pkt) as [E|[E Hr]]; rewrite (E6 _ E); auto.
Qed.

(** Reading the peers' state: an answer made of any lines about other
    things, then for each peer its key and its counters among other lines, gives
    exactly one status per peer, in order, with the key in base64, the bytes in
    both directions and the time of the last handshake in milliseconds. *)
Theorem peer_status_read {C : Conversions} reply head rs :
  conversion_laws C → Forall other_line head → Forall report_ok rs →
  lines_of reply = head ++ concat (report_lines <$> rs) →
  statuses_of reply = status_of <$> rs.
Proof.
  intros HC Hh Hrs E. unfold statuses_of. rewrite E, foldl_app, (foldl_other _ head) by done.
  rewrite (reports_read HC) by done. destruct (List.rev rs) as [|last front] eqn:Er.
  { assert (rs = []) as -> by (apply (f_equal (@List.rev _)) in Er; by rewrite rev_involutive in Er). done. }
  assert (rs = List.rev front ++ [last]) as ->.
  { apply (f_equal (@List.rev _)) in Er. by rewrite rev_involutive in Er. }
  rewrite removelast_last. cbn [m_pubkey status_of String.eqb app].
  apply Forall_app in Hrs as [_ [(Hk & _) _]%Forall_cons]. rewrite (proj2 (String.eqb_neq _ _)) by done.
  by rewrite fmap_app.
Qed.

(** The route monitor's part of a state. *)
Definition monitor_state {W} (seq : Z) (u : WgUtils W) : RouteMonitor W :=
  mkRouteMonitor seq (world (firewall (kill_switch u))).

(** Qt reads the four half-defaults. *)
Record half_laws (Q : Qt) : Prop := {
  law_v4_low : IPAddress_of "0.0.0.0/1" = mkIPAddress (HostV4 0) 1;
  law_v4_high : IPAddress_of "128.0.0.0/1" = mkIPAddress (HostV4 (2 ^ 31)) 1;
  law_v6_low : IPAddress_of "::/1" = mkIPAddress (HostV6 (replicate 16 0)) 1;
  law_v6_high : IPAddress_of "8000::/1" = mkIPAddress (HostV6 (128 :: replicate 15 0)) 1;
}.

Lemma monitor_run {W} (m : stM (RouteMonitor W) bool) seq u :
  m_rtmonitor u = Some seq →
  monitor m u =
  ((m (monitor_state seq u)).1,
   mkWgUtils (m_ifname u) (Some (m_nlseq (m (monitor_state seq u)).2))
     (kill_switch (with_world (rt_world (m (monitor_state seq u)).2) u))).
Proof.
  intros E. unfold monitor. rewrite E. unfold monitor_state, world_of.
  by destruct (m (mkRouteMonitor seq (world (firewall (kill_switch u))))).
Qed.

Definition halves (prefix : IPAddress) : IPAddress * IPAddress :=
  match type prefix with
  | IPv4Protocol => (mkIPAddress (HostV4 0) 1, mkIPAddress (HostV4 (2 ^ 31)) 1)
  | _ => (mkIPAddress (HostV6 (replicate 16 0)) 1, mkIPAddress (HostV6 (128 :: replicate 15 0)) 1)
  end.

Lemma halves_wf prefix : wf_ip (halves prefix).1 ∧ wf_ip (halves prefix).2.
Proof.
  unfold halves. destruct (type prefix); cbn [fst snd]; (split; (split; [|by split]));
    (by split) || (split; [reflexivity|repeat (constructor; [by split|]); constructor]).
Qed.

(** The top bit decides. *)
Lemma half_v4 a b : 0 ≤ a < 2 ^ 32 → in_subnet (mkIPAddress (HostV4 b) 1) (HostV4 a) ↔ a / 2 ^ 31 = b / 2 ^ 31.
Proof. intros Ha. unfold in_subnet, block, free_bits. cbn. tauto. Qed.

Lemma halves_cover prefix h :
  wf_ip prefix → wf_host h → protocol h = type prefix →
  (in_subnet (halves prefix).1 h ∨ in_subnet (halves prefix).2 h) ∧
  ¬ (in_subnet (halves prefix).1 h ∧ in_subnet (halves prefix).2 h).
Proof.
  intros _ Hh Hpr. unfold halves. rewrite <- Hpr. destruct h as [|a|l]; [done| |]; cbn [protocol fst snd].
  - cbn in Hh. unfold in_subnet, block, free_bits. cbn [protocol m_address m_prefixLength host_num width].
    change (2 ^ (32 - 1)) with (2 ^ 31). change (0 / 2 ^ 31) with 0. change (2 ^ 31 / 2 ^ 31) with 1.
    pose proof (Z.div_pos a (2 ^ 31)). pose proof (Z.div_lt_upper_bound a (2 ^ 31) 2).
    assert (a / 2 ^ 31 = 0 ∨ a / 2 ^ 31 = 1) as [-> | ->] by lia; (split; [tauto|intros [[_ ?] [_ ?]]; lia]).
  - pose proof (host_num_bound (HostV6 l) Hh) as Hb. cbn [width] in Hb.
    unfold in_subnet, block, free_bits. cbn [protocol m_address m_prefixLength width].
    set (n := host_num (HostV6 l)) in *.
    change (host_num (HostV6 (replicate 16 0))) with 0.
    change (host_num (HostV6 (128 :: replicate 15 0))) with (2 ^ 127).
    change (2 ^ (128 - 1)) with (2 ^ 127). change (0 / 2 ^ 127) with 0. change (2 ^ 127 / 2 ^ 127) with 1.
    pose proof (Z.div_pos n (2 ^ 127)). pose proof (Z.div_lt_upper_bound n (2 ^ 127) 2).
    assert (n / 2 ^ 127 = 0 ∨ n / 2 ^ 127 = 1) as [-> | ->] by lia; (split; [tauto|intros [[_ ?] [_ ?]]; lia]).
Qed.

(** Two messages, one after the other, and whether both went out. *)
Definition sends_two {W} `{Netlink W} (m : stM (WgUtils W) bool) (u : WgUtils W) (seq : Z)
    (r1 r2 : RouteMonitor W → route_request) : Prop :=
  ∃ b1 b2, let s1 := monitor_state seq u in
    let sent1 := nl_send b1 (rt_world s1) in
    let s2 := mkRouteMonitor (seq + 1) sent1.2 in
    parse_message b1 = Some (r1 s1) ∧
    (if sent1.1 then parse_message b2 = Some (r2 s2) ∧ (m u).1 = (nl_send b2 sent1.2).1
     else (m u).1 = false).

(** The default route is not replaced but overridden by halves: for a
    well-formed prefix of length 0 with the monitor running and the interface
    there, [updateRoutePrefix] asks for new routes to the two prefixes of length
    1 of its family, the second only after the first went out, and succeeds when
    both did.  Together they match every address of the family, each exactly one
    of them. *)
Theorem default_route_halves {W} {Q : Qt} {N : Netlink W} prefix (u : WgUtils W) seq :
  netlink_laws N → half_laws Q → (∀ w, 0 < if_nametoindex w) →
  wf_ip prefix → prefixLength prefix = 0 → m_rtmonitor u = Some seq →
  sends_two (updateRoutePrefix prefix) u seq
    (λ s, request_of RTM_NEWROUTE insert_flags s (halves prefix).1
            [(RTA_OIF, le 4 (if_nametoindex (rt_world s))); (RTA_PRIORITY, le 4 1)])
    (λ s, request_of RTM_NEWROUTE insert_flags s (halves prefix).2
            [(RTA_OIF, le 4 (if_nametoindex (rt_world s))); (RTA_PRIORITY, le 4 1)]) ∧
  ∀ h, wf_host h → protocol h = type prefix →
    (in_subnet (halves prefix).1 h ∨ in_subnet (halves prefix).2 h) ∧
    ¬ (in_subnet (halves prefix).1 h ∧ in_subnet (halves prefix).2 h).
Proof.
  intros HN HQ Hi Hp H0 Hm. split; [|intros h Hh Ht; by apply halves_cover].
  destruct (halves_wf prefix) as [W1 W2].
  set (s1 := monitor_state seq u).
  destruct (unicast_sends HN RTM_NEWROUTE insert_flags (halves prefix).1 s1 W1 (Hi _) ltac:(done) ltac:(done))
    as (b1 & P1 & R1).
  set (s2 := mkRouteMonitor (seq + 1) (nl_send b1 (rt_world s1)).2).
  destruct (unicast_sends HN RTM_NEWROUTE insert_flags (halves prefix).2 s2 W2 (Hi _) ltac:(done) ltac:(done))
    as (b2 & P2 & R2).
  exists b1, b2. cbv zeta. fold s1. fold s2. split; [exact P1|].
  assert (updateRoutePrefix prefix u =
    and_then (monitor (LinuxRouteMonitor.insertRoute (halves prefix).1))
             (monitor (LinuxRouteMonitor.insertRoute (halves prefix).2)) u) as ->.
  { unfold updateRoutePrefix. rewrite bind_run. cbn [get fst snd]. rewrite decide_False by congruence.
    rewrite H0. change (0 <? 0) with false. unfold halves.
    assert (type prefix ≠ UnknownNetworkLayerProtocol) as Hty.
    { unfold type. destruct Hp as [Hh _]. by destruct (m_address prefix). }
    destruct (type prefix); [by rewrite (law_v4_low _ HQ), (law_v4_high _ HQ)
                            |by rewrite (law_v6_low _ HQ), (law_v6_high _ HQ)|done]. }
  unfold and_then. rewrite bind_run, (monitor_run _ seq u Hm). fold s1.
  fold (LinuxRouteMonitor.insertRoute (halves prefix).1) in R1. rewrite !R1. cbn [fst snd rt_world m_nlseq].
  destruct (nl_send b1 (rt_world s1)) as [ok1 w1] eqn:E1. cbn [fst snd] in *.
  destruct ok1; [|done]. split; [exact P2|].
  rewrite (monitor_run _ (seq + 1)) by done. cbn [fst].
  change (monitor_state (seq + 1) _) with s2. unfold LinuxRouteMonitor.insertRoute. by rewrite R2.
Qed.

(** [deleteRoutePrefix] does not delete: for a prefix of positive length it
    does exactly what [updateRoutePrefix] does, and asks the kernel for a new
    route to the prefix through the tunnel interface. *)
Theorem delete_route_inserts {W} {Q : Qt} {N : Netlink W} prefix (u : WgUtils W) seq :
  netlink_laws N → wf_ip prefix → 0 < prefixLength prefix → m_rtmonitor u = Some seq →
  0 < if_nametoindex (rt_world (monitor_state seq u)) →
  deleteRoutePrefix prefix u = updateRoutePrefix prefix u ∧
  ∃ b, (deleteRoutePrefix prefix u).1 = (nl_send b (rt_world (monitor_state seq u))).1 ∧
    parse_message b = Some (request_of RTM_NEWROUTE insert_flags (monitor_state seq u) prefix
      [(RTA_OIF, le 4 (if_nametoindex (rt_world (monitor_state seq u)))); (RTA_PRIORITY, le 4 1)]).
Proof.
  intros HN Hp Hl Hm Hi.
  assert (deleteRoutePrefix prefix u = monitor (LinuxRouteMonitor.insertRoute prefix) u) as Ed.
  { unfold deleteRoutePrefix. rewrite bind_run. cbn [get fst snd]. rewrite decide_False by congruence.
    by rewrite (proj2 (Z.ltb_lt _ _) Hl). }
  split.
  - rewrite Ed. unfold updateRoutePrefix. rewrite bind_run. cbn [get fst snd]. rewrite decide_False by congruence.
    by rewrite (proj2 (Z.ltb_lt _ _) Hl).
  - destruct (unicast_sends HN RTM_NEWROUTE insert_flags prefix (monitor_state seq u) Hp Hi ltac:(done) ltac:(done))
      as (b & Pb & Rb). exists b. split; [|exact Pb].
    rewrite Ed, (monitor_run _ seq u Hm). unfold LinuxRouteMonitor.insertRoute. by rewrite Rb.
Qed.

(** ** A concrete machine *)
Definition test_world : Type := chains * list (list Z).

#[local] Instance world_iptables : Iptables test_world := {|
  run_shell c w := let '(code, v) := @run_shell _ (reference_iptables (λ _, true)) c w.1 in (code, (v, w.2));
  view w := w.1 |}.
#[local] Instance world_bash : MacOSFirewall.Bash test_world := {|
  MacOSFirewall.bash _ w := (0, w); MacOSFirewall.mkpath _ w := w; MacOSFirewall.ResourceDir := "" |}.
#[local] Instance world_windows : WinFirewall test_world := {| win_run _ w := (true, w) |}.

(** Addresses printed as their bytes, and the subnets of the half-defaults. *)
Definition world_qt : Qt := {|
  host_of_string := @host_of_string plain_qt;
  host_toString := @host_toString raw_qt;
  parseSubnet s := if String.eqb s "8000::/1" then (HostV6 (128 :: replicate 15 0), 1) else @parseSubnet plain_qt s;
  string_toInt := @string_toInt plain_qt;
  string_toBool := @string_toBool plain_qt;
  HopType_keyToValue := @HopType_keyToValue plain_qt;
  sort_by_prefix := @sort_by_prefix plain_qt |}.
#[local] Existing Instance world_qt.

#[local] Instance world_netlink : Netlink test_world := {|
  nl_send b w := (true, (w.1, w.2 ++ [b]));
  if_nametoindex _ := 7;
  default_gateway _ := raw_text [192; 0; 2; 254];
  getpid := 4242;
  inet_pton4 := @inet_pton4 _ recording_netlink;
  inet_pton6 := @inet_pton6 _ recording_netlink;
  uninitialized_in_addr := [0; 0; 0; 0] |}.
#[local] Instance world_tunnel : Tunnel test_world := {|
  tunnel_state _ := NotRunning;
  start_tunnel w := (true, w);
  kill_tunnel w := w;
  terminate_tunnel w := w;
  waitForFinished w := (true, w);
  waitForTunnelName w := (Some "abs0", w);
  remove_file _ w := w;
  uapi_exchange _ _ w := (Some ("errno=0" +:+ nl +:+ nl), w) |}.

(** Printed numbers are read back; the encodings keep their argument. *)
#[local] Instance world_conversions : Conversions := {|
  fromBase64 s := s; toBase64 s := s; toHex s := s; fromHex s := s; toLower s := s;
  toDouble s := inject_Z (atoi s); toLongLong s := atoi s |}.

Lemma world_iptables_laws : iptables_laws world_iptables (λ _, true).
Proof.
  destruct (reference_iptables_laws (λ _, true)) as [Hrun Hroot]. split.
  - intros c w Hc. destruct (Hrun c w.1 Hc) as [d Hd]. exists d. exact Hd.
  - intros w. exact (Hroot w.1).
Qed.

Lemma world_netlink_laws : @netlink_laws _ world_qt world_netlink.
Proof. destruct recording_netlink_laws as [H1 H2 H3 H4]. split; [exact H1|exact H2|exact H3|exact H4]. Qed.

Lemma world_half_laws : half_laws world_qt.
Proof. split; reflexivity. Qed.

Lemma world_tunnel_laws : tunnel_laws world_tunnel.
Proof. by split. Qed.

Definition world_utils (seq : option Z) : WgUtils test_world :=
  mkWgUtils None seq (mkKillSwitch [] false (mkFirewall (fresh_chains, []) ∅)).

Lemma world_sound : sound (λ _, true) (chains_under (world_utils None)).
Proof.
  left. intros ip Hip. exists [Rule "-j somebody"]. split; [by destruct ip|]. set_solver.
Qed.

Definition everything : IPAddress := mkIPAddress (HostV4 0) 0.

(** A connection that takes all traffic. *)
Definition world_config : InterfaceConfig :=
  mkInterfaceConfig SingleHop (Some "key") (Some "10.8.0.2") None None None (Some "peer") (Some "192.0.2.1") None None
    (Some "192.0.2.53") None 51820 1420 None [everything] ["192.0.2.1"] [] [] true
    None None None None None None None None None None None ∅ None None None None None None None.

Lemma connection_kill_switch_witness :
  outgoing test_meaning (kill_switch (addInterface world_config (world_utils None)).2) LinuxFirewall.IPv6 ToElsewhere
    = Some Reject ∨
  (outgoing test_meaning (kill_switch (addInterface world_config (world_utils None)).2) LinuxFirewall.IPv6 ToElsewhere
    = Some Accept ∧ ∃ r, r ∈ lan6 ++ dhcp6 ∧ true = true ∧ test_meaning r ToElsewhere = Some Accept).
Proof.
  refine (proj2 (proj2 (connection_kill_switch (λ _, true) test_meaning (λ pkt, bool_decide (pkt = ToLoopback))
    world_config (world_utils None) ToElsewhere _ _ _ _ _ _ _)));
    [apply world_iptables_laws|apply world_tunnel_laws|apply test_packet_laws|apply world_sound
    |vm_compute; reflexivity|reflexivity|vm_compute; reflexivity].
Defined.

Lemma default_route_halves_witness :
  in_subnet (mkIPAddress (HostV4 0) 1) (HostV4 3232235777) ∨
  in_subnet (mkIPAddress (HostV4 (2 ^ 31)) 1) (HostV4 3232235777).
Proof.
  refine (proj1 (proj2 (default_route_halves everything (world_utils (Some 0)) 0 world_netlink_laws world_half_laws
    _ _ _ _) (HostV4 3232235777) _ _)); try reflexivity; by split.
Defined.

Lemma delete_route_inserts_witness :
  deleteRoutePrefix net_192_0_2 (world_utils (Some 0)) = updateRoutePrefix net_192_0_2 (world_utils (Some 0)).
Proof.
  refine (proj1 (delete_route_inserts net_192_0_2 (world_utils (Some 0)) 0 world_netlink_laws _ _ _ _));
    try reflexivity; by split.
Defined.

Lemma world_conversion_laws : conversion_laws world_conversions.
Proof.
  split; intros n Hn; cbn [toDouble toLongLong world_conversions].
  - by rewrite double_to_int_inject, atoi_pretty by lia.
  - by rewrite atoi_pretty by lia.
Qed.

Definition world_reply : string :=
  String.concat nl ["private_key=00"; "public_key=aa"; "endpoint=192.0.2.1:51820";
    "last_handshake_time_sec=1700000000"; "last_handshake_time_nsec=500000000"; "tx_bytes=17"; "rx_bytes=42"].
Definition world_report : peer_report := mkPeerReport "aa" 17 42 1700000000 500000000 ["endpoint=192.0.2.1:51820"].

Lemma peer_status_read_witness : statuses_of world_reply = [mkPeerStatus "aa" 1700000000500 42 17].
Proof.
  refine (peer_status_read world_reply ["private_key=00"] [world_report] world_conversion_laws _ _ _).
  - constructor; [|constructor]. vm_compute. set_solver.
  - constructor; [|constructor]. repeat split; try done. constructor; [|constructor]. vm_compute. set_solver.
  - vm_compute. reflexivity.
Defined.
