(* ===== verification/WireguardUtilsWindows.v ===== *)
(** * WireguardUtilsWindows: the Windows back end of the daemon

    Models [client/platforms/windows/daemon/wireguardutilswindows.cpp] over
    [WindowsFirewall] and [WindowsRouteMonitor], and the service that runs the
    tunnel, [windowstunnelservice.cpp].  Services and pipes of Windows are a
    parameter ([TunnelService]). *)
From stdpp Require Import pretty.
From S2P Require Import Prelude Text Json IpAddress InterfaceConfig Qt DaemonConfig Daemon KillSwitch LinuxRouteMonitor WireguardUtilsLinux WindowsFirewall WindowsRouteMonitor.

(** ** The tunnel service *)
Definition SERVICE_STOPPED : Z := 1.
Definition SERVICE_RUNNING : Z := 4.
Definition TUNNEL_SERVICE_NAME : string := "AmneziaWGTunnel$AbstractumVPN".
Definition ERROR_SERVICE_SPECIFIC_ERROR : Z := 1066.
Definition quote_mark : string := String (Ascii.ascii_of_nat 34) "".

Inductive service_info := ServiceDescription | ServiceSid.
Class TunnelService (W : Type) := {
  OpenService : string → W → bool * W;
  CreateService : string → string → W → bool * W;          (** with its command line *)
  ChangeServiceConfig2 : service_info → W → bool * W;
  StartService : W → bool * W;
  QueryServiceStatus : W → option Z * W;
  ControlServiceStop : W → bool * W;
  DeleteService : W → bool * W;
  Sleep : Z → W → W;
  applicationFilePath : string;
  (** the pipe of the tunnel *)
  OpenPipe : W → bool * W;
  WaitNamedPipe : W → bool * W;
  SetNamedPipeHandleState : W → bool * W;
  WriteFile : string → W → bool * W;
  (** the pieces that are read until a reading fails *)
  ReadFile : W → list string * W;
  (** network interfaces *)
  ConvertInterfaceAliasToLuid : string → W → option Z * W;
  ConvertInterfaceLuidToIndex : Z → W → Z * W;
  getErrorMessage : Z → string;
}.

Record WindowsTunnelService := mkTunnelService {
  m_service : bool;              (** there is one *)
  m_timer : bool;                (** it is watched *)
  m_logworker : bool;
}.
Definition no_service : WindowsTunnelService := mkTunnelService false false false.

(** ** The back end

    The firewall and the monitor keep their tables here, and find the system in
    one place. *)
Record WireguardUtilsWindows (W : Type) := mkUtilsWindows {
  m_luid : Z;
  m_tunnel : WindowsTunnelService;
  m_routeMonitor : option (bool * WindowsRouteMonitor unit);   (** about to be deleted or not *)
  others : list (bool * WindowsRouteMonitor unit);             (** monitors nothing points to any more *)
  m_firewall : WindowsFirewall unit;
  failures : Z;                                                (** [backendFailure] signals *)
  world : W;
}.
Arguments mkUtilsWindows {W}.
Arguments m_luid {W}.
Arguments m_tunnel {W}.
Arguments m_routeMonitor {W}.
Arguments others {W}.
Arguments m_firewall {W}.
Arguments failures {W}.
Arguments world {W}.

Definition firewall_on {A B} (w : B) (f : WindowsFirewall A) : WindowsFirewall B :=
  mkWindowsFirewall (m_activeRules f) (m_peerRules f) w.
Definition monitor_on {A B} (w : B) (m : WindowsRouteMonitor A) : WindowsRouteMonitor B :=
  mkMonitor (m_exclusionRoutes m) (m_interfaceMetricsIpv4 m) (m_interfaceMetricsIpv6 m) (m_defaultRouteCapture m) (m_clonedRoutes m)
    (WindowsRouteMonitor.m_luid m) w.

Section operations.
Context {W : Type} {TS : TunnelService W} {F : Wfp W} {IH : IpHelper W} {HK : HostKinds} {Q : Qt} {C : Conversions}.
Abbreviation U := (WireguardUtilsWindows W).
Abbreviation M := (stM U).

Definition with_world (w : W) (u : U) : U := mkUtilsWindows (m_luid u) (m_tunnel u) (m_routeMonitor u) (others u) (m_firewall u) (failures u) w.
Definition with_tunnel (t : WindowsTunnelService) (u : U) : U :=
  mkUtilsWindows (m_luid u) t (m_routeMonitor u) (others u) (m_firewall u) (failures u) (world u).
Definition with_monitors (m : option (bool * WindowsRouteMonitor unit)) (o : list (bool * WindowsRouteMonitor unit)) (u : U) : U :=
  mkUtilsWindows (m_luid u) (m_tunnel u) m o (m_firewall u) (failures u) (world u).
Definition with_luid (luid : Z) (u : U) : U :=
  mkUtilsWindows luid (m_tunnel u) (m_routeMonitor u) (others u) (m_firewall u) (failures u) (world u).
Definition backendFailure : M unit := modify (λ u,
  mkUtilsWindows (m_luid u) (m_tunnel u) (m_routeMonitor u) (others u) (m_firewall u) (failures u + 1) (world u)).
Definition win {X} (f : W → X * W) : M X := λ u, let '(x, w) := f (world u) in (x, with_world w u).
Definition on_firewall {X} (m : stM (WindowsFirewall W) X) : M X := λ u,
  let '(x, f) := m (firewall_on (world u) (m_firewall u)) in
  (x, mkUtilsWindows (m_luid u) (m_tunnel u) (m_routeMonitor u) (others u) (firewall_on tt f) (failures u) (engine f)).
(** A request of the route monitor; nothing without one. *)
Definition on_monitor {X} (x0 : X) (m : stM (WindowsRouteMonitor W) X) : M X := λ u,
  match m_routeMonitor u with
  | None => (x0, u)
  | Some (doomed, r) =>
      let '(x, r') := m (monitor_on (world u) r) in
      (x, with_world (net r') (with_monitors (Some (doomed, monitor_on tt r')) (others u) u))
  end.

(** *** [WindowsTunnelService] *)
Fixpoint wait_status (tries : nat) (expectedStatus : Z) : M bool :=
  match tries with
  | O => mret false
  | S tries =>
      status ← win QueryServiceStatus;
      match status with
      | None => mret false
      | Some dwCurrentState =>
          if dwCurrentState =? expectedStatus then mret true
          else _ ← win (λ w, (tt, Sleep 1000 w)); wait_status tries expectedStatus
      end
  end.
Definition waitForServiceStatus : Z → M bool := wait_status 30.
Definition stopAndDeleteTunnelService : M bool :=
  status ← win QueryServiceStatus;
  match status with
  | None => mret false
  | Some dwCurrentState =>
      stopped ← (if negb (dwCurrentState =? SERVICE_STOPPED)
                 then and_then (win ControlServiceStop) (waitForServiceStatus SERVICE_STOPPED) else mret true);
      if negb (stopped : bool) then mret false else win DeleteService
  end.
(** The constructor. *)
Definition terminate_existing : M unit :=
  service ← win (OpenService TUNNEL_SERVICE_NAME);
  if (service : bool) then discard stopAndDeleteTunnelService else mret tt.
Definition tunnel_stop : M unit :=
  u ← get;
  _ ← (if m_service (m_tunnel u) then discard stopAndDeleteTunnelService else mret tt);
  modify (with_tunnel no_service).
Definition tunnel_isRunning : M bool :=
  u ← get;
  if negb (m_service (m_tunnel u)) then mret false else
  status ← win QueryServiceStatus;
  mret (match status with Some dwCurrentState => dwCurrentState =? SERVICE_RUNNING | None => false end).
(** Every two seconds while it is watched. *)
Definition tunnel_timeout : M unit :=
  running ← tunnel_isRunning;
  if (running : bool) then mret tt else backendFailure.
Definition serviceCmdline (configData : string) : string :=
  quote_mark +:+ applicationFilePath +:+ quote_mark +:+ " tunneldaemon " +:+ quote_mark +:+ configData +:+ quote_mark.
(** What the guard leaves of a service that was not started. *)
Definition start_failed : M bool :=
  _ ← modify (λ u, with_tunnel (mkTunnelService (m_service (m_tunnel u)) (m_timer (m_tunnel u)) false) u); mret false.
Definition tunnel_start (configData : string) : M bool :=
  service ← win (OpenService TUNNEL_SERVICE_NAME);
  closed ← (if (service : bool) then stopAndDeleteTunnelService else mret true);
  if negb (closed : bool) then start_failed else
  ready ← and_then (win (CreateService TUNNEL_SERVICE_NAME (serviceCmdline configData)))
    (and_then (win (ChangeServiceConfig2 ServiceDescription))
    (and_then (win (ChangeServiceConfig2 ServiceSid)) (win StartService)));
  if negb (ready : bool) then start_failed else
  running ← waitForServiceStatus SERVICE_RUNNING;
  if (running : bool) then _ ← modify (with_tunnel (mkTunnelService true true true)); mret true else
  status ← win QueryServiceStatus;
  match status with
  | None => start_failed
  | Some _ => _ ← backendFailure; start_failed
  end.
Fixpoint take_reply (reply : string) (pieces : list string) : string :=
  if contains_str (nl +:+ nl) reply then reply
  else match pieces with [] => reply | piece :: pieces => take_reply (reply +:+ piece) pieces end.
Definition tunnel_uapiCommand (command : string) : M qstring :=
  opened ← and_then (win OpenPipe) (and_then (win WaitNamedPipe) (win SetNamedPipeHandleState));
  if negb (opened : bool) then mret None else
  written ← win (WriteFile (default "" (pad_message 3 command)));
  if negb (written : bool) then mret None else
  pieces ← win ReadFile;
  mret (Some (trimmed (take_reply "" pieces)) : qstring).

(** *** [WireguardUtilsWindows] *)
Context (disableKillSwitch : stM (WindowsFirewall W) unit).

Definition interfaceName : string := "AbstractumVPN".
Definition interfaceExists : M bool := tunnel_isRunning.
Definition getPeerStatus : M (list PeerStatus) :=
  reply ← tunnel_uapiCommand "get=1"; mret (statuses_of (str reply)).
(** The configuration without its peers. *)
Definition interface_config (configString : string) : string :=
  let peerStart := indexOf configString "[Peer]" 0 in
  if 0 <=? peerStart then String.substring 0 (Z.to_nat peerStart) configString else configString.
Definition addInterface (config : InterfaceConfig) : M bool :=
  let configString := toWgConf host_toString config (<["Table" := "off"]> ∅) in
  if String.eqb configString "" then mret false else
  started ← tunnel_start (interface_config configString);
  if negb (started : bool) then mret false else
  luid ← win (ConvertInterfaceAliasToLuid interfaceName);
  match luid with
  | None => mret false
  | Some luid =>
      _ ← modify (with_luid luid);
      _ ← modify (λ u, with_monitors (Some (false, monitor_on tt (new_monitor luid tt)))
            (match m_routeMonitor u with Some m => m :: others u | None => others u end) u);
      _ ← (if m_killSwitchEnabled config then
             ifindex ← win (ConvertInterfaceLuidToIndex luid);
             _ ← on_firewall (discard allowAllTraffic);
             on_firewall (discard (enableInterface disableKillSwitch ifindex))
           else mret tt);
      mret true
  end.
Definition deleteInterface : M bool :=
  _ ← modify (λ u, with_monitors ((λ m, (true, m.2)) <$> m_routeMonitor u) (others u) u);
  _ ← on_firewall disableKillSwitch;
  _ ← tunnel_stop;
  mret true.
(** The event loop deletes what is to be deleted. *)
Definition destroy_monitor (r : WindowsRouteMonitor unit) : M unit := win (λ w, (tt, net (destroy (monitor_on w r)).2)).
Definition deferredDelete : M unit :=
  u ← get;
  _ ← for_each (match m_routeMonitor u with Some m => m :: others u | None => others u end)
        (λ m : bool * WindowsRouteMonitor unit, if m.1 then destroy_monitor m.2 else mret tt);
  modify (λ u, with_monitors (match m_routeMonitor u with Some (false, r) => Some (false, r) | _ => None end)
                 (List.filter (λ m : bool * WindowsRouteMonitor unit, negb m.1) (others u)) u).

Definition exclude_server (address : qstring) : M unit :=
  if String.eqb (str address) "" then mret tt
  else discard (on_monitor true (addExclusionRoute (IPAddress_of (str address)))).
Definition updatePeer (config : InterfaceConfig) : M bool :=
  _ ← (if m_killSwitchEnabled config then on_firewall (discard (enablePeerTraffic disableKillSwitch config)) else mret tt);
  match endpoint config with
  | None => mret false
  | Some endpoint =>
      _ ← (if bool_decide (m_hopType config ≠ MultiHopExit)
           then _ ← exclude_server (m_serverIpv4AddrIn config); exclude_server (m_serverIpv6AddrIn config) else mret tt);
      _ ← tunnel_uapiCommand (peer_message config endpoint);
      mret true
  end.
Definition deletePeer (config : InterfaceConfig) : M bool :=
  _ ← (if bool_decide (m_hopType config ≠ MultiHopExit) then
         _ ← on_monitor true (deleteExclusionRoute (IPAddress_of (str (m_serverIpv4AddrIn config))));
         discard (on_monitor true (deleteExclusionRoute (IPAddress_of (str (m_serverIpv6AddrIn config)))))
       else mret tt);
  _ ← on_firewall (disablePeerTraffic (str (m_serverPublicKey config)));
  _ ← tunnel_uapiCommand (delete_message config);
  mret true.

(** *** Routes *)
Definition ERROR_OBJECT_ALREADY_EXISTS : Z := 5010.
Definition buildMibForwardRow (luid : Z) (prefix : IPAddress) : MIB_IPFORWARD_ROW2 := static_route luid (prefix_of prefix) 0.
Definition capture_default (prefix : IPAddress) (enable : bool) : M unit :=
  if prefixLength prefix =? 0 then on_monitor tt (setDetaultRouteCapture enable) else mret tt.
Definition updateRoutePrefix (prefix : IPAddress) : M bool :=
  _ ← capture_default prefix true;
  u ← get;
  result ← win (CreateIpForwardEntry2 (buildMibForwardRow (m_luid u) prefix));
  mret ((result =? ERROR_OBJECT_ALREADY_EXISTS)
        || (bool_decide (protocol (m_address prefix) = IPv6Protocol) && (result =? ERROR_NOT_FOUND))
        || (result =? NO_ERROR)).
Definition deleteRoutePrefix (prefix : IPAddress) : M bool :=
  _ ← capture_default prefix false;
  u ← get;
  result ← win (DeleteIpForwardEntry2 (buildMibForwardRow (m_luid u) prefix));
  mret ((result =? ERROR_NOT_FOUND) || (result =? NO_ERROR)).
(** The two requests the daemon makes when there is a tunnel. *)
Definition wg_addExclusion (prefix : IPAddress) : M bool := on_monitor false (addExclusionRoute prefix).
Definition wg_deleteExclusion (prefix : IPAddress) : M bool := on_monitor false (deleteExclusionRoute prefix).
(** All of them are tried. *)
Fixpoint exclude_networks (addresses : list IPAddress) (result : bool) : M bool :=
  match addresses with
  | [] => mret result
  | prefix :: addresses =>
      ok ← on_monitor false (addExclusionRoute prefix); exclude_networks addresses (if (ok : bool) then result else false)
  end.
Definition excludeLocalNetworks (addresses : list IPAddress) : M bool :=
  result ← exclude_networks addresses true;
  bypass ← on_firewall (enableLanBypass disableKillSwitch addresses);
  mret (if (bypass : bool) then result else false).
End operations.

(** *** Why the service stopped *)
Definition exitCodeToFailure `{TunnelService W} (dwWin32ExitCode dwServiceSpecificExitCode : Z) : string :=
  if negb (dwWin32ExitCode =? ERROR_SERVICE_SPECIFIC_ERROR) then getErrorMessage dwWin32ExitCode
  else match dwServiceSpecificExitCode with
  | 0 => "No error"
  | 1 => "Error when opening the ringlogger log file"
  | 2 => "Error while loading the WireGuard configuration file from path."
  | 3 => "Error while creating a WinTun device."
  | 4 => "Error while listening on a named pipe."
  | 5 => "Error while resolving DNS hostname endpoints."
  | 6 => "Error while manipulating firewall rules."
  | 7 => "Error while setting the device configuration."
  | 8 => "Error while binding sockets to default routes."
  | 9 => "Unable to set interface addresses, routes, dns, and/or interface settings."
  | 10 => "Error while determining current executable path."
  | 11 => "Error while opening the NUL file."
  | 12 => "Error while attempting to track tunnels."
  | 13 => "Error while attempting to enumerate current sessions."
  | 14 => "Error while dropping privileges."
  | 15 => "Windows internal error."
  | n => "Unknown error (" +:+ pretty n +:+ ")"
  end.

(** ** Apart from the firewall, nothing touches its filters *)
Class Apart (W : Type) {TS : TunnelService W} {IH : IpHelper W} {V : WfpView W} : Prop := {
  apart_open name w : same_view w (OpenService name w).2;
  apart_create name line w : same_view w (CreateService name line w).2;
  apart_change i w : same_view w (ChangeServiceConfig2 i w).2;
  apart_start w : same_view w (StartService w).2;
  apart_query w : same_view w (QueryServiceStatus w).2;
  apart_control w : same_view w (ControlServiceStop w).2;
  apart_delete w : same_view w (DeleteService w).2;
  apart_sleep n w : same_view w (Sleep n w);
  apart_pipe w : same_view w (OpenPipe w).2;
  apart_wait w : same_view w (WaitNamedPipe w).2;
  apart_mode w : same_view w (SetNamedPipeHandleState w).2;
  apart_write text w : same_view w (WriteFile text w).2;
  apart_read w : same_view w (ReadFile w).2;
  apart_luid name w : same_view w (ConvertInterfaceAliasToLuid name w).2;
  apart_index luid w : same_view w (ConvertInterfaceLuidToIndex luid w).2;
  apart_table family w : same_view w (GetIpForwardTable2 family w).2;
  apart_interfaces family w : same_view w (GetIpInterfaceTable family w).2;
  apart_create_route row w : same_view w (CreateIpForwardEntry2 row w).2;
  apart_delete_route row w : same_view w (DeleteIpForwardEntry2 row w).2;
}.

Section quiet.
Context {W : Type} {TS : TunnelService W} {IH : IpHelper W} {V : WfpView W} {AP : Apart W} {HK : HostKinds} {Q : Qt} {C : Conversions}.

Definition routes_quiet (s s' : WindowsRouteMonitor W) : Prop := same_view (net s) (net s').
#[local] Instance same_view_preorder : PreOrder (same_view (W := W)).
Proof. split; [by intros w|]. intros w w' w'' [E1 E2] [E3 E4]. split; congruence. Qed.
#[local] Instance routes_quiet_preorder : PreOrder routes_quiet.
Proof. unfold routes_quiet. split; [intros s; reflexivity|]. intros s t u H1 H2. by transitivity (net t). Qed.
Lemma routes_system {X} (f : W → X * W) : (∀ w, same_view w (f w).2) → steps routes_quiet (system f).
Proof. intros H s. unfold system. specialize (H (net s)). destruct (f (net s)) as [x w]. exact H. Qed.
Ltac routes_step := first
  [ apply steps_bind; [typeclasses eauto| |intros ?] | apply steps_modify; intros ?; by split
  | apply routes_system; intros ?; first [apply apart_table|apply apart_interfaces|apply apart_create_route|apply apart_delete_route]
  | steps_step ].
Ltac routes_tac := repeat routes_step.
Lemma quiet_metrics family : steps routes_quiet (updateInterfaceMetrics family).
Proof. unfold updateInterfaceMetrics. routes_tac. Qed.
Lemma quiet_update data table : steps routes_quiet (updateExclusionRoute data table).
Proof. unfold updateExclusionRoute. routes_tac. Qed.
Lemma quiet_table family table : steps routes_quiet (capture_table family table).
Proof.
  assert (∀ row, steps routes_quiet (capture_row row)) as H1 by (intros row; unfold capture_row; routes_tac).
  assert (∀ e, steps routes_quiet (release_row family e)) as H2 by (intros [p d]; unfold release_row; routes_tac).
  unfold capture_table. repeat first [apply H1|apply H2|routes_step].
Qed.
Lemma quiet_add prefix : steps routes_quiet (addExclusionRoute prefix).
Proof. unfold addExclusionRoute. repeat first [apply quiet_metrics|apply quiet_update|apply quiet_table|routes_step]. Qed.

(** The firewall, its filters and the interface stay. *)
Definition quiet (u u' : WireguardUtilsWindows W) : Prop := same_view (world u) (world u') ∧ m_firewall u' = m_firewall u ∧ m_luid u' = m_luid u.
#[local] Instance quiet_preorder : PreOrder quiet.
Proof. split; [intros u; by split_and!|]. intros u v w (H1 & H2 & H3) (H4 & H5 & H6). split_and!; [by transitivity (world v)|congruence|congruence]. Qed.
Lemma quiet_win {X} (f : W → X * W) : (∀ w, same_view w (f w).2) → steps quiet (win f).
Proof. intros H u. unfold win. specialize (H (world u)). destruct (f (world u)) as [x w]. by split_and!. Qed.
Lemma quiet_monitor {X} (x0 : X) m : steps routes_quiet m → steps quiet (on_monitor x0 m).
Proof.
  intros H u. unfold on_monitor. destruct (m_routeMonitor u) as [[doomed r]|]; [|reflexivity].
  specialize (H (monitor_on (world u) r)). destruct (m (monitor_on (world u) r)) as [x r']. by split_and!.
Qed.
Ltac apart_tac := first [apply apart_open|apply apart_create|apply apart_change|apply apart_start|apply apart_query|apply apart_control
  |apply apart_delete|apply apart_sleep|apply apart_pipe|apply apart_wait|apply apart_mode|apply apart_write|apply apart_read|apply apart_luid|apply apart_index].
Ltac quiet_step := first
  [ apply steps_bind; [typeclasses eauto| |intros ?] | apply steps_and_then; [typeclasses eauto| |]
  | apply steps_modify; intros ?; by split_and!
  | apply quiet_win; intros ?; apart_tac | steps_step ].
Ltac quiet_tac := repeat quiet_step.
Lemma quiet_status tries expectedStatus : steps quiet (wait_status tries expectedStatus).
Proof. induction tries as [|tries IHt]; cbn [wait_status]; quiet_tac. Qed.
Lemma quiet_stop_service : steps quiet stopAndDeleteTunnelService.
Proof. unfold stopAndDeleteTunnelService, waitForServiceStatus. repeat first [apply quiet_status|quiet_step]. Qed.
Lemma quiet_start configData : steps quiet (tunnel_start configData).
Proof.
  unfold tunnel_start, start_failed, waitForServiceStatus, backendFailure. repeat first [apply quiet_stop_service|apply quiet_status|quiet_step].
Qed.
Lemma quiet_uapi command : steps quiet (tunnel_uapiCommand command).
Proof. unfold tunnel_uapiCommand. quiet_tac. Qed.
Lemma quiet_server address : steps quiet (exclude_server address).
Proof. unfold exclude_server. repeat first [apply quiet_monitor, quiet_add|quiet_step]. Qed.
End quiet.

(** ** Properties *)
Section properties.
Context {W : Type} {TS : TunnelService W} {F : Wfp W} {V : WfpView W} {WL : WfpLaws W} {A : WfpAccepts W}.
Context {IH : IpHelper W} {AP : Apart W} {HK : HostKinds} {Q : Qt} {C : Conversions}.
Context (lo : list Z) (own : string) (Hsteady : steady lo own) (disableKillSwitch : stM (WindowsFirewall W) unit).
Context (Hindex : ∀ luid w, 0 ≤ (ConvertInterfaceLuidToIndex luid w).1).

#[local] Existing Instances quiet_preorder same_view_preorder.
Definition firewall_of (u : WireguardUtilsWindows W) : WindowsFirewall W := firewall_on (world u) (m_firewall u).
Lemma quiet_firewall u u' : quiet u u' → m_activeRules (firewall_of u') = m_activeRules (firewall_of u) ∧
  m_peerRules (firewall_of u') = m_peerRules (firewall_of u) ∧ same_view (engine (firewall_of u)) (engine (firewall_of u')).
Proof. intros (H1 & H2 & _). unfold firewall_of. by rewrite H2. Qed.
Lemma on_firewall_run {X} (m : stM (WindowsFirewall W) X) u (G : X → WireguardUtilsWindows W → Prop) :
  leads m (firewall_of u) (λ x f, ∀ u', firewall_of u' = f → m_luid u' = m_luid u → G x u') → leads (on_firewall m) u G.
Proof.
  unfold leads, on_firewall, firewall_of. destruct (m (firewall_on (world u) (m_firewall u))) as [x f]. cbn [fst snd]. intros H.
  apply H; [by destruct f|done].
Qed.
Lemma steps_leads {S X} (R : relation S) (m : stM S X) s (G : X → S → Prop) :
  steps R m → (∀ x s', R s s' → G x s') → leads m s G.
Proof. intros Hm HG. apply HG, Hm. Qed.
Lemma discard_leads {S X} (m : stM S X) s (G : unit → S → Prop) : leads m s (λ _ s', G tt s') → leads (discard m) s G.
Proof. unfold leads. by rewrite discard_run. Qed.

(** The filters in force are those of a list. *)
Definition filters_are (u : WireguardUtilsWindows W) (l : list wfp_filter) : Prop :=
  pending (engine (firewall_of u)) = None ∧ ∀ f, in_force (firewall_of u) f ↔ f ∈ l.
Lemma quiet_filters u u' l : quiet u u' → filters_are u l → filters_are u' l.
Proof.
  intros (_ & _ & E3 & E4)%quiet_firewall [H1 H2]. unfold filters_are, in_force in *. rewrite E3, E4. by split.
Qed.
Lemma committed m u l l' : commits m (firewall_of u) l' → succeeds m → filters_are u l →
  leads (on_firewall (discard m)) u (λ _ u', filters_are u' (l ++ l') ∧ m_luid u' = m_luid u).
Proof.
  intros Hc Hs [Hp Hf]. apply on_firewall_run, discard_leads. specialize (Hs (firewall_of u) Hp). unfold commits in Hc.
  unfold leads in *. destruct (m (firewall_of u)) as [ok f]. cbn [fst snd] in *. destruct Hs as [-> _]. destruct (Hc eq_refl Hp) as [E1 E2].
  intros u' E El. split; [|done]. unfold filters_are, in_force. rewrite E. split; [done|]. intros g. rewrite elem_of_app, <- Hf.
  transitivity (there f g); [unfold there, target; by rewrite E1|]. rewrite E2. unfold there, target. by rewrite Hp.
Qed.
(** [config] says that its connection has the kill switch. *)
Lemma interface_added config u : listed (firewall_of u) → pending (engine (firewall_of u)) = None → m_killSwitchEnabled config = true →
  leads (addInterface disableKillSwitch config) u (λ ok u', ok = true → ∃ w,
    filters_are u' (interface_filters lo own (ConvertInterfaceLuidToIndex (m_luid u') w).1)).
Proof.
  intros Ht Hp Hk. unfold addInterface. cbv zeta. destruct (String.eqb _ ""); [by apply leads_ret|].
  apply leads_bind. eapply steps_leads; [apply quiet_start|]. intros [] u1 Q1; cbn [negb]; [|by apply leads_ret].
  apply leads_bind. eapply (steps_leads quiet); [apply quiet_win; intros; apply apart_luid|]. intros [luid|] u2 Q2; [|by apply leads_ret].
  apply leads_bind. unfold leads at 1. cbn [modify fst snd]. apply leads_bind. unfold leads at 1. cbn [modify fst snd].
  set (u3 := with_monitors _ _ _). assert (same_view (world u) (world u3) ∧ m_firewall u3 = m_firewall u) as Q3 by (destruct (transitivity Q1 Q2) as (? & ? & _); by split). rewrite Hk.
  apply leads_bind, leads_bind. unfold leads at 1, win. pose proof (apart_index luid (world u3)) as Hi.
  destruct (ConvertInterfaceLuidToIndex luid (world u3)) as [ifindex w] eqn:Ei. cbn [fst snd] in *. set (u4 := with_world w u3).
  assert (firewall_of u4 = firewall_on w (m_firewall u) ∧ same_view (world u) w) as [F4 V4] by (destruct Q3 as [V3 F3]; split; [unfold firewall_of; cbn; by rewrite <- F3|by transitivity (world u3)]).
  apply leads_bind, on_firewall_run, discard_leads. eapply leads_mono; [apply succeeds_all_traffic|].
  - rewrite F4. unfold listed in *. cbn in *. destruct V4 as [-> _]. exact Ht.
  - rewrite F4. cbn. destruct V4 as [_ ->]. exact Hp.
  - intros _ f [C1 C2] u5 E5 L5. cbn beta. assert (filters_are u5 []) as H5.
    { split; [by rewrite E5|]. intros g. unfold in_force. rewrite E5, C2. split; [intros [id Hid]; by rewrite lookup_empty in Hid|intros Hg; by apply not_elem_of_nil in Hg]. }
    assert (0 ≤ ifindex) as H0 by (pose proof (Hindex luid (world u3)) as Hx; by rewrite Ei in Hx).
    eapply leads_mono; [apply committed; [by apply (commits_interface lo own)|by apply succeeds_interface|exact H5]|].
    intros [] u6 [H6 L6]. apply leads_ret. intros _. exists (world u3). rewrite L6, L5. change (m_luid u4) with luid. by rewrite Ei.
Qed.
Lemma peer_updated config l u : m_killSwitchEnabled config = true → filters_are u l →
  leads (updatePeer disableKillSwitch config) u (λ ok u', ok = true → filters_are u' (l ++ peer_filters config) ∧ m_luid u' = m_luid u).
Proof.
  intros Hk Hl. unfold updatePeer. rewrite Hk. apply leads_bind.
  eapply leads_mono; [apply (committed (enablePeerTraffic disableKillSwitch config)); [apply commits_peer|apply succeeds_peer|exact Hl]|].
  intros [] u1 [H1 L1]. destruct (endpoint config) as [endpoint|]; [|by apply leads_ret].
  apply leads_bind. eapply (steps_leads quiet).
  { case_bool_decide; [|apply steps_ret; typeclasses eauto]. apply steps_bind; [typeclasses eauto|apply quiet_server|]. intros. apply quiet_server. }
  intros [] u2 Q2. apply leads_bind. eapply steps_leads; [apply quiet_uapi|]. intros reply u3 Q3. apply leads_ret. intros _.
  pose proof (transitivity Q2 Q3) as Q4. split; [by apply (quiet_filters u1)|]. destruct Q4 as (_ & _ & E). congruence.
Qed.

(** C28. A connection on Windows that was set up with the kill switch is protected,
    when the filter engine refuses nothing (what it answers is not asked):
    whatever filters the firewall had in force before, once the interface and its
    peer are there no traffic to the addresses of the tunnel leaves outside of it
    but what is meant to, and the tunnel, its resolvers and the excluded addresses
    are open. *)
Theorem windows_connection_protected (config : InterfaceConfig) (u : WireguardUtilsWindows W) :
  listed (firewall_of u) → pending (engine (firewall_of u)) = None → m_killSwitchEnabled config = true →
  leads (and_then (addInterface disableKillSwitch config) (updatePeer disableKillSwitch config)) u (λ ok u', ok = true →
    ∃ w, ∀ p, of_family p →
      kept_inside lo own (ConvertInterfaceLuidToIndex (m_luid u') w).1 config (in_force (firewall_of u')) p).
Proof.
  intros Ht Hp Hk. unfold and_then. apply leads_bind. eapply leads_mono; [by apply interface_added|].
  intros [] u1 H1; [|by apply leads_ret]. destruct (H1 eq_refl) as (w & Hl).
  eapply leads_mono; [by apply peer_updated|]. intros ok u2 H2 Hok. destruct (H2 Hok) as [[_ Hin] E]. exists w. rewrite E. intros p Hf.
  apply filters_keep_inside; [apply Hindex|done|exact Hin].
Qed.
End properties.

(** ** A host *)
#[local] Existing Instances WindowsFirewall.rack.wfp WindowsFirewall.rack.view WindowsFirewall.rack.laws.
Module bench.
Abbreviation world := WindowsFirewall.rack.world.
(** Its services start at once and its pipe answers. *)
#[export] Instance service : TunnelService world := {|
  OpenService _ w := (false, w); CreateService _ _ w := (true, w); ChangeServiceConfig2 _ w := (true, w); StartService w := (true, w);
  QueryServiceStatus w := (Some SERVICE_RUNNING, w); ControlServiceStop w := (true, w); DeleteService w := (true, w); Sleep _ w := w;
  applicationFilePath := "service.exe";
  OpenPipe w := (true, w); WaitNamedPipe w := (true, w); SetNamedPipeHandleState w := (true, w); WriteFile _ w := (true, w);
  ReadFile w := (["errno=0" +:+ nl +:+ nl], w);
  ConvertInterfaceAliasToLuid _ w := (Some 900, w); ConvertInterfaceLuidToIndex _ w := (9, w);
  getErrorMessage _ := "";
|}.
#[export] Instance routes : IpHelper world := {|
  GetIpForwardTable2 _ w := (Some [], w); GetIpInterfaceTable _ w := (Some [], w);
  CreateIpForwardEntry2 _ w := (NO_ERROR, w); DeleteIpForwardEntry2 _ w := (NO_ERROR, w); uninitialized_table := [];
|}.
#[export] Instance apart : Apart world.
Proof. by split; intros. Qed.
#[export] Instance accepts : WfpAccepts world.
Proof.
  split; cbn.
  - intros w E. by rewrite E.
  - intros w [m E]. by rewrite E.
  - intros f w. by eexists.
  - intros path w. by eexists.
  - intros id w [f E]. by rewrite E.
Qed.
#[export] Instance kinds : HostKinds := {| isLoopback _ := false; isBroadcast _ := false; isLinkLocal _ := false; isMulticast _ := false |}.
#[export] Instance conversions : Conversions := {|
  fromBase64 s := s; toBase64 s := s; toHex s := s; fromHex s := s; toLower s := s; toDouble _ := 0%Q; toLongLong _ := 0;
|}.
Definition idle : WireguardUtilsWindows world :=
  mkUtilsWindows 0 no_service None [] (firewall_on tt WindowsFirewall.rack.off) 0 (engine WindowsFirewall.rack.off).
End bench.
Import WindowsFirewall.rack bench.
#[local] Existing Instance plain_qt.

Lemma windows_connection_protected_witness :
  let '(ok, u') := and_then (addInterface (disableKillSwitch true 3) full_tunnel) (updatePeer (disableKillSwitch true 3) full_tunnel) idle in
  ok = true ∧ kept_inside [1] "service" 9 full_tunnel (in_force (firewall_of u')) browser.
Proof.
  assert (∀ luid w, 0 ≤ (ConvertInterfaceLuidToIndex luid (w : world)).1) as Hi by (intros luid w; vm_compute; discriminate).
  pose proof (windows_connection_protected [1] "service" steady_rack (disableKillSwitch true 3) Hi full_tunnel idle) as H.
  assert (listed (firewall_of idle)) as Ht by (intros id [f Hf]; cbn in Hf; by rewrite lookup_empty in Hf).
  specialize (H Ht eq_refl eq_refl). unfold leads in H.
  assert ((and_then (addInterface (disableKillSwitch true 3) full_tunnel) (updatePeer (disableKillSwitch true 3) full_tunnel) idle).1 = true)
    as Hok by (vm_compute; reflexivity).
  revert H Hok. generalize (and_then (addInterface (disableKillSwitch true 3) full_tunnel) (updatePeer (disableKillSwitch true 3) full_tunnel) idle).
  intros [ok u'] H Hok. cbn [fst snd] in *. split; [exact Hok|]. destruct (H Hok) as [w Hp]. apply (Hp browser).
  apply (bool_decide_unpack _); vm_compute; exact Logic.I.
Defined.
