(* ===== verification/VpnProtocol.v ===== *)
(** * VpnProtocol: what a protocol tells the connection, and WireGuard's

    Models [core/protocols/vpnProtocol.cpp] (the state every protocol keeps and
    the signals it emits), [core/utils/ipcClient.cpp] (calls of the privileged
    service, as the protocols make them) and [core/protocols/wireGuardProtocol.cpp]
    over the client's end of the daemon socket.

    What a protocol does is appended to [outputs], in order. *)
From S2P Require Import Prelude Text Json IpAddress Qt Wire Containers NetworkUtilities LocalSocketController.

Module Vpn.
Inductive ConnectionState :=
  | Unknown | Disconnected | Preparing | Connecting | Connected | Disconnecting | Reconnecting | Error.
End Vpn.
Abbreviation ConnectionState := Vpn.ConnectionState.
#[export] Instance ConnectionState_eq_dec : EqDecision ConnectionState.
Proof. solve_decision. Defined.

(** The error codes the protocols use; [ErrorCode] is an [int] enumeration. *)
Module ErrorCode.
Definition NoError : Z := 0.
Definition InternalError : Z := 101.
Definition OpenVpnConfigMissing : Z := 500.
Definition OpenVpnManagementServerError : Z := 501.
Definition AmneziaServiceConnectionFailed : Z := 603.
Definition OpenVpnAdaptersInUseError : Z := 700.
Definition OpenVpnUnknownError : Z := 701.
Definition OpenVpnTapAdapterError : Z := 702.
Definition XrayExecutableCrashed : Z := 803.
Definition Tun2SockExecutableCrashed : Z := 804.
End ErrorCode.

(** ** The privileged service, as its clients call it *)
Inductive ipc_call :=
  | CreatePrivilegedProcess
  | RouteAddList (gw : string) (ips : list string)
  | RouteDeleteList (gw : string) (ips : list string)
  | ClearSavedRoutes
  | FlushDns
  | ResetIpStack
  | CheckAndInstallDriver
  | GetTapList
  | CreateTun (dev subnet : string)
  | DeleteTun (dev : string)
  | StartRoutingIpv6
  | StopRoutingIpv6
  | DisableKillSwitch
  | EnableKillSwitch (config : gmap string json) (vpnAdapterIndex : Z)
  | RefreshKillSwitch (enabled : bool)
  | AddKillSwitchAllowedRange (ranges : list string)
  | UpdateResolvers (ifname : string) (resolvers : list QHostAddress)
  | RestoreResolvers
  | XrayStart (config : string)
  | XrayStop
  (* of a privileged process *)
  | ProcessStart (program : string) (arguments : list string)
  | ProcessTerminate
  | ProcessKill
  | ProcessClose.

(** ** Signals and outputs *)
Inductive signal :=
  | BytesChanged (receivedBytes sentBytes : Z)
  | ConnectionStateChanged (state : ConnectionState)
  | TimeoutTimerEvent
  | ProtocolError (e : Z)
  | TunnelAddressesUpdated (gateway localAddress : string).

Inductive output :=
  | Ipc (c : ipc_call)
  | Signal (s : signal)
  | Command (line : string)                          (** written to OpenVPN's management socket *)
  | Controller_ (o : LocalSocketController.output)   (** what the daemon controller does *)
  | Crashed.                                         (** a null pointer, or past the end of a list *)

(** How the service answers, given what the protocol did before. *)
Class Service := {
  (** [iface->waitForSource(1000) && iface->isReplicaValid()] *)
  service_valid : list output → bool;
  (** the call finished in time and answered [true], or the number expected *)
  service_ok : list output → ipc_call → bool;
  (** [getTapList()] finished in time, and its answer *)
  service_taps : list output → option (list string);
}.

(** ** The state of every protocol *)
Record protocol (X : Type) := mkProtocol {
  m_connectionState : ConnectionState;
  m_lastError : Z;
  m_receivedBytes : Z;
  m_sentBytes : Z;
  m_routeGateway : string;
  m_vpnLocalAddress : string;
  m_vpnGateway : string;
  m_timeoutTimer : bool;
  outputs : list output;
  own : X;  (** the members of the derived class *)
}.
Arguments mkProtocol {X}.
Arguments m_connectionState {X}.
Arguments m_lastError {X}.
Arguments m_receivedBytes {X}.
Arguments m_sentBytes {X}.
Arguments m_routeGateway {X}.
Arguments m_vpnLocalAddress {X}.
Arguments m_vpnGateway {X}.
Arguments m_timeoutTimer {X}.
Arguments outputs {X}.
Arguments own {X}.

Definition uint64 (z : Z) : Z := z mod 2 ^ 64.

Section base.
Context {X : Type}.
Abbreviation M := (stM (protocol X)).

(** The constructor; the last error is not initialized. *)
Definition VpnProtocol (lastError : Z) (x : X) : protocol X :=
  mkProtocol Vpn.Unknown lastError 0 0 "" "" "" false [] x.

Definition put_output (o : output) : M unit :=
  modify (λ p, mkProtocol (m_connectionState p) (m_lastError p) (m_receivedBytes p) (m_sentBytes p) (m_routeGateway p)
                 (m_vpnLocalAddress p) (m_vpnGateway p) (m_timeoutTimer p) (outputs p ++ [o]) (own p)).
Definition emit (s : signal) : M unit := put_output (Signal s).
Definition set_state (s : ConnectionState) : M unit :=
  modify (λ p, mkProtocol s (m_lastError p) (m_receivedBytes p) (m_sentBytes p) (m_routeGateway p)
                 (m_vpnLocalAddress p) (m_vpnGateway p) (m_timeoutTimer p) (outputs p) (own p)).
Definition set_lastError (e : Z) : M unit :=
  modify (λ p, mkProtocol (m_connectionState p) e (m_receivedBytes p) (m_sentBytes p) (m_routeGateway p)
                 (m_vpnLocalAddress p) (m_vpnGateway p) (m_timeoutTimer p) (outputs p) (own p)).
Definition set_bytes (received sent : Z) : M unit :=
  modify (λ p, mkProtocol (m_connectionState p) (m_lastError p) received sent (m_routeGateway p)
                 (m_vpnLocalAddress p) (m_vpnGateway p) (m_timeoutTimer p) (outputs p) (own p)).
Definition set_routeGateway (g : string) : M unit :=
  modify (λ p, mkProtocol (m_connectionState p) (m_lastError p) (m_receivedBytes p) (m_sentBytes p) g
                 (m_vpnLocalAddress p) (m_vpnGateway p) (m_timeoutTimer p) (outputs p) (own p)).
Definition set_addresses (localAddress gateway : string) : M unit :=
  modify (λ p, mkProtocol (m_connectionState p) (m_lastError p) (m_receivedBytes p) (m_sentBytes p) (m_routeGateway p)
                 localAddress gateway (m_timeoutTimer p) (outputs p) (own p)).
Definition set_timeoutTimer (b : bool) : M unit :=
  modify (λ p, mkProtocol (m_connectionState p) (m_lastError p) (m_receivedBytes p) (m_sentBytes p) (m_routeGateway p)
                 (m_vpnLocalAddress p) (m_vpnGateway p) b (outputs p) (own p)).
Definition modify_own (f : X → X) : M unit :=
  modify (λ p, mkProtocol (m_connectionState p) (m_lastError p) (m_receivedBytes p) (m_sentBytes p) (m_routeGateway p)
                 (m_vpnLocalAddress p) (m_vpnGateway p) (m_timeoutTimer p) (outputs p) (f (own p))).

Definition setConnectionState (state : ConnectionState) : M unit :=
  p ← get;
  if decide (m_connectionState p = state) then mret tt
  else if decide (m_connectionState p = Vpn.Disconnected ∧ state = Vpn.Disconnecting) then mret tt
  else
    _ ← set_state state;
    _ ← (if decide (state = Vpn.Disconnected) then set_bytes 0 0 else mret tt);
    emit (ConnectionStateChanged state).

Definition setLastError (lastError : Z) : M unit :=
  _ ← set_lastError lastError;
  if lastError =? 0 then mret tt else setConnectionState Vpn.Error.

Definition startTimeoutTimer : M unit := set_timeoutTimer true.
Definition stopTimeoutTimer : M unit := set_timeoutTimer false.

(** [stop] is the derived class's. *)
Definition onTimeout (stop : M unit) : M unit := _ ← emit TimeoutTimerEvent; stop.

Definition setBytesChanged (receivedBytes sentBytes : Z) : M unit :=
  p ← get;
  let rxDiff := uint64 (receivedBytes - m_receivedBytes p) in
  let txDiff := uint64 (sentBytes - m_sentBytes p) in
  _ ← emit (BytesChanged rxDiff txDiff);
  set_bytes receivedBytes sentBytes.

Definition isConnected (p : protocol X) : bool := bool_decide (m_connectionState p = Vpn.Connected).
Definition isDisconnected (p : protocol X) : bool := bool_decide (m_connectionState p = Vpn.Disconnected).

Context {V : Service}.

(** A call of the service; the result is whether it answered what was asked. *)
Definition call (c : ipc_call) : M bool :=
  p ← get; _ ← put_output (Ipc c); mret (service_ok (outputs p) c).

(** [IpcClient::withInterface] *)
Definition withInterface {A} (onSuccess : M A) (onFailure : A) : M A :=
  p ← get; if service_valid (outputs p) then onSuccess else mret onFailure.
End base.

Definition textConnectionState (s : ConnectionState) : string :=
  match s with
  | Vpn.Unknown => "Unknown"
  | Vpn.Disconnected => "Disconnected"
  | Vpn.Preparing => "Preparing"
  | Vpn.Connecting => "Connecting..."
  | Vpn.Connected => "Connected"
  | Vpn.Disconnecting => "Disconnecting..."
  | Vpn.Reconnecting => "Reconnecting..."
  | Vpn.Error => "Error"
  end.

(** ** [VpnProtocol::factory]: the class of a container's protocol *)
Inductive protocol_class := OpenVpnProtocol_ | WireguardProtocol_ | XrayProtocol_ | Ikev2Protocol_.

Definition factory (os : platform) (container : DockerContainer) : option protocol_class :=
  match container with
  | DockerContainer.Ipsec => if decide (os = Windows) then Some Ikev2Protocol_ else None
  | DockerContainer.OpenVpn => Some OpenVpnProtocol_
  | DockerContainer.WireGuard | DockerContainer.Awg2 | DockerContainer.Awg => Some WireguardProtocol_
  | DockerContainer.Xray | DockerContainer.SSXray => Some XrayProtocol_
  | _ => None
  end.

(** ** [WireguardProtocol] *)
Record wireguard := mkWireguard { m_impl : Controller; m_rawConfig : gmap string json }.

Section wireguard.
Context {Q : Qt} (lookup : string → list QHostAddress).
Abbreviation M := (stM (protocol wireguard)).

(** The three slots; everything else the controller does is its own. *)
Definition deliver (o : LocalSocketController.output) : M unit :=
  _ ← put_output (Controller_ o);
  match o with
  | Connected _ => setConnectionState Vpn.Connected
  | Disconnected => setConnectionState Vpn.Disconnected
  | StatusUpdated serverIpv4Gateway deviceIpv4Address _ _ =>
      p ← get;
      let previousGateway := m_vpnGateway p in
      let previousLocal := m_vpnLocalAddress p in
      let gateway := if String.eqb serverIpv4Gateway "" then previousGateway else serverIpv4Gateway in
      let local := if String.eqb deviceIpv4Address "" then previousLocal else deviceIpv4Address in
      _ ← set_addresses local gateway;
      if (negb (String.eqb gateway "") && negb (String.eqb gateway previousGateway)) ||
         (negb (String.eqb local "") && negb (String.eqb local previousLocal))
      then emit (TunnelAddressesUpdated gateway local) else mret tt
  | _ => mret tt
  end.

Definition with_out (l : list LocalSocketController.output) (c : Controller) : Controller :=
  mkController (m_daemonState c) (m_initializingRetry c) (m_initializingTimer c) (m_deviceIpv4 c) (m_logCallback c) l.

(** An operation of the controller, its signals reaching the slots as they are
    emitted: the controller reads nothing of the protocol. *)
Definition on_impl (op : stM Controller unit) : M unit :=
  p ← get;
  let c := run_state op (with_out [] (m_impl (own p))) in
  _ ← modify_own (λ w, mkWireguard (with_out [] c) (m_rawConfig w));
  for_each (out c) deliver.

(** The constructor. *)
Definition WireguardProtocol (lastError : Z) (configuration : gmap string json) : protocol wireguard :=
  run_state (on_impl initialize) (VpnProtocol lastError (mkWireguard new_controller configuration)).

Definition stopMzImpl : M Z := _ ← on_impl deactivate; mret ErrorCode.NoError.

(** [m_rawConfig] with the addresses of its two host names. *)
Definition with_addresses (m_rawConfig : gmap string json) : gmap string json :=
  let protocolName := text m_rawConfig "protocol" in
  let vpnConfigData := toObject (value m_rawConfig (protocolName +:+ "_config_data")) in
  let vpnConfigData := <["hostName" := JString (getIPAddress lookup (text vpnConfigData "hostName"))]> vpnConfigData in
  let m_rawConfig := <[protocolName +:+ "_config_data" := JObject vpnConfigData]> m_rawConfig in
  <["hostName" := JString (getIPAddress lookup (text m_rawConfig "hostName"))]> m_rawConfig.

Definition startMzImpl : M Z :=
  _ ← modify_own (λ w, mkWireguard (m_impl w) (with_addresses (m_rawConfig w)));
  p ← get;
  _ ← on_impl (activate (m_rawConfig (own p)));
  mret ErrorCode.NoError.

Definition stop : M unit := discard stopMzImpl.
Definition start : M Z := startMzImpl.
End wireguard.
