(* ===== verification/OpenVpnProtocol.v ===== *)
(** * OpenVpnProtocol: OpenVPN behind its management socket

    Models [core/protocols/openVpnProtocol.cpp] and [core/utils/managementServer.cpp]
    on Linux: starting and stopping the privileged process, and the lines OpenVPN
    writes on its management socket.  [None] is an access past the end of a list. *)
From stdpp Require Import pretty.
From S2P Require Import Prelude Text Json IpAddress Qt Wire Containers NetworkUtilities Settings VpnProtocol.

(** ** [ManagementServer] *)
Record management := mkManagement {
  m_tcpServer : bool;   (** exists and listens *)
  m_socket : bool;      (** a client is connected and its socket open *)
  unread : list string; (** lines received and not read *)
}.

(** ** [OpenVpnProtocol] *)
Record openvpn := mkOpenVpn {
  m_managementServer : management;
  m_configFileName : string;
  m_configData : gmap string json;
  m_openVpnProcess : bool;
}.

Definition m_managementHost : string := "127.0.0.1".
Definition m_managementPort : Z := 57775.

(** What the protocol asks of the machine. *)
Record machine := mkMachine {
  openvpn_running : list output → bool;         (** [Utils::processIsRunning] *)
  file_exists : string → bool;                  (** [QFileInfo::exists] *)
  random32 : nat → Z;                           (** the draws of one selection *)
  can_listen : Z → bool;                        (** [QTcpServer::listen] on the local host *)
  temporary_file : string;                      (** the name of [m_configFile] *)
  lookup : string → list QHostAddress;          (** [QHostInfo::fromName] *)
}.

(** [port = (double)(65000 - 15001) * port / UINT32_MAX + 15001]: the quotient's
    rounding error is far below the distance to the next integer. *)
Definition drawn_port (port : Z) : Z := 49999 * port / 4294967295 + 15001.

Fixpoint select_port (env : machine) (i n : nat) : Z :=
  match n with
  | O => m_managementPort
  | S n =>
      let port := drawn_port (random32 env i) in
      if can_listen env port then port else select_port env (S i) n
  end.
Definition selectMgmtPort (env : machine) : Z := select_port env 0 100.

Section openvpn.
Context {Q : Qt} {V : Service} (env : machine).
Abbreviation M := (stM (protocol openvpn)).

(** *** The management server *)
Definition set_management (m : management) : M unit :=
  modify_own (λ o, mkOpenVpn m (m_configFileName o) (m_configData o) (m_openVpnProcess o)).
Definition set_process (b : bool) : M unit :=
  modify_own (λ o, mkOpenVpn (m_managementServer o) (m_configFileName o) (m_configData o) b).
Definition set_configData (c : gmap string json) : M unit :=
  modify_own (λ o, mkOpenVpn (m_managementServer o) (m_configFileName o) c (m_openVpnProcess o)).
Definition server : M management := p ← get; mret (m_managementServer (own p)).

Definition server_stop : M unit := m ← server; set_management (mkManagement false (m_socket m) (unread m)).
Definition server_start (port : Z) : M bool :=
  m ← server;
  let ok := can_listen env port in
  _ ← set_management (mkManagement ok (m_socket m) (unread m));
  mret ok.
(** A client connects: [onNewConnection]. *)
Definition onNewConnection : M unit :=
  m ← server;
  if m_tcpServer m then set_management (mkManagement false true []) else mret tt.
Definition onSocketDisconnected : M unit := m ← server; set_management (mkManagement (m_tcpServer m) false []).

(** The bytes written, 0 when there is no client. *)
Definition writeCommand (message : string) : M Z :=
  m ← server;
  if m_socket m then
    _ ← put_output (Command message);
    mret (Z.of_nat (String.length message) + 1)
  else mret 0.

(** The next line, the null text when there is none. *)
Definition readLine : M string :=
  m ← server;
  if m_socket m then
    match unread m with
    | line :: rest => _ ← set_management (mkManagement (m_tcpServer m) true rest); mret line
    | [] => mret ""
    end
  else mret "".

(** *** Starting and stopping *)
Definition sendTermSignal : M bool := n ← writeCommand "signal SIGTERM"; mret (negb (n =? 0)).
Definition sendByteCount : M unit := discard (writeCommand "bytecount 1").
Definition sendInitialData : M unit := _ ← writeCommand "state on"; discard (writeCommand "log on").

Definition killOpenVpnProcess : M unit :=
  p ← get; if m_openVpnProcess (own p) then put_output (Ipc ProcessClose) else mret tt.

Definition cleanupResources : M unit :=
  p ← get;
  _ ← (if m_openVpnProcess (own p) || openvpn_running env (outputs p) then
         sent ← sendTermSignal; if (sent : bool) then mret tt else killOpenVpnProcess
       else mret tt);
  _ ← server_stop;
  withInterface (discard (call DisableKillSwitch)) tt.

Definition stop : M unit :=
  p ← get;
  let wasActive := bool_decide (m_connectionState p ∈ [Vpn.Preparing; Vpn.Connecting; Vpn.Connected; Vpn.Reconnecting]) in
  _ ← (if wasActive then setConnectionState Vpn.Disconnecting else mret tt);
  _ ← cleanupResources;
  p ← get;
  if wasActive || bool_decide (m_connectionState p = Vpn.Disconnecting) then setConnectionState Vpn.Disconnected
  else mret tt.

Definition prepare : M Z :=
  withInterface
    (p ← get;
     _ ← put_output (Ipc GetTapList);
     match service_taps (outputs p) with
     | None => mret ErrorCode.InternalError
     | Some [] =>
         ok ← call CheckAndInstallDriver;
         mret (if (ok : bool) then ErrorCode.NoError else ErrorCode.OpenVpnTapAdapterError)
     | Some _ => mret ErrorCode.NoError
     end)
    ErrorCode.AmneziaServiceConnectionFailed.

(** [readOpenVpnConfiguration] *)
Definition readOpenVpnConfiguration (configuration : gmap string json) (o : openvpn) : openvpn :=
  if contains configuration (key_proto_config_data Proto.OpenVpn)
  then mkOpenVpn (m_managementServer o) (temporary_file env) configuration (m_openVpnProcess o) else o.

(** The constructor. *)
Definition OpenVpnProtocol (lastError : Z) (configuration : gmap string json) : protocol openvpn :=
  VpnProtocol lastError
    (readOpenVpnConfiguration configuration (mkOpenVpn (mkManagement false false []) "" ∅ false)).

(** [IpcClient::CreatePrivilegedProcess() != nullptr] *)
Definition create_process : M bool := withInterface (call CreatePrivilegedProcess) false.

Definition start_process (mgmtPort : Z) : M Z :=
  _ ← setConnectionState Vpn.Connecting;
  created ← create_process;
  _ ← set_process created;
  if negb (created : bool) then
    _ ← setLastError ErrorCode.AmneziaServiceConnectionFailed;
    mret ErrorCode.AmneziaServiceConnectionFailed
  else
    p ← get;
    _ ← put_output (Ipc (ProcessStart "OpenVPN"
          ["--config"; m_configFileName (own p); "--management"; m_managementHost; pretty.pretty mgmtPort;
           "--management-client"]));
    mret ErrorCode.NoError.

Definition start : M Z :=
  _ ← cleanupResources;
  p ← get;
  if negb (file_exists env (m_configFileName (own p))) then
    _ ← setLastError ErrorCode.OpenVpnConfigMissing;
    mret ErrorCode.OpenVpnConfigMissing
  else
    res ← withInterface
            (p ← get;
             let ip := getIPAddress (lookup env) (text (m_configData (own p)) "hostName") in
             ok ← call (AddKillSwitchAllowedRange [ip]);
             mret (if (ok : bool) then ErrorCode.NoError else ErrorCode.AmneziaServiceConnectionFailed))
            ErrorCode.NoError;
    if negb ((res : Z) =? ErrorCode.NoError) then mret res
    else
      let mgmtPort := selectMgmtPort env in
      listening ← server_start mgmtPort;
      if negb (listening : bool) then
        _ ← setLastError ErrorCode.OpenVpnManagementServerError;
        mret ErrorCode.OpenVpnManagementServerError
      else start_process mgmtPort.

(** The process has ended. *)
Definition onFinished : M unit := setConnectionState Vpn.Disconnected.

(** *** The lines of the management socket *)
Definition space : Ascii.ascii := Ascii.ascii_of_nat 32.
Definition comma : Ascii.ascii := Ascii.ascii_of_nat 44.

Definition updateRouteGateway (line : string) : option (M unit) :=
  if contains_str "net_route_v4_best_gw" line then
    let params := split_char space line in
    Some (if decide (length params = 6%nat) then set_routeGateway (default "" (params !! 3%nat)) else mret tt)
  else
    line ← nonempty (split_str "ROUTE_GATEWAY" line) !! 1%nat;
    if negb (contains_str "/" line) then Some (mret tt)
    else
      first ← head (nonempty (split_char slash line));
      Some (set_routeGateway (replace_str " " "" first)).

(** One parameter of the pushed reply. *)
Definition push_param (l : string) : M unit :=
  if negb (contains_str "ifconfig" l) then mret tt else
  match split_char space l with
  | [_; local; gateway] =>
      _ ← set_addresses local gateway;
      p ← get;
      if text_bool (text (m_configData (own p)) "killSwitchOption") then
        let config := <["vpnServer" := JString (getIPAddress (lookup env) (text (m_configData (own p)) "hostName"))]>
                        (m_configData (own p)) in
        _ ← set_configData config;
        withInterface (discard (call (EnableKillSwitch config 0))) tt
      else mret tt
  | _ => mret tt
  end.
Definition updateVpnGateway (line : string) : M unit := for_each (split_char comma line) push_param.

(** [>BYTECOUNT:received,sent] *)
Definition byte_count (line : string) : option (M unit) :=
  match split_str ">BYTECOUNT:" line with
  | [] | [_] => Some (mret tt)
  | parts =>
      match split_char comma (List.last parts "") with
      | r :: s :: _ => Some (setBytesChanged (toULongLong r) (toULongLong s))
      | _ => None
      end
  end.

(** What follows the states: [true] to go on reading. *)
Definition handle_rest (line : string) : option (M bool) :=
  route ← (if contains_str "ROUTE_GATEWAY" line || contains_str "net_route_v4_best_gw" line
           then updateRouteGateway line else Some (mret tt));
  let push := if contains_str "PUSH: Received control message" line then updateVpnGateway line else mret tt in
  if contains_str "FATAL" line then
    let e := if contains_str "tap-windows6 adapters on this system are currently in use or disabled" line
             then ErrorCode.OpenVpnAdaptersInUseError else ErrorCode.OpenVpnUnknownError in
    Some (_ ← (route : M unit); _ ← push; _ ← emit (ProtocolError e); mret false)
  else
    count ← byte_count line;
    Some (_ ← (route : M unit); _ ← push; _ ← (count : M unit); mret true).

Definition handle_line (line : string) : option (M bool) :=
  if String.eqb line "" then Some (mret false)
  else if contains_str ">INFO:OpenVPN Management Interface" line then
    rest ← handle_rest line; Some (_ ← sendInitialData; (rest : M bool))
  else if startsWith ">STATE" line then
    if contains_str "CONNECTED,SUCCESS" line then
      Some (_ ← sendByteCount; _ ← stopTimeoutTimer; _ ← setConnectionState Vpn.Connected; mret true)
    else if contains_str "EXITING,SIGTER" line then Some (_ ← setConnectionState Vpn.Disconnecting; mret true)
    else if contains_str "RECONNECTING" line then Some (_ ← setConnectionState Vpn.Reconnecting; mret true)
    else handle_rest line
  else handle_rest line.

(** [for (;;)], one turn for every line there is. *)
Fixpoint read_lines (fuel : nat) (p : protocol openvpn) : option (protocol openvpn) :=
  match fuel with
  | O => Some p
  | S fuel =>
      let '(line, p) := readLine p in
      handle ← handle_line (simplified line);
      let '(go_on, p) := (handle : M bool) p in
      if (go_on : bool) then read_lines fuel p else Some p
  end.
Definition onReadyReadDataFromManagementServer (p : protocol openvpn) : option (protocol openvpn) :=
  read_lines (S (length (unread (m_managementServer (own p))))) p.
End openvpn.
