(* ===== verification/XrayProtocol.v ===== *)
(** * XrayProtocol: Xray behind a tunnel of its own

    Models [core/protocols/xrayProtocol.cpp] on Linux, and the credentials of its
    local proxy, [core/utils/serialization/inbound.cpp].  [None] is a call through
    a null pointer. *)
From stdpp Require Import pretty.
From S2P Require Import Prelude Text Json IpAddress Qt Wire Containers NetworkUtilities Settings AppSettings VpnProtocol.

(** ** The proxy's credentials *)
Record InboundCredentials := mkInbound { username : string; password : string; creds_port : Z }.

Definition defaultPort : Z := 10808.

(** [toInt(default)] *)
Definition toInt_or (d : Z) (v : option json) : Z :=
  match v with
  | Some (JDouble q) =>
      let r := Qred q in
      if (Qden r =? 1)%positive && (int_min <=? Qnum r) && (Qnum r <=? int_max) then Qnum r else d
  | _ => d
  end.

(** [p.compare("socks", Qt::CaseInsensitive) == 0] of the protocol of an inbound. *)
Definition is_socks (inbound : json) : bool := String.eqb (toLower (text (toObject (Some inbound)) "protocol")) "socks".
Fixpoint index_socks (i : nat) (inbounds : list json) : option nat :=
  match inbounds with
  | [] => None
  | x :: l => if is_socks x then Some i else index_socks (S i) l
  end.
Definition indexOfSocksInbound : list json → option nat := index_socks 0.

(** [QByteArray::toHex] of random bytes. *)
Definition hex_digit (z : Z) : Ascii.ascii := Ascii.ascii_of_N (Z.to_N (if z <? 10 then 48 + z else 87 + z)).
Definition hex_byte (b : Z) : string := String (hex_digit (b / 16 mod 16)) (String (hex_digit (b mod 16)) "").

(** What the proxy's configuration asks of the system: a free port, or an
    exception, and the random bytes of a draw. *)
Record randomness := mkRandomness { free_port : option Z; random_bytes : nat → list Z }.

(** The draw numbered [draw]: whole 32-bit words, of which [byteCount] bytes are used. *)
Definition generateRandomHex (env : randomness) (draw : nat) (byteCount : Z) : string :=
  if byteCount <=? 0 then ""
  else String.concat "" (hex_byte <$> take (Z.to_nat byteCount) (random_bytes env draw)).

Definition account_of (settings : gmap string json) : option (gmap string json) :=
  (λ a, toObject (Some a)) <$> head (toArray (value settings "accounts")).

Definition GetInboundCredentials (xrayConfig : gmap string json) : InboundCredentials :=
  let inbounds := toArray (value xrayConfig "inbounds") in
  match indexOfSocksInbound inbounds with
  | None => mkInbound "" "" defaultPort
  | Some socksIdx =>
      let inbound := toObject (inbounds !! socksIdx) in
      let port := toInt_or defaultPort (value inbound "port") in
      match account_of (toObject (value inbound "settings")) with
      | None => mkInbound "" "" port
      | Some account => mkInbound (text account "user") (text account "pass") port
      end
  end.

(** [None]: the exception of [acquireFreeLocalPort]. *)
Definition EnsureInboundAuth (env : randomness) (xrayConfig : gmap string json)
    : option (InboundCredentials * gmap string json) :=
  let inbounds := toArray (value xrayConfig "inbounds") in
  match indexOfSocksInbound inbounds with
  | None => Some (GetInboundCredentials xrayConfig, xrayConfig)
  | Some socksIdx =>
      let inbound := toObject (inbounds !! socksIdx) in
      port ← free_port env;
      let inbound := <["port" := JInt port]> inbound in
      let settings := toObject (value inbound "settings") in
      let '(user, pass) :=
        match account_of settings with
        | Some account => (text account "user", text account "pass")
        | None => ("", "")
        end in
      let '(user, pass, settings) :=
        if String.eqb user "" || String.eqb pass "" then
          let user := generateRandomHex env 0 8 in
          let pass := generateRandomHex env 1 16 in
          let account := JObject (<["user" := JString user]> (<["pass" := JString pass]> ∅)) in
          (user, pass, <["accounts" := JArray [account]]> settings)
        else (user, pass, settings) in
      let settings := <["auth" := JString "password"]> settings in
      let inbound := <["settings" := JObject settings]> inbound in
      Some (mkInbound user pass port, <["inbounds" := JArray (<[socksIdx := JObject inbound]> inbounds)]> xrayConfig)
  end.

(** ** [XrayProtocol] *)
Record xray := mkXray {
  m_xrayConfig : gmap string json;
  m_rawConfig : gmap string json;
  m_routeMode : Z;
  m_dnsServers : list QHostAddress;
  m_remoteAddress : string;
  m_socksUser : string;
  m_socksPassword : string;
  m_socksPort : Z;
  m_tun2socksProcess : bool;
  m_tun2socksRetryCount : Z;
  retry_timers : nat;  (** retries waiting for their delay *)
}.

Definition maxTun2SocksRetries : Z := 5.
Definition tunName : string := "tun2".
Definition defaultLocalAddr : string := "10.33.0.2".
Definition defaultLocalListenAddr : string := "127.0.0.1".
Definition defaultFingerprint : string := "chrome".
Definition amneziaDnsIp : string := "172.29.172.254".

(** All of IPv4 but [0.0.0.0/8], which holds the address of the default route. *)
Definition subnets : list string :=
  ["1.0.0.0/8"; "2.0.0.0/7"; "4.0.0.0/6"; "8.0.0.0/5"; "16.0.0.0/4"; "32.0.0.0/3"; "64.0.0.0/2"; "128.0.0.0/1"].

(** What the protocol asks of the machine. *)
Record machine := mkMachine {
  random : randomness;
  lookup : string → list QHostAddress;
  gateway : string;                             (** [getGatewayAndIface().first] *)
  process_source : list output → bool;          (** [m_tun2socksProcess->waitForSource()] *)
  process_finished : list output → bool;        (** [waitForFinished(1000)] of the process *)
}.

Section xray.
Context {Q : Qt} {J : JsonCodec} {V : Service} (env : machine).
Abbreviation M := (stM (protocol xray)).

(** The constructor. *)
Definition dns_servers (configuration : gmap string json) : list QHostAddress :=
  let primaryDns := text configuration "dns1" in
  host_of_string primaryDns ::
  (if String.eqb primaryDns amneziaDnsIp then [] else [host_of_string (text configuration "dns2")]).

Definition xray_config (configuration : gmap string json) : gmap string json :=
  let o := toObject (value configuration (key_proto_config_data Proto.Xray)) in
  let o := if decide (o = ∅) then toObject (value configuration (key_proto_config_data Proto.SSXray)) else o in
  toObject (Wire.fromJson (text o "config")).

Definition XrayProtocol (lastError : Z) (configuration : gmap string json) : protocol xray :=
  let x := mkXray (xray_config configuration) configuration (toInt (value configuration "splitTunnelType"))
             (dns_servers configuration) (getIPAddress (lookup env) (text configuration "hostName")) "" "" 10808 false 0 0 in
  mkProtocol Vpn.Unknown lastError 0 0 (gateway env) defaultLocalAddr defaultLocalAddr false [] x.

Definition set_credentials (config : gmap string json) (c : InboundCredentials) : M unit :=
  modify_own (λ x, mkXray config (m_rawConfig x) (m_routeMode x) (m_dnsServers x) (m_remoteAddress x)
                     (username c) (password c) (creds_port c) (m_tun2socksProcess x) (m_tun2socksRetryCount x) (retry_timers x)).
Definition set_process (b : bool) : M unit :=
  modify_own (λ x, mkXray (m_xrayConfig x) (m_rawConfig x) (m_routeMode x) (m_dnsServers x) (m_remoteAddress x)
                     (m_socksUser x) (m_socksPassword x) (m_socksPort x) b (m_tun2socksRetryCount x) (retry_timers x)).
Definition set_retry (count : Z) (timers : nat) : M unit :=
  modify_own (λ x, mkXray (m_xrayConfig x) (m_rawConfig x) (m_routeMode x) (m_dnsServers x) (m_remoteAddress x)
                     (m_socksUser x) (m_socksPassword x) (m_socksPort x) (m_tun2socksProcess x) count timers).

Definition stop : M unit :=
  _ ← withInterface
        (_ ← call DisableKillSwitch;
         _ ← call StartRoutingIpv6;
         _ ← call RestoreResolvers;
         _ ← call (DeleteTun tunName);
         discard (call XrayStop)) tt;
  p ← get;
  _ ← (if m_tun2socksProcess (own p) then
         _ ← put_output (Ipc ProcessTerminate);
         p ← get;
         _ ← (if process_finished env (outputs p) then mret tt else put_output (Ipc ProcessKill));
         _ ← put_output (Ipc ProcessClose);
         set_process false
       else mret tt);
  setConnectionState Vpn.Disconnected.

(** [None]: no process was created. *)
Definition startTun2Socks : M (option Z) :=
  created ← withInterface (call CreatePrivilegedProcess) false;
  _ ← set_process created;
  if negb (created : bool) then mret None
  else
    p ← get;
    if negb (process_source env (outputs p)) then mret (Some ErrorCode.AmneziaServiceConnectionFailed)
    else
      let proxyUrl := "socks5://" +:+ m_socksUser (own p) +:+ ":" +:+ m_socksPassword (own p) +:+ "@127.0.0.1:" +:+
                      pretty (m_socksPort (own p)) in
      _ ← put_output (Ipc (ProcessStart "Tun2Socks" ["-device"; "tun://" +:+ tunName; "-proxy"; proxyUrl]));
      mret (Some ErrorCode.NoError).

(** Old configurations: a fingerprint Xray refuses, and an address that exists
    only once the tunnel does. *)
Definition patched (xrayConfigStr : string) : string :=
  let s := if contains_ci "Mozilla/5.0" xrayConfigStr then replace_ci "Mozilla/5.0" defaultFingerprint xrayConfigStr
           else xrayConfigStr in
  if contains_str defaultLocalAddr s then replace_str defaultLocalAddr defaultLocalListenAddr s else s.

Definition start : M (option Z) :=
  p ← get;
  match EnsureInboundAuth (random env) (m_xrayConfig (own p)) with
  | None => mret (Some ErrorCode.InternalError)
  | Some (creds, config) =>
      _ ← set_credentials config creds;
      let xrayConfigStr := toJson_compact config in
      if String.eqb xrayConfigStr "" then mret (Some ErrorCode.XrayExecutableCrashed)
      else
        withInterface
          (ok ← call (XrayStart (patched xrayConfigStr));
           if negb (ok : bool) then mret (Some ErrorCode.XrayExecutableCrashed) else startTun2Socks)
          (Some ErrorCode.AmneziaServiceConnectionFailed)
  end.

(** The steps of [setupRouting], each with the call that makes it. *)
Definition routing_calls (x : xray) (vpnGateway : string) : list ipc_call :=
  [CreateTun tunName defaultLocalAddr; UpdateResolvers tunName (m_dnsServers x)] ++
  (if text_bool (text (m_rawConfig x) "killSwitchOption")
   then [EnableKillSwitch (<["vpnServer" := JString (m_remoteAddress x)]> (m_rawConfig x)) 0] else []) ++
  (if m_routeMode x =? VpnAllSites then [RouteAddList vpnGateway subnets] else []) ++
  [StopRoutingIpv6].

(** [if (!call) return ErrorCode::InternalError;] for one after the other. *)
Definition setupRouting : M Z :=
  withInterface
    (p ← get;
     ok ← for_all (routing_calls (own p) (m_vpnGateway p)) call;
     mret (if (ok : bool) then ErrorCode.NoError else ErrorCode.InternalError))
    ErrorCode.AmneziaServiceConnectionFailed.

(** A line of tun2socks; [None] when it could not be read. *)
Definition onStandardError (line : option string) : M unit :=
  match line with
  | None => mret tt
  | Some line =>
      if contains_str "[STACK] tun://" line && contains_str "<-> socks5://" line then
        res ← setupRouting;
        if negb ((res : Z) =? ErrorCode.NoError) then _ ← stop; setLastError res
        else setConnectionState Vpn.Connected
      else mret tt
  end.

(** tun2socks has ended; [out] is its standard output, if it could be read. *)
Definition onFinished (out : option string) : M unit :=
  p ← get;
  let x := own p in
  let resourceBusy := m_tun2socksProcess x && match out with Some s => contains_str "resource busy" s | None => false end in
  if resourceBusy && (m_tun2socksRetryCount x <? maxTun2SocksRetries)
  then set_retry (m_tun2socksRetryCount x + 1) (S (retry_timers x))
  else
    _ ← set_retry 0 (retry_timers x);
    _ ← stop;
    setLastError ErrorCode.Tun2SockExecutableCrashed.

(** The delay of a retry is over; [None] as in [startTun2Socks]. *)
Definition onRetry : M (option unit) :=
  p ← get;
  match retry_timers (own p) with
  | O => mret (Some tt)
  | S n =>
      _ ← set_retry (m_tun2socksRetryCount (own p)) n;
      err ← startTun2Socks;
      match (err : option Z) with
      | None => mret None
      | Some err => if err =? ErrorCode.NoError then mret (Some tt) else _ ← stop; _ ← setLastError err; mret (Some tt)
      end
  end.
End xray.

(** ** The proxy's credentials are the ones the client uses *)
Lemma index_socks_found i l j x :
  index_socks i l = Some j → ∃ k, j = (i + k)%nat ∧ (k < length l)%nat ∧
    (is_socks x = true → index_socks i (<[k := x]> l) = Some j).
Proof.
  revert i. induction l as [|y l IH]; intros i; cbn [index_socks]; [done|].
  destruct (is_socks y) eqn:Hy.
  - intros [= <-]. exists 0%nat. split; [lia|]. split; [cbn; lia|]. intros Hx. cbn. by rewrite Hx.
  - intros H. destruct (IH (S i) H) as (k & -> & Hk & Hi). exists (S k). split; [lia|]. split; [cbn; lia|].
    intros Hx. cbn. rewrite Hy. by apply Hi.
Qed.
Lemma index_socks_is i l j : index_socks i l = Some (i + j)%nat → ∃ x, l !! j = Some x ∧ is_socks x = true.
Proof.
  revert i j. induction l as [|y l IH]; intros i j; cbn [index_socks]; [done|]. destruct (is_socks y) eqn:Hy.
  - intros [= Hj]. assert (j = 0)%nat as -> by lia. by exists y.
  - intros H. destruct j as [|j]; [|rewrite <- Nat.add_succ_comm in H; by apply IH in H].
    exfalso. destruct (index_socks_found _ _ _ y H) as (k & Hk & _). lia.
Qed.

Lemma toInt_or_JInt d p : int_min ≤ p ≤ int_max → toInt_or d (Some (JInt p)) = p.
Proof.
  intros [H1 H2]. unfold toInt_or, JInt.
  assert (Qred (inject_Z p) = inject_Z p) as -> by (unfold inject_Z, Qred; by destruct p as [|[]|[]]).
  cbn. by rewrite (proj2 (Z.leb_le _ _) H1), (proj2 (Z.leb_le _ _) H2).
Qed.

(** The [socks] inbound of a configuration. *)
Definition socks_inbound (config : gmap string json) : option (gmap string json) :=
  i ← indexOfSocksInbound (toArray (value config "inbounds"));
  (λ x, toObject (Some x)) <$> toArray (value config "inbounds") !! i.

Lemma generateRandomHex_nonempty env draw n :
  0 < n → (0 < length (random_bytes env draw))%nat → generateRandomHex env draw n ≠ "".
Proof.
  intros Hn Hl. unfold generateRandomHex. rewrite (proj2 (Z.leb_gt n 0)) by lia.
  destruct (random_bytes env draw) as [|b l]; [cbn in Hl; lia|].
  destruct (Z.to_nat n) as [|k] eqn:E; [lia|]. cbn. destruct (hex_byte <$> take k l); done.
Qed.

(** An inbound whose settings have an account and ask for a password. *)
Definition authenticated (port : Z) (user pass : string) (inbound : gmap string json) : Prop :=
  value inbound "port" = Some (JInt port) ∧
  ∃ settings account, value inbound "settings" = Some (JObject settings) ∧ text settings "auth" = "password" ∧
    account_of settings = Some account ∧ text account "user" = user ∧ text account "pass" = pass.

Lemma read_authenticated config port user pass inbound :
  socks_inbound config = Some inbound → authenticated port user pass inbound → 0 < port ≤ 65535 →
  GetInboundCredentials config = mkInbound user pass port.
Proof.
  unfold socks_inbound, GetInboundCredentials. set (inbounds := toArray _).
  destruct (indexOfSocksInbound inbounds) as [i|]; [|done]. cbn [mbind option_bind].
  intros Hin (Hp & settings & account & Hs & _ & Ha & Hu & Hw) Hr.
  apply fmap_Some in Hin as (x & -> & ->).
  rewrite Hp, toInt_or_JInt by (unfold int_min, int_max; lia). rewrite Hs. cbn [toObject]. by rewrite Ha, Hu, Hw.
Qed.

(** Replacing the SOCKS inbound by another leaves it where it is. *)
Lemma replace_socks config i inbound :
  indexOfSocksInbound (toArray (value config "inbounds")) = Some i → is_socks (JObject inbound) = true →
  socks_inbound (<["inbounds" := JArray (<[i := JObject inbound]> (toArray (value config "inbounds")))]> config) = Some inbound.
Proof.
  intros Hi Hs. unfold socks_inbound, value in *. rewrite lookup_insert_eq. cbn [toArray].
  destruct (index_socks_found _ _ _ (JObject inbound) Hi) as (k & -> & Hk & Hr).
  unfold indexOfSocksInbound in *. cbn [Nat.add] in *. rewrite Hr by done. cbn [mbind option_bind].
  by rewrite list_lookup_insert_eq.
Qed.

Lemma credentials_drawn env settings :
  (0 < length (random_bytes env 0))%nat → (0 < length (random_bytes env 1))%nat →
  let user := match account_of settings with Some a => text a "user" | None => "" end in
  let pass := match account_of settings with Some a => text a "pass" | None => "" end in
  ∃ u w settings', (if String.eqb user "" || String.eqb pass ""
      then (generateRandomHex env 0 8, generateRandomHex env 1 16,
            <["accounts" := JArray [JObject (<["user" := JString (generateRandomHex env 0 8)]>
                (<["pass" := JString (generateRandomHex env 1 16)]> ∅))]]> settings)
      else (user, pass, settings)) = (u, w, settings') ∧ u ≠ "" ∧ w ≠ "" ∧ (user ≠ "" → pass ≠ "" → u = user ∧ w = pass) ∧
    ∃ account, account_of settings' = Some account ∧ text account "user" = u ∧ text account "pass" = w.
Proof.
  intros H0 H1 user pass. destruct (String.eqb_spec user "") as [Eu|Nu]; [|destruct (String.eqb_spec pass "") as [Ew|Nw]]; cbn [orb].
  1, 2: eexists _, _, _; split; [done|]; split_and!; [by apply generateRandomHex_nonempty..|done|];
    eexists; split; [unfold account_of, value; by rewrite lookup_insert_eq|]; by split.
  eexists _, _, _. split; [done|]. split_and!; try done. unfold user, pass in *.
  destruct (account_of settings) as [a|]; [|done]. by exists a.
Qed.

(** A configuration with a SOCKS inbound is made to ask for a password: what
    is handed to Xray listens on the free port found, requires authentication,
    and names a user and a password that are not empty, which are exactly those
    the client will use and those a later reader of the configuration finds.
    Credentials the configuration already had are kept. *)
Theorem inbound_authenticated (env : randomness) (config : gmap string json) (inbound : gmap string json) port :
  socks_inbound config = Some inbound → free_port env = Some port → 0 < port ≤ 65535 →
  (0 < length (random_bytes env 0))%nat → (0 < length (random_bytes env 1))%nat →
  ∃ creds config', EnsureInboundAuth env config = Some (creds, config') ∧
    GetInboundCredentials config' = creds ∧ creds_port creds = port ∧ username creds ≠ "" ∧ password creds ≠ "" ∧
    (∃ inbound', socks_inbound config' = Some inbound' ∧ text (toObject (value inbound' "settings")) "auth" = "password") ∧
    (username (GetInboundCredentials config) ≠ "" → password (GetInboundCredentials config) ≠ "" →
     username creds = username (GetInboundCredentials config) ∧ password creds = password (GetInboundCredentials config)).
Proof.
  unfold socks_inbound, EnsureInboundAuth, GetInboundCredentials. set (inbounds := toArray (value config "inbounds")).
  destruct (indexOfSocksInbound inbounds) as [i|] eqn:Ei; [|done]. cbn [mbind option_bind].
  intros Hin Hport Hr H0 H1.
  pose proof Hin as (x & Ex & Hx)%fmap_Some. rewrite Ex, Hport, <- Hx. cbn [mbind option_bind].
  assert (is_socks (JObject inbound) = true) as Hsocks.
  { destruct (index_socks_is 0 inbounds i Ei) as (y & Ey & Hy). rewrite Ex in Ey. injection Ey as <-. 
    unfold is_socks in *. by rewrite Hx. }
  assert (value (<["port" := JInt port]> inbound) "settings" = value inbound "settings") as ->
    by (unfold value; by rewrite lookup_insert_ne).
  set (settings := toObject (value inbound "settings")).
  set (user := match account_of settings with Some a => text a "user" | None => "" end).
  set (pass := match account_of settings with Some a => text a "pass" | None => "" end).
  assert (match account_of settings with Some a => (text a "user", text a "pass") | None => ("", "") end = (user, pass)) as ->
    by (unfold user, pass; by destruct (account_of settings)).
  destruct (credentials_drawn env settings H0 H1) as (u & w & settings' & E & Hu & Hw & Hkeep & account & Ha & Hau & Haw).
  fold user pass in E, Hkeep. rewrite E.
  set (inbound' := <["settings" := _]> _).
  assert (authenticated port u w inbound') as Hauth.
  { split; [unfold inbound', value; by rewrite lookup_insert_ne, lookup_insert_eq|].
    eexists _, account. split; [unfold inbound', value; by rewrite lookup_insert_eq|].
    unfold text, account_of, value in *. rewrite lookup_insert_eq, lookup_insert_ne by done. done. }
  assert (is_socks (JObject inbound') = true) as Hsocks'.
  { unfold is_socks, inbound', text, value in *. cbn [toObject] in *. by rewrite !lookup_insert_ne. }
  pose proof (replace_socks config i inbound' Ei Hsocks') as Hr'. fold inbounds in Hr'.
  eexists _, _. split; [done|]. split_and!; [by eapply read_authenticated|done|done|done| |].
  - exists inbound'. split; [done|]. destruct Hauth as (_ & ? & ? & -> & ? & _). done.
  - cbn [username password]. revert Hkeep. unfold user, pass. by destruct (account_of settings).
Qed.

Definition open_inbound : gmap string json :=
  <["inbounds" := JArray [JObject (<["protocol" := JString "http"]> ∅); JObject (<["protocol" := JString "SOCKS"]> ∅)]]> ∅.

Lemma inbound_authenticated_witness :
  GetInboundCredentials open_inbound = mkInbound "" "" 10808 ∧
  ∃ creds config', EnsureInboundAuth (mkRandomness (Some 40000) (λ _, [171; 205])) open_inbound = Some (creds, config') ∧
    GetInboundCredentials config' = creds ∧ username creds = "abcd".
Proof.
  split; [vm_compute; reflexivity|].
  destruct (inbound_authenticated (mkRandomness (Some 40000) (λ _, [171; 205])) open_inbound
    (<["protocol" := JString "SOCKS"]> ∅) 40000) as (creds & config' & E & Hc & _); try (cbn; lia); try reflexivity.
  exists creds, config'. split; [exact E|]. split; [exact Hc|]. vm_compute in E. injection E as <- _. reflexivity.
Defined.
