(* ===== verification/VpnConnection.v ===== *)
(** * VpnConnection: the client's connection and its retries

    Models [client/vpnConnection.cpp] on the desktop: connecting, disconnecting,
    the reactions to a protocol's signals, the automatic retries, the routes of
    sites, and what is added to a configuration before it is handed to the
    protocol.

    The protocol is the class [Protocol]: a state, what starting and stopping it
    answer and emit, and what may happen to it.  Its outputs reach the connection
    in the order they were emitted.  What the connection does is appended to
    [log]. *)
From stdpp Require Import pretty.
From S2P Require Import Prelude Text Json IpAddress Qt Wire Containers NetworkUtilities ServerConfig Settings.
From S2P Require Import ServersRepository ServersController AppSettings VpnProtocol.

(** ** Protocols, as the connection uses them *)
Class Protocol (P E : Type) := {
  pr_factory : DockerContainer → gmap string json → option P;
  pr_prepare : P → list output * P;
  pr_start : P → Z * list output * P;
  pr_stop : P → list output * P;
  pr_destroy : P → list output;
  pr_event : E → P → list output * P;
  pr_vpnGateway : P → string;
  pr_routeGateway : P → string;
}.

(** ** State *)
Inductive action :=
  | Did (o : output)                    (** what the protocol did, its signals apart *)
  | Called (c : ipc_call)               (** a call of the service *)
  | StateChanged (s : ConnectionState)  (** [emit connectionStateChanged] *)
  | ErrorShown (e : Z)                  (** [emit vpnProtocolError] *)
  | BytesShown (received sent : Z)      (** [emit bytesChanged] *)
  | Attempt.                            (** the protocol is started *)

(** The names [addSitesRoutes] looks up, and what its answers share. *)
Record batch := mkBatch {
  b_gw : string;
  b_mode : Z;
  b_ips : list string;
  b_remaining : Z;     (** [remainingLookups] *)
  b_needFlush : bool;
}.

Record connection (T P : Type) := mkConnection {
  repositories : option (repository T);    (** both, over one store *)
  m_vpnProtocol : option P;
  slots : bool;                            (** the protocol's signals are connected *)
  m_vpnConfiguration : gmap string json;
  m_remoteAddress : string;
  m_connectionState : ConnectionState;
  m_reconnectTimer : option Z;             (** running, with its delay in milliseconds *)
  m_reconnectAttempt : Z;
  m_userInitiatedDisconnect : bool;
  triggers : nat;                          (** connections made to [networkChanged] and [wakeup] *)
  sites_timers : list Z;                   (** single shots waiting to add the routes of a mode *)
  batches : list batch;
  log : list action;
}.
Arguments mkConnection {T P}.
Arguments repositories {T P}.
Arguments m_vpnProtocol {T P}.
Arguments slots {T P}.
Arguments m_vpnConfiguration {T P}.
Arguments m_remoteAddress {T P}.
Arguments m_connectionState {T P}.
Arguments m_reconnectTimer {T P}.
Arguments m_reconnectAttempt {T P}.
Arguments m_userInitiatedDisconnect {T P}.
Arguments triggers {T P}.
Arguments sites_timers {T P}.
Arguments batches {T P}.
Arguments log {T P}.

(** ** The configuration handed to the protocol *)
Section configuration.
Context {Q : Qt}.

(** The addresses of the sites of a mode, in the order of their names. *)
Definition site_ips (e : string * variant) : list string :=
  if checkIpSubnetFormat e.1 then [e.1] else List.filter checkIpSubnetFormat (siteIpList e.2).
Definition sites_ips (m : gmap string variant) : list string := removeDuplicates (concat (site_ips <$> entries m)).
(** The names to look up again. *)
Definition sites_names (m : gmap string variant) : list string :=
  List.filter (λ k, negb (checkIpSubnetFormat k)) (entries m).*1.

(** [for (line : lines) if (line.contains(key)) ...; break;] *)
Definition native_line (key config : string) : option string := List.find (contains_str key) (lines_of config).

Definition with_data (protocolName : string) (configData config : gmap string json) : gmap string json :=
  <[protocolName +:+ "_config_data" := JObject configData]> config.

(** [allowed_ips] as an array, from its text or from the native configuration,
    and whether it was inserted; [None] is [at(1)] of a line without a separator. *)
Definition fill_allowed_ips (configData : gmap string json) : option (gmap string json * bool) :=
  match Json.value configData "allowed_ips" with
  | Some (JString s) => Some (<["allowed_ips" := JStrings (split_str ", " s)]> configData, true)
  | None =>
      match native_line "AllowedIPs" (text configData "config") with
      | None => Some (configData, false)
      | Some line =>
          v ← split_str " = " line !! 1%nat;
          Some (<["allowed_ips" := JStrings (split_str ", " v)]> configData, true)
      end
  | Some _ => Some (configData, false)
  end.

Definition fill_keepalive (configData : gmap string json) : gmap string json * bool :=
  match Json.value configData "persistent_keep_alive" with
  | Some _ => (configData, false)
  | None =>
      match native_line "PersistentKeepalive" (text configData "config") with
      | None => (configData, false)
      | Some line =>
          match split_str " = " line with
          | _ :: v :: _ => (<["persistent_keep_alive" := JString v]> configData, true)
          | _ => (configData, false)
          end
      end
  end.

Definition is_text (s : string) (j : json) : bool := match j with JString t => String.eqb s t | _ => false end.
Definition has_default_routes (configData : gmap string json) : bool :=
  let allowedIps := toArray (Json.value configData "allowed_ips") in
  existsb (is_text "0.0.0.0/0") allowedIps && existsb (is_text "::/0") allowedIps.

(** The first part: the configuration, and whether sites may be split. *)
Definition fill_config_data (config : gmap string json) : option (gmap string json * bool) :=
  let protocolName := text config "protocol" in
  if String.eqb protocolName (protoToString Proto.Awg) || String.eqb protocolName (protoToString Proto.WireGuard) then
    let configData := toObject (Json.value config (protocolName +:+ "_config_data")) in
    filled ← fill_allowed_ips configData;
    let '(configData, inserted) := (filled : gmap string json * bool) in
    let '(configData, inserted') := fill_keepalive configData in
    Some (if inserted || inserted' then with_data protocolName configData config else config, has_default_routes configData)
  else Some (config, true).

(** The route mode of the sites and the sites. *)
Definition split_sites (enabled allowed : bool) (mode : Z) (sites : gmap string variant) (config : gmap string json)
    : Z * list json :=
  if negb enabled then (VpnAllSites, []) else
  if negb allowed then (mode, []) else
  match sites_ips sites with
  | [] => (VpnAllSites, [])
  | ips => (mode, (JString <$> ips) ++
                  (if mode =? VpnOnlyForwardSites
                   then [JString (text config "dns1"); JString (text config "dns2")] else []))
  end.

Definition app_entry (a : InstalledAppInfo) : json :=
  JString (if String.eqb (appPath a) "" then packageName a else appPath a).
Definition split_apps (enabled : bool) (mode : Z) (apps : list InstalledAppInfo) : Z * list json :=
  if negb enabled then (VpnAllApps, []) else
  match apps with
  | [] => (VpnAllApps, [])
  | _ => (mode, app_entry <$> apps)
  end.
End configuration.

Definition delaysSec : list Z := [1; 2; 5; 15; 30].
Definition reconnectDelayMsec (m_reconnectAttempt : Z) : Z :=
  let count := Z.of_nat (length delaysSec) in
  let index := if m_reconnectAttempt <? count then m_reconnectAttempt else count - 1 in
  default 0 (delaysSec !! Z.to_nat index) * 1000.

(** What the connection asks of the machine. *)
Record environment := mkEnvironment {
  os : platform;
  lookup : string → list QHostAddress;        (** [QHostInfo::fromName] *)
  interface_valid : list action → bool;       (** the service answers *)
  same_thread : bool;                         (** the retry timer lives in the thread of the connection *)
}.

Section connection.
Context {T P E : Type} {A : Store T} {Q : Qt} {J : JsonCodec} {AP : ArrayPrinter} {PR : Protocol P E} (env : environment).
Abbreviation M := (stM (connection T P)).

(** ** The members *)
Definition set_repositories (r : option (repository T)) : M unit :=
  modify (λ c, mkConnection r (m_vpnProtocol c) (slots c) (m_vpnConfiguration c) (m_remoteAddress c) (m_connectionState c)
    (m_reconnectTimer c) (m_reconnectAttempt c) (m_userInitiatedDisconnect c) (triggers c) (sites_timers c) (batches c) (log c)).
(** Another protocol, whose single shots go with the one before. *)
Definition set_protocol (p : option P) (connected : bool) : M unit :=
  modify (λ c, mkConnection (repositories c) p connected (m_vpnConfiguration c) (m_remoteAddress c) (m_connectionState c)
    (m_reconnectTimer c) (m_reconnectAttempt c) (m_userInitiatedDisconnect c) (triggers c) [] (batches c) (log c)).
(** The same protocol in its new state. *)
Definition update_protocol (p : P) : M unit :=
  modify (λ c, mkConnection (repositories c) (Some p) (slots c) (m_vpnConfiguration c) (m_remoteAddress c) (m_connectionState c)
    (m_reconnectTimer c) (m_reconnectAttempt c) (m_userInitiatedDisconnect c) (triggers c) (sites_timers c) (batches c) (log c)).
Definition set_slots (b : bool) : M unit :=
  modify (λ c, mkConnection (repositories c) (m_vpnProtocol c) b (m_vpnConfiguration c) (m_remoteAddress c) (m_connectionState c)
    (m_reconnectTimer c) (m_reconnectAttempt c) (m_userInitiatedDisconnect c) (triggers c) (sites_timers c) (batches c) (log c)).
Definition set_configuration (config : gmap string json) : M unit :=
  modify (λ c, mkConnection (repositories c) (m_vpnProtocol c) (slots c) config (m_remoteAddress c) (m_connectionState c)
    (m_reconnectTimer c) (m_reconnectAttempt c) (m_userInitiatedDisconnect c) (triggers c) (sites_timers c) (batches c) (log c)).
Definition set_remoteAddress (a : string) : M unit :=
  modify (λ c, mkConnection (repositories c) (m_vpnProtocol c) (slots c) (m_vpnConfiguration c) a (m_connectionState c)
    (m_reconnectTimer c) (m_reconnectAttempt c) (m_userInitiatedDisconnect c) (triggers c) (sites_timers c) (batches c) (log c)).
Definition set_state (s : ConnectionState) : M unit :=
  modify (λ c, mkConnection (repositories c) (m_vpnProtocol c) (slots c) (m_vpnConfiguration c) (m_remoteAddress c) s
    (m_reconnectTimer c) (m_reconnectAttempt c) (m_userInitiatedDisconnect c) (triggers c) (sites_timers c) (batches c) (log c)).
Definition set_retry (timer : option Z) (attempt : Z) : M unit :=
  modify (λ c, mkConnection (repositories c) (m_vpnProtocol c) (slots c) (m_vpnConfiguration c) (m_remoteAddress c) (m_connectionState c)
    timer attempt (m_userInitiatedDisconnect c) (triggers c) (sites_timers c) (batches c) (log c)).
Definition set_user (b : bool) : M unit :=
  modify (λ c, mkConnection (repositories c) (m_vpnProtocol c) (slots c) (m_vpnConfiguration c) (m_remoteAddress c) (m_connectionState c)
    (m_reconnectTimer c) (m_reconnectAttempt c) b (triggers c) (sites_timers c) (batches c) (log c)).
Definition set_triggers (n : nat) : M unit :=
  modify (λ c, mkConnection (repositories c) (m_vpnProtocol c) (slots c) (m_vpnConfiguration c) (m_remoteAddress c) (m_connectionState c)
    (m_reconnectTimer c) (m_reconnectAttempt c) (m_userInitiatedDisconnect c) n (sites_timers c) (batches c) (log c)).
Definition set_sites_timers (l : list Z) : M unit :=
  modify (λ c, mkConnection (repositories c) (m_vpnProtocol c) (slots c) (m_vpnConfiguration c) (m_remoteAddress c) (m_connectionState c)
    (m_reconnectTimer c) (m_reconnectAttempt c) (m_userInitiatedDisconnect c) (triggers c) l (batches c) (log c)).
Definition set_batches (l : list batch) : M unit :=
  modify (λ c, mkConnection (repositories c) (m_vpnProtocol c) (slots c) (m_vpnConfiguration c) (m_remoteAddress c) (m_connectionState c)
    (m_reconnectTimer c) (m_reconnectAttempt c) (m_userInitiatedDisconnect c) (triggers c) (sites_timers c) l (log c)).
Definition act (a : action) : M unit :=
  modify (λ c, mkConnection (repositories c) (m_vpnProtocol c) (slots c) (m_vpnConfiguration c) (m_remoteAddress c) (m_connectionState c)
    (m_reconnectTimer c) (m_reconnectAttempt c) (m_userInitiatedDisconnect c) (triggers c) (sites_timers c) (batches c) (log c ++ [a])).

Definition with_store (s : T) (r : repository T) : repository T :=
  mkRepository s (m_serverJsonById r) (m_orderedServerIds r) (m_defaultServerId r) (signals r) (created r).

(** A call of the application's settings; [d] when there are none. *)
Definition settings {X} (d : X) (f : T → X * T) : M X :=
  c ← get;
  match repositories c with
  | None => mret d
  | Some r =>
      let '(x, s) := f (m_settings r) in
      _ ← set_repositories (Some (with_store s r)); mret x
  end.

(** [IpcClient::withInterface] and a call through it. *)
Definition with_interface (m : M unit) : M unit :=
  c ← get; if interface_valid env (log c) then m else mret tt.
Definition ipc (i : ipc_call) : M unit := act (Called i).

(** ** Routes of sites *)
Definition addSitesRoutes (gw : string) (mode : Z) : M unit :=
  c ← get;
  match repositories c with
  | None => mret tt
  | Some _ =>
      m ← settings ∅ (vpnSites mode);
      let ips := sites_ips m in
      let sites := sites_names m in
      _ ← with_interface (ipc (RouteAddList gw ips));
      c ← get;
      set_batches (batches c ++ [mkBatch gw mode ips (Z.of_nat (length sites)) false])
  end.

(** The answer to one of the lookups of the batch numbered [i]. *)
Definition onResolved (i : nat) (site : string) (addresses : list QHostAddress) : M unit :=
  c ← get;
  match batches c !! i with
  | None => mret tt
  | Some b =>
      let resolvedIps := removeDuplicates (host_toString <$> List.filter isIPv4 addresses) in
      let newIps := List.filter (λ ip, negb (bool_decide (ip ∈ b_ips b))) resolvedIps in
      _ ← for_each newIps (λ ip, with_interface (ipc (RouteAddList (b_gw b) [ip])));
      _ ← (match newIps with [] => mret tt | _ => discard (settings false (addVpnSite (b_mode b) site newIps)) end);
      let needFlush := b_needFlush b || negb (bool_decide (newIps = [])) in
      let remaining := b_remaining b - 1 in
      c ← get;
      _ ← set_batches (<[i := mkBatch (b_gw b) (b_mode b) (b_ips b) remaining needFlush]> (batches c));
      if (0 <? remaining) || negb needFlush then mret tt else with_interface (ipc FlushDns)
  end.

(** ** The service's part of a change of state *)
Definition gateways : M (string * string) :=
  c ← get; mret (from_option pr_vpnGateway "" (m_vpnProtocol c), from_option pr_routeGateway "" (m_vpnProtocol c)).

Definition connected_routes : M unit :=
  c ← get;
  let dns := [text (m_vpnConfiguration c) "dns1"; text (m_vpnConfiguration c) "dns2"] in
  gw ← gateways;
  let '(vpnGateway, routeGateway) := (gw : string * string) in
  _ ← (if decide (os env = MacOS) then
         enabled ← settings false isSitesSplitTunnelingEnabled;
         if negb (enabled : bool) then ipc (RouteAddList vpnGateway dns) else
         mode ← settings 0 routeMode;
         if negb ((mode : Z) =? VpnAllExceptSites) then ipc (RouteAddList vpnGateway dns) else mret tt
       else ipc (RouteAddList vpnGateway dns));
  enabled ← settings false isSitesSplitTunnelingEnabled;
  if negb (enabled : bool) then mret tt else
  _ ← ipc (RouteDeleteList vpnGateway ["0.0.0.0"]);
  mode ← settings 0 routeMode;
  if (mode : Z) =? VpnOnlyForwardSites then
    c ← get; set_sites_timers (sites_timers c ++ [mode])
  else if mode =? VpnAllExceptSites then
    _ ← ipc (RouteAddList vpnGateway ["0.0.0.0/1"]);
    _ ← ipc (RouteAddList vpnGateway ["128.0.0.0/1"]);
    c ← get;
    _ ← ipc (RouteAddList routeGateway [m_remoteAddress c]);
    _ ← (if decide (os env = MacOS) then ipc (RouteAddList routeGateway dns) else mret tt);
    addSitesRoutes routeGateway mode
  else mret tt.

Definition onConnectionStateChanged (state : ConnectionState) : M unit :=
  c ← get;
  match repositories c with
  | None => mret tt
  | Some r =>
      let container := getDefaultContainer (m_defaultServerId r) r in
      with_interface
        (match state with
         | Vpn.Connected =>
             _ ← ipc ResetIpStack;
             _ ← ipc FlushDns;
             if negb (isAwgContainer container) && negb (bool_decide (container = DockerContainer.WireGuard))
             then connected_routes else mret tt
         | Vpn.Disconnected | Vpn.Error => _ ← ipc FlushDns; ipc ClearSavedRoutes
         | _ => mret tt
         end)
  end.

(** ** Retries *)
Definition start_timer (delay : Z) : M unit :=
  c ← get;
  if same_thread env then set_retry (Some delay) (m_reconnectAttempt c) else mret tt.

Definition scheduleReconnect : M unit :=
  c ← get;
  if m_userInitiatedDisconnect c then mret tt else start_timer (reconnectDelayMsec (m_reconnectAttempt c)).
Definition cancelReconnect : M unit := set_retry None 0.

Definition setConnectionState (state : ConnectionState) : M unit :=
  _ ← onConnectionStateChanged state;
  c ← get;
  if bool_decide (state = Vpn.Disconnected) && bool_decide (m_connectionState c = Vpn.Reconnecting) then mret tt
  else
    let previous := m_connectionState c in
    _ ← set_state state;
    _ ← act (StateChanged state);
    if decide (state = Vpn.Connected) then cancelReconnect
    else if m_userInitiatedDisconnect c then mret tt
    else if bool_decide (state = Vpn.Disconnected) && bool_decide (previous = Vpn.Connected) then scheduleReconnect
    else if decide (state = Vpn.Error) then scheduleReconnect
    else mret tt.

(** ** The protocol's outputs *)
Definition receive (errors : bool) (o : output) : M unit :=
  match o with
  | Signal s =>
      c ← get;
      if negb (slots c) then mret tt else
      match s with
      | ConnectionStateChanged state => setConnectionState state
      | ProtocolError e => if errors then act (ErrorShown e) else mret tt
      | BytesChanged received sent => act (BytesShown received sent)
      | TimeoutTimerEvent | TunnelAddressesUpdated _ _ => mret tt
      end
  | _ => act (Did o)
  end.
Definition receive_all (errors : bool) (l : list output) : M unit := for_each l (receive errors).

(** [m_vpnProtocol->stop()] *)
Definition stop_protocol (errors : bool) : M unit :=
  c ← get;
  match m_vpnProtocol c with
  | None => mret tt
  | Some p => let '(l, p) := pr_stop p in _ ← update_protocol p; receive_all errors l
  end.
(** [m_vpnProtocol->start()] *)
Definition start_protocol : M Z :=
  c ← get;
  match m_vpnProtocol c with
  | None => mret 0
  | Some p =>
      _ ← act Attempt;
      let '(err, l, p) := pr_start p in _ ← update_protocol p; _ ← receive_all true l; mret err
  end.
(** The protocol's last reference goes; its destructor still emits. *)
Definition drop_protocol (errors : bool) : M unit :=
  c ← get;
  match m_vpnProtocol c with
  | None => mret tt
  | Some p => _ ← receive_all errors (pr_destroy p); set_protocol None false
  end.

(** ** Connecting and disconnecting *)
Definition appendKillSwitchConfig : M unit :=
  c ← get;
  match repositories c with
  | None => mret tt
  | Some _ =>
      killSwitchEnabled ← settings false isKillSwitchEnabled;
      allowedDns ← settings [] getAllowedDnsServers;
      c ← get;
      set_configuration (<["allowedDnsServers" := JStrings allowedDns]>
        (<["killSwitchOption" := JString (if (killSwitchEnabled : bool) then "true" else "false")]> (m_vpnConfiguration c)))
  end.

Definition appendSplitTunnelingConfig : M unit :=
  c ← get;
  match repositories c with
  | None => mret tt
  | Some _ =>
      match fill_config_data (m_vpnConfiguration c) with
      | None => act (Did Crashed)
      | Some (config, allowed) =>
          enabled ← settings false isSitesSplitTunnelingEnabled;
          mode ← (if (enabled : bool) then settings 0 routeMode else mret VpnAllSites);
          sites ← (if enabled && allowed then settings ∅ (vpnSites mode) else mret ∅);
          let '(mode, sites) := split_sites enabled allowed mode sites config in
          let config := <["splitTunnelSites" := JArray sites]> (<["splitTunnelType" := JInt mode]> config) in
          appsEnabled ← settings false isAppsSplitTunnelingEnabled;
          appsMode ← (if (appsEnabled : bool) then settings 0 appsRouteMode else mret VpnAllApps);
          apps ← (if (appsEnabled : bool) then settings [] (vpnApps appsMode) else mret []);
          let '(appsMode, apps) := split_apps appsEnabled appsMode apps in
          set_configuration (<["splitTunnelApps" := JArray apps]> (<["appSplitTunnelType" := JInt appsMode]> config))
      end
  end.

(** [createProtocolConnections]: the connections to the service are made again
    every time. *)
Definition createProtocolConnections : M unit :=
  _ ← set_slots true; c ← get;
  if interface_valid env (log c) then set_triggers (S (triggers c)) else mret tt.

Definition create_protocol (container : DockerContainer) : M unit :=
  c ← get;
  match pr_factory container (m_vpnConfiguration c) with
  | None => _ ← set_protocol None false; setConnectionState Vpn.Error
  | Some p =>
      let '(l, p) := pr_prepare p in
      _ ← set_protocol (Some p) false;
      _ ← receive_all false l;
      _ ← createProtocolConnections;
      err ← start_protocol;
      if (err : Z) =? ErrorCode.NoError then mret tt
      else _ ← setConnectionState Vpn.Error; act (ErrorShown err)
  end.

Definition connectToVpn (container : DockerContainer) (vpnConfiguration : gmap string json) : M unit :=
  _ ← set_user false;
  _ ← cancelReconnect;
  c ← get;
  match repositories c with
  | None => setConnectionState Vpn.Error
  | Some _ =>
      _ ← settings 0 routeMode;
      _ ← set_remoteAddress (getIPAddress (lookup env) (text vpnConfiguration "hostName"));
      _ ← setConnectionState Vpn.Connecting;
      _ ← set_configuration vpnConfiguration;
      _ ← stop_protocol false;
      _ ← drop_protocol false;
      _ ← appendKillSwitchConfig;
      _ ← appendSplitTunnelingConfig;
      create_protocol container
  end.

Definition reconnectToVpn : M unit :=
  c ← get;
  match m_vpnProtocol c with
  | None => mret tt
  | Some _ =>
      if bool_decide (m_connectionState c = Vpn.Disconnecting) || bool_decide (m_connectionState c = Vpn.Reconnecting)
      then mret tt
      else if m_userInitiatedDisconnect c then mret tt
      else
        _ ← set_retry (m_reconnectTimer c) (m_reconnectAttempt c + 1);
        _ ← setConnectionState Vpn.Reconnecting;
        _ ← stop_protocol true;
        err ← start_protocol;
        if (err : Z) =? ErrorCode.NoError then mret tt
        else _ ← act (ErrorShown err); scheduleReconnect
  end.

Definition disconnectFromVpn : M unit :=
  _ ← set_user true;
  _ ← cancelReconnect;
  c ← get;
  match m_vpnProtocol c with
  | None => setConnectionState Vpn.Disconnected
  | Some _ =>
      _ ← setConnectionState Vpn.Disconnecting;
      _ ← stop_protocol true;
      drop_protocol true
  end.

Definition disconnectSlots : M unit := set_slots false.
Definition setRepositories (r : option (repository T)) : M unit := set_repositories r.
Definition onKillSwitchModeChanged (enabled : bool) : M unit := with_interface (ipc (RefreshKillSwitch enabled)).

(** The retry timer fires: it is a single shot. *)
Definition reconnect_timeout : M unit :=
  c ← get;
  match m_reconnectTimer c with
  | None => mret tt
  | Some _ => _ ← set_retry None (m_reconnectAttempt c); reconnectToVpn
  end.
(** [networkChanged] and [wakeup]: one call for every connection made. *)
Definition triggered : M unit := c ← get; for_each (seq 0 (triggers c)) (λ _, reconnectToVpn).

(** A single shot of [addSitesRoutes]. *)
Definition sites_timeout : M unit :=
  c ← get;
  match sites_timers c with
  | [] => mret tt
  | mode :: rest => _ ← set_sites_timers rest; gw ← gateways; addSitesRoutes (gw : string * string).1 mode
  end.

(** Something happens to the protocol. *)
Definition protocol_event (e : E) : M unit :=
  c ← get;
  match m_vpnProtocol c with
  | None => mret tt
  | Some p => let '(l, p) := pr_event e p in _ ← update_protocol p; receive_all true l
  end.
End connection.

(** ** Events *)
Inductive event (T E : Type) :=
  | Connect (container : DockerContainer) (config : gmap string json)
  | Disconnect
  | Triggered
  | RetryTimeout
  | SitesTimeout
  | Resolved (i : nat) (site : string) (addresses : list QHostAddress)
  | ProtocolEvent (e : E)
  | KillSwitchMode (enabled : bool)
  | DisconnectSlots
  | Repositories (r : option (repository T)).
Arguments Connect {T E}.
Arguments Disconnect {T E}.
Arguments Triggered {T E}.
Arguments RetryTimeout {T E}.
Arguments SitesTimeout {T E}.
Arguments Resolved {T E}.
Arguments ProtocolEvent {T E}.
Arguments KillSwitchMode {T E}.
Arguments DisconnectSlots {T E}.
Arguments Repositories {T E}.

Section happen.
Context {T P E : Type} {A : Store T} {Q : Qt} {J : JsonCodec} {AP : ArrayPrinter} {PR : Protocol P E} (env : environment).

Definition happen (e : event T E) : stM (connection T P) unit :=
  match e with
  | Connect container config => connectToVpn env container config
  | Disconnect => disconnectFromVpn env
  | Triggered => triggered env
  | RetryTimeout => reconnect_timeout env
  | SitesTimeout => sites_timeout env
  | Resolved i site addresses => onResolved env i site addresses
  | ProtocolEvent e => protocol_event env e
  | KillSwitchMode enabled => onKillSwitchModeChanged env enabled
  | DisconnectSlots => disconnectSlots
  | Repositories r => setRepositories r
  end.
Definition run (l : list (event T E)) : stM (connection T P) unit := for_each l happen.
End happen.

(** ** The retry machine: what the connection promises

    The part of the state that decides whether and when the tunnel comes back,
    and what changes it. *)
Record machine := mkMachine {
  state : ConnectionState;
  timer : option Z;
  attempt : Z;
  user : bool;  (** the user asked to disconnect *)
}.

Definition machine_of {T P} (c : connection T P) : machine :=
  mkMachine (m_connectionState c) (m_reconnectTimer c) (m_reconnectAttempt c) (m_userInitiatedDisconnect c).

Section machine.
Context (armable : bool).

Definition schedule (k : machine) : machine :=
  if user k || negb armable then k
  else mkMachine (state k) (Some (reconnectDelayMsec (attempt k))) (attempt k) (user k).

Definition enter (s : ConnectionState) (k : machine) : machine :=
  if bool_decide (s = Vpn.Disconnected) && bool_decide (state k = Vpn.Reconnecting) then k
  else
    let k' := mkMachine s (timer k) (attempt k) (user k) in
    if decide (s = Vpn.Connected) then mkMachine s None 0 (user k)
    else if user k then k'
    else if bool_decide (s = Vpn.Disconnected) && bool_decide (state k = Vpn.Connected) then schedule k'
    else if decide (s = Vpn.Error) then schedule k'
    else k'.
Definition enter_all (l : list ConnectionState) (k : machine) : machine := foldl (flip enter) k l.

(** The states a protocol signals. *)
Definition signalled (l : list output) : list ConnectionState :=
  omap (λ o, match o with Signal (ConnectionStateChanged s) => Some s | _ => None end) l.

Definition may_retry (k : machine) : bool :=
  negb (bool_decide (state k = Vpn.Disconnecting) || bool_decide (state k = Vpn.Reconnecting)) && negb (user k).

(** One attempt: what stopping signalled, and what starting answered and signalled. *)
Definition retry (stopped : list ConnectionState) (err : Z) (started : list ConnectionState) (k : machine) : machine :=
  if may_retry k then
    let k := enter Vpn.Reconnecting (mkMachine (state k) (timer k) (attempt k + 1) (user k)) in
    let k := enter_all started (enter_all stopped k) in
    if err =? 0 then k else schedule k
  else k.
End machine.

(** *** Refinement *)
Definition attempts {T P} (c : connection T P) : nat :=
  length (List.filter (λ a, match a with Attempt => true | _ => false end) (log c)).

Record same_machine {T P} (c c' : connection T P) : Prop := {
  sm_machine : machine_of c' = machine_of c;
  sm_protocol : m_vpnProtocol c' = m_vpnProtocol c;
  sm_slots : slots c' = slots c;
  sm_triggers : triggers c' = triggers c;
  sm_configuration : m_vpnConfiguration c' = m_vpnConfiguration c;
  sm_attempts : attempts c' = attempts c;
}.

#[export] Instance same_machine_preorder {T P} : PreOrder (@same_machine T P).
Proof. split; [done|]. intros c1 c2 c3 [] []. split; congruence. Qed.

Lemma attempts_app l1 l2 :
  length (List.filter (λ a, match a with Attempt => true | _ => false end) (l1 ++ l2))
  = (length (List.filter (λ a, match a with Attempt => true | _ => false end) l1) +
     length (List.filter (λ a, match a with Attempt => true | _ => false end) l2))%nat.
Proof. by rewrite List.filter_app, length_app. Qed.

Section refinement.
Context {T P E : Type} {A : Store T} {Q : Qt} {J : JsonCodec} {AP : ArrayPrinter} {PR : Protocol P E} (env : environment).
Abbreviation M := (stM (connection T P)).

Lemma same_act a : a ≠ Attempt → steps (@same_machine T P) (act a).
Proof. intros Ha. apply steps_modify. intros c. split; try done. unfold attempts. cbn [log]. rewrite attempts_app. destruct a; cbn; lia || done. Qed.
Lemma same_set_repositories r : steps (@same_machine T P) (set_repositories r).
Proof. by apply steps_modify. Qed.
Lemma same_set_batches l : steps (@same_machine T P) (set_batches l).
Proof. by apply steps_modify. Qed.
Lemma same_set_sites_timers l : steps (@same_machine T P) (set_sites_timers l).
Proof. by apply steps_modify. Qed.
Lemma same_set_remoteAddress a : steps (@same_machine T P) (set_remoteAddress a).
Proof. by apply steps_modify. Qed.

Lemma same_settings {X} (d : X) f : steps (@same_machine T P) (settings d f).
Proof.
  pose proof same_set_repositories. unfold settings. steps_tac; eauto.
Qed.
Lemma same_with_interface m : steps (@same_machine T P) m → steps same_machine (with_interface env m).
Proof. intros Hm. unfold with_interface. steps_tac. Qed.
Lemma same_ipc i : steps (@same_machine T P) (ipc i).
Proof. by apply same_act. Qed.
End refinement.

#[export] Hint Resolve same_act same_set_repositories same_set_batches same_set_sites_timers same_set_remoteAddress
  same_settings same_with_interface same_ipc : vpn.

(** Decompose, and close what the components' lemmas know. *)
Ltac same_tac := repeat first [steps_step | progress (eauto with vpn) | done].

Section refinement2.
Context {T P E : Type} {A : Store T} {Q : Qt} {J : JsonCodec} {AP : ArrayPrinter} {PR : Protocol P E} (env : environment).

Lemma same_addSitesRoutes gw mode : steps (@same_machine T P) (addSitesRoutes env gw mode).
Proof. unfold addSitesRoutes. same_tac. Qed.
Lemma same_gateways : steps (@same_machine T P) gateways.
Proof. unfold gateways. same_tac. Qed.
Lemma same_connected_routes : steps (@same_machine T P) (connected_routes env).
Proof. pose proof same_addSitesRoutes. pose proof same_gateways. unfold connected_routes. same_tac. Qed.
Lemma same_onConnectionStateChanged s : steps (@same_machine T P) (onConnectionStateChanged env s).
Proof.
  pose proof same_connected_routes. unfold onConnectionStateChanged. steps_step; [same_tac|].
  destruct (repositories a); [|same_tac]. apply same_with_interface. same_tac.
Qed.
Lemma same_onResolved i site addresses : steps (@same_machine T P) (onResolved env i site addresses).
Proof. unfold onResolved. same_tac. Qed.
Lemma same_sites_timeout : steps (@same_machine T P) (sites_timeout env).
Proof. pose proof same_addSitesRoutes. pose proof same_gateways. unfold sites_timeout. same_tac. Qed.
End refinement2.

(** [c'] is [c] with its machine moved by [f]; the protocol is the same. *)
Record moved {T P} (f : machine → machine) (c c' : connection T P) : Prop := {
  mv_machine : machine_of c' = f (machine_of c);
  mv_protocol : m_vpnProtocol c' = m_vpnProtocol c;
  mv_slots : slots c' = slots c;
  mv_triggers : triggers c' = triggers c;
  mv_configuration : m_vpnConfiguration c' = m_vpnConfiguration c;
  mv_attempts : attempts c' = attempts c;
}.

Lemma moved_same {T P} (c c' : connection T P) : same_machine c c' → moved id c c'.
Proof. by intros []. Qed.
Lemma moved_trans {T P} f g h (c1 c2 c3 : connection T P) :
  moved f c1 c2 → moved g c2 c3 → h (machine_of c1) = g (f (machine_of c1)) → moved h c1 c3.
Proof. intros [] [] E. split; congruence. Qed.
Lemma moved_after_same {T P} f (c1 c2 c3 : connection T P) : same_machine c1 c2 → moved f c2 c3 → moved f c1 c3.
Proof. intros [] []. split; congruence. Qed.

Section moves.
Context {T P E : Type} {A : Store T} {Q : Qt} {J : JsonCodec} {AP : ArrayPrinter} {PR : Protocol P E} (env : environment).
Abbreviation enter := (enter (same_thread env)).
Abbreviation enter_all := (enter_all (same_thread env)).
Abbreviation schedule := (schedule (same_thread env)).
Abbreviation retry := (retry (same_thread env)).

Lemma scheduleReconnect_moved (c : connection T P) : moved schedule c (scheduleReconnect env c).2.
Proof.
  unfold scheduleReconnect, VpnConnection.schedule. rewrite bind_run. cbn [get fst snd].
  destruct (m_userInitiatedDisconnect c) eqn:Hu; [split; try done; cbn; by rewrite Hu|].
  unfold start_timer. rewrite bind_run. cbn [get fst snd].
  split; destruct (same_thread env); cbn; try rewrite Hu; done.
Qed.

Lemma setConnectionState_moved s (c : connection T P) : moved (enter s) c (setConnectionState env s c).2.
Proof.
  unfold setConnectionState. rewrite bind_run.
  pose proof (same_onConnectionStateChanged env s c) as Hs.
  set (c1 := (onConnectionStateChanged env s c).2) in *.
  eapply moved_after_same; [exact Hs|]. clearbody c1. clear Hs c.
  destruct c1 as [r p b cfg rem st tm att us tr sit bat lg].
  unfold VpnConnection.enter, VpnConnection.schedule, scheduleReconnect, start_timer, cancelReconnect, machine_of.
  cbv [mbind stM_bind mret stM_ret get modify set_state set_retry act].
  cbn [m_connectionState m_reconnectTimer m_reconnectAttempt m_userInitiatedDisconnect state timer attempt user
       repositories m_vpnProtocol slots m_vpnConfiguration m_remoteAddress triggers sites_timers batches log].
  destruct (bool_decide (s = Vpn.Disconnected) && bool_decide (st = Vpn.Reconnecting)) eqn:Eb;
    [|destruct (decide (s = Vpn.Connected)) as [->|Hc];
      [|destruct us; [|destruct (bool_decide (s = Vpn.Disconnected) && bool_decide (st = Vpn.Connected)) eqn:Ed;
        [|destruct (decide (s = Vpn.Error)) as [->|]]]; destruct (same_thread env)]].
  all: split; [|done..|unfold attempts; cbn -[List.filter app]; rewrite ?attempts_app; cbn; lia].
  all: cbn -[decide bool_decide reconnectDelayMsec]; rewrite ?Eb, ?Ed; cbn; done.
Qed.
End moves.

(** *** The machine on its own *)
Section machine_lemmas.
Context (armable : bool).

Lemma enter_user s k : user (enter armable s k) = user k.
Proof. unfold enter, schedule. repeat case_head; done. Qed.
Lemma enter_all_cons s l k : enter_all armable (s :: l) k = enter_all armable l (enter armable s k).
Proof. done. Qed.
Lemma enter_all_user l k : user (enter_all armable l k) = user k.
Proof. revert k. induction l as [|s l IH]; intros k; [done|]. by rewrite enter_all_cons, IH, enter_user. Qed.
Lemma enter_attempt s k : s ≠ Vpn.Connected → attempt (enter armable s k) = attempt k.
Proof. intros Hs. unfold enter, schedule. repeat case_head; done. Qed.
Lemma enter_all_attempt l k : Vpn.Connected ∉ l → attempt (enter_all armable l k) = attempt k.
Proof.
  revert k. induction l as [|s l IH]; intros k Hl; [done|]. apply not_elem_of_cons in Hl as [Hs Hl].
  by rewrite enter_all_cons, IH, enter_attempt.
Qed.
Lemma enter_quiet s k : user k = true → timer k = None → timer (enter armable s k) = None.
Proof.
  intros Hu Ht. unfold enter, schedule. cbn [user timer]. rewrite Hu. cbn [orb].
  repeat case_head; done.
Qed.
Lemma enter_Error k :
  user k = false → armable = true →
  enter armable Vpn.Error k = mkMachine Vpn.Error (Some (reconnectDelayMsec (attempt k))) (attempt k) false.
Proof. intros Hu ->. unfold enter, schedule. cbn. by rewrite Hu. Qed.

(** Retries already under way ignore whatever signals only [Disconnected]. *)
Lemma enter_all_stuck l k :
  state k = Vpn.Reconnecting → Forall (.= Vpn.Disconnected) l → enter_all armable l k = k.
Proof.
  intros Hk Hl. induction Hl as [|s l -> Hl IH]; [done|]. rewrite enter_all_cons. unfold enter.
  by rewrite Hk.
Qed.
End machine_lemmas.

Section protocol_moves.
Context {T P E : Type} {A : Store T} {Q : Qt} {J : JsonCodec} {AP : ArrayPrinter} {PR : Protocol P E} (env : environment).
Abbreviation enter := (enter (same_thread env)).
Abbreviation enter_all := (enter_all (same_thread env)).
Abbreviation schedule := (schedule (same_thread env)).
Abbreviation retry := (retry (same_thread env)).

Lemma receive_moved errors o (c : connection T P) :
  slots c = true → moved (enter_all (signalled [o])) c (receive env errors o c).2.
Proof.
  intros Hs. destruct o as [i|s|l|o|]; try (apply moved_same, same_act; done).
  unfold receive. rewrite bind_run. cbn [get fst snd]. rewrite Hs. cbn [negb].
  destruct s; try (apply moved_same; (apply same_act; done) || reflexivity).
  - apply setConnectionState_moved.
  - destruct errors; [by apply moved_same, same_act|by apply moved_same].
Qed.
Lemma signalled_app l1 l2 : signalled (l1 ++ l2) = signalled l1 ++ signalled l2.
Proof. apply omap_app. Qed.
Lemma receive_all_moved errors l (c : connection T P) :
  slots c = true → moved (enter_all (signalled l)) c (receive_all env errors l c).2.
Proof.
  revert c. induction l as [|o l IH]; intros c Hs; [by apply moved_same|].
  unfold receive_all in *. cbn [for_each]. rewrite bind_run.
  pose proof (receive_moved errors o c Hs) as H1.
  eapply moved_trans; [exact H1|apply IH; by rewrite (mv_slots _ _ _ H1)|].
  change (o :: l) with ([o] ++ l). rewrite signalled_app. unfold VpnConnection.enter_all. apply foldl_app.
Qed.

(** The signals are heard only through the slots. *)
Lemma receive_all_heard errors l (c : connection T P) :
  moved (enter_all (if slots c then signalled l else [])) c (receive_all env errors l c).2.
Proof.
  destruct (slots c) eqn:Hs; [by apply receive_all_moved|]. apply moved_same.
  unfold receive_all. revert c Hs. induction l as [|o l IH]; intros c Hs; [done|].
  cbn [for_each]. rewrite bind_run.
  assert (same_machine c (receive env errors o c).2) as Ho.
  { unfold receive. destruct o; try by apply same_act. rewrite bind_run. cbn [get fst snd]. by rewrite Hs. }
  etrans; [exact Ho|]. apply IH. by rewrite (sm_slots _ _ Ho).
Qed.

Lemma stop_moved errors (c : connection T P) p :
  m_vpnProtocol c = Some p → slots c = true →
  moved (enter_all (signalled (pr_stop p).1)) (update_protocol (pr_stop p).2 c).2 (stop_protocol env errors c).2.
Proof.
  intros Hp Hs. unfold stop_protocol. rewrite bind_run. cbn [get fst snd]. rewrite Hp.
  destruct (pr_stop p) as [l p']. rewrite bind_run. by apply receive_all_moved.
Qed.

Lemma start_moved (c : connection T P) p :
  m_vpnProtocol c = Some p → slots c = true →
  (start_protocol env c).1 = (pr_start p).1.1 ∧
  moved (enter_all (signalled (pr_start p).1.2)) (update_protocol (pr_start p).2 (act Attempt c).2).2 (start_protocol env c).2.
Proof.
  intros Hp Hs. unfold start_protocol. rewrite bind_run. cbn [get fst snd]. rewrite Hp, bind_run.
  destruct (pr_start p) as [[err l] p']. rewrite !bind_run. split; [done|]. by apply receive_all_moved.
Qed.

(** What an attempt does, in terms of what the protocol answers. *)
Lemma reconnect_spec (c : connection T P) p :
  m_vpnProtocol c = Some p → slots c = true →
  let stopped := pr_stop p in let started := pr_start stopped.2 in
  let c' := (reconnectToVpn env c).2 in
  machine_of c' = retry (signalled stopped.1) started.1.1 (signalled started.1.2) (machine_of c) ∧
  m_vpnProtocol c' = Some (if may_retry (machine_of c) then started.2 else p) ∧
  slots c' = true ∧ triggers c' = triggers c ∧
  attempts c' = (attempts c + if may_retry (machine_of c) then 1 else 0)%nat.
Proof.
  intros Hp Hs. cbv zeta. unfold reconnectToVpn. rewrite bind_run. cbn [get fst snd]. rewrite Hp.
  unfold VpnConnection.retry, may_retry.
  change (state (machine_of c)) with (m_connectionState c). change (user (machine_of c)) with (m_userInitiatedDisconnect c).
  destruct (_ || _) eqn:Eb; cbn [negb andb]; [by rewrite Nat.add_0_r|].
  destruct (m_userInitiatedDisconnect c) eqn:Hu; cbn [negb andb]; [by rewrite Nat.add_0_r|].
  rewrite !bind_run.
  set (c1 := (set_retry (m_reconnectTimer c) (m_reconnectAttempt c + 1) c).2).
  pose proof (setConnectionState_moved env Vpn.Reconnecting c1) as [M2 P2 S2 T2 C2 A2].
  set (c2 := (setConnectionState env Vpn.Reconnecting c1).2) in *.
  pose proof (stop_moved true c2 p) as M3. rewrite P2, S2 in M3. specialize (M3 Hp Hs).
  set (c3 := (stop_protocol env true c2).2) in *. destruct M3 as [M3 P3 S3 T3 C3 A3].
  change (machine_of (update_protocol _ c2).2) with (machine_of c2) in M3.
  assert (slots c3 = true) as Hs3 by (rewrite S3; cbn; by rewrite S2).
  destruct (start_moved c3 (pr_stop p).2) as [E4 [M4 P4 S4 T4 C4 A4]]; [done|done|].
  set (c4 := (start_protocol env c3).2) in *. rewrite E4.
  change (machine_of (update_protocol _ _).2) with (machine_of c3) in M4.
  assert (attempts c4 = attempts c + 1)%nat as Ha4.
  { rewrite A4. change (attempts c) with (attempts c1). rewrite <- A2.
    change (attempts c2) with (attempts (update_protocol (pr_stop p).2 c2).2). rewrite <- A3.
    unfold attempts. cbn. rewrite attempts_app. reflexivity. }
  assert (machine_of c4 = enter_all (signalled (pr_start (pr_stop p).2).1.2)
     (enter_all (signalled (pr_stop p).1) (enter Vpn.Reconnecting
        (mkMachine (state (machine_of c)) (timer (machine_of c)) (attempt (machine_of c) + 1) (user (machine_of c)))))) as Hm4.
  { rewrite M4, M3, M2. done. }
  assert (slots c4 = true ∧ triggers c4 = triggers c) as [Hs4 Ht4].
  { split; [by rewrite S4|]. rewrite T4. cbn. rewrite T3. cbn. by rewrite T2. }
  cbn [state timer attempt user machine_of] in *. rewrite Hu in Hm4.
  unfold ErrorCode.NoError. destruct (_ =? 0)%Z.
  { cbn [snd mret stM_ret]. rewrite Hm4, P4. done. }
  rewrite bind_run.
  destruct (scheduleReconnect_moved env (act (ErrorShown (pr_start (pr_stop p).2).1.1) c4).2) as [M5 P5 S5 T5 C5 A5].
  rewrite M5, P5, S5, T5, A5. cbn [act modify snd m_vpnProtocol slots triggers].
  change (machine_of _) with (machine_of c4) at 1. rewrite Hm4, P4. split_and!; try done.
  rewrite <- Ha4. unfold attempts. cbn. rewrite attempts_app. cbn. lia.
Qed.
End protocol_moves.
