(* ===== verification/ConnectionProtocols.v ===== *)
(** * ConnectionProtocols: the connection over its three protocols

    The desktop's protocols as instances of the class the connection uses, and
    what the retries of [VpnConnection] do: over any protocol, and over these. *)
From stdpp Require Import pretty.
From S2P Require Import Prelude Text Json IpAddress Qt Wire Containers NetworkUtilities ServerConfig Settings.
From S2P Require Import ServersRepository ServersController AppSettings VpnProtocol VpnConnection.
From S2P Require LocalSocketController OpenVpnProtocol XrayProtocol.

(** ** The instances *)

(** An operation of a protocol: its result, what it put out, the protocol after. *)
Definition ran {X R} (m : stM (protocol X) R) (p : protocol X) : R * list output * protocol X :=
  let '(r, p') := m p in (r, drop (length (outputs p)) (outputs p'), p').

Inductive desktop :=
  | OpenVpn (p : protocol OpenVpnProtocol.openvpn)
  | WireGuard (p : protocol wireguard)
  | Xray (p : protocol XrayProtocol.xray).

Inductive desktop_event :=
  (* OpenVPN *)
  | ManagementClient                     (** it connects to the management server *)
  | ManagementClosed
  | ManagementLines (l : list string)
  | ProcessFinished
  (* WireGuard *)
  | Daemon (e : LocalSocketController.c_event)
  (* Xray *)
  | Tun2SocksError (line : option string)
  | Tun2SocksFinished (out : option string)
  | Tun2SocksRetry
  (* every protocol *)
  | Timeout.

Record machines := mkMachines {
  openvpn_env : OpenVpnProtocol.machine;
  wireguard_lookup : string → list QHostAddress;
  date_of_string : string → option Z;
  xray_env : XrayProtocol.machine;
  initial_error : Z;   (** the uninitialized [m_lastError] *)
}.

Section instances.
Context {Q : Qt} {J : JsonCodec} {V : Service} (os : platform) (ms : machines).

Definition outs {X} (r : unit * list output * protocol X) (f : protocol X → desktop) : list output * desktop :=
  (r.1.2, f r.2).

(** Lines arrive on the management socket and are read. *)
Definition management_lines (l : list string) (p : protocol OpenVpnProtocol.openvpn) : list output * desktop :=
  let m := OpenVpnProtocol.m_managementServer (own p) in
  let p' := run_state (OpenVpnProtocol.set_management
                         (OpenVpnProtocol.mkManagement (OpenVpnProtocol.m_tcpServer m) (OpenVpnProtocol.m_socket m)
                            (OpenVpnProtocol.unread m ++ l))) p in
  match OpenVpnProtocol.onReadyReadDataFromManagementServer (openvpn_env ms) p' with
  | Some p'' => (drop (length (outputs p)) (outputs p''), OpenVpn p'')
  | None => ([Crashed], OpenVpn p)
  end.

Definition desktop_factory (container : DockerContainer) (config : gmap string json) : option desktop :=
  match factory os container with
  | Some OpenVpnProtocol_ => Some (OpenVpn (OpenVpnProtocol.OpenVpnProtocol (openvpn_env ms) (initial_error ms) config))
  | Some WireguardProtocol_ => Some (WireGuard (WireguardProtocol (initial_error ms) config))
  | Some XrayProtocol_ => Some (Xray (XrayProtocol.XrayProtocol (xray_env ms) (initial_error ms) config))
  | Some Ikev2Protocol_ | None => None
  end.

Definition desktop_prepare (d : desktop) : list output * desktop :=
  match d with
  | OpenVpn p => outs (ran (discard OpenVpnProtocol.prepare) p) OpenVpn
  | _ => ([], d)
  end.

Definition desktop_start (d : desktop) : Z * list output * desktop :=
  match d with
  | OpenVpn p => let '(err, l, p) := ran (OpenVpnProtocol.start (openvpn_env ms)) p in (err, l, OpenVpn p)
  | WireGuard p => let '(err, l, p) := ran (start (wireguard_lookup ms)) p in (err, l, WireGuard p)
  | Xray p =>
      let '(err, l, p) := ran (XrayProtocol.start (xray_env ms)) p in
      match err with
      | Some err => (err, l, Xray p)
      | None => (ErrorCode.InternalError, l ++ [Crashed], Xray p)
      end
  end.

Definition desktop_stop (d : desktop) : list output * desktop :=
  match d with
  | OpenVpn p => outs (ran (OpenVpnProtocol.stop (openvpn_env ms)) p) OpenVpn
  | WireGuard p => outs (ran stop p) WireGuard
  | Xray p => outs (ran (XrayProtocol.stop (xray_env ms)) p) Xray
  end.

Definition on_openvpn (m : stM (protocol OpenVpnProtocol.openvpn) unit) (d : desktop) : list output * desktop :=
  match d with OpenVpn p => outs (ran m p) OpenVpn | _ => ([], d) end.
Definition on_wireguard (m : stM (protocol wireguard) unit) (d : desktop) : list output * desktop :=
  match d with WireGuard p => outs (ran m p) WireGuard | _ => ([], d) end.
Definition on_xray (m : stM (protocol XrayProtocol.xray) unit) (d : desktop) : list output * desktop :=
  match d with Xray p => outs (ran m p) Xray | _ => ([], d) end.

Definition desktop_event_ (e : desktop_event) (d : desktop) : list output * desktop :=
  match e with
  | ManagementClient => on_openvpn OpenVpnProtocol.onNewConnection d
  | ManagementClosed => on_openvpn OpenVpnProtocol.onSocketDisconnected d
  | ManagementLines l => match d with OpenVpn p => management_lines l p | _ => ([], d) end
  | ProcessFinished => on_openvpn OpenVpnProtocol.onFinished d
  | Daemon e => on_wireguard (on_impl (LocalSocketController.handle (date_of_string ms) e)) d
  | Tun2SocksError line => on_xray (XrayProtocol.onStandardError (xray_env ms) line) d
  | Tun2SocksFinished out => on_xray (XrayProtocol.onFinished (xray_env ms) out) d
  | Tun2SocksRetry =>
      match d with
      | Xray p =>
          let '(r, l, p) := ran (XrayProtocol.onRetry (xray_env ms)) p in
          (match r with Some _ => l | None => l ++ [Crashed] end, Xray p)
      | _ => ([], d)
      end
  | Timeout =>
      match d with
      | OpenVpn p => outs (ran (onTimeout (OpenVpnProtocol.stop (openvpn_env ms))) p) OpenVpn
      | WireGuard p => outs (ran (onTimeout stop) p) WireGuard
      | Xray p => outs (ran (onTimeout (XrayProtocol.stop (xray_env ms))) p) Xray
      end
  end.

#[export] Instance desktop_protocol : Protocol desktop desktop_event := {|
  pr_factory := desktop_factory;
  pr_prepare := desktop_prepare;
  pr_start := desktop_start;
  pr_stop := desktop_stop;
  pr_destroy d := (desktop_stop d).1;
  pr_event := desktop_event_;
  pr_vpnGateway d := match d with OpenVpn p => m_vpnGateway p | WireGuard p => m_vpnGateway p | Xray p => m_vpnGateway p end;
  pr_routeGateway d :=
    match d with OpenVpn p => m_routeGateway p | WireGuard p => m_routeGateway p | Xray p => m_routeGateway p end;
|}.
End instances.

(** ** Properties of the retries, over any protocol *)
Section retries.
Context {T P E : Type} {A : Store T} {Q : Qt} {J : JsonCodec} {AP : ArrayPrinter} {PR : Protocol P E} (env : environment).
Abbreviation armable := (same_thread env).

(** *** After the user disconnected *)
Record at_rest (c : connection T P) : Prop := {
  ar_protocol : m_vpnProtocol c = None;
  ar_timer : m_reconnectTimer c = None;
  ar_user : m_userInitiatedDisconnect c = true;
}.
Definition rests (c c' : connection T P) : Prop := at_rest c → at_rest c' ∧ attempts c' = attempts c.
#[local] Instance rests_preorder : PreOrder rests.
Proof.
  split; [done|]. intros c1 c2 c3 H12 H23 H1. destruct (H12 H1) as [H2 E2]. destruct (H23 H2) as [H3 E3].
  split; [done|congruence].
Qed.

Lemma rests_same {X} (m : stM (connection T P) X) : steps same_machine m → steps rests m.
Proof.
  intros Hm c [Hp Ht Hu]. destruct (Hm c) as [Hk Hp' _ _ _ Ha]. unfold machine_of in Hk. injection Hk as _ Ht' _ Hu'.
  split; [split; congruence|done].
Qed.
Lemma rests_setConnectionState s : steps rests (setConnectionState env s).
Proof.
  intros c [Hp Ht Hu]. destruct (setConnectionState_moved env s c) as [Hk Hp' _ _ _ Ha].
  split; [split|done]; [congruence| |].
  - change (timer (machine_of (setConnectionState env s c).2) = None). rewrite Hk. by apply enter_quiet.
  - change (user (machine_of (setConnectionState env s c).2) = true). by rewrite Hk, enter_user.
Qed.

Lemma rests_happen e : (∀ container config, e ≠ Connect container config) → steps rests (happen env e).
Proof.
  intros He c Hc. pose proof Hc as [Hp Ht Hu]. destruct e as [? ?| | | | |i site addresses|e|b| |r]; cbn [happen].
  - by destruct (He container config).
  - unfold disconnectFromVpn. rewrite !bind_run. cbn [get set_user cancelReconnect set_retry modify fst snd m_vpnProtocol].
    rewrite Hp.
    apply (rests_setConnectionState Vpn.Disconnected
             (mkConnection (repositories c) None (slots c) (m_vpnConfiguration c) (m_remoteAddress c) (m_connectionState c)
                None 0 true (triggers c) (sites_timers c) (batches c) (log c))). by split.
  - unfold triggered. rewrite bind_run. cbn [get fst snd].
    refine (steps_for_each rests _ _ _ c Hc). intros _ c' Hc'. unfold reconnectToVpn. rewrite bind_run.
    cbn [get fst snd]. rewrite (ar_protocol _ Hc'). by split.
  - unfold reconnect_timeout. rewrite bind_run. cbn [get fst snd]. rewrite Ht. by split.
  - by apply (rests_same _ (same_sites_timeout env)).
  - by apply (rests_same _ (same_onResolved env i site addresses)).
  - unfold protocol_event. rewrite bind_run. cbn [get fst snd]. rewrite Hp. by split.
  - by apply (rests_same _ (same_with_interface env _ (same_ipc (RefreshKillSwitch b)))).
  - by split.
  - by split.
Qed.

Lemma disconnect_rests (c : connection T P) :
  at_rest (disconnectFromVpn env c).2 ∧ attempts (disconnectFromVpn env c).2 = attempts c.
Proof.
  unfold disconnectFromVpn. rewrite !bind_run. cbn [get fst snd].
  set (c1 := (cancelReconnect (set_user true c).2).2).
  assert (user (machine_of c1) = true ∧ timer (machine_of c1) = None ∧ attempts c1 = attempts c) as (Hu & Ht & Ha) by done.
  clearbody c1. destruct (m_vpnProtocol c1) as [p|] eqn:Hp.
  - rewrite !bind_run.
    pose proof (setConnectionState_moved env Vpn.Disconnecting c1) as [M2 P2 S2 _ _ A2].
    set (c2 := (setConnectionState env Vpn.Disconnecting c1).2) in *. clearbody c2.
    unfold stop_protocol. rewrite bind_run. cbn [get fst snd]. rewrite P2, Hp.
    destruct (pr_stop p) as [l p']. rewrite bind_run.
    set (c3 := (update_protocol p' c2).2). pose proof (receive_all_heard env true l c3) as [M4 P4 _ _ _ A4].
    set (c4 := (receive_all env true l c3).2) in *. clearbody c4.
    unfold drop_protocol. rewrite bind_run. cbn [get fst snd]. rewrite P4. cbn [c3 update_protocol modify snd m_vpnProtocol].
    rewrite bind_run. pose proof (receive_all_heard env true (pr_destroy p') c4) as [M5 _ _ _ _ A5].
    set (c5 := (receive_all env true (pr_destroy p') c4).2) in *. clearbody c5.
    assert (∀ l k, user k = true → timer k = None → timer (enter_all armable l k) = None) as Hq.
    { intros l'. induction l' as [|s l' IH]; intros k Huk Htk; [done|]. rewrite enter_all_cons.
      apply IH; [by rewrite enter_user|by apply enter_quiet]. }
    change (machine_of c3) with (machine_of c2) in M4. change (attempts c3) with (attempts c2) in A4.
    assert (user (machine_of c5) = true ∧ timer (machine_of c5) = None) as [Hu5 Ht5].
    { rewrite M5, M4, M2. split; [by rewrite !enter_all_user, enter_user|].
      apply Hq; [by rewrite enter_all_user, enter_user|]. apply Hq; [by rewrite enter_user|by apply enter_quiet]. }
    split; [by split|]. change (attempts c5 = attempts c). congruence.
  - destruct (rests_setConnectionState Vpn.Disconnected c1) as [H E1]; [by split|]. split; [done|congruence].
Qed.

(** C9. Once the user has disconnected, nothing brings the tunnel back until the
    user connects again: whatever the protocol, the service, the timers and
    other events do, the protocol is gone, no retry is pending and no attempt is
    made. *)
Theorem user_disconnect_respected (c : connection T P) (l : list (event T E)) :
  Forall (λ e, ∀ container config, e ≠ Connect container config) l →
  let c' := (run env l (disconnectFromVpn env c).2).2 in
  m_vpnProtocol c' = None ∧ m_reconnectTimer c' = None ∧ attempts c' = attempts c.
Proof.
  intros Hl. cbv zeta. destruct (disconnect_rests c) as [H1 E1].
  assert (steps rests (run env l)) as Hs.
  { apply steps_for_each_in; [apply _|]. intros e He. apply rests_happen. by apply (proj1 (Forall_forall _ _) Hl). }
  destruct (Hs _ H1) as [[Hp Ht _] E2]. split_and!; [done|done|congruence].
Qed.
End retries.

(** *** The delays *)
Section delays.
Context {T P E : Type} {A : Store T} {Q : Qt} {J : JsonCodec} {AP : ArrayPrinter} {PR : Protocol P E} (env : environment).
Abbreviation armable := (same_thread env).

(** A pending retry has the delay of an attempt made, and is wanted. *)
Definition delayed (b : bool) (k : machine) : Prop :=
  0 ≤ attempt k ∧
  ∀ d, timer k = Some d → b = true ∧ user k = false ∧ ∃ i, 0 ≤ i ≤ attempt k ∧ d = reconnectDelayMsec i.

Lemma schedule_delayed b k : delayed b k → delayed b (schedule b k).
Proof.
  intros H. unfold schedule. destruct (user k) eqn:Hu, b; cbn [negb orb]; try exact H.
  destruct H as [Ha _]. split; [done|]. cbn. intros d Hd. injection Hd as <-. split_and!; [done|done|].
  exists (attempt k). split; [lia|done].
Qed.
Lemma enter_delayed b s k : delayed b k → delayed b (enter b s k).
Proof.
  intros H. unfold enter.
  assert (delayed b (mkMachine s (timer k) (attempt k) (user k))) as Hk by exact H.
  repeat case_head; auto using schedule_delayed. split; cbn; [lia|done].
Qed.
Lemma enter_all_delayed b l k : delayed b k → delayed b (enter_all b l k).
Proof. revert k. induction l as [|s l IH]; intros k H; [done|]. rewrite enter_all_cons. by apply IH, enter_delayed. Qed.

Definition stays_delayed (c c' : connection T P) : Prop := delayed armable (machine_of c) → delayed armable (machine_of c').
#[local] Instance stays_delayed_preorder : PreOrder stays_delayed.
Proof. split; unfold stays_delayed; [by intros c H|]. intros c1 c2 c3 H12 H23 H. auto. Qed.

Lemma delayed_same {X} (m : stM (connection T P) X) : steps same_machine m → steps stays_delayed m.
Proof. intros Hm c. unfold stays_delayed. by rewrite (sm_machine _ _ (Hm c)). Qed.
Lemma delayed_set_state s : steps stays_delayed (setConnectionState env s).
Proof. intros c. unfold stays_delayed. rewrite (mv_machine _ _ _ (setConnectionState_moved env s c)). apply enter_delayed. Qed.
Lemma delayed_receive_all b l : steps stays_delayed (receive_all env b l).
Proof. intros c. unfold stays_delayed. rewrite (mv_machine _ _ _ (receive_all_heard env b l c)). apply enter_all_delayed. Qed.
Lemma delayed_schedule : steps stays_delayed (scheduleReconnect env).
Proof. intros c. unfold stays_delayed. rewrite (mv_machine _ _ _ (scheduleReconnect_moved env c)). apply schedule_delayed. Qed.
Lemma delayed_modify (f : connection T P → connection T P) :
  (∀ c, machine_of (f c) = machine_of c) → steps stays_delayed (modify f).
Proof. intros Hf. apply steps_modify. intros c. unfold stays_delayed. by rewrite Hf. Qed.
Lemma delayed_cancel b : steps stays_delayed (_ ← set_user b; cancelReconnect).
Proof. intros c _. rewrite bind_run. by split. Qed.

Lemma delayed_stop b : steps stays_delayed (stop_protocol env b).
Proof.
  unfold stop_protocol. steps_step; [steps_tac|]. destruct (m_vpnProtocol a) as [p|]; [|steps_tac].
  destruct (pr_stop p) as [l p']. steps_step; [by apply delayed_modify|apply delayed_receive_all].
Qed.
Lemma delayed_drop b : steps stays_delayed (drop_protocol env b).
Proof.
  unfold drop_protocol. steps_step; [steps_tac|]. destruct (m_vpnProtocol a) as [p|]; [|steps_tac].
  steps_step; [apply delayed_receive_all|by apply delayed_modify].
Qed.
Lemma delayed_start : steps stays_delayed (start_protocol env).
Proof.
  unfold start_protocol. steps_step; [steps_tac|]. destruct (m_vpnProtocol a) as [p|]; [|steps_tac].
  steps_step; [by apply delayed_modify|]. destruct (pr_start p) as [[err l] p'].
  steps_step; [by apply delayed_modify|]. steps_step; [apply delayed_receive_all|steps_tac].
Qed.
Lemma delayed_reconnect : steps stays_delayed (reconnectToVpn env).
Proof.
  apply steps_bind_get. intros c. destruct (m_vpnProtocol c); [|by intros H].
  destruct (_ || _); [by intros H|]. destruct (m_userInitiatedDisconnect c); [by intros H|].
  set (rest := λ _ : unit, _ ← setConnectionState env Vpn.Reconnecting; _).
  assert (steps stays_delayed (rest tt)) as Hr.
  { unfold rest. pose proof delayed_set_state. pose proof delayed_stop. pose proof delayed_start. pose proof delayed_schedule.
    steps_tac; auto. by apply delayed_modify. }
  intros H. rewrite bind_run. apply Hr. destruct H as [Ha Ht]. split; cbn in *; [lia|].
  intros d Hd. destruct (Ht d Hd) as (H1 & H2 & i & Hi & ->). split_and!; [done|done|]. exists i. split; [lia|done].
Qed.

Lemma delayed_append_split : steps stays_delayed appendSplitTunnelingConfig.
Proof.
  unfold appendSplitTunnelingConfig. steps_step; [steps_tac|]. destruct (repositories a); [|steps_tac].
  destruct (fill_config_data _) as [[config allowed]|]; [|by apply delayed_modify].
  assert (∀ X (d : X) f, steps stays_delayed (settings d f)) as Hs by (intros; apply delayed_same, same_settings).
  repeat first [apply Hs | steps_step | by apply delayed_modify].
Qed.
Lemma delayed_append_kill : steps stays_delayed appendKillSwitchConfig.
Proof.
  unfold appendKillSwitchConfig.
  assert (∀ X (d : X) f, steps stays_delayed (settings d f)) as Hs by (intros; apply delayed_same, same_settings).
  repeat first [apply Hs | steps_step | by apply delayed_modify].
Qed.
Lemma delayed_create container : steps stays_delayed (create_protocol env container).
Proof.
  unfold create_protocol, createProtocolConnections. steps_step; [steps_tac|].
  pose proof delayed_set_state. pose proof delayed_start.
  destruct (pr_factory _ _) as [p|]; [destruct (pr_prepare p) as [l p']|].
  all: repeat first [apply delayed_receive_all | steps_step | by apply delayed_modify | by auto].
Qed.

Lemma delayed_connect container config : steps stays_delayed (connectToVpn env container config).
Proof.
  unfold connectToVpn.
  set (rest := λ _ : unit, c ← get; _).
  assert (steps stays_delayed (rest tt)) as Hr.
  { unfold rest. pose proof delayed_set_state. pose proof delayed_stop. pose proof delayed_drop.
    pose proof delayed_append_kill. pose proof delayed_append_split. pose proof delayed_create.
    assert (∀ X (d : X) f, steps stays_delayed (settings d f)) as Hs by (intros; apply delayed_same, same_settings).
    repeat first [apply Hs | steps_step | by apply delayed_modify | by auto]. }
  intros c H. rewrite bind_run, bind_run. apply Hr. exact (delayed_cancel false c H).
Qed.
Lemma delayed_disconnect : steps stays_delayed (disconnectFromVpn env).
Proof.
  unfold disconnectFromVpn.
  set (rest := λ _ : unit, c ← get; _).
  assert (steps stays_delayed (rest tt)) as Hr.
  { unfold rest. pose proof delayed_set_state. pose proof delayed_stop. pose proof delayed_drop.
    repeat first [steps_step | by auto]. }
  intros c H. rewrite bind_run, bind_run. apply Hr. exact (delayed_cancel true c H).
Qed.
Lemma delayed_timeout : steps stays_delayed (reconnect_timeout env).
Proof.
  apply steps_bind_get. intros c. destruct (m_reconnectTimer c); [|by intros H].
  intros [Ha Ht]. rewrite bind_run. apply delayed_reconnect. split; [done|by intros d].
Qed.

Lemma delayed_happen e : steps stays_delayed (happen env e).
Proof.
  destruct e as [? ?| | | | |i site addresses|e|b| |r]; cbn [happen].
  - apply delayed_connect.
  - apply delayed_disconnect.
  - unfold triggered. pose proof delayed_reconnect. steps_tac.
  - apply delayed_timeout.
  - apply delayed_same, same_sites_timeout.
  - apply delayed_same, same_onResolved.
  - unfold protocol_event. steps_step; [steps_tac|]. destruct (m_vpnProtocol a) as [p|]; [|steps_tac].
    destruct (pr_event e p). steps_step; [by apply delayed_modify|apply delayed_receive_all].
  - apply delayed_same, same_with_interface, same_ipc.
  - by apply delayed_modify.
  - by apply delayed_modify.
Qed.

Lemma delay_values i : 0 ≤ i → reconnectDelayMsec i ∈ [1000; 2000; 5000; 15000; 30000].
Proof.
  intros Hi. unfold reconnectDelayMsec. cbn [length delaysSec].
  destruct (decide (i < 5)) as [Hlt|Hge].
  - assert (i = 0 ∨ i = 1 ∨ i = 2 ∨ i = 3 ∨ i = 4) as H by lia.
    destruct H as [->|[->|[->|[->| ->]]]]; cbn; listed.
  - rewrite (proj2 (Z.ltb_ge i (Z.of_nat 5))) by lia. cbn. listed.
Qed.
Lemma delay_grows i j : 0 ≤ i ≤ j → reconnectDelayMsec i ≤ reconnectDelayMsec j.
Proof.
  intros Hij. unfold reconnectDelayMsec. cbn [length delaysSec].
  assert (∀ k, 0 ≤ k → k = 0 ∨ k = 1 ∨ k = 2 ∨ k = 3 ∨ k = 4 ∨ 5 ≤ k) as H by lia.
  assert (∀ k, 5 ≤ k → (k <? Z.of_nat 5) = false) as H5 by (intros; apply Z.ltb_ge; lia).
  destruct (H i ltac:(lia)) as [->|[->|[->|[->|[->|Hi]]]]], (H j ltac:(lia)) as [->|[->|[->|[->|[->|Hj]]]]];
    try rewrite (H5 i Hi); try rewrite (H5 j Hj); first [lia | vm_compute; discriminate].
Qed.

(** *** A timer that cannot be started *)
Lemma never_pending (c : connection T P) : same_thread env = false → delayed armable (machine_of c) → m_reconnectTimer c = None.
Proof.
  intros Hth [_ Hd]. destruct (m_reconnectTimer c) as [d|] eqn:Ed; [|done]. destruct (Hd d Ed) as [Hb _]. congruence.
Qed.
(** No attempt is made. *)
Definition unprompted (c c' : connection T P) : Prop :=
  delayed armable (machine_of c) → delayed armable (machine_of c') ∧ attempts c' = attempts c.
#[local] Instance unprompted_preorder : PreOrder unprompted.
Proof.
  split; [by intros c H|]. intros c1 c2 c3 H12 H23 H1. destruct (H12 H1) as [H2 E2]. destruct (H23 H2). split; [done|congruence].
Qed.
Lemma unprompted_happen e : same_thread env = false → e ≠ Triggered → (∀ container config, e ≠ Connect container config) →
  steps unprompted (happen env e).
Proof.
  intros Hth He1 He2 c Hc. split; [by apply delayed_happen|]. destruct e as [container config| | | | |i site addresses|e|b| |r]; cbn [happen].
  - by destruct (He2 container config).
  - apply disconnect_rests.
  - done.
  - unfold reconnect_timeout. rewrite bind_run. cbn [get fst snd]. by rewrite (never_pending c Hth Hc).
  - apply (same_sites_timeout env).
  - apply (same_onResolved env i site addresses).
  - unfold protocol_event. rewrite bind_run. cbn [get fst snd]. destruct (m_vpnProtocol c) as [p|]; [|done].
    destruct (pr_event e p) as [o p']. rewrite bind_run. by destruct (receive_all_heard env true o (update_protocol p' c).2) as [_ _ _ _ _ ->].
  - apply (same_with_interface env _ (same_ipc (RefreshKillSwitch b))).
  - done.
  - done.
Qed.

End delays.

(** *** Attempts that fail *)
Section failures.
Context {T P E : Type} {A : Store T} {Q : Qt} {J : JsonCodec} {AP : ArrayPrinter} {PR : Protocol P E} (env : environment).

(** *** Attempts that stay silent *)
Definition only_disconnected (l : list output) : Prop := Forall (.= Vpn.Disconnected) (signalled l).

(** Not the user, and nothing from the protocol but that it is disconnected. *)
Definition quiet (e : event T E) : Prop :=
  match e with
  | Connect _ _ | Disconnect => False
  | ProtocolEvent e => ∀ p, only_disconnected (pr_event e p).1
  | _ => True
  end.

Definition waits (c c' : connection T P) : Prop :=
  m_connectionState c = Vpn.Reconnecting → m_connectionState c' = Vpn.Reconnecting ∧ attempts c' = attempts c.
#[local] Instance waits_preorder : PreOrder waits.
Proof.
  split; [by intros c H|]. intros c1 c2 c3 H12 H23 H1. destruct (H12 H1) as [H2 E2].
  destruct (H23 H2) as [H3 E3]. split; congruence.
Qed.
Lemma waits_same {X} (m : stM (connection T P) X) : steps same_machine m → steps waits m.
Proof.
  intros Hm c Hc. destruct (Hm c) as [Hk _ _ _ _ Ha]. unfold machine_of in Hk. injection Hk as Hk _ _ _. split; congruence.
Qed.
Lemma waits_reconnect : steps waits (reconnectToVpn env).
Proof.
  intros c Hc. unfold reconnectToVpn. rewrite bind_run. cbn [get fst snd]. destruct (m_vpnProtocol c); [|done].
  rewrite Hc. cbn. done.
Qed.

Lemma waits_happen e : quiet e → steps waits (happen env e).
Proof.
  intros He. destruct e as [? ?| | | | |i site addresses|e|b| |r]; cbn [happen quiet] in *; try done.
  - unfold triggered. pose proof waits_reconnect. steps_tac.
  - unfold reconnect_timeout. steps_step; [steps_tac|]. destruct (m_reconnectTimer a); [|steps_tac].
    pose proof waits_reconnect. steps_tac. by apply steps_modify.
  - apply waits_same, same_sites_timeout.
  - apply waits_same, same_onResolved.
  - unfold protocol_event. steps_step; [steps_tac|]. destruct (m_vpnProtocol a) as [p|]; [|steps_tac].
    specialize (He p). destruct (pr_event e p) as [l p']. steps_step; [by apply steps_modify|].
    intros c Hc. destruct (receive_all_heard env true l c) as [M _ _ _ _ Ha]. split; [|done].
    change (state (machine_of (receive_all env true l c).2) = Vpn.Reconnecting). rewrite M, enter_all_stuck; [done|done|].
    destruct (slots c); [exact He|constructor].
  - apply waits_same, same_with_interface, same_ipc.
Qed.

Lemma silent_attempt (c : connection T P) (p : P) (l : list (event T E)) :
  m_vpnProtocol c = Some p → slots c = true → may_retry (machine_of c) = true →
  only_disconnected (pr_stop p).1 → only_disconnected (pr_start (pr_stop p).2).1.2 →
  let c1 := (reconnectToVpn env c).2 in
  m_connectionState c1 = Vpn.Reconnecting ∧
  ((pr_start (pr_stop p).2).1.1 ≠ 0 → same_thread env = true →
     m_reconnectTimer c1 = Some (reconnectDelayMsec (m_reconnectAttempt c1))) ∧
  (Forall quiet l → let c2 := (run env l c1).2 in
     m_connectionState c2 = Vpn.Reconnecting ∧ attempts c2 = (attempts c + 1)%nat).
Proof.
  intros Hp Hs Hk H1 H2. cbv zeta. destruct (reconnect_spec env c p Hp Hs) as (M & _ & _ & _ & Ac).
  rewrite Hk in Ac. set (c1 := (reconnectToVpn env c).2) in *. clearbody c1.
  unfold retry in M. rewrite Hk in M. unfold may_retry in Hk. apply andb_true_iff in Hk as [_ Hu%negb_true_iff].
  set (k0 := mkMachine _ _ _ _) in M.
  assert (enter (same_thread env) Vpn.Reconnecting k0 = mkMachine Vpn.Reconnecting (timer k0) (attempt k0) false) as Ek.
  { unfold enter, k0. by rewrite Hu. }
  rewrite Ek, (enter_all_stuck _ (signalled (pr_stop p).1)), enter_all_stuck in M by first [exact H1 | exact H2 | done].
  assert (m_connectionState c1 = Vpn.Reconnecting) as Hst.
  { change (state (machine_of c1) = Vpn.Reconnecting). rewrite M. destruct (_ =? 0); [done|].
    unfold schedule. by destruct (_ || _). }
  split_and!; [exact Hst| |].
  - intros He Hth. apply Z.eqb_neq in He. rewrite He in M. unfold schedule in M. rewrite Hth in M. cbn [user orb negb] in M.
    unfold machine_of in M. injection M as _ Mt Ma _. by rewrite Mt, Ma.
  - intros Hl. assert (steps waits (run env l)) as Hw.
    { apply steps_for_each_in; [apply _|]. intros e He. apply waits_happen. by apply (proj1 (Forall_forall _ _) Hl). }
    destruct (Hw c1 Hst) as [H3 H4]. split; [done|]. lia.
Qed.
End failures.

(** ** What the desktop's protocols put out *)

(** From [p] to [p'], only outputs that satisfy [F] were added. *)
Definition adds {X} (F : output → Prop) (p p' : protocol X) : Prop := ∃ l, outputs p' = outputs p ++ l ∧ Forall F l.
#[export] Instance adds_preorder {X} F : PreOrder (@adds X F).
Proof.
  split; [intros p; exists []; split; [by rewrite app_nil_r|constructor]|].
  intros p1 p2 p3 (l & E1 & H1) (l' & E2 & H2). exists (l ++ l'). by rewrite E2, E1, app_assoc, Forall_app.
Qed.

Section adds.
Context {X : Type} (F : output → Prop).
Abbreviation addsF := (@adds X F).

Lemma adds_put o : F o → steps addsF (put_output o).
Proof. intros Ho. apply steps_modify. intros p. exists [o]. split; [done|by constructor]. Qed.
Lemma adds_silent f : (∀ p, outputs (f p) = outputs p) → steps addsF (modify f).
Proof. intros Hf. apply steps_modify. intros p. exists []. split; [by rewrite Hf, app_nil_r|constructor]. Qed.
Lemma adds_call `{V : Service} c : F (Ipc c) → steps addsF (call c).
Proof. intros Hc. unfold call. steps_step; [steps_tac|]. steps_step; [by apply adds_put|steps_tac]. Qed.
Lemma adds_withInterface `{V : Service} {B} (m : stM (protocol X) B) b : steps addsF m → steps addsF (withInterface m b).
Proof. intros Hm. unfold withInterface. steps_tac. Qed.
Lemma adds_setConnectionState s : F (Signal (ConnectionStateChanged s)) → steps addsF (VpnProtocol.setConnectionState s).
Proof.
  intros Hs. unfold VpnProtocol.setConnectionState. steps_tac; try by apply adds_silent. by apply adds_put.
Qed.

(** The outputs a run reports are those it added. *)
Lemma adds_ran {R} (m : stM (protocol X) R) p : steps addsF m → Forall F (ran m p).1.2.
Proof.
  intros Hm. destruct (Hm p) as (l & E & Hl). unfold ran. destruct (m p) as [r p']. cbn in *.
  by rewrite E, drop_app_length.
Qed.
End adds.

Create HintDb adds.
#[export] Hint Resolve adds_call adds_setConnectionState adds_put : adds.
Ltac adds_tac := repeat first [steps_step | apply adds_withInterface | solve [apply adds_silent; done] | progress (eauto with adds)].

(** No state but [Disconnected] is signalled. *)
Definition mild (o : output) : Prop :=
  match o with Signal (ConnectionStateChanged s) => s = Vpn.Disconnected | _ => True end.
#[export] Hint Extern 1 (mild _) => first [exact I | exact eq_refl] : adds.
Lemma mild_only l : Forall mild l → only_disconnected l.
Proof.
  unfold only_disconnected. induction 1 as [|o l Ho _ IH]; [constructor|].
  destruct o as [|[]| | |]; cbn in *; try exact IH. by constructor.
Qed.

Section mild.
Context {Q : Qt} {J : JsonCodec} {V : Service} (ms : machines).

(** Controllers' outputs that the protocol does not turn into [Connected]. *)
Lemma mild_on_impl (op : stM LocalSocketController.Controller unit) :
  (∀ c, Forall (λ o, ∀ k, o ≠ LocalSocketController.Connected k) (LocalSocketController.out (run_state op (with_out [] c)))) →
  steps (adds mild) (on_impl op).
Proof.
  intros Hop. apply steps_bind_get. intros p. specialize (Hop (m_impl (own p))).
  set (c := run_state op _) in *. clearbody c. rewrite bind_run.
  etrans; [|apply (steps_for_each_in (adds mild))].
  - exists []. split; [by rewrite app_nil_r|constructor].
  - intros o Ho. pose proof (proj1 (Forall_forall _ _) Hop o Ho) as Hc. unfold deliver.
    assert (∀ l g, steps (@adds wireguard mild) (set_addresses l g)) by (intros; by apply adds_silent).
    assert (∀ s, steps (@adds wireguard mild) (emit (TunnelAddressesUpdated s.1 s.2))) by (intros; by apply adds_put).
    steps_step; [by apply adds_put|]. destruct o; try solve [adds_tac]. exfalso. by eapply Hc.
Qed.

Lemma mild_wireguard_stop : steps (@adds wireguard mild) stop.
Proof.
  unfold stop, stopMzImpl. steps_step. steps_step; [|steps_tac]. apply mild_on_impl. intros c.
  unfold LocalSocketController.deactivate, run_state. rewrite bind_run. cbn [get fst snd].
  case_decide; repeat (constructor; [done|]); constructor.
Qed.
Lemma mild_wireguard_start : steps (@adds wireguard mild) (start (wireguard_lookup ms)).
Proof.
  unfold start, startMzImpl, modify_own. steps_step; [by apply adds_silent|]. steps_step; [steps_tac|].
  steps_step; [|steps_tac]. apply mild_on_impl. intros c. repeat (constructor; [done|]). constructor.
Qed.

Lemma mild_xray_stop : steps (@adds XrayProtocol.xray mild) (XrayProtocol.stop (xray_env ms)).
Proof. unfold XrayProtocol.stop, XrayProtocol.set_process, modify_own. adds_tac. Qed.
Lemma mild_tun2socks : steps (@adds XrayProtocol.xray mild) (XrayProtocol.startTun2Socks (xray_env ms)).
Proof. unfold XrayProtocol.startTun2Socks, XrayProtocol.set_process, modify_own. adds_tac. Qed.
Lemma mild_xray_start : steps (@adds XrayProtocol.xray mild) (XrayProtocol.start (xray_env ms)).
Proof.
  pose proof mild_tun2socks. unfold XrayProtocol.start, XrayProtocol.set_credentials, modify_own. adds_tac.
Qed.

Definition is_openvpn (d : desktop) : bool := match d with OpenVpn _ => true | _ => false end.

Lemma mild_stop d : is_openvpn d = false → only_disconnected (desktop_stop ms d).1.
Proof.
  intros Hd. apply mild_only. destruct d as [p|p|p]; [done| |]; cbn [desktop_stop outs fst].
  - by apply adds_ran, mild_wireguard_stop.
  - by apply adds_ran, mild_xray_stop.
Qed.
Lemma mild_start d : is_openvpn d = false → only_disconnected (desktop_start ms d).1.2.
Proof.
  intros Hd. apply mild_only. destruct d as [p|p|p]; [done| |]; cbn [desktop_start].
  - pose proof (adds_ran mild _ p mild_wireguard_start) as H. by destruct (ran _ p) as [[? ?] ?].
  - pose proof (adds_ran mild _ p mild_xray_start) as H. destruct (ran _ p) as [[[?|] ?] ?]; [done|].
    cbn in *. apply Forall_app. split; [done|]. by constructor.
Qed.
End mild.

Section waiting.
Context {T : Type} {A : Store T} {Q : Qt} {J : JsonCodec} {AP : ArrayPrinter} {V : Service}
  (os : platform) (ms : machines) (env : environment).
Abbreviation PR := (desktop_protocol os ms).

(** An attempt over WireGuard, AmneziaWG or Xray leaves the connection
    [Reconnecting], whatever its start answers; from there neither retries that
    fall due nor networks that come back start it again: the connection waits
    for its protocol to signal that it is up or broken, or for the user. *)
Theorem retry_waits_for_protocol (c : connection T desktop) (d : desktop) (l : list (event T desktop_event)) :
  m_vpnProtocol c = Some d → is_openvpn d = false → slots c = true → may_retry (machine_of c) = true →
  Forall (@quiet T desktop desktop_event PR) l →
  let c' := (run (PR := PR) env l (reconnectToVpn (PR := PR) env c).2).2 in
  m_connectionState c' = Vpn.Reconnecting ∧ attempts c' = (attempts c + 1)%nat.
Proof.
  intros Hp Hd Hs Hk Hl.
  assert (is_openvpn (desktop_stop ms d).2 = false) as Hd' by (destruct d; done).
  destruct (silent_attempt (PR := PR) env c d l Hp Hs Hk) as (_ & _ & H).
  - by apply mild_stop.
  - by apply mild_start.
  - by apply H.
Qed.
End waiting.

(** *** The kill switch during a retry *)

(** Whether the kill switch is on after some outputs. *)
Definition kill_switch (on : bool) (l : list output) : bool :=
  foldl (λ on o, match o with Ipc (EnableKillSwitch _ _) => true | Ipc DisableKillSwitch => false | _ => on end) on l.

Definition no_enable (o : output) : Prop := match o with Ipc (EnableKillSwitch _ _) => False | _ => True end.
#[export] Hint Extern 1 (no_enable _) => exact I : adds.

Lemma kill_switch_stays_off l : Forall no_enable l → kill_switch false l = false.
Proof. unfold kill_switch. induction 1 as [|o l Ho _ IH]; [done|]. by destruct o as [[]| | | |]. Qed.
Lemma kill_switch_off l b : Forall no_enable l → Ipc DisableKillSwitch ∈ l → kill_switch b l = false.
Proof.
  intros Hl [l1 [l2 ->]]%list_elem_of_split. apply Forall_app in Hl as [_ [_ Hl]%Forall_cons].
  unfold kill_switch. rewrite foldl_app. cbn. by apply kill_switch_stays_off.
Qed.

Section opens.
Context {X : Type} {V : Service}.
Abbreviation keeps := (steps (@adds X no_enable)).

(** [m] disables the kill switch and does not enable it. *)
Definition disables {R} (m : stM (protocol X) R) : Prop :=
  ∀ p, ∃ l, outputs (m p).2 = outputs p ++ l ∧ Forall no_enable l ∧ Ipc DisableKillSwitch ∈ l.
Lemma disables_call : disables (call DisableKillSwitch).
Proof. intros p. exists [Ipc DisableKillSwitch]. split_and!; [done|by repeat constructor|by left]. Qed.
Lemma disables_first {R S} (m : stM (protocol X) R) (f : R → stM (protocol X) S) :
  disables m → (∀ r, keeps (f r)) → disables (m ≫= f).
Proof.
  intros Hm Hf p. rewrite bind_run. destruct (Hm p) as (l1 & E1 & H1 & D). destruct (Hf (m p).1 (m p).2) as (l2 & E2 & H2).
  exists (l1 ++ l2). rewrite E2, E1, app_assoc, Forall_app, elem_of_app. auto.
Qed.
Lemma disables_then {R S} (m : stM (protocol X) R) (f : R → stM (protocol X) S) :
  keeps m → (∀ r, disables (f r)) → disables (m ≫= f).
Proof.
  intros Hm Hf p. rewrite bind_run. destruct (Hm p) as (l1 & E1 & H1). destruct (Hf (m p).1 (m p).2) as (l2 & E2 & H2 & D).
  exists (l1 ++ l2). rewrite E2, E1, app_assoc, Forall_app, elem_of_app. auto.
Qed.
Lemma disables_withInterface (m : stM (protocol X) unit) :
  (∀ l, service_valid l = true) → disables m → disables (withInterface m tt).
Proof. intros Hv Hm p. unfold withInterface. rewrite bind_run. cbn [get fst snd]. rewrite Hv. apply Hm. Qed.
Lemma disables_ran {R} (m : stM (protocol X) R) p :
  disables m → Forall no_enable (ran m p).1.2 ∧ Ipc DisableKillSwitch ∈ (ran m p).1.2.
Proof.
  intros Hm. destruct (Hm p) as (l & E & H). unfold ran. destruct (m p) as [r p']. cbn in *.
  by rewrite E, drop_app_length.
Qed.
End opens.

Section opening.
Context {Q : Qt} {J : JsonCodec} {V : Service} (ms : machines).
Hypothesis service_up : ∀ l, service_valid l = true.

Lemma openvpn_disables : disables (OpenVpnProtocol.stop (openvpn_env ms)).
Proof.
  assert (disables (OpenVpnProtocol.cleanupResources (openvpn_env ms))) as Hc.
  { unfold OpenVpnProtocol.cleanupResources. apply disables_then; [steps_tac|]. intros p.
    apply disables_then.
    { unfold OpenVpnProtocol.sendTermSignal, OpenVpnProtocol.killOpenVpnProcess, OpenVpnProtocol.writeCommand,
        OpenVpnProtocol.server. adds_tac. }
    intros []. apply disables_then.
    { unfold OpenVpnProtocol.server_stop, OpenVpnProtocol.set_management, OpenVpnProtocol.server, modify_own. adds_tac. }
    intros []. apply disables_withInterface; [done|]. apply disables_first; [apply disables_call|]. intros. steps_tac. }
  unfold OpenVpnProtocol.stop. apply disables_then; [steps_tac|]. intros p.
  apply disables_then; [adds_tac|]. intros []. apply disables_first; [exact Hc|]. intros []. adds_tac.
Qed.
Lemma openvpn_start_keeps : steps (adds no_enable) (OpenVpnProtocol.start (openvpn_env ms)).
Proof.
  unfold OpenVpnProtocol.start, OpenVpnProtocol.start_process, OpenVpnProtocol.create_process, OpenVpnProtocol.set_process,
    OpenVpnProtocol.server_start, OpenVpnProtocol.cleanupResources, OpenVpnProtocol.sendTermSignal,
    OpenVpnProtocol.killOpenVpnProcess, OpenVpnProtocol.writeCommand, OpenVpnProtocol.server_stop, OpenVpnProtocol.server,
    OpenVpnProtocol.set_management, setLastError, modify_own.
  adds_tac.
Qed.
Lemma xray_disables : disables (XrayProtocol.stop (xray_env ms)).
Proof.
  unfold XrayProtocol.stop, XrayProtocol.set_process, modify_own. apply disables_first; [|intros []; adds_tac].
  apply disables_withInterface; [done|]. apply disables_first; [apply disables_call|]. intros []; adds_tac.
Qed.
Lemma xray_start_keeps : steps (adds no_enable) (XrayProtocol.start (xray_env ms)).
Proof.
  unfold XrayProtocol.start, XrayProtocol.startTun2Socks, XrayProtocol.set_credentials, XrayProtocol.set_process, modify_own.
  adds_tac.
Qed.

Definition is_wireguard (d : desktop) : bool := match d with WireGuard _ => true | _ => false end.
End opening.

Section opening_claim.
Context {Q : Qt} {J : JsonCodec} {V : Service} (ms : machines).

(** Retrying opens the kill switch: while the service answers, stopping and
    starting OpenVPN or Xray, which is what an attempt does, disables the kill
    switch and does not enable it again; traffic is not blocked until the
    protocol is up again. *)
Theorem retry_opens_kill_switch (d : desktop) (on : bool) :
  (∀ l, service_valid l = true) → is_wireguard d = false →
  let stopped := desktop_stop ms d in
  let started := desktop_start ms stopped.2 in
  kill_switch on (stopped.1 ++ started.1.2) = false.
Proof.
  intros Hv Hd. cbv zeta.
  enough ((Forall no_enable (desktop_stop ms d).1 ∧ Ipc DisableKillSwitch ∈ (desktop_stop ms d).1) ∧
    Forall no_enable (desktop_start ms (desktop_stop ms d).2).1.2) as [[H1 H2] H3].
  { apply kill_switch_off; [by apply Forall_app|]. apply elem_of_app. by left. }
  destruct d as [p|p|p]; [|done|]; cbn [desktop_stop outs fst snd].
  - split; [by apply disables_ran, openvpn_disables|]. cbn [desktop_start].
    pose proof (adds_ran no_enable _ (ran (OpenVpnProtocol.stop (openvpn_env ms)) p).2 (openvpn_start_keeps ms)) as H.
    by destruct (ran (OpenVpnProtocol.start _) _) as [[? ?] ?].
  - split; [by apply disables_ran, xray_disables|]. cbn [desktop_start].
    pose proof (adds_ran no_enable _ (ran (XrayProtocol.stop (xray_env ms)) p).2 (xray_start_keeps ms)) as H.
    destruct (ran (XrayProtocol.start _) _) as [[[?|] ?] ?]; [done|]. apply Forall_app. split; [done|by repeat constructor].
Qed.
End opening_claim.

(** ** Witnesses *)
Module samples.
#[local] Instance qt : Qt := plain_qt.
#[local] Instance codec : JsonCodec := fixed_codec [].
#[local] Instance printer : ArrayPrinter := fixed_printer.
(** A service that answers, but creates no process. *)
#[local] Instance service : Service := {|
  service_valid _ := true;
  service_ok _ c := match c with CreatePrivilegedProcess => false | _ => true end;
  service_taps _ := Some ["tap0"];
|}.
Abbreviation store := (gmap string variant).

Definition ms : machines := mkMachines
  (OpenVpnProtocol.mkMachine (λ _, false) (λ _, true) (λ _, 7) (λ _, true) "/tmp/client.ovpn" (λ _, []))
  (λ _, []) (λ _, None)
  (XrayProtocol.mkMachine (XrayProtocol.mkRandomness (Some 20000) (λ _, [1; 2])) (λ _, []) "192.168.0.1" (λ _, true) (λ _, true))
  0.
Definition env : environment := mkEnvironment Linux (λ _, []) (λ _, true) true.
#[local] Instance protocols : Protocol desktop desktop_event := desktop_protocol Linux ms.

(** The connection after a failed attempt over [d]. *)
Definition failed (d : desktop) : connection store desktop :=
  mkConnection None (Some d) true ∅ "203.0.113.7" Vpn.Error (Some 1000) 0 false 1 [] [] [].

Definition broken (l : list output) : desktop :=
  OpenVpn (mkProtocol Vpn.Error 603 0 0 "" "" "" false l
             (OpenVpnProtocol.mkOpenVpn (OpenVpnProtocol.mkManagement true false []) "/tmp/client.ovpn" ∅ false)).
End samples.

Section witnesses.
Import samples.
#[local] Existing Instances qt codec printer service protocols.

Definition xray_down : desktop := Xray (XrayProtocol.XrayProtocol (xray_env ms) 0 ∅).

Lemma retry_waits_for_protocol_witness :
  may_retry (machine_of (failed xray_down)) = true ∧
  let c' := (run env [Triggered; RetryTimeout; Triggered] (reconnectToVpn env (failed xray_down)).2).2 in
  m_connectionState c' = Vpn.Reconnecting ∧ attempts c' = 1%nat.
Proof.
  split; [vm_compute; reflexivity|].
  apply (retry_waits_for_protocol Linux ms env (failed xray_down) xray_down [Triggered; RetryTimeout; Triggered]).
  - reflexivity.
  - reflexivity.
  - reflexivity.
  - vm_compute. reflexivity.
  - repeat constructor.
Defined.

Lemma retry_opens_kill_switch_witness :
  is_wireguard (broken []) = false ∧
  kill_switch true ((desktop_stop ms (broken [])).1 ++ (desktop_start ms (desktop_stop ms (broken [])).2).1.2) = false.
Proof. split; [reflexivity|]. apply (retry_opens_kill_switch ms (broken []) true); [intros; reflexivity|reflexivity]. Defined.

Lemma user_disconnect_respected_witness :
  let c := failed (broken []) in let l := [Triggered; RetryTimeout; Triggered] in
  Forall (λ e : event store desktop_event, ∀ container config, e ≠ Connect container config) l ∧
  m_vpnProtocol (run env l (disconnectFromVpn env c).2).2 = None.
Proof.
  cbv zeta. assert (Forall (λ e : event store desktop_event, ∀ container config, e ≠ Connect container config)
    [Triggered; RetryTimeout; Triggered]) as Hl by (repeat (constructor; [intros ? ?; discriminate|]); constructor).
  split; [exact Hl|]. exact (proj1 (user_disconnect_respected env (failed (broken [])) _ Hl)).
Defined.

(** A failed start, from the beginning. *)
Definition fresh : connection store desktop :=
  mkConnection (Some (mkRepository ∅ ∅ [] "" [] 0)) None false ∅ "" Vpn.Disconnected None 0 false 0 [] [] [].
Definition connect_once : list (event store desktop_event) :=
  [Connect DockerContainer.OpenVpn (<["openvpn_config_data" := JString ""]> ∅); RetryTimeout].

End witnesses.
