(* ===== verification/ConnectionSites.v ===== *)
(** * ConnectionSites: split sites, from the settings to the daemon's request

    [VpnConnection.appendSplitTunnelingConfig] puts the sites the user listed into
    the configuration; [LocalSocketController.activate] turns the configuration
    into the daemon's request.  What the two do together. *)
From S2P Require Import Prelude Text Json IpAddress Qt Wire Containers NetworkUtilities ServerConfig Settings.
From S2P Require Import ServersRepository AppSettings VpnProtocol VpnConnection.
From S2P Require LocalSocketController.

Section sites.
Context {T P : Type} {A : Store T} {L : StoreLaws T} {Q : Qt}.
Abbreviation M := (stM (connection T P)).

Definition holding (m : gmap string variant) (c : connection T P) : Prop :=
  ∃ r, repositories c = Some r ∧ represents_map (m_settings r) m.
Definition reads {X} (m : gmap string variant) (f : T → X * T) (x : X) : Prop :=
  ∀ s, represents_map s m → ∃ s', f s = (x, s') ∧ represents_map s' m.

Lemma reads_vpn_read {X} m key d (f : variant → X) : key ≠ own_key → reads m (vpn_read key d f) (f (default d (m !! key))).
Proof. intros Hk s Hs. by apply read_spec. Qed.

Lemma settings_bind {X Y} m d (f : T → X * T) x (k : X → M Y) c :
  holding m c → reads m f x → ∃ c', (settings d f ≫= k) c = k x c' ∧ holding m c'.
Proof.
  intros (r & Hr & Hm) Hf. rewrite bind_run. unfold settings. rewrite bind_run. cbn [get fst snd]. rewrite Hr.
  destruct (Hf _ Hm) as (s' & -> & Hs). rewrite bind_run. cbn [set_repositories modify fst snd mret stM_ret].
  eexists. split; [done|]. by eexists.
Qed.

Lemma app_list_key_ok mode : "Conf/" +:+ appsRouteModeString mode ≠ own_key.
Proof. unfold appsRouteModeString. repeat case_match; discriminate. Qed.

(** The next call of the settings answers as the map does. *)
Ltac read_setting R :=
  match goal with
  | H : holding ?m ?c |- context [(settings ?d ?f ≫= ?k) ?c] =>
      let c' := fresh "c" in let H' := fresh "H" in
      destruct (settings_bind m d f _ k c H (R ltac:(first [discriminate | apply sites_key_ok | apply app_list_key_ok]))) as (c' & -> & H'); clear H
  end.

Definition sites_split (m : gmap string variant) : bool := vBool (default (VBool false) (m !! "Conf/sitesSplitTunnelingEnabled")).
Definition sites_mode (m : gmap string variant) : Z := vInt (default (VInt 0) (m !! "Conf/routeMode")).

(** What is left for the applications does not touch the sites. *)
Definition with_apps (config' : gmap string json) (config : gmap string json) : Prop :=
  ∀ k, k ≠ "splitTunnelApps" → k ≠ "appSplitTunnelType" → Json.value config' k = Json.value config k.

Lemma append_split m c config :
  holding m c → sites_split m = true → fill_config_data (m_vpnConfiguration c) = Some (config, true) →
  let '(mode, sites) := split_sites true true (sites_mode m) (sites_of m (sites_mode m)) config in
  with_apps (m_vpnConfiguration (appendSplitTunnelingConfig c).2)
            (<["splitTunnelSites" := JArray sites]> (<["splitTunnelType" := JInt mode]> config)).
Proof.
  intros H He Hc. unfold appendSplitTunnelingConfig. rewrite bind_run. cbn [get fst snd].
  destruct H as (r & Hr & Hm). rewrite Hr, Hc. assert (holding m c) as H by by exists r. clear Hr Hm r.
  read_setting (reads_vpn_read m "Conf/sitesSplitTunnelingEnabled" (VBool false) vBool).
  fold (sites_split m). rewrite He.
  read_setting (reads_vpn_read m "Conf/routeMode" (VInt 0) vInt). fold (sites_mode m).
  cbn [andb]. read_setting (reads_vpn_read m (sites_key (sites_mode m)) VInvalid vMap).
  fold (sites_of m (sites_mode m)).
  destruct (split_sites _ _ _ _ _) as [mode sites].
  read_setting (reads_vpn_read m "Conf/appsSplitTunnelingEnabled" (VBool false) vBool).
  intros k H1 H2.
  destruct (vBool _).
  - read_setting (reads_vpn_read m "Conf/appsRouteMode" (VInt 0) vInt).
    read_setting (reads_vpn_read m ("Conf/" +:+ appsRouteModeString (vInt (default (VInt 0) (m !! "Conf/appsRouteMode")))) VInvalid (λ v, app_of <$> vJsonArray v)).
    destruct (split_apps _ _ _) as [am apps]. cbn [set_configuration modify snd m_vpnConfiguration]. unfold Json.value.
    by rewrite lookup_insert_ne, lookup_insert_ne.
  - rewrite !bind_run. destruct (split_apps _ _ _) as [am apps]. cbn [set_configuration modify snd m_vpnConfiguration]. unfold Json.value.
    by rewrite lookup_insert_ne, lookup_insert_ne.
Qed.

(** The configuration of a WireGuard or AmneziaWG connection, its data filled in. *)
Lemma fill_wireguard config proto l :
  proto ∈ [Proto.Awg; Proto.WireGuard] → text config "protocol" = protoToString proto →
  Json.value (toObject (Json.value config (protoToString proto +:+ "_config_data"))) "allowed_ips" = Some (JArray l) →
  ∃ config', fill_config_data config =
      Some (config', existsb (is_text "0.0.0.0/0") l && existsb (is_text "::/0") l) ∧
    (∀ k, k ≠ protoToString proto +:+ "_config_data" → Json.value config' k = Json.value config k) ∧
    ∀ k, k ≠ "persistent_keep_alive" →
      Json.value (toObject (Json.value config' (protoToString proto +:+ "_config_data"))) k =
      Json.value (toObject (Json.value config (protoToString proto +:+ "_config_data"))) k.
Proof.
  intros Hp Ht Hl. unfold fill_config_data. rewrite Ht.
  assert (String.eqb (protoToString proto) (protoToString Proto.Awg) ||
          String.eqb (protoToString proto) (protoToString Proto.WireGuard) = true) as ->.
  { apply elem_of_cons in Hp as [->|Hp]; [done|]. by apply list_elem_of_singleton in Hp as ->. }
  set (data := toObject _) in *. unfold fill_allowed_ips. rewrite Hl.
  cbn [mbind option_bind].
  assert (∃ v, fill_keepalive data = (data, false) ∨ fill_keepalive data = (<["persistent_keep_alive" := JString v]> data, true)) as [v Hk].
  { unfold fill_keepalive. repeat case_match; try (exists ""; by left). eexists. by right. }
  destruct Hk as [-> | ->]; cbn [orb].
  - exists config. unfold has_default_routes. rewrite Hl. done.
  - exists (with_data (protoToString proto) (<["persistent_keep_alive" := JString v]> data) config).
    unfold has_default_routes, with_data, Json.value in *. rewrite lookup_insert_ne, Hl by done.
    split; [done|]. split; [intros k Hk; by rewrite lookup_insert_ne|].
    intros k Hk. rewrite lookup_insert_eq. cbn. by rewrite lookup_insert_ne.
Qed.

Lemma data_key_other proto k :
  proto ∈ [Proto.Awg; Proto.WireGuard] →
  k ∈ ["dns1"; "dns2"; "protocol"; "splitTunnelApps"; "appSplitTunnelType"; "splitTunnelSites"; "splitTunnelType"] →
  k ≠ protoToString proto +:+ "_config_data".
Proof.
  intros [->|[->|[]%elem_of_nil]%elem_of_cons]%elem_of_cons Hk; revert k Hk; apply Forall_forall; repeat constructor; discriminate.
Qed.

Lemma split_modes mode : mode ∈ [VpnOnlyForwardSites; VpnAllExceptSites] → mode = 1 ∨ mode = 2.
Proof. intros [->|[->|[]%elem_of_nil]%elem_of_cons]%elem_of_cons; [by left|by right]. Qed.

(** C23. The sites the user listed reach the daemon, if the default routes are
    written in the usual order: when only the sites go through the tunnel, the
    request's ranges are the sites' addresses and the two resolvers; when
    everything but them does, they are excluded.  With the default routes in any
    other order the sites are split for the firewall but the request carries the
    profile's own ranges instead, whatever the mode. *)
Theorem sites_reach_daemon (c : connection T P) m proto l :
  holding m c → sites_split m = true → proto ∈ [Proto.Awg; Proto.WireGuard] →
  let config := m_vpnConfiguration c in
  let data := toObject (Json.value config (protoToString proto +:+ "_config_data")) in
  text config "protocol" = protoToString proto → Json.value data "allowed_ips" = Some (JArray l) →
  existsb (is_text "0.0.0.0/0") l = true → existsb (is_text "::/0") l = true →
  let mode := sites_mode m in let ips := sites_ips (sites_of m mode) in
  ips ≠ [] → mode ∈ [VpnOnlyForwardSites; VpnAllExceptSites] →
  let request := LocalSocketController.activate_request (m_vpnConfiguration (appendSplitTunnelingConfig c).2) in
  Json.value request "allowedIPAddressRanges" = Some (JArray
    (if negb (LocalSocketController.is_default_allowed l) then LocalSocketController.site_range <$> l
     else if mode =? VpnOnlyForwardSites
     then LocalSocketController.site_range <$> (JString <$> ips) ++ [JString (text config "dns1"); JString (text config "dns2")]
     else [LocalSocketController.range_object "0.0.0.0" 0 false; LocalSocketController.range_object "::" 0 true])) ∧
  Json.value request "excludedAddresses" = Some (JArray
    (jelem (Json.value data "hostName") :: (if mode =? VpnAllExceptSites then JString <$> ips else []))).
Proof.
  cbv zeta. intros H He Hp Ht Hl H4 H6 Hips Hmode.
  destruct (fill_wireguard _ _ _ Hp Ht Hl) as (config' & Hf & Hc & Hd). rewrite H4, H6 in Hf.
  pose proof (append_split m c config' H He Hf) as Hs. unfold split_sites in Hs. cbn [negb] in Hs.
  destruct (sites_ips (sites_of m (sites_mode m))) as [|ip ips] eqn:Ei; [done|]. 
  set (final := m_vpnConfiguration (appendSplitTunnelingConfig c).2) in *. clearbody final.
  set (config := m_vpnConfiguration c) in *.
  assert (Json.value final "splitTunnelSites" = Some (JArray ((JString <$> ip :: ips) ++
      if sites_mode m =? VpnOnlyForwardSites then [JString (text config "dns1"); JString (text config "dns2")] else [])) ∧
    Json.value final "splitTunnelType" = Some (JInt (sites_mode m)) ∧
    Json.value final "protocol" = Json.value config "protocol" ∧
    Json.value final (protoToString proto +:+ "_config_data") = Json.value config' (protoToString proto +:+ "_config_data"))
    as (Vs & Vt & Vp & Vd).
  { pose proof (λ k, data_key_other proto k Hp) as Hne.
    assert (∀ k, k ≠ "splitTunnelSites" → k ≠ "splitTunnelType" → k ≠ "splitTunnelApps" → k ≠ "appSplitTunnelType" →
      Json.value final k = Json.value config' k) as Ho.
    { intros k ????. rewrite Hs by done. unfold Json.value. by rewrite lookup_insert_ne, lookup_insert_ne. }
    assert (∀ k, k ≠ protoToString proto +:+ "_config_data" → text config' k = text config k) as Htx.
    { intros k Hk. unfold text. by rewrite Hc. }
    split_and!.
    - rewrite Hs by done. unfold Json.value. rewrite lookup_insert_eq. f_equal. f_equal. f_equal.
      rewrite !Htx by (apply Hne; listed). done.
    - rewrite Hs by done. unfold Json.value. by rewrite lookup_insert_ne, lookup_insert_eq.
    - rewrite Ho by done. apply Hc, Hne. listed.
    - apply Ho; apply not_eq_sym, Hne; listed. }
  assert (LocalSocketController.wg_config final = toObject (Json.value config' (protoToString proto +:+ "_config_data"))) as Hw.
  { unfold LocalSocketController.wg_config. rewrite Vp.
    assert (str (toString (Json.value config "protocol")) = protoToString proto) as ->; [|by rewrite Vd].
    unfold text in Ht. destruct (Json.value config "protocol") as [[]|]; cbn in Ht |- *; try exact Ht.
    all: apply elem_of_cons in Hp as [->|Hp]; [|apply list_elem_of_singleton in Hp as ->]; discriminate. }
  rewrite LocalSocketController.req_allowed, LocalSocketController.req_excluded, Hw, Vs, Vt, !Hd, Hl by done.
  assert (l ≠ []) as Hnil by by intros ->.
  assert (toInt (Some (JInt (sites_mode m))) = sites_mode m) as -> by (by apply split_modes in Hmode as [-> | ->]).
  assert ((λ v, JString (str (toString (Some v)))) <$> (JString <$> ip :: ips) = JString <$> ip :: ips) as Htexts.
  { rewrite <- list_fmap_compose. by apply list_fmap_ext. }
  cbn [toArray]. set (sites := ip :: ips) in *. clearbody sites.
  unfold LocalSocketController.allowed_ranges, LocalSocketController.excluded_addresses.
  apply split_modes in Hmode as [-> | ->]; cbn [VpnOnlyForwardSites VpnAllExceptSites Z.eqb Pos.eqb orb app].
  - destruct (LocalSocketController.is_default_allowed l); [done|]. by destruct l.
  - rewrite app_nil_r, Htexts. destruct (LocalSocketController.is_default_allowed l); [done|]. by destruct l.
Qed.
End sites.

Section sites_witness.
Definition listed_settings : gmap string variant :=
  <["Conf/sitesSplitTunnelingEnabled" := VBool true]> (<["Conf/routeMode" := VInt 1]>
    (<["Conf/ForwardSites" := VMap (<["192.0.2.1" := VString ""]> ∅)]> ∅)).
Definition swapped_routes : list json := [JString "::/0"; JString "0.0.0.0/0"].
Definition listed_config : gmap string json :=
  <["protocol" := JString "awg"]>
    (<["awg_config_data" := JObject (<["allowed_ips" := JArray swapped_routes]> ∅)]> ∅).
Definition listed_connection : connection (gmap string variant) unit :=
  mkConnection (Some (mkRepository listed_settings ∅ [] "" [] 0)) None false listed_config "" Vpn.Connecting None 0 false 0 [] [] [].

Lemma sites_reach_daemon_witness :
  LocalSocketController.is_default_allowed swapped_routes = false ∧
  Json.value (LocalSocketController.activate_request
      (m_vpnConfiguration (appendSplitTunnelingConfig (Q := plain_qt) listed_connection).2)) "allowedIPAddressRanges" =
    Some (JArray (LocalSocketController.site_range <$> swapped_routes)).
Proof.
  split; [reflexivity|].
  assert (sites_ips (Q := plain_qt) (sites_of listed_settings (sites_mode listed_settings)) = ["192.0.2.1"]) as Hips by (vm_compute; reflexivity).
  destruct (sites_reach_daemon (Q := plain_qt) listed_connection listed_settings Proto.Awg swapped_routes) as [H _].
  - eexists. split; reflexivity.
  - reflexivity.
  - listed.
  - vm_compute. reflexivity.
  - vm_compute. reflexivity.
  - reflexivity.
  - reflexivity.
  - rewrite Hips. discriminate.
  - apply list_elem_of_here.
  - exact H.
Defined.
End sites_witness.
