(* ===== verification/Links.v ===== *)
(** * Links: share links of other clients

    Models [core/utils/serialization/]: [vless.cpp], [vmess.cpp], [vmess_new.cpp],
    [trojan.cpp], [ss.cpp], [ssd.cpp], [outbound.cpp], the structures of
    [transfer.h] these fill, and the paths of [3rd/QJsonStruct/QJsonIO.hpp].

    A reader answers the configuration, empty when it refuses, the name of the
    server and the message of the error, both as they are left in the caller's
    variables.  [QUrl], [QUrlQuery] and base64 are the class [LinkCodec]. *)
From stdpp Require Import pretty.
From S2P Require Import Prelude Text Json Wire.

(** ** Links, as Qt reads and writes them *)
Record url := mkUrl {
  isValid : bool;
  host : string;
  port : Z;                        (** -1 when there is none *)
  fragment : string;
  userInfo : string;
  userName : string;
  password : string;
  query : list (string * string);  (** keys with [queryItemValue]'s default form of their values *)
}.

(** What a [QUrl] is built from. *)
Record link := mkLink {
  l_scheme : string;
  l_userInfo : string;
  l_host : string;
  l_port : Z;
  l_query : list (string * string);
  l_fragment : string;
}.

Class LinkCodec := {
  QUrl : string → url;
  fromUserInput : string → url;
  toEncoded : link → string;               (** [toString(QUrl::FullyEncoded)] *)
  fromPercentEncoding : string → string;
  fullyDecoded : string → string;          (** the other form of a value *)
  fromBase64 : string → string;            (** without trailing [=] *)
  base64UrlDecode : string → string;
  toBase64 : string → string;
  toBase64Url : string → string;
  number_text : Q → string;                (** [arg(double)] *)
}.

Section links.
Context {LC : LinkCodec} {J : JsonCodec}.

Definition hasQueryItem (u : url) (k : string) : bool := existsb (λ e, String.eqb k e.1) (query u).
Definition queryItemValue (u : url) (k : string) : string :=
  match List.find (λ e, String.eqb k e.1) (query u) with Some e => e.2 | None => "" end.
Definition item_or (u : url) (k d : string) : string := if hasQueryItem u k then queryItemValue u k else d.
Definition decoded (u : url) (k : string) : string := fromPercentEncoding (queryItemValue u k).

(** [Utils::SafeBase64Decode] *)
Definition minus : Ascii.ascii := Ascii.ascii_of_nat 45.
Definition plus : Ascii.ascii := Ascii.ascii_of_nat 43.
Definition slash : Ascii.ascii := Ascii.ascii_of_nat 47.
Definition comma : Ascii.ascii := Ascii.ascii_of_nat 44.
Definition colon : Ascii.ascii := Ascii.ascii_of_nat 58.
Definition underscore : Ascii.ascii := Ascii.ascii_of_nat 95.
Definition SafeBase64Decode (s : string) : string :=
  fromBase64 (replace_char underscore slash (replace_char minus plus s)).

(** ** [QJsonIO::SetValue] along a path *)
Inductive key := K (k : string) | I (i : nat).

(** The element at a place of a value; [None] is [Undefined]. *)
Definition child (j : option json) (k : key) : option json :=
  match k with K k => toObject j !! k | I i => toArray j !! i end.
Definition resized (l : list json) (i : nat) : list json := l ++ replicate (S i - length l) JNull.
Definition with_child (j : option json) (k : key) (v : json) : json :=
  match k with
  | K k => JObject (<[k := v]> (toObject j))
  | I i => JArray (<[i := v]> (resized (toArray j) i))
  end.
Fixpoint set_at (j : option json) (path : list key) (v : json) : json :=
  match path with
  | [] => v
  | k :: path => with_child j k (set_at (child j k) path v)
  end.
Fixpoint get_at (j : option json) (path : list key) : option json :=
  match path with
  | [] => j
  | k :: path => get_at (child j k) path
  end.
Definition SetValue (parent : gmap string json) (v : json) (path : list key) : gmap string json :=
  toObject (Some (set_at (Some (JObject parent)) path v)).
Definition GetValue (parent : gmap string json) (path : list key) : option json := get_at (Some (JObject parent)) path.

Definition set_if (b : bool) (parent : gmap string json) (v : json) (path : list key) : gmap string json :=
  if b then SetValue parent v path else parent.

(** ** [outbound.cpp] and the local proxy *)
Definition GenerateInboundEntry : gmap string json :=
  SetValue (SetValue (SetValue (SetValue ∅ (JString "127.0.0.1") [K "listen"]) (JInt 10808) [K "port"])
              (JString "socks") [K "protocol"]) (JBool true) [K "settings"; K "udp"].

Definition GenerateFreedomOUT (domainStrategy redirect : string) : gmap string json :=
  object [member "domainStrategy" (JString domainStrategy); member "redirect" (JString redirect)].
Definition GenerateBlackHoleOUT (useHTTP : bool) : gmap string json :=
  <["response" := JObject (<["type" := JString (if useHTTP then "http" else "none")]> ∅)]> ∅.

Record shadowsocks := mkShadowSocks { ss_address : string; ss_method : string; ss_password : string; ss_port : Z }.
Definition GenerateShadowSocksServerOUT (s : shadowsocks) : gmap string json :=
  object [member "address" (JString (ss_address s)); member "port" (JInt (ss_port s));
          member "method" (JString (ss_method s)); member "password" (JString (ss_password s))].
Definition GenerateShadowSocksOUT (l : list shadowsocks) : gmap string json :=
  <["servers" := JArray ((λ s, JObject (GenerateShadowSocksServerOUT s)) <$> l)]> ∅.

Definition GenerateHTTPSOCKSOut (addr : string) (port : Z) (useAuth : bool) (username password : string) : gmap string json :=
  let root := SetValue (SetValue ∅ (JString addr) [K "servers"; I 0; K "address"]) (JInt port) [K "servers"; I 0; K "port"] in
  if useAuth then
    SetValue (SetValue root (JString username) [K "servers"; I 0; K "users"; I 0; K "user"])
      (JString password) [K "servers"; I 0; K "users"; I 0; K "pass"]
  else root.

Definition GenerateOutboundEntry (tag protocol : string) (settings streamSettings mux : gmap string json) (sendThrough : string) :
    gmap string json :=
  object [member "sendThrough" (JString sendThrough); member "protocol" (JString protocol);
          member "settings" (JObject settings); member "tag" (JString tag);
          member "streamSettings" (JObject streamSettings); member "mux" (JObject mux)].

Record trojan := mkTrojan {
  t_port : Z; t_address : string; t_password : string; sni : string; ignoreCertificate : bool; ignoreHostname : bool;
  sessionTicket : bool; tcpFastOpen : bool;
}.
Definition GenerateTrojanServerOUT (address : string) (port : Z) (password : string) : gmap string json :=
  object [member "address" (JString address); member "port" (JInt port); member "password" (JString password)].
Definition GenerateTrojanOUT (l : list trojan) : gmap string json :=
  <["servers" := JArray ((λ s, JObject (GenerateTrojanServerOUT (t_address s) (t_port s) (t_password s))) <$> l)]> ∅.

(** A configuration of one outbound behind the local proxy. *)
Definition config_of (outbound : gmap string json) (inbounds_key : string) : gmap string json :=
  object [member "outbounds" (JArray [JObject outbound]); member inbounds_key (JArray [JObject GenerateInboundEntry])].

(** ** VLESS *)
Record vless := mkVless {
  v_address : string; v_id : string; v_port : Z; v_flow : string; v_encryption : string; v_network : string;
  v_security : string; v_serverName : string; v_publicKey : string; v_shortId : string; v_fingerprint : string;
  v_spiderX : string;
}.

(** Addresses in brackets lose them. *)
Definition unbracketed (h : string) : string :=
  let n := String.length h in
  if startsWith "[" h && String.eqb (String.substring (n - 1) 1 h) "]" then String.substring 1 (n - 2) h else h.

(** The transport, as [vless.cpp] and [trojan.cpp] read it. *)
Definition transport_settings (u : url) (type : string) (stream : gmap string json) : gmap string json :=
  let path := if hasQueryItem u "path" then decoded u "path" else "/" in
  let headerType := item_or u "headerType" "none" in
  if String.eqb type "kcp" then
    let stream := set_if (hasQueryItem u "seed") stream (JString (queryItemValue u "seed")) [K "kcpSettings"; K "seed"] in
    set_if (negb (String.eqb headerType "none")) stream (JString headerType) [K "kcpSettings"; K "header"; K "type"]
  else if String.eqb type "http" then
    let stream := set_if (negb (String.eqb path "/")) stream (JString path) [K "httpSettings"; K "path"] in
    set_if (hasQueryItem u "host") stream (JStrings (split_char comma (queryItemValue u "host"))) [K "httpSettings"; K "host"]
  else if String.eqb type "ws" then
    let stream := set_if (negb (String.eqb path "/")) stream (JString path) [K "wsSettings"; K "path"] in
    set_if (hasQueryItem u "host") stream (JString (queryItemValue u "host")) [K "wsSettings"; K "headers"; K "Host"]
  else if String.eqb type "quic" then
    if hasQueryItem u "quicSecurity" then
      let quicSecurity := queryItemValue u "quicSecurity" in
      let stream := SetValue stream (JString quicSecurity) [K "quicSettings"; K "security"] in
      let stream := set_if (negb (String.eqb quicSecurity "none")) stream (JString (queryItemValue u "key"))
                      [K "quicSettings"; K "key"] in
      set_if (negb (String.eqb headerType "none")) stream (JString headerType) [K "quicSettings"; K "header"; K "type"]
    else stream
  else if String.eqb type "grpc" then
    let stream := set_if (hasQueryItem u "serviceName") stream (JString (decoded u "serviceName"))
                    [K "grpcSettings"; K "serviceName"] in
    set_if (hasQueryItem u "mode") stream (JBool (String.eqb (decoded u "mode") "multi")) [K "grpcSettings"; K "multiMode"]
  else stream.

Definition tls_key (security : string) : string :=
  if String.eqb security "xtls" then "xtlsSettings"
  else if String.eqb security "tls" then "tlsSettings" else "realitySettings".

(** The security, the name of the server and the protocols it may speak. *)
Definition tls_settings (u : url) (security : string) (stream : gmap string json) : gmap string json :=
  let stream := set_if (negb (String.eqb security "none")) stream (JString security) [K "security"] in
  let stream := set_if (hasQueryItem u "sni") stream (JString (queryItemValue u "sni")) [K (tls_key security); K "serverName"] in
  let aplnElems := List.filter (λ s, negb (String.eqb s "h2")) (split_char comma (decoded u "alpn")) in
  set_if (hasQueryItem u "alpn" && negb (bool_decide (aplnElems = []))) stream (JStrings aplnElems)
    [K (tls_key security); K "alpn"].

Definition reality_settings (u : url) (security : string) (stream : gmap string json) : gmap string json :=
  let set stream (item name : string) :=
    set_if (hasQueryItem u item) stream (JString (decoded u item)) [K "realitySettings"; K name] in
  if String.eqb security "reality" then
    set (set (set (set stream "fp" "fingerprint") "pbk" "publicKey") "spiderX" "spiderX") "sid" "shortId"
  else stream.

Definition stream_settings (u : url) (security : string) : gmap string json :=
  let type := item_or u "type" "tcp" in
  reality_settings u security
    (tls_settings u security
       (transport_settings u type (set_if (negb (String.eqb type "tcp")) ∅ (JString type) [K "network"]))).

Definition vless_outbound (u : url) (security : string) : gmap string json :=
  let user := [K "settings"; K "vnext"; I 0; K "users"; I 0] in
  let outbound := SetValue ∅ (JString "vless") [K "protocol"] in
  let outbound := SetValue outbound (JString (unbracketed (host u))) [K "settings"; K "vnext"; I 0; K "address"] in
  let outbound := SetValue outbound (JInt (port u)) [K "settings"; K "vnext"; I 0; K "port"] in
  let outbound := SetValue outbound (JString (userInfo u)) (user ++ [K "id"]) in
  let outbound := SetValue outbound (JString (item_or u "encryption" "none")) (user ++ [K "encryption"]) in
  set_if (String.eqb security "xtls" || String.eqb security "reality") outbound (JString (queryItemValue u "flow"))
    (user ++ [K "flow"]).

Definition refused (alias err : string) : gmap string json * string * string := (∅, alias, err).

Definition vless_Deserialize (str alias errMessage : string) : gmap string json * string * string :=
  if negb (startsWith "vless://" str) then refused alias "VLESS link should start with vless://" else
  let u := QUrl str in
  if negb (isValid u) then refused alias "link parse failed" else
  if String.eqb (host u) "" then refused alias "empty host" else
  if port u =? -1 then refused alias "missing port" else
  let alias := if String.eqb (fragment u) "" then alias else fragment u in
  if String.eqb (userInfo u) "" then refused alias "missing uuid" else
  let security := item_or u "security" "none" in
  let outbound := <["streamSettings" := JObject (stream_settings u security)]> (vless_outbound u security) in
  (config_of outbound "inbounds", alias, errMessage).

(** [if (cond) query.addQueryItem(key, v)] *)
Definition item (cond : bool) (k v : string) : list (string * string) := if cond then [(k, v)] else [].
Definition given (s : string) : bool := negb (String.eqb s "").

Definition vless_link (s : vless) (alias : string) : link :=
  let reality := String.eqb (v_security s) "reality" in
  mkLink "vless" (v_id s) (v_address s) (v_port s)
    (item (given (v_network s) && negb (String.eqb (v_network s) "tcp")) "type" (v_network s) ++
     item (given (v_encryption s)) "encryption" (v_encryption s) ++
     item (given (v_security s) && negb (String.eqb (v_security s) "none")) "security" (v_security s) ++
     item (given (v_flow s) && (String.eqb (v_security s) "xtls" || reality)) "flow" (v_flow s) ++
     item (given (v_serverName s)) "sni" (v_serverName s) ++
     item (reality && given (v_fingerprint s)) "fp" (v_fingerprint s) ++
     item (reality && given (v_publicKey s)) "pbk" (v_publicKey s) ++
     item (reality && given (v_shortId s)) "sid" (v_shortId s) ++
     item (reality && given (v_spiderX s)) "spiderX" (v_spiderX s))
    alias.
Definition vless_Serialize (s : vless) (alias : string) : string := toEncoded (vless_link s alias).

(** ** Shadowsocks *)
Definition last_index (c : Ascii.ascii) (s : string) : option nat :=
  match String.index 0 (String c "") s with
  | None => None
  | Some _ => Some (String.length s - 1 - default 0%nat (String.index 0 (String c "") (String.rev s)))%nat
  end.
Definition left_of (i : option nat) (s : string) : string :=
  match i with Some i => String.substring 0 i s | None => s end.
(** What follows the character at [i]; the whole text when there is none. *)
Definition right_of (i : option nat) (s : string) : string :=
  match i with Some i => String.substring (S i) (String.length s) s | None => s end.
Definition index_of (c : Ascii.ascii) (s : string) : option nat := String.index 0 (String c "") s.
Definition hash : Ascii.ascii := Ascii.ascii_of_nat 35.
Definition at_sign : Ascii.ascii := Ascii.ascii_of_nat 64.

(** The message of the last check that fails; parsing goes on all the same. *)
Definition failing (missing : bool) (err' err : string) : string := if missing then err' else err.
Definition is_none {X} (o : option X) : bool := match o with None => true | Some _ => false end.

Definition ss_old (decoded err : string) : shadowsocks * string :=
  let colonPos := index_of colon decoded in
  let err := failing (is_none colonPos) "Can't find the colon separator between method and password" err in
  let method := left_of colonPos decoded in
  let decoded := right_of colonPos decoded in
  let atPos := last_index at_sign decoded in
  let err := failing (is_none atPos) "Can't find the at separator between password and hostname" err in
  let password := left_of atPos decoded in
  let decoded := right_of atPos decoded in
  let colonPos := last_index colon decoded in
  let err := failing (is_none colonPos) "Can't find the colon separator between hostname and port" err in
  (mkShadowSocks (left_of colonPos decoded) method password (atoi (right_of colonPos decoded)), err).

Definition joined_alias (alias name : string) : string := if String.eqb alias "" then name else alias +:+ "_" +:+ name.

Definition ss_root (s : shadowsocks) : gmap string json :=
  config_of (GenerateOutboundEntry "PROXY" "shadowsocks" (GenerateShadowSocksOUT [s]) ∅ ∅ "0.0.0.0") "inbounds".

Definition ss_Deserialize (ssUri alias err : string) : gmap string json * string * string :=
  let err := failing (Nat.ltb (String.length ssUri) 5) "SS URI is too short" err in
  let uri := String.substring 5 (String.length ssUri) ssUri in
  let hashPos := last_index hash uri in
  let d_name := if is_none hashPos then "" else right_of hashPos uri in
  let uri := left_of hashPos uri in
  let finish (s : shadowsocks) err := (ss_root s, joined_alias alias (fromPercentEncoding d_name), err) in
  match index_of at_sign uri with
  | None => let '(s, err) := ss_old (fromBase64 uri) err in finish s err
  | Some _ =>
      let x := fromUserInput uri in
      let userInfo := SafeBase64Decode (userName x) in
      match index_of colon userInfo with
      | None => refused alias "Can't find the colon separator between method and password"
      | Some i => finish (mkShadowSocks (host x) (left_of (Some i) userInfo) (right_of (Some i) userInfo) (port x)) err
      end
  end.

Definition ss_link (s : shadowsocks) (alias : string) : link :=
  mkLink "ss" (toBase64Url (ss_method s +:+ ":" +:+ ss_password s)) (ss_address s) (ss_port s) [] alias.
Definition ss_Serialize (s : shadowsocks) (alias : string) : string := toEncoded (ss_link s alias).

(** ** Shadowsocks subscriptions *)
Definition MUST_STRING (obj : gmap string json) (k : string) : option string :=
  match value obj k with Some (JString s) => Some s | _ => None end.
(** [toInt(-1)] *)
Definition port_of (v : option json) : option Z :=
  match v with
  | Some (JDouble q) =>
      let r := Qred q in
      if (Qden r =? 1)%positive && (0 <=? Qnum r) && (Qnum r <=? 65535) then Some (Qnum r) else None
  | _ => None
  end.

Definition ssd_name (group : string) (o : gmap string json) (s : shadowsocks) : string :=
  let untitled := ss_address s +:+ ":" +:+ pretty (ss_port s) in
  let nodeName := toString_or untitled (value o "remarks") in
  let ratio := match value o "ratio" with
               | Some (JDouble q) => if Qeq_bool q (inject_Z (-1)) then inject_Z 1 else q
               | _ => inject_Z 1 end in
  group +:+ " - " +:+ nodeName +:+ " (rate " +:+ number_text ratio +:+ ")".

(** One server; [None] when it is skipped. *)
Definition ssd_server (group encryption password : string) (port : Z) (server : json) : option (string * gmap string json) :=
  match server with
  | JObject o =>
      address ← MUST_STRING o "server";
      let s := mkShadowSocks address encryption password (default port (port_of (value o "port"))) in
      Some (ssd_name group o s, ss_root s)
  | _ => None
  end.

(** The name of the group is set once it is read. *)
Definition ssd_Deserialize (uri groupName : string) : list (string * gmap string json) * string :=
  if negb (startsWith "ssd://" uri) then ([], groupName) else
  let decodedJSON := SafeBase64Decode (String.substring 6 (String.length uri) uri) in
  if String.eqb decodedJSON "" then ([], groupName) else
  match Wire.fromJson decodedJSON with
  | None => ([], groupName)
  | Some _ =>
      let obj := toObject (Wire.fromJson (trimmed decodedJSON)) in
      match MUST_STRING obj "airport" with
      | None => ([], groupName)
      | Some group =>
          (default []
             (port ← port_of (value obj "port");
              encryption ← MUST_STRING obj "encryption";
              if String.eqb (toLower encryption) "rc4-md5" then None else
              password ← MUST_STRING obj "password";
              match value obj "servers" with
              | Some (JArray servers) => Some (omap (ssd_server group encryption password port) servers)
              | _ => None
              end), group)
      end
  end.

(** ** Trojan *)
Definition trueList : list string := ["true"; "1"; "yes"; "y"].
Definition getQueryValue (u : url) (k : string) : string := fullyDecoded (queryItemValue u k).
Definition is_true (u : url) (k : string) : bool := bool_decide (toLower (getQueryValue u k) ∈ trueList).

Definition quint16 (z : Z) : Z := z mod 2 ^ 16.

Definition trojan_server (u : url) : trojan :=
  let allowAllInsecure := is_true u "allowInsecure" in
  mkTrojan (quint16 (port u)) (host u) (fromPercentEncoding (userInfo u))
    (if hasQueryItem u "sni" then getQueryValue u "sni"
     else if hasQueryItem u "peer" then getQueryValue u "peer" else host u)
    (allowAllInsecure || is_true u "allowInsecureCertificate")
    (allowAllInsecure || is_true u "allowInsecureHostname")
    (is_true u "sessionTicket") (is_true u "tfo").

Definition trojan_Deserialize (trojanUri alias err : string) : gmap string json * string * string :=
  if negb (startsWith "trojan://" trojanUri) then refused alias "Invalid Trojan URI" else
  let u := QUrl (trimmed trojanUri) in
  let outbound := GenerateOutboundEntry "PROXY" "trojan" (GenerateTrojanOUT [trojan_server u]) ∅ ∅ "0.0.0.0" in
  let outbound := <["streamSettings" := JObject (stream_settings u (item_or u "security" "none"))]> outbound in
  (config_of outbound "inbounds", fullyDecoded (fragment u), err).

Definition trojan_link (s : trojan) (alias : string) : link :=
  mkLink "trojan" (t_password s) (t_address s) (t_port s)
    (item (ignoreHostname s) "allowInsecureHostname" "1" ++
     item (ignoreCertificate s) "allowInsecureCertificate" "1" ++
     item (sessionTicket s) "sessionTicket" "1" ++
     item (ignoreCertificate s || ignoreHostname s) "allowInsecure" "1" ++
     item (tcpFastOpen s) "tfo" "1" ++
     item (given (sni s)) "sni" (sni s))
    alias.
Definition trojan_Serialize (s : trojan) (alias : string) : string := toEncoded (trojan_link s alias).

(** ** VMess: the settings of a stream *)
Record stream := mkStream {
  network : string;
  security : string;
  tls_serverName : string;
  tls_allowInsecure : bool;
  tcp_type : string;
  kcp_seed : string;
  kcp_type : string;
  ws_path : string;
  ws_headers : gmap string string;
  http_host : list string;
  http_path : string;
  quic_security : string;
  quic_key : string;
  quic_type : string;
  grpc_serviceName : string;
}.
Definition default_stream : stream := mkStream "tcp" "none" "" false "none" "" "none" "/" ∅ [] "/" "none" "" "none" "".

(** [F(name)]: a member that is written when it differs from its default. *)
Definition differing_text (k default s : string) : assignment := (k, if String.eqb s default then None else Some (JString s)).
Definition header (type : string) : gmap string json := object [differing_text "type" "none" type].
(** The header of TCP registers its type as [A(type)]: always written. *)
Definition tcp_header (type : string) : gmap string json :=
  if String.eqb type "none" then ∅ else <["type" := JString type]> ∅.

(** [StreamSettingsObject::toJson]; the members no reader sets are not written. *)
Definition stream_toJson (s : stream) : gmap string json :=
  object [differing_text "network" "tcp" (network s); differing_text "security" "none" (security s);
          object_member "tcpSettings" (object [object_member "header" (tcp_header (tcp_type s))]);
          object_member "tlsSettings" (object [text_member "serverName" (tls_serverName s);
                                               flag_member "allowInsecure" (tls_allowInsecure s)]);
          object_member "kcpSettings" (object [object_member "header" (header (kcp_type s)); text_member "seed" (kcp_seed s)]);
          object_member "wsSettings" (object [differing_text "path" "/" (ws_path s);
                                              object_member "headers" (JString <$> ws_headers s)]);
          object_member "httpSettings" (object [list_member "host" (http_host s); differing_text "path" "/" (http_path s)]);
          object_member "quicSettings" (object [differing_text "security" "none" (quic_security s);
                                                text_member "key" (quic_key s); object_member "header" (header (quic_type s))]);
          object_member "grpcSettings" (object [text_member "serviceName" (grpc_serviceName s)])].

Record vmess := mkVMess { m_address : string; m_port : Z; m_id : string; m_alterId : Z; m_security : string }.

(** [VMessServerObject::toJson] of a server with one user.  The default it
    compares with has a port of its own, [unset], which nothing initializes. *)
Definition vmess_toJson (unset : Z) (s : vmess) : gmap string json :=
  object [text_member "address" (m_address s);
          ("port", if m_port s =? unset then None else Some (JInt (m_port s)));
          member "users" (JArray [JObject (object [text_member "id" (m_id s);
            ("alterId", if m_alterId s =? 0 then None else Some (JInt (m_alterId s)));
            differing_text "security" "auto" (m_security s)])])].

Definition vmess_outbound (unset : Z) (s : vmess) (t : stream) : gmap string json :=
  GenerateOutboundEntry "PROXY" "vmess" (<["vnext" := JArray [JObject (vmess_toJson unset s)]]> ∅) (stream_toJson t) ∅ "0.0.0.0".

(** *** Links that are URLs *)
Definition NetworkType : list string := ["tcp"; "http"; "ws"; "kcp"; "quic"; "grpc"].
Definition FalseTypes : list string := ["false"; "False"; "No"; "Off"; "0"].

Definition query_or (u : url) (k d : string) : string := if hasQueryItem u k then fullyDecoded (queryItemValue u k) else d.

Definition vmess_new_network (userName : string) : string * bool :=
  foldl (λ nt p, if String.eqb p "tls" then (nt.1, true) else (p, nt.2)) ("", false) (split_char plus userName).

Definition vmess_new_stream (u : url) (net : string) (tls : bool) : stream :=
  let d := default_stream in
  let on := String.eqb net in
  mkStream net (if tls then "tls" else "")
    (if tls then query_or u "tlsServerName" "" else "")
    (tls && negb (bool_decide (query_or u "allowInsecure" "false" ∈ FalseTypes)))
    (if on "tcp" then query_or u "type" "none" else tcp_type d)
    (if on "kcp" then query_or u "seed" "" else kcp_seed d)
    (if on "kcp" then query_or u "type" "none" else kcp_type d)
    (if on "ws" then query_or u "path" "/" else ws_path d)
    (if on "ws" then <["Host" := query_or u "host" ""]> ∅ else ws_headers d)
    (if on "http" then [query_or u "host" ""] else http_host d)
    (if on "http" then query_or u "path" "/" else http_path d)
    (if on "quic" then query_or u "security" "none" else quic_security d)
    (if on "quic" then query_or u "key" "" else quic_key d)
    (if on "quic" then query_or u "type" "none" else quic_type d)
    (if on "grpc" then query_or u "serviceName" "" else grpc_serviceName d).

Definition vmess_new_server (u : url) : vmess :=
  let pswd := password u in
  let index := last_index minus pswd in
  mkVMess (host u) (port u) (left_of index pswd) (atoi (right_of index pswd)) "auto".

Definition vmess_new_Deserialize (unset : Z) (vmessStr alias err : string) : gmap string json * string * string :=
  let u := QUrl vmessStr in
  if negb (isValid u) then refused alias "vmess:// url is invalid" else
  let alias := joined_alias alias (trimmed (fullyDecoded (fragment u))) in
  let '(net, tls) := vmess_new_network (userName u) in
  if negb (bool_decide (net ∈ NetworkType)) then refused alias ("Invalid streamSettings protocol: " +:+ net) else
  (config_of (vmess_outbound unset (vmess_new_server u) (vmess_new_stream u net tls)) "inbound", alias, err).

(** *** Links that are base64 of JSON *)

(** [toVariant().toString()] and [toVariant().toInt()] *)
Definition variant_text (v : option json) : string :=
  match v with
  | Some (JString s) => s
  | Some (JDouble q) => if (Qden (Qred q) =? 1)%positive then pretty (Qnum (Qred q)) else number_text q
  | Some (JBool b) => if b then "true" else "false"
  | _ => ""
  end.
Definition variant_int (v : option json) : Z :=
  match v with
  | Some (JString s) => default 0 (toInt_ok s)
  | Some (JDouble q) => double_to_int q
  | Some (JBool b) => if b then 1 else 0
  | _ => 0
  end.

(** [__vmess_checker__func]: the value, or the first of the candidates, or the
    message that there is none. *)
Definition vmess_checked (conf : gmap string json) (k : string) (candidates : list string) : string + string :=
  let v := variant_text (value conf k) in
  if contains conf k && negb (String.eqb (trimmed v) "") &&
     (Nat.leb (length candidates) 1 || bool_decide (v ∈ candidates))
  then inl v
  else match candidates with c :: _ => inl c | [] => inr (k +:+ " does not exist.") end.
Definition checked_text (c : string + string) : string := match c with inl s => s | inr _ => "" end.
Definition checked_error (c : string + string) (err : string) : string := match c with inl _ => err | inr e => e end.

Definition semicolon : Ascii.ascii := Ascii.ascii_of_nat 59.

(** The first version keeps path and host in one member. *)
Definition vmess_upgraded (conf : gmap string json) : gmap string json :=
  let network := text conf "net" in
  if negb (contains conf "v") && (String.eqb network "ws" || String.eqb network "h2") then
    let '(path, host) :=
      match split_char semicolon (replace_str " " "" (text conf "host")) with
      | [path] => (path, "")
      | [path; host] => (path, host)
      | _ => ("/", "")
      end in
    <["host" := JString host]> (<["path" := JString path]> conf)
  else conf.

Definition vmess_stream (net type host path tls : string) : stream :=
  let d := default_stream in
  let on := String.eqb net in
  let http := on "http" || on "h2" in
  mkStream (if on "h2" then "http" else net) tls
    (if String.eqb tls "tls" then host else "") false
    (if on "tcp" then type else tcp_type d)
    (kcp_seed d) (if on "kcp" then type else kcp_type d)
    (if on "ws" then path else ws_path d)
    (if on "ws" && given host then <["Host" := host]> ∅ else ws_headers d)
    (if http then trimmed <$> nonempty (split_char comma host) else http_host d)
    (if http then path else http_path d)
    (if on "quic" then host else quic_security d)
    (if on "quic" then path else quic_key d)
    (if on "quic" then type else quic_type d)
    (if on "grpc" then path else grpc_serviceName d).

Definition vmess_config (unset : Z) (conf : gmap string json) (alias err : string) : gmap string json * string * string :=
  let conf := vmess_upgraded conf in
  let ps := checked_text (vmess_checked conf "ps" [variant_text (value conf "add") +:+ ":" +:+ variant_text (value conf "port")]) in
  let add := vmess_checked conf "add" [] in
  let id := vmess_checked conf "id" [] in
  let scy := checked_text (vmess_checked conf "scy" ["aes-128-gcm"; "chacha20-poly1305"; "auto"; "none"; "zero"]) in
  let type := checked_text (vmess_checked conf "type" ["none"; "http"; "srtp"; "utp"; "wechat-video"]) in
  let net := checked_text (vmess_checked conf "net" ["tcp"; "http"; "h2"; "ws"; "kcp"; "quic"; "grpc"]) in
  let tls := checked_text (vmess_checked conf "tls" ["none"; "tls"]) in
  let path := if contains conf "path" then variant_text (value conf "path") else if String.eqb net "quic" then "" else "/" in
  let host := if contains conf "host" then variant_text (value conf "host") else if String.eqb net "quic" then "none" else "" in
  let type := if bool_decide (type ∈ ["srtp"; "utp"; "wechat-video"]) &&
                 negb (String.eqb net "quic") && negb (String.eqb net "kcp") then "none" else type in
  let server := mkVMess (checked_text add) (variant_int (value conf "port")) (checked_text id) (variant_int (value conf "aid")) scy in
  (config_of (vmess_outbound unset server (vmess_stream net type host path tls)) "inbounds",
   if String.eqb (trimmed alias) "" then ps else alias +:+ "_" +:+ ps,
   checked_error id (checked_error add err)).

Definition vmess_Deserialize (unset : Z) (vmessStr alias : string) : gmap string json * string * string :=
  let vmess := trimmed vmessStr in
  if negb (startsWith "vmess://" (toLower vmess)) then refused alias "VMess string should start with 'vmess://'" else
  let b64Str := String.substring 8 (String.length vmess - 8) vmess in
  if String.eqb b64Str "" then refused alias "VMess string should be a valid base64 string" else
  let vmessString := SafeBase64Decode b64Str in
  match Wire.fromJson vmessString with
  | None => refused alias "parse error"
  | Some _ =>
      let vmessConf := toObject (Wire.fromJson (trimmed vmessString)) in
      if decide (vmessConf = ∅) then refused alias "JSON should not be empty" else vmess_config unset vmessConf alias ""
  end.

Definition vmess_Serialize (t : stream) (s : vmess) (alias : string) : string :=
  let on := String.eqb (network t) in
  let realHost := match ws_headers t !! "host" with Some h => h | None => default "" (ws_headers t !! "Host") end in
  let type := if on "tcp" then tcp_type t else if on "kcp" then kcp_type t else if on "quic" then quic_type t else "" in
  let host_path :=
    if on "quic" then [member "host" (JString (quic_security t)); member "path" (JString (quic_key t))]
    else if on "ws" then [member "host" (JString realHost); member "path" (JString (ws_path t))]
    else if on "h2" || on "http"
    then [member "host" (JString (String.concat "," (http_host t))); member "path" (JString (http_path t))]
    else if on "grpc" then [member "path" (JString (grpc_serviceName t))] else [] in
  let scy := m_security s in
  "vmess://" +:+ toBase64 (toJson_compact (object
    ([member "v" (JInt 2); member "ps" (JString alias); member "add" (JString (m_address s)); member "port" (JInt (m_port s));
      member "id" (JString (m_id s)); member "aid" (JInt (m_alterId s));
      member "scy" (JString (if bool_decide (scy ∈ ["aes-128-gcm"; "chacha20-poly1305"; "none"; "zero"]) then scy else "auto"));
      member "net" (JString (if on "http" then "h2" else network t));
      member "tls" (JString (if String.eqb (security t) "tls" || String.eqb (security t) "xtls" then "tls" else "none"))] ++
     (if String.eqb (security t) "tls" then [member "sni" (JString (tls_serverName t))]
      else if String.eqb (security t) "xtls" then [member "sni" (JString "")] else []) ++
     host_path ++ [member "type" (JString (if String.eqb type "" then "none" else type))]))).
End links.

(** ** Paths *)
#[export] Instance key_eq_dec : EqDecision key.
Proof. solve_decision. Defined.

(** Two paths that part at the name of a member. *)
Fixpoint apart (p q : list key) : bool :=
  match p, q with
  | K a :: p, K b :: q => negb (String.eqb a b) || apart p q
  | I i :: p, I j :: q => Nat.eqb i j && apart p q
  | _, _ => false
  end.

Lemma child_with_child j k v : child (Some (with_child j k v)) k = Some v.
Proof.
  destruct k as [k|i]; cbn; [apply lookup_insert_eq|].
  apply list_lookup_insert_eq. unfold resized. rewrite length_app, length_replicate. lia.
Qed.

Lemma get_set_same j p v : get_at (Some (set_at j p v)) p = Some v.
Proof. revert j. induction p as [|k p IH]; intros j; [done|]. cbn [set_at get_at]. by rewrite child_with_child. Qed.

Lemma get_set_apart j p q v : apart p q = true → get_at (Some (set_at j p v)) q = get_at j q.
Proof.
  revert j q. induction p as [|k p IH]; intros j q; [by destruct q|].
  destruct q as [|k' q]; [by destruct k|]. cbn [set_at get_at].
  destruct k as [a|i], k' as [b|i']; cbn [apart]; try done.
  - destruct (String.eqb_spec a b) as [->|Hne]; cbn [negb orb].
    + intros H. rewrite child_with_child. by apply IH.
    + intros _. f_equal. cbn. by apply lookup_insert_ne.
  - intros [->%Nat.eqb_eq H]%andb_true_iff. rewrite child_with_child. by apply IH.
Qed.

Lemma GetValue_SetValue_same m v k p : GetValue (SetValue m v (K k :: p)) (K k :: p) = Some v.
Proof.
  unfold GetValue, SetValue. pose proof (get_set_same (Some (JObject m)) (K k :: p) v) as H.
  cbn [set_at with_child] in *. exact H.
Qed.
Lemma GetValue_SetValue_apart m v k p q : apart (K k :: p) q = true → GetValue (SetValue m v (K k :: p)) q = GetValue m q.
Proof.
  intros Hp. unfold GetValue, SetValue. pose proof (get_set_apart (Some (JObject m)) (K k :: p) q v Hp) as H.
  cbn [set_at with_child] in *. exact H.
Qed.
Lemma GetValue_set_if b m v k p q :
  GetValue (set_if b m v (K k :: p)) q =
  if decide (q = K k :: p) then (if b then Some v else GetValue m q)
  else if apart (K k :: p) q then GetValue m q else GetValue (set_if b m v (K k :: p)) q.
Proof.
  case_decide as Hq; [subst; destruct b; [apply GetValue_SetValue_same|done]|].
  destruct (apart _ _) eqn:Ha; [|done]. destruct b; [by apply GetValue_SetValue_apart|done].
Qed.
Lemma SetValue_set_if m v p : SetValue m v p = set_if true m v p.
Proof. done. Qed.

(** ** VLESS links are read back *)

(** Letters, digits and the marks a link may hold as they are. *)
Definition unreserved (c : Ascii.ascii) : bool :=
  let n := Z.of_nat (Ascii.nat_of_ascii c) in
  (48 <=? n) && (n <=? 57) || (65 <=? n) && (n <=? 90) || (97 <=? n) && (n <=? 122) ||
  (n =? 45) || (n =? 46) || (n =? 95) || (n =? 126).
Definition plain_text (s : string) : bool := forallb unreserved (String.list_ascii_of_string s).

(** Hosts that [QUrl] leaves as they are: addresses of IPv4 as they are printed,
    and names in lower case that a DNS may know. *)
Definition lower_or_digit (c : Ascii.ascii) : bool :=
  let n := Z.of_nat (Ascii.nat_of_ascii c) in (48 <=? n) && (n <=? 57) || (97 <=? n) && (n <=? 122).
Definition begins (f : Ascii.ascii → bool) (s : string) : bool := match s with String c _ => f c | EmptyString => false end.
Definition plain_label (s : string) : bool :=
  forallb (λ c, lower_or_digit c || Ascii.eqb c minus) (String.list_ascii_of_string s) && begins lower_or_digit s &&
  lower_or_digit (List.last (String.list_ascii_of_string s) minus) && (String.length s <=? 63)%nat.
Definition plain_octet (s : string) : bool := all_digits s && String.eqb (pretty (digits 0 s)) s && (digits 0 s <=? 255).
Definition plain_host (h : string) : bool :=
  let labels := split_char (Ascii.ascii_of_nat 46) h in
  (length labels =? 4)%nat && forallb plain_octet labels ||
  forallb plain_label labels && negb (contains_str "--" h) && (String.length h <=? 253)%nat &&
    begins (λ c, match digit_value c with Some _ => false | None => true end) (List.last labels "").
Definition plain_scheme (s : string) : bool :=
  negb (String.eqb s "") && forallb (λ c, let n := Z.of_nat (Ascii.nat_of_ascii c) in (97 <=? n) && (n <=? 122)) (String.list_ascii_of_string s).

(** A link that [QUrl] neither normalises nor refuses. *)
Definition plain_link (l : link) : Prop :=
  (plain_scheme (l_scheme l) = true ∧ plain_host (l_host l) = true) ∧
  plain_text (l_scheme l) = true ∧ plain_text (l_userInfo l) = true ∧ plain_text (l_host l) = true ∧ plain_text (l_fragment l) = true ∧
  0 ≤ l_port l ≤ 65535 ∧ Forall (λ e, plain_text e.1 = true ∧ plain_text e.2 = true) (l_query l).
Definition url_of_link (l : link) : url :=
  mkUrl true (l_host l) (l_port l) (l_fragment l) (l_userInfo l) (l_userInfo l) "" (l_query l).

(** What Qt documents of plain links. *)
Record link_laws `{LC : LinkCodec} : Prop := {
  law_parse : ∀ l, plain_link l → QUrl (toEncoded l) = url_of_link l;
  law_scheme : ∀ l, plain_link l → startsWith (l_scheme l +:+ "://") (toEncoded l) = true;
  law_percent : ∀ s, plain_text s = true → fromPercentEncoding s = s;
}.
#[global] Arguments link_laws : clear implicits.

(** The server of a configuration. *)
Definition text_at (config : gmap string json) (path : list key) : string := toString_or "" (GetValue config path).
Definition read_vless (config : gmap string json) : vless :=
  let server := [K "outbounds"; I 0; K "settings"; K "vnext"; I 0] in
  let user := server ++ [K "users"; I 0] in
  let stream := [K "outbounds"; I 0; K "streamSettings"] in
  let at_ path default := toString_or default (GetValue config path) in
  let security := at_ (stream ++ [K "security"]) "none" in
  let tls := stream ++ [K (tls_key security)] in
  mkVless (at_ (server ++ [K "address"]) "") (at_ (user ++ [K "id"]) "")
    (toInt (GetValue config (server ++ [K "port"]))) (at_ (user ++ [K "flow"]) "") (at_ (user ++ [K "encryption"]) "")
    (at_ (stream ++ [K "network"]) "tcp") security (at_ (tls ++ [K "serverName"]) "")
    (at_ (tls ++ [K "publicKey"]) "") (at_ (tls ++ [K "shortId"]) "") (at_ (tls ++ [K "fingerprint"]) "")
    (at_ (tls ++ [K "spiderX"]) "").

(** What a link keeps of a server. *)
Definition or_else (s d : string) : string := if String.eqb s "" then d else s.
Definition linked (s : vless) : vless :=
  let reality := String.eqb (v_security s) "reality" in
  let keep b (t : string) := if (b : bool) then t else "" in
  mkVless (v_address s) (v_id s) (v_port s) (keep (String.eqb (v_security s) "xtls" || reality) (v_flow s))
    (or_else (v_encryption s) "none") (or_else (v_network s) "tcp") (or_else (v_security s) "none") (v_serverName s)
    (keep reality (v_publicKey s)) (keep reality (v_shortId s)) (keep reality (v_fingerprint s)) (keep reality (v_spiderX s)).

Definition plain_vless (s : vless) (alias : string) : Prop :=
  (given (v_address s) = true ∧ plain_host (v_address s) = true) ∧ given (v_id s) = true ∧ 0 ≤ v_port s ≤ 65535 ∧
  Forall (λ t, plain_text t = true)
    [v_address s; v_id s; v_flow s; v_encryption s; v_network s; v_security s; v_serverName s; v_publicKey s; v_shortId s;
     v_fingerprint s; v_spiderX s; alias].

Lemma find_item c k v l key :
  List.find (λ e : string * string, String.eqb key e.1) (item c k v ++ l) =
  if c && String.eqb key k then Some (k, v) else List.find (λ e : string * string, String.eqb key e.1) l.
Proof. destruct c; [|done]. cbn. by destruct (String.eqb key k). Qed.

Lemma existsb_find {X} (f : X → bool) l : existsb f l = match List.find f l with Some _ => true | None => false end.
Proof. induction l as [|x l IH]; [done|]. cbn. by destruct (f x). Qed.

Lemma plain_vless_link s alias : plain_vless s alias → plain_link (vless_link s alias).
Proof.
  intros ([_ Hh] & _ & Hp & Hl). repeat (apply Forall_cons in Hl as [? Hl]). split; [by split|]. split; [done|]. split; [done|]. split; [done|]. split; [done|]. split; [done|].
  cbn [vless_link l_query]. rewrite !Forall_app.
  assert (∀ c k v, plain_text k = true → plain_text v = true → Forall (λ e, plain_text e.1 = true ∧ plain_text e.2 = true) (item c k v)) as Hi.
  { intros [] k v Hk Hv; cbn; [|constructor]. by repeat constructor. }
  split_and!; by apply Hi.
Qed.

Section vless_roundtrip.
Context {LC : LinkCodec} {J : JsonCodec}.

(** The items of a link, by key. *)
Lemma vless_item s alias key :
  let u := url_of_link (vless_link s alias) in
  let reality := String.eqb (v_security s) "reality" in
  let found (k : string) (c : bool) (v : string) rest := if c && String.eqb key k then Some (k, v) else rest in
  List.find (λ e, String.eqb key e.1) (query u) =
  found "type" (given (v_network s) && negb (String.eqb (v_network s) "tcp")) (v_network s)
    (found "encryption" (given (v_encryption s)) (v_encryption s)
      (found "security" (given (v_security s) && negb (String.eqb (v_security s) "none")) (v_security s)
        (found "flow" (given (v_flow s) && (String.eqb (v_security s) "xtls" || reality)) (v_flow s)
          (found "sni" (given (v_serverName s)) (v_serverName s)
            (found "fp" (reality && given (v_fingerprint s)) (v_fingerprint s)
              (found "pbk" (reality && given (v_publicKey s)) (v_publicKey s)
                (found "sid" (reality && given (v_shortId s)) (v_shortId s)
                  (found "spiderX" (reality && given (v_spiderX s)) (v_spiderX s) None)))))))).
Proof.
  cbv zeta. cbn [url_of_link query vless_link l_query].
  rewrite !find_item. rewrite <- (app_nil_r (item _ "spiderX" _)), find_item. done.
Qed.

(** Reading an item with a constant key. *)
Ltac item_tac :=
  unfold item_or, hasQueryItem, queryItemValue, decoded; rewrite ?existsb_find, ?vless_item;
  cbn [String.eqb Ascii.eqb Bool.eqb andb]; rewrite ?andb_false_r, ?andb_true_r; cbn [andb].

Context (s : vless) (alias : string).
#[local] Abbreviation u := (url_of_link (vless_link s alias)).

Lemma absent_item key :
  key ∉ ["type"; "encryption"; "security"; "flow"; "sni"; "fp"; "pbk"; "sid"; "spiderX"] → hasQueryItem u key = false.
Proof.
  intros Hk. unfold hasQueryItem. rewrite existsb_find, vless_item. cbv zeta.
  rewrite !not_elem_of_cons in Hk. destruct Hk as (H1 & H2 & H3 & H4 & H5 & H6 & H7 & H8 & H9 & _).
  rewrite !(proj2 (String.eqb_neq key _)) by done. by rewrite !andb_false_r.
Qed.
Lemma item_security : item_or u "security" "none" = or_else (v_security s) "none".
Proof.
  item_tac. unfold or_else, given. destruct (String.eqb_spec (v_security s) "") as [->|]; [done|].
  by destruct (String.eqb_spec (v_security s) "none") as [->|].
Qed.
Lemma item_type : item_or u "type" "tcp" = or_else (v_network s) "tcp".
Proof.
  item_tac. unfold or_else, given. destruct (String.eqb_spec (v_network s) "") as [->|]; [done|].
  by destruct (String.eqb_spec (v_network s) "tcp") as [->|].
Qed.
Lemma item_encryption : item_or u "encryption" "none" = or_else (v_encryption s) "none".
Proof. item_tac. unfold or_else, given. by destruct (String.eqb_spec (v_encryption s) ""). Qed.
Lemma item_sni : hasQueryItem u "sni" = given (v_serverName s) ∧ queryItemValue u "sni" = v_serverName s.
Proof. item_tac. unfold given. by destruct (String.eqb_spec (v_serverName s) "") as [->|]. Qed.
Lemma item_flow :
  (String.eqb (v_security s) "xtls" || String.eqb (v_security s) "reality") = true → queryItemValue u "flow" = v_flow s.
Proof. intros H. item_tac. rewrite H. unfold given. by destruct (String.eqb_spec (v_flow s) "") as [->|]. Qed.

Lemma item_reality key v :
  v_security s = "reality" → (key, v) ∈ [("fp", v_fingerprint s); ("pbk", v_publicKey s); ("sid", v_shortId s); ("spiderX", v_spiderX s)] →
  hasQueryItem u key = given v ∧ queryItemValue u key = v.
Proof.
  intros Hs Hk. revert key v Hk.
  enough (Forall (λ e, hasQueryItem u e.1 = given e.2 ∧ queryItemValue u e.1 = e.2)
    [("fp", v_fingerprint s); ("pbk", v_publicKey s); ("sid", v_shortId s); ("spiderX", v_spiderX s)]) as H.
  { intros key v Hk. exact (proj1 (Forall_forall _ _) H _ Hk). }
  assert (∀ v, match (if given v then Some ("", v) else None) with Some _ => true | None => false end = given v) as H1.
  { intros v. by destruct (given v). }
  repeat constructor; cbn [fst snd]; item_tac; rewrite Hs; cbn [String.eqb Ascii.eqb Bool.eqb andb]; unfold given.
  all: match goal with |- context [String.eqb ?v ""] => by destruct (String.eqb_spec v "") as [->|] end.
Qed.

Lemma transport_none type stream : transport_settings u type stream = stream.
Proof.
  unfold transport_settings, item_or.
  rewrite !absent_item by (by apply (bool_decide_unpack _); vm_compute).
  repeat (destruct (String.eqb _ _); [done|]). done.
Qed.

(** Reading a path of a chain of settings. *)
Ltac get_tac :=
  repeat match goal with
  | |- context [GetValue (set_if _ _ _ _) _] => rewrite GetValue_set_if; cbn [decide]; first [rewrite decide_True by done | rewrite decide_False by done; cbn [apart String.eqb Ascii.eqb Bool.eqb Nat.eqb negb orb andb]]
  | |- context [GetValue (SetValue _ _ _) _] => rewrite SetValue_set_if
  end.

Hypothesis LL : link_laws LC.
Hypothesis Hplain : plain_vless s alias.

Lemma plain_given v : v ∈ [v_fingerprint s; v_publicKey s; v_shortId s; v_spiderX s] → fromPercentEncoding v = v.
Proof.
  intros Hv. apply (law_percent LL). destruct Hplain as (_ & _ & _ & Hl). apply (proj1 (Forall_forall _ _) Hl v).
  repeat (apply elem_of_cons in Hv as [-> |Hv]; [listed|]). by apply elem_of_nil in Hv.
Qed.

Lemma read_or (t : string) (d : string) rest :
  toString_or d rest = d → toString_or d (if given t then Some (JString t) else rest) = or_else t d.
Proof. intros Hr. unfold given, or_else. by destruct (String.eqb_spec t "") as [->|]. Qed.
Lemma read_given (t : string) : toString_or "" (if given t then Some (JString t) else None) = t.
Proof. unfold given. by destruct (String.eqb_spec t "") as [->|]. Qed.
Lemma read_unless (t d : string) :
  toString_or d (if negb (String.eqb t d) then Some (JString t) else None) = t.
Proof. by destruct (String.eqb_spec t d) as [->|]. Qed.

Lemma tls_key_cases x : tls_key x = "xtlsSettings" ∨ tls_key x = "tlsSettings" ∨ tls_key x = "realitySettings".
Proof. unfold tls_key. repeat destruct (String.eqb _ _); auto. Qed.

(** The settings of the stream, after those of a network without any. *)
Lemma stream_plain :
  let security := or_else (v_security s) "none" in
  let type := or_else (v_network s) "tcp" in
  stream_settings u security =
  reality_settings u security
    (set_if (given (v_serverName s))
      (set_if (negb (String.eqb security "none"))
        (set_if (negb (String.eqb type "tcp")) ∅ (JString type) [K "network"]) (JString security) [K "security"])
      (JString (v_serverName s)) [K (tls_key security); K "serverName"]).
Proof.
  cbv zeta. unfold stream_settings, tls_settings. rewrite item_type, transport_none.
  rewrite (absent_item "alpn") by (by apply (bool_decide_unpack _); vm_compute). by destruct item_sni as [-> ->].
Qed.

Lemma reality_none security stream : String.eqb security "reality" = false → reality_settings u security stream = stream.
Proof. unfold reality_settings. by intros ->. Qed.
Lemma reality_plain stream :
  v_security s = "reality" →
  reality_settings u "reality" stream =
  set_if (given (v_shortId s))
    (set_if (given (v_spiderX s))
      (set_if (given (v_publicKey s))
        (set_if (given (v_fingerprint s)) stream (JString (v_fingerprint s)) [K "realitySettings"; K "fingerprint"])
        (JString (v_publicKey s)) [K "realitySettings"; K "publicKey"])
      (JString (v_spiderX s)) [K "realitySettings"; K "spiderX"])
    (JString (v_shortId s)) [K "realitySettings"; K "shortId"].
Proof.
  intros Hs. unfold reality_settings, decoded. cbn [String.eqb Ascii.eqb Bool.eqb].
  destruct (item_reality "fp" (v_fingerprint s) Hs) as [-> ->]; [listed|].
  destruct (item_reality "pbk" (v_publicKey s) Hs) as [-> ->]; [listed|].
  destruct (item_reality "sid" (v_shortId s) Hs) as [-> ->]; [listed|].
  destruct (item_reality "spiderX" (v_spiderX s) Hs) as [-> ->]; [listed|].
  by rewrite !plain_given by listed.
Qed.

Lemma stream_read :
  let security := or_else (v_security s) "none" in
  let reality := String.eqb (v_security s) "reality" in
  let at_ d path := toString_or d (GetValue (stream_settings u security) path) in
  let tls k := at_ "" [K (tls_key security); K k] in
  at_ "tcp" [K "network"] = or_else (v_network s) "tcp" ∧ at_ "none" [K "security"] = security ∧
  tls "serverName" = v_serverName s ∧ tls "publicKey" = (if reality then v_publicKey s else "") ∧
  tls "shortId" = (if reality then v_shortId s else "") ∧ tls "fingerprint" = (if reality then v_fingerprint s else "") ∧
  tls "spiderX" = (if reality then v_spiderX s else "").
Proof.
  cbv zeta. rewrite stream_plain. destruct (String.eqb_spec (v_security s) "reality") as [Hs|Hs].
  - rewrite Hs. cbn [or_else String.eqb Ascii.eqb Bool.eqb negb tls_key]. change (or_else "reality" "none") with "reality".
    rewrite reality_plain by done. change (tls_key "reality") with "realitySettings".
    split_and!; get_tac; rewrite ?read_given, ?read_unless; done.
  - assert (String.eqb (or_else (v_security s) "none") "reality" = false) as Hr.
    { apply String.eqb_neq. unfold or_else. by destruct (String.eqb _ _). }
    rewrite reality_none by done. set (security := or_else (v_security s) "none") in *.
    destruct (tls_key_cases security) as [-> |[-> | ->]].
    all: split_and!; get_tac; rewrite ?read_given, ?read_unless; done.
Qed.
Lemma GetValue_outbound o k q :
  k ≠ "outbounds" → GetValue (config_of o k) (K "outbounds" :: I 0 :: q) = GetValue o q.
Proof.
  intros Hk. unfold GetValue, config_of. cbn [get_at child toObject]. change (object _ !! "outbounds") with (value (object
    [member "outbounds" (JArray [JObject o]); member k (JArray [JObject GenerateInboundEntry])]) "outbounds").
  rewrite value_object. cbn [assigned member fst snd String.eqb Ascii.eqb Bool.eqb].
  by rewrite (proj2 (String.eqb_neq k "outbounds")).
Qed.
Lemma GetValue_stream o stream q :
  GetValue (<["streamSettings" := JObject stream]> o) (K "streamSettings" :: q) = GetValue stream q.
Proof. unfold GetValue. cbn [get_at child toObject]. by rewrite lookup_insert_eq. Qed.
Lemma GetValue_settings o stream q :
  GetValue (<["streamSettings" := JObject stream]> o) (K "settings" :: q) = GetValue o (K "settings" :: q).
Proof. unfold GetValue. cbn [get_at child toObject]. by rewrite lookup_insert_ne. Qed.

Lemma outbound_read :
  let security := or_else (v_security s) "none" in
  let server := [K "settings"; K "vnext"; I 0] in
  let user := server ++ [K "users"; I 0] in
  let get p := GetValue (vless_outbound u security) p in
  get (server ++ [K "address"]) = Some (JString (unbracketed (v_address s))) ∧ get (server ++ [K "port"]) = Some (JInt (v_port s)) ∧
  get (user ++ [K "id"]) = Some (JString (v_id s)) ∧
  get (user ++ [K "encryption"]) = Some (JString (or_else (v_encryption s) "none")) ∧
  toString_or "" (get (user ++ [K "flow"])) =
    (if String.eqb (v_security s) "xtls" || String.eqb (v_security s) "reality" then v_flow s else "").
Proof.
  cbv zeta. unfold vless_outbound. cbv zeta. rewrite item_encryption. cbn [app].
  assert (String.eqb (or_else (v_security s) "none") "xtls" || String.eqb (or_else (v_security s) "none") "reality" =
          String.eqb (v_security s) "xtls" || String.eqb (v_security s) "reality") as ->.
  { unfold or_else. by destruct (String.eqb_spec (v_security s) "") as [->|]. }
  destruct (String.eqb (v_security s) "xtls" || String.eqb (v_security s) "reality") eqn:Hf; [rewrite item_flow by done|].
  all: split_and!; get_tac; done.
Qed.

Lemma unbracketed_plain h : plain_text h = true → unbracketed h = h.
Proof. destruct h as [|c h]; [done|]. cbn [plain_text String.list_ascii_of_string forallb]. intros [Hc _]%andb_true_iff.
  unfold unbracketed, startsWith. cbn [String.prefix]. destruct (Ascii.ascii_dec _ c) as [<-|]; [done|done]. Qed.

(** A VLESS link written from a server is read back as that server: its
    address, port, identifier, flow, encryption, network, security, name and the
    parameters of its security, and the name the user gave it.  Of a server that
    does not use REALITY the keys are not kept, and empty settings become the
    defaults. *)
Theorem vless_roundtrip :
  let '(config, alias', err) := vless_Deserialize (vless_Serialize s alias) "" "" in
  read_vless config = linked s ∧ alias' = alias ∧ err = "".
Proof.
  pose proof (plain_vless_link s alias Hplain) as Hl. destruct Hplain as ([Ha _] & Hi & Hp & Ht).
  unfold vless_Deserialize, vless_Serialize.
  rewrite (law_scheme LL (vless_link s alias) Hl : startsWith "vless://" _ = true), (law_parse LL _ Hl).
  cbn [negb url_of_link isValid host port fragment userInfo vless_link l_host l_port l_fragment l_userInfo].
  unfold given in Ha, Hi. apply negb_true_iff in Ha as ->, Hi as ->. rewrite (proj2 (Z.eqb_neq _ _)) by lia.
  rewrite item_security. split; [|split; [by destruct (String.eqb_spec alias "") as [->|]|done]].
  unfold read_vless. cbn [app]. rewrite !GetValue_outbound by done. rewrite !GetValue_stream, !GetValue_settings.
  pose proof outbound_read as (E1 & E2 & E3 & E4 & E5). pose proof stream_read as (S1 & S2 & S3 & S4 & S5 & S6 & S7).
  cbn [app] in *. rewrite E1, E2, E3, E4, E5, S1, S2, S3, S4, S5, S6, S7. unfold linked.
  rewrite toInt_JInt by (unfold int_min, int_max; lia).
  cbn [toString_or]. rewrite unbracketed_plain by (by apply Forall_cons in Ht as [? _]). done.
Qed.
End vless_roundtrip.

(** A codec that writes the parts of a link one after the other. *)
Module plain_codec.
Fixpoint items (l : list string) : list (string * string) :=
  match l with k :: v :: l => (k, v) :: items l | _ => [] end.
Fixpoint dashes (n : nat) : string := match n with O => "" | S n => String minus (dashes n) end.
Definition parts (l : link) : list string :=
  [l_userInfo l; l_host l; l_fragment l; dashes (Z.to_nat (l_port l))] ++
  concat ((λ e, [e.1; e.2]) <$> l_query l).
Definition text_of (l : link) : string := String.concat "/" ((l_scheme l +:+ ":") :: "" :: parts l).
Definition parsed (s : string) : url :=
  match split_char slash s with
  | _ :: _ :: user :: host :: frag :: port :: rest => mkUrl true host (Z.of_nat (String.length port)) frag user user "" (items rest)
  | _ => mkUrl false "" (-1) "" "" "" "" []
  end.
Definition codec : LinkCodec := {|
  QUrl := parsed; fromUserInput := parsed; toEncoded := text_of; fromPercentEncoding s := s; fullyDecoded s := s;
  fromBase64 s := s; base64UrlDecode s := s; toBase64 s := s; toBase64Url s := s; number_text _ := "1";
|}.

Lemma split_concat l : l ≠ [] → Forall (λ s, contains_char slash s = false) l → split_char slash (String.concat "/" l) = l.
Proof.
  induction l as [|s l IH]; [done|]. intros _ [Hs Hl]%Forall_cons. destruct l as [|s' l]; [by apply split_char_none|].
  change (String.concat "/" (s :: s' :: l)) with (s +:+ String slash (String.concat "/" (s' :: l))).
  rewrite split_char_line by done. f_equal. by apply IH.
Qed.
Lemma plain_no_slash s : plain_text s = true → contains_char slash s = false.
Proof.
  unfold plain_text. induction s as [|c s IH]; [done|]. cbn [String.list_ascii_of_string forallb].
  intros [Hc Hs]%andb_true_iff. change (Ascii.eqb c slash || contains_char slash s = false). rewrite IH by done.
  destruct (Ascii.eqb_spec c slash) as [->|]; [by vm_compute in Hc|done].
Qed.
Lemma no_slash_app s t : contains_char slash s = false → contains_char slash t = false → contains_char slash (s +:+ t) = false.
Proof. intros Hs Ht. by rewrite contains_char_app, Hs, Ht. Qed.
Lemma items_concat q : items (concat ((λ e : string * string, [e.1; e.2]) <$> q)) = q.
Proof. induction q as [|[k v] q IH]; [done|]. cbn. by rewrite IH. Qed.
Lemma prefix_app p s : String.prefix p (p +:+ s) = true.
Proof.
  induction p as [|c p IH]; [by destruct s|]. change (String c p +:+ s) with (String c (p +:+ s)). cbn.
  destruct (Ascii.ascii_dec c c); [exact IH|done].
Qed.

Lemma length_dashes n : String.length (dashes n) = n.
Proof. induction n as [|n IH]; [done|]. cbn. by rewrite IH. Qed.
Lemma dashes_no_slash n : contains_char slash (dashes n) = false.
Proof. induction n as [|n IH]; [done|]. exact IH. Qed.

Lemma laws : link_laws codec.
Proof.
  split; [| |done].
  - intros l (_ & Hs & Hu & Hh & Hf & Hp & Hq). cbn [QUrl toEncoded codec]. unfold parsed, text_of.
    rewrite split_concat; [|done|].
    + unfold parts, url_of_link. cbn [app]. rewrite items_concat, length_dashes, Z2Nat.id by lia. done.
    + repeat (constructor; [first [done | by apply plain_no_slash | by apply no_slash_app; [apply plain_no_slash|]]|]).
      constructor; [apply dashes_no_slash|]. apply Forall_concat, Forall_fmap.
      eapply Forall_impl; [exact Hq|]. intros [k v] [Hk Hv]. repeat constructor; by apply plain_no_slash.
  - intros l _. cbn [toEncoded codec]. unfold text_of, parts. cbn [app].
    set (rest := l_host l :: _). clearbody rest.
    assert (∀ a, String.concat "/" ((a +:+ ":") :: "" :: l_userInfo l :: rest) =
      (a +:+ "://") +:+ String.concat "/" (l_userInfo l :: rest)) as ->; [|apply prefix_app].
    induction a as [|c a IH]; [done|]. exact (f_equal (String c) IH).
Qed.
End plain_codec.

Definition sample_vless : vless :=
  mkVless "203.0.113.7" "a-b-c" 443 "xtls-rprx-vision" "none" "tcp" "reality" "example.org" "key" "01ab" "chrome" "".
Lemma vless_roundtrip_witness :
  link_laws plain_codec.codec ∧ plain_vless sample_vless "home" ∧
  let '(config, alias', err) := @vless_Deserialize plain_codec.codec (@vless_Serialize plain_codec.codec sample_vless "home") "" "" in
  read_vless config = sample_vless ∧ alias' = "home" ∧ err = "".
Proof.
  assert (plain_vless sample_vless "home") as Hp.
  { split; [by split|]. split; [reflexivity|]. split; [cbn; lia|]. repeat (constructor; [reflexivity|]). constructor. }
  split; [exact plain_codec.laws|]. split; [exact Hp|].
  exact (@vless_roundtrip plain_codec.codec sample_vless "home" plain_codec.laws Hp).
Defined.
