(* ===== verification/ImportController.v ===== *)
(** * ImportController: configurations brought by the user

    Models [core/controllers/selfhosted/importController.cpp] and the series of
    QR codes of [core/utils/qrCodeUtils.cpp]: what format a text has, what it is
    turned into, the decoding of a series of codes and the new server.

    The texts of [QDataStream], [qUncompress] and the matches of the regular
    expressions are the class [ImportCodec]. *)
From stdpp Require Import pretty.
From S2P Require Import Prelude Text Json Wire Containers ServerConfig Settings.
From S2P Require Import ServersRepository Links.

Module ConfigTypes.
Inductive ConfigTypes := Amnezia | OpenVpn | WireGuard | Awg | Xray | ShadowSocks | Backup | Invalid.
End ConfigTypes.
Abbreviation ConfigTypes := ConfigTypes.ConfigTypes.
#[export] Instance ConfigTypes_eq_dec : EqDecision ConfigTypes.
Proof. solve_decision. Defined.

Module ErrorCode.
Definition NoError : Z := 0.
Definition ImportInvalidConfigError : Z := 900.
Definition ImportBackupFileUseRestoreInstead : Z := 903.
Definition LegacyApiV1NotSupportedError : Z := 905.
End ErrorCode.

Class ImportCodec := {
  qUncompress : string → string;                            (** empty when the data is not compressed *)
  qr_write : Z → Z → Z → string → string;                   (** [s << magic << count << id << data] *)
  qr_read : string → Z * Z * Z * string;                    (** [s >> magic >> count >> id >> data] *)
  captures : string → string → option (list string);        (** the captures of the first match *)
  global_captures : string → string → list string;          (** the first capture of every match *)
}.

(** ** The format of a text *)
Definition checkConfigFormat (config : string) : ConfigTypes :=
  let has sub := contains_str sub config in
  if has "Servers/serversList" then ConfigTypes.Backup
  else if has "containers" || has "api_key" || has "auth_data" || (has "hostName" && has "userName" && has "password")
  then ConfigTypes.Amnezia
  else if has "[Interface]" && has "[Peer]" then ConfigTypes.WireGuard
  else if has "inbounds" && has "outbounds" then ConfigTypes.Xray
  else if has "client" && (has "dev tun" || has "dev tap") then ConfigTypes.OpenVpn
  else ConfigTypes.Invalid.

Record ImportResult := mkResult {
  errorCode : Z;
  config : gmap string json;
  configFileName : string;
  maliciousWarningText : string;
  configType : ConfigTypes;
  isNativeWireGuardConfig : bool;
}.

(** [QMap<QString, QString>::value] *)
Definition field (m : gmap string string) (k : string) : string := default "" (m !! k).

Section importer.
Context {T : Type} {A : Store T} {J : JsonCodec} {LC : LinkCodec} {JP : JsonPrinter} {IC : ImportCodec}.
Abbreviation R := (repository T).

Definition document (o : gmap string json) : string := indented (JObject o).
Definition read_object (s : string) : gmap string json := toObject (Wire.fromJson s).

(** The name of a new server; there are fewer names in use than servers. *)
Definition next_server_name (r : R) : string :=
  default "" (nextAvailableServerName (S (length (m_orderedServerIds r))) r).

Definition dquote : string := String (Ascii.ascii_of_nat 34) "".

(** One container, kept by the name of its protocol. *)
Definition third_party (lastConfig : string) : gmap string json :=
  object [member "last_config" (JString lastConfig); member "isThirdPartyConfig" (JBool true)].

(** ** OpenVPN *)
Definition hostNameRegExp : string := "remote\s+([^\s]+)".
Definition dnsRegExp : string := "dhcp-option DNS (\b\d{1,3}\.\d{1,3}\.\d{1,3}\.\d{1,3}\b)".

Definition extractOpenVpnConfig (data : string) (r : R) : gmap string json :=
  let openVpnConfig := object [member "config" (JString data)] in
  let lastConfig := third_party (document openVpnConfig) in
  let containers := object [member "container" (JString "amnezia-openvpn"); member "openvpn" (JObject lastConfig)] in
  let hostName := match captures hostNameRegExp data with Some (h :: _) => h | _ => "" end in
  let dns := global_captures dnsRegExp data in
  object
    ([member "containers" (JArray [JObject containers]); member "defaultContainer" (JString "amnezia-openvpn");
      member "description" (JString (next_server_name r))] ++
     match dns with dns1 :: _ => [member "dns1" (JString dns1)] | [] => [] end ++
     match dns with _ :: dns2 :: _ => [member "dns2" (JString dns2)] | _ => [] end ++
     [member "hostName" (JString hostName)]).

(** ** WireGuard and AmneziaWG *)
Definition in_brackets (line : string) : bool :=
  startsWith "[" line && (0 <? String.length line)%nat &&
  String.eqb (String.substring (String.length line - 1) 1 line) "]".

Definition read_line (m : gmap string string) (line : string) : gmap string string :=
  let trimmedLine := trimmed line in
  if in_brackets trimmedLine then m else
  match split_str " = " trimmedLine with
  | [k; v] => <[trimmed k := trimmed v]> m
  | _ => m
  end.
Definition configMap (data : string) : gmap string string := foldl read_line ∅ (lines_of data).

Definition requiredJunkFields : list string := ["Jc"; "Jmin"; "Jmax"; "S1"; "S2"; "H1"; "H2"; "H3"; "H4"].
Definition specialJunkFields : list string := ["I1"; "I2"; "I3"; "I4"; "I5"].
Definition optionalJunkFields : list string := ["S3"; "S4"] ++ specialJunkFields.

Definition has (m : gmap string string) (k : string) : bool := negb (String.eqb (field m k) "").
Definition text_of_field (m : gmap string string) (k : string) (name : string) : list assignment :=
  if has m k then [member name (JString (field m k))] else [].
Definition hasAllRequiredFields (m : gmap string string) : bool := forallb (has m) requiredJunkFields.

Definition protocolVersion (m : gmap string string) : string :=
  if has m "S3" && has m "S4" then "2"
  else if existsb (has m) specialJunkFields && negb (has m "S3") && negb (has m "S4") then "1.5" else "".

Definition wireguardDnsRegExp : string :=
  "DNS = (\b\d{1,3}\.\d{1,3}\.\d{1,3}\.\d{1,3}\b).*(\b\d{1,3}\.\d{1,3}\.\d{1,3}\.\d{1,3}\b)".

(** What is stored for the client, of a complete configuration. *)
Definition wireguard_last_config (data : string) (m : gmap string string) (u : url) (port : string) : gmap string json :=
  object
    ([member "config" (JString data); member "hostName" (JString (host u)); member "port" (JInt (atoi port));
      member "client_priv_key" (JString (field m "PrivateKey")); member "client_ip" (JString (field m "Address"))] ++
     (if has m "PresharedKey" then [member "psk_key" (JString (field m "PresharedKey"))]
      else text_of_field m "PreSharedKey" "psk_key") ++
     [member "server_pub_key" (JString (field m "PublicKey"))] ++
     text_of_field m "MTU" "mtu" ++
     text_of_field m "PersistentKeepalive" "persistent_keep_alive" ++
     [member "allowed_ips" (JStrings (split_str ", " (field m "AllowedIPs")))] ++
     (if hasAllRequiredFields m
      then ((λ k, member k (JString (field m k))) <$> requiredJunkFields) ++
           concat ((λ k, text_of_field m k k) <$> optionalJunkFields)
      else []) ++
     [member "mtu" (JString (if has m "MTU" then field m "MTU" else "1376"))]).

Definition extractWireGuardConfig (data : string) (configType : ConfigTypes) (r : R) : gmap string json * ConfigTypes :=
  let m := configMap data in
  let u := fromUserInput (field m "Endpoint") in
  if String.eqb (host u) "" then (∅, configType) else
  let port := if port u =? -1 then "51820" else pretty (port u) in
  if negb (has m "PrivateKey" && has m "Address" && has m "PublicKey") then (∅, configType) else
  let awg := hasAllRequiredFields m in
  let protocolName := if awg then "awg" else "wireguard" in
  let wireguardConfig := object
    ([member "last_config" (JString (document (wireguard_last_config data m u port)));
      member "isThirdPartyConfig" (JBool true); member "port" (JString port); member "transport_proto" (JString "udp")] ++
     (if awg && negb (String.eqb (protocolVersion m) "") then [member "protocol_version" (JString (protocolVersion m))] else [])) in
  let containerName := if awg then "amnezia-awg" else "amnezia-wireguard" in
  let containers := object [member "container" (JString containerName); member protocolName (JObject wireguardConfig)] in
  (object
     ([member "containers" (JArray [JObject containers]); member "defaultContainer" (JString containerName);
       member "description" (JString (next_server_name r))] ++
      match captures wireguardDnsRegExp data with
      | Some (dns1 :: dns2 :: _) => [member "dns1" (JString dns1); member "dns2" (JString dns2)]
      | _ => []
      end ++
      [member "hostName" (JString (host u))]),
   if awg then ConfigTypes.Awg else ConfigTypes.WireGuard).

(** ** Xray and Shadowsocks over Xray *)
Definition addressRegExp : string := dquote +:+ "address" +:+ dquote +:+ ":\s*" +:+ dquote +:+ "([^" +:+ dquote +:+ "]+)".

(** A document that is null prints as nothing. *)
Definition print_document (d : option json) : string := match d with Some j => indented j | None => "" end.

Definition extractXrayConfig (data : string) (configType : ConfigTypes) (description : string) (r : R) : gmap string json :=
  let lastConfig := third_party (print_document (Wire.fromJson data)) in
  let shadowsocks := bool_decide (configType = ConfigTypes.ShadowSocks) in
  let name := if shadowsocks then "amnezia-ssxray" else "amnezia-xray" in
  let containers := object [member "container" (JString name);
                            member (if shadowsocks then "ssxray" else "xray") (JObject lastConfig)] in
  let hostName := match captures addressRegExp data with Some (h :: _) => h | _ => "" end in
  object
    [member "containers" (JArray [JObject containers]); member "defaultContainer" (JString name);
     member "description" (JString (if String.eqb description "" then next_server_name r else description));
     member "hostName" (JString hostName)].

(** ** Scripts in OpenVPN configurations *)
Definition dangerousTags : list string :=
  ["up"; "tls-verify"; "ipchange"; "client-connect"; "route-up"; "route-pre-down"; "client-disconnect"; "down";
   "learn-address"; "auth-user-pass-verify"].
Definition space : Ascii.ascii := Ascii.ascii_of_nat 32.
(** [line.section(' ', 0, 0, QString::SectionSkipEmpty)] *)
Definition command_of (line : string) : string := default "" (head (nonempty (split_char space line))).
Definition dangerous (rawLine : string) : bool := bool_decide (toLower (command_of (trimmed rawLine)) ∈ dangerousTags).
Definition maliciousStrings (protocolConfig : string) : list string :=
  List.filter dangerous (nonempty (lines_of protocolConfig)).

Definition openvpn_warning : string :=
  "This configuration contains an OpenVPN setup. OpenVPN configurations can include malicious " +:+
  "scripts, so only add it if you fully trust the provider of this config. ".
Definition warning_of (lines : list string) : string :=
  openvpn_warning +:+
  match lines with
  | [] => ""
  | _ => "<br>In the imported configuration, potentially dangerous lines were found:" +:+
         String.concat "" ((λ s, "<br><i>" +:+ s +:+ "</i>") <$> lines)
  end.

(** The warning of the last OpenVPN container. *)
Definition container_warning (warningText : string) (container : json) : string :=
  let containerConfig := toObject (Some container) in
  if String.eqb (text containerConfig "container") (containerToString DockerContainer.OpenVpn) then
    let protocolConfig := text (toObject (Json.value containerConfig (protoToString Proto.OpenVpn))) "last_config" in
    warning_of (maliciousStrings (text (read_object protocolConfig) "config"))
  else warningText.
Definition checkForMaliciousStrings (serverConfig : gmap string json) (warningText : string) : string :=
  foldl container_warning warningText (toArray (Json.value serverConfig "containers")).

(** ** Configurations of the application itself *)

(** The containers after the loop, which ends at the first one without a
    stored configuration, and whether one was changed. *)
Fixpoint process_containers (l : list json) : list json * bool :=
  match l with
  | [] => ([], false)
  | j :: l =>
      let container := toObject (Some j) in
      let dockerContainer := containerFromString (text container "container") in
      let name := containerTypeToProtocolString dockerContainer in
      if isAwgContainer dockerContainer || bool_decide (dockerContainer = DockerContainer.WireGuard) then
        let containerConfig := toObject (Json.value container name) in
        let protocolConfig := text containerConfig "last_config" in
        if String.eqb protocolConfig "" then (j :: l, false) else
        let jsonConfig := <["mtu" := JString "1376"]> (read_object protocolConfig) in
        let containerConfig := <["last_config" := JString (document jsonConfig)]> containerConfig in
        (JObject (<[name := JObject containerConfig]> container) :: (process_containers l).1, true)
      else let '(l, changed) := process_containers l in (j :: l, changed)
  end.
Definition processAmneziaConfig (config : gmap string json) : gmap string json :=
  let '(containers, changed) := process_containers (toArray (Json.value config "containers")) in
  if changed then <["containers" := JArray containers]> config else config.

(** The default parameters of the obfuscation; [jc] is drawn from 4 to 6. *)
Definition junk_defaults (jc : Z) : list assignment :=
  [member "Jc" (JString (pretty jc)); member "Jmin" (JString "10"); member "Jmax" (JString "50");
   member "S1" (JString "0"); member "S2" (JString "0"); member "H1" (JString "1"); member "H2" (JString "2");
   member "H3" (JString "3"); member "H4" (JString "4"); member "S3" (JString "0"); member "S4" (JString "0");
   member "I1" (JString "<r 2><b 0x858000010001000000000669636c6f756403636f6d0000010001c00c000100010000105a00044d583737>");
   member "isObfuscationEnabled" (JBool true)].
Definition processNativeWireGuardConfig (jc : Z) (config : gmap string json) : gmap string json :=
  match toArray (Json.value config "containers") with
  | [] => config
  | first :: rest =>
      let container := toObject (Some first) in
      let serverProtocolConfig := toObject (Json.value container (containerTypeToProtocolString DockerContainer.WireGuard)) in
      let clientProtocolConfig := object_from (read_object (text serverProtocolConfig "last_config")) (junk_defaults jc) in
      let serverProtocolConfig := <["last_config" := JString (document clientProtocolConfig)]> serverProtocolConfig in
      let container := <["wireguard" := JObject serverProtocolConfig]> container in
      <["containers" := JArray (JObject container :: rest)]> config
  end.

(** ** A text *)
Definition is_empty (o : gmap string json) : bool := bool_decide (o = ∅).

(** A reader of links: the text of the document and the alias it leaves. *)
Definition link_reader : Type := string → string → gmap string json * string * string.
Record attempt := mkAttempt { applies : bool; a_type : ConfigTypes; a_read : link_reader }.

Definition attempts (unset : Z) (config : string) : list attempt :=
  [mkAttempt (startsWith "vless://" config) ConfigTypes.Xray (vless_Deserialize config);
   mkAttempt (startsWith "vmess://" config && contains_str "@" config) ConfigTypes.Xray (vmess_new_Deserialize unset config);
   mkAttempt (startsWith "vmess://" config) ConfigTypes.Xray (λ prefix _, vmess_Deserialize unset config prefix);
   mkAttempt (startsWith "trojan://" config) ConfigTypes.Xray (trojan_Deserialize config);
   mkAttempt (startsWith "ss://" config && negb (contains_str "plugin=" config)) ConfigTypes.ShadowSocks
     (ss_Deserialize config)].

(** The first that gives a configuration; else the alias left. *)
Fixpoint try_links (r : R) (l : list attempt) (prefix errormsg : string) : (gmap string json * ConfigTypes) + string :=
  match l with
  | [] => inr prefix
  | a :: l =>
      if applies a then
        let '(root, prefix, errormsg) := a_read a prefix errormsg in
        let c := extractXrayConfig (toJson_compact root) (a_type a) prefix r in
        if is_empty c then try_links r l prefix errormsg else inl (c, a_type a)
      else try_links r l prefix errormsg
  end.

Definition try_ssd (r : R) (config prefix : string) : option (gmap string json) :=
  if startsWith "ssd://" config then
    match (ssd_Deserialize config prefix).1 with
    | (name, _) :: _ =>
        let c := extractXrayConfig name ConfigTypes.ShadowSocks "" r in
        if is_empty c then None else Some c
    | [] => None
    end
  else None.

(** The text to look at and its format, decoded when it has none. *)
Definition recognised (config : string) : string * ConfigTypes :=
  let configType := checkConfigFormat config in
  if bool_decide (configType = ConfigTypes.Invalid) then
    let ba := base64UrlDecode (replace_str "vpn://" "" config) in
    let baUncompressed := qUncompress ba in
    let config := if String.eqb baUncompressed "" then ba else baUncompressed in
    (config, checkConfigFormat config)
  else (config, configType).

Definition or_invalid (c : gmap string json) (warning : string) (file : string) (type : ConfigTypes) (native : bool) : ImportResult :=
  mkResult (if is_empty c then ErrorCode.ImportInvalidConfigError else ErrorCode.NoError) c file
    (if is_empty c then "" else warning) type native.

Definition extractConfigFromData (unset : Z) (data configFileName : string) (r : R) : ImportResult :=
  let result c type := mkResult ErrorCode.NoError c configFileName "" type false in
  match try_links r (attempts unset data) "" "" with
  | inl (c, type) => result c type
  | inr prefix =>
      match try_ssd r data prefix with
      | Some c => result c ConfigTypes.ShadowSocks
      | None =>
          let '(config, type) := recognised data in
          let refused e file := mkResult e ∅ file "" type false in
          match type with
          | ConfigTypes.OpenVpn =>
              let c := extractOpenVpnConfig config r in
              or_invalid c (checkForMaliciousStrings c "") configFileName type false
          | ConfigTypes.Awg | ConfigTypes.WireGuard =>
              let '(c, type) := extractWireGuardConfig config type r in
              or_invalid c "" configFileName type (bool_decide (type = ConfigTypes.WireGuard))
          | ConfigTypes.Xray => or_invalid (extractXrayConfig config type "" r) "" configFileName type false
          | ConfigTypes.Amnezia =>
              let c := read_object config in
              if isServerFromApi c then refused ErrorCode.LegacyApiV1NotSupportedError configFileName else
              let c := processAmneziaConfig c in
              or_invalid c (checkForMaliciousStrings c "") configFileName type false
          | ConfigTypes.Backup => refused ErrorCode.ImportBackupFileUseRestoreInstead configFileName
          | ConfigTypes.Invalid => refused ErrorCode.ImportInvalidConfigError ""
          | ConfigTypes.ShadowSocks => refused ErrorCode.ImportInvalidConfigError configFileName
          end
      end
  end.

(** ** A code *)
Definition amnezia_result (c : gmap string json) : ImportResult :=
  if is_empty c then mkResult ErrorCode.ImportInvalidConfigError ∅ "" "" ConfigTypes.Invalid false
  else mkResult ErrorCode.NoError c "" "" ConfigTypes.Amnezia false.

Definition extractConfigFromQr (unset : Z) (data : string) (r : R) : ImportResult :=
  if negb (bool_decide (checkConfigFormat data = ConfigTypes.Invalid)) then extractConfigFromData unset data "" r else
  let dataObj := read_object data in
  if negb (is_empty dataObj) then amnezia_result dataObj else
  let ba_uncompressed := qUncompress data in
  if negb (String.eqb ba_uncompressed "") then amnezia_result (read_object ba_uncompressed) else
  let ba := base64UrlDecode data in
  let baUncompressed := qUncompress ba in
  let ba := if String.eqb baUncompressed "" then ba else baUncompressed in
  if negb (String.eqb ba "") then amnezia_result (read_object ba)
  else mkResult ErrorCode.ImportInvalidConfigError ∅ "" "" ConfigTypes.Invalid false.

(** ** A series of codes *)
Definition qrMagicCode : Z := 1984.

Record decoder := mkDecoder {
  m_qrCodeChunks : gmap Z string;
  m_isQrCodeProcessed : bool;
  m_totalQrCodeChunksCount : Z;
  m_receivedQrCodeChunksCount : Z;
}.
Record QrParseResult := mkQrResult {
  success : bool;
  importResult : option ImportResult;
  chunksReceived : Z;
  chunksTotal : Z;
}.

Definition startDecodingQr : decoder := mkDecoder ∅ true 0 0.
Definition isQrDecodingActive (d : decoder) : bool := m_isQrCodeProcessed d.
Definition qrChunksReceived (d : decoder) : Z := m_receivedQrCodeChunksCount d.
Definition qrChunksTotal (d : decoder) : Z := m_totalQrCodeChunksCount d.

Definition succeeded (res : ImportResult) : bool := errorCode res =? ErrorCode.NoError.

(** The chunks of a complete series, one after the other. *)
Definition joined (chunks : gmap Z string) (total : Z) : string :=
  String.concat "" ((λ i, default "" (chunks !! i)) <$> seqZ 0 total).

Definition parseQrCodeChunk (unset : Z) (code : string) (r : R) (d : decoder) : QrParseResult * decoder :=
  if negb (m_isQrCodeProcessed d) then
    (mkQrResult false None (m_receivedQrCodeChunksCount d) (m_totalQrCodeChunksCount d), d) else
  let ba := base64UrlDecode code in
  let '(magic, chunksCount, chunkId, chunk) := qr_read ba in
  if magic =? qrMagicCode then
    let chunks := if m_totalQrCodeChunksCount d =? chunksCount then m_qrCodeChunks d else ∅ in
    let chunks := <[chunkId := chunk]> chunks in
    let received := Z.of_nat (size chunks) in
    if received =? chunksCount then
      let result := extractConfigFromQr unset (joined chunks chunksCount) r in
      if succeeded result
      then (mkQrResult true (Some result) received chunksCount, mkDecoder chunks false chunksCount received)
      else (mkQrResult false None received chunksCount, mkDecoder ∅ true 0 0)
    else (mkQrResult false None received chunksCount, mkDecoder chunks true chunksCount received)
  else
    let result := extractConfigFromQr unset code r in
    let result := if succeeded result then result else extractConfigFromQr unset ba r in
    let received := m_receivedQrCodeChunksCount d in
    let total := m_totalQrCodeChunksCount d in
    if succeeded result
    then (mkQrResult true (Some result) received total, mkDecoder (m_qrCodeChunks d) false total received)
    else (mkQrResult false None received total, d).

(** [qrCodeUtils::generateQrCodeImageSeries], up to the drawing of the codes. *)
Definition qr_size : nat := 850.
Definition qr_chunk (data : string) (chunksCount : Z) (i : nat) : string :=
  toBase64Url (qr_write qrMagicCode chunksCount (Z.of_nat i / Z.of_nat qr_size) (String.substring i qr_size data)).
Fixpoint qr_loop (fuel : nat) (data : string) (chunksCount : Z) (i : nat) : list string :=
  match fuel with
  | O => []
  | S fuel =>
      if (i <? String.length data)%nat then qr_chunk data chunksCount i :: qr_loop fuel data chunksCount (i + qr_size)
      else []
  end.
Definition generateQrCodeImageSeries (data : string) : list string :=
  let chunksCount := (Z.of_nat (String.length data) + 849) / 850 in
  qr_loop (S (String.length data)) data (chunksCount mod 256) 0.

(** ** The new server *)
Inductive import_signal := importFinished | importErrorOccurred (errorCode : Z) (goToPageHome : bool).

Definition importConfig {P : ArrayPrinter} (uuid : nat → string) (config : gmap string json) (r : R) : import_signal * R :=
  let credentials_valid :=
    negb (String.eqb (text config "hostName") "") && negb (String.eqb (text config "userName") "") &&
    negb (String.eqb (text config "password") "") && (0 <? toInt (Json.value config "port")) in
  if credentials_valid || contains config "containers" then
    (importFinished, (addServer uuid "" config (configTypeFromJson config) r).2)
  else if contains config "config_version" then (importErrorOccurred ErrorCode.LegacyApiV1NotSupportedError true, r)
  else (importErrorOccurred ErrorCode.ImportInvalidConfigError false, r).
End importer.

(** ** A series of codes is read back *)
Lemma substring_split (s : string) i a b :
  String.substring i (a + b) s = String.substring i a s +:+ String.substring (i + a) b s.
Proof.
  revert i a. induction s as [|c s IH]; intros i a; [by destruct i, a, b|].
  destruct i as [|i]; cbn; [|apply IH]. destruct a as [|a]; cbn; [done|]. by rewrite (IH 0%nat a).
Qed.
Lemma substring_whole (s : string) n : (String.length s ≤ n)%nat → String.substring 0 n s = s.
Proof.
  revert n. induction s as [|c s IH]; intros n Hn; [by destruct n|]. destruct n as [|n]; cbn in *; [lia|].
  by rewrite IH by lia.
Qed.

(** The chunk with a number, and how many there are. *)
Definition qr_part (data : string) (i : nat) : string := String.substring (i * qr_size) qr_size data.
Definition qr_count (data : string) : nat := (String.length data + 849) / 850.

Lemma qr_parts_whole data : String.concat "" (qr_part data <$> seq 0 (qr_count data)) = data.
Proof.
  assert (∀ n, String.concat "" (qr_part data <$> seq 0 n) = String.substring 0 (n * qr_size) data) as H.
  { intros n. induction n as [|n IH]; [by destruct data|].
    rewrite seq_S, fmap_app, concat_empty_app, IH, Nat.mul_succ_l, substring_split. done. }
  rewrite H. apply substring_whole. unfold qr_count, qr_size.
  pose proof (Nat.div_mod (String.length data + 849) 850 ltac:(lia)).
  pose proof (Nat.mod_upper_bound (String.length data + 849) 850 ltac:(lia)). lia.
Qed.

Section qr.
Context {T : Type} {A : Store T} {J : JsonCodec} {LC : LinkCodec} {JP : JsonPrinter} {IC : ImportCodec}.

(** The text of a code carries what was written into it. *)
Definition qr_law : Prop := ∀ count id data,
  0 ≤ count ≤ 255 → 0 ≤ id ≤ 255 →
  qr_read (base64UrlDecode (toBase64Url (qr_write qrMagicCode count id data))) = (qrMagicCode, count, id, data).

Definition qr_code (data : string) (i : nat) : string :=
  toBase64Url (qr_write qrMagicCode (Z.of_nat (qr_count data)) (Z.of_nat i) (qr_part data i)).

Lemma qr_loop_codes data c fuel j :
  (qr_count data ≤ j + fuel)%nat →
  qr_loop fuel data c (j * qr_size) =
  (λ i, toBase64Url (qr_write qrMagicCode c (Z.of_nat i) (qr_part data i))) <$> seq j (qr_count data - j).
Proof.
  assert (∀ j, (j * qr_size <? String.length data)%nat = (j <? qr_count data)%nat) as Hlt.
  { intros i. unfold qr_count, qr_size. apply eq_true_iff_eq. rewrite !Nat.ltb_lt.
    pose proof (Nat.div_mod (String.length data + 849) 850 ltac:(lia)).
    pose proof (Nat.mod_upper_bound (String.length data + 849) 850 ltac:(lia)). nia. }
  revert j. induction fuel as [|fuel IH]; intros j Hf; cbn [qr_loop].
  - by replace (qr_count data - j)%nat with 0%nat by lia.
  - rewrite Hlt. destruct (Nat.ltb_spec j (qr_count data)).
    + replace (qr_count data - j)%nat with (S (qr_count data - S j)) by lia. cbn [seq fmap list_fmap].
      f_equal.
      * unfold qr_chunk, qr_part. by rewrite Nat2Z.inj_mul, Z.div_mul by done.
      * replace (j * qr_size + qr_size)%nat with (S j * qr_size)%nat by lia. apply IH. lia.
    + by replace (qr_count data - j)%nat with 0%nat by lia.
Qed.

Lemma generate_codes data :
  (String.length data ≤ 255 * qr_size)%nat →
  generateQrCodeImageSeries data = qr_code data <$> seq 0 (qr_count data) ∧ (qr_count data ≤ 255)%nat.
Proof.
  intros Hn. assert (qr_count data ≤ 255)%nat as Hc.
  { unfold qr_count. apply Nat.lt_succ_r, Nat.Div0.div_lt_upper_bound. unfold qr_size in Hn. lia. }
  split; [|done]. unfold generateQrCodeImageSeries.
  replace ((Z.of_nat (String.length data) + 849) / 850) with (Z.of_nat (qr_count data)).
  2: { unfold qr_count. by rewrite Nat2Z.inj_div, Nat2Z.inj_add. }
  rewrite Z.mod_small by lia. rewrite (qr_loop_codes data _ _ 0), Nat.sub_0_r; [done|].
  unfold qr_count. pose proof (Nat.div_mod (String.length data + 849) 850 ltac:(lia)). nia.
Qed.

Variables (LQ : qr_law) (unset : Z) (r : repository T) (data : string).

(** What has been scanned so far. *)
Fixpoint scan (codes : list string) (d : decoder) : list QrParseResult * decoder :=
  match codes with
  | [] => ([], d)
  | code :: codes =>
      let '(p, d) := parseQrCodeChunk unset code r d in
      let '(ps, d) := scan codes d in (p :: ps, d)
  end.
Definition scanned (l : list nat) : gmap Z string :=
  foldl (λ m i, <[Z.of_nat i := qr_part data i]> m) ∅ l.
Definition half_way (l : list nat) : decoder :=
  mkDecoder (scanned l) true (match l with [] => 0 | _ => Z.of_nat (qr_count data) end) (Z.of_nat (size (scanned l))).

Lemma scanned_snoc l i : scanned (l ++ [i]) = <[Z.of_nat i := qr_part data i]> (scanned l).
Proof. unfold scanned. by rewrite foldl_app. Qed.
Lemma scanned_lookup l i : i ∈ l → scanned l !! Z.of_nat i = Some (qr_part data i).
Proof.
  induction l as [|j l IH] using rev_ind; [by intros ?%elem_of_nil|]. rewrite scanned_snoc.
  intros Hi. destruct (decide (i = j)) as [->|Hne]; [apply lookup_insert_eq|]. rewrite lookup_insert_ne by lia.
  apply IH. apply elem_of_app in Hi as [?|?%list_elem_of_singleton]; done.
Qed.
Lemma scanned_size l : size (scanned l) = size (list_to_set l : gset nat).
Proof.
  induction l as [|j l IH] using rev_ind; [done|]. rewrite scanned_snoc, list_to_set_app_L. cbn. rewrite union_empty_r_L.
  destruct (decide (j ∈ l)) as [Hj|Hj].
  - rewrite insert_id by by apply scanned_lookup. rewrite IH. f_equal. set_solver.
  - rewrite map_size_insert_None, IH.
    + rewrite (union_comm_L (list_to_set l)), size_union, size_singleton; [done|]. set_solver.
    + apply not_elem_of_dom. clear IH. intros Hd. apply Hj. revert Hd.
      induction l as [|i l IH] using rev_ind; [done|]. rewrite scanned_snoc, dom_insert. rewrite elem_of_union, elem_of_singleton.
      intros [Hij|Hd]; [apply elem_of_app; right; apply list_elem_of_singleton; lia|].
      apply elem_of_app. left. apply IH; [|done]. intros Hin. apply Hj, elem_of_app. by left.
Qed.
Lemma joined_scanned l : (∀ i, (i < qr_count data)%nat → i ∈ l) → joined (scanned l) (Z.of_nat (qr_count data)) = data.
Proof.
  intros Hl. etrans; [|apply qr_parts_whole]. unfold joined. f_equal. unfold seqZ.
  rewrite Nat2Z.id, <- list_fmap_compose. apply list_fmap_ext. intros k i Hi%lookup_seq. cbn.
  rewrite Z.add_0_r. destruct Hi as [-> Hi]. by rewrite scanned_lookup by (apply Hl; lia).
Qed.
Lemma scanned_full l : (∀ i, i ∈ l → (i < qr_count data)%nat) → (size (scanned l) ≤ qr_count data)%nat.
Proof.
  intros Hl. rewrite scanned_size, <- (length_seq (qr_count data) 0), <- (size_list_to_set (C := gset nat)) by apply NoDup_seq.
  apply subseteq_size. intros i. rewrite !elem_of_list_to_set, elem_of_seq. intros ?%Hl. lia.
Qed.
Lemma scanned_all l : (∀ i, i ∈ l → (i < qr_count data)%nat) →
  size (scanned l) = qr_count data ↔ ∀ i, (i < qr_count data)%nat → i ∈ l.
Proof.
  intros Hl. rewrite scanned_size.
  assert (size (list_to_set (seq 0 (qr_count data)) : gset nat) = qr_count data) as Hs.
  { rewrite size_list_to_set by apply NoDup_seq. apply length_seq. }
  assert ((list_to_set l : gset nat) ⊆ list_to_set (seq 0 (qr_count data))) as Hsub.
  { intros i. rewrite !elem_of_list_to_set, elem_of_seq. intros ?%Hl. lia. }
  split.
  - intros E i Hi. assert ((list_to_set l : gset nat) = list_to_set (seq 0 (qr_count data))) as Heq.
    { apply set_eq. apply (set_subseteq_size_equiv _ _ Hsub). lia. }
    rewrite <- (elem_of_list_to_set (C := gset nat)), Heq, elem_of_list_to_set, elem_of_seq. lia.
  - intros Hall. etrans; [|exact Hs]. f_equal. apply set_eq. intros i.
    rewrite !elem_of_list_to_set, elem_of_seq. split; [intros ?%Hl; lia|]. intros ?. apply Hall. lia.
Qed.

Hypothesis few : (String.length data ≤ 255 * qr_size)%nat.

Lemma half_way_step l i :
  (i < qr_count data)%nat →
  let '(p, d) := parseQrCodeChunk unset (qr_code data i) r (half_way l) in
  let result := extractConfigFromQr unset data r in
  let all := bool_decide (size (scanned (l ++ [i])) = qr_count data) in
  (∀ i, i ∈ l → (i < qr_count data)%nat) →
  success p = all && succeeded result ∧ importResult p = (if all && succeeded result then Some result else None) ∧
  chunksReceived p = Z.of_nat (size (scanned (l ++ [i]))) ∧ chunksTotal p = Z.of_nat (qr_count data) ∧
  if all then (if succeeded result then isQrDecodingActive d = false else d = startDecodingQr) else d = half_way (l ++ [i]).
Proof.
  intros Hi. destruct (generate_codes data few) as [_ Hc].
  unfold parseQrCodeChunk, qr_code. cbn [half_way m_isQrCodeProcessed m_totalQrCodeChunksCount m_qrCodeChunks negb].
  rewrite LQ by lia. rewrite Z.eqb_refl.
  assert ((if (match l with [] => 0 | _ => Z.of_nat (qr_count data) end) =? Z.of_nat (qr_count data) then scanned l else ∅)
    = scanned l) as ->.
  { destruct l; [by case_match|]. by rewrite Z.eqb_refl. }
  rewrite <- scanned_snoc.
  assert ((Z.of_nat (size (scanned (l ++ [i]))) =? Z.of_nat (qr_count data)) =
    bool_decide (size (scanned (l ++ [i])) = qr_count data)) as ->.
  { apply eq_true_iff_eq. rewrite Z.eqb_eq, bool_decide_eq_true. lia. }
  assert (half_way (l ++ [i]) = mkDecoder (scanned (l ++ [i])) true (Z.of_nat (qr_count data)) (Z.of_nat (size (scanned (l ++ [i]))))) as ->.
  { unfold half_way. by destruct l. }
  case_bool_decide as Hall; [|by intros _]. destruct (succeeded _) eqn:Hr; intros Hl;
    rewrite joined_scanned in Hr by (apply scanned_all; [|done]; intros x [?|?%list_elem_of_singleton]%elem_of_app; [by apply Hl|by subst]);
    rewrite Hr; [|done].
  rewrite joined_scanned by (apply scanned_all; [|done]; intros x [?|?%list_elem_of_singleton]%elem_of_app; [by apply Hl|by subst]).
  done.
Qed.

Lemma scan_half_way l k :
  (∀ i, i ∈ l ++ k → (i < qr_count data)%nat) → (∃ i, (i < qr_count data)%nat ∧ i ∉ l ++ k) →
  let '(ps, d) := scan (qr_code data <$> k) (half_way l) in
  Forall (λ p, success p = false) ps ∧ d = half_way (l ++ k).
Proof.
  revert l. induction k as [|i k IH]; intros l Hl (j & Hj & Hn); cbn [fmap list_fmap scan]; [by rewrite app_nil_r|].
  assert (∀ i, i ∈ l → (i < qr_count data)%nat) as Hl' by (intros x Hx; apply Hl, elem_of_app; by left).
  assert (l ++ i :: k = (l ++ [i]) ++ k) as El by by rewrite <- app_assoc.
  pose proof (half_way_step l i ltac:(apply Hl; apply elem_of_app; right; by left)) as Hs.
  destruct (parseQrCodeChunk _ _ _ _) as [p d]. cbn zeta in Hs. destruct (Hs Hl') as (H1 & _ & _ & _ & H5). clear Hs.
  rewrite bool_decide_eq_false_2 in H1, H5.
  2-3: rewrite scanned_all; [intros Hall; apply Hn; rewrite El; apply elem_of_app; left; by apply Hall|];
    intros x [?|?%list_elem_of_singleton]%elem_of_app; [by apply Hl'|subst; apply Hl, elem_of_app; right; by left].
  rewrite H5. specialize (IH (l ++ [i])). rewrite <- El in IH. destruct (scan _ _) as [ps d'].
  destruct IH as [IH1 IH2]; [done|by exists j|]. split; [|done]. constructor; [|done]. by rewrite H1.
Qed.

(** C12. The codes made of a text of at most 255 chunks, scanned in any order and
    any number of times, are read back: until the last one missing is seen
    nothing is reported but the number of different codes seen, and then the
    text is extracted as if it had been one code; if nothing can be made of it
    the decoder is as at the start. *)
Theorem qr_series_decoded (before : list nat) (last : nat) :
  let codes := generateQrCodeImageSeries data in
  let result := extractConfigFromQr unset data r in
  (∀ i, i ∈ last :: before → (i < length codes)%nat) →
  last ∉ before → (∀ i, (i < length codes)%nat → i ∈ last :: before) →
  let '(ps, d) := scan ((λ i, nth i codes "") <$> before) startDecodingQr in
  let '(p, d') := parseQrCodeChunk unset (nth last codes "") r d in
  Forall (λ p, success p = false) ps ∧ isQrDecodingActive d = true ∧
  qrChunksReceived d = Z.of_nat (size (list_to_set before : gset nat)) ∧
  success p = succeeded result ∧ importResult p = (if succeeded result then Some result else None) ∧
  chunksReceived p = chunksTotal p ∧ chunksTotal p = Z.of_nat (length codes) ∧
  if succeeded result then isQrDecodingActive d' = false else d' = startDecodingQr.
Proof.
  cbv zeta. destruct (generate_codes data few) as [-> Hc]. rewrite length_fmap, length_seq.
  intros Hin Hd Hall.
  assert (∀ i, i ∈ last :: before → nth i (qr_code data <$> seq 0 (qr_count data)) "" = qr_code data i) as Hnth.
  { intros i Hi%Hin. apply nth_lookup_Some. rewrite list_lookup_fmap, lookup_seq_lt by done. done. }
  rewrite (list_fmap_ext _ (qr_code data) before) by (intros k i Hk%list_elem_of_lookup_2; apply Hnth; by right).
  rewrite (Hnth last) by (by left).
  pose proof (scan_half_way [] before) as Hs. cbn [app] in Hs.
  change (half_way []) with startDecodingQr in Hs. destruct (scan _ _) as [ps d].
  destruct Hs as [Hps ->]; [intros i Hi; apply Hin; by right|exists last; split; [apply Hin; by left|done]|].
  pose proof (half_way_step before last ltac:(apply Hin; by left)) as Hl. destruct (parseQrCodeChunk _ _ _ _) as [p d'].
  cbn zeta in Hl. destruct Hl as (H1 & H2 & H3 & H4 & H5); [intros i Hi; apply Hin; by right|].
  assert (size (scanned (before ++ [last])) = qr_count data) as Hsize.
  { assert (∀ i, i ∈ before ++ [last] ↔ i ∈ last :: before) as Hiff.
    { intros i. rewrite elem_of_app, !elem_of_cons, elem_of_nil. tauto. }
    apply scanned_all; intros i; rewrite Hiff; [apply Hin|apply Hall]. }
  rewrite bool_decide_eq_true_2 in H1, H2, H5 by done. cbn [andb] in *. rewrite H3, H4, Hsize.
  split_and!; try done. cbn. by rewrite scanned_size.
Qed.
End qr.

(** ** What is imported is added to the list *)

(** A configuration of one container, marked as imported. *)
Record foreign (c : gmap string json) : Prop := {
  f_container : ∃ name proto o, Json.value c "containers" =
      Some (JArray [JObject (object [member "container" (JString name); member proto (JObject o)])]) ∧
    proto ≠ "container" ∧ Json.value o "isThirdPartyConfig" = Some (JBool true);
  f_id : Json.value c "storageServerId" = None;
  f_version : Json.value c "config_version" = None;
}.

Lemma foreign_not_empty c : foreign c → is_empty c = false.
Proof.
  intros [(name & proto & o & H & _) _ _]. apply bool_decide_eq_false. intros ->. done.
Qed.
Lemma foreign_native {J : JsonCodec} c : foreign c → configTypeFromJson c = Native.
Proof.
  intros [(name & proto & o & H & Hp & Ho) _ Hv]. unfold configTypeFromJson, isServerFromApi. rewrite Hv. cbn.
  assert (hasThirdPartyConfig c = true) as ->; [|done]. unfold hasThirdPartyConfig. rewrite H. cbn [toArray existsb toObject].
  rewrite orb_false_r. apply existsb_map. exists proto, (JObject o). split.
  - change (Json.value (object [member "container" (JString name); member proto (JObject o)]) proto = Some (JObject o)).
    rewrite value_object. cbn [assigned member fst snd]. by rewrite String.eqb_refl.
  - unfold third_party_member. cbn [fst snd toObject]. rewrite (proj2 (String.eqb_neq _ _)) by done.
    rewrite contains_spec, Ho. done.
Qed.
Lemma foreign_stored c : foreign c → withoutStorageServerId c = c.
Proof. intros H. apply delete_id, (f_id _ H). Qed.

Ltac lookup_tac := rewrite ?value_object; cbn [assigned member fst snd app String.eqb Ascii.eqb Bool.eqb].

Section imports.
Context {T : Type} {A : Store T} {J : JsonCodec} {LC : LinkCodec} {JP : JsonPrinter} {IC : ImportCodec}.

Lemma foreign_openvpn data (r : repository T) : foreign (extractOpenVpnConfig data r).
Proof.
  unfold extractOpenVpnConfig. destruct (global_captures _ _) as [|? []]; (split; [|by lookup_tac..]).
  all: eexists "amnezia-openvpn", "openvpn", _; split_and!; by lookup_tac.
Qed.
Lemma foreign_xray data type description (r : repository T) : foreign (extractXrayConfig data type description r).
Proof.
  unfold extractXrayConfig. case_bool_decide; (split; [|by lookup_tac..]).
  all: eexists _, _, _; split_and!; [by lookup_tac..|done|by lookup_tac].
Qed.
Lemma foreign_wireguard data type (r : repository T) :
  let '(c, type') := extractWireGuardConfig data type r in
  (c = ∅ ∧ type' = type) ∨ (foreign c ∧ (type' = ConfigTypes.Awg ∨ type' = ConfigTypes.WireGuard)).
Proof.
  unfold extractWireGuardConfig. cbv zeta. destruct (String.eqb _ _); [by left|]. destruct (negb _); [by left|]. right.
  split; [|destruct (hasAllRequiredFields _); auto].
  destruct (captures _ _) as [[|? []]|]; (split; [|by lookup_tac..]).
  all: eexists _, _, _; split_and!; [by lookup_tac|by destruct (hasAllRequiredFields _)|].
  all: destruct (hasAllRequiredFields _ && _); by lookup_tac.
Qed.

Lemma or_invalid_ok c w file type native :
  errorCode (or_invalid c w file type native) = ErrorCode.NoError → is_empty c = false.
Proof. unfold or_invalid. by destruct (is_empty c). Qed.

Lemma config_or_invalid c w file type native : config (or_invalid c w file type native) = c.
Proof. done. Qed.

Lemma try_links_foreign (r : repository T) l prefix e c type :
  try_links r l prefix e = inl (c, type) → foreign c ∧ ∃ a, a ∈ l ∧ type = a_type a.
Proof.
  revert prefix e. induction l as [|a l IH]; intros prefix e; cbn [try_links]; [done|].
  destruct (applies a).
  - destruct (a_read a prefix e) as [[root alias] e']. rewrite foreign_not_empty by apply foreign_xray.
    intros [= <- <-]. split; [apply foreign_xray|]. exists a. split; [by left|done].
  - intros (H & a' & Ha & ->)%IH. split; [done|]. exists a'. split; [by right|done].
Qed.

Lemma extract_foreign unset data file (r : repository T) :
  let res := extractConfigFromData unset data file r in
  errorCode res = ErrorCode.NoError → configType res ≠ ConfigTypes.Amnezia → foreign (config res).
Proof.
  cbv zeta. unfold extractConfigFromData. destruct (try_links _ _ _ _) as [[c type]|prefix] eqn:Hl.
  { intros _ _. by apply try_links_foreign in Hl as [? _]. }
  destruct (try_ssd r data prefix) as [c|] eqn:Hs.
  { intros _ _. cbn [config]. revert Hs. unfold try_ssd. destruct (startsWith _ _); [|done].
    destruct (ssd_Deserialize _ _).1 as [|[name root] l]; [done|]. cbv zeta.
    rewrite foreign_not_empty by apply foreign_xray. intros [= <-]. apply foreign_xray. }
  destruct (recognised data) as [text type]. destruct type.
  - cbv zeta. destruct (isServerFromApi _); [discriminate|]. by intros _ [].
  - intros _ _. cbv zeta. rewrite config_or_invalid. apply foreign_openvpn.
  - pose proof (foreign_wireguard text ConfigTypes.WireGuard r) as H. destruct (extractWireGuardConfig _ _ _) as [c type].
    intros He _. apply or_invalid_ok in He. rewrite config_or_invalid. destruct H as [[-> _]|[H _]]; [done|exact H].
  - pose proof (foreign_wireguard text ConfigTypes.Awg r) as H. destruct (extractWireGuardConfig _ _ _) as [c type].
    intros He _. apply or_invalid_ok in He. rewrite config_or_invalid. destruct H as [[-> _]|[H _]]; [done|exact H].
  - intros _ _. rewrite config_or_invalid. apply foreign_xray.
  - discriminate.
  - discriminate.
  - discriminate.
Qed.

Context {P : ArrayPrinter} {SL : StoreLaws T} (uuid : nat → string).
Context (uuid_text : ∀ n, trimmed (uuid n) = uuid n ∧ uuid n ≠ "").

(** A server added without an identifier is added with a new one. *)
Lemma add_generated (r : repository T) c kind :
  uuid (created r) ∉ m_orderedServerIds r → listed r →
  ∃ r1, addServer uuid "" c kind r = addServer uuid (uuid (created r)) c kind r1 ∧
    m_orderedServerIds r1 = m_orderedServerIds r ∧ m_serverJsonById r1 = m_serverJsonById r ∧
    m_defaultServerId r1 = m_defaultServerId r ∧ m_settings r1 = m_settings r.
Proof.
  intros Hn Hl. destruct (uuid_text (created r)) as [Ht Hne].
  set (r1 := mkRepository (m_settings r) (m_serverJsonById r) (m_orderedServerIds r) (m_defaultServerId r) (signals r)
    (Datatypes.S (created r))).
  exists r1. split; [|done]. unfold addServer. cbn [normalizedOrGeneratedServerId trimmed trim_left trim_right String.eqb negb andb].
  assert (known (uuid (created r)) r1 = false) as Hk.
  { apply bool_decide_eq_false. change (m_serverJsonById r1) with (m_serverJsonById r). by rewrite (ids_known _ Hl). }
  unfold normalizedOrGeneratedServerId. rewrite Ht, (proj2 (String.eqb_neq (uuid (created r)) "")), Hk by done. done.
Qed.

(** Whatever a text of another program is turned into becomes a server: it is
    put at the end of the list under a new identifier, of the native kind and
    saved; the other servers stay as they were. *)
Theorem imports_added unset data file (r : repository T) :
  inv r → readable r → printable → uuid (created r) ∉ m_orderedServerIds r →
  let res := extractConfigFromData unset data file r in
  errorCode res = ErrorCode.NoError → configType res ≠ ConfigTypes.Amnezia →
  let '(sig, r') := importConfig uuid (config res) r in
  let id := uuid (created r) in
  sig = importFinished ∧ m_orderedServerIds r' = m_orderedServerIds r ++ [id] ∧
  rawServerJson id r' = config res ∧ serverKind id r' = Native ∧
  (∀ x, x ≠ id → m_serverJsonById r' !! x = m_serverJsonById r !! x) ∧ synced r'.
Proof.
  intros [Hl Hd] Hr Hp Hid res He Ht. pose proof (extract_foreign unset data file r He Ht) as Hf. fold res in Hf.
  clearbody res. unfold importConfig.
  assert (contains (config res) "containers" = true) as ->.
  { rewrite contains_spec. by destruct (f_container _ Hf) as (? & ? & ? & -> & _). }
  rewrite orb_true_r, foreign_native by done.
  destruct (add_generated r (config res) Native Hid Hl) as (r1 & -> & E1 & E2 & E3 & E4).
  destruct (uuid_text (created r)) as [Htr Hne].
  destruct (add_server uuid uuid_text r1 (uuid (created r)) (config res) Native) as [H _].
  { split; [by eapply listed_same|]. unfold default_ok. by rewrite E1, E3. }
  { unfold readable. by rewrite E4. } { done. } { done. } { done. } { by rewrite E1. }
  rewrite foreign_stored in H by done. destruct H as (_ & H2 & H3 & H4 & H5 & _ & _ & H8); [by apply foreign_native|].
  split_and!; [done|by rewrite H2, E1|done|done| |done]. intros x Hx. by rewrite H5, E2.
Qed.

(** A share link is never refused: the first reader whose scheme it has makes
    a server of it, whatever it answers.  A VLESS link that is no URL becomes one
    with the empty document. *)
Theorem links_never_refused unset data file (r : repository T) (a : attempt) :
  head (List.filter applies (attempts unset data)) = Some a →
  let '(root, alias, _) := a_read a "" "" in
  Wire.fromJson (toJson_compact root) = Some (JObject root) →
  let res := extractConfigFromData unset data file r in
  errorCode res = ErrorCode.NoError ∧ configType res = a_type a ∧
  (∃ name proto, Json.value (config res) "containers" =
     Some (JArray [JObject (object [member "container" (JString name); member proto (JObject (third_party (document root)))])])) ∧
  (startsWith "vless://" data = true → isValid (QUrl data) = false → root = ∅).
Proof.
  intros Ha.
  assert (∀ l prefix e, head (List.filter applies l) = Some a →
    try_links r l prefix e = let '(root, alias, _) := a_read a prefix e in
      inl (extractXrayConfig (toJson_compact root) (a_type a) alias r, a_type a)) as Htry.
  { intros l prefix e. induction l as [|b l IH]; [done|]. cbn [List.filter try_links].
    destruct (applies b) eqn:Eb; [|exact IH]. intros [= <-]. destruct (a_read b prefix e) as [[root alias] e'].
    by rewrite foreign_not_empty by apply foreign_xray. }
  specialize (Htry (attempts unset data) "" "" Ha). destruct (a_read a "" "") as [[root alias] e] eqn:Hread. intros Hj.
  unfold extractConfigFromData. rewrite Htry. split_and!; [done|done| |].
  - unfold extractXrayConfig. cbn [config]. rewrite Hj. cbn [print_document]. eexists _, _. by lookup_tac.
  - intros Hv Hu. unfold attempts in Ha. cbn [List.filter applies] in Ha. rewrite Hv in Ha. cbn [head] in Ha. injection Ha as <-.
    cbn [a_read] in Hread. unfold vless_Deserialize in Hread. rewrite Hv, Hu in Hread. cbn [negb refused] in Hread. unfold refused in Hread. by injection Hread.
Qed.

(** ** VLESS links are imported *)
Definition stored (c : gmap string json) (proto : string) : gmap string json :=
  match Json.value c "containers" with
  | Some (JArray [container]) => read_object (text (toObject (Json.value (toObject (Some container)) proto)) "last_config")
  | _ => ∅
  end.

Lemma stored_object c name proto o lastConfig :
  Json.value c "containers" = Some (JArray [JObject (object [member "container" (JString name); member proto (JObject o)])]) →
  Json.value o "last_config" = Some (JString lastConfig) → stored c proto = read_object lastConfig.
Proof.
  intros Hc Ho. unfold stored. rewrite Hc. cbn [toObject]. rewrite value_object. cbn [assigned member fst snd].
  rewrite String.eqb_refl. cbn [toObject]. unfold text. by rewrite Ho.
Qed.
Lemma read_document o : Wire.fromJson (document o) = Some (JObject o) → read_object (document o) = o.
Proof. unfold read_object. by intros ->. Qed.

(** C22. A link made of a server, whose host and texts [QUrl] leaves as they are, is
    imported as what it says of the server ([linked]): its address, port,
    identifier, encryption, network, security and server name, the flow with
    XTLS and REALITY, the keys, the short identifier, the fingerprint and the
    crawler's path with REALITY only; under the alias of the link or the next
    free name. *)
Theorem vless_imported unset file (r : repository T) (s : vless) (alias : string) :
  link_laws LC → plain_vless s alias →
  let data := vless_Serialize s alias in
  let root := (vless_Deserialize data "" "").1.1 in
  Wire.fromJson (toJson_compact root) = Some (JObject root) → Wire.fromJson (document root) = Some (JObject root) →
  let res := extractConfigFromData unset data file r in
  errorCode res = ErrorCode.NoError ∧ configType res = ConfigTypes.Xray ∧ configFileName res = file ∧
  text (config res) "defaultContainer" = "amnezia-xray" ∧
  text (config res) "description" = (if String.eqb alias "" then next_server_name r else alias) ∧
  read_vless (stored (config res) "xray") = linked s.
Proof.
  intros LL Hp data root Hc Hd. pose proof (vless_roundtrip s alias LL Hp) as Hr. fold data in Hr.
  destruct (vless_Deserialize data "" "") as [[root' alias'] e] eqn:Hread. destruct Hr as (Hs & Ha & He).
  cbn [fst] in root. subst root alias' e. rename root' into root.
  assert (startsWith "vless://" data = true) as Hv by (apply (law_scheme LL (vless_link s alias)), plain_vless_link, Hp).
  unfold extractConfigFromData, attempts. cbn [try_links applies a_read a_type]. rewrite Hv, Hread.
  rewrite foreign_not_empty by apply foreign_xray. cbn [errorCode configType config configFileName].
  split_and!; [done..| | |].
  - unfold extractXrayConfig, text. by lookup_tac.
  - unfold extractXrayConfig, text. by lookup_tac.
  - erewrite (stored_object _ "amnezia-xray" "xray" (third_party (document root))); [..|done].
    + by rewrite read_document.
    + unfold extractXrayConfig. rewrite Hc. by lookup_tac.
Qed.

(** ** Scripts are announced *)
Definition plain_command (cmd : string) : Prop :=
  cmd ≠ "" ∧ forallb (λ c, negb (Ascii.eqb c space) && negb (Ascii.is_space c)) (String.list_ascii_of_string cmd) = true.

Lemma command_of_words cmd rest : plain_command cmd → command_of (cmd +:+ String space rest) = cmd.
Proof.
  intros [Hne Hc]. unfold command_of.
  assert (contains_char space cmd = false) as Hs.
  { clear Hne. induction cmd as [|c cmd IH]; [done|]. cbn [String.list_ascii_of_string forallb] in Hc.
    apply andb_true_iff in Hc as [[Hc%negb_true_iff _]%andb_true_iff Hl]. cbn. by rewrite Hc, IH. }
  rewrite split_char_line by done. unfold nonempty. cbn [List.filter].
  by rewrite (proj2 (String.eqb_neq cmd "")) by done.
Qed.

Lemma openvpn_warned data (r : repository T) :
  let doc := object [member "config" (JString data)] in
  Wire.fromJson (document doc) = Some (JObject doc) →
  checkForMaliciousStrings (extractOpenVpnConfig data r) "" = warning_of (maliciousStrings data).
Proof.
  cbv zeta. intros Hd. set (doc := object _) in *. unfold checkForMaliciousStrings.
  set (cont := object [member "container" (JString "amnezia-openvpn"); member "openvpn" (JObject (third_party (document doc)))]).
  assert (Json.value (extractOpenVpnConfig data r) "containers" = Some (JArray [JObject cont])) as ->.
  { unfold extractOpenVpnConfig. by destruct (global_captures _ _) as [|? []]; lookup_tac. }
  assert (Json.value cont "container" = Some (JString "amnezia-openvpn")) as E1 by by lookup_tac.
  assert (Json.value cont "openvpn" = Some (JObject (third_party (document doc)))) as E2 by by lookup_tac.
  assert (Json.value (third_party (document doc)) "last_config" = Some (JString (document doc))) as E3 by by lookup_tac.
  assert (Json.value doc "config" = Some (JString data)) as E4 by by lookup_tac.
  cbn [toArray foldl]. unfold container_warning, text. cbn [toObject]. rewrite E1.
  change (protoToString Proto.OpenVpn) with "openvpn". rewrite E2. cbn [toObject]. rewrite E3. cbn [toString_or].
  rewrite read_document, E4 by done. done.
Qed.

Lemma substring_after (a b : string) n : String.substring (String.length a) n (a +:+ b) = String.substring 0 n b.
Proof. induction a as [|c a IH]; [done|]. exact IH. Qed.
Lemma contains_str_app (a sub b : string) : sub ≠ "" → contains_str sub (a +:+ sub +:+ b) = true.
Proof.
  intros Hne. unfold contains_str. destruct (String.index 0 sub _) eqn:E; [done|]. exfalso.
  apply (String.index_correct3 0 (String.length a) sub (a +:+ sub +:+ b) E Hne ltac:(lia)).
  rewrite substring_after. clear E Hne. induction sub as [|c sub IH]; [by destruct b|].
  rewrite append_String. cbn. f_equal. exact IH.
Qed.

Lemma warned_line l line : line ∈ l → contains_str ("<br><i>" +:+ line +:+ "</i>") (warning_of l) = true.
Proof.
  intros (l1 & l2 & ->)%list_elem_of_split. set (x := "<br><i>" +:+ line +:+ "</i>").
  set (f := λ s, "<br><i>" +:+ s +:+ "</i>"). set (head := "<br>In the imported configuration, potentially dangerous lines were found:").
  assert (warning_of (l1 ++ line :: l2) =
    (openvpn_warning +:+ head +:+ String.concat "" (f <$> l1)) +:+ x +:+ String.concat "" (f <$> l2)) as ->.
  { transitivity (openvpn_warning +:+ head +:+ String.concat "" (f <$> l1 ++ line :: l2)).
    - unfold warning_of. by destruct l1.
    - rewrite fmap_app, fmap_cons, concat_empty_app, concat_empty_cons. by rewrite !string_app_assoc. }
  by apply contains_str_app.
Qed.

Definition tab : Ascii.ascii := Ascii.ascii_of_nat 9.
Lemma contains_tab_lower s : contains_char tab (toLower s) = contains_char tab s.
Proof.
  induction s as [|c s IH]; [done|]. cbn [toLower contains_char]. rewrite IH. f_equal.
  destruct c as [[] [] [] [] [] [] [] []]; reflexivity.
Qed.

Lemma tab_not_dangerous cmd rest :
  trimmed (cmd +:+ String tab rest) = cmd +:+ String tab rest → contains_char space cmd = false →
  contains_char space rest = false → dangerous (cmd +:+ String tab rest) = false.
Proof.
  intros Ht Hc Hr. unfold dangerous. rewrite Ht. apply bool_decide_eq_false.
  assert (contains_char tab (toLower (command_of (cmd +:+ String tab rest))) = true) as Htab.
  { rewrite contains_tab_lower. unfold command_of.
    rewrite split_char_none by (rewrite contains_char_app, Hc; exact Hr). unfold nonempty. cbn [List.filter].
    rewrite (proj2 (String.eqb_neq _ _)) by by destruct cmd. cbn. rewrite contains_char_app. by rewrite orb_true_r. }
  intros Hin. enough (Forall (λ t, contains_char tab t = false) dangerousTags) as H.
  { rewrite Forall_forall in H. specialize (H _ Hin). by rewrite Htab in H. }
  repeat constructor.
Qed.

(** A text recognised as an OpenVPN configuration is accepted with a warning
    that shows every line whose command, before the first space, may run a
    script, in any case; without such lines only OpenVPN itself is warned of.
    A command followed by a tab is not seen. *)
Theorem scripts_announced unset data conf file (r : repository T) :
  Forall (λ a, applies a = false) (attempts unset data) → startsWith "ssd://" data = false →
  recognised data = (conf, ConfigTypes.OpenVpn) →
  (let doc := object [member "config" (JString conf)] in Wire.fromJson (document doc) = Some (JObject doc)) →
  let res := extractConfigFromData unset data file r in
  errorCode res = ErrorCode.NoError ∧
  text (stored (config res) "openvpn") "config" = conf ∧
  (∀ line cmd rest, line ∈ lines_of conf → trimmed line = cmd +:+ String space rest → plain_command cmd →
    toLower cmd ∈ dangerousTags → contains_str ("<br><i>" +:+ line +:+ "</i>") (maliciousWarningText res) = true) ∧
  (Forall (λ line, dangerous line = false) (lines_of conf) → maliciousWarningText res = openvpn_warning) ∧
  (∀ cmd rest, trimmed (cmd +:+ String tab rest) = cmd +:+ String tab rest → contains_char space cmd = false →
    contains_char space rest = false → dangerous (cmd +:+ String tab rest) = false).
Proof.
  intros Ha Hssd Hrec Hd. assert (∀ l prefix e, Forall (λ a, applies a = false) l → try_links r l prefix e = inr prefix) as Htry.
  { intros l prefix e Hl. induction Hl as [|a l Hx _ IH]; [done|]. cbn [try_links]. by rewrite Hx. }
  cbv zeta. unfold extractConfigFromData. rewrite Htry by done. unfold try_ssd. rewrite Hssd, Hrec. cbv zeta.
  unfold or_invalid. rewrite foreign_not_empty by apply foreign_openvpn. cbn [errorCode config maliciousWarningText].
  rewrite openvpn_warned by done. split_and!; [done| | | |apply tab_not_dangerous].
  - erewrite (stored_object _ "amnezia-openvpn" "openvpn" (third_party (document (object [member "config" (JString conf)])))).
    2: { unfold extractOpenVpnConfig. by destruct (global_captures _ _) as [|? []]; lookup_tac. }
    2: { by lookup_tac. }
    rewrite read_document by done. unfold text. by lookup_tac.
  - intros line cmd rest Hin Ht Hcmd Htag. apply warned_line. unfold maliciousStrings.
    apply list_elem_of_In, filter_In. split.
    + apply list_elem_of_In. unfold nonempty. apply list_elem_of_In, filter_In. split; [by apply list_elem_of_In|].
      apply negb_true_iff, String.eqb_neq. intros ->. by destruct cmd.
    + unfold dangerous. rewrite Ht, command_of_words by done. by apply bool_decide_eq_true.
  - intros Hall. unfold warning_of, maliciousStrings.
    assert (List.filter dangerous (nonempty (lines_of conf)) = []) as ->; [|apply append_nil_r].
    unfold nonempty. induction Hall as [|l ls Hl _ IH]; [done|]. cbn [List.filter]. destruct (negb _); [|exact IH].
    cbn [List.filter]. by rewrite Hl.
Qed.

(** ** WireGuard configurations are read *)
Lemma index_of_sep k v : contains_char space k = false → String.index 0 " = " (k +:+ " = " +:+ v) = Some (String.length k).
Proof.
  induction k as [|c k IH]; [by destruct v|]. cbn [contains_char]. intros [Hc Hk]%orb_false_iff.
  rewrite append_String. cbn [String.index String.prefix]. destruct (Ascii.ascii_dec _ _) as [<-|_]; [done|].
  by rewrite IH.
Qed.
Lemma split_setting k v :
  contains_char space k = false → contains_str " = " v = false → split_str " = " (k +:+ " = " +:+ v) = [k; v].
Proof.
  intros Hk Hv. unfold contains_str in Hv. destruct (String.index 0 " = " v) eqn:Ev; [done|].
  assert (∀ fuel, split_from fuel " = " v = [v]) as Hrest by (intros []; cbn [split_from]; by rewrite ?Ev).
  unfold split_str. set (t := k +:+ " = " +:+ v).
  assert (∃ fuel, String.length t = S fuel) as [fuel ->].
  { exists (String.length k + S (S (String.length v)))%nat. unfold t. rewrite !string_app_length. cbn. lia. }
  cbn [split_from]. unfold t. rewrite index_of_sep by done. f_equal.
  - clear. induction k as [|c k IH]; [by destruct v|].
    rewrite append_String. cbn. by rewrite IH.
  - rewrite <- string_app_assoc.
    replace (String.length k + String.length " = ")%nat with (String.length (k +:+ " = ")) by by rewrite string_app_length.
    rewrite substring_after, substring_whole; [apply Hrest|]. rewrite !string_app_length. lia.
Qed.

Definition conf_line : Type := string + string * string.
Definition line_text (l : conf_line) : string :=
  match l with inl section => "[" +:+ section +:+ "]" | inr (k, v) => k +:+ " = " +:+ v end.
Definition conf_text (lines : list conf_line) : string := String.concat nl (line_text <$> lines).
Definition settings (lines : list conf_line) : gmap string string :=
  foldl (λ m l, match l with inl _ => m | inr (k, v) => <[k := v]> m end) ∅ lines.

(** A line without blanks around its parts. *)
Definition good_line (l : conf_line) : bool :=
  let t := line_text l in
  negb (contains_nl t) && String.eqb (trimmed t) t &&
  match l with
  | inl _ => true
  | inr (k, v) =>
      negb (contains_char space k) && given k && negb (startsWith "[" k) && String.eqb (trimmed k) k &&
      String.eqb (trimmed v) v && negb (contains_str " = " v)
  end.

Lemma read_good m l :
  good_line l = true → read_line m (line_text l) = match l with inl _ => m | inr (k, v) => <[k := v]> m end.
Proof.
  unfold good_line. intros [[_ Ht%String.eqb_eq]%andb_true_iff Hl]%andb_true_iff. unfold read_line. rewrite Ht.
  destruct l as [s|[k v]].
  - assert (in_brackets (line_text (inl s)) = true) as ->; [|done]. unfold in_brackets, line_text.
    apply andb_true_iff. split; [unfold startsWith; by rewrite plain_codec.prefix_app|]. apply String.eqb_eq.
    rewrite <- string_app_assoc. replace (String.length (("[" +:+ s) +:+ "]") - 1)%nat with (String.length ("[" +:+ s)).
    + by rewrite substring_after.
    + rewrite !string_app_length. cbn. lia.
  - apply andb_true_iff in Hl as [[[[[Hs%negb_true_iff Hk]%andb_true_iff Hb%negb_true_iff]%andb_true_iff
      Hkt%String.eqb_eq]%andb_true_iff Hvt%String.eqb_eq]%andb_true_iff Hv%negb_true_iff].
    cbn [line_text]. assert (in_brackets (k +:+ " = " +:+ v) = false) as ->.
    { unfold in_brackets. destruct k as [|c k]; [done|]. rewrite append_String.
      unfold startsWith in *. cbn [String.prefix] in *. destruct (Ascii.ascii_dec _ _); [|done]. by destruct k. }
    rewrite split_setting by done. by rewrite Hkt, Hvt.
Qed.

Lemma configMap_text lines :
  Forall (λ l, good_line l = true) lines → configMap (conf_text lines) = settings lines.
Proof.
  intros Hl. unfold configMap, conf_text, settings.
  assert (lines = [] ∨ lines_of (String.concat nl (line_text <$> lines)) = line_text <$> lines) as [-> | ->]; [|done|].
  - induction Hl as [|l lines Hx Hl IH]; [by left|right].
    assert (contains_nl (line_text l) = false) as Hn.
    { unfold good_line in Hx. by apply andb_true_iff in Hx as [[?%negb_true_iff _]%andb_true_iff _]. }
    destruct lines as [|l' lines].
    { change (split_char newline (line_text l) = [line_text l]). by apply split_char_none. }
    destruct IH as [|IH]; [done|].
    cbn [fmap list_fmap]. change (String.concat nl (line_text l :: line_text l' :: (line_text <$> lines)))
      with (line_text l +:+ nl +:+ String.concat nl (line_text l' :: (line_text <$> lines))).
    rewrite lines_of_line by done. f_equal. exact IH.
  - generalize (∅ : gmap string string). induction Hl as [|l lines Hx _ IH]; intros m; [done|]. cbn [fmap list_fmap foldl].
    rewrite read_good by done. apply IH.
Qed.

Lemma assigned_field k v m (name0 name : string) :
  assigned k v (text_of_field m name0 name) =
  if String.eqb name k && has m name0 then Some (JString (field m name0)) else v.
Proof.
  unfold text_of_field. destruct (has m name0); rewrite ?andb_true_r, ?andb_false_r; cbn; by destruct (String.eqb name k).
Qed.


(** What is stored, setting by setting. *)
Section stored_settings.
Context (data : string) (m : gmap string string) (u : url) (port' : string).
#[local] Abbreviation doc := (wireguard_last_config data m u port').
#[local] Abbreviation awg := (hasAllRequiredFields m).

Lemma read_has k : toString_or "" (if has m k then Some (JString (field m k)) else None) = field m k.
Proof. unfold has. by destruct (String.eqb_spec (field m k) "") as [->|]. Qed.

Lemma assigned_if k v (b : bool) l l' : assigned k v (if b then l else l') = if b then assigned k v l else assigned k v l'.
Proof. by destruct b. Qed.
Lemma if_same {X} (b : bool) (x : X) : (if b then x else x) = x.
Proof. by destruct b. Qed.

Ltac assigned_tac :=
  rewrite ?assigned_app, ?assigned_if, ?assigned_field;
  cbn [assigned member fst snd String.eqb Ascii.eqb Bool.eqb andb]; rewrite ?if_same.
Ltac setting_tac :=
  unfold text, wireguard_last_config; rewrite value_object; assigned_tac;
  cbn [requiredJunkFields optionalJunkFields specialJunkFields fmap list_fmap concat app]; do 3 assigned_tac.

Lemma stored_texts :
  text doc "config" = data ∧ text doc "hostName" = host u ∧ Json.value doc "port" = Some (JInt (atoi port')) ∧
  text doc "client_priv_key" = field m "PrivateKey" ∧ text doc "client_ip" = field m "Address" ∧
  text doc "server_pub_key" = field m "PublicKey" ∧ text doc "persistent_keep_alive" = field m "PersistentKeepalive" ∧
  strings_of (Json.value doc "allowed_ips") = split_str ", " (field m "AllowedIPs").
Proof.
  assert (∀ l, strings_of (Some (JStrings l)) = l) as Hs.
  { intros l. unfold strings_of, JStrings. cbn [toArray]. rewrite <- list_fmap_compose. apply list_fmap_id. }
  split_and!; setting_tac; rewrite ?read_has, ?Hs; reflexivity.
Qed.
Lemma stored_mtu : text doc "mtu" = or_else (field m "MTU") "1376".
Proof.
  assert (text doc "mtu" = if has m "MTU" then field m "MTU" else "1376") as -> by by setting_tac.
  unfold or_else, has. by destruct (String.eqb _ _).
Qed.
Lemma stored_psk : text doc "psk_key" = or_else (field m "PresharedKey") (field m "PreSharedKey").
Proof.
  assert (text doc "psk_key" = if has m "PresharedKey" then field m "PresharedKey" else field m "PreSharedKey") as ->.
  { setting_tac. destruct (has m "PresharedKey"); [done|]. apply read_has. }
  unfold or_else, has. by destruct (String.eqb _ _).
Qed.
Lemma stored_junk k :
  k ∈ requiredJunkFields ++ optionalJunkFields → text doc k = if awg then field m k else "".
Proof.
  intros Hk. cbn in Hk. repeat (apply elem_of_cons in Hk as [-> |Hk]; [setting_tac; destruct awg; rewrite ?read_has; reflexivity|]).
  by apply elem_of_nil in Hk.
Qed.
End stored_settings.

(** A WireGuard configuration of lines [key = value] and section names is
    accepted exactly when it names the host of the server and has a private
    key, an address and a public key.  It is of AmneziaWG when all nine
    parameters of the obfuscation are there.  What is stored for the client is
    what the lines say, the last of equal keys, with the port and the MTU
    completed; the parameters are stored only together. *)
Theorem wireguard_imported (lines : list conf_line) (type : ConfigTypes) (r : repository T) :
  let m := settings lines in
  let data := conf_text lines in
  let u := fromUserInput (field m "Endpoint") in
  let port' := if port u =? -1 then 51820 else port u in
  let doc := wireguard_last_config data m u (pretty port') in
  let awg := forallb (λ k, given (field m k)) requiredJunkFields in
  let proto := if awg then "awg" else "wireguard" in
  Forall (λ l, good_line l = true) lines →
  -1 ≤ port u ≤ 65535 → Wire.fromJson (document doc) = Some (JObject doc) →
  let '(c, type') := extractWireGuardConfig data type r in
  if given (host u) && (given (field m "PrivateKey") && given (field m "Address") && given (field m "PublicKey")) then
    type' = (if awg then ConfigTypes.Awg else ConfigTypes.WireGuard) ∧
    text c "hostName" = host u ∧ text c "defaultContainer" = "amnezia-" +:+ proto ∧
    let s := stored c proto in
    text s "config" = data ∧ text s "hostName" = host u ∧ toInt (Json.value s "port") = port' ∧
    text s "client_priv_key" = field m "PrivateKey" ∧ text s "client_ip" = field m "Address" ∧
    text s "server_pub_key" = field m "PublicKey" ∧
    text s "psk_key" = or_else (field m "PresharedKey") (field m "PreSharedKey") ∧
    text s "mtu" = or_else (field m "MTU") "1376" ∧ text s "persistent_keep_alive" = field m "PersistentKeepalive" ∧
    strings_of (Json.value s "allowed_ips") = split_str ", " (field m "AllowedIPs") ∧
    (∀ k, k ∈ requiredJunkFields ++ optionalJunkFields → text s k = if awg then field m k else "")
  else c = ∅ ∧ type' = type.
Proof.
  intros m data u port' doc awg proto Hl Hport Hdoc.
  assert (configMap data = m) as Hm by by apply configMap_text.
  unfold extractWireGuardConfig. rewrite Hm. fold u. unfold given at 1. destruct (String.eqb (host u) "") eqn:Eh; [done|].
  cbv zeta. cbn [negb andb]. change (negb (String.eqb ?x "")) with (given x).
  change (has m) with (λ k, given (field m k)). cbv beta.
  destruct (given (field m "PrivateKey") && _ && _) eqn:Ek; [|done]. cbn [negb].
  assert ((if port u =? -1 then "51820" else pretty (port u)) = pretty port') as ->.
  { subst port'. by destruct (port u =? -1). }
  fold doc. change (hasAllRequiredFields m) with awg.
  assert (0 ≤ port' ≤ 65535) as Hp by (subst port'; destruct (Z.eqb_spec (port u) (-1)); lia).
  split; [done|]. split; [|split].
  { unfold text. destruct (captures _ _) as [[|? []]|]; by lookup_tac. }
  { unfold text, proto. destruct (captures _ _) as [[|? []]|], awg; by lookup_tac. }
  cbv zeta. set (c := object _).
  assert (stored c proto = doc) as ->.
  { rewrite <- (read_document doc Hdoc). subst c proto. eapply stored_object.
    - destruct (captures _ _) as [[|? []]|]; lookup_tac; reflexivity.
    - rewrite value_object. destruct (awg && given (protocolVersion m)); reflexivity. }
  subst doc. destruct (stored_texts data m u (pretty port')) as (-> & -> & -> & -> & -> & -> & -> & ->).
  rewrite stored_psk, stored_mtu, atoi_pretty, toInt_JInt by (unfold int_min, int_max; lia).
  split_and!; try reflexivity. apply stored_junk.
Qed.
End imports.

(** *** Witnesses *)
Module samples.
Definition links : LinkCodec := {|
  QUrl _ := mkUrl false "" (-1) "" "" "" "" [];
  fromUserInput _ := mkUrl true "192.0.2.7" 443 "" "" "" "" [];
  toEncoded _ := ""; fromPercentEncoding s := s; fullyDecoded s := s; fromBase64 s := s; base64UrlDecode s := s;
  toBase64 s := s; toBase64Url s := s; number_text _ := "1";
|}.
Definition byte (z : Z) : Ascii.ascii := Ascii.ascii_of_nat (Z.to_nat z).
#[export] Instance printer : JsonPrinter := {| indented _ := "doc" |}.
Definition codec : ImportCodec := {|
  qUncompress _ := "";
  qr_write magic count id data := String (byte count) (String (byte id) data);
  qr_read s := match s with
               | String c (String i data) => (qrMagicCode, Z.of_nat (Ascii.nat_of_ascii c), Z.of_nat (Ascii.nat_of_ascii i), data)
               | _ => (0, 0, 0, "")
               end;
  captures _ _ := None; global_captures _ _ := [];
|}.
(** A codec for one document. *)
Definition one (doc : gmap string json) : JsonCodec := {|
  toJson_compact _ := "doc"; Wire.fromJson s := if String.eqb s "doc" then Some (JObject doc) else None;
|}.

(** One that reads every text. *)
Definition any : JsonCodec := {|
  toJson_compact _ := "doc"; Wire.fromJson s := Some (JObject {["containers" := JArray []]});
|}.

Lemma qr_reads : @qr_law links codec.
Proof.
  intros count id data Hc Hi. cbn. unfold byte. rewrite !Ascii.nat_ascii_embedding by lia. by rewrite !Z2Nat.id by lia.
Qed.

Fixpoint letters (n : nat) : string := match n with O => "" | S n => String space (letters n) end.
Definition text : string := letters 900.
Definition openvpn : string := "client" +:+ nl +:+ "dev tun" +:+ nl +:+ "Up /tmp/x".
Definition openvpn_doc : gmap string json := object [member "config" (JString openvpn)].
Definition wg_lines : list conf_line :=
  [inl "Interface"; inr ("PrivateKey", "cHJpdmF0ZQ=="); inr ("Address", "10.8.1.2/32"); inr ("DNS", "1.1.1.1, 1.0.0.1");
   inl "Peer"; inr ("PublicKey", "cHVibGlj"); inr ("Endpoint", "192.0.2.7:443"); inr ("AllowedIPs", "0.0.0.0/0, ::/0")].
Definition wg_doc : gmap string json :=
  wireguard_last_config (conf_text wg_lines) (settings wg_lines) (@fromUserInput links "192.0.2.7:443") "443".
End samples.
#[local] Existing Instance samples.printer.

Lemma qr_series_decoded_witness :
  let _ := samples.links in let _ := samples.codec in let _ := samples.any in
  let codes := generateQrCodeImageSeries samples.text in
  @qr_law samples.links samples.codec ∧ (String.length samples.text ≤ 255 * qr_size)%nat ∧
  let '(ps, d) := scan 0 two ((λ i, nth i codes "") <$> [1; 1]%nat) startDecodingQr in
  Forall (λ p, success p = false) ps ∧ qrChunksReceived d = 1 ∧
  success (parseQrCodeChunk 0 (nth 0 codes "") two d).1 = true.
Proof.
  cbv zeta. assert (String.length samples.text ≤ 255 * qr_size)%nat as Hf by (apply (bool_decide_unpack _); vm_compute; exact Logic.I).
  split; [exact samples.qr_reads|]. split; [exact Hf|].
  assert (length (@generateQrCodeImageSeries samples.links samples.codec samples.text) = 2%nat) as Hlen by (vm_compute; reflexivity).
  pose proof (qr_series_decoded (J := samples.any) (LC := samples.links) (JP := samples.printer) (IC := samples.codec) samples.qr_reads 0 two samples.text Hf [1; 1]%nat 0%nat) as H.
  cbv zeta in H. rewrite Hlen in H.
  destruct (scan _ _ _ _) as [ps d]. destruct (parseQrCodeChunk _ _ _ _) as [p d'].
  destruct H as (H1 & H2 & H3 & H4 & _).
  - intros i Hi. repeat (apply elem_of_cons in Hi as [-> |Hi]; [lia|]). by apply elem_of_nil in Hi.
  - by apply (bool_decide_unpack _); vm_compute.
  - intros [|[|i]] Hi; [by left|by right; left|lia].
  - split; [exact H1|]. split; [rewrite H3; vm_compute; reflexivity|]. cbn [fst]. rewrite H4. vm_compute. reflexivity.
Defined.

Lemma vless_imported_witness :
  let data := @vless_Serialize plain_codec.codec sample_vless "home" in
  let root := (@vless_Deserialize plain_codec.codec data "" "").1.1 in
  let _ := samples.one root in let _ := samples.codec in let _ := plain_codec.codec in
  link_laws plain_codec.codec ∧ plain_vless sample_vless "home" ∧
  read_vless (stored (config (extractConfigFromData 0 data "" two)) "xray") = sample_vless.
Proof.
  cbv zeta. set (data := @vless_Serialize plain_codec.codec sample_vless "home").
  set (root := (@vless_Deserialize plain_codec.codec data "" "").1.1).
  assert (plain_vless sample_vless "home") as Hp.
  { split; [by split|]. split; [reflexivity|]. split; [cbn; lia|]. repeat (constructor; [reflexivity|]). constructor. }
  split; [exact plain_codec.laws|]. split; [exact Hp|].
  destruct (vless_imported (J := (samples.one root)) (LC := plain_codec.codec) (JP := samples.printer) (IC := samples.codec) 0 "" two sample_vless "home"
    plain_codec.laws Hp eq_refl eq_refl) as (_ & _ & _ & _ & _ & E). exact E.
Defined.

Lemma wireguard_imported_witness :
  let _ := samples.one samples.wg_doc in let _ := samples.codec in let _ := samples.links in
  let c := (extractWireGuardConfig (conf_text samples.wg_lines) ConfigTypes.WireGuard two).1 in
  Forall (λ l, good_line l = true) samples.wg_lines ∧
  text c "hostName" = "192.0.2.7" ∧ text (stored c "wireguard") "client_ip" = "10.8.1.2/32".
Proof.
  cbv zeta. assert (Forall (λ l, good_line l = true) samples.wg_lines) as Hl by (repeat (constructor; [vm_compute; reflexivity|]); constructor).
  split; [exact Hl|].
  pose proof (wireguard_imported (J := (samples.one samples.wg_doc)) (LC := samples.links) (JP := samples.printer) (IC := samples.codec) samples.wg_lines
    ConfigTypes.WireGuard two Hl ltac:(cbn; lia) eq_refl) as H. revert H.
  destruct (extractWireGuardConfig _ _ _) as [c t].
  intros (_ & H1 & _ & _ & _ & _ & _ & H2 & _). split; [exact H1|exact H2].
Defined.

Lemma scripts_announced_witness :
  let _ := samples.one samples.openvpn_doc in let _ := samples.codec in let _ := samples.links in
  let res := extractConfigFromData 0 samples.openvpn "" two in
  recognised samples.openvpn = (samples.openvpn, ConfigTypes.OpenVpn) ∧
  errorCode res = ErrorCode.NoError ∧ contains_str "<br><i>Up /tmp/x</i>" (maliciousWarningText res) = true.
Proof.
  cbv zeta. assert (@recognised samples.links samples.codec samples.openvpn = (samples.openvpn, ConfigTypes.OpenVpn)) as Hr
    by (vm_compute; reflexivity).
  split; [exact Hr|].
  destruct (scripts_announced (J := (samples.one samples.openvpn_doc)) (LC := samples.links) (JP := samples.printer) (IC := samples.codec) 0 samples.openvpn
    samples.openvpn "" two ltac:(repeat (constructor; [vm_compute; reflexivity|]); constructor) eq_refl Hr eq_refl)
    as (H1 & _ & H2 & _).
  split; [exact H1|]. apply (H2 "Up /tmp/x" "Up" "/tmp/x").
  - by apply (bool_decide_unpack _); vm_compute.
  - vm_compute. reflexivity.
  - split; [discriminate|vm_compute; reflexivity].
  - by apply (bool_decide_unpack _); vm_compute.
Defined.

Lemma links_never_refused_witness :
  let _ := samples.one ∅ in let _ := samples.codec in let _ := samples.links in
  let res := extractConfigFromData 0 "vless://x" "" two in
  errorCode res = ErrorCode.NoError ∧ configType res = ConfigTypes.Xray.
Proof.
  cbv zeta.
  destruct (links_never_refused (J := (samples.one ∅)) (LC := samples.links) (JP := samples.printer) (IC := samples.codec) 0 "vless://x" "" two
    (mkAttempt true ConfigTypes.Xray (@vless_Deserialize samples.links "vless://x")) eq_refl eq_refl) as (H1 & H2 & _).
  split; [exact H1|exact H2].
Defined.

Lemma imports_added_witness :
  let _ := samples.one samples.openvpn_doc in let _ := samples.codec in let _ := samples.links in let _ := fixed_printer in
  let res := extractConfigFromData 0 samples.openvpn "" two in
  inv two ∧ readable two ∧ errorCode res = ErrorCode.NoError ∧ configType res = ConfigTypes.OpenVpn ∧
  m_orderedServerIds (importConfig sample_uuid (config res) two).2 = m_orderedServerIds two ++ [sample_uuid (created two)].
Proof.
  cbv zeta. pose proof (synced_inv _ two_synced) as H. split; [exact H|]. split; [exact two_readable|].
  set (res := extractConfigFromData (J := samples.one samples.openvpn_doc) (LC := samples.links) (JP := samples.printer) (IC := samples.codec) 0 samples.openvpn "" two).
  assert (errorCode res = ErrorCode.NoError) as He by (vm_compute; reflexivity).
  assert (configType res = ConfigTypes.OpenVpn) as Ht by (vm_compute; reflexivity).
  assert (configType res ≠ ConfigTypes.Amnezia) as Hn by (rewrite Ht; discriminate).
  split; [exact He|]. split; [exact Ht|].
  pose proof (imports_added (J := (samples.one samples.openvpn_doc)) (LC := samples.links) (JP := samples.printer) (IC := samples.codec) (P := fixed_printer) sample_uuid
    sample_uuid_text 0 samples.openvpn "" two H two_readable fixed_printable
    ltac:(apply (bool_decide_unpack _); vm_compute; exact Logic.I) He Hn) as Hi.
  destruct (importConfig _ _ _) as [sig r']. destruct Hi as (_ & E & _). exact E.
Defined.
