(* ===== verification/Scripts.v ===== *)
(** * Scripts: what is put into the scripts run on a server

    Models [core/utils/selfhosted/scriptsRegistry.cpp] and
    [SshSession::replaceVars] of [sshSession.cpp].  The scripts themselves are
    resources of the application: [resource] is their text. *)
From S2P Require Import Prelude Text Json Containers ProtocolConfigs XrayConfig ServerConfig.

Inductive SharedScriptType :=
  | prepare_host | install_docker | install_conntrack | build_container | remove_container | remove_all_containers
  | setup_host_firewall | check_connection | check_server_is_busy | check_user_in_sudo.
Inductive ProtocolScriptType :=
  | dockerfile | run_container | configure_container | container_startup
  | openvpn_template | wireguard_template | awg_template | xray_template.

Definition scriptFolder (c : DockerContainer) : string :=
  match c with
  | DockerContainer.OpenVpn => "openvpn"
  | DockerContainer.WireGuard => "wireguard"
  | DockerContainer.Awg2 => "awg"
  | DockerContainer.Awg => "awg_legacy"
  | DockerContainer.Ipsec => "ipsec"
  | DockerContainer.Xray => "xray"
  | DockerContainer.TorWebSite => "website_tor"
  | DockerContainer.Dns => "dns"
  | DockerContainer.Sftp => "sftp"
  | DockerContainer.Socks5Proxy => "socks5_proxy"
  | DockerContainer.MtProxy => "mtproxy"
  | DockerContainer.Telemt => "telemt"
  | _ => ""
  end.

Definition shared_scriptName (t : SharedScriptType) : string :=
  match t with
  | prepare_host => "prepare_host.sh"
  | install_docker => "install_docker.sh"
  | install_conntrack => "install_conntrack.sh"
  | build_container => "build_container.sh"
  | remove_container => "remove_container.sh"
  | remove_all_containers => "remove_all_containers.sh"
  | setup_host_firewall => "setup_host_firewall.sh"
  | check_connection => "check_connection.sh"
  | check_server_is_busy => "check_server_is_busy.sh"
  | check_user_in_sudo => "check_user_in_sudo.sh"
  end.
Definition scriptName (t : ProtocolScriptType) : string :=
  match t with
  | dockerfile => "Dockerfile"
  | run_container => "run_container.sh"
  | configure_container => "configure_container.sh"
  | container_startup => "start.sh"
  | openvpn_template => "template.ovpn"
  | wireguard_template => "template.conf"
  | awg_template => "template.conf"
  | xray_template => "template.json"
  end.

(** [QFile(":/...").readAll()]; [None] when there is no such resource. *)
Class Resources := { resource : string → option string }.

Definition carriage_return : string := String (Ascii.ascii_of_nat 13) "".
Definition shared_scriptData {R : Resources} (t : SharedScriptType) : string :=
  default "" (resource (":/server_scripts/" +:+ shared_scriptName t)).
Definition scriptData {R : Resources} (t : ProtocolScriptType) (c : DockerContainer) : string :=
  match resource (":/server_scripts/" +:+ scriptFolder c +:+ "/" +:+ scriptName t) with
  | Some data => replace_str carriage_return "" data
  | None => ""
  end.

(** ** Variables *)
Abbreviation ScriptVars := (list (string * string)).

Definition filled (s d : string) : string := if String.eqb s "" then d else s.
Definition switch (b : bool) : string := if b then "1" else "0".
Definition truth (b : bool) : string := if b then "true" else "false".

(** [address] is [NetworkUtilities::getIPAddress]. *)
Definition genBaseVars (address : string → string) (credentials : ServerCredentials) (c : DockerContainer)
    (primaryDns secondaryDns : string) : ScriptVars :=
  let host := cred_hostName credentials in
  let serverIp :=
    if negb (isAwgContainer c) && negb (bool_decide (c = DockerContainer.WireGuard)) && negb (bool_decide (c = DockerContainer.Xray))
    then address host else host in
  [("$REMOTE_HOST", host); ("$CONTAINER_NAME", containerToString c);
   ("$DOCKERFILE_FOLDER", "/opt/amnezia/" +:+ containerToString c)] ++
  (if String.eqb serverIp "" then [] else [("$SERVER_IP_ADDRESS", serverIp)]) ++
  [("$PRIMARY_SERVER_DNS", filled primaryDns "8.8.8.8"); ("$SECONDARY_SERVER_DNS", filled secondaryDns "8.8.4.4");
   ("$IPSEC_VPN_L2TP_NET", "192.168.42.0/24"); ("$IPSEC_VPN_L2TP_POOL", "192.168.42.10-192.168.42.250");
   ("$IPSEC_VPN_L2TP_LOCAL", "192.168.42.1"); ("$IPSEC_VPN_XAUTH_NET", "192.168.43.0/24");
   ("$IPSEC_VPN_XAUTH_POOL", "192.168.43.10-192.168.43.250"); ("$IPSEC_VPN_SHA2_TRUNCBUG", "yes");
   ("$IPSEC_VPN_VPN_ANDROID_MTU_FIX", "yes"); ("$IPSEC_VPN_DISABLE_IKEV2", "no"); ("$IPSEC_VPN_DISABLE_L2TP", "no");
   ("$IPSEC_VPN_DISABLE_XAUTH", "no"); ("$IPSEC_VPN_C2C_TRAFFIC", "no")].

Definition genOpenVpnVars (p : ProtocolConfig) : ScriptVars :=
  match p with
  | POpenVpn c =>
      let config := ProtocolConfigs.serverConfig c in
      [("$OPENVPN_SUBNET_IP", filled (OpenVpnServerConfig.subnetAddress config) "10.8.0.0");
       ("$OPENVPN_SUBNET_CIDR", filled (OpenVpnServerConfig.subnetCidr config) "24");
       ("$OPENVPN_SUBNET_MASK", filled (OpenVpnServerConfig.subnetMask config) "255.255.255.0");
       ("$OPENVPN_PORT", filled (OpenVpnServerConfig.port config) "1194");
       ("$OPENVPN_TRANSPORT_PROTO", filled (OpenVpnServerConfig.transportProto config) "udp");
       ("$OPENVPN_NCP_DISABLE", if OpenVpnServerConfig.ncpDisable config then "ncp-disable" else "");
       ("$OPENVPN_CIPHER", filled (OpenVpnServerConfig.cipher config) "AES-256-GCM");
       ("$OPENVPN_HASH", filled (OpenVpnServerConfig.hash config) "SHA512");
       ("$OPENVPN_TLS_AUTH", if OpenVpnServerConfig.tlsAuth config then "tls-auth /opt/amnezia/openvpn/ta.key 0" else "")] ++
      (if OpenVpnServerConfig.tlsAuth config then [] else [("$OPENVPN_TA_KEY", "")]) ++
      [("$OPENVPN_ADDITIONAL_CLIENT_CONFIG", OpenVpnServerConfig.additionalClientConfig config);
       ("$OPENVPN_ADDITIONAL_SERVER_CONFIG", OpenVpnServerConfig.additionalServerConfig config)]
  | _ => []
  end.

Definition genXrayVars (p : ProtocolConfig) : ScriptVars :=
  match p with
  | PXray c =>
      let config := XrayProtocolConfig.serverConfig c in
      [("$XRAY_SITE_NAME", filled (XrayServerConfig.site config) "www.googletagmanager.com");
       ("$XRAY_SERVER_PORT", filled (XrayServerConfig.port config) "443")]
  | _ => []
  end.

Definition genWireGuardVars (p : ProtocolConfig) : ScriptVars :=
  match p with
  | PWireGuard c =>
      let config := ProtocolConfigs.serverConfig c in
      [("$WIREGUARD_SUBNET_IP", filled (WireGuardServerConfig.subnetAddress config) "10.8.1.0");
       ("$WIREGUARD_SUBNET_CIDR", filled (WireGuardServerConfig.subnetCidr config) "24");
       ("$WIREGUARD_SERVER_PORT", filled (WireGuardServerConfig.port config) "51820")]
  | _ => []
  end.

Definition genAwgVars (p : ProtocolConfig) : ScriptVars :=
  match p with
  | PAwg c =>
      let config := ProtocolConfigs.serverConfig c in
      [("$AWG_SUBNET_IP", filled (AwgServerConfig.subnetAddress config) "10.8.1.0");
       ("$WIREGUARD_SUBNET_CIDR", filled (AwgServerConfig.subnetCidr config) "24");
       ("$AWG_SERVER_PORT", filled (AwgServerConfig.port config) "55424");
       ("$JUNK_PACKET_COUNT", AwgServerConfig.junkPacketCount config);
       ("$JUNK_PACKET_MIN_SIZE", AwgServerConfig.junkPacketMinSize config);
       ("$JUNK_PACKET_MAX_SIZE", AwgServerConfig.junkPacketMaxSize config);
       ("$INIT_PACKET_JUNK_SIZE", AwgServerConfig.initPacketJunkSize config);
       ("$RESPONSE_PACKET_JUNK_SIZE", AwgServerConfig.responsePacketJunkSize config);
       ("$INIT_PACKET_MAGIC_HEADER", AwgServerConfig.initPacketMagicHeader config);
       ("$RESPONSE_PACKET_MAGIC_HEADER", AwgServerConfig.responsePacketMagicHeader config);
       ("$UNDERLOAD_PACKET_MAGIC_HEADER", AwgServerConfig.underloadPacketMagicHeader config);
       ("$TRANSPORT_PACKET_MAGIC_HEADER", AwgServerConfig.transportPacketMagicHeader config);
       ("$COOKIE_REPLY_PACKET_JUNK_SIZE", AwgServerConfig.cookieReplyPacketJunkSize config);
       ("$TRANSPORT_PACKET_JUNK_SIZE", AwgServerConfig.transportPacketJunkSize config);
       ("$SPECIAL_JUNK_1", AwgServerConfig.specialJunk1 config); ("$SPECIAL_JUNK_2", AwgServerConfig.specialJunk2 config);
       ("$SPECIAL_JUNK_3", AwgServerConfig.specialJunk3 config); ("$SPECIAL_JUNK_4", AwgServerConfig.specialJunk4 config);
       ("$SPECIAL_JUNK_5", AwgServerConfig.specialJunk5 config)]
  | _ => []
  end.

Definition genSftpVars (p : ProtocolConfig) : ScriptVars :=
  match p with
  | PSftp c =>
      [("$SFTP_PORT", filled (SftpProtocolConfig.port c) "222"); ("$SFTP_USER", SftpProtocolConfig.userName c);
       ("$SFTP_PASSWORD", SftpProtocolConfig.password c)]
  | _ => []
  end.

Definition genSocks5ProxyVars (p : ProtocolConfig) : ScriptVars :=
  match p with
  | PSocks5Proxy c =>
      let user := Socks5ProxyProtocolConfig.userName c in
      let password := Socks5ProxyProtocolConfig.password c in
      let socks5user :=
        if negb (String.eqb user "") && negb (String.eqb password "") then "users " +:+ user +:+ ":CL:" +:+ password else "" in
      [("$SOCKS5_PROXY_PORT", filled (Socks5ProxyProtocolConfig.port c) "38080"); ("$SOCKS5_USER", socks5user);
       ("$SOCKS5_AUTH_TYPE", if String.eqb socks5user "" then "none" else "strong")]
  | _ => []
  end.

Definition secrets_text (l : list string) : string := String.concat "," (nonempty l).

Definition genMtProxyVars (p : ProtocolConfig) : ScriptVars :=
  match p with
  | PMtProxy c =>
      let transportMode := filled (MtProxyProtocolConfig.transportMode c) "standard" in
      let workers :=
        if String.eqb (filled (MtProxyProtocolConfig.workersMode c) "auto") "manual"
        then filled (MtProxyProtocolConfig.workers c) "2"
        else if String.eqb transportMode "faketls" then "0" else "2" in
      [("$MTPROXY_PORT", filled (MtProxyProtocolConfig.port c) "443"); ("$MTPROXY_SECRET", MtProxyProtocolConfig.secret c);
       ("$MTPROXY_REGENERATE_SECRET", switch (String.eqb (MtProxyProtocolConfig.secret c) ""));
       ("$MTPROXY_TAG", MtProxyProtocolConfig.tag c); ("$MTPROXY_TRANSPORT_MODE", transportMode);
       ("$MTPROXY_TLS_DOMAIN", filled (MtProxyProtocolConfig.tlsDomain c) "googletagmanager.com");
       ("$MTPROXY_PUBLIC_HOST", MtProxyProtocolConfig.publicHost c);
       ("$MTPROXY_ADDITIONAL_SECRETS", secrets_text (MtProxyProtocolConfig.additionalSecrets c)); ("$MTPROXY_WORKERS", workers);
       ("$MTPROXY_NAT_ENABLED", switch (MtProxyProtocolConfig.natEnabled c));
       ("$MTPROXY_NAT_INTERNAL_IP", MtProxyProtocolConfig.natInternalIp c);
       ("$MTPROXY_NAT_EXTERNAL_IP", MtProxyProtocolConfig.natExternalIp c)]
  | _ => []
  end.

Definition genTelemtVars (p : ProtocolConfig) : ScriptVars :=
  match p with
  | PTelemt c =>
      let faketls := String.eqb (filled (TelemtProtocolConfig.transportMode c) "standard") "faketls" in
      [("$TELEMT_TOML_SECURE", truth (negb faketls)); ("$TELEMT_TOML_TLS", truth faketls);
       ("$TELEMT_PORT", filled (TelemtProtocolConfig.port c) "443"); ("$TELEMT_SECRET", TelemtProtocolConfig.secret c);
       ("$TELEMT_REGENERATE_SECRET", switch (String.eqb (TelemtProtocolConfig.secret c) ""));
       ("$TELEMT_TAG", TelemtProtocolConfig.tag c);
       ("$TELEMT_TLS_DOMAIN", filled (TelemtProtocolConfig.tlsDomain c) "googletagmanager.com");
       ("$TELEMT_PUBLIC_HOST", TelemtProtocolConfig.publicHost c);
       ("$TELEMT_USER_NAME", filled (TelemtProtocolConfig.userName c) "amnezia");
       ("$TELEMT_USE_MIDDLE_PROXY", truth (TelemtProtocolConfig.useMiddleProxy c));
       ("$TELEMT_MASK", truth (TelemtProtocolConfig.maskEnabled c));
       ("$TELEMT_TLS_EMULATION", truth (TelemtProtocolConfig.tlsEmulation c));
       ("$TELEMT_ADDITIONAL_SECRETS", secrets_text (TelemtProtocolConfig.additionalSecrets c))]
  | _ => []
  end.

Definition genProtocolVarsForContainer (c : DockerContainer) (p : ProtocolConfig) : ScriptVars :=
  match defaultProtocol c with
  | Proto.OpenVpn => genOpenVpnVars p
  | Proto.Xray => genXrayVars p
  | Proto.WireGuard => genWireGuardVars p
  | Proto.Awg => genAwgVars p
  | Proto.Sftp => genSftpVars p
  | Proto.Socks5Proxy => genSocks5ProxyVars p
  | Proto.MtProxy => genMtProxyVars p
  | Proto.Telemt => genTelemtVars p
  | _ => []
  end.

(** [SshSession::replaceVars] *)
Definition replaceVars (script : string) (vars : ScriptVars) : string :=
  foldl (λ s var, replace_str var.1 var.2 s) script vars.

(** ** Variables are replaced as if at once *)
Definition dollar : Ascii.ascii := Ascii.ascii_of_nat 36.

Lemma length_substring n m s : (String.length (String.substring n m s) ≤ String.length s - n)%nat.
Proof.
  revert n m. induction s as [|c s IH]; intros n m; [by destruct n, m|].
  destruct n as [|n]; [destruct m as [|m]|]; cbn; [lia| |].
  - specialize (IH 0%nat m). lia.
  - apply IH.
Qed.
Lemma substring_long n m m' s :
  (String.length s - n ≤ m)%nat → (String.length s - n ≤ m')%nat → String.substring n m s = String.substring n m' s.
Proof.
  revert n m m'. induction s as [|c s IH]; intros n m m' Hm Hm'; [by destruct n, m, m'|].
  destruct n as [|n]; cbn in *; [|by apply IH]. destruct m as [|m], m' as [|m']; cbn in *; try lia.
  f_equal. apply IH; lia.
Qed.
Lemma substring_rest (a b : string) n : (String.length b ≤ n)%nat → String.substring (String.length a) n (a +:+ b) = b.
Proof.
  intros Hn. induction a as [|c a IH]; [|exact IH]. change ("" +:+ b) with b.
  revert n Hn. induction b as [|c b IH]; intros n Hn; [by destruct n|]. destruct n as [|n]; cbn in *; [lia|].
  f_equal. apply IH. lia.
Qed.
Lemma prefix_comparable v d s :
  String.prefix v (d +:+ s) = true → String.prefix v d = true ∨ String.prefix d v = true.
Proof.
  revert d. induction v as [|c v IH]; intros d; [by destruct d; left|]. destruct d as [|c' d]; [by right|].
  rewrite append_String. cbn. destruct (Ascii.ascii_dec c c') as [->|]; [|done].
  intros [H|H]%IH; [left|right]; [done|]. by destruct (Ascii.ascii_dec c' c').
Qed.
Lemma prefix_self v s : String.prefix v (v +:+ s) = true.
Proof. induction v as [|c v IH]; [by destruct s|]. rewrite append_String. cbn. by destruct (Ascii.ascii_dec c c). Qed.

Section replace.
Context (v x : string) (Hv : v ≠ "").

Lemma replace_from_fuel f f' s :
  (String.length s ≤ f)%nat → (String.length s ≤ f')%nat →
  replace_from f (String.index 0 v) (String.length v) x s = replace_from f' (String.index 0 v) (String.length v) x s.
Proof.
  assert (String.index 0 v "" = None) as He by by destruct v.
  revert f' s. induction f as [|f IH]; intros f' s Hf Hf'.
  { destruct s; [|cbn in Hf; lia]. destruct f'; cbn [replace_from]; by rewrite ?He. }
  destruct f' as [|f']; cbn [replace_from].
  { destruct s; [|cbn in Hf'; lia]. by rewrite He. }
  destruct (String.index 0 v s) as [n|] eqn:E; [|done]. do 2 f_equal.
  destruct s as [|c s]; [by rewrite He in E|].
  pose proof (length_substring (n + String.length v) (String.length (String c s)) (String c s)).
  assert (1 ≤ String.length v)%nat by (destruct v; cbn; [done|lia]). cbn [String.length] in *. apply IH; lia.
Qed.

Lemma replace_none s : String.index 0 v s = None → replace_str v x s = s.
Proof. unfold replace_str. intros E. destruct (String.length s); cbn [replace_from]; by rewrite ?E. Qed.
Lemma replace_some s n :
  String.index 0 v s = Some n →
  replace_str v x s =
  String.substring 0 n s +:+ x +:+ replace_str v x (String.substring (n + String.length v) (String.length s) s).
Proof.
  intros E. unfold replace_str at 1. destruct s as [|c s]; [by destruct v|]. cbn [String.length replace_from]. rewrite E.
  do 2 f_equal. unfold replace_str. apply replace_from_fuel; [|lia].
  pose proof (length_substring (n + String.length v) (S (String.length s)) (String c s)) as H. cbn [String.length] in H.
  assert (1 ≤ String.length v)%nat by (destruct v; cbn; [done|lia]). lia.
Qed.

Lemma replace_char_step c s : String.prefix v (String c s) = false → replace_str v x (String c s) = String c (replace_str v x s).
Proof.
  intros Hp. assert (String.index 0 v (String c s) = S <$> String.index 0 v s) as Ei.
  { cbn [String.index]. rewrite Hp. by destruct (String.index 0 v s). }
  destruct (String.index 0 v s) as [n|] eqn:E.
  - rewrite (replace_some _ _ Ei), (replace_some _ _ E). cbn [String.substring plus String.length].
    rewrite append_String. f_equal. do 2 f_equal. f_equal. apply substring_long; lia.
  - by rewrite (replace_none _ Ei), (replace_none _ E).
Qed.
Lemma replace_here s : replace_str v x (v +:+ s) = x +:+ replace_str v x s.
Proof.
  assert (String.index 0 v (v +:+ s) = Some 0%nat) as Ei.
  { pose proof (prefix_self v s) as Hp. destruct v as [|c v']; [done|]. rewrite append_String in *. cbn [String.index]. by rewrite Hp. }
  rewrite (replace_some _ _ Ei). cbn [plus]. rewrite substring_rest by (rewrite string_app_length; lia).
  by destruct (v +:+ s).
Qed.
End replace.

(** A dollar and what follows it up to the next. *)
Definition dollar_word (d : string) : bool :=
  match d with String c t => Ascii.eqb c dollar && negb (contains_char dollar t) | _ => false end.
Definition apart (v d : string) : bool := negb (String.prefix v d) && negb (String.prefix d v).

Inductive piece := Plain (t : string) | Word (d : string).
Definition piece_text (p : piece) : string := match p with Plain t => t | Word d => d end.
Definition render (l : list piece) : string := String.concat "" (piece_text <$> l).
Definition var_value (vars : ScriptVars) (d : string) : string :=
  match List.find (λ v, String.eqb d v.1) vars with Some v => v.2 | None => d end.
Definition filled_piece (vars : ScriptVars) (p : piece) : string :=
  match p with Plain t => t | Word d => var_value vars d end.

Definition no_dollar (s : string) : bool := negb (contains_char dollar s).
Definition piece_ok (names : list string) (p : piece) : bool :=
  match p with
  | Plain t => no_dollar t
  | Word d => dollar_word d && forallb (λ v, String.eqb v d || apart v d) names
  end.

Lemma replace_plain v x t s :
  dollar_word v = true → no_dollar t = true → replace_str v x (t +:+ s) = t +:+ replace_str v x s.
Proof.
  intros Hv. unfold no_dollar. induction t as [|c t IH]; [done|]. cbn [contains_char]. intros [Hc Ht]%negb_true_iff%orb_false_iff.
  destruct v as [|c' v]; [done|]. cbn in Hv. apply andb_true_iff in Hv as [Hd _]. apply Ascii.eqb_eq in Hd as ->.
  assert (String.prefix (String dollar v) (String c (t +:+ s)) = false) as Hp.
  { cbn. destruct (Ascii.ascii_dec _ _) as [<-|]; [|done]. by rewrite Ascii.eqb_refl in Hc. }
  rewrite !append_String, replace_char_step by done. f_equal. apply IH. by apply negb_true_iff.
Qed.
Lemma replace_word v x d s :
  dollar_word v = true → dollar_word d = true → apart v d = true → replace_str v x (d +:+ s) = d +:+ replace_str v x s.
Proof.
  intros Hv Hd Ha. destruct d as [|c d]; [done|]. cbn in Hd. apply andb_true_iff in Hd as [Hc Hd].
  assert (v ≠ "") as Hne by by destruct v.
  assert (String.prefix v (String c d +:+ s) = false) as Hp.
  { apply not_true_iff_false. intros [H|H]%prefix_comparable; apply andb_true_iff in Ha as [H1 H2]; by rewrite H in *. }
  rewrite append_String in *. rewrite replace_char_step by done. rewrite append_String. f_equal. by apply replace_plain.
Qed.

(** One variable is replaced in every piece. *)
Definition replaced (v x : string) (p : piece) : piece :=
  match p with Word d => if String.eqb d v then Plain x else p | _ => p end.
Lemma replace_render v x names l :
  dollar_word v = true → v ∈ names → Forall (λ p, piece_ok names p = true) l →
  replace_str v x (render l) = render (replaced v x <$> l).
Proof.
  intros Hv Hin. assert (v ≠ "") as Hne by by destruct v.
  induction 1 as [|p l Hp _ IH]; [apply replace_none; by destruct v|].
  unfold render in *. rewrite !fmap_cons, !concat_empty_cons, <- IH. destruct p as [t|d]; cbn [piece_text replaced].
  - by apply replace_plain.
  - cbn in Hp. apply andb_true_iff in Hp as [Hd Hn]. destruct (String.eqb_spec d v) as [->|Hne'].
    + by apply replace_here.
    + rewrite forallb_forall in Hn. apply list_elem_of_In in Hin. specialize (Hn v Hin).
      rewrite (proj2 (String.eqb_neq v d)) in Hn by done. by apply replace_word.
Qed.

Lemma replaceVars_filled vars l :
  Forall (λ v, dollar_word v.1 && no_dollar v.2 = true) vars → Forall (λ p, piece_ok vars.*1 p = true) l →
  replaceVars (render l) vars = String.concat "" (filled_piece vars <$> l).
Proof.
  intros Hv. revert l. induction vars as [|[v x] vars IH]; intros l Hl.
  - cbn. unfold render. by f_equal.
  - apply Forall_cons in Hv as [[Hv Hx]%andb_true_iff Hvars]. cbn [fst snd] in *. unfold replaceVars in *. cbn [foldl fst snd].
    erewrite replace_render; [|done|by apply list_elem_of_here|exact Hl]. rewrite IH; [|done|].
    + f_equal. rewrite <- list_fmap_compose. apply list_fmap_ext. intros ? [t|d] _; [done|]. cbn.
      unfold var_value. cbn [List.find fst]. by destruct (String.eqb d v).
    + apply Forall_fmap. eapply Forall_impl; [exact Hl|]. intros [t|d] Hp; [done|]. cbn in *.
      destruct (String.eqb d v); [exact Hx|]. cbn. apply andb_true_iff in Hp as [H1 [_ H2]%andb_true_iff]. by rewrite H1, H2.
Qed.

(** The names of the variables of a protocol. *)
Definition protocol_names (p : ProtocolConfig) : list string :=
  match p with
  | POpenVpn _ => (genOpenVpnVars p).*1
  | PXray _ => (genXrayVars p).*1
  | PWireGuard _ => (genWireGuardVars p).*1
  | PAwg _ => (genAwgVars p).*1
  | PSftp _ => (genSftpVars p).*1
  | PSocks5Proxy _ => (genSocks5ProxyVars p).*1
  | PMtProxy _ => (genMtProxyVars p).*1
  | PTelemt _ => (genTelemtVars p).*1
  | _ => []
  end.
Lemma protocol_vars_names c p :
  (genProtocolVarsForContainer c p).*1 = [] ∨ (genProtocolVarsForContainer c p).*1 = protocol_names p.
Proof. unfold genProtocolVarsForContainer. destruct (defaultProtocol c), p; auto. Qed.

Definition names_ok (names : list string) : bool :=
  forallb (λ d, dollar_word d && forallb (λ v, String.eqb v d || apart v d) names) names && bool_decide (NoDup names).

(** None is the beginning of another. *)
Lemma names_apart address credentials c dns1 dns2 p :
  names_ok (genBaseVars address credentials c dns1 dns2 ++ genProtocolVarsForContainer c p).*1 = true.
Proof.
  rewrite fmap_app. destruct (protocol_vars_names c p) as [-> | ->]; unfold genBaseVars.
  - destruct (String.eqb _ ""); vm_compute; reflexivity.
  - destruct (String.eqb _ ""), p; cbn [protocol_names genOpenVpnVars];
      try destruct (OpenVpnServerConfig.tlsAuth _); vm_compute; reflexivity.
Qed.

(** In the scripts of every container each variable is replaced by its value
    wherever it stands, and nothing else: one replacement after the other does
    what all at once would do, as long as the values hold no dollar.  A value
    that names a later variable is replaced too. *)
Theorem script_filled address credentials c dns1 dns2 p (script : list piece) :
  let vars := genBaseVars address credentials c dns1 dns2 ++ genProtocolVarsForContainer c p in
  (Forall (λ v, no_dollar v.2 = true) vars →
   Forall (λ q, match q with
                | Plain t => no_dollar t = true
                | Word d => dollar_word d = true ∧ (d ∈ vars.*1 ∨ Forall (λ v, apart v d = true) vars.*1)
                end) script →
   replaceVars (render script) vars = String.concat "" (filled_piece vars <$> script)) ∧
  (∀ v, v ∈ vars → var_value vars v.1 = v.2) ∧
  replaceVars "$SFTP_USER" (genSftpVars (PSftp (SftpProtocolConfig.mk "" "$SFTP_PASSWORD" "secret"))) = "secret".
Proof.
  intros vars. pose proof (names_apart address credentials c dns1 dns2 p) as Hn. fold vars in Hn. clearbody vars.
  apply andb_true_iff in Hn as [Hn Hd%bool_decide_eq_true]. rewrite forallb_forall in Hn.
  split; [|split; [|vm_compute; reflexivity]].
  - intros Hv Hs. apply replaceVars_filled.
    + apply Forall_forall. intros v Hin. rewrite Forall_forall in Hv. rewrite (Hv v Hin), andb_true_r.
      specialize (Hn v.1 ltac:(apply list_elem_of_In, list_elem_of_fmap; by exists v)). by apply andb_true_iff in Hn as [? _].
    + eapply Forall_impl; [exact Hs|]. intros [t|d]; [done|]. cbn. intros [Hw [Hin|Ha]].
      * apply Hn. by apply list_elem_of_In.
      * rewrite Hw. cbn. apply forallb_forall. intros v Hin%list_elem_of_In. rewrite Forall_forall in Ha.
        by rewrite (Ha v Hin), orb_true_r.
  - intros v Hin. clear Hn. unfold var_value. induction vars as [|w vars IH]; [by apply elem_of_nil in Hin|].
    cbn [fmap list_fmap] in Hd. apply NoDup_cons in Hd as [Hw Hd]. cbn [List.find].
    apply elem_of_cons in Hin as [-> |Hin]; [by rewrite String.eqb_refl|].
    rewrite (proj2 (String.eqb_neq _ _)); [by apply IH|]. intros E. apply Hw, list_elem_of_fmap. by exists v.
Qed.

Definition sample_credentials : ServerCredentials := mkCredentials "192.0.2.7" "root" "secret" 22.
Lemma script_filled_witness :
  replaceVars (render [Plain "docker run -p "; Word "$AWG_SERVER_PORT"; Plain ":"; Word "$AWG_SERVER_PORT"; Plain "/udp --name ";
      Word "$CONTAINER_NAME"; Word "$(nproc)"])
    (genBaseVars (λ h, h) sample_credentials DockerContainer.Awg "" "" ++
     genProtocolVarsForContainer DockerContainer.Awg (PAwg (mkWithClient (AwgServerConfig.fromJson ∅) None))) =
  "docker run -p 55424:55424/udp --name amnezia-awg$(nproc)".
Proof.
  destruct (script_filled (λ h, h) sample_credentials DockerContainer.Awg "" ""
    (PAwg (mkWithClient (AwgServerConfig.fromJson ∅) None))
    [Plain "docker run -p "; Word "$AWG_SERVER_PORT"; Plain ":"; Word "$AWG_SERVER_PORT"; Plain "/udp --name ";
      Word "$CONTAINER_NAME"; Word "$(nproc)"]) as [H _].
  etrans; [apply H|vm_compute; reflexivity].
  - repeat (constructor; [vm_compute; reflexivity|]). constructor.
  - repeat (constructor; [first [reflexivity
      | split; [reflexivity|]; left; apply (bool_decide_unpack _); vm_compute; exact Logic.I
      | split; [reflexivity|]; right; apply (bool_decide_unpack _); vm_compute; exact Logic.I]|]). constructor.
Defined.
