(* ===== verification/SshSession.v ===== *)
(** * SshSession: commands on a server and files in its containers

    Models [core/utils/selfhosted/sshClient.cpp] (the session, commands and
    copies) and [sshSession.cpp] (scripts, files of containers).  libssh and the
    server behind it are the class [Libssh] on a state of their own. *)
From S2P Require Import Prelude Text Json Containers ServerConfig Scripts.

Module ErrorCode.
Definition NoError : Z := 0.
Definition InternalError : Z := 101.
Definition ServerContainerMissingError : Z := 202.
Definition XrayServerConfigInvalid : Z := 215.
Definition XrayServerNoVlessClients : Z := 216.
Definition XrayRealityKeysReadFailed : Z := 217.
Definition SshRequestDeniedError : Z := 300.
Definition SshInterruptedError : Z := 301.
Definition SshInternalError : Z := 302.
Definition SshPrivateKeyFormatError : Z := 304.
Definition SshTimeoutError : Z := 305.
Definition SshScpFailureError : Z := 400.
Definition OpenSslFailed : Z := 800.
End ErrorCode.

(** Calls of libssh, each with its answer; and random names. *)
Class Libssh (W : Type) := {
  ssh_new : W → bool * W;
  ssh_free : W → W;
  ssh_is_connected : W → bool;
  ssh_connect : ServerCredentials → W → bool * W;
  ssh_disconnect : W → W;
  userauth_key : ServerCredentials → W → bool * W;        (** importing the key included *)
  userauth_password : ServerCredentials → W → bool * W;
  ssh_get_error_code : W → Z;
  ssh_get_error : W → string;
  channel_open : W → bool * W;
  channel_exec : string → W → option (list string * list string) * W;  (** what is read of both outputs *)
  channel_close : W → W;
  channel_write : string → W → W;
  scp_new : string → W → bool * W;                        (** for the path of the remote file *)
  scp_init : W → bool * W;
  scp_push_file : string → Z → W → bool * W;              (** path, size *)
  scp_write : string → W → bool * W;
  scp_free : W → W;
  getRandomString : W → string * W;                       (** of 16 characters *)
  fromHex : string → string;
  getIPAddress : string → string;
}.

(** A client: whether it holds a session. *)
Record client (W : Type) := mkClient { m_session : bool; world : W }.
Arguments mkClient {W}.
Arguments m_session {W}.
Arguments world {W}.

Definition dquote : string := String (Ascii.ascii_of_nat 34) "".
Definition quoted (s : string) : string := dquote +:+ s +:+ dquote.
Definition backslash : string := String (Ascii.ascii_of_nat 92) "".

Inductive ScpOverwriteMode := ScpOverwriteExisting | ScpAppendToExisting.

Section client.
Context {W : Type} {L : Libssh W}.
Abbreviation M := (stM (client W)).

Definition call {X} (f : W → X * W) : M X := λ c, let '(x, w) := f (world c) in (x, mkClient (m_session c) w).
Definition act (f : W → W) : M unit := λ c, (tt, mkClient (m_session c) (f (world c))).
Definition ask {X} (f : W → X) : M X := λ c, (f (world c), c).
Definition set_session (b : bool) : M unit := modify (λ c, mkClient b (world c)).

Definition error_of (code : Z) (message : string) : Z :=
  if negb (code =? 0) && contains_str "Timeout connecting to" message then ErrorCode.SshTimeoutError
  else if code =? 0 then ErrorCode.NoError
  else if code =? 1 then ErrorCode.SshRequestDeniedError
  else if code =? 3 then ErrorCode.SshInterruptedError
  else ErrorCode.SshInternalError.
Definition fromLibsshErrorCode : M Z := ask (λ w, error_of (ssh_get_error_code w) (ssh_get_error w)).

Definition is_key (credentials : ServerCredentials) : bool :=
  contains_str "BEGIN" (secretData credentials) && contains_str "PRIVATE KEY" (secretData credentials).

Definition connectToHost (credentials : ServerCredentials) : M Z :=
  c ← get;
  _ ← (if m_session c && negb (ssh_is_connected (world c)) then _ ← act ssh_free; set_session false else mret tt);
  c ← get;
  if m_session c then mret ErrorCode.NoError else
  made ← call ssh_new;
  if negb (made : bool) then mret ErrorCode.InternalError else
  _ ← set_session true;
  connected ← call (ssh_connect credentials);
  if negb (connected : bool) then fromLibsshErrorCode else
  if is_key credentials then
    ok ← call (userauth_key credentials);
    if (ok : bool) then mret ErrorCode.NoError else
    errorCode ← fromLibsshErrorCode;
    mret (if errorCode =? ErrorCode.NoError then ErrorCode.SshPrivateKeyFormatError else errorCode)
  else
    ok ← call (userauth_password credentials);
    if (ok : bool) then mret ErrorCode.NoError else fromLibsshErrorCode.

Definition disconnectFromHost : M unit :=
  c ← get;
  if m_session c then
    _ ← (if ssh_is_connected (world c) then act ssh_disconnect else mret tt);
    _ ← act ssh_free;
    set_session false
  else mret tt.

Definition writeResponse (data : string) : M Z := _ ← act (channel_write data); fromLibsshErrorCode.
Definition closeChannel : M Z := _ ← act channel_close; fromLibsshErrorCode.

(** A function called with what is read, over what it has gathered; it may
    write to the channel, and its error ends the reading. *)
Definition callback (X : Type) : Type := string → X → M (Z * X).

Fixpoint readOutput {X} (cb : callback X) (chunks : list string) (x : X) : M (Z * X) :=
  match chunks with
  | [] => mret (ErrorCode.NoError, x)
  | chunk :: chunks =>
      '(error, x) ← cb chunk x;
      if negb (error =? ErrorCode.NoError) then mret (error, x) else readOutput cb chunks x
  end.

Definition executeCommand {X} (data : string) (cbReadStdOut cbReadStdErr : callback X) (x : X) : M (Z * X) :=
  opened ← call channel_open;
  if negb (opened : bool) then error ← closeChannel; mret (error, x) else
  output ← call (channel_exec data);
  match output with
  | None => error ← closeChannel; mret (error, x)
  | Some (out, err) =>
      '(error, x) ← readOutput cbReadStdOut out x;
      if negb (error =? ErrorCode.NoError) then mret (error, x) else
      '(error, x) ← readOutput cbReadStdErr err x;
      if negb (error =? ErrorCode.NoError) then mret (error, x) else
      error ← closeChannel;
      mret (error, x)
  end.

(** A callback that is not given, and one that gathers. *)
Definition no_callback {X} : callback X := λ _ x, mret (ErrorCode.NoError, x).
Definition gather : callback string := λ data x, mret (ErrorCode.NoError, x +:+ data).
Definition gather_lines : callback string := λ data x, mret (ErrorCode.NoError, x +:+ data +:+ nl).

Definition bufferSize : Z := 16384.

(** The local file holds [data]; it is read without errors. *)
Fixpoint copy_chunks (fuel : nat) (data : string) (transferred currentChunkSize : Z) : M Z :=
  match fuel with
  | O => mret ErrorCode.NoError
  | S fuel =>
      let localFileSize := Z.of_nat (String.length data) in
      if transferred <? localFileSize then
        let currentChunkSize :=
          if localFileSize - transferred <? bufferSize then localFileSize mod bufferSize else currentChunkSize in
        let chunk := mid data transferred currentChunkSize in
        if negb (Z.of_nat (String.length chunk) =? currentChunkSize) then mret ErrorCode.NoError else
        written ← call (scp_write chunk);
        if (written : bool) then copy_chunks fuel data (transferred + currentChunkSize) currentChunkSize
        else fromLibsshErrorCode
      else mret ErrorCode.NoError
  end.

Definition scpFileCopy (remotePath data : string) : M Z :=
  made ← call (scp_new remotePath);
  if negb (made : bool) then fromLibsshErrorCode else
  ready ← call scp_init;
  if negb (ready : bool) then
    errorCode ← fromLibsshErrorCode;
    _ ← act scp_free;
    mret errorCode
  else
    pushed ← call (scp_push_file remotePath (Z.of_nat (String.length data)));
    result ← (if (pushed : bool) then copy_chunks (String.length data) data 0 bufferSize else fromLibsshErrorCode);
    _ ← act scp_free;
    mret result.

(** ** Scripts *)
Definition endsWith (p s : string) : bool :=
  let n := String.length p in
  (n <=? String.length s)%nat && String.eqb (String.substring (String.length s - n) n s) p.

Fixpoint run_lines {X} (cbReadStdOut cbReadStdErr : callback X) (lines : list string) (totalLine : string) (x : X) : M (Z * X) :=
  match lines with
  | [] => mret (ErrorCode.NoError, x)
  | currentLine :: lines =>
      let totalLine := if String.eqb totalLine "" then currentLine else totalLine +:+ nl +:+ currentLine in
      if endsWith backslash currentLine then run_lines cbReadStdOut cbReadStdErr lines totalLine x
      else if startsWith "#" totalLine then run_lines cbReadStdOut cbReadStdErr lines "" x
      else
        '(error, x) ← executeCommand totalLine cbReadStdOut cbReadStdErr x;
        if negb (error =? ErrorCode.NoError) then mret (error, x)
        else run_lines cbReadStdOut cbReadStdErr lines "" x
  end.

Definition runScript {X} (credentials : ServerCredentials) (script : string) (cbReadStdOut cbReadStdErr : callback X) (x : X) :
    M (Z * X) :=
  error ← connectToHost credentials;
  if negb (error =? ErrorCode.NoError) then mret (error, x) else
  run_lines cbReadStdOut cbReadStdErr (nonempty (lines_of (replace_str carriage_return "" script))) "" x.

(** A script without callbacks. *)
Definition run (credentials : ServerCredentials) (script : string) : M Z :=
  '(error, _) ← runScript credentials script no_callback no_callback tt;
  mret error.

Definition base_vars (credentials : ServerCredentials) (c : DockerContainer) : ScriptVars :=
  genBaseVars getIPAddress credentials c "" "".

Definition uploadFileToHost (credentials : ServerCredentials) (data remotePath : string) : M Z :=
  error ← connectToHost credentials;
  if negb (error =? ErrorCode.NoError) then mret error else
  scpFileCopy remotePath data.

(** [m; if (e) return e;] *)
Definition or_else {X} (m : M (Z * X)) (k : X → M Z) : M Z :=
  '(e, x) ← m;
  if negb (e =? ErrorCode.NoError) then mret e else k x.
Definition or_return (m : M Z) (k : M Z) : M Z :=
  e ← m; if negb ((e : Z) =? ErrorCode.NoError) then mret e else k.

Definition mkdir_script (path : string) : string :=
  "sudo docker exec -i $CONTAINER_NAME mkdir -p  " +:+ quoted ("$(dirname " +:+ path +:+ ")").
Definition cp_script (tmp path : string) : string := "sudo docker cp " +:+ tmp +:+ " $CONTAINER_NAME:/" +:+ path.
Definition append_script (tmp path : string) : string :=
  "sudo docker exec -i $CONTAINER_NAME sh -c " +:+ quoted ("cat " +:+ tmp +:+ " >> " +:+ path).
Definition shred_script (tmp : string) : string := "sudo shred -u " +:+ tmp.
Definition xxd_script (c : DockerContainer) (path : string) : string :=
  "sudo docker exec -i " +:+ containerToString c +:+ " sh -c " +:+ quoted ("xxd -p '" +:+ path +:+ "'").

(** Putting the file into the container; what docker says is gathered. *)
Definition put (c : DockerContainer) (credentials : ServerCredentials) (overwriteMode : ScpOverwriteMode)
    (tmpFileName path : string) : M (Z * string) :=
  let gathered script := runScript credentials (replaceVars script (base_vars credentials c)) gather_lines gather_lines in
  match overwriteMode with
  | ScpOverwriteExisting => gathered (cp_script tmpFileName path) ""
  | ScpAppendToExisting =>
      '(e, out) ← gathered (cp_script tmpFileName tmpFileName) "";
      if negb (e =? ErrorCode.NoError) then mret (e, out) else gathered (append_script tmpFileName path) out
  end.

Definition uploadTextFileToContainer (c : DockerContainer) (credentials : ServerCredentials) (file path : string)
    (overwriteMode : ScpOverwriteMode) : M Z :=
  name ← call getRandomString;
  let tmpFileName := "/tmp/" +:+ name +:+ ".tmp" in
  let vars := base_vars credentials c in
  or_return (uploadFileToHost credentials file tmpFileName) (
  or_return (run credentials (replaceVars (mkdir_script path) vars)) (
  or_else
    (put c credentials overwriteMode tmpFileName path)
    (λ stdOut,
     if contains_str "Error" stdOut && contains_str "No such container" stdOut then mret ErrorCode.ServerContainerMissingError
     else
       _ ← run credentials (replaceVars (shred_script tmpFileName) vars);
       mret ErrorCode.NoError))).

Definition getTextFileFromContainer (c : DockerContainer) (credentials : ServerCredentials) (path : string) : M (string * Z) :=
  '(errorCode, stdOut) ← runScript credentials (xxd_script c path) gather no_callback "";
  mret (fromHex stdOut, errorCode).

Definition runContainerScript {X} (credentials : ServerCredentials) (c : DockerContainer) (script : string)
    (cbReadStdOut cbReadStdErr : callback X) (x : X) : M (Z * X) :=
  name ← call getRandomString;
  let fileName := "/opt/amnezia/" +:+ name +:+ ".sh" in
  e ← uploadTextFileToContainer c credentials script fileName ScpOverwriteExisting;
  if negb ((e : Z) =? ErrorCode.NoError) then mret (e, x) else
  let useSh := bool_decide (c ∈ [DockerContainer.Socks5Proxy; DockerContainer.MtProxy; DockerContainer.Telemt]) in
  let runner := "sudo docker exec -i $CONTAINER_NAME " +:+ (if useSh then "sh" else "bash") +:+ " " +:+ fileName +:+ " " in
  '(e, x) ← runScript credentials (replaceVars runner (base_vars credentials c)) cbReadStdOut cbReadStdErr x;
  let remover := "sudo docker exec -i $CONTAINER_NAME rm " +:+ fileName +:+ " " in
  '(_, x) ← runScript credentials (replaceVars remover (base_vars credentials c)) cbReadStdOut cbReadStdErr x;
  mret (e, x).

Definition checkSshConnection {R : Resources} (credentials : ServerCredentials) : M (string * Z) :=
  '(errorCode, stdOut) ← runScript credentials (shared_scriptData check_connection) gather_lines gather_lines "";
  mret (stdOut, errorCode).
End client.

(** ** A script is the sequence of its commands *)
Definition continued (line : string) : bool := endsWith backslash line.
(** The lines of a command: all but the last end in a backslash. *)
Definition whole (g : list string) : Prop :=
  ∃ conts last, g = conts ++ [last] ∧ Forall (λ l, continued l = true) conts ∧ continued last = false.
Definition joined (g : list string) : string := String.concat nl g.
Definition comment (command : string) : bool := startsWith "#" command.

Lemma script_groups lines :
  ∃ groups rest, lines = concat groups ++ rest ∧ Forall whole groups ∧ Forall (λ l, continued l = true) rest.
Proof.
  induction lines as [|l lines (groups & rest & -> & Hg & Hr)]; [by exists [], []|].
  destruct (continued l) eqn:El.
  - destruct groups as [|g groups]; [exists [], (l :: rest); repeat split; [done|by constructor]|].
    apply Forall_cons in Hg as [(conts & last & -> & Hc & Hl) Hg]. exists ((l :: conts ++ [last]) :: groups), rest.
    repeat split; [|done]. constructor; [|done]. exists (l :: conts), last. repeat split; [by constructor|done].
  - exists ([l] :: groups), rest. repeat split; [|done]. constructor; [|done]. by exists [], l.
Qed.

Section scripts.
Context {W : Type} {L : Libssh W} {X : Type} (cbReadStdOut cbReadStdErr : callback (W := W) X).

(** Commands one after the other, until one fails. *)
Fixpoint execute_all (commands : list string) (x : X) : stM (client W) (Z * X) :=
  match commands with
  | [] => mret (ErrorCode.NoError, x)
  | command :: commands =>
      '(error, x) ← executeCommand command cbReadStdOut cbReadStdErr x;
      if negb (error =? ErrorCode.NoError) then mret (error, x) else execute_all commands x
  end.

Lemma run_rest rest total x c :
  Forall (λ l, continued l = true) rest →
  run_lines cbReadStdOut cbReadStdErr rest total x c = ((ErrorCode.NoError, x), c).
Proof.
  intros Hr. revert total. induction Hr as [|l rest Hl _ IH]; intros total; [done|].
  cbn [run_lines]. unfold continued in Hl. rewrite Hl. apply IH.
Qed.

(** [totalLine] after the lines [ls]. *)
Definition total_of (total : string) (ls : list string) : string :=
  if String.eqb total "" then joined ls else joined (total :: ls).
Lemma total_step total l ls :
  l ≠ "" → total_of (if String.eqb total "" then l else total +:+ nl +:+ l) ls = total_of total (l :: ls).
Proof.
  intros Hl. unfold total_of, joined. destruct (String.eqb_spec total "") as [->|Ht].
  - by rewrite (proj2 (String.eqb_neq l "") Hl).
  - rewrite (proj2 (String.eqb_neq (total +:+ nl +:+ l) "")) by (destruct total; [done|by rewrite append_String]).
    destruct ls as [|l' ls]; cbn [String.concat]; [done|]. by rewrite !string_app_assoc.
Qed.

Lemma run_command conts last lines total x c :
  Forall (λ l, continued l = true) conts → continued last = false → Forall (λ l, l ≠ "") (conts ++ [last]) →
  run_lines cbReadStdOut cbReadStdErr (conts ++ last :: lines) total x c =
  (if comment (total_of total (conts ++ [last])) then run_lines cbReadStdOut cbReadStdErr lines "" x
   else '(error, x) ← executeCommand (total_of total (conts ++ [last])) cbReadStdOut cbReadStdErr x;
        if negb (error =? ErrorCode.NoError) then mret (error, x)
        else run_lines cbReadStdOut cbReadStdErr lines "" x) c.
Proof.
  intros Hc Hl. unfold continued in *. revert total. induction Hc as [|l conts Hcl _ IH]; intros total Hne; cbn [app run_lines].
  - apply Forall_cons in Hne as [Hne _]. rewrite Hl, <- (total_step total last []) by done.
    unfold total_of at 1 2, joined. cbn [String.concat]. unfold comment.
    destruct (String.eqb_spec total "") as [->|Ht].
    + by rewrite (proj2 (String.eqb_neq last "") Hne).
    + by rewrite (proj2 (String.eqb_neq (total +:+ nl +:+ last) "")) by (destruct total; [done|by rewrite append_String]).
  - apply Forall_cons in Hne as [Hne Hrest]. rewrite Hcl, IH by done. by rewrite total_step.
Qed.

Lemma run_lines_groups groups rest x c :
  Forall whole groups → Forall (λ l, continued l = true) rest → Forall (λ l, l ≠ "") (concat groups ++ rest) →
  run_lines cbReadStdOut cbReadStdErr (concat groups ++ rest) "" x c =
  execute_all (filter (λ command, comment command = false) (joined <$> groups)) x c.
Proof.
  intros Hg Hr. revert x c. induction Hg as [|g groups (conts & last & -> & Hc & Hl) _ IH]; intros x c Hne; [by apply run_rest|].
  cbn [concat fmap list_fmap] in *. rewrite <- app_assoc in Hne. apply Forall_app in Hne as [Hne Hne'].
  rewrite <- app_assoc, <- app_assoc. cbn [app]. rewrite run_command by done. unfold total_of. cbn [String.eqb].
  destruct (comment (joined (conts ++ [last]))) eqn:E.
  - rewrite filter_cons_False by (by rewrite E). by apply IH.
  - rewrite filter_cons_True by done. cbn [execute_all]. rewrite !bind_run.
    destruct (executeCommand _ _ _ x c) as [[e x'] c']. cbn [fst snd]. destruct (negb _); [done|]. by apply IH.
Qed.

(** Running a script: after the connection the commands of the script, each
    the lines up to the first that does not end in a backslash, are executed in
    their order until one fails; commands that begin with a sharp sign are left
    out.  Lines after the last command that all end in a backslash are never
    executed. *)
Theorem script_commands credentials script x c :
  ∃ groups rest,
    nonempty (lines_of (replace_str carriage_return "" script)) = concat groups ++ rest ∧
    Forall whole groups ∧ Forall (λ l, continued l = true) rest ∧
    runScript credentials script cbReadStdOut cbReadStdErr x c =
    (error ← connectToHost credentials;
     if negb (error =? ErrorCode.NoError) then mret (error, x)
     else execute_all (filter (λ command, comment command = false) (joined <$> groups)) x) c.
Proof.
  destruct (script_groups (nonempty (lines_of (replace_str carriage_return "" script)))) as (groups & rest & E & Hg & Hr).
  exists groups, rest. repeat split; [done..|]. unfold runScript. rewrite !bind_run.
  destruct (connectToHost credentials c) as [e c']. cbn [fst snd]. destruct (negb _); [done|]. rewrite E.
  apply run_lines_groups; [done..|]. rewrite <- E. apply Forall_forall. intros l Hl. unfold nonempty in Hl. rewrite list_elem_of_In, filter_In in Hl. destruct Hl as [_ Hl]. by apply negb_true_iff, String.eqb_neq in Hl.
Qed.
End scripts.

(** ** Files in containers *)

(** What is on a server: a file being copied to it (its path and what of it has
    come), its files, the files of its containers, and the configurations their
    tunnels were last given. *)
Record view := mkView {
  receiving : option (string * string); hosts : gmap string string; boxes : gmap (string * string) string;
  served : gmap string string }.
Definition with_file (tmp data : string) (v : view) : view := mkView (receiving v) (<[tmp := data]> (hosts v)) (boxes v) (served v).
Definition without_file (tmp : string) (v : view) : view := mkView (receiving v) (delete tmp (hosts v)) (boxes v) (served v).
Definition with_box (name path data : string) (v : view) : view :=
  mkView (receiving v) (hosts v) (<[(name, path) := data]> (boxes v)) (served v).
Definition box (v : view) (name path : string) : string := default "" (boxes v !! (name, path)).
Definition receive (r : option (string * string)) (v : view) : view := mkView r (hosts v) (boxes v) (served v).

(** A word of a command: nothing a shell or a script would take apart. *)
Definition plain_char (c : Ascii.ascii) : bool :=
  negb (existsb (Ascii.eqb c) (Ascii.ascii_of_nat <$> [10; 13; 32; 34; 36; 39; 58; 92]%nat)).
Definition plain (s : string) : bool := forallb plain_char (String.list_ascii_of_string s).

Definition no_such (out : list string) : bool := existsb (contains_str "No such container") out.
(** The container is there, says docker. *)
Definition quiet (out err : list string) : Prop := no_such (out ++ err) = false.

Class ServerView (W : Type) := {
  accepted : ServerCredentials → Prop;       (** whom it lets in *)
  well : W → Prop;
  seen : W → view;
}.
Definition same {W} `{ServerView W} (w w' : W) : Prop := well w' ∧ seen w' = seen w.
(** A command runs there, leaving [v]. *)
Definition answers {W} `{Libssh W} `{ServerView W} (command : string) (w : W) (v : view) (P : list string → list string → Prop) : Prop :=
  ∃ out err w', channel_exec command w = (Some (out, err), w') ∧ well w' ∧ seen w' = v ∧ P out err.

(** A server that serves: what libssh and the commands of a shell and of docker
    are documented to do there. *)
Class Server (W : Type) {L : Libssh W} {V : ServerView W} : Prop := {
  ssh_new_law w : well w → (ssh_new w).1 = true ∧ same w (ssh_new w).2;
  ssh_free_law w : well w → same w (ssh_free w);
  ssh_disconnect_law w : well w → same w (ssh_disconnect w);
  ssh_connect_law cred w : accepted cred → well w → (ssh_connect cred w).1 = true ∧ same w (ssh_connect cred w).2;
  userauth_key_law cred w : accepted cred → well w → (userauth_key cred w).1 = true ∧ same w (userauth_key cred w).2;
  userauth_password_law cred w :
    accepted cred → well w → (userauth_password cred w).1 = true ∧ same w (userauth_password cred w).2;
  no_error_law w : well w → ssh_get_error_code w = 0;
  channel_open_law w : well w → (channel_open w).1 = true ∧ same w (channel_open w).2;
  channel_close_law w : well w → same w (channel_close w);
  random_law w : well w → plain (getRandomString w).1 = true ∧ same w (getRandomString w).2;
  scp_new_law p w : well w → (scp_new p w).1 = true ∧ well (scp_new p w).2 ∧ seen (scp_new p w).2 = receive (Some (p, "")) (seen w);
  scp_init_law w : well w → (scp_init w).1 = true ∧ same w (scp_init w).2;
  scp_push_law p n w : well w → (scp_push_file p n w).1 = true ∧ same w (scp_push_file p n w).2;
  scp_write_law s p d w :
    well w → receiving (seen w) = Some (p, d) →
    (scp_write s w).1 = true ∧ well (scp_write s w).2 ∧ seen (scp_write s w).2 = receive (Some (p, d +:+ s)) (seen w);
  scp_free_law p d w :
    well w → receiving (seen w) = Some (p, d) →
    well (scp_free w) ∧ seen (scp_free w) = receive None (with_file p d (seen w));
  mkdir_law name p w : plain name = true → plain p = true → well w →
    answers ("sudo docker exec -i " +:+ name +:+ " mkdir -p  " +:+ quoted ("$(dirname " +:+ p +:+ ")")) w (seen w) quiet;
  cp_law tmp name p d w : plain name = true → plain tmp = true → plain p = true → startsWith "/" p = true → well w →
    hosts (seen w) !! tmp = Some d →
    answers ("sudo docker cp " +:+ tmp +:+ " " +:+ name +:+ ":/" +:+ p) w (with_box name p d (seen w)) quiet;
  append_law tmp name p d w : plain name = true → plain tmp = true → plain p = true → well w →
    boxes (seen w) !! (name, tmp) = Some d →
    answers ("sudo docker exec -i " +:+ name +:+ " sh -c " +:+ quoted ("cat " +:+ tmp +:+ " >> " +:+ p)) w
      (with_box name p (box (seen w) name p +:+ d) (seen w)) quiet;
  shred_law tmp w : plain tmp = true → well w → answers ("sudo shred -u " +:+ tmp) w (without_file tmp (seen w)) quiet;
  xxd_law name p d w : plain name = true → plain p = true → well w → boxes (seen w) !! (name, p) = Some d →
    answers ("sudo docker exec -i " +:+ name +:+ " sh -c " +:+ quoted ("xxd -p '" +:+ p +:+ "'")) w (seen w)
      (λ out _, fromHex (String.concat "" out) = d);
}.

(** *** Tunnels and scripts in containers *)
Definition with_served (name config : string) (v : view) : view :=
  mkView (receiving v) (hosts v) (boxes v) (<[name := config]> (served v)).

(** What the commands of a tunnel are documented to do. *)
Class TunnelServer (W : Type) {L : Libssh W} {V : ServerView W} : Prop := {
  show_law name tool w : plain name = true → plain tool = true → well w →
    answers ("sudo docker exec -i " +:+ name +:+ " bash -c '" +:+ tool +:+ " show all'") w (seen w) (λ _ _, True);
  sync_law name tool interface p d w : plain name = true → plain tool = true → plain interface = true → plain p = true → well w →
    boxes (seen w) !! (name, p) = Some d →
    answers ("sudo docker exec -i " +:+ name +:+ " bash -c '" +:+ tool +:+ " syncconf " +:+ interface +:+ " <(" +:+ tool +:+
             "-quick strip " +:+ p +:+ ")'") w (with_served name d (seen w)) quiet;
}.

Definition xray_config_path : string := "/opt/amnezia/xray/server.json".
(** The process of an Xray container that is started again reads its document. *)
Class RestartServer (W : Type) {L : Libssh W} {V : ServerView W} : Prop := {
  restart_law name d w : plain name = true → well w → boxes (seen w) !! (name, xray_config_path) = Some d →
    answers ("sudo docker restart " +:+ name) w (with_served name d (seen w)) quiet;
}.

(** The lines of a text that hold a word, as grep prints them. *)
Definition grep (word text : string) : list string := List.filter (contains_str word) (lines_of text).
Definition lines_text (l : list string) : string := String.concat "" ((λ s, s +:+ nl) <$> l).
Definition without_box (name path : string) (v : view) : view :=
  mkView (receiving v) (hosts v) (delete (name, path) (boxes v)) (served v).

(** Scripts inside a container: the one that looks for the addresses of a
    tunnel's peers, whose output is read in pieces, wherever they are cut, and
    their removal. *)
Class ShellServer (W : Type) {L : Libssh W} {V : ServerView W} : Prop := {
  grep_law name file p d w : plain name = true → plain file = true → plain p = true → well w →
    boxes (seen w) !! (name, file) = Some ("cat " +:+ p +:+ " | grep AllowedIPs") → boxes (seen w) !! (name, p) = Some d →
    answers ("sudo docker exec -i " +:+ name +:+ " bash " +:+ file +:+ " ") w (seen w)
      (λ out _, String.concat "" out = lines_text (grep "AllowedIPs" d));
  rm_law name file w : plain name = true → plain file = true → well w →
    answers ("sudo docker exec -i " +:+ name +:+ " rm " +:+ file +:+ " ") w (without_box name file (seen w)) (λ out _, out = []);
}.

(** *** Words and lines *)
Definition all_chars (f : Ascii.ascii → bool) (s : string) : bool := forallb f (String.list_ascii_of_string s).
Lemma all_chars_app f a b : all_chars f (a +:+ b) = all_chars f a && all_chars f b.
Proof. unfold all_chars. induction a as [|c a IH]; [done|]. rewrite append_String. cbn in *. by rewrite IH, andb_assoc. Qed.
Lemma all_chars_impl f g s : (∀ c, f c = true → g c = true) → all_chars f s = true → all_chars g s = true.
Proof. intros Hfg. unfold all_chars. rewrite !forallb_forall. auto. Qed.
Lemma all_chars_contains f c s : f c = false → all_chars f s = true → contains_char c s = false.
Proof.
  intros Hc. unfold all_chars. induction s as [|a s IH]; [done|]. cbn. intros [Ha Hs]%andb_true_iff.
  rewrite IH, orb_false_r by done. apply Ascii.eqb_neq. intros ->. by rewrite Hc in Ha.
Qed.

(** What does not end a line, nor continue it. *)
Definition tame_char (c : Ascii.ascii) : bool := negb (existsb (Ascii.eqb c) (Ascii.ascii_of_nat <$> [10; 13; 92]%nat)).
Definition tame : string → bool := all_chars tame_char.
Lemma plain_tame s : plain s = true → tame s = true.
Proof.
  apply all_chars_impl. intros c. unfold plain_char, tame_char. rewrite !negb_true_iff.
  cbn [fmap list_fmap existsb]. rewrite !orb_false_iff. tauto.
Qed.
Lemma plain_no_dollar s : plain s = true → no_dollar s = true.
Proof. intros H. unfold no_dollar. apply negb_true_iff. by apply (all_chars_contains plain_char). Qed.

Lemma index_char_none c s : contains_char c s = false → String.index 0 (String c "") s = None.
Proof.
  induction s as [|a s IH]; [done|]. cbn [contains_char]. intros [Ha Hs]%orb_false_iff. apply Ascii.eqb_neq in Ha.
  cbn [String.index String.prefix]. rewrite IH by done. destruct (Ascii.ascii_dec c a); [congruence|done].
Qed.
Lemma endsWith_char c s : contains_char c s = false → endsWith (String c "") s = false.
Proof.
  intros Hc. unfold endsWith. cbn [String.length]. apply not_true_iff_false.
  intros [Hn%Nat.leb_le E%String.eqb_eq]%andb_true_iff. revert Hc. induction s as [|a s IH]; [cbn in Hn; lia|].
  cbn [contains_char]. intros [Ha Hs]%orb_false_iff. cbn [String.length] in *.
  destruct s as [|b s]; [cbn in E; injection E as ->; by rewrite Ascii.eqb_refl in Ha|].
  cbn [String.length] in *. replace (S (S (String.length s)) - 1)%nat with (S (S (String.length s) - 1)) in E by lia.
  apply IH; [lia|exact E|exact Hs].
Qed.

Section runs.
Context {W : Type} {L : Libssh W} {V : ServerView W} {S : Server W}.
Implicit Types c : client W.

(** A callback that gathers and never fails. *)
Definition gathers {X} (f : string → X → X) : callback (W := W) X := λ data x, mret (ErrorCode.NoError, f data x).
Lemma read_gathers {X} (f : string → X → X) chunks x c :
  readOutput (gathers f) chunks x c = ((ErrorCode.NoError, foldl (λ x data, f data x) x chunks), c).
Proof. revert x. induction chunks as [|d l IH]; intros x; [done|]. cbn [readOutput]. rewrite bind_run. apply IH. Qed.

Lemma leads_call {X} (f : W → X * W) c (Q : X → client W → Prop) :
  Q (f (world c)).1 (mkClient (m_session c) (f (world c)).2) → leads (call f) c Q.
Proof. unfold leads, call. by destruct (f (world c)). Qed.
Lemma leads_act (f : W → W) c (Q : unit → client W → Prop) : Q tt (mkClient (m_session c) (f (world c))) → leads (act f) c Q.
Proof. done. Qed.
Lemma no_error c : well (world c) → fromLibsshErrorCode c = (ErrorCode.NoError, c).
Proof. intros Hw. unfold fromLibsshErrorCode, ask. by rewrite no_error_law. Qed.

Lemma connect_leads credentials c :
  accepted credentials → well (world c) →
  leads (connectToHost credentials) c (λ e c', e = ErrorCode.NoError ∧ same (world c) (world c')).
Proof.
  intros Ha Hw. unfold connectToHost. apply leads_bind. unfold leads at 1. cbn [fst snd get].
  apply leads_bind. apply (leads_mono _ _ (λ _ c', same (world c) (world c'))).
  { destruct (_ && _); [|by apply leads_ret]. apply leads_bind, leads_act. by apply (ssh_free_law (world c)). }
  intros _ c1 [Hw1 H1]. apply leads_bind. unfold leads at 1. cbn [fst snd get].
  destruct (m_session c1); [by apply leads_ret|]. apply leads_bind, leads_call.
  destruct (ssh_new_law (world c1) Hw1) as [-> [Hw2 H2]]. cbn [negb]. apply leads_bind. unfold leads at 1. cbn [fst snd set_session modify].
  apply leads_bind, leads_call. cbn [world m_session].
  destruct (ssh_connect_law credentials _ Ha Hw2) as [-> [Hw3 H3]]. cbn [negb].
  destruct (is_key credentials); apply leads_bind, leads_call; cbn [world m_session].
  - destruct (userauth_key_law credentials _ Ha Hw3) as [-> [Hw4 H4]]. apply leads_ret. cbn [world].
    split; [done|]. split; [done|]. congruence.
  - destruct (userauth_password_law credentials _ Ha Hw3) as [-> [Hw4 H4]]. apply leads_ret. cbn [world].
    split; [done|]. split; [done|]. congruence.
Qed.

(** What a command that answers leaves. *)
Lemma execute_leads {X} command P (G : view → Prop) (f g : string → X → X) x c :
  well (world c) → (∀ w, same (world c) w → ∃ v, answers command w v P ∧ G v) →
  leads (executeCommand command (gathers f) (gathers g) x) c (λ r c',
    r.1 = ErrorCode.NoError ∧ well (world c') ∧ G (seen (world c')) ∧
    ∃ out err, r.2 = foldl (λ x data, g data x) (foldl (λ x data, f data x) x out) err ∧ P out err).
Proof.
  intros Hw Hc. unfold executeCommand. apply leads_bind, leads_call.
  destruct (channel_open_law _ Hw) as [-> Hs]. cbn [negb]. apply leads_bind, leads_call. cbn [world m_session].
  destruct (Hc _ Hs) as (v & (out & err & w' & -> & Hw' & Hv & HP) & HG). cbn [fst snd]. apply leads_pair.
  unfold leads at 1. rewrite read_gathers. cbn [fst snd]. rewrite Z.eqb_refl. cbn [negb]. apply leads_pair.
  unfold leads at 1. rewrite read_gathers. cbn [fst snd]. rewrite Z.eqb_refl. cbn [negb]. apply leads_bind.
  unfold closeChannel. apply leads_bind, leads_act. cbn [world m_session]. destruct (channel_close_law _ Hw') as [Hw2 H2].
  unfold leads at 1. rewrite no_error by done. cbn [fst snd]. apply leads_ret. cbn [fst snd world].
  split_and!; [done|done|by rewrite H2, Hv|]. eauto.
Qed.

(** A script of one line runs one command. *)
Lemma run_leads {X} credentials script v P (f g : string → X → X) x c :
  accepted credentials → well (world c) → tame script = true → script ≠ "" → startsWith "#" script = false →
  (∀ w, same (world c) w → answers script w v P) →
  leads (runScript credentials script (gathers f) (gathers g) x) c (λ r c',
    r.1 = ErrorCode.NoError ∧ well (world c') ∧ seen (world c') = v ∧
    ∃ out err, r.2 = foldl (λ x data, g data x) (foldl (λ x data, f data x) x out) err ∧ P out err).
Proof.
  intros Ha Hw Ht Hne Hs Hc. unfold runScript. apply leads_bind.
  eapply leads_mono; [by apply connect_leads|]. cbn beta. intros e c1 [-> H1]. rewrite Z.eqb_refl. cbn [negb].
  rewrite replace_none by (apply index_char_none; by apply (all_chars_contains tame_char)).
  unfold lines_of. rewrite split_char_none by by apply (all_chars_contains tame_char).
  unfold nonempty. cbn [List.filter]. rewrite (proj2 (String.eqb_neq script "") Hne). cbn [negb run_lines]. rewrite String.eqb_refl.
  unfold backslash. rewrite endsWith_char by by apply (all_chars_contains tame_char). rewrite Hs. apply leads_pair.
  eapply leads_mono; [apply (execute_leads script P (λ u, u = v)); [apply H1|]|].
  - intros w [Hw' H']. exists v. split; [|done]. apply Hc. split; [done|]. destruct H1. congruence.
  - intros [e y] c2 (He & Hr). cbn [fst snd] in *. subst e. rewrite Z.eqb_refl. by apply leads_ret.
Qed.
End runs.

(** *** Copying *)
Section copies.
Context {W : Type} {L : Libssh W} {V : ServerView W} {S : Server W}.

Lemma mid_rest (a b : string) n : mid (a +:+ b) (Z.of_nat (String.length a)) n = String.substring 0 (Z.to_nat n) b.
Proof. unfold mid. rewrite Nat2Z.id. induction a as [|x a IH]; [done|]. exact IH. Qed.
Lemma chunk_split (b : string) n : ∃ r, b = String.substring 0 n b +:+ r ∧ String.length r = (String.length b - n)%nat.
Proof.
  revert n. induction b as [|x b IH]; intros [|n]; [by exists ""|by exists ""|by exists (String x b)|].
  destruct (IH n) as (r & E & Hr). exists r. cbn [String.substring String.length]. rewrite append_String.
  split; [by f_equal|]. rewrite Hr. lia.
Qed.

(** The chunks written are the data. *)
Lemma copy_leads fuel p (done rest : string) (c : client W) :
  (String.length rest ≤ fuel)%nat → Z.of_nat (String.length done) mod bufferSize = 0 →
  well (world c) → receiving (seen (world c)) = Some (p, done) →
  leads (copy_chunks fuel (done +:+ rest) (Z.of_nat (String.length done)) bufferSize) c (λ e c',
    e = ErrorCode.NoError ∧ well (world c') ∧ seen (world c') = receive (Some (p, done +:+ rest)) (seen (world c))).
Proof.
  revert done rest c. induction fuel as [|fuel IH]; intros d rest c Hf Hm Hw Hr.
  { destruct rest; [|cbn in Hf; lia]. apply leads_ret. rewrite append_nil_r. split_and!; [reflexivity|exact Hw|].
    destruct (seen (world c)); cbn in *. by subst. }
  cbn [copy_chunks]. rewrite string_app_length. case_match eqn:Et.
  2: { apply Z.ltb_ge in Et. assert (String.length rest = 0)%nat by lia. destruct rest; [|discriminate].
       apply leads_ret. rewrite append_nil_r. split_and!; [reflexivity|exact Hw|]. destruct (seen (world c)); cbn in *. by subst. }
  set (size := Z.of_nat (String.length d + String.length rest)). unfold bufferSize in *.
  set (cur := if size - _ <? _ then _ else _). rewrite mid_rest.
  destruct (chunk_split rest (Z.to_nat cur)) as (r & E & Hl).
  assert (0 < cur ≤ Z.of_nat (String.length rest) ∧ (cur = 16384 ∨ r = "")) as [Hcur Hlast].
  { unfold cur, size in *. destruct (Z.ltb_spec (Z.of_nat (String.length d + String.length rest) - Z.of_nat (String.length d)) 16384) as [Hlt|Hge].
    - rewrite Nat2Z.inj_add, Z.add_mod, Hm, Z.add_0_l, Z.mod_mod, Z.mod_small in * by lia. split; [lia|]. right.
      assert (String.length r = 0)%nat by lia. by destruct r.
    - split; [lia|by left]. }
  set (chunk := String.substring 0 (Z.to_nat cur) rest) in *.
  assert (Z.of_nat (String.length chunk) = cur) as Hchunk.
  { pose proof (f_equal String.length E) as El. rewrite string_app_length in El. lia. }
  rewrite Hchunk, Z.eqb_refl. cbn [negb]. apply leads_bind, leads_call.
  destruct (scp_write_law chunk p d _ Hw Hr) as (-> & Hw' & Hs).
  destruct Hlast as [Hc | ->].
  - eapply leads_mono; [|].
    + replace (Z.of_nat (String.length d) + cur) with (Z.of_nat (String.length (d +:+ chunk))) by (rewrite string_app_length; lia).
      rewrite E, <- string_app_assoc, Hc.
      apply (IH (d +:+ chunk) r); cbn [world]; [lia| |exact Hw'|by rewrite Hs].
      rewrite string_app_length, Nat2Z.inj_add, Hchunk, Hc. rewrite Z.add_mod, Hm by lia. reflexivity.
    + cbn beta. intros e c' (-> & Hw2 & ->). split_and!; [reflexivity|exact Hw2|]. cbn [world]. rewrite Hs.
      rewrite string_app_assoc, <- E. reflexivity.
  - destruct fuel as [|fuel].
    + cbn [copy_chunks]. apply leads_ret. cbn [world]. rewrite Hs, E, append_nil_r. auto.
    + cbn [copy_chunks]. rewrite string_app_length. rewrite append_nil_r in E.
      assert (Z.of_nat (String.length d) + cur <? Z.of_nat (String.length d + String.length rest) = false) as ->.
      { apply Z.ltb_ge. rewrite <- Hchunk, <- E. lia. }
      apply leads_ret. cbn [world]. rewrite Hs. split_and!; [reflexivity|exact Hw'|]. by rewrite <- E.
Qed.

Lemma scp_leads p data (c : client W) :
  well (world c) →
  leads (scpFileCopy p data) c (λ e c',
    e = ErrorCode.NoError ∧ well (world c') ∧ seen (world c') = receive None (with_file p data (seen (world c)))).
Proof.
  intros Hw. unfold scpFileCopy. apply leads_bind, leads_call. destruct (scp_new_law p _ Hw) as (-> & Hw1 & H1). cbn [negb].
  apply leads_bind, leads_call. cbn [world m_session]. destruct (scp_init_law _ Hw1) as [-> [Hw2 H2]]. cbn [negb].
  apply leads_bind, leads_call. cbn [world m_session].
  destruct (scp_push_law p (Z.of_nat (String.length data)) _ Hw2) as [-> [Hw3 H3]].
  set (w3 := (scp_push_file p _ _).2) in *.
  assert (seen w3 = receive (Some (p, "")) (seen (world c))) as H13 by congruence. clear H1 H2 H3.
  apply leads_bind. eapply leads_mono; [apply (copy_leads _ p "" data); [lia|reflexivity|exact Hw3|cbn [world]; by rewrite H13]|].
  cbn beta. intros e c' (-> & Hw4 & H4). apply leads_bind, leads_act. cbn [world] in *.
  destruct (scp_free_law p data (world c') Hw4) as [Hw5 H5]; [by rewrite H4|].
  apply leads_ret. cbn [world]. split_and!; [reflexivity|exact Hw5|]. rewrite H5, H4, H13. reflexivity.
Qed.
End copies.

(** *** Uploads *)
Definition clear_host `{Libssh W} (credentials : ServerCredentials) : Prop :=
  no_dollar (cred_hostName credentials) = true ∧ no_dollar (getIPAddress (cred_hostName credentials)) = true.

Definition base_names (with_ip : bool) : list string :=
  ["$REMOTE_HOST"; "$CONTAINER_NAME"; "$DOCKERFILE_FOLDER"] ++ (if with_ip then ["$SERVER_IP_ADDRESS"] else []) ++
  ["$PRIMARY_SERVER_DNS"; "$SECONDARY_SERVER_DNS"; "$IPSEC_VPN_L2TP_NET"; "$IPSEC_VPN_L2TP_POOL"; "$IPSEC_VPN_L2TP_LOCAL";
   "$IPSEC_VPN_XAUTH_NET"; "$IPSEC_VPN_XAUTH_POOL"; "$IPSEC_VPN_SHA2_TRUNCBUG"; "$IPSEC_VPN_VPN_ANDROID_MTU_FIX";
   "$IPSEC_VPN_DISABLE_IKEV2"; "$IPSEC_VPN_DISABLE_L2TP"; "$IPSEC_VPN_DISABLE_XAUTH"; "$IPSEC_VPN_C2C_TRAFFIC"].

(** The variables of a container, with the addresses of name servers. *)
Section fill_base.
Context {W : Type} {L : Libssh W} (credentials : ServerCredentials) (c : DockerContainer) (dns1 dns2 : string).
Context (Hc : clear_host credentials) (H1 : no_dollar dns1 = true) (H2 : no_dollar dns2 = true).
Abbreviation vars := (genBaseVars getIPAddress credentials c dns1 dns2).

Lemma name_plain : plain (containerToString c) = true.
Proof. by destruct c. Qed.
Lemma base_vars_names : ∃ b, vars.*1 = base_names b.
Proof.
  unfold genBaseVars. destruct (String.eqb (if negb _ && _ && _ then _ else _ : string) ""); [by exists false|by exists true].
Qed.
Lemma base_vars_ok : Forall (λ v, dollar_word v.1 && no_dollar v.2 = true) vars.
Proof.
  destruct Hc as [Hh Hi]. unfold genBaseVars.
  assert (no_dollar (containerToString c) = true) as H3 by by destruct c.
  assert (no_dollar ("/opt/amnezia/" +:+ containerToString c) = true) as H4 by by destruct c.
  assert (∀ s d, no_dollar s = true → no_dollar d = true → no_dollar (filled s d) = true) as Hf.
  { intros s d Hs Hd. unfold filled. by destruct (String.eqb s ""). }
  rewrite !Forall_app. repeat split; [|destruct (String.eqb (if negb _ && _ && _ then _ else _ : string) "")|];
    repeat constructor; cbn [fst snd]; try assumption; try (vm_compute; reflexivity).
  - destruct (negb _ && _ && _); [exact Hi|exact Hh].
  - by apply Hf.
  - by apply Hf.
Qed.
Lemma filled_base l :
  (∀ b, Forall (λ p, piece_ok (base_names b) p = true) l) →
  replaceVars (render l) vars = String.concat "" (filled_piece vars <$> l).
Proof.
  intros Hl. destruct base_vars_names as [b Hb]. apply replaceVars_filled; [apply base_vars_ok|]. rewrite Hb. apply Hl.
Qed.
Lemma value_name : var_value vars "$CONTAINER_NAME" = containerToString c.
Proof. reflexivity. Qed.
Lemma value_other d : (∀ b, String.eqb "$CONTAINER_NAME" d = false ∧ forallb (λ v, negb (String.eqb d v)) (base_names b) = true) →
  var_value vars d = d.
Proof.
  intros H. destruct base_vars_names as [b Hb]. destruct (H b) as [_ Hd]. unfold var_value. rewrite <- Hb in Hd. clear -Hd.
  induction vars as [|v l IH]; [done|]. cbn in *. apply andb_true_iff in Hd as [Hv Hl].
  apply negb_true_iff in Hv. rewrite Hv. by apply IH.
Qed.
(** The name of the container, and then what holds no variable. *)
Lemma fill_name start rest :
  no_dollar start = true → no_dollar rest = true →
  replaceVars (start +:+ "$CONTAINER_NAME" +:+ rest) vars = start +:+ containerToString c +:+ rest.
Proof.
  intros Hs Hr. replace (start +:+ "$CONTAINER_NAME" +:+ rest) with (render [Plain start; Word "$CONTAINER_NAME"; Plain rest]) by reflexivity.
  rewrite filled_base; [reflexivity|].
  intros b. rewrite !Forall_cons. repeat split; cbn [piece_ok]; [exact Hs|destruct b; vm_compute; reflexivity|exact Hr|constructor].
Qed.
End fill_base.

Section fill.
Context {W : Type} {L : Libssh W} (credentials : ServerCredentials) (c : DockerContainer).
Context (Hc : clear_host credentials).

Lemma filled_plain l :
  (∀ b, Forall (λ p, piece_ok (base_names b) p = true) l) →
  replaceVars (render l) (base_vars credentials c) = String.concat "" (filled_piece (base_vars credentials c) <$> l).
Proof. by apply filled_base. Qed.
Lemma fill_tail rest :
  no_dollar rest = true →
  replaceVars ("sudo docker exec -i $CONTAINER_NAME" +:+ rest) (base_vars credentials c) =
  "sudo docker exec -i " +:+ containerToString c +:+ rest.
Proof. intros Hr. by apply (fill_name credentials c "" "" Hc eq_refl eq_refl "sudo docker exec -i " rest). Qed.

Lemma no_dollar_app a b : no_dollar a = true → no_dollar b = true → no_dollar (a +:+ b) = true.
Proof. unfold no_dollar. rewrite contains_char_app, !negb_true_iff. by intros -> ->. Qed.
Lemma fill_cp tmp p :
  plain tmp = true → plain p = true →
  replaceVars (cp_script tmp p) (base_vars credentials c) = "sudo docker cp " +:+ tmp +:+ " " +:+ containerToString c +:+ ":/" +:+ p.
Proof.
  intros Ht%plain_no_dollar Hp%plain_no_dollar.
  assert (no_dollar ("sudo docker cp " +:+ tmp +:+ " ") = true ∧ no_dollar (":/" +:+ p) = true) as [H1 H2]
    by (split; repeat apply no_dollar_app; done).
  pose proof (fill_name credentials c "" "" Hc eq_refl eq_refl _ _ H1 H2) as H. rewrite !string_app_assoc in H. exact H.
Qed.
Lemma fill_append tmp p :
  plain tmp = true → plain p = true →
  replaceVars (append_script tmp p) (base_vars credentials c) =
  "sudo docker exec -i " +:+ containerToString c +:+ " sh -c " +:+ quoted ("cat " +:+ tmp +:+ " >> " +:+ p).
Proof.
  intros Ht%plain_no_dollar Hp%plain_no_dollar. apply (fill_tail (" sh -c " +:+ quoted ("cat " +:+ tmp +:+ " >> " +:+ p))).
  unfold quoted. by repeat apply no_dollar_app.
Qed.
Lemma fill_shred tmp :
  plain tmp = true → replaceVars (shred_script tmp) (base_vars credentials c) = shred_script tmp.
Proof.
  intros Ht. replace (shred_script tmp) with (render [Plain (shred_script tmp)]) at 1 by reflexivity.
  rewrite filled_plain; [reflexivity|]. intros b. repeat constructor; cbn [piece_ok].
  unfold no_dollar, shred_script in *. rewrite contains_char_app. apply plain_no_dollar, negb_true_iff in Ht. rewrite Ht. reflexivity.
Qed.
Lemma fill_mkdir p :
  plain p = true →
  replaceVars (mkdir_script p) (base_vars credentials c) =
  "sudo docker exec -i " +:+ containerToString c +:+ " mkdir -p  " +:+ quoted ("$(dirname " +:+ p +:+ ")").
Proof.
  intros Hp. set (w := "$(dirname " +:+ p +:+ ")" +:+ dquote).
  assert (contains_char dollar p = false) as Hd by by apply negb_true_iff, plain_no_dollar.
  assert (dollar_word w = true) as Hw.
  { unfold w. change ("$(dirname " +:+ p +:+ ")" +:+ dquote) with (String dollar ("(dirname " +:+ p +:+ ")" +:+ dquote)).
    cbn [dollar_word]. rewrite !contains_char_app, Hd. reflexivity. }
  replace (mkdir_script p) with (render [Plain "sudo docker exec -i "; Word "$CONTAINER_NAME"; Plain (" mkdir -p  " +:+ dquote); Word w]).
  2: { unfold render, mkdir_script, quoted, w. cbn [fmap list_fmap piece_text String.concat]. by rewrite !string_app_assoc. }
  rewrite filled_plain.
  - cbn [fmap list_fmap filled_piece String.concat]. unfold base_vars. rewrite (value_name credentials c "" ""), (value_other credentials c "" "").
    + unfold quoted, w. by rewrite !append_nil_l, !string_app_assoc.
    + intros b. unfold w. split; [reflexivity|destruct b; reflexivity].
  - intros b. rewrite !Forall_cons. repeat split; cbn [piece_ok].
    + destruct b; vm_compute; reflexivity.
    + rewrite Hw. unfold w. destruct b; reflexivity.
    + constructor.
Qed.
End fill.

(** What is gathered line by line holds what one of its lines holds. *)
Definition text_of (out : list string) : string := String.concat "" ((λ d, d +:+ nl) <$> out).
Lemma prefix_line sub a b : contains_nl sub = false → String.prefix sub (a +:+ nl +:+ b) = String.prefix sub a.
Proof.
  revert a. induction sub as [|s sub IH]; intros a; [by destruct a as [|x a]; [|rewrite append_String]|]. cbn [contains_nl contains_char].
  intros [Hs Hsub]%orb_false_iff. apply Ascii.eqb_neq in Hs. destruct a as [|x a].
  - change ("" +:+ nl +:+ b) with (String newline b). cbn. destruct (Ascii.ascii_dec s newline); [congruence|done].
  - rewrite append_String. cbn. destruct (Ascii.ascii_dec s x); [by apply IH|done].
Qed.
Lemma contains_str_cons sub ch s :
  sub ≠ "" → contains_str sub (String ch s) = String.prefix sub (String ch s) || contains_str sub s.
Proof.
  intros Hs. unfold contains_str. cbn [String.index]. destruct (String.prefix _ _); [by destruct sub|].
  by destruct (String.index 0 sub s).
Qed.
Lemma contains_str_line sub a b :
  sub ≠ "" → contains_nl sub = false → contains_str sub (a +:+ nl +:+ b) = contains_str sub a || contains_str sub b.
Proof.
  intros Hs Hn. induction a as [|x a IH].
  - rewrite append_nil_l. change (nl +:+ b) with (String newline b). rewrite contains_str_cons by done.
    pose proof (prefix_line sub "" b Hn) as Hp. change ("" +:+ nl +:+ b) with (String newline b) in Hp. rewrite Hp.
    by destruct sub.
  - pose proof (prefix_line sub (String x a) b Hn) as Hp. rewrite append_String in *. rewrite !contains_str_cons, IH, Hp by done.
    by rewrite orb_assoc.
Qed.
Lemma text_no_such out : contains_str "No such container" (text_of out) = no_such out.
Proof.
  induction out as [|d out IH]; [done|]. unfold text_of in *. rewrite fmap_cons, concat_empty_cons, string_app_assoc.
  rewrite contains_str_line by done. by rewrite IH.
Qed.
Lemma text_of_app l k : text_of (l ++ k) = text_of l +:+ text_of k.
Proof. unfold text_of. by rewrite fmap_app, concat_empty_app. Qed.
Lemma gather_text out x : foldl (λ x d, x +:+ d +:+ nl) x out = x +:+ text_of out.
Proof.
  revert x. induction out as [|d out IH]; intros x; [by rewrite append_nil_r|]. cbn [foldl]. rewrite IH.
  unfold text_of. rewrite fmap_cons, concat_empty_cons. by rewrite !string_app_assoc.
Qed.
Lemma gather_chunks out x : foldl (λ x d, x +:+ d) x out = x +:+ String.concat "" out.
Proof.
  revert x. induction out as [|d out IH]; intros x; [by rewrite append_nil_r|]. cbn [foldl]. rewrite IH.
  by rewrite concat_empty_cons, string_app_assoc.
Qed.

(** What an upload makes of the files. *)
Definition stored (mode : ScpOverwriteMode) (name path tmp data : string) (v : view) : view :=
  let v := receive None (with_file tmp data v) in
  without_file tmp
    match mode with
    | ScpOverwriteExisting => with_box name path data v
    | ScpAppendToExisting =>
        let v := with_box name tmp data v in with_box name path (box v name path +:+ data) v
    end.

Ltac tame_script := unfold tame, quoted, dquote in *; rewrite ?all_chars_app; by repeat
  match goal with H : all_chars tame_char _ = true |- _ => rewrite H; clear H end.

Section uploads.
Context {W : Type} {L : Libssh W} {V : ServerView W} {Sv : Server W}.
Context (credentials : ServerCredentials) (c : DockerContainer).
Context (Ha : accepted credentials) (Hc : clear_host credentials).
Abbreviation name := (containerToString c).
Abbreviation vars := (base_vars credentials c).


(** A command, for its effect. *)
Lemma run_effect script v (x : client W) :
  tame script = true → script ≠ "" → startsWith "#" script = false → well (world x) →
  (∀ w, same (world x) w → answers script w v quiet) →
  leads (run credentials script) x (λ e x', e = ErrorCode.NoError ∧ well (world x') ∧ seen (world x') = v).
Proof.
  intros Ht Hne Hs Hw Hans. unfold run. apply leads_pair.
  eapply leads_mono; [apply (run_leads credentials script v quiet (λ _ x, x) (λ _ x, x)); done|].
  intros [e y] x' (He & Hw' & Hv & _). cbn [fst snd] in *. by apply leads_ret.
Qed.

(** Commands one after the other, for what they leave. *)
Fixpoint reaches (commands : list string) (v : view) (G : view → Prop) : Prop :=
  match commands with
  | [] => G v
  | command :: commands => ∀ w, well w → seen w = v → ∃ u, answers command w u quiet ∧ reaches commands u G
  end.
Definition tame_command (command : string) : Prop := tame command = true ∧ command ≠ "" ∧ startsWith "#" command = false.
Lemma lines_concat commands :
  Forall tame_command commands →
  nonempty (lines_of (replace_str carriage_return "" (String.concat nl commands))) = commands.
Proof.
  intros H. rewrite replace_none.
  - induction H as [|a commands (Ht & Hne & _) _ IH]; [done|].
    assert (contains_nl a = false) as Hn by by apply (all_chars_contains tame_char).
    destruct commands as [|b commands].
    { cbn [String.concat]. unfold lines_of. rewrite split_char_none by done. unfold nonempty. cbn [List.filter].
      by rewrite (proj2 (String.eqb_neq a "") Hne). }
    change (String.concat nl (a :: b :: commands)) with (a +:+ nl +:+ String.concat nl (b :: commands)).
    rewrite lines_of_line by done. unfold nonempty in *. cbn [List.filter]. rewrite (proj2 (String.eqb_neq a "") Hne). cbn [negb]. by rewrite IH.
  - apply index_char_none. induction H as [|a commands (Ht & _ & _) _ IH]; [done|].
    assert (contains_char (Ascii.ascii_of_nat 13) a = false) as Hn by by apply (all_chars_contains tame_char).
    destruct commands as [|b commands]; [done|].
    change (String.concat nl (a :: b :: commands)) with (a +:+ nl +:+ String.concat nl (b :: commands)).
    by rewrite !contains_char_app, Hn, IH.
Qed.
Lemma run_all commands G (x : client W) :
  Forall tame_command commands → well (world x) → reaches commands (seen (world x)) G →
  leads (run credentials (String.concat nl commands)) x (λ e x', e = ErrorCode.NoError ∧ well (world x') ∧ G (seen (world x'))).
Proof.
  intros Hcmd Hw Hr. unfold run, runScript. apply leads_pair, leads_bind. eapply leads_mono; [by apply connect_leads|].
  cbn beta. intros e x1 [-> [Hw1 H1]]. rewrite Z.eqb_refl. cbn [negb]. rewrite lines_concat by done. rewrite <- H1 in Hr. clear Hw H1 x.
  revert x1 Hw1 Hr. induction Hcmd as [|a commands (Ht & Hne & Hs) _ IH]; intros x Hw Hr.
  { cbn in Hr. by do 2 apply leads_ret. }
  cbn [reaches] in Hr. cbn [run_lines]. rewrite String.eqb_refl. unfold backslash.
  rewrite endsWith_char by by apply (all_chars_contains tame_char). rewrite Hs. apply leads_pair.
  eapply leads_mono; [apply (execute_leads a quiet (λ u, reaches commands u G) (λ _ x, x) (λ _ x, x)); [exact Hw|]|].
  - intros w [Hw' H']. by apply Hr.
  - intros [e y] x2 (He & Hw2 & Hu & _). cbn [fst snd] in *. subst e. rewrite Z.eqb_refl. cbn [negb]. destruct y. by apply IH.
Qed.

(** A command, for what it says too. *)
Lemma run_says script v s (x : client W) :
  tame script = true → script ≠ "" → startsWith "#" script = false → well (world x) →
  (∀ w, same (world x) w → answers script w v quiet) →
  leads (runScript credentials script gather_lines gather_lines s) x (λ r x',
    ∃ out, r = (ErrorCode.NoError, s +:+ text_of out) ∧ no_such out = false ∧ well (world x') ∧ seen (world x') = v).
Proof.
  intros Ht Hne Hs Hw Hans.
  eapply leads_mono; [apply (run_leads credentials script v quiet (λ d x, x +:+ d +:+ nl) (λ d x, x +:+ d +:+ nl)); done|].
  intros [e y] x' (He & Hw' & Hv & out & err & Hy & Hn). cbn [fst snd] in *. subst e y v. exists (out ++ err).
  rewrite !gather_text, text_of_app, string_app_assoc. auto.
Qed.

Lemma cp_leads tmp path d s (x : client W) :
  plain tmp = true → plain path = true → startsWith "/" path = true → well (world x) → hosts (seen (world x)) !! tmp = Some d →
  leads (runScript credentials (replaceVars (cp_script tmp path) vars) gather_lines gather_lines s) x (λ r x',
    ∃ out, r = (ErrorCode.NoError, s +:+ text_of out) ∧ no_such out = false ∧ well (world x') ∧
      seen (world x') = with_box name path d (seen (world x))).
Proof.
  intros Ht Hp Hs Hw Hd. pose proof (name_plain c) as Hn. rewrite fill_cp by done.
  apply run_says; [|done..|].
  - apply plain_tame in Ht, Hp, Hn. tame_script.
  - intros w [Hw' E]. rewrite <- E in *. by apply cp_law.
Qed.

Lemma put_leads mode tmp path d (x : client W) :
  plain tmp = true → startsWith "/" tmp = true → plain path = true → startsWith "/" path = true → well (world x) →
  hosts (seen (world x)) !! tmp = Some d →
  leads (put c credentials mode tmp path) x (λ r x',
    ∃ out, r = (ErrorCode.NoError, text_of out) ∧ no_such out = false ∧ well (world x') ∧
      seen (world x') =
      match mode with
      | ScpOverwriteExisting => with_box name path d (seen (world x))
      | ScpAppendToExisting =>
          let v := with_box name tmp d (seen (world x)) in with_box name path (box v name path +:+ d) v
      end).
Proof.
  intros Ht Hts Hp Hs Hw Hd. unfold put. destruct mode; [by apply (cp_leads tmp path d "")|].
  apply leads_pair. eapply leads_mono; [by apply (cp_leads tmp tmp d "")|].
  intros r x1 (out & -> & Hn & Hw1 & H1). cbn [fst snd]. rewrite Z.eqb_refl. cbn [negb]. rewrite fill_append by done.
  eapply leads_mono; [apply (run_says _ (with_box name path (box (seen (world x1)) name path +:+ d) (seen (world x1))))|].
  - pose proof (name_plain c) as Hnm. apply plain_tame in Ht, Hp, Hnm. tame_script.
  - done.
  - done.
  - exact Hw1.
  - intros w [Hw' E]. rewrite <- E. apply append_law; [apply name_plain|done..|]. rewrite E, H1. cbn. by rewrite lookup_insert_eq.
  - intros r x2 (out2 & -> & Hn2 & Hw2 & H2). exists (out ++ out2). rewrite text_of_app, append_nil_l.
    split_and!; [done| |exact Hw2|by rewrite H2, H1]. unfold no_such in *. by rewrite existsb_app, Hn, Hn2.
Qed.
End uploads.

Section files.
Context {W : Type} {L : Libssh W} {V : ServerView W} {Sv : Server W}.
Context (credentials : ServerCredentials) (c : DockerContainer).
Context (Ha : accepted credentials) (Hc : clear_host credentials).
Abbreviation name := (containerToString c).

Lemma host_leads data p (x : client W) :
  well (world x) →
  leads (uploadFileToHost credentials data p) x (λ e x',
    e = ErrorCode.NoError ∧ well (world x') ∧ seen (world x') = receive None (with_file p data (seen (world x)))).
Proof.
  intros Hw. unfold uploadFileToHost. apply leads_bind. eapply leads_mono; [by apply connect_leads|].
  cbn beta. intros e x1 (-> & Hw1 & H1). rewrite Z.eqb_refl. cbn [negb]. rewrite <- H1. by apply scp_leads.
Qed.

Lemma leads_return (m k : stM (client W) Z) x (Q : Z → client W → Prop) :
  leads m x (λ e x', e = ErrorCode.NoError ∧ leads k x' Q) → leads (or_return m k) x Q.
Proof.
  intros H. unfold or_return. apply leads_bind. eapply leads_mono; [exact H|]. cbn beta. intros e x' (-> & Hk).
  by rewrite Z.eqb_refl.
Qed.

Lemma upload_leads mode path file (x : client W) :
  plain path = true → startsWith "/" path = true → well (world x) →
  leads (uploadTextFileToContainer c credentials file path mode) x (λ e x',
    e = ErrorCode.NoError ∧ well (world x') ∧
    ∃ tmp, startsWith "/tmp/" tmp = true ∧ seen (world x') = stored mode name path tmp file (seen (world x))).
Proof.
  intros Hp Hs Hw. unfold uploadTextFileToContainer. apply leads_bind, leads_call.
  destruct (random_law _ Hw) as [Hr [Hw1 H1]]. set (tmp := "/tmp/" +:+ _ +:+ ".tmp"). 
  assert (plain tmp = true) as Ht.
  { unfold tmp, plain in *. fold (all_chars plain_char (getRandomString (world x)).1) in Hr.
    fold (all_chars plain_char ("/tmp/" +:+ (getRandomString (world x)).1 +:+ ".tmp")). by rewrite !all_chars_app, Hr. }
  pose proof (name_plain c) as Hn.
  apply leads_return. eapply leads_mono; [by apply host_leads|]. cbn beta. intros e x2 (-> & Hw2 & H2). split; [done|].
  cbn [world] in H2. rewrite H1 in H2. apply leads_return. rewrite fill_mkdir by done.
  eapply leads_mono; [apply (run_effect credentials Ha _ (seen (world x2)));
    [apply plain_tame in Hp, Hn; tame_script|done|done|exact Hw2|intros w [Hw' <-]; by apply mkdir_law]|].
  cbn beta. intros e x3 (-> & Hw3 & H3). split; [done|]. unfold or_else. apply leads_pair.
  eapply leads_mono; [apply (put_leads credentials c Ha Hc mode tmp path file);
    [done|done|done|done|exact Hw3|rewrite H3, H2; cbn; by rewrite lookup_insert_eq]|].
  cbn beta. intros r x4 (out & -> & Hno & Hw4 & H4). cbn [fst snd]. rewrite Z.eqb_refl. cbn [negb].
  rewrite text_no_such, Hno, andb_false_r. rewrite fill_shred by done. apply leads_bind.
  eapply leads_mono; [apply (run_effect credentials Ha _ (without_file tmp (seen (world x4))));
    [apply plain_tame in Ht; unfold shred_script; tame_script|done|done|exact Hw4|intros w [Hw' <-]; by apply shred_law]|].
  cbn beta. intros e x5 (-> & Hw5 & H5). apply leads_ret. split_and!; [done|exact Hw5|]. exists tmp.
  split; [apply prefix_self|]. rewrite H5, H4, H3, H2. reflexivity.
Qed.

Lemma get_leads path d (x : client W) :
  plain path = true → well (world x) → boxes (seen (world x)) !! (name, path) = Some d →
  leads (getTextFileFromContainer c credentials path) x (λ r x',
    r = (d, ErrorCode.NoError) ∧ well (world x') ∧ seen (world x') = seen (world x)).
Proof.
  intros Hp Hw Hd. unfold getTextFileFromContainer. apply leads_pair. pose proof (name_plain c) as Hn.
  eapply leads_mono; [apply (run_leads credentials _ (seen (world x)) (λ out _, fromHex (String.concat "" out) = d)
    (λ d x, x +:+ d) (λ _ x, x)); [exact Ha|exact Hw| | | |]|].
  - apply plain_tame in Hp, Hn. unfold xxd_script. tame_script.
  - done.
  - done.
  - intros w [Hw' E]. rewrite <- E in Hd |- *. by apply xxd_law.
  - intros [e y] x' (He & Hw' & Hv & out & err & Hy & Hout). cbn [fst snd] in *. subst e y. apply leads_ret.
    rewrite gather_chunks. assert (∀ s, foldl (λ x (_ : string), x) s err = s) as -> by by induction err.
    by rewrite append_nil_l, Hout.
Qed.

(** C24. A file uploaded into a container is what is read from it afterwards: in
    place of the file that was there, or after it.  The temporary copy on the
    server is gone; appending leaves one in the container.  No other file is
    touched. *)
Theorem container_files mode path file (x : client W) :
  plain path = true → startsWith "/" path = true → well (world x) →
  ∃ tmp, startsWith "/tmp/" tmp = true ∧
    let '(e, x1) := uploadTextFileToContainer c credentials file path mode x in
    let '((text, e2), x2) := getTextFileFromContainer c credentials path x1 in
    e = ErrorCode.NoError ∧ e2 = ErrorCode.NoError ∧
    seen (world x1) = stored mode name path tmp file (seen (world x)) ∧ seen (world x2) = seen (world x1) ∧
    (path ≠ tmp → text = match mode with
                         | ScpOverwriteExisting => file
                         | ScpAppendToExisting => box (seen (world x)) name path +:+ file
                         end).
Proof.
  intros Hp Hs Hw. destruct (upload_leads mode path file x Hp Hs Hw) as (He & Hw1 & tmp & Htmp & H1). exists tmp. split; [done|].
  destruct (uploadTextFileToContainer c credentials file path mode x) as [e x1]. cbn [fst snd] in *. subst e.
  assert (∃ d, boxes (seen (world x1)) !! (name, path) = Some d ∧
    (path ≠ tmp → d = match mode with ScpOverwriteExisting => file | ScpAppendToExisting => box (seen (world x)) name path +:+ file end))
    as (d & Hd & Ht).
  { rewrite H1. destruct mode; cbn; rewrite lookup_insert_eq; eexists; (split; [reflexivity|]); [done|].
    intros Hne. unfold box. cbn. rewrite lookup_insert_ne by congruence. reflexivity. }
  destruct (get_leads path d x1 Hp Hw1 Hd) as (Hr & _ & H2). 
  destruct (getTextFileFromContainer c credentials path x1) as [[text e2] x2]. cbn [fst snd] in *. injection Hr as -> ->.
  auto.
Qed.
End files.

(** *** A server *)
Module shelf.
Record server := mkServer { arriving : option (string * string); files : gmap string string; stores : gmap (string * string) string;
  running : gmap string string; names : nat }.

Definition hex_of (c : Ascii.ascii) : string :=
  let n := Ascii.nat_of_ascii c in
  let digit d := Ascii.ascii_of_nat (if (d <? 10)%nat then 48 + d else 87 + d)%nat in
  String (digit (n / 16)%nat) (String (digit (n mod 16)%nat) "").
Fixpoint hex (s : string) : string := match s with String c s => hex_of c +:+ hex s | _ => "" end.
Definition digit_of (c : Ascii.ascii) : nat :=
  let n := Ascii.nat_of_ascii c in if (n <? 58)%nat then (n - 48)%nat else (n - 87)%nat.
Fixpoint unhex (s : string) : string :=
  match s with
  | String a (String b s) => String (Ascii.ascii_of_nat (16 * digit_of a + digit_of b)) (unhex s)
  | _ => ""
  end.

Definition drop_last (n : nat) (s : string) : string := String.substring 0 (String.length s - n) s.
Definition space : Ascii.ascii := Ascii.ascii_of_nat 32.

(** What the shell of the server makes of the words of a command. *)
Definition exec (command : string) (w : server) : option (list string * list string) * server :=
  let said := Some ([], []) in
  match split_char space command with
  | [_; what; _; arg] =>
      if String.eqb what "shred" then (said, mkServer (arriving w) (delete arg (files w)) (stores w) (running w) (names w))
      else (said, mkServer (arriving w) (files w) (stores w) (<[arg := default "" (stores w !! (arg, xray_config_path))]> (running w)) (names w))
  | [_; _; _; tmp; place] =>
      match split_char (Ascii.ascii_of_nat 58) place, files w !! tmp with
      | [name; String _ path], Some d => (said, mkServer (arriving w) (files w) (<[(name, path) := d]> (stores w)) (running w) (names w))
      | _, _ => (Some ([], ["Error: No such container"]), w)
      end
  | [_; _; _; _; name; what; _; _; _; arg] =>
      if String.eqb what "mkdir" || String.eqb what "bash" then (said, w)
      else match stores w !! (name, drop_last 2 (String.substring 1 (String.length arg) arg)) with
           | Some d => (Some ([hex d], []), w)
           | None => (Some ([], ["xxd: No such file or directory"]), w)
           end
  | [_; _; _; _; name; _; _; _; tmp; _; arg] =>
      let path := drop_last 1 arg in
      (said, mkServer (arriving w) (files w)
         (<[(name, path) := default "" (stores w !! (name, path)) +:+ default "" (stores w !! (name, tmp))]> (stores w)) (running w) (names w))
  | [_; _; _; _; name; what; file; _] =>
      if String.eqb what "rm" then (said, mkServer (arriving w) (files w) (delete (name, file) (stores w)) (running w) (names w))
      else match split_char space (default "" (stores w !! (name, file))) with
           | [_; p; _; _; _] => (Some ([lines_text (grep "AllowedIPs" (default "" (stores w !! (name, p))))], []), w)
           | _ => (said, w)
           end
  | [_; _; _; _; name; _; _; _; _; _; _; _; arg] =>
      (said, mkServer (arriving w) (files w) (stores w) (<[name := default "" (stores w !! (name, drop_last 2 arg))]> (running w)) (names w))
  | [_; _; _; _; name; _; _; _; _; _; _; _; path; arg] =>
      let imported := "/opt/amnezia/openvpn/pki/reqs/" +:+ drop_last 1 arg +:+ ".req" in
      (said, mkServer (arriving w) (files w) (<[(name, imported) := default "" (stores w !! (name, path))]> (stores w)) (running w) (names w))
  | [_; _; _; _; name; _; _; _; _; _; _; _; _; _; _; arg] =>
      let id := drop_last 1 arg in
      let req := default "" (stores w !! (name, "/opt/amnezia/openvpn/pki/reqs/" +:+ id +:+ ".req")) in
      (said, mkServer (arriving w) (files w) (<[(name, "/opt/amnezia/openvpn/pki/issued/" +:+ id +:+ ".crt") := "signed " +:+ req]> (stores w))
               (running w) (names w))
  | _ => (None, w)
  end.

Definition fresh (n : nat) : string := Nat.iter n (String (Ascii.ascii_of_nat 97)) "name".
Definition right (credentials : ServerCredentials) (w : server) : bool * server :=
  (String.eqb (secretData credentials) "secret", w).
#[export] Instance libssh : Libssh server := {
  ssh_new w := (true, w); ssh_free w := w; ssh_is_connected _ := true; ssh_connect _ w := (true, w); ssh_disconnect w := w;
  userauth_key := right; userauth_password := right; ssh_get_error_code _ := 0; ssh_get_error _ := "";
  channel_open w := (true, w); channel_exec := exec; channel_close w := w; channel_write _ w := w;
  scp_new p w := (true, mkServer (Some (p, "")) (files w) (stores w) (running w) (names w)); scp_init w := (true, w);
  scp_push_file _ _ w := (true, w);
  scp_write s w := (true, mkServer ((λ '(p, d), (p, d +:+ s)) <$> arriving w) (files w) (stores w) (running w) (names w));
  scp_free w := mkServer None (match arriving w with Some (p, d) => <[p := d]> (files w) | None => files w end) (stores w) (running w) (names w);
  getRandomString w := (fresh (names w), mkServer (arriving w) (files w) (stores w) (running w) (S (names w)));
  fromHex := unhex; getIPAddress h := h;
}.
#[export] Instance server_view : ServerView server := {
  accepted credentials := secretData credentials = "secret"; well _ := True;
  seen w := mkView (arriving w) (files w) (stores w) (running w);
}.

Lemma unhex_hex s : unhex (hex s) = s.
Proof.
  induction s as [|c s IH]; [done|]. cbn [hex]. unfold hex_of. rewrite !append_String, append_nil_l. cbn [unhex]. rewrite IH.
  f_equal. destruct c as [[] [] [] [] [] [] [] []]; vm_compute; reflexivity.
Qed.
Lemma split_app c a b : split_char c (a +:+ String c b) = split_char c a ++ split_char c b.
Proof.
  induction a as [|x a IH]; [rewrite append_nil_l; cbn [split_char]; by rewrite Ascii.eqb_refl|]. rewrite append_String. cbn [split_char]. rewrite IH.
  pose proof (split_char_nonempty c a). destruct (Ascii.eqb _ _); [done|]. by destruct (split_char c a).
Qed.
Lemma plain_no c s : plain_char c = false → plain s = true → contains_char c s = false.
Proof. apply all_chars_contains. Qed.
Lemma split_plain c s : plain_char c = false → plain s = true → split_char c s = [s].
Proof. intros Hc Hs. by apply split_char_none, plain_no. Qed.
Lemma substring_prefix a b : String.substring 0 (String.length a) (a +:+ b) = a.
Proof. induction a as [|x a IH]; [by destruct b|]. rewrite append_String. cbn. by rewrite IH. Qed.
Lemma drop_last_app a b : drop_last (String.length b) (a +:+ b) = a.
Proof. unfold drop_last. rewrite string_app_length, Nat.add_sub. apply substring_prefix. Qed.
Lemma fresh_plain n : plain (fresh n) = true.
Proof. by induction n. Qed.

(** The words of the commands. *)
Abbreviation sp s := (String space s).
Lemma word_split a b : plain a = true → split_char space (a +:+ sp b) = a :: split_char space b.
Proof. intros Ha. rewrite split_app, split_plain by done. reflexivity. Qed.
Lemma words_shred tmp : plain tmp = true → split_char space ("sudo shred -u " +:+ tmp) = ["sudo"; "shred"; "-u"; tmp].
Proof.
  intros Ht. change ("sudo shred -u " +:+ tmp) with ("sudo" +:+ sp ("shred" +:+ sp ("-u" +:+ sp tmp))).
  by rewrite !word_split, split_plain.
Qed.
Lemma words_cp tmp name p :
  plain name = true → plain tmp = true → plain p = true →
  split_char space ("sudo docker cp " +:+ tmp +:+ " " +:+ name +:+ ":/" +:+ p) = ["sudo"; "docker"; "cp"; tmp; name +:+ ":/" +:+ p].
Proof.
  intros Hn Ht Hp. change (" " +:+ name +:+ ":/" +:+ p) with (sp (name +:+ ":/" +:+ p)).
  set (s := tmp +:+ _). change ("sudo docker cp " +:+ s) with ("sudo" +:+ sp ("docker" +:+ sp ("cp" +:+ sp s))). unfold s.
  rewrite !word_split by done. rewrite split_char_none; [done|]. by rewrite !contains_char_app, (plain_no _ name), (plain_no _ p).
Qed.
Lemma words_mkdir name p :
  plain name = true → plain p = true →
  split_char space ("sudo docker exec -i " +:+ name +:+ " mkdir -p  " +:+ quoted ("$(dirname " +:+ p +:+ ")")) =
  ["sudo"; "docker"; "exec"; "-i"; name; "mkdir"; "-p"; ""; dquote +:+ "$(dirname"; p +:+ ")" +:+ dquote].
Proof.
  intros Hn Hp. unfold quoted. rewrite !string_app_assoc. set (t := p +:+ ")" +:+ dquote).
  set (r := " mkdir -p  " +:+ _). change ("sudo docker exec -i " +:+ name +:+ r)
    with ("sudo" +:+ sp ("docker" +:+ sp ("exec" +:+ sp ("-i" +:+ sp (name +:+ r))))).
  unfold r. change (" mkdir -p  " +:+ dquote +:+ "$(dirname " +:+ t)
    with (sp ("mkdir" +:+ sp ("-p" +:+ sp ("" +:+ sp ((dquote +:+ "$(dirname") +:+ sp t))))).
  rewrite !word_split by done. rewrite split_app. rewrite (split_char_none _ t); [reflexivity|].
  unfold t. by rewrite !contains_char_app, (plain_no _ p).
Qed.
Lemma words_append name tmp p :
  plain name = true → plain tmp = true → plain p = true →
  split_char space ("sudo docker exec -i " +:+ name +:+ " sh -c " +:+ quoted ("cat " +:+ tmp +:+ " >> " +:+ p)) =
  ["sudo"; "docker"; "exec"; "-i"; name; "sh"; "-c"; dquote +:+ "cat"; tmp; ">>"; p +:+ dquote].
Proof.
  intros Hn Ht Hp. unfold quoted. rewrite !string_app_assoc. set (t := p +:+ dquote).
  set (r := " sh -c " +:+ _). change ("sudo docker exec -i " +:+ name +:+ r)
    with ("sudo" +:+ sp ("docker" +:+ sp ("exec" +:+ sp ("-i" +:+ sp (name +:+ r))))).
  unfold r. change (" >> " +:+ t) with (sp (">>" +:+ sp t)). set (u := tmp +:+ _).
  change (" sh -c " +:+ dquote +:+ "cat " +:+ u) with (sp ("sh" +:+ sp ("-c" +:+ sp ((dquote +:+ "cat") +:+ sp u)))). unfold u.
  rewrite !word_split by done. rewrite split_app, !word_split by done. rewrite (split_char_none _ t); [reflexivity|].
  unfold t. by rewrite !contains_char_app, (plain_no _ p).
Qed.
Lemma words_xxd name p :
  plain name = true → plain p = true →
  split_char space ("sudo docker exec -i " +:+ name +:+ " sh -c " +:+ quoted ("xxd -p '" +:+ p +:+ "'")) =
  ["sudo"; "docker"; "exec"; "-i"; name; "sh"; "-c"; dquote +:+ "xxd"; "-p"; "'" +:+ p +:+ "'" +:+ dquote].
Proof.
  intros Hn Hp. unfold quoted. rewrite !string_app_assoc. set (t := p +:+ "'" +:+ dquote).
  set (r := " sh -c " +:+ _). change ("sudo docker exec -i " +:+ name +:+ r)
    with ("sudo" +:+ sp ("docker" +:+ sp ("exec" +:+ sp ("-i" +:+ sp (name +:+ r))))).
  unfold r. change (" sh -c " +:+ dquote +:+ "xxd -p '" +:+ t)
    with (sp ("sh" +:+ sp ("-c" +:+ sp ((dquote +:+ "xxd") +:+ sp ("-p" +:+ sp ("'" +:+ t)))))).
  rewrite !word_split by done. rewrite split_app, word_split by done. rewrite (split_char_none _ ("'" +:+ t)); [reflexivity|].
  unfold t. by rewrite !contains_char_app, (plain_no _ p).
Qed.

#[export] Instance serves : Server server.
Proof.
  split; try done.
  - intros cred w E _. cbn in *. by rewrite E.
  - intros cred w E _. cbn in *. by rewrite E.
  - intros w _. split; [apply fresh_plain|done].
  - intros s p d w _ H. cbn in *. by rewrite H.
  - intros p d w _ H. cbn in *. by rewrite H.
  - intros name p w Hn Hp _. eexists _, _, _. cbn. unfold exec. by rewrite words_mkdir.
  - intros tmp name p d w Hn Ht Hp Hs _ Hd. cbn in Hd. eexists _, _, _. change (channel_exec ?c ?w) with (exec c w). unfold exec. rewrite words_cp by done.
    change (":/" +:+ p) with (String (Ascii.ascii_of_nat 58) ("/" +:+ p)). rewrite split_app, split_plain by done.
    rewrite split_char_none by by rewrite contains_char_app, (plain_no _ p). change ("/" +:+ p) with (String (Ascii.ascii_of_nat 47) p).
    cbn [app]. rewrite Hd. by split.
  - intros tmp name p d w Hn Ht Hp _ Hd. cbn in Hd. eexists _, _, _. change (channel_exec ?c ?w) with (exec c w). unfold exec. rewrite words_append by done.
    assert (drop_last 1 (p +:+ dquote) = p) as -> by exact (drop_last_app p dquote). cbn. rewrite Hd. by split.
  - intros tmp w Ht _. eexists _, _, _. change (channel_exec ?c ?w) with (exec c w). unfold exec. rewrite words_shred by done. by split.
  - intros name p d w Hn Hp _ Hd. cbn in Hd. eexists _, _, _. change (channel_exec ?c ?w) with (exec c w). unfold exec. rewrite words_xxd by done. cbn [String.eqb].
    assert (drop_last 2 (String.substring 1 (String.length ("'" +:+ p +:+ "'" +:+ dquote)) ("'" +:+ p +:+ "'" +:+ dquote)) = p) as ->.
    { change ("'" +:+ p +:+ "'" +:+ dquote) with (String (Ascii.ascii_of_nat 39) (p +:+ "'" +:+ dquote)).
      set (r := p +:+ "'" +:+ dquote). cbn [String.substring].
      pose proof (substring_rest "" r (String.length (String (Ascii.ascii_of_nat 39) r)) ltac:(cbn [String.length]; lia)) as E.
      cbn [String.length] in E. rewrite !append_nil_l in E. cbn [String.length]. rewrite E. apply (drop_last_app p ("'" +:+ dquote)). }
    cbn. rewrite Hd. split; [reflexivity|]. split_and!; [done..|]. cbn. by rewrite unhex_hex.
Qed.

#[export] Instance tunnels : TunnelServer server.
Proof.
  split.
  - intros name tool w Hn Ht _. eexists _, _, _. change (channel_exec ?c ?w) with (exec c w). unfold exec.
    set (q := String (Ascii.ascii_of_nat 39) "").
    assert (split_char space ("sudo docker exec -i " +:+ name +:+ " bash -c '" +:+ tool +:+ " show all'") =
      ["sudo"; "docker"; "exec"; "-i"; name; "bash"; "-c"; "'" +:+ tool; "show"; "all'"]) as ->.
    { set (r := " bash -c '" +:+ _). change ("sudo docker exec -i " +:+ name +:+ r)
        with ("sudo" +:+ sp ("docker" +:+ sp ("exec" +:+ sp ("-i" +:+ sp (name +:+ r))))).
      unfold r. change (" bash -c '" +:+ tool +:+ " show all'") with (sp ("bash" +:+ sp ("-c" +:+ sp (("'" +:+ tool) +:+ sp ("show" +:+ sp "all'"))))).
      rewrite !word_split by done. rewrite split_app, word_split by done. rewrite (split_char_none _ ("'" +:+ tool)); [reflexivity|].
      by rewrite contains_char_app, (plain_no _ tool). }
    by split.
  - intros name tool interface p d w Hn Ht Hi Hp _ Hd. eexists _, _, _. change (channel_exec ?c ?w) with (exec c w). unfold exec.
    assert (split_char space ("sudo docker exec -i " +:+ name +:+ " bash -c '" +:+ tool +:+ " syncconf " +:+ interface +:+ " <(" +:+ tool +:+
        "-quick strip " +:+ p +:+ ")'") =
      ["sudo"; "docker"; "exec"; "-i"; name; "bash"; "-c"; "'" +:+ tool; "syncconf"; interface; "<(" +:+ tool +:+ "-quick"; "strip"; p +:+ ")'"]) as ->.
    { set (t := p +:+ ")'"). set (r := " bash -c '" +:+ _). change ("sudo docker exec -i " +:+ name +:+ r)
        with ("sudo" +:+ sp ("docker" +:+ sp ("exec" +:+ sp ("-i" +:+ sp (name +:+ r))))). unfold r.
      change ("-quick strip " +:+ t) with ("-quick" +:+ sp ("strip" +:+ sp t)). rewrite <- (string_app_assoc tool "-quick").
      change (" <(" +:+ (tool +:+ "-quick") +:+ sp ("strip" +:+ sp t)) with (sp ("<(" +:+ (tool +:+ "-quick") +:+ sp ("strip" +:+ sp t))).
      rewrite <- (string_app_assoc "<("). set (v := ("<(" +:+ tool +:+ "-quick") +:+ _).
      change (" syncconf " +:+ interface +:+ sp v) with (sp ("syncconf" +:+ sp (interface +:+ sp v))).
      set (x := sp ("syncconf" +:+ _)). change (" bash -c '" +:+ tool +:+ x) with (sp ("bash" +:+ sp ("-c" +:+ sp (("'" +:+ tool) +:+ x)))).
      unfold x. rewrite !word_split by done. rewrite split_app, !word_split by done. unfold v. rewrite split_app, word_split by done.
      rewrite (split_char_none _ ("'" +:+ tool)) by by rewrite contains_char_app, (plain_no _ tool).
      rewrite (split_char_none _ ("<(" +:+ tool +:+ "-quick")) by by rewrite !contains_char_app, (plain_no _ tool).
      rewrite (split_char_none _ t); [reflexivity|]. unfold t. by rewrite contains_char_app, (plain_no _ p). }
    assert (drop_last 2 (p +:+ ")'") = p) as -> by exact (drop_last_app p ")'"). cbn in Hd |- *. rewrite Hd. by split.
Qed.
#[export] Instance restarts : RestartServer server.
Proof.
  split. intros name d w Hn _ Hd. eexists _, _, _. change (channel_exec ?c ?w) with (exec c w). unfold exec.
  assert (split_char space ("sudo docker restart " +:+ name) = ["sudo"; "docker"; "restart"; name]) as ->.
  { change ("sudo docker restart " +:+ name) with ("sudo" +:+ sp ("docker" +:+ sp ("restart" +:+ sp name))).
    by rewrite !word_split, split_plain. }
  cbn [String.eqb Ascii.eqb Bool.eqb]. cbn in Hd. rewrite Hd. by split.
Qed.
#[export] Instance shell : ShellServer server.
Proof.
  split.
  - intros name file p d w Hn Hf Hp _ Hs Hd. eexists _, _, _. change (channel_exec ?c ?w) with (exec c w). unfold exec.
    assert (split_char space ("sudo docker exec -i " +:+ name +:+ " bash " +:+ file +:+ " ") =
      ["sudo"; "docker"; "exec"; "-i"; name; "bash"; file; ""]) as ->.
    { change ("sudo docker exec -i " +:+ name +:+ " bash " +:+ file +:+ " ")
        with ("sudo" +:+ sp ("docker" +:+ sp ("exec" +:+ sp ("-i" +:+ sp (name +:+ sp ("bash" +:+ sp (file +:+ sp ""))))))).
      by rewrite !word_split. }
    cbn in Hs, Hd. rewrite Hs. change (default "" (Some ?x)) with x. cbn beta.
    assert (split_char space ("cat " +:+ p +:+ " | grep AllowedIPs") = ["cat"; p; "|"; "grep"; "AllowedIPs"]) as ->.
    { change ("cat " +:+ p +:+ " | grep AllowedIPs") with ("cat" +:+ sp (p +:+ sp ("|" +:+ sp ("grep" +:+ sp "AllowedIPs")))).
      by rewrite !word_split. }
    rewrite Hd. cbn. split; [reflexivity|]. by split_and!.
  - intros name file w Hn Hf _. eexists _, _, _. change (channel_exec ?c ?w) with (exec c w). unfold exec.
    assert (split_char space ("sudo docker exec -i " +:+ name +:+ " rm " +:+ file +:+ " ") =
      ["sudo"; "docker"; "exec"; "-i"; name; "rm"; file; ""]) as ->.
    { change ("sudo docker exec -i " +:+ name +:+ " rm " +:+ file +:+ " ")
        with ("sudo" +:+ sp ("docker" +:+ sp ("exec" +:+ sp ("-i" +:+ sp (name +:+ sp ("rm" +:+ sp (file +:+ sp ""))))))).
      by rewrite !word_split. }
    by split.
Qed.

Definition host : ServerCredentials := mkCredentials "192.0.2.7" "root" "secret" 22.
Definition before : client server :=
  mkClient false (mkServer None ∅ {[ ("amnezia-openvpn", "/opt/amnezia/openvpn/clientsTable") := "[]" ]} ∅ 0).
End shelf.
#[local] Existing Instances shelf.libssh shelf.server_view shelf.serves.

Lemma container_files_witness :
  ∃ x : client shelf.server,
    let '(e, x1) := uploadTextFileToContainer DockerContainer.OpenVpn shelf.host "ok" "/opt/amnezia/openvpn/clientsTable"
      ScpAppendToExisting x in
    let '((text, e2), x2) := getTextFileFromContainer DockerContainer.OpenVpn shelf.host "/opt/amnezia/openvpn/clientsTable" x1 in
    e = ErrorCode.NoError ∧ text = "[]ok".
Proof.
  exists shelf.before.
  destruct (container_files (W := shelf.server) shelf.host DockerContainer.OpenVpn ltac:(exact (eq_refl "secret")) ltac:(split; vm_compute; reflexivity) ScpAppendToExisting
    "/opt/amnezia/openvpn/clientsTable" "ok" shelf.before eq_refl eq_refl Logic.I) as (tmp & Htmp & H).
  destruct (uploadTextFileToContainer _ _ _ _ _ _) as [e x1] eqn:E1.
  destruct (getTextFileFromContainer _ _ _ _) as [[text e2] x2] eqn:E2. destruct H as (-> & _ & H & _ & Ht). split; [done|].
  rewrite Ht by (intros <-; discriminate Htmp). unfold box, shelf.before. cbn [world seen shelf.server_view boxes shelf.stores].
  rewrite lookup_singleton_eq. reflexivity.
Defined.
