(* ===== verification/UsersController.v ===== *)
(** * UsersController: the clients of a server's container

    Models [core/controllers/selfhosted/usersController.cpp]: the table of
    clients kept in a container, the lists of clients read from the servers'
    own files, and the revocation of a client.  A row of the table is a JSON
    object; an operation opens an SSH session of its own. *)
From stdpp Require Import sorting pretty.
From S2P Require Import Prelude Text Json Wire Containers ProtocolConfigs XrayConfig ServerConfig Settings ServersRepository.
From S2P Require Import Scripts SshSession.

Record WgShowData := mkWgShowData {
  clientId : string;
  latestHandshake : string;
  dataReceived : string;
  dataSent : string;
  allowedIps : string;
}.

Inductive users_signal :=
  | clientsUpdated (clients : list json)
  | clientAdded (client : gmap string json)
  | clientRenamed (row : Z) (newName : string)
  | clientRevoked (row : Z)
  | revokeFinished (errorCode : Z)
  | adminConfigRevoked (serverId : string) (container : DockerContainer).

(** The time as text. *)
Class UsersCodec (W : Type) := { currentDateTime : W → string }.

(** The controller, and the session of the operation under way. *)
Record users (W : Type) := mkUsers { m_clientsTable : list json; emitted : list users_signal; session : client W }.
Arguments mkUsers {W}.
Arguments m_clientsTable {W}.
Arguments emitted {W}.
Arguments session {W}.

(** ** The table *)
Definition row_object (value : json) : gmap string json := toObject (Some value).
(** [value.isObject() && obj.contains(clientId) && obj[clientId].toString() == clientId] *)
Definition is_client (clientId : string) (value : json) : bool :=
  isObject (Some value) && contains (row_object value) "clientId" && String.eqb (text (row_object value) "clientId") clientId.

Definition isClientExists (clientId : string) (clientsTable : list json) : bool := existsb (is_client clientId) clientsTable.
Fixpoint index_by_id (i : Z) (clientId : string) (clientsTable : list json) : Z :=
  match clientsTable with
  | [] => -1
  | value :: clientsTable => if is_client clientId value then i else index_by_id (i + 1) clientId clientsTable
  end.
Definition clientIndexById : string → list json → Z := index_by_id 0.

Definition new_client (clientId : string) (userData : gmap string json) : json :=
  JObject (object [member "clientId" (JString clientId); member "userData" (JObject userData)]).

(** [QJsonObject::keys()] *)
Definition sorted_keys (m : gmap string json) : list string := merge_sort (λ a b, Is_true (String.leb a b)) (map_to_list m).*1.

Section controller.
Context {W T : Type} {L : Libssh W} {J : JsonCodec} {P : ArrayPrinter} {JP : JsonPrinter} {U : UsersCodec W}.
Abbreviation M := (stM (users W)).

Definition migration (clientsTableString : string) (clientsTable : list json) : list json :=
  let clientsTableObj := toObject (fromJson clientsTableString) in
  clientsTable ++
  ((λ clientId, new_client clientId (insertv "clientName" (Json.value (toObject (Json.value clientsTableObj clientId)) "clientName") ∅)) <$>
     sorted_keys clientsTableObj).

(** A client that is not listed yet is, as [Client <count>]. *)
Definition list_client (s : Z * list json) (clientId : string) : Z * list json :=
  let '(count, clientsTable) := s in
  if isClientExists clientId clientsTable then (count, clientsTable)
  else (count + 1, clientsTable ++ [new_client clientId (object [member "clientName" (JString ("Client " +:+ pretty count))])]).
Definition list_clients (ids : list string) (s : Z * list json) : Z * list json := foldl list_client s ids.

(** *** What the servers say *)
Definition after_colon (s : string) : string := trimmed (mid s (indexOf s ":" 0 + 1) (Z.of_nat (String.length s))).
Definition chop (s : string) (n : Z) : string := mid s 0 (Z.max 0 (Z.of_nat (String.length s) - n)).
Definition changeHandshakeFormat (latestHandshake : string) : string :=
  foldl (λ s p, replace_str p.1 p.2 s) latestHandshake
    [(" days", "d"); (" hours", "h"); (" minutes", "m"); (" seconds", "s"); (" day", "d"); (" hour", "h"); (" minute", "m");
     (" second", "s")].

Fixpoint wg_rows (peerList latestHandshakeList transferredDataList allowedIpsList : list string) : list WgShowData :=
  match peerList, latestHandshakeList, transferredDataList, allowedIpsList with
  | peer :: peers, handshake :: handshakes, transferred :: transfers, allowed :: alloweds =>
      let transferredData := split_char (Ascii.ascii_of_nat 44) (after_colon transferred) in
      let serverBytesReceived := trimmed (default "" (head transferredData)) in
      let serverBytesSent := trimmed (List.last transferredData "") in
      mkWgShowData (after_colon peer) (changeHandshakeFormat (after_colon handshake))
        (chop serverBytesSent (Z.of_nat (String.length " sent"))) (chop serverBytesReceived (Z.of_nat (String.length " received")))
        (after_colon allowed) :: wg_rows peers handshakes transfers alloweds
  | _, _, _, _ => []
  end.
Definition parse_wg_show (stdOut : string) : list WgShowData :=
  let parts := lines_of stdOut in
  let having s := List.filter (contains_str s) parts in
  wg_rows (having "peer:") (having "latest handshake:") (having "transfer:") (having "allowed ips:").

Definition is_wireguard (c : DockerContainer) : bool := bool_decide (c = DockerContainer.WireGuard) || isAwgContainer c.
Definition wg_command (c : DockerContainer) : string := if bool_decide (c = DockerContainer.Awg2) then "awg" else "wg".
Definition quote : string := String (Ascii.ascii_of_nat 39) "".

Definition show_script (c : DockerContainer) : string :=
  "sudo docker exec -i $CONTAINER_NAME bash -c '" +:+ wg_command c +:+ " show all'".
Definition filled_script (credentials : ServerCredentials) (c : DockerContainer) (script : string) : string :=
  replaceVars script (base_vars credentials c).

Definition wgShow (c : DockerContainer) (credentials : ServerCredentials) : stM (client W) (Z * list WgShowData) :=
  if negb (is_wireguard c) then mret (ErrorCode.NoError, []) else
  '(error, stdOut) ← runScript credentials (filled_script credentials c (show_script c)) gather_lines no_callback "";
  if negb (error =? ErrorCode.NoError) then mret (error, []) else
  mret (error, parse_wg_show stdOut).

Definition issued_certificates (stdOut : string) : list string :=
  replace_str ".crt" "" <$> List.filter (λ s, negb (String.eqb s "AmneziaReq.crt")) (nonempty (lines_of stdOut)).
Definition issued_script : string := "sudo docker exec -i $CONTAINER_NAME bash -c 'ls /opt/amnezia/openvpn/pki/issued'".
Definition getOpenVpnClients (c : DockerContainer) (credentials : ServerCredentials) (s : Z * list json) :
    stM (client W) (Z * (Z * list json)) :=
  '(error, stdOut) ← runScript credentials (filled_script credentials c issued_script) gather_lines no_callback "";
  mret (error, if error =? ErrorCode.NoError then list_clients (issued_certificates stdOut) s else s).

Definition wg_config_path (c : DockerContainer) : string :=
  match c with
  | DockerContainer.Awg => "/opt/amnezia/awg/wg0.conf"
  | DockerContainer.Awg2 => "/opt/amnezia/awg/awg0.conf"
  | _ => "/opt/amnezia/wireguard/wg0.conf"
  end.
(** [configPair.front()] of a line without words is not defined; no key is read there. *)
Definition public_key (line : string) : option string :=
  match nonempty (split_str " = " line) with
  | front :: rest => if String.eqb front "PublicKey" then Some (List.last rest front) else None
  | [] => None
  end.
Definition wireguard_keys (config : string) : list string := omap public_key (nonempty (lines_of config)).
Definition getWireGuardClients (c : DockerContainer) (credentials : ServerCredentials) (s : Z * list json) :
    stM (client W) (Z * (Z * list json)) :=
  '(config, error) ← getTextFileFromContainer c credentials (wg_config_path c);
  mret (error, if error =? ErrorCode.NoError then list_clients (wireguard_keys config) s else s).

(** The inbounds of the server's configuration, the first of them, its settings
    and their clients. *)
Definition xray_parts (config : string) : option (list json * gmap string json * gmap string json * list json) :=
  serverConfig ← fromJson config;
  if negb (contains (toObject (Some serverConfig)) "inbounds") then None else
  let inbounds := toArray (Json.value (toObject (Some serverConfig)) "inbounds") in
  first ← head inbounds;
  let inbound := row_object first in
  if negb (contains inbound "settings") then None else
  let settings := toObject (Json.value inbound "settings") in
  if negb (contains settings "clients") then None else
  Some (inbounds, inbound, settings, toArray (Json.value settings "clients")).

Definition xray_uuid_path : string := "/opt/amnezia/xray/xray_uuid.key".
Fixpoint xray_loop (c : DockerContainer) (credentials : ServerCredentials) (clients : list json) (error : Z) (s : Z * list json) :
    stM (client W) (Z * (Z * list json)) :=
  match clients with
  | [] => mret (error, s)
  | clientValue :: clients =>
      let clientObj := row_object clientValue in
      if negb (contains clientObj "id") then xray_loop c credentials clients error s else
      let clientId := text clientObj "id" in
      '(uuid, error) ← getTextFileFromContainer c credentials xray_uuid_path;
      let xrayDefaultUuid := replace_str nl "" uuid in
      xray_loop c credentials clients error (if String.eqb clientId xrayDefaultUuid then s else list_client s clientId)
  end.
Definition getXrayClients (c : DockerContainer) (credentials : ServerCredentials) (s : Z * list json) :
    stM (client W) (Z * (Z * list json)) :=
  '(configString, error) ← getTextFileFromContainer c credentials xray_config_path;
  if negb (error =? ErrorCode.NoError) then mret (error, s) else
  match xray_parts configString with
  | None => mret (ErrorCode.InternalError, s)
  | Some (_, _, _, clients) => xray_loop c credentials clients ErrorCode.NoError s
  end.

(** ** The operations *)
Definition ssh {X} (m : stM (client W) X) : M X :=
  λ u, let '(x, c) := m (session u) in (x, mkUsers (m_clientsTable u) (emitted u) c).
Definition set_table (clientsTable : list json) : M unit := modify (λ u, mkUsers clientsTable (emitted u) (session u)).
Definition emit (g : users_signal) : M unit := modify (λ u, mkUsers (m_clientsTable u) (emitted u ++ [g]) (session u)).
(** [SshSession sshSession;] up to the end of its block. *)
Definition in_session {X} (m : M X) : M X :=
  u ← get;
  let outer := m_session (session u) in
  _ ← ssh (set_session false);
  x ← m;
  _ ← ssh disconnectFromHost;
  _ ← ssh (set_session outer);
  mret x.

(** The credentials an operation goes on with. *)
Definition admin_credentials (r : repository T) (serverId : string) : option ServerCredentials :=
  adminConfig ← selfHostedAdminConfig serverId r;
  let credentials := SelfHostedAdminServerConfig.credentials adminConfig in
  if ServerConfig.isValid credentials then Some credentials else None.

Definition table_file (c : DockerContainer) : string := "/opt/amnezia/" +:+ containerTypeToString c +:+ "/clientsTable".
Definition upload_table (c : DockerContainer) (credentials : ServerCredentials) : M Z :=
  u ← get;
  ssh (uploadTextFileToContainer c credentials (toJson_array (m_clientsTable u)) (table_file c) ScpOverwriteExisting).

(** The members that are known are replaced. *)
Definition noted (client : WgShowData) (userData : gmap string json) : gmap string json :=
  object_from userData [text_member "latestHandshake" (latestHandshake client); text_member "dataReceived" (dataReceived client);
    text_member "dataSent" (dataSent client); text_member "allowed_ips" (allowedIps client)].
Fixpoint note_client (clientsTable : list json) (client : WgShowData) : list json :=
  match clientsTable with
  | [] => []
  | it :: clientsTable =>
      if is_client (clientId client) it then
        let obj := row_object it in
        JObject (<["userData" := JObject (noted client (toObject (Json.value obj "userData")))]> obj) :: clientsTable
      else it :: note_client clientsTable client
  end.

Definition listed (c : DockerContainer) (credentials : ServerCredentials) (clientsTable : list json) :
    stM (client W) (Z * (Z * list json)) :=
  if bool_decide (c = DockerContainer.OpenVpn) then getOpenVpnClients c credentials (0, clientsTable)
  else if is_wireguard c then getWireGuardClients c credentials (0, clientsTable)
  else if bool_decide (c = DockerContainer.Xray) then getXrayClients c credentials (0, clientsTable)
  else mret (ErrorCode.NoError, (0, clientsTable)).

Definition updateClients (r : repository T) (serverId : string) (c : DockerContainer) : M Z :=
  match admin_credentials r serverId with
  | None => mret ErrorCode.InternalError
  | Some credentials =>
      in_session (
      '(clientsTableString, error) ← ssh (getTextFileFromContainer c credentials (table_file c));
      if negb (error =? ErrorCode.NoError) then _ ← emit (clientsUpdated []); mret error else
      let stored := toArray (fromJson clientsTableString) in
      _ ← set_table stored;
      error ←
        match stored with
        | _ :: _ => mret (ErrorCode.NoError, true)
        | [] =>
            '(error, (_, clientsTable)) ← ssh (listed c credentials (migration clientsTableString []));
            _ ← set_table clientsTable;
            if negb (error =? ErrorCode.NoError) then mret (error, false) else
            if String.eqb clientsTableString (toJson_array clientsTable) then mret (error, true) else
            error ← upload_table c credentials;
            mret (error, true)
        end;
      let '(error, goes_on) := (error : Z * bool) in
      if negb goes_on then _ ← emit (clientsUpdated []); mret error else
      '(_, data) ← ssh (wgShow c credentials);
      u ← get;
      _ ← set_table (foldl note_client (m_clientsTable u) data);
      u ← get;
      _ ← emit (clientsUpdated (m_clientsTable u));
      mret error)
  end.

Definition renameClient (r : repository T) (serverId : string) (row : Z) (clientName : string) (c : DockerContainer)
    (addTimeStamp : bool) : M Z :=
  u ← get;
  match m_clientsTable u !! Z.to_nat row with
  | Some value =>
      if row <? 0 then mret ErrorCode.InternalError else
      match admin_credentials r serverId with
      | None => mret ErrorCode.InternalError
      | Some credentials =>
          in_session (
          let client := row_object value in
          let userData := <["clientName" := JString clientName]> (toObject (Json.value client "userData")) in
          let userData :=
            if addTimeStamp then <["creationDate" := JString (currentDateTime (world (session u)))]> userData else userData in
          _ ← set_table (<[Z.to_nat row := JObject (<["userData" := JObject userData]> client)]> (m_clientsTable u));
          error ← upload_table c credentials;
          if negb (error =? ErrorCode.NoError) then mret error else
          u ← get;
          _ ← emit (if addTimeStamp then clientsUpdated (m_clientsTable u) else clientRenamed row clientName);
          mret error)
      end
  | None => mret ErrorCode.InternalError
  end.

Definition appendClient (r : repository T) (serverId clientId clientName : string) (c : DockerContainer) : M Z :=
  match admin_credentials r serverId with
  | None => mret ErrorCode.InternalError
  | Some credentials =>
      in_session (
      error ← updateClients r serverId c;
      if negb (error =? ErrorCode.NoError) then mret error else
      u ← get;
      let existingIndex := clientIndexById clientId (m_clientsTable u) in
      if 0 <=? existingIndex then renameClient r serverId existingIndex clientName c true else
      let userData := object [member "clientName" (JString clientName);
                              member "creationDate" (JString (currentDateTime (world (session u))))] in
      let client := new_client clientId userData in
      _ ← set_table (m_clientsTable u ++ [client]);
      error ← upload_table c credentials;
      if negb (error =? ErrorCode.NoError) then mret error else
      _ ← emit (clientAdded (row_object client));
      u ← get;
      _ ← emit (clientsUpdated (m_clientsTable u));
      mret error)
  end.

(** *** Revocation *)
(** The guard and the row that every revocation begins with. *)
Definition with_row (row : Z) (k : gmap string json → M Z) : M Z :=
  u ← get;
  if row <? 0 then mret ErrorCode.InternalError else
  match m_clientsTable u !! Z.to_nat row with
  | Some value => k (row_object value)
  | None => mret ErrorCode.InternalError
  end.
Definition remove_row (row : Z) : M unit :=
  modify (λ u, mkUsers (delete (Z.to_nat row) (m_clientsTable u)) (emitted u) (session u)).
(** [error = m; if (error) return error; k] *)
Definition guarded (m k : M Z) : M Z := error ← m; if negb ((error : Z) =? ErrorCode.NoError) then mret error else k.

Definition revoke_script (clientId : string) : string :=
  "sudo docker exec -i $CONTAINER_NAME bash -c 'cd /opt/amnezia/openvpn ;\easyrsa revoke " +:+ clientId +:+
  " ;\easyrsa gen-crl ;\chmod 666 pki/crl.pem ;\cp pki/crl.pem .'".
Definition revokeOpenVpn (row : Z) (c : DockerContainer) (credentials : ServerCredentials) : M Z :=
  with_row row (λ client,
    guarded (ssh (run credentials (filled_script credentials c (revoke_script (text client "clientId"))))) (
    _ ← remove_row row;
    u ← get;
    ssh (uploadTextFileToContainer c credentials (toJson_array (m_clientsTable u)) (table_file DockerContainer.OpenVpn)
           ScpOverwriteExisting))).

(** The first section that mentions the client is left out. *)
Fixpoint without_section (clientId : string) (sections : list string) : list string :=
  match sections with
  | [] => []
  | section :: sections =>
      if contains_str clientId section then sections else section :: without_section clientId sections
  end.
Definition revoked_config (clientId config : string) : string :=
  "[" +:+ String.concat "[" (without_section clientId (nonempty (split_char (Ascii.ascii_of_nat 91) config))).
Definition sync_script (c : DockerContainer) : string :=
  let command := wg_command c in
  "sudo docker exec -i $CONTAINER_NAME bash -c '" +:+ command +:+ " syncconf " +:+
  (if bool_decide (c = DockerContainer.Awg2) then "awg0" else "wg0") +:+ " <(" +:+ command +:+ "-quick strip " +:+
  wg_config_path c +:+ ")'".
Definition revokeWireGuard (row : Z) (c : DockerContainer) (credentials : ServerCredentials) : M Z :=
  with_row row (λ client,
    '(config, error) ← ssh (getTextFileFromContainer c credentials (wg_config_path c));
    if negb (error =? ErrorCode.NoError) then mret error else
    guarded (ssh (uploadTextFileToContainer c credentials (revoked_config (text client "clientId") config) (wg_config_path c)
                    ScpOverwriteExisting)) (
    _ ← remove_row row;
    guarded (upload_table c credentials) (
    ssh (run credentials (filled_script credentials c (sync_script c)))))).

Fixpoint without_id (clientId : string) (clients : list json) : list json :=
  match clients with
  | [] => []
  | value :: clients =>
      let clientObj := row_object value in
      if contains clientObj "id" && String.eqb (text clientObj "id") clientId then clients
      else value :: without_id clientId clients
  end.
Definition restart_script : string := "sudo docker restart $CONTAINER_NAME".
Definition revokeXray (row : Z) (c : DockerContainer) (credentials : ServerCredentials) : M Z :=
  with_row row (λ client,
    '(configString, error) ← ssh (getTextFileFromContainer c credentials xray_config_path);
    if negb (error =? ErrorCode.NoError) then mret error else
    match xray_parts configString with
    | None | Some (_, _, _, []) => mret ErrorCode.InternalError
    | Some (inbounds, inbound, settings, clients) =>
        let settings := <["clients" := JArray (without_id (text client "clientId") clients)]> settings in
        let inbounds := <[0%nat := JObject (<["settings" := JObject settings]> inbound)]> inbounds in
        let configObj := <["inbounds" := JArray inbounds]> (toObject (fromJson configString)) in
        guarded (ssh (uploadTextFileToContainer c credentials (indented (JObject configObj)) xray_config_path ScpOverwriteExisting)) (
        _ ← remove_row row;
        _ ← upload_table c credentials;
        ssh (run credentials (filled_script credentials c restart_script)))
    end).

(** The revocation of a container's kind; none for the others. *)
Definition revocation (c : DockerContainer) : option (Z → DockerContainer → ServerCredentials → M Z) :=
  match c with
  | DockerContainer.OpenVpn => Some revokeOpenVpn
  | DockerContainer.WireGuard | DockerContainer.Awg | DockerContainer.Awg2 => Some revokeWireGuard
  | DockerContainer.Xray => Some revokeXray
  | _ => None
  end.

(** The client revoked is the one the application itself uses. *)
Definition isAdminMatch (r : repository T) (serverId : string) (c : DockerContainer) (clientId : string) : bool :=
  let containerClientId :=
    from_option (λ config, ProtocolConfig.clientId (ContainerConfig.protocolConfig
      (containerConfig c (SelfHostedAdminServerConfig.common config)))) "" (selfHostedAdminConfig serverId r) in
  negb (String.eqb clientId "") && negb (String.eqb containerClientId "") && contains_str clientId containerClientId.

Definition revokeClient (r : repository T) (serverId : string) (index : Z) (c : DockerContainer) : M Z :=
  with_row index (λ client,
    match admin_credentials r serverId with
    | None => mret ErrorCode.InternalError
    | Some credentials =>
        in_session (
        match revocation c with
        | None => mret ErrorCode.InternalError
        | Some revoke =>
            errorCode ← revoke index c credentials;
            _ ← (if errorCode =? ErrorCode.NoError then
                   _ ← (if isAdminMatch r serverId c (text client "clientId") then emit (adminConfigRevoked serverId c) else mret tt);
                   emit (clientRevoked index)
                 else mret tt);
            u ← get;
            _ ← emit (clientsUpdated (m_clientsTable u));
            _ ← emit (revokeFinished errorCode);
            mret errorCode
        end)
    end).

Definition revokeClient_config (r : repository T) (serverId : string) (config : ContainerConfig.ContainerConfig)
    (c : DockerContainer) : M Z :=
  match admin_credentials r serverId with
  | None => mret ErrorCode.InternalError
  | Some credentials =>
      in_session (
      errorCode ← updateClients r serverId c;
      if negb (errorCode =? ErrorCode.NoError) then mret errorCode else
      match revocation c with
      | None => mret ErrorCode.InternalError
      | Some revoke =>
          u ← get;
          let row := clientIndexById (ProtocolConfig.clientId (ContainerConfig.protocolConfig config)) (m_clientsTable u) in
          if row <? 0 then mret errorCode else
          guarded (revoke row c credentials) (
          _ ← emit (adminConfigRevoked serverId c);
          _ ← emit (clientRevoked row);
          u ← get;
          _ ← emit (clientsUpdated (m_clientsTable u));
          mret ErrorCode.NoError)
      end)
  end.
End controller.

(** ** Rows and their clients *)
Definition client_id (value : json) : option string :=
  if isObject (Some value) && contains (row_object value) "clientId" then Some (text (row_object value) "clientId") else None.
Definition ids (clientsTable : list json) : list string := omap client_id clientsTable.

Lemma is_client_id id value : is_client id value = true ↔ client_id value = Some id.
Proof.
  unfold is_client, client_id. destruct (isObject _ && contains _ _); cbn; [|done]. rewrite String.eqb_eq.
  split; [by intros ->|by intros [= ->]].
Qed.
Lemma elem_of_ids id t : id ∈ ids t ↔ ∃ value, value ∈ t ∧ client_id value = Some id.
Proof. unfold ids. apply list_elem_of_omap. Qed.
Lemma exists_ids id t : isClientExists id t = true ↔ id ∈ ids t.
Proof.
  unfold isClientExists. rewrite existsb_exists, elem_of_ids. setoid_rewrite is_client_id. setoid_rewrite <- list_elem_of_In. done.
Qed.
Lemma ids_app t t' : ids (t ++ t') = ids t ++ ids t'.
Proof. apply omap_app. Qed.

Lemma index_by_id_some i id t :
  id ∈ ids t →
  ∃ n value, index_by_id i id t = i + Z.of_nat n ∧ t !! n = Some value ∧ client_id value = Some id.
Proof.
  revert i. induction t as [|v t IH]; intros i Hin; [by apply elem_of_nil in Hin|]. cbn [index_by_id].
  destruct (is_client id v) eqn:E.
  - exists 0%nat, v. apply is_client_id in E. split_and!; [lia|done|done].
  - assert (id ∈ ids t) as Ht.
    { apply elem_of_ids in Hin as (x & Hx & Hid). apply elem_of_ids. exists x. split; [|done].
      apply elem_of_cons in Hx as [-> |Hx]; [|done]. apply is_client_id in Hid. congruence. }
    destruct (IH (i + 1) Ht) as (n & value & Hn & Hv & Hid). exists (S n), value. split_and!; [lia|done|done].
Qed.
Lemma index_by_id_none i id t : 0 ≤ i → id ∉ ids t → index_by_id i id t = -1.
Proof.
  revert i. induction t as [|v t IH]; intros i Hi Hin; [done|]. cbn [index_by_id].
  destruct (is_client id v) eqn:E.
  - exfalso. apply Hin, elem_of_ids. exists v. split; [apply list_elem_of_here|by apply is_client_id].
  - apply IH; [lia|]. intros H. apply Hin. apply elem_of_ids in H as (x & Hx & Hid). apply elem_of_ids. exists x.
    split; [by apply list_elem_of_further|done].
Qed.

Lemma row_new_client id userData : row_object (new_client id userData) = object [member "clientId" (JString id); member "userData" (JObject userData)].
Proof. done. Qed.
Lemma client_id_new id userData : client_id (new_client id userData) = Some id.
Proof. unfold client_id. rewrite row_new_client. cbn [isObject andb new_client]. by read_members. Qed.

Lemma client_id_object m : client_id (JObject m) = (if contains m "clientId" then Some (text m "clientId") else None).
Proof. done. Qed.
Lemma client_id_user_data value userData :
  client_id value ≠ None → client_id (JObject (<["userData" := userData]> (row_object value))) = client_id value.
Proof.
  intros H. unfold client_id in *. destruct (isObject (Some value)); [|done]. cbn [andb isObject] in *.
  unfold row_object at 1 3. cbn [toObject]. rewrite !contains_spec in *. unfold text, Json.value in *.
  by rewrite lookup_insert_ne.
Qed.

(** A client is listed once. *)
Lemma list_client_ids s id :
  ids (list_client s id).2 = if decide (id ∈ ids s.2) then ids s.2 else ids s.2 ++ [id].
Proof.
  destruct s as [count t]. unfold list_client. cbn [snd]. destruct (isClientExists id t) eqn:E.
  - apply exists_ids in E. by rewrite decide_True.
  - rewrite decide_False by (intros H; apply exists_ids in H; congruence).
    cbn [snd]. rewrite ids_app. unfold ids at 2. cbn [omap list_omap]. by rewrite client_id_new.
Qed.
Lemma list_clients_ids l s :
  NoDup (ids s.2) →
  NoDup (ids (list_clients l s).2) ∧ (∀ id, id ∈ ids (list_clients l s).2 ↔ id ∈ ids s.2 ∨ id ∈ l) ∧
  ids s.2 `prefix_of` ids (list_clients l s).2.
Proof.
  revert s. induction l as [|x l IH]; intros s Hs.
  - split_and!; [done| |done]. intros id. set_solver.
  - unfold list_clients in *. cbn [foldl]. specialize (IH (list_client s x)). rewrite list_client_ids in IH.
    destruct (decide (x ∈ ids s.2)) as [Hx|Hx].
    + destruct (IH Hs) as (H1 & H2 & H3). split_and!; [done| |done]. intros id. rewrite H2. set_solver.
    + destruct IH as (H1 & H2 & H3).
      { apply NoDup_app. split_and!; [done|set_solver|apply NoDup_singleton]. }
      split_and!; [done| |].
      * intros id. rewrite H2. set_solver.
      * etrans; [|exact H3]. by apply prefix_app_r.
Qed.

Lemma note_client_ids t d : ids (note_client t d) = ids t.
Proof.
  induction t as [|v t IH]; [done|]. cbn [note_client]. destruct (is_client (clientId d) v) eqn:E.
  - unfold ids. cbn [omap list_omap]. rewrite client_id_user_data; [done|]. apply is_client_id in E. by rewrite E.
  - unfold ids in *. cbn [omap list_omap]. rewrite IH. done.
Qed.
Lemma notes_ids data t : ids (foldl note_client t data) = ids t.
Proof. revert t. induction data as [|d data IH]; intros t; [done|]. cbn [foldl]. rewrite IH. apply note_client_ids. Qed.

(** ** The operations on a server that serves *)
Definition seen_of {W} {V : ServerView W} (u : users W) : view := seen (world (session u)).
Definition well_of {W} {V : ServerView W} (u : users W) : Prop := well (world (session u)).

(** A state of the controller: the server serves, with these contents. *)
Record left_with {W} {V : ServerView W} (t : list json) (out : list users_signal) (b : gmap (string * string) string)
    (running : gmap string string) (u : users W) : Prop := {
  left_well : well_of u;
  left_table : m_clientsTable u = t;
  left_emitted : emitted u = out;
  left_boxes : boxes (seen_of u) = b;
  left_served : served (seen_of u) = running;
}.
Lemma left_self {W} {V : ServerView W} (u : users W) :
  well_of u → left_with (m_clientsTable u) (emitted u) (boxes (seen_of u)) (served (seen_of u)) u.
Proof. by split. Qed.

Section served.
Context {W T : Type} {L : Libssh W} {V : ServerView W} {Sv : Server W} {TS : TunnelServer W}.
Context {J : JsonCodec} {P : ArrayPrinter} {JP : JsonPrinter} {U : UsersCodec W}.
Context (credentials : ServerCredentials) (c : DockerContainer).
Context (Ha : accepted credentials) (Hc : clear_host credentials).
Abbreviation name := (containerToString c).

Lemma leads_ssh {X} (m : stM (client W) X) u (Q : X → users W → Prop) :
  leads m (session u) (λ x c', Q x (mkUsers (m_clientsTable u) (emitted u) c')) → leads (ssh m) u Q.
Proof. unfold leads, ssh. by destruct (m (session u)). Qed.
Lemma leads_table t u (Q : unit → users W → Prop) : Q tt (mkUsers t (emitted u) (session u)) → leads (set_table t) u Q.
Proof. done. Qed.
Lemma leads_emit g u (Q : unit → users W → Prop) :
  Q tt (mkUsers (m_clientsTable u) (emitted u ++ [g]) (session u)) → leads (emit g) u Q.
Proof. done. Qed.
Lemma leads_get (u : users W) (Q : users W → users W → Prop) : Q u u → leads get u Q.
Proof. done. Qed.

Lemma leads_session_rel {X} (m : stM (users W) X) (t : list json) (out : list users_signal) (b : gmap (string * string) string)
    (running : gmap string string) (u : users W)
    (R : X → list json → list users_signal → gmap (string * string) string → gmap string string → Prop) :
  let Q x (u' : users W) := ∃ t' out' b' running', R x t' out' b' running' ∧ left_with t' out' b' running' u' in
  left_with t out b running u → (∀ u', left_with t out b running u' → leads m u' Q) → leads (in_session m) u Q.
Proof.
  intros Q [Hw H1 H2 H3 H4] Hm. unfold in_session. apply leads_bind, leads_get, leads_bind, leads_ssh.
  unfold leads at 1. cbn [fst snd set_session modify]. apply leads_bind.
  eapply leads_mono; [apply Hm; by split|]. cbn beta. intros x u1 (t' & out' & b' & running' & HR & [Hw1 H1' H2' H3' H4']).
  apply leads_bind, leads_ssh. unfold disconnectFromHost. apply leads_bind. unfold leads at 1. cbn [fst snd get].
  assert (∀ c', same (world (session u1)) (world c') →
    leads (_ ← ssh (set_session (m_session (session u))); mret x) (mkUsers (m_clientsTable u1) (emitted u1) c') Q) as Hend.
  { intros c' [Hw' Hs']. apply leads_bind, leads_ssh. unfold leads at 1. cbn [fst snd set_session modify]. apply leads_ret.
    exists t', out', b', running'. split; [done|].
    split; cbn; [exact Hw'|done|done|..]; unfold seen_of in *; cbn; by rewrite Hs'. }
  destruct (m_session (session u1)); [|apply leads_ret, Hend; by split].
  apply leads_bind. apply (leads_mono _ _ (λ _ c', same (world (session u1)) (world c'))).
  { destruct (ssh_is_connected _); [|by apply leads_ret]. apply leads_act. by apply (ssh_disconnect_law (world (session u1))). }
  intros _ c1 [Hc1 Hs1]. apply leads_bind, leads_act. unfold leads at 1. cbn [fst snd set_session modify].
  apply Hend. cbn [world]. destruct (ssh_free_law _ Hc1) as [Hc2 Hs2]. split; [done|congruence].
Qed.
Lemma leads_session {X} (m : stM (users W) X) t out b running t' out' b' running' x0 u :
  left_with t out b running u →
  (∀ u', left_with t out b running u' → leads m u' (λ x u1, x = x0 ∧ left_with t' out' b' running' u1)) →
  leads (in_session m) u (λ x u', x = x0 ∧ left_with t' out' b' running' u').
Proof.
  intros Hu Hm. set (R x t1 o1 b1 r1 := x = x0 ∧ t1 = t' ∧ o1 = out' ∧ b1 = b' ∧ r1 = running').
  eapply leads_mono; [apply (leads_session_rel m t out b running u R Hu)|].
  - intros u' Hu'. eapply leads_mono; [by apply Hm|]. cbn beta. intros x u1 [-> H1]. by exists t', out', b', running'.
  - cbn beta. by intros x u1 (t1 & o1 & b1 & r1 & (-> & -> & -> & -> & ->) & H1).
Qed.

Lemma leads_put path data t out b running u :
  plain path = true → startsWith "/" path = true → left_with t out b running u →
  leads (ssh (uploadTextFileToContainer c credentials data path ScpOverwriteExisting)) u (λ e u',
    e = ErrorCode.NoError ∧ left_with t out (<[(name, path) := data]> b) running u').
Proof.
  intros Hp Hs [Hw H1 H2 H3 H4]. apply leads_ssh. eapply leads_mono; [by apply upload_leads|].
  cbn beta. intros e c' (-> & Hw' & tmp & _ & E). split; [done|].
  split; cbn; unfold seen_of in *; cbn; [exact Hw'|done|done|..]; by rewrite E, <- ?H3, <- ?H4.
Qed.
Lemma leads_get_file path d t out b running u :
  plain path = true → b !! (name, path) = Some d → left_with t out b running u →
  leads (ssh (getTextFileFromContainer c credentials path)) u (λ r u',
    r = (d, ErrorCode.NoError) ∧ left_with t out b running u').
Proof.
  intros Hp Hd [Hw H1 H2 H3 H4]. apply leads_ssh. eapply leads_mono; [apply (get_leads credentials c Ha path d); [done|exact Hw|]|].
  - unfold seen_of in *. by rewrite H3.
  - cbn beta. intros r c' (-> & Hw' & E). split; [done|].
    split; cbn; unfold seen_of in *; cbn; [exact Hw'|done|done|..]; by rewrite E.
Qed.

Lemma table_file_ok : plain (table_file c) = true ∧ startsWith "/" (table_file c) = true.
Proof. by destruct c. Qed.
Lemma wg_path_ok : plain (wg_config_path c) = true ∧ startsWith "/" (wg_config_path c) = true.
Proof. by destruct c. Qed.

Lemma leads_upload t out b running u :
  left_with t out b running u →
  leads (upload_table c credentials) u (λ e u',
    e = ErrorCode.NoError ∧ left_with t out (<[(name, table_file c) := toJson_array t]> b) running u').
Proof.
  intros H. unfold upload_table. apply leads_bind, leads_get. rewrite (left_table _ _ _ _ _ H).
  destruct table_file_ok. by apply leads_put.
Qed.

End served.

(** *** Sections of a configuration *)
Definition bracket : Ascii.ascii := Ascii.ascii_of_nat 91.
Definition sections_text (sections : list string) : string := "[" +:+ String.concat "[" sections.
(** What stands between two brackets. *)
Definition section_ok (s : string) : Prop := s ≠ "" ∧ contains_char bracket s = false.

Lemma sections_read l : l ≠ [] → Forall section_ok l → nonempty (split_char bracket (sections_text l)) = l.
Proof.
  intros Hne Hl. unfold sections_text. change ("[" +:+ String.concat "[" l) with ("" +:+ String bracket (String.concat "[" l)).
  rewrite split_char_line by done. unfold nonempty. cbn [List.filter String.eqb negb]. fold (nonempty (split_char bracket (String.concat "[" l))).
  rewrite (split_joined bracket) by (done || by eapply Forall_impl; [exact Hl|intros ? []]). apply nonempty_all.
  eapply Forall_impl; [exact Hl|by intros ? []].
Qed.
Lemma without_section_first id before s after :
  Forall (λ s, contains_str id s = false) before → contains_str id s = true →
  without_section id (before ++ s :: after) = before ++ after.
Proof. intros Hb Hs. induction Hb as [|x l Hx _ IH]; cbn [app without_section]; [by rewrite Hs|by rewrite Hx, IH]. Qed.

(** *** Revocation *)
Section revocation.
Context {W T : Type} {L : Libssh W} {V : ServerView W} {Sv : Server W} {TS : TunnelServer W}.
Context {J : JsonCodec} {P : ArrayPrinter} {JP : JsonPrinter} {U : UsersCodec W}.
Context (credentials : ServerCredentials) (c : DockerContainer).
Context (Ha : accepted credentials) (Hc : clear_host credentials).
Abbreviation name := (containerToString c).

Lemma tell t out out' b running g u :
  left_with t out b running u → out' = out ++ [g] →
  left_with t out' b running (mkUsers (m_clientsTable u) (emitted u ++ [g]) (session u)).
Proof. intros [Hw H1 H2 H3 H4] ->. split; [exact Hw|exact H1|cbn; by rewrite H2|exact H3|exact H4]. Qed.

Lemma leads_guarded (m k : stM (users W) Z) u (Q : Z → users W → Prop) :
  leads m u (λ e u', e = ErrorCode.NoError ∧ leads k u' Q) → leads (guarded m k) u Q.
Proof.
  intros H. unfold guarded. apply leads_bind. eapply leads_mono; [exact H|]. cbn beta. intros e u' (-> & Hk). by rewrite Z.eqb_refl.
Qed.
Lemma leads_row (k : gmap string json → stM (users W) Z) n value u (Q : Z → users W → Prop) :
  m_clientsTable u !! n = Some value → leads (k (row_object value)) u Q → leads (with_row (Z.of_nat n) k) u Q.
Proof.
  intros Hv Hk. unfold with_row. apply leads_bind, leads_get. rewrite (proj2 (Z.ltb_ge _ _)) by lia. by rewrite Nat2Z.id, Hv.
Qed.

Lemma leads_sync t out b running d u :
  is_wireguard c = true → b !! (name, wg_config_path c) = Some d → left_with t out b running u →
  leads (ssh (run credentials (filled_script credentials c (sync_script c)))) u (λ e u',
    e = ErrorCode.NoError ∧ left_with t out b (<[name := d]> running) u').
Proof.
  intros Hwg Hd [Hw H1 H2 H3 H4]. apply leads_ssh.
  set (iface := if bool_decide (c = DockerContainer.Awg2) then "awg0" else "wg0").
  set (rest := " bash -c '" +:+ wg_command c +:+ " syncconf " +:+ iface +:+ " <(" +:+ wg_command c +:+ "-quick strip " +:+ wg_config_path c +:+ ")'").
  assert (filled_script credentials c (sync_script c) = "sudo docker exec -i " +:+ name +:+ rest) as ->.
  { rewrite <- (fill_tail credentials c Hc rest); [reflexivity|]. unfold rest, iface. by destruct c. }
  eapply leads_mono; [apply (run_effect credentials Ha _ (with_served name d (seen (world (session u)))))|].
  - unfold rest, iface. by destruct c.
  - done.
  - done.
  - exact Hw.
  - intros w [Hw' E]. rewrite <- E. unfold rest. apply sync_law; [apply name_plain| | |apply wg_path_ok|exact Hw'|].
    + unfold wg_command. by case_bool_decide.
    + unfold iface. by case_bool_decide.
    + rewrite E. unfold seen_of in H3. by rewrite H3.
  - cbn beta. intros e c' (-> & Hw' & E). split; [done|].
    split; cbn; unfold seen_of in *; cbn; [exact Hw'|done|done|..]; rewrite E; cbn; congruence.
Qed.

Lemma leads_revokeWireGuard t out b running n value before s after u :
  is_wireguard c = true → left_with t out b running u → t !! n = Some value →
  b !! (name, wg_config_path c) = Some (sections_text (before ++ s :: after)) → Forall section_ok (before ++ s :: after) →
  Forall (λ s, contains_str (text (row_object value) "clientId") s = false) before →
  contains_str (text (row_object value) "clientId") s = true →
  leads (revokeWireGuard (Z.of_nat n) c credentials) u (λ e u',
    e = ErrorCode.NoError ∧
    left_with (delete n t) out
      (<[(name, table_file c) := toJson_array (delete n t)]> (<[(name, wg_config_path c) := sections_text (before ++ after)]> b))
      (<[name := sections_text (before ++ after)]> running) u').
Proof.
  intros Hwg Hu Hv Hb Hok Hbefore Hs. unfold revokeWireGuard. eapply leads_row; [by rewrite (left_table _ _ _ _ _ Hu)|].
  destruct wg_path_ok with c as [Hp1 Hp2]. apply leads_pair. eapply leads_mono; [by apply (leads_get_file credentials c Ha (wg_config_path c) (sections_text (before ++ s :: after)) t out b running)|].
  intros r u1 (-> & H1). cbn [fst snd]. rewrite Z.eqb_refl. cbn [negb].
  assert (revoked_config (text (row_object value) "clientId") (sections_text (before ++ s :: after)) = sections_text (before ++ after)) as ->.
  { unfold revoked_config. fold bracket. rewrite sections_read by (done || by destruct before). by rewrite without_section_first. }
  apply leads_guarded. eapply leads_mono; [apply (leads_put credentials c Ha Hc (wg_config_path c) (sections_text (before ++ after)) t out b running); done|]. cbn beta. intros e u2 (-> & H2). split; [done|].
  apply leads_bind. unfold remove_row, leads at 1. cbn [fst snd modify]. rewrite Nat2Z.id.
  apply leads_guarded. eapply leads_mono; [eapply (leads_upload credentials c Ha Hc (delete n t)); split|].
  - exact (left_well _ _ _ _ _ H2).
  - cbn. by rewrite (left_table _ _ _ _ _ H2).
  - exact (left_emitted _ _ _ _ _ H2).
  - exact (left_boxes _ _ _ _ _ H2).
  - exact (left_served _ _ _ _ _ H2).
  - cbn beta. intros e u3 (-> & H3). split; [done|]. eapply leads_sync; [done| |exact H3].
    rewrite lookup_insert_ne by (intros [= E]; by destruct c). apply lookup_insert_eq.
Qed.
End revocation.

Section theorems.
Context {W T : Type} {L : Libssh W} {V : ServerView W} {Sv : Server W} {TS : TunnelServer W}.
Context {J : JsonCodec} {P : ArrayPrinter} {JP : JsonPrinter} {U : UsersCodec W}.
Context (credentials : ServerCredentials) (c : DockerContainer).
Context (Ha : accepted credentials) (Hc : clear_host credentials).
Abbreviation name := (containerToString c).

(** C21. Revoking a client of a WireGuard or AmneziaWG container takes the first
    section that mentions it out of the server's configuration and its row out
    of the table, in memory and in the container, and the tunnel is given the
    new configuration: no other client loses its access.  The application is
    told when the client is its own. *)
Theorem client_revoked (r : repository T) serverId n value before s after u :
  admin_credentials r serverId = Some credentials → is_wireguard c = true → well_of u →
  m_clientsTable u !! n = Some value →
  boxes (seen_of u) !! (name, wg_config_path c) = Some (sections_text (before ++ s :: after)) →
  Forall section_ok (before ++ s :: after) →
  Forall (λ s, contains_str (text (row_object value) "clientId") s = false) before →
  contains_str (text (row_object value) "clientId") s = true →
  let '(e, u') := revokeClient r serverId (Z.of_nat n) c u in
  let table := delete n (m_clientsTable u) in
  let config := sections_text (before ++ after) in
  e = ErrorCode.NoError ∧
  left_with table
    (emitted u ++ (if isAdminMatch r serverId c (text (row_object value) "clientId") then [adminConfigRevoked serverId c] else []) ++
     [clientRevoked (Z.of_nat n); clientsUpdated table; revokeFinished ErrorCode.NoError])
    (<[(name, table_file c) := toJson_array table]> (<[(name, wg_config_path c) := config]> (boxes (seen_of u))))
    (<[name := config]> (served (seen_of u))) u'.
Proof.
  intros Hr Hwg Hw Hv Hb Hok Hbefore Hs. pose proof (left_self u Hw) as Hu.
  enough (leads (revokeClient r serverId (Z.of_nat n) c) u (λ e u', e = ErrorCode.NoError ∧ left_with (delete n (m_clientsTable u))
    (emitted u ++ (if isAdminMatch r serverId c (text (row_object value) "clientId") then [adminConfigRevoked serverId c] else []) ++
     [clientRevoked (Z.of_nat n); clientsUpdated (delete n (m_clientsTable u)); revokeFinished ErrorCode.NoError])
    (<[(name, table_file c) := toJson_array (delete n (m_clientsTable u))]>
       (<[(name, wg_config_path c) := sections_text (before ++ after)]> (boxes (seen_of u))))
    (<[name := sections_text (before ++ after)]> (served (seen_of u))) u')) as H.
  { unfold leads in H. by destruct (revokeClient r serverId (Z.of_nat n) c u). }
  unfold revokeClient. eapply leads_row; [exact Hv|]. rewrite Hr. eapply leads_session; [exact Hu|]. intros u1 H1.
  assert (revocation c = Some revokeWireGuard) as -> by by destruct c.
  apply leads_bind. eapply leads_mono; [by apply (leads_revokeWireGuard credentials c Ha Hc _ _ _ _ n value before s after u1 Hwg H1 Hv)|].
  cbn beta. intros e u2 (-> & H2). rewrite Z.eqb_refl. apply leads_bind.
  apply (leads_mono _ _ (λ _ u3, left_with (delete n (m_clientsTable u))
    (emitted u ++ (if isAdminMatch r serverId c (text (row_object value) "clientId") then [adminConfigRevoked serverId c] else []) ++
     [clientRevoked (Z.of_nat n)])
    (<[(name, table_file c) := toJson_array (delete n (m_clientsTable u))]>
       (<[(name, wg_config_path c) := sections_text (before ++ after)]> (boxes (seen_of u))))
    (<[name := sections_text (before ++ after)]> (served (seen_of u))) u3)).
  - apply leads_bind. destruct (isAdminMatch _ _ _ _).
    + apply leads_emit, leads_emit. eapply tell; [eapply tell; [exact H2|reflexivity]|]. by rewrite <- !app_assoc.
    + apply leads_ret, leads_emit. by eapply tell.
  - intros _ u3 H3. apply leads_bind, leads_get, leads_bind, leads_emit, leads_bind, leads_emit, leads_ret.
    split; [done|]. eapply tell; [eapply tell; [exact H3|reflexivity]|].
    rewrite (left_table _ _ _ _ _ H3). by rewrite <- !app_assoc.
Qed.
End theorems.

(** *** What a row says *)
Definition row_name (value : json) : string := text (toObject (Json.value (row_object value) "userData")) "clientName".
(** The client and the name it goes by. *)
Definition entry (value : json) : option string * string := (client_id value, row_name value).

Lemma entry_user_data value (userData : gmap string json) :
  client_id value ≠ None →
  entry (JObject (<["userData" := JObject userData]> (row_object value))) = (client_id value, text userData "clientName").
Proof.
  intros H. unfold entry. rewrite client_id_user_data by done. f_equal. unfold row_name, row_object, Json.value.
  cbn [toObject]. by rewrite lookup_insert_eq.
Qed.
Lemma entry_new id userData : entry (new_client id userData) = (Some id, text userData "clientName").
Proof. unfold entry. rewrite client_id_new. reflexivity. Qed.
Lemma noted_name d userData : text (noted d userData) "clientName" = text userData "clientName".
Proof. unfold noted. unfold text at 1. rewrite value_object_from. cbn. by repeat case_match. Qed.
Lemma note_client_entries t d : entry <$> note_client t d = entry <$> t.
Proof.
  induction t as [|v t IH]; [done|]. cbn [note_client]. destruct (is_client (clientId d) v) eqn:E.
  - apply is_client_id in E. rewrite !fmap_cons, entry_user_data, noted_name by (by rewrite E). reflexivity.
  - by rewrite !fmap_cons, IH.
Qed.
Lemma notes_entries data t : entry <$> foldl note_client t data = entry <$> t.
Proof. revert t. induction data as [|d data IH]; intros t; [done|]. cbn [foldl]. rewrite IH. apply note_client_entries. Qed.
Lemma ids_entries t : ids t = omap fst (entry <$> t).
Proof. unfold ids. induction t as [|v t IH]; [done|]. rewrite fmap_cons. cbn [omap list_omap fst entry]. by rewrite IH. Qed.
Lemma ids_same t t' : entry <$> t = entry <$> t' → ids t = ids t'.
Proof. rewrite !ids_entries. by intros ->. Qed.
Lemma index_entries i id t t' : entry <$> t = entry <$> t' → index_by_id i id t = index_by_id i id t'.
Proof.
  revert i t'. induction t as [|v t IH]; intros i [|v' t']; [done..|]. rewrite !fmap_cons. intros [= Ev _ Et]. cbn [index_by_id].
  assert (is_client id v = is_client id v') as ->.
  { apply eq_iff_eq_true. by rewrite !is_client_id, Ev. }
  destruct (is_client id v'); [done|]. by apply IH.
Qed.

Section appending.
Context {W T : Type} {L : Libssh W} {V : ServerView W} {Sv : Server W} {TS : TunnelServer W}.
Context {J : JsonCodec} {P : ArrayPrinter} {JP : JsonPrinter} {U : UsersCodec W}.
Context (credentials : ServerCredentials) (c : DockerContainer).
Context (Ha : accepted credentials) (Hc : clear_host credentials).
Abbreviation name := (containerToString c).

Lemma leads_wgShow t out b running u :
  left_with t out b running u →
  leads (ssh (wgShow c credentials)) u (λ r u', ∃ data, r = (ErrorCode.NoError, data) ∧ left_with t out b running u').
Proof.
  intros [Hw H1 H2 H3 H4]. apply leads_ssh. unfold wgShow. destruct (negb (is_wireguard c)).
  { apply leads_ret. exists []. by split. }
  set (rest := " bash -c '" +:+ wg_command c +:+ " show all'").
  assert (filled_script credentials c (show_script c) = "sudo docker exec -i " +:+ name +:+ rest) as ->.
  { rewrite <- (fill_tail credentials c Hc rest); [reflexivity|]. unfold rest, wg_command. by case_bool_decide. }
  apply leads_pair. eapply leads_mono.
  - apply (run_leads credentials _ (seen (world (session u))) (λ _ _, True) (λ d x, x +:+ d +:+ nl) (λ _ x, x)); [done|exact Hw|..].
    + unfold rest, wg_command. by destruct c.
    + done.
    + done.
    + intros w [Hw' <-]. unfold rest. apply show_law; [apply name_plain| |done]. unfold wg_command. by case_bool_decide.
  - intros [e y] c' (He & Hw' & E & _). cbn [fst snd] in *. subst e. rewrite Z.eqb_refl. cbn [negb]. apply leads_ret.
    eexists. split; [reflexivity|]. split; cbn; unfold seen_of in *; cbn; [exact Hw'|done|done|..]; by rewrite E.
Qed.

(** A table that is there is shown as it is, with what the tunnel tells. *)
Lemma leads_update (r : repository T) serverId d t0 t out b running u :
  admin_credentials r serverId = Some credentials → b !! (name, table_file c) = Some d →
  fromJson d = Some (JArray t) → t ≠ [] → left_with t0 out b running u →
  leads (updateClients r serverId c) u (λ e u', ∃ t' out' b' running',
    (e = ErrorCode.NoError ∧ (∃ data, t' = foldl note_client t data ∧ out' = out ++ [clientsUpdated t']) ∧ b' = b ∧ running' = running) ∧
    left_with t' out' b' running' u').
Proof.
  intros Hr Hd Hj Ht Hu. unfold updateClients. rewrite Hr. apply (leads_session_rel _ t0 out b running u); [done|]. intros u1 H1.
  destruct table_file_ok with c as [Hp _].
  apply leads_pair. eapply leads_mono; [by apply (leads_get_file credentials c Ha (table_file c) d t0 out b running)|].
  intros r1 u2 (-> & H2). cbn [fst snd]. rewrite Z.eqb_refl. cbn [negb]. rewrite Hj. cbn [toArray].
  apply leads_bind, leads_table. destruct t as [|v t]; [done|]. apply leads_bind, leads_ret. cbn [negb].
  apply leads_pair. eapply leads_mono.
  { apply (leads_wgShow (v :: t) out b running). destruct H2 as [Hw2 E2 E3 E4 E5]. by split. }
  intros r3 u3 (data & -> & H3). cbn [fst snd]. apply leads_bind, leads_get, leads_bind, leads_table, leads_bind, leads_get, leads_bind, leads_emit.
  apply leads_ret. destruct H3 as [Hw3 E3 E4 E5 E6]. cbn [m_clientsTable emitted session]. rewrite E3.
  eexists _, _, _, _. split; [split_and!; [reflexivity|exists data; split; reflexivity|reflexivity|reflexivity]|].
  split; cbn; [exact Hw3|done|by rewrite E4|exact E5|exact E6].
Qed.

Lemma leads_rename (r : repository T) serverId n value nm t out b running u :
  admin_credentials r serverId = Some credentials → t !! n = Some value → client_id value ≠ None → left_with t out b running u →
  leads (renameClient r serverId (Z.of_nat n) nm c true) u (λ e u', ∃ t' out' b' running',
    (e = ErrorCode.NoError ∧ entry <$> t' = <[n := (client_id value, nm)]> (entry <$> t) ∧ out' = out ++ [clientsUpdated t'] ∧
     b' = <[(name, table_file c) := toJson_array t']> b ∧ running' = running) ∧
    left_with t' out' b' running' u').
Proof.
  intros Hr Hv Hid Hu. unfold renameClient. apply leads_bind, leads_get. rewrite Nat2Z.id, (left_table _ _ _ _ _ Hu), Hv.
  rewrite (proj2 (Z.ltb_ge _ _)) by lia. rewrite Hr. apply (leads_session_rel _ t out b running u); [done|]. intros u1 H1.
  set (row := JObject _). apply leads_bind, leads_table. set (t' := <[n := row]> t).
  apply leads_bind. eapply leads_mono.
  { apply (leads_upload credentials c Ha Hc t' out b running). destruct H1. by split. }
  cbn beta. intros e u2 (-> & H2). cbn. apply leads_bind, leads_get, leads_bind, leads_emit, leads_ret.
  eexists t', _, _, _. split; [split_and!; [reflexivity| |reflexivity..]|].
  - unfold t'. rewrite list_fmap_insert. f_equal. unfold row. rewrite entry_user_data by done. f_equal.
    unfold text, Json.value. rewrite lookup_insert_ne, lookup_insert_eq by done. reflexivity.
  - eapply tell; [exact H2|]. by rewrite (left_table _ _ _ _ _ H2).
Qed.
End appending.

Section appended.
Context {W T : Type} {L : Libssh W} {V : ServerView W} {Sv : Server W} {TS : TunnelServer W}.
Context {J : JsonCodec} {P : ArrayPrinter} {JP : JsonPrinter} {U : UsersCodec W}.
Context (credentials : ServerCredentials) (c : DockerContainer).
Context (Ha : accepted credentials) (Hc : clear_host credentials).
Abbreviation name := (containerToString c).

(** The clients listed, from the entries. *)
Lemma ids_firsts table : ids table = omap (λ o, o) (fst <$> (entry <$> table)).
Proof. rewrite ids_entries. induction (entry <$> table) as [|v l IH]; [done|]. rewrite fmap_cons. cbn [omap list_omap]. by rewrite IH. Qed.
Lemma ids_after id nm t table :
  (entry <$> table = if 0 <=? clientIndexById id t then <[Z.to_nat (clientIndexById id t) := (Some id, nm)]> (entry <$> t)
                     else (entry <$> t) ++ [(Some id, nm)]) →
  ids table = if decide (id ∈ ids t) then ids t else ids t ++ [id].
Proof.
  intros E. rewrite (ids_firsts table), E. unfold clientIndexById. destruct (decide (id ∈ ids t)) as [Hin|Hin].
  - destruct (index_by_id_some 0 id t Hin) as (n & value & -> & Hv & Hid). rewrite (proj2 (Z.leb_le _ _)) by lia.
    rewrite Z.add_0_l, Nat2Z.id, list_fmap_insert, list_insert_id; [by rewrite <- ids_firsts|].
    rewrite !list_lookup_fmap, Hv. cbn. by rewrite Hid.
  - rewrite index_by_id_none by done. cbn. rewrite fmap_app, omap_app, <- ids_firsts. reflexivity.
Qed.

(** A client appended to the table of a container is its last row, or, when
    it is listed already, its row is given the new name; no other row changes
    its client or name, and the table in the container and the one shown are
    the same.  No client is listed twice if none was. *)
Theorem client_appended (r : repository T) serverId id nm d t u :
  admin_credentials r serverId = Some credentials → well_of u →
  boxes (seen_of u) !! (name, table_file c) = Some d → fromJson d = Some (JArray t) → t ≠ [] →
  let '(e, u') := appendClient r serverId id nm c u in
  ∃ table out,
    e = ErrorCode.NoError ∧
    left_with table (out ++ [clientsUpdated table]) (<[(name, table_file c) := toJson_array table]> (boxes (seen_of u)))
      (served (seen_of u)) u' ∧
    (entry <$> table = if 0 <=? clientIndexById id t then <[Z.to_nat (clientIndexById id t) := (Some id, nm)]> (entry <$> t)
                       else (entry <$> t) ++ [(Some id, nm)]) ∧
    (NoDup (ids t) → NoDup (ids table)) ∧ id ∈ ids table.
Proof.
  intros Hr Hw Hd Hj Ht. pose proof (left_self u Hw) as Hu.
  enough (leads (appendClient r serverId id nm c) u (λ e u', ∃ t' out' b' running',
    (e = ErrorCode.NoError ∧ (∃ out, out' = out ++ [clientsUpdated t']) ∧
     b' = <[(name, table_file c) := toJson_array t']> (boxes (seen_of u)) ∧ running' = served (seen_of u) ∧
     entry <$> t' = if 0 <=? clientIndexById id t then <[Z.to_nat (clientIndexById id t) := (Some id, nm)]> (entry <$> t)
                    else (entry <$> t) ++ [(Some id, nm)]) ∧
    left_with t' out' b' running' u')) as H.
  { unfold leads in H. destruct (appendClient r serverId id nm c u) as [e u']. cbn [fst snd] in H.
    destruct H as (t' & out' & b' & running' & (-> & (out & ->) & -> & -> & E) & H). exists t', out. split_and!; [done|done|done| |].
    - intros Hn. rewrite (ids_after _ _ _ _ E). destruct (decide _); [done|]. apply NoDup_app. split_and!; [done|set_solver|apply NoDup_singleton].
    - rewrite (ids_after _ _ _ _ E). destruct (decide _); set_solver. }
  unfold appendClient. rewrite Hr. apply (leads_session_rel _ _ _ _ _ _ _ Hu). intros u1 H1.
  apply leads_bind. eapply leads_mono; [by apply (leads_update credentials c Ha Hc r serverId d _ t _ _ _ _ Hr Hd Hj Ht H1)|].
  cbn beta. intros e u2 (t2 & out2 & b2 & running2 & (-> & (data & E2 & ->) & -> & ->) & H2). rewrite Z.eqb_refl. cbn [negb].
  assert (entry <$> t2 = entry <$> t) as Et by (rewrite E2; apply notes_entries).
  apply leads_bind, leads_get. rewrite (left_table _ _ _ _ _ H2).
  assert (clientIndexById id t2 = clientIndexById id t) as -> by by apply index_entries.
  destruct (decide (id ∈ ids t)) as [Hin|Hin].
  - unfold clientIndexById. destruct (index_by_id_some 0 id t Hin) as (n & value & -> & Hv & Hid). rewrite Z.add_0_l.
    rewrite (proj2 (Z.leb_le _ _)) by lia.
    assert (∃ value2, t2 !! n = Some value2 ∧ client_id value2 = Some id) as (value2 & Hv2 & Hid2).
    { apply (f_equal (λ l, l !! n)) in Et. rewrite !list_lookup_fmap, Hv in Et. cbn in Et.
      destruct (t2 !! n) as [value2|]; [|discriminate]. exists value2. split; [done|]. cbn in Et. injection Et as Ei _. by rewrite Ei. }
    eapply leads_mono; [eapply (leads_rename credentials c Ha Hc r serverId n value2 nm t2); [done|done|by rewrite Hid2|exact H2]|].
    cbn beta. intros e u3 (t3 & out3 & b3 & running3 & (-> & E3 & -> & -> & ->) & H3).
    eexists t3, _, _, _. split; [|exact H3]. split_and!; [done|by eexists|done|done|]. by rewrite E3, Et, Hid2, Nat2Z.id.
  - unfold clientIndexById. rewrite index_by_id_none by done. cbn [Z.leb Z.compare].
    set (client := new_client _ _). apply leads_bind, leads_table, leads_bind. eapply leads_mono.
    { eapply (leads_upload credentials c Ha Hc (t2 ++ [client]) _ _ _ _). destruct H2 as [Hw2 F1 F2 F3 F4]. by split. }
    cbn beta. intros e u3 (-> & H3). rewrite Z.eqb_refl. cbn [negb].
    apply leads_bind, leads_emit, leads_bind, leads_get, leads_bind, leads_emit, leads_ret.
    eexists (t2 ++ [client]), _, _, _. split; [|eapply tell; [eapply tell; [exact H3|reflexivity]|reflexivity]].
    split_and!; [done|eexists; by rewrite (left_table _ _ _ _ _ H3)|done|done|].
    rewrite fmap_app, Et. cbn [fmap list_fmap]. unfold client. rewrite entry_new. reflexivity.
Qed.
End appended.

(** *** A table made from the server's configuration *)
Definition numbered (keys : list string) : list (option string * string) :=
  imap (λ i k, (Some k, "Client " +:+ pretty (Z.of_nat i))) keys.
Lemma list_client_numbered s id :
  s.1 = Z.of_nat (length (ids s.2)) → entry <$> s.2 = numbered (ids s.2) →
  let s' := list_client s id in s'.1 = Z.of_nat (length (ids s'.2)) ∧ entry <$> s'.2 = numbered (ids s'.2).
Proof.
  intros Hn He. cbn zeta. pose proof (list_client_ids s id) as Hids. destruct s as [count t]. unfold list_client in *.
  destruct (isClientExists id t) eqn:E; [done|]. cbn [fst snd] in *. subst count.
  assert (ids (t ++ [new_client id (object [member "clientName" (JString ("Client " +:+ pretty (Z.of_nat (length (ids t)))))])]) =
    ids t ++ [id]) as Hi.
  { rewrite Hids, decide_False; [done|]. intros H. apply exists_ids in H. congruence. }
  rewrite Hi. split; [rewrite length_app; cbn; lia|].
  rewrite fmap_app, He. unfold numbered. rewrite imap_app. f_equal. cbn [fmap list_fmap imap]. rewrite entry_new. cbn.
  rewrite Nat.add_0_r. reflexivity.
Qed.
Lemma list_clients_numbered l s :
  s.1 = Z.of_nat (length (ids s.2)) → entry <$> s.2 = numbered (ids s.2) →
  entry <$> (list_clients l s).2 = numbered (ids (list_clients l s).2).
Proof.
  revert s. induction l as [|x l IH]; intros s Hn He; [done|]. unfold list_clients in *. cbn [foldl].
  destruct (list_client_numbered s x Hn He). by apply IH.
Qed.

Section listing.
Context {W T : Type} {L : Libssh W} {V : ServerView W} {Sv : Server W} {TS : TunnelServer W}.
Context {J : JsonCodec} {P : ArrayPrinter} {JP : JsonPrinter} {U : UsersCodec W}.
Context (credentials : ServerCredentials) (c : DockerContainer).
Context (Ha : accepted credentials) (Hc : clear_host credentials).
Abbreviation name := (containerToString c).

(** Where a WireGuard or AmneziaWG container has no table yet, the clients
    are those of the server's configuration: each public key in it is listed
    once, and nothing else, as Client 0, Client 1 and so on, and the table so
    made is put into the container. *)
Theorem clients_listed (r : repository T) serverId d config u :
  admin_credentials r serverId = Some credentials → is_wireguard c = true → well_of u →
  boxes (seen_of u) !! (name, table_file c) = Some d → toArray (fromJson d) = [] → toObject (fromJson d) = ∅ →
  boxes (seen_of u) !! (name, wg_config_path c) = Some config →
  let '(e, u') := updateClients r serverId c u in
  ∃ written,
    e = ErrorCode.NoError ∧ well_of u' ∧
    NoDup (ids written) ∧ (∀ key, key ∈ ids written ↔ key ∈ wireguard_keys config) ∧
    entry <$> written = numbered (ids written) ∧
    entry <$> m_clientsTable u' = entry <$> written ∧ emitted u' = emitted u ++ [clientsUpdated (m_clientsTable u')] ∧
    boxes (seen_of u') = <[(name, table_file c) := toJson_array written]> (boxes (seen_of u)).
Proof.
  intros Hr Hwg Hw Hd Ha1 Ho Hcfg. pose proof (left_self u Hw) as Hu.
  set (written := (list_clients (wireguard_keys config) (0, [])).2).
  enough (leads (updateClients r serverId c) u (λ e u', ∃ t' out' b' running',
    (e = ErrorCode.NoError ∧ (∃ data, t' = foldl note_client written data) ∧ out' = emitted u ++ [clientsUpdated t'] ∧
     b' = <[(name, table_file c) := toJson_array written]> (boxes (seen_of u))) ∧ left_with t' out' b' running' u')) as H.
  { unfold leads in H. destruct (updateClients r serverId c u) as [e u']. cbn [fst snd] in H.
    destruct H as (t' & out' & b' & running' & (-> & (data & E) & -> & ->) & [Hw' H1 H2 H3 H4]). exists written.
    destruct (list_clients_ids (wireguard_keys config) (0, []) (NoDup_nil_2)) as (N1 & N2 & _).
    split_and!; [done|done|exact N1| |by apply list_clients_numbered| |by rewrite H1|exact H3].
    - intros key. unfold written. rewrite N2. cbn. split; [intros [H|H]; [by apply elem_of_nil in H|done]|by right].
    - rewrite H1, E. apply notes_entries. }
  unfold updateClients. rewrite Hr. apply (leads_session_rel _ _ _ _ _ _ _ Hu). intros u1 H1. destruct table_file_ok with c as [Hp _].
  apply leads_pair. eapply leads_mono; [by apply (leads_get_file credentials c Ha (table_file c) d _ _ _ _ _ Hp Hd H1)|].
  intros r1 u2 (-> & H2). cbn [fst snd]. rewrite Z.eqb_refl. cbn [negb]. rewrite Ha1.
  apply leads_bind, leads_table.
  assert (migration d [] = []) as -> by (unfold migration; rewrite Ho; reflexivity).
  apply leads_bind. 
  apply (leads_mono _ _ (λ r u3, r = (ErrorCode.NoError, true) ∧ left_with written (emitted u)
    (<[(name, table_file c) := toJson_array written]> (boxes (seen_of u))) (served (seen_of u)) u3)).
  - assert (∀ s, listed c credentials s =
      '(config, error) ← getTextFileFromContainer c credentials (wg_config_path c);
      mret (error, if error =? ErrorCode.NoError then list_clients (wireguard_keys config) (0, s) else (0, s))) as Hl.
    { intros s. by destruct c. }
    apply leads_bind. rewrite Hl.
    apply (leads_mono _ _ (λ r u3, r = (ErrorCode.NoError, list_clients (wireguard_keys config) (0, [])) ∧
      left_with [] (emitted u) (boxes (seen_of u)) (served (seen_of u)) u3)).
    { destruct wg_path_ok with c as [Hp2 _].
      assert (left_with [] (emitted u) (boxes (seen_of u)) (served (seen_of u)) (mkUsers [] (emitted u2) (session u2))) as H2'.
      { destruct H2. by split. }
      pose proof (leads_get_file credentials c Ha (wg_config_path c) config [] _ _ _ _ Hp2 Hcfg H2') as Hg.
      unfold leads in *. unfold ssh in *. rewrite bind_run. cbn [session m_clientsTable emitted] in *.
      destruct (getTextFileFromContainer c credentials (wg_config_path c) (session u2)) as [[s e] c']. cbn [fst snd] in *.
      destruct Hg as [Hg1 Hg2]. injection Hg1 as -> ->. by split. }
    intros r2 u3 (-> & H3). cbn [fst snd]. destruct (list_clients (wireguard_keys config) (0, [])) as [count w] eqn:Ew.
    apply leads_bind, leads_table. rewrite Z.eqb_refl. cbn [negb]. unfold written in *. cbn [snd] in *.
    assert (left_with w (emitted u) (boxes (seen_of u)) (served (seen_of u)) (mkUsers w (emitted u3) (session u3))) as H3'.
    { destruct H3. by split. }
    destruct (String.eqb_spec d (toJson_array w)) as [Ed|_].
    + apply leads_ret. split; [done|]. rewrite insert_id by by rewrite <- Ed. exact H3'.
    + apply leads_bind. eapply leads_mono; [by eapply (leads_upload credentials c Ha Hc)|]. cbn beta. intros e u4 (-> & H4). by apply leads_ret.
  - intros r3 u3 (-> & H3). cbn [negb]. apply leads_pair. eapply leads_mono; [by apply (leads_wgShow credentials c Ha Hc written (emitted u) _ _ _ H3)|].
    intros r4 u4 (data & -> & H4). cbn [fst snd]. apply leads_bind, leads_get, leads_bind, leads_table, leads_bind, leads_get, leads_bind, leads_emit.
    apply leads_ret. destruct H4 as [Hw4 E4 E5 E6 E7]. cbn [m_clientsTable emitted session]. rewrite E4.
    eexists _, _, _, _. split; [split_and!; [reflexivity|by exists data|reflexivity|reflexivity]|].
    split; cbn; [exact Hw4|done|by rewrite E5|exact E6|exact E7].
Qed.
End listing.

(** ** A server with two clients *)
Module yard.
Definition row : json := JObject (object [member "clientId" (JString "KEY="); member "userData" (JObject ∅)]).
#[export] Instance codec : JsonCodec := {|
  toJson_compact _ := "";
  fromJson s := if String.eqb s "one" then Some (JArray [row]) else None;
|}.
#[export] Instance printer : ArrayPrinter := {| toJson_array _ := "printed" |}.
#[export] Instance users_codec : UsersCodec shelf.server := {| currentDateTime _ := "now" |}.
#[export] Instance documents : JsonPrinter := {| indented _ := "" |}.
Definition admin : gmap string json :=
  object [member "hostName" (JString "192.0.2.7"); member "userName" (JString "root"); member "password" (JString "secret");
          member "port" (JInt 22)].
Definition repo : repository unit := mkRepository tt {[ "s" := admin ]} ["s"] "s" [] 0.
Definition peer (key : string) : string := "Peer]" +:+ nl +:+ "PublicKey = " +:+ key +:+ nl.
Definition interface : string := "Interface]" +:+ nl +:+ "ListenPort = 51820" +:+ nl.
Definition sections : list string := [interface; peer "OTHER="; peer "KEY="].
Definition shop (table : string) : shelf.server :=
  shelf.mkServer None ∅ (<[("amnezia-wireguard", "/opt/amnezia/wireguard/clientsTable") := table]>
    {[ ("amnezia-wireguard", "/opt/amnezia/wireguard/wg0.conf") := sections_text sections ]}) ∅ 0.
Definition start (table : string) (rows : list json) : users shelf.server := mkUsers rows [] (mkClient false (shop table)).
End yard.
#[local] Existing Instances shelf.libssh shelf.server_view shelf.serves shelf.tunnels yard.codec yard.printer yard.documents yard.users_codec.

Lemma yard_credentials : admin_credentials yard.repo "s" = Some shelf.host.
Proof. vm_compute. reflexivity. Qed.

Lemma yard_accepted : accepted (W := shelf.server) shelf.host ∧ clear_host shelf.host.
Proof. split; [exact (eq_refl "secret")|split; vm_compute; reflexivity]. Qed.
Lemma yard_table table rows :
  boxes (seen_of (yard.start table rows)) !! (containerToString DockerContainer.WireGuard, table_file DockerContainer.WireGuard) = Some table.
Proof. apply lookup_insert_eq. Qed.
Lemma yard_config table rows :
  boxes (seen_of (yard.start table rows)) !! (containerToString DockerContainer.WireGuard, wg_config_path DockerContainer.WireGuard) =
  Some (sections_text yard.sections).
Proof. unfold yard.start, yard.shop. etrans; [by apply lookup_insert_ne|]. apply lookup_singleton_eq. Qed.

Lemma client_revoked_witness :
  let '(e, u) := revokeClient yard.repo "s" 0 DockerContainer.WireGuard (yard.start "one" [yard.row]) in
  e = ErrorCode.NoError ∧ m_clientsTable u = [] ∧
  served (seen_of u) = {[ "amnezia-wireguard" := sections_text [yard.interface; yard.peer "OTHER="] ]}.
Proof.
  destruct yard_accepted as [Ha Hc].
  assert (section_ok yard.interface ∧ section_ok (yard.peer "OTHER=") ∧ section_ok (yard.peer "KEY=")) as (H1 & H2 & H3).
  { repeat split; vm_compute; (discriminate || reflexivity). }
  assert (Forall (λ s, contains_str (text (row_object yard.row) "clientId") s = false) [yard.interface; yard.peer "OTHER="]) as Hb.
  { constructor; [vm_compute; reflexivity|constructor; [vm_compute; reflexivity|constructor]]. }
  pose proof (client_revoked shelf.host DockerContainer.WireGuard Ha Hc yard.repo "s" 0 yard.row
    [yard.interface; yard.peer "OTHER="] (yard.peer "KEY=") [] (yard.start "one" [yard.row]) yard_credentials eq_refl Logic.I eq_refl
    (yard_config "one" [yard.row]) (Forall_cons_2 _ _ _ H1 (Forall_cons_2 _ _ _ H2 (Forall_cons_2 _ _ _ H3 (Forall_nil_2 _))))
    Hb ltac:(vm_compute; reflexivity)) as H.
  change (Z.of_nat 0) with 0 in H. destruct (revokeClient _ _ _ _ _) as [e u]. destruct H as [-> [_ Ht _ _ Hs]].
  split_and!; [reflexivity|exact Ht|exact Hs].
Defined.

Lemma client_appended_witness :
  let '(e, u) := appendClient yard.repo "s" "NEW=" "Phone" DockerContainer.WireGuard (yard.start "one" []) in
  e = ErrorCode.NoError ∧ ∃ table, m_clientsTable u = table ∧ entry <$> table = [(Some "KEY=", ""); (Some "NEW=", "Phone")].
Proof.
  destruct yard_accepted as [Ha Hc].
  pose proof (client_appended shelf.host DockerContainer.WireGuard Ha Hc yard.repo "s" "NEW=" "Phone" "one" [yard.row] (yard.start "one" [])
    yard_credentials Logic.I (yard_table "one" []) eq_refl ltac:(discriminate)) as H.
  destruct (appendClient _ _ _ _ _ _) as [e u]. destruct H as (table & out & -> & [_ Ht _ _ _] & E & _).
  split; [reflexivity|]. exists table. split; [exact Ht|]. rewrite E. reflexivity.
Defined.

Lemma clients_listed_witness :
  let '(e, u) := updateClients yard.repo "s" DockerContainer.WireGuard (yard.start "" []) in
  e = ErrorCode.NoError ∧ ∃ l, entry <$> m_clientsTable u = numbered l ∧ "OTHER=" ∈ l ∧ "KEY=" ∈ l.
Proof.
  destruct yard_accepted as [Ha Hc].
  pose proof (clients_listed shelf.host DockerContainer.WireGuard Ha Hc yard.repo "s" "" (sections_text yard.sections) (yard.start "" [])
    yard_credentials eq_refl Logic.I (yard_table "" []) eq_refl eq_refl (yard_config "" [])) as H.
  destruct (updateClients _ _ _ _) as [e u]. destruct H as (written & -> & _ & _ & Hk & En & E & _).
  split; [reflexivity|]. exists (ids written). split; [by rewrite E|]. split; apply Hk; apply (bool_decide_unpack _); vm_compute; exact Logic.I.
Defined.
