(* ===== verification/Configurators.v ===== *)
(** * Configurators: the configuration of a new WireGuard client

    Models [core/configurators/wireguardConfigurator.cpp], [awgConfigurator.cpp]
    and [configuratorBase.cpp].  The keys of a client are made by a library
    ([ClientKeys]); addresses are printed and read by [Qt]. *)
From stdpp Require Import pretty.
From S2P Require Import Prelude Text Json IpAddress Qt Containers ProtocolConfigs XrayConfig ServerConfig Scripts SshSession.

(** [WireguardConfigurator::genClientKeys]: private and public key in base64,
    empty when no random bytes are to be had. *)
Class ClientKeys (W : Type) := { genClientKeys : W → (string * string) * W }.

Record DnsSettings := mkDns { primaryDns : string; secondaryDns : string }.

Record ConnectionData := mkConnectionData {
  clientPrivKey : string;
  clientPubKey : string;
  clientIP : string;
  serverPubKey : string;
  pskKey : string;
  host : string;
  port : string;
}.

(** What a configurator is made for: WireGuard or AmneziaWG. *)
Record configurator := mkConfigurator {
  m_serverConfigPath : string;
  m_serverPublicKeyPath : string;
  m_serverPskKeyPath : string;
  m_configTemplate : ProtocolScriptType;
  m_defaultPort : string;
}.
Definition new_configurator (isAwg : bool) : configurator :=
  if isAwg then
    mkConfigurator "/opt/amnezia/awg/awg0.conf" "/opt/amnezia/awg/wireguard_server_public_key.key" "/opt/amnezia/awg/wireguard_psk.key"
      awg_template "55424"
  else
    mkConfigurator "/opt/amnezia/wireguard/wg0.conf" "/opt/amnezia/wireguard/wireguard_server_public_key.key"
      "/opt/amnezia/wireguard/wireguard_psk.key" wireguard_template "51820".

(** ** Addresses *)
(** [(\d+\.\d+\.\d+\.\d+)] at the beginning of a text: what it captures. *)
Fixpoint take_digits (s : string) : string * string :=
  match s with
  | String ch s' => match digit_value ch with Some _ => let '(d, rest) := take_digits s' in (String ch d, rest) | None => ("", s) end
  | EmptyString => ("", s)
  end.
Fixpoint dotted (n : nat) (s : string) : option string :=
  let '(d, rest) := take_digits s in
  if String.eqb d "" then None else
  match n, rest with
  | O, _ => Some d
  | S n, String ch rest => if Ascii.eqb ch dot then (λ t, d +:+ String dot t) <$> dotted n rest else None
  | S _, EmptyString => None
  end.
Definition allowed : string := "AllowedIPs = ".
(** The matches of [AllowedIPs = (\d+\.\d+\.\d+\.\d+)] in their order; a match
    holds no other beginning of one. *)
Fixpoint matches (s : string) : list string :=
  match s with
  | String _ s' =>
      let rest := matches s' in
      if String.prefix allowed s then
        match dotted 3 (String.substring (String.length allowed) (String.length s) s) with Some a => a :: rest | None => rest end
      else rest
  | EmptyString => []
  end.

Definition isNull (h : QHostAddress) : bool := match h with HostNull => true | _ => false end.

(** The option [Some] of a text that is not empty, else the next. *)
Definition or_text (a b : option string) (d : string) : string :=
  match a with
  | Some s => if String.eqb s "" then match b with Some t => filled t d | None => d end else s
  | None => match b with Some t => filled t d | None => d end
  end.

Section configurator.
Context {W : Type} {L : Libssh W} {K : ClientKeys W} {Q : Qt} {R : Resources}.
Abbreviation M := (stM (client W)).

Definition getIpsFromConf (input : string) : list QHostAddress :=
  List.filter (λ h, negb (isNull h)) (host_of_string <$> matches input).

(** The address after the last one of the peers, or after the subnet's: an
    address that ends in 0 or 255 is left out. *)
Definition nextIp (ips : list QHostAddress) (subnetAddress : string) : QHostAddress :=
  let lastIp := toIPv4Address (List.last ips (host_of_string subnetAddress)) in
  let lastOctet := lastIp mod 256 in
  HostV4 ((if lastOctet =? 254 then lastIp + 3 else if lastOctet =? 255 then lastIp + 2 else lastIp + 1) mod 2 ^ 32).

Definition peer_part (pub psk ip : string) : string :=
  "[Peer]" +:+ nl +:+ "PublicKey = " +:+ pub +:+ nl +:+ "PresharedKey = " +:+ psk +:+ nl +:+ allowed +:+ ip +:+ "/32" +:+ nl +:+ nl.
Definition sync_text (c : DockerContainer) (configPath : string) : string :=
  let isAwg := bool_decide (c = DockerContainer.Awg2) in
  let bin := if isAwg then "awg" else "wg" in
  "sudo docker exec -i $CONTAINER_NAME bash -c '" +:+ bin +:+ " syncconf " +:+ (if isAwg then "awg0" else "wg0") +:+ " <(" +:+ bin +:+
  "-quick strip " +:+ configPath +:+ ")'".
Definition config_path (g : configurator) (c : DockerContainer) : string :=
  if bool_decide (c = DockerContainer.Awg) then "/opt/amnezia/awg/wg0.conf" else m_serverConfigPath g.

Definition prepareWireguardConfig (g : configurator) (credentials : ServerCredentials) (c : DockerContainer)
    (serverConfig : option WireGuardServerConfig) (awgServerConfig : option AwgServerConfig) (dns : DnsSettings) :
    M (ConnectionData * Z) :=
  '(priv, pub) ← call genClientKeys;
  let portStr := or_text (WireGuardServerConfig.port <$> serverConfig) (AwgServerConfig.port <$> awgServerConfig) (m_defaultPort g) in
  let data ip key psk := mkConnectionData priv pub ip key psk (cred_hostName credentials) portStr in
  if String.eqb priv "" || String.eqb pub "" then mret (data "" "" "", ErrorCode.InternalError) else
  let configPath := config_path g c in
  '(errorCode, stdOut) ←
    runContainerScript credentials c ("cat " +:+ configPath +:+ " | grep AllowedIPs") gather_lines no_callback "";
  if negb (errorCode =? ErrorCode.NoError) then mret (data "" "" "", errorCode) else
  let ips := getIpsFromConf stdOut in
  let subnetAddress :=
    or_text (WireGuardServerConfig.subnetAddress <$> serverConfig) (AwgServerConfig.subnetAddress <$> awgServerConfig) "10.8.1.0" in
  let ip := host_toString (nextIp ips subnetAddress) in
  '(key, errorCode) ← getTextFileFromContainer c credentials (m_serverPublicKeyPath g);
  let key := replace_str nl "" key in
  if negb (errorCode =? ErrorCode.NoError) then mret (data ip key "", errorCode) else
  '(psk, errorCode) ← getTextFileFromContainer c credentials (m_serverPskKeyPath g);
  let psk := replace_str nl "" psk in
  if negb (errorCode =? ErrorCode.NoError) then mret (data ip key psk, errorCode) else
  errorCode ← uploadTextFileToContainer c credentials (peer_part pub psk ip) configPath ScpAppendToExisting;
  if negb (errorCode =? ErrorCode.NoError) then mret (data ip key psk, errorCode) else
  errorCode ← run credentials
    (replaceVars (sync_text c configPath) (genBaseVars getIPAddress credentials c (primaryDns dns) (secondaryDns dns)));
  mret (data ip key psk, errorCode).

Definition all_ips : list string := ["0.0.0.0/0"; "::/0"].
Definition wireguard_of (p : ProtocolConfig) : option WireGuardProtocolConfig := match p with PWireGuard w => Some w | _ => None end.
Definition awg_of (p : ProtocolConfig) : option AwgProtocolConfig := match p with PAwg w => Some w | _ => None end.

Definition wireguard_createConfig (g : configurator) (credentials : ServerCredentials) (c : DockerContainer)
    (containerConfig : ProtocolConfig) (dns : DnsSettings) : M (WireGuardProtocolConfig * Z) :=
  let wireguard := wireguard_of containerConfig in
  let awg := awg_of containerConfig in
  let serverConfig := ProtocolConfigs.serverConfig <$> wireguard in
  let vars := genBaseVars getIPAddress credentials c (primaryDns dns) (secondaryDns dns) ++
              genProtocolVarsForContainer c containerConfig in
  let config := replaceVars (scriptData (m_configTemplate g) c) vars in
  '(connData, errorCode) ←
    prepareWireguardConfig g credentials c serverConfig (ProtocolConfigs.serverConfig <$> awg) dns;
  let empty := mkWithClient (WireGuardServerConfig.fromJson ∅) None in
  if negb (errorCode =? ErrorCode.NoError) then mret (empty, errorCode) else
  let config := replaceVars config
    [("$WIREGUARD_CLIENT_PRIVATE_KEY", clientPrivKey connData); ("$WIREGUARD_CLIENT_IP", clientIP connData);
     ("$WIREGUARD_SERVER_PUBLIC_KEY", serverPubKey connData); ("$WIREGUARD_PSK", pskKey connData)] in
  let mtu := or_text (w ← wireguard; WireGuardClientConfig.mtu <$> clientConfig w) (a ← awg; AwgClientConfig.mtu <$> clientConfig a)
               "1376" in
  mret (mkWithClient (default (WireGuardServerConfig.fromJson ∅) serverConfig)
          (Some (WireGuardClientConfig.mk config (host connData) (string_toInt (port connData)) (clientIP connData)
                   (clientPrivKey connData) (clientPubKey connData) (serverPubKey connData) (pskKey connData) (clientPubKey connData)
                   all_ips "25" mtu false)), errorCode).

(** ** AmneziaWG *)
Definition awg_line (m : gmap string string) (line : string) : gmap string string :=
  let trimmedLine := trimmed line in
  if startsWith "[" trimmedLine && endsWith "]" trimmedLine then m else
  match split_str " = " trimmedLine with
  | [k; v] => <[trimmed k := trimmed v]> m
  | _ => m
  end.
Definition awg_map (config : string) : gmap string string := foldl awg_line ∅ (lines_of config).

Definition awg_createConfig (credentials : ServerCredentials) (c : DockerContainer) (containerConfig : ProtocolConfig)
    (dns : DnsSettings) : M (AwgProtocolConfig * Z) :=
  let awg := awg_of containerConfig in
  '(wireguardConfig, errorCode) ← wireguard_createConfig (new_configurator true) credentials c containerConfig dns;
  let empty := mkWithClient (AwgServerConfig.fromJson ∅) None in
  if negb (errorCode =? ErrorCode.NoError) then mret (empty, errorCode) else
  match clientConfig wireguardConfig with
  | None => mret (empty, ErrorCode.InternalError)
  | Some w =>
      let config := WireGuardClientConfig.nativeConfig w in
      let field k := default "" (awg_map config !! k) in
      let awg2 k := if bool_decide (c = DockerContainer.Awg2) then field k else "" in
      let mtu := or_text (a ← awg; AwgClientConfig.mtu <$> clientConfig a) None "1376" in
      mret (mkWithClient (default (AwgServerConfig.fromJson ∅) (ProtocolConfigs.serverConfig <$> awg))
              (Some {| AwgClientConfig.nativeConfig := config;
                       AwgClientConfig.hostName := WireGuardClientConfig.hostName w;
                       AwgClientConfig.port := WireGuardClientConfig.port w;
                       AwgClientConfig.clientIp := WireGuardClientConfig.clientIp w;
                       AwgClientConfig.clientPrivateKey := WireGuardClientConfig.clientPrivateKey w;
                       AwgClientConfig.clientPublicKey := WireGuardClientConfig.clientPublicKey w;
                       AwgClientConfig.serverPublicKey := WireGuardClientConfig.serverPublicKey w;
                       AwgClientConfig.presharedKey := WireGuardClientConfig.presharedKey w;
                       AwgClientConfig.clientId := WireGuardClientConfig.clientId w;
                       AwgClientConfig.allowedIps := WireGuardClientConfig.allowedIps w;
                       AwgClientConfig.persistentKeepAlive := WireGuardClientConfig.persistentKeepAlive w;
                       AwgClientConfig.mtu := mtu;
                       AwgClientConfig.junkPacketCount := field "Jc";
                       AwgClientConfig.junkPacketMinSize := field "Jmin";
                       AwgClientConfig.junkPacketMaxSize := field "Jmax";
                       AwgClientConfig.initPacketJunkSize := field "S1";
                       AwgClientConfig.responsePacketJunkSize := field "S2";
                       AwgClientConfig.cookieReplyPacketJunkSize := awg2 "S3";
                       AwgClientConfig.transportPacketJunkSize := awg2 "S4";
                       AwgClientConfig.initPacketMagicHeader := field "H1";
                       AwgClientConfig.responsePacketMagicHeader := field "H2";
                       AwgClientConfig.underloadPacketMagicHeader := field "H3";
                       AwgClientConfig.transportPacketMagicHeader := field "H4";
                       AwgClientConfig.specialJunk1 := field "I1";
                       AwgClientConfig.specialJunk2 := field "I2";
                       AwgClientConfig.specialJunk3 := field "I3";
                       AwgClientConfig.specialJunk4 := field "I4";
                       AwgClientConfig.specialJunk5 := field "I5";
                       AwgClientConfig.headerProtectionKey := "";
                       AwgClientConfig.contentPaddingAddition := "";
                       AwgClientConfig.rekeyAfterTime := "";
                       AwgClientConfig.rekeyTimeout := "";
                       AwgClientConfig.rejectAfterTime := "";
                       AwgClientConfig.keepaliveTimeout := "";
                       AwgClientConfig.maxHandshakeAttempts := "";
                       AwgClientConfig.isObfuscationEnabled := false |}), errorCode)
  end.
End configurator.

(** ** What every configurator does with a configuration *)
Definition applyDnsToNativeConfig (dns : DnsSettings) (p : ProtocolConfig) : ProtocolConfig :=
  ProtocolConfig.setNativeConfig
    (replaceVars (ProtocolConfig.nativeConfig p) [("$PRIMARY_DNS", primaryDns dns); ("$SECONDARY_DNS", secondaryDns dns)]) p.

(** ** Addresses are read back *)
Definition in_ipv4 (a : Z) : Prop := 0 ≤ a < 2 ^ 32.
Definition print (a : Z) : string := dotted_print (HostV4 a).
(** The dotted form of addresses. *)
Record ip_laws (Q : Qt) : Prop := {
  print_law a : in_ipv4 a → host_toString (HostV4 a) = print a;
  read_law a : in_ipv4 a → host_of_string (print a) = HostV4 a;
}.

Lemma digits_no_char ch s : all_digits s = true → digit_value ch = None → contains_char ch s = false.
Proof.
  intros Hs Hc. induction s as [|x s IH]; [done|]. cbn in *. destruct (digit_value x) eqn:E; [|done].
  rewrite IH, orb_false_r by done. apply Ascii.eqb_neq. intros ->. congruence.
Qed.
Lemma take_digits_app s ch rest :
  all_digits s = true → digit_value ch = None → take_digits (s +:+ String ch rest) = (s, String ch rest).
Proof.
  intros Hs Hc. induction s as [|x s IH]; [rewrite append_nil_l; cbn; by rewrite Hc|]. rewrite append_String. cbn in *.
  destruct (digit_value x); [|done]. by rewrite IH.
Qed.

Lemma print_bytes a :
  in_ipv4 a →
  print a = pretty (a / 16777216) +:+ String dot (pretty (a / 65536 mod 256) +:+ String dot (pretty (a / 256 mod 256) +:+ String dot (pretty (a mod 256)))).
Proof. reflexivity. Qed.
Lemma byte_digits a n : in_ipv4 a → all_digits (pretty (a / n mod 256)) = true ∧ pretty (a / n mod 256) ≠ "".
Proof. intros Ha. apply pretty_digits. apply Z.mod_pos_bound. lia. Qed.

Lemma dotted_print_read a ch rest :
  in_ipv4 a → digit_value ch = None → dotted 3 (print a +:+ String ch rest) = Some (print a).
Proof.
  intros Ha Hc. rewrite print_bytes by done. unfold in_ipv4 in Ha.
  destruct (pretty_digits (a / 16777216)) as [A1 A2]; [apply Z.div_pos; lia|].
  destruct (pretty_digits (a / 65536 mod 256)) as [B1 B2]; [apply Z.mod_pos_bound; lia|].
  destruct (pretty_digits (a / 256 mod 256)) as [C1 C2]; [apply Z.mod_pos_bound; lia|].
  destruct (pretty_digits (a mod 256)) as [D1 D2]; [apply Z.mod_pos_bound; lia|].
  repeat first [rewrite string_app_assoc | rewrite append_String]. cbn [dotted].
  rewrite take_digits_app, (proj2 (String.eqb_neq _ "") A2), Ascii.eqb_refl by done. cbn [dotted].
  rewrite take_digits_app, (proj2 (String.eqb_neq _ "") B2), Ascii.eqb_refl by done. cbn [dotted].
  rewrite take_digits_app, (proj2 (String.eqb_neq _ "") C2), Ascii.eqb_refl by done. cbn [dotted].
  rewrite take_digits_app, (proj2 (String.eqb_neq _ "") D2) by done. reflexivity.
Qed.

Lemma plain_ip_laws : ip_laws plain_qt.
Proof.
  split; intros a Ha; [done|]. change (host_of_string (print a)) with (dotted_host (print a)). unfold dotted_host.
  rewrite print_bytes by done. unfold in_ipv4 in Ha.
  destruct (pretty_digits (a / 16777216)) as [A1 A2]; [apply Z.div_pos; lia|].
  destruct (pretty_digits (a / 65536 mod 256)) as [B1 B2]; [apply Z.mod_pos_bound; lia|].
  destruct (pretty_digits (a / 256 mod 256)) as [C1 C2]; [apply Z.mod_pos_bound; lia|].
  destruct (pretty_digits (a mod 256)) as [D1 D2]; [apply Z.mod_pos_bound; lia|].
  assert (∀ x y, contains_char slash (x +:+ String dot y) = contains_char slash x || contains_char slash y) as Hs
    by (intros; by rewrite contains_char_app).
  rewrite !Hs, !(digits_no_char slash) by done. cbn [orb].
  rewrite !split_char_line, split_char_none by by apply digits_no_char.
  rewrite !atoi_pretty by first [apply Z.div_pos; lia | apply Z.mod_pos_bound; lia]. f_equal.
  replace (a / 16777216) with (a / 256 / 256 / 256) by (rewrite !Z.div_div by lia; reflexivity).
  replace (a / 65536) with (a / 256 / 256) by (rewrite Z.div_div by lia; reflexivity).
  pose proof (Z.div_mod a 256). pose proof (Z.div_mod (a / 256) 256). pose proof (Z.div_mod (a / 256 / 256) 256). lia.
Qed.

(** ** The lines of the peers *)
Definition letter_A : Ascii.ascii := Ascii.ascii_of_nat 65.
Lemma matches_skip t s : contains_char letter_A t = false → matches (t +:+ s) = matches s.
Proof.
  intros Ht. induction t as [|x t IH]; [done|]. cbn [contains_char] in Ht. apply orb_false_iff in Ht as [Hx Ht].
  apply Ascii.eqb_neq in Hx. rewrite append_String. cbn [matches]. rewrite IH by done.
  assert (String.prefix allowed (String x (t +:+ s)) = false) as ->; [|done].
  change (String.prefix allowed (String x (t +:+ s))) with
    (if Ascii.ascii_dec letter_A x then String.prefix "llowedIPs = " (t +:+ s) else false).
  destruct (Ascii.ascii_dec letter_A x); [congruence|done].
Qed.
Definition peer_line (a : Z) : string := allowed +:+ print a +:+ "/32".
Lemma print_no_A a : in_ipv4 a → contains_char letter_A (print a) = false.
Proof.
  intros Ha. rewrite print_bytes by done. unfold in_ipv4 in Ha.
  assert (∀ x y, contains_char letter_A (x +:+ String dot y) = contains_char letter_A x || contains_char letter_A y) as Hs
    by (intros; by rewrite contains_char_app).
  rewrite !Hs, !(digits_no_char letter_A); [done|..]; try done; apply pretty_digits; first [apply Z.div_pos; lia | apply Z.mod_pos_bound; lia].
Qed.
Lemma matches_line a s : in_ipv4 a → matches (peer_line a +:+ nl +:+ s) = print a :: matches s.
Proof.
  intros Ha. unfold peer_line. rewrite !string_app_assoc. set (t := "/32" +:+ nl +:+ s).
  change (allowed +:+ print a +:+ t) with (String letter_A ("llowedIPs = " +:+ print a +:+ t)). cbn [matches].
  assert (String.prefix allowed (String letter_A ("llowedIPs = " +:+ print a +:+ t)) = true) as ->.
  { change (String letter_A ("llowedIPs = " +:+ print a +:+ t)) with (allowed +:+ print a +:+ t). apply prefix_self. }
  change (String letter_A ("llowedIPs = " +:+ print a +:+ t)) with (allowed +:+ print a +:+ t).
  rewrite substring_rest by (rewrite !string_app_length; lia).
  change t with (String slash ("32" +:+ nl +:+ s)). rewrite dotted_print_read by done.
  f_equal. rewrite (matches_skip "llowedIPs = ") by done. rewrite matches_skip by by apply print_no_A.
  change (String slash ("32" +:+ nl +:+ s)) with (("/32" +:+ nl) +:+ s). by apply matches_skip.
Qed.

(** ** The address of a new client *)
Definition next (a : Z) : Z := if a mod 256 =? 254 then a + 3 else if a mod 256 =? 255 then a + 2 else a + 1.
Lemma next_after a : 0 ≤ a → a < next a ∧ 0 < next a mod 256 < 255.
Proof.
  intros Ha. unfold next. pose proof (Z.mod_pos_bound a 256 ltac:(lia)). pose proof (Z.div_mod a 256 ltac:(lia)).
  destruct (Z.eqb_spec (a mod 256) 254) as [E|E]; [|destruct (Z.eqb_spec (a mod 256) 255) as [E'|E']]; (split; [lia|]).
  - rewrite <- (Z.mod_unique (a + 3) 256 (a / 256 + 1) 1); lia.
  - rewrite <- (Z.mod_unique (a + 2) 256 (a / 256 + 1) 1); lia.
  - rewrite <- (Z.mod_unique (a + 1) 256 (a / 256) (a mod 256 + 1)); lia.
Qed.

(** A configuration of a server: in the lines that hold [AllowedIPs] stand these
    addresses, and it ends with a line's end. *)
Definition peers_of (d : string) (addrs : list Z) : Prop :=
  grep "AllowedIPs" d = peer_line <$> addrs ∧ (d = "" ∨ ∃ d', d = d' +:+ nl).
Lemma lines_app d e : lines_of (d +:+ nl +:+ e) = lines_of d ++ lines_of e.
Proof. apply shelf.split_app. Qed.
Lemma grep_app d e : (d = "" ∨ ∃ d', d = d' +:+ nl) → grep "AllowedIPs" (d +:+ e) = grep "AllowedIPs" d ++ grep "AllowedIPs" e.
Proof.
  unfold grep. intros [-> |[d' ->]]; [done|]. rewrite string_app_assoc, lines_app.
  pose proof (lines_app d' "") as H. rewrite append_nil_r in H. rewrite H, !List.filter_app. cbn. by rewrite app_nil_r.
Qed.

(** Texts without the letter that begins [AllowedIPs]. *)
Lemma no_A_contains s : contains_char letter_A s = false → contains_str "AllowedIPs" s = false.
Proof.
  induction s as [|x s IH]; [done|]. cbn [contains_char]. intros [Hx Hs]%orb_false_iff. apply Ascii.eqb_neq in Hx.
  rewrite contains_str_cons by done. rewrite IH by done.
  change (String.prefix "AllowedIPs" (String x s)) with (if Ascii.ascii_dec letter_A x then String.prefix "llowedIPs" s else false).
  destruct (Ascii.ascii_dec letter_A x); [congruence|done].
Qed.
Lemma contains_str_prefix sub s : sub ≠ "" → contains_str sub (sub +:+ s) = true.
Proof.
  intros Hs. destruct sub as [|x sub]; [done|]. rewrite append_String, contains_str_cons by done.
  pose proof (prefix_self (String x sub) s) as Hp. rewrite append_String in Hp. by rewrite Hp.
Qed.
Lemma contains_right sub a b : sub ≠ "" → contains_str sub b = true → contains_str sub (a +:+ b) = true.
Proof. intros Hs Hb. induction a as [|x a IH]; [done|]. rewrite append_String, contains_str_cons, IH by done. apply orb_true_r. Qed.

(** *** The peers of a configuration grow by one *)
Definition key_ok (s : string) : Prop := plain s = true ∧ contains_str "AllowedIPs" s = false.
Lemma contains_skip t s : contains_char letter_A t = false → contains_str "AllowedIPs" (t +:+ s) = contains_str "AllowedIPs" s.
Proof.
  induction t as [|x t IH]; [done|]. cbn [contains_char]. intros [Hx Ht]%orb_false_iff. apply Ascii.eqb_neq in Hx.
  rewrite append_String, contains_str_cons, IH by done.
  change (String.prefix "AllowedIPs" (String x (t +:+ s))) with (if Ascii.ascii_dec letter_A x then String.prefix "llowedIPs" (t +:+ s) else false).
  destruct (Ascii.ascii_dec letter_A x); [congruence|done].
Qed.
Lemma plain_no_nl s : plain s = true → contains_char newline s = false.
Proof. by apply all_chars_contains. Qed.
Lemma print_no_nl a : in_ipv4 a → contains_char newline (print a) = false.
Proof.
  intros Ha. rewrite print_bytes by done. unfold in_ipv4 in Ha.
  assert (∀ x y, contains_char newline (x +:+ String dot y) = contains_char newline x || contains_char newline y) as Hs
    by (intros; by rewrite contains_char_app).
  rewrite !Hs, !(digits_no_char newline); [done|..]; try done; apply pretty_digits; first [apply Z.div_pos; lia | apply Z.mod_pos_bound; lia].
Qed.
Lemma grep_peer pub psk a :
  key_ok pub → key_ok psk → in_ipv4 a → grep "AllowedIPs" (peer_part pub psk (print a)) = [peer_line a].
Proof.
  intros [P1 P2] [S1 S2] Ha. unfold grep, lines_of.
  assert (peer_part pub psk (print a) = "[Peer]" +:+ String newline (("PublicKey = " +:+ pub) +:+ String newline
    (("PresharedKey = " +:+ psk) +:+ String newline (peer_line a +:+ String newline (String newline ""))))) as E.
  { unfold peer_part, peer_line. by rewrite !string_app_assoc. }
  rewrite E. clear E.
  rewrite split_char_line by done.
  rewrite split_char_line by (rewrite contains_char_app; by apply plain_no_nl).
  rewrite split_char_line by (rewrite contains_char_app; by apply plain_no_nl).
  rewrite split_char_line by (unfold peer_line; by rewrite !contains_char_app, print_no_nl).
  cbn [split_char List.filter]. change (Ascii.eqb newline newline) with true. cbn [List.filter].
  rewrite !contains_skip, P2, S2 by done. change (contains_str "AllowedIPs" "[Peer]") with false. cbn [List.filter].
  change (contains_str "AllowedIPs" (peer_line a)) with (contains_str "AllowedIPs" ("AllowedIPs" +:+ " = " +:+ print a +:+ "/32")).
  rewrite (contains_str_prefix "AllowedIPs" (" = " +:+ print a +:+ "/32")) by done. reflexivity.
Qed.
Lemma peers_grow d addrs pub psk a :
  peers_of d addrs → key_ok pub → key_ok psk → in_ipv4 a → peers_of (d +:+ peer_part pub psk (print a)) (addrs ++ [a]).
Proof.
  intros [Hg He] Hp Hs Ha. split; [by rewrite grep_app, Hg, grep_peer, fmap_app|]. right.
  eexists (d +:+ "[Peer]" +:+ nl +:+ "PublicKey = " +:+ pub +:+ nl +:+ "PresharedKey = " +:+ psk +:+ nl +:+ allowed +:+ print a +:+ "/32" +:+ nl).
  unfold peer_part. by rewrite !string_app_assoc.
Qed.

(** What the addresses are read from: pieces of the lines, however they are cut.
    The last address is read when the last line came in one piece. *)
Definition uncut (addrs : list Z) (out : list string) : Prop :=
  addrs = [] ∨ ∃ pre p a l, addrs = l ++ [a] ∧ out = pre ++ [p +:+ peer_line a +:+ nl].
Lemma matches_after t s : ∃ l, matches (t +:+ s) = l ++ matches s.
Proof.
  induction t as [|x t [l IH]]; [by exists []|]. rewrite append_String. cbn [matches]. rewrite IH.
  destruct (String.prefix _ _); [|by exists l]. destruct (dotted _ _) as [a|]; [by exists (a :: l)|by exists l].
Qed.
Lemma concat_nothing (out : list string) : String.concat "" out = "" → matches (text_of out) = [].
Proof.
  induction out as [|s out IH]; [done|]. rewrite concat_empty_cons. intros E.
  destruct s as [|x s]; [|by rewrite append_String in E]. rewrite append_nil_l in E. unfold text_of in *.
  rewrite fmap_cons, concat_empty_cons, append_nil_l. rewrite matches_skip by done. by apply IH.
Qed.

(** ** A client is added *)
(** Keys are texts of base64. *)
Class KeyLaws (W : Type) {V : ServerView W} {K : ClientKeys W} : Prop := {
  keys_law w : well w →
    let '((priv, pub), w') := genClientKeys w in same w w' ∧ priv ≠ "" ∧ pub ≠ "" ∧ key_ok pub;
}.

Definition wireguard_container (c : DockerContainer) : bool :=
  bool_decide (c ∈ [DockerContainer.WireGuard; DockerContainer.Awg; DockerContainer.Awg2]).

(** A server with these files in its containers and these tunnels. *)
Record stands {W} {V : ServerView W} (b : gmap (string * string) string) (running : gmap string string) (x : client W) : Prop := {
  stands_well : well (world x);
  stands_boxes : boxes (seen (world x)) = b;
  stands_served : served (seen (world x)) = running;
}.

Lemma endsWith_app p s : endsWith p (s +:+ p) = true.
Proof.
  unfold endsWith. rewrite string_app_length. rewrite (proj2 (Nat.leb_le _ _)) by lia. cbn [andb].
  replace (String.length s + String.length p - String.length p)%nat with (String.length s) by lia.
  rewrite substring_rest by lia. apply String.eqb_refl.
Qed.

Section adding.
Context {W : Type} {L : Libssh W} {V : ServerView W} {Sv : Server W} {TS : TunnelServer W} {SS : ShellServer W}.
Context {K : ClientKeys W} {KL : KeyLaws W} {Q : Qt} {R : Resources}.
Context (credentials : ServerCredentials) (c : DockerContainer).
Context (Ha : accepted credentials) (Hc : clear_host credentials) (Hwg : wireguard_container c = true).
Abbreviation name := (containerToString c).
Abbreviation g := (new_configurator (isAwgContainer c)).
Abbreviation path := (config_path g c).

Lemma wg_cases : c = DockerContainer.WireGuard ∨ c = DockerContainer.Awg ∨ c = DockerContainer.Awg2.
Proof. clear -Hwg. apply bool_decide_eq_true in Hwg. set_solver. Qed.
Lemma paths_ok :
  plain path = true ∧ startsWith "/" path = true ∧ endsWith ".sh" path = false ∧ startsWith "/tmp/" path = false ∧
  plain (m_serverPublicKeyPath g) = true ∧ endsWith ".sh" (m_serverPublicKeyPath g) = false ∧
  plain (m_serverPskKeyPath g) = true ∧ endsWith ".sh" (m_serverPskKeyPath g) = false.
Proof. destruct wg_cases as [-> | [-> | ->]]; vm_compute; auto 10. Qed.

Ltac tame_script := unfold tame, quoted, dquote in *; rewrite ?all_chars_app; by repeat
  match goal with H : all_chars tame_char _ = true |- _ => rewrite H; clear H end.

(** Scripts that only speak. *)
Lemma leads_says script v (P : list string → Prop) s x :
  tame script = true → script ≠ "" → startsWith "#" script = false → well (world x) →
  (∀ w, same (world x) w → answers script w v (λ out _, P out)) →
  leads (runScript credentials script gather_lines no_callback s) x (λ r x',
    ∃ out, r = (ErrorCode.NoError, s +:+ text_of out) ∧ P out ∧ well (world x') ∧ seen (world x') = v).
Proof.
  intros Ht Hne Hs Hw Hans.
  eapply leads_mono; [apply (run_leads credentials script v (λ out _, P out) (λ d x, x +:+ d +:+ nl) (λ _ x, x)); done|].
  intros [e y] x' (He & Hw' & Hv & out & err & Hy & HP). cbn [fst snd] in *. subst e y. exists out.
  assert (∀ z, foldl (λ x (_ : string), x) z err = z) as -> by by induction err. by rewrite gather_text.
Qed.

Lemma leads_addresses d b running x :
  b !! (name, path) = Some d → stands b running x →
  leads (runContainerScript credentials c ("cat " +:+ path +:+ " | grep AllowedIPs") gather_lines no_callback "") x (λ r x',
    ∃ out b', r = (ErrorCode.NoError, text_of out) ∧ String.concat "" out = lines_text (grep "AllowedIPs" d) ∧
      (∀ p, endsWith ".sh" p = false → b' !! (name, p) = b !! (name, p)) ∧ stands b' running x').
Proof.
  intros Hd [Hw Hb Hr]. destruct paths_ok as (P1 & P2 & P3 & _). unfold runContainerScript. apply leads_bind, leads_call.
  destruct (random_law _ Hw) as [Hrn [Hw1 H1]]. set (file := "/opt/amnezia/" +:+ _ +:+ ".sh").
  assert (plain file = true) as Hf.
  { unfold file, plain in *. fold (all_chars plain_char (getRandomString (world x)).1) in Hrn.
    fold (all_chars plain_char ("/opt/amnezia/" +:+ (getRandomString (world x)).1 +:+ ".sh")). by rewrite !all_chars_app, Hrn. }
  assert (endsWith ".sh" file = true) as Hsh by (unfold file; rewrite <- string_app_assoc; apply endsWith_app).
  apply leads_bind. eapply leads_mono; [apply (upload_leads credentials c Ha Hc); [exact Hf|done|exact Hw1]|].
  cbn beta. intros e x2 (-> & Hw2 & tmp & _ & H2). rewrite Z.eqb_refl. cbn [negb].
  assert (bool_decide (c ∈ [DockerContainer.Socks5Proxy; DockerContainer.MtProxy; DockerContainer.Telemt]) = false) as ->.
  { apply bool_decide_eq_false. destruct wg_cases as [-> | [-> | ->]]; set_solver. }
  pose proof (name_plain c) as Hn.
  assert (∀ verb, no_dollar verb = true → replaceVars ("sudo docker exec -i $CONTAINER_NAME" +:+ verb +:+ file +:+ " ") (base_vars credentials c) =
    "sudo docker exec -i " +:+ name +:+ verb +:+ file +:+ " ") as Hfill.
  { intros verb Hv. apply (fill_tail credentials c Hc). repeat apply no_dollar_app; try done. by apply plain_no_dollar. }
  cbv zeta. pose proof (Hfill " bash " eq_refl) as Hrun. pose proof (Hfill " rm " eq_refl) as Hrm. clear Hfill.
  change ("sudo docker exec -i $CONTAINER_NAME " +:+ "bash" +:+ " " +:+ file +:+ " ") with
    ("sudo docker exec -i $CONTAINER_NAME" +:+ " bash " +:+ file +:+ " ").
  change ("sudo docker exec -i $CONTAINER_NAME rm " +:+ file +:+ " ") with ("sudo docker exec -i $CONTAINER_NAME" +:+ " rm " +:+ file +:+ " ").
  rewrite Hrun, Hrm.
  assert (boxes (seen (world x2)) = <[(name, file) := "cat " +:+ path +:+ " | grep AllowedIPs"]> b) as Hb2.
  { rewrite H2. cbn [world]. rewrite H1. cbn. by rewrite Hb. }
  apply leads_pair. eapply leads_mono.
  { apply (leads_says _ (seen (world x2)) (λ out, String.concat "" out = lines_text (grep "AllowedIPs" d))).
    - apply plain_tame in Hf, Hn. tame_script.
    - done.
    - done.
    - exact Hw2.
    - intros w [Hw' E]. rewrite <- E. apply (grep_law name file path d w); [done|done|done|exact Hw'|..]; rewrite E, Hb2.
      + apply lookup_insert_eq.
      + rewrite lookup_insert_ne; [done|]. intros [= E']. congruence. }
  intros r x3 (out & -> & Hout & Hw3 & H3). cbn [fst snd]. apply leads_pair. eapply leads_mono.
  { apply (leads_says _ (without_box name file (seen (world x3))) (λ out, out = [])).
    - apply plain_tame in Hf, Hn. tame_script.
    - done.
    - done.
    - exact Hw3.
    - intros w [Hw' E]. rewrite <- E. by apply rm_law. }
  intros r x4 (out4 & -> & -> & Hw4 & H4). cbn [fst snd]. apply leads_ret.
  exists out, (delete (name, file) (boxes (seen (world x2)))). split_and!.
  - by rewrite append_nil_l, append_nil_r.
  - done.
  - intros p Hp. rewrite lookup_delete_ne, Hb2, lookup_insert_ne by (intros [= E]; congruence). done.
  - split; [exact Hw4|by rewrite H4, H3|]. rewrite H4, H3. cbn. rewrite H2. cbn [world]. rewrite H1. cbn. by rewrite Hr.
Qed.
End adding.

(** Addresses rise from one peer to the next. *)
Fixpoint rising (l : list Z) : Prop :=
  match l with [] => True | a :: l => in_ipv4 a ∧ Forall (λ b, a < b) l ∧ rising l end.
Lemma rising_last l d : rising l → l ≠ [] → in_ipv4 (List.last l d) ∧ Forall (λ b, b ≤ List.last l d) l.
Proof.
  induction l as [|a l IH]; [done|]. intros (Ha & Hl & Hr) _. destruct l as [|b l].
  - cbn. split; [done|by repeat constructor].
  - destruct (IH Hr) as [H1 H2]; [done|]. change (List.last (a :: b :: l) d) with (List.last (b :: l) d). split; [done|].
    constructor; [|done]. apply Forall_cons in Hl as [Hb _]. apply Forall_cons in H2 as [H2 _]. lia.
Qed.
Lemma rising_app l a : rising l → Forall (λ b, b < a) l → in_ipv4 a → rising (l ++ [a]).
Proof.
  induction l as [|b l IH]; [intros _ _ Ha; split_and!; [exact Ha|constructor|exact Logic.I]|]. intros (Hb & Hl & Hr) [Hba Hla]%Forall_cons Ha. cbn [app rising].
  split_and!; [done| |by apply IH]. apply Forall_app. split; [done|by repeat constructor].
Qed.
Lemma rising_in l : rising l → Forall in_ipv4 l.
Proof. induction l as [|a l IH]; [constructor|]. intros (Ha & _ & Hr). constructor; [done|by apply IH]. Qed.
Lemma rising_nodup l : rising l → NoDup l.
Proof.
  induction l as [|a l IH]; [constructor|]. intros (Ha & Hl & Hr). constructor; [|by apply IH]. intros Hin.
  rewrite Forall_forall in Hl. specialize (Hl _ Hin). lia.
Qed.

Section added.
Context {W : Type} {L : Libssh W} {V : ServerView W} {Sv : Server W} {TS : TunnelServer W} {SS : ShellServer W}.
Context {K : ClientKeys W} {KL : KeyLaws W} {Q : Qt} {R : Resources}.
Context (credentials : ServerCredentials) (c : DockerContainer).
Context (Ha : accepted credentials) (Hc : clear_host credentials) (Hwg : wireguard_container c = true).
Abbreviation name := (containerToString c).
Abbreviation g := (new_configurator (isAwgContainer c)).
Abbreviation path := (config_path g c).

Lemma leads_run_sync dns b running d (x : client W) :
  no_dollar (primaryDns dns) = true → no_dollar (secondaryDns dns) = true → b !! (name, path) = Some d → stands b running x →
  leads (run credentials (replaceVars (sync_text c path) (genBaseVars getIPAddress credentials c (primaryDns dns) (secondaryDns dns)))) x
    (λ e x', e = ErrorCode.NoError ∧ stands b (<[name := d]> running) x').
Proof.
  intros D1 D2 Hd [Hw Hb Hr]. destruct (paths_ok c Hwg) as (P1 & _).
  set (tool := if bool_decide (c = DockerContainer.Awg2) then "awg" else "wg").
  set (iface := if bool_decide (c = DockerContainer.Awg2) then "awg0" else "wg0").
  set (rest := " bash -c '" +:+ tool +:+ " syncconf " +:+ iface +:+ " <(" +:+ tool +:+ "-quick strip " +:+ path +:+ ")'").
  assert (replaceVars (sync_text c path) (genBaseVars getIPAddress credentials c (primaryDns dns) (secondaryDns dns)) =
    "sudo docker exec -i " +:+ name +:+ rest) as ->.
  { apply (fill_name credentials c _ _ Hc D1 D2 "sudo docker exec -i " rest eq_refl). unfold rest, tool, iface.
    destruct (wg_cases c Hwg) as [-> | [-> | ->]]; reflexivity. }
  eapply leads_mono; [apply (run_effect credentials Ha _ (with_served name d (seen (world x))))|].
  - unfold rest, tool, iface. destruct (wg_cases c Hwg) as [-> | [-> | ->]]; reflexivity.
  - done.
  - done.
  - exact Hw.
  - intros w [Hw' E]. rewrite <- E. apply sync_law; [apply name_plain| | |exact P1|exact Hw'|by rewrite E, Hb].
    + unfold tool. by case_bool_decide.
    + unfold iface. by case_bool_decide.
  - cbn beta. intros e x' (-> & Hw' & E). split; [done|]. split; [exact Hw'|by rewrite E|]. rewrite E. cbn. by rewrite Hr.
Qed.

Lemma leads_append data d b running (x : client W) :
  b !! (name, path) = Some d → stands b running x →
  leads (uploadTextFileToContainer c credentials data path ScpAppendToExisting) x (λ e x',
    e = ErrorCode.NoError ∧ ∃ b', b' !! (name, path) = Some (d +:+ data) ∧ stands b' running x').
Proof.
  intros Hd [Hw Hb Hr]. destruct (paths_ok c Hwg) as (P1 & P2 & _ & P4 & _).
  eapply leads_mono; [by apply (upload_leads credentials c Ha Hc)|]. cbn beta. intros e x' (-> & Hw' & tmp & Ht & E). split; [done|].
  exists (boxes (seen (world x'))). split; [|split; [exact Hw'|done|rewrite E; cbn; by rewrite Hr]].
  assert (tmp ≠ path) as Hne by (intros ->; congruence).
  rewrite E. cbn. rewrite lookup_insert_eq. unfold box. cbn. rewrite lookup_insert_ne by congruence. by rewrite Hb, Hd.
Qed.

Lemma leads_key p d b running (x : client W) :
  plain p = true → b !! (name, p) = Some d → stands b running x →
  leads (getTextFileFromContainer c credentials p) x (λ r x', r = (d, ErrorCode.NoError) ∧ stands b running x').
Proof.
  intros Hp Hd [Hw Hb Hr]. eapply leads_mono; [by apply (get_leads credentials c Ha p d); [done|exact Hw|rewrite Hb]|].
  cbn beta. intros r x' (-> & Hw' & E). split; [done|]. split; [exact Hw'|by rewrite E|by rewrite E].
Qed.
End added.

Section client_added.
Context {W : Type} {L : Libssh W} {V : ServerView W} {Sv : Server W} {TS : TunnelServer W} {SS : ShellServer W}.
Context {K : ClientKeys W} {KL : KeyLaws W} {Q : Qt} {R : Resources} (IL : ip_laws Q).
Context (credentials : ServerCredentials) (c : DockerContainer).
Context (Ha : accepted credentials) (Hc : clear_host credentials) (Hwg : wireguard_container c = true).
Abbreviation name := (containerToString c).
Abbreviation g := (new_configurator (isAwgContainer c)).
Abbreviation path := (config_path g c).

(** The address a client is given, for the pieces that were read. *)
Definition given (out : list string) (subnet : string) : Z :=
  match nextIp (getIpsFromConf (text_of out)) subnet with HostV4 a => a | _ => 0 end.
Lemma given_ip out subnet : nextIp (getIpsFromConf (text_of out)) subnet = HostV4 (given out subnet) ∧ in_ipv4 (given out subnet).
Proof. unfold given, nextIp. split; [done|]. cbn. by apply Z.mod_pos_bound. Qed.
Lemma given_uncut addrs subnet start out :
  host_of_string subnet = HostV4 start → Forall in_ipv4 addrs → in_ipv4 (next (List.last addrs start)) →
  String.concat "" out = lines_text (peer_line <$> addrs) → uncut addrs out → given out subnet = next (List.last addrs start).
Proof.
  intros Hs Hin Hn Hout Hu. unfold given.
  assert (List.last (getIpsFromConf (text_of out)) (host_of_string subnet) = HostV4 (List.last addrs start)) as E.
  { unfold getIpsFromConf. destruct Hu as [->|(pre & p & a & l & -> & ->)]; [by rewrite concat_nothing, Hs|].
    apply Forall_app in Hin as [_ [Ha' _]%Forall_cons]. rewrite List.last_last, text_of_app. unfold text_of at 2.
    cbn [fmap list_fmap String.concat]. rewrite !string_app_assoc.
    destruct (matches_after (text_of pre +:+ p) (peer_line a +:+ nl +:+ nl)) as [k E]. rewrite string_app_assoc in E. rewrite E.
    rewrite matches_line by done. rewrite fmap_app, List.filter_app. rewrite fmap_cons, (read_law _ IL) by done. apply List.last_last. }
  unfold nextIp. rewrite E. cbn. unfold next, in_ipv4 in *. by apply Z.mod_small.
Qed.

Abbreviation subnet_of s a :=
  (or_text (WireGuardServerConfig.subnetAddress <$> s) (AwgServerConfig.subnetAddress <$> a) "10.8.1.0").
Lemma leads_prepare serverConfig awgServerConfig dns d addrs keyText pskText b running (x : client W) :
  no_dollar (primaryDns dns) = true → no_dollar (secondaryDns dns) = true →
  b !! (name, path) = Some d → peers_of d addrs →
  b !! (name, m_serverPublicKeyPath g) = Some keyText → b !! (name, m_serverPskKeyPath g) = Some pskText → stands b running x →
  leads (prepareWireguardConfig g credentials c serverConfig awgServerConfig dns) x (λ r x', ∃ priv pub out b',
    String.concat "" out = lines_text (peer_line <$> addrs) ∧
    let ip := print (given out (subnet_of serverConfig awgServerConfig)) in
    r = (mkConnectionData priv pub ip (replace_str nl "" keyText) (replace_str nl "" pskText) (cred_hostName credentials)
           (or_text (WireGuardServerConfig.port <$> serverConfig) (AwgServerConfig.port <$> awgServerConfig) (m_defaultPort g)),
         ErrorCode.NoError) ∧ key_ok pub ∧
    let d' := d +:+ peer_part pub (replace_str nl "" pskText) ip in
    b' !! (name, path) = Some d' ∧ stands b' (<[name := d']> running) x').
Proof.
  intros D1 D2 Hd [Hg _] Hkey Hpsk [Hw Hb Hr]. destruct (paths_ok c Hwg) as (P1 & P2 & P3 & P4 & P5 & P6 & P7 & P8).
  unfold prepareWireguardConfig. apply leads_bind, leads_call. pose proof (keys_law (world x) Hw) as Hk.
  destruct (genClientKeys (world x)) as [[priv pub] w1]. destruct Hk as ([Hw1 H1] & Hne1 & Hne2 & Hpub). cbn [fst snd].
  rewrite (proj2 (String.eqb_neq priv "") Hne1), (proj2 (String.eqb_neq pub "") Hne2). cbn [orb]. apply leads_pair.
  eapply leads_mono.
  { apply (leads_addresses credentials c Ha Hc Hwg d b running); [done|]. split; cbn; [exact Hw1|by rewrite H1|by rewrite H1]. }
  intros r x2 (out & b2 & -> & Hout & Hkeep & H2). cbn [fst snd]. rewrite Z.eqb_refl. cbn [negb].
  destruct (given_ip out (subnet_of serverConfig awgServerConfig)) as [-> Hin]. rewrite (print_law _ IL) by done.
  apply leads_pair. eapply leads_mono.
  { apply (leads_key credentials c Ha (m_serverPublicKeyPath g) keyText b2 running); [done|by rewrite Hkeep|done]. }
  intros r x3 (-> & H3). cbn [fst snd]. rewrite Z.eqb_refl. cbn [negb]. apply leads_pair. eapply leads_mono.
  { apply (leads_key credentials c Ha (m_serverPskKeyPath g) pskText b2 running); [done|by rewrite Hkeep|done]. }
  intros r x4 (-> & H4). cbn [fst snd]. rewrite Z.eqb_refl. cbn [negb]. apply leads_bind. eapply leads_mono.
  { apply (leads_append credentials c Ha Hc Hwg _ d b2 running); [by rewrite Hkeep|done]. }
  cbn beta. intros e x5 (-> & b5 & Hb5 & H5). rewrite Z.eqb_refl. cbn [negb]. apply leads_bind. eapply leads_mono.
  { apply (leads_run_sync credentials c Ha Hc Hwg dns b5 running _ _ D1 D2 Hb5 H5). }
  cbn beta. intros e x6 (-> & H6). apply leads_ret. exists priv, pub, out, b5. rewrite Hout, Hg. done.
Qed.

(** C13. A new client of a WireGuard or AmneziaWG container gets a peer of its own
    in the configuration of the server, the one section that is added, and the
    tunnel is given that configuration.  Its address is the one after the last
    that was read of the server's answer, which arrives in pieces, wherever they
    are cut: when the last line came in one piece it is the address after the
    last peer's, no other peer's, ends neither in 0 nor in 255, and the
    addresses rise as before, so the next client can be added in the same way.
    Of a last line cut in two another address is read, which a peer may have. *)
Theorem client_added containerConfig dns d addrs start keyText pskText (x : client W) :
  no_dollar (primaryDns dns) = true → no_dollar (secondaryDns dns) = true → well (world x) →
  boxes (seen (world x)) !! (name, path) = Some d → peers_of d addrs → rising addrs →
  boxes (seen (world x)) !! (name, m_serverPublicKeyPath g) = Some keyText →
  boxes (seen (world x)) !! (name, m_serverPskKeyPath g) = Some pskText → key_ok (replace_str nl "" pskText) →
  let subnet := subnet_of (ProtocolConfigs.serverConfig <$> wireguard_of containerConfig) (ProtocolConfigs.serverConfig <$> awg_of containerConfig) in
  host_of_string subnet = HostV4 start → in_ipv4 start → in_ipv4 (next (List.last addrs start)) →
  let '((config, e), x') := wireguard_createConfig g credentials c containerConfig dns x in
  e = ErrorCode.NoError ∧
  (∃ w d' out, clientConfig config = Some w ∧ String.concat "" out = lines_text (peer_line <$> addrs) ∧
    WireGuardClientConfig.clientIp w = print (given out subnet) ∧
    d' = d +:+ peer_part (WireGuardClientConfig.clientId w) (WireGuardClientConfig.presharedKey w) (WireGuardClientConfig.clientIp w) ∧
    boxes (seen (world x')) !! (name, path) = Some d' ∧ served (seen (world x')) !! name = Some d' ∧
    peers_of d' (addrs ++ [given out subnet]) ∧
    (uncut addrs out → let a := next (List.last addrs start) in
       given out subnet = a ∧ a ∉ addrs ∧ 0 < a mod 256 < 255 ∧ rising (addrs ++ [a]))) ∧
  matches (text_of ["AllowedIPs = 10.8.1.2/32" +:+ nl +:+ "AllowedIPs = 10.8.1.1"; "2/32" +:+ nl]) = ["10.8.1.2"; "10.8.1.1"].
Proof.
  intros D1 D2 Hw Hd Hp Hrise Hkey Hpsk Hpk subnet Hstart Hin Hnext.
  assert (0 ≤ List.last addrs start ∧ Forall (λ b, b ≤ List.last addrs start) addrs) as [Hlast Hall].
  { destruct addrs as [|a0 addrs]; [split; [apply Hin|constructor]|]. destruct (rising_last (a0 :: addrs) start Hrise); [done|].
    split; [|done]. by destruct H. }
  destruct (next_after _ Hlast) as [Hgt Hmod].
  assert (Forall (λ b, b < next (List.last addrs start)) addrs) as Hlt by (eapply Forall_impl; [exact Hall|]; intros; cbn in *; lia).
  enough (leads (wireguard_createConfig g credentials c containerConfig dns) x (λ r x',
    r.2 = ErrorCode.NoError ∧ ∃ w pub out, clientConfig r.1 = Some w ∧ String.concat "" out = lines_text (peer_line <$> addrs) ∧
      WireGuardClientConfig.clientIp w = print (given out subnet) ∧
      WireGuardClientConfig.clientId w = pub ∧ WireGuardClientConfig.presharedKey w = replace_str nl "" pskText ∧ key_ok pub ∧
      let d' := d +:+ peer_part pub (replace_str nl "" pskText) (print (given out subnet)) in
      boxes (seen (world x')) !! (name, path) = Some d' ∧ served (seen (world x')) !! name = Some d')) as H.
  { unfold leads in H. destruct (wireguard_createConfig g credentials c containerConfig dns x) as [[config e] x']. cbn [fst snd] in H.
    destruct H as (-> & w & pub & out & H1 & Ho & H2 & H3 & H4 & H5 & H6 & H7). split_and!; [done| |vm_compute; reflexivity].
    eexists w, _, out. rewrite H2, H3, H4. split_and!; [done|done|done|reflexivity|done|done| |].
    - apply peers_grow; [done|done|done|apply given_ip].
    - intros Hu. rewrite (given_uncut addrs subnet start out) by (done || by apply rising_in). split_and!; [done| |lia|lia|by apply rising_app].
      intros Hin'. rewrite Forall_forall in Hlt. specialize (Hlt _ Hin'). lia. }
  unfold wireguard_createConfig. apply leads_pair. eapply leads_mono.
  { eapply (leads_prepare _ _ dns d addrs keyText pskText); [done|done|exact Hd|done|exact Hkey|exact Hpsk|by split]. }
  intros r x' (priv & pub & out & b' & Hout & -> & Hpub & Hb' & [Hw' Hb Hr]). cbn [fst snd]. rewrite Z.eqb_refl. cbn [negb]. apply leads_ret.
  split; [done|]. eexists _, pub, out. split_and!; [reflexivity|exact Hout|reflexivity|reflexivity|reflexivity|exact Hpub|by rewrite Hb|].
  rewrite Hr. apply lookup_insert_eq.
Qed.
End client_added.

(** ** A server with one client *)
#[local] Existing Instances shelf.libssh shelf.server_view shelf.serves shelf.tunnels shelf.shell.
Module depot.
#[export] Instance keys : ClientKeys shelf.server := {| genClientKeys w := (("PRIV=", "PUB="), w) |}.
#[export] Instance key_laws : KeyLaws shelf.server.
Proof. split. intros w _. cbn. split_and!; [by split|done|done|by split]. Qed.
#[export] Instance texts : Resources := {| resource _ := Some ("Address = $WIREGUARD_CLIENT_IP/32" +:+ nl) |}.
#[export] Instance qt : Qt := plain_qt.
Definition first : Z := 168296705.
Definition config : string := "[Interface]" +:+ nl +:+ "ListenPort = 51820" +:+ nl +:+ nl +:+ peer_part "FIRST=" "PSK=" (print first).
Definition shop : client shelf.server :=
  mkClient false (shelf.mkServer None ∅
    (<[("amnezia-wireguard", "/opt/amnezia/wireguard/wg0.conf") := config]>
      (<[("amnezia-wireguard", "/opt/amnezia/wireguard/wireguard_server_public_key.key") := "SERVER=" +:+ nl]>
        {[ ("amnezia-wireguard", "/opt/amnezia/wireguard/wireguard_psk.key") := "PSK=" +:+ nl ]})) ∅ 0).
End depot.
#[local] Existing Instances depot.keys depot.key_laws depot.texts depot.qt.

Lemma depot_config : boxes (seen (world depot.shop)) !! ("amnezia-wireguard", "/opt/amnezia/wireguard/wg0.conf") = Some depot.config.
Proof. apply lookup_insert_eq. Qed.
Lemma depot_key :
  boxes (seen (world depot.shop)) !! ("amnezia-wireguard", "/opt/amnezia/wireguard/wireguard_server_public_key.key") = Some ("SERVER=" +:+ nl).
Proof. etrans; [by apply lookup_insert_ne|apply lookup_insert_eq]. Qed.
Lemma depot_psk : boxes (seen (world depot.shop)) !! ("amnezia-wireguard", "/opt/amnezia/wireguard/wireguard_psk.key") = Some ("PSK=" +:+ nl).
Proof. etrans; [by apply lookup_insert_ne|]. etrans; [by apply lookup_insert_ne|apply lookup_singleton_eq]. Qed.
Lemma depot_subnet : host_of_string "10.8.1.0" = HostV4 168296704.
Proof. vm_compute. reflexivity. Qed.

Lemma client_added_witness :
  let '((config, e), x) := wireguard_createConfig (new_configurator false) shelf.host DockerContainer.WireGuard
    (PWireGuard (mkWithClient (WireGuardServerConfig.fromJson ∅) None)) (mkDns "1.1.1.1" "1.0.0.1") depot.shop in
  e = ErrorCode.NoError ∧ ∃ w out, clientConfig config = Some w ∧
    WireGuardClientConfig.clientIp w = print (given (Q := plain_qt) out "10.8.1.0") ∧
    (uncut [depot.first] out → WireGuardClientConfig.clientIp w = "10.8.1.2").
Proof.
  assert (peers_of depot.config [depot.first]) as Hp.
  { split; [vm_compute; reflexivity|]. right.
    exists ("[Interface]" +:+ nl +:+ "ListenPort = 51820" +:+ nl +:+ nl +:+ "[Peer]" +:+ nl +:+ "PublicKey = FIRST=" +:+ nl +:+
            "PresharedKey = PSK=" +:+ nl +:+ "AllowedIPs = 10.8.1.1/32" +:+ nl). vm_compute. reflexivity. }
  assert (accepted (W := shelf.server) shelf.host ∧ clear_host shelf.host) as [Ha Hc].
  { split; [exact (eq_refl "secret")|split; vm_compute; reflexivity]. }
  assert (rising [depot.first]) as Hr by (split_and!; [split; vm_compute; congruence|constructor|exact Logic.I]).
  assert (key_ok (replace_str nl "" ("PSK=" +:+ nl))) as Hk by (split; vm_compute; reflexivity).
  assert (in_ipv4 168296704 ∧ in_ipv4 (next (List.last [depot.first] 168296704))) as [H1 H2].
  { split; split; vm_compute; congruence. }
  pose proof (client_added plain_ip_laws shelf.host DockerContainer.WireGuard Ha Hc eq_refl
    (PWireGuard (mkWithClient (WireGuardServerConfig.fromJson ∅) None)) (mkDns "1.1.1.1" "1.0.0.1")
    depot.config [depot.first] 168296704 ("SERVER=" +:+ nl) ("PSK=" +:+ nl) depot.shop eq_refl eq_refl Logic.I
    depot_config Hp Hr depot_key depot_psk Hk depot_subnet H1 H2) as H.
  change (new_configurator (isAwgContainer DockerContainer.WireGuard)) with (new_configurator false) in H.
  destruct (wireguard_createConfig _ _ _ _ _ _) as [[config e] x]. destruct H as (-> & (w & d' & out & Hw & _ & Hip & _ & _ & _ & _ & Hu) & _).
  split; [reflexivity|]. exists w, out. split; [exact Hw|]. split; [exact Hip|]. intros Hc'. rewrite Hip. destruct (Hu Hc') as [-> _].
  vm_compute. reflexivity.
Defined.
