(* ===== verification/XrayConfigurator.v ===== *)
(** * XrayConfigurator: the configuration of a new Xray client

    Models [core/configurators/xrayConfigurator.cpp]: the settings of a
    transport as Xray reads them, the client appended to the server's document,
    and the document of the client.  Documents are read by [JsonCodec] and
    printed by it and by [JsonPrinter]. *)
From stdpp Require Import pretty.
From S2P Require Import Prelude Text Json Wire Containers ProtocolConfigs XrayConfig ServerConfig Scripts SshSession Configurators.

(** [compare(b, Qt::CaseInsensitive) == 0] *)
Definition same_ci (a b : string) : bool := String.eqb (toLower a) (toLower b).

(** ** Names of the transport's options *)
Definition normalizeXhttpMode (m : string) : string :=
  let t := trimmed m in
  if String.eqb t "" || same_ci t "Auto" then "auto"
  else if same_ci t "Packet-up" then "packet-up"
  else if same_ci t "Stream-up" then "stream-up"
  else if same_ci t "Stream-one" then "stream-one"
  else toLower t.

Definition normalizeSessionSeqPlacement (p : string) : string :=
  if String.eqb p "" || same_ci p "None" then "" else toLower p.

Definition normalizeUplinkDataPlacement (p : string) : string :=
  if String.eqb p "" || same_ci p "Body" then "body"
  else if same_ci p "Auto" then "auto"
  else if same_ci p "Query" then "header"
  else toLower p.

Definition normalizeXPaddingPlacement (p : string) : string :=
  let t := trimmed p in
  if String.eqb t "" then toLower "Cookie"
  else if same_ci t "Body" then "queryInHeader"
  else if contains_ci "queryInHeader" t || same_ci t "Query in header" then "queryInHeader"
  else toLower t.

Definition normalizeXPaddingMethod (m : string) : string :=
  let t := trimmed m in
  if String.eqb t "" || same_ci t "Repeat-x" then "repeat-x"
  else if same_ci t "Tokenish" then "tokenish"
  else if same_ci t "Random" || same_ci t "Zero" then "repeat-x"
  else toLower t.

Definition range (a b : Z) : json := JObject (object [member "from" (JInt a); member "to" (JInt b)]).
Definition putIntRangeIfAny (k minV maxV fallbackMin fallbackMax : string) : assignment :=
  (k, if String.eqb minV "" && String.eqb maxV "" then None
      else Some (range (toInt_value (filled minV fallbackMin)) (toInt_value (filled maxV fallbackMax)))).

(** What older documents have that Xray does not accept. *)
Definition sanitizeXrayNativeConfig (p : ProtocolConfig) : ProtocolConfig :=
  let c := ProtocolConfig.nativeConfig p in
  if String.eqb c "" then p else
  let agent := contains_ci "Mozilla/5.0" c in
  let c := if agent then replace_ci "Mozilla/5.0" "chrome" c else c in
  let legacy := contains_str "10.33.0.2" c in
  let c := if legacy then replace_str "10.33.0.2" "127.0.0.1" c else c in
  if agent || legacy then ProtocolConfig.setNativeConfig c p else p.

Definition xray_processConfigWithLocalSettings (dns : DnsSettings) (p : ProtocolConfig) : ProtocolConfig :=
  sanitizeXrayNativeConfig (applyDnsToNativeConfig dns p).

(** ** The settings of a transport *)
Definition network_value (transport : string) : string :=
  if String.eqb transport "xhttp" then "xhttp" else if String.eqb transport "mkcp" then "kcp" else "tcp".

Definition comma : Ascii.ascii := Ascii.ascii_of_nat 44.
Definition tls_settings (srv : XrayServerConfig) : json :=
  let alpnArray := nonempty (trimmed <$> split_char comma (filled (XrayServerConfig.alpn srv) "HTTP/2")) in
  JObject (object [
    member "serverName" (JString (filled (XrayServerConfig.sni srv) "www.googletagmanager.com"));
    list_member "alpn" alpnArray;
    member "fingerprint" (JString (filled (XrayServerConfig.fingerprint srv) "chrome"))]).
Definition reality_settings (srv : XrayServerConfig) : gmap string json :=
  object [
    member "fingerprint" (JString (filled (XrayServerConfig.fingerprint srv) "chrome"));
    member "serverName" (JString (filled (XrayServerConfig.sni srv) "www.googletagmanager.com"))].

Section xhttp.
Import XrayXhttpConfig XrayXPaddingConfig XrayXmuxConfig.

Definition padding_bytes (pad : XrayXPaddingConfig) : assignment :=
  ("xPaddingBytes",
   if String.eqb (bytesMin pad) "" && String.eqb (bytesMax pad) "" then None
   else let fromV := if String.eqb (bytesMin pad) "" then 1 else toInt_value (bytesMin pad) in
        let toV := if String.eqb (bytesMax pad) "" then 256 else toInt_value (bytesMax pad) in
        Some (range fromV (Z.max fromV toV))).
Definition padding_members (pad : XrayXPaddingConfig) : list assignment :=
  member "xPaddingObfsMode" (JBool (obfsMode pad)) ::
  if obfsMode pad then [
    padding_bytes pad;
    member "xPaddingKey" (JString (filled (key pad) "x_padding"));
    member "xPaddingHeader" (JString (filled (header pad) "X-Padding"));
    member "xPaddingPlacement" (JString (normalizeXPaddingPlacement (filled (placement pad) "Cookie")));
    member "xPaddingMethod" (JString (normalizeXPaddingMethod (filled (method pad) "Repeat-x")))]
  else [].

Definition addMuxRange (k a b : string) : assignment :=
  (k, if String.eqb a "" && String.eqb b "" then None
      else Some (range (if String.eqb a "" then 0 else toInt_value a) (if String.eqb b "" then 0 else toInt_value b))).
Definition xmux_object (x : XrayXmuxConfig) : gmap string json :=
  object [
    addMuxRange "maxConcurrency" (maxConcurrencyMin x) (maxConcurrencyMax x);
    addMuxRange "maxConnections" (maxConnectionsMin x) (maxConnectionsMax x);
    addMuxRange "cMaxReuseTimes" (cMaxReuseTimesMin x) (cMaxReuseTimesMax x);
    addMuxRange "hMaxRequestTimes" (hMaxRequestTimesMin x) (hMaxRequestTimesMax x);
    addMuxRange "hMaxReusableSecs" (hMaxReusableSecsMin x) (hMaxReusableSecsMax x);
    ("hKeepAlivePeriod", if String.eqb (hKeepAlivePeriod x) "" then None else Some (JInt (toLongLong_value (hKeepAlivePeriod x))))].

Definition chunk_size (size : string) : assignment :=
  let ucs := filled size "0" in
  ("uplinkChunkSize",
   if String.eqb ucs "" || String.eqb ucs "0" then None else Some (range (toInt_value ucs) (toInt_value ucs))).

Definition xhttp_settings (x : XrayXhttpConfig) : gmap string json :=
  let hostEff := filled (host x) "www.googletagmanager.com" in
  object ([
    member "host" (JString hostEff);
    text_member "path" (path x);
    member "mode" (JString (normalizeXhttpMode (mode x)));
    ("headers", if same_ci (headersTemplate x) "HTTP" then Some (JObject (object [member "Host" (JString hostEff)])) else None);
    member "uplinkHTTPMethod" (JString (toUpper (filled (uplinkMethod x) "POST")));
    member "noGRPCHeader" (JBool (disableGrpc x));
    member "noSSEHeader" (JBool (disableSse x));
    text_member "sessionPlacement" (normalizeSessionSeqPlacement (sessionPlacement x));
    text_member "seqPlacement" (normalizeSessionSeqPlacement (seqPlacement x));
    text_member "sessionKey" (sessionKey x);
    text_member "seqKey" (seqKey x);
    member "uplinkDataPlacement" (JString (normalizeUplinkDataPlacement (uplinkDataPlacement x)));
    text_member "uplinkDataKey" (uplinkDataKey x);
    chunk_size (uplinkChunkSize x);
    ("scMaxBufferedPosts",
     if String.eqb (scMaxBufferedPosts x) "" then None else Some (JInt (toLongLong_value (scMaxBufferedPosts x))));
    putIntRangeIfAny "scMaxEachPostBytes" (scMaxEachPostBytesMin x) (scMaxEachPostBytesMax x) "1" "100";
    putIntRangeIfAny "scMinPostsIntervalMs" (scMinPostsIntervalMsMin x) (scMinPostsIntervalMsMax x) "100" "800";
    putIntRangeIfAny "scStreamUpServerSecs" (scStreamUpServerSecsMin x) (scStreamUpServerSecsMax x) "1" "100"] ++
   padding_members (xPadding x) ++
   (if enabled (xmux x) then [object_member "xmux" (xmux_object (xmux x))] else [])).
End xhttp.

Definition kcp_settings (m : XrayMkcpConfig) : json :=
  let number s d := JInt (toInt_value (filled s d)) in
  JObject (object [
    member "tti" (number (XrayMkcpConfig.tti m) "50");
    member "uplinkCapacity" (number (XrayMkcpConfig.uplinkCapacity m) "5");
    member "downlinkCapacity" (number (XrayMkcpConfig.downlinkCapacity m) "20");
    member "readBufferSize" (number (XrayMkcpConfig.readBufferSize m) "2");
    member "writeBufferSize" (number (XrayMkcpConfig.writeBufferSize m) "2");
    member "congestion" (JBool (XrayMkcpConfig.congestion m))]).

(** The client's name is not used. *)
Definition buildStreamSettings (srv : XrayServerConfig) (clientId : string) : gmap string json :=
  object [
    member "network" (JString (network_value (XrayServerConfig.transport srv)));
    member "security" (JString (XrayServerConfig.security srv));
    ("tlsSettings", if String.eqb (XrayServerConfig.security srv) "tls" then Some (tls_settings srv) else None);
    ("realitySettings", if String.eqb (XrayServerConfig.security srv) "reality" then Some (JObject (reality_settings srv)) else None);
    ("xhttpSettings",
     if String.eqb (XrayServerConfig.transport srv) "xhttp" then Some (JObject (xhttp_settings (XrayServerConfig.xhttp srv))) else None);
    ("kcpSettings", if String.eqb (XrayServerConfig.transport srv) "mkcp" then Some (kcp_settings (XrayServerConfig.mkcp srv)) else None)].

Definition mergeStreamSettingsForServerInbound (srv : XrayServerConfig) (existingStreamSettings : gmap string json) : gmap string json :=
  let streamSettings := buildStreamSettings srv "" in
  if negb (String.eqb (XrayServerConfig.security srv) "reality") then streamSettings else
  let newRs := toObject (Json.value streamSettings "realitySettings") in
  let oldRs := toObject (Json.value existingStreamSettings "realitySettings") in
  let merged := if decide (oldRs = ∅) then newRs else oldRs in
  let siteEff := filled (XrayServerConfig.site srv) "www.googletagmanager.com" in
  let sniEff := filled (XrayServerConfig.sni srv) siteEff in
  let merged := if contains newRs "fingerprint" then insertv "fingerprint" (Json.value newRs "fingerprint") merged else merged in
  let merged := <["serverNames" := JArray [JString sniEff]]> merged in
  let merged := if contains merged "dest" then merged else <["dest" := JString (siteEff +:+ ":443")]> merged in
  <["realitySettings" := JObject merged]> streamSettings.

(** ** On the server *)
Definition xray_public_key_path : string := "/opt/amnezia/xray/xray_public.key".
Definition xray_short_id_path : string := "/opt/amnezia/xray/xray_short_id.key".

(** [QUuid::createUuid().toString(QUuid::WithoutBraces)] *)
Class Uuids (W : Type) := { createUuid : W → string * W }.

Section configurator.
Context {W : Type} {L : Libssh W} {U : Uuids W} {J : JsonCodec} {JP : JsonPrinter}.
Abbreviation M := (stM (client W)).

Definition uploadServerConfigJson (credentials : ServerCredentials) (c : DockerContainer) (dns : DnsSettings)
    (serverConfig : gmap string json) : M Z :=
  or_return (uploadTextFileToContainer c credentials (indented (JObject serverConfig)) xray_config_path ScpOverwriteExisting)
    (run credentials
      (replaceVars "sudo docker restart $CONTAINER_NAME" (genBaseVars getIPAddress credentials c (primaryDns dns) (secondaryDns dns)))).

(** A file of a key, without its line ends; what the last of three attempts read. *)
Definition no_line_ends (s : string) : string := replace_str carriage_return "" (replace_str nl "" s).
Fixpoint readKeyFile (attempts : nat) (credentials : ServerCredentials) (c : DockerContainer) (path out : string) : M (string * Z) :=
  match attempts with
  | O => mret (out, ErrorCode.XrayRealityKeysReadFailed)
  | S attempts =>
      '(data, fileError) ← getTextFileFromContainer c credentials path;
      let out := no_line_ends data in
      if (fileError =? ErrorCode.NoError) && negb (String.eqb out "") then mret (out, ErrorCode.NoError)
      else readKeyFile attempts credentials c path out
  end.
Definition readRealityKeyFiles (c : DockerContainer) (credentials : ServerCredentials) : M (string * string * Z) :=
  '(publicKey, errorCode) ← readKeyFile 3 credentials c xray_public_key_path "";
  if negb (errorCode =? ErrorCode.NoError) then mret (publicKey, "", errorCode) else
  '(shortId, errorCode) ← readKeyFile 3 credentials c xray_short_id_path "";
  mret (publicKey, shortId, errorCode).

(** *** The document of a client *)
Definition user_object (srv : XrayServerConfig) (clientId : string) : gmap string json :=
  object [member "id" (JString clientId); member "encryption" (JString "none"); text_member "flow" (XrayServerConfig.flow srv)].
Definition client_stream (srv : XrayServerConfig) (clientId publicKey shortId : string) : gmap string json :=
  let streamObj := buildStreamSettings srv clientId in
  if String.eqb (XrayServerConfig.security srv) "reality" then
    let rs := toObject (Json.value streamObj "realitySettings") in
    <["realitySettings" := JObject (object_from rs
        [member "publicKey" (JString publicKey); member "shortId" (JString shortId); member "spiderX" (JString "")])]> streamObj
  else streamObj.
Definition port_number (s : string) : Z := if String.eqb s "" then toInt_value "443" else toInt_value s.
Definition client_json (credentials : ServerCredentials) (srv : XrayServerConfig) (clientId publicKey shortId : string) : gmap string json :=
  let vnextEntry := object [
    member "address" (JString (cred_hostName credentials));
    member "port" (JInt (port_number (XrayServerConfig.port srv)));
    member "users" (JArray [JObject (user_object srv clientId)])] in
  let outbound := object [
    member "protocol" (JString "vless");
    member "settings" (JObject (object [member "vnext" (JArray [JObject vnextEntry])]));
    member "streamSettings" (JObject (client_stream srv clientId publicKey shortId))] in
  let inbound := object [
    member "listen" (JString "127.0.0.1"); member "port" (JString "10808"); member "protocol" (JString "socks");
    member "settings" (JObject (object [member "udp" (JBool true)]))] in
  object [
    member "log" (JObject (object [member "loglevel" (JString "error")]));
    member "inbounds" (JArray [JObject inbound]);
    member "outbounds" (JArray [JObject outbound])].

Definition empty_xray : XrayProtocolConfig := XrayProtocolConfig.mk XrayServerConfig.initial None false.

Definition buildClientProtocolConfig (credentials : ServerCredentials) (c : DockerContainer) (srv : XrayServerConfig)
    (clientId prefetchedPublicKey prefetchedShortId : string) (errorCode : Z) : M (XrayProtocolConfig * Z) :=
  '(xrayPublicKey, xrayShortId, errorCode, stop) ←
    (if String.eqb (XrayServerConfig.security srv) "reality" &&
        (String.eqb prefetchedPublicKey "" || String.eqb prefetchedShortId "")
     then '(publicKey, shortId, errorCode) ← readRealityKeyFiles c credentials;
          mret (publicKey, shortId, errorCode, negb ((errorCode : Z) =? ErrorCode.NoError))
     else mret (prefetchedPublicKey, prefetchedShortId, errorCode, false));
  if (stop : bool) then mret (empty_xray, errorCode) else
  let config := toJson_compact (client_json credentials srv clientId xrayPublicKey xrayShortId) in
  mret (XrayProtocolConfig.mk srv (Some (XrayClientConfig.mk config "10808" clientId)) false, errorCode).

(** *** The document of the server *)

(** The document, its first inbound and the others; [None] when it is no
    document of a server. *)
Definition read_inbound (currentConfig : string) : option (gmap string json * gmap string json * list json) :=
  match Wire.fromJson currentConfig with
  | Some (JObject serverConfig) =>
      if negb (contains serverConfig "inbounds") then None else
      match toArray (Json.value serverConfig "inbounds") with
      | first :: rest =>
          let inbound := toObject (Some first) in
          if contains inbound "settings" then Some (serverConfig, inbound, rest) else None
      | [] => None
      end
  | _ => None
  end.

Definition with_transport (srv : XrayServerConfig) (inbound : gmap string json) : gmap string json :=
  let existingStream := toObject (Json.value inbound "streamSettings") in
  let inbound := <["streamSettings" := JObject (mergeStreamSettingsForServerInbound srv existingStream)]> inbound in
  if String.eqb (XrayServerConfig.port srv) "" then inbound
  else <["port" := JInt (toInt_value (XrayServerConfig.port srv))]> inbound.

Definition inbound_clients (inbound : gmap string json) : list json :=
  toArray (Json.value (toObject (Json.value inbound "settings")) "clients").
Definition client_entry (srv : XrayServerConfig) (clientId : string) : json :=
  JObject (object [member "id" (JString clientId); text_member "flow" (XrayServerConfig.flow srv)]).
Definition with_flow (flowValue : string) (v : json) : json :=
  let c := toObject (Some v) in
  JObject (if String.eqb flowValue "" then delete "flow" c else <["flow" := JString flowValue]> c).
Definition first_client (clients : list json) : string :=
  match clients with v :: _ => text (toObject (Some v)) "id" | [] => "" end.

Definition with_clients (serverConfig inbound : gmap string json) (rest clients : list json) : gmap string json :=
  let settings := <["clients" := JArray clients]> (toObject (Json.value inbound "settings")) in
  <["inbounds" := JArray (JObject (<["settings" := JObject settings]> inbound) :: rest)]> serverConfig.

(** The clients as they are to be, and the name of the one meant. *)
Definition new_clients (srv : XrayServerConfig) (appendNewClient : bool) (clients : list json) : M (list json * string) :=
  if appendNewClient then
    clientId ← call createUuid;
    mret (clients ++ [client_entry srv clientId], clientId)
  else mret (with_flow (XrayServerConfig.flow srv) <$> clients, first_client clients).

(** What is left in the container's configuration, the client's name, and the error. *)
Definition applyServerSettingsToRemote (credentials : ServerCredentials) (c : DockerContainer) (containerConfig : ProtocolConfig)
    (dns : DnsSettings) (appendNewClient : bool) : M (ProtocolConfig * string * Z) :=
  match containerConfig with
  | PXray xrayCfg =>
      let srv := XrayProtocolConfig.serverConfig xrayCfg in
      if XrayServerConfig.isThirdPartyConfig srv then
        mret (containerConfig, default "" (XrayClientConfig.id <$> XrayProtocolConfig.clientConfig xrayCfg), ErrorCode.NoError)
      else
      '(publicKey, shortId, errorCode) ←
        (if String.eqb (XrayServerConfig.security srv) "reality" then readRealityKeyFiles c credentials
         else mret ("", "", ErrorCode.NoError));
      if negb ((errorCode : Z) =? ErrorCode.NoError) then mret (containerConfig, "", errorCode) else
      '(currentConfig, errorCode) ← getTextFileFromContainer c credentials xray_config_path;
      if negb ((errorCode : Z) =? ErrorCode.NoError) then mret (containerConfig, "", errorCode) else
      match read_inbound currentConfig with
      | None => mret (containerConfig, "", ErrorCode.XrayServerConfigInvalid)
      | Some (serverConfig, inbound, rest) =>
          let inbound := with_transport srv inbound in
          '(clients, clientId) ← new_clients srv appendNewClient (inbound_clients inbound);
          if negb appendNewClient && String.eqb clientId "" then mret (containerConfig, "", ErrorCode.XrayServerNoVlessClients) else
          errorCode ← uploadServerConfigJson credentials c dns (with_clients serverConfig inbound rest clients);
          if negb ((errorCode : Z) =? ErrorCode.NoError) then mret (containerConfig, "", errorCode) else
          '(updated, errorCode) ← buildClientProtocolConfig credentials c srv clientId publicKey shortId ErrorCode.NoError;
          if negb ((errorCode : Z) =? ErrorCode.NoError) then mret (containerConfig, clientId, errorCode)
          else mret (PXray updated, clientId, ErrorCode.NoError)
      end
  | _ => mret (containerConfig, "", ErrorCode.InternalError)
  end.

Definition prepareServerConfig (credentials : ServerCredentials) (c : DockerContainer) (containerConfig : ProtocolConfig)
    (dns : DnsSettings) : M (string * Z) :=
  '(_, clientId, applyError) ← applyServerSettingsToRemote credentials c containerConfig dns true;
  mret (if negb ((applyError : Z) =? ErrorCode.NoError) then "" else clientId, applyError).

Definition xray_createConfig (credentials : ServerCredentials) (c : DockerContainer) (containerConfig : ProtocolConfig)
    (dns : DnsSettings) : M (XrayProtocolConfig * Z) :=
  match containerConfig with
  | PXray xrayCfg =>
      let srv := XrayProtocolConfig.serverConfig xrayCfg in
      if XrayServerConfig.isThirdPartyConfig srv && XrayProtocolConfig.hasClientConfig xrayCfg
      then mret (xrayCfg, ErrorCode.NoError) else
      '(xrayClientId, errorCode) ← prepareServerConfig credentials c containerConfig dns;
      if negb ((errorCode : Z) =? ErrorCode.NoError) || String.eqb xrayClientId "" then
        mret (empty_xray, if (errorCode : Z) =? ErrorCode.NoError then ErrorCode.InternalError else errorCode)
      else buildClientProtocolConfig credentials c srv xrayClientId "" "" errorCode
  | _ => mret (empty_xray, ErrorCode.InternalError)
  end.
End configurator.

(** ** The client's settings and the server's *)

(** The members of a document other than the ones named. *)
Definition others_kept (names : list string) (o o' : gmap string json) : Prop := ∀ k, k ∉ names → o' !! k = o !! k.

Lemma value_insert_eq k v (o : gmap string json) : Json.value (<[k := v]> o) k = Some v.
Proof. apply lookup_insert_eq. Qed.
Lemma reality_written srv id publicKey shortId :
  XrayServerConfig.security srv = "reality" →
  client_stream srv id publicKey shortId =
  <["realitySettings" := JObject (object_from (reality_settings srv)
      [member "publicKey" (JString publicKey); member "shortId" (JString shortId); member "spiderX" (JString "")])]> (buildStreamSettings srv id).
Proof.
  intros Hs. unfold client_stream. rewrite Hs. cbn [String.eqb Ascii.eqb Bool.eqb].
  unfold buildStreamSettings. rewrite value_object. cbn [assigned member String.eqb Ascii.eqb Bool.eqb]. by rewrite Hs.
Qed.

Lemma merged_others srv existing k :
  k ≠ "realitySettings" → Json.value (mergeStreamSettingsForServerInbound srv existing) k = Json.value (buildStreamSettings srv "") k.
Proof.
  intros Hk. unfold mergeStreamSettingsForServerInbound. destruct (negb _); [done|]. unfold Json.value. by rewrite lookup_insert_ne.
Qed.
Lemma client_others srv id publicKey shortId k :
  k ≠ "realitySettings" → Json.value (client_stream srv id publicKey shortId) k = Json.value (buildStreamSettings srv "") k.
Proof.
  intros Hk. unfold client_stream. destruct (String.eqb _ _); [|done]. unfold Json.value. by rewrite lookup_insert_ne.
Qed.

(** What is under [realitySettings] at the server. *)
Definition merged_reality (srv : XrayServerConfig) (old : gmap string json) : gmap string json :=
  let siteEff := filled (XrayServerConfig.site srv) "www.googletagmanager.com" in
  let m := <["fingerprint" := JString (filled (XrayServerConfig.fingerprint srv) "chrome")]>
    (if decide (old = ∅) then reality_settings srv else old) in
  let m := <["serverNames" := JArray [JString (filled (XrayServerConfig.sni srv) siteEff)]]> m in
  if contains m "dest" then m else <["dest" := JString (siteEff +:+ ":443")]> m.
Lemma merged_written srv existing :
  XrayServerConfig.security srv = "reality" →
  Json.value (mergeStreamSettingsForServerInbound srv existing) "realitySettings" =
  Some (JObject (merged_reality srv (toObject (Json.value existing "realitySettings")))).
Proof.
  intros Hs. unfold mergeStreamSettingsForServerInbound. rewrite Hs. cbn [negb String.eqb Ascii.eqb Bool.eqb].
  unfold Json.value at 1. rewrite lookup_insert_eq. do 2 f_equal.
  assert (toObject (Json.value (buildStreamSettings srv "") "realitySettings") = reality_settings srv) as ->.
  { unfold buildStreamSettings. rewrite value_object. cbn [assigned member String.eqb Ascii.eqb Bool.eqb]. by rewrite Hs. }
  assert (contains (reality_settings srv) "fingerprint" = true) as -> by (unfold reality_settings; by rewrite contains_object).
  assert (Json.value (reality_settings srv) "fingerprint" = Some (JString (filled (XrayServerConfig.fingerprint srv) "chrome"))) as -> by
    (unfold reality_settings; by rewrite value_object). reflexivity.
Qed.

Lemma reality_kept srv old : old ≠ ∅ → others_kept ["fingerprint"; "serverNames"; "dest"] old (merged_reality srv old).
Proof.
  intros Ho k Hk. unfold merged_reality. rewrite decide_False by done. cbv zeta.
  destruct (contains _ "dest"); rewrite !lookup_insert_ne; first [done|set_solver].
Qed.
Lemma merged_names srv old :
  Json.value (merged_reality srv old) "serverNames" =
    Some (JArray [JString (filled (XrayServerConfig.sni srv) (filled (XrayServerConfig.site srv) "www.googletagmanager.com"))]) ∧
  Json.value (merged_reality srv old) "fingerprint" = Some (JString (filled (XrayServerConfig.fingerprint srv) "chrome")).
Proof.
  unfold merged_reality, Json.value. set (m := if decide (old = ∅) then _ else _). generalize m. clear m. intros m.
  destruct (contains _ "dest"); split; rewrite ?(lookup_insert_ne _ "dest"), ?lookup_insert_eq by done; [done| |done|];
    by rewrite lookup_insert_ne, lookup_insert_eq.
Qed.
Lemma asked_written srv publicKey shortId :
  let asked := object_from (reality_settings srv)
    [member "publicKey" (JString publicKey); member "shortId" (JString shortId); member "spiderX" (JString "")] in
  text asked "fingerprint" = filled (XrayServerConfig.fingerprint srv) "chrome" ∧ text asked "publicKey" = publicKey ∧
  text asked "shortId" = shortId ∧ text asked "serverName" = filled (XrayServerConfig.sni srv) "www.googletagmanager.com".
Proof. cbv zeta. unfold text. rewrite !value_object_from. unfold reality_settings. rewrite !value_object. done. Qed.

Definition agreed : list string := ["network"; "security"; "tlsSettings"; "xhttpSettings"; "kcpSettings"].

(** A client and its server are given the same transport: the network, the
    security and the settings of TLS, XHTTP and mKCP are the same on both sides,
    whatever the server had before.  Under Reality the server keeps its private
    key and its other settings, and the client asks for the one name it takes, unless the name is left open and another site than
    the default one is imitated: then the server takes the site's name, and the
    client asks for the default one. *)
Theorem transports_agree srv existing id publicKey shortId :
  let server := mergeStreamSettingsForServerInbound srv existing in
  let client := client_stream srv id publicKey shortId in
  (∀ k, k ∈ agreed → Json.value server k = Json.value client k) ∧
  (XrayServerConfig.security srv = "reality" →
     let taken := toObject (Json.value server "realitySettings") in
     let asked := toObject (Json.value client "realitySettings") in
     text asked "fingerprint" = text taken "fingerprint" ∧ text asked "publicKey" = publicKey ∧ text asked "shortId" = shortId ∧
     (toObject (Json.value existing "realitySettings") ≠ ∅ →
        others_kept ["fingerprint"; "serverNames"; "dest"] (toObject (Json.value existing "realitySettings")) taken) ∧
     (strings_of (Json.value taken "serverNames") = [text asked "serverName"] ↔
      XrayServerConfig.sni srv ≠ "" ∨ filled (XrayServerConfig.site srv) "www.googletagmanager.com" = "www.googletagmanager.com")).
Proof.
  cbv zeta. split.
  { intros k Hk. rewrite merged_others, client_others; [done| |]; intros ->; apply (bool_decide_pack _) in Hk; exact Hk. }
  intros Hs. rewrite merged_written, reality_written by done. cbn [toObject].
  set (old := toObject (Json.value existing "realitySettings")). unfold text at 2. rewrite value_insert_eq. cbn [toObject].
  destruct (merged_names srv old) as [-> ->]. destruct (asked_written srv publicKey shortId) as (-> & -> & -> & ->).
  split_and!; [done..|by apply reality_kept|]. cbn. unfold filled. destruct (String.eqb_spec (XrayServerConfig.sni srv) "") as [->|Hne].
  - split; [intros [= E]; right; exact E|]. intros [E|E]; [done|]. by rewrite E.
  - split; [by left|done].
Qed.

(** ** What is done on the server *)

(** A name [QUuid] makes is not empty, and making it leaves the server as it is. *)
Class UuidLaws (W : Type) {V : ServerView W} {U : Uuids W} : Prop := {
  uuid_law w : well w → (createUuid w).1 ≠ "" ∧ same w (createUuid w).2;
}.

(** What [QUuid::createUuid] makes, and that none of some names is among it: it is
    documented to be unique. *)
Definition made_id {W} {V : ServerView W} {U : Uuids W} (id : string) : Prop := ∃ w, well w ∧ id = (createUuid w).1.
Definition unused (W : Type) {V : ServerView W} {U : Uuids W} (names : list string) : Prop :=
  ∀ w : W, well w → (createUuid w).1 ∉ names.
Definition client_name (v : json) : string := text (toObject (Some v)) "id".

Section run.
Context {W : Type} {L : Libssh W} {V : ServerView W} {Sv : Server W} {U : Uuids W} {RS : RestartServer W} {UL : UuidLaws W}.
Context {J : JsonCodec} {JP : JsonPrinter}.
Context (credentials : ServerCredentials) (c : DockerContainer).
Context (Ha : accepted credentials) (Hc : clear_host credentials).
Abbreviation name := (containerToString c).

Lemma leads_restart dns b running d (x : client W) :
  no_dollar (primaryDns dns) = true → no_dollar (secondaryDns dns) = true → b !! (name, xray_config_path) = Some d →
  stands b running x →
  leads (run credentials (replaceVars "sudo docker restart $CONTAINER_NAME"
          (genBaseVars getIPAddress credentials c (primaryDns dns) (secondaryDns dns)))) x
    (λ e x', e = ErrorCode.NoError ∧ stands b (<[name := d]> running) x').
Proof.
  intros D1 D2 Hd [Hw Hb Hr].
  pose proof (fill_name credentials c _ _ Hc D1 D2 "sudo docker restart " "" eq_refl eq_refl) as E.
  change ("sudo docker restart " +:+ "$CONTAINER_NAME" +:+ "") with "sudo docker restart $CONTAINER_NAME" in E. rewrite E.
  replace (name +:+ "") with name by by destruct c.
  eapply leads_mono; [apply (run_effect credentials Ha _ (with_served name d (seen (world x)))); [by destruct c|done|done|exact Hw|]|].
  - intros w [Hw' Ew]. rewrite <- Ew. apply restart_law; [apply name_plain|done|by rewrite Ew, Hb].
  - cbn beta. intros e x' (-> & Hw' & Ev). split; [done|]. split; [exact Hw'|by rewrite Ev|]. rewrite Ev. cbn. by rewrite Hr.
Qed.

Lemma leads_upload_config dns b running doc (x : client W) :
  no_dollar (primaryDns dns) = true → no_dollar (secondaryDns dns) = true → stands b running x →
  let text := indented (JObject doc) in
  leads (uploadServerConfigJson credentials c dns doc) x (λ e x',
    e = ErrorCode.NoError ∧ stands (<[(name, xray_config_path) := text]> b) (<[name := text]> running) x').
Proof.
  intros D1 D2 [Hw Hb Hr] text. unfold uploadServerConfigJson. apply leads_return.
  eapply leads_mono; [by apply (upload_leads credentials c Ha Hc ScpOverwriteExisting)|]. cbn beta.
  intros e x1 (-> & Hw1 & tmp & _ & E). split; [done|]. apply leads_restart; [done|done|apply lookup_insert_eq|].
  split; [exact Hw1|rewrite E; cbn; by rewrite Hb|rewrite E; cbn; by rewrite Hr].
Qed.

Lemma leads_key_file n path out d b running (x : client W) :
  plain path = true → b !! (name, path) = Some d → no_line_ends d ≠ "" → stands b running x →
  leads (readKeyFile (S n) credentials c path out) x (λ r x', r = (no_line_ends d, ErrorCode.NoError) ∧ stands b running x').
Proof.
  intros Hp Hd Hne Hx. cbn [readKeyFile]. apply leads_pair. eapply leads_mono; [by apply (leads_key credentials c Ha path d b running)|].
  intros r x' (-> & Hx'). cbn [fst snd]. rewrite Z.eqb_refl, (proj2 (String.eqb_neq _ "") Hne). cbn [andb negb]. by apply leads_ret.
Qed.
(** The files of the keys, where the security is Reality. *)
Definition keys_there (b : gmap (string * string) string) (publicKey shortId : string) : Prop :=
  (∃ d, b !! (name, xray_public_key_path) = Some d ∧ no_line_ends d = publicKey) ∧
  (∃ d, b !! (name, xray_short_id_path) = Some d ∧ no_line_ends d = shortId) ∧ publicKey ≠ "" ∧ shortId ≠ "".
Lemma leads_keys b running publicKey shortId (x : client W) :
  keys_there b publicKey shortId → stands b running x →
  leads (readRealityKeyFiles c credentials) x (λ r x', r = (publicKey, shortId, ErrorCode.NoError) ∧ stands b running x').
Proof.
  intros ((d1 & H1 & E1) & (d2 & H2 & E2) & N1 & N2) Hx. unfold readRealityKeyFiles. apply leads_pair.
  eapply leads_mono; [by apply (leads_key_file 2 _ "" d1 b running); [..|congruence|]|]. intros r x1 (-> & Hx1). cbn [fst snd].
  rewrite Z.eqb_refl. cbn [negb]. apply leads_pair.
  eapply leads_mono; [by apply (leads_key_file 2 _ "" d2 b running); [..|congruence|]|]. intros r x2 (-> & Hx2). cbn [fst snd].
  apply leads_ret. by rewrite E1, E2.
Qed.

Definition keys_for (srv : XrayServerConfig) (b : gmap (string * string) string) (publicKey shortId : string) : Prop :=
  if String.eqb (XrayServerConfig.security srv) "reality" then keys_there b publicKey shortId else publicKey = "" ∧ shortId = "".

Lemma leads_build srv clientId publicKey shortId e b running (given : bool) (x : client W) :
  keys_for srv b publicKey shortId → stands b running x →
  leads (buildClientProtocolConfig credentials c srv clientId (if (given : bool) then publicKey else "") (if given then shortId else "") e) x
    (λ r x', r.1 = XrayProtocolConfig.mk srv (Some (XrayClientConfig.mk
                     (toJson_compact (client_json credentials srv clientId publicKey shortId)) "10808" clientId)) false ∧
             (e = ErrorCode.NoError → r.2 = ErrorCode.NoError) ∧ stands b running x').
Proof.
  intros Hk Hx. unfold buildClientProtocolConfig, keys_for in *.
  destruct (String.eqb (XrayServerConfig.security srv) "reality"); cbn [andb].
  - destruct given.
    + destruct Hk as (_ & _ & N1 & N2). rewrite (proj2 (String.eqb_neq _ "") N1), (proj2 (String.eqb_neq _ "") N2). cbn [orb].
      apply leads_bind, leads_ret, leads_ret. auto.
    + cbn [String.eqb orb]. apply leads_bind, leads_bind. eapply leads_mono; [by apply (leads_keys b running publicKey shortId)|].
      intros r x1 (-> & Hx1). apply leads_ret. cbn [negb]. rewrite Z.eqb_refl. cbn [negb]. apply leads_ret. auto.
  - destruct Hk as [-> ->]. apply leads_bind, leads_ret. destruct given; apply leads_ret; auto.
Qed.

Lemma keys_for_insert srv b text publicKey shortId :
  keys_for srv b publicKey shortId → keys_for srv (<[(name, xray_config_path) := text]> b) publicKey shortId.
Proof.
  unfold keys_for, keys_there. destruct (String.eqb _ _); [|done].
  assert ((name, xray_config_path) ≠ (name, xray_public_key_path) ∧ (name, xray_config_path) ≠ (name, xray_short_id_path)) as [N1 N2] by done.
  by rewrite !lookup_insert_ne by done.
Qed.
Lemma clients_transport srv inbound : inbound_clients (with_transport srv inbound) = inbound_clients inbound.
Proof.
  unfold inbound_clients, with_transport. cbv zeta. destruct (String.eqb (XrayServerConfig.port srv) "").
  - by rewrite value_insert_ne.
  - by rewrite !value_insert_ne.
Qed.

(** The clients there are to be. *)
Definition clients_wanted (srv : XrayServerConfig) (appendNewClient : bool) (clients : list json) (id : string) : list json :=
  if appendNewClient then clients ++ [client_entry srv id] else with_flow (XrayServerConfig.flow srv) <$> clients.
Definition native (srv : XrayServerConfig) (id publicKey shortId : string) : XrayProtocolConfig :=
  XrayProtocolConfig.mk srv (Some (XrayClientConfig.mk (toJson_compact (client_json credentials srv id publicKey shortId)) "10808" id)) false.

Lemma leads_new_clients srv (append : bool) clients b running (x : client W) :
  (append = false → first_client clients ≠ "") → stands b running x →
  leads (new_clients srv append clients) x (λ r x', ∃ id, r = (clients_wanted srv append clients id, id) ∧ id ≠ "" ∧
    (append = false → id = first_client clients) ∧ (append = true → made_id (W := W) id) ∧ stands b running x').
Proof.
  intros Hf [Hw Hb Hr]. unfold new_clients, clients_wanted. destruct append.
  - apply leads_bind, leads_call. destruct (uuid_law (world x) Hw) as (Hne & Hw' & E). apply leads_ret.
    eexists. split; [reflexivity|]. split_and!; [exact Hne|done|by exists (world x)|]. split; cbn; [exact Hw'|by rewrite E|by rewrite E].
  - apply leads_ret. eexists. split; [reflexivity|]. split_and!; [by apply Hf|done|done|done].
Qed.

Lemma leads_apply xrayCfg dns append current doc inbound rest publicKey shortId b running (x : client W) :
  let srv := XrayProtocolConfig.serverConfig xrayCfg in
  XrayServerConfig.isThirdPartyConfig srv = false →
  no_dollar (primaryDns dns) = true → no_dollar (secondaryDns dns) = true →
  keys_for srv b publicKey shortId → b !! (name, xray_config_path) = Some current →
  read_inbound current = Some (doc, inbound, rest) → (append = false → first_client (inbound_clients inbound) ≠ "") →
  stands b running x →
  leads (applyServerSettingsToRemote credentials c (PXray xrayCfg) dns append) x (λ r x', ∃ id,
    let text := indented (JObject (with_clients doc (with_transport srv inbound) rest (clients_wanted srv append (inbound_clients inbound) id))) in
    r = (PXray (native srv id publicKey shortId), id, ErrorCode.NoError) ∧ id ≠ "" ∧
    (append = false → id = first_client (inbound_clients inbound)) ∧ (append = true → made_id (W := W) id) ∧
    stands (<[(name, xray_config_path) := text]> b) (<[name := text]> running) x').
Proof.
  intros srv H3 D1 D2 Hk Hcur Hread Hf Hx. unfold applyServerSettingsToRemote. fold srv. rewrite H3.
  apply leads_bind. eapply (leads_mono _ _ (λ r x', r = (publicKey, shortId, ErrorCode.NoError) ∧ stands b running x')).
  { unfold keys_for in Hk. destruct (String.eqb _ _); [by apply leads_keys|]. destruct Hk as [-> ->]. by apply leads_ret. }
  intros r x1 (-> & Hx1). rewrite Z.eqb_refl. cbn [negb]. apply leads_pair.
  eapply leads_mono; [by apply (leads_key credentials c Ha xray_config_path current b running)|]. intros r x2 (-> & Hx2).
  cbn [fst snd]. rewrite Z.eqb_refl, Hread. cbn [negb]. apply leads_pair. rewrite clients_transport.
  eapply leads_mono; [by apply (leads_new_clients srv append _ b running)|]. intros r x3 (id & -> & Hne & Hid & Hmade & Hx3). cbn [fst snd].
  rewrite (proj2 (String.eqb_neq id "") Hne), andb_false_r. apply leads_bind.
  eapply leads_mono; [by apply (leads_upload_config dns b running)|]. cbn beta. intros e x4 (-> & Hx4). rewrite Z.eqb_refl. cbn [negb].
  apply leads_pair. eapply leads_mono; [by eapply (leads_build srv id publicKey shortId _ _ _ true); [apply keys_for_insert|]|].
  cbn beta. intros [cfg e] x5 (Hcfg & He & Hx5). cbn [fst snd] in *. rewrite He by done. cbn [negb]. apply leads_ret. exists id. by subst cfg.
Qed.
End run.

(** The edited document: the first inbound has the clients, the transport and the
    port, and everything else is as it was. *)
Record edited (srv : XrayServerConfig) (doc inbound : gmap string json) (rest clients : list json) (doc' : gmap string json) : Prop := {
  edited_doc : others_kept ["inbounds"] doc doc';
  edited_settings inbound' : head (toArray (Json.value doc' "inbounds")) = Some (JObject inbound') →
    others_kept ["settings"; "streamSettings"; "port"] inbound inbound' ∧ inbound_clients inbound' = clients ∧
    others_kept ["clients"] (toObject (Json.value inbound "settings")) (toObject (Json.value inbound' "settings")) ∧
    Json.value inbound' "streamSettings" =
      Some (JObject (mergeStreamSettingsForServerInbound srv (toObject (Json.value inbound "streamSettings")))) ∧
    (XrayServerConfig.port srv ≠ "" → Json.value inbound' "port" = Some (JInt (toInt_value (XrayServerConfig.port srv)))) ∧
    (XrayServerConfig.port srv = "" → Json.value inbound' "port" = Json.value inbound "port");
  edited_inbounds : ∃ inbound', toArray (Json.value doc' "inbounds") = JObject inbound' :: rest;
}.

Lemma with_transport_members srv inbound :
  others_kept ["streamSettings"; "port"] inbound (with_transport srv inbound) ∧
  Json.value (with_transport srv inbound) "streamSettings" =
    Some (JObject (mergeStreamSettingsForServerInbound srv (toObject (Json.value inbound "streamSettings")))) ∧
  (XrayServerConfig.port srv ≠ "" → Json.value (with_transport srv inbound) "port" = Some (JInt (toInt_value (XrayServerConfig.port srv)))) ∧
  (XrayServerConfig.port srv = "" → Json.value (with_transport srv inbound) "port" = Json.value inbound "port").
Proof.
  unfold with_transport. cbv zeta. destruct (String.eqb_spec (XrayServerConfig.port srv) "") as [->|Hne]; split_and!.
  - intros k Hk. rewrite lookup_insert_ne; [done|set_solver].
  - apply value_insert_eq.
  - done.
  - intros _. by rewrite value_insert_ne.
  - intros k Hk. rewrite !lookup_insert_ne; [done|set_solver..].
  - by rewrite value_insert_ne, value_insert_eq.
  - intros _. apply value_insert_eq.
  - done.
Qed.

Lemma document_edited srv doc inbound rest clients :
  edited srv doc inbound rest clients (with_clients doc (with_transport srv inbound) rest clients).
Proof.
  destruct (with_transport_members srv inbound) as (Hkept & Hstream & Hport & Hnone). unfold with_clients. set (i := with_transport srv inbound) in *.
  assert (Json.value i "settings" = Json.value inbound "settings") as Hs by (apply Hkept; set_solver).
  split.
  - intros k Hk. rewrite lookup_insert_ne; [done|set_solver].
  - intros inbound'. rewrite value_insert_eq. cbn [toArray head]. intros [= <-]. unfold inbound_clients.
    rewrite value_insert_eq. cbn [toObject]. rewrite value_insert_eq. rewrite !value_insert_ne, Hs by done. split_and!; try done.
    + intros k Hk. rewrite lookup_insert_ne by set_solver. apply Hkept. set_solver.
    + intros k Hk. rewrite lookup_insert_ne; [done|set_solver].
  - rewrite value_insert_eq. by eexists.
Qed.

Section added.
Context {W : Type} {L : Libssh W} {V : ServerView W} {Sv : Server W} {U : Uuids W} {RS : RestartServer W} {UL : UuidLaws W}.
Context {J : JsonCodec} {JP : JsonPrinter}.
Context (credentials : ServerCredentials) (c : DockerContainer) (xrayCfg : XrayProtocolConfig) (dns : DnsSettings).
Context (Ha : accepted credentials) (Hc : clear_host credentials).
Abbreviation name := (containerToString c).
Abbreviation srv := (XrayProtocolConfig.serverConfig xrayCfg).

(** What the theorems below take of a server: it holds a document with an
    inbound, and the files of its keys if its security is Reality. *)
Record xray_server (x : client W) (doc inbound : gmap string json) (rest : list json) (publicKey shortId : string) : Prop := {
  xs_own : XrayServerConfig.isThirdPartyConfig srv = false;
  xs_well : well (world x);
  xs_dns : no_dollar (primaryDns dns) = true ∧ no_dollar (secondaryDns dns) = true;
  xs_keys : keys_for c srv (boxes (seen (world x))) publicKey shortId;
  xs_document : ∃ current, boxes (seen (world x)) !! (name, xray_config_path) = Some current ∧
    read_inbound current = Some (doc, inbound, rest);
}.

(** C19. A new client of an Xray container is appended to the clients of the
    server's first inbound, with the flow of the container and under a name that
    no client there has, as long as the identifiers Qt makes are unique; and the
    container is started with that document.  The inbound's transport and port
    are written anew from the container's settings; the rest of the document is
    as it was ([edited]).  The configuration returned names that client, the
    server's address and port, and the keys of the server; no other file is
    touched. *)
Theorem xray_client_added (x : client W) doc inbound rest publicKey shortId :
  let names := client_name <$> inbound_clients inbound in
  xray_server x doc inbound rest publicKey shortId → unused W names →
  let '((config, e), x') := xray_createConfig credentials c (PXray xrayCfg) dns x in
  e = ErrorCode.NoError ∧ ∃ id doc', id ≠ "" ∧ id ∉ names ∧ config = native credentials srv id publicKey shortId ∧
    edited srv doc inbound rest (inbound_clients inbound ++ [client_entry srv id]) doc' ∧
    served (seen (world x')) !! name = Some (indented (JObject doc')) ∧
    boxes (seen (world x')) = <[(name, xray_config_path) := indented (JObject doc')]> (boxes (seen (world x))).
Proof.
  intros names [H3 Hw [D1 D2] Hk (current & Hcur & Hread)] Hfresh.
  enough (leads (xray_createConfig credentials c (PXray xrayCfg) dns) x (λ r x', ∃ id doc', id ≠ "" ∧ id ∉ names ∧
    r = (native credentials srv id publicKey shortId, ErrorCode.NoError) ∧
    doc' = with_clients doc (with_transport srv inbound) rest (inbound_clients inbound ++ [client_entry srv id]) ∧
    stands (<[(name, xray_config_path) := indented (JObject doc')]> (boxes (seen (world x))))
           (<[name := indented (JObject doc')]> (served (seen (world x)))) x')) as H.
  { unfold leads in H. destruct (xray_createConfig _ _ _ _ x) as [[config e] x']. cbn [fst snd] in H.
    destruct H as (id & doc' & Hne & Hnew & [= -> ->] & -> & [_ Hb Hr]). split; [done|]. eexists id, _.
    split_and!; [exact Hne|exact Hnew|done|apply document_edited|rewrite Hr; apply lookup_insert_eq|exact Hb]. }
  unfold xray_createConfig. rewrite H3. cbn [andb]. apply leads_pair. unfold prepareServerConfig. apply leads_bind.
  eapply leads_mono; [by eapply (leads_apply credentials c Ha Hc xrayCfg dns true current doc inbound rest publicKey shortId)|].
  intros r x1 (id & -> & Hne & _ & Hmade & Hx1). cbn [fst snd] in *. rewrite Z.eqb_refl. cbn [negb]. apply leads_ret. cbn [fst snd].
  rewrite Z.eqb_refl, (proj2 (String.eqb_neq id "") Hne). cbn [negb orb].
  assert (id ∉ names) as Hnew by (destruct (Hmade eq_refl) as (w & Hw' & ->); by apply Hfresh).
  eapply leads_mono; [by eapply (leads_build credentials c Ha srv id publicKey shortId _ _ _ false); [apply keys_for_insert|]|].
  cbn beta. intros [cfg e] x2 (Hcfg & He & Hx2). cbn [fst snd] in *. exists id. eexists. rewrite Hcfg, He by done. split_and!; done.
Qed.

(** Changed settings are applied without a client being added or lost: each
    keeps its name, has the container's flow, and the first one's configuration
    is what the container keeps. *)
Theorem xray_settings_applied (x : client W) doc inbound rest publicKey shortId :
  xray_server x doc inbound rest publicKey shortId → first_client (inbound_clients inbound) ≠ "" →
  let '((config, id, e), x') := applyServerSettingsToRemote credentials c (PXray xrayCfg) dns false x in
  e = ErrorCode.NoError ∧ id = first_client (inbound_clients inbound) ∧
  config = PXray (native credentials srv id publicKey shortId) ∧ ∃ clients doc',
    edited srv doc inbound rest clients doc' ∧ served (seen (world x')) !! name = Some (indented (JObject doc')) ∧
    Forall2 (λ old new, text (toObject (Some new)) "id" = text (toObject (Some old)) "id" ∧
                        text (toObject (Some new)) "flow" = XrayServerConfig.flow srv) (inbound_clients inbound) clients.
Proof.
  intros [H3 Hw [D1 D2] Hk (current & Hcur & Hread)] Hf.
  pose proof (leads_apply credentials c Ha Hc xrayCfg dns false current doc inbound rest publicKey shortId _
    (served (seen (world x))) x H3 D1 D2 Hk Hcur Hread (λ _, Hf)) as H. unfold leads in H.
  destruct H as (id & Hr & _ & Hid & _ & [_ Hb Hrun]); [by split|].
  destruct (applyServerSettingsToRemote _ _ _ _ _ x) as [[[config id'] e] x']. cbn [fst snd] in *.
  injection Hr as -> -> ->. split_and!; [done|by apply Hid|done|]. eexists _, _.
  split_and!; [apply document_edited|rewrite Hrun; apply lookup_insert_eq|].
  apply Forall2_fmap_r, Forall_Forall2_diag, Forall_forall. intros v _. unfold compose, with_flow, text. cbn beta. cbn [toObject].
  destruct (String.eqb_spec (XrayServerConfig.flow srv) "") as [->|Hne].
  - unfold Json.value. by rewrite lookup_delete_ne, lookup_delete_eq.
  - by rewrite value_insert_ne, value_insert_eq.
Qed.
End added.

(** ** A server with one client *)
#[local] Existing Instances shelf.libssh shelf.server_view shelf.serves shelf.restarts.
Module mast.
#[export] Instance uuids : Uuids shelf.server := {| createUuid w := ("new", w) |}.
#[export] Instance uuid_laws : UuidLaws shelf.server.
Proof. split. intros w _. by split. Qed.
Definition first : json := JObject (object [member "id" (JString "first")]).
Definition keys : gmap string json := object [member "privateKey" (JString "PRIV")].
Definition inbound : gmap string json :=
  object [member "settings" (JObject (object [member "clients" (JArray [first])]));
          member "streamSettings" (JObject (object [member "realitySettings" (JObject keys)]))].
Definition document : gmap string json := object [member "inbounds" (JArray [JObject inbound])].
#[export] Instance codec : JsonCodec := {| toJson_compact _ := "client"; Wire.fromJson s := if String.eqb s "before" then Some (JObject document) else None |}.
#[export] Instance printer : JsonPrinter := {| indented _ := "after" |}.
Definition settings : XrayProtocolConfig :=
  XrayProtocolConfig.mk (XrayServerConfig.mk "443" "tcp" "" "example.org" false "reality" "xtls-rprx-vision" "" "" "" "raw"
    XrayXhttpConfig.initial XrayMkcpConfig.initial) None false.
Definition shop : client shelf.server :=
  mkClient false (shelf.mkServer None ∅
    (<[("amnezia-xray", xray_config_path) := "before"]>
      (<[("amnezia-xray", xray_public_key_path) := "PUB" +:+ nl]> {[ ("amnezia-xray", xray_short_id_path) := "id" +:+ nl ]})) ∅ 0).
Definition dns : DnsSettings := mkDns "1.1.1.1" "1.0.0.1".
End mast.
#[local] Existing Instances mast.uuids mast.uuid_laws mast.codec mast.printer.

Lemma mast_server : xray_server DockerContainer.Xray mast.settings mast.dns mast.shop mast.document mast.inbound [] "PUB" "id".
Proof.
  split; [reflexivity|exact Logic.I|by split| |].
  - unfold keys_for. cbn [String.eqb Ascii.eqb Bool.eqb XrayProtocolConfig.serverConfig mast.settings XrayServerConfig.security].
    assert (("amnezia-xray", xray_config_path) ≠ ("amnezia-xray", xray_public_key_path) ∧
      ("amnezia-xray", xray_config_path) ≠ ("amnezia-xray", xray_short_id_path) ∧
      ("amnezia-xray", xray_public_key_path) ≠ ("amnezia-xray", xray_short_id_path)) as (N1 & N2 & N3) by done.
    split_and!; [exists ("PUB" +:+ nl)|exists ("id" +:+ nl)|done|done]; (split; [|vm_compute; reflexivity]).
    + etrans; [by apply lookup_insert_ne|apply lookup_insert_eq].
    + etrans; [by apply lookup_insert_ne|]. etrans; [by apply lookup_insert_ne|apply lookup_singleton_eq].
  - exists "before". split; [apply lookup_insert_eq|vm_compute; reflexivity].
Qed.
Lemma mast_host : accepted (W := shelf.server) shelf.host ∧ clear_host shelf.host.
Proof. split; [exact (eq_refl "secret")|split; vm_compute; reflexivity]. Qed.

Lemma xray_client_added_witness :
  let '((config, e), x) := xray_createConfig shelf.host DockerContainer.Xray (PXray mast.settings) mast.dns mast.shop in
  e = ErrorCode.NoError ∧ ∃ id, id ≠ "first" ∧ config = native shelf.host (XrayProtocolConfig.serverConfig mast.settings) id "PUB" "id".
Proof.
  destruct mast_host as [Ha Hc].
  pose proof (xray_client_added shelf.host DockerContainer.Xray mast.settings mast.dns Ha Hc mast.shop mast.document mast.inbound []
    "PUB" "id" mast_server) as H.
  assert (client_name <$> inbound_clients mast.inbound = ["first"]) as En by (vm_compute; reflexivity). cbv zeta in H. rewrite En in H.
  assert (unused shelf.server ["first"]) as Hu by (intros w _; by apply (bool_decide_unpack _); vm_compute; exact Logic.I). specialize (H Hu).
  destruct (xray_createConfig _ _ _ _ _) as [[config e] x]. destruct H as (He & id & doc' & _ & Hne & Hcfg & _).
  split; [exact He|]. exists id. split; [intros ->; by apply Hne, list_elem_of_singleton|exact Hcfg].
Defined.

Lemma xray_settings_applied_witness :
  let '((config, id, e), x) := applyServerSettingsToRemote shelf.host DockerContainer.Xray (PXray mast.settings) mast.dns false mast.shop in
  e = ErrorCode.NoError ∧ id = "first".
Proof.
  destruct mast_host as [Ha Hc]. assert (first_client (inbound_clients mast.inbound) = "first") as Hf by (vm_compute; reflexivity).
  pose proof (xray_settings_applied shelf.host DockerContainer.Xray mast.settings mast.dns Ha Hc mast.shop mast.document mast.inbound []
    "PUB" "id" mast_server ltac:(by rewrite Hf)) as H.
  destruct (applyServerSettingsToRemote _ _ _ _ _ _) as [[[config id] e] x]. destruct H as (He & Hid & _).
  split; [exact He|]. by rewrite Hid.
Defined.

Lemma transports_agree_witness :
  let srv := XrayProtocolConfig.serverConfig mast.settings in
  let server := mergeStreamSettingsForServerInbound srv (object [member "realitySettings" (JObject mast.keys)]) in
  let client := client_stream srv "new" "PUB" "id" in
  Json.value server "network" = Json.value client "network" ∧
  strings_of (Json.value (toObject (Json.value server "realitySettings")) "serverNames") ≠
    [text (toObject (Json.value client "realitySettings")) "serverName"].
Proof.
  cbv zeta. destruct (transports_agree (XrayProtocolConfig.serverConfig mast.settings) (object [member "realitySettings" (JObject mast.keys)])
    "new" "PUB" "id") as [H1 H2]. split.
  - apply H1. by apply (bool_decide_unpack _); vm_compute.
  - destruct (H2 eq_refl) as (_ & _ & _ & _ & H). rewrite H. intros [E|E]; [by apply E|]. vm_compute in E. congruence.
Defined.
