(* ===== verification/OpenVpnConfigurator.v ===== *)
(** * OpenVpnConfigurator: the configuration of a new OpenVPN client

    Models [core/configurators/openVpnConfigurator.cpp] and [ikev2Configurator.cpp]:
    the certificate of a client, what its configuration is filled with, and
    what becomes of it before a connection or an export.  The request for a
    certificate is made by OpenSSL ([CertRequests]). *)
From S2P Require Import Prelude Text Json Wire Containers ProtocolConfigs XrayConfig ServerConfig AppSettings Scripts SshSession Configurators.

Module OpenVpn.
Record ConnectionData := mkConnectionData {
  clientId : string;
  request : string;
  privKey : string;
  clientCert : string;
  caCert : string;
  taKey : string;
  host : string;
}.
End OpenVpn.

(** [OpenVpnConfigurator::createCertRequest]: the client's name, its key and its
    request, which are empty when OpenSSL fails. *)
Class CertRequests (W : Type) := { createCertRequest : W → (string * string * string) * W }.

Definition clientsDirPath : string := "/opt/amnezia/openvpn/clients".
Definition caCertPath : string := "/opt/amnezia/openvpn/pki/ca.crt".
Definition clientCertPath : string := "/opt/amnezia/openvpn/pki/issued".
Definition taKeyPath : string := "/opt/amnezia/openvpn/ta.key".

Definition import_script (c : DockerContainer) (clientId : string) : string :=
  "sudo docker exec -i " +:+ containerToString c +:+ " bash -c " +:+ dquote +:+ "cd /opt/amnezia/openvpn && easyrsa import-req " +:+
  clientsDirPath +:+ "/" +:+ clientId +:+ ".req " +:+ clientId +:+ dquote.
Definition sign_script (c : DockerContainer) (clientId : string) : string :=
  "sudo docker exec -i " +:+ containerToString c +:+ " bash -c " +:+ dquote +:+
  "export EASYRSA_BATCH=1; cd /opt/amnezia/openvpn && easyrsa sign-req client " +:+ clientId +:+ dquote.

Section openvpn.
Context {W : Type} {L : Libssh W} {K : CertRequests W} {R : Resources}.
Abbreviation M := (stM (client W)).

Definition signCert (c : DockerContainer) (credentials : ServerCredentials) (dns : DnsSettings) (clientId : string) : M Z :=
  run credentials
    (replaceVars (String.concat nl [import_script c clientId; sign_script c clientId])
       (genBaseVars getIPAddress credentials c (primaryDns dns) (secondaryDns dns))).

Definition prepareOpenVpnConfig (credentials : ServerCredentials) (c : DockerContainer) (dns : DnsSettings) :
    M (OpenVpn.ConnectionData * Z) :=
  '(id, priv, req) ← call createCertRequest;
  let data cert ca ta := OpenVpn.mkConnectionData id req priv cert ca ta (cred_hostName credentials) in
  if String.eqb priv "" || String.eqb req "" then mret (data "" "" "", ErrorCode.OpenSslFailed) else
  let reqFileName := clientsDirPath +:+ "/" +:+ id +:+ ".req" in
  errorCode ← uploadTextFileToContainer c credentials req reqFileName ScpOverwriteExisting;
  if negb ((errorCode : Z) =? ErrorCode.NoError) then mret (data "" "" "", errorCode) else
  errorCode ← signCert c credentials dns id;
  if negb ((errorCode : Z) =? ErrorCode.NoError) then mret (data "" "" "", errorCode) else
  '(ca, _) ← getTextFileFromContainer c credentials caCertPath;
  '(cert, errorCode) ← getTextFileFromContainer c credentials (clientCertPath +:+ "/" +:+ id +:+ ".crt");
  if negb ((errorCode : Z) =? ErrorCode.NoError) then mret (data cert ca "", errorCode) else
  '(ta, errorCode) ← getTextFileFromContainer c credentials taKeyPath;
  mret (data cert ca ta,
        if String.eqb ca "" || String.eqb cert "" || String.eqb ta "" then ErrorCode.SshScpFailureError else errorCode).

(** ** The configuration *)

Definition sanitizeStaticKey (key : string) : string :=
  let result := String.concat nl (List.filter (λ line, negb (startsWith "#" (trimmed line))) (lines_of key)) in
  if endsWith nl result then result else result +:+ nl.

Definition without_outside_dns (b : build) (config : string) : string :=
  match b with BuildWindows => config | _ => replace_str "block-outside-dns" "" config end.

Definition fill_keys (b : build) (config : string) (connData : OpenVpn.ConnectionData) : string :=
  let config := replace_str "$OPENVPN_CA_CERT" (OpenVpn.caCert connData) config in
  let config := replace_str "$OPENVPN_CLIENT_CERT" (OpenVpn.clientCert connData) config in
  let config := replace_str "$OPENVPN_PRIV_KEY" (OpenVpn.privKey connData) config in
  let config :=
    if contains_str "$OPENVPN_TA_KEY" config then replace_str "$OPENVPN_TA_KEY" (sanitizeStaticKey (OpenVpn.taKey connData)) config
    else replace_str "</tls-auth>" "" (replace_str "<tls-auth>" "" config) in
  without_outside_dns b config.

Definition empty_openvpn : OpenVpnProtocolConfig := mkWithClient (OpenVpnServerConfig.fromJson ∅) None.
Definition openvpn_of (p : ProtocolConfig) : option OpenVpnProtocolConfig := match p with POpenVpn o => Some o | _ => None end.

Definition openvpn_createConfig (b : build) (credentials : ServerCredentials) (c : DockerContainer) (containerConfig : ProtocolConfig)
    (dns : DnsSettings) : M (OpenVpnProtocolConfig * Z) :=
  let vars := genBaseVars getIPAddress credentials c (primaryDns dns) (secondaryDns dns) ++
              genProtocolVarsForContainer c containerConfig in
  let config := replaceVars (scriptData openvpn_template c) vars in
  '(connData, errorCode) ← prepareOpenVpnConfig credentials c dns;
  if negb ((errorCode : Z) =? ErrorCode.NoError) then mret (empty_openvpn, errorCode) else
  mret (mkWithClient (default (OpenVpnServerConfig.fromJson ∅) (ProtocolConfigs.serverConfig <$> openvpn_of containerConfig))
          (Some (OpenVpnClientConfig.mk (fill_keys b config connData) (OpenVpn.clientId connData) false)), errorCode).
End openvpn.

(** ** Before a connection or an export *)

(** [config.replace(QRegularExpression("redirect-gateway.*"), "")]: in every line
    the text from there on; a dot is no line end. *)
Definition cut_from (word line : string) : string :=
  match String.index 0 word line with Some n => String.substring 0 n line | None => line end.
Definition without_gateway (config : string) : string :=
  String.concat nl (cut_from "redirect-gateway" <$> lines_of config).

(** A pattern of literal characters and dots, which stand for any character but
    a line end; the text of an address holds no other special character. *)
Definition full_stop : Ascii.ascii := Ascii.ascii_of_nat 46.
Fixpoint matches_at (pattern s : string) : option string :=
  match pattern, s with
  | EmptyString, _ => Some s
  | String p pattern, String ch s =>
      if (Ascii.eqb p full_stop && negb (Ascii.eqb ch newline)) || Ascii.eqb p ch then matches_at pattern s else None
  | String _ _, EmptyString => None
  end.
(** Every match is dropped, from the left. *)
Fixpoint drop_matches (fuel : nat) (pattern s : string) : string :=
  match fuel with
  | O => s
  | S fuel =>
      match matches_at pattern s, s with
      | Some rest, _ => drop_matches fuel pattern rest
      | None, String ch s => String ch (drop_matches fuel pattern s)
      | None, EmptyString => ""
      end
  end.
Definition amneziaDnsIp : string := "172.29.172.254".
Definition without_second_dns (dns : DnsSettings) (config : string) : string :=
  if contains_str amneziaDnsIp (primaryDns dns)
  then drop_matches (String.length config) ("dhcp-option DNS " +:+ secondaryDns dns) config else config.

Record SplitTunnelingSettings := mkSplit { sitesEnabled : bool; routeMode : Z }.
Record ConnectionSettings := mkSettings { connection_dns : DnsSettings; isApiConfig : bool; splitTunneling : SplitTunnelingSettings }.

Definition redirect_all : string := nl +:+ "redirect-gateway def1 ipv6 bypass-dhcp" +:+ nl.
Definition redirect_ipv6 : string := nl +:+ "redirect-gateway ipv6 !ipv4 bypass-dhcp" +:+ nl.
Definition block_ipv6 : string := "block-ipv6" +:+ nl.
Definition is_mobile (b : build) : bool := match b with BuildAndroid | BuildIOS | BuildMacOSNE => true | _ => false end.

Definition gateway_lines (b : build) (split : SplitTunnelingSettings) : string :=
  if negb (sitesEnabled split) then redirect_all +:+ block_ipv6
  else if routeMode split =? VpnOnlyForwardSites then ""
  else if routeMode split =? VpnAllExceptSites then (if is_mobile b then "" else redirect_ipv6) +:+ block_ipv6
  else "".
Definition resolver_lines (b : build) (applicationDirPath : string) : string :=
  match b with
  | BuildMac | BuildMacOSNE | BuildLinux =>
      nl +:+ "script-security 2" +:+ nl +:+ "up " +:+ applicationDirPath +:+ "/update-resolv-conf.sh" +:+ nl +:+
      "down " +:+ applicationDirPath +:+ "/update-resolv-conf.sh" +:+ nl
  | _ => ""
  end.

Definition openvpn_processConfigWithLocalSettings (b : build) (applicationDirPath : string) (settings : ConnectionSettings)
    (p : ProtocolConfig) : ProtocolConfig :=
  let p := applyDnsToNativeConfig (connection_dns settings) p in
  let config := ProtocolConfig.nativeConfig p in
  let config := if isApiConfig settings then config
                else without_second_dns (connection_dns settings) (without_gateway config) +:+ gateway_lines b (splitTunneling settings) in
  ProtocolConfig.setNativeConfig (without_outside_dns b config +:+ resolver_lines b applicationDirPath) p.

Definition openvpn_processConfigWithExportSettings (dns : DnsSettings) (p : ProtocolConfig) : ProtocolConfig :=
  let p := applyDnsToNativeConfig dns p in
  let config := without_second_dns dns (without_gateway (ProtocolConfig.nativeConfig p)) +:+ redirect_all +:+ block_ipv6 in
  ProtocolConfig.setNativeConfig (replace_str "block-outside-dns" "" config) p.

(** ** IKEv2 *)
Section ikev2.
Context {W : Type} {L : Libssh W} {JP : JsonPrinter} {J : JsonCodec}.
Abbreviation M := (stM (client W)).

Definition ikev2_create_script (clientId : string) : string :=
  "certutil -z <(head -c 1024 /dev/urandom) " +:+
  "-S -c " +:+ quoted "IKEv2 VPN CA" +:+ " -n " +:+ quoted clientId +:+ " " +:+
  "-s " +:+ quoted ("O=IKEv2 VPN,CN=" +:+ clientId) +:+ " " +:+
  "-k rsa -g 3072 -v 120 " +:+
  "-d sql:/etc/ipsec.d -t " +:+ quoted ",," +:+ " " +:+
  "--keyUsage digitalSignature,keyEncipherment " +:+
  "--extKeyUsage serverAuth,clientAuth -8 " +:+ quoted clientId.
Definition ikev2_export_script (password clientId certFileName : string) : string :=
  "pk12util -W " +:+ quoted password +:+ " -d sql:/etc/ipsec.d -n " +:+ quoted clientId +:+ " -o " +:+ quoted certFileName.

(** The client's name and certificate; the error is the last command's. *)
Definition prepareIkev2Config (credentials : ServerCredentials) (c : DockerContainer) : M (string * string * Z) :=
  clientId ← call getRandomString;
  let certFileName := "/opt/amnezia/ikev2/clients/" +:+ clientId +:+ ".p12" in
  _ ← runContainerScript credentials c (ikev2_create_script clientId) no_callback no_callback tt;
  _ ← runContainerScript credentials c (ikev2_export_script "" clientId certFileName) no_callback no_callback tt;
  '(clientCert, _) ← getTextFileFromContainer c credentials certFileName;
  '(_, errorCode) ← getTextFileFromContainer c credentials "/etc/ipsec.d/ca_cert_base64.p12";
  mret (clientId, clientCert, errorCode).

(** [toBase64] is [QByteArray::toBase64]. *)
Definition genIkev2Config (toBase64 : string → string) (host clientId clientCert : string) : gmap string json :=
  object [member "hostName" (JString host); member "userName" (JString clientId);
          member "cert" (JString (toBase64 clientCert)); member "password" (JString "")].

Definition ikev2_of (p : ProtocolConfig) : option Ikev2ProtocolConfig := match p with PIkev2 i => Some i | _ => None end.
Definition ikev2_createConfig (toBase64 : string → string) (credentials : ServerCredentials) (c : DockerContainer)
    (containerConfig : ProtocolConfig) : M (Ikev2ProtocolConfig * Z) :=
  '(clientId, clientCert, errorCode) ← prepareIkev2Config credentials c;
  if negb ((errorCode : Z) =? ErrorCode.NoError) then mret (mkWithClient (Ikev2ServerConfig.fromJson ∅) None, errorCode) else
  let host := cred_hostName credentials in
  let configJson := indented (JObject (genIkev2Config toBase64 host clientId clientCert)) in
  mret (mkWithClient (default (Ikev2ServerConfig.mk host false) (ProtocolConfigs.serverConfig <$> ikev2_of containerConfig))
          (Some (Ikev2ClientConfig.mk configJson host clientId (toBase64 clientCert) "" clientId)), errorCode).
End ikev2.

(** ** Words and lines *)
Lemma prefix_longer w a b : String.prefix w a = true → String.prefix w (a +:+ b) = true.
Proof. intros [t ->]%prefix_split. rewrite string_app_assoc. apply prefix_self. Qed.
Lemma contains_longer w a b : w ≠ "" → contains_str w a = true → contains_str w (a +:+ b) = true.
Proof.
  intros Hw. induction a as [|ch a IH]; [by destruct w|]. rewrite append_String, !contains_str_cons by done.
  intros [H|H]%orb_true_iff; apply orb_true_iff; [left|right; by apply IH]. rewrite <- append_String. by apply prefix_longer.
Qed.

Lemma cut_from_cons w ch s :
  w ≠ "" → cut_from w (String ch s) = if String.prefix w (String ch s) then "" else String ch (cut_from w s).
Proof.
  intros Hw. unfold cut_from. cbn [String.index]. destruct (String.prefix w (String ch s)); [by destruct w|].
  by destruct (String.index 0 w s).
Qed.
Lemma cut_from_prefix w s : w ≠ "" → ∃ t, s = cut_from w s +:+ t.
Proof.
  intros Hw. induction s as [|ch s [t IH]]; [by exists ""; destruct w|]. rewrite cut_from_cons by done.
  destruct (String.prefix w (String ch s)); [by exists (String ch s)|]. exists t. by rewrite append_String, <- IH.
Qed.
Lemma cut_from_none w s : w ≠ "" → contains_str w (cut_from w s) = false.
Proof.
  intros Hw. induction s as [|ch s IH]; [by destruct w|]. rewrite cut_from_cons by done.
  destruct (String.prefix w (String ch s)) eqn:E; [by destruct w|]. rewrite contains_str_cons, IH, orb_false_r by done.
  destruct (String.prefix w (String ch (cut_from w s))) eqn:E2; [|done].
  destruct (cut_from_prefix w s Hw) as [t Ht]. apply (prefix_longer _ _ t) in E2. rewrite append_String, <- Ht in E2. congruence.
Qed.

(** The word is in the line at most at its beginning. *)
Definition at_start (w line : string) : bool :=
  match line with String _ rest => negb (contains_str w rest) | EmptyString => true end.
Lemma at_start_prefix w a b : w ≠ "" → at_start w (a +:+ b) = true → at_start w a = true.
Proof.
  intros Hw. destruct a as [|ch a]; [done|]. rewrite append_String. cbn. intros H%negb_true_iff. apply negb_true_iff.
  destruct (contains_str w a) eqn:E; [|done]. by rewrite (contains_longer w a b Hw E) in H.
Qed.

(** [f] works on each line for itself. *)
Record by_lines (f : string → string) : Prop := {
  by_line a b : contains_nl a = false → f (a +:+ nl +:+ b) = f a +:+ nl +:+ f b;
  by_line_nl a : contains_nl a = false → contains_nl (f a) = false;
}.
Lemma lines_map f s : by_lines f → lines_of (f s) = f <$> lines_of s.
Proof.
  intros [Hf Hn]. remember (String.length s) as n eqn:E. revert s E. induction (Nat.lt_wf_0 n) as [n _ IH]. intros s ->.
  destruct (take_line s) as [[l r]|] eqn:Hl.
  - pose proof (take_line_length _ _ _ Hl) as Hlen. apply take_line_inv in Hl as [-> Hl].
    rewrite Hf, !lines_of_line by (done || by apply Hn). rewrite fmap_cons. f_equal. by apply (IH _ Hlen).
  - apply take_line_none in Hl. unfold lines_of. by rewrite !split_char_none by (done || by apply Hn).
Qed.

Section dropped.
Context (w : string) (Hw : w ≠ "") (Hn : contains_nl w = false).
Lemma replace_nl s : replace_str w "" (nl +:+ s) = nl +:+ replace_str w "" s.
Proof.
  change (nl +:+ s) with (String newline s). rewrite replace_char_step; [done..|].
  pose proof (prefix_line w "" s Hn) as H. change ("" +:+ nl +:+ s) with (String newline s) in H. rewrite H. by destruct w.
Qed.
Lemma by_lines_replace : by_lines (replace_str w "").
Proof.
  split.
  - intros a b. remember (String.length a) as n eqn:E. revert a E. induction (Nat.lt_wf_0 n) as [n _ IH]. intros a -> Ha.
    destruct a as [|ch a].
    { rewrite !append_nil_l. apply replace_nl. }
    pose proof (prefix_line w (String ch a) b Hn) as Hp. destruct (String.prefix w (String ch a)) eqn:E.
    + destruct (prefix_split _ _ E) as [t Ht]. rewrite Ht, string_app_assoc, !replace_here, !append_nil_l by done. eapply IH; [|reflexivity|].
      * rewrite Ht, string_app_length. destruct w; [done|cbn; lia].
      * rewrite Ht, contains_nl_app in Ha. by apply orb_false_iff in Ha as [_ ?].
    + rewrite append_String in *. rewrite !replace_char_step by done. rewrite append_String. f_equal.
      eapply IH; [|reflexivity|by apply orb_false_iff in Ha as [_ ?]]. cbn. lia.
  - intros a. remember (String.length a) as n eqn:E. revert a E. induction (Nat.lt_wf_0 n) as [n _ IH]. intros a -> Ha.
    destruct a as [|ch a]. { done. }
    destruct (String.prefix w (String ch a)) eqn:E.
    + destruct (prefix_split _ _ E) as [t Ht]. rewrite Ht, replace_here, append_nil_l by done. eapply IH; [|reflexivity|].
      * rewrite Ht, string_app_length. destruct w; [done|cbn; lia].
      * rewrite Ht, contains_nl_app in Ha. by apply orb_false_iff in Ha as [_ ?].
    + rewrite replace_char_step by done. apply orb_false_iff in Ha as [H1 H2]. unfold contains_nl in *. cbn. rewrite H1. cbn.
      eapply IH; [|reflexivity|done]. cbn. lia.
Qed.
(** Where the word is only at the beginning, what is left is an end of the line. *)
Lemma replace_at_start l : at_start w l = true → ∃ t, l = t +:+ replace_str w "" l.
Proof.
  intros H. destruct l as [|ch l]. { by exists "". }
  assert (∀ s, contains_str w s = false → replace_str w "" s = s) as Hno.
  { intros s Hs. apply replace_none. unfold contains_str in Hs. by destruct (String.index 0 w s). }
  cbn in H. apply negb_true_iff in H. destruct (String.prefix w (String ch l)) eqn:E.
  - destruct (prefix_split _ _ E) as [t Ht]. rewrite Ht, replace_here, append_nil_l by done. exists w. rewrite Hno; [done|].
    destruct w as [|c w'] eqn:Ew; [done|]. rewrite append_String in Ht. injection Ht as -> Hl.
    destruct (contains_str (String c w') t) eqn:Ec; [|done]. rewrite Hl, (contains_right _ w' t) in H by done. done.
  - rewrite replace_char_step, Hno by done. by exists "".
Qed.
End dropped.

Section matched.
Context (p : string) (Hp : p ≠ "") (Hn : contains_nl p = false).
Lemma matches_split s r : matches_at p s = Some r → ∃ t, s = t +:+ r ∧ String.length t = String.length p.
Proof.
  clear Hp Hn. revert s. induction p as [|c q IH]; intros s; [intros [= ->]; by exists ""|]. destruct s as [|ch s]; [done|]. cbn.
  destruct (_ || _); [|done]. intros (t & -> & Ht)%IH. exists (String ch t). rewrite append_String. cbn. by rewrite Ht.
Qed.
Lemma pattern_line a b : matches_at p (a +:+ nl +:+ b) = (λ r, r +:+ nl +:+ b) <$> matches_at p a.
Proof.
  clear Hp. revert a. induction p as [|c q IH]; intros a; [by destruct a|]. apply orb_false_iff in Hn as [Hc Hq].
  destruct a as [|ch a].
  - change ("" +:+ nl +:+ b) with (String newline b). cbn. rewrite andb_false_r, Hc. done.
  - rewrite append_String. cbn. destruct (_ || _); [by apply IH|done].
Qed.
Lemma drop_fuel f f' s : (String.length s ≤ f)%nat → (String.length s ≤ f')%nat → drop_matches f p s = drop_matches f' p s.
Proof.
  clear Hn. revert f' s. induction f as [|f IH]; intros f' s Hf Hf'.
  { destruct s; [|cbn in Hf; lia]. destruct f'; [done|]. cbn. by destruct p. }
  destruct f' as [|f'].
  { destruct s; [|cbn in Hf'; lia]. cbn. by destruct p. }
  cbn [drop_matches]. destruct (matches_at p s) as [r|] eqn:E.
  - destruct (matches_split _ _ E) as (t & -> & Ht). rewrite string_app_length in *.
    assert (1 ≤ String.length t)%nat by (rewrite Ht; destruct p; [done|cbn; lia]). apply IH; lia.
  - destruct s; [done|]. cbn in *. f_equal. apply IH; lia.
Qed.
Definition dropped (s : string) : string := drop_matches (String.length s) p s.
Lemma dropped_match s r : matches_at p s = Some r → dropped s = dropped r.
Proof.
  intros E. unfold dropped. destruct (matches_split _ _ E) as (t & Hs & Ht).
  assert (1 ≤ String.length t)%nat by (rewrite Ht; destruct p; [done|cbn; lia]).
  destruct (String.length s) as [|n] eqn:El; rewrite Hs, string_app_length in El; [lia|]. cbn [drop_matches]. rewrite E.
  apply drop_fuel; lia.
Qed.
Lemma dropped_step ch s : matches_at p (String ch s) = None → dropped (String ch s) = String ch (dropped s).
Proof. intros E. unfold dropped. cbn [String.length drop_matches]. by rewrite E. Qed.

Lemma by_lines_dropped : by_lines dropped.
Proof.
  split.
  - intros a b. remember (String.length a) as n eqn:E. revert a E. induction (Nat.lt_wf_0 n) as [n _ IH]. intros a -> Ha.
    pose proof (pattern_line a b) as Hm. destruct (matches_at p a) as [r|] eqn:E; cbn in Hm.
    + destruct (matches_split _ _ E) as (t & Hs & Ht). rewrite (dropped_match _ _ Hm), (dropped_match _ _ E).
      assert (1 ≤ String.length t)%nat by (rewrite Ht; destruct p; [done|cbn; lia]).
      eapply IH; [|reflexivity|]; [rewrite Hs, string_app_length; lia|]. rewrite Hs, contains_nl_app in Ha. by apply orb_false_iff in Ha as [_ ?].
    + destruct a as [|ch a]; [by rewrite append_nil_l in *; change (nl +:+ b) with (String newline b) in *; rewrite dropped_step|].
      rewrite append_String in *. rewrite !dropped_step by done. rewrite append_String. f_equal.
      eapply IH; [|reflexivity|by apply orb_false_iff in Ha as [_ ?]]. cbn. lia.
  - intros a. remember (String.length a) as n eqn:E. revert a E. induction (Nat.lt_wf_0 n) as [n _ IH]. intros a -> Ha.
    destruct (matches_at p a) as [r|] eqn:E.
    + destruct (matches_split _ _ E) as (t & Hs & Ht). rewrite (dropped_match _ _ E).
      assert (1 ≤ String.length t)%nat by (rewrite Ht; destruct p; [done|cbn; lia]).
      eapply IH; [|reflexivity|]; [rewrite Hs, string_app_length; lia|]. rewrite Hs, contains_nl_app in Ha. by apply orb_false_iff in Ha as [_ ?].
    + destruct a as [|ch a]; [done|]. rewrite dropped_step by done. apply orb_false_iff in Ha as [H1 H2]. unfold contains_nl in *. cbn.
      rewrite H1. cbn. eapply IH; [|reflexivity|done]. cbn. lia.
Qed.

(** The pattern begins with a word that has no dot. *)
Context (w : string) (Hw : w ≠ "") (Hdot : contains_char full_stop w = false) (Hpw : ∃ x, p = w +:+ x).
Lemma matches_word s r : matches_at p s = Some r → String.prefix w s = true.
Proof.
  clear Hp Hn Hw. destruct Hpw as [x ->]. clear Hpw. revert s r. induction w as [|c v IH]; intros s r; [by destruct s|].
  apply orb_false_iff in Hdot as [Hc Hv]. destruct s as [|ch s]; [done|]. rewrite append_String. cbn. rewrite Hc. cbn [andb orb].
  destruct (Ascii.eqb_spec c ch) as [->|]; [|done]. intros H. destruct (Ascii.ascii_dec ch ch); [|done]. by eapply IH.
Qed.
Lemma dropped_none s : contains_str w s = false → dropped s = s.
Proof.
  induction s as [|ch s IH]; [done|]. rewrite contains_str_cons by done. intros [H1 H2]%orb_false_iff. rewrite dropped_step, IH; [done..|].
  destruct (matches_at p (String ch s)) eqn:E; [|done]. by rewrite (matches_word _ _ E) in H1.
Qed.
Lemma dropped_at_start l : at_start w l = true → ∃ t, l = t +:+ dropped l.
Proof.
  destruct l as [|ch l]; [by exists ""|]. cbn [at_start]. intros H%negb_true_iff. destruct (matches_at p (String ch l)) as [r|] eqn:E.
  - rewrite (dropped_match _ _ E). destruct (matches_split _ _ E) as (t & Ht & Hlen). exists t. rewrite dropped_none; [done|].
    destruct t as [|c t]; [by destruct p|]. rewrite append_String in Ht. injection Ht as -> Hl.
    destruct (contains_str w r) eqn:Er; [|done]. by rewrite Hl, contains_right in H.
  - rewrite dropped_step, dropped_none by done. by exists "".
Qed.
End matched.

(** ** Which traffic a configuration redirects *)
Abbreviation redirect_word := "redirect-gateway" (only parsing).
Abbreviation outside_word := "block-outside-dns" (only parsing).
Abbreviation dns_word := "dhcp-option DNS " (only parsing).
Definition redirects (config : string) : list string := List.filter (contains_str redirect_word) (lines_of config).
(** Lines as OpenVPN has them: an option stands at the beginning of its line. *)
Definition tidy (config : string) : Prop :=
  Forall (λ l, at_start outside_word l = true ∧ at_start dns_word l = true) (lines_of config).

Definition local_redirects (split : SplitTunnelingSettings) : list string :=
  if negb (sitesEnabled split) then ["redirect-gateway def1 ipv6 bypass-dhcp"]
  else if routeMode split =? VpnAllExceptSites then ["redirect-gateway ipv6 !ipv4 bypass-dhcp"] else [].

Lemma at_start_end w t s : w ≠ "" → at_start w (t +:+ s) = true → at_start w s = true.
Proof.
  intros Hw. destruct t as [|c t]; [done|]. rewrite append_String. cbn. intros H%negb_true_iff. destruct s as [|ch s]; [done|]. cbn.
  apply negb_true_iff. destruct (contains_str w s) eqn:E; [|done].
  assert (contains_str w (String ch s) = true) as E2 by (by rewrite contains_str_cons, E, orb_true_r).
  by rewrite (contains_right w t (String ch s)) in H.
Qed.
Lemma free_end w t s : w ≠ "" → contains_str w (t +:+ s) = false → contains_str w s = false.
Proof. intros Hw H. destruct (contains_str w s) eqn:E; [|done]. by rewrite contains_right in H. Qed.

(** A line in which the gateway is not redirected, and which is tidy. *)
Definition calm (l : string) : Prop := contains_str redirect_word l = false ∧ at_start outside_word l = true ∧ at_start dns_word l = true.
Lemma calm_end t l : calm (t +:+ l) → calm l.
Proof. intros (H1 & H2 & H3). split_and!; [by eapply free_end|by eapply at_start_end|by eapply at_start_end]. Qed.

Lemma lines_cut config : lines_of (without_gateway config) = cut_from redirect_word <$> lines_of config.
Proof.
  unfold without_gateway. remember (String.length config) as n eqn:E. revert config E. induction (Nat.lt_wf_0 n) as [n _ IH]. intros config ->.
  assert (∀ l, contains_nl l = false → contains_nl (cut_from redirect_word l) = false) as Hcut.
  { intros l Hl. destruct (cut_from_prefix redirect_word l) as [t Ht]; [done|]. rewrite Ht, contains_nl_app in Hl.
    by apply orb_false_iff in Hl as [? _]. }
  destruct (take_line config) as [[l r]|] eqn:Hl.
  - pose proof (take_line_length _ _ _ Hl) as Hlen. apply take_line_inv in Hl as [-> Hl]. rewrite lines_of_line by done.
    specialize (IH _ Hlen r eq_refl). pose proof (split_char_nonempty newline r) as Hne. fold (lines_of r) in Hne.
    destruct (lines_of r) as [|y k]; [done|].
    change (String.concat nl (cut_from redirect_word <$> l :: y :: k))
      with (cut_from redirect_word l +:+ nl +:+ String.concat nl (cut_from redirect_word <$> y :: k)).
    rewrite lines_of_line by by apply Hcut.
    by rewrite IH.
  - apply take_line_none in Hl. unfold lines_of. rewrite (split_char_none _ config) by done. cbn. apply split_char_none. by apply Hcut.
Qed.
Lemma calm_cut config : tidy config → Forall calm (lines_of (without_gateway config)).
Proof.
  intros H. rewrite lines_cut. apply Forall_fmap.
  eapply Forall_impl; [exact H|]. cbn beta. intros l [H1 H2]. destruct (cut_from_prefix redirect_word l) as [t Ht]; [done|].
  rewrite Ht in H1, H2. split; [by apply cut_from_none|]. split; eapply at_start_prefix; done.
Qed.
Lemma calm_dns dns config :
  contains_nl (secondaryDns dns) = false → Forall calm (lines_of config) → Forall calm (lines_of (without_second_dns dns config)).
Proof.
  intros Hn H. unfold without_second_dns. destruct (contains_str _ _); [|done]. set (p := dns_word +:+ secondaryDns dns).
  assert (p ≠ "") as Hp by done. assert (contains_nl p = false) as Hpn by (unfold p; by rewrite contains_nl_app, Hn).
  change (drop_matches (String.length config) p config) with (dropped p config).
  rewrite (lines_map _ _ (by_lines_dropped p Hp Hpn)). apply Forall_fmap. eapply Forall_impl; [exact H|]. intros l Hl. cbn.
  destruct (dropped_at_start p Hp Hpn dns_word ltac:(done) eq_refl ltac:(by exists (secondaryDns dns)) l) as [t Ht]; [apply Hl|].
  rewrite Ht in Hl. by eapply calm_end.
Qed.
Lemma calm_outside b config : Forall calm (lines_of config) → Forall calm (lines_of (without_outside_dns b config)).
Proof.
  intros H. assert (Forall calm (lines_of (replace_str outside_word "" config))) as Hr; [|by destruct b].
  rewrite (lines_map _ _ (by_lines_replace outside_word ltac:(done) eq_refl)). apply Forall_fmap. eapply Forall_impl; [exact H|]. intros l Hl. cbn.
  destruct (replace_at_start outside_word ltac:(done) eq_refl l) as [t Ht]; [apply Hl|]. rewrite Ht in Hl. by eapply calm_end.
Qed.
Lemma calm_redirects config : Forall calm (lines_of config) → redirects config = [].
Proof. unfold redirects. induction 1 as [|l ls Hl _ IH]; [done|]. cbn. by rewrite (proj1 Hl). Qed.

Lemma lines_outside b config : lines_of (without_outside_dns b config) = without_outside_dns b <$> lines_of config.
Proof.
  assert (∀ l : list string, (λ x, x) <$> l = l) as Hid by apply list_fmap_id.
  destruct b; try exact (lines_map _ _ (by_lines_replace outside_word ltac:(done) eq_refl)). symmetry. apply Hid.
Qed.

Lemma native_set p config : ProtocolConfig.hasClientConfig p = true → ProtocolConfig.nativeConfig (ProtocolConfig.setNativeConfig config p) = config.
Proof. destruct p as [c|c|c|c|c|c|c|c|c|c|c]; try done; destruct c; cbn; try done; by destruct clientConfig as [[]|]. Qed.
Lemma has_set p config : ProtocolConfig.hasClientConfig (ProtocolConfig.setNativeConfig config p) = ProtocolConfig.hasClientConfig p.
Proof. destruct p as [c|c|c|c|c|c|c|c|c|c|c]; try done; destruct c; cbn; try done; by destruct clientConfig as [[]|]. Qed.

Lemma redirects_after b core tail :
  Forall calm (lines_of core) →
  redirects (without_outside_dns b (core +:+ nl +:+ tail)) =
  List.filter (contains_str redirect_word) (without_outside_dns b <$> lines_of tail).
Proof.
  intros H. unfold redirects. rewrite lines_outside, lines_app, fmap_app, List.filter_app.
  pose proof (calm_redirects _ (calm_outside b core H)) as E. unfold redirects in E. rewrite lines_outside in E. by rewrite E.
Qed.

(** Before a connection, what a configuration says of the gateway is
    replaced by what the user chose, on a desktop: all traffic goes through the
    tunnel, or with excluded sites that of IPv6 alone, or none is redirected;
    nothing the configuration itself said of it is left.  An exported
    configuration redirects all traffic. *)
Theorem gateway_redirected b dir settings p :
  ProtocolConfig.hasClientConfig p = true → contains_nl (secondaryDns (connection_dns settings)) = false →
  tidy (ProtocolConfig.nativeConfig (applyDnsToNativeConfig (connection_dns settings) p)) →
  (isApiConfig settings = false → is_mobile b = false → ∃ body,
     ProtocolConfig.nativeConfig (openvpn_processConfigWithLocalSettings b dir settings p) = body +:+ resolver_lines b dir ∧
     redirects body = local_redirects (splitTunneling settings)) ∧
  redirects (ProtocolConfig.nativeConfig (openvpn_processConfigWithExportSettings (connection_dns settings) p)) =
    ["redirect-gateway def1 ipv6 bypass-dhcp"].
Proof.
  intros Hc Hn Ht. assert (ProtocolConfig.hasClientConfig (applyDnsToNativeConfig (connection_dns settings) p) = true) as Hc'.
  { unfold applyDnsToNativeConfig. by rewrite has_set. }
  set (core := without_second_dns (connection_dns settings)
    (without_gateway (ProtocolConfig.nativeConfig (applyDnsToNativeConfig (connection_dns settings) p)))).
  assert (Forall calm (lines_of core)) as Hcore by by apply calm_dns, calm_cut.
  split.
  - intros Hapi Hb. unfold openvpn_processConfigWithLocalSettings. rewrite Hapi, native_set by done. fold core. eexists. split; [reflexivity|].
    unfold gateway_lines, local_redirects. destruct (sitesEnabled _); cbn [negb].
    + destruct (routeMode _ =? VpnOnlyForwardSites) eqn:E1.
      { apply Z.eqb_eq in E1. rewrite E1. rewrite append_nil_r. by apply calm_redirects, calm_outside. }
      destruct (routeMode _ =? VpnAllExceptSites).
      2: { rewrite append_nil_r. by apply calm_redirects, calm_outside. }
      rewrite Hb. unfold redirect_ipv6. rewrite !string_app_assoc, redirects_after by done. destruct b; vm_compute; reflexivity.
    + unfold redirect_all. rewrite !string_app_assoc, redirects_after by done. destruct b; vm_compute; reflexivity.
  - unfold openvpn_processConfigWithExportSettings. rewrite native_set by done. fold core.
    unfold redirect_all. rewrite !string_app_assoc. etrans; [exact (redirects_after BuildLinux core _ Hcore)|vm_compute; reflexivity].
Qed.

Lemma gateway_redirected_witness :
  let p := POpenVpn (mkWithClient (OpenVpnServerConfig.fromJson ∅)
    (Some (OpenVpnClientConfig.mk ("client" +:+ nl +:+ "redirect-gateway def1" +:+ nl +:+ "block-outside-dns") "id" false))) in
  redirects (ProtocolConfig.nativeConfig (openvpn_processConfigWithExportSettings (mkDns "1.1.1.1" "1.0.0.1") p)) =
    ["redirect-gateway def1 ipv6 bypass-dhcp"] ∧
  ∃ body, ProtocolConfig.nativeConfig (openvpn_processConfigWithLocalSettings BuildLinux "/opt"
      (mkSettings (mkDns "1.1.1.1" "1.0.0.1") false (mkSplit true VpnOnlyForwardSites)) p) = body +:+ resolver_lines BuildLinux "/opt" ∧
    redirects body = [].
Proof.
  set (p := POpenVpn _).
  destruct (gateway_redirected BuildLinux "/opt" (mkSettings (mkDns "1.1.1.1" "1.0.0.1") false (mkSplit true VpnOnlyForwardSites)) p) as [H1 H2].
  - reflexivity.
  - reflexivity.
  - repeat (constructor; [vm_compute; by split|]). constructor.
  - split; [exact H2|]. exact (H1 eq_refl eq_refl).
Defined.

(** ** A new client *)
Definition req_path (id : string) : string := clientsDirPath +:+ "/" +:+ id +:+ ".req".
Definition imported_path (id : string) : string := "/opt/amnezia/openvpn/pki/reqs/" +:+ id +:+ ".req".
Definition crt_path (id : string) : string := clientCertPath +:+ "/" +:+ id +:+ ".crt".

(** What easyrsa is documented to do with a request under a name it does not know
    yet: import it, and put the certificate made of it next to the others.  It
    keeps its index, its serial numbers and copies in the directory of the
    authority, of which nothing is said but that the authority's certificate and
    those of the other clients stay. *)
Definition pki_path : string := "/opt/amnezia/openvpn/pki/".
Definition stays (c : DockerContainer) (id : string) (k : string * string) : Prop :=
  k.1 ≠ containerToString c ∨ String.prefix pki_path k.2 = false ∨ k.2 = caCertPath ∨ ∃ id', id' ≠ id ∧ k.2 = crt_path id'.
Record signing_step (c : DockerContainer) (id : string) (v v' : view) : Prop := {
  step_receiving : receiving v' = receiving v;
  step_hosts : hosts v' = hosts v;
  step_served : served v' = served v;
  step_boxes k : stays c id k → boxes v' !! k = boxes v !! k;
}.
Definition unnamed (c : DockerContainer) (id : string) (v : view) : Prop :=
  boxes v !! (containerToString c, imported_path id) = None ∧ boxes v !! (containerToString c, crt_path id) = None.
Class EasyRsa (W : Type) {L : Libssh W} {V : ServerView W} := {
  certifies : string → string → Prop;         (** a certificate of the authority for a request *)
  certifies_text crt req : certifies crt req → crt ≠ "";
  import_law c id req w : plain id = true → well w → boxes (seen w) !! (containerToString c, req_path id) = Some req →
    unnamed c id (seen w) → ∃ v, answers (import_script c id) w v quiet ∧ signing_step c id (seen w) v ∧
      boxes v !! (containerToString c, imported_path id) = Some req ∧ boxes v !! (containerToString c, crt_path id) = None;
  sign_law c id req w : plain id = true → well w → boxes (seen w) !! (containerToString c, imported_path id) = Some req →
    boxes (seen w) !! (containerToString c, crt_path id) = None →
    ∃ v crt, answers (sign_script c id) w v quiet ∧ signing_step c id (seen w) v ∧
      boxes v !! (containerToString c, crt_path id) = Some crt ∧ certifies crt req;
}.
Class CertLaws (W : Type) {V : ServerView W} {K : CertRequests W} : Prop := {
  cert_law w : well w → let '((id, priv, req), w') := createCertRequest w in
    plain id = true ∧ priv ≠ "" ∧ req ≠ "" ∧ same w w';
}.

Section added.
Context {W : Type} {L : Libssh W} {V : ServerView W} {Sv : Server W} {ER : EasyRsa W}.
Context {K : CertRequests W} {KL : CertLaws W} {R : Resources}.
Context (credentials : ServerCredentials) (c : DockerContainer) (dns : DnsSettings).
Context (Ha : accepted credentials) (Hc : clear_host credentials).
Context (D1 : no_dollar (primaryDns dns) = true) (D2 : no_dollar (secondaryDns dns) = true).
Abbreviation name := (containerToString c).

Lemma plain_path a id e : plain a = true → plain id = true → plain e = true → plain (a +:+ id +:+ e) = true.
Proof.
  unfold plain. intros H1 H2 H3. fold (all_chars plain_char (a +:+ id +:+ e)). rewrite !all_chars_app. unfold all_chars. by rewrite H1, H2, H3.
Qed.
Lemma scripts_tame id : plain id = true → Forall tame_command [import_script c id; sign_script c id].
Proof.
  intros H%plain_tame. pose proof (name_plain c) as Hn%plain_tame.
  repeat constructor; [| | |].
  - unfold import_script, clientsDirPath. tame_script.
  - done.
  - unfold sign_script. tame_script.
  - done.
Qed.
Lemma fill_sign id :
  plain id = true →
  replaceVars (String.concat nl [import_script c id; sign_script c id])
    (genBaseVars getIPAddress credentials c (primaryDns dns) (secondaryDns dns)) =
  String.concat nl [import_script c id; sign_script c id].
Proof.
  intros Hid%plain_no_dollar. assert (no_dollar name = true) as Hn by by destruct c.
  set (t := String.concat nl _). replace t with (render [Plain t]) at 1 by reflexivity.
  rewrite (filled_base credentials c _ _ Hc D1 D2); [reflexivity|]. intros b. repeat constructor; cbn [piece_ok].
  change t with (import_script c id +:+ nl +:+ sign_script c id). unfold import_script, sign_script, clientsDirPath.
  by repeat apply no_dollar_app.
Qed.

Lemma signing_trans id v1 v2 v3 : signing_step c id v1 v2 → signing_step c id v2 v3 → signing_step c id v1 v3.
Proof. intros [A1 A2 A3 A4] [B1 B2 B3 B4]. split; [congruence..|]. intros k Hk. by rewrite B4, A4. Qed.
Lemma leads_sign id req (x : client W) :
  plain id = true → well (world x) → boxes (seen (world x)) !! (name, req_path id) = Some req → unnamed c id (seen (world x)) →
  leads (signCert c credentials dns id) x (λ e x', e = ErrorCode.NoError ∧ well (world x') ∧ signing_step c id (seen (world x)) (seen (world x')) ∧
    ∃ crt, boxes (seen (world x')) !! (name, crt_path id) = Some crt ∧ certifies crt req).
Proof.
  intros Hid Hw Hr Hn. unfold signCert. rewrite fill_sign by done.
  apply (run_all credentials Ha _ (λ v, signing_step c id (seen (world x)) v ∧ ∃ crt, boxes v !! (name, crt_path id) = Some crt ∧ certifies crt req));
    [by apply scripts_tame|exact Hw|].
  cbn [reaches]. intros w Hw' E. rewrite <- E in *. destruct (import_law c id req w) as (v & Hans & Hs & Hi & Hc'); [done..|].
  exists v. split; [exact Hans|]. intros w2 Hw2 E2. subst v. destruct (sign_law c id req w2) as (v & crt & Hans2 & Hs2 & Hcrt & Hcert); [done..|].
  exists v. split; [exact Hans2|]. split; [by eapply signing_trans|by exists crt].
Qed.
End added.

Section client_added.
Context {W : Type} {L : Libssh W} {V : ServerView W} {Sv : Server W} {ER : EasyRsa W}.
Context {K : CertRequests W} {KL : CertLaws W} {R : Resources}.
Context (credentials : ServerCredentials) (c : DockerContainer) (dns : DnsSettings).
Context (Ha : accepted credentials) (Hc : clear_host credentials).
Context (D1 : no_dollar (primaryDns dns) = true) (D2 : no_dollar (secondaryDns dns) = true).
Abbreviation name := (containerToString c).

Lemma leads_cert p d b (x : client W) :
  plain p = true → b !! (name, p) = Some d → well (world x) → boxes (seen (world x)) = b →
  leads (getTextFileFromContainer c credentials p) x (λ r x', r = (d, ErrorCode.NoError) ∧ well (world x') ∧ boxes (seen (world x')) = b).
Proof.
  intros Hp Hd Hw Hb. eapply leads_mono; [by apply (get_leads credentials c Ha p d); [..|rewrite Hb]|].
  cbn beta. intros r x' (-> & Hw' & E). split; [done|]. split; [exact Hw'|by rewrite E].
Qed.

(** The random name of a client is not one that easyrsa has. *)
Definition new_names (v : view) : Prop := ∀ w id priv req w',
  well w → seen w = v → createCertRequest w = ((id, priv, req), w') → unnamed c id v.
(** What is left for a client of this name, with this request and certificate. *)
Record client_made (id req crt : string) (v v' : view) : Prop := {
  made_request : boxes v' !! (name, req_path id) = Some req;
  made_certificate : boxes v' !! (name, crt_path id) = Some crt ∧ certifies crt req;
  made_others k : k ≠ (name, req_path id) → stays c id k → boxes v' !! k = boxes v !! k;
}.
Lemma stays_others id : stays c id (name, req_path id) ∧ stays c id (name, caCertPath) ∧ stays c id (name, taKeyPath).
Proof. split_and!; right; [by left|by right; left|by left]. Qed.
Lemma leads_openvpn ca ta (x : client W) :
  well (world x) → new_names (seen (world x)) →
  boxes (seen (world x)) !! (name, caCertPath) = Some ca → boxes (seen (world x)) !! (name, taKeyPath) = Some ta →
  ca ≠ "" → ta ≠ "" →
  leads (prepareOpenVpnConfig credentials c dns) x (λ r x', ∃ id priv req crt, priv ≠ "" ∧ req ≠ "" ∧
    r = (OpenVpn.mkConnectionData id req priv crt ca ta (cred_hostName credentials), ErrorCode.NoError) ∧
    client_made id req crt (seen (world x)) (seen (world x'))).
Proof.
  intros Hw Hnew Hca Hta N1 N2. unfold prepareOpenVpnConfig. apply leads_bind, leads_call. pose proof (cert_law (world x) Hw) as Hk.
  pose proof (Hnew (world x)) as Hun. destruct (createCertRequest (world x)) as [[[id priv] req] w1].
  destruct Hk as (Hid & Np & Nr & [Hw1 H1]). destruct (Hun _ _ _ _ Hw eq_refl eq_refl) as [U1 U2]. cbn [fst snd].
  rewrite (proj2 (String.eqb_neq priv "") Np), (proj2 (String.eqb_neq req "") Nr). cbn [orb].
  assert (plain (req_path id) = true) as Preq by by apply (plain_path (clientsDirPath +:+ "/") id ".req").
  assert (plain (crt_path id) = true) as Pcrt by by apply (plain_path (clientCertPath +:+ "/") id ".crt").
  apply leads_bind. eapply leads_mono; [by apply (upload_leads credentials c Ha Hc ScpOverwriteExisting (req_path id) req)|].
  cbn beta. intros e x2 (-> & Hw2 & tmp & _ & H2). rewrite Z.eqb_refl. cbn [negb].
  assert (boxes (seen (world x2)) = <[(name, req_path id) := req]> (boxes (seen (world x)))) as B2 by (rewrite H2; cbn; by rewrite H1).
  assert (∀ p, p ≠ req_path id → boxes (seen (world x2)) !! (name, p) = boxes (seen (world x)) !! (name, p)) as B2'.
  { intros p Hp. rewrite B2, lookup_insert_ne; [done|congruence]. }
  apply leads_bind. eapply leads_mono; [apply (leads_sign credentials c dns Ha Hc D1 D2 id req); [done|done|by rewrite B2, lookup_insert_eq|]|].
  { split; by rewrite B2'. }
  cbn beta. intros e x3 (-> & Hw3 & Hs & crt & Hcrt & Hcert). rewrite Z.eqb_refl. cbn [negb].
  destruct (stays_others id) as (S1 & S2 & S3). pose proof (step_boxes _ _ _ _ Hs) as B3.
  assert (boxes (seen (world x3)) !! (name, caCertPath) = Some ca) as Kca by by rewrite B3, B2'.
  assert (boxes (seen (world x3)) !! (name, taKeyPath) = Some ta) as Kta by by rewrite B3, B2'.
  apply leads_pair. eapply leads_mono; [eapply (leads_cert caCertPath ca _ x3); [done|exact Kca|done|done]|].
  intros r x4 (-> & Hw4 & B4). cbn [fst snd]. apply leads_pair.
  eapply leads_mono; [eapply (leads_cert (crt_path id) crt (boxes (seen (world x3))) x4); [exact Pcrt|exact Hcrt|exact Hw4|exact B4]|].
  intros r x5 (-> & Hw5 & B5). cbn [fst snd]. rewrite Z.eqb_refl. cbn [negb]. apply leads_pair.
  eapply leads_mono; [eapply (leads_cert taKeyPath ta (boxes (seen (world x3))) x5); [done|exact Kta|exact Hw5|exact B5]|].
  intros r x6 (-> & Hw6 & B6). cbn [fst snd]. apply leads_ret. exists id, priv, req, crt.
  rewrite (proj2 (String.eqb_neq ca "") N1), (proj2 (String.eqb_neq ta "") N2), (proj2 (String.eqb_neq _ "") (certifies_text _ _ Hcert)). cbn [orb].
  split_and!; [done..|]. split; rewrite ?B6.
  - by rewrite B3, B2, lookup_insert_eq.
  - done.
  - intros k Hk Hst. by rewrite B3, B2, lookup_insert_ne.
Qed.

(** C20. A new client of an OpenVPN container has a certificate issued for its own
    request and key: the request is in the container, easyrsa has made the
    certificate of it, and the configuration is the container's template filled
    with the container's authority, that certificate, the client's key and the
    static key without its comments.  Outside the authority's directory nothing
    else is touched, and in it neither its certificate nor another client's.  The
    client's random name is one that easyrsa does not know. *)
Theorem openvpn_client_added b containerConfig ca ta (x : client W) :
  well (world x) → new_names (seen (world x)) →
  boxes (seen (world x)) !! (name, caCertPath) = Some ca → boxes (seen (world x)) !! (name, taKeyPath) = Some ta →
  ca ≠ "" → ta ≠ "" →
  let '((config, e), x') := openvpn_createConfig b credentials c containerConfig dns x in
  e = ErrorCode.NoError ∧ ∃ id priv req crt, priv ≠ "" ∧ req ≠ "" ∧
    let template := replaceVars (scriptData openvpn_template c)
      (genBaseVars getIPAddress credentials c (primaryDns dns) (secondaryDns dns) ++ genProtocolVarsForContainer c containerConfig) in
    clientConfig config = Some (OpenVpnClientConfig.mk
      (fill_keys b template (OpenVpn.mkConnectionData id req priv crt ca ta (cred_hostName credentials))) id false) ∧
    client_made id req crt (seen (world x)) (seen (world x')).
Proof.
  intros Hw Hnew Hca Hta N1 N2.
  enough (leads (openvpn_createConfig b credentials c containerConfig dns) x (λ r x', r.2 = ErrorCode.NoError ∧ ∃ id priv req crt, priv ≠ "" ∧ req ≠ "" ∧
    let template := replaceVars (scriptData openvpn_template c)
      (genBaseVars getIPAddress credentials c (primaryDns dns) (secondaryDns dns) ++ genProtocolVarsForContainer c containerConfig) in
    clientConfig r.1 = Some (OpenVpnClientConfig.mk
      (fill_keys b template (OpenVpn.mkConnectionData id req priv crt ca ta (cred_hostName credentials))) id false) ∧
    client_made id req crt (seen (world x)) (seen (world x')))) as H.
  { unfold leads in H. by destruct (openvpn_createConfig _ _ _ _ _ x) as [[config e] x']. }
  unfold openvpn_createConfig. apply leads_pair. eapply leads_mono; [by apply (leads_openvpn ca ta)|].
  intros r x' (id & priv & req & crt & Np & Nr & -> & B). cbn [fst snd]. rewrite Z.eqb_refl. cbn [negb]. apply leads_ret.
  split; [done|]. by exists id, priv, req, crt.
Qed.
End client_added.

(** *** A server that signs *)
#[local] Existing Instances shelf.libssh shelf.server_view shelf.serves.
Module office.
Lemma words_import c id :
  plain id = true →
  split_char shelf.space (import_script c id) =
  ["sudo"; "docker"; "exec"; "-i"; containerToString c; "bash"; "-c"; dquote +:+ "cd"; "/opt/amnezia/openvpn"; "&&"; "easyrsa"; "import-req";
   req_path id; id +:+ dquote].
Proof.
  intros Hid. unfold import_script. set (p := clientsDirPath +:+ "/" +:+ id +:+ ".req").
  assert (plain p = true) as Hp by by apply (plain_path (clientsDirPath +:+ "/") id ".req").
  replace (clientsDirPath +:+ "/" +:+ id +:+ ".req " +:+ id +:+ dquote) with (p +:+ shelf.sp (id +:+ dquote)).
  2: { unfold p. by rewrite !string_app_assoc. }
  change ("sudo docker exec -i " +:+ containerToString c +:+ " bash -c " +:+ dquote +:+ "cd /opt/amnezia/openvpn && easyrsa import-req " +:+ p +:+ shelf.sp (id +:+ dquote))
    with ("sudo" +:+ shelf.sp ("docker" +:+ shelf.sp ("exec" +:+ shelf.sp ("-i" +:+ shelf.sp (containerToString c +:+ shelf.sp ("bash" +:+ shelf.sp ("-c" +:+
      shelf.sp ((dquote +:+ "cd") +:+ shelf.sp ("/opt/amnezia/openvpn" +:+ shelf.sp ("&&" +:+ shelf.sp ("easyrsa" +:+ shelf.sp ("import-req" +:+
      shelf.sp (p +:+ shelf.sp (id +:+ dquote)))))))))))))).
  rewrite !shelf.word_split by (done || by destruct c). rewrite (shelf.split_app _ (dquote +:+ "cd")), !shelf.word_split by done.
  rewrite (split_char_none _ (id +:+ dquote)); [reflexivity|]. by rewrite contains_char_app, (shelf.plain_no _ id).
Qed.
Lemma words_sign c id :
  plain id = true →
  split_char shelf.space (sign_script c id) =
  ["sudo"; "docker"; "exec"; "-i"; containerToString c; "bash"; "-c"; dquote +:+ "export"; "EASYRSA_BATCH=1;"; "cd"; "/opt/amnezia/openvpn";
   "&&"; "easyrsa"; "sign-req"; "client"; id +:+ dquote].
Proof.
  intros Hid. unfold sign_script. change ("sudo docker exec -i " +:+ containerToString c +:+ " bash -c " +:+ dquote +:+
      "export EASYRSA_BATCH=1; cd /opt/amnezia/openvpn && easyrsa sign-req client " +:+ id +:+ dquote)
    with ("sudo" +:+ shelf.sp ("docker" +:+ shelf.sp ("exec" +:+ shelf.sp ("-i" +:+ shelf.sp (containerToString c +:+ shelf.sp ("bash" +:+ shelf.sp ("-c" +:+
      shelf.sp ((dquote +:+ "export") +:+ shelf.sp ("EASYRSA_BATCH=1;" +:+ shelf.sp ("cd" +:+ shelf.sp ("/opt/amnezia/openvpn" +:+ shelf.sp ("&&" +:+
      shelf.sp ("easyrsa" +:+ shelf.sp ("sign-req" +:+ shelf.sp ("client" +:+ shelf.sp (id +:+ dquote)))))))))))))))).
  rewrite !shelf.word_split by (done || by destruct c). rewrite (shelf.split_app _ (dquote +:+ "export")), !shelf.word_split by done.
  rewrite (split_char_none _ (id +:+ dquote)); [reflexivity|]. by rewrite contains_char_app, (shelf.plain_no _ id).
Qed.
Lemma box_step c id p d v :
  (∀ k, stays c id k → k ≠ (containerToString c, p)) → signing_step c id v (with_box (containerToString c) p d v).
Proof. intros Hp. split; [done..|]. intros k Hk. cbn. rewrite lookup_insert_ne; [done|]. intros E. by apply (Hp k Hk). Qed.
Lemma imported_touched c id k : stays c id k → k ≠ (containerToString c, imported_path id).
Proof. intros [H|[H|[H|(id' & _ & H)]]] ->; by try (cbn in H; congruence). Qed.
Lemma certificate_touched c id k : stays c id k → k ≠ (containerToString c, crt_path id).
Proof.
  intros [H|[H|[H|(id' & Hne & H)]]] ->; [done|discriminate H|discriminate H|]. cbn [snd] in H. unfold crt_path in H.
  apply (inj (String.append clientCertPath)), (inj (String.append "/")) in H.
  apply (f_equal (shelf.drop_last 4)) in H. apply Hne.
  pose proof (shelf.drop_last_app id ".crt") as E1. pose proof (shelf.drop_last_app id' ".crt") as E2. cbn [String.length] in E1, E2. congruence.
Qed.
#[export] Instance easyrsa : EasyRsa shelf.server.
Proof.
  refine {| certifies crt req := crt = "signed " +:+ req |}.
  - by intros crt req ->.
  - intros c id req w Hid _ Hd [_ Hn]. exists (with_box (containerToString c) (imported_path id) req (seen w)). split_and!.
    + eexists _, _, _. change (channel_exec ?c ?w) with (shelf.exec c w). unfold shelf.exec. rewrite words_import by done.
      assert (shelf.drop_last 1 (id +:+ dquote) = id) as -> by exact (shelf.drop_last_app id dquote). cbn in Hd |- *. rewrite Hd. by split.
    + apply box_step, imported_touched.
    + apply lookup_insert_eq.
    + cbn. by rewrite lookup_insert_ne.
  - intros c id req w Hid _ Hd _. exists (with_box (containerToString c) (crt_path id) ("signed " +:+ req) (seen w)). eexists. split_and!.
    + eexists _, _, _. change (channel_exec ?c ?w) with (shelf.exec c w). unfold shelf.exec. rewrite words_sign by done.
      assert (shelf.drop_last 1 (id +:+ dquote) = id) as -> by exact (shelf.drop_last_app id dquote). unfold imported_path in Hd. cbn in Hd |- *. rewrite Hd. by split.
    + apply box_step, certificate_touched.
    + apply lookup_insert_eq.
    + done.
Defined.
#[export] Instance requests : CertRequests shelf.server := {| createCertRequest w := (("client", "PRIV", "REQ"), w) |}.
#[export] Instance request_laws : CertLaws shelf.server.
Proof. split. intros w _. by split. Qed.
#[export] Instance texts : Resources := {| resource _ := Some ("<key>" +:+ nl +:+ "$OPENVPN_PRIV_KEY" +:+ nl +:+ "</key>") |}.
Definition desk : client shelf.server :=
  mkClient false (shelf.mkServer None ∅
    (<[("amnezia-openvpn", caCertPath) := "CA"]> {[ ("amnezia-openvpn", taKeyPath) := "# static" +:+ nl +:+ "TA" ]}) ∅ 0).
End office.
#[local] Existing Instances office.easyrsa office.requests office.request_laws office.texts.

Lemma openvpn_client_added_witness :
  let '((config, e), x) := openvpn_createConfig BuildLinux shelf.host DockerContainer.OpenVpn (POpenVpn empty_openvpn) (mkDns "1.1.1.1" "1.0.0.1")
    office.desk in
  e = ErrorCode.NoError ∧ ∃ client, clientConfig config = Some client.
Proof.
  assert (accepted (W := shelf.server) shelf.host ∧ clear_host shelf.host) as [Ha Hc].
  { split; [exact (eq_refl "secret")|split; vm_compute; reflexivity]. }
  assert (new_names DockerContainer.OpenVpn (seen (world office.desk))) as Hnew.
  { intros w id priv req w' _ _ [= <- <- <- <-]. split; (etrans; [by apply lookup_insert_ne|by apply lookup_singleton_ne]). }
  pose proof (openvpn_client_added shelf.host DockerContainer.OpenVpn (mkDns "1.1.1.1" "1.0.0.1") Ha Hc eq_refl eq_refl BuildLinux
    (POpenVpn empty_openvpn) "CA" ("# static" +:+ nl +:+ "TA") office.desk Logic.I Hnew (lookup_insert_eq _ _ _)
    ltac:(etrans; [by apply lookup_insert_ne|apply lookup_singleton_eq]) ltac:(done) ltac:(done)) as H.
  destruct (openvpn_createConfig _ _ _ _ _ _) as [[config e] x]. destruct H as (He & id & priv & req & crt & _ & _ & Hcfg & _).
  split; [exact He|]. eexists. exact Hcfg.
Defined.
