(* ===== verification/ConfiguratorBase.v ===== *)
(** * ConfiguratorBase: the configurator of a protocol

    Models [ConfiguratorBase::create] of [core/configurators/configuratorBase.cpp]
    and the virtual functions the controllers call on what it makes. *)
From S2P Require Import Prelude Text Json Qt Wire Containers ProtocolConfigs XrayConfig ServerConfig Links Scripts SshSession.
From S2P Require Import Configurators XrayConfigurator OpenVpnConfigurator.

Inductive configurator_kind := IsOpenVpn | IsWireguard | IsAwg | IsIkev2 | IsXray.

(** [None] is the null pointer. *)
Definition create (protocol : Proto) : option configurator_kind :=
  match protocol with
  | Proto.OpenVpn => Some IsOpenVpn
  | Proto.WireGuard => Some IsWireguard
  | Proto.Awg => Some IsAwg
  | Proto.Ikev2 => Some IsIkev2
  | Proto.Xray => Some IsXray
  | Proto.SSXray => Some IsXray
  | _ => None
  end.

Section base.
Context {W : Type} {L : Libssh W} {CK : ClientKeys W} {CR : CertRequests W} {U : Uuids W}.
Context {Q : Qt} {R : Resources} {J : JsonCodec} {JP : JsonPrinter} {LC : LinkCodec}.
Abbreviation M := (stM (client W)).

Definition lift {X} (f : X → ProtocolConfig) (m : M (X * Z)) : M (ProtocolConfig * Z) :=
  '(x, errorCode) ← m; mret (f x, errorCode).

Definition createConfig (b : build) (k : configurator_kind) (credentials : ServerCredentials) (c : DockerContainer)
    (containerConfig : ProtocolConfig) (dns : DnsSettings) : M (ProtocolConfig * Z) :=
  match k with
  | IsOpenVpn => lift POpenVpn (openvpn_createConfig b credentials c containerConfig dns)
  | IsWireguard => lift PWireGuard (wireguard_createConfig (new_configurator false) credentials c containerConfig dns)
  | IsAwg => lift PAwg (awg_createConfig credentials c containerConfig dns)
  | IsIkev2 => lift PIkev2 (ikev2_createConfig toBase64 credentials c containerConfig)
  | IsXray => lift PXray (xray_createConfig credentials c containerConfig dns)
  end.
End base.

Definition processConfigWithLocalSettings (b : build) (applicationDirPath : string) (k : configurator_kind)
    (settings : ConnectionSettings) (p : ProtocolConfig) : ProtocolConfig :=
  match k with
  | IsOpenVpn => openvpn_processConfigWithLocalSettings b applicationDirPath settings p
  | IsXray => xray_processConfigWithLocalSettings (connection_dns settings) p
  | IsWireguard | IsAwg | IsIkev2 => applyDnsToNativeConfig (connection_dns settings) p
  end.

Definition processConfigWithExportSettings (k : configurator_kind) (dns : DnsSettings) (p : ProtocolConfig) : ProtocolConfig :=
  match k with
  | IsOpenVpn => openvpn_processConfigWithExportSettings dns p
  | IsXray | IsWireguard | IsAwg | IsIkev2 => applyDnsToNativeConfig dns p
  end.

(** Every container of a VPN this application still runs has a configurator. *)
Lemma create_supported c :
  c ≠ DockerContainer.None → isUnsupportedContainer c = false → containerService c ≠ ServiceType.Other →
  is_Some (create (defaultProtocol c)).
Proof. destruct c; try done; by eexists. Qed.

(** A configurator leaves the structure of a configuration as it is. *)
Lemma type_local b dir k settings p : ProtocolConfig.type (processConfigWithLocalSettings b dir k settings p) = ProtocolConfig.type p.
Proof.
  assert (∀ s p, ProtocolConfig.type (ProtocolConfig.setNativeConfig s p) = ProtocolConfig.type p) as H by by intros s [].
  assert (∀ dns, ProtocolConfig.type (applyDnsToNativeConfig dns p) = ProtocolConfig.type p) as Hd by (intros; apply H).
  destruct k; cbn [processConfigWithLocalSettings]; try apply Hd.
  - unfold openvpn_processConfigWithLocalSettings. etrans; [apply H|apply Hd].
  - unfold xray_processConfigWithLocalSettings, sanitizeXrayNativeConfig. destruct (String.eqb _ ""); [apply Hd|].
    destruct (_ || _); [etrans; [apply H|]|]; apply Hd.
Qed.
