(* ===== verification/ExportController.v ===== *)
(** * ExportController: what a user gives to another device

    Models [core/controllers/selfhosted/exportController.cpp]: the full access
    to a server, one connection, and the configurations of the protocols.  The
    repository of servers is read; application settings and the server reached
    over SSH are states. *)
From S2P Require Import Prelude Text Json Qt Wire Containers ProtocolConfigs XrayConfig ServerConfig Settings ServersRepository.
From S2P Require Import AppSettings Links ImportController Scripts SshSession Configurators XrayConfigurator OpenVpnConfigurator ConfiguratorBase.

(** [qCompress(data, 8)] *)
Class Compressor := { qCompress : string → string }.

Record ExportResult := mkExport {
  errorCode : Z;
  config : string;
  nativeConfigString : string;
  qrCodes : list string;            (** the texts in the pictures *)
}.
Definition export_error (e : Z) : ExportResult := mkExport e "" "" [].

Inductive export_signal :=
  | appendClientRequested (serverId clientId clientName : string) (container : DockerContainer)
  | updateClientsRequested (serverId : string) (container : DockerContainer)
  | revokeClientRequested (serverId : string) (row : Z) (container : DockerContainer)
  | renameClientRequested (serverId : string) (row : Z) (clientName : string) (container : DockerContainer).

Record exporter (T W : Type) := mkExporter { m_appSettings : T; m_world : W; sent : list export_signal }.
Arguments mkExporter {T W}.
Arguments m_appSettings {T W}.
Arguments m_world {T W}.
Arguments sent {T W}.

Section exporter.
Context {T W : Type} {A : Store T} {Q : Qt} {J : JsonCodec} {JP : JsonPrinter} {LC : LinkCodec} {IC : ImportCodec} {QC : Compressor}.
Context {L : Libssh W} {CK : ClientKeys W} {CR : CertRequests W} {U : Uuids W} {R : Resources}.
Context (b : build).
Abbreviation M := (stM (exporter T W)).
Abbreviation admin := SelfHostedAdminServerConfig.

Definition app {X} (f : T → X * T) : M X :=
  λ x, let '(y, t) := f (m_appSettings x) in (y, mkExporter t (m_world x) (sent x)).
(** An operation on a session of its own. *)
Definition over_ssh {X} (m : stM (client W) X) : M X :=
  λ x, let '(y, s) := m (mkClient false (m_world x)) in (y, mkExporter (m_appSettings x) (world s) (sent x)).
Definition emit (g : export_signal) : M unit := modify (λ x, mkExporter (m_appSettings x) (m_world x) (sent x ++ [g])).

Definition generateVpnUrl (compressedConfig : string) : string := "vpn://" +:+ toBase64Url compressedConfig.
Definition generateQrCodesFromConfig (data : string) : list string := generateQrCodeImageSeries data.
Definition generateSingleQrCode (data : string) : string := data.

(** A server, compressed. *)
Definition server_export (c : admin) : ExportResult :=
  let compressedConfig := qCompress (indented (JObject (SelfHostedAdminServerConfig.toJson c))) in
  mkExport SshSession.ErrorCode.NoError (generateVpnUrl compressedConfig) "" (generateQrCodesFromConfig compressedConfig).

Definition clear_clients (m : container_map) : container_map :=
  (λ c, ContainerConfig.mk (ContainerConfig.container c) (ProtocolConfig.clearClientConfig (ContainerConfig.protocolConfig c))) <$> m.
Definition without_clients (c : admin) : admin :=
  let s := SelfHostedAdminServerConfig.common c in
  SelfHostedAdminServerConfig.with_common (set_containers (clear_clients (containers s)) s) c.

Definition generateFullAccessConfig (r : repository T) (serverId : string) : ExportResult :=
  match selfHostedAdminConfig serverId r with
  | None => export_error SshSession.ErrorCode.InternalError
  | Some adminConfig => server_export (without_clients adminConfig)
  end.

(** The server as it is given away: one container, its resolvers, and nothing to
    log in with. *)
Definition shared (c : admin) (container : DockerContainer) (containerConfig : ContainerConfig) (dns : string * string) : admin :=
  let s := SelfHostedAdminServerConfig.common c in
  SelfHostedAdminServerConfig.mk
    (mkServer (description s) (displayName s) (hostName s) {[ container := containerConfig ]} container dns.1 dns.2) "" "" 0.

Definition dns_pair_of (c : admin) : M (string * string) :=
  use ← app useAmneziaDns;
  primary ← app AppSettings.primaryDns;
  secondary ← app AppSettings.secondaryDns;
  mret (SelfHostedAdminServerConfig.getDnsPair use primary secondary c).
Definition dns_settings : M DnsSettings :=
  primary ← app AppSettings.primaryDns;
  secondary ← app AppSettings.secondaryDns;
  mret (mkDns primary secondary).

(** The configuration of a container for a new client; [None] when the null
    configurator is used. *)
Definition new_client_config (credentials : ServerCredentials) (container : DockerContainer) (containerConfig : ProtocolConfig) :
    M (option (ProtocolConfig * Z)) :=
  dns ← dns_settings;
  match create (defaultProtocol container) with
  | None => mret None
  | Some k => made ← over_ssh (createConfig b k credentials container containerConfig dns); mret (Some made)
  end.
Definition append_client (serverId clientName : string) (container : DockerContainer) (p : ProtocolConfig) : M unit :=
  let clientId := ProtocolConfig.clientId p in
  if String.eqb clientId "" then mret tt else emit (appendClientRequested serverId clientId clientName container).

Definition generateConnectionConfig (r : repository T) (serverId : string) (container : DockerContainer) (clientName : string) :
    M (option ExportResult) :=
  match selfHostedAdminConfig serverId r with
  | None => mret (Some (export_error SshSession.ErrorCode.InternalError))
  | Some adminConfig =>
      let credentials := SelfHostedAdminServerConfig.credentials adminConfig in
      if negb (ServerConfig.isValid credentials) then mret (Some (export_error SshSession.ErrorCode.InternalError)) else
      let containerConfig := containerConfig container (SelfHostedAdminServerConfig.common adminConfig) in
      let finish (cc : ContainerConfig) : M (option ExportResult) :=
        dns ← dns_pair_of adminConfig;
        mret (Some (server_export (shared adminConfig container cc dns))) in
      if decide (containerService container = ServiceType.Other) then finish containerConfig else
      made ← new_client_config credentials container (ContainerConfig.protocolConfig containerConfig);
      match made with
      | None => mret None
      | Some (newProtocolConfig, e) =>
          if negb (e =? SshSession.ErrorCode.NoError) then mret (Some (export_error e)) else
          _ ← append_client serverId clientName container newProtocolConfig;
          finish (ContainerConfig.mk (ContainerConfig.container containerConfig) newProtocolConfig)
      end
  end.

(** ** The configurations of the protocols *)
Definition is_plain_text (protocol : Proto) : bool := bool_decide (protocol ∈ [Proto.OpenVpn; Proto.WireGuard; Proto.Awg]).

(** The error and the object of the configuration; [None] as before. *)
Definition generateNativeConfig (r : repository T) (serverId : string) (container : DockerContainer) (containerConfig : ContainerConfig)
    (clientName : string) : M (option (Z * gmap string json)) :=
  if decide (containerService container = ServiceType.Other) then mret (Some (SshSession.ErrorCode.NoError, ∅)) else
  let protocol := defaultProtocol container in
  match selfHostedAdminConfig serverId r with
  | None => mret (Some (SshSession.ErrorCode.InternalError, ∅))
  | Some adminConfig =>
      let credentials := SelfHostedAdminServerConfig.credentials adminConfig in
      if negb (ServerConfig.isValid credentials) then mret (Some (SshSession.ErrorCode.InternalError, ∅)) else
      dns ← dns_pair_of adminConfig;
      made ← new_client_config credentials container (ContainerConfig.protocolConfig containerConfig);
      match made, create protocol with
      | Some (newProtocolConfig, e), Some k =>
          if negb (e =? SshSession.ErrorCode.NoError) then mret (Some (e, ∅)) else
          let processedConfig := processConfigWithExportSettings k (mkDns dns.1 dns.2) newProtocolConfig in
          let native := ProtocolConfig.nativeConfig processedConfig in
          let jsonNativeConfig :=
            if is_plain_text protocol then object [member "config" (JString native)] else toObject (Wire.fromJson native) in
          _ ← (if is_plain_text protocol || bool_decide (protocol = Proto.Xray)
               then append_client serverId clientName container newProtocolConfig else mret tt);
          mret (Some (SshSession.ErrorCode.NoError, jsonNativeConfig))
      | _, _ => mret None
      end
  end.

(** The lines of a text, each with an end. *)
Definition with_line_ends (s : string) : string := String.concat "" ((λ l, l +:+ nl) <$> lines_of (replace_str carriage_return "" s)).

(** The four operations begin with the server and end with codes of their own. *)
Definition native_export (r : repository T) (serverId : string) (container : DockerContainer) (clientName : string)
    (k : gmap string json → ExportResult) : M (option ExportResult) :=
  match selfHostedAdminConfig serverId r with
  | None => mret (Some (export_error SshSession.ErrorCode.InternalError))
  | Some adminConfig =>
      let containerConfig := containerConfig container (SelfHostedAdminServerConfig.common adminConfig) in
      nativeResult ← generateNativeConfig r serverId container containerConfig clientName;
      match nativeResult with
      | None => mret None
      | Some (e, json) => mret (Some (if negb (e =? SshSession.ErrorCode.NoError) then export_error e else k json))
      end
  end.
Definition text_export (codes : string → list string) (json : gmap string json) : ExportResult :=
  let config := with_line_ends (text json "config") in
  mkExport SshSession.ErrorCode.NoError config "" (codes config).

Definition generateOpenVpnConfig (r : repository T) (serverId clientName : string) : M (option ExportResult) :=
  native_export r serverId DockerContainer.OpenVpn clientName (text_export generateQrCodesFromConfig).
Definition generateWireGuardConfig (r : repository T) (serverId clientName : string) : M (option ExportResult) :=
  native_export r serverId DockerContainer.WireGuard clientName (text_export (λ config, [generateSingleQrCode config])).
Definition generateAwgConfig (r : repository T) (serverId : string) (container : DockerContainer) (clientName : string) :
    M (option ExportResult) :=
  if negb (isAwgContainer container) then mret (Some (export_error SshSession.ErrorCode.InternalError)) else
  native_export r serverId container clientName (text_export (λ config, [generateSingleQrCode config])).

(** The parameters of a VLESS link, from the client's document. *)
Definition first_of (o : gmap string json) (k : string) : option (gmap string json) :=
  match toArray (Json.value o k) with j :: _ => Some (toObject (Some j)) | [] => None end.
Definition vless_of (xrayConfig : gmap string json) : option vless :=
  outbound ← first_of xrayConfig "outbounds";
  let streamSettings := toObject (Json.value outbound "streamSettings") in
  server ← first_of (toObject (Json.value outbound "settings")) "vnext";
  user ← first_of server "users";
  let security := toString_or "reality" (Json.value streamSettings "security") in
  let realitySettings := toObject (Json.value streamSettings "realitySettings") in
  let tlsSettings := toObject (Json.value streamSettings "tlsSettings") in
  let reality := String.eqb security "reality" in
  let tls := String.eqb security "tls" in
  Some (mkVless (text server "address") (text user "id") (toInt (Json.value server "port"))
    (toString_or "xtls-rprx-vision" (Json.value user "flow")) (toString_or "none" (Json.value user "encryption"))
    (toString_or "tcp" (Json.value streamSettings "network")) security
    (if reality then text realitySettings "serverName" else if tls then text tlsSettings "serverName" else "")
    (if reality then text realitySettings "publicKey" else "")
    (if reality then text realitySettings "shortId" else "")
    (if reality then toString_or "chrome" (Json.value realitySettings "fingerprint")
     else if tls then text tlsSettings "fingerprint" else "chrome")
    (if reality then text realitySettings "spiderX" else "")).

(** The configuration is kept in the result when the link cannot be made. *)
Definition xray_export (xrayConfig : gmap string json) : ExportResult :=
  let config := with_line_ends (indented (JObject xrayConfig)) in
  match vless_of xrayConfig with
  | None => mkExport SshSession.ErrorCode.InternalError config "" []
  | Some s => mkExport SshSession.ErrorCode.NoError config (vless_Serialize s "AbstractumVPN") []
  end.
Definition generateXrayConfig (r : repository T) (serverId clientName : string) : M (option ExportResult) :=
  native_export r serverId DockerContainer.Xray clientName xray_export.

(** ** The table of clients *)
Definition updateClientManagementModel (serverId : string) (container : DockerContainer) : M unit :=
  emit (updateClientsRequested serverId container).
Definition revokeConfig (row : Z) (serverId : string) (container : DockerContainer) : M unit :=
  emit (revokeClientRequested serverId row container).
Definition renameClient (row : Z) (clientName serverId : string) (container : DockerContainer) : M unit :=
  emit (renameClientRequested serverId row clientName container).
End exporter.

(** ** Access given away is restored *)
Lemma cleared_no_client (J : JsonCodec) p : text (ProtocolConfig.toJson (ProtocolConfig.clearClientConfig p)) "last_config" = "".
Proof.
  unfold text. destruct p as [c|c|c|c|c|c|c|c|c|c|c];
    cbn [ProtocolConfig.toJson ProtocolConfig.clearClientConfig];
    try unfold with_client_toJson, ProtocolConfigs.clearClientConfig; cbn [clientConfig serverConfig to_json];
    try unfold XrayProtocolConfig.toJson, XrayProtocolConfig.clearClientConfig; cbn [XrayProtocolConfig.clientConfig XrayProtocolConfig.serverConfig].
  all: destruct c; cbn -[object nonempty]; unfold AwgServerConfig.toJson, WireGuardServerConfig.toJson, OpenVpnServerConfig.toJson,
    XrayServerConfig.toJson, Ikev2ServerConfig.toJson, SftpProtocolConfig.toJson, Socks5ProxyProtocolConfig.toJson, MtProxyProtocolConfig.toJson,
    TelemtProtocolConfig.toJson, TorServerConfig.toJson.
  all: repeat match goal with x : AwgServerConfig |- _ => destruct x | x : WireGuardServerConfig |- _ => destruct x
    | x : OpenVpnServerConfig |- _ => destruct x | x : Ikev2ServerConfig |- _ => destruct x end.
  all: cbn -[object nonempty]; rewrite ?value_object; reflexivity.
Qed.

Section transfer.
Context {T W : Type} {A : Store T} {Q : Qt} {J : JsonCodec} {JP : JsonPrinter} {LC : LinkCodec} {IC : ImportCodec} {QC : Compressor}.
Abbreviation admin := SelfHostedAdminServerConfig.
Abbreviation doc_of := SelfHostedAdminServerConfig.toJson.

(** What is compressed is read back, and base64 has no colon. *)
Record transfer_laws : Prop := {
  law_base64 s : base64UrlDecode (toBase64Url s) = s;
  law_alphabet s : contains_char (Ascii.ascii_of_nat 58) (toBase64Url s) = false;
  law_compress s : s ≠ "" → qUncompress (qCompress s) = s;
}.
(** The printed document is read back, and looks like one of this application;
    its compressed form does not look like any. *)
Record document_laws (o : gmap string json) : Prop := {
  law_printed : Wire.fromJson (indented (JObject o)) = Some (JObject o);
  law_format : checkConfigFormat (indented (JObject o)) = ConfigTypes.Amnezia;
  law_url : checkConfigFormat (generateVpnUrl (qCompress (indented (JObject o)))) = ConfigTypes.Invalid;
}.

Lemma admin_member (c : admin) k :
  k ∈ ["storageServerId"; "config_version"] → Json.value (doc_of c) k = None.
Proof.
  intros Hk. unfold SelfHostedAdminServerConfig.toJson. rewrite value_object, assigned_app.
  rewrite (assigned_other k).
  - unfold common_members. apply elem_of_cons in Hk as [-> |Hk]; [reflexivity|]. apply elem_of_cons in Hk as [-> |Hk]; [reflexivity|].
    by apply elem_of_nil in Hk.
  - repeat constructor; cbn; intros <-; apply (bool_decide_pack _) in Hk; exact Hk.
Qed.
Lemma admin_containers (c : admin) :
  Json.value (doc_of c) "containers" = array_value (containersArray (containers (SelfHostedAdminServerConfig.common c))).
Proof.
  unfold SelfHostedAdminServerConfig.toJson. rewrite value_common by first [by listed | repeat constructor; cbn; set_solver].
  unfold common_members. cbn [assigned fst snd text_member String.eqb Ascii.eqb Bool.eqb]. by rewrite assigned_over_none.
Qed.

Lemma process_untouched l :
  Forall (λ j, let c := containerFromString (text (toObject (Some j)) "container") in
    isAwgContainer c || bool_decide (c = DockerContainer.WireGuard) = true →
    text (toObject (Json.value (toObject (Some j)) (containerTypeToProtocolString c))) "last_config" = "") l →
  process_containers l = (l, false).
Proof.
  induction 1 as [|j l Hj _ IH]; [done|]. cbn [process_containers]. cbv zeta in Hj.
  destruct (_ || _); [by rewrite Hj|]. by rewrite IH.
Qed.

(** The protocol's member of a container. *)
Lemma protocol_member (cc : ContainerConfig) :
  isAwgContainer (ContainerConfig.container cc) || bool_decide (ContainerConfig.container cc = DockerContainer.WireGuard) = true →
  Json.value (ContainerConfig.toJson cc) (containerTypeToProtocolString (ContainerConfig.container cc)) =
    Some (JObject (ProtocolConfig.toJson (ContainerConfig.protocolConfig cc))).
Proof.
  intros H. rewrite container_object. unfold ContainerConfig.getProtocolType.
  destruct cc as [c p]. cbn in *. destruct c; try done; by rewrite String.eqb_refl.
Qed.

Lemma containers_untouched (c : admin) : processAmneziaConfig (doc_of (without_clients c)) = doc_of (without_clients c).
Proof.
  unfold processAmneziaConfig. rewrite admin_containers, read_optional_array, process_untouched; [done|].
  apply Forall_forall. intros j Hj. unfold containersArray, container_values in Hj.
  apply list_elem_of_fmap in Hj as (cc & -> & (k & _ & Hk)%list_elem_of_omap). cbn [toObject]. cbv zeta.
  rewrite container_name, containerFromString_toString. intros Hc. rewrite protocol_member by done. cbn [toObject].
  cbn [without_clients SelfHostedAdminServerConfig.common SelfHostedAdminServerConfig.with_common containers set_containers] in Hk.
  unfold clear_clients in Hk. apply lookup_fmap_Some in Hk as (cc0 & <- & _). apply cleared_no_client.
Qed.

(** A server administered here is one administered there. *)
Lemma full_kind json (c : admin) :
  configTypeFromJson json = SelfHostedAdmin → c = SelfHostedAdminServerConfig.fromJson json →
  configTypeFromJson (doc_of (without_clients c)) = SelfHostedAdmin.
Proof.
  intros Hk ->. set (c := SelfHostedAdminServerConfig.fromJson json). unfold configTypeFromJson in Hk.
  destruct (isServerFromApi json); [done|]. destruct (hasThirdPartyConfig json) eqn:Em; [done|].
  destruct (SelfHostedAdminServerConfig.hasCredentials _) eqn:Ecred; [|done]. fold c in Ecred. unfold configTypeFromJson.
  assert (SelfHostedAdminServerConfig.port c ≤ int_max) as Hport.
  { cbn. destruct (contains json "port"); [apply toInt_range|unfold int_max; lia]. }
  rewrite credentials_kept by done. unfold SelfHostedAdminServerConfig.toJson. rewrite not_from_api by by repeat constructor.
  set (l := [text_member "userName" _; _; _]).
  assert (other_keys l) as Hl by (repeat constructor; cbn; set_solver).
  assert (hasThirdPartyConfig (object (common_members (SelfHostedAdminServerConfig.common (without_clients c)) ++ l)) = false) as ->; [|done].
  pose proof (mark_kept json (SelfHostedAdminServerConfig.common c) l Hl eq_refl Em) as Hno.
  apply not_true_iff_false. intros (k & cc & Hlk & Hm)%marked_server; [|done]. apply not_true_iff_false in Hno. apply Hno.
  apply marked_server; [done|].
  cbn [without_clients SelfHostedAdminServerConfig.common SelfHostedAdminServerConfig.with_common containers set_containers] in Hlk.
  unfold clear_clients in Hlk. apply lookup_fmap_Some in Hlk as (cc0 & <- & Hlk). exists k, cc0. split; [done|].
  cbn in Hm. by destruct (ContainerConfig.protocolConfig cc0) as [x|x|x|x|x|x|x|x|x|x|x].
Qed.

Lemma url_read s :
  transfer_laws → replace_str "vpn://" "" (generateVpnUrl s) = toBase64Url s.
Proof.
  intros TL. unfold generateVpnUrl. rewrite replace_here, append_nil_l by done. apply replace_none.
  assert (contains_str "vpn://" (toBase64Url s) = false) as H.
  { pose proof (law_alphabet TL s) as Ha. revert Ha. generalize (toBase64Url s). intros t Ht.
    induction t as [|ch t IH]; [done|]. cbn [contains_char] in Ht. apply orb_false_iff in Ht as [_ Ht]. rewrite contains_str_cons, IH, orb_false_r by done.
    destruct (String.prefix "vpn://" (String ch t)) eqn:E; [|done]. destruct (prefix_split _ _ E) as [u Hu].
    injection Hu as _ Hu. fold (contains_char (Ascii.ascii_of_nat 58) t) in Ht. by rewrite Hu, contains_char_app in Ht. }
  unfold contains_str in H. by destruct (String.index 0 _ _).
Qed.

Lemma extracted_document unset (r : repository T) file o :
  transfer_laws → document_laws o → isServerFromApi o = false → processAmneziaConfig o = o → o ≠ ∅ →
  let res := extractConfigFromData unset (generateVpnUrl (qCompress (indented (JObject o)))) file r in
  ImportController.errorCode res = SshSession.ErrorCode.NoError ∧ ImportController.config res = o ∧
  configType res = ConfigTypes.Amnezia.
Proof.
  intros TL [H1 H2 H3] Hapi Hproc Hne. cbv zeta. unfold extractConfigFromData.
  set (url := generateVpnUrl _) in *.
  assert (∀ p : string, String.prefix p "vpn://" = false → String.prefix "vpn://" p = false → startsWith p url = false) as Hscheme.
  { intros p Hp Hp'. destruct (startsWith p url) eqn:E; [|done]. unfold url, generateVpnUrl in E.
    destruct (prefix_comparable _ _ _ E) as [E'|E']; congruence. }
  assert (try_links r (attempts unset url) "" "" = inr "") as ->.
  { unfold attempts. cbn [try_links applies]. by rewrite !Hscheme by done. }
  unfold try_ssd. rewrite Hscheme by done. unfold recognised. rewrite H3. rewrite bool_decide_eq_true_2 by done.
  unfold url. rewrite url_read, (law_base64 TL) by done.
  assert (indented (JObject o) ≠ "") as Hnt by (intros E; rewrite E in H2; vm_compute in H2; congruence).
  rewrite (law_compress TL), (proj2 (String.eqb_neq _ "") Hnt), H2 by done. cbv zeta.
  assert (read_object (indented (JObject o)) = o) as -> by (unfold read_object; by rewrite H1).
  rewrite Hapi, Hproc. unfold or_invalid. assert (is_empty o = false) as -> by by apply bool_decide_eq_false. done.
Qed.
End transfer.

Section restored.
Context {T : Type} {A : Store T} {Q : Qt} {J : JsonCodec} {JP : JsonPrinter} {LC : LinkCodec} {IC : ImportCodec} {QC : Compressor}.
Context {P : ArrayPrinter} {SL : StoreLaws T} (uuid : nat → string).
Context (uuid_text : ∀ n, trimmed (uuid n) = uuid n ∧ uuid n ≠ "").
Abbreviation admin := SelfHostedAdminServerConfig.
Abbreviation doc_of := SelfHostedAdminServerConfig.toJson.

(** A document of this application becomes a server of its kind. *)
Lemma imported_server (r : repository T) o kind :
  inv r → readable r → printable → uuid (created r) ∉ m_orderedServerIds r →
  configTypeFromJson o = kind → Json.value o "storageServerId" = None →
  let '(sig, r') := (importFinished, (addServer uuid "" o kind r).2) in
  m_orderedServerIds r' = m_orderedServerIds r ++ [uuid (created r)] ∧
  rawServerJson (uuid (created r)) r' = o ∧
  (∀ x, x ≠ uuid (created r) → m_serverJsonById r' !! x = m_serverJsonById r !! x).
Proof.
  intros [Hl Hd] Hr Hp Hid Hk Hs. destruct (add_generated uuid uuid_text r o kind Hid Hl) as (r1 & -> & E1 & E2 & E3 & E4).
  destruct (uuid_text (created r)) as [Htr Hne]. assert (withoutStorageServerId o = o) as Ho by (by apply delete_id).
  destruct (add_server uuid uuid_text r1 (uuid (created r)) o kind) as [H _].
  { split; [by eapply listed_same|]. unfold default_ok. by rewrite E1, E3. }
  { unfold readable. by rewrite E4. } { done. } { done. } { done. } { by rewrite E1. }
  rewrite Ho in H. destruct (H Hk) as (_ & H2 & H3 & _ & H5 & _). split_and!; [by rewrite H2, E1|done|].
  intros x Hx. by rewrite H5, E2.
Qed.

Lemma config_of_raw {C} kind (read : gmap string json → C) id (r : repository T) o :
  rawServerJson id r = o → o ≠ ∅ → configTypeFromJson o = kind → ServersRepository.config_of kind read id r = Some (read o).
Proof.
  unfold rawServerJson, ServersRepository.config_of. destruct (m_serverJsonById r !! id) as [json|]; [|by intros <-].
  intros Ho _ Hk. cbn [mbind option_bind]. cbv zeta. rewrite Ho. by rewrite bool_decide_eq_false_2 by (by intros []).
Qed.

(** C10. Full access to a server, given to another device as a link, makes of it a
    server administered there: the same credentials, names, resolvers and
    containers with their settings, without the clients of this device. *)
Theorem full_access_restored unset file (c : admin) serverId (r r2 : repository T) :
  transfer_laws → document_laws (doc_of (without_clients c)) →
  selfHostedAdminConfig serverId r = Some c → ServerConfig.isValid (SelfHostedAdminServerConfig.credentials c) = true →
  server_storable (SelfHostedAdminServerConfig.common (without_clients c)) →
  inv r2 → readable r2 → printable → uuid (created r2) ∉ m_orderedServerIds r2 →
  let link := config (generateFullAccessConfig r serverId) in
  let res := extractConfigFromData unset link file r2 in
  let '(sig, r') := importConfig uuid (ImportController.config res) r2 in
  ImportController.errorCode res = SshSession.ErrorCode.NoError ∧ sig = importFinished ∧
  m_orderedServerIds r' = m_orderedServerIds r2 ++ [uuid (created r2)] ∧
  selfHostedAdminConfig (uuid (created r2)) r' = Some (without_clients c) ∧
  SelfHostedAdminServerConfig.credentials (without_clients c) = SelfHostedAdminServerConfig.credentials c ∧
  (∀ x, x ≠ uuid (created r2) → m_serverJsonById r' !! x = m_serverJsonById r2 !! x).
Proof.
  intros TL DL Hc Hv Hst Hinv Hr Hp Hid link res. set (o := doc_of (without_clients c)) in *.
  assert (∃ json, configTypeFromJson json = SelfHostedAdmin ∧ c = SelfHostedAdminServerConfig.fromJson json) as (json & Hjk & Hjc).
  { unfold selfHostedAdminConfig, ServersRepository.config_of in Hc. destruct (m_serverJsonById r !! serverId) as [j|]; [|done]. cbn in Hc.
    case_bool_decide as Hk; [done|]. injection Hc as <-. eexists. split; [|reflexivity]. destruct (decide (configTypeFromJson (withoutStorageServerId j) = SelfHostedAdmin)); [done|by destruct Hk]. }
  pose proof (full_kind json c Hjk Hjc) as Hk. fold o in Hk.
  unfold ServerConfig.isValid in Hv. cbn in Hv. apply andb_true_iff in Hv as [[[Hh Hu]%andb_true_iff Hpw]%andb_true_iff Hport].
  assert (SelfHostedAdminServerConfig.port c ≤ int_max) as Hmax.
  { rewrite Hjc. cbn. destruct (contains json "port"); [apply toInt_range|unfold int_max; lia]. }
  assert (SelfHostedAdminServerConfig.fromJson o = without_clients c) as Hread.
  { apply read_admin; [done|]. cbn. apply Z.ltb_lt in Hport. lia. }
  assert (o ≠ ∅) as Hne. { intros E. rewrite E in Hk. vm_compute in Hk. congruence. }
  destruct (extracted_document unset r2 file o TL DL) as (H1 & H2 & H3).
  { unfold isServerFromApi, o. rewrite admin_member by (apply (bool_decide_unpack _); vm_compute; exact Logic.I). done. }
  { apply containers_untouched. } { done. }
  assert (link = generateVpnUrl (qCompress (indented (JObject o)))) as Elink by (unfold link, generateFullAccessConfig; by rewrite Hc).
  assert (ImportController.config res = o) as Eres by (unfold res; by rewrite Elink). rewrite Eres.
  assert (ImportController.errorCode res = SshSession.ErrorCode.NoError) as -> by (unfold res; by rewrite Elink).
  unfold importConfig. pose proof (f_equal SelfHostedAdminServerConfig.userName Hread) as Eu.
  pose proof (f_equal SelfHostedAdminServerConfig.password Hread) as Ep.
  pose proof (f_equal (λ c, hostName (SelfHostedAdminServerConfig.common c)) Hread) as Eh.
  pose proof (f_equal SelfHostedAdminServerConfig.port Hread) as Eq. cbn in Eu, Ep, Eh, Eq.
  assert (toInt (Json.value o "port") = SelfHostedAdminServerConfig.port c) as Et.
  { rewrite contains_spec in Eq. destruct (Json.value o "port"); [exact Eq|]. cbn in Eq |- *. apply Z.ltb_lt in Hport. lia. }
  rewrite Eh, Eu, Ep, Et, Hh, Hu, Hpw, Hport. cbn [andb orb].
  pose proof (imported_server r2 o SelfHostedAdmin Hinv Hr Hp Hid Hk) as Hi. cbv beta zeta iota in Hi. rewrite Hk.
  destruct Hi as (I1 & I2 & I3).
  { apply admin_member. apply (bool_decide_unpack _). vm_compute. exact Logic.I. }
  split_and!; [done|done|exact I1| |done|exact I3].
  unfold selfHostedAdminConfig. rewrite (config_of_raw _ _ _ _ o) by done. by rewrite Hread.
Qed.
End restored.

(** *** Witnesses *)
Definition home_server : gmap string json :=
  object [text_member "hostName" "192.0.2.9"; text_member "userName" "root"; text_member "password" "pw";
    text_member "description" "Home"; member "port" (JInt 22)].
Definition transfer_link_codec : LinkCodec := {|
  QUrl _ := mkUrl false "" (-1) "" "" "" "" []; fromUserInput _ := mkUrl false "" (-1) "" "" "" "" [];
  toEncoded _ := ""; fromPercentEncoding s := s; fullyDecoded s := s; fromBase64 s := s;
  base64UrlDecode := shelf.unhex; toBase64 := shelf.hex; toBase64Url := shelf.hex; number_text _ := "1" |}.
Definition transfer_codec : ImportCodec := {|
  qUncompress s := String.substring 1 (String.length s - 1) s;
  qr_write _ _ _ s := s; qr_read s := (0, 0, 0, s); captures _ _ := None; global_captures _ _ := [] |}.
Definition transfer_compressor : Compressor := {| qCompress s := "z" +:+ s |}.
Definition transfer_printer : JsonPrinter := {| indented _ := "containers" |}.
Definition owner : repository (gmap string variant) :=
  @SecureServersRepository _ _ (fixed_codec [JObject home_server]) sample_uuid
    {[ "Servers/serversList" := VBytes "list" ]} 0.
Definition home_admin : SelfHostedAdminServerConfig := SelfHostedAdminServerConfig.fromJson (J := fixed_codec []) home_server.
Definition home_doc : gmap string json := SelfHostedAdminServerConfig.toJson (J := fixed_codec []) (without_clients home_admin).
Definition home_codec : JsonCodec := samples.one home_doc.
Definition document_codec : JsonCodec := {|
  toJson_compact _ := "doc"; Wire.fromJson s := if String.eqb s "containers" then Some (JObject home_doc) else None;
|}.

Lemma transfer_laws_hold : transfer_laws (LC := transfer_link_codec) (IC := transfer_codec) (QC := transfer_compressor).
Proof.
  split; cbn.
  - apply shelf.unhex_hex.
  - induction s as [|c s IH]; [done|]. cbn [shelf.hex]. rewrite contains_char_app, IH, orb_false_r.
    destruct c as [[] [] [] [] [] [] [] []]; vm_compute; reflexivity.
  - intros s _. rewrite append_String, append_nil_l. cbn [String.length String.substring Nat.sub]. replace (String.length s - 0)%nat with (String.length s) by lia.
    induction s as [|c s IH]; [done|]. cbn [String.length String.substring]. by rewrite IH.
Qed.
Lemma home_document : document_laws (J := document_codec) (JP := transfer_printer) (LC := transfer_link_codec) (QC := transfer_compressor) home_doc.
Proof. by split; vm_compute. Qed.

Lemma full_access_restored_witness :
  let _ := transfer_link_codec in let _ := transfer_codec in let _ := transfer_compressor in let _ := document_codec in
  let _ := transfer_printer in let _ := fixed_printer in
  let res := extractConfigFromData 0 (config (generateFullAccessConfig owner "x")) "" two in
  transfer_laws ∧ document_laws home_doc ∧
  selfHostedAdminConfig (sample_uuid (created two)) (importConfig sample_uuid (ImportController.config res) two).2 = Some (without_clients home_admin).
Proof.
  cbv zeta. split; [exact transfer_laws_hold|]. split; [exact home_document|].
  pose proof (full_access_restored (J := document_codec) (JP := transfer_printer) (LC := transfer_link_codec) (IC := transfer_codec)
    (QC := transfer_compressor) (P := fixed_printer) sample_uuid sample_uuid_text 0 "" home_admin "x" owner two transfer_laws_hold) as H.
  cbv zeta in H. destruct (importConfig _ _ _) as [sig r'].
  destruct H as (_ & _ & _ & H & _); [exact home_document|vm_compute; reflexivity..| | | | | |].
  - split; [vm_compute; reflexivity|]. intros k cc Hk. vm_compute in Hk. discriminate.
  - exact (synced_inv _ two_synced).
  - exact two_readable.
  - exact fixed_printable.
  - apply (bool_decide_unpack _). vm_compute. exact Logic.I.
  - exact H.
Defined.

(** ** A shared connection *)
Section sharing.
Context {T W : Type} {A : Store T} {Q : Qt} {J : JsonCodec} {JP : JsonPrinter} {LC : LinkCodec} {IC : ImportCodec} {QC : Compressor}.
Context {L : Libssh W} {CK : ClientKeys W} {CR : CertRequests W} {U : Uuids W} {R : Resources}.
Abbreviation doc_of := SelfHostedAdminServerConfig.toJson.

Lemma app_sent {X} (f : T → X * T) (x : exporter T W) : sent (app f x).2 = sent x.
Proof. unfold app. by destruct (f _). Qed.
Lemma dns_pair_sent c (x : exporter T W) : sent (dns_pair_of c x).2 = sent x.
Proof.
  unfold dns_pair_of. unfold mbind, stM_bind, mret, stM_ret.
  repeat (match goal with |- context [app ?f ?y] => pose proof (app_sent f y); destruct (app f y) end; cbn in *). congruence.
Qed.
Lemma made_sent b credentials container p (x : exporter T W) :
  sent (new_client_config b credentials container p x).2 = sent x.
Proof.
  unfold new_client_config, dns_settings, over_ssh. unfold mbind, stM_bind, mret, stM_ret.
  repeat (match goal with |- context [app ?f ?y] => pose proof (app_sent f y); destruct (app f y) end; cbn in * ).
  destruct (create _); [|cbn; congruence]. destruct (createConfig _ _ _ _ _ _ _). cbn. congruence.
Qed.

(** There is nothing to log in with in a shared server. *)
Lemma shared_login c container cc dns :
  let o := doc_of (shared c container cc dns) in
  text o "userName" = "" ∧ text o "password" = "" ∧ configTypeFromJson o ≠ SelfHostedAdmin.
Proof.
  cbv zeta. assert (∀ k, k ∈ ["userName"; "password"] → text (doc_of (shared c container cc dns)) k = "") as H.
  { intros k Hk. unfold text, SelfHostedAdminServerConfig.toJson. rewrite value_object, assigned_app.
    apply elem_of_cons in Hk as [-> |[-> |[]%not_elem_of_nil]%elem_of_cons]; unfold shared;
      cbn [SelfHostedAdminServerConfig.userName SelfHostedAdminServerConfig.password SelfHostedAdminServerConfig.port];
      (rewrite assigned_other by (by repeat constructor)) || idtac; unfold common_members; reflexivity. }
  split; [apply H; by left|]. split; [apply H; by right; left|].
  unfold configTypeFromJson. destruct (isServerFromApi _); [done|]. destruct (hasThirdPartyConfig _); [done|].
  unfold SelfHostedAdminServerConfig.hasCredentials, SelfHostedAdminServerConfig.fromJson. cbn [SelfHostedAdminServerConfig.userName].
  by rewrite (H "userName") by by left.
Qed.

Lemma shared_host c container cc dns :
  text (doc_of (shared c container cc dns)) "hostName" = hostName (SelfHostedAdminServerConfig.common c).
Proof.
  unfold text, SelfHostedAdminServerConfig.toJson. rewrite value_common by first [by listed | repeat constructor; cbn; set_solver].
  unfold common_members, shared. cbn [SelfHostedAdminServerConfig.common]. read_members. done.
Qed.

(** C11. A connection given to another device is the server with one container and
    nothing to log in with, so it is never administered there; its protocol has
    the settings made for the new client, and the table of clients is asked to
    list that client and nothing else. *)
Theorem connection_shared b r serverId container clientName (x x' : exporter T W) res :
  generateConnectionConfig b r serverId container clientName x = (Some res, x') →
  errorCode res = SshSession.ErrorCode.NoError →
  ∃ c cc dns, selfHostedAdminConfig serverId r = Some c ∧ ServerConfig.isValid (SelfHostedAdminServerConfig.credentials c) = true ∧
    res = server_export (shared c container cc dns) ∧
    (let o := doc_of (shared c container cc dns) in
     text o "userName" = "" ∧ text o "password" = "" ∧ configTypeFromJson o ≠ SelfHostedAdmin ∧
     text o "hostName" = hostName (SelfHostedAdminServerConfig.common c)) ∧
    (if decide (containerService container = ServiceType.Other)
     then cc = containerConfig container (SelfHostedAdminServerConfig.common c) ∧ sent x' = sent x
     else ∃ p x1, new_client_config b (SelfHostedAdminServerConfig.credentials c) container
              (ContainerConfig.protocolConfig (containerConfig container (SelfHostedAdminServerConfig.common c))) x =
            (Some (p, SshSession.ErrorCode.NoError), x1) ∧ ContainerConfig.protocolConfig cc = p ∧
          sent x' = sent x ++ (if String.eqb (ProtocolConfig.clientId p) "" then []
                               else [appendClientRequested serverId (ProtocolConfig.clientId p) clientName container])).
Proof.
  unfold generateConnectionConfig. intros H He.
  destruct (selfHostedAdminConfig serverId r) as [c|]; [|injection H as <- <-; done].
  destruct (ServerConfig.isValid _) eqn:Ev; cbn [negb] in H; [|injection H as <- <-; done].
  assert (∀ cc y, (dns ← dns_pair_of c; mret (Some (server_export (shared c container cc dns)))) y = (Some res, x') →
    ∃ dns, res = server_export (shared c container cc dns) ∧ sent x' = sent y) as Hfinish.
  { intros cc y Hy. unfold mbind, stM_bind, mret, stM_ret in Hy. pose proof (dns_pair_sent c y) as Hs.
    destruct (dns_pair_of c y) as [dns y1]. injection Hy as <- <-. by exists dns. }
  destruct (decide _) as [Ho|Ho].
  - apply Hfinish in H as (dns & -> & Hs). do 3 eexists. split; [reflexivity|]. split; [done|]. split; [reflexivity|].
    split; [|done]. destruct (shared_login c container (containerConfig container (SelfHostedAdminServerConfig.common c)) dns) as (?&?&?).
    split_and!; try done. apply shared_host.
  - unfold mbind at 1, stM_bind at 1 in H. pose proof (made_sent b (SelfHostedAdminServerConfig.credentials c) container
      (ContainerConfig.protocolConfig (containerConfig container (SelfHostedAdminServerConfig.common c))) x) as Hm.
    destruct (new_client_config _ _ _ _ x) as [[[p e]|] x1] eqn:En; [|discriminate H].
    destruct (Z.eqb_spec e SshSession.ErrorCode.NoError) as [->|Hne]; cbn [negb] in H; [|injection H as <- <-; by destruct Hne].
    unfold mbind at 1, stM_bind at 1 in H. destruct (append_client _ _ _ _ x1) as [[] x2] eqn:Ea.
    apply Hfinish in H as (dns & -> & Hs). do 3 eexists. split; [reflexivity|]. split; [done|]. split; [reflexivity|].
    destruct (shared_login c container (ContainerConfig.mk (ContainerConfig.container
      (containerConfig container (SelfHostedAdminServerConfig.common c))) p) dns) as (?&?&?).
    split; [split_and!; try done; apply shared_host|]. exists p, x1. split; [done|]. split; [done|].
    rewrite Hs. unfold append_client in Ea. cbn in Hm. destruct (String.eqb _ ""); injection Ea as <-; cbn; by rewrite ?app_nil_r, Hm.
Qed.
End sharing.

#[local] Existing Instances shelf.libssh office.requests office.texts depot.qt.
Definition quiet_keys : ClientKeys shelf.server := {| genClientKeys w := (("PRIV=", "PUB="), w) |}.
Definition quiet_uuids : Uuids shelf.server := {| createUuid w := ("{u}", w) |}.
Definition nearby : exporter (gmap string variant) shelf.server := mkExporter ∅ (world office.desk) [].

Lemma connection_shared_witness :
  let _ := fixed_codec [] in let _ := transfer_printer in let _ := transfer_link_codec in let _ := transfer_codec in
  let _ := transfer_compressor in let _ := quiet_keys in let _ := quiet_uuids in
  ∃ res x', generateConnectionConfig BuildLinux owner "x" DockerContainer.Sftp "phone" nearby = (Some res, x') ∧
  errorCode res = SshSession.ErrorCode.NoError ∧ sent x' = [].
Proof.
  cbv zeta.
  destruct (generateConnectionConfig (J := fixed_codec []) (JP := transfer_printer) (LC := transfer_link_codec) (IC := transfer_codec)
    (QC := transfer_compressor) (CK := quiet_keys) (U := quiet_uuids) BuildLinux owner "x" DockerContainer.Sftp "phone" nearby) as [[res|] x'] eqn:E;
    [|vm_compute in E; discriminate].
  assert (errorCode res = SshSession.ErrorCode.NoError) as He by (vm_compute in E; injection E as <- _; reflexivity).
  exists res, x'. split; [reflexivity|]. split; [exact He|].
  destruct (connection_shared _ _ _ _ _ _ _ _ E He) as (c & cc & dns & _ & _ & _ & _ & _ & Hs). exact Hs.
Defined.
