(* ===== verification/ConnectionController.v ===== *)
(** * ConnectionController: from a server to a connection

    Models [core/controllers/connectionController.cpp]: whether a server can be
    connected to, the configuration its default container gives, and the
    requests to the connection.  The repository of servers is read; the
    application's settings are a state. *)
From S2P Require Import Prelude Text Json Qt Wire Containers ProtocolConfigs XrayConfig ServerConfig Settings ServersRepository.
From S2P Require Import AppSettings VpnProtocol Configurators XrayConfigurator OpenVpnConfigurator ConfiguratorBase.

Module ConnectionError.
Definition NoError : Z := 0.
Definition InternalError : Z := 101.
Definition AmneziaServiceNotRunning : Z := 103.
Definition NotSupportedOnThisPlatform : Z := 104.
Definition NoInstalledContainersError : Z := 902.
Definition LegacyApiV1NotSupportedError : Z := 905.
Definition LegacyContainerNotSupportedError : Z := 906.
End ConnectionError.

Inductive connection_request :=
  | openConnectionRequested (serverId : string) (container : DockerContainer) (vpnConfiguration : gmap string json)
  | closeConnectionRequested
  | restoreConnectionRequested
  | killSwitchModeChangedRequested (enabled : bool)
  | connectionStateChanged (state : ConnectionState).

Record connector (T : Type) := mkConnector { c_settings : T; requests : list connection_request }.
Arguments mkConnector {T}.
Arguments c_settings {T}.
Arguments requests {T}.

(** What the calls read of [VpnConnection]. *)
Record vpn_connection := mkVpn { v_state : ConnectionState; v_lastError : Z }.

Definition defaultMtu (b : build) : string := if is_mobile b then "1280" else "1376".
(** [ConnectionSettings] of a server of one's own. *)
Definition connection_settings (dns : string * string) (isApiConfig sites : bool) (mode : Z) : ConnectionSettings :=
  mkSettings (mkDns dns.1 dns.2) isApiConfig (mkSplit sites mode).

Section connector.
Context {T : Type} {A : Store T} {Q : Qt} {J : JsonCodec}.
Context (b : build) (applicationDirPath : string).
Abbreviation M := (stM (connector T)).
Abbreviation admin_common := SelfHostedAdminServerConfig.common.
Abbreviation user_common := SelfHostedUserServerConfig.common.
Abbreviation native_common := NativeServerConfig.common.

Definition request (g : connection_request) : M unit := modify (λ x, mkConnector (c_settings x) (requests x ++ [g])).
Definition reading {X} (f : T → X * T) : M X := λ x, let '(y, t) := f (c_settings x) in (y, mkConnector t (requests x)).

Definition isConnected (m_vpnConnection : option vpn_connection) : bool :=
  match m_vpnConnection with Some v => bool_decide (v_state v = Vpn.Connected) | None => false end.
Definition setConnectionState (state : ConnectionState) : M unit := request (connectionStateChanged state).
(** [None]: a null pointer is used. *)
Definition lastConnectionError (m_vpnConnection : option vpn_connection) : option Z := v_lastError <$> m_vpnConnection.
Definition closeConnection (m_vpnConnection : option vpn_connection) : M unit :=
  match m_vpnConnection with Some _ => request closeConnectionRequested | None => mret tt end.
Definition restoreConnection (m_vpnConnection : option vpn_connection) : M unit :=
  match m_vpnConnection with Some _ => request restoreConnectionRequested | None => mret tt end.
Definition onKillSwitchModeChanged (m_vpnConnection : option vpn_connection) (enabled : bool) : M unit :=
  match m_vpnConnection with Some _ => request (killSwitchModeChangedRequested enabled) | None => mret tt end.

(** The error, or the container. *)
Definition container_of (cfg : option server_common) : Z + DockerContainer :=
  match cfg with Some c => inr (defaultContainer c) | None => inl ConnectionError.InternalError end.
Definition defaultContainerForServer (r : repository T) (serverId : string) : Z + DockerContainer :=
  match serverKind serverId r with
  | SelfHostedAdmin => container_of (admin_common <$> selfHostedAdminConfig serverId r)
  | SelfHostedUser => container_of (user_common <$> selfHostedUserConfig serverId r)
  | Native => container_of (native_common <$> ServersRepository.nativeConfig serverId r)
  | UnsupportedSubscription => inl ConnectionError.LegacyApiV1NotSupportedError
  | Invalid => inl ConnectionError.InternalError
  end.

(** Whether the process of the service is found; phones have none. *)
Definition isServiceReady (processIsRunning : bool) : bool := if is_mobile b then true else processIsRunning.

Definition isConnectionSupported (processIsRunning : bool) (r : repository T) (serverId : string) : Z :=
  if String.eqb serverId "" then ConnectionError.InternalError
  else if negb (isServiceReady processIsRunning) then ConnectionError.AmneziaServiceNotRunning
  else if bool_decide (serverKind serverId r = UnsupportedSubscription) then ConnectionError.LegacyApiV1NotSupportedError
  else match defaultContainerForServer r serverId with
  | inl errorCode => errorCode
  | inr container =>
      if bool_decide (container = DockerContainer.None) then ConnectionError.NoInstalledContainersError
      else if isUnsupportedContainer container then ConnectionError.LegacyContainerNotSupportedError
      else if negb (isSupportedByCurrentPlatform b container) then ConnectionError.NotSupportedOnThisPlatform
      else ConnectionError.NoError
  end.

(** The MTU of WireGuard, when the client's data leaves it open. *)
Definition with_mtu (container : DockerContainer) (vpnConfigData : gmap string json) : gmap string json :=
  if (isAwgContainer container || bool_decide (container = DockerContainer.WireGuard)) && String.eqb (text vpnConfigData "mtu") ""
  then <["mtu" := JString (defaultMtu b)]> vpnConfigData else vpnConfigData.

(** [None]: a null configurator is used. *)
Definition createConnectionConfiguration (dns : string * string) (isApiConfig : bool) (host desc : string) (configVersion : Z)
    (containerConfig : ContainerConfig) (container : DockerContainer) : M (option (gmap string json)) :=
  if decide (containerService container = ServiceType.Other) then mret (Some ∅) else
  let proto := defaultProtocol container in
  sites ← reading isSitesSplitTunnelingEnabled;
  mode ← reading AppSettings.routeMode;
  match create proto with
  | None => mret None
  | Some k =>
      let processedConfig := processConfigWithLocalSettings b applicationDirPath k (connection_settings dns isApiConfig sites mode)
        (ContainerConfig.protocolConfig containerConfig) in
      let vpnConfigData := with_mtu container (ProtocolConfig.getClientConfigJson processedConfig) in
      mret (Some (object [
        member (key_proto_config_data proto) (JObject vpnConfigData);
        member "protocol" (JString (protoToString proto));
        member "dns1" (JString dns.1); member "dns2" (JString dns.2);
        member "hostName" (JString host); member "description" (JString desc);
        member "config_version" (JInt configVersion)]))
  end.

(** The server's part common to its kinds, and its resolvers. *)
Definition connection_of (r : repository T) (serverId primaryDns secondaryDns : string) : M (option (server_common * (string * string))) :=
  match serverKind serverId r with
  | SelfHostedAdmin =>
      match selfHostedAdminConfig serverId r with
      | Some cfg =>
          use ← reading useAmneziaDns;
          mret (Some (admin_common cfg, SelfHostedAdminServerConfig.getDnsPair use primaryDns secondaryDns cfg))
      | None => mret None
      end
  | SelfHostedUser =>
      mret ((λ cfg, (user_common cfg, SelfHostedUserServerConfig.getDnsPair primaryDns secondaryDns cfg)) <$> selfHostedUserConfig serverId r)
  | Native =>
      mret ((λ cfg, (native_common cfg, NativeServerConfig.getDnsPair primaryDns secondaryDns cfg)) <$> ServersRepository.nativeConfig serverId r)
  | UnsupportedSubscription | Invalid => mret None
  end.

(** The error, or the configuration and the container; [None] as above. *)
Definition prepareConnection (r : repository T) (serverId : string) : M (option (Z + gmap string json * DockerContainer)) :=
  primary ← reading AppSettings.primaryDns;
  secondary ← reading AppSettings.secondaryDns;
  cfg ← connection_of r serverId primary secondary;
  match cfg with
  | None => mret (Some (inl ConnectionError.InternalError))
  | Some (s, dns) =>
      let container := defaultContainer s in
      vpnConfiguration ← createConnectionConfiguration dns false (hostName s) (description s) 0 (containerConfig container s) container;
      mret ((λ c, inr (c, container)) <$> vpnConfiguration)
  end.

Definition openConnection (r : repository T) (serverId : string) : M (option Z) :=
  prepared ← prepareConnection r serverId;
  match prepared with
  | None => mret None
  | Some (inl errorCode) => mret (Some errorCode)
  | Some (inr (vpnConfiguration, container)) =>
      _ ← request (openConnectionRequested serverId container vpnConfiguration);
      mret (Some ConnectionError.NoError)
  end.
End connector.

(** ** What is asked of the connection *)
Section opened.
Context {T : Type} {A : Store T} {SL : StoreLaws T} {Q : Qt} {J : JsonCodec}.
Context (b : build) (applicationDirPath : string).

(** The specification: what is stored about a server, and the resolvers it is
    given. *)
Definition common_of (r : repository T) (serverId : string) : option server_common :=
  match serverKind serverId r with
  | SelfHostedAdmin => SelfHostedAdminServerConfig.common <$> selfHostedAdminConfig serverId r
  | SelfHostedUser => SelfHostedUserServerConfig.common <$> selfHostedUserConfig serverId r
  | Native => NativeServerConfig.common <$> ServersRepository.nativeConfig serverId r
  | _ => None
  end.
Definition setting {X} (f : variant → X) (d : variant) (m : gmap string variant) (k : string) : X := f (default d (m !! k)).
Definition resolvers (m : gmap string variant) (kind : ConfigType) (s : server_common) : string * string :=
  let ours := bool_decide (kind = SelfHostedAdmin) && setting vBool (VBool true) m "Conf/useAmneziaDns" &&
              bool_decide (is_Some (containers s !! DockerContainer.Dns)) in
  dns_pair (if ours then ServerConfig.amneziaDnsIp else setting vString (VString "1.1.1.1") m "Conf/primaryDns")
    (setting vString (VString "1.0.0.1") m "Conf/secondaryDns") s.
Definition chosen (m : gmap string variant) : bool * Z :=
  (setting vBool (VBool false) m "Conf/sitesSplitTunnelingEnabled", setting vInt (VInt 0) m "Conf/routeMode").

(** Reading a setting gives what is stored, and nothing else changes. *)
Lemma reading_spec {X} key d (f : variant → X) m (x : connector T) :
  represents_map (c_settings x) m → key ≠ own_key →
  ∃ x', reading (vpn_read key d f) x = (setting f d m key, x') ∧ represents_map (c_settings x') m ∧ requests x' = requests x.
Proof.
  intros Hm Hk. destruct (read_spec key d f _ m Hm Hk) as (t & E & Ht). unfold reading. rewrite E. by eexists.
Qed.

Lemma native_member p : text (ProtocolConfig.getClientConfigJson p) "config" = ProtocolConfig.nativeConfig p.
Proof.
  unfold text. destruct p as [c|c|c|c|c|c|c|c|c|c|c]; try done; cbn [ProtocolConfig.getClientConfigJson ProtocolConfig.nativeConfig];
    [destruct (clientConfig c) as [[]|]|destruct (clientConfig c) as [[]|]|destruct (clientConfig c) as [[]|]
    |destruct (XrayProtocolConfig.clientConfig c) as [[]|]|destruct (clientConfig c) as [[]|]]; try done;
    cbn -[object]; unfold AwgClientConfig.toJson, WireGuardClientConfig.toJson, OpenVpnClientConfig.toJson, XrayClientConfig.toJson, Ikev2ClientConfig.toJson;
    rewrite value_object; cbn -[nonempty]; by rewrite read_text || (rewrite assigned_over_none; apply read_text).
Qed.

Lemma mtu_members container o k : k ≠ "mtu" → Json.value (with_mtu b container o) k = Json.value o k.
Proof. intros Hk. unfold with_mtu, Json.value. destruct (_ && _); [|done]. by rewrite lookup_insert_ne. Qed.
Lemma mtu_there container o :
  isAwgContainer container || bool_decide (container = DockerContainer.WireGuard) = true → text (with_mtu b container o) "mtu" ≠ "".
Proof.
  intros Hc. unfold with_mtu. rewrite Hc. cbn [andb]. destruct (String.eqb_spec (text o "mtu") "") as [E|E]; [|done].
  unfold text, Json.value. rewrite lookup_insert_eq. unfold defaultMtu. by destruct (is_mobile b).
Qed.

Lemma connection_of_common r serverId s m (x : connector T) :
  represents_map (c_settings x) m → common_of r serverId = Some s →
  ∃ x', connection_of r serverId (setting vString (VString "1.1.1.1") m "Conf/primaryDns")
          (setting vString (VString "1.0.0.1") m "Conf/secondaryDns") x = (Some (s, resolvers m (serverKind serverId r) s), x') ∧
        represents_map (c_settings x') m ∧ requests x' = requests x.
Proof.
  intros Hm. unfold common_of, connection_of, resolvers. destruct (serverKind serverId r) eqn:Ek; try done.
  - destruct (selfHostedAdminConfig serverId r) as [cfg|]; [|done]. intros [= <-].
    destruct (reading_spec "Conf/useAmneziaDns" (VBool true) vBool m x Hm ltac:(done)) as (x1 & E & Hm1 & Hr).
    unfold mbind, stM_bind, mret, stM_ret. change useAmneziaDns with (vpn_read (T := T) "Conf/useAmneziaDns" (VBool true) vBool).
    rewrite E. by eexists.
  - destruct (selfHostedUserConfig serverId r) as [cfg|]; [|done]. intros [= <-]. by eexists.
  - destruct (ServersRepository.nativeConfig serverId r) as [cfg|]; [|done]. intros [= <-]. by eexists.
Qed.

(** The configuration of a supported container. *)
Definition configured (m : gmap string variant) (s : server_common) (dns : string * string) (cfg : gmap string json) : Prop :=
  let container := defaultContainer s in
  let proto := defaultProtocol container in
  if decide (containerService container = ServiceType.Other) then cfg = ∅ else
  ∃ k, create proto = Some k ∧
    let p := processConfigWithLocalSettings b applicationDirPath k (connection_settings dns false (chosen m).1 (chosen m).2)
      (ContainerConfig.protocolConfig (containerConfig container s)) in
    let data := toObject (Json.value cfg (key_proto_config_data proto)) in
    text cfg "protocol" = protoToString proto ∧ text cfg "hostName" = hostName s ∧ text cfg "description" = description s ∧
    (text cfg "dns1", text cfg "dns2") = dns ∧
    text data "config" = ProtocolConfig.nativeConfig p ∧
    (isAwgContainer container || bool_decide (container = DockerContainer.WireGuard) = true → text data "mtu" ≠ "") ∧
    (∀ k, k ≠ "mtu" → Json.value data k = Json.value (ProtocolConfig.getClientConfigJson p) k).

Lemma data_key p k : k ∈ ["protocol"; "dns1"; "dns2"; "hostName"; "description"; "config_version"] → key_proto_config_data p ≠ k.
Proof.
  intros Hk. assert (Forall (λ k, key_proto_config_data p ≠ k) ["protocol"; "dns1"; "dns2"; "hostName"; "description"; "config_version"]) as H.
  { repeat constructor; by destruct p. }
  rewrite Forall_forall in H. by apply H.
Qed.

Lemma configuration_made m s dns (x : connector T) :
  represents_map (c_settings x) m → defaultContainer s ≠ DockerContainer.None → isUnsupportedContainer (defaultContainer s) = false →
  ∃ cfg x', createConnectionConfiguration b applicationDirPath dns false (hostName s) (description s) 0
      (containerConfig (defaultContainer s) s) (defaultContainer s) x = (Some cfg, x') ∧
    configured m s dns cfg ∧ represents_map (c_settings x') m ∧ requests x' = requests x.
Proof.
  intros Hm Hn Hu. unfold createConnectionConfiguration, configured. destruct (decide _) as [Ho|Ho].
  - by exists ∅, x.
  - destruct (create_supported _ Hn Hu Ho) as [k Hk]. rewrite Hk.
    destruct (reading_spec "Conf/sitesSplitTunnelingEnabled" (VBool false) vBool m x Hm ltac:(done)) as (x1 & E1 & Hm1 & Hr1).
    destruct (reading_spec "Conf/routeMode" (VInt 0) vInt m x1 Hm1 ltac:(done)) as (x2 & E2 & Hm2 & Hr2).
    unfold mbind, stM_bind, mret, stM_ret.
    change isSitesSplitTunnelingEnabled with (vpn_read (T := T) "Conf/sitesSplitTunnelingEnabled" (VBool false) vBool).
    change AppSettings.routeMode with (vpn_read (T := T) "Conf/routeMode" (VInt 0) vInt). rewrite E1, E2.
    eexists _, _. split; [reflexivity|]. split; [|by rewrite Hr2, Hr1].
    exists k. split; [done|]. cbv zeta.
    set (p := processConfigWithLocalSettings _ _ _ _ _). set (o := with_mtu _ _ _).
    assert (∀ k, k ∈ ["protocol"; "dns1"; "dns2"; "hostName"; "description"; "config_version"] →
      String.eqb (key_proto_config_data (defaultProtocol (defaultContainer s))) k = false) as Hkey
      by (intros k' Hk'; apply String.eqb_neq; by apply data_key).
    assert (∀ k, k ∈ ["protocol"; "dns1"; "dns2"; "hostName"; "description"; "config_version"] →
      String.eqb k (key_proto_config_data (defaultProtocol (defaultContainer s))) = false) as Hkey'
      by (intros k' Hk'; rewrite String.eqb_sym; by apply Hkey).
    unfold text. rewrite !value_object. cbn [assigned member fst snd]. rewrite !Hkey by listed. rewrite !String.eqb_refl.
    rewrite !Hkey' by listed. cbn [String.eqb Ascii.eqb Bool.eqb].
    cbn [toString_or toObject]. split_and!; try done; [by destruct dns| | |].
    + rewrite <- native_member. unfold o. unfold text. by rewrite mtu_members.
    + apply mtu_there.
    + intros k' Hk'. by apply mtu_members.
Qed.

Lemma supported_container running r serverId :
  isConnectionSupported b running r serverId = ConnectionError.NoError →
  ∃ s, common_of r serverId = Some s ∧ defaultContainer s ≠ DockerContainer.None ∧
    isUnsupportedContainer (defaultContainer s) = false ∧ isSupportedByCurrentPlatform b (defaultContainer s) = true.
Proof.
  unfold isConnectionSupported, defaultContainerForServer, common_of. intros H.
  destruct (String.eqb serverId ""); [done|]. destruct (negb (isServiceReady _ _)); [done|]. case_bool_decide as Hk; [done|].
  assert (∀ cfg : option server_common, match container_of cfg with
    | inl errorCode => errorCode
    | inr container =>
        if bool_decide (container = DockerContainer.None) then ConnectionError.NoInstalledContainersError
        else if isUnsupportedContainer container then ConnectionError.LegacyContainerNotSupportedError
        else if negb (isSupportedByCurrentPlatform b container) then ConnectionError.NotSupportedOnThisPlatform
        else ConnectionError.NoError
    end = ConnectionError.NoError → ∃ s, cfg = Some s ∧ defaultContainer s ≠ DockerContainer.None ∧
    isUnsupportedContainer (defaultContainer s) = false ∧ isSupportedByCurrentPlatform b (defaultContainer s) = true) as Hc.
  { intros [s|] E; [|done]. cbn in E. exists s. case_bool_decide; [done|]. destruct (isUnsupportedContainer _); [done|].
    by destruct (isSupportedByCurrentPlatform b _). }
  destruct (serverKind serverId r); try done; by apply Hc.
Qed.

(** C8. A server that can be connected to is connected to: the request names its
    default container and, if that is a tunnel, carries the host, the resolvers
    and the text the protocol is started with, filled in as the user chose to
    split the traffic; a WireGuard tunnel always has an MTU.  When the default
    container is a service the request carries an empty configuration.  Nothing
    else is asked, and no configurator is missing. *)
Theorem connection_opened m running r serverId (x : connector T) :
  represents_map (c_settings x) m → isConnectionSupported b running r serverId = ConnectionError.NoError →
  ∃ s cfg x', common_of r serverId = Some s ∧
    openConnection b applicationDirPath r serverId x = (Some ConnectionError.NoError, x') ∧
    requests x' = requests x ++ [openConnectionRequested serverId (defaultContainer s) cfg] ∧
    configured m s (resolvers m (serverKind serverId r) s) cfg ∧ represents_map (c_settings x') m.
Proof.
  intros Hm (s & Hs & Hn & Hu & _)%supported_container. unfold openConnection, prepareConnection. unfold mbind, stM_bind, mret, stM_ret.
  destruct (reading_spec "Conf/primaryDns" (VString "1.1.1.1") vString m x Hm ltac:(done)) as (x1 & E1 & Hm1 & Hr1).
  destruct (reading_spec "Conf/secondaryDns" (VString "1.0.0.1") vString m x1 Hm1 ltac:(done)) as (x2 & E2 & Hm2 & Hr2).
  destruct (connection_of_common r serverId s m x2 Hm2 Hs) as (x3 & E3 & Hm3 & Hr3).
  destruct (configuration_made m s (resolvers m (serverKind serverId r) s) x3 Hm3 Hn Hu) as (cfg & x4 & E4 & Hcfg & Hm4 & Hr4).
  change AppSettings.primaryDns with (vpn_read (T := T) "Conf/primaryDns" (VString "1.1.1.1") vString).
  change AppSettings.secondaryDns with (vpn_read (T := T) "Conf/secondaryDns" (VString "1.0.0.1") vString).
  rewrite E1, E2, E3, E4. exists s, cfg. eexists. split; [done|]. split; [reflexivity|]. cbn. rewrite Hr4, Hr3, Hr2, Hr1. done.
Qed.
End opened.

(** *** Witness *)
Definition wg_server : gmap string json :=
  object [text_member "hostName" "192.0.2.9"; text_member "description" "Home"; text_member "defaultContainer" "amnezia-wireguard"].
Definition wg_owner : repository (gmap string variant) :=
  @SecureServersRepository _ _ (fixed_codec [JObject wg_server]) sample_uuid {[ "Servers/serversList" := VBytes "list" ]} 0.

Lemma connection_opened_witness :
  let _ := fixed_codec [] in let _ := plain_qt in
  represents_map (T := gmap string variant) ∅ ∅ ∧ isConnectionSupported BuildLinux true wg_owner "x" = ConnectionError.NoError ∧
  ∃ cfg x', openConnection BuildLinux "/opt" wg_owner "x" (mkConnector ∅ []) = (Some ConnectionError.NoError, x') ∧
    requests x' = [openConnectionRequested "x" DockerContainer.WireGuard cfg].
Proof.
  cbv zeta. assert (represents_map (T := gmap string variant) ∅ ∅) as Hm by done.
  assert (isConnectionSupported (J := fixed_codec []) BuildLinux true wg_owner "x" = ConnectionError.NoError) as Hs by (vm_compute; reflexivity).
  split; [exact Hm|]. split; [exact Hs|].
  destruct (connection_opened (Q := plain_qt) (J := fixed_codec []) BuildLinux "/opt" ∅ true wg_owner "x" (mkConnector ∅ []) Hm Hs)
    as (s & cfg & x' & Hc & Ho & Hr & _).
  exists cfg, x'. split; [exact Ho|]. rewrite Hr.
  assert (defaultContainer s = DockerContainer.WireGuard) as -> by (vm_compute in Hc; injection Hc as <-; reflexivity). reflexivity.
Defined.
