(* ===== verification/XrayInstaller.v ===== *)
(** * XrayInstaller: the settings of a running Xray server

    Models [core/installers/xrayInstaller.cpp]: what another device finds in the
    document of a server, as settings; the transport they give to a client is
    compared with the one the document was written with by
    [XrayConfigurator]. *)
From Stdlib Require Import Qround.
From stdpp Require Import pretty.
From S2P Require Import Prelude Text Json Wire Containers ProtocolConfigs XrayConfig ServerConfig Settings Scripts SshSession Configurators XrayConfigurator.

Definition normalizeXrayFingerprint (fp : string) : string :=
  if String.eqb fp "" || contains_ci "Mozilla/5.0" fp then "chrome" else fp.

(** [value.toVariant().toLongLong()]; 0 stands for a number out of range. *)
Definition round64 (q : Q) : Z :=
  let z := if 0 <=? Qnum q then Qfloor (q + (1 # 2)) else Qceiling (q - (1 # 2)) in
  if (- 2 ^ 63 <=? z) && (z <? 2 ^ 63) then z else 0.
Definition toVariant_toLongLong (v : option json) : Z :=
  match v with
  | Some (JDouble q) => round64 q
  | Some (JString s) => toLongLong_value s
  | Some (JBool b) => if b then 1 else 0
  | _ => 0
  end.

(** The names the pages show. *)
Definition sessionSeqUi (core : string) : string :=
  if String.eqb core "" || String.eqb core "path" then "Path"
  else if String.eqb core "cookie" then "Cookie"
  else if String.eqb core "header" then "Header"
  else if String.eqb core "query" then "Query"
  else core.
Definition uplinkDataUi (core : string) : string :=
  if String.eqb core "" || String.eqb core "body" then "Body"
  else if String.eqb core "auto" then "Auto"
  else if String.eqb core "header" then "Header"
  else if String.eqb core "cookie" then "Cookie"
  else core.
Definition modeUi (m : string) : string :=
  if String.eqb m "" || String.eqb m "auto" then "Auto"
  else if String.eqb m "packet-up" then "Packet-up"
  else if String.eqb m "stream-up" then "Stream-up"
  else if String.eqb m "stream-one" then "Stream-one"
  else m.
Definition placementUi (p : string) : string :=
  let pl := toLower p in
  if String.eqb pl "cookie" then "Cookie"
  else if String.eqb pl "header" then "Header"
  else if String.eqb pl "query" then "Query"
  else if String.eqb pl "queryinheader" then "Query in header"
  else p.
Definition methodUi (m : string) : string :=
  let met := toLower m in
  if String.eqb met "repeat-x" then "Repeat-x"
  else if String.eqb met "tokenish" then "Tokenish"
  else m.

(** [QJsonObject::isEmpty] *)
Definition isEmptyObject (o : gmap string json) : bool := bool_decide (o = ∅).

(** A member, or an older one when it is empty. *)
Definition either_text (o : gmap string json) (k old : string) : string :=
  let s := text o k in if String.eqb s "" then text o old else s.
(** The two ends of a range; what was there stays when there is none. *)
Definition readRange (o : gmap string json) (k minOut maxOut : string) : string * string :=
  let r := toObject (Json.value o k) in
  if isEmptyObject r then (minOut, maxOut) else (pretty (toInt (Json.value r "from")), pretty (toInt (Json.value r "to"))).

Section xhttp.
Import XrayXPaddingConfig.
Definition loadPaddingFromObject (pad : gmap string json) (c : XrayXPaddingConfig) : XrayXPaddingConfig :=
  let '(bytes_min, bytes_max) := readRange pad "xPaddingBytes" (bytesMin c) (bytesMax c) in
  mk bytes_min bytes_max
    (if contains pad "xPaddingObfsMode" then toBool_or true (Json.value pad "xPaddingObfsMode") else obfsMode c)
    (text pad "xPaddingKey") (text pad "xPaddingHeader")
    (placementUi (text pad "xPaddingPlacement")) (methodUi (text pad "xPaddingMethod")).
Definition read_padding (xhttpObj : gmap string json) (c : XrayXPaddingConfig) : XrayXPaddingConfig :=
  if contains xhttpObj "xPaddingObfsMode" || contains xhttpObj "xPaddingKey" ||
     negb (isEmptyObject (toObject (Json.value xhttpObj "xPaddingBytes")))
  then loadPaddingFromObject xhttpObj c
  else if contains xhttpObj "xPadding" && isObject (Json.value xhttpObj "xPadding") then
    let nested := toObject (Json.value xhttpObj "xPadding") in
    if isEmptyObject nested then c else
    let c := loadPaddingFromObject nested c in
    if contains nested "xPaddingObfsMode" then c
    else mk (bytesMin c) (bytesMax c) true (key c) (header c) (placement c) (method c)
  else c.
End xhttp.

Section xmux.
Import XrayXmuxConfig.
Definition read_xmux (xhttpObj : gmap string json) (c : XrayXmuxConfig) : XrayXmuxConfig :=
  if negb (contains xhttpObj "xmux") then c else
  let mux := toObject (Json.value xhttpObj "xmux") in
  let '(concurrencyMin, concurrencyMax) := readRange mux "maxConcurrency" (maxConcurrencyMin c) (maxConcurrencyMax c) in
  let '(connectionsMin, connectionsMax) := readRange mux "maxConnections" (maxConnectionsMin c) (maxConnectionsMax c) in
  let '(reuseMin, reuseMax) := readRange mux "cMaxReuseTimes" (cMaxReuseTimesMin c) (cMaxReuseTimesMax c) in
  let '(requestMin, requestMax) := readRange mux "hMaxRequestTimes" (hMaxRequestTimesMin c) (hMaxRequestTimesMax c) in
  let '(secsMin, secsMax) := readRange mux "hMaxReusableSecs" (hMaxReusableSecsMin c) (hMaxReusableSecsMax c) in
  mk true concurrencyMin concurrencyMax connectionsMin connectionsMax reuseMin reuseMax requestMin requestMax secsMin secsMax
    (if contains mux "hKeepAlivePeriod" then pretty (toVariant_toLongLong (Json.value mux "hKeepAlivePeriod")) else hKeepAlivePeriod c).
End xmux.

Section transport.
Import XrayXhttpConfig.
Definition read_chunk (xhttpObj : gmap string json) (d : string) : string :=
  if contains xhttpObj "uplinkChunkSize" then
    let uc := toObject (Json.value xhttpObj "uplinkChunkSize") in
    if isEmptyObject uc then d else pretty (toInt (Json.value uc "from"))
  else if contains xhttpObj "xhttpUplinkChunkSize" then pretty (toInt (Json.value xhttpObj "xhttpUplinkChunkSize"))
  else d.
Definition read_xhttp (xhttpObj : gmap string json) (c : XrayXhttpConfig) : XrayXhttpConfig :=
  let hdrs := toObject (Json.value xhttpObj "headers") in
  let '(postMin, postMax) := readRange xhttpObj "scMaxEachPostBytes" (scMaxEachPostBytesMin c) (scMaxEachPostBytesMax c) in
  let '(intervalMin, intervalMax) := readRange xhttpObj "scMinPostsIntervalMs" (scMinPostsIntervalMsMin c) (scMinPostsIntervalMsMax c) in
  let '(streamMin, streamMax) := readRange xhttpObj "scStreamUpServerSecs" (scStreamUpServerSecsMin c) (scStreamUpServerSecsMax c) in
  mk (modeUi (text xhttpObj "mode")) (text xhttpObj "host") (text xhttpObj "path")
    (if contains hdrs "Host" || negb (isEmptyObject hdrs) then "HTTP" else headersTemplate c)
    (if contains xhttpObj "uplinkHTTPMethod" then text xhttpObj "uplinkHTTPMethod" else text xhttpObj "method")
    (toBool_or true (Json.value xhttpObj "noGRPCHeader")) (toBool_or true (Json.value xhttpObj "noSSEHeader"))
    (sessionSeqUi (either_text xhttpObj "sessionPlacement" "scSessionPlacement")) (text xhttpObj "sessionKey")
    (sessionSeqUi (either_text xhttpObj "seqPlacement" "scSeqPlacement")) (text xhttpObj "seqKey")
    (uplinkDataUi (either_text xhttpObj "uplinkDataPlacement" "scUplinkDataPlacement")) (text xhttpObj "uplinkDataKey")
    (read_chunk xhttpObj (uplinkChunkSize c))
    (if contains xhttpObj "scMaxBufferedPosts" then pretty (toVariant_toLongLong (Json.value xhttpObj "scMaxBufferedPosts"))
     else scMaxBufferedPosts c)
    postMin postMax intervalMin intervalMax streamMin streamMax (read_padding xhttpObj (xPadding c)) (read_xmux xhttpObj (xmux c)).
End transport.

Definition read_kcp (kcp : gmap string json) (c : XrayMkcpConfig) : XrayMkcpConfig :=
  XrayMkcpConfig.mk
    (XrayProtocolConfig.present_number kcp "tti" (XrayMkcpConfig.tti c))
    (XrayProtocolConfig.present_number kcp "uplinkCapacity" (XrayMkcpConfig.uplinkCapacity c))
    (XrayProtocolConfig.present_number kcp "downlinkCapacity" (XrayMkcpConfig.downlinkCapacity c))
    (XrayProtocolConfig.present_number kcp "readBufferSize" (XrayMkcpConfig.readBufferSize c))
    (XrayProtocolConfig.present_number kcp "writeBufferSize" (XrayMkcpConfig.writeBufferSize c))
    (toBool_or true (Json.value kcp "congestion")).

(** The name, the site and the fingerprint under Reality; [None] when the first
    of no names is taken. *)
Definition read_reality (rs : gmap string json) (srv : XrayServerConfig) : option (string * string * string) :=
  let fp := normalizeXrayFingerprint (text rs "fingerprint") in
  if contains rs "serverNames" then
    v ← head (toArray (Json.value rs "serverNames"));
    let sniVal := toString_or "" (Some v) in Some (sniVal, sniVal, fp)
  else if contains rs "serverName" then Some (text rs "serverName", text rs "serverName", fp)
  else Some (XrayServerConfig.sni srv, XrayServerConfig.site srv, fp).

Definition read_names (security : string) (streamSettings : gmap string json) (srv : XrayServerConfig) : option (string * string * string) :=
  let tls := toObject (Json.value streamSettings "tlsSettings") in
  if String.eqb security "reality" then read_reality (toObject (Json.value streamSettings "realitySettings")) srv
  else if String.eqb security "tls"
  then Some (text tls "serverName", XrayServerConfig.site srv, normalizeXrayFingerprint (text tls "fingerprint"))
  else Some (XrayServerConfig.sni srv, XrayServerConfig.site srv, XrayServerConfig.fingerprint srv).

(** An inbound as settings, over those there were. *)
Definition read_server (inbound : gmap string json) (srv : XrayServerConfig) : option XrayServerConfig :=
  let streamSettings := toObject (Json.value inbound "streamSettings") in
  let transport := XrayProtocolConfig.transport_of (toString_or "tcp" (Json.value streamSettings "network")) in
  let security := toString_or "reality" (Json.value streamSettings "security") in
  let tls := toObject (Json.value streamSettings "tlsSettings") in
  names ← read_names security streamSettings srv;
  let '(sni, site, fingerprint) := (names : string * string * string) in
  Some (XrayServerConfig.mk
    (XrayProtocolConfig.present_number inbound "port" (XrayServerConfig.port srv))
    (XrayServerConfig.transportProto srv) (XrayServerConfig.subnetAddress srv) site (XrayServerConfig.isThirdPartyConfig srv)
    security
    (match inbound_clients inbound with v :: _ => text (toObject (Some v)) "flow" | [] => XrayServerConfig.flow srv end)
    fingerprint sni
    (if String.eqb security "tls" then String.concat "," (strings_of (Json.value tls "alpn")) else XrayServerConfig.alpn srv)
    transport
    (if String.eqb transport "xhttp" then read_xhttp (toObject (Json.value streamSettings "xhttpSettings")) (XrayServerConfig.xhttp srv)
     else XrayServerConfig.xhttp srv)
    (if String.eqb transport "mkcp" then read_kcp (toObject (Json.value streamSettings "kcpSettings")) (XrayServerConfig.mkcp srv)
     else XrayServerConfig.mkcp srv)).

Section extract.
Context {W : Type} {L : Libssh W} {J : JsonCodec}.
Abbreviation M := (stM (client W)).

(** The first inbound of a server's document. *)
Definition scanned_inbound (currentConfig : string) : option (gmap string json) :=
  match Wire.fromJson currentConfig with
  | Some (JObject serverConfig) =>
      if negb (contains serverConfig "inbounds") then None else
      match toArray (Json.value serverConfig "inbounds") with
      | first :: _ =>
          let inbound := toObject (Some first) in
          if contains inbound "streamSettings" then Some inbound else None
      | [] => None
      end
  | _ => None
  end.

(** The settings and the error; [None] as above. *)
Definition xray_extractConfigFromContainer (c : DockerContainer) (credentials : ServerCredentials) (config : ProtocolConfig) :
    M (option (ProtocolConfig * Z)) :=
  '(currentConfig, errorCode) ← getTextFileFromContainer c credentials xray_config_path;
  if negb (errorCode =? ErrorCode.NoError) then mret (Some (config, errorCode)) else
  match scanned_inbound currentConfig, config with
  | Some inbound, PXray x =>
      mret ((λ srv, (PXray (XrayProtocolConfig.mk srv (XrayProtocolConfig.clientConfig x) (XrayProtocolConfig.needsClientHydration x)), ErrorCode.NoError))
              <$> read_server inbound (XrayProtocolConfig.serverConfig x))
  | _, _ => mret (Some (config, ErrorCode.InternalError))
  end.
End extract.

(** ** Numbers are read back *)
Lemma long_pretty z : - 2 ^ 63 ≤ z < 2 ^ 63 → toLongLong_value (pretty z) = z.
Proof.
  intros Hz. pose proof (signed_pretty z) as H. unfold toLongLong_value. cbv zeta. rewrite H.
  rewrite (proj2 (Z.leb_le _ _)), (proj2 (Z.ltb_lt z _)) by lia. done.
Qed.
Lemma int_range s : int_min ≤ toInt_value s ≤ int_max.
Proof.
  unfold toInt_value, toInt_ok, int_min, int_max. cbv zeta. destruct (match trimmed s with "" => _ | String _ _ => _ end) as [z|]; cbn; [|lia].
  destruct ((-2147483648 <=? z) && (z <=? 2147483647)) eqn:E; cbn; [|lia]. split_bools. lia.
Qed.
Lemma long_range s : - 2 ^ 63 ≤ toLongLong_value s < 2 ^ 63.
Proof.
  unfold toLongLong_value. cbv zeta. destruct (match trimmed s with "" => _ | String _ _ => _ end) as [z|]; [|lia].
  destruct ((- 2 ^ 63 <=? z) && (z <? 2 ^ 63)) eqn:E; [|lia]. split_bools. lia.
Qed.
Lemma int_read z : int_min ≤ z ≤ int_max → toInt_value (pretty (toInt (Some (JInt z)))) = z.
Proof. intros Hz. by rewrite toInt_JInt, int_pretty. Qed.
Lemma round_int z : - 2 ^ 63 ≤ z < 2 ^ 63 → toVariant_toLongLong (Some (JInt z)) = z.
Proof.
  intros Hz. unfold toVariant_toLongLong, JInt, round64.
  assert ((if 0 <=? Qnum (inject_Z z) then Qfloor (inject_Z z + (1 # 2)) else Qceiling (inject_Z z - (1 # 2))) = z) as ->.
  { unfold inject_Z, Qceiling, Qfloor, Qplus, Qminus, Qopp. cbn. destruct (Z.leb_spec 0 z) as [H|H].
    - symmetry. apply (Z.div_unique _ _ _ 1); lia.
    - rewrite <- (Z.opp_involutive z) at 2. f_equal. symmetry. apply (Z.div_unique _ _ _ 1); lia. }
  rewrite (proj2 (Z.leb_le _ _)), (proj2 (Z.ltb_lt z _)) by lia. done.
Qed.
Lemma long_read z : - 2 ^ 63 ≤ z < 2 ^ 63 → toLongLong_value (pretty (toVariant_toLongLong (Some (JInt z)))) = z.
Proof. intros Hz. by rewrite round_int, long_pretty. Qed.

(** ** What is written is read back *)
Lemma pretty_ne (z : Z) : pretty z ≠ "" .
Proof.
  destruct (decide (0 ≤ z)) as [Hz|Hz]; [by destruct (pretty_digits z Hz)|]. destruct z as [|p|p]; [lia|lia|]. change (String (Ascii.ascii_of_nat 45) (pretty (Z.pos p)) ≠ ""). done.
Qed.
Lemma range_object a b :
  let r := toObject (Some (range a b)) in
  isEmptyObject r = false ∧ Json.value r "from" = Some (JInt a) ∧ Json.value r "to" = Some (JInt b).
Proof.
  cbv zeta. unfold range. cbn [toObject]. split; [|by rewrite !value_object]. apply bool_decide_eq_false. intros E.
  assert (Json.value (object [member "from" (JInt a); member "to" (JInt b)]) "from" = None) as H by by rewrite E.
  by rewrite value_object in H.
Qed.
Lemma range_read o k d1 d2 a b :
  Json.value o k = Some (range a b) → int_min ≤ a ≤ int_max → int_min ≤ b ≤ int_max → readRange o k d1 d2 = (pretty a, pretty b).
Proof.
  intros E Ha Hb. unfold readRange. rewrite E. destruct (range_object a b) as (-> & -> & ->). by rewrite !toInt_JInt.
Qed.
Lemma range_absent o k d1 d2 : Json.value o k = None → readRange o k d1 d2 = (d1, d2).
Proof. intros E. unfold readRange. by rewrite E. Qed.
Lemma range_rewritten k a b f g : int_min ≤ a ≤ int_max → int_min ≤ b ≤ int_max → putIntRangeIfAny k (pretty a) (pretty b) f g = (k, Some (range a b)).
Proof.
  intros Ha Hb. unfold putIntRangeIfAny, filled. rewrite !(proj2 (String.eqb_neq _ "") (pretty_ne _)). cbn [andb]. by rewrite !int_pretty.
Qed.
Lemma mux_rewritten k a b : int_min ≤ a ≤ int_max → int_min ≤ b ≤ int_max → addMuxRange k (pretty a) (pretty b) = (k, Some (range a b)).
Proof.
  intros Ha Hb. unfold addMuxRange. rewrite !(proj2 (String.eqb_neq _ "") (pretty_ne _)). cbn [andb]. by rewrite !int_pretty.
Qed.
Lemma upper_idemp s : toUpper (toUpper s) = toUpper s.
Proof.
  induction s as [|c s IH]; [done|]. cbn [toUpper]. rewrite IH. f_equal. by destruct c as [[] [] [] [] [] [] [] []].
Qed.

(** The options the pages offer. *)
Definition modes : list string := ["Auto"; "Packet-up"; "Stream-up"; "Stream-one"].
Definition session_places : list string := ["Path"; "Cookie"; "Header"; "Query"].
Definition data_places : list string := [""; "Body"; "Auto"; "Header"; "Cookie"; "Query"].
Definition padding_places : list string := [""; "Cookie"; "Header"; "Query"; "Query in header"; "Body"].
Definition padding_methods : list string := [""; "Repeat-x"; "Tokenish"; "Random"; "Zero"].

Lemma mode_read m : m ∈ modes → normalizeXhttpMode (modeUi (normalizeXhttpMode m)) = normalizeXhttpMode m.
Proof. revert m. apply Forall_forall. repeat (constructor; [vm_compute; reflexivity|]). constructor. Qed.
Lemma session_read p : p ∈ session_places →
  normalizeSessionSeqPlacement p ≠ "" ∧
  normalizeSessionSeqPlacement (sessionSeqUi (normalizeSessionSeqPlacement p)) = normalizeSessionSeqPlacement p.
Proof. revert p. apply Forall_forall. repeat (constructor; [split; [vm_compute; discriminate|vm_compute; reflexivity]|]). constructor. Qed.
Lemma data_read p : p ∈ data_places →
  normalizeUplinkDataPlacement p ≠ "" ∧
  normalizeUplinkDataPlacement (uplinkDataUi (normalizeUplinkDataPlacement p)) = normalizeUplinkDataPlacement p.
Proof. revert p. apply Forall_forall. repeat (constructor; [split; [vm_compute; discriminate|vm_compute; reflexivity]|]). constructor. Qed.
Lemma place_read p : p ∈ padding_places →
  let w := normalizeXPaddingPlacement (filled p "Cookie") in normalizeXPaddingPlacement (filled (placementUi w) "Cookie") = w.
Proof. revert p. apply Forall_forall. repeat (constructor; [vm_compute; reflexivity|]). constructor. Qed.
Lemma method_read p : p ∈ padding_methods →
  let w := normalizeXPaddingMethod (filled p "Repeat-x") in normalizeXPaddingMethod (filled (methodUi w) "Repeat-x") = w.
Proof. revert p. apply Forall_forall. repeat (constructor; [vm_compute; reflexivity|]). constructor. Qed.

Section rewritten.
Import XrayXhttpConfig XrayXPaddingConfig XrayXmuxConfig.

Definition xhttp_base (x : XrayXhttpConfig) : list assignment :=
  let hostEff := filled (host x) "www.googletagmanager.com" in [
    member "host" (JString hostEff);
    text_member "path" (path x);
    member "mode" (JString (normalizeXhttpMode (mode x)));
    ("headers", if same_ci (headersTemplate x) "HTTP" then Some (JObject (object [member "Host" (JString hostEff)])) else None);
    member "uplinkHTTPMethod" (JString (toUpper (filled (uplinkMethod x) "POST")));
    member "noGRPCHeader" (JBool (disableGrpc x));
    member "noSSEHeader" (JBool (disableSse x));
    text_member "sessionPlacement" (normalizeSessionSeqPlacement (sessionPlacement x));
    text_member "seqPlacement" (normalizeSessionSeqPlacement (seqPlacement x));
    text_member "sessionKey" (sessionKey x);
    text_member "seqKey" (seqKey x);
    member "uplinkDataPlacement" (JString (normalizeUplinkDataPlacement (uplinkDataPlacement x)));
    text_member "uplinkDataKey" (uplinkDataKey x);
    chunk_size (uplinkChunkSize x);
    ("scMaxBufferedPosts",
     if String.eqb (scMaxBufferedPosts x) "" then None else Some (JInt (toLongLong_value (scMaxBufferedPosts x))));
    putIntRangeIfAny "scMaxEachPostBytes" (scMaxEachPostBytesMin x) (scMaxEachPostBytesMax x) "1" "100";
    putIntRangeIfAny "scMinPostsIntervalMs" (scMinPostsIntervalMsMin x) (scMinPostsIntervalMsMax x) "100" "800";
    putIntRangeIfAny "scStreamUpServerSecs" (scStreamUpServerSecsMin x) (scStreamUpServerSecsMax x) "1" "100"].
Definition xmux_list (m : XrayXmuxConfig) : list assignment := if enabled m then [object_member "xmux" (xmux_object m)] else [].

Lemma xhttp_parts x : xhttp_settings x = object (xhttp_base x ++ padding_members (xPadding x) ++ xmux_list (xmux x)).
Proof. reflexivity. Qed.

Definition padding_keys : list string :=
  ["xPaddingObfsMode"; "xPaddingBytes"; "xPaddingKey"; "xPaddingHeader"; "xPaddingPlacement"; "xPaddingMethod"].
Lemma padding_listed p : Forall (λ a, a.1 ∈ padding_keys) (padding_members p).
Proof. unfold padding_members. destruct (obfsMode p); repeat constructor; listed. Qed.
Lemma not_listed (k : string) (l : list assignment) (ks : list string) : Forall (λ a, a.1 ∈ ks) l → k ∉ ks → Forall (λ a, a.1 ≠ k) l.
Proof. intros H Hk. eapply Forall_impl; [exact H|]. intros a Ha E. apply Hk. by rewrite <- E. Qed.

Lemma base_value x k : k ∉ "xmux" :: padding_keys → Json.value (xhttp_settings x) k = assigned k None (xhttp_base x).
Proof.
  intros [Hx Hp]%not_elem_of_cons. rewrite xhttp_parts, value_object, !assigned_app.
  rewrite (assigned_other k _ (xmux_list _)) by (unfold xmux_list; destruct (enabled _); [constructor; [exact (not_eq_sym Hx)|constructor]|constructor]).
  apply assigned_other. eapply not_listed; [apply padding_listed|done].
Qed.
Lemma padding_value x k : k ∈ padding_keys → Json.value (xhttp_settings x) k = assigned k None (padding_members (xPadding x)).
Proof.
  intros Hk. assert (k ≠ "xmux") as Hx by (intros ->; apply (bool_decide_pack _) in Hk; exact Hk).
  rewrite xhttp_parts, value_object, !assigned_app.
  rewrite (assigned_other k _ (xmux_list _)) by (unfold xmux_list; destruct (enabled _); [constructor; [exact (not_eq_sym Hx)|constructor]|constructor]).
  f_equal. apply assigned_other. unfold xhttp_base. repeat constructor; cbn; intros <-; apply (bool_decide_pack _) in Hk; exact Hk.
Qed.
Lemma xmux_value x : Json.value (xhttp_settings x) "xmux" = assigned "xmux" None (xmux_list (xmux x)).
Proof.
  rewrite xhttp_parts, value_object, !assigned_app. f_equal.
  rewrite assigned_other by (eapply not_listed; [apply padding_listed|apply (bool_decide_unpack _); vm_compute; exact Logic.I]).
  apply assigned_other. unfold xhttp_base. repeat constructor; cbn; discriminate.
Qed.
End rewritten.

Section transport_read.
Import XrayXhttpConfig XrayXPaddingConfig XrayXmuxConfig.

Lemma obfs_off p : obfsMode p = false → padding_members p = [member "xPaddingObfsMode" (JBool false)].
Proof. intros E. unfold padding_members. by rewrite E. Qed.
Definition padding_written (bytes : option json) (k h pl m : string) : list assignment := [
  member "xPaddingObfsMode" (JBool true); ("xPaddingBytes", bytes); member "xPaddingKey" (JString k);
  member "xPaddingHeader" (JString h); member "xPaddingPlacement" (JString pl); member "xPaddingMethod" (JString m)].
Lemma obfs_on p :
  obfsMode p = true → padding_members p = padding_written (padding_bytes p).2 (filled (key p) "x_padding") (filled (header p) "X-Padding")
    (normalizeXPaddingPlacement (filled (placement p) "Cookie")) (normalizeXPaddingMethod (filled (method p) "Repeat-x")).
Proof. intros E. unfold padding_members. by rewrite E. Qed.
Lemma filled_ne s d : d ≠ "" → filled s d ≠ "" .
Proof. intros Hd. unfold filled. by destruct (String.eqb_spec s ""). Qed.
Lemma filled_id s d : s ≠ "" → filled s d = s.
Proof. intros Hs. unfold filled. by rewrite (proj2 (String.eqb_neq s "") Hs). Qed.

Lemma bytes_cases p :
  (padding_bytes p).2 = None ∨ ∃ a b, (padding_bytes p).2 = Some (range a b) ∧ int_min ≤ a ≤ int_max ∧ int_min ≤ b ≤ int_max ∧ a ≤ b.
Proof.
  unfold padding_bytes. cbn [snd]. destruct (_ && _); [by left|]. right. eexists _, _. split; [reflexivity|].
  pose proof (int_range (bytesMin p)). pose proof (int_range (bytesMax p)). unfold int_min, int_max in *.
  destruct (String.eqb (bytesMin p) ""), (String.eqb (bytesMax p) ""); lia.
Qed.
Lemma bytes_rewritten a b o k h pl m :
  int_min ≤ a ≤ int_max → int_min ≤ b ≤ int_max → a ≤ b →
  (padding_bytes (XrayXPaddingConfig.mk (pretty a) (pretty b) o k h pl m)).2 = Some (range a b).
Proof.
  intros Ha Hb Hab. unfold padding_bytes. cbn [bytesMin bytesMax snd]. rewrite !(proj2 (String.eqb_neq _ "") (pretty_ne _)). cbn [andb].
  rewrite !int_pretty by done. by rewrite Z.max_r.
Qed.

(** The options of the padding, and an object that has its members. *)
Definition offered_padding (p : XrayXPaddingConfig) : Prop := placement p ∈ padding_places ∧ method p ∈ padding_methods.
Lemma padding_rewritten o p c :
  offered_padding p → bytesMin c = "" → bytesMax c = "" →
  (∀ k, k ∈ padding_keys → Json.value o k = assigned k None (padding_members p)) →
  padding_members (read_padding o c) = padding_members p.
Proof.
  intros [Hp Hm] Hmin Hmax Ho. unfold read_padding.
  assert (contains o "xPaddingObfsMode" = true) as ->.
  { rewrite contains_spec, Ho by listed. unfold padding_members. by destruct (obfsMode p). }
  cbn [orb]. unfold loadPaddingFromObject. rewrite contains_spec, (Ho "xPaddingObfsMode") by listed. unfold text.
  rewrite (Ho "xPaddingKey"), (Ho "xPaddingHeader"), (Ho "xPaddingPlacement"), (Ho "xPaddingMethod") by listed.
  assert (Json.value o "xPaddingBytes" = assigned "xPaddingBytes" None (padding_members p)) as Hb by (apply Ho; listed).
  destruct (obfsMode p) eqn:E.
  - rewrite (obfs_on p E) in Hb |- *. unfold padding_written in Hb |- *.
    cbn [assigned member fst snd String.eqb Ascii.eqb Bool.eqb isUndefined negb toString_or toBool_or] in Hb |- *.
    pose proof (place_read _ Hp) as Hplace. pose proof (method_read _ Hm) as Hmeth. cbv zeta in Hplace, Hmeth.
    assert (∀ x y, (x, y) = readRange o "xPaddingBytes" (bytesMin c) (bytesMax c) → ∀ k h pl m,
      (padding_bytes (XrayXPaddingConfig.mk x y true k h pl m)).2 = (padding_bytes p).2) as Hbytes.
    { intros x y Hxy k h pl m. destruct (bytes_cases p) as [N|(a & b & S & Ha & Hab & Hle)].
      - rewrite range_absent in Hxy by (by rewrite Hb, N). injection Hxy as -> ->. rewrite N. unfold padding_bytes. cbn. by rewrite Hmin, Hmax.
      - rewrite (range_read _ _ _ _ a b) in Hxy by (done || by rewrite Hb, S). injection Hxy as -> ->. rewrite S. by apply bytes_rewritten. }
    destruct (readRange o "xPaddingBytes" _ _) as [x y]. rewrite obfs_on by done. rewrite (Hbytes x y) by done. cbn [key header placement method].
    rewrite Hplace, Hmeth, !(filled_id (filled _ _)) by by apply filled_ne. reflexivity.
  - rewrite !(obfs_off p) in * by done.
    cbn [assigned member fst snd String.eqb Ascii.eqb Bool.eqb isUndefined negb toString_or toBool_or] in Hb |- *.
    rewrite range_absent by done. reflexivity.
Qed.

(** Every range of the connections is given. *)
Definition given (a b : string) : Prop := String.eqb a "" && String.eqb b "" = false.
Definition given_xmux (m : XrayXmuxConfig) : Prop :=
  enabled m = true ∧ given (maxConcurrencyMin m) (maxConcurrencyMax m) ∧ given (maxConnectionsMin m) (maxConnectionsMax m) ∧
  given (cMaxReuseTimesMin m) (cMaxReuseTimesMax m) ∧ given (hMaxRequestTimesMin m) (hMaxRequestTimesMax m) ∧
  given (hMaxReusableSecsMin m) (hMaxReusableSecsMax m).

Lemma mux_given k a b : given a b → ∃ x y, addMuxRange k a b = (k, Some (range x y)) ∧ int_min ≤ x ≤ int_max ∧ int_min ≤ y ≤ int_max.
Proof.
  unfold given, addMuxRange. intros ->. eexists _, _. split; [reflexivity|]. pose proof (int_range a). pose proof (int_range b).
  unfold int_min, int_max in *. destruct (String.eqb a ""), (String.eqb b ""); lia.
Qed.
Lemma keep_alive s d :
  s = "" → ∀ p, (if String.eqb (if negb (isUndefined (if String.eqb p "" then None else Some (JInt (toLongLong_value p))))
    then pretty (toVariant_toLongLong (if String.eqb p "" then None else Some (JInt (toLongLong_value p)))) else s) "" then None
  else Some (JInt (toLongLong_value (if negb (isUndefined (if String.eqb p "" then None else Some (JInt (toLongLong_value p))))
    then pretty (toVariant_toLongLong (if String.eqb p "" then None else Some (JInt (toLongLong_value p)))) else d)))) =
  (if String.eqb p "" then None else Some (JInt (toLongLong_value p))).
Proof.
  intros -> p. destruct (String.eqb p ""); [done|]. cbn [isUndefined negb].
  rewrite (proj2 (String.eqb_neq _ "") (pretty_ne _)). rewrite long_read by apply long_range. done.
Qed.
Lemma xmux_rewritten o m c :
  given_xmux m → hKeepAlivePeriod c = "" → Json.value o "xmux" = Some (JObject (xmux_object m)) →
  xmux_list (read_xmux o c) = xmux_list m.
Proof.
  intros (He & H1 & H2 & H3 & H4 & H5) Hc Ho. unfold read_xmux. rewrite contains_spec, Ho. cbn [isUndefined negb toObject].
  destruct (mux_given "maxConcurrency" _ _ H1) as (a1 & b1 & E1 & ? & ?). destruct (mux_given "maxConnections" _ _ H2) as (a2 & b2 & E2 & ? & ?).
  destruct (mux_given "cMaxReuseTimes" _ _ H3) as (a3 & b3 & E3 & ? & ?). destruct (mux_given "hMaxRequestTimes" _ _ H4) as (a4 & b4 & E4 & ? & ?).
  destruct (mux_given "hMaxReusableSecs" _ _ H5) as (a5 & b5 & E5 & ? & ?).
  set (mux := xmux_object m).
  assert (mux = object [("maxConcurrency", Some (range a1 b1)); ("maxConnections", Some (range a2 b2)); ("cMaxReuseTimes", Some (range a3 b3));
    ("hMaxRequestTimes", Some (range a4 b4)); ("hMaxReusableSecs", Some (range a5 b5));
    ("hKeepAlivePeriod", if String.eqb (hKeepAlivePeriod m) "" then None else Some (JInt (toLongLong_value (hKeepAlivePeriod m))))]) as Emux
    by (unfold mux, xmux_object; by rewrite E1, E2, E3, E4, E5).
  rewrite (range_read mux "maxConcurrency" _ _ a1 b1), (range_read mux "maxConnections" _ _ a2 b2), (range_read mux "cMaxReuseTimes" _ _ a3 b3),
    (range_read mux "hMaxRequestTimes" _ _ a4 b4), (range_read mux "hMaxReusableSecs" _ _ a5 b5)
    by (done || (rewrite Emux, value_object; reflexivity)).
  assert (Json.value mux "hKeepAlivePeriod" = if String.eqb (hKeepAlivePeriod m) "" then None else Some (JInt (toLongLong_value (hKeepAlivePeriod m)))) as Hk
    by (rewrite Emux, value_object; cbn [assigned String.eqb Ascii.eqb Bool.eqb]; by rewrite assigned_over_none).
  unfold xmux_list. rewrite He. cbn [enabled]. do 2 f_equal. rewrite Emux. unfold xmux_object.
  cbn [maxConcurrencyMin maxConcurrencyMax maxConnectionsMin maxConnectionsMax cMaxReuseTimesMin cMaxReuseTimesMax
    hMaxRequestTimesMin hMaxRequestTimesMax hMaxReusableSecsMin hMaxReusableSecsMax hKeepAlivePeriod].
  rewrite !mux_rewritten by done. rewrite contains_spec, <- Emux, Hk.
  rewrite (keep_alive (hKeepAlivePeriod c) (hKeepAlivePeriod c) Hc (hKeepAlivePeriod m)). done.
Qed.
End transport_read.

Section xhttp_read.
Import XrayXhttpConfig.

(** What the pages offer, filled in. *)
Record offered_xhttp (x : XrayXhttpConfig) : Prop := {
  offered_mode : mode x ∈ modes;
  offered_template : same_ci (headersTemplate x) "HTTP" = true;
  offered_session : sessionPlacement x ∈ session_places;
  offered_seq : seqPlacement x ∈ session_places;
  offered_data : uplinkDataPlacement x ∈ data_places;
  offered_chunk : uplinkChunkSize x = "" ∨ uplinkChunkSize x = "0" ∨ toInt_value (uplinkChunkSize x) ≠ 0;
  offered_post : given (scMaxEachPostBytesMin x) (scMaxEachPostBytesMax x);
  offered_interval : given (scMinPostsIntervalMsMin x) (scMinPostsIntervalMsMax x);
  offered_stream : given (scStreamUpServerSecsMin x) (scStreamUpServerSecsMax x);
  offered_pad : offered_padding (xPadding x);
  offered_mux : given_xmux (xmux x);
}.

Lemma range_given k a b f g : given a b → ∃ x y, putIntRangeIfAny k a b f g = (k, Some (range x y)) ∧ int_min ≤ x ≤ int_max ∧ int_min ≤ y ≤ int_max.
Proof.
  unfold given, putIntRangeIfAny. intros ->. eexists _, _. split; [reflexivity|]. split; apply int_range.
Qed.
Lemma chunk_rewritten o x :
  uplinkChunkSize x = "" ∨ uplinkChunkSize x = "0" ∨ toInt_value (uplinkChunkSize x) ≠ 0 →
  Json.value o "uplinkChunkSize" = (chunk_size (uplinkChunkSize x)).2 → Json.value o "xhttpUplinkChunkSize" = None →
  chunk_size (read_chunk o "0") = chunk_size (uplinkChunkSize x).
Proof.
  intros H Ho Hold. unfold read_chunk. rewrite !contains_spec, Hold, Ho.
  destruct H as [->|[->|H]]; [reflexivity..|].
  assert (uplinkChunkSize x ≠ "" ∧ uplinkChunkSize x ≠ "0") as [H1 H2] by (split; intros E; rewrite E in H; vm_compute in H; congruence).
  set (v := toInt_value (uplinkChunkSize x)) in *. pose proof (int_range (uplinkChunkSize x)) as Hv. fold v in Hv.
  assert (chunk_size (uplinkChunkSize x) = ("uplinkChunkSize", Some (range v v))) as ->.
  { unfold chunk_size. by rewrite (filled_id (uplinkChunkSize x)), (proj2 (String.eqb_neq _ _) H1), (proj2 (String.eqb_neq _ _) H2) by done. }
  cbn [snd isUndefined negb]. destruct (range_object v v) as (-> & -> & _). rewrite toInt_JInt by done. unfold chunk_size.
  rewrite (filled_id (pretty v)) by apply pretty_ne. rewrite (proj2 (String.eqb_neq _ "") (pretty_ne v)). cbn [orb].
  destruct (String.eqb_spec (pretty v) "0") as [E|_]; [|by rewrite int_pretty].
  exfalso. apply H. rewrite <- (int_pretty v Hv), E. reflexivity.
Qed.

Ltac base_member H := rewrite H by (apply (bool_decide_unpack _); vm_compute; exact Logic.I);
  cbn [assigned member text_member fst snd String.eqb Ascii.eqb Bool.eqb]; rewrite ?assigned_over_none.

Lemma base_rewritten o x :
  offered_xhttp x → (∀ k, k ∉ "xmux" :: padding_keys → Json.value o k = assigned k None (xhttp_base x)) →
  xhttp_base (read_xhttp o initial) = xhttp_base x.
Proof.
  intros [Hmode Htmpl Hsess Hseq Hdata Hchunk Hpost Hint Hstream _ _] Hbase.
  destruct (range_given "scMaxEachPostBytes" _ _ "1" "100" Hpost) as (a1 & b1 & E1 & ? & ?).
  destruct (range_given "scMinPostsIntervalMs" _ _ "100" "800" Hint) as (a2 & b2 & E2 & ? & ?).
  destruct (range_given "scStreamUpServerSecs" _ _ "1" "100" Hstream) as (a3 & b3 & E3 & ? & ?).
  assert (chunk_size (uplinkChunkSize x) = ("uplinkChunkSize", (chunk_size (uplinkChunkSize x)).2)) as Ec by reflexivity.
  unfold xhttp_base in Hbase. rewrite Ec, E1, E2, E3, Htmpl in Hbase.
  destruct (session_read _ Hsess) as [Ns Rs]. destruct (session_read _ Hseq) as [Nq Rq]. destruct (data_read _ Hdata) as [Nd Rd].
  unfold read_xhttp.
  rewrite (range_read o "scMaxEachPostBytes" _ _ a1 b1), (range_read o "scMinPostsIntervalMs" _ _ a2 b2), (range_read o "scStreamUpServerSecs" _ _ a3 b3)
    by (done || (base_member Hbase; reflexivity)).
  unfold xhttp_base at 1. cbn [host path mode headersTemplate uplinkMethod disableGrpc disableSse sessionPlacement seqPlacement sessionKey seqKey
    uplinkDataPlacement uplinkDataKey uplinkChunkSize scMaxBufferedPosts scMaxEachPostBytesMin scMaxEachPostBytesMax scMinPostsIntervalMsMin
    scMinPostsIntervalMsMax scStreamUpServerSecsMin scStreamUpServerSecsMax].
  rewrite !range_rewritten by done.
  assert (text o "host" = filled (host x) "www.googletagmanager.com") as -> by (unfold text; base_member Hbase; reflexivity).
  assert (text o "path" = path x) as -> by (unfold text; base_member Hbase; apply read_text).
  assert (text o "mode" = normalizeXhttpMode (mode x)) as -> by (unfold text; base_member Hbase; reflexivity).
  assert (text o "uplinkHTTPMethod" = toUpper (filled (uplinkMethod x) "POST")) as -> by (unfold text; base_member Hbase; reflexivity).
  assert (either_text o "sessionPlacement" "scSessionPlacement" = normalizeSessionSeqPlacement (sessionPlacement x)) as ->.
  { unfold either_text, text. base_member Hbase. rewrite read_text, (proj2 (String.eqb_neq _ _) Ns). done. }
  assert (either_text o "seqPlacement" "scSeqPlacement" = normalizeSessionSeqPlacement (seqPlacement x)) as ->.
  { unfold either_text, text. base_member Hbase. rewrite read_text, (proj2 (String.eqb_neq _ _) Nq). done. }
  assert (either_text o "uplinkDataPlacement" "scUplinkDataPlacement" = normalizeUplinkDataPlacement (uplinkDataPlacement x)) as ->.
  { unfold either_text, text. base_member Hbase. cbn [toString_or]. rewrite (proj2 (String.eqb_neq _ _) Nd). done. }
  assert (text o "sessionKey" = sessionKey x) as -> by (unfold text; base_member Hbase; apply read_text).
  assert (text o "seqKey" = seqKey x) as -> by (unfold text; base_member Hbase; apply read_text).
  assert (text o "uplinkDataKey" = uplinkDataKey x) as -> by (unfold text; base_member Hbase; apply read_text).
  change (uplinkChunkSize initial) with "0".
  rewrite (chunk_rewritten o x Hchunk) by (base_member Hbase; reflexivity).
  rewrite Rs, Rq, Rd, (mode_read _ Hmode). rewrite !contains_spec.
  assert (Json.value o "headers" = Some (JObject (object [member "Host" (JString (filled (host x) "www.googletagmanager.com"))]))) as ->
    by (base_member Hbase; reflexivity).
  assert (Json.value o "uplinkHTTPMethod" = Some (JString (toUpper (filled (uplinkMethod x) "POST")))) as -> by (base_member Hbase; reflexivity).
  assert (Json.value o "noGRPCHeader" = Some (JBool (disableGrpc x))) as -> by (base_member Hbase; reflexivity).
  assert (Json.value o "noSSEHeader" = Some (JBool (disableSse x))) as -> by (base_member Hbase; reflexivity).
  assert (Json.value o "scMaxBufferedPosts" = if String.eqb (scMaxBufferedPosts x) "" then None else Some (JInt (toLongLong_value (scMaxBufferedPosts x)))) as ->
    by (base_member Hbase; reflexivity).
  rewrite (keep_alive (scMaxBufferedPosts initial) (scMaxBufferedPosts initial) eq_refl (scMaxBufferedPosts x)).
  cbn [toObject isUndefined negb toBool_or]. rewrite ?contains_spec. rewrite !(filled_id (filled _ "www.googletagmanager.com")) by by apply filled_ne.
  assert (toUpper (filled (toUpper (filled (uplinkMethod x) "POST")) "POST") = toUpper (filled (uplinkMethod x) "POST")) as ->.
  { rewrite filled_id; [apply upper_idemp|]. pose proof (filled_ne (uplinkMethod x) "POST" ltac:(done)) as Hne. by destruct (filled (uplinkMethod x) "POST"). }
  unfold xhttp_base. rewrite E1, E2, E3, Htmpl.
  rewrite ?value_object. cbn [assigned member String.eqb Ascii.eqb Bool.eqb isUndefined negb orb].
  reflexivity.
Qed.

Lemma xhttp_rewritten x : offered_xhttp x → xhttp_settings (read_xhttp (xhttp_settings x) initial) = xhttp_settings x.
Proof.
  intros [Hmode Htmpl Hsess Hseq Hdata Hchunk Hpost Hint Hstream Hpad Hmux]. set (o := xhttp_settings x).
  assert (xhttp_base (read_xhttp o initial) = xhttp_base x) as Eb by (apply base_rewritten; [by split|apply base_value]).
  assert (xPadding (read_xhttp o initial) = read_padding o XrayXPaddingConfig.initial) as Epad by (unfold read_xhttp; repeat destruct (readRange _ _ _ _); done).
  assert (xmux (read_xhttp o initial) = read_xmux o XrayXmuxConfig.initial) as Emux by (unfold read_xhttp; repeat destruct (readRange _ _ _ _); done).
  rewrite xhttp_parts, Eb, Epad, Emux. rewrite (padding_rewritten o (xPadding x)), (xmux_rewritten o (xmux x)); [reflexivity|done|done| |done..|].
  - unfold o. rewrite xmux_value. unfold xmux_list. destruct Hmux as (-> & Hc & _). cbn [assigned object_member String.eqb Ascii.eqb Bool.eqb].
    rewrite decide_False; [done|]. intros E. destruct (mux_given "maxConcurrency" _ _ Hc) as (p & q & Hpq & _).
    assert (Json.value (xmux_object (xmux x)) "maxConcurrency" = None) as Hn by by rewrite E. unfold xmux_object in Hn. rewrite value_object, Hpq in Hn. done.
  - intros k Hk. by apply padding_value.
Qed.
End xhttp_read.

(** *** The other settings *)
Lemma kcp_rewritten m c : kcp_settings (read_kcp (toObject (Some (kcp_settings m))) c) = kcp_settings m.
Proof.
  assert (∀ z s d, int_min ≤ z ≤ int_max → z = toInt_value (filled s d) → toInt_value (filled (pretty (toInt (Some (JInt z)))) d) = z) as Hn.
  { intros z s d Hz E. rewrite filled_id by apply pretty_ne. by apply int_read. }
  unfold kcp_settings at 1. unfold read_kcp, XrayProtocolConfig.present_number.
  cbn [XrayMkcpConfig.tti XrayMkcpConfig.uplinkCapacity XrayMkcpConfig.downlinkCapacity XrayMkcpConfig.readBufferSize XrayMkcpConfig.writeBufferSize
    XrayMkcpConfig.congestion]. unfold kcp_settings. cbn [toObject]. rewrite !contains_object, !value_object.
  cbn [assigned member fst snd String.eqb Ascii.eqb Bool.eqb isUndefined negb toBool_or].
  rewrite !(Hn _ _ _ (int_range _) eq_refl). reflexivity.
Qed.

Lemma trimmed_free c s : contains_char c s = false → contains_char c (trimmed s) = false.
Proof.
  assert (∀ s, contains_char c s = false → contains_char c (trim_right s) = false) as Hr.
  { clear s. induction s as [|x s IH]; [done|]. cbn [contains_char trim_right]. intros [Hx Hs]%orb_false_iff. specialize (IH Hs).
    destruct (trim_right s) as [|y t]; [destruct (Ascii.is_space x); [done|]; cbn [contains_char]; by rewrite Hx|].
    cbn [contains_char] in *. by rewrite Hx. }
  assert (∀ s, contains_char c s = false → contains_char c (trim_left s) = false) as Hl.
  { clear s. induction s as [|x s IH]; [done|]. cbn [contains_char trim_left]. intros [Hx Hs]%orb_false_iff.
    destruct (Ascii.is_space x); [by apply IH|]. cbn [contains_char]. by rewrite Hx. }
  intros H. by apply Hr, Hl.
Qed.
Lemma split_free c s : Forall (λ p, contains_char c p = false) (split_char c s).
Proof.
  induction s as [|x s IH]; [by constructor|]. cbn [split_char]. destruct (Ascii.eqb x c) eqn:E; [by constructor|].
  destruct (split_char c s) as [|p ps]; [done|]. apply Forall_cons in IH as [Hp Hps]. constructor; [|done]. cbn [contains_char]. by rewrite E.
Qed.

(** The protocols above TLS: at least one, read from the list of them. *)
Definition alpn_list (srv : XrayServerConfig) : list string := nonempty (trimmed <$> split_char comma (filled (XrayServerConfig.alpn srv) "HTTP/2")).
Lemma alpn_rewritten srv : alpn_list srv ≠ [] → nonempty (trimmed <$> split_char comma (filled (String.concat "," (alpn_list srv)) "HTTP/2")) = alpn_list srv.
Proof.
  intros Hne. set (l := alpn_list srv) in *.
  assert (Forall (λ p, contains_char comma p = false ∧ trimmed p = p ∧ p ≠ "") l) as Hl.
  { apply Forall_forall. intros p Hp. unfold l, alpn_list, nonempty in Hp. apply list_elem_of_In, filter_In in Hp as [Hp Hn].
    apply list_elem_of_In, list_elem_of_fmap in Hp as (q & -> & Hq). split_and!.
    - apply trimmed_free. by eapply (proj1 (Forall_forall _ _) (split_free comma _)).
    - apply trimmed_idemp.
    - intros E. by rewrite E in Hn. }
  assert (String.concat "," l ≠ "") as Hcat.
  { destruct l as [|p l]; [done|]. apply Forall_cons in Hl as [(_ & _ & Hp) _]. destruct l; cbn [String.concat]; [done|]. by destruct p. }
  rewrite filled_id by done. change "," with (String comma "").
  rewrite split_joined by (done || (eapply Forall_impl; [exact Hl|]; by intros p (? & _))).
  assert (trimmed <$> l = l) as ->.
  { clear Hne Hcat. induction Hl as [|p l (_ & E & _) _ IH]; [done|]. rewrite fmap_cons. by rewrite E, IH. }
  apply nonempty_all. eapply Forall_impl; [exact Hl|]. by intros p (_ & _ & ?).
Qed.

Record offered (srv : XrayServerConfig) : Prop := {
  offered_transport : XrayServerConfig.transport srv = "xhttp" → offered_xhttp (XrayServerConfig.xhttp srv);
  offered_tls : XrayServerConfig.security srv = "tls" →
    alpn_list srv ≠ [] ∧ contains_ci "Mozilla/5.0" (filled (XrayServerConfig.fingerprint srv) "chrome") = false;
}.
Lemma tls_rewritten srv srv' tls :
  alpn_list srv ≠ [] → contains_ci "Mozilla/5.0" (filled (XrayServerConfig.fingerprint srv) "chrome") = false →
  Some tls = toObject <$> Some (Some (tls_settings srv)) →
  XrayServerConfig.sni srv' = text tls "serverName" → XrayServerConfig.fingerprint srv' = normalizeXrayFingerprint (text tls "fingerprint") →
  XrayServerConfig.alpn srv' = String.concat "," (strings_of (Json.value tls "alpn")) → tls_settings srv' = tls_settings srv.
Proof.
  intros Ha Hf Et Es Ef El. cbn in Et. injection Et as ->. fold (alpn_list srv) in Es, Ef, El.
  assert (strings_of (Json.value (object [member "serverName" (JString (filled (XrayServerConfig.sni srv) "www.googletagmanager.com"));
    list_member "alpn" (alpn_list srv); member "fingerprint" (JString (filled (XrayServerConfig.fingerprint srv) "chrome"))]) "alpn") = alpn_list srv) as Hs.
  { read_members. done. }
  rewrite Hs in El. unfold text in Es, Ef. rewrite value_object in Es, Ef.
  cbn [assigned member list_member fst snd String.eqb Ascii.eqb Bool.eqb toString_or] in Es, Ef.
  unfold tls_settings. rewrite Es, Ef, El, alpn_rewritten by done. unfold normalizeXrayFingerprint. rewrite Hf.
  assert (∀ s d, d ≠ "" → filled (filled s d) d = filled s d) as Hff by (intros; apply filled_id; by apply filled_ne).
  rewrite (proj2 (String.eqb_neq (filled (XrayServerConfig.fingerprint srv) "chrome") "")) by by apply filled_ne. cbn [orb].
  by rewrite !Hff.
Qed.

Section scanned.
Context {J : JsonCodec}.

Lemma stream_members srv id :
  let o := buildStreamSettings srv id in
  Json.value o "network" = Some (JString (network_value (XrayServerConfig.transport srv))) ∧
  Json.value o "security" = Some (JString (XrayServerConfig.security srv)) ∧
  Json.value o "tlsSettings" = (if String.eqb (XrayServerConfig.security srv) "tls" then Some (tls_settings srv) else None) ∧
  Json.value o "xhttpSettings" =
    (if String.eqb (XrayServerConfig.transport srv) "xhttp" then Some (JObject (xhttp_settings (XrayServerConfig.xhttp srv))) else None) ∧
  Json.value o "kcpSettings" = (if String.eqb (XrayServerConfig.transport srv) "mkcp" then Some (kcp_settings (XrayServerConfig.mkcp srv)) else None).
Proof.
  cbv zeta. unfold buildStreamSettings. rewrite !value_object.
  cbn [assigned member fst snd String.eqb Ascii.eqb Bool.eqb]. by rewrite !assigned_over_none.
Qed.

Lemma transport_read t : network_value (XrayProtocolConfig.transport_of (network_value t)) = network_value t ∧
  (String.eqb (XrayProtocolConfig.transport_of (network_value t)) "xhttp" = String.eqb t "xhttp") ∧
  (String.eqb (XrayProtocolConfig.transport_of (network_value t)) "mkcp" = String.eqb t "mkcp").
Proof.
  unfold network_value. destruct (String.eqb_spec t "xhttp") as [->|H1]; [done|]. by destruct (String.eqb_spec t "mkcp") as [->|H2].
Qed.

Lemma inbound_stream srv inbound :
  toObject (Json.value (with_transport srv inbound) "streamSettings") =
  mergeStreamSettingsForServerInbound srv (toObject (Json.value inbound "streamSettings")).
Proof.
  unfold with_transport. cbv zeta. destruct (String.eqb _ ""); unfold Json.value; by rewrite ?lookup_insert_ne, lookup_insert_eq by done.
Qed.
Lemma inbound_port srv inbound d :
  XrayServerConfig.port srv ≠ "" → port_number (XrayProtocolConfig.present_number (with_transport srv inbound) "port" d) = port_number (XrayServerConfig.port srv).
Proof.
  intros Hp. unfold with_transport. cbv zeta. rewrite (proj2 (String.eqb_neq _ "") Hp). unfold XrayProtocolConfig.present_number.
  rewrite contains_spec. unfold Json.value. rewrite lookup_insert_eq. cbn [isUndefined negb]. unfold port_number.
  rewrite (proj2 (String.eqb_neq _ "") (pretty_ne _)), (proj2 (String.eqb_neq _ "") Hp). apply int_read, int_range.
Qed.

Lemma names_read srv srv0 existing :
  let stream := mergeStreamSettingsForServerInbound srv existing in
  ∃ sni site fp, read_names (XrayServerConfig.security srv) stream srv0 = Some (sni, site, fp) ∧
    (XrayServerConfig.security srv = "tls" →
       sni = text (toObject (Some (tls_settings srv))) "serverName" ∧
       fp = normalizeXrayFingerprint (text (toObject (Some (tls_settings srv))) "fingerprint")) ∧
    (XrayServerConfig.security srv = "reality" → sni ≠ "" ∧
       strings_of (Json.value (toObject (Json.value stream "realitySettings")) "serverNames") = [sni]).
Proof.
  cbv zeta. unfold read_names. destruct (String.eqb_spec (XrayServerConfig.security srv) "reality") as [Hr|Hr].
  - rewrite merged_written by done. cbn [toObject]. set (old := toObject (Json.value existing "realitySettings")).
    destruct (merged_names srv old) as [En _]. unfold read_reality. rewrite contains_spec, En. cbn [isUndefined negb toArray head mbind option_bind toString_or].
    eexists _, _, _. split; [reflexivity|]. rewrite Hr. split; [done|]. intros _. split; [|done].
    by apply filled_ne, filled_ne.
  - destruct (String.eqb_spec (XrayServerConfig.security srv) "tls") as [Ht|Ht].
    + rewrite merged_others by done. destruct (stream_members srv "") as (_ & _ & M3 & _). rewrite M3, Ht. cbn [String.eqb Ascii.eqb Bool.eqb].
      by eexists _, _, _.
    + by eexists _, _, _.
Qed.

(** What an administrator set on an Xray server is found again by any other
    device that scans it: the transport a client is then given is the one in the
    server's document, field by field, the port is the server's, and under
    Reality the client asks for the one name the server takes. *)
Theorem scanned_settings_agree srv srv0 inbound id publicKey shortId :
  offered srv → XrayServerConfig.xhttp srv0 = XrayXhttpConfig.initial →
  let running := with_transport srv inbound in
  let stream := toObject (Json.value running "streamSettings") in
  ∃ srv', read_server running srv0 = Some srv' ∧
    let client := client_stream srv' id publicKey shortId in
    (∀ k, k ∈ agreed → Json.value client k = Json.value stream k) ∧
    (XrayServerConfig.port srv ≠ "" → port_number (XrayServerConfig.port srv') = port_number (XrayServerConfig.port srv)) ∧
    (XrayServerConfig.security srv = "reality" →
       strings_of (Json.value (toObject (Json.value stream "realitySettings")) "serverNames") =
         [text (toObject (Json.value client "realitySettings")) "serverName"]).
Proof.
  intros [Hx Ht] H0. cbv zeta. set (existing := toObject (Json.value inbound "streamSettings")).
  unfold read_server. rewrite inbound_stream. fold existing. set (stream := mergeStreamSettingsForServerInbound srv existing).
  assert (∀ k, k ∈ agreed → Json.value stream k = Json.value (buildStreamSettings srv "") k) as Hs
    by (intros k Hk; apply merged_others; intros ->; apply (bool_decide_pack _) in Hk; exact Hk).
  destruct (stream_members srv "") as (M1 & M2 & M3 & M4 & M5). 
  rewrite (Hs "network"), (Hs "security"), (Hs "tlsSettings"), (Hs "xhttpSettings"), (Hs "kcpSettings"), M1, M2, M3, M4, M5 by listed.
  cbn [toString_or]. destruct (transport_read (XrayServerConfig.transport srv)) as (T1 & T2 & T3).
  set (t := XrayProtocolConfig.transport_of _) in *. rewrite T2, T3.
  destruct (names_read srv srv0 existing) as (sni & site & fp & En & Htls & Hreal). fold stream in En, Hreal. rewrite En.
  cbn [mbind option_bind]. eexists. split; [reflexivity|]. split; [|split].
  - intros k Hk. rewrite client_others by (intros ->; apply (bool_decide_pack _) in Hk; exact Hk). rewrite (Hs k Hk).
    set (srv' := XrayServerConfig.mk _ _ _ _ _ _ _ _ _ _ _ _ _). destruct (stream_members srv' "") as (N1 & N2 & N3 & N4 & N5).
    cbn [XrayServerConfig.transport XrayServerConfig.security XrayServerConfig.xhttp XrayServerConfig.mkcp srv'] in N1, N2, N4, N5.
    rewrite T2 in N4. rewrite T3 in N5.
    unfold agreed in Hk. repeat (apply elem_of_cons in Hk as [-> |Hk]); [..|by apply elem_of_nil in Hk].
    + by rewrite N1, M1, T1.
    + by rewrite N2, M2.
    + rewrite N3, M3. change (XrayServerConfig.security srv') with (XrayServerConfig.security srv).
      destruct (String.eqb_spec (XrayServerConfig.security srv) "tls") as [E|]; [|done]. destruct (Ht E) as [Ha Hf]. destruct (Htls E) as [-> ->].
      f_equal. eapply tls_rewritten; [done|done|reflexivity|done|done|done].
    + rewrite N4, M4. destruct (String.eqb_spec (XrayServerConfig.transport srv) "xhttp") as [E|]; [|done].
      cbn [toObject]. by rewrite H0, xhttp_rewritten by auto.
    + rewrite N5, M5. destruct (String.eqb _ "mkcp"); [|done]. by rewrite kcp_rewritten.
  - intros Hp. by apply inbound_port.
  - intros Hr. destruct (Hreal Hr) as [Hne ->]. rewrite reality_written by done. unfold Json.value at 1. rewrite lookup_insert_eq. cbn [toObject].
    match goal with |- context [reality_settings ?s'] => destruct (asked_written s' publicKey shortId) as (_ & _ & _ & ->) end.
    cbn [XrayServerConfig.sni]. by rewrite filled_id.
Qed.
End scanned.

(** *** Witness *)
Definition scan_sample : XrayServerConfig :=
  XrayServerConfig.mk "8443" "tcp" "" "www.example.org" false "reality" "" "" "" "" "xhttp" XrayXhttpConfig.initial XrayMkcpConfig.initial.

Lemma scanned_settings_agree_witness :
  offered scan_sample ∧ ∃ srv', read_server (with_transport scan_sample ∅) XrayServerConfig.initial = Some srv' ∧
    Json.value (client_stream srv' "id" "key" "short") "xhttpSettings" =
      Json.value (toObject (Json.value (with_transport scan_sample ∅) "streamSettings")) "xhttpSettings".
Proof.
  assert (offered scan_sample) as Ho.
  { split; [|discriminate]. intros _. split; [..|split; apply (bool_decide_unpack _); vm_compute; exact Logic.I|split_and!; vm_compute; reflexivity];
      first [vm_compute; reflexivity|apply (bool_decide_unpack _); vm_compute; exact Logic.I]. }
  split; [exact Ho|].
  destruct (scanned_settings_agree scan_sample XrayServerConfig.initial ∅ "id" "key" "short" Ho eq_refl) as (srv' & E & H & _).
  exists srv'. split; [exact E|]. apply H. listed.
Defined.
