(* ===== verification/Installers.v ===== *)
(** * Installers: the settings of a new container, and those of a running one

    Models [core/installers/*.cpp] but Xray's reader: the settings a container is
    set up with, the numbers an AmneziaWG server is obfuscated with, and what a
    scan reads from the files and the commands of a running container. *)
From stdpp Require Import pretty.
From S2P Require Import Prelude Text Json Wire Containers ProtocolConfigs XrayConfig ServerConfig Settings ServersRepository ImportController Scripts SshSession.
From S2P Require Import XrayInstaller.

(** [QRandomGenerator::global()->bounded(lowest, highest)], and the order in
    which the values of a [QSet] come. *)
Class Dice (W : Type) := {
  bounded : Z → Z → W → Z * W;
  set_values : gset string → list string;
}.

(** ** The settings every container starts with *)
Definition awg_server (portStr transportProtoStr : string) : AwgServerConfig :=
  AwgServerConfig.mk portStr transportProtoStr "" "" "" "" "" "" "" "" "" "" "" "" "" "" "" "" "" "" "" "" "" "" "" "" "" "" false.

Definition base_protocol (protocol : Proto) (portStr transportProtoStr : string) : ProtocolConfig :=
  match protocol with
  | Proto.Awg => PAwg (mkWithClient (awg_server portStr transportProtoStr) None)
  | Proto.WireGuard => PWireGuard (mkWithClient (WireGuardServerConfig.mk portStr transportProtoStr "" "" "" false) None)
  | Proto.OpenVpn => POpenVpn (mkWithClient (OpenVpnServerConfig.mk portStr transportProtoStr "" "" "" "" "" false true "" "" false) None)
  | Proto.Xray | Proto.SSXray =>
      PXray (XrayProtocolConfig.mk
        (XrayServerConfig.mk portStr transportProtoStr "" "" false "" "" "" "" "" "" XrayXhttpConfig.initial XrayMkcpConfig.initial)
        None false)
  | Proto.Sftp => PSftp (SftpProtocolConfig.mk portStr "" "")
  | Proto.Socks5Proxy => PSocks5Proxy (Socks5ProxyProtocolConfig.mk portStr "" "")
  | Proto.MtProxy => PMtProxy (MtProxyProtocolConfig.mk portStr "" "" "" "" true "" "" "" [] "" "" false "" "")
  | Proto.Telemt => PTelemt (TelemtProtocolConfig.mk portStr "" "" "" "" true "" "" "" true false true "" [] "" "" false "" "")
  | Proto.Ikev2 => PIkev2 (mkWithClient (Ikev2ServerConfig.fromJson ∅) None)
  | Proto.TorWebSite => PTor (TorServerConfig.mk "")
  | Proto.Dns => PDns DnsProtocolConfig.mk
  | Proto.Unknown => ProtocolConfig_initial
  end.
Definition createBaseConfig (container : DockerContainer) (port : Z) (transportProto : TransportProto) : ContainerConfig :=
  ContainerConfig.mk container
    (base_protocol (defaultProtocol container) (pretty port) (transportProtoToString transportProto)).

(** A step that may have no result: its fuel runs out, or a null pointer is used. *)
Definition then_some {S X Y} (m : stM S (option X)) (k : X → stM S (option Y)) : stM S (option Y) :=
  o ← m; match o with Some x => k x | None => mret None end.

(** ** The numbers of AmneziaWG *)
Definition defaultSpecialJunk1 : string :=
  "<r 2><b 0x858000010001000000000669636c6f756403636f6d0000010001c00c000100010000105a00044d583737>".

Section installer.
Context {W : Type} {L : Libssh W} {D : Dice W}.
Abbreviation M := (stM (client W)).


(** [while (bad(s)) s = bounded(lowest, highest);] *)
Fixpoint redraw (fuel : nat) (bad : Z → bool) (lowest highest s : Z) : M (option Z) :=
  if negb (bad s) then mret (Some s) else
  match fuel with
  | O => mret None
  | S fuel => s ← call (bounded lowest highest); redraw fuel bad lowest highest s
  end.

(** One of the four ranges after the other; [min] is where the next begins. *)
Fixpoint draw_ranges (n : nat) (min : Z) : M (list (Z * Z)) :=
  match n with
  | O => mret []
  | S n =>
      first ← call (bounded min int_max);
      second ← call (bounded first int_max);
      rest ← draw_ranges n second;
      mret ((first, second) :: rest)
  end.
Definition range_text (r : Z * Z) : string := pretty r.1 +:+ "-" +:+ pretty r.2.

Fixpoint draw_headers (fuel : nat) (headersValue : gset string) : M (option (gset string)) :=
  if decide (size headersValue = 4%nat) then mret (Some headersValue) else
  match fuel with
  | O => mret None
  | S fuel => h ← call (bounded 5 int_max); draw_headers fuel ({[ pretty h ]} ∪ headersValue)
  end.

Definition magic_headers (fuel : nat) (isAwg2 : bool) : M (option (list string)) :=
  if isAwg2 then ranges ← draw_ranges 4 5; mret (Some (range_text <$> ranges))
  else then_some (draw_headers fuel ∅) (λ headersValue, mret (Some (set_values headersValue))).

(** The sizes of the junk before the four kinds of messages. *)
Definition junk_sizes (fuel : nat) : M (option (Z * Z * Z * Z)) :=
  s1 ← call (bounded 15 150);
  s2 ← call (bounded 15 150);
  s3 ← call (bounded 0 64);
  s4 ← call (bounded 0 20);
  then_some (redraw fuel (λ s2, bool_decide (s2 ∈ [s1]) || (s1 + messageInitiationSize =? s2 + messageResponseSize)) 15 150 s2) (λ s2,
  then_some (redraw fuel (λ s3, bool_decide (s3 ∈ [s1; s2]) || (s1 + messageInitiationSize =? s3 + messageCookieReplySize) ||
    (s2 + messageResponseSize =? s3 + messageCookieReplySize)) 0 64 s3) (λ s3,
  then_some (redraw fuel (λ s4, bool_decide (s4 ∈ [s1; s2; s3])) 0 20 s4) (λ s4,
  mret (Some (s1, s2, s3, s4))))).

Definition with_parameters (junkPacketCount : Z) (s : Z * Z * Z * Z) (headers : list string) (c : AwgServerConfig) : AwgServerConfig :=
  let '(s1, s2, s3, s4) := s in
  let h i := default "" (headers !! i) in
  AwgServerConfig.mk (AwgServerConfig.port c) (AwgServerConfig.transportProto c) (AwgServerConfig.protocolVersion c)
    (AwgServerConfig.subnetAddress c) (AwgServerConfig.subnetCidr c) (pretty junkPacketCount) (pretty 10) (pretty 50)
    (pretty s1) (pretty s2) (pretty s3) (pretty s4) (h 0%nat) (h 1%nat) (h 2%nat) (h 3%nat) defaultSpecialJunk1 "" "" "" ""
    (AwgServerConfig.headerProtectionKey c) (AwgServerConfig.contentPaddingAddition c) (AwgServerConfig.rekeyAfterTime c)
    (AwgServerConfig.rekeyTimeout c) (AwgServerConfig.rejectAfterTime c) (AwgServerConfig.keepaliveTimeout c)
    (AwgServerConfig.maxHandshakeAttempts c) (AwgServerConfig.isThirdPartyConfig c).

Definition generateAwgParameters (fuel : nat) (serverConfig : AwgServerConfig) (isAwg2 : bool) : M (option AwgServerConfig) :=
  junkPacketCount ← call (bounded 4 7);
  then_some (junk_sizes fuel) (λ s,
  then_some (magic_headers fuel isAwg2) (λ headers,
  mret (Some (with_parameters junkPacketCount s headers serverConfig)))).

Definition with_version (v : string) (c : AwgServerConfig) : AwgServerConfig :=
  let '(AwgServerConfig.mk a1 a2 _ a4 a5 a6 a7 a8 a9 a10 a11 a12 a13 a14 a15 a16 a17 a18 a19 a20 a21 a22 a23 a24 a25 a26 a27 a28 a29) := c in
  AwgServerConfig.mk a1 a2 v a4 a5 a6 a7 a8 a9 a10 a11 a12 a13 a14 a15 a16 a17 a18 a19 a20 a21 a22 a23 a24 a25 a26 a27 a28 a29.

Definition set_protocol (p : ProtocolConfig) (c : ContainerConfig) : ContainerConfig := ContainerConfig.mk (ContainerConfig.container c) p.

(** [InstallController::generateConfig] over the installers' own. *)
Definition generateConfig (fuel : nat) (container : DockerContainer) (port : Z) (transportProto : TransportProto) :
    M (option ContainerConfig) :=
  let config := createBaseConfig container port transportProto in
  match container, ContainerConfig.protocolConfig config with
  | (DockerContainer.Awg | DockerContainer.Awg2), PAwg c =>
      let isAwg2 := bool_decide (container = DockerContainer.Awg2) in
      then_some (generateAwgParameters fuel (serverConfig c) isAwg2) (λ srv,
        mret (Some (set_protocol (PAwg (mkWithClient (if isAwg2 then with_version "2" srv else srv) (clientConfig c))) config)))
  | DockerContainer.Sftp, PSftp c =>
      password ← call getRandomString;
      mret (Some (set_protocol (PSftp (SftpProtocolConfig.mk (SftpProtocolConfig.port c) "sftp_user" password)) config))
  | DockerContainer.Socks5Proxy, PSocks5Proxy c =>
      password ← call getRandomString;
      mret (Some (set_protocol (PSocks5Proxy (Socks5ProxyProtocolConfig.mk (Socks5ProxyProtocolConfig.port c) "proxy_user" password)) config))
  | _, _ => mret (Some config)
  end.
End installer.

(** ** What a scan reads *)

(** A line [key = value] of WireGuard's and AmneziaWG's files; headings are none. *)
Definition conf_entry (line : string) : option (string * string) :=
  let trimmedLine := trimmed line in
  if startsWith "[" trimmedLine && endsWith "]" trimmedLine then None else
  match split_str " = " trimmedLine with
  | [k; v] => Some (trimmed k, trimmed v)
  | _ => None
  end.
Definition space_char : Ascii.ascii := Ascii.ascii_of_nat 32.
(** A line of OpenVPN's file: a word and the rest. *)
Definition ovpn_entry (line : string) : option (string * string) :=
  let trimmedLine := trimmed line in
  if startsWith "#" trimmedLine || String.eqb trimmedLine "" then None else
  match split_char space_char trimmedLine with
  | k :: (_ :: _) as rest => Some (k, String.concat " " (tail rest))
  | _ => None
  end.
(** [serverConfigMap], of the lines. *)
Definition config_map (entry : string → option (string * string)) (lines : list string) : gmap string string :=
  foldl (λ m line, match entry line with Some (k, v) => <[k := v]> m | None => m end) ∅ lines.

Definition slash : Ascii.ascii := Ascii.ascii_of_nat 47.
(** The settings of an AmneziaWG server, over those there were. *)
Definition read_awg (container : DockerContainer) (m : gmap string string) (c : AwgServerConfig) : AwgServerConfig :=
  let addressParts := split_char slash (field m "Address") in
  let isAwg2 := bool_decide (container = DockerContainer.Awg2) in
  AwgServerConfig.mk (AwgServerConfig.port c) (AwgServerConfig.transportProto c)
    (if isAwg2 then "2" else AwgServerConfig.protocolVersion c)
    (default "" (head addressParts)) (default (AwgServerConfig.subnetCidr c) (addressParts !! 1%nat))
    (field m "Jc") (field m "Jmin") (field m "Jmax") (field m "S1") (field m "S2")
    (if isAwg2 then field m "S3" else AwgServerConfig.cookieReplyPacketJunkSize c)
    (if isAwg2 then field m "S4" else AwgServerConfig.transportPacketJunkSize c)
    (field m "H1") (field m "H2") (field m "H3") (field m "H4")
    (field m "# I1") (field m "# I2") (field m "# I3") (field m "# I4") (field m "# I5")
    (AwgServerConfig.headerProtectionKey c) (AwgServerConfig.contentPaddingAddition c) (AwgServerConfig.rekeyAfterTime c)
    (AwgServerConfig.rekeyTimeout c) (AwgServerConfig.rejectAfterTime c) (AwgServerConfig.keepaliveTimeout c)
    (AwgServerConfig.maxHandshakeAttempts c) (AwgServerConfig.isThirdPartyConfig c).
Definition awg_config_path (container : DockerContainer) : string :=
  if bool_decide (container = DockerContainer.Awg) then "/opt/amnezia/awg/wg0.conf" else "/opt/amnezia/awg/awg0.conf".

Definition wireguard_config_path : string := "/opt/amnezia/wireguard/wg0.conf".
Definition read_wireguard (m : gmap string string) (c : WireGuardServerConfig) : WireGuardServerConfig :=
  WireGuardServerConfig.mk (WireGuardServerConfig.port c) (WireGuardServerConfig.transportProto c)
    (replace_str "/24" "" (field m "Address")) (WireGuardServerConfig.subnetMask c) (WireGuardServerConfig.subnetCidr c)
    (WireGuardServerConfig.isThirdPartyConfig c).

Definition openvpn_config_path : string := "/opt/amnezia/openvpn/server.conf".
Definition read_openvpn (serverConfig : string) (c : OpenVpnServerConfig) : OpenVpnServerConfig :=
  let m := config_map ovpn_entry (lines_of serverConfig) in
  let serverValue := field m "server" in
  OpenVpnServerConfig.mk (OpenVpnServerConfig.port c) (OpenVpnServerConfig.transportProto c)
    (if String.eqb serverValue "" then OpenVpnServerConfig.subnetAddress c else default "" (head (split_char space_char serverValue)))
    (OpenVpnServerConfig.subnetMask c) (OpenVpnServerConfig.subnetCidr c)
    (filled (field m "cipher") (OpenVpnServerConfig.cipher c)) (filled (field m "auth") (OpenVpnServerConfig.hash c))
    (contains_str "ncp-disable" serverConfig) (contains_str "tls-auth" serverConfig)
    (OpenVpnServerConfig.additionalClientConfig c) (OpenVpnServerConfig.additionalServerConfig c)
    (OpenVpnServerConfig.isThirdPartyConfig c).

(** [^[0-9a-fA-F]{32}$], on a text without surrounding spaces. *)
Definition hex_char (c : Ascii.ascii) : bool :=
  let n := Z.of_nat (Ascii.nat_of_ascii c) in
  ((48 <=? n) && (n <=? 57)) || ((65 <=? n) && (n <=? 70)) || ((97 <=? n) && (n <=? 102)).
Definition hex32 (s : string) : bool := (String.length s =? 32)%nat && all_chars hex_char s.

(** The settings of a proxy with the document its container keeps over them. *)
Definition merged_document {J : JsonCodec} {C} (to_json : C → gmap string json) (from_json : gmap string json → C) (jsonRaw : string) (c : C) : C :=
  if String.eqb (trimmed jsonRaw) "" then c else
  match Wire.fromJson (trimmed jsonRaw) with
  | Some (JObject snap) => from_json (snap ∪ to_json c)
  | _ => c
  end.
Definition MtProxy_with_secret (sec : string) (c : MtProxyProtocolConfig) : MtProxyProtocolConfig :=
  let '(MtProxyProtocolConfig.mk a1 _ a3 a4 a5 a6 a7 a8 a9 a10 a11 a12 a13 a14 a15) := c in
  MtProxyProtocolConfig.mk a1 sec a3 a4 a5 a6 a7 a8 a9 a10 a11 a12 a13 a14 a15.
Definition Telemt_with_secret (sec : string) (c : TelemtProtocolConfig) : TelemtProtocolConfig :=
  let '(TelemtProtocolConfig.mk a1 _ a3 a4 a5 a6 a7 a8 a9 a10 a11 a12 a13 a14 a15 a16 a17 a18 a19) := c in
  TelemtProtocolConfig.mk a1 sec a3 a4 a5 a6 a7 a8 a9 a10 a11 a12 a13 a14 a15 a16 a17 a18 a19.

Section extract.
Context {W : Type} {L : Libssh W} {J : JsonCodec} {IC : ImportCodec}.
Abbreviation M := (stM (client W)).

(** A file of the container, and what it is read as. *)
Definition from_file (container : DockerContainer) (credentials : ServerCredentials) (path : string)
    (read : string → ProtocolConfig) (config : ProtocolConfig) : M (ProtocolConfig * Z) :=
  '(serverConfig, errorCode) ← getTextFileFromContainer container credentials path;
  mret (if negb (errorCode =? ErrorCode.NoError) then (config, errorCode) else (read serverConfig, ErrorCode.NoError)).

Definition awg_extractConfigFromContainer (container : DockerContainer) (credentials : ServerCredentials) (config : ProtocolConfig) :
    M (ProtocolConfig * Z) :=
  from_file container credentials (awg_config_path container)
    (λ text, match config with
             | PAwg c => PAwg (mkWithClient (read_awg container (config_map conf_entry (lines_of text)) (serverConfig c)) (clientConfig c))
             | _ => config
             end) config.
Definition wireguard_extractConfigFromContainer (container : DockerContainer) (credentials : ServerCredentials) (config : ProtocolConfig) :
    M (ProtocolConfig * Z) :=
  from_file container credentials wireguard_config_path
    (λ text, match config with
             | PWireGuard c => PWireGuard (mkWithClient (read_wireguard (config_map conf_entry (lines_of text)) (serverConfig c)) (clientConfig c))
             | _ => config
             end) config.
Definition openvpn_extractConfigFromContainer (container : DockerContainer) (credentials : ServerCredentials) (config : ProtocolConfig) :
    M (ProtocolConfig * Z) :=
  from_file container credentials openvpn_config_path
    (λ text, match config with
             | POpenVpn c => POpenVpn (mkWithClient (read_openvpn text (serverConfig c)) (clientConfig c))
             | _ => config
             end) config.

Definition sftp_extractConfigFromContainer (container : DockerContainer) (credentials : ServerCredentials) (config : ProtocolConfig) :
    M (ProtocolConfig * Z) :=
  let script := "sudo docker inspect --format '{{.Config.Cmd}}' " +:+ containerToString container in
  '(errorCode, stdOut) ← runScript credentials script gather_lines gather_lines "";
  mret (if negb (errorCode =? ErrorCode.NoError) then (config, errorCode) else
  match split_char (Ascii.ascii_of_nat 58) stdOut, config with
  | userName :: password :: _, PSftp c =>
      (PSftp (SftpProtocolConfig.mk (SftpProtocolConfig.port c) (trimmed userName) (trimmed password)), ErrorCode.NoError)
  | _ :: _ :: _, _ => (config, ErrorCode.NoError)
  | _, _ => (config, ErrorCode.ServerContainerMissingError)
  end).

Definition tor_extractConfigFromContainer (container : DockerContainer) (credentials : ServerCredentials) (config : ProtocolConfig) :
    M (ProtocolConfig * Z) :=
  let script := "sudo docker exec -i " +:+ containerToString container +:+ " sh -c 'cat /var/lib/tor/hidden_service/hostname'" in
  '(errorCode, stdOut) ← runScript credentials script gather_lines gather_lines "";
  mret (if negb (errorCode =? ErrorCode.NoError) then (config, errorCode)
        else if String.eqb stdOut "" then (config, ErrorCode.ServerContainerMissingError)
        else (match config with PTor _ => PTor (TorServerConfig.mk (replace_str nl "" stdOut)) | _ => config end, ErrorCode.NoError)).

Definition socks5_users : string := "users (\w+):CL:(\w+)".
Definition read_socks5 (proxyConfig : string) (c : Socks5ProxyProtocolConfig) : Socks5ProxyProtocolConfig :=
  match captures socks5_users proxyConfig with
  | Some (userName :: password :: _) => Socks5ProxyProtocolConfig.mk (Socks5ProxyProtocolConfig.port c) userName password
  | _ => c
  end.
Definition socks5_extractConfigFromContainer (container : DockerContainer) (credentials : ServerCredentials) (config : ProtocolConfig) :
    M (ProtocolConfig * Z) :=
  match container, config with
  | DockerContainer.Socks5Proxy, PSocks5Proxy c =>
      '(configRaw, readError) ← getTextFileFromContainer container credentials "/usr/local/3proxy/conf/3proxy.cfg";
      mret (if negb (readError =? ErrorCode.NoError) || String.eqb (trimmed configRaw) "" then (config, ErrorCode.NoError)
            else (PSocks5Proxy (read_socks5 configRaw c), ErrorCode.NoError))
  | _, _ => mret (config, ErrorCode.NoError)
  end.

(** The document and the secret of a proxy for Telegram. *)
Definition read_proxy {C} (container : DockerContainer) (credentials : ServerCredentials) (jsonPath : string)
    (to_json : C → gmap string json) (from_json : gmap string json → C) (with_secret : string → C → C) (c : C) : M C :=
  '(jsonRaw, jsonErr) ← getTextFileFromContainer container credentials jsonPath;
  let c := if jsonErr =? ErrorCode.NoError then merged_document to_json from_json jsonRaw c else c in
  '(secretRaw, _) ← getTextFileFromContainer container credentials "/data/secret";
  let sec := trimmed secretRaw in
  mret (if hex32 sec then with_secret sec c else c).
Definition mtproxy_extractConfigFromContainer (container : DockerContainer) (credentials : ServerCredentials) (config : ProtocolConfig) :
    M (ProtocolConfig * Z) :=
  match container, config with
  | DockerContainer.MtProxy, PMtProxy c =>
      c ← read_proxy container credentials "/data/amnezia-mtproxy-client.json"
        MtProxyProtocolConfig.toJson MtProxyProtocolConfig.fromJson MtProxy_with_secret c;
      mret (PMtProxy c, ErrorCode.NoError)
  | _, _ => mret (config, ErrorCode.NoError)
  end.
Definition telemt_extractConfigFromContainer (container : DockerContainer) (credentials : ServerCredentials) (config : ProtocolConfig) :
    M (ProtocolConfig * Z) :=
  match container, config with
  | DockerContainer.Telemt, PTelemt c =>
      c ← read_proxy container credentials "/data/amnezia-telemt-client.json"
        TelemtProtocolConfig.toJson TelemtProtocolConfig.fromJson Telemt_with_secret c;
      mret (PTelemt c, ErrorCode.NoError)
  | _, _ => mret (config, ErrorCode.NoError)
  end.

(** The settings of a proxy are kept beside it; whether that works is not asked. *)
Definition mtproxy_uploadClientSettingsSnapshot (container : DockerContainer) (credentials : ServerCredentials) (config : ProtocolConfig) : M unit :=
  match config with
  | PMtProxy c =>
      discard (uploadTextFileToContainer container credentials (toJson_compact (MtProxyProtocolConfig.toJson c))
        "data/amnezia-mtproxy-client.json" ScpOverwriteExisting)
  | _ => mret tt
  end.
Definition telemt_uploadClientSettingsSnapshot (container : DockerContainer) (credentials : ServerCredentials) (config : ProtocolConfig) : M unit :=
  match config with
  | PTelemt c =>
      discard (uploadTextFileToContainer container credentials (toJson_compact (TelemtProtocolConfig.toJson c))
        "data/amnezia-telemt-client.json" ScpOverwriteExisting)
  | _ => mret tt
  end.

(** [InstallController::createInstaller] and the virtual function; [None]: the
    first of no names is taken (Xray). *)
Definition extractConfigFromContainer (container : DockerContainer) (credentials : ServerCredentials) (config : ProtocolConfig) :
    M (option (ProtocolConfig * Z)) :=
  let total (m : M (ProtocolConfig * Z)) : M (option (ProtocolConfig * Z)) := r ← m; mret (Some r) in
  match container with
  | DockerContainer.Awg | DockerContainer.Awg2 => total (awg_extractConfigFromContainer container credentials config)
  | DockerContainer.WireGuard => total (wireguard_extractConfigFromContainer container credentials config)
  | DockerContainer.OpenVpn => total (openvpn_extractConfigFromContainer container credentials config)
  | DockerContainer.Xray | DockerContainer.SSXray => xray_extractConfigFromContainer container credentials config
  | DockerContainer.TorWebSite => total (tor_extractConfigFromContainer container credentials config)
  | DockerContainer.Sftp => total (sftp_extractConfigFromContainer container credentials config)
  | DockerContainer.Socks5Proxy => total (socks5_extractConfigFromContainer container credentials config)
  | DockerContainer.MtProxy => total (mtproxy_extractConfigFromContainer container credentials config)
  | DockerContainer.Telemt => total (telemt_extractConfigFromContainer container credentials config)
  | _ => mret (Some (config, ErrorCode.NoError))
  end.
End extract.

(** ** What a proxy is doing *)
Record MtProxyContainerDiagnostics := mkDiagnostics {
  portReachable : bool;
  upstreamReachable : bool;
  clientsConnected : Z;
  lastConfigRefresh : string;
  statsEndpoint : string;
}.
Definition unknown_diagnostics : MtProxyContainerDiagnostics := mkDiagnostics false false (-1) "" "".

Definition diagnostics_script (container : DockerContainer) (listenPort : Z) : string :=
  let peersCmd := "sudo conntrack -L -p tcp --dport " +:+ pretty listenPort +:+
    " 2>/dev/null | grep ESTABLISHED | awk '{for(i=1;i<=NF;i++) if($i ~ /^src=/){print substr($i,5); break}}'" in
  let publicFilter := " | grep -vE '^(10\.|127\.|169\.254\.|192\.168\.|172\.(1[6-9]|2[0-9]|3[01])\.|::1$|fe80:|f[cd][0-9a-f][0-9a-f]:)'" in
  let clientsCmd := "CLIENTS=$(" +:+ peersCmd +:+ publicFilter +:+ " | sort -u | grep -c .); " in
  let confFile := if bool_decide (container = DockerContainer.Telemt) then "/data/config.toml" else "/data/proxy-multi.conf" in
  "CN=" +:+ containerToString container +:+ "; " +:+
  "PORT_OK=$(sudo ss -tlnp 2>/dev/null | grep -q :" +:+ pretty listenPort +:+ " && echo yes || echo no); " +:+
  "TG_OK=$(curl -s --max-time 5 -o /dev/null -w '%{http_code}' " +:+
  "https://core.telegram.org/getProxySecret 2>/dev/null | grep -q '200' && echo yes || echo no); " +:+
  clientsCmd +:+ "CONF_TIME=$(sudo docker exec " +:+ quoted "$CN" +:+ " sh -c 'stat -c " +:+ quoted "%y" +:+ " " +:+ confFile +:+
  " 2>/dev/null | cut -d. -f1' 2>/dev/null || echo unknown); " +:+
  "echo " +:+ quoted "PORT_OK=${PORT_OK}" +:+ "; " +:+ "echo " +:+ quoted "TG_OK=${TG_OK}" +:+ "; " +:+
  "echo " +:+ quoted "CLIENTS=${CLIENTS:-0}" +:+ "; " +:+ "echo " +:+ quoted "CONF_TIME=${CONF_TIME}" +:+ "; " +:+
  "echo " +:+ quoted "STATS=" +:+ ";".

Definition rest_of (n : Z) (line : string) : string := trimmed (mid line n (Z.of_nat (String.length line))).
Definition read_diagnostics (out : MtProxyContainerDiagnostics) (line : string) : MtProxyContainerDiagnostics :=
  let '(mkDiagnostics port upstream clients refresh stats) := out in
  if startsWith "PORT_OK=" line then mkDiagnostics (String.eqb (rest_of 8 line) "yes") upstream clients refresh stats
  else if startsWith "TG_OK=" line then mkDiagnostics port (String.eqb (rest_of 6 line) "yes") clients refresh stats
  else if startsWith "CLIENTS=" line then mkDiagnostics port upstream (toInt_value (rest_of 8 line)) refresh stats
  else if startsWith "CONF_TIME=" line then mkDiagnostics port upstream clients (rest_of 10 line) stats
  else if startsWith "STATS=" line then mkDiagnostics port upstream clients refresh (rest_of 6 line)
  else out.
Definition queryDiagnostics {W : Type} {L : Libssh W} (credentials : ServerCredentials) (container : DockerContainer) (listenPort : Z) :
    stM (client W) (Z * MtProxyContainerDiagnostics) :=
  match container with
  | DockerContainer.MtProxy | DockerContainer.Telemt =>
      '(errorCode, stdOut) ← runScript credentials (diagnostics_script container listenPort) gather no_callback "";
      mret (if negb (errorCode =? ErrorCode.NoError) then (errorCode, unknown_diagnostics)
            else (ErrorCode.NoError, foldl read_diagnostics unknown_diagnostics (nonempty (lines_of stdOut))))
  | _ => mret (ErrorCode.InternalError, unknown_diagnostics)
  end.

(** ** Draws come to an end *)
Section draws.
Context {W : Type} {D : Dice W}.

(** The draw after [n] others between the same bounds. *)
Fixpoint nth_draw (n : nat) (lowest highest : Z) (w : W) : Z :=
  match n with
  | O => (bounded lowest highest w).1
  | S n => nth_draw n lowest highest (bounded lowest highest w).2
  end.

(** Draws stay within their bounds, and each value comes in time. *)
Class DiceLaws : Prop := {
  bounded_range lowest highest w : lowest < highest → lowest ≤ (bounded lowest highest w).1 < highest;
  bounded_fair lowest highest v w : lowest ≤ v < highest → ∃ n, nth_draw n lowest highest w = v;
  set_values_law s : set_values s ≡ₚ elements s;
}.
End draws.
Arguments DiceLaws W {D}.

Lemma outside (l : list Z) (lo hi : Z) : lo + Z.of_nat (length l) < hi → ∃ v, lo ≤ v < hi ∧ v ∉ l.
Proof.
  intros Hl. destruct (decide (Forall (λ v, v ∈ l) (seqZ lo (hi - lo)))) as [Hall|Hn].
  - assert (seqZ lo (hi - lo) ⊆+ l) as Hs.
    { apply NoDup_submseteq; [apply NoDup_seqZ|]. intros x Hx. rewrite Forall_forall in Hall. by apply Hall. }
    apply submseteq_length in Hs. rewrite length_seqZ in Hs. lia.
  - apply not_Forall_Exists, Exists_exists in Hn as (v & Hv%elem_of_seqZ & Hv'); [|apply _]. exists v. split; [lia|exact Hv'].
Qed.

Section ends.
Context {W : Type} {L : Libssh W} {D : Dice W} {DL : DiceLaws W}.
Abbreviation M := (stM (client W)).

(** With enough fuel [m] gives one result. *)
Definition settles {X} (m : nat → M (option X)) (c : client W) (Q : X → client W → Prop) : Prop :=
  ∃ fuel0 x c', Q x c' ∧ ∀ fuel, (fuel0 ≤ fuel)%nat → m fuel c = (Some x, c').

Lemma settles_ret {X} (x : X) c (Q : X → client W → Prop) : Q x c → settles (λ _, mret (Some x)) c Q.
Proof. intros H. by exists 0%nat, x, c. Qed.
Lemma settles_mono {X} m c (Q Q' : X → client W → Prop) : settles m c Q → (∀ x c', Q x c' → Q' x c') → settles m c Q'.
Proof. intros (f & x & c' & H & Hf) Himp. exists f, x, c'. auto. Qed.
Lemma settles_then {X Y} m (k : nat → X → M (option Y)) c Q :
  settles m c (λ x c', settles (λ fuel, k fuel x) c' Q) → settles (λ fuel, then_some (m fuel) (k fuel)) c Q.
Proof.
  intros (f1 & x & c1 & (f2 & y & c2 & HQ & H2) & H1). exists (f1 `max` f2)%nat, y, c2. split; [done|]. intros fuel Hf.
  unfold then_some, mbind, stM_bind. rewrite H1 by lia. apply H2. lia.
Qed.
Lemma settles_call {X} (f : W → Z * W) (k : nat → Z → M (option X)) c Q :
  settles (λ fuel, k fuel (f (world c)).1) (mkClient (m_session c) (f (world c)).2) Q →
  settles (λ fuel, z ← call f; k fuel z) c Q.
Proof.
  intros (f0 & x & c' & HQ & H). exists f0, x, c'. split; [done|]. intros fuel Hf. rewrite <- (H fuel Hf).
  unfold mbind, stM_bind, call. by destruct (f (world c)).
Qed.

Lemma redraw_settles bad lo hi s c :
  lo ≤ s < hi → (∃ v, lo ≤ v < hi ∧ bad v = false) →
  settles (λ fuel, redraw fuel bad lo hi s) c (λ s' _, lo ≤ s' < hi ∧ bad s' = false).
Proof.
  intros Hs (v & Hv & Hb). destruct (bounded_fair lo hi v (world c) Hv) as [n Hn]. revert s c Hs Hn.
  induction n as [|n IH]; intros s c Hs Hn.
  - cbn in Hn. pose proof (bounded_range lo hi (world c) ltac:(lia)) as Hr. destruct (bad s) eqn:Es.
    + exists 1%nat, v, (mkClient (m_session c) (bounded lo hi (world c)).2). split; [done|]. intros [|fuel] Hf; [lia|]. cbn [redraw]. rewrite Es. cbn [negb]. unfold mbind, stM_bind, call. cbn beta.
      destruct (bounded lo hi (world c)) as [z w]. cbn in Hn. subst z. destruct fuel; cbn [redraw]; rewrite Hb; reflexivity.
    + exists 0%nat, s, c. split; [done|]. intros [|fuel] _; cbn [redraw]; rewrite Es; reflexivity.
  - pose proof (bounded_range lo hi (world c) ltac:(lia)) as Hr. destruct (bad s) eqn:Es.
    + cbn in Hn. destruct (IH (bounded lo hi (world c)).1 (mkClient (m_session c) (bounded lo hi (world c)).2) Hr Hn)
        as (f0 & x & c' & HQ & H). exists (S f0), x, c'. split; [done|]. intros [|fuel] Hf; [lia|].
      cbn [redraw]. rewrite Es. cbn [negb]. unfold mbind, stM_bind, call. cbn beta. specialize (H fuel ltac:(lia)).
      by destruct (bounded lo hi (world c)).
    + exists 0%nat, s, c. split; [done|]. intros [|fuel] _; cbn [redraw]; rewrite Es; reflexivity.
Qed.
End ends.

Section parameters.
Context {W : Type} {L : Libssh W} {D : Dice W} {DL : DiceLaws W}.
Abbreviation M := (stM (client W)).

Lemma settles_here {X} (m : nat → M (option X)) (x : X) c c' (Q : X → client W → Prop) :
  Q x c' → (∀ fuel, m fuel c = (Some x, c')) → settles m c Q.
Proof. intros H E. by exists 0%nat, x, c'. Qed.

(** Headers are numbers of their own. *)
Definition numbers (H : gset string) : Prop := ∀ s, s ∈ H → ∃ z, 5 ≤ z < int_max ∧ s = pretty z.
Lemma new_header (H : gset string) : (size H < 4)%nat → ∃ v, 5 ≤ v < int_max ∧ pretty v ∉ H.
Proof.
  intros Hs. destruct (decide (Forall (λ v, pretty v ∈ H) [5; 6; 7; 8])) as [Hall|Hn].
  - rewrite !Forall_cons in Hall. destruct Hall as (H1 & H2 & H3 & H4 & _).
    assert ({[ pretty 5; pretty 6; pretty 7; pretty 8 ]} ⊆ H) as Hsub%subseteq_size by set_solver.
    assert (size ({[ pretty 5; pretty 6; pretty 7; pretty 8 ]} : gset string) = 4%nat) as E by by vm_compute. lia.
  - apply not_Forall_Exists, Exists_exists in Hn as (v & Hv & Hv'); [|apply _]. exists v. split; [|done].
    unfold int_max. rewrite !elem_of_cons in Hv. set_solver by lia.
Qed.
Lemma headers_settle k : ∀ (H : gset string) c,
  size H = (4 - k)%nat → (k ≤ 4)%nat → numbers H →
  settles (λ fuel, draw_headers fuel H) c (λ H' _, size H' = 4%nat ∧ numbers H').
Proof.
  induction k as [|k IH]; intros H c Hk Hle Hn.
  { apply (settles_here _ H c c); [auto with lia|]. intros fuel. destruct fuel; cbn [draw_headers]; by rewrite decide_True by lia. }
  destruct (new_header H ltac:(lia)) as (v & Hv & Hv'). destruct (bounded_fair 5 int_max v (world c) Hv) as [n En]. revert c En.
  assert (∀ c, 5 ≤ (bounded 5 int_max (world c)).1 < int_max) as Hr by (intros; by apply bounded_range).
  assert (∀ c (Q : gset string → client W → Prop), let d := bounded 5 int_max (world c) in
    settles (λ fuel, draw_headers fuel ({[ pretty d.1 ]} ∪ H)) (mkClient (m_session c) d.2) Q →
    settles (λ fuel, draw_headers fuel H) c Q) as Hstep.
  { intros c Q d (f0 & x & c' & HQ & Hf). exists (S f0), x, c'. split; [done|]. intros [|fuel] Hfuel; [lia|].
    rewrite <- (Hf fuel) by lia. cbn [draw_headers]. rewrite decide_False by lia. unfold mbind, stM_bind, call. cbn beta. subst d.
    by destruct (bounded 5 int_max (world c)). }
  assert (∀ c, pretty (bounded 5 int_max (world c)).1 ∉ H →
    settles (λ fuel, draw_headers fuel H) c (λ H' _, size H' = 4%nat ∧ numbers H')) as Hnew.
  { intros c Hd. apply Hstep, IH; [|lia|].
    - rewrite size_union by set_solver. rewrite size_singleton. lia.
    - intros s [->%elem_of_singleton|Hs]%elem_of_union; [by exists (bounded 5 int_max (world c)).1|by apply Hn]. }
  induction n as [|n IHn]; intros c En; cbn in En.
  - apply Hnew. by rewrite En.
  - destruct (decide (pretty (bounded 5 int_max (world c)).1 ∈ H)) as [Hin|Hout]; [|by apply Hnew].
    apply Hstep. rewrite subseteq_union_1_L by set_solver. by apply IHn.
Qed.

(** Ranges one after the other. *)
Fixpoint ordered (min : Z) (rs : list (Z * Z)) : Prop :=
  match rs with [] => True | r :: rs => min ≤ r.1 ≤ r.2 ∧ r.2 < int_max ∧ ordered r.2 rs end.
Lemma ranges_drawn n min c :
  min < int_max → length (draw_ranges n min c).1 = n ∧ ordered min (draw_ranges n min c).1.
Proof.
  revert min c. induction n as [|n IH]; intros min c Hmin; [done|]. cbn [draw_ranges]. unfold mbind, stM_bind, call. cbn beta.
  pose proof (bounded_range min int_max (world c) Hmin) as H1. destruct (bounded min int_max (world c)) as [a w1]. cbn [fst] in H1. cbn [world].
  pose proof (bounded_range a int_max w1 ltac:(lia)) as H2. destruct (bounded a int_max w1) as [b w2]. cbn [fst] in H2. cbn [m_session].
  destruct (IH b (mkClient (m_session c) w2) ltac:(lia)) as [I1 I2]. destruct (draw_ranges n b _) as [rs c'] eqn:E. cbn in *.
  split; [by f_equal|]. auto with lia.
Qed.

Definition junk_ok (s : Z * Z * Z * Z) : Prop :=
  let '(s1, s2, s3, s4) := s in
  15 ≤ s1 < 150 ∧ 15 ≤ s2 < 150 ∧ 0 ≤ s3 < 64 ∧ 0 ≤ s4 < 20 ∧ NoDup [s1; s2; s3; s4] ∧ isPacketSizeEqual s1 s2 s3 s4 = false.
Lemma listed_false (v : Z) (l : list Z) : v ∉ l → bool_decide (v ∈ l) = false.
Proof. apply bool_decide_eq_false_2. Qed.
Lemma junk_settles c : settles junk_sizes c (λ s _, junk_ok s).
Proof.
  unfold junk_sizes, messageInitiationSize, messageResponseSize, messageCookieReplySize.
  apply settles_call. pose proof (bounded_range 15 150 (world c) ltac:(lia)) as H1. set (s1 := (bounded 15 150 (world c)).1) in *.
  apply settles_call. cbn [world]. set (w1 := (bounded 15 150 (world c)).2).
  pose proof (bounded_range 15 150 w1 ltac:(lia)) as H2. set (s2 := (bounded 15 150 w1).1) in *.
  apply settles_call. cbn [world]. set (w2 := (bounded 15 150 w1).2).
  pose proof (bounded_range 0 64 w2 ltac:(lia)) as H3. set (s3 := (bounded 0 64 w2).1) in *.
  apply settles_call. cbn [world]. set (w3 := (bounded 0 64 w2).2).
  pose proof (bounded_range 0 20 w3 ltac:(lia)) as H4. set (s4 := (bounded 0 20 w3).1) in *. clearbody s1 s2 s3 s4.
  apply settles_then. eapply settles_mono; [apply redraw_settles; [exact H2|]|].
  { destruct (outside [s1; s1 + 56] 15 150 ltac:(cbn; lia)) as (v & Hv & Hn). exists v. rewrite !not_elem_of_cons in Hn. split; [done|].
    rewrite listed_false by set_solver. lia. }
  clear s2 H2. intros s2 c1 [H2 B2]. apply settles_then. eapply settles_mono; [apply redraw_settles; [exact H3|]|].
  { destruct (outside [s1; s2; s1 + 84; s2 + 28] 0 64 ltac:(cbn; lia)) as (v & Hv & Hn). exists v. rewrite !not_elem_of_cons in Hn.
    split; [done|]. rewrite listed_false by set_solver. lia. }
  clear s3 H3. intros s3 c2 [H3 B3]. apply settles_then. eapply settles_mono; [apply redraw_settles; [exact H4|]|].
  { destruct (outside [s1; s2; s3] 0 20 ltac:(cbn; lia)) as (v & Hv & Hn). exists v. split; [done|]. by apply listed_false. }
  clear s4 H4. intros s4 c3 [H4 B4]. apply settles_ret.
  cbn beta in B2, B3, B4. rewrite !orb_false_iff, bool_decide_eq_false, !Z.eqb_neq in B2. rewrite !orb_false_iff, bool_decide_eq_false, !Z.eqb_neq in B3.
  rewrite bool_decide_eq_false in B4.
  unfold junk_ok, isPacketSizeEqual, messageInitiationSize, messageResponseSize, messageCookieReplySize, messageTransportSize.
  rewrite !not_elem_of_cons in B2; rewrite !not_elem_of_cons in B3; rewrite !not_elem_of_cons in B4. rewrite !NoDup_cons, !not_elem_of_cons, !orb_false_iff, !Z.eqb_neq.
  split_and!; try lia; try apply not_elem_of_nil; apply NoDup_nil_2.
Qed.

Lemma headers_drawn isAwg2 c :
  settles (λ fuel, magic_headers fuel isAwg2) c (λ hs _, ∃ a b d e, hs = [a; b; d; e] ∧
    if isAwg2 then ∃ rs, hs = range_text <$> rs ∧ ordered 5 rs
    else NoDup hs ∧ Forall (λ h, ∃ z, 5 ≤ z < int_max ∧ h = pretty z) hs).
Proof.
  assert (∀ l : list string, length l = 4%nat → ∃ a b d e, l = [a; b; d; e]) as H4
    by (intros [|a [|b [|d [|e []]]]] Hl; try done; by exists a, b, d, e).
  unfold magic_headers. destruct isAwg2.
  - destruct (ranges_drawn 4 5 c ltac:(done)) as [Hl Ho]. destruct (draw_ranges 4 5 c) as [rs c'] eqn:E. cbn [fst] in *.
    apply (settles_here _ (range_text <$> rs) c c').
    + destruct (H4 (range_text <$> rs)) as (a & b & d & e & Eq); [by rewrite length_fmap|]. exists a, b, d, e. split; [done|]. by exists rs.
    + intros _. unfold mbind, stM_bind. by rewrite E.
  - apply settles_then. eapply settles_mono; [apply (headers_settle 4 ∅); [by rewrite size_empty|done|by intros s Hs%not_elem_of_empty]|].
    intros H c' [Hs Hn]. apply settles_ret. pose proof (set_values_law H) as Hp.
    destruct (H4 (set_values H)) as (a & b & d & e & Eq); [by rewrite (Permutation_length Hp), <- Hs|].
    exists a, b, d, e. split; [done|]. split.
    + rewrite Hp. apply NoDup_elements.
    + rewrite Hp. apply Forall_forall. intros s Hin%elem_of_elements. by apply Hn.
Qed.

(** C14. The numbers an AmneziaWG server is obfuscated with are found after
    finitely many draws, and they pass the checks of the application's own
    pages: the four sizes of junk are different and within their bounds, no two
    kinds of packets have the same size, and the headers are different numbers,
    or for the second version ranges one after the other. *)
Theorem awg_parameters_generated (srv : AwgServerConfig) (isAwg2 : bool) (c : client W) :
  settles (λ fuel, generateAwgParameters fuel srv isAwg2) c (λ srv' _,
    (∃ s1 s2 s3 s4, junk_ok (s1, s2, s3, s4) ∧
       AwgServerConfig.initPacketJunkSize srv' = pretty s1 ∧ AwgServerConfig.responsePacketJunkSize srv' = pretty s2 ∧
       AwgServerConfig.cookieReplyPacketJunkSize srv' = pretty s3 ∧ AwgServerConfig.transportPacketJunkSize srv' = pretty s4) ∧
    (let headers := [AwgServerConfig.initPacketMagicHeader srv'; AwgServerConfig.responsePacketMagicHeader srv';
                     AwgServerConfig.underloadPacketMagicHeader srv'; AwgServerConfig.transportPacketMagicHeader srv'] in
     if isAwg2 then ∃ rs, headers = range_text <$> rs ∧ ordered 5 rs
     else NoDup headers ∧ Forall (λ h, ∃ z, 5 ≤ z < int_max ∧ h = pretty z) headers) ∧
    (∃ n, 4 ≤ n < 7 ∧ AwgServerConfig.junkPacketCount srv' = pretty n) ∧
    AwgServerConfig.port srv' = AwgServerConfig.port srv ∧ AwgServerConfig.transportProto srv' = AwgServerConfig.transportProto srv).
Proof.
  unfold generateAwgParameters. apply settles_call. pose proof (bounded_range 4 7 (world c) ltac:(lia)) as Hn.
  set (n := (bounded 4 7 (world c)).1) in *. apply settles_then. eapply settles_mono; [apply junk_settles|].
  intros [[[s1 s2] s3] s4] c1 Hj. apply settles_then.
  assert (settles (λ fuel, magic_headers fuel isAwg2) c1 (λ hs _, ∃ a b d e, hs = [a; b; d; e] ∧
    if isAwg2 then ∃ rs, hs = range_text <$> rs ∧ ordered 5 rs
    else NoDup hs ∧ Forall (λ h, ∃ z, 5 ≤ z < int_max ∧ h = pretty z) hs)) as Hh by apply headers_drawn.
  eapply settles_mono; [exact Hh|]. intros hs c2 (a & b & d & e & -> & H). apply settles_ret.
  split; [by exists s1, s2, s3, s4|]. split; [exact H|]. split; [by exists n|done].
Qed.
End parameters.

(** ** The file of an AmneziaWG server *)
Definition private_key_word : string := "$WIREGUARD_SERVER_PRIVATE_KEY".
(** The keys of the file and the variables of their values. *)
Definition awg_conf_words (container : DockerContainer) : list (string * string) :=
  [("ListenPort", "$AWG_SERVER_PORT"); ("Jc", "$JUNK_PACKET_COUNT"); ("Jmin", "$JUNK_PACKET_MIN_SIZE"); ("Jmax", "$JUNK_PACKET_MAX_SIZE");
   ("S1", "$INIT_PACKET_JUNK_SIZE"); ("S2", "$RESPONSE_PACKET_JUNK_SIZE")] ++
  (if bool_decide (container = DockerContainer.Awg2)
   then [("S3", "$COOKIE_REPLY_PACKET_JUNK_SIZE"); ("S4", "$TRANSPORT_PACKET_JUNK_SIZE")] else []) ++
  [("H1", "$INIT_PACKET_MAGIC_HEADER"); ("H2", "$RESPONSE_PACKET_MAGIC_HEADER"); ("H3", "$UNDERLOAD_PACKET_MAGIC_HEADER");
   ("H4", "$TRANSPORT_PACKET_MAGIC_HEADER"); ("# I1", "$SPECIAL_JUNK_1"); ("# I2", "$SPECIAL_JUNK_2"); ("# I3", "$SPECIAL_JUNK_3");
   ("# I4", "$SPECIAL_JUNK_4"); ("# I5", "$SPECIAL_JUNK_5")].
(** What the script that configures the container writes into it. *)
Definition awg_conf (container : DockerContainer) : list piece :=
  [Plain ("[Interface]" +:+ nl +:+ "PrivateKey = "); Word private_key_word; Plain (nl +:+ "Address = "); Word "$AWG_SUBNET_IP"; Plain "/";
   Word "$WIREGUARD_SUBNET_CIDR"] ++
  concat ((λ e, [Plain (nl +:+ e.1 +:+ " = "); Word e.2]) <$> awg_conf_words container) ++ [Plain nl].
(** With the variables of the settings, and the shell's own. *)
Definition awg_vars `{Libssh W} (container : DockerContainer) (credentials : ServerCredentials) (c : AwgServerConfig) (key : string) : ScriptVars :=
  base_vars credentials container ++ genProtocolVarsForContainer container (PAwg (mkWithClient c None)) ++ [(private_key_word, key)].
Definition awg_document `{Libssh W} (container : DockerContainer) (credentials : ServerCredentials) (c : AwgServerConfig) (key : string) : string :=
  replaceVars (render (awg_conf container)) (awg_vars container credentials c key).

(** A value that stays on its line. *)
Definition settled_value (v : string) : Prop :=
  contains_nl v = false ∧ no_dollar v = true ∧ contains_str " = " v = false ∧ trimmed v = v.
Definition conf_line (e : string * string) : string := e.1 +:+ " = " +:+ e.2.
Definition equals_sign : Ascii.ascii := Ascii.ascii_of_nat 61.
Definition conf_key (k : string) : bool :=
  match k with String c _ => negb (Ascii.is_space c) && negb (Ascii.eqb c (Ascii.ascii_of_nat 91)) | _ => false end &&
  negb (contains_char equals_sign k) && negb (contains_nl k) && String.eqb (trimmed k) k &&
  bool_decide (conf_entry (k +:+ " = ") = None).

Lemma trimmed_right v : trimmed v = v → trim_right v = v.
Proof. intros <-. unfold trimmed. apply trim_right_idemp. Qed.
Lemma trim_right_app a v : v ≠ "" → trim_right v = v → trim_right (a +:+ v) = a +:+ v.
Proof.
  intros Hne Hv. induction a as [|c a IH]; [done|]. rewrite append_String. cbn [trim_right]. rewrite IH.
  by destruct a; [destruct v|].
Qed.
Lemma split_line k v :
  contains_char equals_sign k = false → contains_str " = " v = false → split_str " = " (k +:+ " = " +:+ v) = [k; v].
Proof.
  intros Hk Hv. assert (String.index 0 " = " (k +:+ " = " +:+ v) = Some (String.length k)) as Ei.
  { induction k as [|c k IH]; [by destruct v|]. cbn [contains_char] in Hk. apply orb_false_iff in Hk as [_ Hk]. specialize (IH Hk).
    rewrite append_String. assert (String.prefix " = " (String c (k +:+ " = " +:+ v)) = false) as Hp.
    { cbn [String.prefix]. destruct (Ascii.ascii_dec _ c); [|done]. destruct k as [|c' k]; [done|]. rewrite append_String.
      cbn [String.prefix]. destruct (Ascii.ascii_dec _ c') as [<-|]; [|done]. by cbn in Hk. }
    cbn [String.index]. rewrite Hp. by rewrite IH. }
  unfold split_str. rewrite string_app_length. destruct (String.length k + String.length (" = " +:+ v))%nat as [|n] eqn:En.
  { rewrite string_app_length in En. cbn in En. lia. }
  assert (String.length (k +:+ " = " +:+ v) = S n) as El by by rewrite string_app_length.
  cbn [split_from]. rewrite Ei, El. f_equal.
  - clear. induction k as [|c k IH]; [by destruct v|]. rewrite append_String. cbn. by rewrite IH.
  - assert (String.substring (String.length k + 3) (S n) (k +:+ " = " +:+ v) = v) as Es.
    { rewrite <- string_app_assoc. change 3%nat with (String.length " = "). rewrite <- string_app_length. apply substring_rest.
      rewrite <- El, !string_app_length. cbn. lia. }
    change (String.length " = ") with 3%nat. rewrite Es. unfold contains_str in Hv.
    destruct n; cbn [split_from]; destruct (String.index 0 " = " v); done.
Qed.
Lemma line_read k v :
  conf_key k = true → settled_value v → conf_entry (conf_line (k, v)) = if String.eqb v "" then None else Some (k, v).
Proof.
  intros Hk (_ & _ & He & Ht). unfold conf_key in Hk. rewrite !andb_true_iff, !negb_true_iff, bool_decide_eq_true in Hk.
  destruct Hk as ((((Hc & Heq) & _) & Htk%String.eqb_eq) & Hempty).
  destruct (String.eqb_spec v "") as [->|Hne]; [done|].
  unfold conf_entry, conf_line. cbn [fst snd]. assert (trimmed (k +:+ " = " +:+ v) = k +:+ " = " +:+ v) as ->.
  { destruct k as [|c k]; [done|]. rewrite andb_true_iff, !negb_true_iff in Hc. destruct Hc as [Hc _].
    unfold trimmed. rewrite append_String. cbn [trim_left]. rewrite Hc, <- append_String, <- string_app_assoc.
    by apply trim_right_app, trimmed_right. }
  assert (startsWith "[" (k +:+ " = " +:+ v) = false) as ->.
  { destruct k as [|c k]; [done|]. rewrite andb_true_iff, !negb_true_iff in Hc. destruct Hc as [_ Hc]. rewrite append_String.
    unfold startsWith. cbn [String.prefix]. destruct (Ascii.ascii_dec _ c) as [<-|]; [by cbn in Hc|done]. }
  cbn [andb]. rewrite split_line by done. by rewrite Htk, Ht.
Qed.

Definition add_line (m : gmap string string) (line : string) : gmap string string :=
  match conf_entry line with Some (k, v) => <[k := v]> m | None => m end.
Lemma lines_read (kvs : list (string * string)) m k :
  Forall (λ e, conf_key e.1 = true ∧ settled_value e.2) kvs → NoDup kvs.*1 →
  field (foldl add_line m (conf_line <$> kvs)) k =
  match List.find (λ e, String.eqb k e.1) kvs with
  | Some e => if String.eqb e.2 "" then field m k else e.2
  | None => field m k
  end.
Proof.
  intros Hkvs. revert m. induction Hkvs as [|[k' v] kvs [Hk Hv] _ IH]; intros m Hd; [done|]. rewrite !fmap_cons in *.
  apply NoDup_cons in Hd as [Hnin Hd]. cbn [foldl List.find fst snd] in *. rewrite IH by done. unfold add_line. rewrite line_read by done.
  destruct (String.eqb_spec k k') as [->|Hne].
  - assert (List.find (λ e, String.eqb k' e.1) kvs = None) as ->.
    { destruct (List.find _ kvs) as [e|] eqn:E; [|done]. apply List.find_some in E as [Hin He%String.eqb_eq].
      destruct Hnin. rewrite He. apply list_elem_of_fmap. exists e. split; [done|]. by apply list_elem_of_In. }
    cbn [snd]. destruct (String.eqb v ""); [done|]. unfold field. by rewrite lookup_insert_eq.
  - assert (field (if String.eqb v "" then m else <[k' := v]> m) k = field m k) as E.
    { destruct (String.eqb v ""); [done|]. unfold field. by rewrite lookup_insert_ne by congruence. }
    assert (field match (if String.eqb v "" then None else Some (k', v)) with Some (k, v) => <[k := v]> m | None => m end k = field m k) as ->
      by (rewrite <- E; by destruct (String.eqb v "")).
    done.
Qed.

Lemma conf_lines (kvs : list (string * string)) start :
  contains_nl start = false → Forall (λ e, contains_nl (conf_line e) = false) kvs →
  lines_of (start +:+ String.concat "" ((λ e, nl +:+ conf_line e) <$> kvs) +:+ nl) = start :: (conf_line <$> kvs) ++ [""].
Proof.
  intros Hs Hkvs. revert start Hs. induction Hkvs as [|e kvs He _ IH]; intros start Hs.
  - cbn [fmap list_fmap String.concat]. rewrite append_nil_l. by apply (lines_of_line start "").
  - rewrite fmap_cons, concat_empty_cons, !string_app_assoc, lines_of_line by done. by rewrite IH.
Qed.

Lemma var_value_app (a b : ScriptVars) d : forallb (λ v, negb (String.eqb d v)) a.*1 = true → var_value (a ++ b) d = var_value b d.
Proof.
  unfold var_value. induction a as [|v a IH]; [done|]. rewrite fmap_cons. cbn. intros [Hv Ha]%andb_true_iff. apply negb_true_iff in Hv.
  rewrite Hv. by apply IH.
Qed.

Abbreviation awg_own c := (genAwgVars (PAwg (mkWithClient c None))).
Definition awg_ip (c : AwgServerConfig) : string := filled (AwgServerConfig.subnetAddress c) "10.8.1.0".
Definition awg_cidr (c : AwgServerConfig) : string := filled (AwgServerConfig.subnetCidr c) "24".
(** Settings, and a key, that stay on their lines. *)
Record settled_settings (c : AwgServerConfig) (key : string) : Prop := {
  settled_values : Forall settled_value (awg_own c).*2;
  settled_address : settled_value (awg_ip c +:+ "/" +:+ awg_cidr c);
  settled_ip : contains_char slash (awg_ip c) = false;
  settled_cidr : contains_char slash (awg_cidr c) = false;
  settled_key : settled_value key;
}.
Definition awg_entries (container : DockerContainer) (c : AwgServerConfig) (key : string) : list (string * string) :=
  ("PrivateKey", key) :: ("Address", awg_ip c +:+ "/" +:+ awg_cidr c) :: ((λ e, (e.1, var_value (awg_own c) e.2)) <$> awg_conf_words container).

Lemma find_app {A} (f : A → bool) (l k : list A) :
  List.find f (l ++ k) = match List.find f l with Some x => Some x | None => List.find f k end.
Proof. induction l as [|x l IH]; [done|]. cbn. by destruct (f x). Qed.

Section awg_file.
Context {W : Type} {L : Libssh W}.
Context (container : DockerContainer) (credentials : ServerCredentials) (c : AwgServerConfig) (key : string).
Context (Hc : isAwgContainer container = true) (Hh : clear_host credentials) (Hs : settled_settings c key).

Lemma awg_vars_own : awg_vars container credentials c key = base_vars credentials container ++ awg_own c ++ [(private_key_word, key)].
Proof. unfold awg_vars, genProtocolVarsForContainer. by destruct container. Qed.
Lemma awg_value w :
  (∀ b, forallb (λ v, negb (String.eqb w v)) (base_names b) = true) → w ∈ (awg_own c).*1 →
  var_value (awg_vars container credentials c key) w = var_value (awg_own c) w.
Proof.
  intros Hb Hw. rewrite awg_vars_own. destruct (base_vars_names credentials container "" "") as [b Eb].
  rewrite var_value_app by (unfold base_vars; rewrite Eb; apply Hb). unfold var_value.
  apply list_elem_of_fmap in Hw as (v & -> & Hv). rewrite find_app.
  destruct (List.find (λ v', String.eqb v.1 v'.1) (awg_own c)) eqn:E; [done|]. apply list_elem_of_In in Hv.
  pose proof (List.find_none _ _ E _ Hv) as Hn. cbn beta in Hn. by rewrite String.eqb_refl in Hn.
Qed.

Lemma words_known : Forall (λ e, (∀ b, forallb (λ v, negb (String.eqb e.2 v)) (base_names b) = true) ∧ e.2 ∈ (awg_own c).*1) (awg_conf_words container).
Proof.
  apply Forall_forall. intros e He. assert ((awg_own c).*1 = (awg_own (awg_server "" "")).*1) as -> by done.
  assert (bool_decide (Forall (λ e, forallb (λ b, forallb (λ v, negb (String.eqb e.2 v)) (base_names b)) [true; false] = true ∧
    e.2 ∈ (awg_own (awg_server "" "")).*1) (awg_conf_words container)) = true) as Hall%bool_decide_eq_true
    by (destruct container; try done; vm_compute; reflexivity).
  rewrite Forall_forall in Hall. destruct (Hall e He) as [Hb Hw]. split; [|done]. rewrite forallb_forall in Hb.
  intros b. apply Hb. destruct b; cbn; auto.
Qed.

Lemma awg_document_text : awg_document container credentials c key =
  "[Interface]" +:+ String.concat "" ((λ e, nl +:+ conf_line e) <$> awg_entries container c key) +:+ nl.
Proof.
  unfold awg_document. rewrite replaceVars_filled.
  - unfold awg_conf, awg_entries. set (vars := awg_vars container credentials c key).
    assert (String.concat "" (filled_piece vars <$> concat ((λ e, [Plain (nl +:+ e.1 +:+ " = "); Word e.2]) <$> awg_conf_words container)) =
      String.concat "" ((λ e, nl +:+ conf_line e) <$> ((λ e, (e.1, var_value (awg_own c) e.2)) <$> awg_conf_words container))) as Ew.
    { pose proof words_known as Hw. induction Hw as [|e l [Hb He] _ IH]; [done|]. rewrite !fmap_cons. cbn [concat].
      rewrite fmap_app, concat_empty_app, IH. cbn [fmap list_fmap]. rewrite !concat_empty_cons. cbn [filled_piece conf_line fst snd].
      subst vars. rewrite awg_value by done. unfold conf_line. cbn [fst snd]. by rewrite !string_app_assoc, append_nil_l. }
    rewrite !fmap_app, !concat_empty_app, Ew, !fmap_cons, !concat_empty_cons. cbn [filled_piece fmap list_fmap String.concat].
    assert (var_value vars private_key_word = key) as ->.
    { subst vars. rewrite awg_vars_own. destruct (base_vars_names credentials container "" "") as [b Eb].
      rewrite var_value_app by (unfold base_vars; rewrite Eb; by destruct b). reflexivity. }
    assert (var_value vars "$AWG_SUBNET_IP" = awg_ip c) as -> by (subst vars; rewrite awg_value; [done|by intros []|by left]).
    assert (var_value vars "$WIREGUARD_SUBNET_CIDR" = awg_cidr c) as -> by (subst vars; rewrite awg_value; [done|by intros []|by right; left]).
    unfold conf_line. cbn [fst snd]. rewrite !string_app_assoc, !append_nil_l. done.
  - rewrite awg_vars_own. rewrite !Forall_app. split; [by apply base_vars_ok|]. split.
    + destruct Hs as [Hv _ _ _ _]. apply Forall_forall. intros v Hin. rewrite Forall_forall in Hv.
      destruct (Hv v.2 ltac:(apply list_elem_of_fmap; by exists v)) as (_ & -> & _). rewrite andb_true_r.
      assert (Forall (λ w, dollar_word w = true) (awg_own (awg_server "" "")).*1) as Hw by by apply (bool_decide_unpack _); vm_compute.
      rewrite Forall_forall in Hw. apply Hw. change ((awg_own (awg_server "" "")).*1) with ((awg_own c).*1). apply list_elem_of_fmap. by exists v.
    + constructor; [|constructor]. cbn [fst snd]. destruct Hs as [_ _ _ _ (_ & -> & _)]. done.
  - rewrite awg_vars_own. destruct (base_vars_names credentials container "" "") as [b Eb]. rewrite !fmap_app. unfold base_vars. rewrite Eb.
    change ((awg_own c).*1) with ((awg_own (awg_server "" "")).*1). change ([(private_key_word, key)].*1) with [private_key_word].
    apply Forall_forall. intros p Hp%list_elem_of_In. revert p Hp. apply forallb_forall.
    destruct b, container; try done; vm_compute; reflexivity.
Qed.
End awg_file.

Section awg_scan.
Context (container : DockerContainer) (c : AwgServerConfig) (key : string).
Context (Hc : isAwgContainer container = true) (Hs : settled_settings c key).

Lemma entries_settled : Forall (λ e, conf_key e.1 = true ∧ settled_value e.2) (awg_entries container c key) ∧ NoDup (awg_entries container c key).*1.
Proof.
  destruct Hs as [Hv Ha _ _ Hk]. unfold awg_entries. split.
  - repeat (constructor; [by split|]). rewrite Forall_fmap. pose proof (words_known container c Hc) as Hw.
    assert (Forall (λ e, conf_key e.1 = true) (awg_conf_words container)) as Hkeys
      by (apply Forall_forall; intros e He%list_elem_of_In; revert e He; apply forallb_forall; destruct container; try done; vm_compute; reflexivity).
    rewrite Forall_forall in Hw; rewrite Forall_forall in Hkeys; rewrite Forall_forall in Hv. apply Forall_forall. intros e He. cbn [fst snd]. split; [exact (Hkeys e He)|]. apply Hv.
    destruct (Hw e He) as [_ (v & -> & Hin)%list_elem_of_fmap]. unfold var_value. destruct (List.find _ _) as [v'|] eqn:E.
    + apply List.find_some in E as [Hin' _]. apply list_elem_of_fmap. exists v'. split; [done|by apply list_elem_of_In].
    + apply list_elem_of_In in Hin. pose proof (List.find_none _ _ E _ Hin) as Hn. cbn beta in Hn. by rewrite String.eqb_refl in Hn.
  - rewrite !fmap_cons, <- list_fmap_compose. cbn [fst]. 
    assert ("PrivateKey" :: "Address" :: (fst ∘ (λ e : string * string, (e.1, var_value (awg_own c) e.2)) <$> awg_conf_words container) =
      "PrivateKey" :: "Address" :: (awg_conf_words container).*1) as -> by done.
    apply (bool_decide_unpack _). destruct container; try done; vm_compute; exact Logic.I.
Qed.

Lemma document_fields credentials `{Libssh W} k :
  clear_host credentials →
  field (config_map conf_entry (lines_of (awg_document container credentials c key))) k =
  match List.find (λ e, String.eqb k e.1) (awg_entries container c key) with Some e => e.2 | None => "" end.
Proof.
  intros Hh. destruct entries_settled as [He Hd]. rewrite awg_document_text by done. rewrite conf_lines; [|done|].
  - unfold config_map. fold add_line. cbn [foldl]. rewrite foldl_app. cbn [foldl].
    change (add_line ∅ "[Interface]") with (∅ : gmap string string).
    assert (∀ m, add_line m "" = m) as -> by done. rewrite lines_read by done.
    destruct (List.find _ _) as [e|]; [|done]. by destruct (String.eqb_spec e.2 "") as [->|].
  - eapply Forall_impl; [exact He|]. intros e [Hk (Hn & _)]. unfold conf_line, contains_nl in *. rewrite !contains_char_app.
    unfold conf_key in Hk. rewrite !andb_true_iff, !negb_true_iff in Hk. destruct Hk as (((_ & Hk) & _) & _). unfold contains_nl in Hk.
    by rewrite Hk, Hn.
Qed.
End awg_scan.

(** What of the settings is in the file. *)
Definition conf_fields (container : DockerContainer) : list (AwgServerConfig → string) :=
  [AwgServerConfig.junkPacketCount; AwgServerConfig.junkPacketMinSize; AwgServerConfig.junkPacketMaxSize;
   AwgServerConfig.initPacketJunkSize; AwgServerConfig.responsePacketJunkSize; AwgServerConfig.initPacketMagicHeader;
   AwgServerConfig.responsePacketMagicHeader; AwgServerConfig.underloadPacketMagicHeader; AwgServerConfig.transportPacketMagicHeader;
   AwgServerConfig.specialJunk1; AwgServerConfig.specialJunk2; AwgServerConfig.specialJunk3; AwgServerConfig.specialJunk4;
   AwgServerConfig.specialJunk5] ++
  (if bool_decide (container = DockerContainer.Awg2)
   then [AwgServerConfig.cookieReplyPacketJunkSize; AwgServerConfig.transportPacketJunkSize] else []).

Section scanned.
Context {W : Type} {L : Libssh W} {V : ServerView W} {Sv : Server W} {J : JsonCodec} {IC : ImportCodec}.

(** The settings an AmneziaWG server was set up with are those another device
    finds by scanning it: the script's file, filled with the settings and a key,
    is read back field by field, an empty junk packet included. *)
Theorem awg_settings_scanned container credentials c key port proto (x : client W) :
  isAwgContainer container = true → accepted credentials → clear_host credentials → well (world x) → settled_settings c key →
  boxes (seen (world x)) !! (containerToString container, awg_config_path container) =
    Some (awg_document container credentials c key) →
  leads (extractConfigFromContainer container credentials (ContainerConfig.protocolConfig (createBaseConfig container port proto))) x
    (λ r x', ∃ c', r = Some (PAwg (mkWithClient c' None), ErrorCode.NoError) ∧ seen (world x') = seen (world x) ∧
      AwgServerConfig.port c' = pretty port ∧ AwgServerConfig.subnetAddress c' = awg_ip c ∧ AwgServerConfig.subnetCidr c' = awg_cidr c ∧
      Forall (λ f, f c' = f c) (conf_fields container)).
Proof.
  intros Hc Ha Hh Hw Hs Hbox.
  assert (extractConfigFromContainer container credentials (ContainerConfig.protocolConfig (createBaseConfig container port proto)) =
    (r ← awg_extractConfigFromContainer container credentials (PAwg (mkWithClient (awg_server (pretty port) (transportProtoToString proto)) None));
     mret (Some r))) as -> by by destruct container.
  unfold awg_extractConfigFromContainer, from_file. apply leads_bind, leads_pair. eapply leads_mono.
  { apply (get_leads credentials container Ha (awg_config_path container)); [by destruct container|exact Hw|exact Hbox]. }
  intros r x' (-> & _ & Hseen). apply leads_ret, leads_ret. 
  pose proof (λ k, document_fields container c key Hc Hs credentials k Hh) as Hf.
  set (m := config_map _ _) in *. eexists. split; [reflexivity|]. split; [exact Hseen|].
  assert (field m "Address" = awg_ip c +:+ "/" +:+ awg_cidr c) as EA by by rewrite Hf.
  assert (split_char slash (field m "Address") = [awg_ip c; awg_cidr c]) as Esplit.
  { destruct Hs as [_ _ Hip Hcidr _]. rewrite EA. change ("/" +:+ awg_cidr c) with (String slash (awg_cidr c)).
    by rewrite split_char_line, split_char_none. }
  unfold read_awg. rewrite Esplit. split_and!; [done..|]. unfold conf_fields.
  destruct container; try done; repeat (constructor; [exact (Hf _)|]); constructor.
Qed.
End scanned.

(** *** Witnesses *)
Definition shelf_dice : Dice nat := {|
  bounded lowest highest n := (lowest + Z.of_nat n mod (highest - lowest), S n);
  set_values := elements;
|}.
Lemma shelf_laws : @DiceLaws nat shelf_dice.
Proof.
  split; cbn.
  - intros lo hi n H. pose proof (Z.mod_pos_bound (Z.of_nat n) (hi - lo) ltac:(lia)). lia.
  - intros lo hi v n H. set (d := hi - lo). set (k := (v - lo - Z.of_nat n) mod d).
    assert (∀ m n, @nth_draw nat shelf_dice m lo hi n = lo + Z.of_nat (n + m) mod d) as E.
    { induction m as [|m IH]; intros n'; cbn; [by rewrite Nat.add_0_r|]. rewrite IH. do 2 f_equal. lia. }
    exists (Z.to_nat k). rewrite E. pose proof (Z.mod_pos_bound (v - lo - Z.of_nat n) d ltac:(lia)) as Hk. fold k in Hk.
    rewrite Nat2Z.inj_add, Z2Nat.id by lia. unfold k. rewrite Zplus_mod_idemp_r.
    replace (Z.of_nat n + (v - lo - Z.of_nat n)) with (v - lo) by lia. rewrite Z.mod_small by lia. lia.
  - done.
Qed.

Lemma awg_parameters_generated_witness :
  ∃ fuel srv c', @generateAwgParameters nat shelf_dice fuel (awg_server "51820" "udp") true (mkClient true 7%nat) = (Some srv, c') ∧
    AwgServerConfig.port srv = "51820" ∧
    ∃ s1 s2, AwgServerConfig.initPacketJunkSize srv = pretty s1 ∧ AwgServerConfig.responsePacketJunkSize srv = pretty s2 ∧ s1 + 148 ≠ s2 + 92.
Proof.
  destruct (@awg_parameters_generated nat shelf_dice shelf_laws (awg_server "51820" "udp") true (mkClient true 7%nat))
    as (fuel & srv & c' & ((s1 & s2 & s3 & s4 & Hj & E1 & E2 & _) & _ & _ & Hp & _) & H).
  exists fuel, srv, c'. split; [by apply H|]. split; [exact Hp|]. exists s1, s2. split; [exact E1|]. split; [exact E2|].
  destruct Hj as (_ & _ & _ & _ & _ & Hj). unfold isPacketSizeEqual, messageInitiationSize, messageResponseSize in Hj.
  rewrite !orb_false_iff, !Z.eqb_neq in Hj. lia.
Defined.

Definition obfuscated : AwgServerConfig :=
  with_version "2" (with_parameters 4 (20, 33, 7, 12) ["5-80"; "80-900"; "900-901"; "902-1000000"] (awg_server "51820" "udp")).
#[local] Existing Instances shelf.libssh shelf.server_view shelf.serves.
Definition obfuscated_server : client shelf.server :=
  mkClient false (shelf.mkServer None ∅ {[ ("amnezia-awg2", "/opt/amnezia/awg/awg0.conf") :=
    awg_document DockerContainer.Awg2 shelf.host obfuscated "private+key=" ]} ∅ 0).
Definition no_import : ImportCodec := {|
  qUncompress s := s; qr_write _ _ _ s := s; qr_read s := (0, 0, 0, s); captures _ _ := None; global_captures _ _ := [] |}.
#[local] Existing Instances no_import single_codec.
Lemma awg_settings_scanned_witness :
  ∃ c' x', extractConfigFromContainer DockerContainer.Awg2 shelf.host
    (ContainerConfig.protocolConfig (createBaseConfig DockerContainer.Awg2 51820 TransportProto.Udp)) obfuscated_server =
      (Some (PAwg (mkWithClient c' None), ErrorCode.NoError), x') ∧
    AwgServerConfig.transportPacketJunkSize c' = "12" ∧ AwgServerConfig.specialJunk2 c' = "".
Proof.
  assert (settled_settings obfuscated "private+key=") as Hs.
  { split; [..|split_and!; vm_compute; reflexivity]; try (vm_compute; reflexivity);
      [repeat (constructor; [split_and!; vm_compute; reflexivity|]); constructor|split_and!; vm_compute; reflexivity]. }
  pose proof (awg_settings_scanned DockerContainer.Awg2 shelf.host obfuscated "private+key=" 51820 TransportProto.Udp obfuscated_server
    eq_refl ltac:(exact (eq_refl "secret")) ltac:(split; vm_compute; reflexivity) Logic.I Hs ltac:(apply lookup_singleton_eq)) as H.
  unfold leads in H. destruct (extractConfigFromContainer _ _ _ obfuscated_server) as [r x'] eqn:E. destruct H as (c' & Hr & _ & _ & _ & _ & Hall). cbn in Hr.
  subst r. exists c', x'. split; [done|]. unfold conf_fields in Hall. rewrite Forall_app in Hall. destruct Hall as [H1 H2].
  rewrite bool_decide_eq_true_2 in H2 by done. rewrite !Forall_cons in H1; rewrite !Forall_cons in H2. destruct H2 as (_ & H2 & _). destruct H1 as (_ & _ & _ & _ & _ & _ & _ & _ & _ & _ & H1 & _).
  split; [by rewrite H2|by rewrite H1].
Defined.
