(* ===== verification/InstallController.v ===== *)
(** * InstallController: containers on a server of one's own

    Models [core/controllers/selfhosted/installController.cpp]: installing,
    changing and removing containers, what is found on a server, and what is kept
    of it in the repository of servers.  The session of the operation under way
    is part of the state; the user may cancel while the package manager is
    waited for. *)
From stdpp Require Import pretty.
From S2P Require Import ServersController.
From S2P Require Import Prelude Text Json Qt Wire Containers ProtocolConfigs XrayConfig ServerConfig Settings ServersRepository.
From S2P Require Import AppSettings Links ImportController Scripts SshSession Configurators XrayConfigurator OpenVpnConfigurator ConfiguratorBase.
From S2P Require Import XrayInstaller Installers.

Module InstallError.
Definition NoError : Z := 0.
Definition InternalError : Z := 101.
Definition ServerPortAlreadyAllocatedError : Z := 201.
Definition ServerContainerMissingError : Z := 202.
Definition ServerDockerFailedError : Z := 203.
Definition ServerCancelInstallation : Z := 204.
Definition ServerUserNotInSudo : Z := 205.
Definition ServerPacketManagerError : Z := 206.
Definition ServerSudoPackageIsNotPreinstalled : Z := 207.
Definition ServerUserDirectoryNotAccessible : Z := 208.
Definition ServerUserNotAllowedInSudoers : Z := 209.
Definition ServerUserPasswordRequired : Z := 210.
Definition ServerDockerOnCgroupsV2 : Z := 211.
Definition ServerCgroupMountpoint : Z := 212.
Definition DockerPullRateLimit : Z := 213.
Definition ServerLinuxKernelTooOld : Z := 214.
Definition ServerContainerRuntimeNotSupported : Z := 218.
Definition ContainerRuntimeServiceNotRunning : Z := 219.
Definition NoInstalledContainersError : Z := 902.
End InstallError.

(** ** What the outputs say *)
Definition dockerDaemonContainerMissing (out containerDockerName : string) : bool :=
  contains_ci "Error response from daemon" out &&
  ((contains_ci "No such container" out && contains_ci containerDockerName out) ||
   ((String.length out <? 700)%nat && contains_ci "is not running" out)).

(** The first check whose words are all there decides. *)
Fixpoint first_error (checks : list (bool * Z)) (error : Z) : Z :=
  match checks with
  | [] => error
  | (true, e) :: _ => e
  | (false, _) :: checks => first_error checks error
  end.

Definition buildRemoveContainerScript {R : Resources} (vars : ScriptVars) (removeDataVolume : bool) : string :=
  let script := replaceVars (shared_scriptData remove_container) vars in
  if removeDataVolume
  then replaceVars (script +:+ nl +:+ "sudo docker volume rm -f $CONTAINER_NAME-data 2>/dev/null || true") vars
  else script.

Definition is_proxy (c : DockerContainer) : bool := bool_decide (c ∈ [DockerContainer.MtProxy; DockerContainer.Telemt]).

(** ** The steps of an installation *)
Section workers.
Context {W : Type} {L : Libssh W} {J : JsonCodec} {IC : ImportCodec} {R : Resources}.
Abbreviation M := (stM (client W)).

Definition gathered (credentials : ServerCredentials) (script : string) : M (Z * string) :=
  runScript credentials script gather_lines gather_lines "".
(** The variables of a container with its settings. *)
Definition all_vars (credentials : ServerCredentials) (container : DockerContainer) (config : ProtocolConfig) : ScriptVars :=
  base_vars credentials container ++ genProtocolVarsForContainer container config.
Definition shared_script (credentials : ServerCredentials) (t : SharedScriptType) (container : DockerContainer) : string :=
  replaceVars (shared_scriptData t) (base_vars credentials container).

Definition isUserInSudo (credentials : ServerCredentials) : M Z :=
  '(error, stdOut) ← gathered credentials (shared_script credentials check_user_in_sudo DockerContainer.None);
  let has s := contains_str s stdOut in
  let user := negb (String.eqb (cred_userName credentials) "root") in
  mret (first_error
    [(user && has "sudo:" && negb (has "uname:") && has "not found", InstallError.ServerSudoPackageIsNotPreinstalled);
     (user && negb (has "sudo") && negb (has "wheel"), InstallError.ServerUserNotInSudo);
     (has "can't cd to" || has "Permission denied" || has "No such file or directory", InstallError.ServerUserDirectoryNotAccessible);
     (bool_decide (is_Some (captures "\bsudoers\b" stdOut)) || has "is not allowed to" || has "can't do that",
        InstallError.ServerUserNotAllowedInSudoers);
     (has "password is required" || has "authentication is required", InstallError.ServerUserPasswordRequired)] error).

(** Options of an expression are written into it. *)
Definition kernelVersionRegex : string := "Linux\s+(\d+)\.(\d+)[^\d]*".
Definition notFoundRegex : string := "(?m)^.*(?:sudo:|docker:).*not found.*$".
Definition kernel_too_old (stdOut : string) : bool :=
  match captures kernelVersionRegex stdOut with
  | Some (major :: minor :: _) =>
      let majorVersion := toInt_value major in
      let minorVersion := toInt_value minor in
      (majorVersion <? 4) || ((majorVersion =? 4) && (minorVersion <? 14))
  | _ => false
  end.
Definition restart_docker : callback (W := W) string := λ data x,
  if contains_str "Automatically restart Docker daemon?" data
  then e ← writeResponse "yes"; mret (e, x +:+ data +:+ nl)
  else mret (ErrorCode.NoError, x +:+ data +:+ nl).
Definition installDockerWorker (credentials : ServerCredentials) (container : DockerContainer) : M Z :=
  '(error, stdOut) ← runScript credentials (shared_script credentials install_docker DockerContainer.None) restart_docker gather_lines "";
  _ ← (if is_proxy container then discard (gathered credentials (shared_script credentials install_conntrack DockerContainer.None))
       else mret tt);
  let has s := contains_str s stdOut in
  mret (first_error
    [(bool_decide (container = DockerContainer.Awg2) && kernel_too_old stdOut, InstallError.ServerLinuxKernelTooOld);
     (has "lock", InstallError.ServerPacketManagerError);
     (has "Container runtime is not supported", InstallError.ServerContainerRuntimeNotSupported);
     (bool_decide (is_Some (captures notFoundRegex stdOut)), InstallError.ServerDockerFailedError);
     (has "Container runtime service not running", InstallError.ContainerRuntimeServiceNotRunning)] error).

(** *** The port *)
Definition chosen_port (container : DockerContainer) (config : ProtocolConfig) : string :=
  filled (ProtocolConfig.port config) (pretty (defaultPort (defaultProtocol container))).
Definition chosen_transport (container : DockerContainer) (config : ProtocolConfig) : string :=
  filled (ProtocolConfig.transportProto config) (transportProtoToString (defaultTransportProto (defaultProtocol container))).
Definition port_script (container : DockerContainer) (config : ProtocolConfig) : string :=
  foldl (λ script port, script +:+ "|:" +:+ port)
    ("which lsof > /dev/null 2>&1 || true && sudo lsof -i -P -n 2>/dev/null | grep -E ':" +:+ chosen_port container config +:+ " ")
    (fixedPortsForContainer container).
Definition port_scripts (container : DockerContainer) (config : ProtocolConfig) : list string :=
  let script := port_script container config in
  let transportProto := chosen_transport container config in
  if String.eqb transportProto "tcpandudp" then [script +:+ "' | grep -i tcp | grep LISTEN"; script +:+ "' | grep -i udp"]
  else [script +:+ "' | grep -i " +:+ transportProto +:+ (if String.eqb transportProto "tcp" then " | grep LISTEN" else "")].
Fixpoint run_gathering (credentials : ServerCredentials) (container : DockerContainer) (scripts : list string) (stdOut : string) : M (Z * string) :=
  match scripts with
  | [] => mret (InstallError.NoError, stdOut)
  | script :: scripts =>
      '(errorCode, stdOut) ← runScript credentials (replaceVars script (base_vars credentials container)) gather_lines gather_lines stdOut;
      if negb (errorCode =? InstallError.NoError) then mret (errorCode, stdOut)
      else run_gathering credentials container scripts stdOut
  end.
Definition isServerPortBusy (credentials : ServerCredentials) (container : DockerContainer) (config : ProtocolConfig) : M Z :=
  if bool_decide (container = DockerContainer.Dns) then mret InstallError.NoError else
  '(errorCode, stdOut) ← run_gathering credentials container (port_scripts container config) "";
  mret (if negb (errorCode =? InstallError.NoError) then errorCode
        else if negb (String.eqb stdOut "") then InstallError.ServerPortAlreadyAllocatedError else InstallError.NoError).

Definition prepareHostWorker (credentials : ServerCredentials) (container : DockerContainer) : M Z :=
  run credentials (shared_script credentials prepare_host container).
Definition setupServerFirewall (credentials : ServerCredentials) : M Z :=
  run credentials (shared_script credentials setup_host_firewall DockerContainer.None).

(** *** The container *)
Definition buildContainerWorker (credentials : ServerCredentials) (container : DockerContainer) (config : ProtocolConfig) : M Z :=
  let dockerfilePath := "/opt/amnezia/" +:+ containerToString container +:+ "/Dockerfile" in
  or_return (run credentials (replaceVars ("sudo rm " +:+ dockerfilePath) (base_vars credentials container))) (
  or_return (uploadFileToHost credentials (scriptData dockerfile container) dockerfilePath) (
  '(error, stdOut) ← gathered credentials (replaceVars (shared_scriptData build_container) (all_vars credentials container config));
  let has s := contains_str s stdOut in
  mret (first_error
    [(has "doesn't work on cgroups v2", InstallError.ServerDockerOnCgroupsV2);
     (has "cgroup mountpoint does not exist", InstallError.ServerCgroupMountpoint);
     (has "have reached" && has "pull rate limit", InstallError.DockerPullRateLimit)] error))).

Definition runContainerWorker (credentials : ServerCredentials) (container : DockerContainer) (config : ProtocolConfig) : M Z :=
  '(e, stdOut) ← runScript credentials (replaceVars (scriptData run_container container) (all_vars credentials container config))
    gather_lines no_callback "";
  let has s := contains_str s stdOut in
  mret (first_error
    [(has "address already in use", InstallError.ServerPortAlreadyAllocatedError);
     (has "is already in use by container", InstallError.ServerPortAlreadyAllocatedError);
     (has "invalid publish", InstallError.ServerDockerFailedError)] e).

(** What the script that configures a container prints is kept of some. *)
Definition reSecret : string := "(?i)\[\*\]\s+Secret:\s+([0-9a-fA-F]{32})".
Definition reTgLink : string := "\[\*\]\s+tg://\s+link:\s+(tg://proxy\?[^\s]+)".
Definition reTmeLink : string := "\[\*\]\s+t\.me\s+link:\s+(https://t\.me/proxy\?[^\s]+)".
Definition captured (regexp stdOut d : string) : string :=
  match captures regexp stdOut with Some (s :: _) => s | _ => d end.
Definition updateContainerConfigAfterInstallation (container : DockerContainer) (config : ProtocolConfig) (stdOut : string) : ProtocolConfig :=
  match container, config with
  | DockerContainer.TorWebSite, PTor _ => PTor (TorServerConfig.mk (replace_str nl "" stdOut))
  | DockerContainer.MtProxy, PMtProxy (MtProxyProtocolConfig.mk a1 secret a3 tgLink tmeLink a6 a7 a8 a9 a10 a11 a12 a13 a14 a15) =>
      PMtProxy (MtProxyProtocolConfig.mk a1 (captured reSecret stdOut secret) a3 (captured reTgLink stdOut tgLink)
        (captured reTmeLink stdOut tmeLink) a6 a7 a8 a9 a10 a11 a12 a13 a14 a15)
  | DockerContainer.Telemt, PTelemt (TelemtProtocolConfig.mk a1 secret a3 tgLink tmeLink a6 a7 a8 a9 a10 a11 a12 a13 a14 a15 a16 a17 a18 a19) =>
      PTelemt (TelemtProtocolConfig.mk a1 (captured reSecret stdOut secret) a3 (captured reTgLink stdOut tgLink)
        (captured reTmeLink stdOut tmeLink) a6 a7 a8 a9 a10 a11 a12 a13 a14 a15 a16 a17 a18 a19)
  | _, _ => config
  end.
Definition upload_snapshot (container : DockerContainer) (credentials : ServerCredentials) (config : ProtocolConfig) : M unit :=
  match container with
  | DockerContainer.MtProxy => mtproxy_uploadClientSettingsSnapshot container credentials config
  | DockerContainer.Telemt => telemt_uploadClientSettingsSnapshot container credentials config
  | _ => mret tt
  end.
(** The error, and the settings as they are then. *)
Definition configureContainerWorker (credentials : ServerCredentials) (container : DockerContainer) (config : ProtocolConfig) :
    M (Z * ProtocolConfig) :=
  '(e, stdOut) ← runContainerScript credentials container
    (replaceVars (scriptData configure_container container) (all_vars credentials container config)) gather_lines gather_lines "";
  if negb (e =? InstallError.NoError) then mret (e, config) else
  if dockerDaemonContainerMissing stdOut (containerToString container) then mret (InstallError.ServerContainerMissingError, config) else
  let config := updateContainerConfigAfterInstallation container config stdOut in
  _ ← upload_snapshot container credentials config;
  mret (InstallError.NoError, config).

Definition startupContainerWorker (credentials : ServerCredentials) (container : DockerContainer) (config : ProtocolConfig) : M Z :=
  let script := scriptData container_startup container in
  if String.eqb script "" then mret InstallError.NoError else
  let vars := all_vars credentials container config in
  or_return (uploadTextFileToContainer container credentials (replaceVars script vars) "/opt/amnezia/start.sh" ScpOverwriteExisting)
    (run credentials (replaceVars ("sudo docker exec -d $CONTAINER_NAME sh -c " +:+
       quoted "chmod a+x /opt/amnezia/start.sh && /opt/amnezia/start.sh") vars)).
End workers.

(** ** The decision what a change of settings needs *)
Definition changed_reinstall {S C} (equal : S → S → bool) (oldConfig newConfig : WithClient S C) : bool :=
  negb (equal (serverConfig oldConfig) (serverConfig newConfig)).
Definition isReinstallContainerRequired (container : DockerContainer) (oldConfig newConfig : ProtocolConfig) : bool :=
  match container, oldConfig, newConfig with
  | DockerContainer.OpenVpn, POpenVpn o, POpenVpn n => changed_reinstall OpenVpnServerConfig.hasEqualServerSettings o n
  | (DockerContainer.Awg | DockerContainer.Awg2), PAwg o, PAwg n => changed_reinstall AwgServerConfig.hasEqualServerSettings o n
  | DockerContainer.WireGuard, PWireGuard o, PWireGuard n => changed_reinstall WireGuardServerConfig.hasEqualServerSettings o n
  | (DockerContainer.Xray | DockerContainer.SSXray), PXray o, PXray n =>
      negb (XrayConfig.hasEqualServerSettings (XrayProtocolConfig.serverConfig o) (XrayProtocolConfig.serverConfig n))
  | DockerContainer.MtProxy, PMtProxy o, PMtProxy n =>
      negb (String.eqb (filled (MtProxyProtocolConfig.port o) "443") (filled (MtProxyProtocolConfig.port n) "443"))
  | DockerContainer.Telemt, PTelemt o, PTelemt n =>
      negb (String.eqb (filled (TelemtProtocolConfig.port o) "443") (filled (TelemtProtocolConfig.port n) "443"))
  | DockerContainer.Socks5Proxy, _, _ => true
  | _, _, _ => false
  end.
Definition isUpdateDockerContainerRequired (container : DockerContainer) (oldConfig newConfig : ProtocolConfig) : bool :=
  match container, oldConfig, newConfig with
  | (DockerContainer.Awg | DockerContainer.Awg2), PAwg o, PAwg n =>
      negb (AwgServerConfig.hasEqualServerSettings (serverConfig o) (serverConfig n))
  | DockerContainer.WireGuard, PWireGuard o, PWireGuard n =>
      negb (WireGuardServerConfig.hasEqualServerSettings (serverConfig o) (serverConfig n))
  | DockerContainer.MtProxy, PMtProxy o, PMtProxy n => negb (MtProxyProtocolConfig.equalsDockerDeploymentSettings o n)
  | DockerContainer.Telemt, PTelemt o, PTelemt n => negb (TelemtProtocolConfig.equalsDockerDeploymentSettings o n)
  | _, _, _ => true
  end.

Inductive install_signal :=
  | configValidated (isValid : bool)
  | validationErrorOccurred (errorCode : Z)
  | serverIsBusy (isBusy : bool)
  | clientRevocationRequested (serverId : string) (containerConfig : ContainerConfig) (container : DockerContainer)
  | clientAppendRequested (serverId clientId clientName : string) (container : DockerContainer).

Record installer (T W : Type) := mkInstaller {
  m_serversRepository : repository T;
  m_appSettings : T;
  m_cancelInstallation : bool;
  emitted : list install_signal;
  i_session : client W;                (** of the operation under way *)
}.
Arguments mkInstaller {T W}.
Arguments m_serversRepository {T W}.
Arguments m_appSettings {T W}.
Arguments m_cancelInstallation {T W}.
Arguments emitted {T W}.
Arguments i_session {T W}.

(** A map of containers in the order of its keys. *)
Definition container_entries (m : container_map) : list (DockerContainer * ContainerConfig) :=
  omap (λ c, (λ config, (c, config)) <$> m !! c) allContainers.

(** What is found on a server: the names and ports of its containers. *)
Definition containerAndPortRegExp : string := "(amnezia[-a-z0-9]*).*?:([0-9]*)->[0-9]*/(udp|tcp).*".
Definition torOrDnsRegExp : string := "(amnezia-(?:torwebsite|dns)).*?([0-9]*)/(udp|tcp).*".

Section scan.
Context {W : Type} {L : Libssh W} {J : JsonCodec} {IC : ImportCodec}.
Abbreviation M := (stM (client W)).

Inductive line_outcome := Next (m : container_map) | Stop (errorCode : Z).
(** What a match of one of the expressions adds: whether the line is left, and
    the containers; [None]: Xray's reader takes the first of no names. *)
Definition scan_match (credentials : ServerCredentials) (regexp containerInfo : string) (installed : container_map) :
    M (option (bool * line_outcome)) :=
  match captures regexp containerInfo with
  | Some (name :: portStr :: transportProtoStr :: _) =>
      let container := containerFromString name in
      if bool_decide (container = DockerContainer.None) || isUnsupportedContainer container then mret (Some (true, Next installed)) else
      let config := createBaseConfig container (toInt_value portStr) (transportProtoFromString transportProtoStr) in
      then_some (extractConfigFromContainer container credentials (ContainerConfig.protocolConfig config)) (λ r,
      let '(p, extractError) := r in
      mret (Some (if negb (extractError =? InstallError.NoError) && negb (extractError =? InstallError.ServerContainerMissingError)
                  then (true, Stop extractError)
                  else (false, Next (<[container := set_protocol p config]> installed)))))
  | _ => mret (Some (false, Next installed))
  end.
Definition scan_line (credentials : ServerCredentials) (containerInfo : string) (installed : container_map) : M (option line_outcome) :=
  if String.eqb containerInfo "" then mret (Some (Next installed)) else
  then_some (scan_match credentials containerAndPortRegExp containerInfo installed) (λ r,
  match r with
  | (false, Next installed) =>
      then_some (scan_match credentials torOrDnsRegExp containerInfo installed) (λ r, mret (Some r.2))
  | (_, outcome) => mret (Some outcome)
  end).
Fixpoint scan_lines (credentials : ServerCredentials) (containerInfos : list string) (installed : container_map) :
    M (option (Z * container_map)) :=
  match containerInfos with
  | [] => mret (Some (InstallError.NoError, installed))
  | containerInfo :: containerInfos =>
      then_some (scan_line credentials containerInfo installed) (λ outcome,
      match outcome with
      | Stop errorCode => mret (Some (errorCode, installed))
      | Next installed => scan_lines credentials containerInfos installed
      end)
  end.
Definition getAlreadyInstalledContainers (credentials : ServerCredentials) : M (option (Z * container_map)) :=
  '(errorCode, stdOut) ← gathered credentials "sudo docker ps --format '{{.Names}} {{.Ports}}'";
  if negb (errorCode =? InstallError.NoError) then mret (Some (errorCode, ∅))
  else scan_lines credentials (lines_of stdOut) ∅.
End scan.

Section controller.
Context {T W : Type} {A : Store T} {Q : Qt} {J : JsonCodec} {P : ArrayPrinter} {JP : JsonPrinter} {LC : LinkCodec} {IC : ImportCodec}.
Context {L : Libssh W} {CK : ClientKeys W} {CR : CertRequests W} {U : Uuids W} {R : Resources} {D : Dice W}.
Context (b : build) (uuid : nat → string) (prettyProductName : string).
Abbreviation C := (stM (installer T W)).
Abbreviation admin := SelfHostedAdminServerConfig.

Definition emit (g : install_signal) : C unit :=
  modify (λ x, mkInstaller (m_serversRepository x) (m_appSettings x) (m_cancelInstallation x) (emitted x ++ [g]) (i_session x)).
Definition set_cancel (cancel : bool) : C unit :=
  modify (λ x, mkInstaller (m_serversRepository x) (m_appSettings x) cancel (emitted x) (i_session x)).
Definition set_repository (f : repository T → repository T) : C unit :=
  modify (λ x, mkInstaller (f (m_serversRepository x)) (m_appSettings x) (m_cancelInstallation x) (emitted x) (i_session x)).
Definition repo {X} (f : repository T → X) : C X := λ x, (f (m_serversRepository x), x).
Definition setting {X} (f : T → X * T) : C X :=
  λ x, let '(y, t) := f (m_appSettings x) in (y, mkInstaller (m_serversRepository x) t (m_cancelInstallation x) (emitted x) (i_session x)).
Definition ssh {X} (m : stM (client W) X) : C X :=
  λ x, let '(y, s) := m (i_session x) in (y, mkInstaller (m_serversRepository x) (m_appSettings x) (m_cancelInstallation x) (emitted x) s).
Definition hold_session (held : bool) : C unit :=
  modify (λ x, mkInstaller (m_serversRepository x) (m_appSettings x) (m_cancelInstallation x) (emitted x) (mkClient held (world (i_session x)))).
(** [SshSession sshSession;], until the end of its scope; what was under way goes on. *)
Definition in_session {X} (m : C X) : C X :=
  x ← get;
  _ ← hold_session false;
  r ← m;
  _ ← ssh disconnectFromHost;
  _ ← hold_session (m_session (i_session x));
  mret r.

Definition cancelInstallation : C unit := set_cancel true.

(** The server, when it is administered. *)
Definition with_admin {X} (serverId : string) (missing : X) (k : admin → C X) : C X :=
  adminConfig ← repo (selfHostedAdminConfig serverId);
  match (adminConfig : option admin) with None => mret missing | Some c => k c end.
(** The same with credentials one can log in with. *)
Definition with_credentials {X} (serverId : string) (missing : X) (k : admin → ServerCredentials → C X) : C X :=
  with_admin serverId missing (λ c,
    let credentials := SelfHostedAdminServerConfig.credentials c in
    if negb (ServerConfig.isValid credentials) then mret missing else k c credentials).
Definition save_admin (serverId : string) (c : admin) : C unit :=
  set_repository (editServer serverId (SelfHostedAdminServerConfig.toJson c) SelfHostedAdmin).
Definition admin_update (container : DockerContainer) (config : ContainerConfig) (c : admin) : admin :=
  SelfHostedAdminServerConfig.with_common (updateContainerConfig container config (SelfHostedAdminServerConfig.common c)) c.

(** *** Waiting for the package manager *)

(** Whether the user cancels before an attempt. *)
Fixpoint dpkg_attempts (credentials : ServerCredentials) (cancels : nat → bool) (i n : nat) : C Z :=
  match n with
  | O => mret InstallError.ServerPacketManagerError
  | S n =>
      _ ← (if cancels i then cancelInstallation else mret tt);
      x ← get;
      if m_cancelInstallation x then mret InstallError.ServerCancelInstallation else
      '(_, stdOut) ← ssh (gathered credentials (shared_script credentials check_server_is_busy DockerContainer.None));
      let has s := contains_str s stdOut in
      if has "Packet manager not found" then mret InstallError.ServerPacketManagerError
      else if has "fuser not installed" || has "cat not installed" then mret InstallError.NoError
      else if String.eqb stdOut "" then mret InstallError.NoError
      else _ ← emit (serverIsBusy true); dpkg_attempts credentials cancels (S i) n
  end.
Definition isServerDpkgBusy (credentials : ServerCredentials) (cancels : nat → bool) : C Z :=
  _ ← set_cancel false;
  result ← dpkg_attempts credentials cancels 0 30;
  _ ← emit (serverIsBusy false);
  mret result.

(** *** Setting a container up *)
Definition c_return (m : C Z) (config : ProtocolConfig) (k : C (Z * ProtocolConfig)) : C (Z * ProtocolConfig) :=
  e ← m; if negb ((e : Z) =? InstallError.NoError) then mret (e, config) else k.
(** The error, and the settings as they are then. *)
Definition setupContainer (credentials : ServerCredentials) (cancels : nat → bool) (container : DockerContainer) (config : ProtocolConfig)
    (isUpdate : bool) : C (Z * ProtocolConfig) :=
  in_session (
  c_return (ssh (isUserInSudo credentials)) config (
  c_return (isServerDpkgBusy credentials cancels) config (
  c_return (ssh (installDockerWorker credentials container)) config (
  c_return (if isUpdate then mret InstallError.NoError else ssh (isServerPortBusy credentials container config)) config (
  c_return (ssh (prepareHostWorker credentials container)) config (
  _ ← ssh (run credentials (buildRemoveContainerScript (base_vars credentials container) (negb isUpdate && is_proxy container)));
  c_return (ssh (buildContainerWorker credentials container config)) config (
  c_return (ssh (runContainerWorker credentials container config)) config (
  '(e, config) ← ssh (configureContainerWorker credentials container config);
  if negb (e =? InstallError.NoError) then mret (e, config) else
  _ ← ssh (setupServerFirewall credentials);
  e ← ssh (startupContainerWorker credentials container config);
  mret (e, config))))))))).

(** *** Changing settings *)
Definition clearCachedProfile (serverId : string) (container : DockerContainer) : C unit :=
  if decide (containerService container = ServiceType.Other) then mret tt else
  with_admin serverId tt (λ c,
    let containerConfigModel := containerConfig container (SelfHostedAdminServerConfig.common c) in
    _ ← save_admin serverId (SelfHostedAdminServerConfig.clearCachedClientProfile container c);
    emit (clientRevocationRequested serverId containerConfigModel container)).

(** The server is changed over SSH: the error, and the settings. *)
Definition apply_settings (credentials : ServerCredentials) (cancels : nat → bool) (container : DockerContainer) (reinstallRequired : bool)
    (config : ProtocolConfig) : C (Z * ProtocolConfig) :=
  if reinstallRequired then setupContainer credentials cancels container config true else
  '(errorCode, config) ← ssh (configureContainerWorker credentials container config);
  errorCode ← (if errorCode =? InstallError.NoError then ssh (startupContainerWorker credentials container config) else mret errorCode);
  errorCode ← (if (errorCode =? InstallError.NoError) && is_proxy container
               then ssh (run credentials ("sudo docker restart " +:+ containerToString container)) else mret errorCode);
  mret (errorCode, config).
Definition updateServerConfig (serverId : string) (cancels : nat → bool) (container : DockerContainer) (oldConfig newConfig : ContainerConfig) :
    C (Z * ContainerConfig) :=
  let old := ContainerConfig.protocolConfig oldConfig in
  let new := ContainerConfig.protocolConfig newConfig in
  if negb (isUpdateDockerContainerRequired container old new) then
    with_admin serverId (InstallError.InternalError, newConfig) (λ c,
      _ ← in_session (ssh (upload_snapshot container (SelfHostedAdminServerConfig.credentials c) new));
      _ ← save_admin serverId (admin_update container newConfig c);
      mret (InstallError.NoError, newConfig))
  else
    with_credentials serverId (InstallError.InternalError, newConfig) (λ c credentials,
      in_session (
      let reinstallRequired := isReinstallContainerRequired container old new in
      '(errorCode, p) ← apply_settings credentials cancels container reinstallRequired new;
      let newConfig := set_protocol p newConfig in
      if errorCode =? InstallError.NoError then
        _ ← ssh (upload_snapshot container credentials p);
        _ ← (if reinstallRequired then clearCachedProfile serverId container else mret tt);
        _ ← save_admin serverId (admin_update container newConfig c);
        mret (errorCode, newConfig)
      else mret (errorCode, newConfig))).

Definition update_stored {X} (serverId : string) (cfg : option X) (json : X → gmap string json) (update : X → X) (kind : ConfigType) : C Z :=
  match cfg with
  | None => mret InstallError.InternalError
  | Some c => _ ← set_repository (editServer serverId (json (update c)) kind); mret InstallError.NoError
  end.
Definition updateClientConfig (serverId : string) (container : DockerContainer) (newConfig : ContainerConfig) : C Z :=
  r ← repo id;
  let update := updateContainerConfig container newConfig in
  match serverKind serverId r with
  | SelfHostedAdmin =>
      update_stored serverId (selfHostedAdminConfig serverId r) SelfHostedAdminServerConfig.toJson (admin_update container newConfig) SelfHostedAdmin
  | SelfHostedUser =>
      update_stored serverId (selfHostedUserConfig serverId r) SelfHostedUserServerConfig.toJson
        (λ c, SelfHostedUserServerConfig.mk (update (SelfHostedUserServerConfig.common c))) SelfHostedUser
  | Native =>
      update_stored serverId (ServersRepository.nativeConfig serverId r) NativeServerConfig.toJson
        (λ c, NativeServerConfig.mk (update (NativeServerConfig.common c))) Native
  | _ => mret InstallError.InternalError
  end.

(** *** New clients *)
Definition dns_settings : C DnsSettings :=
  primary ← setting AppSettings.primaryDns;
  secondary ← setting AppSettings.secondaryDns;
  mret (mkDns primary secondary).
(** The error, and the settings with a client of their own; [None]: a null
    configurator is used. *)
Definition prepareContainerConfig (container : DockerContainer) (credentials : ServerCredentials) (config : ContainerConfig) :
    C (option (Z * ContainerConfig)) :=
  if negb (isSupportedByCurrentPlatform b container) || bool_decide (containerService container = ServiceType.Other)
  then mret (Some (InstallError.NoError, config)) else
  dns ← dns_settings;
  match create (defaultProtocol container) with
  | None => mret None
  | Some k =>
      '(newProtocolConfig, errorCode) ← ssh (createConfig b k credentials container (ContainerConfig.protocolConfig config) dns);
      mret (Some (if negb (errorCode =? InstallError.NoError) then (errorCode, config)
                  else (InstallError.NoError, set_protocol newProtocolConfig config)))
  end.
Definition adminAppendRequested (serverId : string) (container : DockerContainer) (config : ContainerConfig) (clientName : string) : C unit :=
  let p := ContainerConfig.protocolConfig config in
  if bool_decide (containerService container = ServiceType.Other) || negb (ProtocolConfig.hasClientConfig p) then mret tt else
  let clientId := ProtocolConfig.clientId p in
  if String.eqb clientId "" then mret tt else emit (clientAppendRequested serverId clientId clientName container).
Definition processContainerForAdmin (container : DockerContainer) (config : ContainerConfig) (credentials : ServerCredentials)
    (serverId clientName : string) : C (option (Z * ContainerConfig)) :=
  then_some (prepareContainerConfig container credentials config) (λ r,
  let '(errorCode, config) := r in
  if negb (errorCode =? InstallError.NoError) then mret (Some (errorCode, config)) else
  _ ← adminAppendRequested serverId container config clientName;
  mret (Some (InstallError.NoError, config))).
Definition clientName : string := "Admin [" +:+ prettyProductName +:+ "]".

(** The default container of a server and its settings. *)
Definition default_config (cfg : option server_common) : option (DockerContainer * ContainerConfig) :=
  (λ s, (defaultContainer s, containerConfig (defaultContainer s) s)) <$> cfg.
Definition validateAndPrepareConfig (serverId : string) : C (option Z) :=
  r ← repo id;
  let kind := serverKind serverId r in
  match default_config match kind with
        | SelfHostedAdmin => SelfHostedAdminServerConfig.common <$> selfHostedAdminConfig serverId r
        | SelfHostedUser => SelfHostedUserServerConfig.common <$> selfHostedUserConfig serverId r
        | Native => NativeServerConfig.common <$> ServersRepository.nativeConfig serverId r
        | _ => None
        end with
  | None => mret (Some InstallError.InternalError)
  | Some (container, config) =>
      if bool_decide (container = DockerContainer.None) then mret (Some InstallError.NoInstalledContainersError)
      else if ProtocolConfig.hasClientConfig (ContainerConfig.protocolConfig config) then mret (Some InstallError.NoError)
      else if bool_decide (kind ≠ SelfHostedAdmin) then mret (Some InstallError.InternalError)
      else
        with_credentials serverId (Some InstallError.InternalError) (λ c credentials,
          in_session (then_some (processContainerForAdmin container config credentials serverId clientName) (λ r,
          let '(errorCode, config) := r in
          if negb (errorCode =? InstallError.NoError) then mret (Some errorCode) else
          _ ← save_admin serverId (admin_update container config c);
          mret (Some InstallError.NoError))))
  end.
Definition validateConfig (serverId : string) : C (option unit) :=
  then_some (validateAndPrepareConfig serverId) (λ errorCode,
  _ ← (if errorCode =? InstallError.NoError then emit (configValidated true)
       else _ ← emit (validationErrorOccurred errorCode); emit (configValidated false));
  mret (Some tt)).

(** *** Servers *)
Definition new_server (credentials : ServerCredentials) (description : string) (m : container_map) (container : DockerContainer) : admin :=
  SelfHostedAdminServerConfig.mk
    (mkServer description (filled description (cred_hostName credentials)) (cred_hostName credentials) m container "" "")
    (cred_userName credentials) (secretData credentials) (cred_port credentials).
(** The identifier of the new server. *)
Definition add_admin (c : admin) : C string :=
  λ x, let '(id, r) := addServer uuid "" (SelfHostedAdminServerConfig.toJson c) SelfHostedAdmin (m_serversRepository x) in
       (id, mkInstaller r (m_appSettings x) (m_cancelInstallation x) (emitted x) (i_session x)).
Definition addEmptyServer (credentials : ServerCredentials) : C unit :=
  name ← repo next_server_name;
  discard (add_admin (new_server credentials name ∅ DockerContainer.None)).

Definition rebootServer (serverId : string) : C Z :=
  with_credentials serverId InstallError.InternalError (λ _ credentials,
    in_session ('(e, _) ← ssh (runScript credentials "sudo reboot" gather gather_lines ""); mret e)).

Definition with_containers (m : container_map) (container : DockerContainer) (c : admin) : admin :=
  let s := SelfHostedAdminServerConfig.common c in
  SelfHostedAdminServerConfig.with_common
    (mkServer (description s) (displayName s) (hostName s) m container (dns1 s) (dns2 s)) c.
Definition removeAllContainers (serverId : string) : C Z :=
  with_credentials serverId InstallError.InternalError (λ c credentials,
    in_session (
    errorCode ← ssh (run credentials (shared_scriptData remove_all_containers));
    _ ← (if errorCode =? InstallError.NoError then save_admin serverId (with_containers ∅ DockerContainer.None c) else mret tt);
    mret errorCode)).

(** The default container once one is removed: the first of the others. *)
Definition next_default (container defaultContainer : DockerContainer) (m : container_map) : DockerContainer :=
  if bool_decide (defaultContainer = container)
  then default DockerContainer.None (head (container_entries m).*1) else defaultContainer.
Definition without_container (container : DockerContainer) (c : admin) : admin :=
  let s := SelfHostedAdminServerConfig.common c in
  let m := delete container (containers s) in
  with_containers m (next_default container (defaultContainer s) m) c.
Definition removeContainer (serverId : string) (container : DockerContainer) : C Z :=
  with_credentials serverId InstallError.InternalError (λ c credentials,
    in_session (
    errorCode ← ssh (run credentials (buildRemoveContainerScript (base_vars credentials container) (is_proxy container)));
    _ ← (if errorCode =? InstallError.NoError then save_admin serverId (without_container container c) else mret tt);
    mret errorCode)).

(** *** Installing *)
Definition installContainer (fuel : nat) (credentials : ServerCredentials) (cancels : nat → bool) (container : DockerContainer) (port : Z)
    (transportProto : TransportProto) : C (option (Z * ContainerConfig)) :=
  then_some (ssh (generateConfig fuel container port transportProto)) (λ config,
  '(e, p) ← setupContainer credentials cancels container (ContainerConfig.protocolConfig config) false;
  mret (Some (e, set_protocol p config))).

(** The containers found, and the one asked for, installed when it is none of
    them: the error, the containers, and whether it was. *)
Definition found_or_installed (fuel : nat) (credentials : ServerCredentials) (cancels : nat → bool) (container : DockerContainer) (port : Z)
    (transportProto : TransportProto) : C (option (Z * container_map * bool)) :=
  then_some (ssh (getAlreadyInstalledContainers credentials)) (λ r,
  let '(errorCode, installed) := r in
  if negb (errorCode =? InstallError.NoError) then mret (Some (errorCode, ∅, false))
  else if bool_decide (is_Some (installed !! container)) then mret (Some (InstallError.NoError, installed, false)) else
  then_some (installContainer fuel credentials cancels container port transportProto) (λ r,
  let '(errorCode, config) := r in
  mret (Some (if negb (errorCode =? InstallError.NoError) then (errorCode, ∅, false)
              else (InstallError.NoError, <[container := config]> installed, true))))).

(** What is done with each container of a list, until one fails. *)
Fixpoint each_container {X} (f : DockerContainer → ContainerConfig → X → C (option (Z * X)))
    (entries : list (DockerContainer * ContainerConfig)) (x : X) : C (option (Z * X)) :=
  match entries with
  | [] => mret (Some (InstallError.NoError, x))
  | (container, config) :: entries =>
      then_some (f container config x) (λ r,
      let '(errorCode, x) := r in
      if negb (errorCode =? InstallError.NoError) then mret (Some (errorCode, x)) else each_container f entries x)
  end.

(** A container found on a server that is known is added to what is known of it;
    whether there was a new one is remembered. *)
Definition default_found (container defaultContainer : DockerContainer) : DockerContainer :=
  if bool_decide (defaultContainer = DockerContainer.None) && bool_decide (containerService container ≠ ServiceType.Other) &&
     isSupportedByCurrentPlatform b container then container else defaultContainer.
Definition with_found (container : DockerContainer) (config : ContainerConfig) (c : admin) : admin :=
  let s := SelfHostedAdminServerConfig.common c in
  with_containers (<[container := config]> (containers s)) (default_found container (defaultContainer s)) c.
Definition add_found (credentials : ServerCredentials) (serverId : string) (container : DockerContainer) (config : ContainerConfig)
    (x : admin * bool) : C (option (Z * (admin * bool))) :=
  let '(c, hasNewContainers) := x in
  if bool_decide (is_Some (containers (SelfHostedAdminServerConfig.common c) !! container)) then mret (Some (InstallError.NoError, x)) else
  then_some (processContainerForAdmin container config credentials serverId clientName) (λ r,
  let '(errorCode, config) := r in
  mret (Some (if negb (errorCode =? InstallError.NoError) then (errorCode, x)
              else (InstallError.NoError, (with_found container config c, true))))).
Definition scanServerForInstalledContainers (serverId : string) : C (option Z) :=
  with_credentials serverId (Some InstallError.InternalError) (λ c credentials,
    in_session (
    then_some (ssh (getAlreadyInstalledContainers credentials)) (λ r,
    let '(errorCode, installed) := r in
    if negb (errorCode =? InstallError.NoError) then mret (Some errorCode) else
    then_some (each_container (add_found credentials serverId) (container_entries installed) (c, false)) (λ r,
    let '(errorCode, (c, hasNewContainers)) := r in
    if negb (errorCode =? InstallError.NoError) then mret (Some errorCode) else
    _ ← (if hasNewContainers then save_admin serverId c else mret tt);
    mret (Some InstallError.NoError))))).

(** A server that is not known: its containers get clients of ours, and are
    announced once the server has an identifier. *)
Definition prepare_found (credentials : ServerCredentials) (container : DockerContainer) (config : ContainerConfig) (m : container_map) :
    C (option (Z * container_map)) :=
  then_some (prepareContainerConfig container credentials config) (λ r,
  let '(errorCode, config) := r in
  mret (Some (if negb (errorCode =? InstallError.NoError) then (errorCode, m) else (InstallError.NoError, <[container := config]> m)))).
Fixpoint announce (serverId : string) (entries : list (DockerContainer * ContainerConfig)) : C unit :=
  match entries with
  | [] => mret tt
  | (container, config) :: entries => _ ← adminAppendRequested serverId container config clientName; announce serverId entries
  end.
(** The error, and whether the container was installed. *)
Definition installServer (fuel : nat) (credentials : ServerCredentials) (cancels : nat → bool) (container : DockerContainer) (port : Z)
    (transportProto : TransportProto) : C (option (Z * bool)) :=
  in_session (
  then_some (found_or_installed fuel credentials cancels container port transportProto) (λ r,
  let '(errorCode, installed, wasContainerInstalled) := r in
  if negb (errorCode =? InstallError.NoError) then mret (Some (errorCode, wasContainerInstalled)) else
  then_some (each_container (prepare_found credentials) (container_entries installed) ∅) (λ r,
  let '(errorCode, prepared) := r in
  if negb (errorCode =? InstallError.NoError) then mret (Some (errorCode, wasContainerInstalled)) else
  name ← repo next_server_name;
  newServerId ← add_admin (new_server credentials name prepared container);
  _ ← announce newServerId (container_entries prepared);
  mret (Some (InstallError.NoError, wasContainerInstalled))))).

(** A container on a server that is known, saved one at a time. *)
Definition add_installed (credentials : ServerCredentials) (serverId : string) (container : DockerContainer) (config : ContainerConfig)
    (c : admin) : C (option (Z * admin)) :=
  if bool_decide (ContainerConfig.container (containerConfig container (SelfHostedAdminServerConfig.common c)) ≠ DockerContainer.None)
  then mret (Some (InstallError.NoError, c)) else
  then_some (processContainerForAdmin container config credentials serverId clientName) (λ r,
  let '(errorCode, config) := r in
  if negb (errorCode =? InstallError.NoError) then mret (Some (errorCode, c)) else
  let c := admin_update container config c in
  _ ← save_admin serverId c;
  mret (Some (InstallError.NoError, c))).
Definition installContainerOn (fuel : nat) (serverId : string) (cancels : nat → bool) (container : DockerContainer) (port : Z)
    (transportProto : TransportProto) : C (option (Z * bool)) :=
  with_credentials serverId (Some (InstallError.InternalError, false)) (λ c credentials,
    in_session (
    then_some (found_or_installed fuel credentials cancels container port transportProto) (λ r,
    let '(errorCode, installed, wasContainerInstalled) := r in
    if negb (errorCode =? InstallError.NoError) then mret (Some (errorCode, wasContainerInstalled)) else
    then_some (each_container (add_installed credentials serverId) (container_entries installed) c) (λ r,
    mret (Some (r.1, wasContainerInstalled)))))).

(** *** Questions *)

(** The index of an administered server at the same address, or -1. *)
Fixpoint find_server (credentials : ServerCredentials) (r : repository T) (ids : list string) (i : Z) : Z :=
  match ids with
  | [] => -1
  | serverId :: ids =>
      match SelfHostedAdminServerConfig.credentials <$> selfHostedAdminConfig serverId r with
      | Some existing =>
          if ServerConfig.isValid existing && String.eqb (cred_hostName credentials) (cred_hostName existing) &&
             (cred_port credentials =? cred_port existing) then i else find_server credentials r ids (i + 1)
      | None => find_server credentials r ids (i + 1)
      end
  end.
Definition isServerAlreadyExists (credentials : ServerCredentials) : C (bool * Z) :=
  i ← repo (λ r, find_server credentials r (m_orderedServerIds r) 0);
  mret (0 <=? i, i).

Definition with_enabled (enabled : bool) (p : ProtocolConfig) : option ProtocolConfig :=
  match p with
  | PMtProxy (MtProxyProtocolConfig.mk a1 a2 a3 a4 a5 _ a7 a8 a9 a10 a11 a12 a13 a14 a15) =>
      Some (PMtProxy (MtProxyProtocolConfig.mk a1 a2 a3 a4 a5 enabled a7 a8 a9 a10 a11 a12 a13 a14 a15))
  | PTelemt (TelemtProtocolConfig.mk a1 a2 a3 a4 a5 _ a7 a8 a9 a10 a11 a12 a13 a14 a15 a16 a17 a18 a19) =>
      Some (PTelemt (TelemtProtocolConfig.mk a1 a2 a3 a4 a5 enabled a7 a8 a9 a10 a11 a12 a13 a14 a15 a16 a17 a18 a19))
  | _ => None
  end.
Definition setDockerContainerEnabledState (serverId : string) (container : DockerContainer) (enabled : bool) : C Z :=
  if negb (is_proxy container) then mret InstallError.InternalError else
  with_credentials serverId InstallError.InternalError (λ c credentials,
    in_session (
    runError ← ssh (run credentials ("sudo docker " +:+ (if enabled then "start" else "stop") +:+ " " +:+ containerToString container));
    if negb (runError =? InstallError.NoError) then mret runError else
    let currentConfig := containerConfig container (SelfHostedAdminServerConfig.common c) in
    _ ← match with_enabled enabled (ContainerConfig.protocolConfig currentConfig) with
        | Some p => save_admin serverId (admin_update container (set_protocol p currentConfig) c)
        | None => mret tt
        end;
    mret InstallError.NoError)).

(** 0: not deployed, 1: running, 2: stopped, 3: error. *)
Definition container_status (stdOut : string) : Z :=
  let status := trimmed stdOut in
  if String.eqb status "running" then 1
  else if String.eqb status "not_found" || String.eqb status "" then 0
  else if String.eqb status "exited" || String.eqb status "created" || String.eqb status "paused" then 2
  else 3.
Definition queryDockerContainerStatus (serverId : string) (container : DockerContainer) : C (Z * Z) :=
  with_credentials serverId (InstallError.InternalError, 3) (λ _ credentials,
    in_session (
    '(errorCode, stdOut) ← ssh (runScript credentials
      ("sudo docker inspect --format '{{.State.Status}}' " +:+ containerToString container +:+ " 2>/dev/null || echo 'not_found'")
      gather no_callback "");
    mret (if negb (errorCode =? InstallError.NoError) then (errorCode, 3) else (InstallError.NoError, container_status stdOut)))).
Definition queryMtProxyDiagnostics (serverId : string) (container : DockerContainer) (listenPort : Z) : C (Z * MtProxyContainerDiagnostics) :=
  with_credentials serverId (InstallError.InternalError, unknown_diagnostics) (λ _ credentials,
    in_session (ssh (queryDiagnostics credentials container listenPort))).
(** Empty when there is none. *)
Definition fetchDockerContainerSecret (serverId : string) (container : DockerContainer) : C string :=
  if negb (is_proxy container) then mret "" else
  with_credentials serverId "" (λ _ credentials,
    in_session (
    '(errorCode, stdOut) ← ssh (runScript credentials ("sudo docker exec " +:+ containerToString container +:+ " cat /data/secret")
      gather no_callback "");
    let secret := trimmed stdOut in
    mret (if (errorCode =? InstallError.NoError) && hex32 secret then secret else ""))).
End controller.

(** ** Settings that need no work on the server *)

(** Variables of the scripts that may differ then. *)
Definition free_names (p : ProtocolConfig) : list string :=
  match p with
  | PAwg c =>
      "$WIREGUARD_SUBNET_CIDR" ::
      (if String.eqb (AwgServerConfig.protocolVersion (serverConfig c)) "2" then []
       else ["$COOKIE_REPLY_PACKET_JUNK_SIZE"; "$TRANSPORT_PACKET_JUNK_SIZE"])
  | PWireGuard _ => ["$WIREGUARD_SUBNET_CIDR"]
  | PMtProxy _ => ["$MTPROXY_ADDITIONAL_SECRETS"]
  | PTelemt _ => ["$TELEMT_ADDITIONAL_SECRETS"]
  | _ => []
  end.
Definition additional_secrets (p : ProtocolConfig) : list string :=
  match p with
  | PMtProxy c => nonempty (MtProxyProtocolConfig.additionalSecrets c)
  | PTelemt c => nonempty (TelemtProtocolConfig.additionalSecrets c)
  | _ => []
  end.
Definition same_but (free : list string) (v w : string * string) : Prop := v.1 = w.1 ∧ (v.1 ∈ free ∨ v.2 = w.2).
Lemma values_but free (l k : ScriptVars) name : Forall2 (same_but free) l k → name ∉ free → var_value l name = var_value k name.
Proof.
  intros H Hn. unfold var_value. induction H as [|v w l k [E Hv] _ IH]; [done|]. cbn. rewrite <- E.
  destruct (String.eqb_spec name v.1) as [->|]; [|exact IH]. by destruct Hv.
Qed.

Lemma awg_variables o n :
  AwgServerConfig.hasEqualServerSettings (serverConfig o) (serverConfig n) = true →
  Forall2 (same_but (free_names (PAwg o))) (genAwgVars (PAwg o)) (genAwgVars (PAwg n)).
Proof.
  unfold AwgServerConfig.hasEqualServerSettings. cbn [forallb]. rewrite !andb_true_iff, !String.eqb_eq.
  intros [(Ha & Hp & Hjc & Hjmin & Hjmax & H1 & H2 & Hh1 & Hh2 & Hh3 & Hh4 & Hi1 & Hi2 & Hi3 & Hi4 & Hi5 & _) Hv].
  unfold genAwgVars, free_names. repeat (constructor; [split; [reflexivity|cbn [fst snd]; try (right; congruence); try (left; by left)]|]); [..|constructor].
  - destruct (String.eqb _ "2"); [|left; right; by left]. right. apply andb_true_iff in Hv as [Hv _]. by apply String.eqb_eq in Hv.
  - destruct (String.eqb _ "2"); [|left; right; right; by left]. right. apply andb_true_iff in Hv as [_ Hv]. by apply String.eqb_eq in Hv.
Qed.
Ltac variables :=
  repeat (constructor; [split; [reflexivity|cbn [fst snd];
    first [by right; repeat match goal with H : _ = _ |- _ => rewrite H end|left; by left]]|]); constructor.
Lemma wireguard_variables o n :
  WireGuardServerConfig.hasEqualServerSettings (serverConfig o) (serverConfig n) = true →
  Forall2 (same_but (free_names (PWireGuard o))) (genWireGuardVars (PWireGuard o)) (genWireGuardVars (PWireGuard n)).
Proof.
  unfold WireGuardServerConfig.hasEqualServerSettings. rewrite andb_true_iff, !String.eqb_eq. intros [Ha Hp].
  unfold genWireGuardVars, free_names. variables.
Qed.
Lemma mtproxy_variables o n :
  MtProxy_deployment o = MtProxy_deployment n →
  Forall2 (same_but (free_names (PMtProxy o))) (genMtProxyVars (PMtProxy o)) (genMtProxyVars (PMtProxy n)).
Proof.
  intros [=]. unfold genMtProxyVars, free_names, filled, MtProxyProtocolConfig.normPort, MtProxyProtocolConfig.normTransport,
    MtProxyProtocolConfig.normWorkersMode in *. variables.
Qed.
Lemma telemt_variables o n :
  Telemt_deployment o = Telemt_deployment n →
  Forall2 (same_but (free_names (PTelemt o))) (genTelemtVars (PTelemt o)) (genTelemtVars (PTelemt n)).
Proof.
  intros [=]. unfold genTelemtVars, free_names, filled, TelemtProtocolConfig.normPort, TelemtProtocolConfig.normTransport,
    TelemtProtocolConfig.normWorkersMode in *. variables.
Qed.

(** C18. Settings of a container are saved without touching the server only when
    its scripts would be the same: every variable of theirs has the value it had,
    but for the length of the subnet's prefix, the two sizes only the second
    version of AmneziaWG has, and the order of a proxy's further secrets.  What
    needs a new container is never taken for that. *)
Theorem saved_settings_in_force container old new :
  isUpdateDockerContainerRequired container old new = false →
  isReinstallContainerRequired container old new = false ∧
  (∀ name, name ∉ free_names old →
     var_value (genProtocolVarsForContainer container new) name = var_value (genProtocolVarsForContainer container old) name) ∧
  additional_secrets new ≡ₚ additional_secrets old.
Proof.
  intros H. assert (∀ l k, Forall2 (same_but (free_names old)) l k → ∀ name, name ∉ free_names old → var_value k name = var_value l name) as Hv
    by (intros; symmetry; by eapply values_but).
  destruct container, old as [o|o|o|o|o|o|o|o|o|o|o], new as [n|n|n|n|n|n|n|n|n|n|n]; try discriminate H;
    cbn [isUpdateDockerContainerRequired] in H; apply negb_false_iff in H.
  - split; [by cbn; unfold changed_reinstall; rewrite H|]. split; [apply Hv, awg_variables, H|done].
  - split; [by cbn; unfold changed_reinstall; rewrite H|]. split; [apply Hv, awg_variables, H|done].
  - split; [by cbn; unfold changed_reinstall; rewrite H|]. split; [apply Hv, wireguard_variables, H|done].
  - apply MtProxy_equal in H as [H Hs]. split; [|split; [apply Hv, mtproxy_variables, H|symmetry; exact Hs]].
    injection H as Hp _. cbn. apply negb_false_iff, String.eqb_eq. exact Hp.
  - apply Telemt_equal in H as [H Hs]. split; [|split; [apply Hv, telemt_variables, H|symmetry; exact Hs]].
    injection H as Hp _. cbn. apply negb_false_iff, String.eqb_eq. exact Hp.
Qed.
Lemma saved_settings_in_force_witness :
  let config port := PMtProxy (MtProxyProtocolConfig.mk port "" "tag" "" "" true "" "" "" ["b"; "a"] "" "" false "" "") in
  let config' port := PMtProxy (MtProxyProtocolConfig.mk port "" "tag" "new" "" true "" "" "" ["a"; ""; "b"] "" "" false "" "") in
  var_value (genProtocolVarsForContainer DockerContainer.MtProxy (config' "443")) "$MTPROXY_PORT" =
  var_value (genProtocolVarsForContainer DockerContainer.MtProxy (config "")) "$MTPROXY_PORT" ∧
  isReinstallContainerRequired DockerContainer.MtProxy (config "") (config' "443") = false.
Proof.
  intros config config'.
  destruct (saved_settings_in_force DockerContainer.MtProxy (config "") (config' "443") ltac:(vm_compute; reflexivity)) as (Hr & Hv & _).
  split; [|exact Hr]. apply Hv. intros H. apply (bool_decide_pack _) in H. exact H.
Defined.

(** ** What operations do to the stored servers *)
Section records.
Context {T W : Type} {A : Store T} {Q : Qt} {J : JsonCodec} {P : ArrayPrinter} {JP : JsonPrinter} {LC : LinkCodec} {IC : ImportCodec}.
Context {L : Libssh W} {CK : ClientKeys W} {CR : CertRequests W} {U : Uuids W} {R : Resources} {D : Dice W}.
Context (b : build) (uuid : nat → string) (prettyProductName : string).
Abbreviation C := (stM (installer T W)).

Definition same_repository : relation (installer T W) := λ x y, m_serversRepository y = m_serversRepository x.
#[local] Instance same_repository_preorder : PreOrder same_repository.
Proof. split; [by intros x|]. intros x y z H1 H2. unfold same_repository in *. congruence. Qed.
Abbreviation quiet m := (steps same_repository m).

Lemma quiet_ssh {X} (m : stM (client W) X) : quiet (ssh m).
Proof. intros x. unfold ssh, same_repository. by destruct (m (i_session x)). Qed.
Lemma quiet_setting {X} (f : T → X * T) : quiet (setting (W := W) f).
Proof. intros x. unfold setting, same_repository. by destruct (f (m_appSettings x)). Qed.
Lemma quiet_repo {X} (f : repository T → X) : quiet (repo (W := W) f).
Proof. by intros x. Qed.
Lemma quiet_emit g : quiet (emit g).
Proof. by intros x. Qed.
Lemma quiet_cancel c : quiet (set_cancel c).
Proof. by intros x. Qed.
Lemma quiet_hold h : quiet (hold_session h).
Proof. by intros x. Qed.
Lemma quiet_then_some {X Y} (m : C (option X)) (k : X → C (option Y)) : quiet m → (∀ y, quiet (k y)) → quiet (then_some m k).
Proof. intros Hm Hk. unfold then_some. apply steps_bind; [typeclasses eauto|exact Hm|]. intros [y|]; [apply Hk|by intros x]. Qed.
Ltac quiet_tac :=
  repeat first [apply quiet_ssh|apply quiet_setting|apply quiet_repo|apply quiet_emit|apply quiet_cancel|apply quiet_hold
               |apply quiet_then_some; [|intros ?]|steps_step|match goal with |- steps _ (let '_ := ?p in _) => destruct p end].
Lemma quiet_in_session {X} (m : C X) : quiet m → quiet (in_session m).
Proof. intros H. unfold in_session. quiet_tac. Qed.
Lemma quiet_with {X} serverId (missing : X) k : (∀ c, quiet (k c)) → quiet (with_admin (W := W) serverId missing k).
Proof. intros H. unfold with_admin. quiet_tac. apply H. Qed.
Lemma quiet_dpkg credentials cancels i n : quiet (dpkg_attempts credentials cancels i n).
Proof. revert i. induction n as [|n IH]; intros i; cbn [dpkg_attempts]; quiet_tac; apply IH. Qed.
Lemma quiet_return m config k : quiet m → quiet k → quiet (c_return (T := T) (W := W) m config k).
Proof. intros Hm Hk. unfold c_return. quiet_tac. Qed.
Lemma quiet_setup credentials cancels container config isUpdate : quiet (setupContainer credentials cancels container config isUpdate).
Proof.
  unfold setupContainer, isServerDpkgBusy. apply quiet_in_session.
  repeat first [apply quiet_dpkg|apply quiet_return|progress quiet_tac].
Qed.
Lemma quiet_apply credentials cancels container reinstall config : quiet (apply_settings (T := T) credentials cancels container reinstall config).
Proof. unfold apply_settings. repeat first [apply quiet_setup|progress quiet_tac]. Qed.
Lemma quiet_prepare container credentials config : quiet (prepareContainerConfig (T := T) b container credentials config).
Proof. unfold prepareContainerConfig, dns_settings. quiet_tac. Qed.
Lemma quiet_append serverId container config name : quiet (adminAppendRequested serverId container config name).
Proof. unfold adminAppendRequested. quiet_tac. Qed.
Lemma quiet_process container config credentials serverId name :
  quiet (processContainerForAdmin (T := T) b container config credentials serverId name).
Proof. unfold processContainerForAdmin. repeat first [apply quiet_prepare|apply quiet_append|progress quiet_tac]. Qed.
Lemma quiet_found fuel credentials cancels container port transportProto :
  quiet (found_or_installed (T := T) fuel credentials cancels container port transportProto).
Proof. unfold found_or_installed, installContainer. repeat first [apply quiet_setup|progress quiet_tac]. Qed.
Lemma quiet_each {X} (f : DockerContainer → ContainerConfig → X → C (option (Z * X))) entries x :
  (∀ c config x, quiet (f c config x)) → quiet (each_container f entries x).
Proof. intros Hf. revert x. induction entries as [|[c config] l IH]; intros x; cbn [each_container]; quiet_tac; [apply Hf|apply IH]. Qed.
Lemma quiet_add_found credentials serverId entries x :
  quiet (each_container (add_found (T := T) b prettyProductName credentials serverId) entries x).
Proof. apply quiet_each. intros c config [a n]. unfold add_found. repeat first [apply quiet_prepare|apply quiet_append|progress quiet_tac]. Qed.
Lemma quiet_prepare_found credentials entries m : quiet (each_container (prepare_found (T := T) b credentials) entries m).
Proof. apply quiet_each. intros c config x. unfold prepare_found. repeat first [apply quiet_prepare|progress quiet_tac]. Qed.

(** An operation that does not succeed leaves the servers as they were. *)
Definition fails_clean {X} (ok : X → bool) (m : C X) : Prop :=
  ∀ x, ok (m x).1 = false → m_serversRepository (m x).2 = m_serversRepository x.
Definition succeeded (e : Z) : bool := e =? InstallError.NoError.
Definition all_succeeded (r : option Z) : bool := match r with Some e => succeeded e | None => false end.

Definition installed_ok (r : option (Z * bool)) : bool := match r with Some (e, _) => succeeded e | None => false end.

Lemma clean_quiet {X} (ok : X → bool) m : quiet m → fails_clean ok m.
Proof. intros H x _. apply H. Qed.
Lemma clean_bind {X Y} (ok : Y → bool) (m : C X) (f : X → C Y) : quiet m → (∀ a, fails_clean ok (f a)) → fails_clean ok (m ≫= f).
Proof. intros Hm Hf x. rewrite bind_run. intros H. rewrite (Hf _ _ H). apply Hm. Qed.
Definition succeeds {X} (ok : X → bool) (m : C X) : Prop := ∀ x, ok (m x).1 = true.
Lemma clean_ok {X} (ok : X → bool) m : succeeds ok m → fails_clean ok m.
Proof. intros H x Hx. by rewrite H in Hx. Qed.
Lemma succeeds_bind {X Y} (ok : Y → bool) (m : C X) (f : X → C Y) : (∀ a, succeeds ok (f a)) → succeeds ok (m ≫= f).
Proof. intros H x. rewrite bind_run. apply H. Qed.
Lemma clean_then {X Y} (ok : option Y → bool) (m : C (option X)) (k : X → C (option Y)) :
  quiet m → (∀ a, fails_clean ok (k a)) → fails_clean ok (then_some m k).
Proof. intros Hm Hk. unfold then_some. apply clean_bind; [exact Hm|]. intros [a|]; [apply Hk|by apply clean_quiet]. Qed.
Lemma clean_session {X} (ok : X → bool) (m : C X) : fails_clean ok m → fails_clean ok (in_session m).
Proof.
  intros H x. unfold in_session. rewrite bind_run. cbn [get fst snd]. rewrite bind_run. cbn [hold_session modify fst snd].
  set (y := mkInstaller _ _ _ _ _). rewrite bind_run. destruct (m y) as [v z] eqn:E. cbn [fst snd]. rewrite bind_run.
  unfold ssh. destruct (disconnectFromHost (i_session z)). cbn. intros Hv. specialize (H y). rewrite E in H. by apply H.
Qed.
Lemma clean_with {X} (ok : X → bool) serverId missing k : (∀ c, fails_clean ok (k c)) → fails_clean ok (with_admin (W := W) serverId missing k).
Proof. intros H. unfold with_admin. apply clean_bind; [apply quiet_repo|]. intros [c|]; [apply H|by apply clean_quiet]. Qed.
Ltac clean_tac :=
  repeat first
    [ apply clean_session | apply clean_with; intros ?
    | apply clean_ok; by (repeat first [apply succeeds_bind; intros ?|intros ?; (reflexivity || eassumption)])
    | apply clean_then; [first [apply quiet_process|apply quiet_found|apply quiet_add_found|apply quiet_prepare_found|by quiet_tac]|intros ?]
    | apply clean_quiet; by repeat first [apply quiet_process|progress quiet_tac]
    | match goal with |- fails_clean _ ((if ?c then _ else _) ≫= _) => destruct c eqn:? end
    | apply clean_bind; [by repeat first [apply quiet_apply|apply quiet_in_session|progress quiet_tac]|intros ?]
    | match goal with
      | |- fails_clean _ (if ?c then _ else _) => destruct c eqn:?
      | |- fails_clean _ (match ?c with _ => _ end) => destruct c eqn:?
      end ].

(** C15. What fails is not recorded: when changing a container's settings, removing
    it or all of them, enabling or disabling it, preparing the configuration of
    the default container, scanning, or installing on a new server ends with an
    error, whatever the server answered and wherever it stopped, the stored
    servers are as they were.  Installing on a known server is not among these:
    it saves each container as soon as it has a client. *)
Theorem failures_change_nothing serverId container oldConfig newConfig cancels enabled fuel credentials port transportProto :
  fails_clean (λ r, succeeded r.1) (updateServerConfig (T := T) serverId cancels container oldConfig newConfig) ∧
  fails_clean succeeded (removeContainer (T := T) serverId container) ∧
  fails_clean succeeded (removeAllContainers (T := T) serverId) ∧
  fails_clean succeeded (setDockerContainerEnabledState (T := T) serverId container enabled) ∧
  fails_clean all_succeeded (validateAndPrepareConfig (T := T) b prettyProductName serverId) ∧
  fails_clean all_succeeded (scanServerForInstalledContainers (T := T) b prettyProductName serverId) ∧
  fails_clean installed_ok (installServer (T := T) b uuid prettyProductName fuel credentials cancels container port transportProto).
Proof.
  split_and!.
  - unfold updateServerConfig, with_credentials. clean_tac.
  - unfold removeContainer, with_credentials. clean_tac.
  - unfold removeAllContainers, with_credentials. clean_tac.
  - unfold setDockerContainerEnabledState, with_credentials. clean_tac.
  - unfold validateAndPrepareConfig, with_credentials. clean_tac.
  - unfold scanServerForInstalledContainers, with_credentials. clean_tac.
  - unfold installServer. clean_tac.
Qed.
End records.

(** ** A server that is written back is read as it was *)
Section written.
Context {T : Type} {A : Store T} {SL : StoreLaws T} {J : JsonCodec} {P : ArrayPrinter}.

Record well_stored (c : SelfHostedAdminServerConfig) : Prop := {
  stored_common : server_storable (SelfHostedAdminServerConfig.common c);
  stored_port : 0 ≤ SelfHostedAdminServerConfig.port c ≤ int_max;
  stored_credentials : SelfHostedAdminServerConfig.hasCredentials c = true;
  stored_own k cc : containers (SelfHostedAdminServerConfig.common c) !! k = Some cc →
    ProtocolConfig.isThirdPartyConfig (ContainerConfig.protocolConfig cc) = false;
}.

Lemma admin_kind c : well_stored c → configTypeFromJson (withoutStorageServerId (SelfHostedAdminServerConfig.toJson c)) = SelfHostedAdmin.
Proof.
  intros [Hs Hp Hc Hown]. rewrite admin_no_storage_id. unfold configTypeFromJson.
  rewrite read_admin, Hc by done. unfold SelfHostedAdminServerConfig.toJson. rewrite not_from_api by by repeat constructor.
  destruct (hasThirdPartyConfig _) eqn:E; [|done].
  apply marked_server in E as (k & cc & Hk & Ht); [|repeat constructor; cbn; set_solver]. by rewrite (Hown _ _ Hk) in Ht.
Qed.

Record written (id : string) (c : SelfHostedAdminServerConfig) (r r' : repository T) : Prop := {
  written_config : selfHostedAdminConfig id r' = Some c;
  written_others x : x ≠ id → m_serverJsonById r' !! x = m_serverJsonById r !! x;
  written_order : m_orderedServerIds r' = m_orderedServerIds r;
  written_default : m_defaultServerId r' = m_defaultServerId r;
  written_synced : synced r';
}.
Lemma admin_written (r : repository T) id c0 c :
  inv r → readable r → printable → selfHostedAdminConfig id r = Some c0 → well_stored c →
  written id c r (editServer id (SelfHostedAdminServerConfig.toJson c) SelfHostedAdmin r).
Proof.
  intros Hi Hr Hp Hc Hw.
  assert (id ∈ m_orderedServerIds r) as Hin.
  { apply (ids_known _ (proj1 Hi)). unfold selfHostedAdminConfig, ServersRepository.config_of in Hc.
    destruct (m_serverJsonById r !! id); [by eexists|done]. }
  destruct (proj1 (edit_server r id (SelfHostedAdminServerConfig.toJson c) SelfHostedAdmin Hi Hr Hp Hin) (admin_kind c Hw))
    as (Eo & Ed & Eraw & Ek & Eother & _ & Hs).
  set (r' := editServer _ _ _ r) in *. split; try done.
  unfold serverKind in Ek. destruct (m_serverJsonById r' !! id) as [obj|] eqn:E; [|done].
  destruct (kind_config id r' obj E) as [Ek' Hcfg]. unfold selfHostedAdminConfig. rewrite (Hcfg _ SelfHostedAdmin) by congruence.
  unfold rawServerJson in Eraw. rewrite E in Eraw. rewrite Eraw, admin_no_storage_id. f_equal. destruct Hw. by apply read_admin.
Qed.
End written.

(** ** Removing a container *)
Lemma elem_entries (m : container_map) e : e ∈ container_entries m ↔ m !! e.1 = Some e.2.
Proof.
  unfold container_entries. rewrite list_elem_of_omap. split.
  - intros (c & _ & Hc). destruct (m !! c) as [cc|] eqn:E; [|done]. by injection Hc as <-.
  - intros H. exists e.1. split; [apply DockerContainer_listed|]. rewrite H. cbn. by destruct e.
Qed.
Lemma entries_none m : container_entries m = [] ↔ m = ∅.
Proof.
  split.
  - intros H. apply map_eq. intros c. rewrite lookup_empty. destruct (m !! c) as [cc|] eqn:E; [|done].
    assert ((c, cc) ∈ container_entries m) as Hin by by apply elem_entries. rewrite H in Hin. by apply not_elem_of_nil in Hin.
  - intros ->. unfold container_entries. induction allContainers as [|c l IH]; [done|]. cbn. by rewrite lookup_empty.
Qed.

Section removal.
Context {T W : Type} {A : Store T} {SL : StoreLaws T} {J : JsonCodec} {P : ArrayPrinter} {L : Libssh W} {R : Resources}.
Abbreviation C := (stM (installer T W)).

(** The state in which an operation with a session of its own starts. *)
Definition started (x : installer T W) : installer T W :=
  mkInstaller (m_serversRepository x) (m_appSettings x) (m_cancelInstallation x) (emitted x) (mkClient false (world (i_session x))).
Definition same_outside (x y : installer T W) : Prop :=
  m_serversRepository y = m_serversRepository x ∧ emitted y = emitted x.
Lemma leads_in_session {X} (m : C X) x (G : X → installer T W → Prop) :
  leads m (started x) (λ v y, ∀ y', same_outside y y' → G v y') → leads (in_session m) x G.
Proof.
  intros H. unfold in_session. apply leads_bind. cbn. apply leads_bind. cbn. apply leads_bind.
  eapply leads_mono; [exact H|]. intros v y Hy. apply leads_bind, leads_bind.
  unfold ssh, leads. destruct (disconnectFromHost (i_session y)). cbn. by apply Hy.
Qed.
Lemma leads_with {X} serverId (missing : X) k x c (G : X → installer T W → Prop) :
  selfHostedAdminConfig serverId (m_serversRepository x) = Some c → leads (k c) x G → leads (with_admin serverId missing k) x G.
Proof. intros Hc H. unfold leads, with_admin in *. rewrite bind_run. unfold repo. cbn [fst snd]. by rewrite Hc. Qed.
Lemma leads_over_ssh {X} (m : stM (client W) X) x (G : X → installer T W → Prop) :
  (∀ s, (m (i_session x)).2 = s →
     G (m (i_session x)).1 (mkInstaller (m_serversRepository x) (m_appSettings x) (m_cancelInstallation x) (emitted x) s)) →
  leads (ssh m) x G.
Proof. intros H. unfold leads, ssh. destruct (m (i_session x)) as [v s]. by apply H. Qed.

Lemma well_stored_without container c : well_stored c → well_stored (without_container container c).
Proof.
  intros [[Hd Hm] Hp Hc Hown]. split; try done.
  - split; [done|]. cbn. by apply map_Forall_delete.
  - cbn. intros k cc Hk%lookup_delete_Some. by apply (Hown k), Hk.
Qed.
Lemma default_without container c :
  let s := SelfHostedAdminServerConfig.common c in
  let s' := SelfHostedAdminServerConfig.common (without_container container c) in
  (defaultContainer s ≠ container → defaultContainer s' = defaultContainer s) ∧
  (defaultContainer s = container →
     is_Some (containers s' !! defaultContainer s') ∨ containers s' = ∅ ∧ defaultContainer s' = DockerContainer.None).
Proof.
  cbn. unfold next_default. split; intros H.
  - by rewrite bool_decide_eq_false_2.
  - rewrite bool_decide_eq_true_2 by done. set (m := delete _ _).
    destruct (container_entries m) as [|e l] eqn:E; [right; split; [by apply entries_none|done]|].
    left. cbn. exists e.2. apply elem_entries. rewrite E. by left.
Qed.

(** C16. Removing a container: when the server has done it, the container is gone
    from what is stored of the server and nothing else is; the default container
    is another one that is there, or none when there is no other; the other
    servers and their order stay, and the list is saved.  When the server has
    not, nothing changes. *)
Theorem container_removed (serverId : string) (container : DockerContainer) (c : SelfHostedAdminServerConfig) (x : installer T W) :
  inv (m_serversRepository x) → readable (m_serversRepository x) → printable →
  selfHostedAdminConfig serverId (m_serversRepository x) = Some c → well_stored c →
  leads (removeContainer serverId container) x (λ e x',
  (e = InstallError.NoError → ∃ c',
     written serverId c' (m_serversRepository x) (m_serversRepository x') ∧
     SelfHostedAdminServerConfig.credentials c' = SelfHostedAdminServerConfig.credentials c ∧
     let s := SelfHostedAdminServerConfig.common c in let s' := SelfHostedAdminServerConfig.common c' in
     containers s' = delete container (containers s) ∧
     (defaultContainer s ≠ container → defaultContainer s' = defaultContainer s) ∧
     (defaultContainer s = container →
        is_Some (containers s' !! defaultContainer s') ∨ containers s' = ∅ ∧ defaultContainer s' = DockerContainer.None)) ∧
  (e ≠ InstallError.NoError → m_serversRepository x' = m_serversRepository x)).
Proof.
  intros Hi Hr Hp Hc Hw. pose proof (well_stored_without container c Hw) as Hw'.
  pose proof (admin_written _ _ _ _ Hi Hr Hp Hc Hw') as Hwritten.
  unfold removeContainer, with_credentials. eapply leads_with; [exact Hc|].
  destruct (negb _); [apply leads_ret; by split|]. apply leads_in_session, leads_bind, leads_over_ssh. intros s _.
  set (e := (run _ _ _).1). apply leads_bind. destruct (Z.eqb_spec e InstallError.NoError) as [He|He].
  - apply leads_ret. intros y' [Hy _]. split; [|done]. intros _. rewrite Hy. exists (without_container container c).
    split; [exact Hwritten|]. split; [done|]. split; [done|]. apply default_without.
  - apply leads_ret. intros y' [Hy _]. split; [done|]. by rewrite Hy.
Qed.
End removal.

(** ** Scanning a known server *)
Section scanning.
Context {T W : Type} {A : Store T} {SL : StoreLaws T} {Q : Qt} {J : JsonCodec} {P : ArrayPrinter} {JP : JsonPrinter} {LC : LinkCodec} {IC : ImportCodec}.
Context {L : Libssh W} {CK : ClientKeys W} {CR : CertRequests W} {U : Uuids W} {R : Resources}.
Context (b : build) (prettyProductName : string).
Abbreviation C := (stM (installer T W)).
Abbreviation entry := (DockerContainer * ContainerConfig)%type.
Abbreviation stored c := (SelfHostedAdminServerConfig.common c).

(** What is said of a new container: the client it has, if any. *)
Definition announcement (serverId : string) (e : entry) : option install_signal :=
  let p := ContainerConfig.protocolConfig e.2 in
  if bool_decide (containerService e.1 = ServiceType.Other) || negb (ProtocolConfig.hasClientConfig p) || String.eqb (ProtocolConfig.clientId p) ""
  then None else Some (clientAppendRequested serverId (ProtocolConfig.clientId p) (clientName prettyProductName) e.1).

Lemma leads_then {X Y} (m : C (option X)) (k : X → C (option Y)) x (G : option Y → installer T W → Prop) :
  leads m x (λ v y, match v with Some v => leads (k v) y G | None => G None y end) → leads (then_some m k) x G.
Proof. intros H. unfold then_some. apply leads_bind. eapply leads_mono; [exact H|]. by intros [v|] y Hy. Qed.
Lemma outside_setting {X} (f : T → X * T) (x : installer T W) : same_outside x (setting f x).2.
Proof. unfold setting. by destruct (f (m_appSettings x)). Qed.
Lemma outside_ssh {X} (m : stM (client W) X) (x : installer T W) : same_outside x (ssh m x).2.
Proof. unfold ssh. by destruct (m (i_session x)). Qed.
#[local] Instance same_outside_preorder : PreOrder (same_outside (T := T) (W := W)).
Proof. split; [by intros x|]. intros x y z [H1 H2] [H3 H4]. split; congruence. Qed.
Lemma outside_prepare container credentials config (x : installer T W) :
  same_outside x (prepareContainerConfig b container credentials config x).2.
Proof.
  revert x. change (steps same_outside (prepareContainerConfig (T := T) (W := W) b container credentials config)).
  unfold prepareContainerConfig, dns_settings. repeat first [exact (outside_setting _)|exact (outside_ssh _)|steps_step].
Qed.

(** What a container found is stored as: services, and what the platform does not
    support, as they were found, the others with the settings their configurator
    made there, for a new client. *)
Definition kept_from (credentials : ServerCredentials) (container : DockerContainer) (found config : ContainerConfig) : Prop :=
  if negb (isSupportedByCurrentPlatform b container) || bool_decide (containerService container = ServiceType.Other) then config = found
  else ∃ k dns s p, create (defaultProtocol container) = Some k ∧
    (createConfig b k credentials container (ContainerConfig.protocolConfig found) dns s).1 = (p, InstallError.NoError) ∧
    config = set_protocol p found.
Lemma prepared_from container credentials config (x : installer T W) config' :
  (prepareContainerConfig b container credentials config x).1 = Some (InstallError.NoError, config') → kept_from credentials container config config'.
Proof.
  unfold prepareContainerConfig, kept_from. destruct (negb _ || _); [intros H; cbn in H; by injection H as <-|].
  rewrite bind_run. set (d := dns_settings x). destruct (create _) as [k|] eqn:Ek; [|done]. rewrite bind_run.
  unfold ssh. pose proof (eq_refl (createConfig b k credentials container (ContainerConfig.protocolConfig config) d.1 (i_session d.2))) as E.
  destruct (createConfig b k credentials container _ d.1 (i_session d.2)) as [[p e'] s'] eqn:Em. cbn [fst snd].
  destruct (Z.eqb_spec e' InstallError.NoError) as [->|Hne]; cbn; intros H; injection H; [|congruence]. intros <-.
  exists k, d.1, (i_session d.2), p. by rewrite Em.
Qed.

Lemma leads_process container config credentials serverId (x : installer T W) (G : option (Z * ContainerConfig) → installer T W → Prop) :
  (∀ y, m_serversRepository y = m_serversRepository x → G None y) →
  (∀ e config' y, e ≠ InstallError.NoError → m_serversRepository y = m_serversRepository x → G (Some (e, config')) y) →
  (∀ config' y, kept_from credentials container config config' → m_serversRepository y = m_serversRepository x →
     emitted y = emitted x ++ option_list (announcement serverId (container, config')) → G (Some (InstallError.NoError, config')) y) →
  leads (processContainerForAdmin b container config credentials serverId (clientName prettyProductName)) x G.
Proof.
  intros Hnone Herr Hok. unfold processContainerForAdmin. apply leads_then.
  pose proof (outside_prepare container credentials config x) as [Hr He].
  pose proof (prepared_from container credentials config x) as Hfrom.
  unfold leads at 1. destruct (prepareContainerConfig _ _ _ _ x) as [[[e config']|] y]; cbn [fst snd] in *; [|by apply Hnone].
  destruct (Z.eqb_spec e InstallError.NoError) as [->|Hne]; cbn [negb]; [|by apply leads_ret, Herr].
  apply leads_bind. unfold adminAppendRequested, announcement in *. cbn [fst snd] in *.
  specialize (Hok config'). specialize (Hfrom _ eq_refl). destruct (bool_decide _ || _); cbn [orb] in *.
  - apply leads_ret, leads_ret, Hok; [done|done|]. by rewrite He, app_nil_r.
  - destruct (String.eqb _ ""); cbn in *; [apply leads_ret, leads_ret, Hok; [done|done|]; by rewrite He, app_nil_r|].
    apply leads_ret, Hok; cbn; [done|done|]. by rewrite He.
Qed.

(** The server with new containers. *)
Definition found_server (added : list entry) (c : SelfHostedAdminServerConfig) : SelfHostedAdminServerConfig :=
  with_containers (list_to_map added ∪ containers (stored c))
    (foldl (λ d e, default_found b e.1 d) (defaultContainer (stored c)) added) c.
Definition unknown (c : SelfHostedAdminServerConfig) (k : DockerContainer) : Prop := containers (stored c) !! k = None.
#[local] Instance unknown_dec c k : Decision (unknown c k) := _.

Lemma found_nil c : found_server [] c = c.
Proof.
  unfold found_server, with_containers. cbn. rewrite (left_id_L ∅ (∪)). by destruct c as [[? ? ? ? ? ? ?] ? ? ?].
Qed.
Lemma found_cons k config added c :
  k ∉ added.*1 → found_server added (with_found b k config c) = found_server ((k, config) :: added) c.
Proof.
  intros Hk. unfold found_server, with_found, with_containers. cbn.
  rewrite <- insert_union_r by by apply not_elem_of_list_to_map. by rewrite insert_union_l.
Qed.
Lemma unknown_after k config c (l : list DockerContainer) : k ∉ l → filter (unknown (with_found b k config c)) l = filter (unknown c) l.
Proof.
  intros Hk. induction l as [|a l IH]; [done|]. apply not_elem_of_cons in Hk as [Hne Hk]. rewrite !filter_cons, IH by done.
  assert (unknown (with_found b k config c) a ↔ unknown c a) as Ha by (unfold unknown, with_found, with_containers; cbn; by rewrite lookup_insert_ne).
  destruct (decide (unknown c a)); [rewrite decide_True by by apply Ha|rewrite decide_False by by rewrite Ha]; done.
Qed.

Lemma entries_distinct (m : container_map) : NoDup (container_entries m).*1.
Proof.
  assert ((container_entries m).*1 = filter (λ k, is_Some (m !! k)) allContainers) as ->; [|apply NoDup_filter, (bool_decide_unpack _); vm_compute; exact Logic.I].
  unfold container_entries. induction allContainers as [|k l IH]; [done|]. rewrite filter_cons. cbn.
  destruct (m !! k) as [cc|]; cbn; [rewrite decide_True by by eexists|rewrite decide_False by by intros []]; [f_equal|]; exact IH.
Qed.
Lemma found_known added c : (∀ k, k ∈ added.*1 → unknown c k) →
  ∀ k cc, containers (stored c) !! k = Some cc → containers (stored (found_server added c)) !! k = Some cc.
Proof.
  intros Hu k cc Hk. cbn. rewrite lookup_union_r; [done|]. apply not_elem_of_list_to_map. intros Hin. by rewrite (Hu k Hin) in Hk.
Qed.
Lemma found_default added c :
  defaultContainer (stored c) ≠ DockerContainer.None → defaultContainer (stored (found_server added c)) = defaultContainer (stored c).
Proof.
  intros Hd. cbn. induction added as [|e l IH]; [done|]. cbn. unfold default_found at 2. by rewrite bool_decide_eq_false_2.
Qed.
Lemma each_found credentials serverId l : NoDup l.*1 → ∀ c n (x : installer T W),
  leads (each_container (add_found b prettyProductName credentials serverId) l (c, n)) x (λ r y,
    m_serversRepository y = m_serversRepository x ∧
    ∀ c' n', r = Some (InstallError.NoError, (c', n')) → ∃ added,
      added.*1 = filter (unknown c) l.*1 ∧ Forall (λ e, ∃ found, (e.1, found) ∈ l ∧ kept_from credentials e.1 found e.2) added ∧ c' = found_server added c ∧ n' = n || negb (bool_decide (added = [])) ∧
      emitted y = emitted x ++ omap (announcement serverId) added).
Proof.
  induction l as [|[k config] l IH]; intros Hl c n x; cbn [each_container].
  { apply leads_ret. split; [done|]. intros c' n' [= <- <-]. exists []. rewrite found_nil, app_nil_r. destruct n; by repeat constructor. }
  rewrite fmap_cons, NoDup_cons in Hl. destruct Hl as [Hk Hl]. cbn [fst] in Hk. specialize (IH Hl). apply leads_then. unfold add_found.
  destruct (bool_decide _) eqn:Eknown.
  - apply bool_decide_eq_true in Eknown. apply leads_ret. cbn [negb Z.eqb InstallError.NoError]. eapply leads_mono; [apply IH|]. intros r y [Hy Hr]. split; [done|].
    intros c' n' E. destruct (Hr c' n' E) as (added & E1 & Ef & E2 & E3 & E4). exists added.
    split; [|split; [|done]; eapply Forall_impl; [exact Ef|]; intros e (found & Hin & Hf); exists found; split; [by right|done]].
    rewrite E1, fmap_cons. cbn [fst]. rewrite filter_cons_False; [done|]. unfold unknown. intros Hn. rewrite Hn in Eknown. by destruct Eknown.
  - apply bool_decide_eq_false in Eknown. apply leads_then, leads_process.
    + intros y Hy. split; [done|discriminate].
    + intros e config' y He Hy. rewrite (proj2 (Z.eqb_neq _ _) He). apply leads_ret. cbn [negb]. rewrite (proj2 (Z.eqb_neq _ _) He). cbn [negb].
      apply leads_ret. split; [done|]. intros c' n' [= -> _ _]. done.
    + intros config' y Hfrom Hy Hemit. apply leads_ret. cbn [negb Z.eqb InstallError.NoError]. eapply leads_mono; [apply IH|].
      intros r z [Hz Hr]. split; [congruence|]. intros c' n' E. destruct (Hr c' n' E) as (added & E1 & Ef & E2 & E3 & E4).
      assert (k ∉ added.*1) as Hn by (rewrite E1; by intros [_ ?]%list_elem_of_filter).
      exists ((k, config') :: added). split.
      { rewrite !fmap_cons. cbn [fst]. rewrite filter_cons_True by by apply eq_None_not_Some. by rewrite E1, unknown_after. }
      split.
      { constructor; [exists config; split; [by left|done]|]. eapply Forall_impl; [exact Ef|].
        intros e (found & Hin & Hf). exists found. split; [by right|done]. }
      split; [rewrite E2; by apply found_cons|]. split; [by rewrite E3, orb_true_r|].
      rewrite E4, Hemit, <- app_assoc. f_equal. cbn. by destruct (announcement serverId (k, config')).
Qed.

(** C17. Scanning a server that is known: the containers found there and not known
    are added, a tunnel the platform supports with the settings its configurator
    made on the server for a new client, services and the rest as they were
    found; the clients made are announced, in the order of the containers, and
    nothing else is; what was known keeps its
    settings, and a default container that is set stays.  When there is nothing
    new the stored servers are as they were. *)
Theorem scan_adds_unknown (serverId : string) (c : SelfHostedAdminServerConfig) (x : installer T W) :
  inv (m_serversRepository x) → readable (m_serversRepository x) → printable →
  selfHostedAdminConfig serverId (m_serversRepository x) = Some c →
  leads (scanServerForInstalledContainers b prettyProductName serverId) x (λ r x',
    r = Some InstallError.NoError → ∃ installed added,
      (getAlreadyInstalledContainers (SelfHostedAdminServerConfig.credentials c) (i_session (started x))).1 =
        Some (InstallError.NoError, installed) ∧
      added.*1 = filter (unknown c) (container_entries installed).*1 ∧
      Forall (λ e, ∃ found, installed !! e.1 = Some found ∧ kept_from (SelfHostedAdminServerConfig.credentials c) e.1 found e.2) added ∧
      emitted x' = emitted x ++ omap (announcement serverId) added ∧
      let c' := found_server added c in
      (∀ k cc, containers (stored c) !! k = Some cc → containers (stored c') !! k = Some cc) ∧
      (defaultContainer (stored c) ≠ DockerContainer.None → defaultContainer (stored c') = defaultContainer (stored c)) ∧
      (added = [] → m_serversRepository x' = m_serversRepository x) ∧
      (added ≠ [] → well_stored c' → written serverId c' (m_serversRepository x) (m_serversRepository x'))).
Proof.
  intros Hi Hr Hp Hc. unfold scanServerForInstalledContainers, with_credentials. eapply leads_with; [exact Hc|].
  destruct (negb _); [by apply leads_ret|]. apply leads_in_session, leads_then, leads_over_ssh. intros s _.
  destruct (getAlreadyInstalledContainers _ _).1 as [[e installed]|]; [|done].
  destruct (Z.eqb_spec e InstallError.NoError) as [->|He]; cbn [negb]; [|apply leads_ret; intros y' _ [= ->]; done].
  apply leads_then. eapply leads_mono; [apply each_found, entries_distinct|]. intros r y [Hy Hadded].
  destruct r as [[e [c' n']]|]; [|done].
  destruct (Z.eqb_spec e InstallError.NoError) as [->|He]; cbn [negb]; [|apply leads_ret; intros y' _ [= ->]; done].
  destruct (Hadded c' n' eq_refl) as (added & E1 & Ef & -> & -> & E4). apply leads_bind.
  assert (∀ k, k ∈ added.*1 → unknown c k) as Hu by (intros k; rewrite E1; by intros [? _]%list_elem_of_filter).
  case_bool_decide as En; cbn [negb orb]; [apply leads_ret|unfold leads at 1]; apply leads_ret; intros y' [Ey Es] _; exists installed, added;
    (split; [done|]); (split; [done|]);
    (split; [eapply Forall_impl; [exact Ef|]; intros e (found & Hin%elem_entries & Hf); by exists found|]); (split; [rewrite Es; exact E4|]); (split; [by apply found_known|]);
    (split; [by apply found_default|]).
  - split; [|done]. intros _. rewrite Ey. exact Hy.
  - split; [done|]. intros _ Hw. rewrite Ey. cbn. rewrite Hy. by apply (admin_written _ _ c).
Qed.
End scanning.

(** ** Witnesses *)
#[local] Existing Instances samples.links depot.keys depot.qt depot.texts office.requests mast.uuids mast.printer single_codec fixed_printer.

(** A server with WireGuard running on it, and the two expressions on what it says. *)
#[local] Instance ward : Libssh shelf.server := {|
  ssh_new w := (true, w); ssh_free w := w; ssh_is_connected _ := true; ssh_connect _ w := (true, w); ssh_disconnect w := w;
  userauth_key := λ _ w, (true, w); userauth_password := λ _ w, (true, w); ssh_get_error_code _ := 0; ssh_get_error _ := "";
  channel_open w := (true, w); channel_close w := w; channel_write _ w := w;
  channel_exec command w := (Some (if contains_str "docker ps" command then ["amnezia-wireguard 0.0.0.0:51820->51820/udp"] else [], []), w);
  scp_new _ w := (true, w); scp_init w := (true, w); scp_push_file _ _ w := (true, w); scp_write _ w := (true, w); scp_free w := w;
  getRandomString w := ("name", w); fromHex s := s; getIPAddress h := h;
|}.
#[local] Instance ps_matches : ImportCodec := {|
  qUncompress s := s; qr_write _ _ _ s := s; qr_read s := (0, 0, 0, s); global_captures _ _ := [];
  captures e s := if String.eqb e containerAndPortRegExp && contains_str "amnezia-wireguard" s then Some ["amnezia-wireguard"; "51820"; "udp"] else None;
|}.
Definition with_home : repository (gmap string variant) :=
  (addServer sample_uuid "c" (SelfHostedAdminServerConfig.toJson sample_admin) SelfHostedAdmin two).2.
Definition at_home : installer (gmap string variant) shelf.server :=
  mkInstaller with_home ∅ false [] (mkClient false (shelf.mkServer None ∅ ∅ ∅ 0)).

Lemma home_synced : synced with_home.
Proof.
  eapply add_server; [exact sample_uuid_text|exact (synced_inv _ two_synced)|exact two_readable|exact fixed_printable|reflexivity|discriminate| |].
  - apply (bool_decide_unpack _). vm_compute. exact Logic.I.
  - vm_compute. reflexivity.
Qed.
Lemma home_stored : selfHostedAdminConfig "c" with_home = Some sample_admin.
Proof. vm_compute. reflexivity. Qed.
Lemma sample_well_stored : well_stored sample_admin.
Proof.
  split; [exact sample_server_storable|vm_compute; split; discriminate|reflexivity|].
  intros k cc Hk. cbn in Hk. apply lookup_insert_Some in Hk as [[_ <-]|[_ [_ <-]%lookup_singleton_Some]]; reflexivity.
Qed.
Lemma home_readable : readable with_home.
Proof. destruct home_synced as [_ (m & Hm & _)]. by exists m. Qed.

Lemma container_removed_witness :
  let '(e, x') := removeContainer "c" DockerContainer.Ipsec at_home in
  e = InstallError.NoError ∧
  ∃ c', selfHostedAdminConfig "c" (m_serversRepository x') = Some c' ∧
    containers (SelfHostedAdminServerConfig.common c') !! DockerContainer.Ipsec = None ∧
    is_Some (containers (SelfHostedAdminServerConfig.common c') !! DockerContainer.Sftp).
Proof.
  pose proof (container_removed "c" DockerContainer.Ipsec sample_admin at_home (synced_inv _ home_synced) home_readable fixed_printable
    home_stored sample_well_stored) as H. unfold leads in H.
  assert ((removeContainer "c" DockerContainer.Ipsec at_home).1 = InstallError.NoError) as He by (vm_compute; reflexivity).
  destruct (removeContainer "c" DockerContainer.Ipsec at_home) as [e x']. cbn [fst snd] in *. split; [exact He|].
  destruct (proj1 H He) as (c' & Hw & _ & Ec & _). exists c'. split; [apply Hw|]. cbn zeta in Ec. rewrite Ec.
  split; [apply lookup_delete_eq|by eexists].
Defined.

Lemma scan_adds_unknown_witness :
  let '(r, x') := scanServerForInstalledContainers BuildLinux "Ubuntu" "c" at_home in
  r = Some InstallError.NoError ∧ emitted x' = [clientAppendRequested "c" "PUB=" "Admin [Ubuntu]" DockerContainer.WireGuard] ∧
  ∃ cc, kept_from BuildLinux (SelfHostedAdminServerConfig.credentials sample_admin) DockerContainer.WireGuard
      (createBaseConfig DockerContainer.WireGuard 51820 TransportProto.Udp) cc ∧
    let c' := found_server BuildLinux [(DockerContainer.WireGuard, cc)] sample_admin in
    is_Some (containers (SelfHostedAdminServerConfig.common c') !! DockerContainer.Ipsec) ∧
    (well_stored c' → selfHostedAdminConfig "c" (m_serversRepository x') = Some c').
Proof.
  pose proof (scan_adds_unknown BuildLinux "Ubuntu" "c" sample_admin at_home (synced_inv _ home_synced) home_readable fixed_printable
    home_stored) as H. unfold leads in H.
  assert ((scanServerForInstalledContainers BuildLinux "Ubuntu" "c" at_home).1 = Some InstallError.NoError) as Hr by (vm_compute; reflexivity).
  assert (emitted (scanServerForInstalledContainers BuildLinux "Ubuntu" "c" at_home).2 =
    [clientAppendRequested "c" "PUB=" "Admin [Ubuntu]" DockerContainer.WireGuard]) as He by (vm_compute; reflexivity).
  destruct (scanServerForInstalledContainers BuildLinux "Ubuntu" "c" at_home) as [r x']. cbn [fst snd] in *. split; [exact Hr|].
  split; [exact He|].
  destruct (H Hr) as (installed & added & Ei & Ea & Ef & _ & Hknown & _ & _ & Hw).
  set (one := createBaseConfig DockerContainer.WireGuard 51820 TransportProto.Udp).
  assert (installed = {[ DockerContainer.WireGuard := one ]}) as ->.
  { enough (Some (InstallError.NoError, {[ DockerContainer.WireGuard := one ]}) = Some (InstallError.NoError, installed)) as [= <-] by done.
    rewrite <- Ei. vm_compute. reflexivity. }
  assert (added.*1 = [DockerContainer.WireGuard]) as Ek by (rewrite Ea; vm_compute; reflexivity).
  destruct added as [|[k cc] [|? ?]]; [discriminate| |discriminate]. injection Ek as ->.
  apply Forall_cons in Ef as [(found & Hf & Hsame) _]. cbn [fst snd] in Hf, Hsame. rewrite lookup_singleton_eq in Hf. injection Hf as <-.
  exists cc. split; [exact Hsame|]. cbv zeta. split; [eexists; by apply Hknown|]. intros Hs. by apply Hw.
Defined.
