(* ===== verification/WindowsSplitTunnel.v ===== *)
(** * WindowsSplitTunnel: applications outside the tunnel on Windows

    Models [client/platforms/windows/daemon/windowssplittunnel.cpp], the service
    manager it uses ([client/platforms/windows/windowsservicemanager.cpp]) and
    what [windowsdaemon.cpp] makes of it.  The driver, the service manager and
    the processes of Windows are a parameter ([Kernel]); every request of the
    driver that changes it is recorded with its answer.  The buffers the driver
    is given are bytes, on a 64-bit little-endian machine; the reference is a
    reader of such buffers ([read_images]). *)
From S2P Require Import Prelude Text Json IpAddress InterfaceConfig Qt DaemonConfig LinuxRouteMonitor Daemon.

(** ** Requests of the driver *)
Definition METHOD_BUFFERED : Z := 0.
Definition METHOD_NEITHER : Z := 3.
Definition CTL_CODE (DeviceType Function_ Method Access : Z) : Z :=
  Z.lor (Z.lor (Z.lor (Z.shiftl DeviceType 16) (Z.shiftl Access 14)) (Z.shiftl Function_ 2)) Method.
Definition IOCTL_INITIALIZE : Z := CTL_CODE 32768 1 METHOD_NEITHER 0.
Definition IOCTL_REGISTER_PROCESSES : Z := CTL_CODE 32768 3 METHOD_BUFFERED 0.
Definition IOCTL_REGISTER_IP_ADDRESSES : Z := CTL_CODE 32768 4 METHOD_BUFFERED 0.
Definition IOCTL_SET_CONFIGURATION : Z := CTL_CODE 32768 6 METHOD_BUFFERED 0.
Definition IOCTL_CLEAR_CONFIGURATION : Z := CTL_CODE 32768 8 METHOD_NEITHER 0.
Definition IOCTL_ST_RESET : Z := CTL_CODE 32768 11 METHOD_NEITHER 0.

Definition STATE_UNKNOWN : Z := -1.
Definition STATE_STARTED : Z := 1.
Definition STATE_INITIALIZED : Z := 2.
Definition STATE_READY : Z := 3.
Definition STATE_RUNNING : Z := 4.

Definition DRIVER_SYMLINK : string := "\\.\MULLVADSPLITTUNNEL".
Definition DRIVER_FILENAME : string := "mullvad-split-tunnel.sys".
Definition DRIVER_SERVICE_NAME : string := "AbstractumVPNSplitTunnel".
Definition MV_SERVICE_NAME : string := "MullvadVPN".
Definition ERROR_SERVICE_DOES_NOT_EXIST : Z := 1060.
Definition SERVICE_STOPPED : Z := 1.
Definition SERVICE_START_PENDING : Z := 2.
Definition SERVICE_STOP_PENDING : Z := 3.
Definition SERVICE_RUNNING : Z := 4.

(** ** Buffers *)

(** An entry of an image name for each: some bytes of its own, the offset and the
    length of the name, and the padding of the structure. *)
Section images.
Context (offset_of : list Z → Z → Z).
Fixpoint image_entries (off : Z) (l : list (list Z * list Z)) : list Z :=
  match l with
  | [] => []
  | (own, name) :: l =>
      own ++ le 8 (offset_of name off) ++ le 2 (Z.of_nat (length name)) ++ replicate 6 0 ++ image_entries (off + Z.of_nat (length name)) l
  end.
Definition image_names (l : list (list Z * list Z)) : list Z := concat l.*2.
(** The header, the entries and the names. *)
Definition image_buffer (l : list (list Z * list Z)) : list Z :=
  let entries := image_entries 0 l in
  le 8 (Z.of_nat (length l)) ++ le 8 (16 + Z.of_nat (length entries) + Z.of_nat (length (image_names l))) ++ entries ++ image_names l.
End images.
(** The bytes of a string of wide characters. *)
Definition wide (s : list Z) : list Z := s ≫= le 2.

Record ProcessInfo := mkProcessInfo {
  ProcessId : Z;
  ParentProcessId : Z;
  CreationTime : Z;
  DevicePath : list Z;
}.
Record PROCESSENTRY32W := mkProcessEntry { th32ProcessID : Z; th32ParentProcessID : Z }.

Definition configuration_entry (s : list Z) : list Z * list Z := ([], wide s).
Definition app_buffer (dosPaths : list (list Z)) : list Z :=
  image_buffer (λ _ off, off) (configuration_entry <$> dosPaths).
Definition process_entry (p : ProcessInfo) : list Z * list Z :=
  (le 8 (ProcessId p) ++ le 8 (ParentProcessId p), wide (DevicePath p)).
Definition process_buffer (processes : list ProcessInfo) : list Z :=
  image_buffer (λ name off, if (length name =? 0)%nat then 0 else off) (process_entry <$> processes).

(** ** The system *)
Inductive dos_device := DosDevice (name : string) | DosBufferTooSmall | DosError.
Class Kernel (W : Type) := {
  DeviceIoControl : Z → list Z → W → bool * W;
  (** [IOCTL_GET_STATE]: none when it fails or gives nothing *)
  driver_state : W → option Z * W;
  CreateFile : string → W → bool * W;
  file_exists : string → W → bool;
  applicationDirPath : string;
  (** what [GetLastError] gives after the call *)
  OpenSCManager_error : W → Z * W;
  OpenService_error : string → W → Z * W;
  CreateService : string → string → W → bool * W;
  StartService : string → W → bool * W;
  ControlService_stop : string → W → bool * W;
  QueryServiceStatus : string → W → option Z * W;
  (** [QueryServiceStatusEx], whose result is not asked *)
  current_state : string → W → Z * W;
  Sleep : Z → W → W;
  DeleteService : string → W → bool * W;
  QueryDosDevice : string → Z → W → dos_device;
  utf16 : string → list Z;
  toLocalFile : string → string;
  (** [QNetworkInterface]: indices and names, addresses of an index *)
  allInterfaces : W → list (Z * string);
  addressEntries : Z → W → list QHostAddress;
  (** the index of the best route to an address *)
  GetBestRoute : QHostAddress → W → option Z;
  InetPton4 : string → option (list Z);
  InetPton6 : string → option (list Z);
  (** what an address holds before it is written *)
  CreateToolhelp32Snapshot : W → option (list PROCESSENTRY32W);
  uninitialized_process : PROCESSENTRY32W;
  (** the creation time and the image of a process that can be opened *)
  OpenProcess : Z → W → option (option Z * list Z);
}.

(** The system, and the requests of its driver with their answers. *)
Record System (W : Type) := mkSystem { kernel : W; controls : list (Z * list Z * bool) }.
Arguments mkSystem {W}.
Arguments kernel {W}.
Arguments controls {W}.

(** ** Paths *)
Section paths.
Context {W : Type} {K : Kernel W}.

Definition backslash : Ascii.ascii := Ascii.ascii_of_nat 92.
Definition normalizeExecutablePath (path : string) : string :=
  let normalized := trimmed path in
  let normalized :=
    if startsWith "file:" (toLower normalized)
    then let localPath := toLocalFile normalized in if String.eqb localPath "" then normalized else localPath
    else normalized in
  replace_char slash backslash normalized.
(** Four attempts, with twice the buffer each. *)
Fixpoint query_device (attempts : nat) (size : Z) (driveLetter : string) (w : W) : option string :=
  match attempts with
  | O => None
  | S attempts =>
      match QueryDosDevice driveLetter size w with
      | DosDevice name => Some name
      | DosBufferTooSmall => query_device attempts (2 * size) driveLetter w
      | DosError => None
      end
  end.
Definition convertPath (path : string) (w : W) : string :=
  match List.filter (λ s, negb (String.eqb s "")) (split_char backslash (normalizeExecutablePath path)) with
  | driveLetter :: ((_ :: _) as parts) =>
      if negb (contains_str ":" driveLetter) then ""
      else match query_device 4 2048 driveLetter w with
           | Some deviceName => String.concat "\" (deviceName :: parts)
           | None => ""
           end
  | _ => ""
  end.
(** The devices' paths of those applications that have one. *)
Definition dos_paths (appPaths : list string) (w : W) : list string :=
  List.filter (λ s, negb (String.eqb s "")) ((λ path, convertPath (normalizeExecutablePath path) w) <$> appPaths).
Definition generateAppConfiguration (appPaths : list string) (w : W) : list Z :=
  match dos_paths appPaths w with
  | [] => []
  | dosPaths => app_buffer (utf16 <$> dosPaths)
  end.

(** ** Addresses *)
Context {Q : Qt}.
Definition first_of (p : NetworkLayerProtocol) (l : list QHostAddress) : string :=
  match List.filter (λ h, bool_decide (protocol h = p)) l with h :: _ => host_toString h | [] => "" end.
End paths.

(** *** The two networks *)
Definition zero_ipv6 : list Z := replicate 16 0.
Definition VPN_NAME : string := "AbstractumVPN".
Section addresses.
Context {W : Type} {K : Kernel W} {Q : Qt}.

Definition getAddress (adapterIndex : Z) (w : W) : option (list Z * list Z) :=
  let addresses := addressEntries adapterIndex w in
  match InetPton4 (first_of IPv4Protocol addresses) with
  | None => None
  | Some ipv4 =>
      let ipv6 := first_of IPv6Protocol addresses in
      Some (ipv4, if String.eqb ipv6 "" then zero_ipv6 else default zero_ipv6 (InetPton6 ipv6))
  end.
Definition VPNAdapterIndex (w : W) : Z :=
  match List.filter (λ a : Z * string, contains_str VPN_NAME a.2) (allInterfaces w) with (index, _) :: _ => index | [] => -1 end.
Definition generateIPConfiguration (inetAdapterIndex vpnAdapterIndex : Z) (w : W) : list Z :=
  let vpnAdapterIndex := if vpnAdapterIndex =? 0 then VPNAdapterIndex w else vpnAdapterIndex in
  match getAddress vpnAdapterIndex w with
  | None => []
  | Some (TunnelIpv4, TunnelIpv6) =>
      match getAddress inetAdapterIndex w with
      | None => []
      | Some (InternetIpv4, InternetIpv6) => TunnelIpv4 ++ InternetIpv4 ++ TunnelIpv6 ++ InternetIpv6
      end
  end.

(** *** Processes *)
Definition getProcessInfo (processMeta : PROCESSENTRY32W) (process : option Z * list Z) : ProcessInfo :=
  mkProcessInfo (th32ProcessID processMeta) (th32ParentProcessID processMeta) (default 0 process.1) process.2.
Definition by_id (a b : Z * ProcessInfo) : Prop := a.1 ≤ b.1.
#[local] Instance by_id_dec a b : Decision (by_id a b).
Proof. unfold by_id. apply _. Defined.
(** A process that cannot be opened is left out; of two with one number the last
    one stays. *)
Definition known_processes (snapshot : list PROCESSENTRY32W) (w : W) : gmap Z ProcessInfo :=
  foldl (λ m meta, match OpenProcess (th32ProcessID meta) w with
    | None => m
    | Some process => <[th32ProcessID meta := getProcessInfo meta process]> m
    end) ∅ snapshot.
Definition process_values (processes : gmap Z ProcessInfo) : list ProcessInfo :=
  (merge_sort by_id (map_to_list processes)).*2.
(** The first entry is looked at whether there is one or not. *)
Definition generateProcessBlob (w : W) : list Z :=
  match CreateToolhelp32Snapshot w with
  | None => []
  | Some snapshot =>
      let snapshot := match snapshot with [] => [uninitialized_process] | _ => snapshot end in
      match process_values (known_processes snapshot w) with
      | [] => []
      | process_list => process_buffer process_list
      end
  end.
End addresses.

(** ** Services and the driver *)
Section operations.
Context {W : Type} {K : Kernel W} {Q : Qt}.
Abbreviation M := (stM (System W)).

Definition sys {X} (f : W → X * W) : M X := λ s, let '(x, w) := f (kernel s) in (x, mkSystem w (controls s)).
Definition look {X} (f : W → X) : M X := λ s, (f (kernel s), s).
Definition control (code : Z) (input : list Z) : M bool := λ s,
  let '(ok, w) := DeviceIoControl code input (kernel s) in (ok, mkSystem w (controls s ++ [(code, input, ok)])).

(** *** [WindowsServiceManager], of the driver's service *)
Fixpoint startPolling (goal_state : Z) (max_wait_sec : nat) : M bool :=
  match max_wait_sec with
  | O => mret false
  | S tries =>
      status ← sys (QueryServiceStatus DRIVER_SERVICE_NAME);
      match status with
      | None => mret false
      | Some dwCurrentState =>
          if dwCurrentState =? goal_state then mret true
          else _ ← sys (λ w, (tt, Sleep 1000 w)); startPolling goal_state tries
      end
  end.
Definition startService : M bool :=
  state ← sys (current_state DRIVER_SERVICE_NAME);
  if negb (state =? SERVICE_STOPPED) && negb (state =? SERVICE_STOP_PENDING) then mret true else
  ok ← sys (StartService DRIVER_SERVICE_NAME);
  _ ← (if (ok : bool) then discard (startPolling SERVICE_RUNNING 30) else mret tt);
  mret ok.
Definition stopService : M bool :=
  _ ← sys (current_state DRIVER_SERVICE_NAME);
  ok ← sys (ControlService_stop DRIVER_SERVICE_NAME);
  _ ← (if (ok : bool) then discard (startPolling SERVICE_STOPPED 10) else mret tt);
  mret ok.
Definition open_service : M bool :=
  err ← sys OpenSCManager_error;
  if negb (err =? 0) then mret false else
  err ← sys (OpenService_error DRIVER_SERVICE_NAME);
  mret (err =? 0).
Definition service_running : M bool :=
  state ← sys (current_state DRIVER_SERVICE_NAME); mret (state =? SERVICE_RUNNING).

(** *** The driver *)
Definition getState : M Z := state ← sys driver_state; mret (default STATE_UNKNOWN state).
Definition resetDriver : M bool := control IOCTL_ST_RESET [].
Definition initDriver : M bool :=
  state ← getState;
  if state =? STATE_UNKNOWN then mret false else
  ready ← (if STATE_INITIALIZED <=? state
           then _ ← resetDriver; newState ← getState; mret (newState <? STATE_INITIALIZED) else mret true);
  if negb (ready : bool) then mret false else control IOCTL_INITIALIZE [].

Definition detectConflict : M bool :=
  err ← sys (OpenService_error MV_SERVICE_NAME);
  if negb (err =? ERROR_SERVICE_DOES_NOT_EXIST) then mret true else
  exists_ ← look (file_exists DRIVER_SYMLINK);
  if negb (exists_ : bool) then mret false else
  err ← sys (OpenService_error DRIVER_SERVICE_NAME);
  mret (err =? ERROR_SERVICE_DOES_NOT_EXIST).
Definition isInstalled : M bool :=
  exists_ ← look (file_exists DRIVER_SYMLINK);
  if (exists_ : bool) then mret true else
  err ← sys (OpenService_error DRIVER_SERVICE_NAME);
  mret (negb (err =? ERROR_SERVICE_DOES_NOT_EXIST)).
(** Whether the handle is not the invalid one, which a service that could not be
    created does not give. *)
Definition installDriver : M bool :=
  let path := applicationDirPath +:+ "/" +:+ DRIVER_FILENAME in
  exists_ ← look (file_exists path);
  if negb (exists_ : bool) then mret false else
  _ ← sys (CreateService DRIVER_SERVICE_NAME path);
  mret true.
Definition uninstallDriver : M bool :=
  _ ← sys (OpenService_error DRIVER_SERVICE_NAME); sys (DeleteService DRIVER_SERVICE_NAME).
(** Opened at once, or after the service was started again. *)
Definition open_driver : M bool :=
  opened ← sys (CreateFile DRIVER_SYMLINK);
  if (opened : bool) then mret true else
  stopped ← stopService;
  if negb (stopped : bool) then mret false else
  started ← startService;
  if negb (started : bool) then mret false else sys (CreateFile DRIVER_SYMLINK).
(** Whether there is a split tunnel; [fw] says whether there is a firewall. *)
Definition create (fw : bool) : M bool :=
  if negb fw then mret false else
  conflict ← detectConflict;
  if (conflict : bool) then mret false else
  installed ← isInstalled;
  installed ← (if (installed : bool) then mret true else installDriver);
  if negb (installed : bool) then mret false else
  manager ← open_service;
  if negb (manager : bool) then mret false else
  running ← service_running;
  running ← (if (running : bool) then mret true else startService);
  if negb (running : bool) then mret false else
  opened ← open_driver;
  if negb (opened : bool) then mret false else initDriver.

Definition excludeApps (appPaths : list string) : M bool :=
  state ← getState;
  if negb (state =? STATE_READY) && negb (state =? STATE_RUNNING) then mret false else
  config ← look (generateAppConfiguration appPaths);
  match config with
  | [] => mret false
  | _ => control IOCTL_SET_CONFIGURATION config
  end.
Definition start (inetAdapterIndex vpnAdapterIndex : Z) : M bool :=
  state ← getState;
  ok ← (if state =? STATE_STARTED then control IOCTL_INITIALIZE [] else mret true);
  if negb (ok : bool) then mret false else
  state ← getState;
  ok ← (if state =? STATE_INITIALIZED
        then (config ← look generateProcessBlob;
              match config with [] => mret false | _ => control IOCTL_REGISTER_PROCESSES config end)
        else mret true);
  if negb (ok : bool) then mret false else
  state ← getState;
  if state =? STATE_INITIALIZED then mret false else
  config ← look (generateIPConfiguration inetAdapterIndex vpnAdapterIndex);
  match config with
  | [] => mret false
  | _ => control IOCTL_REGISTER_IP_ADDRESSES config
  end.
Definition stop : M unit :=
  state ← getState;
  if state <? STATE_READY then mret tt else discard (control IOCTL_CLEAR_CONFIGURATION []).
Definition isRunning : M bool := state ← getState; mret (state =? STATE_RUNNING).
End operations.

(** ** The daemon *)
Inductive DaemonError :=
  ERROR_NONE | ERROR_FATAL | ERROR_SPLIT_TUNNEL_INIT_FAILURE | ERROR_SPLIT_TUNNEL_START_FAILURE | ERROR_SPLIT_TUNNEL_EXCLUDE_FAILURE.
Record WindowsDaemon (W : Type) := mkWindowsDaemon {
  m_inetAdapterIndex : Z;
  m_splitTunnelManager : bool;            (** there is one *)
  backendFailures : list DaemonError;     (** emitted, the last one at the end *)
  system : System W;
}.
Arguments mkWindowsDaemon {W}.
Arguments m_inetAdapterIndex {W}.
Arguments m_splitTunnelManager {W}.
Arguments backendFailures {W}.
Arguments system {W}.

Section daemon.
Context {W : Type} {K : Kernel W} {Q : Qt}.
Abbreviation D := (stM (WindowsDaemon W)).

Definition tunnel {X} (m : stM (System W) X) : D X := λ d,
  let '(x, s) := m (system d) in (x, mkWindowsDaemon (m_inetAdapterIndex d) (m_splitTunnelManager d) (backendFailures d) s).
Definition emit (e : DaemonError) : D unit := modify (λ d,
  mkWindowsDaemon (m_inetAdapterIndex d) (m_splitTunnelManager d) (backendFailures d ++ [e]) (system d)).
Definition AdapterIndexTo (dst : QHostAddress) (w : W) : Z := default (-1) (GetBestRoute dst w).
Definition prepareActivation (config : InterfaceConfig) (inetAdapterIndex : Z) : D unit := modify (λ d,
  mkWindowsDaemon
    (if inetAdapterIndex =? 0 then AdapterIndexTo (host_of_string (str (m_serverIpv4AddrIn config))) (kernel (system d)) else inetAdapterIndex)
    (m_splitTunnelManager d) (backendFailures d) (system d)).
Definition activateSplitTunnel (config : InterfaceConfig) (vpnAdapterIndex : Z) : D unit :=
  d ← get;
  let apps := m_vpnDisabledApps config in
  if negb (m_splitTunnelManager d) then match apps with [] => mret tt | _ => emit ERROR_SPLIT_TUNNEL_INIT_FAILURE end else
  match apps with
  | [] => tunnel stop
  | _ =>
      started ← tunnel (start (m_inetAdapterIndex d) vpnAdapterIndex);
      if negb (started : bool) then emit ERROR_SPLIT_TUNNEL_START_FAILURE else
      excluded ← tunnel (excludeApps apps);
      if negb (excluded : bool) then emit ERROR_SPLIT_TUNNEL_EXCLUDE_FAILURE else
      running ← tunnel isRunning;
      if negb (running : bool) then emit ERROR_SPLIT_TUNNEL_START_FAILURE else mret tt
  end.
Definition run (op : Op) (config : InterfaceConfig) : D bool :=
  d ← get;
  let apps := m_vpnDisabledApps config in
  if negb (m_splitTunnelManager d)
  then match apps with [] => mret true | _ => _ ← emit ERROR_SPLIT_TUNNEL_INIT_FAILURE; mret false end else
  match op with
  | Down => _ ← tunnel stop; mret true
  | _ =>
      match apps with
      | [] => _ ← tunnel stop; mret true
      | _ =>
          started ← tunnel (start (m_inetAdapterIndex d) 0);
          if negb (started : bool) then _ ← emit ERROR_SPLIT_TUNNEL_START_FAILURE; mret false else
          excluded ← tunnel (excludeApps apps);
          if negb (excluded : bool) then _ ← emit ERROR_SPLIT_TUNNEL_EXCLUDE_FAILURE; mret false else
          running ← tunnel isRunning;
          if negb (running : bool) then _ ← emit ERROR_SPLIT_TUNNEL_START_FAILURE; mret false else mret true
      end
  end.
End daemon.

(** ** Reading a buffer *)

(** The entries one after the other, each with [own] bytes of its own; the names
    where their offsets say. *)
Fixpoint read_entries (n own : nat) (entries names : list Z) : list (list Z * list Z) :=
  match n with
  | O => []
  | S n => (take own entries, take (Z.to_nat (field (own + 8) 2 entries)) (drop (Z.to_nat (field own 8 entries)) names))
             :: read_entries n own (drop (own + 16) entries) names
  end.
Definition read_images (own : nat) (buffer : list Z) : option (list (list Z * list Z)) :=
  let n := field 0 8 buffer in
  if negb (field 8 8 buffer =? Z.of_nat (length buffer)) then None
  else let entries := drop 16 buffer in
       Some (read_entries (Z.to_nat n) own entries (drop (Z.to_nat n * (own + 16)) entries)).
(** Two bytes are a wide character. *)
Fixpoint read_wide (l : list Z) : list Z :=
  match l with a :: b :: l => a + 256 * b :: read_wide l | _ => [] end.

Lemma read_wide_wide s : Forall (λ c, 0 ≤ c < 65536) s → read_wide (wide s) = s.
Proof.
  induction s as [|c s IH]; intros Hs; [done|]. apply Forall_cons in Hs as [Hc Hs].
  change (wide (c :: s)) with (c mod 256 :: (c / 256) mod 256 :: wide s). cbn [read_wide]. rewrite IH by done. f_equal.
  rewrite (Z.mod_small (c / 256)) by (split; [apply Z.div_pos; lia|apply Z.div_lt_upper_bound; lia]).
  rewrite (Z.div_mod c 256) at 3 by lia. lia.
Qed.
Lemma length_wide s : length (wide s) = (2 * length s)%nat.
Proof. unfold wide. induction s as [|c s IH]; [done|]. cbn [mbind list_bind]. rewrite length_app, length_le. cbn [length]. rewrite IH. lia. Qed.

Lemma field_app own n v (a rest : list Z) : length a = own → 0 ≤ v < 256 ^ Z.of_nat n → field own n (a ++ le n v ++ rest) = v.
Proof.
  intros <- Hv. unfold field. rewrite drop_app_length, take_app_le by (rewrite length_le; lia).
  rewrite take_ge by (rewrite length_le; lia). rewrite le_num_le. by apply Z.mod_small.
Qed.

Section reading.
Context (offset_of : list Z → Z → Z) (own : nat).
Context (Hoffset : ∀ name off, 0 ≤ off → 0 ≤ offset_of name off ≤ off ∧ (name ≠ [] → offset_of name off = off)).

(** Images whose lengths fit their fields. *)
Definition fitting (l : list (list Z * list Z)) : Prop :=
  Forall (λ e : list Z * list Z, length e.1 = own ∧ Z.of_nat (length e.2) < 2 ^ 16) l.

Lemma length_entries off l : fitting l → length (image_entries offset_of off l) = (length l * (own + 16))%nat.
Proof using.
  revert off. induction l as [|[a name] l IH]; intros off Hl; [done|]. apply Forall_cons in Hl as [[Ha _] Hl].
  cbn [image_entries]. rewrite !length_app, !length_le, length_replicate, IH by done. cbn [fst] in Ha. cbn [length]. lia.
Qed.
Lemma read_entries_names l before rest : fitting l →
  Z.of_nat (length before + length (image_names l)) < 2 ^ 64 →
  read_entries (length l) own (image_entries offset_of (Z.of_nat (length before)) l ++ rest) (before ++ image_names l) = l.
Proof using Hoffset.
  revert before. induction l as [|[a name] l IH]; intros before Hl Hlen; [done|]. apply Forall_cons in Hl as [[Ha Hn] Hl]. cbn [fst snd] in *.
  unfold image_names in *. cbn [length fmap list_fmap concat snd] in *. rewrite length_app in Hlen.
  cbn [read_entries image_entries]. set (off := Z.of_nat (length before)). destruct (Hoffset name off) as [Hb Hne]; [lia|].
  set (tail := image_entries offset_of (off + Z.of_nat (length name)) l).
  replace ((a ++ le 8 (offset_of name off) ++ le 2 (Z.of_nat (length name)) ++ replicate 6 0 ++ tail) ++ rest)
    with (a ++ le 8 (offset_of name off) ++ le 2 (Z.of_nat (length name)) ++ replicate 6 0 ++ tail ++ rest) by (by rewrite <- !app_assoc).
  assert (Z.to_nat (field own 8 (a ++ le 8 (offset_of name off) ++ le 2 (Z.of_nat (length name)) ++ replicate 6 0 ++ tail ++ rest))
          = Z.to_nat (offset_of name off)) as ->.
  { rewrite field_app; [done..|]. change (256 ^ Z.of_nat 8) with (2 ^ 64). lia. }
  assert (Z.to_nat (field (own + 8) 2 (a ++ le 8 (offset_of name off) ++ le 2 (Z.of_nat (length name)) ++ replicate 6 0 ++ tail ++ rest))
          = length name) as ->.
  { rewrite (app_assoc a), field_app; [lia|rewrite length_app, length_le; lia|]. change (256 ^ Z.of_nat 2) with (2 ^ 16). lia. }
  rewrite take_app_le, take_ge by lia. f_equal; [f_equal|].
  - destruct name as [|c name]; [done|]. rewrite Hne by done. subst off. rewrite Nat2Z.id, drop_app_length, take_app_length. done.
  - rewrite (app_assoc a), (app_assoc (a ++ _)), (app_assoc ((a ++ _) ++ _)).
    rewrite drop_app_length' by (rewrite !length_app, !length_le, length_replicate; lia).
    subst tail off. specialize (IH (before ++ name) Hl). rewrite length_app in IH. rewrite <- !app_assoc in IH.
    rewrite !Nat2Z.inj_add in IH. apply IH. lia.
Qed.
Lemma read_image_buffer l : fitting l → Z.of_nat (length (image_buffer offset_of l)) < 2 ^ 64 →
  read_images own (image_buffer offset_of l) = Some l.
Proof using Hoffset.
  intros Hl Hlen. unfold read_images. cbv zeta.
  assert (length (image_buffer offset_of l) = 16 + length (image_entries offset_of 0 l) + length (image_names l))%nat as El
    by (unfold image_buffer; rewrite !length_app, !length_le; lia).
  assert (field 0 8 (image_buffer offset_of l) = Z.of_nat (length l)) as ->.
  { unfold image_buffer. cbv zeta. rewrite <- (app_nil_l (le 8 (Z.of_nat (length l)) ++ _)), field_app; [done..|].
    change (256 ^ Z.of_nat 8) with (2 ^ 64). rewrite El, length_entries in Hlen by done. nia. }
  assert (field 8 8 (image_buffer offset_of l) = Z.of_nat (length (image_buffer offset_of l))) as ->.
  { rewrite El. unfold image_buffer. cbv zeta. rewrite field_app; [lia|by rewrite length_le|]. change (256 ^ Z.of_nat 8) with (2 ^ 64). lia. }
  rewrite Z.eqb_refl. cbn [negb]. f_equal. rewrite Nat2Z.id.
  assert (drop 16 (image_buffer offset_of l) = image_entries offset_of 0 l ++ image_names l) as ->.
  { unfold image_buffer. cbv zeta. rewrite app_assoc. apply drop_app_length'. by rewrite length_app, !length_le. }
  rewrite (drop_app_length' (image_entries _ _ _)) by (by rewrite length_entries).
  apply (read_entries_names l [] (image_names l)); [done|]. cbn [length]. lia.
Qed.
End reading.

(** ** Properties *)
Section properties.
Context {W : Type} {K : Kernel W} {Q : Qt}.

Lemma sys_run {X} (f : W → X * W) (s : System W) : sys f s = ((f (kernel s)).1, mkSystem (f (kernel s)).2 (controls s)).
Proof. unfold sys. by destruct (f (kernel s)). Qed.
Lemma state_asked s (G : Z → System W → Prop) :
  (∀ state w, driver_state (kernel s) = (state, w) → G (default STATE_UNKNOWN state) (mkSystem w (controls s))) → leads getState s G.
Proof.
  intros H. unfold getState. apply leads_bind. unfold leads at 1. rewrite sys_run. cbn [fst snd]. apply leads_ret.
  apply (H (driver_state (kernel s)).1 (driver_state (kernel s)).2). by destruct (driver_state (kernel s)).
Qed.
Lemma controlled code input s (G : bool → System W → Prop) :
  (∀ ok w, G ok (mkSystem w (controls s ++ [(code, input, ok)]))) → leads (control code input) s G.
Proof. intros H. unfold leads, control. destruct (DeviceIoControl code input (kernel s)). apply H. Qed.
Lemma looked {X} (f : W → X) s (G : X → System W → Prop) : G (f (kernel s)) s → leads (look f) s G.
Proof. done. Qed.

(** What prepares the driver: its initialization and the processes there are. *)
Definition preparation (c : Z * list Z * bool) : Prop := c.1.1 = IOCTL_INITIALIZE ∨ c.1.1 = IOCTL_REGISTER_PROCESSES.
(** [asked pre s s']: the driver was asked for [pre] on the way. *)
Definition asked (pre : list (Z * list Z * bool)) (s s' : System W) : Prop := controls s' = controls s ++ pre.
Lemma asked_trans l k s s1 s2 : asked l s s1 → asked k s1 s2 → asked (l ++ k) s s2.
Proof. unfold asked. intros E ->. by rewrite E, app_assoc. Qed.

Lemma start_asks inet vpn s :
  leads (start inet vpn) s (λ ok s', ok = true → ∃ pre ip w,
    Forall preparation pre ∧ ip ≠ [] ∧ ip = generateIPConfiguration inet vpn w ∧
    asked (pre ++ [(IOCTL_REGISTER_IP_ADDRESSES, ip, true)]) s s').
Proof.
  unfold start. apply leads_bind, state_asked. intros st1 w1 _.
  (* the driver may have to be initialized *)
  apply leads_bind. set (s1 := mkSystem w1 (controls s)).
  assert (leads (if default STATE_UNKNOWN st1 =? STATE_STARTED then control IOCTL_INITIALIZE [] else mret true) s1
    (λ ok s', ∃ pre, Forall preparation pre ∧ asked pre s s')) as H1.
  { destruct (default STATE_UNKNOWN st1 =? STATE_STARTED); [apply controlled; intros ok w; exists [(IOCTL_INITIALIZE, [], ok)]; split; [constructor; [by left|done]|done]|].
    apply leads_ret. exists []. split; [done|]. unfold asked. cbn. by rewrite app_nil_r. }
  eapply leads_mono; [exact H1|]. intros [] s2 (pre1 & Hp1 & A1); cbn [negb]; [|by apply leads_ret].
  apply leads_bind, state_asked. intros st2 w2 _. set (s3 := mkSystem w2 (controls s2)). assert (asked pre1 s s3) as A3 by exact A1.
  apply leads_bind.
  assert (leads (if default STATE_UNKNOWN st2 =? STATE_INITIALIZED
        then (config ← look generateProcessBlob; match config with [] => mret false | _ => control IOCTL_REGISTER_PROCESSES config end)
        else mret true) s3 (λ ok s', ∃ pre, Forall preparation pre ∧ asked pre s s')) as H2.
  { clear H1. destruct (default STATE_UNKNOWN st2 =? STATE_INITIALIZED); [|apply leads_ret; by exists pre1]. apply leads_bind, looked.
    destruct (generateProcessBlob _) as [|z l]; [apply leads_ret; by exists pre1|]. apply controlled. intros ok w. exists (pre1 ++ [(IOCTL_REGISTER_PROCESSES, z :: l, ok)]).
    split; [apply Forall_app; split; [done|constructor; [by right|done]]|]. eapply asked_trans; [exact A3|done]. }
  eapply leads_mono; [exact H2|]. intros [] s4 (pre2 & Hp2 & A4); cbn [negb]; [|by apply leads_ret].
  apply leads_bind, state_asked. intros st3 w3 _. set (s5 := mkSystem w3 (controls s4)). assert (asked pre2 s s5) as A5 by exact A4.
  destruct (default STATE_UNKNOWN st3 =? STATE_INITIALIZED); [by apply leads_ret|]. apply leads_bind, looked.
  destruct (generateIPConfiguration inet vpn (kernel s5)) as [|b ip] eqn:E; [by apply leads_ret|].
  apply controlled. intros ok w ->. exists pre2, (b :: ip), (kernel s5). split_and!; [done..|]. eapply asked_trans; [exact A5|done].
Qed.
Lemma exclude_asks apps s :
  leads (excludeApps apps) s (λ ok s', ok = true → ∃ paths w,
    paths = dos_paths apps w ∧ paths ≠ [] ∧ asked [(IOCTL_SET_CONFIGURATION, app_buffer (utf16 <$> paths), true)] s s').
Proof.
  unfold excludeApps. apply leads_bind, state_asked. intros st w _. destruct (_ && _); [by apply leads_ret|].
  apply leads_bind, looked. unfold generateAppConfiguration. cbn [kernel].
  destruct (dos_paths apps w) as [|path paths] eqn:E; [by apply leads_ret|].
  destruct (app_buffer (utf16 <$> path :: paths)) as [|b rest] eqn:Ec; [by apply leads_ret|].
  apply controlled. intros ok w' ->. exists (path :: paths), w. split_and!; [done..|]. unfold asked. by rewrite Ec.
Qed.

Lemma running_asks s : leads isRunning s (λ _ s', controls s' = controls s).
Proof. unfold isRunning. apply leads_bind, state_asked. intros st w _. by apply leads_ret. Qed.

(** *** When the driver is content

    Its dialogue as a relation on the system: which answers, in which order, take
    the system from [w] to [w']. *)
Abbreviation dialogue := (W → W → Prop).
(** It says its state. *)
Definition says (R : Z → dialogue) : dialogue := λ w w', ∃ st w1, driver_state w = (st, w1) ∧ R (default STATE_UNKNOWN st) w1 w'.
(** It accepts a request; one that tells it something has to tell something. *)
Definition accepts (code : Z) (input : list Z) : dialogue := λ w w', DeviceIoControl code input w = (true, w').
Definition is_told (code : Z) (config : W → list Z) : dialogue := λ w w', config w ≠ [] ∧ accepts code (config w) w w'.
Definition if_due (due : bool) (R : dialogue) : dialogue := λ w w', if due then R w w' else w' = w.
Definition only_if (ok : bool) (R : dialogue) : dialogue := λ w w', ok = true ∧ R w w'.
Definition followed_by (R R' : dialogue) : dialogue := λ w w', ∃ w1, R w w1 ∧ R' w1 w'.

(** It is initialized and told the processes if that is still to be done, and takes
    the addresses of the two networks. *)
Definition networks_taken (inet vpn : Z) : dialogue :=
  says (λ st, followed_by (if_due (st =? STATE_STARTED) (accepts IOCTL_INITIALIZE []))
    (says (λ st, followed_by (if_due (st =? STATE_INITIALIZED) (is_told IOCTL_REGISTER_PROCESSES generateProcessBlob))
      (says (λ st, only_if (negb (st =? STATE_INITIALIZED)) (is_told IOCTL_REGISTER_IP_ADDRESSES (generateIPConfiguration inet vpn))))))).
(** It is ready, or runs already, and takes the applications. *)
Definition apps_taken (apps : list string) : dialogue :=
  says (λ st, only_if ((st =? STATE_READY) || (st =? STATE_RUNNING)) (is_told IOCTL_SET_CONFIGURATION (generateAppConfiguration apps))).
(** It takes both, and says that it runs. *)
Definition content (inet : Z) (apps : list string) (w : W) : Prop :=
  ∃ w', followed_by (followed_by (networks_taken inet 0) (apps_taken apps)) (says (λ st w1 w', st = STATE_RUNNING ∧ w' = w1)) w w'.

(** [agrees m s R]: [m] succeeds from [s] just when the dialogue can be had, and
    leaves the system it leads to. *)
Definition agrees (m : stM (System W) bool) (s : System W) (R : dialogue) : Prop :=
  leads m s (λ ok s', (ok = true → R (kernel s) (kernel s')) ∧ ∀ w', R (kernel s) w' → ok = true ∧ kernel s' = w').
Lemma agrees_done s : agrees (mret true) s (λ w w', w' = w).
Proof. apply leads_ret. split; [done|]. by intros w' ->. Qed.
Lemma agrees_control code input s : agrees (control code input) s (accepts code input).
Proof.
  unfold agrees, accepts, leads, control. destruct (DeviceIoControl code input (kernel s)) as [ok w]. cbn. split; [by intros ->|]. by intros w' [= -> ->].
Qed.
Lemma agrees_told code (config : W → list Z) s :
  agrees (input ← look config; match input with [] => mret false | _ => control code input end) s (is_told code config).
Proof.
  unfold agrees, is_told. apply leads_bind, looked. destruct (config (kernel s)) as [|b l]; [apply leads_ret; split; [done|]; by intros w' [? _]|].
  eapply leads_mono; [apply agrees_control|]. cbn beta. intros ok s' [H1 H2]. split; [intros E; split; [done|by apply H1]|]. intros w' [_ E]. by apply H2.
Qed.
Lemma agrees_due (due : bool) m s R : agrees m s R → agrees (if due then m else mret true) s (if_due due R).
Proof. destruct due; [done|]. intros _. apply agrees_done. Qed.
Lemma agrees_then m (k : stM (System W) bool) s R R' :
  agrees m s R → (∀ s', agrees k s' R') → agrees (ok ← m; if negb (ok : bool) then mret false else k) s (followed_by R R').
Proof.
  unfold agrees, followed_by. intros Hm Hk. apply leads_bind. eapply leads_mono; [exact Hm|]. cbn beta. intros [] s1 [H1 H2]; cbn [negb].
  - eapply leads_mono; [apply Hk|]. cbn beta. intros ok s2 [H3 H4]. split; [intros E; exists (kernel s1); split; [by apply H1|by apply H3]|].
    intros w' (w & Hw & Hr). destruct (H2 w Hw) as [_ <-]. by apply H4.
  - apply leads_ret. split; [done|]. intros w' (w & Hw & _). by destruct (H2 w Hw).
Qed.
Lemma agrees_says (k : Z → stM (System W) bool) s (R : Z → dialogue) : (∀ st s', agrees (k st) s' (R st)) → agrees (getState ≫= k) s (says R).
Proof.
  unfold agrees, says. intros Hk. apply leads_bind, state_asked. intros st w E. eapply leads_mono; [apply Hk|]. cbn beta. intros ok s' [H1 H2].
  split; [intros Ho; exists st, w; split; [done|by apply H1]|]. intros w' (st' & w0 & E' & Hr). rewrite E in E'. injection E' as <- <-. by apply H2.
Qed.
Lemma agrees_only (b : bool) m s R : agrees m s R → agrees (if b then mret false else m) s (only_if (negb b) R).
Proof.
  unfold agrees, only_if. intros H. destruct b; [apply leads_ret; split; [done|]; by intros w' [? _]|].
  eapply leads_mono; [exact H|]. cbn beta. intros ok s' [H1 H2]. split; [auto|]. intros w' [_ Hw]. by apply H2.
Qed.
Lemma start_agrees inet vpn s : agrees (start inet vpn) s (networks_taken inet vpn).
Proof.
  apply agrees_says. intros st1 s1. apply agrees_then; [apply agrees_due, agrees_control|]. intros s2.
  apply agrees_says. intros st2 s3. apply agrees_then; [apply agrees_due, agrees_told|]. intros s4.
  apply agrees_says. intros st3 s5. apply agrees_only, agrees_told.
Qed.
Lemma exclude_agrees apps s : agrees (excludeApps apps) s (apps_taken apps).
Proof.
  apply agrees_says. intros st s1. pose proof (agrees_only (negb (st =? STATE_READY) && negb (st =? STATE_RUNNING)) _ s1 _
    (agrees_told IOCTL_SET_CONFIGURATION (generateAppConfiguration apps) s1)) as H.
  by rewrite negb_andb, !negb_involutive in H.
Qed.
Lemma running_agrees s : agrees isRunning s (says (λ st w1 w', st = STATE_RUNNING ∧ w' = w1)).
Proof.
  apply agrees_says. intros st s'. apply leads_ret. split; [by intros ->%Z.eqb_eq|]. intros w' [-> ->]. split; [apply Z.eqb_refl|done].
Qed.

Lemma tunnel_run {X} (m : stM (System W) X) d (G : X → WindowsDaemon W → Prop) :
  leads m (system d) (λ x s, G x (mkWindowsDaemon (m_inetAdapterIndex d) (m_splitTunnelManager d) (backendFailures d) s)) →
  leads (tunnel m) d G.
Proof. unfold leads, tunnel. by destruct (m (system d)). Qed.

Lemma leads_both {S X} (m : stM S X) s (P R : X → S → Prop) : leads m s P → leads m s R → leads m s (λ x s', P x s' ∧ R x s').
Proof. by split. Qed.
(** One error, and none of the dialogue. *)
Lemma refused (C : Prop) (e : DaemonError) (d d0 : WindowsDaemon W) (G : WindowsDaemon W → Prop) :
  backendFailures d0 = backendFailures d → e ∈ [ERROR_SPLIT_TUNNEL_START_FAILURE; ERROR_SPLIT_TUNNEL_EXCLUDE_FAILURE] → ¬ C →
  leads (_ ← emit e; mret false) d0
    (λ ok (d' : WindowsDaemon W), (ok = true ↔ C) ∧ (ok = true → G d') ∧
      (ok = false → ∃ e, e ∈ [ERROR_SPLIT_TUNNEL_START_FAILURE; ERROR_SPLIT_TUNNEL_EXCLUDE_FAILURE] ∧ backendFailures d' = backendFailures d ++ [e])).
Proof. intros Hd He Hc. apply leads_bind. split; [by split|]. split; [done|]. intros _. exists e. cbn. by rewrite Hd. Qed.
(** C37. Applications outside the tunnel: the request succeeds exactly when the
    driver, once it is initialized and told the processes, takes the addresses of
    the two networks and the devices' paths of the applications, and says that it
    runs.  Then it was told these in this order, and nothing else after; when the
    request fails, one error is announced. *)
Theorem split_tunnel_started (op : Op) (config : InterfaceConfig) (d : WindowsDaemon W) :
  m_splitTunnelManager d = true → m_vpnDisabledApps config ≠ [] → op ≠ Down →
  leads (run op config) d (λ ok d',
    (ok = true ↔ content (m_inetAdapterIndex d) (m_vpnDisabledApps config) (kernel (system d))) ∧
    (ok = true → backendFailures d' = backendFailures d ∧ ∃ pre ip paths w1 w2,
       Forall preparation pre ∧ ip ≠ [] ∧ ip = generateIPConfiguration (m_inetAdapterIndex d) 0 w1 ∧
       paths ≠ [] ∧ paths = dos_paths (m_vpnDisabledApps config) w2 ∧
       controls (system d') = controls (system d) ++ pre ++
         [(IOCTL_REGISTER_IP_ADDRESSES, ip, true); (IOCTL_SET_CONFIGURATION, app_buffer (utf16 <$> paths), true)]) ∧
    (ok = false → ∃ e, e ∈ [ERROR_SPLIT_TUNNEL_START_FAILURE; ERROR_SPLIT_TUNNEL_EXCLUDE_FAILURE] ∧
       backendFailures d' = backendFailures d ++ [e])).
Proof.
  intros Hm Happs Hop. unfold run. apply leads_bind. unfold leads at 1. cbn [get fst snd]. cbv zeta. rewrite Hm. cbn [negb].
  set (apps := m_vpnDisabledApps config) in *. set (inet := m_inetAdapterIndex d).
  assert (∀ w1 w1', networks_taken inet 0 (kernel (system d)) w1 → networks_taken inet 0 (kernel (system d)) w1' → w1 = w1') as Hu.
  { intros w1 w1' N1 N2. destruct (start_agrees inet 0 (system d)) as [_ H]. destruct (H w1 N1) as [_ <-]. by apply H. }
  destruct op; [|done|]; (destruct apps as [|app l] eqn:Eapps; [done|]); rewrite <- Eapps in *; clear Happs Hop Eapps app l.
  all: apply leads_bind, tunnel_run; eapply leads_mono; [apply leads_both; [apply start_asks|apply (start_agrees inet)]|].
  all: intros [] s1 [H1 [N1 N2]]; cbn [negb]; [|apply refused; [done|listed|]; intros (w' & w2 & (w1 & Hn & _) & _); by destruct (N2 w1 Hn)].
  all: destruct (H1 eq_refl) as (pre & ip & w1 & Hpre & Hip & Eip & A1); specialize (N1 eq_refl).
  all: apply leads_bind, tunnel_run; eapply leads_mono; [apply leads_both; [apply exclude_asks|apply (exclude_agrees apps)]|].
  all: cbn [system]; intros [] s2 [H2 [M1 M2]]; cbn [negb];
    [|apply refused; [done|listed|]; intros (w' & w2 & (w1' & Hn & Ha) & _); rewrite <- (Hu _ _ N1 Hn) in Ha; by destruct (M2 w2 Ha)].
  all: destruct (H2 eq_refl) as (paths & w2 & Epaths & Hpaths & A2); specialize (M1 eq_refl).
  all: apply leads_bind, tunnel_run; eapply leads_mono; [apply leads_both; [apply running_asks|apply running_agrees]|].
  all: cbn [system]; intros [] s3 [A3 [R1 R2]]; cbn [negb].
  2, 4: apply refused; [done|listed|]; intros (w' & w2' & (w1' & Hn & Ha) & Hr); rewrite <- (Hu _ _ N1 Hn) in Ha;
    destruct (M2 w2' Ha) as [_ <-]; by destruct (R2 w' Hr).
  all: specialize (R1 eq_refl); apply leads_ret; split; [split; [intros _|done]; exists (kernel s3), (kernel s2); split; [by exists (kernel s1)|done]|].
  all: split; [|done]; intros _; split; [done|]; exists pre, ip, paths, w1, w2; split_and!; try done.
  all: cbn [system]; rewrite A3; unfold asked in *; rewrite A2; cbn [system]; rewrite A1; by rewrite <- !app_assoc.
Qed.
End properties.

(** The driver reads from its buffer the very paths it is given: whatever the
    applications, their number and their paths' lengths, as long as they fit the
    fields of the structures. *)
Theorem app_buffer_read (dosPaths : list (list Z)) :
  Forall (λ s, Forall (λ c, 0 ≤ c < 65536) s ∧ 2 * Z.of_nat (length s) < 2 ^ 16) dosPaths →
  Z.of_nat (length (app_buffer dosPaths)) < 2 ^ 64 →
  (λ l : list (list Z * list Z), (λ e : list Z * list Z, read_wide e.2) <$> l) <$> read_images 0 (app_buffer dosPaths) = Some dosPaths.
Proof.
  intros Hp Hlen. unfold app_buffer in *. rewrite read_image_buffer; [|split; [lia|done]| |done].
  - cbn [fmap option_fmap option_map]. f_equal. rewrite <- list_fmap_compose. rewrite <- (list_fmap_id dosPaths) at 2.
    apply list_fmap_ext. intros i s Hi. cbn. apply read_wide_wide. by apply (Forall_lookup_1 _ _ _ _ Hp Hi).
  - apply Forall_fmap, (Forall_impl _ _ _ Hp). intros s [_ Hs]. cbn. rewrite length_wide. split; [done|lia].
Qed.

(** *** The processes *)

(** What the driver reads of a buffer: numbers, parents and images. *)
Definition read_processes (buffer : list Z) : option (list (Z * Z * list Z)) :=
  (λ l : list (list Z * list Z), (λ e : list Z * list Z, (field 0 8 e.1, field 8 8 e.1, read_wide e.2)) <$> l) <$> read_images 16 buffer.
Lemma process_buffer_exact (processes : list ProcessInfo) :
  Forall (λ p, 0 ≤ ProcessId p < 2 ^ 32 ∧ 0 ≤ ParentProcessId p < 2 ^ 32 ∧
    Forall (λ c, 0 ≤ c < 65536) (DevicePath p) ∧ 2 * Z.of_nat (length (DevicePath p)) < 2 ^ 16) processes →
  Z.of_nat (length (process_buffer processes)) < 2 ^ 64 →
  read_processes (process_buffer processes) = Some ((λ p, (ProcessId p, ParentProcessId p, DevicePath p)) <$> processes).
Proof.
  intros Hp Hlen. unfold read_processes, process_buffer in *. rewrite read_image_buffer; [| | |done].
  - cbn [fmap option_fmap option_map]. f_equal. rewrite <- list_fmap_compose. apply list_fmap_ext. intros i p Hi.
    destruct (Forall_lookup_1 _ _ _ _ Hp Hi) as (H1 & H2 & H3 & _). unfold compose, process_entry. cbn [fst snd].
    pose proof (field_app 0 8 (ProcessId p) [] (le 8 (ParentProcessId p)) eq_refl) as E1. rewrite app_nil_l in E1.
    pose proof (field_app 8 8 (ParentProcessId p) (le 8 (ProcessId p)) [] (length_le _ _)) as E2. rewrite app_nil_r in E2.
    change (256 ^ Z.of_nat 8) with (2 ^ 64) in E1, E2. rewrite E1, E2, read_wide_wide by (done || lia). done.
  - intros name off Hoff. destruct (Nat.eqb_spec (length name) 0) as [E|E]; [|lia]. split; [lia|]. by apply nil_length_inv in E as ->.
  - apply Forall_fmap, (Forall_impl _ _ _ Hp). intros p (_ & _ & _ & Hs). cbn. rewrite length_wide. split; [done|lia].
Qed.

Section collection.
Context {W : Type} {K : Kernel W} (w : W).
(** A number's process: the last entry of the snapshot with it, when it can be
    opened. *)
Definition process_of (snapshot : list PROCESSENTRY32W) (id : Z) : option ProcessInfo :=
  meta ← last (filter (λ meta, th32ProcessID meta = id) snapshot); getProcessInfo meta <$> OpenProcess id w.
Lemma known_lookup snapshot id : known_processes snapshot w !! id = process_of snapshot id.
Proof.
  unfold known_processes, process_of. induction snapshot as [|meta l IH] using rev_ind; [apply lookup_empty|].
  rewrite foldl_app, filter_app. cbn [foldl]. destruct (decide (th32ProcessID meta = id)) as [<-|Hne].
  - rewrite filter_cons_True, filter_nil, last_snoc by done. cbn [mbind option_bind]. destruct (OpenProcess (th32ProcessID meta) w); [apply lookup_insert_eq|].
    rewrite IH. cbn. by destruct (last _).
  - rewrite filter_cons_False, filter_nil, app_nil_r by done. rewrite <- IH. destruct (OpenProcess (th32ProcessID meta) w); [by apply lookup_insert_ne|done].
Qed.
Lemma process_of_id snapshot id p : process_of snapshot id = Some p → ProcessId p = id.
Proof.
  unfold process_of. destruct (last _) as [meta|] eqn:E; [|done]. cbn. destruct (OpenProcess id w); [|done]. intros [= <-]. cbn.
  apply last_Some_elem_of in E. by apply list_elem_of_filter in E as [].
Qed.
Lemma values_elem m p : p ∈ process_values m ↔ ∃ id, m !! id = Some p.
Proof.
  unfold process_values. rewrite list_elem_of_fmap. setoid_rewrite merge_sort_Permutation. split.
  - intros ([id q] & -> & Hin%elem_of_map_to_list). by exists id.
  - intros [id Hp]. exists (id, p). split; [done|]. by apply elem_of_map_to_list.
Qed.
Lemma values_distinct snapshot : NoDup (ProcessId <$> process_values (known_processes snapshot w)).
Proof.
  unfold process_values. rewrite <- list_fmap_compose.
  rewrite (list_fmap_ext _ fst); [|intros i [id p] Hi; apply list_elem_of_lookup_2 in Hi].
  - rewrite merge_sort_Permutation. apply NoDup_fst_map_to_list.
  - rewrite merge_sort_Permutation, elem_of_map_to_list, known_lookup in Hi. cbn. by eapply process_of_id.
Qed.
End collection.

(** C38. The driver reads from the buffer it is sent every process of the snapshot
    that can be opened, once, with its parent and its image, those without an
    image included; of the others it is told nothing, and nothing is sent when
    there are none. *)
Theorem process_buffer_read {W : Type} {K : Kernel W} (w : W) (snapshot : list PROCESSENTRY32W) :
  CreateToolhelp32Snapshot w = Some snapshot → snapshot ≠ [] →
  Forall (λ meta, 0 ≤ th32ProcessID meta < 2 ^ 32 ∧ 0 ≤ th32ParentProcessID meta < 2 ^ 32) snapshot →
  (∀ id process, OpenProcess id w = Some process → Forall (λ c, 0 ≤ c < 65536) process.2 ∧ 2 * Z.of_nat (length process.2) < 2 ^ 16) →
  Z.of_nat (length (generateProcessBlob w)) < 2 ^ 64 →
  if bool_decide (generateProcessBlob w = []) then ∀ meta, meta ∈ snapshot → OpenProcess (th32ProcessID meta) w = None
  else ∃ processes, read_processes (generateProcessBlob w) = Some processes ∧ NoDup processes.*1.*1 ∧
    ∀ id parent image, (id, parent, image) ∈ processes ↔ ∃ meta process,
      last (filter (λ meta, th32ProcessID meta = id) snapshot) = Some meta ∧ parent = th32ParentProcessID meta ∧
      OpenProcess id w = Some process ∧ image = process.2.
Proof.
  intros Hs Hne Hids Hpaths Hlen. unfold generateProcessBlob in *. rewrite Hs in *.
  assert (match snapshot with [] => [uninitialized_process] | _ => snapshot end = snapshot) as Esnap by (by destruct snapshot).
  rewrite Esnap in Hlen |- *. clear Esnap.
  pose proof (values_elem (known_processes snapshot w)) as Hin. pose proof (values_distinct w snapshot) as Hnd.
  assert (Forall (λ p, 0 ≤ ProcessId p < 2 ^ 32 ∧ 0 ≤ ParentProcessId p < 2 ^ 32 ∧
    Forall (λ c, 0 ≤ c < 65536) (DevicePath p) ∧ 2 * Z.of_nat (length (DevicePath p)) < 2 ^ 16) (process_values (known_processes snapshot w))) as Hfit.
  { apply Forall_forall. intros p [id Hp]%Hin. rewrite known_lookup in Hp. unfold process_of in Hp.
    destruct (last _) as [meta|] eqn:E; [|done]. cbn in Hp. destruct (OpenProcess id w) as [process|] eqn:Ep; [|done]. injection Hp as <-. cbn.
    apply last_Some_elem_of, list_elem_of_filter in E as [_ E]. rewrite Forall_forall in Hids. destruct (Hids meta E). destruct (Hpaths id process Ep). done. }
  destruct (process_values (known_processes snapshot w)) as [|p0 ps] eqn:Ev.
  - rewrite bool_decide_true by done. intros meta Hm. destruct (OpenProcess (th32ProcessID meta) w) as [process|] eqn:E; [|done].
    assert (is_Some (process_of w snapshot (th32ProcessID meta))) as [p Hp].
    { unfold process_of. rewrite E. assert (meta ∈ filter (λ m, th32ProcessID m = th32ProcessID meta) snapshot) as Hf by (by apply list_elem_of_filter).
      destruct (last _) as [m|] eqn:El; [by eexists|]. apply last_None in El. rewrite El in Hf. by apply not_elem_of_nil in Hf. }
    rewrite <- known_lookup in Hp. destruct (not_elem_of_nil p). apply Hin. by eexists.
  - rewrite bool_decide_false by (unfold process_buffer, image_buffer; cbn; discriminate).
    eexists. split; [apply process_buffer_exact; [exact Hfit|exact Hlen]|]. split; [by rewrite <- !list_fmap_compose|].
    intros id parent image. rewrite list_elem_of_fmap. split.
    + intros (p & [= -> -> ->] & [i Hp]%Hin). rewrite known_lookup in Hp. pose proof (process_of_id _ _ _ _ Hp) as Ei. rewrite Ei. unfold process_of in Hp.
      destruct (last _) as [meta|]; [|done]. cbn in Hp. destruct (OpenProcess i w) as [process|]; [|done]. injection Hp as <-. cbn. by exists meta, process.
    + intros (meta & process & E1 & -> & E2 & ->). exists (getProcessInfo meta process).
      assert (process_of w snapshot id = Some (getProcessInfo meta process)) as Hp by (unfold process_of; by rewrite E1, E2).
      pose proof (process_of_id _ _ _ _ Hp) as Eid. cbn in Eid. split; [cbn; by rewrite Eid|]. apply Hin. exists id. by rewrite known_lookup.
Qed.

(** ** A machine *)
Module laptop.
(** The driver's state, and whether it knows the networks. *)
Record world := mkWorld { driver : Z; networks : bool }.
Definition step (code : Z) (w : world) : bool * world :=
  if code =? IOCTL_INITIALIZE then (driver w =? STATE_STARTED, mkWorld STATE_INITIALIZED false)
  else if code =? IOCTL_REGISTER_PROCESSES then (driver w =? STATE_INITIALIZED, mkWorld STATE_READY false)
  else if code =? IOCTL_REGISTER_IP_ADDRESSES then (STATE_READY <=? driver w, mkWorld (driver w) true)
  else if code =? IOCTL_SET_CONFIGURATION then (STATE_READY <=? driver w, mkWorld (if networks w then STATE_RUNNING else driver w) (networks w))
  else (true, mkWorld STATE_STARTED false).
Definition letters (s : string) : list Z := (λ c, Z.of_nat (Ascii.nat_of_ascii c)) <$> String.list_ascii_of_string s.
#[export] Instance machine : Kernel world := {|
  DeviceIoControl code _ w := step code w;
  driver_state w := (Some (driver w), w);
  CreateFile _ w := (true, w);
  file_exists _ _ := true;
  applicationDirPath := "C:/vpn";
  OpenSCManager_error w := (0, w);
  OpenService_error name w := (if String.eqb name MV_SERVICE_NAME then ERROR_SERVICE_DOES_NOT_EXIST else 0, w);
  CreateService _ _ w := (true, w);
  StartService _ w := (true, w);
  ControlService_stop _ w := (true, w);
  QueryServiceStatus _ w := (Some SERVICE_RUNNING, w);
  current_state _ w := (SERVICE_RUNNING, w);
  Sleep _ w := w;
  DeleteService _ w := (true, w);
  QueryDosDevice _ _ _ := DosDevice "\Device\HarddiskVolume3";
  utf16 := letters;
  toLocalFile _ := "";
  allInterfaces _ := [(9, "AbstractumVPN")];
  addressEntries index _ := if index =? 9 then [HostV4 168296450] else [HostV6 (replicate 16 1); HostV4 3232235777];
  GetBestRoute _ _ := Some 4;
  InetPton4 s := if String.eqb s "" then None else Some [10; 0; 0; 1];
  InetPton6 _ := Some (replicate 16 1);
  CreateToolhelp32Snapshot _ := Some [mkProcessEntry 8 4; mkProcessEntry 12 4; mkProcessEntry 4 0];
  uninitialized_process := mkProcessEntry 0 0;
  OpenProcess id _ := if id =? 8 then Some (Some 5, [92; 97]) else if id =? 4 then Some (None, []) else None;
|}.
(** Printing addresses, and nothing else of Qt. *)
Definition idle : WindowsDaemon world := mkWindowsDaemon 4 true [] (mkSystem (mkWorld STATE_STARTED false) []).
Definition with_apps (apps : list string) : InterfaceConfig :=
  let c := new_config SingleHop true in
  mkInterfaceConfig (m_hopType c) (m_privateKey c) (m_deviceIpv4Address c) (m_deviceIpv6Address c) (m_serverIpv4Gateway c)
    (m_serverIpv6Gateway c) (m_serverPublicKey c) (m_serverIpv4AddrIn c) (m_serverPskKey c) (m_serverIpv6AddrIn c)
    (m_primaryDnsServer c) (m_secondaryDnsServer c) (m_serverPort c) (m_deviceMTU c) (m_persistentKeepalive c)
    (m_allowedIPAddressRanges c) (m_excludedAddresses c) apps (m_allowedDnsServers c)
    (m_killSwitchEnabled c) (m_junkPacketCount c) (m_junkPacketMinSize c) (m_junkPacketMaxSize c)
    (m_initPacketJunkSize c) (m_responsePacketJunkSize c) (m_cookieReplyPacketJunkSize c)
    (m_transportPacketJunkSize c) (m_initPacketMagicHeader c) (m_responsePacketMagicHeader c)
    (m_underloadPacketMagicHeader c) (m_transportPacketMagicHeader c) (m_specialJunk c)
    (m_headerProtectionKey c) (m_contentPaddingAddition c) (m_rekeyAfterTime c) (m_rekeyTimeout c)
    (m_rejectAfterTime c) (m_keepaliveTimeout c) (m_maxHandshakeAttempts c).
Definition browser : InterfaceConfig := with_apps [" C:/apps/browser.exe"].
End laptop.
Import laptop.
#[local] Existing Instances plain_qt laptop.machine.

Example browser_path : dos_paths (m_vpnDisabledApps browser) (mkWorld 1 false) = ["\Device\HarddiskVolume3\apps\browser.exe"].
Proof. vm_compute. reflexivity. Qed.
Example laptop_created : (create true (mkSystem (mkWorld STATE_RUNNING true) [])).1 = true.
Proof. vm_compute. reflexivity. Qed.

(** A driver that does not say its state. *)
Definition nowhere : WindowsDaemon world := mkWindowsDaemon 4 true [] (mkSystem (mkWorld STATE_UNKNOWN false) []).
Lemma split_tunnel_started_witness :
  content 4 (m_vpnDisabledApps browser) (kernel (system idle)) ∧ backendFailures (run Up browser idle).2 = [] ∧
  ¬ content 4 (m_vpnDisabledApps browser) (kernel (system nowhere)).
Proof.
  pose proof (split_tunnel_started Up browser idle eq_refl) as Hx. pose proof (split_tunnel_started Up browser nowhere eq_refl) as Hy. unfold leads in Hx, Hy.
  assert (m_vpnDisabledApps browser ≠ []) as Ha by discriminate.
  assert ((run Up browser idle).1 = true) as Hok by (vm_compute; reflexivity). assert ((run Up browser nowhere).1 = false) as Hno by (vm_compute; reflexivity).
  destruct (Hx Ha ltac:(discriminate)) as (E & H1 & _). destruct (Hy Ha ltac:(discriminate)) as (F & _).
  split; [exact (proj1 E Hok)|]. split; [exact (proj1 (H1 Hok))|]. intros Hc. pose proof (proj2 F Hc) as Hc'. rewrite Hno in Hc'. discriminate.
Defined.
Lemma app_buffer_read_witness :
  (λ l : list (list Z * list Z), (λ e : list Z * list Z, read_wide e.2) <$> l) <$> read_images 0 (app_buffer [[92; 97]; [92; 1078; 98]])
  = Some [[92; 97]; [92; 1078; 98]].
Proof.
  apply (app_buffer_read [[92; 97]; [92; 1078; 98]]); [|vm_compute; reflexivity].
  repeat constructor; cbn; lia.
Defined.
(** Of two processes one has no image; a third cannot be opened. *)
Lemma process_buffer_read_witness :
  length (generateProcessBlob (mkWorld 1 false)) = 84%nat ∧
  ∃ processes, read_processes (generateProcessBlob (mkWorld 1 false)) = Some processes ∧ (8, 4, [92; 97]) ∈ processes ∧ (12, 4, [92; 98]) ∉ processes.
Proof.
  split; [vm_compute; reflexivity|].
  pose proof (process_buffer_read (mkWorld 1 false) [mkProcessEntry 8 4; mkProcessEntry 12 4; mkProcessEntry 4 0] eq_refl ltac:(discriminate)) as Hx.
  assert (Forall (λ meta, 0 ≤ th32ProcessID meta < 2 ^ 32 ∧ 0 ≤ th32ParentProcessID meta < 2 ^ 32)
    [mkProcessEntry 8 4; mkProcessEntry 12 4; mkProcessEntry 4 0]) as H1 by (repeat constructor; cbn; lia).
  assert (∀ id process, OpenProcess id (mkWorld 1 false) = Some process →
    Forall (λ c, 0 ≤ c < 65536) process.2 ∧ 2 * Z.of_nat (length process.2) < 2 ^ 16) as H2.
  { intros id process. cbn. destruct (id =? 8); [intros [= <-]; cbn; split; [repeat constructor; lia|lia]|].
    destruct (id =? 4); [intros [= <-]; cbn; split; [constructor|lia]|done]. }
  specialize (Hx H1 H2 ltac:(vm_compute; reflexivity)). rewrite bool_decide_false in Hx by (vm_compute; discriminate).
  destruct Hx as (processes & E & _ & Hin). exists processes. split; [exact E|]. split.
  - apply Hin. by exists (mkProcessEntry 8 4), (Some 5, [92; 97]).
  - intros (meta & process & _ & _ & Ho & _)%Hin. discriminate.
Defined.
